(* ===== verification/_CoqProject ===== *)
-Q . S2P
Prelude.v
PyStr.v
PyFloat.v
PyRegex.v
PyValue.v
Models.v
Enforcement.v
TaskAnalyzer.v
TenantAccess.v
TenantResolution.v
ProfileComposer.v
InvariantAssertions.v
Registry.v
RuntimeStore.v
Artifacts.v
Clock.v
FlightRecorder.v
Quotas.v
Queue.v
SkillHandlers.v
Validation.v
Host.v
Context.v
Failures.v
ToolGateway.v
Json.v
Documents.v
ShadowEvaluation.v
ReleaseGates.v
Telemetry.v
MemoryOperations.v
TransitionSignals.v
TransitionEvidence.v
TransitionPolicy.v
Metrics.v
ModuleFiles.v
RegistryValidation.v
Lockfile.v
Seed.v
PolicyDenials.v
PlannerMemory.v
SafetyCompiler.v
MemoryCandidates.v
MemorySafety.v
HttpClients.v
KnowledgeProposals.v
ToolAdapters.v
Retention.v
EntryPoint.v
Loop.v
LoopCorrect.v
Worker.v
Api.v
