(* ===== verification/Prelude.v ===== *)
(** * Skill-Centric Agent System: a verification library

    A Rocq model of the agent runtime under
    [src/src/skill_centric_agent_system/] and of the control-plane code that
    prepares it, with the theorems that make it correct. File names below such
    as runtime/loop.py are relative to that directory, those that begin with
    scripts/ to [src/]. A definition keeps the
    name of the function, method or class it translates; the name of a helper
    that has no counterpart says what expression of the source it stands for.

    ** How the program works

    A task arrives through the API or directly (runtime/api.py), is queued under
    an idempotency key and claimed by a worker (runtime/queue.py). The entry point
    (runtime/entrypoint.py) analyses it (composition/task_analyzer.py), obtains a
    composition context from the Control Plane, has a profile composed
    (composition/profile_composer.py, composition/tenant_access.py), seals the
    profile and records the run. The loop (runtime/loop.py) checks the seal, lets
    the enforcer (runtime/enforcement.py) validate the profile, and goes through
    context, planner, executor and validator; each tool call passes the gateway
    (runtime/tool_gateway.py), which asks the enforcer. A run may end with a
    request for a recomposed profile, and the loop starts the next attempt. All
    steps leave rows in the store, events in the flight recorder and artifacts.
    Around this, the program keeps what runs teach: memory candidates, planner
    memory, learned priors, policy denials, knowledge proposals; and it deletes
    what has expired. Before any of this runs, the module registry is validated
    and pinned (scripts/registry/), and a release is held to evidence: shadow
    runs, telemetry, memory safety, and the evidence for transitions of intent
    (operations/, scripts/release/, scripts/operations/, scripts/runtime/).

    ** The files, in dependency order

    Language and data:
    - [Prelude]: results and effects with their monads, the Hoare-style
      [preserves] and [raises] predicates with their hint databases, ordered
      dictionaries ([odict]), lemmas on lists, options and orders;
    - [PyStr], [PyFloat], [PyRegex], [PyValue]: the methods of [str], binary64
      floats ([SpecFloat], bit by bit), the fragment of [re] the program uses,
      and the dynamic values of JSON with the built-ins applied to them;
    - [Json]: the canonical text of [json.dumps(..., sort_keys=True)];
    - [Documents]: JSON data with fractions, which reports and policies hold;
    - [Clock]: instants, ISO timestamps and the order of their texts.

    Authority (what a run may do):
    - [Models] (runtime/models.py), [Enforcement] (runtime/enforcement.py): the
      counters, budgets and scope checks, and the validation of a profile;
    - [TaskAnalyzer], [TenantAccess], [ProfileComposer] (composition/);
    - [Registry] (registries/modules.py): discovery, scoring, graph validation;
      [ModuleFiles]: its loading from files, over the class [Files];
    - [RegistryValidation] (scripts/registry/validate_registry.py), [Lockfile]
      (scripts/registry/generate_lockfile.py);
    - [InvariantAssertions] (runtime/invariant_assertions.py,
      runtime/invariant_replay.py): the sealing invariants and their replay;
    - [TenantResolution], [Seed] (control_plane/): host names to tenants, and
      the SQL that fills the Control Plane's tables from the registry's files.

    State (what a run leaves):
    - [RuntimeStore] (runtime/storage_memory.py): the tables and logs;
    - [Artifacts] (runtime/artifacts.py): redaction, chunking, JSON files;
    - [FlightRecorder] (runtime/flight_recorder.py);
    - [Quotas] (runtime/tenant_status.py, runtime/quotas.py), [Queue]
      (RuntimeQueueManager of runtime/queue.py);
    - [Retention] (runtime/retention.py).

    Execution (how a run goes):
    - [Host]: the class [Services] of what a run calls outside the repository's
      runtime, and the state [X] those services keep;
    - [SkillHandlers] (runtime/skill_handlers.py, planning.py, tool_policies.py,
      policies.py), [Validation] (runtime/response.py, validation.py), [Context]
      (runtime/context.py, data_sources.py), [Failures]
      (runtime/error_taxonomy.py, capability_gaps.py), [ToolGateway]
      (runtime/tool_gateway.py), [ToolAdapters] (runtime/tool_adapters.py, over
      the class [Machine]);
    - [EntryPoint] (runtime/entrypoint.py), [Loop] (runtime/loop.py),
      [LoopCorrect] (the theorems about the loop), [Worker] (RuntimeQueueWorker
      of runtime/queue.py), [Api] (runtime/api.py);
    - [HttpClients] (composition/control_plane.py and the client of
      runtime/memory_feedback.py).

    Learning (what runs may teach):
    - [PolicyDenials], [SafetyCompiler] (with runtime/memory_invariants.py),
      [MemoryCandidates] (with the pipeline of runtime/memory_feedback.py),
      [KnowledgeProposals], [PlannerMemory].

    Release and operations (what must hold before and while it runs):
    - [ShadowEvaluation] (operations/shadow_evaluation.py), [ReleaseGates]
      (scripts/operations/evaluate_shadow_regression_thresholds.py,
      scripts/release/evaluate_pre_canary_gate.py and
      evaluate_automatic_rollback_rules.py);
    - [Telemetry] (operations/telemetry.py), [MemoryOperations]
      (operations/memory_operations.py), [Metrics] (runtime/metrics.py),
      [MemorySafety] (operations/memory_safety_evaluation.py);
    - [TransitionSignals] (scripts/runtime/scan_transition_signals.py),
      [TransitionEvidence] (scripts/runtime/validate_transition_evidence.py and
      evaluate_intent_transition_traces.py), [TransitionPolicy]
      (scripts/runtime/validate_capability_delta_transition_policy.py and
      evaluate_intent_transition_shadow_metrics.py).

    ** How state and operations correspond

    Fallible code is a [result]: [Ok] or a raised exception, a constructor of
    [exn] with its message. Code that also changes state is an effect
    [eff S E A], a function of the state before that gives the result and the
    state after; a raised exception keeps the changes made before it, as object
    state does. [S] is the enforcer's counters in [Enforcement], the store in
    [RuntimeStore], the world (store, files, clock) in [FlightRecorder] and the
    files above it, the host (world and the services' state) in [EntryPoint],
    [Worker] and [Api], and the host with one run's enforcer and invocation
    counter inside a run ([run_state] in [Host]). A method of the in-memory store holds its lock and is one step, so a
    concurrent execution is a sequence of such steps; the theorems about any
    sequence of operations are about any interleaving. Records are ordered
    dictionaries as in the source. Relations such as [budget_step], [trace_step],
    [same_queue], [run_step] and [isolates] say what a step may do; they are
    preorders, every operation is shown to stay within them, and composite
    operations follow by the monads' rules. [Services], [Machine] and
    [Files] are the interfaces of the code the program calls outside: the theorems
    about the gateway, the loop, the worker and the registry hold for all their
    instances, and the witnesses give one. The release scripts are functions of
    parsed documents that return a report or raise.

    ** What the theorems show

    - The loop ([LoopCorrect]): a success is only reported for a sealed, accepted
      profile, a plan made under it, an execution of that plan through the
      gateway and validators that all ran and did not fail; a profile that is
      not sealed is not run; tool calls stay within the profile's budget over
      all attempts; the recomposition loop ends; the outcome is recorded; trace
      and queue tables stay in order.
    - Authority: the counters never pass their limits under any operations; a
      validated profile is confined to its own tenant; a composed profile is
      accepted by the enforcer (a refinement of the composer's check to the
      run-time's) and satisfies the sealing assertions; the module graph is
      validated exactly; the gateway mediates every tool call.
    - Queue and worker: a claim takes the first eligible item within the limits
      and records its attempt and its claim; attempts stay within their maximum
      while failures are reported with the stored counters and no lease is
      recovered; a failed attempt is retried or dead-lettered by its count alone;
      the worker closes what it opened; quotas are kept as long as no refunded
      reservation is finalized and no limit is negative.
    - Files and texts: artifact writes and adapters are confined; a sealed
      profile reads back with its digest; the seed's SQL reads back as its rows;
      references between seeded tables resolve, those of grants within their
      tenant if ids are not shared; retention deletes only what no retained run
      uses.
    - Tenants: the API isolates them, a host name belongs to one of them.
    - Registry: a registry that passes validation loads, its references resolve
      and its modules are admitted; a current lockfile pins every module's files,
      up to the line ends of its texts.
    - Release: gates decide exactly as their thresholds say; metrics agree with
      the store; memory safety passes exactly when every gate does; accepted
      transition evidence quotes every signal found in the raw texts and guards
      escalation, and accepted transition policies fail closed.
    - Learning: a stored memory candidate is submitted only after its reviews; a
      learned prior is promoted, and feedback ranked, only with no text in its
      authority delta or, for a prior, a reviewed artifact; the ledger denies
      exactly what is actively denied. The conditions each theorem names are
      those the code leaves to its callers; the examples beside it show what
      happens without them.

    Where the code does not do what it means to, an [Example] or lemma evaluates
    the model on the input that shows it (such as
    [Queue.recovery_exceeds_budget] or [Api.foreign_key_replaces_task]).

    ** Bounds and fuel

    - [Registry._collect_reachable] and [Registry.visit] take the number of known
      modules plus one; every call marks a module as seen, and
      [validate_graph_correct] shows that the fuel never runs out.
    - [Loop.recomposition_loop] takes fuel; a profile's generation is bounded by
      its recomposition budget, and [recomposition_terminates] shows that two
      attempts are enough.
    - [Artifacts.chunks_from] takes the length of the text: every chunk holds a
      byte at least. [Seed.read_script] and [Seed.read_literals] take the length
      of the text they read.
    - [Worker.run_forever] takes the number of iterations; without a bound the
      source's loop does not end.
    - Integers are Python's, unbounded, so [Z]; floats are binary64 with rounding
      to nearest even, and an integer too large for one raises OverflowError.

    ** What is left to parameters

    [sha256] (hashlib, of ASCII text), [json_loads] where a text is parsed,
    the JSON Schema validator, [parse_utc] and [fromisoformat], [urlopen], the readings of the clocks, the float power and the seeded
    random jitter of the retry delay, the services of [Host] (tool adapters,
    Control Plane client, cancellation checker, judge), the operations of
    [Machine], the ingest client of memory, the errors of unlink, the reading of
    fixture and registry files, and the order in which a set is iterated where
    the source leaves it open. No theorem assumes more of them than it states.

    ** What is not modelled

    - Text is ASCII; the dynamic values of [PyValue] hold no fractions, which
      only documents, scores and weights of feedback have.
    - The Postgres store (runtime/storage_postgres.py) sends SQL to a database;
      its operations are those of the in-memory store, which is modelled.
    - The command line (runtime/cli.py) and the [main] of the scripts, which read
      arguments and print results.
    - The other scripts of src/scripts/: those of one tenant's web and mail
      service (hetzner/), which run SQL through psql; those that deploy, migrate
      and probe live services; and checks of repository settings. *)

From stdpp Require Export base list gmap sets strings pretty.
From Stdlib Require Export ZArith Lia Ascii Sorted.

Declare Scope py_scope.
Delimit Scope py_scope with py.

(** ** Results: a value, or a raised exception *)

Inductive result (E A : Type) : Type :=
| Ok (a : A)
| Raise (e : E).
Arguments Ok {E A} a.
Arguments Raise {E A} e.

#[export] Instance result_ret {E} : MRet (result E) := fun A a => Ok a.
#[export] Instance result_bind {E} : MBind (result E) :=
  fun A B k m => match m with Ok a => k a | Raise e => Raise e end.

(** [if b: raise e] *)
Definition raise_if {E} (b : bool) (e : E) : result E unit :=
  if b then Raise e else Ok tt.

Definition is_ok {E A} (m : result E A) : bool :=
  match m with Ok _ => true | Raise _ => false end.

(** ** Effects: the state survives a raised exception, as object state does *)

Definition eff (S E A : Type) : Type := S -> result E A * S.

#[export] Instance eff_ret {S E} : MRet (eff S E) := fun A a s => (Ok a, s).
#[export] Instance eff_bind {S E} : MBind (eff S E) :=
  fun A B k m s =>
    match m s with
    | (Ok a, s') => k a s'
    | (Raise e, s') => (Raise e, s')
    end.

Definition lift {S E A} (m : result E A) : eff S E A := fun s => (m, s).
Definition gets {S E A} (f : S -> A) : eff S E A := fun s => (Ok (f s), s).
Definition modify {S E} (f : S -> S) : eff S E unit := fun s => (Ok tt, f s).
Definition throw {S E A} (e : E) : eff S E A := fun s => (Raise e, s).

(** [try: m except e: h e] *)
Definition catch {S E A} (m : eff S E A) (h : E -> eff S E A) : eff S E A :=
  fun s => match m s with
           | (Ok a, s') => (Ok a, s')
           | (Raise e, s') => h e s'
           end.

(** The outcome of an operation as a value, for a caller that handles both. *)
Definition try_ {S E A} (m : eff S E A) : eff S E (result E A) :=
  fun s => let '(r, s') := m s in (Ok r, s').

(** Run an operation on a component of the state. *)
Definition zoom {S T E A} (get : S -> T) (put : T -> S -> S) (m : eff T E A) : eff S E A :=
  fun s => let '(r, t) := m (get s) in (r, put t s).

Section result_lemmas.
Context {E A B : Type}.

Lemma bind_Ok (m : result E A) (k : A -> result E B) b :
  (m ≫= k) = Ok b <-> exists a, m = Ok a /\ k a = Ok b.
Proof.
  destruct m; split; cbn; intros H.
  - eauto.
  - naive_solver.
  - discriminate.
  - naive_solver.
Qed.

Lemma bind_Raise (m : result E A) (k : A -> result E B) e :
  (m ≫= k) = Raise e <-> m = Raise e \/ exists a, m = Ok a /\ k a = Raise e.
Proof. destruct m; cbn; naive_solver. Qed.

Lemma raise_if_Ok b (e : E) u : raise_if b e = Ok u <-> b = false.
Proof. destruct b, u; cbn; naive_solver. Qed.

Lemma raise_if_Raise b (e e' : E) : raise_if b e = Raise e' <-> b = true /\ e = e'.
Proof. destruct b; cbn; naive_solver. Qed.
End result_lemmas.

Lemma mapM_Ok {E A B} (f : A -> result E B) l r :
  mapM f l = Ok r <-> Forall2 (fun a b => f a = Ok b) l r.
Proof.
  revert r. induction l as [|a l IH]; intros r; cbn.
  - split; [intros [= <-]; constructor | inversion 1; reflexivity].
  - rewrite bind_Ok. split.
    + intros (b & Hb & Hr). apply bind_Ok in Hr as (bs & Hbs & [= <-]).
      constructor; [done | by apply IH].
    + inversion 1 as [|? b ? bs Hb Hbs]; subst. exists b. split; [done|].
      apply bind_Ok. exists bs. split; [by apply IH | done].
Qed.

(** Loops whose body may raise. *)
Fixpoint foldM {E A B} (f : B -> A -> result E B) (acc : B) (l : list A) : result E B :=
  match l with
  | [] => Ok acc
  | x :: l' => acc' ← f acc x; foldM f acc' l'
  end.

Fixpoint filterM {E A} (f : A -> result E bool) (l : list A) : result E (list A) :=
  match l with
  | [] => Ok []
  | x :: l' => b ← f x; r ← filterM f l'; mret (if b : bool then x :: r else r)
  end.

Lemma foldM_app {E A B} (f : B -> A -> result E B) acc l1 l2 :
  foldM f acc (l1 ++ l2) = acc' ← foldM f acc l1; foldM f acc' l2.
Proof.
  revert acc. induction l1 as [|x l1 IH]; intros acc; cbn; [done|].
  destruct (f acc x); cbn; [apply IH | done].
Qed.

Lemma foldM_ext {E A B} (f g : B -> A -> result E B) acc l :
  (forall x b, In x l -> f b x = g b x) -> foldM f acc l = foldM g acc l.
Proof.
  revert acc. induction l as [|x l IH]; intros acc H; cbn; [done|].
  rewrite H by by left. destruct (g acc x); cbn; [|done]. apply IH. intros. apply H. by right.
Qed.

(** A loop invariant for a successful [foldM]. *)
Lemma foldM_ind {E A B} (f : B -> A -> result E B) (P : B -> list A -> Prop) acc l r :
  P acc [] ->
  (forall done_ x b b', P b done_ -> In x l -> f b x = Ok b' -> P b' (done_ ++ [x])) ->
  foldM f acc l = Ok r -> P r l.
Proof.
  intros H0 Hstep H.
  assert (Hgen : forall done_ acc, P acc done_ -> (forall d x b b', P b d -> In x l -> f b x = Ok b' -> P b' (d ++ [x])) ->
            foldM f acc l = Ok r -> P r (done_ ++ l)).
  { clear. induction l as [|x l IH]; intros done_ acc HP Hs H; cbn in H.
    - injection H as ->. by rewrite app_nil_r.
    - apply bind_Ok in H as (acc' & Hf & H).
      replace (done_ ++ x :: l) with ((done_ ++ [x]) ++ l) by (by rewrite <- app_assoc).
      eapply IH; [| |exact H].
      + eapply Hs; [exact HP | by left | done].
      + intros d y b b' Hb Hy. apply Hs; [done | by right]. }
  by apply (Hgen [] acc).
Qed.

Lemma filterM_Ok {E A} (f : A -> result E bool) l r :
  filterM f l = Ok r ->
  (forall x, In x l -> exists b, f x = Ok b) /\ (forall x, In x r <-> In x l /\ f x = Ok true).
Proof.
  revert r. induction l as [|x l IH]; cbn; intros r H; [injection H as <-; naive_solver|].
  apply bind_Ok in H as (b & Hb & H). apply bind_Ok in H as (r' & Hr & [= <-]).
  apply IH in Hr as [H1 H2]. split.
  - intros y [<-|Hy]; eauto.
  - intros y. destruct b; cbn; rewrite H2; naive_solver congruence.
Qed.

Lemma app_nil_iff {A} (l k : list A) : l ++ k = [] <-> l = [] /\ k = [].
Proof. split; [apply app_eq_nil | by intros [-> ->]]. Qed.

Lemma concat_map_nil {A B} (f : A -> list B) l :
  concat (map f l) = [] <-> forall x, In x l -> f x = [].
Proof.
  induction l as [|y l IH]; cbn; [naive_solver|].
  rewrite app_nil_iff, IH. split; [intros [H1 H2] x [<-|Hx]; auto | auto].
Qed.

Lemma In_mjoin_map {A B} (f : A -> list B) l x : In x (mjoin (map f l)) <-> exists y, In y l /\ In x (f y).
Proof.
  induction l as [|y l IH]; [cbn; naive_solver|].
  change (mjoin (map f (y :: l))) with (f y ++ mjoin (map f l)). rewrite in_app_iff, IH. cbn. naive_solver.
Qed.

Lemma mapM_all_Ok {E A B} (f : A -> result E B) (g : A -> B) l : (forall x, In x l -> f x = Ok (g x)) -> mapM f l = Ok (map g l).
Proof.
  induction l as [|x l IH]; intros H; [done|]. cbn. rewrite H by by left. cbn. rewrite IH; [done|]. intros y Hy. apply H. by right.
Qed.

Lemma filter_nil_iff {A} (f : A -> bool) l : List.filter f l = [] <-> forall x, In x l -> f x = false.
Proof.
  induction l as [|x l IH]; [done|]. cbn. destruct (f x) eqn:E.
  - split; [done|]. intros H. by rewrite H in E by by left.
  - rewrite IH. naive_solver.
Qed.

Lemma mjoin_nil {A} (l : list (list A)) : mjoin l = [] <-> Forall (fun x => x = []) l.
Proof.
  induction l as [|x l IH]; [done|]. change (mjoin (x :: l)) with (x ++ mjoin l).
  rewrite Forall_cons, <- IH. split; [by intros [-> ?]%app_eq_nil|]. by intros [-> ->].
Qed.

Lemma flat_map_nil {A B} (f : A -> list B) l : flat_map f l = [] <-> forall x, In x l -> f x = [].
Proof. rewrite flat_map_concat_map. apply concat_map_nil. Qed.

Lemma forallb_In {A} (f : A -> bool) l x : forallb f l = true -> In x l -> f x = true.
Proof. rewrite forallb_forall. auto. Qed.

Lemma mapM_exists {E A B} (f : A -> result E B) l : (forall x, In x l -> exists y, f x = Ok y) -> exists ys, mapM f l = Ok ys.
Proof.
  induction l as [|x l IH]; intros H; [by exists []|]. destruct (H x) as [y Hy]; [by left|].
  destruct IH as [ys Hys]; [intros; apply H; by right|]. exists (y :: ys). cbn. by rewrite Hy, Hys.
Qed.

Lemma mapM_app {E A B} (f : A -> result E B) l k : mapM f (l ++ k) = a ← mapM f l; b ← mapM f k; mret (a ++ b).
Proof.
  induction l as [|x l IH]; cbn; [by destruct (mapM f k)|]. destruct (f x) as [y|]; cbn; [|done]. rewrite IH.
  destruct (mapM f l); cbn; [|done]. by destruct (mapM f k).
Qed.

Lemma existsb_false_iff {A} (f : A -> bool) l :
  existsb f l = false <-> forall x, In x l -> f x = false.
Proof.
  induction l as [|y l IH]; cbn; [naive_solver|].
  rewrite orb_false_iff, IH. split; [intros [H1 H2] x [<-|Hx]; auto | auto].
Qed.

Lemma Forall2_In_l {A B} (R : A -> B -> Prop) l k x :
  Forall2 R l k -> In x l -> exists y, In y k /\ R x y.
Proof. induction 1; cbn; naive_solver. Qed.
Lemma Forall2_In_r {A B} (R : A -> B -> Prop) l k y :
  Forall2 R l k -> In y k -> exists x, In x l /\ R x y.
Proof. induction 1; cbn; naive_solver. Qed.

(** A list without duplicate keys holds one element per key. *)
Lemma NoDup_map_inj {A B} (f : A -> B) l x y :
  NoDup (map f l) -> In x l -> In y l -> f x = f y -> x = y.
Proof.
  induction l as [|z l IH]; cbn; [done|]. intros [Hz Hl]%NoDup_cons.
  rewrite list_elem_of_In in Hz. intros [->|Hx] [->|Hy] E; [done| | |auto].
  - destruct Hz. rewrite E. by apply in_map.
  - destruct Hz. rewrite <- E. by apply in_map.
Qed.

Section eff_lemmas.
Context {S E A B : Type}.

Lemma eff_bind_Ok (m : eff S E A) (k : A -> eff S E B) s s' b :
  (m ≫= k) s = (Ok b, s') <->
  exists a s1, m s = (Ok a, s1) /\ k a s1 = (Ok b, s').
Proof.
  unfold mbind, eff_bind. destruct (m s) as [[a|e] s1]; split; intros H; eauto.
  - destruct H as (? & ? & [= <- <-] & H). done.
  - discriminate.
  - destruct H as (? & ? & H & _). discriminate.
Qed.

Lemma eff_bind_Raise (m : eff S E A) (k : A -> eff S E B) s s' e :
  (m ≫= k) s = (Raise e, s') <->
  m s = (Raise e, s') \/ exists a s1, m s = (Ok a, s1) /\ k a s1 = (Raise e, s').
Proof.
  unfold mbind, eff_bind. destruct (m s) as [[a|e1] s1]; split; intros H.
  - right; eauto.
  - destruct H as [H|(? & ? & [= <- <-] & H)]; [discriminate | done].
  - injection H as -> ->. by left.
  - destruct H as [H|(? & ? & H & _)]; [by injection H as -> -> | discriminate].
Qed.

Lemma eff_step (m : eff S E A) (k : A -> eff S E B) s x s1 :
  m s = (Ok x, s1) -> (m ≫= k) s = k x s1.
Proof. intros H. unfold mbind, eff_bind. by rewrite H. Qed.
Lemma eff_stop (m : eff S E A) (k : A -> eff S E B) s e s1 :
  m s = (Raise e, s1) -> (m ≫= k) s = (Raise e, s1).
Proof. intros H. unfold mbind, eff_bind. by rewrite H. Qed.
Lemma eff_gets (f : S -> A) (k : A -> eff S E B) s : (gets f ≫= k) s = k (f s) s.
Proof. done. Qed.
Lemma eff_lift_Ok (a : A) (k : A -> eff S E B) s : (lift (Ok a) ≫= k) s = k a s.
Proof. done. Qed.
Lemma eff_modify (f : S -> S) (k : unit -> eff S E B) s : (modify f ≫= k) s = k tt (f s).
Proof. done. Qed.
End eff_lemmas.

(** An operation preserves a relation when the state it ends in, normally or by
    raising, is related to the one it started in. For a preorder this is closed
    under the combinators, so a proof only looks at the primitive updates. *)
Definition preserves {S E A : Type} (R : S -> S -> Prop) (m : eff S E A) : Prop :=
  forall s, R s (m s).2.

Section preserves.
Context {S E : Type} (R : S -> S -> Prop) `{!PreOrder R}.

Lemma preserves_ret {A} (x : A) : preserves R (mret x : eff S E A).
Proof. intros s. cbn. reflexivity. Qed.
Lemma preserves_lift {A} (m : result E A) : preserves R (lift m).
Proof. intros s. cbn. reflexivity. Qed.
Lemma preserves_gets {A} (f : S -> A) : preserves R (gets f : eff S E A).
Proof. intros s. cbn. reflexivity. Qed.
Lemma preserves_throw {A} (e : E) : preserves R (throw e : eff S E A).
Proof. intros s. cbn. reflexivity. Qed.
Lemma preserves_modify (f : S -> S) : (forall s, R s (f s)) -> preserves R (modify f : eff S E unit).
Proof. intros H s. apply H. Qed.
Lemma preserves_try {A} (m : eff S E A) : preserves R m -> preserves R (try_ m).
Proof. intros H s. unfold try_. specialize (H s). by destruct (m s). Qed.
Lemma preserves_catch {A} (m : eff S E A) (h : E -> eff S E A) :
  preserves R m -> (forall e, preserves R (h e)) -> preserves R (catch m h).
Proof.
  intros Hm Hh s. unfold catch. specialize (Hm s). destruct (m s) as [[x|e] s1]; cbn in *; [done|].
  etrans; [exact Hm|]. apply Hh.
Qed.
Lemma preserves_bind {A B} (m : eff S E A) (k : A -> eff S E B) :
  preserves R m -> (forall x, preserves R (k x)) -> preserves R (m ≫= k).
Proof.
  intros Hm Hk s. unfold mbind, eff_bind. specialize (Hm s).
  destruct (m s) as [[x|e] s1]; cbn in *; [|done]. etrans; [exact Hm|]. apply Hk.
Qed.
End preserves.

Lemma preserves_zoom {S T E A : Type} (R : S -> S -> Prop) (Q : T -> T -> Prop)
    (get : S -> T) (put : T -> S -> S) (m : eff T E A) :
  (forall s t, Q (get s) t -> R s (put t s)) -> preserves Q m -> preserves R (zoom get put m).
Proof.
  intros H Hm s. unfold zoom. specialize (Hm (get s)).
  destruct (m (get s)) as [r t]. cbn in *. by apply H.
Qed.

Lemma preserves_elim {S E A : Type} (R : S -> S -> Prop) (m : eff S E A) s r s' :
  preserves R m -> m s = (r, s') -> R s s'.
Proof. intros H E'. specialize (H s). by rewrite E' in H. Qed.

Create HintDb preserves.
#[export] Hint Resolve preserves_ret preserves_lift preserves_gets preserves_throw : preserves.

(** Prove [preserves] through the combinators, leaving the primitive updates. *)
Ltac preserves_tac :=
  repeat (intros; cbv zeta;
    match goal with
    | |- preserves _ (_ ≫= _) => apply (preserves_bind _); [|intros ?]
    | |- preserves _ (try_ _) => apply (preserves_try _)
    | |- preserves _ (catch _ _) => apply (preserves_catch _); [|intros ?]
    | |- preserves _ (match ?x with _ => _ end) => destruct x
    | |- preserves _ _ => solve [auto with preserves typeclass_instances]
    end).

(** The exceptions of a computation satisfy [P], whatever its state. *)
Definition fails_with {E A : Type} (P : E -> Prop) (m : result E A) : Prop :=
  match m with Ok _ => True | Raise e => P e end.
Definition raises_only {S E A : Type} (P : E -> Prop) (m : eff S E A) : Prop :=
  forall s, fails_with P (m s).1.

Section raises.
Context {S E : Type} (P : E -> Prop).

Lemma fails_bind {A B} (m : result E A) (k : A -> result E B) :
  fails_with P m -> (forall x, fails_with P (k x)) -> fails_with P (m ≫= k).
Proof. destruct m; cbn; auto. Qed.
Lemma fails_raise_if b (e : E) : P e -> fails_with P (raise_if b e).
Proof. by destruct b. Qed.
Lemma fails_mapM {A B} (f : A -> result E B) l : (forall x, fails_with P (f x)) -> fails_with P (mapM f l).
Proof.
  intros Hf. induction l as [|x l IH]; cbn [mapM]; [done|]. apply fails_bind; [apply Hf|intros y].
  apply fails_bind; [exact IH|done].
Qed.
Lemma fails_filterM {A} (f : A -> result E bool) l : (forall x, fails_with P (f x)) -> fails_with P (filterM f l).
Proof.
  intros Hf. induction l as [|x l IH]; cbn [filterM]; [done|]. apply fails_bind; [apply Hf|intros y].
  apply fails_bind; [exact IH|done].
Qed.
Lemma raises_ret {A} (x : A) : raises_only P (mret x : eff S E A).
Proof. done. Qed.
Lemma raises_gets {A} (f : S -> A) : raises_only P (gets f : eff S E A).
Proof. done. Qed.
Lemma raises_modify (f : S -> S) : raises_only P (modify f : eff S E unit).
Proof. done. Qed.
Lemma raises_throw {A} (e : E) : P e -> raises_only P (throw e : eff S E A).
Proof. by intros ? ?. Qed.
Lemma raises_lift {A} (m : result E A) : fails_with P m -> raises_only P (lift m : eff S E A).
Proof. by intros ? ?. Qed.
Lemma raises_bind {A B} (m : eff S E A) (k : A -> eff S E B) :
  raises_only P m -> (forall x, raises_only P (k x)) -> raises_only P (m ≫= k).
Proof.
  intros Hm Hk s. unfold mbind, eff_bind. specialize (Hm s). destruct (m s) as [[x|e] s1]; [apply Hk|done].
Qed.
Lemma raises_zoom {T A} (get : S -> T) (put : T -> S -> S) (m : eff T E A) :
  raises_only P m -> raises_only P (zoom get put m).
Proof. intros Hm s. unfold zoom. specialize (Hm (get s)). by destruct (m (get s)). Qed.
Lemma raises_elim {A} (m : eff S E A) s e s' : raises_only P m -> m s = (Raise e, s') -> P e.
Proof. intros H Hm. specialize (H s). by rewrite Hm in H. Qed.
End raises.

Create HintDb raises.
#[export] Hint Resolve raises_ret raises_gets raises_modify fails_raise_if : raises.

(** Prove [raises_only] and [fails_with] through the combinators. *)
Ltac raises_tac :=
  repeat (intros; cbv zeta;
    match goal with
    | |- raises_only _ (_ ≫= _) => apply raises_bind; [|intros ?]
    | |- raises_only _ (lift _) => apply raises_lift
    | |- raises_only _ (throw _) => apply raises_throw
    | |- raises_only _ (zoom _ _ _) => apply raises_zoom
    | |- fails_with _ (_ ≫= _) => apply fails_bind; [|intros ?]
    | |- fails_with _ (mapM _ _) => apply fails_mapM
    | |- fails_with _ (filterM _ _) => apply fails_filterM
    | |- fails_with _ (Ok _) => exact I
    | |- fails_with _ (mret _) => exact I
    | |- raises_only _ (match ?x with _ => _ end) => destruct x
    | |- fails_with _ (match ?x with _ => _ end) => destruct x
    | |- _ => solve [auto with raises]
    end).

(** Invert every successful bind and guard in the context. *)
Ltac inv_ok :=
  repeat match goal with
  | H : (_ ≫= _) = Ok _ |- _ =>
      apply bind_Ok in H as (? & ? & H)
  | H : raise_if _ _ = Ok _ |- _ => apply raise_if_Ok in H
  | H : mret _ = Ok _ |- _ => injection H as H
  | H : Ok _ = Ok _ |- _ => injection H as H
  | H : Raise _ = Ok _ |- _ => discriminate H
  | H : Ok _ = Raise _ |- _ => discriminate H
  | H : unit |- _ => destruct H
  end.

Ltac inv_eff :=
  repeat match goal with
  | H : (_ ≫= _) _ = (Ok _, _) |- _ => apply eff_bind_Ok in H as (? & ? & ? & H)
  | H : lift _ _ = (_, _) |- _ => unfold lift in H
  | H : gets _ _ = (_, _) |- _ => unfold gets in H
  | H : modify _ _ = (_, _) |- _ => unfold modify in H
  | H : throw _ _ = (_, _) |- _ => unfold throw in H
  | H : mret _ _ = (_, _) |- _ => unfold mret, eff_ret in H
  | H : (Ok _, _) = (Ok _, _) |- _ => injection H as H
  | H : (Raise _, _) = (Raise _, _) |- _ => injection H as H
  | H : (Ok _, _) = (Raise _, _) |- _ => discriminate H
  | H : (Raise _, _) = (Ok _, _) |- _ => discriminate H
  | H : unit |- _ => destruct H
  end.

(** Split every [if] and [match] on a boolean in the goal. *)
Ltac split_ifs :=
  repeat match goal with
  | |- context [if ?b then _ else _] => destruct b eqn:?
  end.

(** ** Ordered dictionaries: insertion order, at most one entry per key *)

Abbreviation odict V := (list (string * V)).

Section odict.
Context {V : Type}.
Implicit Types (d : odict V) (k : string) (v : V).

Fixpoint od_get k d : option V :=
  match d with
  | [] => None
  | (k', v) :: d' => if String.eqb k k' then Some v else od_get k d'
  end.

(** [d[k] = v]: in place when the key is present, else appended. *)
Fixpoint od_set k v d : odict V :=
  match d with
  | [] => [(k, v)]
  | (k', v') :: d' => if String.eqb k k' then (k', v) :: d' else (k', v') :: od_set k v d'
  end.

Definition od_mem k d : bool := match od_get k d with Some _ => true | None => false end.
Definition od_keys d : list string := map fst d.
Definition od_values d : list V := map snd d.
Definition od_update d (fields : odict V) : odict V :=
  foldl (fun acc kv => od_set kv.1 kv.2 acc) d fields.
(** A dict comprehension or display: a later entry replaces an earlier one. *)
Definition od_of_list (kvs : list (string * V)) : odict V := od_update [] kvs.

Lemma od_get_set_eq k v d : od_get k (od_set k v d) = Some v.
Proof.
  induction d as [|[k' v'] d IH]; cbn; [by rewrite String.eqb_refl|].
  destruct (String.eqb k k') eqn:E; cbn; by rewrite E.
Qed.

Lemma od_get_set_ne k k' v d : k <> k' -> od_get k (od_set k' v d) = od_get k d.
Proof.
  intros Hne. induction d as [|[k2 v2] d IH]; cbn.
  - by rewrite (proj2 (String.eqb_neq k k')).
  - destruct (String.eqb k' k2) eqn:E; cbn; [|by rewrite IH].
    apply String.eqb_eq in E as ->. by rewrite (proj2 (String.eqb_neq k k2)).
Qed.

Lemma od_get_set k k' v d :
  od_get k (od_set k' v d) = if String.eqb k k' then Some v else od_get k d.
Proof.
  destruct (String.eqb_spec k k') as [->|Hne];
    [apply od_get_set_eq | by apply od_get_set_ne].
Qed.

Lemma od_get_In k v d : od_get k d = Some v -> In (k, v) d.
Proof.
  induction d as [|[k' v'] d IH]; cbn; [done|].
  destruct (String.eqb_spec k k') as [->|]; [intros [= ->]; by left | right; auto].
Qed.

Lemma od_get_None k d : od_get k d = None <-> ~ In k (od_keys d).
Proof.
  induction d as [|[k' v'] d IH]; cbn; [naive_solver|].
  destruct (String.eqb_spec k k') as [->|Hne]; [naive_solver|].
  rewrite IH. naive_solver.
Qed.

Lemma od_get_NoDup k v d : NoDup (od_keys d) -> In (k, v) d -> od_get k d = Some v.
Proof.
  induction d as [|[k' v'] d IH]; cbn; [done|].
  intros [Hk Hd]%NoDup_cons [[= -> ->]|Hin]; [by rewrite String.eqb_refl|].
  rewrite (proj2 (String.eqb_neq k k')); [by apply IH|].
  intros ->. apply Hk, list_elem_of_In, in_map_iff. by exists (k', v).
Qed.

Lemma od_set_new k v d : od_get k d = None -> od_set k v d = d ++ [(k, v)].
Proof.
  induction d as [|[k' v'] d IH]; cbn; [done|]. destruct (String.eqb k k'); [done|]. intros H. by rewrite IH.
Qed.

Lemma od_set_In k v d e : In e (od_set k v d) -> e = (k, v) \/ In e d.
Proof.
  induction d as [|[k' v'] d IH]; cbn [od_set]; [by intros [<-|[]]; left|].
  destruct (String.eqb_spec k k') as [->|_]; (intros [<-|H]; [by eauto using in_eq|]); [right; by right|].
  destruct (IH H) as [?|?]; [by left|right; by right].
Qed.

Lemma od_keys_set k v d :
  od_keys (od_set k v d) = if od_mem k d then od_keys d else od_keys d ++ [k].
Proof.
  unfold od_mem, od_keys. induction d as [|[k' v'] d IH]; cbn; [done|].
  destruct (String.eqb k k') eqn:E; cbn; [done|].
  rewrite IH. by destruct (od_get k d).
Qed.

Lemma od_set_NoDup k v d : NoDup (od_keys d) -> NoDup (od_keys (od_set k v d)).
Proof.
  intros Hd. rewrite od_keys_set. unfold od_mem.
  destruct (od_get k d) eqn:E; [done|].
  apply NoDup_app. split; [done|]. split; [|apply NoDup_singleton].
  intros x Hx ->%list_elem_of_singleton. apply od_get_None in E. by apply E, list_elem_of_In.
Qed.

Lemma od_update_NoDup fields d : NoDup (od_keys d) -> NoDup (od_keys (od_update d fields)).
Proof.
  revert d. induction fields as [|[k v] fs IH]; cbn; intros d Hd; [done|].
  by apply IH, od_set_NoDup.
Qed.

Lemma od_of_list_NoDup kvs : NoDup (od_keys (od_of_list kvs)).
Proof. apply od_update_NoDup, NoDup_nil_2. Qed.

Lemma od_get_update k fields d v :
  od_get k (od_update d fields) = Some v -> In (k, v) fields \/ od_get k d = Some v.
Proof.
  revert d. induction fields as [|[k' v'] fs IH]; cbn; intros d H; [by right|].
  apply IH in H as [H|H]; [by left; right|].
  rewrite od_get_set in H. destruct (String.eqb_spec k k') as [->|].
  - injection H as ->. left; by left.
  - by right.
Qed.

Lemma od_get_update_None k fields d :
  od_get k (od_update d fields) = None <-> ~ In k (od_keys fields) /\ od_get k d = None.
Proof.
  revert d. induction fields as [|[k' v'] fs IH]; cbn; intros d; [naive_solver|].
  rewrite IH, od_get_set. destruct (String.eqb_spec k k') as [->|]; naive_solver.
Qed.

Lemma od_get_of_list_In k v kvs : od_get k (od_of_list kvs) = Some v -> In (k, v) kvs.
Proof. intros H. apply od_get_update in H as [H|H]; [done | discriminate]. Qed.

Lemma od_get_of_list_Some k kvs :
  In k (map fst kvs) -> exists v, od_get k (od_of_list kvs) = Some v.
Proof.
  intros Hin. destruct (od_get k (od_of_list kvs)) as [v|] eqn:E; [eauto|].
  apply od_get_update_None in E as [E _]. done.
Qed.

Lemma od_of_list_unique k v kvs :
  NoDup (map fst kvs) -> In (k, v) kvs -> od_get k (od_of_list kvs) = Some v.
Proof.
  intros Hnd Hin.
  destruct (od_get_of_list_Some k kvs) as [v' Hv']; [apply in_map_iff; by exists (k, v)|].
  rewrite Hv'. apply od_get_of_list_In in Hv'.
  rewrite <- (od_get_NoDup k v kvs Hnd Hin), <- (od_get_NoDup k v' kvs Hnd Hv'). done.
Qed.

Lemma od_mem_In k d : od_mem k d = true <-> In k (od_keys d).
Proof.
  unfold od_mem. destruct (od_get k d) as [v|] eqn:E.
  - split; [|done]. intros _. apply in_map_iff. exists (k, v). split; [done|by apply od_get_In].
  - apply od_get_None in E. naive_solver.
Qed.
End odict.

Create HintDb odict.
#[export] Hint Resolve od_get_set_eq od_set_NoDup od_update_NoDup od_of_list_NoDup : odict.
Create Rewrite HintDb odict_rw.
#[export] Hint Rewrite @od_get_set_eq @od_get_set : odict_rw.

(** ** [sorted]: a stable sort by a boolean order *)

Section py_sorted.
Context {A : Type} (leb : A -> A -> bool).

Fixpoint insert_sorted (x : A) (l : list A) : list A :=
  match l with
  | [] => [x]
  | y :: l' => if leb x y then x :: l else y :: insert_sorted x l'
  end.

Definition py_sorted (l : list A) : list A := foldr insert_sorted [] l.

Lemma insert_sorted_perm x l : insert_sorted x l ≡ₚ x :: l.
Proof.
  induction l as [|y l IH]; cbn; [done|].
  destruct (leb x y); [done|]. rewrite IH. apply Permutation_swap.
Qed.

Lemma py_sorted_perm l : py_sorted l ≡ₚ l.
Proof.
  induction l as [|x l IH]; cbn; [done|]. by rewrite insert_sorted_perm, IH.
Qed.

Lemma py_sorted_In x l : In x (py_sorted l) <-> In x l.
Proof. rewrite <- !list_elem_of_In. by rewrite py_sorted_perm. Qed.

Lemma py_sorted_nil l : py_sorted l = [] <-> l = [].
Proof.
  split; [|by intros ->]. intros H. apply Permutation_nil. by rewrite <- H, py_sorted_perm.
Qed.

Context (total : forall x y, leb x y = true \/ leb y x = true)
        (trans : forall x y z, leb x y = true -> leb y z = true -> leb x z = true).

Lemma insert_sorted_StronglySorted x l :
  StronglySorted leb l -> StronglySorted leb (insert_sorted x l).
Proof.
  induction 1 as [|y l Hs IH Hy]; cbn; [repeat constructor|].
  destruct (leb x y) eqn:E.
  - constructor; [by constructor|]. constructor; [by rewrite E|].
    eapply Forall_impl; [exact Hy|]. cbn. intros z Hz.
    apply Is_true_eq_true in Hz. rewrite (trans x y z); done.
  - constructor; [done|]. rewrite insert_sorted_perm. constructor; [|done].
    destruct (total x y) as [H|H]; [congruence | by rewrite H].
Qed.

Lemma py_sorted_StronglySorted l : StronglySorted leb (py_sorted l).
Proof.
  induction l as [|x l IH]; cbn; [constructor | by apply insert_sorted_StronglySorted].
Qed.
End py_sorted.

(** Tuples compare component by component: [x <= y] when the first components
    are strictly ordered, or equivalent and the second ones ordered. *)
Definition lex_leb {A B} (lea : A -> A -> bool) (leb : B -> B -> bool) (x y : A * B) : bool :=
  lea x.1 y.1 && (negb (lea y.1 x.1) || leb x.2 y.2).

Section lex.
Context {A B : Type} (lea : A -> A -> bool) (leb : B -> B -> bool).
Context (ta : forall x y, lea x y = true \/ lea y x = true)
        (tb : forall x y, leb x y = true \/ leb y x = true)
        (ra : forall x y z, lea x y = true -> lea y z = true -> lea x z = true)
        (rb : forall x y z, leb x y = true -> leb y z = true -> leb x z = true).

Lemma lex_leb_total x y : lex_leb lea leb x y = true \/ lex_leb lea leb y x = true.
Proof.
  unfold lex_leb. specialize (ta x.1 y.1). specialize (tb x.2 y.2).
  destruct (lea x.1 y.1), (lea y.1 x.1), (leb x.2 y.2), (leb y.2 x.2); cbn; naive_solver.
Qed.

Lemma lex_leb_iff x y :
  lex_leb lea leb x y = true <->
  lea x.1 y.1 = true /\ (lea y.1 x.1 = true -> leb x.2 y.2 = true).
Proof.
  unfold lex_leb. rewrite andb_true_iff, orb_true_iff, negb_true_iff.
  destruct (lea y.1 x.1); naive_solver.
Qed.

Lemma lex_leb_trans x y z :
  lex_leb lea leb x y = true -> lex_leb lea leb y z = true -> lex_leb lea leb x z = true.
Proof.
  rewrite !lex_leb_iff. intros [H1 H2] [H3 H4]. split; [by eapply ra|]. intros H.
  eapply rb; [apply H2 | apply H4]; eapply ra; eauto.
Qed.
End lex.
