(* ===== verification/PyStr.v ===== *)
(** * Text: the string methods the program uses

    Text is a sequence of ASCII characters. Each definition is the method of
    [str] it is named after, on that alphabet; ordering is by code point. *)

From S2P Require Import Prelude.
Open Scope string_scope.
Open Scope list_scope.

Definition str_leb : string -> string -> bool := String.leb.
Definition str_ltb : string -> string -> bool := String.ltb.

Lemma ascii_compare_trans a b c r :
  Ascii.compare a b = r -> Ascii.compare b c = r -> Ascii.compare a c = r.
Proof. unfold Ascii.compare. destruct r; rewrite ?N.compare_eq_iff, ?N.compare_lt_iff, ?N.compare_gt_iff; lia. Qed.

Lemma string_compare_Lt_trans s t u :
  String.compare s t = Lt -> String.compare t u = Lt -> String.compare s u = Lt.
Proof.
  revert t u. induction s as [|a s IH]; intros [|b t] [|c u]; cbn; try done.
  destruct (Ascii.compare a b) eqn:E1; [|destruct (Ascii.compare b c) eqn:E2|]; try done.
  - apply Ascii.compare_eq_iff in E1 as ->. destruct (Ascii.compare b c); try done. apply IH.
  - apply Ascii.compare_eq_iff in E2 as ->. by rewrite E1.
  - by rewrite (ascii_compare_trans a b c Lt).
Qed.

Lemma string_compare_refl s : String.compare s s = Eq.
Proof.
  induction s as [|a s IH]; cbn; [done|]. unfold Ascii.compare. by rewrite N.compare_refl.
Qed.

Lemma str_leb_alt s t : str_leb s t = true <-> String.compare s t = Lt \/ s = t.
Proof.
  unfold str_leb, String.leb. destruct (String.compare s t) eqn:E; split; try done.
  - intros _. right. by apply String.compare_eq_iff.
  - intros _. by left.
  - intros [|<-]; [done|]. by rewrite string_compare_refl in E.
Qed.

Lemma str_leb_total s t : str_leb s t = true \/ str_leb t s = true.
Proof. apply String.leb_total. Qed.

Lemma str_leb_trans s t u : str_leb s t = true -> str_leb t u = true -> str_leb s u = true.
Proof.
  rewrite !str_leb_alt. intros [H1| ->] [H2| ->]; auto.
  left; by eapply string_compare_Lt_trans.
Qed.

Lemma str_leb_antisym s t : str_leb s t = true -> str_leb t s = true -> s = t.
Proof. apply String.leb_antisym. Qed.

Lemma str_leb_refl s : str_leb s s = true.
Proof. apply str_leb_alt; by right. Qed.

(** ** Characters and text as lists of characters *)

Abbreviation chars := String.list_ascii_of_string.
Abbreviation of_chars := String.string_of_list_ascii.

Definition code (c : ascii) : N := N_of_ascii c.
Definition is_upper (c : ascii) : bool := (65 <=? code c)%N && (code c <=? 90)%N.
Definition is_lower (c : ascii) : bool := (97 <=? code c)%N && (code c <=? 122)%N.
Definition is_digit (c : ascii) : bool := (48 <=? code c)%N && (code c <=? 57)%N.
Definition is_alpha (c : ascii) : bool := is_upper c || is_lower c.
Definition is_space (c : ascii) : bool :=
  ((9 <=? code c)%N && (code c <=? 13)%N) || ((28 <=? code c)%N && (code c <=? 32)%N).

Definition lower_char (c : ascii) : ascii :=
  if is_upper c then ascii_of_N (code c + 32) else c.

Definition casefold (s : string) : string := of_chars (map lower_char (chars s)).

(** [s.strip(p)]: drop the leading and trailing characters satisfying [p]. *)
Fixpoint drop_chars (p : ascii -> bool) (l : list ascii) : list ascii :=
  match l with
  | [] => []
  | c :: l' => if p c then drop_chars p l' else l
  end.
Definition strip_chars (p : ascii -> bool) (l : list ascii) : list ascii :=
  reverse (drop_chars p (reverse (drop_chars p l))).
Definition strip_with (p : ascii -> bool) (s : string) : string :=
  of_chars (strip_chars p (chars s)).
Definition strip (s : string) : string := strip_with is_space s.

Definition startswith (p s : string) : bool := String.prefix p s.

Fixpoint drop_prefix (p s : string) : string :=
  match p, s with
  | String _ p', String _ s' => drop_prefix p' s'
  | _, _ => s
  end.
Definition removeprefix (p s : string) : string :=
  if startswith p s then drop_prefix p s else s.

(** [sub in s] *)
Fixpoint contains (sub s : string) : bool :=
  String.prefix sub s ||
  match s with EmptyString => false | String _ s' => contains sub s' end.

Definition join (sep : string) (l : list string) : string := String.concat sep l.

(** [s[:n]] *)
Definition str_take (n : nat) (s : string) : string := of_chars (take n (chars s)).

(** [s.split(c)] on a one-character separator *)
Fixpoint split_chars (sep : ascii) (l : list ascii) : list (list ascii) :=
  match l with
  | [] => [[]]
  | c :: l' =>
      if Ascii.eqb c sep then [] :: split_chars sep l'
      else match split_chars sep l' with
           | w :: ws => (c :: w) :: ws
           | [] => [[c]]
           end
  end.
Definition split_on (sep : ascii) (s : string) : list string :=
  map of_chars (split_chars sep (chars s)).

(** [s.split(c, 1)] when [c] occurs *)
Fixpoint split_once_chars (sep : ascii) (l : list ascii) : option (list ascii * list ascii) :=
  match l with
  | [] => None
  | c :: l' =>
      if Ascii.eqb c sep then Some ([], l')
      else match split_once_chars sep l' with
           | Some (a, b) => Some (c :: a, b)
           | None => None
           end
  end.
Definition split_once (sep : ascii) (s : string) : option (string * string) :=
  match split_once_chars sep (chars s) with
  | Some (a, b) => Some (of_chars a, of_chars b)
  | None => None
  end.

(** [s.splitlines()] *)
Definition is_line_break (c : ascii) : bool :=
  ((10 <=? code c)%N && (code c <=? 13)%N) || ((28 <=? code c)%N && (code c <=? 30)%N).
Fixpoint lines_chars (l : list ascii) : list (list ascii) :=
  match l with
  | [] => []
  | "013"%char :: "010"%char :: l' => [] :: lines_chars l'
  | c :: l' =>
      if is_line_break c then [] :: lines_chars l'
      else match lines_chars l' with
           | w :: ws => (c :: w) :: ws
           | [] => [[c]]
           end
  end.
Definition splitlines (s : string) : list string := map of_chars (lines_chars (chars s)).

(** [f"{n:0{w}d}"] for a natural number *)
Fixpoint zeros (n : nat) : string :=
  match n with O => "" | S n' => "0" +:+ zeros n' end.
Definition pad_left (w : nat) (s : string) : string := zeros (w - String.length s) +:+ s.
Definition zstr (z : Z) : string := pretty z.

(** [int(s)]: optional sign, digits with single underscores between them, blanks around. *)
Fixpoint digits_value (acc : Z) (prev_digit : bool) (l : list ascii) : option Z :=
  match l with
  | [] => if prev_digit then Some acc else None
  | c :: l' =>
      if is_digit c then digits_value (10 * acc + Z.of_N (code c - 48)) true l'
      else if Ascii.eqb c "_"%char && prev_digit then digits_value acc false l'
      else None
  end.
Definition int_of_str (s : string) : option Z :=
  match strip_chars is_space (chars s) with
  | "-"%char :: l => option_map Z.opp (digits_value 0 false l)
  | "+"%char :: l => digits_value 0 false l
  | l => digits_value 0 false l
  end.

Definition str_in (s : string) (l : list string) : bool := existsb (String.eqb s) l.

Lemma str_in_In s l : str_in s l = true <-> In s l.
Proof.
  unfold str_in. rewrite existsb_exists. split.
  - intros (x & Hx & ->%String.eqb_eq). done.
  - intros H. exists s. by rewrite String.eqb_refl.
Qed.

Lemma str_in_false s l : str_in s l = false <-> ~ In s l.
Proof. rewrite <- str_in_In. by destruct (str_in s l). Qed.

(** [sorted] of a set of strings: strictly increasing, hence canonical. *)
Definition sorted_strs (l : list string) : list string := py_sorted str_leb l.
Definition sorted_set (s : gset string) : list string := sorted_strs (elements s).

Lemma sorted_set_In x s : In x (sorted_set s) <-> x ∈ s.
Proof.
  unfold sorted_set, sorted_strs. rewrite py_sorted_In, <- list_elem_of_In. apply elem_of_elements.
Qed.

Lemma sorted_set_nil s : sorted_set s = [] <-> s = ∅.
Proof.
  unfold sorted_set, sorted_strs. rewrite py_sorted_nil. split.
  - intros H. apply leibniz_equiv, elements_empty_inv. by rewrite H.
  - intros ->. apply elements_empty.
Qed.

Lemma sorted_set_NoDup s : NoDup (sorted_set s).
Proof. unfold sorted_set, sorted_strs. rewrite py_sorted_perm. apply NoDup_elements. Qed.

Lemma sorted_set_subset_nil (a b : gset string) : sorted_set (a ∖ b) = [] <-> a ⊆ b.
Proof. rewrite sorted_set_nil. split; [|set_solver]. intros H x Hx. destruct (decide (x ∈ b)); set_solver. Qed.

(** The truth of a list, as [if denied:] tests it. *)
Definition nonempty {A} (l : list A) : bool := match l with [] => false | _ => true end.

Lemma nonempty_false {A} (l : list A) : nonempty l = false <-> l = [].
Proof. by destruct l. Qed.

(** [dict.fromkeys]: the first occurrence of each string, in order. *)
Fixpoint fromkeys_go (seen : list string) (l : list string) : list string :=
  match l with
  | [] => []
  | x :: l' => if str_in x seen then fromkeys_go seen l' else x :: fromkeys_go (x :: seen) l'
  end.
Definition fromkeys (l : list string) : list string := fromkeys_go [] l.

Lemma fromkeys_go_In x seen l : In x (fromkeys_go seen l) <-> In x l /\ ~ In x seen.
Proof.
  revert seen. induction l as [|y l IH]; intros seen; cbn; [naive_solver|].
  destruct (str_in y seen) eqn:E.
  - apply str_in_In in E. rewrite IH. naive_solver.
  - apply str_in_false in E. cbn. rewrite IH. cbn.
    destruct (String.eqb_spec x y) as [->|]; naive_solver.
Qed.

Lemma fromkeys_In x l : In x (fromkeys l) <-> In x l.
Proof. unfold fromkeys. rewrite fromkeys_go_In. naive_solver. Qed.

Lemma fromkeys_go_NoDup seen l : NoDup (fromkeys_go seen l).
Proof.
  revert seen. induction l as [|y l IH]; intros seen; cbn; [constructor|].
  destruct (str_in y seen); [done|]. constructor; [|done].
  rewrite list_elem_of_In, fromkeys_go_In. cbn. naive_solver.
Qed.

Lemma fromkeys_NoDup l : NoDup (fromkeys l).
Proof. apply fromkeys_go_NoDup. Qed.

Lemma str_in_ext c a b : (In c a <-> In c b) -> str_in c a = str_in c b.
Proof. intros H. apply eq_true_iff_eq. by rewrite !str_in_In. Qed.

Lemma fromkeys_go_snoc seen l c : fromkeys_go seen (l ++ [c]) = fromkeys_go seen l ++ (if str_in c (l ++ seen) then [] else [c]).
Proof.
  revert seen. induction l as [|x l IH]; intros seen; cbn [app fromkeys_go]; [by destruct (str_in c seen)|].
  destruct (str_in x seen) eqn:E; rewrite IH; cbn [app].
  - apply str_in_In in E. f_equal. rewrite (str_in_ext c (x :: l ++ seen) (l ++ seen)); [done|]. cbn. rewrite in_app_iff. naive_solver.
  - do 2 f_equal. rewrite (str_in_ext c (x :: l ++ seen) (l ++ x :: seen)); [done|]. cbn. rewrite !in_app_iff. cbn. naive_solver.
Qed.

Lemma fromkeys_snoc l c : fromkeys (l ++ [c]) = if str_in c l then fromkeys l else fromkeys l ++ [c].
Proof. unfold fromkeys. rewrite fromkeys_go_snoc, app_nil_r. destruct (str_in c l); [apply app_nil_r|done]. Qed.

(** A dictionary given by a function on its keys. *)
Lemma od_get_tabulate {V} (f : string -> V) keys k :
  od_get k (map (fun c => (c, f c)) keys) = if str_in k keys then Some (f k) else None.
Proof.
  induction keys as [|c keys IH]; [done|]. cbn [map od_get str_in existsb]. destruct (String.eqb_spec k c) as [->|]; [done|]. apply IH.
Qed.

Lemma od_set_tabulate {V} (f g : string -> V) keys k : NoDup keys -> In k keys -> (forall c, c <> k -> g c = f c) ->
  od_set k (g k) (map (fun c => (c, f c)) keys) = map (fun c => (c, g c)) keys.
Proof.
  intros Hn Hk Hg. induction keys as [|c keys IH]; [done|]. apply NoDup_cons in Hn as [Hc Hn]. cbn [map od_set].
  destruct (String.eqb_spec k c) as [->|Hne].
  - f_equal. apply map_ext_in. intros x Hx. rewrite Hg; [done|]. intros ->. by apply Hc, list_elem_of_In.
  - rewrite (Hg c) by done. f_equal. apply IH; [done|]. destruct Hk; [by subst|done].
Qed.

Lemma nonempty_map {A B} (f : A -> B) l : nonempty (map f l) = nonempty l.
Proof. by destruct l. Qed.

Example casefold_ex : casefold "Task-9 X" = "task-9 x".
Proof. reflexivity. Qed.
Example strip_ex : strip "  a b  " = "a b".
Proof. reflexivity. Qed.
Example int_ex : (int_of_str " -1_2 ", int_of_str "1__2", int_of_str "") = (Some (-12)%Z, None, None).
Proof. reflexivity. Qed.

(** ** Stripping and joining, character by character *)

Lemma drop_chars_In p x l : In x (drop_chars p l) -> In x l.
Proof. induction l as [|c l IH]; cbn; [done|]. destruct (p c); cbn; naive_solver. Qed.

Lemma drop_chars_suffix p l : exists l0, l = l0 ++ drop_chars p l.
Proof.
  induction l as [|c l [l0 IH]]; cbn; [by exists []|].
  destruct (p c); [exists (c :: l0); cbn; by rewrite <- IH | by exists []].
Qed.

Lemma drop_chars_snoc p l c : p c = false -> drop_chars p (l ++ [c]) = drop_chars p l ++ [c].
Proof.
  intros Hc. induction l as [|x l IH]; cbn; [by rewrite Hc|]. by destruct (p x).
Qed.

Lemma drop_chars_head p l c l' : drop_chars p l = c :: l' -> p c = false.
Proof.
  induction l as [|x l IH]; cbn; [done|]. destruct (p x) eqn:E; [done|]. by intros [= <- _].
Qed.

Lemma drop_chars_id p c l : p c = false -> drop_chars p (c :: l) = c :: l.
Proof. cbn. by intros ->. Qed.

Lemma strip_chars_cons p c l :
  p c = false -> strip_chars p (c :: l) = c :: reverse (drop_chars p (reverse l)).
Proof.
  intros Hc. unfold strip_chars. rewrite drop_chars_id by done.
  rewrite reverse_cons, drop_chars_snoc by done. by rewrite reverse_app.
Qed.

Lemma strip_chars_In p x l : In x (strip_chars p l) -> In x l.
Proof.
  unfold strip_chars. rewrite <- !list_elem_of_In, elem_of_reverse, !list_elem_of_In.
  intros H%drop_chars_In. rewrite <- list_elem_of_In, elem_of_reverse, list_elem_of_In in H.
  by apply drop_chars_In in H.
Qed.

Lemma strip_chars_alt p l : strip_chars p l = reverse (drop_chars p (reverse (drop_chars p l))).
Proof. done. Qed.

Lemma strip_chars_head p l c l' : strip_chars p l = c :: l' -> p c = false.
Proof.
  unfold strip_chars. destruct (drop_chars p l) as [|x d] eqn:E; [done|].
  apply drop_chars_head in E as Hx. intros H.
  pose proof (strip_chars_cons p x d Hx) as Hs. unfold strip_chars in Hs.
  rewrite drop_chars_id in Hs by done. rewrite Hs in H. by injection H as <- _.
Qed.

Lemma drop_chars_length p l : (length (drop_chars p l) <= length l)%nat.
Proof. induction l as [|c l IH]; cbn; [lia|]. destruct (p c); cbn; lia. Qed.

Lemma strip_chars_length p l : (length (strip_chars p l) <= length l)%nat.
Proof.
  unfold strip_chars. rewrite length_reverse.
  pose proof (drop_chars_length p (reverse (drop_chars p l))).
  pose proof (drop_chars_length p l). rewrite length_reverse in *. lia.
Qed.

(** A list whose ends are not to be stripped is left alone. *)
Lemma strip_chars_id p l :
  (forall c l', l = c :: l' -> p c = false) ->
  (forall c l', reverse l = c :: l' -> p c = false) -> strip_chars p l = l.
Proof.
  intros Hh Ht. unfold strip_chars.
  assert (E : drop_chars p l = l).
  { destruct l as [|c l']; [done|]. apply drop_chars_id. by eapply Hh. }
  rewrite E. assert (E' : drop_chars p (reverse l) = reverse l).
  { destruct (reverse l) as [|c l'] eqn:R; [done|]. apply drop_chars_id. by eapply Ht. }
  rewrite E'. apply reverse_involutive.
Qed.

Lemma strip_chars_last p l c l' : reverse (strip_chars p l) = c :: l' -> p c = false.
Proof. unfold strip_chars. rewrite reverse_involutive. apply drop_chars_head. Qed.

Lemma chars_of_chars l : chars (of_chars l) = l.
Proof. apply String.list_ascii_of_string_of_list_ascii. Qed.
Lemma of_chars_chars s : of_chars (chars s) = s.
Proof. apply String.string_of_list_ascii_of_string. Qed.
Lemma chars_app s t : chars (s +:+ t) = chars s ++ chars t.
Proof. induction s as [|c s IH]; cbn; [done|]. by rewrite <- IH. Qed.
Lemma length_chars s : length (chars s) = String.length s.
Proof. induction s as [|c s IH]; cbn; [done|]. by rewrite IH. Qed.

Lemma is_lower_alpha c : is_lower c = true -> is_alpha c = true.
Proof. unfold is_alpha. intros ->. apply orb_true_r. Qed.

Lemma lower_char_not_upper c : is_upper (lower_char c) = false.
Proof. by destruct c as [[] [] [] [] [] [] [] []]. Qed.

Lemma lower_char_id c : is_upper c = false -> lower_char c = c.
Proof. unfold lower_char. by intros ->. Qed.

Lemma casefold_id s : forallb (fun c => negb (is_upper c)) (chars s) = true -> casefold s = s.
Proof.
  intros H. unfold casefold. rewrite <- (of_chars_chars s) at 2. f_equal.
  rewrite forallb_forall in H. rewrite <- (map_id (chars s)) at 2. apply map_ext_in.
  intros c Hc. apply lower_char_id. by specialize (H c Hc); destruct (is_upper c).
Qed.

(** ** Decimal numerals: what [str] prints of a natural number *)

Definition decimal_digit (acc : N) (c : ascii) : N := (10 * acc + (code c - 48))%N.
Definition decimal_value (l : list ascii) : N := foldl decimal_digit 0%N l.

Lemma pretty_N_char_digit x : is_digit (pretty_N_char x) = true.
Proof. unfold pretty_N_char. by repeat case_match. Qed.

Lemma pretty_N_char_value x : (x < 10)%N -> (code (pretty_N_char x) - 48 = x)%N.
Proof.
  intros H. assert (x = 0 \/ x = 1 \/ x = 2 \/ x = 3 \/ x = 4 \/ x = 5 \/ x = 6 \/ x = 7 \/ x = 8 \/ x = 9)%N
    as Hx by lia.
  by repeat destruct Hx as [->|Hx]; [..|subst x].
Qed.

Lemma pretty_N_go_decimal x s :
  decimal_value (chars (pretty_N_go x s)) = foldl decimal_digit x (chars s) /\
  (forallb is_digit (chars s) = true -> forallb is_digit (chars (pretty_N_go x s)) = true).
Proof.
  revert s. induction (N.lt_wf_0 x) as [x _ IH]; intros s.
  assert (x = 0 \/ 0 < x)%N as [->|Hx] by lia; [by rewrite pretty_N_go_0|].
  rewrite pretty_N_go_step by done.
  destruct (IH (x / 10)%N (N.div_lt x 10 Hx eq_refl) (String (pretty_N_char (x mod 10)) s)) as [IH1 IH2].
  split.
  - rewrite IH1. cbn [String.list_ascii_of_string foldl]. unfold decimal_digit at 2. f_equal.
    rewrite pretty_N_char_value by (by apply N.mod_lt). pose proof (N.div_mod' x 10). lia.
  - intros Hs. apply IH2. cbn [String.list_ascii_of_string forallb].
    by rewrite pretty_N_char_digit, Hs.
Qed.

Lemma zstr_decimal n :
  (0 <= n)%Z -> decimal_value (chars (zstr n)) = Z.to_N n /\ forallb is_digit (chars (zstr n)) = true.
Proof.
  intros Hn. unfold zstr. destruct n as [|p|p]; [done| |lia].
  change (pretty (Z.pos p)) with (pretty_N_go (N.pos p) "").
  destruct (pretty_N_go_decimal (N.pos p) "") as [H1 H2]. split; [by rewrite H1|by apply H2].
Qed.

Lemma pad_left_decimal w s :
  decimal_value (chars (pad_left w s)) = decimal_value (chars s) /\
  (forallb is_digit (chars s) = true -> forallb is_digit (chars (pad_left w s)) = true).
Proof.
  unfold pad_left. induction (w - String.length s)%nat as [|k IH]; cbn; [done|]. exact IH.
Qed.

Lemma pad_left_zstr_inj w n m :
  (0 <= n)%Z -> (0 <= m)%Z -> pad_left w (zstr n) = pad_left w (zstr m) -> n = m.
Proof.
  intros Hn Hm E. apply (f_equal (fun s => decimal_value (chars s))) in E.
  rewrite !(proj1 (pad_left_decimal _ _)) in E.
  rewrite (proj1 (zstr_decimal n Hn)), (proj1 (zstr_decimal m Hm)) in E. lia.
Qed.

(** ** Prefixes and splitting *)

Lemma startswith_app p s : startswith p (p +:+ s) = true.
Proof.
  unfold startswith. induction p as [|c p IH]; [by destruct s|].
  change (String c p +:+ s) with (String c (p +:+ s)). cbn [String.prefix].
  destruct (Ascii.ascii_dec c c); [exact IH|congruence].
Qed.

Lemma removeprefix_app p s : removeprefix p (p +:+ s) = s.
Proof.
  unfold removeprefix. rewrite startswith_app. induction p as [|c p IH]; [by destruct s|exact IH].
Qed.

Lemma app_text_assoc s t u : s +:+ (t +:+ u) = (s +:+ t) +:+ u.
Proof. induction s as [|c s IH]; [done|]. change (String c (s +:+ (t +:+ u)) = String c ((s +:+ t) +:+ u)). by rewrite IH. Qed.

Lemma startswith_spec p s : startswith p s = true -> exists t, s = p +:+ t.
Proof.
  unfold startswith. revert s. induction p as [|c p IH]; intros s H; [by exists s|].
  destruct s as [|x s]; [done|]. cbn [String.prefix] in H.
  destruct (Ascii.ascii_dec c x) as [->|]; [|done]. apply IH in H as [t ->]. by exists t.
Qed.

Lemma startswith_head p c s : startswith (String c p) (of_chars s) = true -> head s = Some c.
Proof. unfold startswith. destruct s as [|x s]; cbn; [done|]. by destruct (Ascii.ascii_dec c x) as [->|]. Qed.

Lemma split_chars_none sep l : ~ In sep l -> split_chars sep l = [l].
Proof.
  induction l as [|c l IH]; cbn; [done|]. intros H.
  destruct (Ascii.eqb_spec c sep); [naive_solver|]. rewrite IH by naive_solver. done.
Qed.

Lemma split_chars_app sep w l :
  ~ In sep w -> split_chars sep (w ++ sep :: l) = w :: split_chars sep l.
Proof.
  induction w as [|c w IH]; cbn; intros H; [by rewrite Ascii.eqb_refl|].
  destruct (Ascii.eqb_spec c sep); [naive_solver|]. rewrite IH by naive_solver. done.
Qed.

(** Splitting a joined text gives the parts back. *)
Lemma split_on_join sep l :
  l <> [] -> (forall s, In s l -> ~ In sep (chars s)) ->
  split_on sep (join (String sep EmptyString) l) = l.
Proof.
  unfold split_on. induction l as [|s [|t l] IH]; intros Hne H; [done| |].
  - cbn. rewrite split_chars_none by (apply H; by left). cbn. by rewrite of_chars_chars.
  - change (join (String sep "") (s :: t :: l)) with
      (s +:+ String sep "" +:+ join (String sep "") (t :: l)).
    rewrite chars_app. change (chars (String sep "" +:+ join (String sep "") (t :: l)))
      with (sep :: chars (join (String sep "") (t :: l))).
    rewrite split_chars_app by (apply H; by left). cbn [map]. rewrite of_chars_chars.
    f_equal. apply IH; [done|]. intros x Hx. apply H. by right.
Qed.
