(* ===== verification/PyFloat.v ===== *)
(** * Floats: IEEE binary64 as the program's scores use it

    A Python [float] is a binary64 datum; [SpecFloat] defines the IEEE
    operations on it by integer arithmetic, so scores are computed here bit by
    bit as the interpreter does. The module adds literals, [round(x, 4)] on
    the unit interval and [f"{x:.2f}"]. *)

From Stdlib Require Import SpecFloat.
From S2P Require Import Prelude PyStr.
Open Scope string_scope.
Open Scope list_scope.
Open Scope Z_scope.

Abbreviation float := spec_float.
#[export] Instance float_eq_dec : EqDecision float.
Proof. solve_decision. Defined.
Definition prec : Z := 53.
Definition emax : Z := 1024.

Definition fadd : float -> float -> float := SFadd prec emax.
Definition fsub : float -> float -> float := SFsub prec emax.
Definition fmul : float -> float -> float := SFmul prec emax.
(** The float nearest the quotient of a natural and a positive integer, as a
    decimal literal is read: the IEEE division rounds the exact quotient. *)
Definition ratio (n d : Z) : float :=
  match n, d with
  | Zpos p, Zpos q => SFdiv prec emax (S754_finite false p 0) (S754_finite false q 0)
  | _, _ => S754_zero false
  end.

(** [float(n)]; Python raises when the integer is too large. *)
Definition float_of_int (n : Z) : float := if n <? 0 then SFopp (ratio (- n) 1) else ratio n 1.

Definition fzero : float := S754_zero false.
Definition fone : float := ratio 1 1.

(** [min(a, b)] and [max(a, b)]: the first argument unless the second is strictly better. *)
Definition fmin (a b : float) : float := if SFltb b a then b else a.
Definition fmax (a b : float) : float := if SFltb a b then b else a.

(** [n / 2^k] to the nearest integer, ties to even. *)
Definition round_half_even (n : Z) (k : Z) : Z :=
  let d := 2 ^ k in
  let q := n / d in
  let r := n mod d in
  match 2 * r ?= d with
  | Lt => q
  | Gt => q + 1
  | Eq => if Z.even q then q else q + 1
  end.

(** [|x| * 10^digits] to the nearest integer, for finite [x] *)
Definition scaled (digits : Z) (m : positive) (e : Z) : Z :=
  let n := Zpos m * 10 ^ digits in
  if 0 <=? e then n * 2 ^ e else round_half_even n (- e).

(** [round(x, 4)] for [0 <= x <= 1]: the float nearest the decimal nearest [x]. *)
Definition round4 (x : float) : float :=
  match x with
  | S754_finite false m e => ratio (scaled 4 m e) 10000
  | _ => x
  end.

(** [f"{x:.2f}"] *)
Definition two_decimals (sign : bool) (n : Z) : string :=
  (if sign then "-" else "") +:+ zstr (n / 100) +:+ "." +:+ pad_left 2 (zstr (n mod 100)).
Definition format_2f (x : float) : string :=
  match x with
  | S754_nan => "nan"
  | S754_infinity s => if s then "-inf" else "inf"
  | S754_zero s => two_decimals s 0
  | S754_finite s m e => two_decimals s (scaled 2 m e)
  end.

Example format_ex : (format_2f (ratio 35 100), format_2f (ratio 1 8), format_2f (ratio 3 8)) =
  ("0.35", "0.12", "0.38").
Proof. vm_compute. reflexivity. Qed.
Example add_ex : round4 (fadd (ratio 1 10) (ratio 2 10)) = ratio 3 10.
Proof. vm_compute. reflexivity. Qed.
Example add_ex' : SFeqb (fadd (ratio 1 10) (ratio 2 10)) (ratio 3 10) = false.
Proof. vm_compute. reflexivity. Qed.

(** ** Mantissas fit: every result of an operation has at most 53 bits *)

Definition is_float (x : float) : Prop :=
  match x with S754_finite _ m _ => Zpos m < 2 ^ prec | _ => True end.

Lemma digits2_bound m : Zpos m < 2 ^ Zdigits2 (Zpos m).
Proof.
  cbn. induction m as [m IH|m IH|]; cbn [digits2_pos]; [| |done];
    rewrite Pos2Z.inj_succ, Z.pow_succ_r by lia; lia.
Qed.

Lemma shr_1_m r : 0 <= shr_m r -> shr_m (shr_1 r) = shr_m r / 2.
Proof.
  intros H. rewrite <- Z.div2_div. destruct r as [m rb sb]. cbn in *.
  by destruct m as [|[p|p|]|].
Qed.

Lemma iter_shr_m n r :
  0 <= shr_m r -> shr_m (SpecFloat.iter_pos shr_1 n r) = shr_m r / 2 ^ Zpos n.
Proof.
  revert r. induction n as [n IH|n IH|]; intros r Hr; cbn [SpecFloat.iter_pos].
  - assert (H1 : 0 <= shr_m (shr_1 r)) by (rewrite shr_1_m by done; by apply Z.div_pos).
    assert (H2 : 0 <= shr_m (SpecFloat.iter_pos shr_1 n (shr_1 r))).
    { rewrite IH by done. by apply Z.div_pos; [|apply Z.pow_pos_nonneg]. }
    rewrite IH, IH, shr_1_m by done. rewrite !Z.div_div by lia. f_equal.
    replace (Z.pos n~1) with (1 + (Z.pos n + Z.pos n)) by lia. rewrite !Z.pow_add_r by lia. ring.
  - assert (H2 : 0 <= shr_m (SpecFloat.iter_pos shr_1 n r)).
    { rewrite IH by done. by apply Z.div_pos; [|apply Z.pow_pos_nonneg]. }
    rewrite IH, IH by done. rewrite !Z.div_div by lia. f_equal.
    replace (Z.pos n~0) with (Z.pos n + Z.pos n) by lia. by rewrite Z.pow_add_r.
  - by apply shr_1_m.
Qed.

Lemma shr_record_of_loc_m m l : shr_m (shr_record_of_loc m l) = m.
Proof. by destruct l as [|[]]. Qed.

(** A mantissa shifted to the format's exponent has at most [prec] bits. *)
Lemma shr_fexp_bound m e l :
  0 <= m -> 0 <= shr_m (shr_fexp prec emax m e l).1 < 2 ^ prec.
Proof.
  intros Hm. unfold shr_fexp, shr.
  assert (Hd : m < 2 ^ Zdigits2 m).
  { destruct m; [done|apply digits2_bound|lia]. }
  set (n := fexp prec emax (Zdigits2 m + e) - e).
  assert (Hn : Zdigits2 m - prec <= n) by (unfold n, fexp; lia).
  assert (Hd0 : 0 <= Zdigits2 m) by (destruct m; cbn; lia).
  destruct n as [|n|n]; cbn [fst]; rewrite ?iter_shr_m; rewrite ?shr_record_of_loc_m; try done.
  - split; [done|]. eapply Z.lt_le_trans; [exact Hd|]. apply Z.pow_le_mono_r; lia.
  - split; [by apply Z.div_pos; [|apply Z.pow_pos_nonneg]|].
    apply Z.div_lt_upper_bound; [by apply Z.pow_pos_nonneg|].
    rewrite <- Z.pow_add_r by (unfold prec; lia). eapply Z.lt_le_trans; [exact Hd|].
    apply Z.pow_le_mono_r; unfold prec in *; lia.
  - split; [done|]. eapply Z.lt_le_trans; [exact Hd|]. apply Z.pow_le_mono_r; lia.
Qed.

Lemma round_nearest_even_pos m l : 0 <= m -> 0 <= round_nearest_even m l.
Proof. intros H. destruct l as [|[]]; cbn; try lia. destruct (Z.even m); lia. Qed.

Lemma binary_round_aux_float s m e l : 0 <= m -> is_float (binary_round_aux prec emax s m e l).
Proof.
  intros Hm. unfold binary_round_aux.
  pose proof (shr_fexp_bound m e l Hm) as [H1 _].
  destruct (shr_fexp prec emax m e l) as [r1 e1]. cbn [fst] in H1.
  pose proof (shr_fexp_bound _ e1 loc_Exact (round_nearest_even_pos _ (loc_of_shr_record r1) H1))
    as [_ H2].
  destruct (shr_fexp prec emax (round_nearest_even (shr_m r1) (loc_of_shr_record r1)) e1 loc_Exact)
    as [r2 e2]. cbn [fst] in H2.
  destruct (shr_m r2) as [|m'|m']; [done| |done]. by destruct (e2 <=? emax - prec).
Qed.

Lemma binary_normalize_float m e s : is_float (binary_normalize prec emax m e s).
Proof.
  destruct m as [|m|m]; cbn; [done| |]; unfold binary_round;
    destruct (shl_align m e _); by apply binary_round_aux_float.
Qed.

Lemma fadd_float x y : is_float x -> is_float y -> is_float (fadd x y).
Proof.
  unfold fadd. destruct x as [[]|[]| |[] mx ex], y as [[]|[]| |[] my ey]; cbn; try done;
    intros _ _; apply binary_normalize_float.
Qed.

Lemma fsub_float x y : is_float x -> is_float y -> is_float (fsub x y).
Proof.
  unfold fsub. destruct x as [[]|[]| |[] mx ex], y as [[]|[]| |[] my ey]; cbn; try done;
    intros _ _; apply binary_normalize_float.
Qed.

(** ** Clamping and rounding stay in the unit interval *)

Definition clamp01 (x : float) : float := fmax fzero (fmin fone x).

Lemma fone_eq : fone = S754_finite false 4503599627370496 (-52).
Proof. reflexivity. Qed.

Lemma clamp01_cases x :
  clamp01 x = fzero \/ clamp01 x = fone \/
  exists m e, x = S754_finite false m e /\ clamp01 x = x /\ SFltb x fone = true.
Proof.
  unfold clamp01, fmin. destruct (SFltb x fone) eqn:E; [|by right; left].
  unfold fmax. destruct (SFltb fzero x) eqn:E'; [|by left].
  right; right. destruct x as [|[]| |[] m e]; try done. by exists m, e.
Qed.

Lemma lt_one_mantissa m e :
  Zpos m < 2 ^ prec -> SFltb (S754_finite false m e) fone = true ->
  e < 0 /\ Zpos m < 2 ^ (- e).
Proof.
  rewrite fone_eq. unfold SFltb. cbn [SFcompare]. intros Hm H.
  destruct (Z.compare_spec e (-52)) as [->|He|He]; [| |done].
  - split; [done|]. change (Pos.compare_cont Eq) with Pos.compare in H.
    pose proof (Pos.compare_spec m 4503599627370496) as Hc. revert H Hc.
    destruct (Pos.compare m 4503599627370496); [done| |done]. intros _ Hc.
    replace (2 ^ (- -52)) with (Zpos 4503599627370496) by (vm_compute; reflexivity).
    inversion Hc. by apply Pos2Z.pos_lt_pos.
  - split; [lia|]. eapply Z.lt_le_trans; [exact Hm|]. apply Z.pow_le_mono_r; unfold prec; lia.
Qed.

Lemma round_half_even_bound n k b :
  0 <= k -> 0 <= n < b * 2 ^ k -> 0 <= round_half_even n k <= b.
Proof.
  intros Hk Hn. unfold round_half_even.
  assert (Hp : 0 < 2 ^ k) by (by apply Z.pow_pos_nonneg).
  assert (0 <= n / 2 ^ k < b).
  { split; [by apply Z.div_pos; lia|]. apply Z.div_lt_upper_bound; lia. }
  destruct (_ ?= _); [destruct (Z.even _)| |]; lia.
Qed.

(** A clamped and rounded score is one of the 10001 decimals of the unit interval. *)
Lemma round4_clamp01 x :
  is_float x -> exists k, 0 <= k <= 10000 /\ round4 (clamp01 x) = ratio k 10000.
Proof.
  intros Hx. destruct (clamp01_cases x) as [->|[->|(m & e & -> & -> & Hlt)]].
  - exists 0. split; [lia | reflexivity].
  - exists 10000. split; [lia | vm_compute; reflexivity].
  - apply lt_one_mantissa in Hlt as [He Hm]; [|done].
    exists (scaled 4 m e). split; [|done]. unfold scaled.
    destruct (Z.leb_spec 0 e); [lia|]. apply round_half_even_bound; [lia|].
    change (10 ^ 4) with 10000. lia.
Qed.

Definition in_unit (x : float) : bool := SFleb fzero x && SFleb x fone.

Lemma shr_fexp_eq m e l :
  (shr_fexp prec emax m e l).2 = Z.max e (fexp prec emax (Zdigits2 m + e)).
Proof.
  unfold shr_fexp, shr. destruct (fexp prec emax (Zdigits2 m + e) - e) eqn:E; cbn [snd]; lia.
Qed.

Lemma digits2_le m k : 0 <= k -> Zpos m < 2 ^ k -> Zdigits2 (Zpos m) <= k.
Proof.
  cbn [Zdigits2]. revert k. induction m as [m IH|m IH|]; intros k Hk Hm; cbn [digits2_pos].
  1,2: rewrite Pos2Z.inj_succ; destruct (Z.eq_dec k 0) as [->|]; [cbn in Hm; lia|];
    specialize (IH (k - 1)); replace k with (1 + (k - 1)) in Hm by lia;
    rewrite Z.pow_add_r in Hm by lia; lia.
  destruct (Z.eq_dec k 0) as [->|]; [by cbn in Hm|lia].
Qed.

(** Mantissa comparison, on variables: the comparison never computes. *)
Lemma mantissa_leb m n :
  Zpos m <= Zpos n -> SFleb (S754_finite false m (-52)) (S754_finite false n (-52)) = true.
Proof.
  unfold SFleb. cbn. unfold Z.le. cbn. change (Pos.compare_cont Eq m n) with (Pos.compare m n).
  by destruct (Pos.compare m n).
Qed.

Lemma le_one_mantissa m e :
  e < -52 \/ (e <= -52 /\ Zpos m <= 2 ^ 52) -> SFleb (S754_finite false m e) fone = true.
Proof.
  rewrite fone_eq. intros H.
  destruct (Z.eq_dec e (-52)) as [->|Hne].
  - destruct H as [H|[_ H]]; [lia|]. apply mantissa_leb.
    by replace (Zpos 4503599627370496) with (2 ^ 52) by (vm_compute; reflexivity).
  - unfold SFleb. cbn [SFcompare]. rewrite (proj2 (Z.compare_lt_iff e (-52))); [done|lia].
Qed.

(** Rounding a nonnegative number below one, given to 53 bits at least, gives at most one. *)
Lemma binary_round_aux_le_one q e l :
  0 <= q < 2 ^ (- e) -> e <= -53 -> in_unit (binary_round_aux prec emax false q e l) = true.
Proof.
  intros Hq He. unfold binary_round_aux.
  assert (Hd : Zdigits2 q <= - e) by (destruct q; [cbn; lia|apply digits2_le; lia|lia]).
  pose proof (shr_fexp_bound q e l (proj1 Hq)) as H1. pose proof (shr_fexp_eq q e l) as E1.
  destruct (shr_fexp prec emax q e l) as [r1 e1]. cbn [fst snd] in H1, E1.
  assert (He1 : e1 <= -53) by (unfold fexp, emin, prec, emax in E1; lia).
  set (m2 := round_nearest_even (shr_m r1) (loc_of_shr_record r1)).
  assert (Hm2 : 0 <= m2 <= 2 ^ 53).
  { unfold m2, prec in *. destruct (loc_of_shr_record r1) as [|[]]; cbn [round_nearest_even];
      try destruct (Z.even _); lia. }
  clearbody m2. clear E1 H1 r1.
  pose proof (shr_fexp_bound m2 e1 loc_Exact (proj1 Hm2)) as H2.
  pose proof (shr_fexp_eq m2 e1 loc_Exact) as E2.
  assert (Hhalf : 2 ^ 53 <= m2 -> shr_m (shr_fexp prec emax m2 e1 loc_Exact).1 <= 2 ^ 52).
  { intros Hm. assert (m2 = 2 ^ 53) as -> by lia. unfold shr_fexp, shr.
    assert (Hn : 1 <= fexp prec emax (Zdigits2 (2 ^ 53) + e1) - e1).
    { change (Zdigits2 (2 ^ 53)) with 54. unfold fexp, prec. lia. }
    destruct (fexp _ _ _ - e1) as [|n|n]; try lia. cbn [fst].
    rewrite iter_shr_m, shr_record_of_loc_m by (rewrite shr_record_of_loc_m; lia).
    apply Z.div_le_upper_bound; [lia|]. rewrite <- Z.pow_add_r by lia. apply Z.pow_le_mono_r; lia. }
  assert (Hexp : (shr_fexp prec emax m2 e1 loc_Exact).2 <= (if m2 <? 2 ^ 53 then -53 else -52)).
  { rewrite E2. destruct (Z.ltb_spec m2 (2 ^ 53)) as [Hlt|Hge].
    - assert (Zdigits2 m2 <= 53) by (destruct m2; [cbn; lia|apply digits2_le; lia|lia]).
      unfold fexp, emin, prec, emax. lia.
    - assert (m2 = 2 ^ 53) as -> by lia. change (Zdigits2 (2 ^ 53)) with 54.
      unfold fexp, emin, prec, emax. lia. }
  destruct (shr_fexp prec emax m2 e1 loc_Exact) as [r2 e2]. cbn [fst snd] in *.
  destruct (shr_m r2) as [|m|m]; [done| |lia].
  destruct (Z.leb_spec e2 (emax - prec)) as [|Hbig].
  2:{ exfalso. unfold emax, prec in Hbig. destruct (m2 <? 2 ^ 53); lia. }
  unfold in_unit. apply andb_true_iff. split; [done|]. apply le_one_mantissa.
  destruct (m2 <? 2 ^ 53) eqn:E; [left; lia|right]. split; [exact Hexp|]. apply Hhalf. lia.
Qed.

Lemma ratio_unit k : 0 <= k <= 10000 -> in_unit (ratio k 10000) = true.
Proof.
  intros Hk. destruct (Z.eq_dec k 10000) as [->|Hne]; [vm_compute; reflexivity|].
  destruct k as [|p|p]; [reflexivity| |lia]. unfold ratio, SFdiv.
  assert (Hd : Zdigits2 (Zpos p) <= 14) by (apply digits2_le; [done|change (2 ^ 14) with 16384; lia]).
  unfold SFdiv_core_binary. change (Zdigits2 10000) with 14.
  set (e := Z.min _ _).
  assert (He : e = fexp prec emax (Zdigits2 (Zpos p) - 14)).
  { unfold e, fexp, prec, emax, emin. lia. }
  assert (He' : e <= -53) by (rewrite He; unfold fexp, prec, emax, emin; lia).
  clearbody e. replace (0 - 0 - e) with (- e) by lia.
  destruct (- e) as [|s|s] eqn:Es; [lia| |lia].
  destruct (Z.div_eucl (Z.shiftl (Zpos p) (Zpos s)) 10000) as [q r] eqn:Eq.
  apply binary_round_aux_le_one; [|done]. rewrite Es.
  pose proof (Z.div_eucl_eq (Z.shiftl (Zpos p) (Zpos s)) 10000 ltac:(done)) as Hdiv.
  assert (q = Z.shiftl (Zpos p) (Zpos s) / 10000) as -> by (unfold Z.div; by rewrite Eq).
  rewrite Z.shiftl_mul_pow2 by done. split; [apply Z.div_pos; lia|].
  apply Z.div_lt_upper_bound; [lia|]. assert (0 < 2 ^ Zpos s) by (by apply Z.pow_pos_nonneg). nia.
Qed.

(** ** A positive number is a positive float *)

Definition is_positive (x : float) : bool := match x with S754_finite false _ _ | S754_infinity false => true | _ => false end.

Lemma digits2_lower m : 2 ^ (Zdigits2 (Zpos m) - 1) <= Zpos m.
Proof.
  cbn. induction m as [m IH|m IH|]; cbn [digits2_pos]; [| |done]; rewrite Pos2Z.inj_succ;
    assert (0 < Zpos (digits2_pos m)) by done; replace (Z.succ (Zpos (digits2_pos m)) - 1) with (1 + (Zpos (digits2_pos m) - 1)) by lia;
    rewrite Z.pow_add_r by lia; lia.
Qed.

(** Bringing a number to the format keeps a bit of it, if it is not below the format. *)
Lemma shr_fexp_positive m e l : 0 < m -> emin prec emax <= Zdigits2 m + e - 1 -> 0 < shr_m (shr_fexp prec emax m e l).1.
Proof.
  intros Hm He. destruct m as [|m|m]; [lia| |lia]. pose proof (digits2_lower m) as Hd.
  assert (0 < Zdigits2 (Zpos m)) by done. unfold shr_fexp, shr.
  destruct (fexp prec emax (Zdigits2 (Zpos m) + e) - e) as [|n|n] eqn:En; cbn [fst]; rewrite ?shr_record_of_loc_m; try done.
  rewrite iter_shr_m, shr_record_of_loc_m by (by rewrite shr_record_of_loc_m). apply Z.div_str_pos.
  split; [by apply Z.pow_pos_nonneg|]. etrans; [|exact Hd]. apply Z.pow_le_mono_r; [done|]. unfold fexp, prec in *. lia.
Qed.

Lemma binary_round_aux_positive m e l : 0 < m -> emin prec emax <= Zdigits2 m + e - 1 ->
  is_positive (binary_round_aux prec emax false m e l) = true.
Proof.
  intros Hm He. unfold binary_round_aux. pose proof (shr_fexp_positive m e l Hm He) as H1. pose proof (shr_fexp_eq m e l) as E1.
  destruct (shr_fexp prec emax m e l) as [r1 e1]. cbn [fst snd] in *.
  assert (Hr : 0 < round_nearest_even (shr_m r1) (loc_of_shr_record r1)) by (destruct (loc_of_shr_record r1) as [|[]]; cbn; try destruct (Z.even _); lia).
  set (m2 := round_nearest_even _ _) in *. assert (1 <= Zdigits2 m2) by (destruct m2; [lia|cbn; lia|lia]).
  pose proof (shr_fexp_positive m2 e1 loc_Exact Hr ltac:(unfold fexp in E1; lia)) as H2.
  destruct (shr_fexp prec emax m2 e1 loc_Exact) as [r2 e2]. cbn [fst] in *.
  destruct (shr_m r2) as [|m'|m']; [lia| |lia]. by destruct (e2 <=? emax - prec).
Qed.

Lemma float_of_int_positive n : 0 < n -> is_positive (float_of_int n) = true.
Proof.
  intros Hn. destruct n as [|p|p]; [lia| |lia]. unfold float_of_int. cbn [Z.ltb Z.compare]. unfold ratio, SFdiv, SFdiv_core_binary.
  change (Zdigits2 1) with 1. set (d := Zdigits2 (Zpos p)). assert (Hd : 0 < d) by done.
  set (e := Z.min _ _). assert (He : e <= 0) by (unfold e; lia).
  assert (Hb : exists q, 0 < q /\ 1 <= Zdigits2 q + e /\ forall s, s = 0 - 0 - e ->
     match s with Zpos _ => Z.shiftl (Zpos p) s | Z0 => Zpos p | Zneg _ => 0 end = q).
  { exists (Z.shiftl (Zpos p) (- e)). rewrite Z.shiftl_mul_pow2 by lia.
    assert (0 < 2 ^ (- e)) by (apply Z.pow_pos_nonneg; lia). split; [lia|]. split.
    - destruct (Z.pos p * 2 ^ (- e)) as [|q|q] eqn:Eq; [lia| |lia]. pose proof (digits2_bound q) as Hq.
      assert (2 ^ (- e) < 2 ^ Zdigits2 (Zpos q)) by (eapply Z.le_lt_trans; [|exact Hq]; rewrite <- Eq, <- (Z.mul_1_l (2 ^ (- e))) at 1; apply Z.mul_le_mono_nonneg_r; lia).
      assert (- e < Zdigits2 (Zpos q)); [|lia]. apply (Z.pow_lt_mono_r_iff 2); [done|by destruct q|done].
    - intros s ->. replace (0 - 0 - e) with (- e) by lia. destruct (- e) eqn:E; [cbn; lia| |lia]. by rewrite Z.shiftl_mul_pow2 by lia. }
  destruct Hb as (q & Hq & Hdq & Hs). rewrite (Hs _ eq_refl). destruct (Z.div_eucl q 1) as [q0 r] eqn:Eq.
  assert (q0 = q) as -> by (pose proof (Z.div_1_r q) as H1; unfold Z.div in H1; rewrite Eq in H1; done).
  apply binary_round_aux_positive; [done|]. change (emin prec emax) with (-1074). lia.
Qed.

(** ** Comparisons *)

Lemma SFcompare_sym x y : SFcompare y x = option_map CompOpp (SFcompare x y).
Proof.
  destruct x as [[]|[]| |[] m e], y as [[]|[]| |[] n f]; try done; cbn; rewrite (Z.compare_antisym f e);
    destruct (Z.compare f e) eqn:E; cbn; try done; change (Pos.compare_cont Eq m n) with (Pos.compare m n);
    change (Pos.compare_cont Eq n m) with (Pos.compare n m); rewrite (Pos.compare_antisym m n); by destruct (Pos.compare m n).
Qed.

Lemma SFcompare_number x y : x <> S754_nan -> y <> S754_nan -> is_Some (SFcompare x y).
Proof. destruct x, y; intros; try done; by eexists. Qed.

(** Numbers compare one way or the other. *)
Lemma SFltb_false x y : x <> S754_nan -> y <> S754_nan -> SFltb y x = false -> SFleb x y = true.
Proof.
  intros Hx Hy. unfold SFltb, SFleb. rewrite (SFcompare_sym x y). destruct (SFcompare_number x y Hx Hy) as [c ->]. by destruct c.
Qed.
Lemma SFleb_false x y : x <> S754_nan -> y <> S754_nan -> SFleb y x = false -> SFltb x y = true.
Proof.
  intros Hx Hy. unfold SFltb, SFleb. rewrite (SFcompare_sym x y). destruct (SFcompare_number x y Hx Hy) as [c ->]. by destruct c.
Qed.
