(* ===== verification/PyRegex.v ===== *)
(** * Regular expressions: the fragment of [re] the program uses

    Patterns are trees; [rmatch] is the backtracking matcher, trying
    alternatives and repetitions in the order Python does; [re_sub] replaces the
    leftmost non-overlapping matches and [finditer] lists them. Repetition is of single
    characters only, which is all the program's patterns need, so the matcher
    is structurally recursive. *)

From S2P Require Import Prelude PyStr.
Open Scope string_scope.
Open Scope list_scope.

Inductive re :=
| REps
| RChr (p : ascii -> bool)
| RSeq (a b : re)
| RAlt (a b : re)
| RStar (greedy : bool) (p : ascii -> bool)
| RWordB
| RGroup (n : nat) (r : re).

Definition captures : Type := list (nat * list ascii).

Definition word_char (c : ascii) : bool := is_alpha c || is_digit c || Ascii.eqb c "_"%char.
Definition is_word_opt (c : option ascii) : bool := match c with Some c => word_char c | None => false end.

Section matcher.
Context {B : Type}.
Abbreviation cont := (option ascii -> list ascii -> captures -> option B).

Definition or_else (a b : option B) : option B := match a with Some _ => a | None => b end.

(** [p*] and [p*?] *)
Fixpoint star (greedy : bool) (p : ascii -> bool) (prev : option ascii) (s : list ascii)
    (c : captures) (k : cont) : option B :=
  match s with
  | x :: s' =>
      if p x then
        if greedy then or_else (star greedy p (Some x) s' c k) (k prev s c)
        else or_else (k prev s c) (star greedy p (Some x) s' c k)
      else k prev s c
  | [] => k prev s c
  end.

Fixpoint rmatch (r : re) (prev : option ascii) (s : list ascii) (c : captures) (k : cont) : option B :=
  match r with
  | REps => k prev s c
  | RChr p => match s with x :: s' => if p x then k (Some x) s' c else None | [] => None end
  | RSeq a b => rmatch a prev s c (fun prev s c => rmatch b prev s c k)
  | RAlt a b => or_else (rmatch a prev s c k) (rmatch b prev s c k)
  | RStar greedy p => star greedy p prev s c k
  | RWordB => if xorb (is_word_opt prev) (is_word_opt (head s)) then k prev s c else None
  | RGroup n r =>
      rmatch r prev s c (fun prev' s' c' => k prev' s' ((n, take (length s - length s') s) :: c'))
  end.
End matcher.

(** The length of the match at the start of [s], with its groups. *)
Definition match_at (r : re) (prev : option ascii) (s : list ascii) : option (nat * captures) :=
  rmatch r prev s [] (fun _ s' c => Some (length s - length s', c)).

Definition group (n : nat) (c : captures) : list ascii :=
  match List.find (fun e => Nat.eqb e.1 n) c with Some e => e.2 | None => [] end.

(** [pattern.sub(replacement, s)] for a pattern with no empty match; [skip]
    characters belong to the match already replaced. *)
Fixpoint sub_go (r : re) (f : captures -> list ascii) (prev : option ascii) (skip : nat)
    (s : list ascii) : list ascii :=
  match s with
  | [] => []
  | x :: s' =>
      match skip with
      | S skip' => sub_go r f (Some x) skip' s'
      | O =>
          match match_at r prev s with
          | Some (S n, c) => f c ++ sub_go r f (Some x) n s'
          | _ => x :: sub_go r f (Some x) 0 s'
          end
      end
  end.
Definition re_sub (r : re) (f : captures -> list ascii) (s : string) : string :=
  of_chars (sub_go r f None 0 (chars s)).

(** Literals, with and without case. *)
Fixpoint rseq (l : list re) : re := match l with [] => REps | [r] => r | r :: l' => RSeq r (rseq l') end.
Fixpoint ralt (l : list re) : re := match l with [] => REps | [r] => r | r :: l' => RAlt r (ralt l') end.
Definition lit (s : string) : re := rseq (map (fun c => RChr (Ascii.eqb c)) (chars s)).
Definition lit_ci (s : string) : re :=
  rseq (map (fun c => RChr (fun x => Ascii.eqb (lower_char c) (lower_char x))) (chars s)).
Definition one_of (s : string) (c : ascii) : bool := existsb (Ascii.eqb c) (chars s).
(** [p+] and [p?] *)
Definition rplus (p : ascii -> bool) : re := RSeq (RChr p) (RStar true p).
Definition ropt (p : ascii -> bool) : re := RAlt (RChr p) REps.

(** A pattern with one group: the group is 1; what comes before it is group 2
    here, so that its length gives the start of group 1. *)
Definition grouped (prefix body suffix : re) : re := RSeq (RGroup 2 prefix) (RSeq (RGroup 1 body) suffix).

(** [pattern.finditer(text)] for a grouped pattern with no empty match: the
    start and the text of group 1 of each match. [guard] is the look-behind;
    [skip] characters belong to the match before. *)
Fixpoint finditer (guard : option ascii -> bool) (r : re) (prev : option ascii) (skip i : nat) (s : list ascii)
    : list (nat * list ascii) :=
  match s with
  | [] => []
  | x :: s' =>
      match skip with
      | S skip' => finditer guard r (Some x) skip' (S i) s'
      | O =>
          match (if guard prev then match_at r prev s else None) with
          | Some (S n, c) => (i + length (group 2 c), group 1 c)%nat :: finditer guard r (Some x) n (S i) s'
          | _ => finditer guard r (Some x) 0 (S i) s'
          end
      end
  end.

Lemma sub_go_no_match r f prev s :
  (forall prev s, match_at r prev s = None) -> sub_go r f prev 0 s = s.
Proof.
  intros H. revert prev. induction s as [|x s IH]; intros prev; cbn; [done|].
  rewrite H. by rewrite IH.
Qed.

Example sub_ex1 : re_sub (rseq [RWordB; lit_ci "ab"; RStar true (Ascii.eqb "c"%char); RWordB])
  (fun _ => chars "#") "abcc xab ABc abd" = "# xab # abd".
Proof. reflexivity. Qed.
Example sub_ex2 : re_sub (rseq [lit "<"; RStar false (fun _ => true); RGroup 1 (lit ">")])
  (fun c => group 1 c) "a<b>c<d>>" = "a>c>>".
Proof. reflexivity. Qed.

(** ** What a match of a pattern is *)

Fixpoint consumes (r : re) : bool :=
  match r with
  | REps | RStar _ _ | RWordB => false
  | RChr _ => true
  | RSeq a b => consumes a || consumes b
  | RAlt a b => consumes a && consumes b
  | RGroup _ r => consumes r
  end.
Fixpoint group_free (r : re) : bool :=
  match r with
  | RSeq a b | RAlt a b => group_free a && group_free b
  | RGroup _ _ => false
  | _ => true
  end.

Section matches.
Context {B : Type}.
Implicit Types k : option ascii -> list ascii -> captures -> option B.

Lemma or_else_Some (a b : option B) x : or_else a b = Some x -> a = Some x \/ b = Some x.
Proof. destruct a; cbn; naive_solver. Qed.

Lemma star_Some g p prev s c k b : star g p prev s c k = Some b -> exists w s' prev', s = w ++ s' /\ k prev' s' c = Some b.
Proof.
  assert (Hk : forall prev s, k prev s c = Some b -> exists w s' prev', s = w ++ s' /\ k prev' s' c = Some b).
  { intros prev0 s0 H. by exists [], s0, prev0. }
  revert prev. induction s as [|x s IH]; intros prev H; cbn in H; [by apply (Hk prev)|].
  assert (IH' : star g p (Some x) s c k = Some b -> exists w s' prev', x :: s = w ++ s' /\ k prev' s' c = Some b).
  { intros (w & s' & prev' & -> & E)%IH. by exists (x :: w), s', prev'. }
  destruct (p x); [|by apply (Hk prev)]. destruct g; apply or_else_Some in H as [H|H]; eauto.
Qed.

Lemma rmatch_Some r prev s c k b : rmatch r prev s c k = Some b ->
  exists w s' prev' c', s = w ++ s' /\ k prev' s' c' = Some b /\ (consumes r = true -> w <> []) /\
    (group_free r = true -> c' = c).
Proof.
  revert prev s c k. induction r as [|p|r1 IH1 r2 IH2|r1 IH1 r2 IH2|g p| |n r IH]; intros prev s c k H; cbn in H |- *.
  - by exists [], s, prev, c.
  - destruct s as [|x s]; [done|]. destruct (p x); [|done]. by exists [x], s, (Some x), c.
  - apply IH1 in H as (w1 & s1 & prev1 & c1 & -> & H & Hw1 & Hc1).
    apply IH2 in H as (w2 & s2 & prev2 & c2 & -> & H & Hw2 & Hc2).
    exists (w1 ++ w2), s2, prev2, c2. repeat split; [by rewrite app_assoc|done| |].
    + intros [Hc|Hc]%orb_true_iff E; apply app_eq_nil in E as [-> ->]; [by apply Hw1|by apply Hw2].
    + intros [G1 G2]%andb_true_iff. by rewrite Hc2, Hc1.
  - apply or_else_Some in H as [H|H]; [apply IH1 in H|apply IH2 in H];
      destruct H as (w & s' & prev' & c' & -> & H & Hw & Hc); exists w, s', prev', c'; repeat split; try done;
      intros [? ?]%andb_true_iff; auto.
  - apply star_Some in H as (w & s' & prev' & -> & H). by exists w, s', prev', c.
  - destruct (xorb _ _); [|done]. by exists [], s, prev, c.
  - apply IH in H as (w & s' & prev' & c' & -> & H & Hw & Hc). by eexists w, s', prev', _.
Qed.
End matches.

(** A match of a grouped pattern is its three parts in turn. *)
Lemma match_at_grouped prefix body suffix prev s n c :
  match_at (grouped prefix body suffix) prev s = Some (n, c) ->
  group_free prefix = true -> group_free body = true -> group_free suffix = true -> consumes body = true ->
  exists w1 w2 w3 s', s = w1 ++ w2 ++ w3 ++ s' /\ group 2 c = w1 /\ group 1 c = w2 /\ w2 <> [] /\
    n = length (w1 ++ w2 ++ w3).
Proof.
  unfold match_at, grouped. cbn. intros H G1 G2 G3 Hb.
  apply rmatch_Some in H as (w1 & s1 & p1 & c1 & -> & H & _ & E1). rewrite E1 in H by done.
  apply rmatch_Some in H as (w2 & s2 & p2 & c2 & -> & H & Hw & E2). rewrite E2 in H by done.
  apply rmatch_Some in H as (w3 & s3 & p3 & c3 & -> & H & _ & E3). rewrite E3 in H by done.
  injection H as <- <-. exists w1, w2, w3, s3. unfold group. cbn [List.find fst snd Nat.eqb].
  repeat split; [| |by apply Hw|rewrite !length_app; lia].
  - rewrite (length_app w1), Nat.add_sub, take_app_length. done.
  - rewrite (length_app w2), Nat.add_sub, take_app_length. done.
Qed.

Section finditer.
Context (guard : option ascii -> bool) (prefix body suffix : re).
Context (Hprefix : group_free prefix = true) (Hbody : group_free body = true) (Hsuffix : group_free suffix = true)
        (Hconsumes : consumes body = true).

(** What a match holds is in the text where the match says, and matches follow
    each other without overlap. *)
Lemma finditer_spec prev skip i s :
  let found := finditer guard (grouped prefix body suffix) prev skip i s in
  (forall m, In m found -> m.2 <> [] /\ exists a b, s = a ++ m.2 ++ b /\ m.1 = (i + length a)%nat /\ (skip <= length a)%nat) /\
  StronglySorted (fun m m' => (m.1 + length m.2 <= m'.1)%nat) found.
Proof.
  cbn zeta. revert prev skip i. induction s as [|x s IH]; intros prev skip i; cbn [finditer]; [by split; [|constructor]|].
  assert (Hnext : forall prev skip m, In m (finditer guard (grouped prefix body suffix) prev skip (S i) s) ->
    m.2 <> [] /\ exists a b, x :: s = a ++ m.2 ++ b /\ m.1 = (i + length a)%nat /\ (S skip <= length a)%nat).
  { intros prev0 skip0 m Hm. destruct (proj1 (IH prev0 skip0 (S i)) m Hm) as (H & a & b & -> & Hi & Hl).
    split; [done|]. exists (x :: a), b. cbn. repeat split; lia. }
  assert (Hweak : forall prev skip m, In m (finditer guard (grouped prefix body suffix) prev skip (S i) s) ->
    m.2 <> [] /\ exists a b, x :: s = a ++ m.2 ++ b /\ m.1 = (i + length a)%nat /\ (0 <= length a)%nat).
  { intros prev0 skip0 m (H & a & b & Hs & Hi & Hl)%Hnext. split; [done|]. exists a, b. repeat split; [done|done|lia]. }
  destruct skip as [|skip]; [|split; [by apply Hnext|apply IH]].
  destruct (if guard prev then _ else None) as [[[|n] c]|] eqn:E; [split; [by apply Hweak|apply IH]| |split; [by apply Hweak|apply IH]].
  destruct (guard prev); [|done].
  apply match_at_grouped in E as (w1 & w2 & w3 & s' & Hs & -> & -> & Hw2 & Hn); try done.
  split.
  - intros m [<-|Hm]; [|by apply Hweak in Hm].
    split; [done|]. exists w1, (w3 ++ s'). repeat split; [done|lia].
  - constructor; [apply IH|]. apply Forall_forall. intros m Hm%list_elem_of_In.
    apply Hnext in Hm as (_ & a & b & _ & -> & Hl). cbn. rewrite !length_app in Hn. lia.
Qed.
End finditer.
