(* ===== verification/PyValue.v ===== *)
(** * Dynamic values: JSON data as the program handles it

    Profiles, tasks, Control Plane responses and artifact payloads are
    [Mapping[str, Any]] in the source. [value] is that data; a dictionary is
    an ordered dictionary with string keys. The operations are the built-ins
    the source applies to such data ([==], [in], [str], [int], [bool],
    iteration, [.get]), and they raise where the built-in raises.

    Numbers are integers: no field the modelled code reads is a fraction. *)

From S2P Require Import Prelude PyStr.
Open Scope string_scope.
Open Scope list_scope.

Inductive value : Type :=
| VNone
| VBool (b : bool)
| VInt (z : Z)
| VStr (s : string)
| VList (l : list value)
| VDict (d : list (string * value)).

Section value_ind.
Variable P : value -> Prop.
Hypothesis HNone : P VNone.
Hypothesis HBool : forall b, P (VBool b).
Hypothesis HInt : forall z, P (VInt z).
Hypothesis HStr : forall s, P (VStr s).
Hypothesis HList : forall l, Forall P l -> P (VList l).
Hypothesis HDict : forall d, Forall (fun kv => P kv.2) d -> P (VDict d).

Fixpoint value_rect_forall (v : value) : P v :=
  match v with
  | VNone => HNone
  | VBool b => HBool b
  | VInt z => HInt z
  | VStr s => HStr s
  | VList l =>
      HList l ((fix go l : Forall P l :=
        match l with
        | [] => Forall_nil_2 P
        | x :: l' => Forall_cons_2 P x l' (value_rect_forall x) (go l')
        end) l)
  | VDict d =>
      HDict d ((fix go d : Forall (fun kv => P kv.2) d :=
        match d with
        | [] => Forall_nil_2 _
        | (k, x) :: d' => Forall_cons_2 (fun kv => P kv.2) (k, x) d' (value_rect_forall x) (go d')
        end) d)
  end.
End value_ind.

(** Structural equality, finer than Python's [==] below. *)
Fixpoint value_dec (a b : value) {struct a} : {a = b} + {a <> b}.
Proof.
  destruct a as [|x|x|x|l|d], b as [|y|y|y|m|e]; try (right; discriminate); [by left| | | | |].
  - destruct (decide (x = y)); [left|right]; congruence.
  - destruct (decide (x = y)); [left|right]; congruence.
  - destruct (decide (x = y)); [left|right]; congruence.
  - destruct (List.list_eq_dec value_dec l m); [left|right]; congruence.
  - destruct (List.list_eq_dec (fun p q : string * value =>
      match decide (p.1 = q.1), value_dec p.2 q.2 with
      | left H1, left H2 => left (injective_projections p q H1 H2)
      | right H1, _ => right (fun E => H1 (f_equal fst E))
      | _, right H2 => right (fun E => H2 (f_equal snd E))
      end) d e); [left|right]; congruence.
Defined.
#[export] Instance value_eq_dec : EqDecision value := value_dec.

(** ** Exceptions: the built-in ones and the classes the source defines

    [OtherError] is an exception of code outside the repository, by class name
    and message. *)
Inductive exn : Type :=
| ValueError (msg : string)
| TypeError (msg : string)
| KeyError (key : string)
| IndexError (msg : string)
| AttributeError (msg : string)
| OSError (msg : string)
| OverflowError (msg : string)
| ProfileEnforcementError (msg stop_reason code : string)
| ToolDeniedError (msg stop_reason : string)
| ToolExecutionError (msg code stop_reason : string) (details : odict value)
| RuntimeValidationError (msg : string)
| RuntimeCancellationError (msg : string)
| RuntimeQueueError (msg : string)
| RuntimeQuotaError (msg stop_reason : string)
| RuntimeTenantStatusError (msg : string)
| CompositionError (msg : string)
| TenantAccessError (msg : string)
| RegistryError (msg : string)
| DuplicateModuleError (msg : string)
| UnknownModuleError (msg : string)
| SkillHandlerRegistrationError (msg : string)
| RuntimeEntryPointError (msg : string)
| ControlPlaneClientError (msg : string)
| CapabilityGapCandidateError (msg : string)
| TenantDataSourceError (msg : string)
| PolicyDenialLedgerError (msg : string)
| SafetyCompilerError (msg : string)
| MemoryCandidateError (msg : string)
| MemoryFeedbackError (msg : string)
| KnowledgeRecordProposalError (msg : string)
| PlannerMemoryRecordError (msg : string)
| RuntimeApiError (msg : string)
| TenantHostnameResolutionError (msg : string)
| MemorySafetyEvaluationError (msg : string)
| MemoryOperationsEvidenceError (msg : string)
| TelemetryEvaluationError (msg : string)
| ShadowEvaluationError (msg : string)
| RegistryValidationError (msg : string)
| RegistryLockfileError (msg : string)
| FileNotFoundError (msg : string)
| NotADirectoryError (msg : string)
| OtherError (name msg : string).

Abbreviation res A := (result exn A).

(** ** [==] : [True == 1], and dictionaries compare without order *)

Definition as_number (v : value) : option Z :=
  match v with VInt z => Some z | VBool b => Some (Z.b2z b) | _ => None end.

Fixpoint py_eq (a b : value) {struct a} : bool :=
  match a, b with
  | VNone, VNone => true
  | VStr s, VStr t => String.eqb s t
  | VList l, VList m =>
      (fix go (l m : list value) : bool :=
         match l, m with
         | [], [] => true
         | x :: l', y :: m' => py_eq x y && go l' m'
         | _, _ => false
         end) l m
  | VDict d, VDict e =>
      Nat.eqb (length d) (length e) &&
      (fix go (d : list (string * value)) : bool :=
         match d with
         | [] => true
         | (k, x) :: d' =>
             match od_get k e with Some y => py_eq x y | None => false end && go d'
         end) d
  | _, _ =>
      match as_number a, as_number b with
      | Some x, Some y => Z.eqb x y
      | _, _ => false
      end
  end.

(** ** [str] and [repr] *)

Definition hex_digit (n : N) : ascii :=
  ascii_of_N (if (n <? 10)%N then 48 + n else 87 + n).

Definition repr_char (quote c : ascii) : list ascii :=
  if Ascii.eqb c quote || Ascii.eqb c "\"%char then ["\"%char; c]
  else if Ascii.eqb c "009"%char then ["\"%char; "t"%char]
  else if Ascii.eqb c "010"%char then ["\"%char; "n"%char]
  else if Ascii.eqb c "013"%char then ["\"%char; "r"%char]
  else if (code c <? 32)%N || (code c =? 127)%N
  then ["\"%char; "x"%char; hex_digit (code c / 16); hex_digit (code c mod 16)]
  else [c].

Definition repr_str (s : string) : string :=
  let l := chars s in
  let quote := if existsb (Ascii.eqb "'"%char) l && negb (existsb (Ascii.eqb "034"%char) l)
               then "034"%char else "'"%char in
  of_chars (quote :: mjoin (map (repr_char quote) l) ++ [quote]).

Fixpoint py_repr (v : value) : string :=
  match v with
  | VNone => "None"
  | VBool true => "True"
  | VBool false => "False"
  | VInt z => zstr z
  | VStr s => repr_str s
  | VList l => "[" +:+ join ", " (map py_repr l) +:+ "]"
  | VDict d =>
      "{" +:+ join ", " (map (fun '(k, x) => repr_str k +:+ ": " +:+ py_repr x) d) +:+ "}"
  end.

Definition py_str (v : value) : string :=
  match v with VStr s => s | _ => py_repr v end.

(** [type(error).__name__] and [str(error)] *)
Definition exn_name (e : exn) : string :=
  match e with
  | ValueError _ => "ValueError" | TypeError _ => "TypeError" | KeyError _ => "KeyError"
  | IndexError _ => "IndexError" | AttributeError _ => "AttributeError" | OSError _ => "OSError"
  | OverflowError _ => "OverflowError" | ProfileEnforcementError _ _ _ => "ProfileEnforcementError"
  | ToolDeniedError _ _ => "ToolDeniedError" | ToolExecutionError _ _ _ _ => "ToolExecutionError"
  | RuntimeValidationError _ => "RuntimeValidationError"
  | RuntimeCancellationError _ => "RuntimeCancellationError"
  | RuntimeQueueError _ => "RuntimeQueueError" | RuntimeQuotaError _ _ => "RuntimeQuotaError"
  | RuntimeTenantStatusError _ => "RuntimeTenantStatusError" | CompositionError _ => "CompositionError"
  | TenantAccessError _ => "TenantAccessError" | RegistryError _ => "RegistryError"
  | DuplicateModuleError _ => "DuplicateModuleError" | UnknownModuleError _ => "UnknownModuleError"
  | SkillHandlerRegistrationError _ => "SkillHandlerRegistrationError"
  | RuntimeEntryPointError _ => "RuntimeEntryPointError" | ControlPlaneClientError _ => "ControlPlaneClientError"
  | CapabilityGapCandidateError _ => "CapabilityGapCandidateError"
  | TenantDataSourceError _ => "TenantDataSourceError"
  | PolicyDenialLedgerError _ => "PolicyDenialLedgerError" | SafetyCompilerError _ => "SafetyCompilerError"
  | MemoryCandidateError _ => "MemoryCandidateError" | MemoryFeedbackError _ => "MemoryFeedbackError"
  | KnowledgeRecordProposalError _ => "KnowledgeRecordProposalError"
  | PlannerMemoryRecordError _ => "PlannerMemoryRecordError"
  | RuntimeApiError _ => "RuntimeApiError"
  | TenantHostnameResolutionError _ => "TenantHostnameResolutionError"
  | MemorySafetyEvaluationError _ => "MemorySafetyEvaluationError"
  | MemoryOperationsEvidenceError _ => "MemoryOperationsEvidenceError"
  | TelemetryEvaluationError _ => "TelemetryEvaluationError"
  | ShadowEvaluationError _ => "ShadowEvaluationError"
  | RegistryValidationError _ => "RegistryValidationError" | RegistryLockfileError _ => "RegistryLockfileError"
  | FileNotFoundError _ => "FileNotFoundError" | NotADirectoryError _ => "NotADirectoryError"
  | OtherError name _ => name
  end.
Definition exn_message (e : exn) : string :=
  match e with
  | KeyError m => repr_str m
  | ValueError m | TypeError m | IndexError m | AttributeError m | OSError m | OverflowError m
  | ProfileEnforcementError m _ _ | ToolDeniedError m _ | ToolExecutionError m _ _ _
  | RuntimeValidationError m | RuntimeCancellationError m | RuntimeQueueError m | RuntimeQuotaError m _
  | RuntimeTenantStatusError m | CompositionError m | TenantAccessError m | RegistryError m
  | DuplicateModuleError m | UnknownModuleError m | SkillHandlerRegistrationError m
  | RuntimeEntryPointError m | ControlPlaneClientError m
  | CapabilityGapCandidateError m | TenantDataSourceError m | PolicyDenialLedgerError m
  | SafetyCompilerError m | MemoryCandidateError m | MemoryFeedbackError m
  | KnowledgeRecordProposalError m | PlannerMemoryRecordError m
  | RuntimeApiError m | TenantHostnameResolutionError m | MemorySafetyEvaluationError m
  | MemoryOperationsEvidenceError m | TelemetryEvaluationError m | ShadowEvaluationError m
  | RegistryValidationError m | RegistryLockfileError m
  | FileNotFoundError m | NotADirectoryError m | OtherError _ m => m
  end.

(** ** [int], [bool], [len], iteration and membership *)

Definition py_int (v : value) : res Z :=
  match v with
  | VInt z => Ok z
  | VBool b => Ok (Z.b2z b)
  | VStr s =>
      match int_of_str s with
      | Some z => Ok z
      | None => Raise (ValueError ("invalid literal for int() with base 10: " +:+ repr_str s))
      end
  | _ => Raise (TypeError "int() argument must be a string, a bytes-like object or a real number")
  end.

Definition truthy (v : value) : bool :=
  match v with
  | VNone => false
  | VBool b => b
  | VInt z => negb (z =? 0)%Z
  | VStr s => negb (String.eqb s "")
  | VList l => nonempty l
  | VDict d => nonempty d
  end.

Definition py_len (v : value) : res Z :=
  match v with
  | VStr s => Ok (Z.of_nat (String.length s))
  | VList l => Ok (Z.of_nat (length l))
  | VDict d => Ok (Z.of_nat (length d))
  | _ => Raise (TypeError "object has no len()")
  end.

Definition py_iter (v : value) : res (list value) :=
  match v with
  | VList l => Ok l
  | VDict d => Ok (map (fun kv => VStr kv.1) d)
  | VStr s => Ok (map (fun c => VStr (String c EmptyString)) (chars s))
  | _ => Raise (TypeError "object is not iterable")
  end.

(** [s in v] for a string [s] *)
Definition py_in (s : string) (v : value) : res bool :=
  match v with
  | VList l => Ok (existsb (py_eq (VStr s)) l)
  | VDict d => Ok (od_mem s d)
  | VStr t => Ok (contains s t)
  | _ => Raise (TypeError "argument is not iterable")
  end.

(** [v in frozenset(l)] for a set of strings: hashing a list or a dict raises. *)
Definition in_frozenset (v : value) (l : list string) : res bool :=
  match v with
  | VStr s => Ok (str_in s l)
  | VList _ => Raise (TypeError "unhashable type: 'list'")
  | VDict _ => Raise (TypeError "unhashable type: 'dict'")
  | _ => Ok false
  end.

(** ** Mapping access *)

Definition dget (k : string) (default : value) (d : odict value) : value :=
  match od_get k d with Some v => v | None => default end.

(** [d[k]] *)
Definition ditem {V} (k : string) (d : odict V) : res V :=
  match od_get k d with Some v => Ok v | None => Raise (KeyError k) end.

Definition as_mapping (v : value) : option (odict value) :=
  match v with VDict d => Some d | _ => None end.
Definition is_mapping (v : value) : bool :=
  match v with VDict _ => true | _ => false end.
Definition is_list (v : value) : bool :=
  match v with VList _ => true | _ => false end.

(** [v is True], [v is False], [v is None] *)
Definition is_true (v : value) : bool := match v with VBool b => b | _ => false end.
Definition is_false (v : value) : bool := match v with VBool b => negb b | _ => false end.
Definition is_none (v : value) : bool := match v with VNone => true | _ => false end.

Definition strs (l : list string) : value := VList (map VStr l).

(** The texts among the items of a list, and those that are not blank. *)
Definition as_text (v : value) : option string := match v with VStr s => Some s | _ => None end.
Definition nonblank (s : string) : bool := negb (String.eqb (strip s) "").
Definition text_items (v : value) : list string := match v with VList l => omap as_text l | _ => [] end.
Definition nonblank_items (v : value) : list string := List.filter nonblank (text_items v).

(** [v if isinstance(v, Mapping) else {}] *)
Definition mapping_of (v : value) : odict value := match v with VDict d => d | _ => [] end.

(** Presence of fields, as every record check of the source begins: the missing
    ones in order. *)
Definition missing_fields (required : list string) (d : odict value) : list string :=
  sorted_strs (List.filter (fun f => negb (od_mem f d)) required).

(** ** Lemmas *)

Lemma py_eq_str s v : py_eq (VStr s) v = true <-> v = VStr s.
Proof.
  destruct v; cbn; try (split; [done | intros [=]]).
  rewrite String.eqb_eq. naive_solver.
Qed.

Lemma py_eq_str_r s v : py_eq v (VStr s) = true <-> v = VStr s.
Proof.
  destruct v; cbn; try (split; [done | intros [=]]).
  rewrite String.eqb_eq. naive_solver.
Qed.

Lemma py_eq_none v : py_eq v VNone = true <-> v = VNone.
Proof. destruct v; cbn; split; try done. Qed.

Lemma py_eq_none_l v : py_eq VNone v = true <-> v = VNone.
Proof. destruct v; cbn; split; try done. Qed.

Lemma py_in_list s l : py_in s (VList l) = Ok true <-> In (VStr s) l.
Proof.
  cbn. split.
  - intros [= H]. apply existsb_exists in H as (x & Hx & E). by apply py_eq_str in E as ->.
  - intros H. f_equal. apply existsb_exists. exists (VStr s). split; [done|]. apply String.eqb_refl.
Qed.

Lemma In_strs s l : In (VStr s) (map VStr l) <-> In s l.
Proof. rewrite in_map_iff. naive_solver. Qed.

Lemma py_in_strs s l : py_in s (strs l) = Ok (str_in s l).
Proof.
  unfold strs, str_in. cbn. f_equal. induction l as [|x l IH]; cbn; [done|]. by rewrite IH.
Qed.

Lemma map_str_strs l : map py_str (map VStr l) = l.
Proof. rewrite map_map. apply map_id. Qed.

Lemma dget_set_eq k v def d : dget k def (od_set k v d) = v.
Proof. unfold dget. by rewrite od_get_set_eq. Qed.

Lemma in_frozenset_Ok v l : in_frozenset v l = Ok true <-> exists s, v = VStr s /\ In s l.
Proof.
  destruct v; cbn; try (split; [done | naive_solver]).
  split.
  - intros [= H%str_in_In]. eauto.
  - intros (? & [= <-] & H%str_in_In). by rewrite H.
Qed.

Lemma text_items_strs l : text_items (strs l) = l.
Proof. unfold text_items, strs. induction l as [|x l IH]; cbn; [done|]. by f_equal. Qed.

Lemma nonblank_items_In v s : In s (nonblank_items v) <-> In s (text_items v) /\ nonblank s = true.
Proof. apply filter_In. Qed.

Lemma missing_fields_nil required d :
  missing_fields required d = [] <-> forall f, In f required -> is_Some (od_get f d).
Proof.
  unfold missing_fields. split.
  - intros H f Hf. destruct (od_get f d) as [v|] eqn:E; [eauto|].
    assert (Hin : In f (List.filter (fun f => negb (od_mem f d)) required)).
    { apply filter_In. split; [done|]. unfold od_mem. by rewrite E. }
    apply (py_sorted_In str_leb) in Hin. unfold sorted_strs in H. by rewrite H in Hin.
  - intros H. replace (List.filter _ required) with (@nil string); [done|]. symmetry.
    induction required as [|f l IH]; [done|]. cbn. destruct (H f) as [v Hv]; [by left|].
    unfold od_mem at 1. rewrite Hv. apply IH. intros g Hg. apply H. by right.
Qed.

Create HintDb pyval.
#[export] Hint Resolve <- py_eq_str py_eq_str_r py_eq_none : pyval.

(** ** Sorting by a key *)

(** [sorted(l, key=key)]: the keys first, then a stable sort. *)
Definition sort_by {A K} (key : A -> res K) (leb : K -> K -> bool) (l : list A) : res (list A) :=
  keys ← mapM key l;
  mret (map snd (py_sorted (fun a b => leb a.1 b.1) (zip keys l))).

Section sort_by.
Context {A K : Type} (key : A -> res K) (leb : K -> K -> bool).

Lemma sort_by_perm l l' : sort_by key leb l = Ok l' -> l' ≡ₚ l.
Proof.
  unfold sort_by. intros (keys & Hk & [= <-])%bind_Ok. rewrite py_sorted_perm.
  apply mapM_Ok, Forall2_length in Hk. by rewrite snd_zip by lia.
Qed.

Lemma sort_by_keys l l' x : sort_by key leb l = Ok l' -> In x l -> exists k, key x = Ok k.
Proof.
  unfold sort_by. intros (keys & Hk & _)%bind_Ok Hx. apply mapM_Ok in Hk.
  destruct (Forall2_In_l _ _ _ _ Hk Hx) as (k & _ & H). eauto.
Qed.

Context (total : forall x y, leb x y = true \/ leb y x = true)
        (trans : forall x y z, leb x y = true -> leb y z = true -> leb x z = true).

Definition key_le (a b : A) : Prop :=
  exists ka kb, key a = Ok ka /\ key b = Ok kb /\ leb ka kb = true.

Lemma sort_by_sorted l l' : sort_by key leb l = Ok l' -> StronglySorted key_le l'.
Proof.
  unfold sort_by. intros (keys & Hk & [= <-])%bind_Ok. apply mapM_Ok in Hk.
  pose proof (py_sorted_StronglySorted (fun a b : K * A => leb a.1 b.1)
    (fun a b => total a.1 b.1) (fun a b c => trans a.1 b.1 c.1) (zip keys l)) as HS.
  assert (HF : forall p, In p (py_sorted (fun a b : K * A => leb a.1 b.1) (zip keys l)) ->
                 key p.2 = Ok p.1).
  { intros [k y] Hin. apply py_sorted_In in Hin. clear -Hk Hin.
    induction Hk as [|a b l keys Hab Hk IH]; cbn in Hin; [done|].
    destruct Hin as [[= <- <-]|Hin]; [done|auto]. }
  revert HF. induction HS as [|p s HS IH Hall]; intros HF; [constructor|].
  constructor; [apply IH; intros; apply HF; by right|].
  apply Forall_forall. intros x Hx. apply list_elem_of_In, in_map_iff in Hx as (q & <- & Hq).
  exists p.1, q.1. split_and!; [apply HF; by left|apply HF; by right|].
  rewrite Forall_forall in Hall. apply Is_true_true, Hall. by apply list_elem_of_In.
Qed.

(** The first element has a least key. *)
Lemma sort_by_head l m l' x : sort_by key leb l = Ok (m :: l') -> In x l -> key_le m x.
Proof.
  intros H Hx. pose proof (sort_by_perm _ _ H) as Hp.
  destruct (sort_by_keys _ _ _ H Hx) as [k Hk]. apply sort_by_sorted in H.
  assert (Hin : In x (m :: l')) by (apply list_elem_of_In; rewrite Hp; by apply list_elem_of_In).
  apply StronglySorted_inv in H as [_ H]. destruct Hin as [->|Hin].
  - exists k, k. split_and!; try done. by destruct (total k k).
  - rewrite Forall_forall in H. by apply H, list_elem_of_In.
Qed.
End sort_by.

(** The first element a test accepts; the test may raise. *)
Fixpoint find_first {A} (f : A -> res bool) (l : list A) : res (option A) :=
  match l with
  | [] => Ok None
  | x :: l' => b ← f x; if b : bool then mret (Some x) else find_first f l'
  end.

Lemma find_first_Some {A} (f : A -> res bool) l x :
  find_first f l = Ok (Some x) -> In x l /\ f x = Ok true.
Proof.
  induction l as [|y l IH]; cbn; [done|]. intros (b & Hb & H)%bind_Ok.
  destruct b; [injection H as ->; auto|]. apply IH in H as [??]. auto.
Qed.

Lemma find_first_None {A} (f : A -> res bool) l :
  find_first f l = Ok None -> forall x, In x l -> f x = Ok false.
Proof.
  induction l as [|y l IH]; cbn; [done|]. intros (b & Hb & H)%bind_Ok.
  destruct b; [done|]. intros x [<-|Hx]; auto.
Qed.

(** In a sorted list the first accepted element has a least key among the accepted ones. *)
Lemma find_first_min {A} (f : A -> res bool) (le : A -> A -> Prop) l x y :
  StronglySorted le l -> find_first f l = Ok (Some x) -> In y l -> f y = Ok true -> y = x \/ le x y.
Proof.
  induction 1 as [|z l _ IH Hz]; cbn; [done|]. intros (b & Hb & H)%bind_Ok.
  intros [->|Hy] Hfy.
  - rewrite Hfy in Hb. injection Hb as <-. injection H as ->. by left.
  - destruct b; [|by apply IH]. injection H as ->. right.
    rewrite Forall_forall in Hz. by apply Hz, list_elem_of_In.
Qed.

(** [a or b] *)
Definition py_or (a b : value) : value := if truthy a then a else b.

Example repr_ex :
  py_repr (VDict [("a'b", VList [VInt (-2); VBool true]); ("c", VNone)])
  = "{" +:+ of_chars ["034"; "a"; "'"; "b"; "034"]%char +:+ ": [-2, True], 'c': None}".
Proof. reflexivity. Qed.
Example eq_ex : py_eq (VDict [("a", VInt 1); ("b", VNone)]) (VDict [("b", VNone); ("a", VBool true)]) = true.
Proof. reflexivity. Qed.
