(* ===== verification/Models.v ===== *)
(** * Shared runtime models: closed vocabularies, identifiers, requests

    Models [runtime/models.py]: the literal types with the sets derived from
    them, [require_choice], [slug_id], [selected_modules] and the
    recomposition request. *)

From S2P Require Import Prelude PyStr PyValue.
Open Scope string_scope.
Open Scope list_scope.

(** ** Vocabularies *)

Inductive RuntimeStatus := RsQueued | RsRunning | RsSucceeded | RsFailed | RsCancelled.

Definition runtime_status_str (s : RuntimeStatus) : string :=
  match s with
  | RsQueued => "queued" | RsRunning => "running" | RsSucceeded => "succeeded"
  | RsFailed => "failed" | RsCancelled => "cancelled"
  end.

Inductive RuntimeQueueStatus :=
| QQueued | QClaiming | QRunning | QSucceeded | QFailed | QCancelled
| QRetryScheduled | QDeadLettered.

Definition queue_status_str (s : RuntimeQueueStatus) : string :=
  match s with
  | QQueued => "queued" | QClaiming => "claiming" | QRunning => "running"
  | QSucceeded => "succeeded" | QFailed => "failed" | QCancelled => "cancelled"
  | QRetryScheduled => "retry_scheduled" | QDeadLettered => "dead_lettered"
  end.

Inductive RuntimeStepKind := KContext | KPlanner | KExecutor | KValidator.

Definition step_kind_str (k : RuntimeStepKind) : string :=
  match k with
  | KContext => "context" | KPlanner => "planner" | KExecutor => "executor"
  | KValidator => "validator"
  end.

#[export] Instance RuntimeStatus_eq_dec : EqDecision RuntimeStatus.
Proof. solve_decision. Defined.
#[export] Instance RuntimeQueueStatus_eq_dec : EqDecision RuntimeQueueStatus.
Proof. solve_decision. Defined.
#[export] Instance RuntimeStepKind_eq_dec : EqDecision RuntimeStepKind.
Proof. solve_decision. Defined.

Definition RUNTIME_STATUSES : list string :=
  ["queued"; "running"; "succeeded"; "failed"; "cancelled"].
Definition RUNTIME_QUEUE_STATUSES : list string :=
  ["queued"; "claiming"; "running"; "succeeded"; "failed"; "cancelled";
   "retry_scheduled"; "dead_lettered"].
Definition RUNTIME_STEP_KINDS : list string := ["context"; "planner"; "executor"; "validator"].
Definition STOP_REASONS : list string :=
  ["completed"; "max_tokens"; "max_duration"; "max_tool_calls"; "max_data_reads";
   "max_memory_ops"; "max_recompositions"; "policy_denied"; "validator_failed";
   "tool_error"; "cancelled"; "needs_recomposition"; "composer_failure"; "runtime_error"].
Definition RUNTIME_EVENT_TYPES : list string :=
  ["task_intake_normalized"; "task_analyzed"; "candidates_discovered"; "candidates_scored";
   "policies_evaluated"; "graph_validated"; "profile_emitted"; "profile_validated";
   "runtime_started"; "access_attempted"; "validator_executed"; "runtime_completed";
   "runtime_failed"; "runtime_cancelled"; "tenant_throttled"; "quota_reserved";
   "quota_exhausted"; "step_started"; "step_completed"; "tool_invocation_started";
   "tool_invocation_completed"; "runtime_after_tool_hook_evaluated"; "budget_exhausted";
   "checkpoint_created"; "recomposition_requested"].
Definition RUNTIME_ACTOR_ROLES : list string :=
  ["context_manager"; "planner"; "executor"; "validator"; "policy_engine"; "quota_manager";
   "runtime"; "composer"].
Definition RUNTIME_PHASES : list string :=
  ["task_intake"; "analysis"; "composition"; "context"; "planner"; "executor"; "validator";
   "finalization"].
Definition RECOMPOSITION_REASONS : list string :=
  ["task_reclassified"; "missing_capability"; "policy_change"; "budget_exhausted";
   "validator_failure"].

Definition require_choice (value : string) (allowed : list string) (field : string) : res unit :=
  raise_if (negb (str_in value allowed))
    (ValueError (field +:+ " must be one of: " +:+ join ", " (sorted_strs allowed)
                 +:+ ". Got: " +:+ value +:+ ".")).

Lemma require_choice_Ok value allowed field :
  require_choice value allowed field = Ok () <-> In value allowed.
Proof.
  unfold require_choice. rewrite raise_if_Ok, negb_false_iff. apply str_in_In.
Qed.

(** The literal types only hold values of their sets, so the run-time checks
    on a typed argument never raise. *)
Lemma runtime_status_choice s f : require_choice (runtime_status_str s) RUNTIME_STATUSES f = Ok ().
Proof. by destruct s. Qed.
Lemma queue_status_choice s f : require_choice (queue_status_str s) RUNTIME_QUEUE_STATUSES f = Ok ().
Proof. by destruct s. Qed.
Lemma step_kind_choice k f : require_choice (step_kind_str k) RUNTIME_STEP_KINDS f = Ok ().
Proof. by destruct k. Qed.

(** ** Recomposition requests *)

Record RecompositionRequest := mkRecompositionRequest {
  source_run_id : string;
  rr_task_id : string;
  rr_parent_profile_id : string;
  requested_profile_generation : Z;
  recomposition_reason : string;
}.

Definition as_event_result (r : RecompositionRequest) : odict value :=
  [("source_run_id", VStr (source_run_id r));
   ("task_id", VStr (rr_task_id r));
   ("parent_profile_id", VStr (rr_parent_profile_id r));
   ("requested_profile_generation", VInt (requested_profile_generation r));
   ("recomposition_reason", VStr (recomposition_reason r))].

Definition from_mapping (d : odict value) : res RecompositionRequest :=
  reason ← (v ← ditem "recomposition_reason" d; mret (py_str v));
  require_choice reason RECOMPOSITION_REASONS "recomposition_reason" ;;
  run ← ditem "source_run_id" d;
  task ← ditem "task_id" d;
  parent ← ditem "parent_profile_id" d;
  generation ← (v ← ditem "requested_profile_generation" d; py_int v);
  mret (mkRecompositionRequest (py_str run) (py_str task) (py_str parent) generation reason).

(** ** Slugs *)

(** [re.sub(r"[...]+", c, s)]: each maximal run of characters in [p] becomes [c]. *)
Fixpoint sub_runs (p : ascii -> bool) (c : ascii) (in_run : bool) (l : list ascii) : list ascii :=
  match l with
  | [] => []
  | x :: l' =>
      if p x then (if in_run then sub_runs p c true l' else c :: sub_runs p c true l')
      else x :: sub_runs p c false l'
  end.

Definition dash : ascii := "-"%char.
Definition is_dash (c : ascii) : bool := Ascii.eqb c dash.
Definition slug_char (c : ascii) : bool := is_lower c || is_digit c.

Definition slug_base (value : string) : list ascii :=
  let slug := strip_chars is_dash
                (sub_runs (fun c => negb (slug_char c)) dash false (chars (casefold value))) in
  let slug := sub_runs is_dash dash false slug in
  let slug := match slug with [] => chars "item" | _ => slug end in
  match slug with
  | c :: _ => if is_alpha c then slug else chars "id-" ++ slug
  | [] => slug
  end.

Definition slug_max (value : string) (prefix : option string) (max_length : nat) : string :=
  let slug := of_chars (slug_base value) in
  let slug := match prefix with
              | Some p => if negb (String.eqb p "") && negb (startswith (p +:+ "-") slug)
                          then p +:+ "-" +:+ slug else slug
              | None => slug
              end in
  strip_with is_dash (str_take max_length slug).

Definition slug_id (value : string) (prefix : option string) : string := slug_max value prefix 96.

(** ** The modules a profile selects *)

Definition SELECTED_FIELDS : list string :=
  ["instructions"; "skills"; "tools"; "knowledge_scopes"; "data_scopes"; "memory_scopes";
   "policies"; "validators"].

Definition selected_modules (profile : odict value) : list string :=
  mjoin (map (fun field =>
    match dget field (VList []) profile with
    | VList values => map py_str values
    | _ => []
    end) SELECTED_FIELDS).

Example slug_ex1 : slug_id "Task: Fix  the bug!" None = "task-fix-the-bug".
Proof. reflexivity. Qed.
Example slug_ex2 : slug_id "9--lives--" (Some "run") = "run-id-9-lives".
Proof. reflexivity. Qed.
Example slug_ex3 : slug_id "run-7" (Some "run") = "run-7".
Proof. reflexivity. Qed.

(** ** What a slug looks like *)

Lemma sub_runs_In p c b l x :
  In x (sub_runs p c b l) -> x = c \/ (In x l /\ p x = false).
Proof.
  revert b. induction l as [|y l IH]; intros b; cbn; [done|].
  destruct (p y) eqn:E; [destruct b|]; cbn; intros H.
  - apply IH in H. naive_solver.
  - destruct H as [->|H]; [by left|]. apply IH in H. naive_solver.
  - destruct H as [->|H]; [by right; auto|]. apply IH in H. naive_solver.
Qed.

Lemma sub_runs_cons p c x l : p x = false -> sub_runs p c false (x :: l) = x :: sub_runs p c false l.
Proof. cbn. by intros ->. Qed.

Lemma sub_runs_length p c b l : (length (sub_runs p c b l) <= length l)%nat.
Proof.
  revert b. induction l as [|y l IH]; intros b; cbn; [lia|].
  destruct (p y); [destruct b|]; cbn; specialize (IH true) as H1; specialize (IH false) as H2; lia.
Qed.

(** No two adjacent dashes; a boolean form, so that prefixes inherit it. *)
Fixpoint no_dash_pair (prev : bool) (l : list ascii) : bool :=
  match l with
  | [] => true
  | c :: l' => negb (prev && is_dash c) && no_dash_pair (is_dash c) l'
  end.

Lemma sub_runs_no_pair b l : no_dash_pair b (sub_runs is_dash dash b l) = true.
Proof.
  revert b. induction l as [|y l IH]; intros b; cbn; [done|].
  destruct (is_dash y) eqn:E; [destruct b|]; cbn.
  - apply IH.
  - apply IH.
  - rewrite E, andb_false_r. cbn. apply IH.
Qed.

Lemma sub_runs_dash_id b l : no_dash_pair b l = true -> sub_runs is_dash dash b l = l.
Proof.
  revert b. induction l as [|y l IH]; intros b; cbn; [done|].
  intros [H1 H2]%andb_true_iff. destruct (is_dash y) eqn:E; cbn in *.
  - destruct b; [done|]. apply Ascii.eqb_eq in E as ->. by rewrite IH.
  - by rewrite IH.
Qed.

Lemma no_dash_pair_weaken b l : no_dash_pair b l = true -> no_dash_pair false l = true.
Proof. destruct l; cbn; [done|]. by intros [_ ?]%andb_true_iff. Qed.

Lemma no_dash_pair_app b l1 l2 : no_dash_pair b (l1 ++ l2) = true -> no_dash_pair b l1 = true.
Proof.
  revert b. induction l1 as [|c l1 IH]; intros b; cbn; [done|].
  intros [-> H]%andb_true_iff. by apply IH.
Qed.

Lemma no_dash_pair_suffix b l1 l2 : no_dash_pair b (l1 ++ l2) = true -> no_dash_pair false l2 = true.
Proof.
  revert b. induction l1 as [|c l1 IH]; intros b; cbn; [apply no_dash_pair_weaken|].
  intros [_ H]%andb_true_iff. by eapply IH.
Qed.

Lemma strip_no_dash_pair p b l : no_dash_pair b l = true -> no_dash_pair false (strip_chars p l) = true.
Proof.
  intros H. unfold strip_chars. destruct (drop_chars_suffix p l) as [l0 E].
  rewrite E in H. apply no_dash_pair_suffix in H.
  destruct (drop_chars_suffix p (reverse (drop_chars p l))) as [l1 E1].
  apply (f_equal reverse) in E1. rewrite reverse_involutive, reverse_app in E1.
  rewrite E1 in H. by apply no_dash_pair_app in H.
Qed.

(** The shape a slug has: slug characters and single inner dashes, a letter first. *)
Definition slug_shape (l : list ascii) : Prop :=
  (forall x, In x l -> slug_char x = true \/ x = dash) /\
  no_dash_pair false l = true /\
  exists c l', l = c :: l' /\ is_lower c = true.

Lemma slug_char_not_dash x : slug_char x = true -> is_dash x = false.
Proof. intros H. destruct (is_dash x) eqn:E; [|done]. apply Ascii.eqb_eq in E as ->. done. Qed.

Lemma slug_char_alpha x : slug_char x = true -> is_alpha x = true -> is_lower x = true.
Proof.
  unfold slug_char, is_alpha, is_lower, is_upper, is_digit. intros H1 H2.
  repeat (apply orb_true_iff in H1 as [H1|H1] || apply orb_true_iff in H2 as [H2|H2]);
    rewrite ?andb_true_iff, ?N.leb_le in *; lia.
Qed.

Lemma slug_base_shape value : slug_shape (slug_base value).
Proof.
  unfold slug_base.
  set (raw := strip_chars is_dash _). set (slug := sub_runs is_dash dash false raw).
  assert (Hraw : forall x, In x raw -> slug_char x = true \/ x = dash).
  { intros x Hx%strip_chars_In%sub_runs_In. destruct Hx as [->|[_ Hx]]; [by right|].
    left. by destruct (slug_char x). }
  assert (Hin : forall x, In x slug -> slug_char x = true \/ x = dash).
  { intros x Hx%sub_runs_In. destruct Hx as [->|[Hx _]]; [by right | by apply Hraw]. }
  assert (Hpair : no_dash_pair false slug = true) by apply sub_runs_no_pair.
  assert (Hhead : forall c l, slug = c :: l -> slug_char c = true).
  { intros c l E. destruct raw as [|c0 raw0] eqn:R; [done|].
    assert (Hc0 : is_dash c0 = false) by (eapply (strip_chars_head is_dash); exact R).
    assert (c = c0) as ->.
    { subst slug. rewrite sub_runs_cons in E by done. by injection E as <- _. }
    destruct (Hraw c0) as [?| ->]; [by left|done|done]. }
  destruct slug as [|c l] eqn:E.
  - cbn. split_and!; [|done|by eexists _, _].
    intros x [<-|[<-|[<-|[<-|[]]]]]; by left.
  - specialize (Hhead c l eq_refl). destruct (is_alpha c) eqn:A.
    + split_and!; [done..|]. exists c, l. split; [done|]. by apply slug_char_alpha.
    + split_and!; [| |by eexists _, _].
      * intros x [<-|[<-|[<-|Hx]]]; [by left|by left|by right|]. by apply Hin.
      * cbn. change (negb (true && is_dash c) && no_dash_pair (is_dash c) l = true).
        rewrite (slug_char_not_dash c Hhead). cbn.
        cbn in Hpair. by rewrite (slug_char_not_dash c Hhead) in Hpair.
Qed.

(** Cutting and stripping keeps the shape. *)
Lemma slug_shape_cut n l :
  (0 < n)%nat -> slug_shape l -> slug_shape (strip_chars is_dash (take n l)).
Proof.
  intros Hn (H1 & H2 & c & l' & -> & Hc). destruct n as [|n]; [lia|].
  change (take (S n) (c :: l')) with (c :: take n l').
  assert (Hd : is_dash c = false) by (apply slug_char_not_dash; unfold slug_char; by rewrite Hc).
  split_and!.
  - intros x Hx%strip_chars_In. apply H1. destruct Hx as [->|Hx]; [by left|right].
    rewrite <- (take_drop n l'). apply in_or_app. by left.
  - eapply (strip_no_dash_pair is_dash false). change (c :: take n l') with (take (S n) (c :: l')).
    eapply no_dash_pair_app. by rewrite take_drop.
  - rewrite strip_chars_cons by done. by eexists _, _.
Qed.

Lemma sub_runs_slug_id b l :
  (forall x, In x l -> slug_char x = true \/ x = dash) -> no_dash_pair b l = true ->
  sub_runs (fun c => negb (slug_char c)) dash b l = l.
Proof.
  revert b. induction l as [|x l IH]; intros b H1 H2; cbn; [done|].
  cbn in H2. apply andb_true_iff in H2 as [Hb H2].
  assert (HIH := IH (is_dash x) (fun y Hy => H1 y (or_intror Hy)) H2).
  destruct (H1 x (or_introl eq_refl)) as [Hx| ->].
  - rewrite Hx. cbn. rewrite (slug_char_not_dash x Hx) in HIH. by rewrite HIH.
  - cbn in *. destruct b; [done|]. by rewrite HIH.
Qed.

Lemma slug_shape_sub_runs l :
  slug_shape l -> sub_runs (fun c => negb (slug_char c)) dash false l = l.
Proof. intros (H1 & H2 & _). by apply sub_runs_slug_id. Qed.

Lemma slug_shape_casefold l : slug_shape l -> casefold (of_chars l) = of_chars l.
Proof.
  intros (H & _). apply casefold_id. rewrite chars_of_chars, forallb_forall.
  intros x Hx. destruct (H x Hx) as [Hs| ->]; [|done].
  unfold slug_char, is_upper, is_lower, is_digit in *.
  apply negb_true_iff, andb_false_iff. rewrite !N.leb_gt.
  apply orb_true_iff in Hs. rewrite !andb_true_iff, !N.leb_le in Hs. lia.
Qed.

(** Already a slug: nothing changes. *)
Definition is_slug (l : list ascii) : Prop :=
  slug_shape l /\ forall c l', reverse l = c :: l' -> is_dash c = false.

Lemma is_slug_strip l : is_slug l -> strip_chars is_dash l = l.
Proof.
  intros [(_ & _ & c & l' & -> & Hc) Ht]. apply strip_chars_id; [|done].
  intros ? ? [= <- _]. apply slug_char_not_dash. unfold slug_char. by rewrite Hc.
Qed.

Lemma slug_base_id l : is_slug l -> slug_base (of_chars l) = l.
Proof.
  intros Hl. pose proof Hl as [Hs _]. unfold slug_base.
  rewrite slug_shape_casefold, chars_of_chars, slug_shape_sub_runs, is_slug_strip by done.
  rewrite sub_runs_dash_id by apply Hs. destruct Hs as (_ & _ & c & l' & -> & Hc).
  by rewrite is_lower_alpha.
Qed.

(** A prefix as the callers pass it: lower-case letters. *)
Definition is_prefix_word (p : string) : bool :=
  nonempty (chars p) && forallb is_lower (chars p).

Lemma prefix_word_shape p l :
  is_prefix_word p = true -> slug_shape l -> slug_shape (chars p ++ dash :: l).
Proof.
  unfold is_prefix_word. intros [Hne Hp]%andb_true_iff (H1 & H2 & c0 & l0 & -> & Hc0).
  rewrite forallb_forall in Hp. split_and!.
  - intros x [Hx|[<-|Hx]]%in_app_iff; [|by right|by apply H1].
    left. unfold slug_char. by rewrite (Hp x Hx).
  - assert (Hgen : forall b ps, ps <> [] \/ b = false -> (forall x, In x ps -> is_lower x = true) ->
              no_dash_pair b (ps ++ dash :: c0 :: l0) = true).
    { intros b ps. revert b. induction ps as [|x ps IH]; intros b Hb Hps.
      - cbn. destruct Hb as [?| ->]; [done|]. cbn.
        assert (E : is_dash c0 = false) by (apply slug_char_not_dash; unfold slug_char; by rewrite Hc0).
        cbn in H2. rewrite E in *. cbn in *. done.
      - cbn. assert (E : is_dash x = false).
        { apply slug_char_not_dash. unfold slug_char. by rewrite (Hps x (or_introl eq_refl)). }
        rewrite E, andb_false_r. cbn. apply IH; [by right|]. intros y Hy. apply Hps. by right. }
    apply Hgen; [by right|done].
  - destruct (chars p) as [|x ps]; [done|]. exists x, (ps ++ dash :: c0 :: l0). split; [done|].
    apply Hp. by left.
Qed.

Lemma chars_slug_max value prefix n :
  exists l, chars (slug_max value prefix n) = strip_chars is_dash (take n l) /\
    (prefix = None -> l = slug_base value) /\
    (match prefix with Some p => is_prefix_word p = true | None => True end -> slug_shape l).
Proof.
  unfold slug_max, strip_with, str_take. rewrite !chars_of_chars.
  eexists. split; [reflexivity|]. split; [by intros ->; rewrite chars_of_chars|].
  pose proof (slug_base_shape value) as Hb.
  destruct prefix as [p|]; [|by rewrite chars_of_chars]. intros Hp.
  destruct (negb _ && negb _); [|by rewrite chars_of_chars].
  rewrite !chars_app, chars_of_chars. cbn. by apply prefix_word_shape.
Qed.

Lemma slug_id_is_slug value prefix :
  match prefix with Some p => is_prefix_word p = true | None => True end ->
  is_slug (chars (slug_id value prefix)) /\ (String.length (slug_id value prefix) <= 96)%nat.
Proof.
  intros Hp. unfold slug_id. destruct (chars_slug_max value prefix 96) as (l & E & _ & Hs).
  rewrite <- length_chars, E. split.
  - split; [apply slug_shape_cut; [lia | by apply Hs]|]. apply strip_chars_last.
  - etrans; [apply strip_chars_length|]. rewrite length_take. lia.
Qed.

Lemma slug_id_of_slug s :
  is_slug (chars s) -> (String.length s <= 96)%nat -> slug_id s None = s.
Proof.
  intros Hslug Hlen. unfold slug_id, slug_max.
  rewrite <- (of_chars_chars s) at 1. rewrite slug_base_id by done. rewrite of_chars_chars.
  unfold strip_with, str_take. rewrite chars_of_chars, take_ge by (by rewrite length_chars).
  by rewrite is_slug_strip, of_chars_chars.
Qed.

(** ** Properties *)

(** Identifiers are safe names: whatever text it is derived from, a slug
    (with any of the callers' letter-only prefixes) starts with a lower-case
    letter, consists of lower-case letters, digits and single inner dashes
    (so no path separator, dot or blank), and has at most 96 characters. *)
Theorem slug_id_safe value prefix :
  match prefix with Some p => is_prefix_word p = true | None => True end ->
  is_slug (chars (slug_id value prefix)) /\ (String.length (slug_id value prefix) <= 96)%nat.
Proof. apply slug_id_is_slug. Qed.

Lemma slug_id_safe_witness :
  is_slug (chars (slug_id "../Etc/passwd" (Some "run"))) /\
  (String.length (slug_id "../Etc/passwd" (Some "run")) <= 96)%nat.
Proof. apply (slug_id_safe "../Etc/passwd" (Some "run")). reflexivity. Defined.

(** A slug is a canonical form: slugging it again changes nothing. *)
Theorem slug_id_idempotent value : slug_id (slug_id value None) None = slug_id value None.
Proof. destruct (slug_id_is_slug value None I). by apply slug_id_of_slug. Qed.
