(* ===== verification/Enforcement.v ===== *)
(** * The runtime profile enforcer

    Models [runtime/enforcement.py]. [enforcer] is the object's state; an
    operation is an effect on it, because a refused operation still leaves the
    counters it has already charged. The monotonic clock is read in
    nanoseconds and each reading is an argument. *)

From S2P Require Import Prelude PyStr PyValue Models.
Open Scope string_scope.
Open Scope list_scope.
Open Scope Z_scope.

Definition GLOBAL_TENANT_ID : string := "global".
Definition ALLOWED_TENANT_STATUSES : list string := ["setup"; "active"].
Definition ALLOWED_MEMBERSHIP_STATUSES : list string := ["active"].
Definition BASELINE_TENANT_INSTRUCTIONS : gset string :=
  list_to_set ["base-agent-rules"; "code-review-rules"].
Definition BASELINE_TENANT_VALIDATORS : gset string := {["runtime-profile-schema"]}.

(** ** Module-level helpers *)

Definition limit_stop_reason (limit_name : string) : string :=
  match od_get limit_name
    [("max_tool_calls", "max_tool_calls"); ("max_tokens", "max_tokens");
     ("max_data_reads", "max_data_reads"); ("max_memory_ops", "max_memory_ops");
     ("max_recompositions", "max_recompositions")] with
  | Some r => r
  | None => "runtime_error"
  end.

Definition risk_rank (risk_level : string) : Z :=
  match od_get risk_level [("low", 0); ("medium", 1); ("high", 2); ("critical", 3)] with
  | Some r => r
  | None => 3
  end.

Definition string_set (values : value) : gset string :=
  match values with
  | VList l =>
      list_to_set (map py_str
        (List.filter (fun v => negb (String.eqb (strip (py_str v)) "")) l))
  | _ => ∅
  end.

Definition mappings (values : value) : list (odict value) :=
  match values with VList l => omap as_mapping l | _ => [] end.

(** The entries of a list that are mappings with a string ["id"], keyed by it. *)
Definition by_string_id {V} (f : odict value -> V) (l : list value) : odict V :=
  od_of_list (omap (fun v =>
    match v with
    | VDict d => match od_get "id" d with Some (VStr i) => Some (i, f d) | _ => None end
    | _ => None
    end) l).

Definition pee (msg code : string) : exn := ProfileEnforcementError msg "policy_denied" code.
Definition deny_listed (denied : list string) (msg code : string) : res unit :=
  raise_if (nonempty denied) (pee (msg +:+ join ", " denied) code).

(** ** State *)

Record enforcer := mkEnforcer {
  profile : odict value;
  started_at : Z;
  tool_calls : Z;
  tokens_used : Z;
  data_reads : Z;
  memory_ops : Z;
  recomposition_requests : Z;
}.

Inductive counter := CToolCalls | CTokens | CDataReads | CMemoryOps | CRecompositions.
#[export] Instance counter_eq_dec : EqDecision counter.
Proof. solve_decision. Defined.

Definition counter_name (c : counter) : string :=
  match c with
  | CToolCalls => "tool_calls" | CTokens => "tokens_used" | CDataReads => "data_reads"
  | CMemoryOps => "memory_ops" | CRecompositions => "recomposition_requests"
  end.
Definition get_counter (c : counter) (s : enforcer) : Z :=
  match c with
  | CToolCalls => tool_calls s | CTokens => tokens_used s | CDataReads => data_reads s
  | CMemoryOps => memory_ops s | CRecompositions => recomposition_requests s
  end.
Definition set_counter (c : counter) (z : Z) (s : enforcer) : enforcer :=
  let '(mkEnforcer p t a b d e r) := s in
  match c with
  | CToolCalls => mkEnforcer p t z b d e r
  | CTokens => mkEnforcer p t a z d e r
  | CDataReads => mkEnforcer p t a b z e r
  | CMemoryOps => mkEnforcer p t a b d z r
  | CRecompositions => mkEnforcer p t a b d e z
  end.

Abbreviation enf A := (eff enforcer exn A).

Definition init (p : odict value) (now : Z) : res enforcer :=
  generation ← py_int (dget "profile_generation" (VInt 1) p);
  mret (mkEnforcer p now 0 0 0 0 (Z.max 0 (generation - 1))).

Definition profile_limit (p : odict value) (limit_name : string) : res Z :=
  match dget "limits" (VDict []) p with
  | VDict limits => py_int (dget limit_name (VInt 0) limits)
  | _ => Ok 0
  end.

Definition _limit (limit_name : string) : enf Z :=
  fun s => (profile_limit (profile s) limit_name, s).

Definition _increment_limit (c : counter) (limit_name : string) (amount : Z)
    (stop_reason : option string) : enf unit :=
  lift (raise_if (amount <? 0)
    (ValueError (counter_name c +:+ " increment must be non-negative."))) ;;
  current ← gets (get_counter c);
  limit ← _limit limit_name;
  lift (raise_if (limit <? current + amount)
    (ProfileEnforcementError ("Runtime profile limit exceeded: " +:+ limit_name +:+ ".")
       (match stop_reason with Some r => r | None => limit_stop_reason limit_name end)
       (limit_name +:+ "_exceeded"))) ;;
  modify (set_counter c (current + amount)).

(** ** Counters *)

Definition record_data_read (count : Z) : enf unit :=
  _increment_limit CDataReads "max_data_reads" count None.
Definition record_memory_op (count : Z) : enf unit :=
  _increment_limit CMemoryOps "max_memory_ops" count None.
Definition record_recomposition_request : enf unit :=
  _increment_limit CRecompositions "max_recompositions" 1 (Some "max_recompositions").

Definition NANOSECONDS : Z := 1000000000.

Definition check_duration (now : Z) : enf unit :=
  max_duration ← _limit "max_duration_seconds";
  started ← gets started_at;
  lift (raise_if (max_duration * NANOSECONDS <? now - started)
    (ProfileEnforcementError "Runtime duration exceeded the active profile budget."
       "max_duration" "max_duration_exceeded")).

Definition consume_tokens (tokens now : Z) : enf unit :=
  lift (raise_if (tokens <? 0) (ValueError "tokens must be non-negative.")) ;;
  check_duration now ;;
  _increment_limit CTokens "max_tokens" tokens None.

(** ** Access checks *)

Definition require_in_profile (field name msg code : string) : enf unit :=
  fun s => ((present ← py_in name (dget field (VList []) (profile s));
             raise_if (negb present) (pee (msg +:+ name) code)), s).

Definition require_tool (tool_name : string) : enf unit :=
  require_in_profile "tools" tool_name "Tool is not allowed by runtime profile: "
    "tool_not_in_runtime_profile".
Definition require_skill (skill_name : string) : enf unit :=
  require_in_profile "skills" skill_name "Skill is not allowed by runtime profile: "
    "skill_not_in_runtime_profile".
Definition require_policy (policy_id : string) : enf unit :=
  require_in_profile "policies" policy_id "Policy is not allowed by runtime profile: "
    "policy_not_in_runtime_profile".

Definition require_module_version (module_name expected_version : string) : enf unit :=
  fun s =>
    let actual := match dget "module_versions" (VDict []) (profile s) with
                  | VDict d => dget module_name VNone d
                  | _ => VNone
                  end in
    (raise_if (negb (py_eq actual (VStr expected_version)))
       (pee ("Module version mismatch for " +:+ module_name +:+ ": expected "
             +:+ expected_version +:+ ", got " +:+ py_str actual +:+ ".")
            "module_version_mismatch"), s).

Definition require_tool_risk (tool_name tool_risk_level : string) : enf unit :=
  fun s =>
    let profile_risk_level := py_str (dget "risk_level" (VStr "low") (profile s)) in
    (raise_if (risk_rank profile_risk_level <? risk_rank tool_risk_level)
       (pee ("Tool risk exceeds profile risk level: " +:+ tool_name +:+ ".")
            "tool_risk_exceeds_profile"), s).

Definition _require_scopes (requested : list string) (allowed : value) (scope_kind : string)
    : res unit :=
  allowed_ids ← py_iter allowed;
  let allowed_set : gset string := list_to_set (map py_str allowed_ids) in
  let denied := sorted_set (list_to_set requested ∖ allowed_set) in
  raise_if (nonempty denied)
    (pee ("Requested " +:+ scope_kind +:+ " scopes are not allowed: " +:+ join ", " denied +:+ ".")
         (scope_kind +:+ "_scope_not_in_runtime_profile")).

Definition require_knowledge_scopes (scope_ids : list string) : enf unit :=
  fun s => (_require_scopes scope_ids (dget "knowledge_scopes" (VList []) (profile s)) "knowledge", s).
Definition require_data_scopes (scope_ids : list string) : enf unit :=
  fun s => (_require_scopes scope_ids (dget "data_scopes" (VList []) (profile s)) "data", s).
Definition require_memory_scopes (scope_ids : list string) : enf unit :=
  fun s => (_require_scopes scope_ids (dget "memory_scopes" (VList []) (profile s)) "memory", s).

Fixpoint require_policies (policies : list string) : enf unit :=
  match policies with
  | [] => mret tt
  | p :: ps => require_policy p ;; require_policies ps
  end.

Definition record_tool_invocation (tool_name : string) (required_data_scopes : list string)
    (required_policies : list string) (tool_risk_level : string) (now : Z) : enf unit :=
  check_duration now ;;
  require_tool tool_name ;;
  require_tool_risk tool_name tool_risk_level ;;
  require_policies required_policies ;;
  _increment_limit CToolCalls "max_tool_calls" 1 None ;;
  if nonempty required_data_scopes
  then require_data_scopes required_data_scopes ;; record_data_read 1
  else mret tt.

(** ** Tenant authority *)

Definition _validate_tenant_identity (tenant_context authority : odict value) : res unit :=
  raise_if (negb (py_eq (dget "tenant_id" VNone authority) (dget "tenant_id" VNone tenant_context)))
    (pee "Tenant authority does not match runtime profile tenant." "tenant_authority_tenant_mismatch") ;;
  raise_if (negb (py_eq (dget "area_id" VNone authority) (dget "area_id" VNone tenant_context)))
    (pee "Tenant authority does not match runtime profile area." "tenant_authority_area_mismatch") ;;
  hostname ← (match dget "hostname" VNone authority with
              | VDict h => Ok h
              | _ => Raise (pee "Tenant authority is missing hostname proof."
                                "tenant_hostname_authority_missing")
              end);
  raise_if (negb (py_eq (dget "tenant_id" VNone hostname) (dget "tenant_id" VNone tenant_context)))
    (pee "Tenant hostname authority crosses tenant boundary." "tenant_hostname_authority_tenant_mismatch") ;;
  raise_if (negb (py_eq (dget "hostname" VNone hostname) (dget "hostname" VNone tenant_context)))
    (pee "Tenant hostname authority does not match runtime profile host." "tenant_hostname_authority_mismatch") ;;
  active ← in_frozenset (dget "status" VNone authority) ALLOWED_TENANT_STATUSES;
  raise_if (negb active) (pee "Tenant is not active for runtime execution." "tenant_not_active") ;;
  role_derivation ← (match dget "role_derivation" VNone tenant_context with
                     | VDict d => Ok d
                     | _ => Raise (pee "Tenant role derivation is missing from runtime profile."
                                       "tenant_role_derivation_missing")
                     end);
  raise_if (negb (is_false (dget "direct_user_grants_allowed" VNone role_derivation)))
    (pee "Direct user grants are not allowed for tenant runtime profiles." "tenant_direct_user_grants_enabled") ;;
  raise_if (negb (is_true (dget "capabilities_derive_from_roles" VNone role_derivation)))
    (pee "Tenant runtime capabilities must derive from roles." "tenant_capability_derivation_invalid") ;;
  raise_if (negb (is_true (dget "data_sources_derive_from_roles" VNone role_derivation)))
    (pee "Tenant runtime data sources must derive from roles." "tenant_data_source_derivation_invalid") ;;
  raise_if (negb (is_false (dget "direct_user_grants_allowed" VNone authority)))
    (pee "Tenant authority cannot permit direct user grants." "tenant_authority_direct_user_grants_enabled").

(** [auth_context.principal.id], with the source's defaults on the way *)
Definition profile_principal_id (p : odict value) : value :=
  let principal := match dget "auth_context" (VDict []) p with
                   | VDict a => dget "principal" (VDict []) a
                   | _ => VDict []
                   end in
  match principal with VDict d => dget "id" VNone d | _ => VNone end.

Definition _validate_tenant_membership (p tenant_context authority : odict value)
    : res (list string) :=
  membership ← (match dget "membership" VNone authority with
                | VDict m => Ok m
                | _ => Raise (pee "Tenant authority is missing membership proof."
                                  "tenant_membership_missing")
                end);
  raise_if (negb (py_eq (dget "id" VNone membership) (dget "membership_id" VNone tenant_context)))
    (pee "Tenant authority membership does not match runtime profile." "tenant_membership_mismatch") ;;
  raise_if (negb (py_eq (dget "tenant_id" VNone membership) (dget "tenant_id" VNone tenant_context)))
    (pee "Tenant membership crosses tenant boundary." "tenant_membership_crosses_tenant") ;;
  raise_if (negb (py_eq (dget "principal_id" VNone membership) (profile_principal_id p)))
    (pee "Tenant membership principal does not match runtime profile."
         "tenant_membership_principal_mismatch") ;;
  active ← in_frozenset (dget "status" VNone membership) ALLOWED_MEMBERSHIP_STATUSES;
  raise_if (negb active) (pee "Tenant membership is not active." "tenant_membership_not_active") ;;
  let membership_roles := string_set (dget "role_ids" (VList []) membership) in
  let profile_roles := string_set (dget "role_ids" (VList []) tenant_context) in
  deny_listed (sorted_set (profile_roles ∖ membership_roles))
    "Tenant runtime profile selected roles outside membership: " "tenant_role_not_in_membership" ;;
  mret (sorted_set profile_roles).

Definition _tenant_role_bundles (authority : odict value) (role_ids : list string)
    : res (list (odict value)) :=
  role_bundles ← (match dget "role_bundles" (VList []) authority with
                  | VList l => Ok l
                  | _ => Raise (pee "Tenant authority role bundles must be a list."
                                    "tenant_role_bundles_invalid")
                  end);
  let by_id := by_string_id (fun role => role) role_bundles in
  deny_listed (sorted_set (list_to_set role_ids ∖ list_to_set (od_keys by_id)))
    "Tenant runtime profile selected unknown roles: " "tenant_role_bundle_missing" ;;
  let tenant_id := py_str (dget "tenant_id" (VStr "") authority) in
  selected_roles ← mapM (fun role_id => ditem role_id by_id) role_ids;
  raise_if (existsb (fun role => negb (py_eq (dget "tenant_id" VNone role) (VStr tenant_id)))
              selected_roles)
    (pee "Tenant role bundle crosses tenant boundary." "tenant_role_bundle_crosses_tenant") ;;
  mret selected_roles.

(** The loop body over one role's data-source grants. *)
Definition grant_step (tenant_id : string) (data_source_tenant_by_id : odict value)
    (granted : gset string) (grant : odict value) : res (gset string) :=
  match dget "data_source_id" VNone grant with
  | VStr data_source_id =>
      raise_if (negb (py_eq (dget data_source_id VNone data_source_tenant_by_id) (VStr tenant_id)))
        (pee "Tenant data-source grant crosses tenant boundary."
             "tenant_data_source_grant_crosses_tenant") ;;
      mret ({[data_source_id]} ∪ granted)
  | _ => Raise (pee "Tenant data-source grant is missing a data source id."
                    "tenant_data_source_grant_invalid")
  end.

Definition role_step (tenant_id : string) (data_source_tenant_by_id : odict value)
    (granted : gset string * gset string) (role : odict value)
    : res (gset string * gset string) :=
  let granted_capabilities :=
    granted.1 ∪ string_set (dget "capability_grants" (VList []) role) in
  granted_data_sources ←
    foldM (grant_step tenant_id data_source_tenant_by_id) granted.2
      (mappings (dget "data_source_grants" (VList []) role));
  mret (granted_capabilities, granted_data_sources).

Definition _validate_tenant_role_grants (tenant_context authority : odict value)
    (role_bundles : list (odict value)) : res unit :=
  data_sources ← (match dget "data_sources" (VList []) authority with
                  | VList l => Ok l
                  | _ => Raise (pee "Tenant authority data sources must be a list."
                                    "tenant_data_sources_invalid")
                  end);
  let tenant_id := py_str (dget "tenant_id" (VStr "") tenant_context) in
  let data_source_tenant_by_id :=
    by_string_id (fun source => dget "tenant_id" VNone source) data_sources in
  granted ← foldM (role_step tenant_id data_source_tenant_by_id) (∅, ∅) role_bundles;
  deny_listed
    (sorted_set (string_set (dget "allowed_role_capabilities" (VList []) tenant_context) ∖ granted.1))
    "Tenant runtime capabilities are not role-derived: " "tenant_capability_not_role_derived" ;;
  deny_listed
    (sorted_set (string_set (dget "allowed_role_data_sources" (VList []) tenant_context) ∖ granted.2))
    "Tenant runtime data sources are not role-derived: " "tenant_data_source_not_role_derived".

(** The module ids one field of the role bundles' derivations allows. *)
Definition derived_modules (role : odict value) : res (odict value) :=
  match dget "derived_runtime_modules" (VDict []) role with
  | VDict d => Ok d
  | _ => Raise (pee "Tenant role bundle is missing runtime module derivation."
                    "tenant_runtime_derivation_missing")
  end.

Definition allowed_for (field : string) (derived : list (odict value)) : gset string :=
  ⋃ (map (fun d => string_set (dget field (VList []) d)) derived).

Definition check_selected (p : odict value) (field : string) (allowed : gset string)
    (code : string) : res unit :=
  deny_listed (sorted_set (string_set (dget field (VList []) p) ∖ allowed))
    ("Tenant runtime profile selected unauthorized " +:+ field +:+ ": ") code.

Definition _validate_tenant_selected_modules (p authority : odict value)
    (role_bundles : list (odict value)) : res unit :=
  derived ← mapM derived_modules role_bundles;
  check_selected p "skills" (allowed_for "skills" derived) "tenant_skill_denied" ;;
  check_selected p "tools" (allowed_for "tools" derived) "tenant_tool_denied" ;;
  check_selected p "policies" (allowed_for "policies" derived) "tenant_policy_denied" ;;
  check_selected p "validators"
    (allowed_for "validators" derived ∪ BASELINE_TENANT_VALIDATORS) "tenant_validator_denied" ;;
  check_selected p "knowledge_scopes"
    (string_set (dget "allowed_knowledge_scopes" (VList []) authority))
    "tenant_knowledge_scope_denied" ;;
  check_selected p "data_scopes"
    (string_set (dget "allowed_data_scopes" (VList []) authority)) "tenant_data_scope_denied" ;;
  check_selected p "memory_scopes"
    (string_set (dget "allowed_memory_scopes" (VList []) authority)) "tenant_memory_scope_denied" ;;
  check_selected p "instructions" BASELINE_TENANT_INSTRUCTIONS "tenant_instruction_denied".

Definition _validate_tenant_authority (p : odict value) : res unit :=
  match dget "tenant_context" VNone p with
  | VDict tenant_context =>
      let tenant_id := py_str (dget "tenant_id" (VStr "") tenant_context) in
      if String.eqb tenant_id GLOBAL_TENANT_ID then
        raise_if (negb (is_none (dget "tenant_authority" VNone p)))
          (pee "Global runtime profiles must not include tenant authority."
               "global_tenant_authority_present")
      else
        match dget "tenant_authority" VNone p with
        | VDict authority =>
            _validate_tenant_identity tenant_context authority ;;
            role_ids ← _validate_tenant_membership p tenant_context authority;
            role_bundles ← _tenant_role_bundles authority role_ids;
            _validate_tenant_role_grants tenant_context authority role_bundles ;;
            _validate_tenant_selected_modules p authority role_bundles
        | _ => Raise (pee "Tenant-scoped runtime profiles require tenant authority."
                          "tenant_authority_missing")
        end
  | _ => Raise (pee "Runtime profile is missing tenant_context." "tenant_context_missing")
  end.

(** ** The check made once before a run *)

Definition missing_versions (p : odict value) : res (list string) :=
  filterM (fun module_id =>
    present ← py_in module_id (dget "module_versions" (VDict []) p); mret (negb present))
    (selected_modules p).

Definition validate_profile (p : odict value) : res unit :=
  missing ← missing_versions p;
  raise_if (nonempty missing)
    (pee ("Selected modules are not version-pinned: " +:+ join ", " (sorted_strs missing) +:+ ".")
         "selected_module_version_missing") ;;
  profile_generation ← py_int (dget "profile_generation" (VInt 1) p);
  max_recompositions ← profile_limit p "max_recompositions";
  raise_if (max_recompositions <? Z.max 0 (profile_generation - 1))
    (ProfileEnforcementError "Profile generation exceeds the recomposition budget."
       "max_recompositions" "max_recompositions_exceeded") ;;
  _validate_tenant_authority p.

Definition validate_profile_for_runtime : enf unit :=
  fun s => (validate_profile (profile s), s).

(** ** Operations as one type, and attempts in sequence

    A caller that catches a refusal may go on using the enforcer: an attempt
    keeps the state its operation left, whether it raised or not. *)

Inductive enforcer_op :=
| OpToolInvocation (tool : string) (data_scopes policies : list string) (risk : string) (now : Z)
| OpConsumeTokens (tokens now : Z)
| OpDataRead (count : Z)
| OpMemoryOp (count : Z)
| OpRecompositionRequest
| OpCheckDuration (now : Z)
| OpRequireSkill (skill : string)
| OpRequireModuleVersion (module_name version : string)
| OpRequireKnowledgeScopes (scopes : list string)
| OpRequireMemoryScopes (scopes : list string)
| OpValidate.

Definition run_op (o : enforcer_op) : enf unit :=
  match o with
  | OpToolInvocation t ds ps r now => record_tool_invocation t ds ps r now
  | OpConsumeTokens n now => consume_tokens n now
  | OpDataRead n => record_data_read n
  | OpMemoryOp n => record_memory_op n
  | OpRecompositionRequest => record_recomposition_request
  | OpCheckDuration now => check_duration now
  | OpRequireSkill k => require_skill k
  | OpRequireModuleVersion m v => require_module_version m v
  | OpRequireKnowledgeScopes l => require_knowledge_scopes l
  | OpRequireMemoryScopes l => require_memory_scopes l
  | OpValidate => validate_profile_for_runtime
  end.

Definition attempt (s : enforcer) (o : enforcer_op) : enforcer := (run_op o s).2.
Definition run_ops (ops : list enforcer_op) (s : enforcer) : enforcer := foldl attempt s ops.

Definition limit_of (c : counter) : string :=
  match c with
  | CToolCalls => "max_tool_calls" | CTokens => "max_tokens" | CDataReads => "max_data_reads"
  | CMemoryOps => "max_memory_ops" | CRecompositions => "max_recompositions"
  end.

(** ** The budget relation every operation respects *)

Lemma get_set_counter c c' z s :
  get_counter c (set_counter c' z s) = if decide (c = c') then z else get_counter c s.
Proof. destruct s, c, c'; reflexivity. Qed.
Lemma profile_set_counter c z s : profile (set_counter c z s) = profile s.
Proof. by destruct s, c. Qed.
Lemma started_set_counter c z s : started_at (set_counter c z s) = started_at s.
Proof. by destruct s, c. Qed.

Create Rewrite HintDb enforcer_rw.
#[export] Hint Rewrite get_set_counter profile_set_counter started_set_counter : enforcer_rw.

Definition budget_step (s s' : enforcer) : Prop :=
  profile s' = profile s /\ started_at s' = started_at s /\
  forall c, get_counter c s <= get_counter c s' /\
    (get_counter c s' = get_counter c s \/
     exists L, profile_limit (profile s) (limit_of c) = Ok L /\ get_counter c s' <= L).

#[export] Instance budget_step_preorder : PreOrder budget_step.
Proof.
  split.
  - intros s. split_and!; [done..|]. intros c. split; [lia | by left].
  - intros s1 s2 s3 (P1 & T1 & C1) (P2 & T2 & C2). split_and!; [congruence..|].
    intros c. destruct (C1 c) as [M1 B1], (C2 c) as [M2 B2]. split; [lia|].
    rewrite P1 in B2. destruct B2 as [E2|?]; [|by right].
    destruct B1 as [E1|(L & HL & Hle)]; [left; congruence | right; exists L; split; [done|lia]].
Qed.

Definition respects_budget {A} (m : enf A) : Prop :=
  forall s r s', m s = (r, s') -> budget_step s s'.

Lemma respects_pure {A} (f : enforcer -> res A) : respects_budget (fun s => (f s, s)).
Proof. intros s r s' [= _ <-]. reflexivity. Qed.

Lemma respects_bind {A B} (m : enf A) (k : A -> enf B) :
  respects_budget m -> (forall a, respects_budget (k a)) -> respects_budget (m ≫= k).
Proof.
  intros Hm Hk s r s'. unfold mbind, eff_bind. destruct (m s) as [[a|e] s1] eqn:E; intros H.
  - etrans; [by eapply Hm | by eapply Hk].
  - injection H as _ <-. by eapply Hm.
Qed.

Lemma increment_limit_eq c limit_name amount reason s :
  _increment_limit c limit_name amount reason s =
  if amount <? 0 then
    (Raise (ValueError (counter_name c +:+ " increment must be non-negative.")), s)
  else match profile_limit (profile s) limit_name with
       | Raise e => (Raise e, s)
       | Ok L =>
           if L <? get_counter c s + amount then
             (Raise (ProfileEnforcementError
                ("Runtime profile limit exceeded: " +:+ limit_name +:+ ".")
                (match reason with Some r => r | None => limit_stop_reason limit_name end)
                (limit_name +:+ "_exceeded")), s)
           else (Ok tt, set_counter c (get_counter c s + amount) s)
       end.
Proof.
  unfold _increment_limit, _limit, lift, gets, modify, raise_if, mbind, eff_bind.
  destruct (amount <? 0); [done|].
  destruct (profile_limit (profile s) limit_name) as [L|e]; [|done].
  by destruct (L <? get_counter c s + amount).
Qed.

Lemma respects_increment c amount reason :
  respects_budget (_increment_limit c (limit_of c) amount reason).
Proof.
  intros s r s'. rewrite increment_limit_eq.
  destruct (Z.ltb_spec amount 0); [intros [= _ <-]; reflexivity|].
  destruct (profile_limit (profile s) (limit_of c)) as [L|e] eqn:EL; [|intros [= _ <-]; reflexivity].
  destruct (Z.ltb_spec L (get_counter c s + amount)); intros [= _ <-]; [reflexivity|].
  split_and!; autorewrite with enforcer_rw; [done..|]. intros c'.
  autorewrite with enforcer_rw. destruct (decide (c' = c)) as [->|]; [|split; [lia | by left]].
  split; [lia|]. right; exists L. split; [done|lia].
Qed.

(** Try the primitive steps before splitting a sequence. *)
Ltac respects :=
  repeat first
    [ apply respects_increment
    | apply respects_pure
    | match goal with |- respects_budget (mret _) => apply (respects_pure (fun _ => mret _)) end
    | match goal with |- respects_budget (lift _) => apply (respects_pure (fun _ => _)) end
    | match goal with |- respects_budget (gets _) => apply (respects_pure (fun _ => Ok _)) end
    | apply respects_bind; [|intros] ].

Lemma respects_check_duration now : respects_budget (check_duration now).
Proof. unfold check_duration, _limit. respects. Qed.

Lemma respects_require_policies ps : respects_budget (require_policies ps).
Proof. induction ps as [|p ps IH]; cbn; respects. exact IH. Qed.

Lemma respects_record_data_read n : respects_budget (record_data_read n).
Proof. apply (respects_increment CDataReads). Qed.

Lemma respects_record_tool_invocation t ds ps r now :
  respects_budget (record_tool_invocation t ds ps r now).
Proof.
  unfold record_tool_invocation.
  apply respects_bind; [apply respects_check_duration|intros _].
  do 2 (apply respects_bind; [apply respects_pure|intros _]).
  apply respects_bind; [apply respects_require_policies|intros _].
  apply respects_bind; [apply (respects_increment CToolCalls)|intros _].
  destruct (nonempty ds); [|respects].
  apply respects_bind; [apply respects_pure|intros _]. apply respects_record_data_read.
Qed.

Lemma respects_consume_tokens n now : respects_budget (consume_tokens n now).
Proof.
  apply respects_bind; [apply (respects_pure (fun _ => _))|intros _].
  apply respects_bind; [apply respects_check_duration|intros _].
  apply (respects_increment CTokens).
Qed.

Create HintDb enforcer.
#[export] Hint Resolve respects_pure respects_check_duration respects_record_data_read
  respects_record_tool_invocation respects_consume_tokens : enforcer.

Lemma respects_run_op o : respects_budget (run_op o).
Proof.
  destruct o; cbn; first
    [ apply (respects_increment CMemoryOps)
    | apply (respects_increment CRecompositions)
    | by auto with enforcer
    | by apply respects_pure ].
Qed.

Lemma run_ops_budget ops s : budget_step s (run_ops ops s).
Proof.
  revert s. induction ops as [|o ops IH]; intros s; cbn; [reflexivity|].
  etrans; [|apply IH]. unfold attempt. destruct (run_op o s) eqn:E. by eapply respects_run_op.
Qed.

(** ** What a tool invocation requires, and what it charges *)

Definition profile_risk (s : enforcer) : string :=
  py_str (dget "risk_level" (VStr "low") (profile s)).

Definition scopes_allowed (requested : list string) (allowed : value) : Prop :=
  exists ids, py_iter allowed = Ok ids /\ forall d, In d requested -> In d (map py_str ids).

Definition within_limit (s : enforcer) (c : counter) (amount : Z) : Prop :=
  exists L, profile_limit (profile s) (limit_of c) = Ok L /\ get_counter c s + amount <= L.

Record tool_permitted (s : enforcer) (tool : string) (ps : list string) (risk : string)
    (now : Z) : Prop := {
  permitted_time : exists d, profile_limit (profile s) "max_duration_seconds" = Ok d /\
                             now - started_at s <= d * NANOSECONDS;
  permitted_tool : py_in tool (dget "tools" (VList []) (profile s)) = Ok true;
  permitted_risk : risk_rank risk <= risk_rank (profile_risk s);
  permitted_policies :
    Forall (fun p => py_in p (dget "policies" (VList []) (profile s)) = Ok true) ps;
  permitted_calls : within_limit s CToolCalls 1;
}.

Record reads_permitted (s : enforcer) (ds : list string) : Prop := {
  permitted_scopes : scopes_allowed ds (dget "data_scopes" (VList []) (profile s));
  permitted_reads : within_limit s CDataReads 1;
}.

Definition charge_call (s : enforcer) : enforcer :=
  set_counter CToolCalls (tool_calls s + 1) s.
Definition charge_read (s : enforcer) : enforcer :=
  set_counter CDataReads (data_reads s + 1) s.

Lemma check_duration_eq now s :
  check_duration now s =
  (max_duration ← profile_limit (profile s) "max_duration_seconds";
   raise_if (max_duration * NANOSECONDS <? now - started_at s)
     (ProfileEnforcementError "Runtime duration exceeded the active profile budget."
        "max_duration" "max_duration_exceeded"), s).
Proof.
  unfold check_duration, _limit, gets, lift, mbind, eff_bind, result_bind.
  by destruct (profile_limit _ _).
Qed.

Lemma check_duration_Ok now s u s' :
  check_duration now s = (Ok u, s') <->
  s' = s /\ exists d, profile_limit (profile s) "max_duration_seconds" = Ok d /\
                      now - started_at s <= d * NANOSECONDS.
Proof.
  rewrite check_duration_eq. destruct u. split.
  - intros [= H <-]. apply bind_Ok in H as (d & Hd & H). split; [done|]. exists d.
    apply raise_if_Ok in H. split; [done|lia].
  - intros (-> & d & Hd & Hle). f_equal. apply bind_Ok. exists d. split; [done|].
    apply raise_if_Ok. lia.
Qed.

Lemma require_in_profile_Ok field name msg c s u s' :
  require_in_profile field name msg c s = (Ok u, s') <->
  s' = s /\ py_in name (dget field (VList []) (profile s)) = Ok true.
Proof.
  unfold require_in_profile. destruct u. split.
  - intros [= H <-]. apply bind_Ok in H as (b & Hb & H). apply raise_if_Ok in H.
    split; [done|]. by destruct b.
  - intros (-> & H). by rewrite H.
Qed.

Lemma require_policies_Ok ps s u s' :
  require_policies ps s = (Ok u, s') <->
  s' = s /\ Forall (fun p => py_in p (dget "policies" (VList []) (profile s)) = Ok true) ps.
Proof.
  destruct u. revert s s'. induction ps as [|p ps IH]; intros s s'; cbn.
  - unfold mret, eff_ret. split; [intros [= <-]; done | intros [-> _]; done].
  - rewrite eff_bind_Ok, Forall_cons. split.
    + intros ([] & s1 & H & H1). apply require_in_profile_Ok in H as [-> H].
      apply IH in H1 as [-> H1]. done.
    + intros (-> & H & H1). exists tt, s. split; [by apply require_in_profile_Ok | by apply IH].
Qed.

Lemma increment_limit_Ok c amount reason s u s' :
  0 <= amount ->
  _increment_limit c (limit_of c) amount reason s = (Ok u, s') <->
  s' = set_counter c (get_counter c s + amount) s /\ within_limit s c amount.
Proof.
  intros Ha. destruct u. rewrite increment_limit_eq.
  destruct (Z.ltb_spec amount 0); [lia|]. unfold within_limit.
  destruct (profile_limit (profile s) (limit_of c)) as [L|e]; [|naive_solver].
  destruct (Z.ltb_spec L (get_counter c s + amount)) as [Hlt|Hle]; split.
  - done.
  - intros (_ & ? & [= <-] & ?). lia.
  - intros [= <-]. eauto.
  - intros [-> _]. done.
Qed.

Lemma require_scopes_Ok requested allowed kind u :
  _require_scopes requested allowed kind = Ok u <-> scopes_allowed requested allowed.
Proof.
  unfold _require_scopes, scopes_allowed. destruct u. rewrite bind_Ok.
  apply exist_proper. intros ids. cbn. rewrite raise_if_Ok, nonempty_false, sorted_set_subset_nil.
  apply and_iff_compat_l. split; intros H x.
  - specialize (H x). rewrite !elem_of_list_to_set, !list_elem_of_In in H. done.
  - rewrite !elem_of_list_to_set, !list_elem_of_In. apply H.
Qed.

Lemma require_data_scopes_Ok ds s u s' :
  require_data_scopes ds s = (Ok u, s') <->
  s' = s /\ scopes_allowed ds (dget "data_scopes" (VList []) (profile s)).
Proof.
  unfold require_data_scopes. split.
  - intros [= H%require_scopes_Ok <-]. done.
  - intros [-> H]. f_equal. by apply require_scopes_Ok.
Qed.

(** The five checks before the call is charged, as one step. *)
Definition admit_call (tool : string) (ps : list string) (risk : string) (now : Z) : enf unit :=
  check_duration now ;;
  require_tool tool ;;
  require_tool_risk tool risk ;;
  require_policies ps ;;
  _increment_limit CToolCalls "max_tool_calls" 1 None.
Definition admit_read (ds : list string) : enf unit :=
  if nonempty ds then require_data_scopes ds ;; record_data_read 1 else mret tt.

Lemma record_tool_invocation_split tool ds ps risk now s :
  record_tool_invocation tool ds ps risk now s = (admit_call tool ps risk now ;; admit_read ds) s.
Proof.
  unfold record_tool_invocation, admit_call, mbind, eff_bind.
  destruct (check_duration now s) as [[[]|e] s1]; [|done].
  destruct (require_tool tool s1) as [[[]|e] s2]; [|done].
  destruct (require_tool_risk tool risk s2) as [[[]|e] s3]; [|done].
  by destruct (require_policies ps s3) as [[[]|e] s4].
Qed.

Lemma admit_call_Ok tool ps risk now s s' :
  admit_call tool ps risk now s = (Ok tt, s') <->
  s' = charge_call s /\ tool_permitted s tool ps risk now.
Proof.
  unfold admit_call, charge_call. split.
  - intros H. apply eff_bind_Ok in H as (? & ? & H1%check_duration_Ok & H).
    destruct H1 as [-> H1].
    apply eff_bind_Ok in H as (? & ? & H2%require_in_profile_Ok & H). destruct H2 as [-> H2].
    apply eff_bind_Ok in H as (? & ? & H3 & H). unfold require_tool_risk in H3.
    injection H3 as H3 <-. apply raise_if_Ok in H3.
    apply eff_bind_Ok in H as (? & ? & H4%require_policies_Ok & H). destruct H4 as [-> H4].
    apply (increment_limit_Ok CToolCalls) in H as [-> H5]; [|lia].
    split; [done|]. constructor; try done. unfold profile_risk. lia.
  - intros [-> [H1 H2 H3 H4 H5]].
    apply eff_bind_Ok. exists tt, s. split; [by apply check_duration_Ok|].
    apply eff_bind_Ok. exists tt, s. split; [by apply require_in_profile_Ok|].
    apply eff_bind_Ok. exists tt, s. split.
    { unfold require_tool_risk. f_equal. apply raise_if_Ok. unfold profile_risk in H3. lia. }
    apply eff_bind_Ok. exists tt, s. split; [by apply require_policies_Ok|].
    apply (increment_limit_Ok CToolCalls); [lia|done].
Qed.

Lemma admit_read_Ok ds s u s' :
  admit_read ds s = (Ok u, s') <->
  if nonempty ds then reads_permitted s ds /\ s' = charge_read s else s' = s.
Proof.
  unfold admit_read, charge_read. destruct (nonempty ds).
  - split.
    + intros H. apply eff_bind_Ok in H as (? & ? & H1%require_data_scopes_Ok & H).
      destruct H1 as [-> H1]. apply (increment_limit_Ok CDataReads) in H as [-> H2]; [|lia].
      done.
    + intros [[H1 H2] ->]. apply eff_bind_Ok. exists tt, s.
      split; [by apply require_data_scopes_Ok | by apply (increment_limit_Ok CDataReads); [lia|]].
  - destruct u. unfold mret, eff_ret. split; [by intros [= <-] | by intros ->].
Qed.

(** A step that can refuse without touching the state. *)
Definition refuses_cleanly {A} (m : enf A) : Prop :=
  forall s e s', m s = (Raise e, s') -> s' = s.

Lemma increment_refuses_cleanly c l n r : refuses_cleanly (_increment_limit c l n r).
Proof.
  intros s e s'. rewrite increment_limit_eq.
  destruct (n <? 0); [by intros [= _ <-]|].
  destruct (profile_limit _ _) as [L|]; [|by intros [= _ <-]].
  destruct (L <? _); [by intros [= _ <-] | done].
Qed.

Lemma require_policies_refuses_cleanly ps : refuses_cleanly (require_policies ps).
Proof.
  induction ps as [|p ps IH]; intros s e s'; cbn; [done|].
  intros H. apply eff_bind_Raise in H as [[= _ <-]|(u & s1 & H1 & H)]; [done|].
  apply require_in_profile_Ok in H1 as [-> _]. by eapply IH.
Qed.

Lemma admit_call_refuses_cleanly tool ps risk now : refuses_cleanly (admit_call tool ps risk now).
Proof.
  intros s e s' H. unfold admit_call in H.
  apply eff_bind_Raise in H as [H|(? & ? & H1 & H)].
  { rewrite check_duration_eq in H. by injection H as _ <-. }
  apply check_duration_Ok in H1 as [-> _].
  apply eff_bind_Raise in H as [[= _ <-]|(? & ? & H1 & H)]; [done|].
  apply require_in_profile_Ok in H1 as [-> _].
  apply eff_bind_Raise in H as [[= _ <-]|(? & ? & H1 & H)]; [done|]. injection H1 as _ <-.
  apply eff_bind_Raise in H as [H|(? & ? & H1 & H)].
  { by eapply require_policies_refuses_cleanly. }
  apply require_policies_Ok in H1 as [-> _]. by eapply increment_refuses_cleanly.
Qed.

Lemma admit_read_refuses_cleanly ds : refuses_cleanly (admit_read ds).
Proof.
  intros s e s'. unfold admit_read. destruct (nonempty ds); [|done].
  intros H. apply eff_bind_Raise in H as [[= _ <-]|(u & s1 & H1 & H)]; [done|].
  apply require_data_scopes_Ok in H1 as [-> _]. by eapply increment_refuses_cleanly.
Qed.

Lemma reads_permitted_charge_call s ds : reads_permitted (charge_call s) ds <-> reads_permitted s ds.
Proof.
  unfold charge_call. split; intros [H1 H2]; constructor; destruct s; exact H1 || exact H2.
Qed.

(** ** Tenant isolation as a specification *)

Definition list_field (field : string) (d : odict value) : list value :=
  match dget field (VList []) d with VList l => l | _ => [] end.
Definition set_field (field : string) (d : odict value) : gset string :=
  string_set (dget field (VList []) d).
Definition derived_field (field : string) (role : odict value) : gset string :=
  match dget "derived_runtime_modules" (VDict []) role with
  | VDict d => set_field field d
  | _ => ∅
  end.

(** A role bundle of the authority, under its id, in the tenant [tid]. *)
Definition bundle_of (authority : odict value) (tid : string) (entry : string * odict value) : Prop :=
  In (VDict entry.2) (list_field "role_bundles" authority) /\
  dget "id" VNone entry.2 = VStr entry.1 /\
  dget "tenant_id" VNone entry.2 = VStr tid.

(** A data source of the tenant [tid] that a role's grant names. *)
Definition source_granted (authority : odict value) (tid src : string) (role : odict value) : Prop :=
  (exists g, In g (mappings (dget "data_source_grants" (VList []) role)) /\
             dget "data_source_id" VNone g = VStr src) /\
  (exists d, In (VDict d) (list_field "data_sources" authority) /\
             dget "id" VNone d = VStr src /\ dget "tenant_id" VNone d = VStr tid).

Record membership_covers (p ctx authority : odict value) (roles : gset string) : Prop := {
  mc_record : exists m, dget "membership" VNone authority = VDict m /\
    py_eq (dget "principal_id" VNone m) (profile_principal_id p) = true /\
    py_eq (dget "tenant_id" VNone m) (dget "tenant_id" VNone ctx) = true /\
    dget "status" VNone m = VStr "active" /\ roles ⊆ set_field "role_ids" m;
}.

Record grants_cover (p ctx authority : odict value) (tid : string)
    (bundles : list (string * odict value)) : Prop := {
  gc_modules : forall field m, In field ["skills"; "tools"; "policies"] -> m ∈ set_field field p ->
    exists entry, In entry bundles /\ m ∈ derived_field field entry.2;
  gc_validators : forall m, m ∈ set_field "validators" p ->
    m = "runtime-profile-schema" \/
    exists entry, In entry bundles /\ m ∈ derived_field "validators" entry.2;
  gc_capabilities : forall c, c ∈ set_field "allowed_role_capabilities" ctx ->
    exists entry, In entry bundles /\ c ∈ set_field "capability_grants" entry.2;
  gc_sources : forall src, src ∈ set_field "allowed_role_data_sources" ctx ->
    exists entry, In entry bundles /\ source_granted authority tid src entry.2;
}.

Record tenant_isolated (p ctx authority : odict value) : Prop := {
  ti_tenant : py_eq (dget "tenant_id" VNone authority) (dget "tenant_id" VNone ctx) = true;
  ti_status : exists st, dget "status" VNone authority = VStr st /\ In st ALLOWED_TENANT_STATUSES;
  ti_no_direct_grants : dget "direct_user_grants_allowed" VNone authority = VBool false;
  ti_membership : membership_covers p ctx authority (set_field "role_ids" ctx);
  ti_grants : exists bundles,
    map fst bundles = sorted_set (set_field "role_ids" ctx) /\
    Forall (bundle_of authority (py_str (dget "tenant_id" (VStr "") authority))) bundles /\
    grants_cover p ctx authority (py_str (dget "tenant_id" (VStr "") ctx)) bundles;
  ti_scopes : set_field "knowledge_scopes" p ⊆ set_field "allowed_knowledge_scopes" authority /\
              set_field "data_scopes" p ⊆ set_field "allowed_data_scopes" authority /\
              set_field "memory_scopes" p ⊆ set_field "allowed_memory_scopes" authority;
  ti_instructions : set_field "instructions" p ⊆ BASELINE_TENANT_INSTRUCTIONS;
}.

Lemma deny_listed_Ok (a b : gset string) msg c u :
  deny_listed (sorted_set (a ∖ b)) msg c = Ok u <-> a ⊆ b.
Proof. unfold deny_listed. by rewrite raise_if_Ok, nonempty_false, sorted_set_subset_nil. Qed.

Lemma by_string_id_get {V} (f : odict value -> V) l i v :
  od_get i (by_string_id f l) = Some v ->
  exists d, In (VDict d) l /\ od_get "id" d = Some (VStr i) /\ v = f d.
Proof.
  intros H%od_get_of_list_In. apply list_elem_of_In, list_elem_of_omap in H as (x & Hx & H).
  apply list_elem_of_In in Hx. destruct x; try done.
  destruct (od_get "id" d) as [w|] eqn:E; [|done]. destruct w; try done.
  injection H as <- <-. eauto.
Qed.

Lemma dget_some k d v : od_get k d = Some v -> dget k VNone d = v.
Proof. unfold dget. by intros ->. Qed.

(** The value of a field that is not the default it is read with. *)
Lemma dget_inv k def d v : dget k def d = v -> def <> v -> od_get k d = Some v.
Proof. unfold dget. destruct (od_get k d); congruence. Qed.

Lemma negb_false_eq b : negb b = false -> b = true.
Proof. by destruct b. Qed.
#[export] Hint Resolve negb_false_eq : enforcer.

Lemma is_false_inv v : negb (is_false v) = false -> v = VBool false.
Proof. by destruct v as [|[]| | | |]. Qed.

(** Invert the successful run of a straight-line check. *)
Ltac checks H :=
  repeat match type of H with
  | (_ ≫= _) = Ok _ =>
      let x := fresh "r" in let Hx := fresh "C" in
      apply bind_Ok in H as (x & Hx & H);
      try match type of Hx with raise_if _ _ = _ => apply raise_if_Ok in Hx end
  end.

Lemma identity_sound ctx authority u :
  _validate_tenant_identity ctx authority = Ok u ->
  py_eq (dget "tenant_id" VNone authority) (dget "tenant_id" VNone ctx) = true /\
  (exists st, dget "status" VNone authority = VStr st /\ In st ALLOWED_TENANT_STATUSES) /\
  dget "direct_user_grants_allowed" VNone authority = VBool false.
Proof.
  intros H. unfold _validate_tenant_identity in H. checks H. apply raise_if_Ok in H.
  split_and!; [by apply negb_false_eq| |by apply is_false_inv].
  match goal with C : in_frozenset _ _ = Ok ?b, D : negb ?b = false |- _ =>
    apply negb_false_eq in D; subst; by apply in_frozenset_Ok in C end.
Qed.

Lemma membership_sound p ctx authority roles :
  _validate_tenant_membership p ctx authority = Ok roles ->
  roles = sorted_set (set_field "role_ids" ctx) /\
  membership_covers p ctx authority (set_field "role_ids" ctx).
Proof.
  intros H. unfold _validate_tenant_membership in H. checks H. injection H as <-.
  match goal with C : deny_listed _ _ _ = Ok _ |- _ => apply deny_listed_Ok in C end.
  split; [done|]. constructor.
  match goal with C : context [dget "membership" VNone authority] |- _ =>
    destruct (dget "membership" VNone authority) as [| | | | |m]; try discriminate C;
    injection C as <- end.
  exists m. split_and!; try by apply negb_false_eq.
  - done.
  - match goal with C : in_frozenset _ _ = Ok ?b, D : negb ?b = false |- _ =>
      apply negb_false_eq in D; subst; apply in_frozenset_Ok in C as (st & -> & [<-|[]]) end.
    done.
  - done.
Qed.

Lemma role_bundles_sound authority ids roles :
  _tenant_role_bundles authority ids = Ok roles ->
  exists bundles, map fst bundles = ids /\ map snd bundles = roles /\
    Forall (bundle_of authority (py_str (dget "tenant_id" (VStr "") authority))) bundles.
Proof.
  intros H. unfold _tenant_role_bundles in H. checks H. injection H as <-.
  match goal with C : mapM _ _ = Ok _ |- _ => apply mapM_Ok in C as HF end.
  exists (zip ids r1). rewrite fst_zip, snd_zip by (apply Forall2_length in HF; lia).
  split_and!; [done..|].
  assert (Htid : Forall (fun role => dget "tenant_id" VNone role =
            VStr (py_str (dget "tenant_id" (VStr "") authority))) r1).
  { apply Forall_forall. intros role Hin%list_elem_of_In. apply py_eq_str_r, negb_false_eq.
    by eapply existsb_false_iff in C2. }
  clear -HF Htid C. induction HF as [|i role ids roles Hi HF IH]; [constructor|].
  apply Forall_cons in Htid as [Ht Htid]. constructor; [|by apply IH].
  unfold ditem in Hi. destruct (od_get i _) as [d|] eqn:E; [injection Hi as ->|done].
  apply by_string_id_get in E as (d & Hd & Hid & ->).
  split_and!; cbn; [|by apply dget_some|done].
  unfold list_field. destruct (dget "role_bundles" (VList []) authority); try discriminate C.
  injection C as <-. done.
Qed.

Lemma elem_of_allowed_for field m derived :
  m ∈ allowed_for field derived <-> exists d, In d derived /\ m ∈ set_field field d.
Proof.
  unfold allowed_for. rewrite elem_of_union_list. split.
  - intros (X & HX & Hm). apply list_elem_of_In, in_map_iff in HX as (d & <- & Hd). eauto.
  - intros (d & Hd & Hm). exists (set_field field d). split; [|done].
    apply list_elem_of_In, in_map_iff. eauto.
Qed.

Lemma derived_modules_field role d field :
  derived_modules role = Ok d -> derived_field field role = set_field field d.
Proof.
  unfold derived_modules, derived_field.
  destruct (dget "derived_runtime_modules" (VDict []) role); by intros [= <-].
Qed.

Lemma allowed_for_roles field m roles derived :
  mapM derived_modules roles = Ok derived ->
  m ∈ allowed_for field derived <-> exists role, In role roles /\ m ∈ derived_field field role.
Proof.
  intros HF%mapM_Ok. rewrite elem_of_allowed_for. split.
  - intros (d & Hd & Hm). eapply Forall2_In_r in HF as (role & Hr & Hrole); [|exact Hd].
    exists role. split; [done|]. by rewrite (derived_modules_field _ d).
  - intros (role & Hr & Hm). eapply Forall2_In_l in HF as (d & Hd & Hrole); [|exact Hr].
    exists d. split; [done|]. by rewrite <- (derived_modules_field role d).
Qed.

(** The grant loop adds exactly the named sources, each registered to the tenant. *)
Lemma grant_step_inv tid sources acc grant acc' :
  grant_step tid sources acc grant = Ok acc' ->
  exists src, dget "data_source_id" VNone grant = VStr src /\
    od_get src sources = Some (VStr tid) /\ acc' = {[src]} ∪ acc.
Proof.
  unfold grant_step. intros H.
  destruct (dget "data_source_id" VNone grant) as [| | |src| |]; try discriminate.
  checks H. injection H as <-. exists src. split_and!; [done| |done].
  apply negb_false_eq, py_eq_str_r in C. by apply dget_inv in C.
Qed.

Lemma role_step_inv tid sources acc role acc' :
  role_step tid sources acc role = Ok acc' ->
  acc'.1 = acc.1 ∪ set_field "capability_grants" role /\
  (forall src, src ∈ acc'.2 <-> src ∈ acc.2 \/
     exists g, In g (mappings (dget "data_source_grants" (VList []) role)) /\
               dget "data_source_id" VNone g = VStr src) /\
  (forall src, src ∈ acc'.2 -> src ∈ acc.2 \/ od_get src sources = Some (VStr tid)).
Proof.
  intros H. unfold role_step in H. checks H. injection H as <-. split; [done|]. cbn.
  eapply (foldM_ind (grant_step tid sources)
    (fun granted done_ => (forall src, src ∈ granted <-> src ∈ acc.2 \/
        exists g, In g done_ /\ dget "data_source_id" VNone g = VStr src) /\
      forall src, src ∈ granted -> src ∈ acc.2 \/ od_get src sources = Some (VStr tid)))
    in C; [exact C| |].
  - split; [|tauto]. intros src. split; [tauto|]. by intros [?|(? & [] & _)].
  - intros d g b b' [I1 I2] _ Hstep. apply grant_step_inv in Hstep as (src & Hs & Hreg & ->).
    split; intros src'; rewrite elem_of_union, elem_of_singleton.
    + rewrite I1. setoid_rewrite in_app_iff. cbn. split.
      * intros [->|[?|(g' & ? & ?)]]; [right; exists g; auto|by left|right; exists g'; auto].
      * intros [?|(g' & [?|[<-|[]]] & Hg')]; [by right; left|right; right; eauto|].
        left. congruence.
    + intros [->|?]; [by right | by apply I2].
Qed.

Lemma role_loop_inv tid sources roles granted :
  foldM (role_step tid sources) (∅, ∅) roles = Ok granted ->
  (forall c, c ∈ granted.1 <-> exists r, In r roles /\ c ∈ set_field "capability_grants" r) /\
  (forall src, src ∈ granted.2 -> od_get src sources = Some (VStr tid) /\
     exists r g, In r roles /\ In g (mappings (dget "data_source_grants" (VList []) r)) /\
                 dget "data_source_id" VNone g = VStr src).
Proof.
  intros H.
  eapply (foldM_ind (role_step tid sources)
    (fun granted done_ => (forall c, c ∈ granted.1 <->
        exists r, In r done_ /\ c ∈ set_field "capability_grants" r) /\
      forall src, src ∈ granted.2 -> od_get src sources = Some (VStr tid) /\
        exists r g, In r done_ /\ In g (mappings (dget "data_source_grants" (VList []) r)) /\
                    dget "data_source_id" VNone g = VStr src)) in H; [exact H| |].
  - cbn. split; [|set_solver]. intros c. split; [set_solver|]. by intros (? & [] & _).
  - intros d r b b' [I1 I2] _ Hstep. apply role_step_inv in Hstep as (E1 & E2 & E3).
    split.
    + intros c. rewrite E1, elem_of_union, I1. setoid_rewrite in_app_iff. cbn. naive_solver.
    + intros src Hsrc. setoid_rewrite in_app_iff. cbn.
      apply E2 in Hsrc as Hs. destruct Hs as [Hs|(g & Hg & Hid)].
      * apply I2 in Hs as (? & r' & g' & ? & ? & ?). split; [done|]. exists r', g'. auto.
      * split; [|exists r, g; auto]. apply E3 in Hsrc as [Hs|?]; [by apply I2 in Hs as [? _]|done].
Qed.

Lemma role_grants_sound ctx authority roles u :
  _validate_tenant_role_grants ctx authority roles = Ok u ->
  (forall c, c ∈ set_field "allowed_role_capabilities" ctx ->
     exists r, In r roles /\ c ∈ set_field "capability_grants" r) /\
  (forall src, src ∈ set_field "allowed_role_data_sources" ctx ->
     exists r, In r roles /\
       source_granted authority (py_str (dget "tenant_id" (VStr "") ctx)) src r).
Proof.
  intros H. unfold _validate_tenant_role_grants in H. checks H.
  apply deny_listed_Ok in C1. apply deny_listed_Ok in H.
  apply role_loop_inv in C0 as [I1 I2]. split.
  - intros c Hc. by apply I1, C1.
  - intros src Hsrc. apply H, I2 in Hsrc as (Hreg & r' & g & Hr & Hg & Hid).
    exists r'. split; [done|]. split; [eauto|].
    apply by_string_id_get in Hreg as (d & Hd & Hi & Ht). exists d.
    split_and!; [|by apply dget_some|done].
    unfold list_field. destruct (dget "data_sources" (VList []) authority); try discriminate C.
    by injection C as <-.
Qed.

Lemma selected_modules_sound p authority roles u :
  _validate_tenant_selected_modules p authority roles = Ok u ->
  (forall field m, In field ["skills"; "tools"; "policies"] -> m ∈ set_field field p ->
     exists r, In r roles /\ m ∈ derived_field field r) /\
  (forall m, m ∈ set_field "validators" p -> m = "runtime-profile-schema" \/
     exists r, In r roles /\ m ∈ derived_field "validators" r) /\
  (set_field "knowledge_scopes" p ⊆ set_field "allowed_knowledge_scopes" authority /\
   set_field "data_scopes" p ⊆ set_field "allowed_data_scopes" authority /\
   set_field "memory_scopes" p ⊆ set_field "allowed_memory_scopes" authority) /\
  set_field "instructions" p ⊆ BASELINE_TENANT_INSTRUCTIONS.
Proof.
  intros H. unfold _validate_tenant_selected_modules in H.
  apply bind_Ok in H as (derived & HD & H). checks H. unfold check_selected in *.
  repeat match goal with C : deny_listed _ _ _ = Ok _ |- _ => apply deny_listed_Ok in C end.
  split_and!; try done.
  - intros field m [<-|[<-|[<-|[]]]] Hm; eapply allowed_for_roles; eauto;
      match goal with C : string_set (dget ?f _ p) ⊆ _, Hm : m ∈ set_field ?f p |- _ =>
        by apply C end.
  - intros m Hm. unfold set_field in Hm. apply C2, elem_of_union in Hm as [Hm|Hm].
    + right. by eapply allowed_for_roles.
    + left. unfold BASELINE_TENANT_VALIDATORS in Hm. by apply elem_of_singleton in Hm.
Qed.

Lemma tenant_authority_sound p ctx :
  dget "tenant_context" VNone p = VDict ctx ->
  py_str (dget "tenant_id" (VStr "") ctx) <> GLOBAL_TENANT_ID ->
  _validate_tenant_authority p = Ok tt ->
  exists authority, dget "tenant_authority" VNone p = VDict authority /\
                    tenant_isolated p ctx authority.
Proof.
  intros Hctx Hng H. unfold _validate_tenant_authority in H. rewrite Hctx in H.
  rewrite (proj2 (String.eqb_neq _ _) Hng) in H.
  destruct (dget "tenant_authority" VNone p) as [| | | | |authority]; try discriminate H.
  exists authority. split; [done|]. checks H.
  apply identity_sound in C as (Htid & Hst & Hdir).
  apply membership_sound in C0 as [-> Hmem].
  apply role_bundles_sound in C1 as (bundles & Hfst & Hsnd & Hb).
  apply role_grants_sound in C2 as [Hcap Hsrc].
  apply selected_modules_sound in H as (Hmod & Hval & Hsc & Hins).
  assert (Hlift : forall (Q : odict value -> Prop), (exists r0, In r0 r1 /\ Q r0) ->
            exists entry, In entry bundles /\ Q entry.2).
  { intros Q (r0 & Hr0 & HQ). rewrite <- Hsnd in Hr0. apply in_map_iff in Hr0 as (e & <- & He).
    eauto. }
  constructor; try done. exists bundles. split_and!; [done..|].
  constructor; intros.
  - apply (Hlift (fun role => m ∈ derived_field field role)). auto.
  - destruct (Hval m) as [?|?]; [done|by left|right].
    by apply (Hlift (fun role => m ∈ derived_field "validators" role)).
  - apply (Hlift (fun role => c ∈ set_field "capability_grants" role)). auto.
  - apply (Hlift (source_granted authority _ src)). auto.
Qed.

Lemma validate_profile_recompositions p :
  validate_profile p = Ok tt ->
  exists g L, py_int (dget "profile_generation" (VInt 1) p) = Ok g /\
    profile_limit p "max_recompositions" = Ok L /\ Z.max 0 (g - 1) <= L.
Proof. intros H. unfold validate_profile in H. checks H. exists r1, r2. split_and!; [done..|lia]. Qed.

(** ** A concrete profile *)

Definition demo_limits : value :=
  VDict [("max_tool_calls", VInt 2); ("max_tokens", VInt 100); ("max_duration_seconds", VInt 60);
         ("max_data_reads", VInt 1); ("max_memory_ops", VInt 1); ("max_recompositions", VInt 1)].

Definition demo_tenant_context : odict value :=
  [("tenant_id", VStr "acme"); ("area_id", VStr "lab"); ("hostname", VStr "acme.example");
   ("membership_id", VStr "m-1"); ("role_ids", strs ["reviewer"]);
   ("role_derivation", VDict [("direct_user_grants_allowed", VBool false);
      ("capabilities_derive_from_roles", VBool true); ("data_sources_derive_from_roles", VBool true)]);
   ("allowed_role_data_sources", strs ["repo"]); ("allowed_role_capabilities", strs ["review"])].

Definition demo_role : value :=
  VDict [("id", VStr "reviewer"); ("tenant_id", VStr "acme"); ("capability_grants", strs ["review"]);
         ("data_source_grants", VList [VDict [("data_source_id", VStr "repo")]]);
         ("derived_runtime_modules", VDict [("skills", strs ["git-diff-analysis"]);
            ("tools", strs ["git-read"; "filesystem-read"]); ("policies", strs ["read-only"]);
            ("validators", strs ["review-findings-contract"])])].

Definition demo_authority : odict value :=
  [("tenant_id", VStr "acme"); ("area_id", VStr "lab"); ("status", VStr "active");
   ("hostname", VDict [("tenant_id", VStr "acme"); ("hostname", VStr "acme.example")]);
   ("direct_user_grants_allowed", VBool false);
   ("membership", VDict [("id", VStr "m-1"); ("tenant_id", VStr "acme");
      ("principal_id", VStr "ann"); ("status", VStr "active"); ("role_ids", strs ["reviewer"])]);
   ("role_bundles", VList [demo_role]);
   ("data_sources", VList [VDict [("id", VStr "repo"); ("tenant_id", VStr "acme")]]);
   ("allowed_knowledge_scopes", strs []); ("allowed_data_scopes", strs ["repository-readonly"]);
   ("allowed_memory_scopes", strs [])].

Definition demo_profile : odict value :=
  [("id", VStr "profile-demo"); ("profile_version", VStr "0.6.0"); ("profile_generation", VInt 1);
   ("task_type", VStr "code-review"); ("objective", VStr "review"); ("risk_level", VStr "medium");
   ("auth_context", VDict [("principal", VDict [("id", VStr "ann")])]);
   ("tenant_context", VDict demo_tenant_context); ("tenant_authority", VDict demo_authority);
   ("instructions", strs ["base-agent-rules"]); ("skills", strs ["git-diff-analysis"]);
   ("tools", strs ["git-read"; "filesystem-read"]); ("knowledge_scopes", strs []);
   ("data_scopes", strs ["repository-readonly"]); ("memory_scopes", strs []);
   ("policies", strs ["read-only"]);
   ("validators", strs ["runtime-profile-schema"; "review-findings-contract"]);
   ("module_versions", VDict (map (fun m => (m, VStr "0.1.0"))
      ["base-agent-rules"; "git-diff-analysis"; "git-read"; "filesystem-read";
       "repository-readonly"; "read-only"; "runtime-profile-schema"; "review-findings-contract"]));
   ("limits", demo_limits); ("failure_policy", VDict [("on_policy_denial", VStr "recompose_once")])].

Definition demo_enforcer : enforcer := mkEnforcer demo_profile 0 0 0 0 0 0.

(** ** Properties *)

(** C8. Budget safety: whatever operations are attempted on the enforcer of a
    validated profile, refused or not, no counter ever exceeds its limit in
    the profile, no counter goes down, and the profile never changes. *)
Theorem counters_within_budget p now s ops c L :
  init p now = Ok s -> validate_profile p = Ok tt -> profile_limit p (limit_of c) = Ok L ->
  get_counter c s <= get_counter c (run_ops ops s) <= Z.max 0 L /\
  profile (run_ops ops s) = p.
Proof.
  intros Hi Hv HL. pose proof (run_ops_budget ops s) as (Hp & _ & Hc).
  apply bind_Ok in Hi as (g & Hg & [= <-]). cbn in Hp, Hc.
  destruct (Hc c) as [Hmono Hb]. split; [|done]. split; [exact Hmono|].
  destruct Hb as [->|(L' & HL' & Hle)]; [|rewrite HL in HL'; injection HL' as <-; lia].
  apply validate_profile_recompositions in Hv as (g' & R & Hg' & HR & Hle).
  destruct c; cbn; try lia. cbn in HL. rewrite Hg in Hg'. injection Hg' as <-.
  rewrite HR in HL. injection HL as <-. lia.
Qed.

Lemma counters_within_budget_witness :
  get_counter CToolCalls (run_ops
    [OpToolInvocation "git-read" ["repository-readonly"] [] "low" 5;
     OpToolInvocation "git-read" ["repository-readonly"] [] "low" 6;
     OpToolInvocation "git-read" [] [] "low" 7] demo_enforcer) <= 2.
Proof.
  refine (proj2 (proj1 (counters_within_budget demo_profile 0 demo_enforcer _ CToolCalls 2
            _ _ _))); vm_compute; reflexivity.
Defined.

(** A tool invocation is admitted exactly when every requirement holds:
    the duration budget is open, the tool, its risk and its policies are in the
    profile, a tool call is left, and, for a tool with required data scopes,
    all scopes are the profile's and a data read is left; it then charges one
    tool call, and one data read when scopes were required. *)
Theorem record_tool_invocation_Ok tool ds ps risk now s s' :
  record_tool_invocation tool ds ps risk now s = (Ok tt, s') <->
  tool_permitted s tool ps risk now /\
  (if nonempty ds then reads_permitted s ds /\ s' = charge_read (charge_call s)
   else s' = charge_call s).
Proof.
  rewrite record_tool_invocation_split, eff_bind_Ok. split.
  - intros ([] & s1 & H1 & H2). apply admit_call_Ok in H1 as [-> Hp].
    apply admit_read_Ok in H2. split; [done|]. destruct (nonempty ds); [|done].
    destruct H2 as [Hr ->]. by rewrite reads_permitted_charge_call in Hr.
  - intros [Hp H]. exists tt, (charge_call s). split; [by apply admit_call_Ok|].
    apply admit_read_Ok. destruct (nonempty ds); [|done].
    by rewrite reads_permitted_charge_call.
Qed.

(** C19. A refused tool invocation leaves every counter as it was, except that a
    call refused for its data scopes or its read budget has already been
    charged as a tool call. *)
Theorem record_tool_invocation_refused tool ds ps risk now s e s' :
  record_tool_invocation tool ds ps risk now s = (Raise e, s') ->
  (s' = s /\ ~ tool_permitted s tool ps risk now) \/
  (s' = charge_call s /\ tool_permitted s tool ps risk now /\
   nonempty ds = true /\ ~ reads_permitted s ds).
Proof.
  rewrite record_tool_invocation_split, eff_bind_Raise. intros [H|([] & s1 & H1 & H)].
  - left. pose proof (admit_call_refuses_cleanly _ _ _ _ _ _ _ H) as ->. split; [done|].
    intros Hp. assert (Hok := proj2 (admit_call_Ok tool ps risk now s (charge_call s)) (conj eq_refl Hp)).
    congruence.
  - right. apply admit_call_Ok in H1 as [-> Hp].
    pose proof (admit_read_refuses_cleanly _ _ _ _ H) as ->. split_and!; [done..| |].
    + unfold admit_read in H. by destruct (nonempty ds).
    + intros Hr. apply (reads_permitted_charge_call s ds) in Hr.
      pose proof (admit_read_Ok ds (charge_call s) tt (charge_read (charge_call s))) as Hok.
      destruct (nonempty ds) eqn:E; [|by unfold admit_read in H; rewrite E in H].
      rewrite (proj2 Hok) in H by done. discriminate.
Qed.

Definition demo_refusal : exn :=
  pee "Requested data scopes are not allowed: repository-write." "data_scope_not_in_runtime_profile".

Lemma record_tool_invocation_refused_witness :
  record_tool_invocation "git-read" ["repository-write"] [] "low" 5 demo_enforcer
    = (Raise demo_refusal, charge_call demo_enforcer) /\
  ((charge_call demo_enforcer = demo_enforcer /\
    ~ tool_permitted demo_enforcer "git-read" [] "low" 5) \/
   (charge_call demo_enforcer = charge_call demo_enforcer /\
    tool_permitted demo_enforcer "git-read" [] "low" 5 /\
    nonempty ["repository-write"] = true /\
    ~ reads_permitted demo_enforcer ["repository-write"])).
Proof.
  split; [vm_compute; reflexivity|].
  apply (record_tool_invocation_refused "git-read" ["repository-write"] [] "low" 5 demo_enforcer
    demo_refusal). vm_compute. reflexivity.
Defined.

(** C10. Tenant isolation: a profile that passes the run-time check and belongs
    to a tenant selects only roles of an active membership of its own
    principal in an active tenant, every selected skill, tool, policy,
    capability and data source comes from a role bundle and a registered data
    source of that tenant, and no scope exceeds the tenant's. *)
Theorem validate_profile_isolates_tenant p ctx :
  validate_profile p = Ok tt ->
  dget "tenant_context" VNone p = VDict ctx ->
  py_str (dget "tenant_id" (VStr "") ctx) <> GLOBAL_TENANT_ID ->
  exists authority, dget "tenant_authority" VNone p = VDict authority /\
                    tenant_isolated p ctx authority.
Proof.
  intros H Hctx Hng. eapply tenant_authority_sound; [done..|].
  unfold validate_profile in H. checks H. done.
Qed.

Lemma validate_profile_isolates_tenant_witness :
  exists authority, dget "tenant_authority" VNone demo_profile = VDict authority /\
                    tenant_isolated demo_profile demo_tenant_context authority.
Proof.
  apply (validate_profile_isolates_tenant demo_profile demo_tenant_context).
  - vm_compute. reflexivity.
  - reflexivity.
  - vm_compute. discriminate.
Defined.
