(* ===== verification/TaskAnalyzer.v ===== *)
(** * Task intake: the rule-based task analyzer

    Models [composition/task_analyzer.py]: the analyzed task and its auth
    claims, the classification of an objective, the inputs, domains,
    constraints and risk derived from a task, and the Control Plane request. *)

From S2P Require Import Prelude PyStr PyValue Models.
Open Scope string_scope.
Open Scope list_scope.

Definition COMPOSITION_CONTEXT_CONTRACT_VERSION : string := "0.1.0".
Definition DEFAULT_CONTROL_PLANE_PRINCIPAL_ID : string := "repository-maintainer".
Definition DEFAULT_PRINCIPAL_ID : string := "user-local".

(** ** Data *)

Record AuthClaims := mkAuthClaims {
  principal_id : string;
  principal_type : string;
  roles : list string;
  authorization_policies : list string;
  control_plane_principal_kind : string;
  control_plane_principal_id : string;
  display_name : option string;
  tenant_id : string;
  area_id : string;
  tenant_hostname : option string;
  membership_id : option string;
  role_data_sources : list string;
  role_capabilities : list string;
}.

(** [AuthClaims(authorization_policies=p)]: every other field at its default *)
Definition default_auth_claims (policies : list string) : AuthClaims :=
  mkAuthClaims DEFAULT_PRINCIPAL_ID "user" [DEFAULT_CONTROL_PLANE_PRINCIPAL_ID] policies "role"
    DEFAULT_CONTROL_PLANE_PRINCIPAL_ID None "global" "global" None None [] [].

Record TaskClassification := mkTaskClassification {
  c_task_type : string;
  confidence : string;
  reasons : list string;
  c_ambiguous_task_types : list string;
  c_requires_human_review : bool;
}.

Record AnalyzedTask := mkAnalyzedTask {
  task_id : string;
  task_type : string;
  objective : string;
  risk_level : string;
  domains : list string;
  required_inputs : list string;
  available_inputs : list string;
  capability_hints : list string;
  constraints : list string;
  missing_information : list string;
  auth_claims : AuthClaims;
  classification_confidence : string;
  classification_reasons : list string;
  ambiguous_task_types : list string;
  requires_human_review : bool;
}.

Definition opt_str (o : option string) : value :=
  match o with Some s => VStr s | None => VNone end.

(** ** Text helpers *)

Definition ident_char (c : ascii) : bool :=
  is_lower c || is_digit c || Ascii.eqb c "_"%char || Ascii.eqb c "-"%char.
Definition is_dash_or_underscore (c : ascii) : bool :=
  Ascii.eqb c "-"%char || Ascii.eqb c "_"%char.

(** [re.fullmatch(r"[a-z][a-z0-9_-]*", value)] *)
Definition _is_id (value : string) : bool :=
  match chars value with
  | [] => false
  | c :: l => is_lower c && forallb ident_char l
  end.

Definition _slugify (value : string) : string :=
  let slug := strip_chars is_dash_or_underscore
                (sub_runs (fun c => negb (ident_char c)) dash false (chars (casefold value))) in
  let slug := sub_runs is_dash dash false slug in
  match slug with
  | [] => "task"
  | c :: _ =>
      let slug : list ascii := if is_alpha c then slug else (chars "id-" ++ slug)%list in
      of_chars (strip_chars is_dash_or_underscore (take 80 slug))
  end.

(** [_dedupe]: stripped, non-blank, first occurrences *)
Definition _dedupe (values : list string) : list string :=
  fromkeys (List.filter (fun v => negb (String.eqb v "")) (map strip values)).

Definition _objective (task : odict value) : string :=
  let pick key otherwise :=
    match dget key VNone task with
    | VStr v => if String.eqb (strip v) "" then otherwise else strip v
    | _ => otherwise
    end in
  pick "request" (pick "objective" (pick "description" "Process repository task.")).

Definition _task_id (task : odict value) (objective : string) : string :=
  match dget "id" VNone task with
  | VStr v => if _is_id v then v else "task-" +:+ _slugify objective
  | _ => "task-" +:+ _slugify objective
  end.

(** ** Classification *)

Definition is_word (c : ascii) : bool :=
  is_alpha c || is_digit c || Ascii.eqb c "_"%char.
Definition starts_with_word (s : string) : bool :=
  match s with EmptyString => false | String c _ => is_word c end.

(** [re.search(rf"\b{term}\b", text)] for a term of word characters *)
Fixpoint word_search (term : string) (prev_word : bool) (text : string) : bool :=
  (negb prev_word && String.prefix term text && negb (starts_with_word (drop_prefix term text)))
  || match text with
     | EmptyString => false
     | String c text' => word_search term (is_word c) text'
     end.

Definition alnum_term (term : string) : bool :=
  match chars term with
  | [] => false
  | l => forallb (fun c => is_lower c || is_digit c) l
  end.

Definition _contains_task_term (text term : string) : bool :=
  if alnum_term term then word_search term false text else contains term text.

Definition CATEGORIES : list (string * list string) :=
  [("code-review",
     ["review"; "pull request"; "pr"; "diff"; "commit"; "regression"; "missing tests"]);
   ("research",
     ["research"; "investigate"; "compare"; "summarize"; "find information"; "look up"; "survey";
      "diagnose"; "debug"; "troubleshoot"; "explain"; "what causes"; "why does"; "how do i";
      "how should"; "stack overflow"; "error"; "exception"]);
   ("task-execution",
     ["implement"; "build"; "fix"; "update"; "change"; "create"; "refactor"; "migrate"; "add";
      "remove"])].

Definition _is_information_request (text : string) : bool :=
  existsb (fun signal => contains signal text)
    ["how do i"; "how should"; "why does"; "why do"; "what causes"; "what is"; "explain"].

Definition _filter_information_request_execution_terms (text : string) (matched_terms : list string)
    : list string :=
  if negb (_is_information_request text) then matched_terms
  else List.filter (fun term => negb (str_in term ["fix"])) matched_terms.

Definition category_terms (text : string) (category : string * list string)
    : string * list string :=
  let '(task_type, terms) := category in
  let matched_terms := List.filter (_contains_task_term text) terms in
  (task_type,
   if String.eqb task_type "task-execution"
   then _filter_information_request_execution_terms text matched_terms else matched_terms).

Definition category_matches (text : string) : list (string * list string) :=
  List.filter (fun m => nonempty m.2) (map (category_terms text) CATEGORIES).

Definition match_reason (m : string * list string) : string :=
  "Matched " +:+ m.1 +:+ " task signals: " +:+ join ", " m.2 +:+ ".".

Definition _classify_task (objective : string) : TaskClassification :=
  match category_matches (casefold objective) with
  | [m] => mkTaskClassification m.1 "high" [match_reason m] [] false
  | [] => mkTaskClassification "general-task" "medium"
            ["No specialized task signals matched; using general-task fallback."] [] false
  | matches =>
      mkTaskClassification "general-task" "low"
        (map match_reason matches ++
         ["Fell back to general-task because multiple specialized task types matched."])
        (map fst matches) true
  end.

(** ** Derived fields *)

Definition _repository_context (task : odict value) : option (odict value) :=
  match dget "context" VNone task with
  | VDict context => as_mapping (dget "repository" VNone context)
  | _ => None
  end.

Definition has {A} (o : option A) : bool := match o with Some _ => true | None => false end.

Definition _objective_mentions_diff_source (objective : string) : bool :=
  existsb (fun term => contains term (casefold objective))
    ["diff"; "commit"; "pull request"; "pr"; "changes"].

Definition _domains (task_type : string) (repository : option (odict value)) : list string :=
  _dedupe
    ((if String.eqb task_type "code-review" then ["software-engineering"; "git"; "code-review"]
      else if String.eqb task_type "research" then ["research"; "knowledge-retrieval"]
      else if String.eqb task_type "task-execution"
      then "task-execution" :: (if has repository then ["software-engineering"] else [])
      else [])
     ++ (if has repository then ["repository"] else [])).

Definition _required_inputs (task_type objective : string) (repository : option (odict value))
    : list string :=
  _dedupe
    ((if String.eqb task_type "code-review" || has repository then ["repository"] else [])
     ++ (if String.eqb task_type "code-review" && _objective_mentions_diff_source objective
         then ["diff"] else [])).

Definition attachment_inputs (task : odict value) : list string :=
  match dget "context" VNone task with
  | VDict context =>
      match dget "attachments" VNone context with
      | VList (_ :: _) => ["attachments"]
      | _ => []
      end
  | _ => []
  end.

Definition _available_inputs (task_type objective : string) (repository : option (odict value))
    (task : odict value) : list string :=
  _dedupe
    ((if has repository then ["repository"] else [])
     ++ (if has repository && String.eqb task_type "code-review"
            && _objective_mentions_diff_source objective then ["diff"] else [])
     ++ attachment_inputs task).

Definition _capability_hints (task_type objective : string) : list string :=
  _dedupe
    ((if String.eqb task_type "code-review" then ["analysis"]
      else if String.eqb task_type "research" then ["retrieval"; "analysis"]
      else if String.eqb task_type "task-execution" then ["execution"]
      else [])
     ++ (if contains "schema" (casefold objective) || contains "contract" (casefold objective)
         then ["schema-validation"] else [])).

Definition _constraints (task : odict value) (classification : TaskClassification) : list string :=
  let constraints :=
    match dget "constraints" VNone task with
    | VDict raw =>
        (if is_false (dget "write_access" VNone raw)
         then ["Do not grant write tools by default."] else [])
        ++ (if is_false (dget "destructive_actions" VNone raw)
            then ["Destructive actions are not allowed."] else [])
        ++ (if is_true (dget "write_access" VNone raw) then ["Write access was requested."] else [])
        ++ (if is_true (dget "destructive_actions" VNone raw)
            then ["Destructive actions were requested."] else [])
    | VList items =>
        List.filter (fun s => negb (String.eqb (strip s) "")) (map py_str items)
    | _ => []
    end in
  let constraints :=
    if nonempty constraints then constraints
    else ["Do not grant broad capabilities by default."] in
  _dedupe
    (constraints
     ++ (if c_requires_human_review classification
         then ["Task classification is ambiguous; do not route to a specialized runtime strategy without review."]
         else [])).

Definition _risk_level (task_type objective : string) (constraints : list string) : string :=
  let text := casefold (join " " (objective :: constraints)) in
  if existsb (fun term => contains term text) ["production"; "delete"; "destroy"; "reset"; "secret"]
  then "high"
  else if contains "destructive actions were requested" text
          || contains "write access was requested" text
  then "high"
  else if String.eqb task_type "code-review" then "medium"
  else "low".

Definition _control_plane_risk_level (risk_level : string) : string :=
  if String.eqb risk_level "critical" then "high" else risk_level.

(** ** Auth claims *)

(** [str(v or default)] *)
Definition str_or (v : value) (default : string) : string :=
  if truthy v then py_str v else default.

Definition str_list (v : value) : res (list string) :=
  items ← py_iter v; mret (map py_str items).

Definition nonblank_str (v : value) : option string :=
  match v with
  | VStr s => if String.eqb (strip s) "" then None else Some s
  | _ => None
  end.

Definition _auth_claims (task : odict value) (task_type : string) : res AuthClaims :=
  let auth := match dget "context" VNone task with
              | VDict context => as_mapping (dget "auth" VNone context)
              | _ => None
              end in
  let default_policy := "submitter-can-request-" +:+ task_type in
  match auth with
  | None => Ok (default_auth_claims [default_policy])
  | Some auth =>
      roles ← str_list (dget "roles" (strs [DEFAULT_CONTROL_PLANE_PRINCIPAL_ID]) auth);
      let roles := _dedupe roles in
      let principal_id := str_or (dget "principal_id" VNone auth) DEFAULT_PRINCIPAL_ID in
      let principal_type := str_or (dget "principal_type" VNone auth) "user" in
      let principal_type :=
        if str_in principal_type ["user"; "service"; "system"] then principal_type else "user" in
      let kind := str_or (dget "control_plane_principal_kind" VNone auth) "role" in
      let kind := if str_in kind ["role"; "user"; "service"] then kind else "role" in
      control_plane_principal_id ←
        (if truthy (dget "control_plane_principal_id" VNone auth)
         then Ok (py_str (dget "control_plane_principal_id" VNone auth))
         else match roles with
              | [] => Raise (IndexError "tuple index out of range")
              | r :: _ => Ok (if String.eqb r "" then DEFAULT_CONTROL_PLANE_PRINCIPAL_ID else r)
              end);
      policies ← str_list (dget "authorization_policies" (strs [default_policy]) auth);
      let policies := _dedupe policies in
      let tenant_id := _slugify (str_or (dget "tenant_id" VNone auth) "global") in
      let area_id := _slugify (str_or (dget "area_id" VNone auth) tenant_id) in
      role_data_sources ← str_list (dget "role_data_sources" (VList []) auth);
      role_capabilities ← str_list (dget "role_capabilities" (VList []) auth);
      mret (mkAuthClaims principal_id principal_type
        (if nonempty roles then roles else [DEFAULT_CONTROL_PLANE_PRINCIPAL_ID])
        (if nonempty policies then policies else [default_policy])
        kind (_slugify control_plane_principal_id)
        (match dget "display_name" VNone auth with
         | VStr s => if String.eqb s "" then None else Some s
         | _ => None
         end)
        tenant_id area_id
        (nonblank_str (dget "tenant_hostname" VNone auth))
        (option_map _slugify (nonblank_str (dget "membership_id" VNone auth)))
        (_dedupe role_data_sources) (_dedupe role_capabilities))
  end.

(** ** The analyzer *)

Definition analyze (task : odict value) : res AnalyzedTask :=
  let objective := _objective task in
  let classification := _classify_task objective in
  let task_type := c_task_type classification in
  let repository := _repository_context task in
  let constraints := _constraints task classification in
  let required_inputs := _required_inputs task_type objective repository in
  let available_inputs := _available_inputs task_type objective repository task in
  let missing_information :=
    List.filter (fun i => negb (str_in i available_inputs)) required_inputs in
  claims ← _auth_claims task task_type;
  mret (mkAnalyzedTask (_task_id task objective) task_type objective
    (_risk_level task_type objective constraints) (_domains task_type repository)
    required_inputs available_inputs (_capability_hints task_type objective) constraints
    missing_information claims (confidence classification) (reasons classification)
    (c_ambiguous_task_types classification) (c_requires_human_review classification)).

Definition to_composition_context_request (t : AnalyzedTask)
    (environment generation_mode : string) (parent_profile_id : option string) : odict value :=
  [("contract_version", VStr COMPOSITION_CONTEXT_CONTRACT_VERSION);
   ("environment", VStr environment);
   ("principal", VDict [("kind", VStr (control_plane_principal_kind (auth_claims t)));
                        ("id", VStr (control_plane_principal_id (auth_claims t)))]);
   ("requested_profile_generation", VDict [("mode", VStr generation_mode);
                                           ("parent_profile_id", opt_str parent_profile_id)]);
   ("task", VDict
      [("id", VStr (task_id t)); ("type", VStr (task_type t)); ("objective", VStr (objective t));
       ("risk_level", VStr (_control_plane_risk_level (risk_level t)));
       ("signals", VDict
          [("domain_tags", strs (domains t)); ("capability_hints", strs (capability_hints t));
           ("available_inputs", strs (available_inputs t)); ("constraints", strs (constraints t));
           ("classification_confidence", VStr (classification_confidence t));
           ("ambiguous_task_types", strs (ambiguous_task_types t));
           ("classification_reasons", strs (classification_reasons t));
           ("requires_human_review", VBool (requires_human_review t))])])]
  ++ (if String.eqb (tenant_id (auth_claims t)) "global" then []
      else [("tenant_context", VDict
              [("tenant_id", VStr (tenant_id (auth_claims t)));
               ("area_id", VStr (area_id (auth_claims t)));
               ("hostname", opt_str (tenant_hostname (auth_claims t)));
               ("membership_id", opt_str (membership_id (auth_claims t)))])]).

Example classify_ex1 :
  c_task_type (_classify_task "Review the pull request") = "code-review".
Proof. reflexivity. Qed.
Example classify_ex2 :
  c_task_type (_classify_task "How do I fix this?") = "research".
Proof. vm_compute. reflexivity. Qed.
Example classify_ex3 :
  c_ambiguous_task_types (_classify_task "review and update prose") = ["code-review"; "task-execution"].
Proof. vm_compute. reflexivity. Qed.
Example slugify_ex : _slugify "--Acme Corp_" = "acme-corp".
Proof. reflexivity. Qed.

(** ** Lemmas *)

Lemma dash_not_ident_only c : is_dash_or_underscore c = false -> ident_char c = true -> slug_char c = true.
Proof.
  unfold is_dash_or_underscore, ident_char, slug_char. intros [H1 H2]%orb_false_iff.
  by rewrite H1, H2, !orb_false_r.
Qed.

Lemma slugify_is_id value : _is_id (_slugify value) = true.
Proof.
  unfold _slugify. set (raw := strip_chars is_dash_or_underscore _).
  set (slug := sub_runs is_dash dash false raw).
  assert (Hraw : forall x, In x raw -> ident_char x = true).
  { intros x Hx%strip_chars_In%sub_runs_In. destruct Hx as [->|[_ Hx]]; [done|].
    by destruct (ident_char x). }
  assert (Hin : forall x, In x slug -> ident_char x = true).
  { intros x Hx%sub_runs_In. destruct Hx as [->|[Hx _]]; [done | by apply Hraw]. }
  destruct slug as [|c l] eqn:E; [done|].
  assert (Hc : slug_char c = true).
  { destruct raw as [|c0 raw0] eqn:R; [done|].
    assert (Hc0 : is_dash_or_underscore c0 = false)
      by (eapply (strip_chars_head is_dash_or_underscore); exact R).
    assert (Hs : slug_char c0 = true) by (apply dash_not_ident_only; [done | by apply Hraw; left]).
    subst slug. rewrite sub_runs_cons in E by (by apply slug_char_not_dash).
    by injection E as <- _. }
  assert (Hgen : forall d m, is_lower d = true -> (forall x, In x (d :: m) -> ident_char x = true) ->
            _is_id (of_chars (strip_chars is_dash_or_underscore (take 80 (d :: m)))) = true).
  { intros d m Hd Hm. unfold _is_id. rewrite chars_of_chars.
    change (take 80 (d :: m)) with (d :: take 79 m).
    assert (Hd' : is_dash_or_underscore d = false).
    { unfold is_dash_or_underscore. apply orb_false_iff.
      split; apply Ascii.eqb_neq; by intros ->. }
    assert (Hall : forallb ident_char (strip_chars is_dash_or_underscore (d :: take 79 m)) = true).
    { apply forallb_forall. intros x Hx%strip_chars_In. apply Hm.
      destruct Hx as [->|Hx]; [by left|right]. rewrite <- (take_drop 79 m). apply in_or_app. by left. }
    rewrite strip_chars_cons in * by done. cbn in Hall. apply andb_true_iff in Hall as [_ Hall].
    by rewrite Hd, Hall. }
  destruct (is_alpha c) eqn:A.
  - apply Hgen; [by apply slug_char_alpha | done].
  - cbn [app chars]. change ("i"%char :: "d"%char :: "-"%char :: c :: l) with (chars "id-" ++ c :: l).
    apply (Hgen "i"%char ("d"%char :: "-"%char :: c :: l)); [done|].
    intros x [<-|[<-|[<-|Hx]]]; [done..|]. by apply Hin.
Qed.

Lemma is_id_prefix p value :
  forallb ident_char (chars p) = true -> is_lower (match chars p with c :: _ => c | [] => "-"%char end) = true ->
  _is_id value = true -> _is_id (p +:+ value) = true.
Proof.
  unfold _is_id. intros Hp Hc Hv. rewrite chars_app. destruct (chars p) as [|c l]; [done|].
  cbn in Hp |- *. apply andb_true_iff in Hp as [_ Hp].
  rewrite Hc, forallb_app, Hp. cbn. destruct (chars value) as [|d m]; [done|].
  apply andb_true_iff in Hv as [Hd Hm]. cbn. rewrite Hm, andb_true_r.
  unfold ident_char. by rewrite Hd.
Qed.

Lemma _task_id_is_id task objective : _is_id (_task_id task objective) = true.
Proof.
  unfold _task_id.
  assert (H : _is_id ("task-" +:+ _slugify objective) = true)
    by (apply is_id_prefix; [done..|apply slugify_is_id]).
  destruct (dget "id" VNone task); try done. by destruct (_is_id s) eqn:E.
Qed.

Lemma _auth_claims_ids task task_type a :
  _auth_claims task task_type = Ok a ->
  _is_id (tenant_id a) = true /\ _is_id (area_id a) = true /\
  _is_id (control_plane_principal_id a) = true /\
  (forall m, membership_id a = Some m -> _is_id m = true).
Proof.
  unfold _auth_claims. destruct (match dget "context" VNone task with VDict _ => _ | _ => _ end)
    as [auth|]; [|by intros [= <-]].
  intros H. repeat (apply bind_Ok in H as (? & ? & H)). injection H as <-. cbn.
  split_and!; try apply slugify_is_id.
  intros m. destruct (nonblank_str _); [|done]. intros [= <-]. apply slugify_is_id.
Qed.

Lemma str_in_default s l d : In d l -> In (if str_in s l then s else d) l.
Proof. destruct (str_in s l) eqn:E; [by apply str_in_In in E|done]. Qed.

Lemma _auth_claims_kinds task task_type a :
  _auth_claims task task_type = Ok a ->
  In (principal_type a) ["user"; "service"; "system"] /\
  In (control_plane_principal_kind a) ["role"; "user"; "service"] /\
  roles a <> [] /\ authorization_policies a <> [].
Proof.
  unfold _auth_claims. destruct (match dget "context" VNone task with VDict _ => _ | _ => _ end)
    as [auth|]; [|intros [= <-]; cbn; split_and!; (tauto || discriminate)].
  intros H. repeat (apply bind_Ok in H as (? & ? & H)). injection H as <-.
  cbv beta iota zeta delta [principal_type control_plane_principal_kind roles authorization_policies].
  split; [exact (str_in_default (str_or (dget "principal_type" VNone auth) "user") ["user"; "service"; "system"]
                   "user" (or_introl eq_refl))|].
  split; [exact (str_in_default (str_or (dget "control_plane_principal_kind" VNone auth) "role")
                   ["role"; "user"; "service"] "role" (or_introl eq_refl))|].
  split; unfold nonempty; [by destruct (_dedupe x)|by destruct (_dedupe x1)].
Qed.

Lemma str_in_app s l1 l2 : str_in s (l1 ++ l2) = str_in s l1 || str_in s l2.
Proof. apply existsb_app. Qed.

Lemma category_matches_types text :
  forall m, In m (category_matches text) ->
  In m.1 ["code-review"; "research"; "task-execution"].
Proof.
  intros m Hm. apply filter_In in Hm as [Hm _]. apply in_map_iff in Hm as (c & <- & Hc).
  destruct Hc as [<-|[<-|[<-|[]]]]; cbn; auto.
Qed.

Lemma attachment_inputs_cases task :
  attachment_inputs task = [] \/ attachment_inputs task = ["attachments"].
Proof.
  unfold attachment_inputs. destruct (dget "context" VNone task) as [| | | | |ctx]; auto.
  destruct (dget "attachments" VNone ctx) as [| | | |[|? ?]|]; auto.
Qed.

(** ** Properties *)

(** C27. The claims of an analyzed task have the form the Control Plane expects,
    whatever the task says: the task id, the tenant and area id, the id of the
    Control Plane principal and the membership id match [[a-z][a-z0-9_-]*]; the
    type of the principal and the kind of the Control Plane principal are among
    those the code names; and there is at least one role and one policy. The
    principal's own id, the roles and the policies are the texts the task gives,
    see [given_ids_kept]. *)
Theorem analyze_ids_well_formed task t :
  analyze task = Ok t ->
  _is_id (task_id t) = true /\ _is_id (tenant_id (auth_claims t)) = true /\
  _is_id (area_id (auth_claims t)) = true /\
  _is_id (control_plane_principal_id (auth_claims t)) = true /\
  (forall m, membership_id (auth_claims t) = Some m -> _is_id m = true) /\
  In (principal_type (auth_claims t)) ["user"; "service"; "system"] /\
  In (control_plane_principal_kind (auth_claims t)) ["role"; "user"; "service"] /\
  roles (auth_claims t) <> [] /\ authorization_policies (auth_claims t) <> [].
Proof.
  unfold analyze. intros (a & Ha & [= <-])%bind_Ok. cbn [task_id auth_claims].
  pose proof (_auth_claims_kinds _ _ _ Ha). apply _auth_claims_ids in Ha.
  split; [apply _task_id_is_id|]. tauto.
Qed.

Definition demo_task : odict value :=
  [("id", VStr "Not An Id"); ("request", VStr "Review the diff!");
   ("context", VDict [("repository", VDict [("name", VStr "scas")]);
                      ("auth", VDict [("tenant_id", VStr "Acme Corp"); ("membership_id", VInt 3)])])].
Definition demo_analyzed : AnalyzedTask :=
  match analyze demo_task with
  | Ok t => t
  | Raise _ => mkAnalyzedTask "" "" "" "" [] [] [] [] [] [] (default_auth_claims []) "" [] [] false
  end.

(** The principal and the roles are not brought into the form of an identifier. *)
Example given_ids_kept :
  match analyze [("request", VStr "Review"); ("context", VDict [("auth",
    VDict [("principal_id", VStr "Jane Doe"); ("roles", strs ["Sales Team"])])])] with
  | Ok t => (principal_id (auth_claims t), roles (auth_claims t), control_plane_principal_id (auth_claims t))
            = ("Jane Doe", ["Sales Team"], "sales-team")
  | Raise _ => False
  end.
Proof. vm_compute. reflexivity. Qed.

Lemma analyze_ids_well_formed_witness : _is_id (task_id demo_analyzed) = true.
Proof.
  refine (proj1 (analyze_ids_well_formed demo_task demo_analyzed _)). vm_compute. reflexivity.
Defined.

(** Human review is required exactly when signals of more than one
    specialised task type match; the task then falls back to [general-task]
    with low confidence, and otherwise takes the single matching type (high
    confidence) or [general-task] (medium). *)
Theorem classification_spec objective :
  let matches := category_matches (casefold objective) in
  let c := _classify_task objective in
  (c_requires_human_review c = true <-> (2 <= length matches)%nat) /\
  ((2 <= length matches)%nat ->
     c_task_type c = "general-task" /\ confidence c = "low" /\
     c_ambiguous_task_types c = map fst matches) /\
  (forall m, matches = [m] -> c_task_type c = m.1 /\ confidence c = "high") /\
  (matches = [] -> c_task_type c = "general-task" /\ confidence c = "medium").
Proof.
  intros matches c. subst c. unfold _classify_task. fold matches.
  destruct matches as [|m1 [|m2 ms]]; cbn.
  - split_and!; [split; [done|lia]|lia|done|done].
  - split_and!; [split; [done|lia]|lia|by intros m [= <-]|done].
  - split_and!; [split; [lia|done]|done|done|done].
Qed.

(** The input lists depend on four facts only. *)
Lemma missing_core (review repo mentions : bool) extra :
  extra = [] \/ extra = ["attachments"] ->
  let required := _dedupe ((if review || repo then ["repository"] else [])
                           ++ (if review && mentions then ["diff"] else [])) in
  let available := _dedupe ((if repo then ["repository"] else [])
                            ++ (if repo && review && mentions then ["diff"] else []) ++ extra) in
  List.filter (fun i => negb (str_in i available)) required <> [] <->
  review = true /\ repo = false.
Proof.
  intros [-> | ->]; destruct review, repo, mentions; vm_compute; naive_solver.
Qed.

(** The required inputs of a task are missing exactly when it is a code
    review without a repository; every other task can always be composed. *)
Theorem missing_information_spec task t :
  analyze task = Ok t ->
  missing_information t <> [] <->
  task_type t = "code-review" /\ _repository_context task = None.
Proof.
  unfold analyze. intros (a & Ha & [= <-])%bind_Ok. cbn [missing_information task_type].
  unfold _required_inputs, _available_inputs.
  rewrite missing_core by apply attachment_inputs_cases. rewrite String.eqb_eq.
  apply and_iff_compat_l. by destruct (_repository_context task).
Qed.

Lemma missing_information_spec_witness :
  missing_information demo_analyzed <> [] <->
  task_type demo_analyzed = "code-review" /\ _repository_context demo_task = None.
Proof. apply (missing_information_spec demo_task demo_analyzed). vm_compute. reflexivity. Defined.

(** An explicitly empty role list is not replaced by the default role: with
    no [control_plane_principal_id] the analyzer raises [IndexError] from
    [roles[0]], although the fallbacks written after it would supply the
    default role and principal. *)
Theorem auth_claims_empty_roles_raise task task_type context auth :
  dget "context" VNone task = VDict context -> dget "auth" VNone context = VDict auth ->
  dget "roles" (strs [DEFAULT_CONTROL_PLANE_PRINCIPAL_ID]) auth = VList [] ->
  truthy (dget "control_plane_principal_id" VNone auth) = false ->
  _auth_claims task task_type = Raise (IndexError "tuple index out of range").
Proof.
  intros Hc Ha Hr Hp. unfold _auth_claims. rewrite Hc, Ha. cbn. rewrite Hr. cbn. by rewrite Hp.
Qed.

Lemma auth_claims_empty_roles_raise_witness :
  _auth_claims [("context", VDict [("auth", VDict [("roles", VList [])])])] "research"
  = Raise (IndexError "tuple index out of range").
Proof.
  apply (auth_claims_empty_roles_raise _ _ [("auth", VDict [("roles", VList [])])] [("roles", VList [])]);
    reflexivity.
Defined.
