(* ===== verification/TenantAccess.v ===== *)
(** * Tenant access: the composition-time authority check

    Models [composition/tenant_access.py]. The validator compares the analyzed
    task's claims and the modules about to be selected with the tenant
    authority of the Control Plane response. The dictionary helpers it shares
    with the run-time enforcer ([string_set], [mappings], [by_string_id]) are
    textually the same in the source and are taken from [Enforcement]. *)

From S2P Require Import Prelude PyStr PyValue Models Enforcement TaskAnalyzer.
Open Scope string_scope.
Open Scope list_scope.

Definition BASELINE_INSTRUCTIONS : gset string :=
  list_to_set ["base-agent-rules"; "code-review-rules"].
Definition BASELINE_VALIDATORS : gset string := {["runtime-profile-schema"]}.

Definition tae (msg : string) : exn := TenantAccessError msg.

(** [if missing: raise TenantAccessError(msg + ", ".join(missing))] *)
Definition refuse_listed (missing : list string) (msg : string) : res unit :=
  raise_if (nonempty missing) (tae (msg +:+ join ", " missing)).

Definition check_identity (claims : AuthClaims) (authority : odict value) : res unit :=
  raise_if (negb (py_eq (dget "tenant_id" VNone authority) (VStr (tenant_id claims))))
    (tae "Tenant authority does not match the analyzed tenant.") ;;
  raise_if (negb (py_eq (dget "area_id" VNone authority) (VStr (area_id claims))))
    (tae "Tenant authority does not match the analyzed area.") ;;
  hostname ← (match dget "hostname" VNone authority with
              | VDict h => Ok h
              | _ => Raise (tae "Tenant hostname authority is required.")
              end);
  raise_if (negb (py_eq (dget "tenant_id" VNone hostname) (VStr (tenant_id claims))))
    (tae "Tenant hostname authority crosses tenant boundary.") ;;
  expected_hostname ← (match tenant_hostname claims with
                       | Some h => Ok h
                       | None => Raise (tae "Tenant hostname is required for tenant-scoped profiles.")
                       end);
  raise_if (negb (py_eq (dget "hostname" VNone hostname) (VStr expected_hostname)))
    (tae "Tenant hostname authority does not match auth claims.") ;;
  active ← in_frozenset (dget "status" VNone authority) ALLOWED_TENANT_STATUSES;
  raise_if (negb active) (tae "Tenant is not active for runtime composition.") ;;
  raise_if (negb (is_false (dget "direct_user_grants_allowed" VNone authority)))
    (tae "Direct user grants are not allowed for tenant profiles.").

Definition check_membership (claims : AuthClaims) (authority : odict value) : res (list string) :=
  membership ← (match dget "membership" VNone authority with
                | VDict m => Ok m
                | _ => Raise (tae "Tenant membership is required for tenant-scoped profiles.")
                end);
  expected_membership_id ←
    (match membership_id claims with
     | Some m => Ok m
     | None => Raise (tae "Tenant membership id is required for tenant-scoped profiles.")
     end);
  raise_if (negb (py_eq (dget "id" VNone membership) (VStr expected_membership_id)))
    (tae "Tenant membership does not match the analyzed task.") ;;
  raise_if (negb (py_eq (dget "tenant_id" VNone membership) (VStr (tenant_id claims))))
    (tae "Tenant membership crosses tenant boundary.") ;;
  raise_if (negb (py_eq (dget "principal_id" VNone membership) (VStr (principal_id claims))))
    (tae "Tenant membership principal does not match auth claims.") ;;
  active ← in_frozenset (dget "status" VNone membership) ALLOWED_MEMBERSHIP_STATUSES;
  raise_if (negb active) (tae "Tenant membership is not active.") ;;
  let membership_roles := string_set (dget "role_ids" (VList []) membership) in
  let requested_roles : gset string := list_to_set (roles claims) in
  refuse_listed (sorted_set (requested_roles ∖ membership_roles))
    "Tenant roles are not granted by the active membership: " ;;
  mret (sorted_set requested_roles).

Definition role_bundles_for (authority : odict value) (role_ids : list string)
    : res (list (odict value)) :=
  role_bundles ← (match dget "role_bundles" (VList []) authority with
                  | VList l => Ok l
                  | _ => Raise (tae "Tenant role bundles must be a list.")
                  end);
  let by_id := by_string_id (fun role => role) role_bundles in
  refuse_listed (sorted_set (list_to_set role_ids ∖ list_to_set (od_keys by_id)))
    "Tenant roles are not present in tenant authority: " ;;
  tenant ← ditem "tenant_id" authority;
  let tenant_id := py_str tenant in
  selected_roles ← mapM (fun role_id => ditem role_id by_id) role_ids;
  raise_if (existsb (fun role => negb (py_eq (dget "tenant_id" VNone role) (VStr tenant_id)))
              selected_roles)
    (tae "Tenant role bundle crosses tenant boundary.") ;;
  mret selected_roles.

(** A grant whose id is not a string is skipped here, where the enforcer refuses it. *)
Definition access_grant_step (tenant_id : string) (data_source_tenant_by_id : odict value)
    (granted : gset string) (grant : odict value) : res (gset string) :=
  match dget "data_source_id" VNone grant with
  | VStr data_source_id =>
      raise_if (negb (py_eq (dget data_source_id VNone data_source_tenant_by_id) (VStr tenant_id)))
        (tae "Tenant role data-source grant crosses tenant boundary.") ;;
      mret ({[data_source_id]} ∪ granted)
  | _ => Ok granted
  end.

Definition access_role_step (tenant_id : string) (data_source_tenant_by_id : odict value)
    (granted : gset string * gset string) (role : odict value)
    : res (gset string * gset string) :=
  let granted_capabilities :=
    granted.1 ∪ string_set (dget "capability_grants" (VList []) role) in
  granted_data_sources ←
    foldM (access_grant_step tenant_id data_source_tenant_by_id) granted.2
      (mappings (dget "data_source_grants" (VList []) role));
  mret (granted_capabilities, granted_data_sources).

Definition check_role_grants (claims : AuthClaims) (authority : odict value)
    (role_bundles : list (odict value)) : res unit :=
  data_sources ← (match dget "data_sources" (VList []) authority with
                  | VList l => Ok l
                  | _ => Raise (tae "Tenant data sources must be a list.")
                  end);
  let data_source_tenant_by_id :=
    by_string_id (fun source => dget "tenant_id" VNone source) data_sources in
  granted ← foldM (access_role_step (tenant_id claims) data_source_tenant_by_id) (∅, ∅) role_bundles;
  refuse_listed (sorted_set (list_to_set (role_capabilities claims) ∖ granted.1))
    "Requested capabilities are not derived from tenant roles: " ;;
  refuse_listed (sorted_set (list_to_set (role_data_sources claims) ∖ granted.2))
    "Requested data sources are not derived from tenant roles: ".

Definition access_derived_modules (role : odict value) : res (odict value) :=
  match dget "derived_runtime_modules" (VDict []) role with
  | VDict d => Ok d
  | _ => Raise (tae "Tenant role bundle is missing runtime module derivation.")
  end.

Abbreviation selection := (odict (list string)).

Definition selected_of (field : string) (s : selection) : list string :=
  match od_get field s with Some l => l | None => [] end.

Definition check_field (s : selection) (field : string) (allowed : gset string) : res unit :=
  refuse_listed (sorted_set (list_to_set (selected_of field s) ∖ allowed))
    ("Selected " +:+ field +:+ " are not allowed by tenant roles: ").

Definition check_selected_modules (authority : odict value) (role_bundles : list (odict value))
    (s : selection) : res unit :=
  derived ← mapM access_derived_modules role_bundles;
  check_field s "skills" (allowed_for "skills" derived) ;;
  check_field s "tools" (allowed_for "tools" derived) ;;
  check_field s "policies" (allowed_for "policies" derived) ;;
  check_field s "validators" (allowed_for "validators" derived ∪ BASELINE_VALIDATORS) ;;
  check_field s "knowledge_scopes"
    (string_set (dget "allowed_knowledge_scopes" (VList []) authority)) ;;
  check_field s "data_scopes" (string_set (dget "allowed_data_scopes" (VList []) authority)) ;;
  check_field s "memory_scopes" (string_set (dget "allowed_memory_scopes" (VList []) authority)) ;;
  refuse_listed (sorted_set (list_to_set (selected_of "instructions" s) ∖ BASELINE_INSTRUCTIONS))
    "Selected instructions are not allowed by tenant runtime baseline: ".

Definition validate (t : AnalyzedTask) (context_response : odict value) (s : selection) : res unit :=
  let claims := auth_claims t in
  if String.eqb (tenant_id claims) GLOBAL_TENANT_ID then mret tt
  else
    authority ← (match dget "tenant_authority" VNone context_response with
                 | VDict a => Ok a
                 | _ => Raise (tae "Tenant authority is required for tenant-scoped profiles.")
                 end);
    check_identity claims authority ;;
    role_ids ← check_membership claims authority;
    role_bundles ← role_bundles_for authority role_ids;
    check_role_grants claims authority role_bundles ;;
    check_selected_modules authority role_bundles s.
