(* ===== verification/TenantResolution.v ===== *)
(** * Tenant hostnames: from the name a request came by to its tenant

    Models [control_plane/tenant_resolution.py]. The resolver is built from the
    tenants' records and holds one authority per normalised hostname; two records
    with one hostname, a record without a required field, or a hostname that is
    not one refuse the whole set. Reading the tenant files is left out: the
    resolver takes their parsed contents. *)

From S2P Require Import Prelude PyStr PyValue.
Open Scope string_scope.
Open Scope list_scope.

Definition ACTIVE_TENANT_STATUSES : list string := ["setup"; "active"].

Record TenantHostnameAuthority := mkAuthority {
  tenant_id : string;
  area_id : string;
  hostname : string;
  purpose : string;
  status : string;
  expected_origin : option string;
  cloudflare_proxy_expected : bool;
}.

(** The dictionary of the resolver. *)
Definition TenantHostnameResolver : Type := odict TenantHostnameAuthority.

Definition unresolved {A} (msg : string) : res A := Raise (TenantHostnameResolutionError msg).

Definition _required_string (mapping : odict value) (key : string) : res string :=
  match dget key VNone mapping with
  | VStr s => if String.eqb (strip s) "" then unresolved (key +:+ " is required.") else mret (strip s)
  | _ => unresolved (key +:+ " is required.")
  end.

(** [s.rpartition(sep)] when [sep] occurs: the texts around its last occurrence. *)
Definition rpartition (sep : ascii) (l : list ascii) : option (list ascii * list ascii) :=
  match split_once_chars sep (reverse l) with
  | Some (after, before) => Some (reverse before, reverse after)
  | None => None
  end.

(** The text without its port suffix, if it has one. *)
Definition without_port (l : list ascii) : res (list ascii) :=
  match rpartition ":"%char l with
  | None => mret l
  | Some (host, port) =>
      raise_if (negb (nonempty host) || negb (nonempty port && forallb is_digit port))
        (TenantHostnameResolutionError "Hostname port suffix is invalid.") ;;
      mret host
  end.

Definition is_dot (c : ascii) : bool := Ascii.eqb c "."%char.
Definition rstrip_dots (l : list ascii) : list ascii := reverse (drop_chars is_dot (reverse l)).

Definition normalize_hostname (hostname : string) : res string :=
  let v := casefold (strip hostname) in
  raise_if (startswith "http://" v || startswith "https://" v)
    (TenantHostnameResolutionError "Hostname must not include a URL scheme.") ;;
  raise_if (contains "/" v) (TenantHostnameResolutionError "Hostname must not include a path.") ;;
  host ← without_port (chars v);
  let v := of_chars (rstrip_dots host) in
  raise_if (String.eqb v "") (TenantHostnameResolutionError "Hostname is required.") ;;
  mret v.

Definition origin_of (tenant_id hostname : string) (v : value) : res (option string) :=
  match v with
  | VNone => mret None
  | VStr s => mret (Some s)
  | _ => unresolved (tenant_id +:+ " hostname " +:+ hostname +:+ " expected_origin must be null or string.")
  end.

Definition proxy_of (tenant_id hostname : string) (v : value) : res bool :=
  match v with
  | VBool b => mret b
  | _ => unresolved (tenant_id +:+ " hostname " +:+ hostname +:+ " cloudflare_proxy_expected must be bool.")
  end.

(** The body of the loop over a tenant's hostname records. *)
Definition add_hostname (tid aid st : string) (r : TenantHostnameResolver) (hostname_record : value)
    : res TenantHostnameResolver :=
  match hostname_record with
  | VDict hostname_record =>
      h ← _required_string hostname_record "hostname";
      hostname ← normalize_hostname h;
      match od_get hostname r with
      | Some existing => unresolved ("Duplicate tenant hostname " +:+ repr_str hostname +:+ " for "
                           +:+ repr_str (tenant_id existing) +:+ " and " +:+ repr_str tid +:+ ".")
      | None => mret tt
      end ;;
      origin ← origin_of tid hostname (dget "expected_origin" VNone hostname_record);
      proxy ← proxy_of tid hostname (dget "cloudflare_proxy_expected" VNone hostname_record);
      purpose ← _required_string hostname_record "purpose";
      mret (od_set hostname (mkAuthority tid aid hostname purpose st origin proxy) r)
  | _ => unresolved (tid +:+ " tenant hostname record must be an object.")
  end.

Definition _add_tenant (r : TenantHostnameResolver) (tenant : odict value) : res TenantHostnameResolver :=
  tenant_id ← _required_string tenant "tenant_id";
  area_id ← _required_string tenant "area_id";
  status ← _required_string tenant "status";
  match dget "hostnames" VNone tenant with
  | VList hostnames => foldM (add_hostname tenant_id area_id status) r hostnames
  | _ => unresolved (tenant_id +:+ " tenant hostnames must be a list.")
  end.

Definition new_resolver (tenants : list (odict value)) : res TenantHostnameResolver := foldM _add_tenant [] tenants.

Definition resolve (r : TenantHostnameResolver) (hostname : string) : res TenantHostnameAuthority :=
  normalized ← normalize_hostname hostname;
  match od_get normalized r with
  | None => unresolved ("Unknown tenant hostname: " +:+ normalized)
  | Some authority =>
      raise_if (negb (str_in (status authority) ACTIVE_TENANT_STATUSES))
        (TenantHostnameResolutionError ("Tenant hostname is not active: " +:+ normalized)) ;;
      mret authority
  end.

(** ** The authorities a set of tenant records states *)

Definition stated_hostname (tenant_id area_id status : string) (hostname_record : value) : res TenantHostnameAuthority :=
  match hostname_record with
  | VDict d =>
      h ← _required_string d "hostname";
      hostname ← normalize_hostname h;
      origin ← origin_of tenant_id hostname (dget "expected_origin" VNone d);
      proxy ← proxy_of tenant_id hostname (dget "cloudflare_proxy_expected" VNone d);
      purpose ← _required_string d "purpose";
      mret (mkAuthority tenant_id area_id hostname purpose status origin proxy)
  | _ => unresolved (tenant_id +:+ " tenant hostname record must be an object.")
  end.

Definition stated (tenant : odict value) : res (list TenantHostnameAuthority) :=
  tenant_id ← _required_string tenant "tenant_id";
  area_id ← _required_string tenant "area_id";
  status ← _required_string tenant "status";
  match dget "hostnames" VNone tenant with
  | VList hostnames => mapM (stated_hostname tenant_id area_id status) hostnames
  | _ => unresolved (tenant_id +:+ " tenant hostnames must be a list.")
  end.

Definition entry (a : TenantHostnameAuthority) : string * TenantHostnameAuthority := (hostname a, a).

Lemma NoDup_snoc_keys {V} k (v : V) d : NoDup (od_keys (d ++ [(k, v)])) <-> NoDup (od_keys d) /\ od_get k d = None.
Proof.
  unfold od_keys. rewrite map_app. cbn [map fst]. rewrite NoDup_app, od_get_None, <- list_elem_of_In. fold (od_keys d). split.
  - intros (H1 & H2 & _). split; [done|]. intros Hk. apply (H2 k Hk). by left.
  - intros [H1 H2]. split_and!; [done| |apply NoDup_singleton]. intros x Hx ->%list_elem_of_singleton. done.
Qed.

(** A step adds what it states, and succeeds when that leaves the keys distinct. *)
Definition states {A} (step : TenantHostnameResolver -> A -> res TenantHostnameResolver)
    (f : A -> res (list TenantHostnameAuthority)) : Prop :=
  forall r x r', NoDup (od_keys r) ->
  step r x = Ok r' <-> exists l, f x = Ok l /\ r' = r ++ map entry l /\ NoDup (od_keys r').

Lemma NoDup_keys_app {V} (d d' : odict V) : NoDup (od_keys (d ++ d')) -> NoDup (od_keys d).
Proof. unfold od_keys. rewrite map_app, NoDup_app. by intros []. Qed.

Lemma foldM_states {A} step (f : A -> res (list TenantHostnameAuthority)) : states step f ->
  states (foldM step) (fun l => ls ← mapM f l; mret (concat ls)).
Proof.
  intros Hs r l. revert r. induction l as [|x l IH]; intros r r' Hn; cbn [foldM].
  - split.
    + intros [= <-]. exists []. by rewrite app_nil_r.
    + by intros (ls & [= <-] & -> & _); rewrite app_nil_r.
  - rewrite bind_Ok. split.
    + intros (r1 & (k & Hk & -> & Hn1)%Hs & H); [|done]. apply IH in H as (k' & Hk' & -> & Hn'); [|done].
      apply bind_Ok in Hk' as (ls & Hls & [= <-]). exists (k ++ concat ls). cbn. rewrite Hk. cbn. rewrite Hls. cbn.
      by rewrite map_app, app_assoc.
    + intros (k & Hk & -> & Hn'). cbn in Hk. apply bind_Ok in Hk as (kk & Hk & [= <-]).
      apply bind_Ok in Hk as (k1 & Hk1 & Hk). apply bind_Ok in Hk as (ls & Hls & [= <-]). cbn [concat] in *.
      rewrite map_app, app_assoc in Hn' |- *. exists (r ++ map entry k1). split.
      * apply Hs; [done|]. exists k1. split_and!; [done..|]. by apply NoDup_keys_app in Hn'.
      * apply IH; [by apply NoDup_keys_app in Hn'|]. exists (concat ls). cbn. rewrite Hls. by cbn.
Qed.

Lemma add_hostname_states t a st :
  states (add_hostname t a st) (fun x => y ← stated_hostname t a st x; mret [y]).
Proof.
  intros r x r' Hn. unfold add_hostname, stated_hostname.
  destruct x as [| | | | |d]; try (split; [done|by intros (? & ? & _)]).
  destruct (_required_string d "hostname") as [h|]; cbn; [|split; [done|by intros (? & ? & _)]].
  destruct (normalize_hostname h) as [host|]; cbn; [|split; [done|by intros (? & ? & _)]].
  destruct (origin_of t host _) as [o|]; cbn; [|destruct (od_get host r); split; try done; by intros (? & ? & _)].
  destruct (proxy_of t host _) as [b|]; cbn; [|destruct (od_get host r); split; try done; by intros (? & ? & _)].
  destruct (_required_string d "purpose") as [p|]; cbn; [|destruct (od_get host r); split; try done; by intros (? & ? & _)].
  set (y := mkAuthority t a host p st o b). destruct (od_get host r) eqn:E; cbn.
  - split; [done|]. intros (l & [= <-] & -> & Hn'). cbn [map entry] in Hn'. apply NoDup_snoc_keys in Hn' as [_ Hn'].
    cbn in Hn'. congruence.
  - rewrite od_set_new by done. split.
    + intros [= <-]. exists [y]. split_and!; [done..|]. by apply NoDup_snoc_keys.
    + by intros (l & [= <-] & -> & _).
Qed.

Lemma mapM_singletons {A} (f : A -> res TenantHostnameAuthority) l :
  (ls ← mapM (fun x => y ← f x; mret [y]) l; mret (concat ls)) = mapM f l.
Proof.
  induction l as [|x l IH]; [done|]. cbn. destruct (f x) as [y|]; [|done]. cbn in *. rewrite <- IH.
  by destruct (mapM (fun x => y ← f x; mret [y]) l).
Qed.

Lemma add_tenant_states : states _add_tenant stated.
Proof.
  intros r t r' Hn. unfold _add_tenant, stated.
  destruct (_required_string t "tenant_id") as [i|]; cbn; [|split; [done|by intros (? & ? & _)]].
  destruct (_required_string t "area_id") as [a|]; cbn; [|split; [done|by intros (? & ? & _)]].
  destruct (_required_string t "status") as [st|]; cbn; [|split; [done|by intros (? & ? & _)]].
  destruct (dget "hostnames" VNone t) as [| | | |l|]; try (split; [done|by intros (? & ? & _)]).
  rewrite <- mapM_singletons. exact (foldM_states _ _ (add_hostname_states i a st) r l r' Hn).
Qed.

Lemma od_get_entries l n a : NoDup (od_keys (map entry l)) ->
  od_get n (map entry l) = Some a <-> In a l /\ hostname a = n.
Proof.
  intros Hn. split.
  - intros (x & [= <- <-] & Hx)%od_get_In%in_map_iff. done.
  - intros [Ha <-]. apply od_get_NoDup; [done|]. apply in_map_iff. by exists a.
Qed.

(** ** Properties *)

(** C32. Hostnames name tenants uniquely. A resolver is built exactly when every
    tenant record states its authorities and no two of them, of one tenant or of
    two, have the same normalised hostname; a hostname then resolves to an
    authority exactly when that authority was stated for the normalised hostname
    by a tenant in setup or active. *)
Theorem hostname_resolves_uniquely tenants :
  (forall r, new_resolver tenants = Ok r <->
     exists ls, mapM stated tenants = Ok ls /\ NoDup (map hostname (concat ls)) /\ r = map entry (concat ls)) /\
  (forall r ls name a, new_resolver tenants = Ok r -> mapM stated tenants = Ok ls ->
     resolve r name = Ok a <->
     In a (concat ls) /\ normalize_hostname name = Ok (hostname a) /\ In (status a) ACTIVE_TENANT_STATUSES).
Proof.
  assert (Hb : forall r, new_resolver tenants = Ok r <->
     exists ls, mapM stated tenants = Ok ls /\ NoDup (map hostname (concat ls)) /\ r = map entry (concat ls)).
  { intros r. unfold new_resolver. etrans; [apply (foldM_states _ _ add_tenant_states); apply NoDup_nil_2|]. cbn [app].
    assert (Hk : forall l, od_keys (map entry l) = map hostname l) by (intros l; unfold od_keys; by rewrite map_map).
    split.
    - intros (l & Hl & -> & Hn). apply bind_Ok in Hl as (ls & Hls & [= <-]). rewrite Hk in Hn. eauto.
    - intros (ls & Hls & Hn & ->). exists (concat ls). rewrite Hls, Hk. done. }
  split; [exact Hb|]. intros r ls name a Hr Hls. apply Hb in Hr as (ls' & Hls' & Hn & ->).
  rewrite Hls in Hls'. injection Hls' as <-. unfold resolve. destruct (normalize_hostname name) as [n|]; cbn [mbind result_bind].
  - destruct (od_get n (map entry (concat ls))) as [x|] eqn:E.
    + apply od_get_entries in E as [Hx <-]; [|unfold od_keys; by rewrite map_map].
      assert (Hu : In a (concat ls) -> hostname x = hostname a -> x = a) by (intros; by eapply NoDup_map_inj).
      destruct (str_in (status x) ACTIVE_TENANT_STATUSES) eqn:Es; cbn [negb raise_if mbind result_bind mret result_ret]; (split; [try done|]).
      * intros [= <-]. by apply str_in_In in Es.
      * intros (Ha & [= Eh] & Hact). by rewrite (Hu Ha Eh).
      * intros (Ha & [= Eh] & Hact%str_in_In). rewrite (Hu Ha Eh) in Es. congruence.
    + split; [done|]. intros (Ha & [= ->] & _). exfalso.
      assert (H : od_get (hostname a) (map entry (concat ls)) = Some a)
        by (apply od_get_entries; [unfold od_keys; by rewrite map_map|done]). congruence.
  - split; [done|]. by intros (_ & ? & _).
Qed.

(** ** Hostnames *)

Definition demo_tenant (id status : string) (hostnames : list string) : odict value :=
  [("tenant_id", VStr id); ("area_id", VStr "lab"); ("status", VStr status);
   ("hostnames", VList (map (fun h => VDict [("hostname", VStr h); ("purpose", VStr "site"); ("cloudflare_proxy_expected", VBool true)])
      hostnames))].

(** Spelling, a port and a final dot do not matter; a suspended tenant's name
    resolves to nothing. *)
Example resolves_spellings :
  match new_resolver [demo_tenant "acme" "active" ["acme.example"]; demo_tenant "rival" "suspended" ["Rival.Example."]] with
  | Ok r => (a ← resolve r " ACME.example.:443 "; mret (tenant_id a)) = Ok "acme" /\
      resolve r "rival.example" = unresolved "Tenant hostname is not active: rival.example" /\
      resolve r "acme.example:" = unresolved "Hostname port suffix is invalid."
  | Raise _ => False
  end.
Proof. vm_compute. by repeat split. Qed.

(** Two tenants cannot take one name by spelling it in two ways. *)
Example spelled_twice :
  new_resolver [demo_tenant "acme" "active" ["acme.example"]; demo_tenant "rival" "active" ["ACME.example:80"]]
  = unresolved "Duplicate tenant hostname 'acme.example' for 'acme' and 'rival'.".
Proof. vm_compute. reflexivity. Qed.

(** Normalising is not idempotent: what is left after a port is removed may end
    in a port again. *)
Example port_removed_once :
  normalize_hostname "a:1.:2" = Ok "a:1" /\ normalize_hostname "a:1" = Ok "a".
Proof. vm_compute. by split. Qed.

Definition demo_tenants : list (odict value) :=
  [demo_tenant "acme" "active" ["acme.example"; "www.acme.example"]; demo_tenant "rival" "setup" ["Rival.Example."]].

Lemma hostname_resolves_uniquely_witness :
  exists r a, new_resolver demo_tenants = Ok r /\ resolve r "RIVAL.example:443" = Ok a /\ tenant_id a = "rival".
Proof.
  exists (match new_resolver demo_tenants with Ok r => r | Raise _ => [] end).
  exists (mkAuthority "rival" "lab" "rival.example" "site" "setup" None true).
  assert (Hr : new_resolver demo_tenants = Ok (match new_resolver demo_tenants with Ok r => r | Raise _ => [] end))
    by (vm_compute; reflexivity).
  split; [exact Hr|]. split; [|reflexivity].
  refine (proj2 (proj2 (hostname_resolves_uniquely demo_tenants) _
    (match mapM stated demo_tenants with Ok ls => ls | Raise _ => [] end) "RIVAL.example:443" _ Hr _) _).
  - vm_compute. reflexivity.
  - vm_compute. split; [right; right; left; reflexivity|]. split; [reflexivity|left; reflexivity].
Defined.
