(* ===== verification/ProfileComposer.v ===== *)
(** * Profile composition: from Control Plane context to a sealed profile

    Models [composition/profile_composer.py]. [compose] checks the request's
    traceability, that the Control Plane context is composable, selects the
    modules, has tenant access validated, pins every version, and emits the
    profile as the dictionary the run time consumes. *)

From S2P Require Import Prelude PyStr PyValue Models Enforcement TaskAnalyzer TenantAccess.
Open Scope string_scope.
Open Scope list_scope.

Definition RUNTIME_PROFILE_VERSION : string := "0.6.0".
Definition BASELINE_MODULE_VERSIONS : odict string :=
  [("base-agent-rules", "0.1.0"); ("runtime-profile-schema", "0.1.0")].
Definition TASK_INSTRUCTION_VERSIONS : odict (odict string) :=
  [("code-review", [("code-review-rules", "0.1.0")])].
Definition DEFAULT_LIMITS : odict value :=
  [("max_tool_calls", VInt 30); ("max_tokens", VInt 60000); ("max_duration_seconds", VInt 900);
   ("max_data_reads", VInt 120); ("max_memory_ops", VInt 10); ("max_recompositions", VInt 1)].
Definition DEFAULT_FAILURE_POLICY : odict value :=
  [("on_composer_failure", VStr "request_clarification"); ("on_validator_failure", VStr "fail_closed");
   ("on_policy_denial", VStr "return_error"); ("on_budget_exhausted", VStr "return_error")].
Definition HUMAN_REVIEW_LIMITS : odict value :=
  od_update DEFAULT_LIMITS
    [("max_tool_calls", VInt 0); ("max_data_reads", VInt 0); ("max_memory_ops", VInt 0);
     ("max_recompositions", VInt 0)].
Definition HUMAN_REVIEW_FAILURE_POLICY : odict value :=
  [("on_composer_failure", VStr "fail_closed"); ("on_validator_failure", VStr "fail_closed");
   ("on_policy_denial", VStr "fail_closed"); ("on_budget_exhausted", VStr "return_error")].
Definition DEFAULT_CAPTURE_EVENTS : list string :=
  ["task_analyzed"; "candidates_discovered"; "candidates_scored"; "policies_evaluated";
   "graph_validated"; "profile_emitted"; "profile_validated"; "runtime_completed"].
Definition COMPOSER_RECOMPOSITION_REASONS : list string :=
  ["task_reclassified"; "missing_capability"; "policy_change"; "budget_exhausted";
   "validator_failure"].
Definition SKILL_RUNTIME_ROLES : list string := ["runtime"; "non-runtime"; "shared"].

(** ** Reading the context *)

Definition _references (context_response : odict value) (field : string) : list (odict value) :=
  mappings (dget field (VList []) context_response).

Definition _graph_references (context_response : odict value) : list (odict value) :=
  match dget "graph_validation" (VDict []) context_response with
  | VDict g => mappings (dget "reachable_modules" (VList []) g)
  | _ => []
  end.

Definition _policy_decisions (context_response : odict value) : list (odict value) :=
  mappings (dget "policy_decisions" (VList []) context_response).

Definition reference_name (kind : option string) (reference : odict value) : option string :=
  if match kind with
     | Some k => negb (py_eq (dget "kind" VNone reference) (VStr k))
     | None => false
     end then None
  else match dget "name" VNone reference with VStr n => Some n | _ => None end.

Definition _names (references : list (odict value)) (kind : option string) : list string :=
  omap (reference_name kind) references.

Definition _versions_by_name (references : list (odict value)) : odict string :=
  od_of_list (omap (fun reference =>
    match dget "name" VNone reference, dget "version" VNone reference with
    | VStr n, VStr v => Some (n, v)
    | _, _ => None
    end) references).

(** The composer's own [_dedupe] keeps first occurrences as they are. *)
Definition dedupe_first (values : list string) : list string := fromkeys values.

(** ** Skill roles *)

Definition role_entry (module : odict value) : res (option (string * string)) :=
  if negb (py_eq (dget "kind" VNone module) (VStr "skill")) then Ok None
  else match dget "name" VNone module with
       | VStr name =>
           let role := py_str (dget "runtime_role" (VStr "runtime") module) in
           raise_if (negb (str_in role SKILL_RUNTIME_ROLES))
             (CompositionError ("Invalid runtime_role for skill module " +:+ name +:+ ": " +:+ role
                +:+ ". Expected one of: " +:+ join ", " (sorted_strs SKILL_RUNTIME_ROLES) +:+ ".")) ;;
           mret (Some (name, role))
       | _ => Ok None
       end.

Definition _skill_execution_roles (candidate_modules : list (odict value))
    (selected_skills : list string) : res (odict value) :=
  entries ← mapM role_entry candidate_modules;
  let role_by_skill_name := od_of_list (omap (fun e => e) entries) in
  let role_of skill :=
    match od_get skill role_by_skill_name with Some r => r | None => "runtime" end in
  mret
    [("runtime_skills",
        strs (List.filter (fun s => String.eqb (role_of s) "runtime") selected_skills));
     ("non_runtime_skills",
        strs (List.filter (fun s => String.eqb (role_of s) "non-runtime") selected_skills));
     ("shared_skills",
        strs (List.filter (fun s => negb (String.eqb (role_of s) "runtime")
                                    && negb (String.eqb (role_of s) "non-runtime")) selected_skills))].

Definition _requires_knowledge_context (t : AnalyzedTask) : bool :=
  String.eqb (task_type t) "research" || str_in "retrieval" (capability_hints t).

Definition task_instructions (task_type : string) : odict string :=
  match od_get task_type TASK_INSTRUCTION_VERSIONS with Some d => d | None => [] end.

Definition _version_for (name : string) (version_by_name : odict string) (task_type : string)
    : res string :=
  match od_get name version_by_name with
  | Some v => Ok v
  | None =>
      match od_get name BASELINE_MODULE_VERSIONS with
      | Some v => Ok v
      | None =>
          match od_get name (task_instructions task_type) with
          | Some v => Ok v
          | None => Raise (CompositionError
                      ("No version pin is available for selected module: " +:+ name +:+ "."))
          end
      end
  end.

(** [{name: _version_for(name, ...) for name in selected_modules}] *)
Definition pin_versions (version_by_name : odict string) (task_type : string) (names : list string)
    : res (odict value) :=
  pins ← mapM (fun name => v ← _version_for name version_by_name task_type; mret (name, VStr v)) names;
  mret (od_of_list pins).

(** ** Traceability and composability *)

Definition _assert_recomposition_traceability (profile_generation : Z)
    (parent_profile_id recomposition_reason : option string) : res unit :=
  raise_if (profile_generation <? 1)%Z
    (CompositionError "profile_generation must be greater than zero.") ;;
  if (profile_generation =? 1)%Z then
    raise_if (has parent_profile_id || has recomposition_reason)
      (CompositionError "Initial profiles cannot include recomposition traceability.")
  else
    match parent_profile_id, recomposition_reason with
    | Some _, Some reason =>
        raise_if (negb (str_in reason COMPOSER_RECOMPOSITION_REASONS))
          (CompositionError ("recomposition_reason must be one of: "
             +:+ join ", " (sorted_strs COMPOSER_RECOMPOSITION_REASONS)
             +:+ ". Got: " +:+ reason +:+ "."))
    | _, _ => Raise (CompositionError
                "Recomposed profiles require parent_profile_id and recomposition_reason.")
    end.

(** [sep.join(l)] of dynamic values *)
Definition join_values (sep : string) (l : list value) : res string :=
  items ← mapM (fun v => match v with
                         | VStr s => Ok s
                         | _ => Raise (TypeError "sequence item: expected str instance")
                         end) l;
  mret (join sep items).

(** One item of the [policy_effects] comprehension; a key that is not a string
    can be stored but is never looked up. *)
Definition policy_effect (decision : odict value) : res (option (string * value)) :=
  match dget "module" VNone decision with
  | VDict m =>
      name ← ditem "name" m;
      effect ← ditem "effect" decision;
      match name with
      | VStr n => Ok (Some (n, effect))
      | VList _ | VDict _ => Raise (TypeError "unhashable type")
      | _ => Ok None
      end
  | _ => Ok None
  end.

Definition policy_effects (context_response : odict value) : res (odict value) :=
  entries ← mapM policy_effect (_policy_decisions context_response);
  mret (od_of_list (omap (fun e => e) entries)).

Definition candidate_allowed (effects : odict value) (module : odict value) : res unit :=
  name ← ditem "name" module;
  let effect := dget (py_str name) VNone effects in
  raise_if (negb (is_none effect) && negb (py_eq effect (VStr "allow")))
    (CompositionError ("Candidate module " +:+ py_str name +:+ " is not policy-allowed: "
                       +:+ py_str effect +:+ ".")).

Definition graph_tool_allowed (effects : odict value) (module : odict value) : res unit :=
  if negb (py_eq (dget "kind" VNone module) (VStr "tool")) then mret tt
  else
    name ← ditem "name" module;
    let effect := dget (py_str name) VNone effects in
    raise_if (negb (py_eq effect (VStr "allow")))
      (CompositionError ("Selected tool " +:+ py_str name +:+ " is not policy-allowed: "
         +:+ (if truthy effect then py_str effect else "missing") +:+ ".")).

Definition for_each {A} (f : A -> res unit) (l : list A) : res unit :=
  foldM (fun _ x => f x) tt l.

Definition _assert_composable (t : AnalyzedTask) (context_response : odict value) : res unit :=
  raise_if (nonempty (missing_information t))
    (CompositionError ("Cannot compose profile; missing required inputs: "
                       +:+ join ", " (missing_information t) +:+ ".")) ;;
  let status := dget "composition_status" VNone context_response in
  raise_if (negb (py_eq status (VStr "ready")))
    (CompositionError ("Control Plane composition status is not ready: " +:+ py_str status +:+ ".")) ;;
  graph_validation ←
    (match dget "graph_validation" VNone context_response with
     | VDict g => Ok g
     | _ => Raise (CompositionError "Control Plane response is missing graph validation.")
     end);
  (if is_true (dget "is_valid" VNone graph_validation) then mret tt
   else match dget "errors" (VList []) graph_validation with
        | VList (e :: es) =>
            errors ← join_values "; " (e :: es);
            Raise (CompositionError ("Control Plane graph validation failed: " +:+ errors))
        | _ => Raise (CompositionError "Control Plane graph validation failed.")
        end) ;;
  let candidate_modules := _references context_response "candidate_modules" in
  raise_if (negb (nonempty candidate_modules) && negb (requires_human_review t))
    (CompositionError "Control Plane returned no candidate modules.") ;;
  if requires_human_review t then mret tt
  else
    raise_if (_requires_knowledge_context t
              && nonempty (_references context_response "allowed_memory_scopes")
              && negb (nonempty (_references context_response "allowed_knowledge_scopes")))
      (CompositionError "Memory scopes cannot substitute for knowledge scopes on research or retrieval tasks.") ;;
    effects ← policy_effects context_response;
    for_each (candidate_allowed effects) candidate_modules ;;
    for_each (graph_tool_allowed effects) (_graph_references context_response).

(** ** Profile sections *)

Definition _auth_context (t : AnalyzedTask) : odict value :=
  let c := auth_claims t in
  [("principal", VDict
      ([("id", VStr (principal_id c)); ("type", VStr (principal_type c))]
       ++ match display_name c with Some n => [("display_name", VStr n)] | None => [] end));
   ("roles", strs (roles c));
   ("authorization_policies", strs (authorization_policies c))].

Definition _tenant_context (t : AnalyzedTask) : odict value :=
  let c := auth_claims t in
  [("tenant_id", VStr (tenant_id c)); ("area_id", VStr (area_id c));
   ("hostname", opt_str (tenant_hostname c)); ("membership_id", opt_str (membership_id c));
   ("role_ids", strs (roles c));
   ("role_derivation", VDict
      [("grant_source", VStr "tenant-role-bundles"); ("direct_user_grants_allowed", VBool false);
       ("capabilities_derive_from_roles", VBool true);
       ("data_sources_derive_from_roles", VBool true)]);
   ("allowed_role_data_sources", strs (role_data_sources c));
   ("allowed_role_capabilities", strs (role_capabilities c))].

Definition _tenant_authority_snapshot (t : AnalyzedTask) (context_response : odict value)
    : res value :=
  if String.eqb (tenant_id (auth_claims t)) "global" then Ok VNone
  else match dget "tenant_authority" VNone context_response with
       | VDict authority => Ok (VDict authority)
       | _ => Raise (CompositionError "Tenant authority is required for tenant-scoped profiles.")
       end.

Definition task_suffix (task_id : string) : string :=
  if startswith "task-" task_id then removeprefix "task-" task_id else task_id.

Definition _profile_id (task_id : string) (profile_generation : Z) : string :=
  let profile_id := "profile-" +:+ task_suffix task_id in
  if (profile_generation <=? 1)%Z then profile_id
  else profile_id +:+ "-g" +:+ zstr profile_generation.

Definition _trace_id (task_id : string) : string := "trace-" +:+ task_suffix task_id.

Definition _human_review_required (t : AnalyzedTask) : odict value :=
  [("required", VBool true); ("status", VStr "required");
   ("reason", VStr "Task classification matched multiple specialized task types; specialized runtime composition requires human approval.");
   ("ambiguous_task_types", strs (ambiguous_task_types t));
   ("classification_confidence", VStr (classification_confidence t));
   ("classification_reasons", strs (classification_reasons t));
   ("allowed_before_approval",
      strs ["profile_validation"; "audit_recording"; "clarification_request"])].

Definition _human_review_not_required (t : AnalyzedTask) : odict value :=
  [("required", VBool false); ("status", VStr "not_required");
   ("reason", VStr "Analyzer did not require human review.");
   ("ambiguous_task_types", strs (ambiguous_task_types t));
   ("classification_confidence", VStr (classification_confidence t));
   ("classification_reasons", strs (classification_reasons t));
   ("allowed_before_approval", strs [])].

Definition observability (t : AnalyzedTask) : odict value :=
  [("trace_id", VStr (_trace_id (task_id t))); ("log_level", VStr "info");
   ("capture_events", strs DEFAULT_CAPTURE_EVENTS); ("redact_sensitive_data", VBool true)].

(** The modules chosen for each field of a profile. *)
Record modules := mkModules {
  instructions : list string;
  skills : list string;
  tools : list string;
  knowledge_scopes : list string;
  data_scopes : list string;
  memory_scopes : list string;
  policies : list string;
  validators : list string;
}.

Definition all_modules_of (m : modules) : list string :=
  instructions m ++ skills m ++ tools m ++ knowledge_scopes m ++ data_scopes m ++ memory_scopes m
  ++ policies m ++ validators m.

Definition selection_of (m : modules) : selection :=
  [("instructions", instructions m); ("skills", skills m); ("tools", tools m);
   ("knowledge_scopes", knowledge_scopes m); ("data_scopes", data_scopes m);
   ("memory_scopes", memory_scopes m); ("policies", policies m); ("validators", validators m)].

(** The dictionary display both kinds of profile share. *)
Definition profile_dict (t : AnalyzedTask) (generation : Z) (parent reason : option string)
    (authority : value) (human_review : odict value) (m : modules) (roles pins limits
    failure_policy : odict value) : odict value :=
  [("id", VStr (_profile_id (task_id t) generation));
   ("profile_version", VStr RUNTIME_PROFILE_VERSION); ("profile_generation", VInt generation);
   ("parent_profile_id", opt_str parent); ("recomposition_reason", opt_str reason);
   ("task_type", VStr (task_type t)); ("objective", VStr (objective t));
   ("risk_level", VStr (risk_level t)); ("auth_context", VDict (_auth_context t));
   ("tenant_context", VDict (_tenant_context t)); ("tenant_authority", authority);
   ("human_review", VDict human_review); ("instructions", strs (instructions m));
   ("skills", strs (skills m)); ("skill_execution_roles", VDict roles);
   ("tools", strs (tools m)); ("knowledge_scopes", strs (knowledge_scopes m));
   ("data_scopes", strs (data_scopes m)); ("memory_scopes", strs (memory_scopes m));
   ("policies", strs (policies m)); ("validators", strs (validators m));
   ("module_versions", VDict pins); ("limits", VDict limits);
   ("failure_policy", VDict failure_policy); ("observability", VDict (observability t))].

Definition applicable_policies (context_response : odict value) : res (list string) :=
  let policies := dedupe_first (_names (_references context_response "applicable_policies") None) in
  raise_if (negb (nonempty policies))
    (CompositionError "Control Plane returned no applicable policies.") ;;
  mret policies.

Definition _human_review_profile (t : AnalyzedTask) (context_response : odict value)
    (version_by_name : odict string) (generation : Z) (parent reason : option string)
    : res (modules * odict value) :=
  policies ← applicable_policies context_response;
  let m := mkModules ["base-agent-rules"] [] [] [] [] [] policies ["runtime-profile-schema"] in
  authority ← _tenant_authority_snapshot t context_response;
  pins ← pin_versions version_by_name (task_type t) (all_modules_of m);
  mret (m, profile_dict t generation parent reason authority (_human_review_required t) m
             [("runtime_skills", strs []); ("non_runtime_skills", strs []); ("shared_skills", strs [])]
             pins HUMAN_REVIEW_LIMITS HUMAN_REVIEW_FAILURE_POLICY).

(** [_assert_tenant_access]: a [TenantAccessError] becomes a [CompositionError]. *)
Definition _assert_tenant_access (t : AnalyzedTask) (context_response : odict value) (m : modules)
    : res unit :=
  match validate t context_response (selection_of m) with
  | Raise (TenantAccessError msg) => Raise (CompositionError msg)
  | r => r
  end.

Definition context_versions (context_response : odict value) : odict string :=
  _versions_by_name
    (_references context_response "candidate_modules"
     ++ _references context_response "applicable_policies"
     ++ _references context_response "allowed_knowledge_scopes"
     ++ _references context_response "allowed_data_scopes"
     ++ _references context_response "allowed_memory_scopes"
     ++ _references context_response "validation_requirements"
     ++ _graph_references context_response).

(** The full selection of an ordinary task, but for the policies. *)
Definition select_modules (t : AnalyzedTask) (context_response : odict value)
    (policies : list string) : modules :=
  let candidates := _references context_response "candidate_modules" in
  mkModules
    (dedupe_first ("base-agent-rules" :: od_keys (task_instructions (task_type t))
                   ++ _names candidates (Some "instruction")))
    (dedupe_first (_names candidates (Some "skill")))
    (dedupe_first (_names candidates (Some "tool")
                   ++ _names (_graph_references context_response) (Some "tool")))
    (dedupe_first (_names (_references context_response "allowed_knowledge_scopes") None))
    (dedupe_first (_names (_references context_response "allowed_data_scopes") None))
    (dedupe_first (_names (_references context_response "allowed_memory_scopes") None))
    policies
    (dedupe_first ("runtime-profile-schema"
                   :: _names (_references context_response "validation_requirements") None)).

Definition compose (t : AnalyzedTask) (context_response : odict value) (generation : Z)
    (parent reason : option string) : res (odict value) :=
  _assert_recomposition_traceability generation parent reason ;;
  _assert_composable t context_response ;;
  let version_by_name := context_versions context_response in
  if requires_human_review t then
    review ← _human_review_profile t context_response version_by_name generation parent reason;
    _assert_tenant_access t context_response review.1 ;;
    mret review.2
  else
    let candidates := _references context_response "candidate_modules" in
    skill_roles ← _skill_execution_roles candidates (dedupe_first (_names candidates (Some "skill")));
    policies ← applicable_policies context_response;
    let m := select_modules t context_response policies in
    _assert_tenant_access t context_response m ;;
    authority ← _tenant_authority_snapshot t context_response;
    pins ← pin_versions version_by_name (task_type t) (all_modules_of m);
    mret (profile_dict t generation parent reason authority (_human_review_not_required t) m
            skill_roles pins DEFAULT_LIMITS DEFAULT_FAILURE_POLICY).

(** ** From the composition-time check to the run-time check *)

Lemma elem_of_string_set x v :
  x ∈ string_set v <-> exists l w, v = VList l /\ In w l /\ py_str w = x /\ strip x <> "".
Proof.
  unfold string_set. destruct v; try (split; [set_solver | by intros (? & ? & [=] & _)]).
  rewrite elem_of_list_to_set, list_elem_of_In, in_map_iff. setoid_rewrite filter_In.
  setoid_rewrite negb_true_iff. setoid_rewrite String.eqb_neq. naive_solver.
Qed.

Lemma string_set_strs l x : x ∈ string_set (strs l) <-> In x l /\ strip x <> "".
Proof.
  rewrite elem_of_string_set. unfold strs. split.
  - intros (l' & w & [= <-] & Hw & <- & Hs). apply in_map_iff in Hw as (y & <- & Hy). done.
  - intros [Hx Hs]. exists (map VStr l), (VStr x). split_and!; try done. by apply in_map.
Qed.

Lemma string_set_strs_sub l : string_set (strs l) ⊆ list_to_set l.
Proof.
  intros x [Hx _]%string_set_strs. by apply elem_of_list_to_set, list_elem_of_In.
Qed.

(** A list contained in a set of non-blank ids has no blank id. *)
Lemma string_set_strs_eq l v :
  (list_to_set l : gset string) ⊆ string_set v -> string_set (strs l) = list_to_set l.
Proof.
  intros H. apply set_eq. intros x. rewrite string_set_strs, elem_of_list_to_set, list_elem_of_In.
  split; [by intros []|]. intros Hx. split; [done|].
  assert (Hv : x ∈ string_set v) by (by apply H, elem_of_list_to_set, list_elem_of_In).
  apply elem_of_string_set in Hv. naive_solver.
Qed.

Lemma refuse_listed_Ok (a b : gset string) msg u :
  refuse_listed (sorted_set (a ∖ b)) msg = Ok u <-> a ⊆ b.
Proof. unfold refuse_listed. by rewrite raise_if_Ok, nonempty_false, sorted_set_subset_nil. Qed.

(** Run a guard whose condition is known to be false. *)
Lemma guard_Ok {A} b (e : exn) (k : res A) r : b = false -> k = r -> (raise_if b e ;; k) = r.
Proof. by intros -> ->. Qed.
Lemma deny_listed_sub {A} (a b : gset string) msg c (k : res A) r :
  a ⊆ b -> k = r -> (deny_listed (sorted_set (a ∖ b)) msg c ;; k) = r.
Proof. intros H <-. by rewrite (proj2 (deny_listed_Ok a b msg c tt) H). Qed.

Create HintDb guards.
#[export] Hint Resolve guard_Ok deny_listed_sub : guards.

Section authority_transfer.
Context (t : AnalyzedTask) (authority : odict value).

Lemma identity_transfer :
  check_identity (auth_claims t) authority = Ok tt ->
  _validate_tenant_identity (_tenant_context t) authority = Ok tt.
Proof.
  intros H. unfold check_identity in H. checks H. apply raise_if_Ok in H.
  unfold _validate_tenant_identity.
  apply guard_Ok; [exact C|]. apply guard_Ok; [exact C0|].
  apply bind_Ok. exists r1. split; [by destruct (dget "hostname" VNone authority)|].
  apply guard_Ok; [exact C2|]. apply guard_Ok.
  { cbn. destruct (tenant_hostname (auth_claims t)); [injection C3 as ->; exact C4|done]. }
  rewrite C5. cbn. apply guard_Ok; [exact C6|].
  cbn. by apply raise_if_Ok.
Qed.

Lemma membership_transfer p ids :
  dget "auth_context" (VDict []) p = VDict (_auth_context t) ->
  check_membership (auth_claims t) authority = Ok ids ->
  _validate_tenant_membership p (_tenant_context t) authority = Ok ids.
Proof.
  intros Hp H. unfold check_membership in H. checks H. injection H as <-.
  apply refuse_listed_Ok in C6. unfold _validate_tenant_membership.
  apply bind_Ok. exists r. split; [by destruct (dget "membership" VNone authority)|].
  apply guard_Ok.
  { cbn. destruct (membership_id (auth_claims t)); [injection C0 as ->; exact C1|done]. }
  apply guard_Ok; [exact C2|]. apply guard_Ok.
  { unfold profile_principal_id. rewrite Hp. exact C3. }
  rewrite C4. cbn [mbind result_bind]. apply guard_Ok; [exact C5|].
  change (dget "role_ids" (VList []) (_tenant_context t)) with (strs (roles (auth_claims t))).
  rewrite (string_set_strs_eq _ _ C6). by apply deny_listed_sub.
Qed.

Lemma role_bundles_transfer ids bundles :
  role_bundles_for authority ids = Ok bundles -> _tenant_role_bundles authority ids = Ok bundles.
Proof.
  intros H. unfold role_bundles_for in H. checks H. injection H as <-.
  apply refuse_listed_Ok in C0. unfold _tenant_role_bundles.
  apply bind_Ok. exists r. split; [by destruct (dget "role_bundles" (VList []) authority)|].
  apply deny_listed_sub; [done|]. rewrite C2. cbn [mbind result_bind].
  apply guard_Ok; [|done]. unfold ditem in C1. unfold dget.
  destruct (od_get "tenant_id" authority); [injection C1 as ->; exact C3|done].
Qed.

(** Every data-source grant of a role bundle names its source by a string. *)
Definition grants_well_typed (roles : list (odict value)) : Prop :=
  forall role grant, In role roles ->
  In grant (mappings (dget "data_source_grants" (VList []) role)) ->
  exists src, dget "data_source_id" VNone grant = VStr src.

Lemma grant_step_transfer tid sources acc grant acc' :
  (exists src, dget "data_source_id" VNone grant = VStr src) ->
  access_grant_step tid sources acc grant = Ok acc' -> grant_step tid sources acc grant = Ok acc'.
Proof.
  intros [src Hsrc]. unfold access_grant_step, grant_step. rewrite Hsrc. intros H. checks H.
  by apply guard_Ok.
Qed.

Lemma foldM_transfer {A B} (f g : B -> A -> res B) l acc r :
  (forall acc x acc', In x l -> f acc x = Ok acc' -> g acc x = Ok acc') ->
  foldM f acc l = Ok r -> foldM g acc l = Ok r.
Proof.
  revert acc. induction l as [|x l IH]; cbn; intros acc Hfg H; [done|].
  apply bind_Ok in H as (acc' & Hf & H). apply bind_Ok. exists acc'. split; [auto|].
  apply IH; [|done]. intros. apply Hfg; auto.
Qed.

Lemma mapM_transfer {A B} (f g : A -> res B) l r :
  (forall x y, f x = Ok y -> g x = Ok y) -> mapM f l = Ok r -> mapM g l = Ok r.
Proof.
  intros Hfg H. apply mapM_Ok in H. apply mapM_Ok. eapply Forall2_impl; [exact H|].
  intros x y Hxy. apply Hfg, Hxy.
Qed.

Lemma role_grants_transfer bundles :
  grants_well_typed bundles ->
  check_role_grants (auth_claims t) authority bundles = Ok tt ->
  _validate_tenant_role_grants (_tenant_context t) authority bundles = Ok tt.
Proof.
  intros Hwt H. unfold check_role_grants in H. checks H.
  apply refuse_listed_Ok in C1. apply refuse_listed_Ok in H.
  unfold _validate_tenant_role_grants.
  apply bind_Ok. exists r. split; [by destruct (dget "data_sources" (VList []) authority)|].
  apply bind_Ok. exists r0. split.
  - eapply foldM_transfer; [|exact C0]. intros acc role acc' Hrole Hstep.
    unfold access_role_step in Hstep. unfold role_step. checks Hstep.
    apply bind_Ok. exists r2. split; [|exact Hstep].
    eapply foldM_transfer; [|exact C2]. intros acc1 g acc1' Hg. apply grant_step_transfer. eauto.
  - apply deny_listed_sub; [|apply deny_listed_Ok];
      (etrans; [apply string_set_strs_sub|]); assumption.
Qed.

Lemma selected_modules_transfer p m bundles :
  (forall field l, od_get field (selection_of m) = Some l -> dget field (VList []) p = strs l) ->
  check_selected_modules authority bundles (selection_of m) = Ok tt ->
  _validate_tenant_selected_modules p authority bundles = Ok tt.
Proof.
  intros Hp H. unfold check_selected_modules in H.
  apply bind_Ok in H as (derived & HD & H). checks H. unfold check_field in *.
  repeat match goal with C : refuse_listed _ _ = Ok _ |- _ => apply refuse_listed_Ok in C end.
  unfold _validate_tenant_selected_modules. apply bind_Ok. exists derived. split.
  { eapply mapM_transfer; [|exact HD]. intros x y. unfold access_derived_modules, derived_modules.
    by destruct (dget "derived_runtime_modules" (VDict []) x). }
  unfold check_selected.
  rewrite (Hp "skills" _ eq_refl), (Hp "tools" _ eq_refl), (Hp "policies" _ eq_refl),
    (Hp "validators" _ eq_refl), (Hp "knowledge_scopes" _ eq_refl), (Hp "data_scopes" _ eq_refl),
    (Hp "memory_scopes" _ eq_refl), (Hp "instructions" _ eq_refl).
  repeat (apply deny_listed_sub; [etrans; [apply string_set_strs_sub|]; assumption|]).
  apply deny_listed_Ok. etrans; [apply string_set_strs_sub|]. assumption.
Qed.
End authority_transfer.

(** ** What a composed profile is made of *)

Definition review_modules (policies : list string) : modules :=
  mkModules ["base-agent-rules"] [] [] [] [] [] policies ["runtime-profile-schema"].

Definition limits_for (t : AnalyzedTask) : odict value :=
  if requires_human_review t then HUMAN_REVIEW_LIMITS else DEFAULT_LIMITS.

(** The facts [compose] establishes before it emits [p]. *)
Record composed (t : AnalyzedTask) (c : odict value) (g : Z) (parent reason : option string)
    (p : odict value) : Prop := {
  cp_trace : _assert_recomposition_traceability g parent reason = Ok tt;
  cp_composable : _assert_composable t c = Ok tt;
  cp_body : exists policies m authority hr roles pins fp,
    applicable_policies c = Ok policies /\
    m = (if requires_human_review t then review_modules policies else select_modules t c policies) /\
    validate t c (selection_of m) = Ok tt /\
    _tenant_authority_snapshot t c = Ok authority /\
    pin_versions (context_versions c) (task_type t) (all_modules_of m) = Ok pins /\
    (requires_human_review t = false ->
       _skill_execution_roles (_references c "candidate_modules") (skills m) = Ok roles) /\
    p = profile_dict t g parent reason authority hr m roles pins (limits_for t) fp;
}.

Lemma assert_tenant_access_Ok t c m u :
  _assert_tenant_access t c m = Ok u -> validate t c (selection_of m) = Ok tt.
Proof.
  unfold _assert_tenant_access. destruct (validate t c (selection_of m)) as [[]|[]]; done.
Qed.

Lemma compose_composed t c g parent reason p :
  compose t c g parent reason = Ok p -> composed t c g parent reason p.
Proof.
  intros H. unfold compose in H. checks H. destruct r, r0. constructor; [done..|].
  destruct (requires_human_review t) eqn:Hr.
  - checks H. injection H as <-. unfold _human_review_profile in C1. checks C1. injection C1 as <-.
    apply assert_tenant_access_Ok in C2.
    exists r1, (review_modules r1), r2, (_human_review_required t),
      [("runtime_skills", strs []); ("non_runtime_skills", strs []); ("shared_skills", strs [])],
      r3, HUMAN_REVIEW_FAILURE_POLICY.
    unfold limits_for. rewrite Hr. split_and!; done.
  - checks H. injection H as <-. apply assert_tenant_access_Ok in C3.
    exists r0, (select_modules t c r0), r2, (_human_review_not_required t), r, r3,
      DEFAULT_FAILURE_POLICY.
    unfold limits_for. rewrite Hr. split_and!; done.
Qed.

Lemma profile_dict_field t g parent reason a hr m roles pins limits fp field l :
  od_get field (selection_of m) = Some l ->
  dget field (VList []) (profile_dict t g parent reason a hr m roles pins limits fp) = strs l.
Proof.
  intros H%od_get_In.
  repeat (destruct H as [H|H]; [by injection H as <- <-|]). destruct H.
Qed.

Lemma profile_dict_selected t g parent reason a hr m roles pins limits fp :
  selected_modules (profile_dict t g parent reason a hr m roles pins limits fp) = all_modules_of m.
Proof.
  transitivity (mjoin (map (fun l => map py_str (map VStr l))
    [instructions m; skills m; tools m; knowledge_scopes m; data_scopes m; memory_scopes m;
     policies m; validators m])); [reflexivity|].
  cbn [map]. rewrite !map_str_strs. cbn. by rewrite app_nil_r.
Qed.

Lemma pin_versions_keys versions tt_ names pins :
  pin_versions versions tt_ names = Ok pins ->
  forall n, In n names -> exists v, od_get n pins = Some (VStr v) /\
                                    _version_for n versions tt_ = Ok v.
Proof.
  unfold pin_versions. intros H n Hn. checks H. injection H as <-. apply mapM_Ok in C.
  assert (HF : Forall2 (fun n kv => kv.1 = n /\ exists v, kv.2 = VStr v /\
                          _version_for n versions tt_ = Ok v) names r).
  { eapply Forall2_impl; [exact C|]. intros x y Hxy. cbn in Hxy.
    apply bind_Ok in Hxy as (v & Hv & [= <-]). eauto. }
  destruct (od_get_of_list_Some n r) as [w Hw].
  { destruct (Forall2_In_l _ _ _ n HF Hn) as (kv & Hkv & <- & _). by apply in_map. }
  apply od_get_of_list_In in Hw as Hin.
  destruct (Forall2_In_r _ _ _ _ HF Hin) as (x & _ & Hx & v & Hv & Hver).
  cbn in Hx, Hv. subst. exists v. done.
Qed.

Lemma filterM_none {A} (f : A -> res bool) l :
  (forall x, In x l -> f x = Ok false) -> filterM f l = Ok [].
Proof.
  induction l as [|x l IH]; intros H; cbn; [done|].
  rewrite H by by left. cbn. rewrite IH; [done|]. intros y Hy. apply H. by right.
Qed.

Lemma profile_dict_pinned t g parent reason a hr m roles pins limits fp :
  (forall n, In n (all_modules_of m) -> exists v, od_get n pins = Some v) ->
  missing_versions (profile_dict t g parent reason a hr m roles pins limits fp) = Ok [].
Proof.
  intros H. unfold missing_versions. rewrite profile_dict_selected. apply filterM_none.
  intros n Hn. apply H in Hn as (v & Hv).
  change (dget "module_versions" (VDict []) _) with (VDict pins). cbn. unfold od_mem. by rewrite Hv.
Qed.

(** ** The composed profile passes the run-time check *)

(** The grants of the role bundles this task's roles select are well typed. *)
Definition selected_grants_typed (t : AnalyzedTask) (c : odict value) : Prop :=
  tenant_id (auth_claims t) <> "global" ->
  forall authority bundles, dget "tenant_authority" VNone c = VDict authority ->
  role_bundles_for authority (sorted_set (list_to_set (roles (auth_claims t)))) = Ok bundles ->
  grants_well_typed bundles.

Lemma foldM_steps {A B} (f : B -> A -> res B) acc l r x :
  foldM f acc l = Ok r -> In x l -> exists b b', f b x = Ok b'.
Proof.
  revert acc. induction l as [|y l IH]; cbn; intros acc H; [done|].
  apply bind_Ok in H as (b & Hb & H). intros [<-|Hx]; eauto.
Qed.

Lemma role_grants_typed tc authority bundles u :
  _validate_tenant_role_grants tc authority bundles = Ok u -> grants_well_typed bundles.
Proof.
  intros H role grant Hrole Hg. unfold _validate_tenant_role_grants in H. checks H.
  destruct (foldM_steps _ _ _ _ _ C0 Hrole) as (b & b' & Hb). unfold role_step in Hb. checks Hb.
  destruct (foldM_steps _ _ _ _ _ C2 Hg) as (d & d' & Hd).
  apply grant_step_inv in Hd as (src & Hsrc & _). eauto.
Qed.

Lemma check_membership_roles claims authority ids :
  check_membership claims authority = Ok ids -> ids = sorted_set (list_to_set (roles claims)).
Proof. intros H. unfold check_membership in H. checks H. by injection H as <-. Qed.

(** The two tenant checks agree, but for grants without a string id. *)
Lemma tenant_authority_transfer t c m authority p :
  validate t c (selection_of m) = Ok tt ->
  _tenant_authority_snapshot t c = Ok authority ->
  dget "tenant_context" VNone p = VDict (_tenant_context t) ->
  dget "tenant_authority" VNone p = authority ->
  dget "auth_context" (VDict []) p = VDict (_auth_context t) ->
  (forall field l, od_get field (selection_of m) = Some l -> dget field (VList []) p = strs l) ->
  _validate_tenant_authority p = Ok tt <-> selected_grants_typed t c.
Proof.
  intros Hv Ha Hctx Hauth Hac Hsel. unfold _validate_tenant_authority, selected_grants_typed.
  rewrite Hctx, Hauth.
  change (py_str (dget "tenant_id" (VStr "") (_tenant_context t))) with (tenant_id (auth_claims t)).
  unfold validate in Hv. unfold _tenant_authority_snapshot in Ha. unfold GLOBAL_TENANT_ID in *.
  destruct (String.eqb_spec (tenant_id (auth_claims t)) "global") as [Hg|Hg];
    [by injection Ha as <-|].
  destruct (dget "tenant_authority" VNone c) as [| | | | |a]; try discriminate Ha.
  injection Ha as <-.
  change ((Ok a : res (odict value)) ≫= ?k) with (k a) in Hv. cbv beta in Hv.
  checks Hv. destruct r, r2. apply identity_transfer in C.
  pose proof (check_membership_roles _ _ _ C0) as ->.
  apply (membership_transfer _ _ _ _ Hac) in C0.
  pose proof (role_bundles_transfer _ _ _ C1) as C1'.
  rewrite C. cbn [mbind result_bind]. rewrite C0. cbn [mbind result_bind].
  rewrite C1'. cbn [mbind result_bind]. split.
  - intros H _ a' bundles [= <-] Hb. rewrite C1 in Hb. injection Hb as <-.
    apply bind_Ok in H as (u & H & _). by eapply role_grants_typed.
  - intros Hwt. apply role_grants_transfer in C2; [|by eapply Hwt].
    rewrite C2. cbn [mbind result_bind]. by eapply selected_modules_transfer.
Qed.

(** The generation beyond which the run time refuses a profile of this task. *)
Definition max_generation (t : AnalyzedTask) : Z := if requires_human_review t then 1 else 2.

Lemma limits_for_recompositions t g parent reason a hr m roles pins fp :
  profile_limit (profile_dict t g parent reason a hr m roles pins (limits_for t) fp)
    "max_recompositions" = Ok (max_generation t - 1)%Z.
Proof.
  unfold profile_limit. change (dget "limits" (VDict []) _) with (VDict (limits_for t)).
  unfold limits_for, max_generation. by destruct (requires_human_review t).
Qed.


(** ** Policy decisions *)

Lemma for_each_Ok {A} (f : A -> res unit) l u :
  for_each f l = Ok u -> forall x, In x l -> f x = Ok tt.
Proof.
  unfold for_each. intros H x Hx. destruct (foldM_steps _ _ _ _ _ H Hx) as (? & [] & Hf). done.
Qed.

Lemma names_In refs kind n :
  In n (_names refs kind) <->
  exists r, In r refs /\ dget "name" VNone r = VStr n /\
            (forall k, kind = Some k -> dget "kind" VNone r = VStr k).
Proof.
  unfold _names. rewrite <- list_elem_of_In, list_elem_of_omap. split.
  - intros (r & Hr & H). apply list_elem_of_In in Hr. exists r. unfold reference_name in H.
    destruct kind as [k|].
    + destruct (py_eq (dget "kind" VNone r) (VStr k)) eqn:E; [cbn in H|done].
      apply py_eq_str_r in E. split; [done|]. split; [|by intros ? [= <-]].
      destruct (dget "name" VNone r); try done. by injection H as ->.
    + split; [done|]. split; [|done]. destruct (dget "name" VNone r); try done. by injection H as ->.
  - intros (r & Hr & Hn & Hk). exists r. split; [by apply list_elem_of_In|].
    unfold reference_name. rewrite Hn. destruct kind as [k|]; [|done].
    by rewrite (Hk k eq_refl), (proj2 (py_eq_str_r k _) eq_refl).
Qed.

Lemma candidate_allowed_effect effects m n u :
  candidate_allowed effects m = Ok u -> dget "name" VNone m = VStr n ->
  dget n VNone effects = VNone \/ dget n VNone effects = VStr "allow".
Proof.
  intros H Hn. unfold candidate_allowed, ditem in H. apply dget_inv in Hn; [|done]. rewrite Hn in H.
  cbn in H. apply raise_if_Ok in H. destruct (is_none (dget n VNone effects)) eqn:E.
  - left. by destruct (dget n VNone effects).
  - right. by apply negb_false_eq, py_eq_str_r in H.
Qed.

Lemma graph_tool_allowed_effect effects m n u :
  graph_tool_allowed effects m = Ok u -> dget "kind" VNone m = VStr "tool" ->
  dget "name" VNone m = VStr n -> dget n VNone effects = VStr "allow".
Proof.
  intros H Hk Hn. unfold graph_tool_allowed in H. rewrite Hk in H. cbn in H.
  unfold ditem in H. apply dget_inv in Hn; [|done]. rewrite Hn in H. cbn in H.
  apply raise_if_Ok in H. by apply negb_false_eq, py_eq_str_r in H.
Qed.

Lemma composable_effects t c u :
  requires_human_review t = false -> _assert_composable t c = Ok u ->
  exists effects, policy_effects c = Ok effects /\
    (forall m, In m (_references c "candidate_modules") -> candidate_allowed effects m = Ok tt) /\
    (forall m, In m (_graph_references c) -> graph_tool_allowed effects m = Ok tt).
Proof.
  intros Hr H. unfold _assert_composable in H. rewrite Hr in H. checks H.
  match goal with C : for_each (candidate_allowed _) _ = Ok _ |- _ =>
    pose proof (for_each_Ok _ _ _ C) as H1 end.
  pose proof (for_each_Ok _ _ _ H) as H2. eauto.
Qed.

(** ** Skills and their roles *)

Lemma partition3_perm {A} (p q : A -> bool) l :
  (forall x, p x = true -> q x = false) ->
  List.filter p l ++ List.filter q l ++ List.filter (fun x => negb (p x) && negb (q x)) l ≡ₚ l.
Proof.
  intros Hpq. induction l as [|x l IH]; cbn; [done|].
  destruct (p x) eqn:Ep; cbn.
  - rewrite (Hpq x Ep). by constructor.
  - destruct (q x) eqn:Eq; cbn.
    + rewrite <- Permutation_middle. by constructor.
    + rewrite app_assoc, <- Permutation_middle, <- app_assoc. by constructor.
Qed.

Lemma skill_roles_partition candidates selected roles :
  _skill_execution_roles candidates selected = Ok roles ->
  exists runtime non_runtime shared,
    roles = [("runtime_skills", strs runtime); ("non_runtime_skills", strs non_runtime);
             ("shared_skills", strs shared)] /\
    runtime ++ non_runtime ++ shared ≡ₚ selected.
Proof.
  intros H. unfold _skill_execution_roles in H. apply bind_Ok in H as (entries & _ & [= <-]).
  eexists _, _, _. split; [reflexivity|].
  apply (partition3_perm (fun s => String.eqb _ "runtime") (fun s => String.eqb _ "non-runtime")).
  intros x ->%String.eqb_eq. done.
Qed.

(** The roles and pins of a composed profile, waiting for review or not. *)
Lemma composed_skills t c g parent reason p :
  compose t c g parent reason = Ok p ->
  exists selected runtime non_runtime shared pins,
    dget "skills" (VList []) p = strs selected /\ NoDup selected /\
    dget "skill_execution_roles" VNone p = VDict
      [("runtime_skills", strs runtime); ("non_runtime_skills", strs non_runtime);
       ("shared_skills", strs shared)] /\
    runtime ++ non_runtime ++ shared ≡ₚ selected /\
    dget "module_versions" (VDict []) p = VDict pins /\
    (forall n, In n selected -> exists v, od_get n pins = Some (VStr v)).
Proof.
  intros H. destruct (requires_human_review t) eqn:Hr.
  - unfold compose in H. rewrite Hr in H. checks H. injection H as <-.
    match goal with C : _human_review_profile _ _ _ _ _ _ = Ok _ |- _ =>
      unfold _human_review_profile in C; checks C; injection C as <- end.
    eexists [], [], [], [], _. split_and!; try done. apply NoDup_nil_2.
  - apply compose_composed in H.
    destruct H as [_ _ (ps & m & a & hr & roles & pins & fp & _ & Hm & _ & _ & Hpin & Hroles & ->)].
    destruct (skill_roles_partition _ _ _ (Hroles Hr)) as (rs & ns & ss & -> & Hperm).
    exists (skills m), rs, ns, ss, pins. split_and!; try done.
    + rewrite Hr in Hm. subst m. apply fromkeys_NoDup.
    + intros n Hn. edestruct (pin_versions_keys _ _ _ _ Hpin n) as (v & Hv & _); [|by exists v].
      unfold all_modules_of. rewrite !in_app_iff. auto.
Qed.

(** ** A concrete request *)

Definition review_task : odict value :=
  [("id", VStr "task-9"); ("request", VStr "Review the diff");
   ("context", VDict [("repository", VDict [("name", VStr "scas")]);
      ("auth", VDict [("tenant_id", VStr "acme"); ("area_id", VStr "lab");
         ("principal_id", VStr "ann"); ("tenant_hostname", VStr "acme.example");
         ("membership_id", VStr "m-1"); ("roles", strs ["reviewer"]);
         ("role_capabilities", strs ["review"]); ("role_data_sources", strs ["repo"])])])].

Definition analyzed_or (task : odict value) : AnalyzedTask :=
  match analyze task with Ok t => t | Raise _ => demo_analyzed end.
Definition review_analyzed : AnalyzedTask := analyzed_or review_task.
(** The same task with signals of two task types. *)
Definition ambiguous_analyzed : AnalyzedTask :=
  analyzed_or (od_set "request" (VStr "Review and fix the diff") review_task).

Definition module_ref (kind name : string) : value :=
  VDict [("kind", VStr kind); ("name", VStr name); ("version", VStr "0.1.0")].
Definition decision (name effect : string) : value :=
  VDict [("module", VDict [("name", VStr name)]); ("effect", VStr effect)].

Definition review_response (authority : odict value) : odict value :=
  [("composition_status", VStr "ready");
   ("graph_validation", VDict [("is_valid", VBool true);
      ("reachable_modules", VList [module_ref "tool" "git-read"])]);
   ("candidate_modules", VList [module_ref "skill" "git-diff-analysis"; module_ref "tool" "git-read"]);
   ("applicable_policies", VList [module_ref "policy" "read-only"]);
   ("allowed_data_scopes", VList [module_ref "data_scope" "repository-readonly"]);
   ("validation_requirements", VList [module_ref "validator" "review-findings-contract"]);
   ("policy_decisions", VList [decision "git-read" "allow"]);
   ("tenant_authority", VDict authority)].

(** The authority of [Enforcement.demo_authority] with one more grant that names no source. *)
Definition untyped_authority : odict value :=
  od_set "role_bundles" (VList [match demo_role with
    | VDict r => VDict (od_set "data_source_grants"
        (VList [VDict [("data_source_id", VStr "repo")]; VDict [("data_source_id", VInt 7)]]) r)
    | v => v end]) demo_authority.

Definition profile_or (r : res (odict value)) : odict value :=
  match r with Ok p => p | Raise _ => [] end.
Definition review_profile : odict value :=
  profile_or (compose review_analyzed (review_response demo_authority) 1 None None).
Definition ambiguous_profile : odict value :=
  profile_or (compose ambiguous_analyzed (review_response demo_authority) 1 None None).

(** ** Properties *)

(** C9. Composition refines the run-time contract: a composed profile passes
    [validate_profile_for_runtime] exactly when its generation is within the
    recomposition budget of its limits (1 for a profile under human review, 2
    otherwise) and every data-source grant of the selected role bundles names
    its source by a string. The second condition is needed: the composer skips
    a grant without one where the enforcer refuses the profile. *)
Theorem composed_profile_accepted t c g parent reason p :
  compose t c g parent reason = Ok p ->
  validate_profile p = Ok tt <-> (g <= max_generation t)%Z /\ selected_grants_typed t c.
Proof.
  intros H%compose_composed. destruct H as [Htr _ (ps & m & a & hr & roles & pins & fp & _ & _ & Hv & Ha & Hpin & _ & ->)].
  set (p := profile_dict _ _ _ _ _ _ _ _ _ _ _).
  assert (Hta : _validate_tenant_authority p = Ok tt <-> selected_grants_typed t c).
  { eapply tenant_authority_transfer; try done. intros field l. apply profile_dict_field. }
  assert (Hmv : missing_versions p = Ok []).
  { apply profile_dict_pinned. intros n Hn.
    destruct (pin_versions_keys _ _ _ _ Hpin n Hn) as (v & Hn' & _). eauto. }
  unfold validate_profile. rewrite Hmv. cbn [mbind result_bind nonempty raise_if].
  change (py_int (dget "profile_generation" (VInt 1) p)) with (Ok g : res Z).
  assert (Hlim : profile_limit p "max_recompositions" = Ok (max_generation t - 1)%Z)
    by apply limits_for_recompositions.
  cbn [mbind result_bind]. rewrite Hlim. cbn [mbind result_bind]. rewrite <- Hta.
  assert (Hm : (1 <= max_generation t)%Z) by (unfold max_generation; destruct (requires_human_review t); lia).
  destruct (Z.ltb_spec (max_generation t - 1) (Z.max 0 (g - 1))); cbn [raise_if mbind result_bind].
  - split; [done|]. intros [Hg _]. lia.
  - split; [intros H'; split; [lia|exact H'] | by intros [_ H']].
Qed.

Lemma composed_profile_accepted_witness :
  (validate_profile review_profile = Ok tt <->
   (1 <= max_generation review_analyzed)%Z /\
   selected_grants_typed review_analyzed (review_response demo_authority)) /\
  validate_profile review_profile = Ok tt.
Proof.
  split; [|vm_compute; reflexivity].
  apply (composed_profile_accepted review_analyzed (review_response demo_authority) 1 None None).
  vm_compute. reflexivity.
Defined.

(** The divergence is reachable: with a grant whose id is a number the
    composer emits a profile that the run time then refuses. *)
Theorem untyped_grant_divergence :
  exists p, compose review_analyzed (review_response untyped_authority) 1 None None = Ok p /\
  validate_profile p = Raise (pee "Tenant data-source grant is missing a data source id."
                                  "tenant_data_source_grant_invalid").
Proof.
  exists (profile_or (compose review_analyzed (review_response untyped_authority) 1 None None)).
  split; vm_compute; reflexivity.
Qed.

(** Every module a composed profile selects is pinned, to the version the
    Control Plane response states for it or else the baseline one. *)
Theorem compose_pins_selected t c g parent reason p :
  compose t c g parent reason = Ok p ->
  exists pins, dget "module_versions" VNone p = VDict pins /\
  forall n, In n (selected_modules p) -> exists v, od_get n pins = Some (VStr v) /\
    _version_for n (context_versions c) (task_type t) = Ok v.
Proof.
  intros H%compose_composed. destruct H as [_ _ (ps & m & a & hr & roles & pins & fp & _ & _ & _ & _ & Hpin & _ & ->)].
  exists pins. split; [done|]. intros n. rewrite profile_dict_selected. by eapply pin_versions_keys.
Qed.

Lemma compose_pins_selected_witness :
  exists pins, dget "module_versions" VNone review_profile = VDict pins /\
  forall n, In n (selected_modules review_profile) -> exists v, od_get n pins = Some (VStr v) /\
    _version_for n (context_versions (review_response demo_authority)) (task_type review_analyzed) = Ok v.
Proof.
  apply (compose_pins_selected review_analyzed (review_response demo_authority) 1 None None).
  vm_compute. reflexivity.
Defined.

(** Policy gating of tools: a tool of a composed profile that does not wait
    for human review was never denied; it has an explicit [allow] decision, or
    no decision at all, and then only candidate modules name it (a tool reached
    through the module graph always needs the explicit decision). *)
Theorem composed_tools_allowed t c g parent reason p n :
  compose t c g parent reason = Ok p -> requires_human_review t = false ->
  py_in n (dget "tools" (VList []) p) = Ok true ->
  exists effects, policy_effects c = Ok effects /\
  (dget n VNone effects = VStr "allow" \/
   (dget n VNone effects = VNone /\
    In n (_names (_references c "candidate_modules") (Some "tool")) /\
    ~ In n (_names (_graph_references c) (Some "tool")))).
Proof.
  intros H%compose_composed Hr Hn.
  destruct H as [_ Hc (ps & m & a & hr & roles & pins & fp & _ & -> & _ & _ & _ & _ & ->)].
  rewrite Hr, (profile_dict_field _ _ _ _ _ _ _ _ _ _ _ "tools" _ eq_refl), py_in_strs in Hn.
  injection Hn as Hn%str_in_In. cbn [tools select_modules] in Hn.
  unfold dedupe_first in Hn. rewrite fromkeys_In in Hn.
  destruct (composable_effects _ _ _ Hr Hc) as (effects & He & H1 & H2).
  exists effects. split; [done|].
  assert (Hgraph : In n (_names (_graph_references c) (Some "tool")) -> dget n VNone effects = VStr "allow").
  { intros (r & Hin & Hname & Hk)%names_In. eapply graph_tool_allowed_effect; eauto. }
  destruct (in_dec String.string_dec n (_names (_graph_references c) (Some "tool"))) as [Hg|Hg]; [by left; auto|].
  apply in_app_or in Hn as [Hn|Hn]; [|done].
  apply names_In in Hn as Hn'. destruct Hn' as (r & Hin & Hname & _).
  destruct (candidate_allowed_effect effects r n tt (H1 r Hin) Hname); [right|by left]. done.
Qed.

Lemma composed_tools_allowed_witness :
  exists effects, policy_effects (review_response demo_authority) = Ok effects /\
  (dget "git-read" VNone effects = VStr "allow" \/
   (dget "git-read" VNone effects = VNone /\
    In "git-read" (_names (_references (review_response demo_authority) "candidate_modules") (Some "tool")) /\
    ~ In "git-read" (_names (_graph_references (review_response demo_authority)) (Some "tool")))).
Proof.
  apply (composed_tools_allowed review_analyzed (review_response demo_authority) 1 None None review_profile);
    vm_compute; reflexivity.
Defined.

(** A profile that waits for human review can do nothing: it selects the
    base rules, the policies and the schema validator only, and the enforcer
    refuses every tool invocation, memory operation, data read and
    recomposition made under it. *)
Theorem human_review_profile_inert t c g parent reason p s :
  compose t c g parent reason = Ok p -> requires_human_review t = true -> profile s = p ->
  (forall k, (0 <= get_counter k s)%Z) ->
  (exists policies, selected_modules p = "base-agent-rules" :: policies ++ ["runtime-profile-schema"]) /\
  (forall tool ds ps risk now s', record_tool_invocation tool ds ps risk now s <> (Ok tt, s')) /\
  (forall k s', In k [CToolCalls; CDataReads; CMemoryOps; CRecompositions] ->
     _increment_limit k (limit_of k) 1 None s <> (Ok tt, s')).
Proof.
  intros H%compose_composed Hr Hp Hs.
  destruct H as [_ _ (ps & m & a & hr & roles & pins & fp & _ & -> & _ & _ & _ & _ & ->)].
  rewrite Hr in Hp |- *. unfold limits_for in Hp. rewrite Hr in Hp. split_and!.
  - exists ps. apply profile_dict_selected.
  - intros tool ds pols risk now s' H. rewrite record_tool_invocation_split in H.
    apply eff_bind_Ok in H as ([] & s1 & H & _). apply admit_call_Ok in H as [_ H].
    apply permitted_tool in H. rewrite Hp in H. discriminate.
  - intros k s' Hk H. apply increment_limit_Ok in H as [_ (L & HL & Hle)]; [|lia].
    rewrite Hp in HL. specialize (Hs k).
    assert (L = 0)%Z as ->; [|lia].
    destruct Hk as [<-|[<-|[<-|[<-|[]]]]]; by injection HL as <-.
Qed.

Lemma human_review_profile_inert_witness :
  exists policies,
    selected_modules ambiguous_profile = "base-agent-rules" :: policies ++ ["runtime-profile-schema"].
Proof.
  refine (proj1 (human_review_profile_inert ambiguous_analyzed (review_response demo_authority) 1
    None None ambiguous_profile (mkEnforcer ambiguous_profile 0 0 0 0 0 0) _ _ _ _));
    try (vm_compute; reflexivity).
  intros []; vm_compute; discriminate.
Defined.
