(* ===== verification/InvariantAssertions.v ===== *)
(** * Sealing invariants and their replay corpus

    Models [runtime/invariant_assertions.py] and [runtime/invariant_replay.py]:
    the checks a profile's sealing guarantees are stated as, and the runner that
    applies them to mutated profile fixtures. Reading a fixture file is the
    parameter [load_profile_fixture]; [set_order] is the order in which a set of
    texts is iterated, which Python leaves open. *)

From S2P Require Import Prelude PyStr PyValue Models Enforcement TaskAnalyzer TenantAccess ProfileComposer.
Open Scope string_scope.
Open Scope list_scope.

Definition PROFILE_SELECTION_FIELDS : list string :=
  ["instructions"; "skills"; "tools"; "knowledge_scopes"; "data_scopes"; "memory_scopes"; "policies"; "validators"].

Definition TASK_TYPE_VALIDATOR_REQUIREMENTS : odict string :=
  [("code-review", "review-findings-contract"); ("research", "research-output-contract");
   ("task-execution", "task-execution-output-contract"); ("general-task", "general-output-contract")].

Record InvariantFinding := mkFinding { invariant_id : string; message : string }.

Definition finding_if (b : bool) (id message : string) : list InvariantFinding :=
  if b then [mkFinding id message] else [].

(** The texts of a list; a text, an object or a number holds none. *)
Definition _string_set (v : value) : gset string := list_to_set (text_items v).
Definition field_set (profile : odict value) (field : string) : gset string := _string_set (dget field VNone profile).

Definition _selected_modules (profile : odict value) : gset string :=
  ⋃ map (field_set profile) PROFILE_SELECTION_FIELDS.

Definition assert_fail_closed_on_unknowns (profile : odict value) : list InvariantFinding :=
  match dget "module_versions" VNone profile with
  | VDict module_versions =>
      let selected := _selected_modules profile in
      let version_keys : gset string := list_to_set (od_keys module_versions) in
      let missing := sorted_set (selected ∖ version_keys) in
      let extras := sorted_set (version_keys ∖ selected) in
      finding_if (nonempty missing) "fail_closed_on_unknowns"
        ("missing module version pins for selected modules: " +:+ join ", " missing) ++
      finding_if (nonempty extras) "fail_closed_on_unknowns"
        ("unexpected module version pins without selection: " +:+ join ", " extras)
  | _ => [mkFinding "fail_closed_on_unknowns" "module_versions must be an object with explicit pins."]
  end.

(** [isinstance(human_review, Mapping) and human_review.get("required") is True] *)
Definition review_required (profile : odict value) : bool :=
  match dget "human_review" VNone profile with VDict h => is_true (dget "required" VNone h) | _ => false end.

Definition assert_no_self_granting (profile : odict value) : list InvariantFinding :=
  match dget "skill_execution_roles" VNone profile with
  | VDict role_map =>
      let unknown := sorted_set ((field_set role_map "runtime_skills" ∪ field_set role_map "shared_skills")
                                 ∖ field_set profile "skills") in
      finding_if (nonempty unknown) "no_self_granting"
        ("skill_execution_roles references unselected skills: " +:+ join ", " unknown) ++
      (if review_required profile then
         concat (map (fun field => finding_if (negb (bool_decide (field_set profile field = ∅))) "no_self_granting"
                                     ("human-review-required profile must not select " +:+ field +:+ "."))
                   ["skills"; "tools"; "knowledge_scopes"; "data_scopes"; "memory_scopes"])
       else [])
  | _ => [mkFinding "no_self_granting" "skill_execution_roles must be present for runtime skill enforcement."]
  end.

Definition assert_mandatory_validators_per_change_type (profile : odict value) : list InvariantFinding :=
  let validators := field_set profile "validators" in
  let task_type := py_str (dget "task_type" (VStr "") profile) in
  finding_if (negb (bool_decide ("runtime-profile-schema" ∈ validators))) "mandatory_validators_per_change_type"
    "runtime-profile-schema validator must always be selected." ++
  match od_get task_type TASK_TYPE_VALIDATOR_REQUIREMENTS with
  | Some required =>
      finding_if (negb (bool_decide (required ∈ validators)) && negb (review_required profile))
        "mandatory_validators_per_change_type"
        ("missing task-type validator for " +:+ task_type +:+ ": " +:+ required)
  | None => []
  end.

Definition assert_immutable_profile_after_seal (profile : odict value) : list InvariantFinding :=
  let parent := dget "parent_profile_id" VNone profile in
  let reason := dget "recomposition_reason" VNone profile in
  match as_number (dget "profile_generation" VNone profile) with
  | Some generation =>
      if (generation <? 1)%Z
      then [mkFinding "immutable_profile_after_seal" "profile_generation must be an integer >= 1."]
      else if (generation =? 1)%Z
      then finding_if (negb (is_none parent) || negb (is_none reason)) "immutable_profile_after_seal"
             "profile_generation 1 must not set parent_profile_id or recomposition_reason."
      else finding_if (negb (truthy parent) || negb (truthy reason)) "immutable_profile_after_seal"
             "recomposed profiles must set parent_profile_id and recomposition_reason."
  | None => [mkFinding "immutable_profile_after_seal" "profile_generation must be an integer >= 1."]
  end.

Definition assert_profile_sealing_invariants (profile : odict value) : list InvariantFinding :=
  assert_fail_closed_on_unknowns profile ++ assert_no_self_granting profile ++
  assert_mandatory_validators_per_change_type profile ++ assert_immutable_profile_after_seal profile.

Definition SCOPE_FIELDS : list string := ["tools"; "knowledge_scopes"; "data_scopes"; "memory_scopes"].

Definition assert_scope_monotonicity (parent_profile current_profile : odict value) : list InvariantFinding :=
  concat (map (fun field =>
    let widened := sorted_set (field_set current_profile field ∖ field_set parent_profile field) in
    finding_if (nonempty widened) "scope_monotonicity"
      (field +:+ " widened compared to parent profile: " +:+ join ", " widened)) SCOPE_FIELDS).

(** ** The replay corpus *)

Definition EXPECTED_INVARIANTS : list string :=
  ["fail_closed_on_unknowns"; "no_self_granting"; "mandatory_validators_per_change_type"; "scope_monotonicity";
   "immutable_profile_after_seal"].
Definition CASE_TYPES : list string := ["positive"; "near-miss"; "violation"].

Record ReplayCaseResult := mkReplayResult {
  rc_name : string;
  rc_invariant_id : string;
  rc_case_type : string;
  expected_violation : bool;
  actual_violation : bool;
}.
Definition passed (r : ReplayCaseResult) : bool := Bool.eqb (expected_violation r) (actual_violation r).

(** What the loop over the cases collects: the failures, and the case types seen
    for each invariant. *)
Definition shape_step (acc : list string * odict (gset string)) (case : odict value)
    : list string * odict (gset string) :=
  let invariant_id := py_str (dget "invariant_id" (VStr "") case) in
  let case_type := py_str (dget "case_type" (VStr "") case) in
  if String.eqb invariant_id "" then (acc.1 ++ ["case is missing invariant_id"], acc.2)
  else ((if str_in case_type CASE_TYPES then acc.1
         else acc.1 ++ [invariant_id +:+ ": unsupported case_type '" +:+ case_type +:+ "'"]),
        od_set invariant_id ({[case_type]} ∪ default ∅ (od_get invariant_id acc.2)) acc.2).

Section replay.
Context (set_order : gset string -> list string).

Definition list_repr (l : list string) : string := py_repr (strs l).

Definition validate_replay_corpus_shape (cases : list (odict value)) : list string :=
  let '(failures, case_type_map) := foldl shape_step ([], []) cases in
  let seen : gset string := list_to_set (od_keys case_type_map) in
  let expected : gset string := list_to_set EXPECTED_INVARIANTS in
  let missing := sorted_set (expected ∖ seen) in
  let extras := sorted_set (seen ∖ expected) in
  failures ++
  (if nonempty missing then ["missing invariants in replay corpus: " +:+ join ", " missing] else []) ++
  (if nonempty extras then ["unknown invariants in replay corpus: " +:+ join ", " extras] else []) ++
  concat (map (fun invariant_id =>
    let actual := default ∅ (od_get invariant_id case_type_map) in
    if bool_decide (actual = list_to_set CASE_TYPES) then []
    else [invariant_id +:+ ": expected case types " +:+ list_repr (sorted_strs CASE_TYPES) +:+ " but got "
          +:+ list_repr (sorted_set actual)]) (set_order (expected ∩ seen))).

(** [cursor[path[-1]] = value], with objects made on the way where there are none. *)
Fixpoint set_path (path : list string) (v : value) (d : odict value) : odict value :=
  match path with
  | [] => d
  | [k] => od_set k v d
  | k :: path => od_set k (VDict (set_path path v (mapping_of (dget k VNone d)))) d
  end.

Definition mutate (d : odict value) (mutation : value) : res (odict value) :=
  match mutation with
  | VDict mutation =>
      raise_if (negb (py_eq (dget "op" VNone mutation) (VStr "set"))) (ValueError "only mutation op='set' is supported") ;;
      path ← ditem "path" mutation;
      v ← ditem "value" mutation;
      mret (set_path (split_on "."%char (py_str path)) v d)
  | _ => Raise (AttributeError "object has no attribute 'get'")
  end.

Definition apply_mutations (payload : odict value) (mutations : list value) : res (odict value) :=
  foldM mutate payload mutations.

Context (load_profile_fixture : string -> res (odict value)).

Definition mutated_fixture (fixture mutations : string) (case : odict value) : res (odict value) :=
  name ← ditem fixture case;
  profile ← load_profile_fixture (py_str name);
  ms ← ditem mutations case;
  ms ← py_iter ms;
  apply_mutations profile ms.

Definition single_profile_check (invariant_id : string) (profile : odict value) : res (list InvariantFinding) :=
  if String.eqb invariant_id "fail_closed_on_unknowns" then mret (assert_fail_closed_on_unknowns profile)
  else if String.eqb invariant_id "no_self_granting" then mret (assert_no_self_granting profile)
  else if String.eqb invariant_id "mandatory_validators_per_change_type"
  then mret (assert_mandatory_validators_per_change_type profile)
  else if String.eqb invariant_id "immutable_profile_after_seal" then mret (assert_immutable_profile_after_seal profile)
  else Raise (ValueError ("Unsupported invariant for single-profile mode: " +:+ invariant_id)).

Definition evaluate_case (case : odict value) : res ReplayCaseResult :=
  invariant_id ← ditem "invariant_id" case;
  case_type ← ditem "case_type" case;
  expected ← ditem "expected_violation" case;
  mode ← ditem "mode" case;
  findings ← (if String.eqb (py_str mode) "single-profile" then
                profile ← mutated_fixture "profile_fixture" "mutations" case;
                single_profile_check (py_str invariant_id) profile
              else if String.eqb (py_str mode) "profile-pair" then
                parent ← mutated_fixture "parent_profile_fixture" "parent_mutations" case;
                current ← mutated_fixture "current_profile_fixture" "current_mutations" case;
                mret (assert_scope_monotonicity parent current)
              else Raise (ValueError ("Unsupported replay case mode: " +:+ py_str mode)));
  name ← ditem "name" case;
  mret (mkReplayResult (py_str name) (py_str invariant_id) (py_str case_type) (truthy expected) (nonempty findings)).

Definition run_replay_cases (cases : list (odict value)) : res (list ReplayCaseResult) := mapM evaluate_case cases.
End replay.

(** ** What an absence of findings means *)

Lemma finding_if_nil b id msg : finding_if b id msg = [] <-> b = false.
Proof. by destruct b. Qed.

Lemma if_nil {A} (b : bool) (x : A) : (if b then [x] else []) = ([] : list A) <-> b = false.
Proof. by destruct b. Qed.
Lemma if_nil' {A} (b : bool) (x : A) : (if b then [] else [x]) = ([] : list A) <-> b = true.
Proof. by destruct b. Qed.

Lemma nonempty_sorted (s : gset string) : nonempty (sorted_set s) = false <-> s = ∅.
Proof.
  split; [|by intros ->]. intros H. apply elem_of_equiv_empty_L. intros x Hx. apply sorted_set_In in Hx.
  destruct (sorted_set s); [destruct Hx|discriminate H].
Qed.

Lemma difference_nil (a b : gset string) : a ∖ b = ∅ <-> a ⊆ b.
Proof.
  split; [|apply subseteq_empty_difference_L]. intros H x Hx. destruct (decide (x ∈ b)) as [|Hb]; [done|].
  assert (Hin : x ∈ a ∖ b) by (by apply elem_of_difference). by rewrite H in Hin.
Qed.

Lemma _string_set_strs l : _string_set (strs l) = list_to_set l.
Proof. unfold _string_set. by rewrite text_items_strs. Qed.

Lemma scope_monotonicity_nil parent current :
  assert_scope_monotonicity parent current = [] <->
  forall field, In field SCOPE_FIELDS -> field_set current field ⊆ field_set parent field.
Proof.
  unfold assert_scope_monotonicity. rewrite concat_map_nil.
  by setoid_rewrite finding_if_nil; setoid_rewrite nonempty_sorted; setoid_rewrite difference_nil.
Qed.

(** The invariant and the type a case names. *)
Definition case_invariant (case : odict value) : string := py_str (dget "invariant_id" (VStr "") case).
Definition case_kind (case : odict value) : string := py_str (dget "case_type" (VStr "") case).

Lemma in_snoc {A} (x a : A) l : In x (l ++ [a]) <-> In x l \/ x = a.
Proof. rewrite in_app_iff. cbn. naive_solver. Qed.

Lemma shape_failures cases :
  (foldl shape_step ([], []) cases).1 = [] <->
  forall case, In case cases -> case_invariant case <> "" /\ In (case_kind case) CASE_TYPES.
Proof.
  induction cases as [|case cases IH] using rev_ind; [by split|]. rewrite foldl_snoc.
  setoid_rewrite in_snoc. unfold shape_step at 1. fold (case_invariant case) (case_kind case). cbv zeta.
  destruct (String.eqb_spec (case_invariant case) "") as [Hi|Hi]; cbn [fst].
  - rewrite app_nil_iff. split; [by intros []|]. intros H. by destruct (H case (or_intror eq_refl)).
  - destruct (str_in (case_kind case) CASE_TYPES) eqn:Ht; [apply str_in_In in Ht|].
    + rewrite IH. split; [intros H c [Hc| ->]; auto | auto].
    + rewrite app_nil_iff. split; [by intros []|]. intros H.
      destruct (H case (or_intror eq_refl)) as [_ Hin]. apply str_in_In in Hin. congruence.
Qed.

Lemma shape_keys cases id :
  In id (od_keys (foldl shape_step ([], []) cases).2) <->
  id <> "" /\ exists case, In case cases /\ case_invariant case = id.
Proof.
  induction cases as [|case cases IH] using rev_ind; [naive_solver|]. rewrite foldl_snoc.
  setoid_rewrite in_snoc. unfold shape_step at 1. fold (case_invariant case) (case_kind case). cbv zeta.
  destruct (String.eqb_spec (case_invariant case) "") as [Hi|Hi]; cbn [snd].
  - rewrite IH. naive_solver.
  - rewrite <- od_mem_In in IH |- *. unfold od_mem in *. rewrite od_get_set.
    destruct (String.eqb_spec id (case_invariant case)) as [->|]; [naive_solver|]. rewrite IH. naive_solver.
Qed.

Lemma shape_types cases id k :
  id <> "" ->
  k ∈ (default ∅ (od_get id (foldl shape_step ([], []) cases).2) : gset string) <->
  exists case, In case cases /\ case_invariant case = id /\ case_kind case = k.
Proof.
  intros Hid. induction cases as [|case cases IH] using rev_ind; [cbn; set_solver|]. rewrite foldl_snoc.
  setoid_rewrite in_snoc. unfold shape_step at 1. fold (case_invariant case) (case_kind case). cbv zeta.
  destruct (String.eqb_spec (case_invariant case) "") as [Hi|Hi]; cbn [snd].
  - rewrite IH. naive_solver.
  - rewrite od_get_set. destruct (String.eqb_spec id (case_invariant case)) as [->|].
    + cbn [from_option id]. rewrite elem_of_union, elem_of_singleton, IH. naive_solver.
    + rewrite IH. naive_solver.
Qed.

(** ** What the composer seals *)

(** A composed profile as the dictionary it is, with what the checks look at. *)
Lemma composed_shape t c g parent reason p :
  compose t c g parent reason = Ok p ->
  exists m a hr runtime non_runtime shared pins limits fp,
    p = profile_dict t g parent reason a hr m
          [("runtime_skills", strs runtime); ("non_runtime_skills", strs non_runtime);
           ("shared_skills", strs shared)] pins limits fp /\
    _assert_recomposition_traceability g parent reason = Ok tt /\
    pin_versions (context_versions c) (task_type t) (all_modules_of m) = Ok pins /\
    runtime ++ non_runtime ++ shared ≡ₚ skills m /\
    dget "required" VNone hr = VBool (requires_human_review t) /\
    exists ps, m = if requires_human_review t then review_modules ps else select_modules t c ps.
Proof.
  intros H. unfold compose in H. checks H. destruct r.
  destruct (requires_human_review t) eqn:Hr; checks H; injection H as <-.
  - unfold _human_review_profile in C1. checks C1. injection C1 as <-.
    eexists (review_modules _), _, _, [], [], [], _, _, _.
    split_and!; [reflexivity|done|eassumption|done|done|by eexists].
  - destruct (skill_roles_partition _ _ _ C1) as (rs & ns & ss & -> & Hperm).
    eexists (select_modules t c _), _, _, rs, ns, ss, _, _, _.
    split_and!; [reflexivity|done|eassumption|done|done|by eexists].
Qed.

(** The keys of the pins are the names that were to be pinned. *)
Lemma pin_versions_exact versions tt_ names pins n :
  pin_versions versions tt_ names = Ok pins -> In n (od_keys pins) <-> In n names.
Proof.
  intros H. rewrite <- od_mem_In. unfold od_mem. split; intros Hn.
  - unfold pin_versions in H. checks H. injection H as <-. apply mapM_Ok in C.
    destruct (od_get n _) as [v|] eqn:E; [|discriminate Hn]. apply od_get_of_list_In in E.
    destruct (Forall2_In_r _ _ _ _ C E) as (x & Hx & Hv). cbn in Hv.
    apply bind_Ok in Hv as (w & _ & [= <- _]). done.
  - by destruct (pin_versions_keys _ _ _ _ H n Hn) as (v & -> & _).
Qed.

Lemma sealed_field_set t g parent reason a hr m roles pins limits fp field l :
  od_get field (selection_of m) = Some l ->
  field_set (profile_dict t g parent reason a hr m roles pins limits fp) field = list_to_set l.
Proof.
  intros H%od_get_In. unfold field_set. rewrite <- _string_set_strs.
  repeat (destruct H as [H|H]; [by injection H as <- <-|]). destruct H.
Qed.

(** Replace the fields of a composed profile by the modules selected. *)
Ltac sealed_fields :=
  repeat match goal with
  | |- context [field_set (profile_dict ?t ?g ?pa ?r ?a ?hr ?m ?ro ?pi ?li ?fp) ?f] =>
      rewrite (sealed_field_set t g pa r a hr m ro pi li fp f _ eq_refl)
  end; cbn [instructions skills tools knowledge_scopes data_scopes memory_scopes policies validators].

Lemma sealed_fail_closed t g parent reason a hr m roles pins limits fp versions tt_ :
  pin_versions versions tt_ (all_modules_of m) = Ok pins ->
  assert_fail_closed_on_unknowns (profile_dict t g parent reason a hr m roles pins limits fp) = [].
Proof.
  intros H. unfold assert_fail_closed_on_unknowns.
  assert (Hsel : _selected_modules (profile_dict t g parent reason a hr m roles pins limits fp)
                 = list_to_set (od_keys pins)).
  { apply set_eq. intros n. rewrite elem_of_list_to_set, list_elem_of_In, (pin_versions_exact _ _ _ _ n H).
    unfold _selected_modules. cbn [map PROFILE_SELECTION_FIELDS].
    sealed_fields. unfold all_modules_of. rewrite !in_app_iff.
    rewrite <- !list_elem_of_In. set_solver. }
  change (dget "module_versions" VNone _) with (VDict pins). cbv zeta iota. rewrite Hsel.
  apply app_nil_iff. by rewrite !finding_if_nil, !nonempty_sorted, !difference_nil.
Qed.

(** The roles are those of the selected skills, and a profile that waits for
    review selects none of the listed kinds. *)
Lemma sealed_no_self_granting t g parent reason a hr m runtime non_runtime shared pins limits fp :
  runtime ++ non_runtime ++ shared ≡ₚ skills m ->
  dget "required" VNone hr = VBool (requires_human_review t) ->
  (requires_human_review t = true -> exists ps, m = review_modules ps) ->
  assert_no_self_granting (profile_dict t g parent reason a hr m
    [("runtime_skills", strs runtime); ("non_runtime_skills", strs non_runtime);
     ("shared_skills", strs shared)] pins limits fp) = [].
Proof.
  intros Hp Hr Hm. unfold assert_no_self_granting, review_required.
  change (dget "skill_execution_roles" VNone _) with (VDict
    [("runtime_skills", strs runtime); ("non_runtime_skills", strs non_runtime); ("shared_skills", strs shared)]).
  change (dget "human_review" VNone _) with (VDict hr). cbv zeta iota. rewrite Hr.
  apply app_nil_iff. split.
  - rewrite finding_if_nil, nonempty_sorted, difference_nil. sealed_fields.
    change (field_set _ "runtime_skills") with (_string_set (strs runtime)).
    change (field_set _ "shared_skills") with (_string_set (strs shared)). rewrite !_string_set_strs.
    intros x. rewrite elem_of_union, !elem_of_list_to_set. rewrite <- Hp, !elem_of_app. naive_solver.
  - destruct (requires_human_review t); [|done]. destruct (Hm eq_refl) as [ps ->]. reflexivity.
Qed.

Lemma sealed_generation t g parent reason a hr m roles pins limits fp :
  _assert_recomposition_traceability g parent reason = Ok tt ->
  assert_immutable_profile_after_seal (profile_dict t g parent reason a hr m roles pins limits fp) = [] <->
  parent <> Some "".
Proof.
  intros H. unfold assert_immutable_profile_after_seal.
  change (as_number (dget "profile_generation" VNone _)) with (Some g).
  change (dget "parent_profile_id" VNone _) with (opt_str parent).
  change (dget "recomposition_reason" VNone _) with (opt_str reason).
  unfold _assert_recomposition_traceability in H. apply bind_Ok in H as ([] & Hg%raise_if_Ok & H).
  cbv zeta iota. rewrite Hg. destruct (g =? 1)%Z.
  - apply raise_if_Ok in H. destruct parent, reason; try discriminate H. done.
  - destruct parent as [parent|], reason as [reason|]; try discriminate H. apply raise_if_Ok in H.
    rewrite finding_if_nil. cbn. destruct (String.eqb_spec parent "") as [->|Hne].
    + split; [discriminate|done].
    + assert (Hs : truthy (VStr reason) = true) by (cbn; destruct (String.eqb_spec reason "") as [->|]; [discriminate H|done]).
      cbn in Hs. rewrite Hs. split; [intros _ [= ->]; done | done].
Qed.

Lemma sealed_validators t c g parent reason a hr m roles pins limits fp :
  dget "required" VNone hr = VBool (requires_human_review t) ->
  (exists ps, m = if requires_human_review t then review_modules ps else select_modules t c ps) ->
  assert_mandatory_validators_per_change_type (profile_dict t g parent reason a hr m roles pins limits fp) = [] <->
  requires_human_review t = true \/
  forall v, od_get (task_type t) TASK_TYPE_VALIDATOR_REQUIREMENTS = Some v ->
            In v (_names (_references c "validation_requirements") None).
Proof.
  intros Hr [ps Hm]. unfold assert_mandatory_validators_per_change_type, review_required.
  change (dget "human_review" VNone _) with (VDict hr). change (py_str (dget "task_type" _ _)) with (task_type t).
  cbv zeta iota. rewrite Hr. sealed_fields. rewrite app_nil_iff, finding_if_nil, negb_false_iff, bool_decide_eq_true.
  rewrite elem_of_list_to_set, list_elem_of_In. destruct (requires_human_review t); subst m.
  { split; [by left|]. intros _. split; [by left|]. destruct (od_get _ _); [|done]. by rewrite andb_false_r. }
  cbn [validators select_modules]. unfold dedupe_first. setoid_rewrite fromkeys_In.
  destruct (od_get (task_type t) TASK_TYPE_VALIDATOR_REQUIREMENTS) as [v|] eqn:Ev.
  - rewrite finding_if_nil, andb_true_r, negb_false_iff, bool_decide_eq_true, elem_of_list_to_set, list_elem_of_In, fromkeys_In.
    assert (v <> "runtime-profile-schema").
    { apply od_get_In in Ev. repeat (destruct Ev as [[= _ <-]|Ev]; [done|]). destruct Ev. }
    cbn. naive_solver.
  - cbn. naive_solver.
Qed.

(** ** Properties *)

(** C29. Composition implements the sealing invariants but one: the assertions
    find nothing in a composed profile exactly when its parent id, if any, is not
    empty and the profile waits for human review or the Control Plane named the
    validator its task type requires. The pins are exact, execution roles grant
    no unselected skill and a profile under review selects nothing, always; the
    validator of the task type is what the composer does not ask for. *)
Theorem composed_profile_invariants t c g parent reason p :
  compose t c g parent reason = Ok p ->
  assert_profile_sealing_invariants p = [] <->
  parent <> Some "" /\
  (requires_human_review t = true \/
   forall v, od_get (task_type t) TASK_TYPE_VALIDATOR_REQUIREMENTS = Some v ->
             In v (_names (_references c "validation_requirements") None)).
Proof.
  intros (m & a & hr & rs & ns & ss & pins & limits & fp & -> & Ht & Hpin & Hperm & Hr & Hm)%composed_shape.
  unfold assert_profile_sealing_invariants. rewrite !app_nil_iff.
  rewrite (sealed_fail_closed _ _ _ _ _ _ _ _ _ _ _ _ _ Hpin), (sealed_validators _ _ _ _ _ _ _ _ _ _ _ _ Hr Hm),
    (sealed_generation _ _ _ _ _ _ _ _ _ _ _ Ht), sealed_no_self_granting by (try done; intros E; rewrite E in Hm; done).
  naive_solver.
Qed.

Lemma composed_profile_invariants_witness :
  (assert_profile_sealing_invariants review_profile = [] <->
   (None : option string) <> Some "" /\
   (requires_human_review review_analyzed = true \/
    forall v, od_get (task_type review_analyzed) TASK_TYPE_VALIDATOR_REQUIREMENTS = Some v ->
              In v (_names (_references (review_response demo_authority) "validation_requirements") None))) /\
  assert_profile_sealing_invariants review_profile = [].
Proof.
  split; [|vm_compute; reflexivity].
  apply (composed_profile_invariants review_analyzed (review_response demo_authority) 1 None None review_profile).
  vm_compute. reflexivity.
Defined.

(** The missing check is reachable: with no validation requirement in the
    response, a code review is composed without the validator of its kind. *)
Definition unvalidated_profile : odict value :=
  profile_or (compose review_analyzed (od_set "validation_requirements" (VList []) (review_response demo_authority)) 1 None None).
Example validator_not_required :
  compose review_analyzed (od_set "validation_requirements" (VList []) (review_response demo_authority)) 1 None None
    = Ok unvalidated_profile /\
  assert_profile_sealing_invariants unvalidated_profile =
    [mkFinding "mandatory_validators_per_change_type"
       "missing task-type validator for code-review: review-findings-contract"].
Proof. split; vm_compute; reflexivity. Qed.

(** The shape check of the replay corpus is complete: under any iteration
    order of sets it reports nothing exactly when every case names an expected
    invariant and a case type, and every expected invariant has a case of every
    type. *)
Theorem replay_corpus_complete set_order cases :
  (forall s : gset string, set_order s ≡ₚ elements s) ->
  validate_replay_corpus_shape set_order cases = [] <->
  (forall case, In case cases -> In (case_invariant case) EXPECTED_INVARIANTS /\ In (case_kind case) CASE_TYPES) /\
  (forall id k, In id EXPECTED_INVARIANTS -> In k CASE_TYPES ->
     exists case, In case cases /\ case_invariant case = id /\ case_kind case = k).
Proof.
  intros Ho. unfold validate_replay_corpus_shape. destruct (foldl shape_step ([], []) cases) as [failures seen] eqn:E.
  pose proof (shape_failures cases) as Hf. pose proof (shape_keys cases) as Hk.
  pose proof (shape_types cases) as Ht. rewrite E in Hf, Hk, Ht. cbn [fst snd] in *. cbv zeta.
  rewrite !app_nil_iff, Hf, !if_nil, !nonempty_sorted, !difference_nil, concat_map_nil.
  setoid_rewrite if_nil'. setoid_rewrite bool_decide_eq_true.
  assert (Hx : forall id, In id EXPECTED_INVARIANTS -> id <> "") by (intros id H ->; by repeat destruct H as [H|H]).
  assert (Hsub : forall l k : list string, (list_to_set l : gset string) ⊆ list_to_set k <-> forall x, In x l -> In x k).
  { intros l k. split; intros H x; specialize (H x); rewrite !elem_of_list_to_set, !list_elem_of_In in *; done. }
  rewrite !Hsub. split.
  - intros (H1 & H2 & H3 & H4). assert (Hmem : forall id, In id EXPECTED_INVARIANTS ->
      default ∅ (od_get id seen) = (list_to_set CASE_TYPES : gset string)).
    { intros id Hid. apply H4. apply list_elem_of_In. rewrite Ho. apply elem_of_elements, elem_of_intersection.
      rewrite !elem_of_list_to_set, !list_elem_of_In. auto. }
    split.
    + intros case Hc. destruct (H1 case Hc) as [Hi Hkind]. split; [|done]. apply H3, Hk. eauto.
    + intros id k Hid Hkind. apply Ht; [auto|]. rewrite Hmem by done. by apply elem_of_list_to_set, list_elem_of_In.
  - intros [H1 H2]. split_and!.
    + intros case Hc. destruct (H1 case Hc) as [Hi Hkind]. auto.
    + intros id Hid. apply Hk. split; [auto|]. destruct (H2 id "positive" Hid) as (case & Hc & Hi & _); [by left|eauto].
    + intros id (_ & case & Hc & <-)%Hk. by apply H1.
    + intros id Hid. apply list_elem_of_In in Hid. rewrite Ho in Hid. apply elem_of_elements, elem_of_intersection in Hid.
      destruct Hid as [Hid _]. apply elem_of_list_to_set, list_elem_of_In in Hid. apply set_eq. intros k.
      rewrite Ht, elem_of_list_to_set, list_elem_of_In by auto. split; [|by apply H2].
      intros (case & Hc & _ & <-). by apply H1.
Qed.

(** One case of every type for every invariant, and nothing else. *)
Definition full_corpus : list (odict value) :=
  concat (map (fun id => map (fun k => [("invariant_id", VStr id); ("case_type", VStr k)]) CASE_TYPES) EXPECTED_INVARIANTS).

Lemma replay_corpus_complete_witness :
  validate_replay_corpus_shape elements full_corpus = [] /\
  (forall id k, In id EXPECTED_INVARIANTS -> In k CASE_TYPES ->
     exists case, In case full_corpus /\ case_invariant case = id /\ case_kind case = k).
Proof.
  assert (H : validate_replay_corpus_shape elements full_corpus = []) by (vm_compute; reflexivity).
  split; [exact H|].
  apply (replay_corpus_complete elements full_corpus); [intros s; reflexivity|exact H].
Defined.

(** A mutation with a path through a text replaces the text by an object. *)
Example mutation_makes_objects :
  mutate [("human_review", VStr "x")]
    (VDict [("op", VStr "set"); ("path", VStr "human_review.required"); ("value", VBool true)])
  = Ok [("human_review", VDict [("required", VBool true)])].
Proof. vm_compute. reflexivity. Qed.
