(* ===== verification/Registry.v ===== *)
(** * The module registry

    Models [registries/modules.py]: the metadata records, the construction of
    [InMemoryModuleRegistry], discovery, scoring, policy filtering, version
    resolution and graph validation. [ModuleFiles] loads modules from their
    files. The [raw] field, which only keeps the parsed file, is left out. A [frozenset] is a [gset]
    where its order cannot matter and a list, in iteration order, where the
    source loops over it. *)

From Stdlib Require Import SpecFloat.
From S2P Require Import Prelude PyStr PyValue PyFloat.
Open Scope string_scope.
Open Scope list_scope.

Record ScoreModifier := mkScoreModifier {
  signal : string;
  weight : float;
  sm_reason : string;
}.

Record ModuleMetadata := mkModuleMetadata {
  name : string;
  version : string;
  kind : string;
  description : string;
  runtime_role : option string;
  capability_class : string;
  domain_tags : gset string;
  task_types : gset string;
  risk_levels : gset string;
  task_domains : gset string;
  required_inputs : gset string;
  phrases : gset string;
  negative_phrases : gset string;
  triggers : gset string;
  inputs : gset string;
  outputs : gset string;
  required_tools : list string;
  optional_tools : list string;
  knowledge_scopes : list string;
  data_scopes : list string;
  policies : list string;
  validators : list string;
  selection_mode : string;
  base_score : float;
  score_modifiers : list ScoreModifier;
  requires_all_policies : bool;
  tests : gset string;
}.

Record ModuleReference := mkModuleReference {
  source_name : string;
  field : string;
  target_name : string;
  expected_kind : string;
}.

Definition MODULE_REFERENCE_KINDS : list (string * (ModuleMetadata -> list string) * string) :=
  [("required_tools", required_tools, "tool"); ("optional_tools", optional_tools, "tool");
   ("knowledge_scopes", knowledge_scopes, "knowledge_scope");
   ("data_scopes", data_scopes, "data_scope"); ("policies", policies, "policy");
   ("validators", validators, "validator")].

Definition references (m : ModuleMetadata) : list ModuleReference :=
  mjoin (map (fun '(fieldname, getattr, expected) =>
    map (fun target => mkModuleReference (name m) fieldname target expected) (getattr m))
    MODULE_REFERENCE_KINDS).

Definition _normalize_texts (values : list string) : list string := map casefold values.

Record RegistryQuery := mkRegistryQuery {
  q_kinds : gset string;
  q_capability_classes : gset string;
  q_domains : gset string;
  q_task_types : gset string;
  q_available_inputs : gset string;
  require_available_inputs : bool;
}.

Record TaskSignals := mkTaskSignals {
  task_type : string;
  risk_level : string;
  domains : gset string;
  available_inputs : gset string;
  capability_hints : gset string;
  ts_phrases : gset string;
  constraints : gset string;
  error_feedback : list string;
}.

Definition normalized_text_signals (t : TaskSignals) : gset string :=
  list_to_set (_normalize_texts (elements (ts_phrases t) ++ elements (constraints t))).

Record ScoreResult := mkScoreResult {
  sr_module : ModuleMetadata;
  sr_score : float;
  matched_signals : list string;
  negative_signals : list string;
  explanation : list string;
}.

Inductive PolicyEffect := Allow | Deny | NeedsClarification.
#[export] Instance PolicyEffect_eq_dec : EqDecision PolicyEffect.
Proof. solve_decision. Defined.

Record PolicyContext := mkPolicyContext {
  allowed_policy_ids : gset string;
  denied_module_ids : gset string;
  denied_kinds : gset string;
  denied_capability_classes : gset string;
}.

Record PolicyDecision := mkPolicyDecision {
  pd_module : ModuleMetadata;
  effect : PolicyEffect;
  reasons : list string;
}.

Record GraphValidationResult := mkGraphValidationResult {
  is_valid : bool;
  errors : list string;
  reachable_modules : list string;
}.

(** ** Versions and construction *)

Definition semver : Type := Z * Z * Z.

Definition int_of (s : string) : res Z :=
  match int_of_str s with
  | Some z => Ok z
  | None => Raise (ValueError ("invalid literal for int() with base 10: " +:+ repr_str s))
  end.

Definition _semver_key (v : string) : res semver :=
  match split_on "."%char v with
  | [a; b; c] => major ← int_of a; minor ← int_of b; patch ← int_of c; mret (major, minor, patch)
  | l => Raise (ValueError (if (length l <? 3)%nat then "not enough values to unpack"
                            else "too many values to unpack"))
  end.

Definition semver_leb (x y : semver) : bool :=
  let '(a, b, c) := x in
  let '(a', b', c') := y in
  (a <? a')%Z || ((a =? a')%Z && ((b <? b')%Z || ((b =? b')%Z && (c <=? c')%Z))).

Record registry := mkRegistry {
  by_name_version : list ((string * string) * ModuleMetadata);
  by_name : odict (list ModuleMetadata);
}.

Definition find_version (key : string * string) (l : list ((string * string) * ModuleMetadata))
    : option ModuleMetadata :=
  option_map snd (List.find (fun e => bool_decide (e.1 = key)) l).

Definition register (r : registry) (m : ModuleMetadata) : res registry :=
  let key := (name m, version m) in
  match find_version key (by_name_version r) with
  | Some _ => Raise (DuplicateModuleError ("Duplicate module version: " +:+ name m +:+ "@" +:+ version m))
  | None =>
      let versions := match od_get (name m) (by_name r) with Some l => l | None => [] end in
      Ok (mkRegistry (by_name_version r ++ [(key, m)]) (od_set (name m) (versions ++ [m]) (by_name r)))
  end.

Definition sort_versions (entry : string * list ModuleMetadata)
    : res (string * list ModuleMetadata) :=
  sorted ← sort_by (fun item => _semver_key (version item)) (fun x y => semver_leb y x) entry.2;
  mret (entry.1, sorted).

Definition new_registry (modules : list ModuleMetadata) : res registry :=
  r ← foldM register (mkRegistry [] []) modules;
  by_name' ← mapM sort_versions (by_name r);
  mret (mkRegistry (by_name_version r) by_name').

Definition name_semver_leb (x y : string * semver) : bool :=
  str_ltb x.1 y.1 || (String.eqb x.1 y.1 && semver_leb x.2 y.2).

Definition all_modules (r : registry) : res (list ModuleMetadata) :=
  sort_by (fun m => key ← _semver_key (version m); mret (name m, key)) name_semver_leb
    (map snd (by_name_version r)).

Definition resolve (r : registry) (module_name : string) (v : option string) : res ModuleMetadata :=
  match v with
  | Some v =>
      match find_version (module_name, v) (by_name_version r) with
      | Some m => Ok m
      | None => Raise (UnknownModuleError ("Unknown module version: " +:+ module_name +:+ "@" +:+ v))
      end
  | None =>
      match od_get module_name (by_name r) with
      | Some (m :: _) => Ok m
      | _ => Raise (UnknownModuleError ("Unknown module: " +:+ module_name))
      end
  end.

(** ** Discovery *)

Definition set_truthy (s : gset string) : bool := negb (bool_decide (s = ∅)).

Definition _matches_query (m : ModuleMetadata) (q : RegistryQuery) : bool :=
  if String.eqb (selection_mode m) "dependency_only" then false
  else if set_truthy (q_kinds q) && negb (bool_decide (kind m ∈ q_kinds q)) then false
  else if set_truthy (q_capability_classes q)
          && negb (bool_decide (capability_class m ∈ q_capability_classes q)) then false
  else if set_truthy (q_domains q)
          && negb (set_truthy ((domain_tags m ∪ task_domains m) ∩ q_domains q)) then false
  else if set_truthy (q_task_types q) && negb (set_truthy (task_types m ∩ q_task_types q)) then false
  else negb (require_available_inputs q
             && negb (bool_decide (required_inputs m ⊆ q_available_inputs q))).

Definition discover (r : registry) (q : RegistryQuery) : res (list ModuleMetadata) :=
  modules ← all_modules r;
  mret (List.filter (fun m => _matches_query m q) modules).

(** ** Scoring *)

Definition _structured_matches (m : ModuleMetadata) (t : TaskSignals) : list string :=
  (if bool_decide (task_type t ∈ task_types m) then ["task_type:" +:+ task_type t] else [])
  ++ (if bool_decide (risk_level t ∈ risk_levels m) then ["risk_level:" +:+ risk_level t] else [])
  ++ map (fun d => "domain:" +:+ d) (sorted_set ((domain_tags m ∪ task_domains m) ∩ domains t))
  ++ map (fun i => "input:" +:+ i) (sorted_set (required_inputs m ∩ available_inputs t))
  ++ (if bool_decide (capability_class m ∈ capability_hints t)
      then ["capability_class:" +:+ capability_class m] else []).

Definition _signal_matches (sig : string) (m : ModuleMetadata) (t : TaskSignals) : bool :=
  match split_once ":"%char sig with
  | None => false
  | Some (prefix, v) =>
      let normalized_value := casefold v in
      if String.eqb prefix "task_type" then String.eqb v (task_type t)
      else if String.eqb prefix "risk_level" then String.eqb v (risk_level t)
      else if String.eqb prefix "domain" then bool_decide (v ∈ domains t)
      else if String.eqb prefix "input" then bool_decide (v ∈ available_inputs t)
      else if String.eqb prefix "capability_class"
      then String.eqb v (capability_class m) || bool_decide (v ∈ capability_hints t)
      else if str_in prefix ["phrase"; "trigger"]
      then bool_decide (normalized_value ∈ normalized_text_signals t)
      else if String.eqb prefix "constraint"
      then str_in normalized_value (_normalize_texts (elements (constraints t)))
      else false
  end.

Definition FEEDBACK_PENALTIES : odict (odict float) :=
  [("F1_INEFFICIENCY_PATH",
      [("analysis", ratio 12 100); ("execution", ratio 12 100); ("retrieval", ratio 6 100)]);
   ("F2_INTERFACE_CONTRACT_BREAKDOWN",
      [("validation", ratio 16 100); ("execution", ratio 1 10)]);
   ("R8_POLICY_CONFLICT_CONTEXT_CONTAMINATION",
      [("policy", ratio 2 10); ("instruction", ratio 2 10)])].

Definition penalty_for (capability feedback : string) : float :=
  match od_get feedback FEEDBACK_PENALTIES with
  | Some d => match od_get capability d with Some p => p | None => fzero end
  | None => fzero
  end.

Definition penalty_step (capability : string) (acc : float * string) (feedback : string)
    : float * string :=
  let penalty := penalty_for capability feedback in
  if SFltb acc.1 penalty
  then (penalty, "error_feedback:" +:+ feedback +:+ ":" +:+ capability) else acc.

Definition _error_feedback_penalty (m : ModuleMetadata) (t : TaskSignals) : float * string :=
  foldl (penalty_step (capability_class m)) (fzero, "") (error_feedback t).

(** The accumulators of the scoring loop. *)
Record score_state := mkScoreState {
  acc_score : float;
  acc_matched : gset string;
  acc_negative : gset string;
  acc_explanation : list string;
}.

Definition modifier_step (m : ModuleMetadata) (t : TaskSignals) (s : score_state)
    (modifier : ScoreModifier) : score_state :=
  if _signal_matches (signal modifier) m t then
    let negative := SFltb (weight modifier) fzero in
    mkScoreState (fadd (acc_score s) (weight modifier))
      (if negative then acc_matched s else {[signal modifier]} ∪ acc_matched s)
      (if negative then {[signal modifier]} ∪ acc_negative s else acc_negative s)
      (acc_explanation s ++ [sm_reason modifier])
  else s.

Definition score (m : ModuleMetadata) (t : TaskSignals) : ScoreResult :=
  if String.eqb (selection_mode m) "dependency_only" then
    mkScoreResult m fzero [] ["selection_mode:dependency_only"]
      ["dependency_only modules cannot be scored directly"]
  else
    let s := foldl (modifier_step m t)
               (mkScoreState (base_score m) (list_to_set (_structured_matches m t)) ∅
                  ["base_score:" +:+ format_2f (base_score m)])
               (score_modifiers m) in
    let negative := acc_negative s ∪
      list_to_set (map (fun phrase => "phrase:" +:+ phrase)
                     (elements (negative_phrases m ∩ normalized_text_signals t))) in
    let '(feedback_penalty, feedback_reason) := _error_feedback_penalty m t in
    let penalised := SFltb fzero feedback_penalty in
    let final := if penalised then fsub (acc_score s) feedback_penalty else acc_score s in
    let negative := if penalised then {[feedback_reason]} ∪ negative else negative in
    let expl := if penalised then acc_explanation s ++ ["feedback_penalty:" +:+ feedback_reason]
                else acc_explanation s in
    mkScoreResult m (round4 (clamp01 final)) (sorted_set (acc_matched s)) (sorted_set negative) expl.

(** ** Policy filter *)

Definition filter_candidate (m : ModuleMetadata) (c : PolicyContext) : PolicyDecision :=
  if bool_decide (name m ∈ denied_module_ids c)
  then mkPolicyDecision m Deny ["module is explicitly denied"]
  else if bool_decide (kind m ∈ denied_kinds c)
  then mkPolicyDecision m Deny ["kind is denied: " +:+ kind m]
  else if bool_decide (capability_class m ∈ denied_capability_classes c)
  then mkPolicyDecision m Deny ["capability class is denied: " +:+ capability_class m]
  else
    let missing_policies := sorted_set (list_to_set (policies m) ∖ allowed_policy_ids c) in
    if requires_all_policies m && nonempty missing_policies
    then mkPolicyDecision m NeedsClarification
           ["missing required policies: " +:+ join ", " missing_policies]
    else mkPolicyDecision m Allow ["policy context allows candidate"].

(** ** Graph validation

    The recursive walks take fuel; [OutOfFuel] marks a walk that had too
    little, and [validate_graph] gives each one more than the number of names
    it can enter, so it never occurs ([collect_spec], [visit_spec]). *)

Inductive stop :=
| Raised (e : exn)
| OutOfFuel.

Definition raising {A} (m : res A) : result stop A :=
  match m with Ok a => Ok a | Raise e => Raise (Raised e) end.

Section graph.
Context (r : registry).

Definition known (n : string) : bool := od_mem n (by_name r).

Definition missing_reference (ref : ModuleReference) : string :=
  source_name ref +:+ "." +:+ field ref +:+ " references missing " +:+ expected_kind ref +:+ ": "
  +:+ target_name ref.

Fixpoint _collect_reachable (fuel : nat) (n : string) (st : gset string * list string)
    : result stop (gset string * list string) :=
  match fuel with
  | O => Raise OutOfFuel
  | S fuel' =>
      let '(reachable, errors) := st in
      if bool_decide (n ∈ reachable) || negb (known n) then mret (reachable, errors)
      else
        module ← raising (resolve r n None);
        foldM (fun st ref =>
          if negb (known (target_name ref)) then mret (st.1, st.2 ++ [missing_reference ref])
          else _collect_reachable fuel' (target_name ref) st)
          ({[n]} ∪ reachable, errors) (references module)
  end.

(** The errors of one reference of a reachable module. *)
Definition reference_errors (ref : ModuleReference) : res (list string) :=
  if negb (known (target_name ref)) then Ok [missing_reference ref]
  else
    target ← resolve r (target_name ref) None;
    mret (if negb (String.eqb (kind target) (expected_kind ref))
          then [source_name ref +:+ "." +:+ field ref +:+ " references " +:+ target_name ref +:+ " as "
                +:+ expected_kind ref +:+ ", got " +:+ kind target]
          else []).

Definition module_errors (policy_context : option PolicyContext) (module_name : string)
    : res (list string) :=
  module ← resolve r module_name None;
  errs ← mapM reference_errors (references module);
  mret (mjoin errs ++
        match policy_context with
        | Some c =>
            if bool_decide (capability_class module ∈ denied_capability_classes c)
            then ["reachable module " +:+ name module +:+ " uses denied capability "
                  +:+ capability_class module]
            else []
        | None => []
        end).

Definition graph_entry (n : string) : res (string * list string) :=
  module ← resolve r n None; mret (n, map target_name (references module)).

Definition cycle_graph (module_names : list string) : res (odict (list string)) :=
  entries ← mapM graph_entry module_names; mret (od_of_list entries).
End graph.

(** ** Cycle search *)

Record visit_state := mkVisitState {
  visiting : gset string;
  visited : gset string;
  path : list string;
  cycle_errors : list string;
}.

(** [l[l.index(x):]] *)
Fixpoint from_index (x : string) (l : list string) : option (list string) :=
  match l with
  | [] => None
  | y :: l' => if String.eqb x y then Some l else from_index x l'
  end.

Section cycles.
Context (graph : odict (list string)).

Definition targets (n : string) : list string :=
  match od_get n graph with Some l => l | None => [] end.

Definition enter (n : string) (st : visit_state) : visit_state :=
  mkVisitState ({[n]} ∪ visiting st) (visited st) (path st ++ [n]) (cycle_errors st).
Definition leave (n : string) (st : visit_state) : visit_state :=
  mkVisitState (visiting st ∖ {[n]}) ({[n]} ∪ visited st) (removelast (path st)) (cycle_errors st).

Fixpoint visit (fuel : nat) (n : string) (st : visit_state) : result stop visit_state :=
  match fuel with
  | O => Raise OutOfFuel
  | S fuel' =>
      if bool_decide (n ∈ visiting st) then
        match from_index n (path st) with
        | Some cycle =>
            mret (mkVisitState (visiting st) (visited st) (path st)
                    (cycle_errors st ++ ["circular dependency: " +:+ join " -> " (cycle ++ [n])]))
        | None => Raise (Raised (ValueError ("'" +:+ n +:+ "' is not in list")))
        end
      else if bool_decide (n ∈ visited st) then mret st
      else
        st' ← foldM (fun st t => if od_mem t graph then visit fuel' t st else mret st)
                (enter n st) (targets n);
        mret (leave n st')
  end.
End cycles.

Definition _cycle_errors (r : registry) (module_names : list string) : result stop (list string) :=
  graph ← raising (cycle_graph r module_names);
  st ← foldM (fun st n => visit graph (S (length module_names)) n st)
         (mkVisitState ∅ ∅ [] []) module_names;
  mret (cycle_errors st).

Definition validate_graph (r : registry) (selected_module_names : list string)
    (policy_context : option PolicyContext) : result stop GraphValidationResult :=
  let selected := fromkeys selected_module_names in
  let missing := map (fun n => "missing selected module: " +:+ n)
                   (List.filter (fun n => negb (known r n)) selected) in
  walked ← foldM (fun st n => _collect_reachable r (S (length (by_name r))) n st) (∅, missing) selected;
  let '(reachable, errs) := walked in
  checked ← raising (mapM (module_errors r policy_context) (sorted_set reachable));
  cycles ← _cycle_errors r (sorted_set reachable);
  let errs := errs ++ mjoin checked ++ cycles in
  mret (mkGraphValidationResult (negb (nonempty errs)) (fromkeys errs) (sorted_set reachable)).

(** ** A concrete registry *)

Definition plain_module (n v k : string) (deps : list string) : ModuleMetadata :=
  mkModuleMetadata n v k "" None "analysis" ∅ {["code-review"]} ∅ ∅ ∅ ∅ ∅ ∅ ∅ ∅ [] [] [] [] [] deps
    "direct" (ratio 1 2) [mkScoreModifier "task_type:code-review" (ratio 3 10) "fits"] false ∅.

Definition demo_registry : registry :=
  match new_registry [plain_module "a" "0.2.0" "skill" ["b"]; plain_module "b" "1.0.0" "validator" ["c"];
                      plain_module "a" "0.10.0" "skill" ["b"]; plain_module "c" "0.1.0" "validator" []] with
  | Ok r => r | Raise _ => mkRegistry [] []
  end.
Definition cyclic_registry : registry :=
  match new_registry [plain_module "a" "0.2.0" "validator" ["b"]; plain_module "b" "1.0.0" "validator" ["c"];
                      plain_module "c" "0.1.0" "validator" ["b"; "d"]] with
  | Ok r => r | Raise _ => mkRegistry [] []
  end.

Example resolve_ex : (m ← resolve demo_registry "a" None; mret (version m)) = Ok "0.10.0".
Proof. vm_compute. reflexivity. Qed.
Example graph_ex1 : validate_graph demo_registry ["a"; "a"] None
  = Ok (mkGraphValidationResult true [] ["a"; "b"; "c"]).
Proof. vm_compute. reflexivity. Qed.
Example graph_ex2 : validate_graph cyclic_registry ["a"; "x"] None
  = Ok (mkGraphValidationResult false
      ["missing selected module: x"; "c.validators references missing validator: d";
       "circular dependency: b -> c -> b"] ["a"; "b"; "c"]).
Proof. vm_compute. reflexivity. Qed.
Example score_ex :
  sr_score (score (plain_module "a" "0.2.0" "skill" [])
    (mkTaskSignals "code-review" "low" ∅ ∅ ∅ ∅ ∅ ["F1_INEFFICIENCY_PATH"])) = ratio 68 100.
Proof. vm_compute. reflexivity. Qed.

(** ** The order of versions *)

Lemma semver_leb_iff x y :
  semver_leb x y = true <->
  (let '(a, b, c) := x in let '(a', b', c') := y in
   a < a' \/ (a = a' /\ (b < b' \/ (b = b' /\ c <= c'))))%Z.
Proof.
  destruct x as [[a b] c], y as [[a' b'] c']. unfold semver_leb.
  rewrite !orb_true_iff, !andb_true_iff, !orb_true_iff, !andb_true_iff. lia.
Qed.

Lemma semver_leb_total x y : semver_leb x y = true \/ semver_leb y x = true.
Proof. rewrite !semver_leb_iff. destruct x as [[a b] c], y as [[a' b'] c']. lia. Qed.
Lemma semver_leb_trans x y z : semver_leb x y = true -> semver_leb y z = true -> semver_leb x z = true.
Proof.
  rewrite !semver_leb_iff. destruct x as [[a b] c], y as [[a' b'] c'], z as [[a'' b''] c'']. lia.
Qed.


(** ** What construction builds *)

Definition module_key (m : ModuleMetadata) : string * string := (name m, version m).
Definition named (n : string) (l : list ModuleMetadata) : list ModuleMetadata :=
  List.filter (fun m => String.eqb n (name m)) l.

Lemma find_version_map k l :
  find_version k (map (fun m => (module_key m, m)) l) = List.find (fun m => bool_decide (module_key m = k)) l.
Proof.
  unfold find_version. induction l as [|m l IH]; cbn; [done|].
  destruct (bool_decide (module_key m = k)); [done|apply IH].
Qed.

Lemma find_version_None k l :
  find_version k (map (fun m => (module_key m, m)) l) = None <-> ~ In k (map module_key l).
Proof.
  rewrite find_version_map, in_map_iff. split.
  - intros H (m & <- & Hm). apply (find_none _ _ H) in Hm.
    by apply bool_decide_eq_false in Hm.
  - intros H. destruct (List.find _ l) as [m|] eqn:E; [|done].
    apply find_some in E as [Hm E%bool_decide_eq_true]. destruct H. eauto.
Qed.

Record registered (modules : list ModuleMetadata) (r : registry) : Prop := {
  rg_unique : NoDup (map module_key modules);
  rg_versions : by_name_version r = map (fun m => (module_key m, m)) modules;
  rg_names : forall n, od_get n (by_name r) =
    match named n modules with [] => None | l => Some l end;
}.

Lemma register_all modules r :
  foldM register (mkRegistry [] []) modules = Ok r -> registered modules r.
Proof.
  apply (foldM_ind register (fun r done_ => registered done_ r)); [constructor; [constructor|done..]|].
  intros d m r1 r2 [H1 H2 H3] _ Hreg. unfold register in Hreg.
  rewrite H2 in Hreg. destruct (find_version _ _) eqn:E; [done|]. injection Hreg as <-.
  apply (find_version_None (module_key m)) in E. constructor; cbn.
  - rewrite map_app. apply NoDup_app. split; [done|]. split; [|apply NoDup_singleton].
    intros k Hk ->%list_elem_of_singleton. by apply E, list_elem_of_In.
  - by rewrite map_app.
  - intros n. unfold named. rewrite List.filter_app. cbn. rewrite od_get_set.
    destruct (String.eqb_spec n (name m)) as [->|Hne].
    + rewrite H3. unfold named. by destruct (List.filter _ d).
    + rewrite app_nil_r. apply H3.
Qed.

Lemma sorted_names_get d d' n :
  mapM sort_versions d = Ok d' ->
  match od_get n d with
  | None => od_get n d' = None
  | Some l => exists l', od_get n d' = Some l' /\
      sort_by (fun item => _semver_key (version item)) (fun x y => semver_leb y x) l = Ok l'
  end.
Proof.
  intros H%mapM_Ok. induction H as [|[k l] [k' l'] d d' Hs HF IH]; cbn; [done|].
  unfold sort_versions in Hs. apply bind_Ok in Hs as (s & Hs & [= <- <-]). cbn in Hs.
  destruct (String.eqb n k); [eauto|exact IH].
Qed.

(** What a constructed registry holds, by name. *)
Lemma new_registry_names modules r n :
  new_registry modules = Ok r ->
  match named n modules with
  | [] => od_get n (by_name r) = None
  | l => exists m l', od_get n (by_name r) = Some (m :: l') /\ m :: l' ≡ₚ l /\
      forall x, In x l -> exists k k', _semver_key (version m) = Ok k /\
        _semver_key (version x) = Ok k' /\ semver_leb k' k = true
  end.
Proof.
  unfold new_registry. intros (r0 & Hr0 & (d' & Hd & [= <-])%bind_Ok)%bind_Ok.
  apply register_all in Hr0 as [_ _ Hn]. specialize (Hn n).
  apply (sorted_names_get _ _ n) in Hd. rewrite Hn in Hd. cbn.
  destruct (named n modules) as [|m0 l0]; [done|].
  destruct Hd as (l' & Hl' & Hs). pose proof (sort_by_perm _ _ _ _ Hs) as Hp.
  destruct l' as [|m l']; [by apply Permutation_nil_cons in Hp|].
  exists m, l'. split_and!; [done..|]. intros x Hx.
  apply (sort_by_head _ _ (fun x y => semver_leb_total y x)
    (fun x y z H1 H2 => semver_leb_trans z y x H2 H1) _ _ _ x Hs Hx).
Qed.

Lemma new_registry_versions modules r :
  new_registry modules = Ok r ->
  NoDup (map module_key modules) /\ by_name_version r = map (fun m => (module_key m, m)) modules.
Proof.
  unfold new_registry. intros (r0 & Hr0 & (d' & Hd & [= <-])%bind_Ok)%bind_Ok.
  by apply register_all in Hr0 as [? ? _].
Qed.

Lemma named_In n l m : In m (named n l) <-> In m l /\ name m = n.
Proof. unfold named. rewrite filter_In, String.eqb_eq. naive_solver. Qed.

Lemma named_nil n l : named n l = [] <-> forall m, In m l -> name m <> n.
Proof.
  split.
  - intros H m Hm Hn. assert (Hin : In m (named n l)) by (by apply named_In). by rewrite H in Hin.
  - intros H. destruct (named n l) as [|m ms] eqn:E; [done|].
    assert (Hin : In m (named n l)) by (rewrite E; by left). apply named_In in Hin as [Hm Hn].
    by destruct (H m Hm).
Qed.

(** ** The dependency graph of a registry *)

Section graph_lemmas.
Context (r : registry).
(** Every known name has a module, as construction ensures. *)
Context (Hwf : forall n, known r n = true -> exists m, resolve r n None = Ok m).

(** [a] refers to the known module name [b]. *)
Definition edge (a b : string) : Prop :=
  exists m ref, resolve r a None = Ok m /\ In ref (references m) /\ target_name ref = b /\
                known r b = true.

Definition known_names : gset string := list_to_set (od_keys (by_name r)).

Lemma known_names_In n : n ∈ known_names <-> known r n = true.
Proof. unfold known_names, known. by rewrite elem_of_list_to_set, list_elem_of_In, od_mem_In. Qed.

Lemma known_edge_r a b : edge a b -> known r b = true.
Proof. by intros (? & ? & _ & _ & _ & H). Qed.

Definition refs_known (n : string) : Prop :=
  forall m ref, resolve r n None = Ok m -> In ref (references m) -> known r (target_name ref) = true.

(** What a walk from [R] to [R'] guarantees. *)
Record walked (roots : string -> Prop) (R : gset string) (e : list string)
    (R' : gset string) (e' : list string) : Prop := {
  wk_grow : R ⊆ R';
  wk_sound : forall x, x ∈ R' -> x ∈ R \/ exists s, roots s /\ known r s = true /\ rtc edge s x;
  wk_roots : forall s, roots s -> known r s = true -> s ∈ R';
  wk_closed : forall x y, x ∈ R' -> x ∉ R -> edge x y -> y ∈ R';
  wk_errors : exists new, e' = e ++ new /\
    (new = [] <-> forall x, x ∈ R' -> x ∉ R -> refs_known x);
}.

Lemma walked_id (roots : string -> Prop) R e :
  (forall s, roots s -> known r s = true -> s ∈ R) -> walked roots R e R e.
Proof.
  intros H. constructor; try done; [by left|].
  exists []. rewrite app_nil_r. split; [done|]. split; [by intros _ x H1 H2|done].
Qed.

Lemma walked_trans (roots1 roots2 roots : string -> Prop) R e R1 e1 R2 e2 :
  walked roots1 R e R1 e1 -> walked roots2 R1 e1 R2 e2 ->
  (forall s, roots1 s -> roots s) -> (forall s, roots2 s -> roots s) ->
  (forall s, roots s -> roots1 s \/ roots2 s) ->
  walked roots R e R2 e2.
Proof.
  intros [A1 A2 A3 A4 (n1 & -> & A5)] [B1 B2 B3 B4 (n2 & -> & B5)] H1 H2 H12. constructor.
  - set_solver.
  - intros x Hx. apply B2 in Hx as [Hx|(s & Hs & ?)]; [|right; eauto].
    apply A2 in Hx as [?|(s & Hs & ?)]; [by left|right; eauto].
  - intros s Hs Hk. apply H12 in Hs as [Hs|Hs]; [|by auto]. apply B1. auto.
  - intros x y Hx Hn He. destruct (decide (x ∈ R1)) as [Hx1|Hx1]; [|eauto]. apply B1. eauto.
  - exists (n1 ++ n2). split; [by rewrite app_assoc|]. rewrite app_nil, A5, B5. split.
    + intros [Ha Hb] x Hx Hn. destruct (decide (x ∈ R1)); auto.
    + intros H. split; intros x Hx Hn; [|by apply H; set_solver]. apply H; [by apply B1|done].
Qed.

Definition walk_step (fuel : nat) (st : gset string * list string) (ref : ModuleReference) :=
  if negb (known r (target_name ref)) then mret (st.1, st.2 ++ [missing_reference ref])
  else _collect_reachable r fuel (target_name ref) st.

(** Fuel for a walk: more than the known names not reached yet. *)
Definition walk_fuel (fuel : nat) (R : gset string) : Prop := (size (known_names ∖ R) < fuel)%nat.

Lemma walk_fuel_grow fuel R R' : R ⊆ R' -> walk_fuel fuel R -> walk_fuel fuel R'.
Proof.
  unfold walk_fuel. intros H Hf. eapply Nat.le_lt_trans; [|exact Hf]. apply subseteq_size. set_solver.
Qed.

Lemma walk_fuel_enter fuel n R :
  known r n = true -> n ∉ R -> walk_fuel (S fuel) R -> walk_fuel fuel ({[n]} ∪ R).
Proof.
  unfold walk_fuel. intros Hk Hn Hf. apply known_names_In in Hk.
  assert (H : (size (known_names ∖ ({[n]} ∪ R)) < size (known_names ∖ R))%nat); [|lia].
  apply subset_size. set_solver.
Qed.

(** The loop over the references of a module, given the walk for each target. *)
Lemma walk_refs_spec fuel refs R e :
  (forall n R e, walk_fuel fuel R -> exists R' e',
     _collect_reachable r fuel n (R, e) = Ok (R', e') /\ walked (eq n) R e R' e') ->
  walk_fuel fuel R ->
  exists R' e' new, foldM (walk_step fuel) (R, e) refs = Ok (R', e') /\
    walked (fun s => In s (map target_name refs)) R e R' (e ++ new) /\
    (exists miss, e' = e ++ miss /\
       (miss = [] <-> new = [] /\ forall ref, In ref refs -> known r (target_name ref) = true)).
Proof.
  intros IH. revert R e. induction refs as [|ref refs IHr]; intros R e Hf; cbn.
  - exists R, e, []. rewrite app_nil_r. split; [done|]. split; [by apply walked_id|].
    exists []. rewrite app_nil_r. naive_solver.
  - assert (Hs : walk_step fuel (R, e) ref =
      if negb (known r (target_name ref)) then Ok (R, e ++ [missing_reference ref])
      else _collect_reachable r fuel (target_name ref) (R, e)) by done.
    rewrite Hs. destruct (known r (target_name ref)) eqn:Ek; cbn [negb].
    + destruct (IH (target_name ref) R e Hf) as (R1 & e1 & -> & W1).
      destruct (wk_errors _ _ _ _ _ W1) as (n1 & -> & _). cbn [mbind result_bind].
      destruct (IHr R1 (e ++ n1)) as (R2 & e2 & n2 & -> & W2 & miss & -> & Hm).
      { eapply walk_fuel_grow; [apply (wk_grow _ _ _ _ _ W1)|done]. }
      exists R2, ((e ++ n1) ++ miss), (n1 ++ n2). split; [done|]. split.
      { rewrite app_assoc. eapply walked_trans; [exact W1|exact W2|..]; naive_solver. }
      exists (n1 ++ miss). rewrite app_assoc. split; [done|]. rewrite !app_nil, Hm. naive_solver.
    + cbn [mbind result_bind]. destruct (IHr R (e ++ [missing_reference ref])) as (R2 & e2 & n2 & -> & W2 & miss & -> & Hm).
      { done. }
      exists R2, ((e ++ [missing_reference ref]) ++ miss), n2. split; [done|]. split.
      { destruct W2 as [A1 A2 A3 A4 (n & Hn & A5)]. apply app_inv_head in Hn as <-.
        constructor; [done| | |done|eauto].
        - intros x Hx. apply A2 in Hx as [?|(s & ? & ?)]; [by left|right; eauto].
        - intros s [<-|Hs1] Hk; [congruence|auto]. }
      exists ([missing_reference ref] ++ miss). rewrite app_assoc. split; [done|].
      split; [done|]. intros [_ H]. rewrite (H ref) in Ek; [done|by left].
Qed.

Lemma edge_refs n m y :
  resolve r n None = Ok m ->
  edge n y <-> In y (map target_name (references m)) /\ known r y = true.
Proof.
  intros Hm. rewrite in_map_iff. split.
  - intros (m' & ref & Hm' & Hin & <- & Hk). rewrite Hm in Hm'. injection Hm' as <-. eauto.
  - intros ((ref & <- & Hin) & Hk). exists m, ref. done.
Qed.

(** With enough fuel the walk ends, adds exactly what its root reaches, leaves
    the added set closed, and reports an error exactly when an added module
    refers to an unknown one. *)
Lemma collect_spec fuel n R e :
  walk_fuel fuel R ->
  exists R' e', _collect_reachable r fuel n (R, e) = Ok (R', e') /\ walked (eq n) R e R' e'.
Proof.
  revert n R e. induction fuel as [|fuel IH]; intros n R e Hf; [by unfold walk_fuel in Hf; lia|].
  cbn [_collect_reachable]. destruct (bool_decide_reflect (n ∈ R)) as [Hn|Hn]; cbn [orb].
  { exists R, e. split; [done|]. apply walked_id. by intros s <-. }
  destruct (known r n) eqn:Ek; cbn [negb].
  2:{ exists R, e. split; [done|]. apply walked_id. intros s <-. congruence. }
  destruct (Hwf n Ek) as [m Hm]. rewrite Hm. cbn [raising mbind result_bind].
  destruct (walk_refs_spec fuel (references m) ({[n]} ∪ R) e (fun n R e => IH n R e))
    as (R' & e' & new & Hrun & [A1 A2 A3 A4 (new' & Hnew & A5)] & miss & -> & Hmiss).
  { by apply walk_fuel_enter. }
  apply app_inv_head in Hnew as <-. unfold walk_step in Hrun.
  exists R', (e ++ miss). split; [exact Hrun|]. constructor.
  - set_solver.
  - intros x Hx. apply A2 in Hx as [Hx|(s & Hs & Hks & Hsx)].
    + apply elem_of_union in Hx as [->%elem_of_singleton|?]; [|by left].
      right. exists n. split_and!; [done..|apply rtc_refl].
    + right. exists n. split_and!; [done..|]. eapply rtc_l; [|exact Hsx]. by apply (edge_refs n m).
  - intros s <- _. set_solver.
  - intros x y Hx HxR He. destruct (decide (x = n)) as [->|Hne].
    + apply (edge_refs n m) in He as [Hin Hk]; [|done]. by apply A3.
    + apply (A4 x y); [done|set_solver|done].
  - exists miss. split; [done|]. rewrite Hmiss, A5. split.
    + intros [H1 H2] x Hx HxR. destruct (decide (x = n)) as [->|Hne].
      * intros m' ref Hm' Hin. rewrite Hm in Hm'. injection Hm' as <-. auto.
      * apply H1; [done|set_solver].
    + intros H. split.
      * intros x Hx Hnx. apply H; [done|set_solver].
      * intros ref Hin. apply (H n) with m; [set_solver|done|done|done].
Qed.

(** The walks from every selected name. *)
Lemma collect_all_spec fuel sel R e :
  walk_fuel fuel R ->
  exists R' e', foldM (fun st n => _collect_reachable r fuel n st) (R, e) sel = Ok (R', e') /\
    walked (fun s => In s sel) R e R' e'.
Proof.
  revert R e. induction sel as [|n sel IH]; intros R e Hf; cbn.
  { exists R, e. split; [done|]. by apply walked_id. }
  destruct (collect_spec fuel n R e Hf) as (R1 & e1 & -> & W1). cbn [mbind result_bind].
  destruct (IH R1 e1) as (R2 & e2 & -> & W2).
  { eapply walk_fuel_grow; [apply (wk_grow _ _ _ _ _ W1)|done]. }
  exists R2, e2. split; [done|]. eapply walked_trans; [exact W1|exact W2|..]; naive_solver.
Qed.
End graph_lemmas.

(** ** Cycles *)

Section cycle_lemmas.
Context (graph : odict (list string)).

Definition gedge (a b : string) : Prop := In b (targets graph a) /\ od_mem b graph = true.
Definition has_cycle : Prop := exists x, od_mem x graph = true /\ tc gedge x x.
Definition nodes : gset string := list_to_set (od_keys graph).

Lemma nodes_In n : n ∈ nodes <-> od_mem n graph = true.
Proof. unfold nodes. by rewrite elem_of_list_to_set, list_elem_of_In, od_mem_In. Qed.

Lemma tc_first x z : tc gedge x z -> exists y, gedge x y /\ rtc gedge y z.
Proof.
  intros H. destruct H as [x z Hxz|x y z Hxy Hyz].
  - exists z. split; [done|apply rtc_refl].
  - exists y. split; [done|by apply tc_rtc].
Qed.

(** The invariant of the search: the stack is what is being visited, finished
    names are off it, and without an error so far the finished names are
    closed under edges and on no cycle. *)
Record vinv (st : visit_state) : Prop := {
  vi_path : visiting st = list_to_set (path st);
  vi_disjoint : visited st ## visiting st;
  vi_done : cycle_errors st = [] -> forall x, x ∈ visited st ->
    ~ tc gedge x x /\ forall y, gedge x y -> y ∈ visited st;
}.

Record vpost (roots : string -> Prop) (st st' : visit_state) : Prop := {
  vp_inv : vinv st';
  vp_visiting : visiting st' = visiting st;
  vp_path : path st' = path st;
  vp_visited : visited st ⊆ visited st';
  vp_errors : exists new, cycle_errors st' = cycle_errors st ++ new /\ (new <> [] -> has_cycle);
  vp_roots : cycle_errors st' = [] -> forall s, roots s -> od_mem s graph = true -> s ∈ visited st';
}.

Lemma vpost_id (roots : string -> Prop) st :
  vinv st -> (cycle_errors st = [] -> forall s, roots s -> od_mem s graph = true -> s ∈ visited st) ->
  vpost roots st st.
Proof.
  intros Hi Hr. constructor; try done. exists []. by rewrite app_nil_r.
Qed.

Lemma vpost_trans (roots1 roots2 roots : string -> Prop) st st1 st2 :
  vpost roots1 st st1 -> vpost roots2 st1 st2 ->
  (forall s, roots s -> roots1 s \/ roots2 s) -> vpost roots st st2.
Proof.
  intros [A1 A2 A3 A4 (n1 & E1 & A5) A6] [B1 B2 B3 B4 (n2 & E2 & B5) B6] H12.
  constructor; [done|congruence|congruence|set_solver| |].
  - exists (n1 ++ n2). split; [by rewrite E2, E1, app_assoc|].
    destruct n1; cbn; [exact B5|]. intros _. by apply A5.
  - intros He s Hs Hk. rewrite E2 in He. apply app_nil in He as [He ->].
    apply H12 in Hs as [Hs|Hs]; [apply B4; auto|]. apply B6; [|done..]. by rewrite E2, He.
Qed.

Lemma from_index_In x l : In x l -> exists c, from_index x l = Some c.
Proof.
  induction l as [|y l IH]; cbn; [done|].
  destruct (String.eqb_spec x y) as [->|Hne]; [eauto|]. intros [->|H]; [done|auto].
Qed.

Definition visit_fuel (fuel : nat) (st : visit_state) : Prop :=
  (size (nodes ∖ visiting st) < fuel)%nat.

Lemma visit_fuel_enter fuel n st :
  od_mem n graph = true -> n ∉ visiting st -> visit_fuel (S fuel) st -> visit_fuel fuel (enter n st).
Proof.
  unfold visit_fuel. cbn. intros Hk Hn Hf. apply nodes_In in Hk.
  assert (H : (size (nodes ∖ ({[n]} ∪ visiting st)) < size (nodes ∖ visiting st))%nat); [|lia].
  apply subset_size. set_solver.
Qed.

Lemma vinv_enter n st : vinv st -> n ∉ visited st -> vinv (enter n st).
Proof.
  intros [H1 H2 H3] Hn. constructor; cbn; [|set_solver|done].
  rewrite H1, list_to_set_app_L. cbn. set_solver.
Qed.

(** Finishing a name whose targets are all finished. *)
Lemma leave_post n st st' :
  vinv st -> od_mem n graph = true -> n ∉ visiting st -> n ∉ visited st ->
  vpost (fun s => In s (targets graph n)) (enter n st) st' ->
  vpost (eq n) st (leave n st').
Proof.
  intros Hinv Hk Hn Hn' [[B1 B2 B3] Hvis Hpath Hgrow (new & E & Hnew) Hroots]. cbn in *.
  assert (HV : (visiting st' ∖ {[n]} : gset string) = visiting st).
  { rewrite Hvis. set_solver. }
  constructor; cbn; [|done| |set_solver|eauto|set_solver].
  - constructor; cbn.
    + rewrite HV, Hpath, removelast_last. apply Hinv.
    + rewrite HV. rewrite Hvis in B2. set_solver.
    + intros He x Hx. specialize (B3 He). specialize (Hroots He).
      assert (Hclosed : forall y, gedge n y -> y ∈ visited st') by (intros y [Hy Hm]; auto).
      assert (Hrtc : forall y z, rtc gedge y z -> y ∈ visited st' -> z ∈ visited st').
      { intros y z. induction 1 as [|y w z Hyw _ IH]; [done|]. intros Hy. apply IH. by apply (B3 y). }
      apply elem_of_union in Hx as [->%elem_of_singleton|Hx].
      * split; [|set_solver]. intros Hc. apply tc_first in Hc as (y & Hy & Hyn).
        apply Hclosed in Hy. apply (Hrtc _ _ Hyn) in Hy. rewrite Hvis in B2. set_solver.
      * destruct (B3 x Hx) as [Hc Hcl]. split; [done|]. set_solver.
  - by rewrite Hpath, removelast_last.
Qed.

Definition visit_step (fuel : nat) (st : visit_state) (t : string) : result stop visit_state :=
  if od_mem t graph then visit graph fuel t st else mret st.

Definition on_stack_reaches (st : visit_state) (n : string) : Prop :=
  forall x, x ∈ visiting st -> tc gedge x n.

Lemma visit_targets_spec fuel ts st :
  (forall n st, visit_fuel fuel st -> od_mem n graph = true -> vinv st -> on_stack_reaches st n ->
     exists st', visit graph fuel n st = Ok st' /\ vpost (eq n) st st') ->
  visit_fuel fuel st -> vinv st ->
  (forall t, In t ts -> od_mem t graph = true -> on_stack_reaches st t) ->
  exists st', foldM (visit_step fuel) st ts = Ok st' /\ vpost (fun s => In s ts) st st'.
Proof.
  intros IH. revert st. induction ts as [|t ts IHt]; intros st Hf Hi Hr; cbn.
  { exists st. split; [done|]. by apply vpost_id. }
  assert (Hs : visit_step fuel st t = if od_mem t graph then visit graph fuel t st else mret st) by done.
  rewrite Hs. destruct (od_mem t graph) eqn:Ek.
  - destruct (IH t st Hf Ek Hi) as (st1 & -> & P1); [by apply Hr; [left|]|].
    cbn [mbind result_bind]. pose proof (vp_visiting _ _ _ P1) as Hv.
    destruct (IHt st1) as (st2 & -> & P2).
    + unfold visit_fuel. by rewrite Hv.
    + apply P1.
    + intros t' Ht' Hk x. rewrite Hv. apply Hr; [by right|done].
    + exists st2. split; [done|]. eapply vpost_trans; [exact P1|exact P2|]. naive_solver.
  - cbn [mbind result_bind mret result_ret]. destruct (IHt st Hf Hi) as (st2 & -> & P2).
    { intros t' Ht'. apply Hr. by right. }
    exists st2. split; [done|]. destruct P2 as [A1 A2 A3 A4 A5 A6]. constructor; try done.
    intros He s' [<-|Hin] Hk; [congruence|auto].
Qed.

(** With enough fuel the search from a name ends; it reports an error only for
    a cycle, and without one the name and all it reaches are on no cycle. *)
Lemma visit_spec fuel n st :
  visit_fuel fuel st -> od_mem n graph = true -> vinv st -> on_stack_reaches st n ->
  exists st', visit graph fuel n st = Ok st' /\ vpost (eq n) st st'.
Proof.
  revert n st. induction fuel as [|fuel IH]; intros n st Hf Hk Hi Hr; [by unfold visit_fuel in Hf; lia|].
  cbn [visit]. destruct (bool_decide_reflect (n ∈ visiting st)) as [Hn|Hn].
  - destruct (from_index_In n (path st)) as (c & Hc).
    { rewrite (vi_path _ Hi), elem_of_list_to_set, list_elem_of_In in Hn. done. }
    rewrite Hc. eexists. split; [reflexivity|]. destruct Hi as [I1 I2 I3].
    constructor; cbn; try done.
    + constructor; cbn; [done..|]. intros He. by apply app_nil in He as [_ ?].
    + eexists. split; [reflexivity|]. intros _. exists n. split; [done|]. by apply Hr.
    + intros He. by apply app_nil in He as [_ ?].
  - destruct (bool_decide_reflect (n ∈ visited st)) as [Hd|Hd].
    { exists st. split; [done|]. apply vpost_id; [done|]. by intros _ s <-. }
    destruct (visit_targets_spec fuel (targets graph n) (enter n st) IH) as (st' & Hrun & P).
    + by apply visit_fuel_enter.
    + by apply vinv_enter.
    + intros t Ht Hkt x Hx. cbn in Hx. apply elem_of_union in Hx as [->%elem_of_singleton|Hx].
      * by apply tc_once.
      * eapply tc_r; [by apply Hr|done].
    + unfold visit_step in Hrun. rewrite Hrun. cbn [mbind result_bind].
      exists (leave n st'). split; [done|]. by apply leave_post.
Qed.

Definition initial : visit_state := mkVisitState ∅ ∅ [] [].

(** The whole search: it ends, and finds an error exactly when there is a cycle. *)
Lemma visit_all_spec fuel names :
  (forall n, od_mem n graph = true <-> In n names) -> (size nodes < fuel)%nat ->
  exists st, foldM (fun st n => visit graph fuel n st) initial names = Ok st /\
    (cycle_errors st = [] <-> ~ has_cycle).
Proof.
  intros Hnames Hfuel.
  assert (H : exists st, foldM (visit_step fuel) initial names = Ok st /\
                vpost (fun s => In s names) initial st).
  { apply visit_targets_spec.
    - intros n st Hf Hk Hi Hr. by apply visit_spec.
    - unfold visit_fuel. cbn. by rewrite difference_empty_L.
    - constructor; cbn; [done|set_solver|set_solver].
    - intros t _ _ x. cbn. set_solver. }
  destruct H as (st & Hrun & [[_ _ Hdone] _ _ _ (new & E & Hnew) Hroots]).
  exists st. split.
  - rewrite <- Hrun. assert (Hall : forall n, In n names -> od_mem n graph = true) by (intros; by apply Hnames).
    apply foldM_ext. intros n s Hn. unfold visit_step. by rewrite Hall.
  - split.
    + intros He (x & Hx & Hc). destruct (Hdone He x) as [Hno _]; [|done].
      apply Hroots; [done| |done]. by apply Hnames.
    + intros Hno. rewrite E. cbn. destruct new; [done|]. by destruct Hno; apply Hnew.
Qed.
End cycle_lemmas.

(** ** The validated graph *)

Lemma size_list_to_set_le (l : list string) : (size (list_to_set l : gset string) <= length l)%nat.
Proof.
  induction l as [|x l IH]; cbn; [by rewrite size_empty|].
  rewrite size_union_alt, size_singleton.
  assert (H : (size (list_to_set l ∖ {[x]} : gset string) <= size (list_to_set l : gset string))%nat)
    by (apply subseteq_size; set_solver). lia.
Qed.

Lemma new_registry_wf modules r n :
  new_registry modules = Ok r -> known r n = true -> exists m, resolve r n None = Ok m.
Proof.
  intros Hr Hn. apply (new_registry_names _ _ n) in Hr. unfold known, od_mem in Hn. unfold resolve.
  destruct (named n modules) as [|m0 l0]; [by rewrite Hr in Hn|].
  destruct Hr as (m & l' & -> & _). eauto.
Qed.

Definition reaches (r : registry) (selected : list string) (x : string) : Prop :=
  exists s, In s selected /\ known r s = true /\ rtc (edge r) s x.

Lemma reaches_known r sel x : reaches r sel x -> known r x = true.
Proof.
  intros (s & _ & Hs & Hx). induction Hx as [|s y z Hsy _ IH]; [done|].
  apply IH. by eapply known_edge_r.
Qed.

Lemma reaches_edge r sel x y : reaches r sel x -> edge r x y -> reaches r sel y.
Proof. intros (s & Hs & Hk & Hx) He. exists s. split_and!; [done..|]. by eapply rtc_r. Qed.

(** What the walk from the selected names computes. *)
Lemma walk_reaches r sel e :
  (forall n, known r n = true -> exists m, resolve r n None = Ok m) ->
  exists R e', foldM (fun st n => _collect_reachable r (S (length (by_name r))) n st)
                 (∅, e) (fromkeys sel) = Ok (R, e') /\
    (forall x, x ∈ R <-> reaches r sel x) /\
    exists new, e' = e ++ new /\ (new = [] <-> forall x, reaches r sel x -> refs_known r x).
Proof.
  intros Hwf.
  destruct (collect_all_spec r Hwf (S (length (by_name r))) (fromkeys sel) ∅ e)
    as (R & e' & Hrun & [A1 A2 A3 A4 (new & He & A5)]).
  { unfold walk_fuel, known_names. rewrite difference_empty_L.
    pose proof (size_list_to_set_le (od_keys (by_name r))) as H. unfold od_keys in *.
    rewrite length_map in H. lia. }
  assert (HR : forall x, x ∈ R <-> reaches r sel x).
  { intros x. split.
    - intros Hx. apply A2 in Hx as [Hx|(s & Hs & ? & ?)]; [set_solver|].
      exists s. by rewrite fromkeys_In in Hs.
    - intros (s & Hs & Hk & Hx). rewrite <- fromkeys_In in Hs. specialize (A3 s Hs Hk).
      clear Hs Hk. induction Hx as [|s y z Hsy _ IH]; [done|].
      apply IH. by apply (A4 s); [|set_solver|]. }
  exists R, e'. split; [done|]. split; [done|]. exists new. split; [done|]. rewrite A5.
  split; intros H x Hx; [apply H; [by apply HR|set_solver] | intros _; by apply H, HR].
Qed.

(** The graph the cycle search is given is the dependency graph of its names. *)
Lemma cycle_graph_spec r names :
  (forall n, In n names -> exists m, resolve r n None = Ok m) -> NoDup names ->
  exists g, cycle_graph r names = Ok g /\
    (forall n, od_mem n g = true <-> In n names) /\
    (forall a b, gedge g a b <-> In a names /\ In b names /\
       exists m, resolve r a None = Ok m /\ In b (map target_name (references m))).
Proof.
  intros Hres Hnd.
  assert (H : exists entries, mapM (graph_entry r) names = Ok entries /\
            Forall2 (fun n e => exists m, resolve r n None = Ok m /\
                       e = (n, map target_name (references m))) names entries).
  { clear Hnd. induction names as [|n names IH]; [by exists []|].
    destruct (Hres n) as [m Hm]; [by left|]. destruct IH as (es & Hes & HF); [intros; apply Hres; by right|].
    exists ((n, map target_name (references m)) :: es). split; [|constructor; eauto].
    assert (Hge : graph_entry r n = Ok (n, map target_name (references m)))
      by (unfold graph_entry; by rewrite Hm).
    cbn [mapM]. rewrite Hge. cbn [mbind result_bind]. by rewrite Hes. }
  destruct H as (entries & Hes & HF). exists (od_of_list entries). unfold cycle_graph. rewrite Hes.
  split; [done|].
  assert (Hfst : map fst entries = names).
  { clear -HF. induction HF as [|n e names es (m & _ & ->) _ IH]; cbn; congruence. }
  assert (Hget : forall n m, In n names -> resolve r n None = Ok m ->
            od_get n (od_of_list entries) = Some (map target_name (references m))).
  { intros n m Hn Hm. apply od_of_list_unique; [by rewrite Hfst|].
    destruct (Forall2_In_l _ _ _ _ HF Hn) as (e & He & m' & Hm' & ->). congruence. }
  assert (Hmem : forall n, od_mem n (od_of_list entries) = true <-> In n names).
  { intros n. split.
    - unfold od_mem. destruct (od_get n _) as [v|] eqn:E; [|done]. intros _.
      apply od_get_of_list_In in E. rewrite <- Hfst. by apply (in_map fst) in E.
    - intros Hn. destruct (Hres n Hn) as [m Hm]. unfold od_mem. by rewrite (Hget n m). }
  split; [done|]. intros a b. unfold gedge, targets. rewrite Hmem. split.
  - intros [Hb Hbn]. destruct (od_get a (od_of_list entries)) as [l|] eqn:E; [|done].
    assert (Ha : In a names) by (apply Hmem; unfold od_mem; by rewrite E).
    destruct (Hres a Ha) as [m Hm]. rewrite (Hget a m Ha Hm) in E. injection E as <-. eauto.
  - intros (Ha & Hb & m & Hm & Hin). by rewrite (Hget a m Ha Hm).
Qed.

Lemma tc_transfer {A} (R1 R2 : A -> A -> Prop) (P : A -> Prop) x y :
  (forall a b, P a -> R1 a b -> R2 a b /\ P b) -> P x -> tc R1 x y -> tc R2 x y.
Proof.
  intros H Hx Hxy. induction Hxy as [x y Hxy|x y z Hxy _ IH].
  - apply tc_once. by apply H.
  - apply H in Hxy as [? ?]; [|done]. eapply tc_l; eauto.
Qed.

(** The cycle search over a closed set of names. *)
Lemma cycle_errors_spec r names :
  (forall n, In n names -> exists m, resolve r n None = Ok m) -> NoDup names ->
  (forall a, In a names -> known r a = true) ->
  (forall a b, In a names -> edge r a b -> In b names) ->
  exists errs, _cycle_errors r names = Ok errs /\
    (errs = [] <-> forall x, In x names -> ~ tc (edge r) x x).
Proof.
  intros Hres Hnd Hkn Hcl. destruct (cycle_graph_spec r names Hres Hnd) as (g & Hg & Hmem & Hedge).
  destruct (visit_all_spec g (S (length names)) names Hmem) as (st & Hrun & Hst).
  { assert (Hsub : nodes g ⊆ list_to_set names).
    { intros n Hn%nodes_In. by apply elem_of_list_to_set, list_elem_of_In, Hmem. }
    apply subseteq_size in Hsub. pose proof (size_list_to_set_le names). lia. }
  exists (cycle_errors st). unfold _cycle_errors. rewrite Hg. cbn [raising mbind result_bind].
  unfold initial in Hrun. rewrite Hrun. split; [done|]. rewrite Hst. split.
  - intros Hno x Hx Hc. apply Hno. exists x. split; [by apply Hmem|].
    eapply (tc_transfer (edge r) (gedge g) (fun a => In a names)); [|exact Hx|exact Hc].
    intros a b Ha He. split; [|by eapply Hcl]. apply Hedge. split; [done|]. split; [by eapply Hcl|].
    destruct (Hres a Ha) as [m Hm]. exists m. split; [done|]. by apply (edge_refs r a m).
  - intros Hac (x & Hx%Hmem & Hc). apply (Hac x Hx).
    eapply (tc_transfer (gedge g) (edge r) (fun a => In a names)); [|exact Hx|exact Hc].
    intros a b Ha He. apply Hedge in He as (_ & Hb & m & Hm & Hin). split; [|done].
    apply (edge_refs r a m b Hm). split; [done|]. by apply Hkn.
Qed.

(** The errors of the reachable modules, one by one. *)
Definition reference_ok (r : registry) (ref : ModuleReference) : Prop :=
  exists t, resolve r (target_name ref) None = Ok t /\ known r (target_name ref) = true /\
            kind t = expected_kind ref.

Lemma reference_errors_spec r ref :
  (forall n, known r n = true -> exists m, resolve r n None = Ok m) ->
  exists e, reference_errors r ref = Ok e /\ (e = [] <-> reference_ok r ref).
Proof.
  intros Hwf. unfold reference_errors, reference_ok. destruct (known r (target_name ref)) eqn:Ek; cbn [negb].
  - destruct (Hwf _ Ek) as [t Ht]. rewrite Ht. cbn [mbind result_bind]. eexists. split; [reflexivity|].
    destruct (String.eqb_spec (kind t) (expected_kind ref)) as [E|E]; cbn [negb].
    + split; [eauto|done].
    + split; [done|]. intros (t' & [= <-] & _ & ?). done.
  - eexists. split; [reflexivity|]. split; [done|]. by intros (? & _ & ? & _).
Qed.

Lemma mapM_total {A B} (f : A -> res (list B)) (Q : A -> Prop) l :
  (forall x, In x l -> exists e, f x = Ok e /\ (e = [] <-> Q x)) ->
  exists es, mapM f l = Ok es /\ (mjoin es = [] <-> forall x, In x l -> Q x).
Proof.
  induction l as [|x l IH]; intros H; [by exists []|].
  destruct (H x) as (e & He & Hq); [by left|]. destruct IH as (es & Hes & Hall); [intros; apply H; by right|].
  exists (e :: es). cbn [mapM]. rewrite He. cbn [mbind result_bind]. rewrite Hes. split; [done|].
  change (mjoin (e :: es)) with (e ++ mjoin es). rewrite app_nil, Hq, Hall. cbn. naive_solver.
Qed.

Definition capability_allowed (c : option PolicyContext) (m : ModuleMetadata) : Prop :=
  forall ctx, c = Some ctx -> capability_class m ∉ denied_capability_classes ctx.

Lemma module_errors_spec r c n m :
  (forall n, known r n = true -> exists m, resolve r n None = Ok m) -> resolve r n None = Ok m ->
  exists errs, module_errors r c n = Ok errs /\
    (errs = [] <->
     (forall ref, In ref (references m) -> reference_ok r ref) /\ capability_allowed c m).
Proof.
  intros Hwf Hm. unfold module_errors. rewrite Hm. cbn [mbind result_bind].
  destruct (mapM_total (reference_errors r) (reference_ok r) (references m)) as (es & -> & Hes).
  { intros. by apply reference_errors_spec. }
  cbn [mbind result_bind]. eexists. split; [reflexivity|]. rewrite app_nil, Hes.
  apply and_iff_compat_l. unfold capability_allowed. destruct c as [ctx|]; [|naive_solver].
  destruct (bool_decide_reflect (capability_class m ∈ denied_capability_classes ctx)); naive_solver.
Qed.

(** What a valid selection is. *)
Record graph_valid (r : registry) (sel : list string) (c : option PolicyContext) : Prop := {
  gv_selected : forall s, In s sel -> known r s = true;
  gv_references : forall x m ref, reaches r sel x -> resolve r x None = Ok m ->
    In ref (references m) -> reference_ok r ref;
  gv_capabilities : forall x m, reaches r sel x -> resolve r x None = Ok m -> capability_allowed c m;
  gv_acyclic : forall x, reaches r sel x -> ~ tc (edge r) x x;
}.

Lemma fromkeys_nil l : fromkeys l = [] <-> l = [].
Proof.
  split; [|by intros ->]. intros H. destruct l as [|x l]; [done|].
  assert (Hin : In x (fromkeys (x :: l))) by (apply fromkeys_In; by left). by rewrite H in Hin.
Qed.

Lemma missing_selected_nil r sel :
  map (fun n => "missing selected module: " +:+ n)
    (List.filter (fun n => negb (known r n)) (fromkeys sel)) = []
  <-> forall s, In s sel -> known r s = true.
Proof.
  split.
  - intros H%map_eq_nil s Hs. destruct (known r s) eqn:E; [done|].
    assert (Hin : In s (List.filter (fun n => negb (known r n)) (fromkeys sel))).
    { apply filter_In. rewrite fromkeys_In, E. done. }
    by rewrite H in Hin.
  - intros H. destruct (List.filter _ _) as [|s l] eqn:E; [done|].
    assert (Hin : In s (List.filter (fun n => negb (known r n)) (fromkeys sel))) by (rewrite E; by left).
    apply filter_In in Hin as [Hs Hk]. rewrite fromkeys_In in Hs. by rewrite (H s Hs) in Hk.
Qed.

(** [validate_graph] on a well-formed registry. *)
Lemma validate_graph_spec r sel c :
  (forall n, known r n = true -> exists m, resolve r n None = Ok m) ->
  exists result, validate_graph r sel c = Ok result /\
    (forall x, In x (reachable_modules result) <-> reaches r sel x) /\
    (is_valid result = true <-> errors result = []) /\
    (errors result = [] <-> graph_valid r sel c).
Proof.
  intros Hwf. unfold validate_graph.
  set (missing := map _ _). pose proof (missing_selected_nil r sel : missing = [] <-> _) as Hmissing.
  clearbody missing. destruct (walk_reaches r sel missing Hwf) as (R & e & Hrun & HR & new & -> & Hnew).
  rewrite Hrun. cbn [mbind result_bind].
  assert (Hin : forall x, In x (sorted_set R) <-> reaches r sel x) by (intros; by rewrite sorted_set_In).
  assert (Hres : forall x, In x (sorted_set R) -> exists m, resolve r x None = Ok m).
  { intros x Hx%Hin. by eapply Hwf, reaches_known. }
  destruct (mapM_total (module_errors r c) (fun x => forall m, resolve r x None = Ok m ->
    (forall ref, In ref (references m) -> reference_ok r ref) /\ capability_allowed c m) (sorted_set R))
    as (checked & Hchecked & Hc).
  { intros x Hx. destruct (Hres x Hx) as [m Hm].
    destruct (module_errors_spec r c x m Hwf Hm) as (es & Hes & He). exists es. split; [done|].
    rewrite He, Hm. naive_solver. }
  rewrite Hchecked. cbn [raising mbind result_bind].
  destruct (cycle_errors_spec r (sorted_set R)) as (cycles & Hcycles & Hcyc); [done|apply sorted_set_NoDup| | |].
  { intros a Ha%Hin. by eapply reaches_known. }
  { intros a b Ha%Hin He. apply Hin. by eapply reaches_edge. }
  rewrite Hcycles. cbn [mbind result_bind]. eexists. split; [reflexivity|]. cbn [reachable_modules is_valid errors].
  split; [done|]. split; [by rewrite negb_true_iff, nonempty_false, fromkeys_nil|].
  rewrite fromkeys_nil, !app_nil, Hmissing, Hnew, Hc, Hcyc. split.
  - intros ((Hs & Hrefs) & Hmods & Hac). constructor; [done| | |].
    + intros x m ref Hx Hm. by apply (Hmods x); [by apply Hin|].
    + intros x m Hx Hm. by apply (Hmods x); [by apply Hin|].
    + intros x Hx. by apply Hac, Hin.
  - intros [Hs Hrefs Hcap Hac]. split_and!; [done| | |].
    + intros x Hx m ref Hm Href. by destruct (Hrefs x m ref Hx Hm Href) as (t & _ & Hk & _).
    + intros x Hx%Hin m Hm. split; eauto.
    + intros x Hx%Hin. by apply Hac.
Qed.

(** ** Scores *)

Lemma modifiers_float m t mods s :
  Forall (fun md => is_float (weight md)) mods -> is_float (acc_score s) ->
  is_float (acc_score (foldl (modifier_step m t) s mods)).
Proof.
  intros H. revert s. induction H as [|md mods Hm _ IH]; intros s Hs; cbn; [done|].
  apply IH. unfold modifier_step. destruct (_signal_matches _ _ _); cbn; [by apply fadd_float|done].
Qed.

(** The penalties in the table, and zero. *)
Definition PENALTIES : list float :=
  [fzero; ratio 12 100; ratio 6 100; ratio 16 100; ratio 1 10; ratio 2 10].

Lemma penalty_for_cases cap fb :
  In (penalty_for cap fb) PENALTIES /\
  (penalty_for cap fb <> fzero -> In fb (od_keys FEEDBACK_PENALTIES)).
Proof.
  unfold penalty_for, FEEDBACK_PENALTIES. cbn [od_get].
  repeat match goal with |- context [String.eqb fb ?s] => destruct (String.eqb_spec fb s) as [->|?] end;
    cbn [od_get];
    repeat match goal with |- context [String.eqb cap ?s] => destruct (String.eqb cap s) end;
    (split; [unfold PENALTIES; cbn [In]; tauto | cbn; tauto]).
Qed.

(** Two feedback codes with the same penalty for a capability are the same code. *)
Lemma penalty_for_inj cap a b :
  penalty_for cap a = penalty_for cap b -> a = b \/ penalty_for cap a = fzero.
Proof.
  intros E. destruct (decide (penalty_for cap a = fzero)) as [|Ha]; [by right|left].
  assert (Hb : penalty_for cap b <> fzero) by congruence.
  apply penalty_for_cases in Ha as Ia. apply penalty_for_cases in Hb as Ib.
  revert E Ha. cbn in Ia, Ib. unfold penalty_for, FEEDBACK_PENALTIES.
  destruct Ia as [<-|[<-|[<-|[]]]], Ib as [<-|[<-|[<-|[]]]]; try done; cbn [od_get String.eqb];
    cbn; repeat match goal with |- context [String.eqb cap ?s] => destruct (String.eqb_spec cap s) as [->|?] end;
    vm_compute; done.
Qed.

(** On these values [<] is a strict total order with least element zero. *)
Definition penalty_order_ok : bool :=
  forallb (fun x => negb (SFltb x fzero) && negb (SFltb x x) &&
    forallb (fun y => (SFltb x y || SFltb y x || bool_decide (x = y)) &&
      forallb (fun z => negb (SFltb x y && negb (SFltb x z) && SFltb y z)) PENALTIES)
      PENALTIES) PENALTIES.

Lemma penalty_order x y z :
  In x PENALTIES -> In y PENALTIES -> In z PENALTIES ->
  SFltb x fzero = false /\ SFltb x x = false /\ (SFltb x y = false -> SFltb y x = false -> x = y) /\
  (SFltb x y = true -> SFltb x z = false -> SFltb y z = false).
Proof.
  intros Hx Hy Hz. assert (H : penalty_order_ok = true) by (vm_compute; reflexivity).
  unfold penalty_order_ok in H. rewrite forallb_forall in H. apply H in Hx as H1.
  apply andb_true_iff in H1 as [[H0 Hi]%andb_true_iff H1]. rewrite forallb_forall in H1. apply H1 in Hy as H2.
  apply andb_true_iff in H2 as [Ht H2]. rewrite forallb_forall in H2. specialize (H2 z Hz).
  split_and!; [by apply negb_true_iff..| |].
  - intros E1 E2. rewrite E1, E2 in Ht. by apply bool_decide_eq_true in Ht.
  - intros E1 E2. rewrite E1, E2 in H2. by destruct (SFltb y z).
Qed.

(** What the penalty loop has found after the codes [l]. *)
Definition best_penalty (cap : string) (acc : float * string) (l : list string) : Prop :=
  (acc = (fzero, "") /\ forall fb, In fb l -> penalty_for cap fb = fzero) \/
  exists fb, In fb l /\ penalty_for cap fb <> fzero /\
    acc = (penalty_for cap fb, "error_feedback:" +:+ fb +:+ ":" +:+ cap) /\
    forall fb', In fb' l -> SFltb (penalty_for cap fb) (penalty_for cap fb') = false.

Lemma best_penalty_step cap acc l fb :
  best_penalty cap acc l -> best_penalty cap (penalty_step cap acc fb) (l ++ [fb]).
Proof.
  assert (Hin : forall f, In (penalty_for cap f) PENALTIES) by (intros; by apply penalty_for_cases).
  assert (Hz : In fzero PENALTIES) by by left.
  intros [[-> H]|(g & Hg & Hne & -> & H)]; unfold penalty_step; cbn [fst].
  - destruct (SFltb fzero (penalty_for cap fb)) eqn:E.
    + right. exists fb. split_and!; [by apply in_or_app; right; left| |done|].
      * intros E'. by rewrite E' in E.
      * intros f' [Hf'|[<-|[]]]%in_app_or.
        -- rewrite (H f' Hf'). by apply (penalty_order _ fzero fzero).
        -- by apply (penalty_order _ fzero fzero).
    + left. split; [done|]. intros f' [Hf'|[<-|[]]]%in_app_or; [auto|].
      symmetry. apply (penalty_order fzero _ fzero); [done..|]. by apply (penalty_order _ fzero fzero).
  - right. destruct (SFltb (penalty_for cap g) (penalty_for cap fb)) eqn:E.
    + exists fb. split_and!; [by apply in_or_app; right; left| |done|].
      * intros E'. rewrite E' in E. by destruct (penalty_order (penalty_for cap g) fzero fzero) as (E0 & _); [..|congruence].
      * assert (Hgg : forall f', SFltb (penalty_for cap g) (penalty_for cap f') = false ->
                  SFltb (penalty_for cap fb) (penalty_for cap f') = false).
        { intros f' Hf'. by apply (penalty_order (penalty_for cap g) _ _). }
        intros f' [Hf'|[<-|[]]]%in_app_or; [by apply Hgg, H|].
        by apply (penalty_order _ fzero fzero).
    + exists g. split_and!; [by apply in_or_app; left|done|done|].
      intros f' [Hf'|[<-|[]]]%in_app_or; auto.
Qed.

Lemma best_penalty_foldl cap l : best_penalty cap (foldl (penalty_step cap) (fzero, "") l) l.
Proof.
  assert (H : forall done_ acc, best_penalty cap acc done_ ->
            best_penalty cap (foldl (penalty_step cap) acc l) (done_ ++ l)).
  { induction l as [|fb l IH]; intros done_ acc Ha; cbn; [by rewrite app_nil_r|].
    replace (done_ ++ fb :: l) with ((done_ ++ [fb]) ++ l) by (by rewrite <- app_assoc).
    by apply IH, best_penalty_step. }
  apply (H []). left. split; [done|]. by intros fb [].
Qed.

Lemma best_penalty_unique cap acc acc' l l' :
  (forall x, In x l <-> In x l') -> best_penalty cap acc l -> best_penalty cap acc' l' -> acc = acc'.
Proof.
  intros Hl [[-> H]|(g & Hg & Hne & -> & H)] [[-> H']|(g' & Hg' & Hne' & -> & H')].
  - done.
  - destruct Hne'. by apply H, Hl.
  - destruct Hne. by apply H', Hl.
  - assert (E : penalty_for cap g = penalty_for cap g').
    { apply (penalty_order _ _ (penalty_for cap g)); try by apply penalty_for_cases.
      - by apply H, Hl.
      - by apply H', Hl. }
    destruct (penalty_for_inj cap g g' E) as [->|?]; done.
Qed.

(** ** Properties *)

(** C11. Graph validation is sound and complete, and it always ends: it returns
    the modules the selection transitively reaches, and the verdict "valid"
    exactly when every selected module is registered, every reference of a
    reachable module is to a registered module of the expected kind, no
    reachable module has a denied capability, and no reachable module depends
    on itself through any chain of references. *)
Theorem validate_graph_correct modules r sel c :
  new_registry modules = Ok r ->
  exists result, validate_graph r sel c = Ok result /\
    (forall x, In x (reachable_modules result) <-> reaches r sel x) /\
    (is_valid result = true <-> graph_valid r sel c) /\
    (errors result = [] <-> is_valid result = true).
Proof.
  intros Hr. destruct (validate_graph_spec r sel c) as (result & Hrun & H1 & H2 & H3).
  { intros n. by eapply new_registry_wf. }
  exists result. split_and!; [done..|by rewrite H2|by rewrite H2].
Qed.

Definition cyclic_modules : list ModuleMetadata :=
  [plain_module "a" "0.2.0" "validator" ["b"]; plain_module "b" "1.0.0" "validator" ["a"]].

Lemma validate_graph_correct_witness :
  new_registry cyclic_modules = Ok (mkRegistry
    (map (fun m => (module_key m, m)) cyclic_modules) (map (fun m => (name m, [m])) cyclic_modules)) /\
  exists result, validate_graph (mkRegistry (map (fun m => (module_key m, m)) cyclic_modules)
      (map (fun m => (name m, [m])) cyclic_modules)) ["a"] None = Ok result /\
    (forall x, In x (reachable_modules result) <-> reaches (mkRegistry
        (map (fun m => (module_key m, m)) cyclic_modules)
        (map (fun m => (name m, [m])) cyclic_modules)) ["a"] x) /\
    (is_valid result = true <-> graph_valid (mkRegistry
        (map (fun m => (module_key m, m)) cyclic_modules)
        (map (fun m => (name m, [m])) cyclic_modules)) ["a"] None) /\
    (errors result = [] <-> is_valid result = true).
Proof.
  assert (H : new_registry cyclic_modules = Ok (mkRegistry
    (map (fun m => (module_key m, m)) cyclic_modules) (map (fun m => (name m, [m])) cyclic_modules)))
    by (vm_compute; reflexivity).
  split; [exact H|]. apply (validate_graph_correct cyclic_modules _ ["a"] None H).
Defined.

(** Resolution: without a version a name resolves to a registered module of
    that name whose semantic version no other module of the name exceeds, and
    to an error exactly when no module has the name; with a version it
    resolves to the one module of that name and version. *)
Theorem resolve_spec modules r n :
  new_registry modules = Ok r ->
  (forall m, resolve r n None = Ok m -> In m modules /\ name m = n /\
     forall m', In m' modules -> name m' = n -> exists k k',
       _semver_key (version m) = Ok k /\ _semver_key (version m') = Ok k' /\ semver_leb k' k = true) /\
  (resolve r n None = Raise (UnknownModuleError ("Unknown module: " +:+ n)) <->
     forall m, In m modules -> name m <> n) /\
  (forall v m, resolve r n (Some v) = Ok m <-> In m modules /\ name m = n /\ version m = v).
Proof.
  intros Hr. pose proof (new_registry_names _ _ n Hr) as Hn.
  apply new_registry_versions in Hr as [Hnd Hv]. unfold resolve. split_and!.
  - intros m Hm. destruct (named n modules) as [|m0 l0] eqn:E; [by rewrite Hn in Hm|].
    destruct Hn as (m1 & l' & Hget & Hp & Hmax). rewrite Hget in Hm. injection Hm as <-.
    rewrite <- E in *. assert (Hin : In m1 (named n modules)).
    { apply list_elem_of_In. rewrite <- Hp. by left. }
    apply named_In in Hin as [? ?]. split_and!; [done..|]. intros m' Hm' Hn'. apply Hmax.
    by apply named_In.
  - rewrite <- named_nil. destruct (named n modules) as [|m0 l0]; [by rewrite Hn|].
    by destruct Hn as (m1 & l' & -> & _).
  - intros v m. rewrite Hv, find_version_map. split.
    + destruct (List.find _ modules) as [m'|] eqn:E; [|done]. intros [= <-].
      apply find_some in E as [Hin E%bool_decide_eq_true]. unfold module_key in E.
      by injection E as <- <-.
    + intros (Hin & <- & <-). destruct (List.find _ modules) as [m'|] eqn:E.
      * apply find_some in E as [Hin' E%bool_decide_eq_true]. f_equal.
        by apply (NoDup_map_inj module_key modules).
      * apply (find_none _ _ E) in Hin. by rewrite bool_decide_eq_false in Hin.
Qed.

Lemma resolve_spec_witness :
  exists m, resolve demo_registry "a" None = Ok m /\
    forall m', In m' [plain_module "a" "0.2.0" "skill" ["b"]; plain_module "b" "1.0.0" "validator" ["c"];
                      plain_module "a" "0.10.0" "skill" ["b"]; plain_module "c" "0.1.0" "validator" []] ->
    name m' = "a" -> exists k k',
       _semver_key (version m) = Ok k /\ _semver_key (version m') = Ok k' /\ semver_leb k' k = true.
Proof.
  exists (plain_module "a" "0.10.0" "skill" ["b"]). split; [vm_compute; reflexivity|].
  refine (proj2 (proj2 (proj1 (resolve_spec
    [plain_module "a" "0.2.0" "skill" ["b"]; plain_module "b" "1.0.0" "validator" ["c"];
     plain_module "a" "0.10.0" "skill" ["b"]; plain_module "c" "0.1.0" "validator" []]
    demo_registry "a" _) (plain_module "a" "0.10.0" "skill" ["b"]) _))); vm_compute; reflexivity.
Defined.

(** Scores are bounded whatever the weights: every score is one of the
    10001 four-digit decimals between 0 and 1, so never negative, above one,
    infinite or not a number, even where the sum overflows or is NaN. *)
Theorem score_bounded m t :
  is_float (base_score m) -> Forall (fun md => is_float (weight md)) (score_modifiers m) ->
  (exists k, 0 <= k <= 10000 /\ sr_score (score m t) = ratio k 10000)%Z /\
  in_unit (sr_score (score m t)) = true.
Proof.
  intros Hb Hw.
  assert (H : (exists k, 0 <= k <= 10000 /\ sr_score (score m t) = ratio k 10000)%Z).
  { unfold score. destruct (String.eqb _ _); cbn [sr_score]; [by exists 0%Z|].
    set (s := foldl _ _ _).
    assert (Hs : is_float (acc_score s)) by (by apply modifiers_float).
    pose proof (best_penalty_foldl (capability_class m) (error_feedback t)) as Hp.
    unfold _error_feedback_penalty.
    destruct (foldl (penalty_step (capability_class m)) _ _) as [p reason]. cbn [sr_score].
    apply round4_clamp01. destruct (SFltb fzero p); [|done]. apply fsub_float; [done|].
    destruct Hp as [[[= -> _] _]|(g & _ & _ & [= -> _] & _)]; [done|].
    destruct (penalty_for_cases (capability_class m) g) as [Hin _].
    repeat destruct Hin as [<-|Hin]; done. }
  split; [exact H|]. destruct H as (k & Hk & ->). by apply ratio_unit.
Qed.

Definition huge : float := SFmax_float prec emax.
Definition overflowing : ModuleMetadata :=
  let m := plain_module "a" "0.2.0" "skill" [] in
  mkModuleMetadata (name m) (version m) (kind m) "" None (capability_class m) ∅ (task_types m) ∅ ∅ ∅ ∅ ∅ ∅
    ∅ ∅ [] [] [] [] [] [] "direct" huge [mkScoreModifier "task_type:code-review" huge "far too much"] false ∅.

Lemma score_bounded_witness :
  in_unit (sr_score (score overflowing (mkTaskSignals "code-review" "low" ∅ ∅ ∅ ∅ ∅ []))) = true.
Proof.
  refine (proj2 (score_bounded overflowing (mkTaskSignals "code-review" "low" ∅ ∅ ∅ ∅ ∅ []) _ _)).
  - vm_compute. reflexivity.
  - repeat constructor.
Defined.

(** Error feedback is a set: the penalty and the reason reported for it do
    not depend on the order in which the feedback codes are looked at, nor on
    repetitions, although the loop keeps the first best it meets. *)
Theorem feedback_order_irrelevant m t l :
  (forall code, In code l <-> In code (error_feedback t)) ->
  score m (mkTaskSignals (task_type t) (risk_level t) (domains t) (available_inputs t)
             (capability_hints t) (ts_phrases t) (constraints t) l) = score m t.
Proof.
  intros Hl. unfold score. destruct (String.eqb _ _); [done|].
  assert (E : _error_feedback_penalty m (mkTaskSignals (task_type t) (risk_level t) (domains t)
     (available_inputs t) (capability_hints t) (ts_phrases t) (constraints t) l)
     = _error_feedback_penalty m t).
  { eapply best_penalty_unique; [exact Hl|apply best_penalty_foldl|apply best_penalty_foldl]. }
  rewrite E. by destruct t.
Qed.

Lemma feedback_order_irrelevant_witness :
  score (plain_module "a" "0.2.0" "skill" []) (mkTaskSignals "research" "low" ∅ ∅ ∅ ∅ ∅
    ["F2_INTERFACE_CONTRACT_BREAKDOWN"; "F1_INEFFICIENCY_PATH"]) =
  score (plain_module "a" "0.2.0" "skill" []) (mkTaskSignals "research" "low" ∅ ∅ ∅ ∅ ∅
    ["F1_INEFFICIENCY_PATH"; "F2_INTERFACE_CONTRACT_BREAKDOWN"]).
Proof.
  apply (feedback_order_irrelevant (plain_module "a" "0.2.0" "skill" [])
    (mkTaskSignals "research" "low" ∅ ∅ ∅ ∅ ∅ ["F1_INEFFICIENCY_PATH"; "F2_INTERFACE_CONTRACT_BREAKDOWN"])
    ["F2_INTERFACE_CONTRACT_BREAKDOWN"; "F1_INEFFICIENCY_PATH"]).
  intros code. cbn. tauto.
Defined.

(** The policy filter: a candidate is allowed exactly when its id, kind and
    capability class are not denied and, if it requires all its policies, each
    is granted; a denied one is never reported as merely unclear. *)
Theorem filter_candidate_spec m c :
  let denied := name m ∈ denied_module_ids c \/ kind m ∈ denied_kinds c \/
                capability_class m ∈ denied_capability_classes c in
  let covered := requires_all_policies m = true -> forall p, In p (policies m) -> p ∈ allowed_policy_ids c in
  (effect (filter_candidate m c) = Deny <-> denied) /\
  (effect (filter_candidate m c) = Allow <-> ~ denied /\ covered) /\
  (effect (filter_candidate m c) = NeedsClarification <-> ~ denied /\ ~ covered).
Proof.
  intros denied covered. unfold filter_candidate.
  assert (Hcov : requires_all_policies m &&
            nonempty (sorted_set (list_to_set (policies m) ∖ allowed_policy_ids c)) = false <-> covered).
  { unfold covered. rewrite andb_false_iff, nonempty_false, sorted_set_subset_nil.
    destruct (requires_all_policies m); split; intros H.
    - destruct H as [|H]; [done|]. intros _ p Hp. apply H. by apply elem_of_list_to_set, list_elem_of_In.
    - right. intros p Hp%elem_of_list_to_set%list_elem_of_In. by apply H.
    - done.
    - by left. }
  subst denied. clearbody covered.
  destruct (bool_decide_reflect (name m ∈ denied_module_ids c)); cbn; [naive_solver|].
  destruct (bool_decide_reflect (kind m ∈ denied_kinds c)); cbn; [naive_solver|].
  destruct (bool_decide_reflect (capability_class m ∈ denied_capability_classes c)); cbn; [naive_solver|].
  destruct (requires_all_policies m && _); cbn; naive_solver.
Qed.
