(* ===== verification/RuntimeStore.v ===== *)
(** * The in-memory runtime store

    Models [runtime/storage_memory.py], the implementation of the [RuntimeStore]
    protocol of [runtime/storage_protocol.py]. A record is a dictionary of
    dynamic values, as in the source; a keyed table is an ordered dictionary
    of records and a log is a list of them. Every record is inserted under its
    ["id"], which all callers compute as a slug, so table keys are strings.
    The lock makes each method one atomic step: the state of a method is the
    store before and after it. *)

From S2P Require Import Prelude PyStr PyValue Models.
Open Scope string_scope.
Open Scope list_scope.

Abbreviation record := (odict value).
Abbreviation table := (odict record).

Record store := mkStore {
  runtime_runs : table;
  runtime_queue_items : table;
  runtime_run_attempts : table;
  runtime_run_claims : table;
  runtime_dead_letters : table;
  runtime_quota_reservations : table;
  runtime_steps : table;
  runtime_events : list record;
  runtime_checkpoints : list record;
  tool_invocations : list record;
  validation_results : list record;
  memory_candidates : list record;
  event_indices : odict Z;
  checkpoint_indices : odict Z;
}.

Definition empty_store : store := mkStore [] [] [] [] [] [] [] [] [] [] [] [] [] [].

Inductive table_name := Runs | QueueItems | Attempts | Claims | DeadLetters | Reservations | Steps.
Inductive log_name := Events | Checkpoints | ToolInvocations | ValidationResults | MemoryCandidates.
#[export] Instance table_name_eq_dec : EqDecision table_name.
Proof. solve_decision. Defined.
#[export] Instance log_name_eq_dec : EqDecision log_name.
Proof. solve_decision. Defined.

Definition get_table (t : table_name) (s : store) : table :=
  match t with
  | Runs => runtime_runs s | QueueItems => runtime_queue_items s
  | Attempts => runtime_run_attempts s | Claims => runtime_run_claims s
  | DeadLetters => runtime_dead_letters s | Reservations => runtime_quota_reservations s
  | Steps => runtime_steps s
  end.
Definition set_table (t : table_name) (v : table) (s : store) : store :=
  let '(mkStore a b c d e f g h i j k l m n) := s in
  match t with
  | Runs => mkStore v b c d e f g h i j k l m n
  | QueueItems => mkStore a v c d e f g h i j k l m n
  | Attempts => mkStore a b v d e f g h i j k l m n
  | Claims => mkStore a b c v e f g h i j k l m n
  | DeadLetters => mkStore a b c d v f g h i j k l m n
  | Reservations => mkStore a b c d e v g h i j k l m n
  | Steps => mkStore a b c d e f v h i j k l m n
  end.
Definition get_log (t : log_name) (s : store) : list record :=
  match t with
  | Events => runtime_events s | Checkpoints => runtime_checkpoints s
  | ToolInvocations => tool_invocations s | ValidationResults => validation_results s
  | MemoryCandidates => memory_candidates s
  end.
Definition set_log (t : log_name) (v : list record) (s : store) : store :=
  let '(mkStore a b c d e f g h i j k l m n) := s in
  match t with
  | Events => mkStore a b c d e f g v i j k l m n
  | Checkpoints => mkStore a b c d e f g h v j k l m n
  | ToolInvocations => mkStore a b c d e f g h i v k l m n
  | ValidationResults => mkStore a b c d e f g h i j v l m n
  | MemoryCandidates => mkStore a b c d e f g h i j k v m n
  end.
(** The counters of the two indexed logs. *)
Definition get_indices (t : log_name) (s : store) : odict Z :=
  match t with Events => event_indices s | Checkpoints => checkpoint_indices s | _ => [] end.
Definition set_indices (t : log_name) (v : odict Z) (s : store) : store :=
  let '(mkStore a b c d e f g h i j k l m n) := s in
  match t with
  | Events => mkStore a b c d e f g h i j k l v n
  | Checkpoints => mkStore a b c d e f g h i j k l m v
  | _ => s
  end.

Abbreviation st A := (eff store exn A).

(** ** Keyed tables *)

(** [stored["id"]] as a table key *)
Definition record_id (r : record) : res string :=
  v ← ditem "id" r;
  match v with
  | VStr k => Ok k
  | _ => Raise (TypeError "record id is not a string")
  end.

(** [stored = dict(record); self.table[stored["id"]] = stored; return stored] *)
Definition insert_record (t : table_name) (r : record) : st record :=
  k ← lift (record_id r);
  modify (fun s => set_table t (od_set k r (get_table t s)) s) ;;
  mret r.

(** [stored = self.table[k]; stored.update(fields); return stored] *)
Definition update_record (t : table_name) (k : string) (fields : record) : st record :=
  tbl ← gets (get_table t);
  stored ← lift (ditem k tbl);
  let stored := od_update stored fields in
  modify (fun s => set_table t (od_set k stored (get_table t s)) s) ;;
  mret stored.

Definition append_record (t : log_name) (r : record) : st record :=
  modify (fun s => set_log t (get_log t s ++ [r]) s) ;; mret r.

Definition insert_runtime_run_attempt : record -> st record := insert_record Attempts.
Definition update_runtime_run_attempt : string -> record -> st record := update_record Attempts.
Definition insert_runtime_run_claim : record -> st record := insert_record Claims.
Definition update_runtime_run_claim : string -> record -> st record := update_record Claims.
Definition insert_runtime_dead_letter : record -> st record := insert_record DeadLetters.
Definition insert_runtime_quota_reservation : record -> st record := insert_record Reservations.
Definition update_runtime_quota_reservation : string -> record -> st record :=
  update_record Reservations.
Definition insert_runtime_run : record -> st record := insert_record Runs.
Definition update_runtime_run : string -> record -> st record := update_record Runs.
Definition update_runtime_step : string -> record -> st record := update_record Steps.
Definition update_runtime_queue_item : string -> record -> st record := update_record QueueItems.
Definition insert_tool_invocation : record -> st record := append_record ToolInvocations.
Definition insert_validation_result : record -> st record := append_record ValidationResults.
Definition insert_memory_candidate : record -> st record := append_record MemoryCandidates.

Definition get_runtime_queue_item (queue_id : string) : st (option record) :=
  gets (fun s => od_get queue_id (runtime_queue_items s)).
Definition get_runtime_run (run_id : string) : st (option record) :=
  gets (fun s => od_get run_id (runtime_runs s)).

(** The first candidate with the id is updated in place. *)
Fixpoint update_first_candidate (id : string) (fields : record) (l : list record)
    : res (record * list record) :=
  match l with
  | [] => Raise (KeyError id)
  | c :: l' =>
      cid ← ditem "id" c;
      if py_eq cid (VStr id) then mret (od_update c fields, od_update c fields :: l')
      else r ← update_first_candidate id fields l'; mret (r.1, c :: r.2)
  end.

Definition update_memory_candidate (candidate_id : string) (fields : record) : st record :=
  candidates ← gets memory_candidates;
  r ← lift (update_first_candidate candidate_id fields candidates);
  modify (set_log MemoryCandidates r.2) ;; mret r.1.

(** ** Idempotent inserts and the two indexed logs *)

Definition insert_runtime_queue_item (r : record) : st record :=
  let idempotency_key := dget "idempotency_key" VNone r in
  items ← gets runtime_queue_items;
  match (if is_none idempotency_key then None
         else List.find (fun existing => py_eq (dget "idempotency_key" VNone existing) idempotency_key)
                (od_values items)) with
  | Some existing => mret existing
  | None => insert_record QueueItems r
  end.

Definition _find_by_run_idempotency (records : list record) (run_id idempotency_key : string)
    : res (option record) :=
  find_first (fun r => run ← ditem "run_id" r;
    mret (py_eq run (VStr run_id)
          && py_eq (dget "idempotency_key" VNone r) (VStr idempotency_key))) records.

Definition _find_by_run_index (records : list record) (run_id : string) (index : Z)
    (index_field : string) : res (option record) :=
  find_first (fun r => run ← ditem "run_id" r;
    if py_eq run (VStr run_id) then i ← ditem index_field r; mret (py_eq i (VInt index))
    else mret false) records.

Definition insert_runtime_step (r : record) : st record :=
  let idempotency_key := dget "idempotency_key" VNone r in
  existing ←
    (if is_none idempotency_key then mret None
     else
       steps ← gets runtime_steps;
       run ← lift (ditem "run_id" r);
       lift (_find_by_run_idempotency (od_values steps) (py_str run) (py_str idempotency_key)));
  match existing with
  | Some e => mret e
  | None => insert_record Steps r
  end.

Definition insert_runtime_event (r : record) : st record :=
  events ← gets runtime_events;
  run ← lift (ditem "run_id" r);
  key ← lift (ditem "idempotency_key" r);
  existing ← lift (_find_by_run_idempotency events (py_str run) (py_str key));
  match existing with
  | Some e => mret e
  | None => append_record Events r
  end.

Definition insert_runtime_checkpoint (r : record) : st record :=
  checkpoints ← gets runtime_checkpoints;
  run ← lift (ditem "run_id" r);
  index ← lift (v ← ditem "checkpoint_index" r; py_int v);
  existing ← lift (_find_by_run_index checkpoints (py_str run) index "checkpoint_index");
  match existing with
  | Some e => mret e
  | None => append_record Checkpoints r
  end.

(** [event["run_id"] == run_id] *)
Definition of_run (run_id : string) (r : record) : res bool :=
  run ← ditem "run_id" r; mret (py_eq run (VStr run_id)).

Definition records_of_run (t : log_name) (run_id : string) : st (list record) :=
  l ← gets (get_log t); lift (filterM (of_run run_id) l).
Definition events_for_run : string -> st (list record) := records_of_run Events.
Definition checkpoints_for_run : string -> st (list record) := records_of_run Checkpoints.

(** [max(l, default=d)] *)
Definition max_default (d : Z) (l : list Z) : Z :=
  match l with [] => d | x :: l' => foldl Z.max x l' end.

(** The next index of a run: the counter, or one past the stored indices. *)
Definition allocate_index (t : log_name) (index_field run_id : string) : st Z :=
  indices ← gets (get_indices t);
  next_index ←
    (match od_get run_id indices with
     | Some i => mret i
     | None =>
         l ← gets (get_log t);
         existing ← lift (filterM (of_run run_id) l);
         existing_indices ← lift (mapM (fun e => v ← ditem index_field e; py_int v) existing);
         mret (max_default (-1) existing_indices + 1)%Z
     end);
  modify (fun s => set_indices t (od_set run_id (next_index + 1)%Z (get_indices t s)) s) ;;
  mret next_index.

Definition allocate_runtime_event_index : string -> st Z := allocate_index Events "event_index".
Definition allocate_runtime_checkpoint_index : string -> st Z :=
  allocate_index Checkpoints "checkpoint_index".

(** ** Claims *)

Definition active_claim_of (queue_id : string) (claim : record) : bool :=
  py_eq (dget "queue_id" VNone claim) (VStr queue_id)
  && is_none (dget "released_at" VNone claim).

(** The key of the claim [_active_claim_for_queue] returns. *)
Definition _active_claim_for_queue (queue_id : string) (s : store) : option string :=
  option_map fst (List.find (fun kc => active_claim_of queue_id kc.2) (runtime_run_claims s)).

(** [claim = self._active_claim_for_queue(q); if claim is not None: claim.update(f(claim))] *)
Definition update_active_claim (queue_id : string) (f : record -> record) : st unit :=
  active ← gets (_active_claim_for_queue queue_id);
  match active with
  | None => mret tt
  | Some k =>
      claims ← gets runtime_run_claims;
      claim ← lift (ditem k claims);
      update_record Claims k (f claim) ;; mret tt
  end.

Definition heartbeat_runtime_queue_item (queue_id : string) (fields : record) : st record :=
  stored ← update_record QueueItems queue_id fields;
  update_active_claim queue_id (fun claim =>
    [("heartbeat_at", dget "heartbeat_at" (dget "heartbeat_at" VNone claim) fields);
     ("claimed_until", dget "claimed_until" (dget "claimed_until" VNone claim) fields)]) ;;
  mret stored.

Definition status_in (l : list string) (item : record) : res bool :=
  status ← ditem "status" item; in_frozenset status l.

Definition CLAIMABLE : list string := ["queued"; "retry_scheduled"].
Definition RUNNING : list string := ["claiming"; "running"].

(** [sum(1 for item in ... if ...)] *)
Definition count {A} (f : A -> res bool) (l : list A) : res Z :=
  r ← filterM f l; mret (Z.of_nat (length r)).

Definition tenant_running (tenant_id : string) (item : record) : res bool :=
  tenant ← ditem "tenant_id" item;
  if py_eq tenant (VStr tenant_id) then status_in RUNNING item else mret false.

Definition _tenant_running_count (tenant_id : string) (items : list record) : res Z :=
  count (tenant_running tenant_id) items.
Definition _global_running_count (items : list record) : res Z := count (status_in RUNNING) items.

(** The arguments of a claim. *)
Record claim_request := mkClaimRequest {
  worker_id : string;
  claimed_at : string;
  lease_expires_at : string;
  tenant_running_limits : odict Z;
  global_running_limit : option Z;
  allowed_tenant_ids : list string;
  disabled_tenant_ids : list string;
  environment : option string;
  queue_name : option string;
}.

(** [v in set(l)] for a set of strings, [True] for an empty allow-list *)
Definition tenant_allowed (q : claim_request) (tenant : value) : res bool :=
  allowed ← (if nonempty (allowed_tenant_ids q) then in_frozenset tenant (allowed_tenant_ids q)
             else mret true);
  if allowed : bool then
    disabled ← in_frozenset tenant (disabled_tenant_ids q); mret (negb disabled)
  else mret false.

Definition matches_opt (expected : option string) (v : value) : bool :=
  match expected with None => true | Some e => py_eq v (VStr e) end.

(** The conditions of the candidate generator, in order. *)
Definition claimable (q : claim_request) (item : record) : res bool :=
  open ← status_in CLAIMABLE item;
  if negb open then mret false else
  scheduled_at ← ditem "scheduled_at" item;
  if negb (str_leb (py_str scheduled_at) (claimed_at q)) then mret false else
  tenant ← ditem "tenant_id" item;
  ok ← tenant_allowed q tenant;
  mret (ok && matches_opt (environment q) (dget "environment" VNone item)
        && matches_opt (queue_name q) (dget "queue_name" VNone item)).

Definition claim_key : Type := Z * string * string * string.

Definition candidate_key (item : record) : res claim_key :=
  priority ← (v ← ditem "priority" item; py_int v);
  scheduled_at ← ditem "scheduled_at" item;
  created_at ← ditem "created_at" item;
  id ← ditem "id" item;
  mret (- priority, py_str scheduled_at, py_str created_at, py_str id)%Z.

Definition key_leb : claim_key -> claim_key -> bool :=
  lex_leb (lex_leb (lex_leb Z.leb str_leb) str_leb) str_leb.

(** What a claim writes for an item: ids, the item's new fields, the two new records. *)
Definition attempt_number (item : record) : res Z :=
  v ← ditem "attempts" item; n ← py_int v; mret (n + 1)%Z.

Definition claim_bundle : Type := record * record * record.

Definition claim_item (q : claim_request) (k : string) (item : record) : st claim_bundle :=
  tenant ← lift (ditem "tenant_id" item);
  let tenant_id := py_str tenant in
  attempts ← lift (attempt_number item);
  task ← lift (ditem "task_id" item);
  let run_id := slug_id (py_str task +:+ "-attempt-" +:+ zstr attempts) (Some "run") in
  id ← lift (ditem "id" item);
  let attempt_id := slug_id (py_str id +:+ "-attempt-" +:+ zstr attempts) (Some "attempt") in
  let claim_id := slug_id (py_str id +:+ "-" +:+ worker_id q +:+ "-" +:+ zstr attempts) (Some "claim") in
  let item' := od_update item
    [("status", VStr "claiming"); ("attempts", VInt attempts); ("claimed_by", VStr (worker_id q));
     ("claimed_at", VStr (claimed_at q)); ("lease_expires_at", VStr (lease_expires_at q));
     ("claimed_until", VStr (lease_expires_at q)); ("heartbeat_at", VStr (claimed_at q));
     ("attempt_id", VStr attempt_id); ("run_id", VStr run_id); ("updated_at", VStr (claimed_at q))] in
  let attempt :=
    [("id", VStr attempt_id); ("queue_id", VStr (py_str id)); ("run_id", VStr run_id);
     ("tenant_id", VStr tenant_id); ("attempt_number", VInt attempts); ("status", VStr "running");
     ("started_at", VStr (claimed_at q)); ("completed_at", VNone); ("stop_reason", VNone);
     ("profile_id", VNone); ("profile_sha256", VNone)] in
  let claim :=
    [("id", VStr claim_id); ("queue_id", VStr (py_str id)); ("worker_id", VStr (worker_id q));
     ("tenant_id", VStr tenant_id); ("claimed_at", VStr (claimed_at q));
     ("claimed_until", VStr (lease_expires_at q)); ("heartbeat_at", VStr (claimed_at q));
     ("released_at", VNone); ("release_reason", VNone)] in
  modify (fun s => set_table QueueItems (od_set k item' (runtime_queue_items s)) s) ;;
  modify (fun s => set_table Attempts (od_set attempt_id attempt (runtime_run_attempts s)) s) ;;
  modify (fun s => set_table Claims (od_set claim_id claim (runtime_run_claims s)) s) ;;
  mret (item', attempt, claim).

(** Whether the tenant of an item has room under its running limit. *)
Definition has_room (q : claim_request) (items : list record) (item : record) : res bool :=
  tenant ← ditem "tenant_id" item;
  match od_get (py_str tenant) (tenant_running_limits q) with
  | None => mret true
  | Some limit => n ← _tenant_running_count (py_str tenant) items; mret (n <? limit)%Z
  end.

(** The candidates in claim order, with their table keys. *)
Definition claim_candidates (q : claim_request) (items : table) : res (list (string * record)) :=
  candidates ← filterM (fun e => claimable q e.2) items;
  sort_by (fun e => candidate_key e.2) key_leb candidates.

Definition global_full (q : claim_request) (items : list record) : res bool :=
  match global_running_limit q with
  | None => mret false
  | Some limit => n ← _global_running_count items; mret (limit <=? n)%Z
  end.

Definition claim_next_runtime_queue_attempt (q : claim_request) : st (option claim_bundle) :=
  items ← gets runtime_queue_items;
  full ← lift (global_full q (od_values items));
  if full : bool then mret None
  else
    candidates ← lift (claim_candidates q items);
    chosen ← lift (find_first (fun e => has_room q (od_values items) e.2) candidates);
    match chosen with
    | None => mret None
    | Some (k, item) => bundle ← claim_item q k item; mret (Some bundle)
    end.

Definition claim_next_runtime_queue_item (q : claim_request) : st (option record) :=
  claim ← claim_next_runtime_queue_attempt q;
  mret (option_map (fun b : claim_bundle => b.1.1) claim).

(** ** Stale claims and releases *)

Fixpoint for_keys {A} (f : string -> st (option A)) (keys : list string) : st (list A) :=
  match keys with
  | [] => mret []
  | k :: ks => x ← f k; xs ← for_keys f ks;
               mret (match x with Some x => x :: xs | None => xs end)
  end.

Definition is_stale (now : string) (item : record) : res bool :=
  let claimed_until := py_or (dget "claimed_until" VNone item) (dget "lease_expires_at" VNone item) in
  open ← status_in RUNNING item;
  mret (open && negb (is_none claimed_until) && str_leb (py_str claimed_until) now).

Definition recovered_fields (now : string) : record :=
  [("status", VStr "retry_scheduled"); ("claimed_by", VNone); ("claimed_at", VNone);
   ("claimed_until", VNone); ("lease_expires_at", VNone); ("heartbeat_at", VNone);
   ("updated_at", VStr now); ("last_error", VStr "Stale runtime queue claim recovered.")].

Definition recover_one (now k : string) : st (option record) :=
  items ← gets runtime_queue_items;
  item ← lift (ditem k items);
  stale ← lift (is_stale now item);
  if negb stale then mret None
  else
    item' ← update_record QueueItems k (recovered_fields now);
    id ← lift (ditem "id" item');
    update_active_claim (py_str id) (fun _ =>
      [("released_at", VStr now); ("release_reason", VStr "stale_recovered")]) ;;
    mret (Some item').

Definition recover_stale_runtime_queue_items (now : string) : st (list record) :=
  items ← gets runtime_queue_items;
  for_keys (recover_one now) (od_keys items).

Definition release_one (queue_id released_at release_reason k : string) : st (option record) :=
  claims ← gets runtime_run_claims;
  claim ← lift (ditem k claims);
  if negb (active_claim_of queue_id claim) then mret None
  else
    claim' ← update_record Claims k
      [("released_at", VStr released_at); ("release_reason", VStr release_reason)];
    mret (Some claim').

Definition release_runtime_queue_claims (queue_id released_at release_reason : string)
    : st (list record) :=
  claims ← gets runtime_run_claims;
  for_keys (release_one queue_id released_at release_reason) (od_keys claims).

(** ** The recordset *)

Definition as_runtime_plane_recordset (contract_version env : string) (s : store) : record :=
  let rows t := VList (map VDict (od_values (get_table t s))) in
  let entries t := VList (map VDict (get_log t s)) in
  [("contract_version", VStr contract_version); ("environment", VStr env);
   ("records", VDict
      [("runtime_queue_items", rows QueueItems); ("runtime_run_attempts", rows Attempts);
       ("runtime_run_claims", rows Claims); ("runtime_dead_letters", rows DeadLetters);
       ("runtime_quota_reservations", rows Reservations); ("runtime_runs", rows Runs);
       ("runtime_steps", rows Steps); ("runtime_events", entries Events);
       ("runtime_checkpoints", entries Checkpoints); ("tool_invocations", entries ToolInvocations);
       ("validation_results", entries ValidationResults);
       ("memory_candidates", entries MemoryCandidates)])].

(** ** Reading back what was written *)

Lemma get_set_table t t' v s : get_table t (set_table t' v s) = if decide (t = t') then v else get_table t s.
Proof. destruct s, t, t'; reflexivity. Qed.
Lemma get_set_log l l' v s : get_log l (set_log l' v s) = if decide (l = l') then v else get_log l s.
Proof. destruct s, l, l'; reflexivity. Qed.
Lemma get_table_set_log t l v s : get_table t (set_log l v s) = get_table t s.
Proof. by destruct s, t, l. Qed.
Lemma get_log_set_table t l v s : get_log l (set_table t v s) = get_log l s.
Proof. by destruct s, t, l. Qed.
Lemma get_table_set_indices t l v s : get_table t (set_indices l v s) = get_table t s.
Proof. by destruct s, t, l. Qed.
Lemma get_log_set_indices l l' v s : get_log l (set_indices l' v s) = get_log l s.
Proof. by destruct s, l, l'. Qed.
Lemma indices_set_table t l v s : get_indices l (set_table t v s) = get_indices l s.
Proof. by destruct s, t, l. Qed.
Lemma indices_set_indices l v s : In l [Events; Checkpoints] -> get_indices l (set_indices l v s) = v.
Proof. destruct s. by intros [<-|[<-|[]]]. Qed.

Create Rewrite HintDb store.
#[export] Hint Rewrite get_set_table get_set_log get_table_set_log get_log_set_table
  get_table_set_indices get_log_set_indices indices_set_table : store.

(** Simplify reads of a written store, table by table. *)
Ltac store_simpl :=
  autorewrite with store; repeat case_decide; try congruence; subst.

(** ** The invariant of the keyed tables *)

Definition wf (s : store) : Prop := forall t, NoDup (od_keys (get_table t s)).

Lemma wf_set t v s : wf s -> NoDup (od_keys v) -> wf (set_table t v s).
Proof. intros H Hv t'. rewrite get_set_table. by case_decide. Qed.
Lemma wf_set_log l v s : wf s -> wf (set_log l v s).
Proof. intros H t. rewrite get_table_set_log. apply H. Qed.
Lemma wf_od_set t k r s : wf s -> wf (set_table t (od_set k r (get_table t s)) s).
Proof. intros H. apply wf_set; [done|]. apply od_set_NoDup, H. Qed.

(** An operation that keeps the table keys unique, whether it raises or not. *)
Definition keeps_wf {A} (m : st A) : Prop := forall s r s', m s = (r, s') -> wf s -> wf s'.

Lemma keeps_bind {A B} (m : st A) (k : A -> st B) :
  keeps_wf m -> (forall a, keeps_wf (k a)) -> keeps_wf (m ≫= k).
Proof.
  intros Hm Hk s r s'. unfold mbind, eff_bind. destruct (m s) as [[a|e] s1] eqn:E; intros H Hs.
  - eapply Hk; [exact H|]. by eapply Hm.
  - injection H as _ <-. by eapply Hm.
Qed.
Lemma keeps_pure {A} (f : store -> result exn A) : keeps_wf (fun s => (f s, s)).
Proof. by intros s r s' [= _ <-]. Qed.
Lemma keeps_modify (f : store -> store) : (forall s, wf s -> wf (f s)) -> keeps_wf (modify f).
Proof. intros Hf s r s' [= _ <-]. apply Hf. Qed.

Create HintDb store_wf.
#[export] Hint Resolve wf_set wf_set_log wf_od_set od_set_NoDup : store_wf.

(** Walk through a sequence of effects. *)
Ltac keeps :=
  repeat first
    [ assumption
    | apply keeps_modify; intros; by auto with store_wf
    | match goal with
      | |- keeps_wf (mret _) => apply (keeps_pure (fun _ => mret _))
      | |- keeps_wf (lift _) => apply (keeps_pure (fun _ => _))
      | |- keeps_wf (gets _) => apply (keeps_pure (fun s => Ok _))
      end
    | apply keeps_bind; [|intros]
    | case_match ].

Lemma insert_record_wf t r : keeps_wf (insert_record t r).
Proof. unfold insert_record. keeps. Qed.
Lemma update_record_wf t k f : keeps_wf (update_record t k f).
Proof. unfold update_record. keeps. Qed.
Lemma append_record_wf t r : keeps_wf (append_record t r).
Proof. unfold append_record. keeps. Qed.
#[export] Hint Resolve insert_record_wf update_record_wf append_record_wf : store_wf.

Lemma update_active_claim_wf q f : keeps_wf (update_active_claim q f).
Proof. unfold update_active_claim. keeps. Qed.
#[export] Hint Resolve update_active_claim_wf : store_wf.

Lemma for_keys_wf {A} (f : string -> st (option A)) ks :
  (forall k, keeps_wf (f k)) -> keeps_wf (for_keys f ks).
Proof. intros Hf. induction ks as [|k ks IH]; cbn; keeps; auto. Qed.

Lemma recover_wf now : keeps_wf (recover_stale_runtime_queue_items now).
Proof.
  unfold recover_stale_runtime_queue_items. keeps. apply for_keys_wf. intros k.
  unfold recover_one. keeps.
Qed.

Lemma claim_wf q : keeps_wf (claim_next_runtime_queue_attempt q).
Proof.
  unfold claim_next_runtime_queue_attempt. keeps.
Qed.

(** ** Counting over an updated table *)

Lemma od_values_set_In {V} k (v w : V) d :
  NoDup (od_keys d) -> In w (od_values (od_set k v d)) ->
  w = v \/ exists k', k' <> k /\ od_get k' d = Some w.
Proof.
  intros Hd Hw. apply in_map_iff in Hw as ([k' w'] & <- & Hin). cbn.
  apply (od_get_NoDup k') in Hin; [|by apply od_set_NoDup].
  rewrite od_get_set in Hin. destruct (String.eqb_spec k' k) as [->|Hne].
  - injection Hin as <-. by left.
  - right. eauto.
Qed.

Lemma filterM_cons {A} (f : A -> res bool) x l r :
  filterM f (x :: l) = Ok r <->
  exists b r', f x = Ok b /\ filterM f l = Ok r' /\ r = if b : bool then x :: r' else r'.
Proof.
  cbn. rewrite bind_Ok. split.
  - intros (b & Hb & H). apply bind_Ok in H as (r' & Hr & [= <-]). eauto.
  - intros (b & r' & Hb & Hr & ->). exists b. split; [done|]. apply bind_Ok. eauto.
Qed.

Lemma count_cons {A} (f : A -> res bool) x l n :
  count f (x :: l) = Ok n <-> exists b n', f x = Ok b /\ count f l = Ok n' /\ n = (n' + Z.b2z b)%Z.
Proof.
  unfold count. rewrite bind_Ok. setoid_rewrite filterM_cons. split.
  - intros (r & (b & r' & Hb & Hr & ->) & [= <-]). exists b, (Z.of_nat (length r')).
    split; [done|]. split; [apply bind_Ok; eauto|]. destruct b; cbn [length Z.b2z]; lia.
  - intros (b & n' & Hb & (r' & Hr & [= <-])%bind_Ok & ->). exists (if b then x :: r' else r').
    split; [eauto|]. unfold mret, result_ret. f_equal. destruct b; cbn [length Z.b2z]; lia.
Qed.

(** Replacing one entry changes the count by that entry's contribution. *)
Lemma count_od_set {V} (f : V -> res bool) k v v' d n b b' :
  NoDup (od_keys d) -> od_get k d = Some v -> f v = Ok b -> f v' = Ok b' ->
  count f (od_values d) = Ok n ->
  count f (od_values (od_set k v' d)) = Ok (n - Z.b2z b + Z.b2z b')%Z.
Proof.
  intros Hd Hk Hv Hv'. revert n. induction d as [|[k2 w] d IH]; intros n; [done|].
  apply NoDup_cons in Hd as [_ Hd]. cbn [od_get od_set] in Hk |- *.
  change (od_values ((k2, w) :: d)) with (w :: od_values d). rewrite count_cons.
  intros (b0 & n' & Hb0 & Hn & ->). destruct (String.eqb_spec k k2) as [->|Hne].
  - injection Hk as ->. change (od_values ((k2, v') :: d)) with (v' :: od_values d).
    rewrite count_cons. exists b', n'. split_and!; [done..|]. rewrite Hb0 in Hv. injection Hv as ->. lia.
  - change (od_values ((k2, w) :: od_set k v' d)) with (w :: od_values (od_set k v' d)).
    rewrite count_cons. exists b0, (n' - Z.b2z b + Z.b2z b')%Z. split_and!; [done|by apply IH|lia].
Qed.

(** ** What a claim does *)

Lemma key_leb_total x y : key_leb x y = true \/ key_leb y x = true.
Proof.
  unfold key_leb. apply lex_leb_total; [apply lex_leb_total; [apply lex_leb_total|]|];
    try exact str_leb_total. intros. lia.
Qed.
Lemma key_leb_trans x y z : key_leb x y = true -> key_leb y z = true -> key_leb x z = true.
Proof.
  unfold key_leb. apply lex_leb_trans; [apply lex_leb_trans; [apply lex_leb_trans|]|];
    try exact str_leb_trans. intros. lia.
Qed.

Record claimed (q : claim_request) (s s' : store) (k : string) (item : record) (b : claim_bundle)
    : Prop := {
  cl_member : od_get k (runtime_queue_items s) = Some item;
  cl_claimable : claimable q item = Ok true;
  cl_room : has_room q (od_values (runtime_queue_items s)) item = Ok true;
  cl_global : global_full q (od_values (runtime_queue_items s)) = Ok false;
  cl_first : forall k2 item2, od_get k2 (runtime_queue_items s) = Some item2 ->
    claimable q item2 = Ok true -> has_room q (od_values (runtime_queue_items s)) item2 = Ok true ->
    item2 = item \/ key_le candidate_key key_leb item item2;
  cl_write : claim_item q k item s = (Ok b, s');
}.

(** The order in which items are claimed: higher priority first, then the
    earlier schedule, the earlier creation and the smaller id. *)
Definition text_of (field : string) (item : record) : string := py_str (dget field VNone item).

Fixpoint texts_before (fields : list string) (a b : record) : Prop :=
  match fields with
  | [] => True
  | f :: fs => str_ltb (text_of f a) (text_of f b) = true \/
      text_of f a = text_of f b /\ texts_before fs a b
  end.

Definition comes_before (a b : record) : Prop :=
  exists p q, (v ← ditem "priority" a; py_int v) = Ok p /\ (v ← ditem "priority" b; py_int v) = Ok q /\
    (q < p \/ p = q /\ texts_before ["scheduled_at"; "created_at"; "id"] a b)%Z.

Lemma candidate_key_inv item key :
  candidate_key item = Ok key -> exists p, (v ← ditem "priority" item; py_int v) = Ok p /\
    key = (- p, text_of "scheduled_at" item, text_of "created_at" item, text_of "id" item)%Z.
Proof.
  unfold candidate_key. intros (p & Hp & H)%bind_Ok. exists p. split; [done|].
  unfold text_of, dget, ditem in *.
  destruct (od_get "scheduled_at" item), (od_get "created_at" item), (od_get "id" item); try done.
  by injection H as <-.
Qed.

Lemma str_leb_cases s t :
  (str_ltb s t = true /\ str_leb s t = true /\ str_leb t s = false) \/ s = t \/ str_leb s t = false.
Proof.
  destruct (str_leb s t) eqn:E; [|by auto]. destruct (decide (s = t)) as [->|Hne]; [by auto|left].
  split_and!; [|done|].
  - apply str_leb_alt in E as [E|]; [|done]. unfold str_ltb, String.ltb. by rewrite E.
  - destruct (str_leb t s) eqn:E2; [|done]. by destruct Hne; apply str_leb_antisym.
Qed.

Lemma key_le_comes_before a b : key_le candidate_key key_leb a b -> comes_before a b.
Proof.
  intros (ka & kb & (p & Hp & ->)%candidate_key_inv & (q & Hq & ->)%candidate_key_inv & H).
  exists p, q. split; [done|]. split; [done|]. unfold key_leb, lex_leb in H. cbn [fst snd] in H.
  apply andb_true_iff in H as [H H4]. apply andb_true_iff in H as [H H3].
  apply andb_true_iff in H as [H1 H2]. apply Z.leb_le in H1.
  destruct (Z.leb_spec (- q) (- p))%Z; [right; split; [lia|]|left; lia].
  rewrite (proj2 (Z.leb_le (- p) (- q)))%Z in * by lia. cbn [negb orb andb] in *.
  rewrite H2 in *. cbn [texts_before negb orb andb] in *.
  destruct (str_leb_cases (text_of "scheduled_at" a) (text_of "scheduled_at" b))
    as [(?&_&_)|[E|E]]; [by left| |congruence].
  right. split; [done|]. rewrite E, str_leb_refl in H3, H4. cbn [negb orb andb] in H3, H4.
  destruct (str_leb_cases (text_of "created_at" a) (text_of "created_at" b))
    as [(?&_&_)|[E2|E2]]; [by left| |congruence].
  right. split; [done|]. rewrite E2, str_leb_refl in H4. cbn [negb orb andb] in H4.
  destruct (str_leb_cases (text_of "id" a) (text_of "id" b)) as [(?&_&_)|[?|?]]; [by left|by right|congruence].
Qed.

Lemma claim_next_inv q s b s' :
  wf s -> claim_next_runtime_queue_attempt q s = (Ok (Some b), s') ->
  exists k item, claimed q s s' k item b.
Proof.
  intros Hwf H. unfold claim_next_runtime_queue_attempt in H.
  apply eff_bind_Ok in H as (items & s1 & [= <- <-] & H).
  apply eff_bind_Ok in H as (full & s1 & Hfull & H). injection Hfull as Hfull <-.
  destruct full; [done|].
  apply eff_bind_Ok in H as (cands & s1 & Hc & H). injection Hc as Hc <-.
  apply eff_bind_Ok in H as (chosen & s1 & Hch & H). injection Hch as Hch <-.
  destruct chosen as [[k item]|]; [|done].
  apply eff_bind_Ok in H as (b' & s1 & Hw & [= <- <-]).
  unfold claim_candidates in Hc. apply bind_Ok in Hc as (l & Hl & Hc).
  apply filterM_Ok in Hl as [_ Hl]. pose proof (sort_by_perm _ _ _ _ Hc) as Hp.
  pose proof (sort_by_sorted _ _ key_leb_total key_leb_trans _ _ Hc) as Hs.
  assert (Hin : forall e, In e cands <-> In e (runtime_queue_items s) /\ claimable q e.2 = Ok true).
  { intros e. rewrite <- Hl, <- !list_elem_of_In. by rewrite Hp. }
  apply find_first_Some in Hch as Hch'. destruct Hch' as [Hk Hroom]. apply Hin in Hk as [Hk Hclaim].
  exists k, item. constructor; try done.
  - apply od_get_NoDup; [|done]. apply (Hwf QueueItems).
  - intros k2 item2 H2%od_get_In Hc2 Hr2.
    destruct (find_first_min _ _ _ _ (k2, item2) Hs Hch) as [E|Hle]; [by apply Hin|done| |].
    + injection E as _ ->. by left.
    + by right.
Qed.

Lemma claim_next_None_inv q s s' :
  claim_next_runtime_queue_attempt q s = (Ok None, s') ->
  s' = s /\
  (global_full q (od_values (runtime_queue_items s)) = Ok true \/
   forall k item, In (k, item) (runtime_queue_items s) -> claimable q item = Ok true ->
     has_room q (od_values (runtime_queue_items s)) item = Ok false).
Proof.
  intros H. unfold claim_next_runtime_queue_attempt in H.
  apply eff_bind_Ok in H as (items & s1 & [= <- <-] & H).
  apply eff_bind_Ok in H as (full & s1 & Hfull & H). injection Hfull as Hfull <-.
  destruct full; [injection H as <-; by auto|].
  apply eff_bind_Ok in H as (cands & s1 & Hc & H). injection Hc as Hc <-.
  apply eff_bind_Ok in H as (chosen & s1 & Hch & H). injection Hch as Hch <-.
  destruct chosen as [[k item]|].
  - apply eff_bind_Ok in H as (b' & s1 & Hw & H). done.
  - injection H as <-. split; [done|right]. intros k item Hin Hcl.
    unfold claim_candidates in Hc. apply bind_Ok in Hc as (l & Hl & Hc).
    apply filterM_Ok in Hl as [_ Hl]. pose proof (sort_by_perm _ _ _ _ Hc) as Hp.
    apply (find_first_None _ _ Hch (k, item)).
    apply list_elem_of_In. rewrite Hp. apply list_elem_of_In, Hl. done.
Qed.

(** The fields a claim sets on its item. *)
Definition claim_fields (q : claim_request) (attempts : Z) (attempt_id run_id : string) : record :=
  [("status", VStr "claiming"); ("attempts", VInt attempts); ("claimed_by", VStr (worker_id q));
   ("claimed_at", VStr (claimed_at q)); ("lease_expires_at", VStr (lease_expires_at q));
   ("claimed_until", VStr (lease_expires_at q)); ("heartbeat_at", VStr (claimed_at q));
   ("attempt_id", VStr attempt_id); ("run_id", VStr run_id); ("updated_at", VStr (claimed_at q))].

Lemma claim_item_inv q k item s b s' :
  claim_item q k item s = (Ok b, s') ->
  exists n tid id task, attempt_number item = Ok n /\ ditem "tenant_id" item = Ok tid /\
    ditem "id" item = Ok id /\ ditem "task_id" item = Ok task /\
    let attempt_id := slug_id (py_str id +:+ "-attempt-" +:+ zstr n) (Some "attempt") in
    let claim_id := slug_id (py_str id +:+ "-" +:+ worker_id q +:+ "-" +:+ zstr n) (Some "claim") in
    let run_id := slug_id (py_str task +:+ "-attempt-" +:+ zstr n) (Some "run") in
    b.1.1 = od_update item (claim_fields q n attempt_id run_id) /\
    dget "tenant_id" VNone b.1.2 = VStr (py_str tid) /\
    runtime_queue_items s' = od_set k b.1.1 (runtime_queue_items s) /\
    runtime_run_attempts s' = od_set attempt_id b.1.2 (runtime_run_attempts s) /\
    runtime_run_claims s' = od_set claim_id b.2 (runtime_run_claims s).
Proof.
  intros H. unfold claim_item in H.
  apply eff_bind_Ok in H as (tid & s1 & Ht & H). injection Ht as Ht <-.
  apply eff_bind_Ok in H as (n & s1 & Hn & H). injection Hn as Hn <-.
  apply eff_bind_Ok in H as (task & s1 & Hk & H). injection Hk as Hk <-.
  apply eff_bind_Ok in H as (id & s1 & Hi & H). injection Hi as Hi <-.
  apply eff_bind_Ok in H as (u1 & s1 & [= _ <-] & H).
  apply eff_bind_Ok in H as (u2 & s1 & [= _ <-] & H).
  apply eff_bind_Ok in H as (u3 & s1 & [= _ <-] & H). injection H as <- <-.
  exists n, tid, id, task. cbv zeta. split_and!; try done; destruct s; reflexivity.
Qed.

(** The rows a claim adds: one attempt, which the item then names, and one claim. *)
Definition opens_attempt (q : claim_request) (n : Z) (id : value) (item' attempt claim : record) (s s' : store) : Prop :=
  exists attempt_id claim_id,
    runtime_run_attempts s' = od_set attempt_id attempt (runtime_run_attempts s) /\
    runtime_run_claims s' = od_set claim_id claim (runtime_run_claims s) /\
    od_get "attempt_id" item' = Some (VStr attempt_id) /\
    (dget "id" VNone attempt, dget "queue_id" VNone attempt, dget "attempt_number" VNone attempt, dget "status" VNone attempt)
      = (VStr attempt_id, VStr (py_str id), VInt n, VStr "running") /\
    (dget "id" VNone claim, dget "queue_id" VNone claim, dget "worker_id" VNone claim, dget "claimed_until" VNone claim,
     dget "released_at" VNone claim)
      = (VStr claim_id, VStr (py_str id), VStr (worker_id q), VStr (lease_expires_at q), VNone).

Lemma od_get_update_fields k fields (d : record) v :
  NoDup (od_keys fields) -> In (k, v) fields -> od_get k (od_update d fields) = Some v.
Proof.
  revert d. induction fields as [|[k' v'] fs IH]; intros d Hnd Hin; [done|].
  apply NoDup_cons in Hnd as [Hk Hnd]. destruct Hin as [[= -> ->]|Hin]; [|by apply IH].
  change (od_update d ((k, v) :: fs)) with (od_update (od_set k v d) fs).
  destruct (od_get k (od_update (od_set k v d) fs)) as [w|] eqn:E.
  - apply od_get_update in E as [E|E].
    + destruct Hk. apply list_elem_of_In. by apply (in_map fst) in E.
    + rewrite od_get_set_eq in E. by injection E as ->.
  - apply od_get_update_None in E as [_ E]. by rewrite od_get_set_eq in E.
Qed.

Lemma od_get_update_other k fields (d : record) :
  ~ In k (od_keys fields) -> od_get k (od_update d fields) = od_get k d.
Proof.
  revert d. induction fields as [|[k' v'] fs IH]; intros d Hin; [done|].
  change (od_update d ((k', v') :: fs)) with (od_update (od_set k' v' d) fs).
  cbn in Hin. rewrite IH by naive_solver. apply od_get_set_ne. naive_solver.
Qed.

Lemma ditem_Ok {V} k (d : odict V) v : ditem k d = Ok v <-> od_get k d = Some v.
Proof. unfold ditem. destruct (od_get k d); naive_solver. Qed.

Lemma claim_fields_get q n a r item k v :
  In (k, v) (claim_fields q n a r) -> od_get k (od_update item (claim_fields q n a r)) = Some v.
Proof.
  apply od_get_update_fields. unfold claim_fields, od_keys. cbn [map fst].
  refine (bool_decide_eq_true_1 (NoDup _) _). vm_compute. reflexivity.
Qed.

Lemma status_in_get l item st : od_get "status" item = Some (VStr st) -> status_in l item = Ok (str_in st l).
Proof. intros H. unfold status_in, ditem. by rewrite H. Qed.

Lemma claimable_inv q item :
  claimable q item = Ok true ->
  (exists st, od_get "status" item = Some (VStr st) /\ In st CLAIMABLE) /\
  (exists at_, od_get "scheduled_at" item = Some at_ /\ str_leb (py_str at_) (claimed_at q) = true) /\
  (exists tid, od_get "tenant_id" item = Some tid /\ tenant_allowed q tid = Ok true) /\
  matches_opt (environment q) (dget "environment" VNone item) = true /\
  matches_opt (queue_name q) (dget "queue_name" VNone item) = true.
Proof.
  intros H. unfold claimable in H. apply bind_Ok in H as (open & Ho & H).
  destruct open; [cbn [negb] in H|done].
  unfold status_in in Ho. apply bind_Ok in Ho as (st & Hst%ditem_Ok & Hin%in_frozenset_Ok).
  destruct Hin as (st' & -> & Hin). apply bind_Ok in H as (at_ & Hat%ditem_Ok & H).
  destruct (str_leb _ _) eqn:E; [cbn [negb] in H|done].
  apply bind_Ok in H as (tid & Ht%ditem_Ok & H). apply bind_Ok in H as (ok & Hok & [= H]).
  apply andb_true_iff in H as [[-> H1]%andb_true_iff H2]. split_and!; eauto.
Qed.

(** A claimed item counts as running, and was not counted before. *)
Lemma claim_status_change q item n a r :
  claimable q item = Ok true ->
  status_in RUNNING item = Ok false /\
  status_in RUNNING (od_update item (claim_fields q n a r)) = Ok true.
Proof.
  intros ((st & Hst & Hin) & _)%claimable_inv. split.
  - rewrite (status_in_get _ _ st) by done. by destruct Hin as [<-|[<-|[]]].
  - by rewrite (status_in_get _ _ "claiming") by (apply claim_fields_get; by left).
Qed.

Lemma claimed_tenant q s s' k item b :
  claimed q s s' k item b -> exists tid, od_get "tenant_id" item = Some tid /\
    dget "tenant_id" VNone b.1.2 = VStr (py_str tid).
Proof.
  intros [_ _ _ _ _ Hw]. apply claim_item_inv in Hw as (n & tid & id & task & _ & Ht%ditem_Ok & _ & _ & H).
  cbv zeta in H. destruct H as (_ & H & _). eauto.
Qed.

(** The number of items of a kind after a claim. *)
Lemma claim_count f q s s' k item b n m m' :
  wf s -> claimed q s s' k item b ->
  f item = Ok m -> f b.1.1 = Ok m' -> count f (od_values (runtime_queue_items s)) = Ok n ->
  count f (od_values (runtime_queue_items s')) = Ok (n - Z.b2z m + Z.b2z m')%Z.
Proof.
  intros Hwf [Hk _ _ _ _ Hw] Hm Hm' Hn.
  apply claim_item_inv in Hw as (? & ? & ? & ? & _ & _ & _ & _ & H). cbv zeta in H.
  destruct H as (_ & _ & -> & _). eapply count_od_set; eauto. apply (Hwf QueueItems).
Qed.

(** ** Stale recovery *)

(** What recovery does to one item. *)
Definition recovered_item (now : string) (item : record) : res record :=
  stale ← is_stale now item; mret (if stale : bool then od_update item (recovered_fields now) else item).

Lemma update_active_claim_queue q f s r s' :
  update_active_claim q f s = (r, s') -> runtime_queue_items s' = runtime_queue_items s.
Proof.
  intros H. unfold update_active_claim, gets, mbind, eff_bind, lift in H.
  destruct (_active_claim_for_queue q s) as [k|]; [|by injection H as _ <-].
  destruct (ditem k (runtime_run_claims s)) as [c|e]; [|by injection H as _ <-].
  destruct (update_record Claims k (f c) s) as [[c'|e] s1] eqn:E; injection H as _ <-.
  - unfold update_record, gets, lift, modify, mbind, eff_bind in E.
    destruct (ditem k _); [|done]. injection E as _ <-. by destruct s.
  - unfold update_record, gets, lift, modify, mbind, eff_bind in E.
    destruct (ditem k _); [done|]. by injection E as _ <-.
Qed.

Lemma update_record_Ok t k fields s r s' :
  update_record t k fields s = (Ok r, s') <->
  exists stored, od_get k (get_table t s) = Some stored /\ r = od_update stored fields /\
    s' = set_table t (od_set k r (get_table t s)) s.
Proof.
  unfold update_record, gets, lift, modify, mbind, eff_bind, ditem.
  destruct (od_get k (get_table t s)) as [stored|]; split.
  - intros [= <- <-]. eauto.
  - by intros (? & [= <-] & -> & ->).
  - done.
  - by intros (? & ? & _).
Qed.

Lemma recover_one_Ok now k s x s' :
  recover_one now k s = (Ok x, s') ->
  exists item stale, od_get k (runtime_queue_items s) = Some item /\ is_stale now item = Ok stale /\
    (if stale : bool then
       x = Some (od_update item (recovered_fields now)) /\
       runtime_queue_items s' = od_set k (od_update item (recovered_fields now)) (runtime_queue_items s)
     else x = None /\ s' = s).
Proof.
  intros H. unfold recover_one in H.
  apply eff_bind_Ok in H as (items & s1 & [= <- <-] & H).
  apply eff_bind_Ok in H as (item & s1 & Hi & H). injection Hi as Hi%ditem_Ok <-.
  apply eff_bind_Ok in H as (stale & s1 & Hst & H). injection Hst as Hst <-.
  exists item, stale. split_and!; [done..|]. destruct stale; cbn [negb] in H; [|by injection H as <- <-].
  apply eff_bind_Ok in H as (item' & s1 & Hu & H).
  apply update_record_Ok in Hu as (stored & Hg & -> & ->). cbn [get_table] in Hg.
  rewrite Hi in Hg. injection Hg as <-.
  apply eff_bind_Ok in H as (id & s1 & Hid & H). injection Hid as _ <-.
  apply eff_bind_Ok in H as (u & s1 & Hc & H). injection H as <- <-. split; [done|].
  apply update_active_claim_queue in Hc. rewrite Hc. by destruct s.
Qed.

(** The recovery loop over some keys: those items are recovered, the others kept. *)
Lemma recover_keys_Ok now keys s l s' :
  NoDup keys -> for_keys (recover_one now) keys s = (Ok l, s') ->
  (forall k, ~ In k keys -> od_get k (runtime_queue_items s') = od_get k (runtime_queue_items s)) /\
  (forall k, In k keys -> exists item item', od_get k (runtime_queue_items s) = Some item /\
     recovered_item now item = Ok item' /\ od_get k (runtime_queue_items s') = Some item') /\
  (forall r, In r l <-> exists k item, In k keys /\ od_get k (runtime_queue_items s) = Some item /\
     is_stale now item = Ok true /\ r = od_update item (recovered_fields now)).
Proof.
  revert s l s'. induction keys as [|k keys IH]; intros s l s' Hnd H; cbn in H.
  { injection H as <- <-. split_and!; [done|done|]. intros r. split; [done|]. by intros (? & ? & [] & _). }
  apply NoDup_cons in Hnd as [Hk Hnd]. rewrite list_elem_of_In in Hk.
  apply eff_bind_Ok in H as (x & s1 & H1 & H). apply eff_bind_Ok in H as (xs & s2 & H2 & H).
  injection H as <- <-. apply recover_one_Ok in H1 as (item & stale & Hg & Hst & H1).
  assert (Hs1 : forall k', k' <> k -> od_get k' (runtime_queue_items s1) = od_get k' (runtime_queue_items s)).
  { intros k' Hne. destruct stale; [|by destruct H1 as [_ ->]]. destruct H1 as [_ ->].
    by apply od_get_set_ne. }
  assert (Hgk : od_get k (runtime_queue_items s1) = Some (if stale then od_update item (recovered_fields now) else item)).
  { destruct stale; destruct H1 as [_ ->]; [apply od_get_set_eq|done]. }
  apply (IH _ _ _ Hnd) in H2 as (A & B & C). split_and!.
  - intros k' Hk'. rewrite A by (cbn in Hk'; tauto). apply Hs1. cbn in Hk'. naive_solver.
  - intros k' [<-|Hk'].
    + eexists item, _. split; [done|]. unfold recovered_item. rewrite Hst. split; [reflexivity|].
      rewrite A by done. exact Hgk.
    + destruct (B k' Hk') as (it & it' & Hit & ? & ?). exists it, it'. rewrite Hs1 in Hit; [done|].
      intros ->. done.
  - intros r. assert (Hr : In r (match x with Some y => y :: xs | None => xs end) <->
      (stale = true /\ r = od_update item (recovered_fields now)) \/ In r xs).
    { destruct stale; destruct H1 as [-> _]; cbn; naive_solver. }
    rewrite Hr, C. split.
    + intros [[-> ->]|(k' & it & Hk' & Hit & Hs & ->)].
      * exists k, item. split; [by left|done].
      * exists k', it. rewrite Hs1 in Hit; [|by intros ->]. split; [by right|done].
    + intros (k' & it & [<-|Hk'] & Hit & Hs & ->).
      * left. rewrite Hg in Hit. injection Hit as <-. rewrite Hst in Hs. by injection Hs as ->.
      * right. exists k', it. rewrite Hs1 by (by intros ->). done.
Qed.

Lemma recovered_not_stale now item item' :
  recovered_item now item = Ok item' -> is_stale now item' = Ok false.
Proof.
  unfold recovered_item. intros (stale & Hs & [= <-])%bind_Ok. destruct stale; [|done].
  unfold is_stale. rewrite (status_in_get RUNNING _ "retry_scheduled"); [done|].
  apply (od_get_update_fields "status" (recovered_fields now) item); [|by left].
  refine (bool_decide_eq_true_1 (NoDup _) _). vm_compute. reflexivity.
Qed.

(** ** Index allocation *)

Lemma allocate_Ok t field run s i s' :
  In t [Events; Checkpoints] -> allocate_index t field run s = (Ok i, s') ->
  get_indices t s' = od_set run (i + 1)%Z (get_indices t s) /\
  (forall j, od_get run (get_indices t s) = Some j -> i = j) /\
  get_log t s' = get_log t s /\ (forall t', get_table t' s' = get_table t' s).
Proof.
  intros Ht H. unfold allocate_index in H.
  apply eff_bind_Ok in H as (ix & s1 & [= <- <-] & H).
  apply eff_bind_Ok in H as (j & s1 & Hj & H).
  assert (Hs : s1 = s /\ forall j', od_get run (get_indices t s) = Some j' -> j = j').
  { destruct (od_get run (get_indices t s)) as [j'|]; [injection Hj as <- <-; naive_solver|].
    apply eff_bind_Ok in Hj as (l & s2 & [= <- <-] & Hj).
    apply eff_bind_Ok in Hj as (l1 & s2 & H1 & Hj). injection H1 as _ <-.
    apply eff_bind_Ok in Hj as (l2 & s2 & H1 & Hj). injection H1 as _ <-.
    by injection Hj as _ <-. }
  destruct Hs as [-> Hs]. apply eff_bind_Ok in H as (u & s1 & [= _ <-] & H). injection H as <- <-.
  split_and!; [by apply indices_set_indices|done|apply get_log_set_indices|].
  intros. apply get_table_set_indices.
Qed.

(** A sequence of allocations, each for the run it names. *)
Fixpoint allocate_all (t : log_name) (field : string) (runs : list string) (s : store)
    : result exn (list (string * Z)) * store :=
  match runs with
  | [] => (Ok [], s)
  | run :: rest =>
      match allocate_index t field run s with
      | (Ok i, s1) =>
          match allocate_all t field rest s1 with
          | (Ok l, s2) => (Ok ((run, i) :: l), s2)
          | (Raise e, s2) => (Raise e, s2)
          end
      | (Raise e, s1) => (Raise e, s1)
      end
  end.

(** The indices given to one run. *)
Definition given (run : string) (l : list (string * Z)) : list Z :=
  map snd (List.filter (fun e => String.eqb run e.1) l).

Lemma allocate_all_consecutive t field runs s l s' run :
  In t [Events; Checkpoints] -> allocate_all t field runs s = (Ok l, s') ->
  exists start, given run l = seqZ start (Z.of_nat (length (given run l))) /\
    (forall j, od_get run (get_indices t s) = Some j -> given run l = [] \/ start = j).
Proof.
  intros Ht. revert s l s'. induction runs as [|r runs IH]; intros s l s' H; cbn in H.
  { injection H as <- <-. exists 0%Z. split; [done|]. by left. }
  destruct (allocate_index t field r s) as [[i|e] s1] eqn:E; [|done].
  destruct (allocate_all t field runs s1) as [[l'|e] s2] eqn:E2; [|done]. injection H as <- <-.
  apply (allocate_Ok _ _ _ _ _ _ Ht) in E as (Hix & Hj & _).
  apply IH in E2 as (start & Hseq & Hst). rewrite Hix, od_get_set in Hst.
  unfold given in *. cbn [List.filter fst]. destruct (String.eqb_spec run r) as [->|Hne].
  - cbn [map snd length]. exists i. split; [|intros j Hg; right; by apply Hj].
    set (tail := map snd _) in *. rewrite seqZ_cons by lia.
    replace (Z.pred (Z.of_nat (S (length tail)))) with (Z.of_nat (length tail)) by lia. f_equal.
    destruct (Hst (i + 1)%Z eq_refl) as [E0| ->]; [by rewrite E0|]. exact Hseq.
  - exists start. done.
Qed.

(** ** A concrete queue *)

Definition queue_item (id tenant status : string) (priority : Z) (scheduled : string) : record :=
  [("id", VStr id); ("task_id", VStr ("task-" +:+ id)); ("tenant_id", VStr tenant);
   ("environment", VStr "dev"); ("queue_name", VStr "default"); ("status", VStr status);
   ("priority", VInt priority); ("scheduled_at", VStr scheduled); ("attempts", VInt 0);
   ("max_attempts", VInt 2); ("claimed_by", VNone); ("claimed_until", VNone);
   ("lease_expires_at", VNone); ("idempotency_key", VStr ("key-" +:+ id)); ("created_at", VStr scheduled)].

Definition demo_store : store :=
  set_table QueueItems
    [("q1", queue_item "q1" "acme" "running" 0 "2026-01-01T00:00:00Z");
     ("q2", queue_item "q2" "acme" "queued" 9 "2026-01-01T00:00:01Z");
     ("q3", queue_item "q3" "zeta" "queued" 1 "2026-01-01T00:00:02Z");
     ("q4", queue_item "q4" "zeta" "retry_scheduled" 5 "2026-01-01T00:00:03Z")] empty_store.

Definition demo_request : claim_request :=
  mkClaimRequest "w1" "2026-01-01T00:01:00Z" "2026-01-01T00:06:00Z" [("acme", 1%Z)] (Some 2%Z) [] []
    (Some "dev") (Some "default").

Definition claimed_by_demo : option claim_bundle * store :=
  match claim_next_runtime_queue_attempt demo_request demo_store with
  | (Ok b, s) => (b, s)
  | (Raise _, s) => (None, s)
  end.

Lemma demo_store_wf : wf demo_store.
Proof. intros t. refine (bool_decide_eq_true_1 (NoDup _) _). by destruct t; vm_compute. Qed.

(** ** Properties *)

Lemma claim_item_opens q k item s b s' :
  claim_item q k item s = (Ok b, s') ->
  exists n id, attempt_number item = Ok n /\ od_get "id" item = Some id /\ opens_attempt q n id b.1.1 b.1.2 b.2 s s'.
Proof.
  intros H. pose proof (claim_item_inv _ _ _ _ _ _ H) as (n & tid & id & task & Hn & _ & Hid & _ & Hw). cbv zeta in Hw.
  destruct Hw as (Hitem & _ & _ & Ha & Hc). exists n, id. split; [done|]. split; [by apply ditem_Ok|].
  exists (slug_id (py_str id +:+ "-attempt-" +:+ zstr n) (Some "attempt")),
    (slug_id (py_str id +:+ "-" +:+ worker_id q +:+ "-" +:+ zstr n) (Some "claim")).
  split; [done|]. split; [done|]. split; [rewrite Hitem; apply claim_fields_get; cbn; tauto|]. clear Ha Hc Hitem.
  unfold claim_item in H. apply eff_bind_Ok in H as (tid' & s1 & Ht & H). injection Ht as Ht <-.
  apply eff_bind_Ok in H as (n' & s1 & Hn' & H). injection Hn' as Hn' <-. rewrite Hn in Hn'. injection Hn' as <-.
  apply eff_bind_Ok in H as (task' & s1 & Hk & H). injection Hk as Hk <-.
  apply eff_bind_Ok in H as (id' & s1 & Hi & H). injection Hi as Hi <-. rewrite Hid in Hi. injection Hi as <-.
  apply eff_bind_Ok in H as (u1 & s1 & [= _ <-] & H).
  apply eff_bind_Ok in H as (u2 & s1 & [= _ <-] & H).
  apply eff_bind_Ok in H as (u3 & s1 & [= _ <-] & H). injection H as <- _. split; reflexivity.
Qed.

(** C12. Claiming takes the right item or changes nothing. A successful claim
    takes an item that is due, claimable, allowed by the tenant, environment
    and queue filters and whose tenant has room, and no other such item comes
    before it in the order of descending priority, schedule, creation and id;
    it moves the item to [claiming] under the worker, with one more attempt,
    so that no further claim can take it, leaves all other items alone, and
    records one running attempt, which the item names, and one unreleased claim.
    Without a claim the store is unchanged, and either the global limit is
    reached or no claimable item's tenant has room. *)
Theorem claim_next_correct q s r s' :
  wf s -> claim_next_runtime_queue_attempt q s = (Ok r, s') ->
  let items := runtime_queue_items s in
  match r with
  | Some (item', attempt, claim) =>
      exists k item n, od_get k items = Some item /\ attempt_number item = Ok n /\
        claimable q item = Ok true /\ has_room q (od_values items) item = Ok true /\
        (forall k2 item2, od_get k2 items = Some item2 -> claimable q item2 = Ok true ->
           has_room q (od_values items) item2 = Ok true ->
           item2 = item \/ comes_before item item2) /\
        od_get k (runtime_queue_items s') = Some item' /\
        od_get "status" item' = Some (VStr "claiming") /\ od_get "attempts" item' = Some (VInt n) /\
        od_get "claimed_by" item' = Some (VStr (worker_id q)) /\
        od_get "claimed_until" item' = Some (VStr (lease_expires_at q)) /\
        (forall q', claimable q' item' = Ok false) /\
        (forall k2, k2 <> k -> od_get k2 (runtime_queue_items s') = od_get k2 items) /\
        exists id, od_get "id" item = Some id /\ opens_attempt q n id item' attempt claim s s'
  | None => s' = s /\ (global_full q (od_values items) = Ok true \/
      forall k item, In (k, item) items -> claimable q item = Ok true ->
        has_room q (od_values items) item = Ok false)
  end.
Proof.
  intros Hwf H items. destruct r as [[[item' attempt] claim]|]; [|by apply claim_next_None_inv].
  destruct (claim_next_inv _ _ _ _ Hwf H) as (k & item & [Hk Hcl Hroom _ Hfirst Hw]).
  destruct (claim_item_opens _ _ _ _ _ _ Hw) as (n0 & id0 & Hn0 & Hid0 & Hopens).
  apply claim_item_inv in Hw as (n & tid & id & task & Hn & _ & _ & _ & Hw). cbv zeta in Hw.
  destruct Hw as (Hitem & _ & Hq & _). cbn [fst snd] in *. exists k, item, n.
  rewrite Hq, Hitem. split_and!; try done.
  1: { intros k2 item2 H1 H2 H3. destruct (Hfirst k2 item2 H1 H2 H3); [by left|right].
       by apply key_le_comes_before. }
  1,2,3,4: try apply od_get_set_eq; apply claim_fields_get; cbn; tauto.
  - apply claim_fields_get; cbn; tauto.
  - intros q'. unfold claimable. by rewrite (status_in_get CLAIMABLE _ "claiming")
      by (apply claim_fields_get; by left).
  - intros k2 Hne. by apply od_get_set_ne.
  - exists id0. split; [done|]. rewrite Hn in Hn0. injection Hn0 as <-. by rewrite <- Hitem.
Qed.

Definition demo_claim : claim_bundle :=
  match claimed_by_demo.1 with Some b => b | None => ([], [], []) end.

Lemma claim_next_correct_witness :
  exists k item n, od_get k (runtime_queue_items demo_store) = Some item /\ attempt_number item = Ok n /\
    od_get k (runtime_queue_items claimed_by_demo.2) = Some demo_claim.1.1 /\
    (forall q', claimable q' demo_claim.1.1 = Ok false).
Proof.
  destruct (claim_next_correct demo_request demo_store (Some demo_claim) claimed_by_demo.2)
    as (k & item & n & H1 & H2 & _ & _ & _ & H6 & _ & _ & _ & _ & H11 & _).
  - exact demo_store_wf.
  - vm_compute. reflexivity.
  - exists k, item, n. exact (conj H1 (conj H2 (conj H6 H11))).
Defined.

(** C13. Capacity: after a successful claim the number of claimed or running
    items is within the global limit, and that of the claimed item's tenant is
    within the tenant's limit, whatever the store held before. *)
Theorem claim_within_limits q s item' attempt claim s' :
  wf s -> claim_next_runtime_queue_attempt q s = (Ok (Some (item', attempt, claim)), s') ->
  (forall L, global_running_limit q = Some L ->
     exists n, _global_running_count (od_values (runtime_queue_items s')) = Ok n /\ (n <= L)%Z) /\
  (forall tid L, dget "tenant_id" VNone attempt = VStr tid ->
     od_get tid (tenant_running_limits q) = Some L ->
     exists n, _tenant_running_count tid (od_values (runtime_queue_items s')) = Ok n /\ (n <= L)%Z).
Proof.
  intros Hwf H. destruct (claim_next_inv _ _ _ _ Hwf H) as (k & item & Hcl).
  pose proof Hcl as [Hk Hc Hroom Hglobal _ Hw].
  apply claim_item_inv in Hw as (n & tid & id & task & Hn & Htid%ditem_Ok & _ & _ & Hw). cbv zeta in Hw.
  destruct Hw as (Hitem & Htenant & _ & _).
  set (a := slug_id (_ +:+ "-attempt-" +:+ _) (Some "attempt")) in Hitem.
  set (r := slug_id (_ +:+ "-attempt-" +:+ _) (Some "run")) in Hitem.
  destruct (claim_status_change q item n a r Hc) as [Hold Hnew]. rewrite <- Hitem in Hnew.
  split.
  - intros L HL. unfold global_full in Hglobal. rewrite HL in Hglobal.
    apply bind_Ok in Hglobal as (m & Hm & [= Hlt]).
    eapply (claim_count (status_in RUNNING)) in Hm; eauto. cbn [Z.b2z] in Hm.
    eexists. split; [exact Hm|]. lia.
  - intros tid' L Ht HL. cbn [fst snd] in Htenant. rewrite Htenant in Ht. injection Ht as <-.
    unfold has_room in Hroom. unfold ditem in Hroom. rewrite Htid in Hroom. cbn [mbind result_bind] in Hroom.
    rewrite HL in Hroom. apply bind_Ok in Hroom as (m & Hm & [= Hlt]).
    assert (Hf : tenant_running (py_str tid) item = Ok false).
    { unfold tenant_running, ditem. rewrite Htid. cbn [mbind result_bind].
      by destruct (py_eq tid (VStr (py_str tid))). }
    assert (Hf' : exists b, tenant_running (py_str tid) item' = Ok b).
    { unfold tenant_running, ditem. cbn [fst snd] in Hitem, Hnew.
      assert (Ht' : od_get "tenant_id" item' = Some tid).
      { rewrite Hitem, od_get_update_other; [done|]. cbn. intuition discriminate. }
      rewrite Ht'. cbn [mbind result_bind]. destruct (py_eq tid (VStr (py_str tid))); eauto. }
    destruct Hf' as (b & Hb).
    eapply (claim_count (tenant_running (py_str tid))) in Hm; [|exact Hwf|exact Hcl|exact Hf|exact Hb].
    eexists. split; [exact Hm|]. destruct b; cbn [Z.b2z]; lia.
Qed.

Lemma claim_within_limits_witness :
  exists n, _global_running_count (od_values (runtime_queue_items claimed_by_demo.2)) = Ok n /\ (n <= 2)%Z.
Proof.
  refine (proj1 (claim_within_limits demo_request demo_store demo_claim.1.1 demo_claim.1.2 demo_claim.2
    claimed_by_demo.2 demo_store_wf _) 2%Z _); vm_compute; reflexivity.
Defined.

(** Recovery reschedules exactly the stale claims: an item is changed
    exactly when it is claimed or running with a lease that has run out at
    [now], it then becomes [retry_scheduled] and free, every other item is
    kept, the recovered items are returned, and none is stale afterwards.
    The number of attempts is not consulted, so an item that has used them all
    is scheduled again and never dead-lettered on this path. *)
Theorem recover_stale_correct now s l s' :
  wf s -> recover_stale_runtime_queue_items now s = (Ok l, s') ->
  (forall k item, od_get k (runtime_queue_items s) = Some item -> exists stale item',
     is_stale now item = Ok stale /\ od_get k (runtime_queue_items s') = Some item' /\
     item' = (if stale : bool then od_update item (recovered_fields now) else item) /\
     is_stale now item' = Ok false) /\
  (forall r, In r l <-> exists k item, od_get k (runtime_queue_items s) = Some item /\
     is_stale now item = Ok true /\ r = od_update item (recovered_fields now)).
Proof.
  intros Hwf H. unfold recover_stale_runtime_queue_items in H.
  apply eff_bind_Ok in H as (items & s1 & [= <- <-] & H).
  apply recover_keys_Ok in H as (_ & H1 & H2); [|apply (Hwf QueueItems)].
  assert (Hkeys : forall k item, od_get k (runtime_queue_items s) = Some item ->
            In k (od_keys (runtime_queue_items s))).
  { intros k item Hk%od_get_In. by apply (in_map fst) in Hk. }
  split.
  - intros k item Hk. destruct (H1 k) as (it & item' & Hit & Hrec & Hs'); [by eapply Hkeys|].
    rewrite Hk in Hit. injection Hit as <-. pose proof (recovered_not_stale _ _ _ Hrec) as Hns.
    unfold recovered_item in Hrec. apply bind_Ok in Hrec as (stale & Hst & Hrec).
    exists stale, item'. split_and!; try done. by injection Hrec as <-.
  - intros r. rewrite H2. split.
    + intros (k & item & _ & ?). eauto.
    + intros (k & item & Hk & ?). exists k, item. split; [by eapply Hkeys|done].
Qed.

Definition stale_store : store :=
  set_table QueueItems
    [("q1", od_update (queue_item "q1" "acme" "running" 0 "2026-01-01T00:00:00Z")
              [("attempts", VInt 2); ("claimed_until", VStr "2026-01-01T00:05:00Z")])] empty_store.

Lemma recover_stale_correct_witness :
  let r := recover_stale_runtime_queue_items "2026-01-01T00:10:00Z" stale_store in
  match r with
  | (Ok l, s') => forall x, In x l <-> exists k item,
      od_get k (runtime_queue_items stale_store) = Some item /\
      is_stale "2026-01-01T00:10:00Z" item = Ok true /\
      x = od_update item (recovered_fields "2026-01-01T00:10:00Z")
  | _ => False
  end.
Proof.
  destruct (recover_stale_runtime_queue_items "2026-01-01T00:10:00Z" stale_store) as [[l|e] s'] eqn:E.
  - refine (proj2 (recover_stale_correct "2026-01-01T00:10:00Z" stale_store l s' _ E)).
    intros t. refine (bool_decide_eq_true_1 (NoDup _) _). destruct t; vm_compute; reflexivity.
  - vm_compute in E. discriminate E.
Defined.

(** Event and checkpoint indices are gapless per run: whatever the
    interleaving of runs in a sequence of allocations, each run is given
    consecutive indices, continuing from its counter when it has one. *)
Theorem indices_consecutive t field runs s l s' run :
  In t [Events; Checkpoints] -> allocate_all t field runs s = (Ok l, s') ->
  exists start, given run l = seqZ start (Z.of_nat (length (given run l))) /\
    (forall j, od_get run (get_indices t s) = Some j -> given run l = [] \/ start = j).
Proof. apply allocate_all_consecutive. Qed.

Lemma indices_consecutive_witness :
  exists start, given "a" [("a", 0); ("b", 0); ("a", 1)]%Z
    = seqZ start (Z.of_nat (length (given "a" [("a", 0); ("b", 0); ("a", 1)]%Z))).
Proof.
  destruct (indices_consecutive Events "event_index" ["a"; "b"; "a"] empty_store
    [("a", 0); ("b", 0); ("a", 1)]%Z
    (allocate_all Events "event_index" ["a"; "b"; "a"] empty_store).2 "a") as (start & H & _).
  - by left.
  - vm_compute. reflexivity.
  - exists start. exact H.
Defined.

Lemma find_app_None {A} (f : A -> bool) l : List.find f l = None -> forall x, In x l -> f x = false.
Proof. apply find_none. Qed.

Lemma find_set_fresh (f : record -> bool) k r d :
  f r = true -> (forall x, In x (od_values d) -> f x = false) -> List.find f (od_values (od_set k r d)) = Some r.
Proof.
  intros Hr. induction d as [|[k' v'] d IH]; cbn; intros H; [by rewrite Hr|].
  destruct (String.eqb k k'); cbn; [by rewrite Hr|].
  rewrite (H v') by by left. apply IH. intros. apply H. by right.
Qed.

(** Equality of keys is shared: a key equal to a string key is that string. *)
Definition string_key (r : record) (key : string) : Prop := dget "idempotency_key" VNone r = VStr key.

(** Inserting a queue item is idempotent: after a successful insert under a
    key, any further insert under the same key stores nothing and returns the
    record already held. *)
Theorem queue_insert_idempotent r r' key s e s1 :
  string_key r key -> string_key r' key ->
  insert_runtime_queue_item r s = (Ok e, s1) ->
  insert_runtime_queue_item r' s1 = (Ok e, s1) /\ In e (od_values (runtime_queue_items s1)) /\
  string_key e key.
Proof.
  unfold string_key. intros Hr Hr' H. unfold insert_runtime_queue_item in *. rewrite Hr in H. rewrite Hr'.
  cbn [is_none] in *. rewrite eff_gets in H |- *.
  set (f := fun existing : record => py_eq (dget "idempotency_key" VNone existing) (VStr key)) in *.
  destruct (List.find f (od_values (runtime_queue_items s))) as [e0|] eqn:E.
  - injection H as <- <-. rewrite E. split; [done|]. apply find_some in E as [Hin E].
    split; [done|]. by apply py_eq_str_r in E.
  - unfold insert_record in H. apply eff_bind_Ok in H as (k & s2 & Hk & H). injection Hk as Hk <-.
    apply eff_bind_Ok in H as (u & s2 & [= _ <-] & H). injection H as <- <-. cbn [get_table].
    assert (Hitems : runtime_queue_items (set_table QueueItems (od_set k r (runtime_queue_items s)) s)
              = od_set k r (runtime_queue_items s)) by (by destruct s).
    assert (Hf : f r = true) by (unfold f; rewrite Hr; apply String.eqb_refl).
    pose proof (find_set_fresh f k r _ Hf (find_none _ _ E)) as Hfind.
    rewrite Hitems, Hfind. split; [done|]. split; [|done]. by apply find_some in Hfind as [? _].
Qed.

Lemma queue_insert_idempotent_witness :
  exists s1, insert_runtime_queue_item (queue_item "q9" "acme" "queued" 1 "2026") demo_store
    = (Ok (queue_item "q9" "acme" "queued" 1 "2026"), s1) /\
  insert_runtime_queue_item (queue_item "q9" "acme" "queued" 7 "2027") s1
    = (Ok (queue_item "q9" "acme" "queued" 1 "2026"), s1).
Proof.
  exists (insert_runtime_queue_item (queue_item "q9" "acme" "queued" 1 "2026") demo_store).2.
  split; [vm_compute; reflexivity|].
  refine (proj1 (queue_insert_idempotent (queue_item "q9" "acme" "queued" 1 "2026")
    (queue_item "q9" "acme" "queued" 7 "2027") "key-q9" demo_store
    (queue_item "q9" "acme" "queued" 1 "2026") _ _ _ _)); vm_compute; reflexivity.
Defined.

(** The queue id [enqueue] computes for a task with a long objective and no id. *)
Definition long_id : string :=
  slug_id ("task-" +:+ of_chars (repeat "a"%char 80) +:+ ":initial") (Some "queue").

Definition long_store : store :=
  set_table QueueItems [(long_id, queue_item long_id "acme" "queued" 0 "2026-01-01T00:00:00Z")] empty_store.

Definition claim_again : claim_request :=
  mkClaimRequest "w2" "2026-01-01T00:20:00Z" "2026-01-01T00:25:00Z" [] None [] [] None None.

(** Claim, let the lease run out, recover, claim again. *)
Definition two_attempts : result exn (option claim_bundle) * store :=
  (claim_next_runtime_queue_attempt demo_request ;;
   recover_stale_runtime_queue_items "2026-01-01T00:10:00Z" ;;
   claim_next_runtime_queue_attempt claim_again) long_store.

(** Attempt ids are slugs cut at 96 characters, so for a long queue id the
    attempt number is cut off: the second attempt of the item [enqueue] creates
    for an 80-character objective gets the id of the first, and its record
    replaces the first one, which is lost. *)
Theorem long_ids_lose_attempts :
  exists item attempt claim,
    two_attempts.1 = Ok (Some (item, attempt, claim)) /\
    od_get "attempts" item = Some (VInt 2) /\
    length (runtime_run_attempts two_attempts.2) = 1%nat /\
    slug_id (long_id +:+ "-attempt-1") (Some "attempt") = slug_id (long_id +:+ "-attempt-2") (Some "attempt").
Proof.
  exists (match two_attempts.1 with Ok (Some b) => b.1.1 | _ => [] end),
    (match two_attempts.1 with Ok (Some b) => b.1.2 | _ => [] end),
    (match two_attempts.1 with Ok (Some b) => b.2 | _ => [] end).
  split_and!; vm_compute; reflexivity.
Qed.
