(* ===== verification/Artifacts.v ===== *)
(** * JSON artifacts: redaction, chunking, and confinement to the root

    Models [runtime/artifacts.py]. The files under the store's root are a map
    from path components to contents: a JSON document or raw text. [json.dumps]
    with [sort_keys] followed by [json.loads] sorts the keys of every object,
    which is what [stored_json] does. Text is ASCII, so one character is one
    byte. A path argument is the tuple of its parts, which is how every caller
    of [write_json] passes it. *)

From S2P Require Import Prelude PyStr PyRegex PyValue Models.
Open Scope string_scope.
Open Scope list_scope.

Definition SENSITIVE_KEY_PARTS : list string :=
  ["authorization"; "api-key"; "api_key"; "apikey"; "password"; "private-key"; "private_key";
   "secret"; "ssh-key"; "ssh_key"; "token"].
Definition REDACTED : string := "[REDACTED]".

Definition sep_char : re := ropt (one_of "-_ ").
Definition quote_chars : string := of_chars ["'"; "034"; ","; ";"]%char.

(** The separators [\s], [:=] and the classes of the four patterns. *)
Definition SECRET_ASSIGNMENT_PATTERN : re :=
  rseq [RWordB;
        RGroup 1 (ralt [rseq [lit_ci "api"; sep_char; lit_ci "key"]; lit_ci "apikey"; lit_ci "password";
                        rseq [lit_ci "private"; sep_char; lit_ci "key"]; lit_ci "secret";
                        rseq [lit_ci "ssh"; sep_char; lit_ci "key"]; lit_ci "token"]);
        RWordB;
        RGroup 2 (rseq [RStar true is_space; RChr (one_of ":="); RStar true is_space]);
        RGroup 3 (rplus (fun c => negb (is_space c || one_of quote_chars c)))].
Definition bearer_char (c : ascii) : bool := is_alpha c || is_digit c || one_of "._~+/=-" c.
Definition AUTHORIZATION_BEARER_PATTERN : re :=
  rseq [RWordB; lit_ci "Authorization";
        RGroup 1 (rseq [RStar true is_space; RChr (Ascii.eqb ":"%char); RStar true is_space]);
        lit_ci "Bearer"; rplus is_space; rplus bearer_char].
Definition BEARER_TOKEN_PATTERN : re :=
  rseq [RWordB; lit_ci "Bearer"; rplus is_space; rplus bearer_char].
Definition upper_or_space (c : ascii) : bool := is_upper c || Ascii.eqb c " "%char.
Definition PRIVATE_KEY_PATTERN : re :=
  rseq [lit "-----BEGIN "; RStar true upper_or_space; lit "PRIVATE KEY-----";
        RStar false (fun _ => true);
        lit "-----END "; RStar true upper_or_space; lit "PRIVATE KEY-----"].

Definition _redact_sensitive_string (value : string) : string :=
  let redacted := re_sub PRIVATE_KEY_PATTERN (fun _ => chars REDACTED) value in
  let redacted := re_sub AUTHORIZATION_BEARER_PATTERN
    (fun m => chars "Authorization" ++ group 1 m ++ chars "Bearer " ++ chars REDACTED) redacted in
  let redacted := re_sub BEARER_TOKEN_PATTERN (fun _ => chars ("Bearer " +:+ REDACTED)) redacted in
  re_sub SECRET_ASSIGNMENT_PATTERN (fun m => group 1 m ++ group 2 m ++ chars REDACTED) redacted.

(** [s.replace(a, b)] for single characters *)
Definition replace_char (a b : ascii) (s : string) : string :=
  of_chars (map (fun c => if Ascii.eqb c a then b else c) (chars s)).

Definition _is_sensitive_key (key : string) : bool :=
  let normalized := replace_char " " "-" (casefold key) in
  existsb (fun part => contains part normalized) SENSITIVE_KEY_PARTS.

Fixpoint redact_sensitive_data (v : value) : value :=
  match v with
  | VDict d =>
      VDict (map (fun '(key, nested) =>
        (key, if _is_sensitive_key key then VStr REDACTED else redact_sensitive_data nested)) d)
  | VList l => VList (map redact_sensitive_data l)
  | VStr s => VStr (_redact_sensitive_string s)
  | _ => v
  end.

(** ** Paths *)

Definition removesuffix (suffix s : string) : string :=
  if negb (String.eqb suffix "") && startswith (of_chars (reverse (chars suffix))) (of_chars (reverse (chars s)))
  then str_take (String.length s - String.length suffix) s else s.

Abbreviation path := (list string).

(** The slugs of the parts, the last one with [.json]; no parts give [Path()]. *)
Definition _relative_path (raw_parts : list string) : path :=
  let safe_parts := map (fun part => slug_id (removesuffix ".json" part) None)
                      (List.filter (fun part => negb (String.eqb part "")) raw_parts) in
  match reverse safe_parts with
  | [] => []
  | filename :: directories => reverse directories ++ [filename +:+ ".json"]
  end.

Definition _field_path (parts : list string) : path :=
  let safe_parts := map (fun part => slug_id part None)
                      (List.filter (fun part => negb (String.eqb part "")) parts) in
  match safe_parts with [] => ["root"] | _ => safe_parts end.

(** [Path.as_posix()]; the empty path is ["."]. *)
Definition as_posix (p : path) : string := match p with [] => "." | _ => join "/" p end.

(** [path.with_suffix("")] for a last component ending in [.json] *)
Definition without_json (p : path) : res path :=
  match reverse p with
  | [] => Raise (ValueError "PosixPath('.') has an empty name")
  | filename :: directories => Ok (reverse directories ++ [removesuffix ".json" filename])
  end.

(** ** Stored contents *)

Inductive content :=
| FJson (v : value)
| FText (s : string).
#[export] Instance content_eq_dec : EqDecision content.
Proof. solve_decision. Defined.

Fixpoint stored_json (v : value) : value :=
  match v with
  | VDict d =>
      VDict (py_sorted (fun a b => str_leb a.1 b.1) (map (fun '(k, x) => (k, stored_json x)) d))
  | VList l => VList (map stored_json l)
  | _ => v
  end.

Record JsonArtifactStore := mkJsonArtifactStore {
  root : path;
  uri_prefix : string;
  chunk_string_threshold_bytes : Z;
  chunk_size_bytes : Z;
}.

Abbreviation files := (gmap path content).
Abbreviation art A := (eff files exn A).

Definition write_file (relative : path) (c : content) : art unit := modify (<[relative := c]>).

Section artifact_store.
Context (a : JsonArtifactStore).

Definition uri_for (raw_parts : list string) : string :=
  uri_prefix a +:+ "/" +:+ as_posix (_relative_path raw_parts).
Definition uri_for_raw (relative : path) : string := uri_prefix a +:+ "/" +:+ as_posix relative.

(** [encoded[start : start + size] for start in range(0, len(encoded), size)], with the starts *)
Fixpoint chunks_from (fuel : nat) (size : nat) (start : Z) (encoded : list ascii)
    : list (Z * list ascii) :=
  match fuel, encoded with
  | S fuel', _ :: _ =>
      (start, take size encoded)
      :: chunks_from fuel' size (start + Z.of_nat size)%Z (drop size encoded)
  | _, _ => []
  end.

Definition text_chunks (encoded : list ascii) : res (list (Z * list ascii)) :=
  if (chunk_size_bytes a =? 0)%Z then Raise (ValueError "range() arg 3 must not be zero")
  else if (chunk_size_bytes a <? 0)%Z then Ok []
  else Ok (chunks_from (length encoded) (Z.to_nat (chunk_size_bytes a)) 0 encoded).

Fixpoint write_chunks (chunk_dir : path) (index : Z) (l : list (Z * list ascii)) : art (list value) :=
  match l with
  | [] => mret []
  | (start, chunk) :: l' =>
      let relative := chunk_dir ++ [pad_left 4 (zstr index) +:+ ".txt"] in
      write_file relative (FText (of_chars chunk)) ;;
      rest ← write_chunks chunk_dir (index + 1)%Z l';
      mret (VDict [("index", VInt index); ("uri", VStr (uri_for_raw relative));
                   ("byte_start", VInt start); ("byte_length", VInt (Z.of_nat (length chunk)))] :: rest)
  end.

Definition chunk_manifest (byte_length : Z) (chunks : list value) : value :=
  VDict
    [("artifact_kind", VStr "chunked_text"); ("encoding", VStr "utf-8");
     ("byte_length", VInt byte_length); ("chunk_size_bytes", VInt (chunk_size_bytes a));
     ("chunk_count", VInt (Z.of_nat (length chunks))); ("chunks", VList chunks)].

Definition _write_chunked_text (base_path : path) (field_path : list string) (encoded : list ascii)
    : art value :=
  let chunk_dir := base_path ++ ["chunks"] ++ _field_path field_path in
  pieces ← lift (text_chunks encoded);
  chunks ← write_chunks chunk_dir 0 pieces;
  let manifest_relative := chunk_dir ++ ["manifest.json"] in
  let manifest := chunk_manifest (Z.of_nat (length encoded)) chunks in
  write_file manifest_relative (FJson (stored_json manifest)) ;;
  mret (VDict
    [("artifact_ref", VStr "chunked_text"); ("manifest_uri", VStr (uri_for_raw manifest_relative));
     ("encoding", VStr "utf-8"); ("byte_length", VInt (Z.of_nat (length encoded)));
     ("chunk_count", VInt (Z.of_nat (length chunks)))]).

Fixpoint _chunk_large_strings_at (base_path : path) (v : value) (field_path : list string)
    {struct v} : art value :=
  match v with
  | VStr s =>
      if (Z.of_nat (String.length s) <=? chunk_string_threshold_bytes a)%Z then mret v
      else _write_chunked_text base_path field_path (chars s)
  | VDict d =>
      d' ← (fix go (d : list (string * value)) : art (list (string * value)) :=
              match d with
              | [] => mret []
              | (key, nested) :: d' =>
                  x ← _chunk_large_strings_at base_path nested (field_path ++ [key]);
                  xs ← go d'; mret ((key, x) :: xs)
              end) d;
      mret (VDict d')
  | VList l =>
      l' ← (fix go (index : Z) (l : list value) : art (list value) :=
              match l with
              | [] => mret []
              | nested :: l' =>
                  x ← _chunk_large_strings_at base_path nested (field_path ++ [zstr index]);
                  xs ← go (index + 1)%Z l'; mret (x :: xs)
              end) 0%Z l;
      mret (VList l')
  | _ => mret v
  end.

Definition write_json (relative_path : list string) (payload : value) (redact : bool) : art string :=
  let relative := _relative_path relative_path in
  let artifact_payload := if redact then redact_sensitive_data payload else payload in
  base_path ← lift (without_json relative);
  artifact_payload ← _chunk_large_strings_at base_path artifact_payload [];
  write_file relative (FJson (stored_json artifact_payload)) ;;
  mret (uri_for relative).

(** [Path(s)] as components: empty and ["."] ones vanish; a leading slash makes it absolute. *)
Definition path_parts (s : string) : path :=
  List.filter (fun c => negb (String.eqb c "") && negb (String.eqb c ".")) (split_on "/"%char s).

(** [resolve()], without symbolic links: [".."] removes the component before it. *)
Fixpoint resolve_onto (acc : path) (p : path) : path :=
  match p with
  | [] => acc
  | c :: p' => resolve_onto (if String.eqb c ".." then removelast acc else acc ++ [c]) p'
  end.

Fixpoint strip_root (r p : path) : option path :=
  match r, p with
  | [], _ => Some p
  | x :: r', y :: p' => if String.eqb x y then strip_root r' p' else None
  | _ :: _, [] => None
  end.

(** [json.loads] of a text file is the standard library's parser. *)
Context (json_loads : string -> res value).

Definition read_json (uri : string) : art value :=
  let prefix := uri_prefix a +:+ "/" in
  lift (raise_if (negb (startswith prefix uri)) (ValueError "Artifact URI is outside this store.")) ;;
  let rest := removeprefix prefix uri in
  let target := if startswith "/" rest then resolve_onto [] (path_parts rest)
                else resolve_onto (root a) (path_parts rest) in
  match strip_root (root a) target with
  | None => throw (ValueError "Artifact URI escapes the artifact root.")
  | Some relative =>
      fs ← gets (fun f : files => f);
      match fs !! relative with
      | Some (FJson v) => mret v
      | Some (FText s) => lift (json_loads s)
      | None => throw (FileNotFoundError ("No such file or directory: " +:+ as_posix relative))
      end
  end.
End artifact_store.

Example redact_ex : _redact_sensitive_string
  "Authorization: bearer abc.DEF, token = xyz; my-api_key: 12 secretive" =
  "Authorization: Bearer [REDACTED], token = [REDACTED]; my-api_key: [REDACTED] secretive".
Proof. vm_compute. reflexivity. Qed.
Example path_ex : _relative_path ["traces"; "Run 1"; ""; "003-x.json"] = ["traces"; "run-1"; "id-003-x.json"].
Proof. vm_compute. reflexivity. Qed.

(** ** Path components *)

Definition is_dot : ascii -> bool := Ascii.eqb "."%char.
Definition path_char (c : ascii) : bool := slug_char c || is_dash c || is_dot c.

(** A component that names a file or directory of its parent and nothing else. *)
Definition safe_component (s : string) : Prop :=
  exists c l, chars s = c :: l /\ slug_char c = true /\ forallb path_char l = true.
Definition slug_name (s : string) : Prop := is_slug (chars s) /\ (String.length s <= 96)%nat.

Lemma slug_name_slug_id s : slug_name (slug_id s None).
Proof. by apply slug_id_is_slug. Qed.

Lemma slug_name_chars s : slug_name s -> exists c l, chars s = c :: l /\ is_lower c = true /\
  forallb (fun x => slug_char x || is_dash x) l = true.
Proof.
  intros [[(H & _ & c & l & E & Hc) _] _]. exists c, l. split; [done|]. split; [done|].
  apply forallb_forall. intros x Hx. destruct (H x) as [Hs| ->]; [rewrite E; by right| |done].
  by rewrite Hs.
Qed.

Lemma slug_name_safe s ext :
  slug_name s -> forallb path_char (chars ext) = true -> safe_component (s +:+ ext).
Proof.
  intros (c & l & E & Hc & Hl)%slug_name_chars Hext. exists c, (l ++ chars ext).
  rewrite chars_app, E. split; [done|]. split; [unfold slug_char; by rewrite Hc|].
  rewrite forallb_app, Hext, andb_true_r. rewrite forallb_forall in *. intros x Hx.
  unfold path_char. by rewrite (Hl x Hx).
Qed.

Lemma slug_name_safe' s : slug_name s -> safe_component s.
Proof. intros (c & l & E & Hc & Hl)%slug_name_chars. exists c, l. split; [done|].
  split; [unfold slug_char; by rewrite Hc|].
  rewrite forallb_forall in *. intros x Hx. unfold path_char. by rewrite (Hl x Hx).
Qed.

Lemma path_char_not_slash x : path_char x = true -> x <> "/"%char.
Proof. by intros H ->. Qed.

Lemma safe_component_spec s :
  safe_component s -> s <> "" /\ s <> "." /\ s <> ".." /\ ~ In "/"%char (chars s).
Proof.
  intros (c & l & E & Hc & Hl). split_and!; try (intros ->; injection E as <- <-; done); [by intros ->|].
  rewrite E. intros [->|Hin]; [done|]. rewrite forallb_forall in Hl.
  by apply (path_char_not_slash _ (Hl _ Hin)).
Qed.

Lemma removesuffix_app suffix s : suffix <> "" -> removesuffix suffix (s +:+ suffix) = s.
Proof.
  intros Hne. unfold removesuffix. rewrite (proj2 (String.eqb_neq _ _) Hne). cbn [negb andb].
  rewrite chars_app, reverse_app. replace (startswith _ _) with true.
  - unfold str_take. rewrite chars_app, <- !length_chars, chars_app, length_app, Nat.add_sub, take_app_length.
    apply of_chars_chars.
  - symmetry. rewrite <- (of_chars_chars (of_chars (reverse (chars suffix) ++ reverse (chars s)))).
    rewrite chars_of_chars. replace (of_chars (reverse (chars suffix) ++ reverse (chars s)))
      with (of_chars (reverse (chars suffix)) +:+ of_chars (reverse (chars s))); [apply startswith_app|].
    rewrite <- (of_chars_chars (_ +:+ _)), chars_app, !chars_of_chars. done.
Qed.

Lemma removesuffix_absent suffix s c :
  In c (chars suffix) -> ~ In c (chars s) -> removesuffix suffix s = s.
Proof.
  intros Hc Hs. unfold removesuffix. destruct (negb _ && _) eqn:E; [|done].
  apply andb_true_iff in E as [_ (t & E)%startswith_spec]. exfalso. apply Hs.
  apply (f_equal chars) in E. rewrite chars_app, !chars_of_chars in E.
  apply (f_equal reverse) in E. rewrite reverse_involutive, reverse_app, reverse_involutive in E.
  rewrite E. apply in_or_app. by right.
Qed.

Lemma slug_name_no_dot s : slug_name s -> ~ In "."%char (chars s).
Proof.
  intros (c & l & E & Hc & Hl)%slug_name_chars. rewrite E. intros [->|Hin]; [done|].
  rewrite forallb_forall in Hl. by specialize (Hl _ Hin).
Qed.

Lemma relative_path_cases parts :
  _relative_path parts = [] \/
  exists dirs file, Forall slug_name dirs /\ slug_name file /\
    _relative_path parts = dirs ++ [file +:+ ".json"].
Proof.
  unfold _relative_path. set (safe := map _ _).
  assert (Hsafe : Forall slug_name safe).
  { apply Forall_forall. intros x (y & <- & _)%list_elem_of_In%in_map_iff. apply slug_name_slug_id. }
  destruct (reverse safe) as [|file dirs] eqn:E; [by left|right].
  exists (reverse dirs), file. apply (f_equal reverse) in E. rewrite reverse_involutive, reverse_cons in E.
  rewrite E in Hsafe. apply Forall_app in Hsafe as [H1 H2]. inversion H2; subst. done.
Qed.

Lemma relative_path_safe parts : Forall safe_component (_relative_path parts).
Proof.
  destruct (relative_path_cases parts) as [->|(dirs & file & Hd & Hf & ->)]; [constructor|].
  apply Forall_app. split; [eapply Forall_impl; [exact Hd|apply slug_name_safe']|].
  constructor; [|constructor]. by apply slug_name_safe.
Qed.

Lemma without_json_slug dirs file :
  without_json (dirs ++ [file +:+ ".json"]) = Ok (dirs ++ [file]).
Proof. unfold without_json. rewrite reverse_snoc, reverse_involutive, removesuffix_app by done. done. Qed.

(** A relative path of the store is its own relative path. *)
Lemma relative_path_fixed dirs file :
  Forall slug_name dirs -> slug_name file ->
  _relative_path (dirs ++ [file +:+ ".json"]) = dirs ++ [file +:+ ".json"].
Proof.
  intros Hd Hf. unfold _relative_path.
  assert (Hfilter : forall l, Forall safe_component l ->
    List.filter (fun part => negb (String.eqb part "")) l = l).
  { induction 1 as [|x l Hx Hl IH]; cbn; [done|]. apply safe_component_spec in Hx as [Hx _].
    rewrite (proj2 (String.eqb_neq _ _) Hx). cbn. by rewrite IH. }
  rewrite Hfilter.
  2:{ apply Forall_app. split; [eapply Forall_impl; [exact Hd|apply slug_name_safe']|].
      constructor; [by apply slug_name_safe|constructor]. }
  rewrite map_app. cbn [map]. rewrite removesuffix_app by done.
  replace (map _ dirs) with dirs.
  - rewrite (slug_id_of_slug file) by apply Hf. rewrite reverse_snoc, reverse_involutive. done.
  - symmetry. rewrite <- (map_id dirs) at 2. apply map_ext_in. intros x Hx%list_elem_of_In.
    rewrite Forall_forall in Hd. specialize (Hd x Hx).
    rewrite (removesuffix_absent _ _ "."%char) by (first [by apply slug_name_no_dot | by left]).
    apply slug_id_of_slug; apply Hd.
Qed.

Lemma relative_path_slugs dirs file :
  Forall slug_name dirs -> slug_name file -> _relative_path (dirs ++ [file]) = dirs ++ [file +:+ ".json"].
Proof.
  intros Hd Hf. rewrite <- (relative_path_fixed dirs file Hd Hf). unfold _relative_path.
  rewrite !List.filter_app, !map_app. cbn [List.filter].
  assert (Hne : forall s, safe_component s -> negb (String.eqb s "") = true).
  { intros s (Hs & _)%safe_component_spec. by rewrite (proj2 (String.eqb_neq _ _) Hs). }
  rewrite (Hne file), (Hne (file +:+ ".json")) by (by apply slug_name_safe || by apply slug_name_safe').
  cbn [map]. rewrite removesuffix_app by done.
  rewrite (removesuffix_absent ".json" file "."%char) by (first [by apply slug_name_no_dot | by left]). done.
Qed.

Lemma field_path_safe parts : Forall safe_component (_field_path parts).
Proof.
  unfold _field_path. set (safe := map _ _).
  assert (Hsafe : Forall safe_component safe).
  { apply Forall_forall. intros x (y & <- & _)%list_elem_of_In%in_map_iff.
    apply slug_name_safe', slug_name_slug_id. }
  destruct safe; [|done]. constructor; [|constructor]. by eexists _, _.
Qed.

Lemma chunk_name_safe n : (0 <= n)%Z -> safe_component (pad_left 4 (zstr n) +:+ ".txt").
Proof.
  intros Hn. set (d := pad_left 4 (zstr n)).
  assert (Hd : forallb is_digit (chars d) = true) by (by apply pad_left_decimal, zstr_decimal).
  assert (Hne : chars d <> []).
  { intros E. apply (f_equal length) in E. rewrite length_chars in E. revert E. unfold d, pad_left.
    generalize (zstr n). intros s. assert (forall k t, String.length (zeros k +:+ t) = (k + String.length t)%nat) as ->.
    { induction k as [|k IH]; intros t; cbn; [done|]. by rewrite <- IH. }
    cbn. lia. }
  destruct (chars d) as [|c l] eqn:E; [done|]. exists c, (l ++ chars ".txt").
  rewrite chars_app, E. cbn in Hd. apply andb_true_iff in Hd as [Hc Hl].
  split; [done|]. split; [unfold slug_char; by rewrite Hc, orb_true_r|].
  rewrite forallb_app. apply andb_true_iff. split; [|done]. rewrite forallb_forall in *.
  intros x Hx. unfold path_char, slug_char. by rewrite (Hl x Hx), orb_true_r.
Qed.

(** ** Reading a path back *)

Lemma join_safe p : p <> [] -> Forall safe_component p ->
  path_parts (join "/" p) = p /\ startswith "/" (join "/" p) = false.
Proof.
  intros Hne Hp. split.
  - unfold path_parts. rewrite split_on_join.
    + induction Hp as [|x l Hx Hl IH]; cbn; [done|].
      apply safe_component_spec in Hx as (H1 & H2 & _).
      rewrite (proj2 (String.eqb_neq x "") H1), (proj2 (String.eqb_neq x ".") H2). cbn. f_equal.
      destruct l; [done|by apply IH].
    + done.
    + rewrite Forall_forall in Hp. intros s Hs%list_elem_of_In. apply Hp, safe_component_spec in Hs. apply Hs.
  - destruct p as [|x l]; [done|]. inversion Hp as [|? ? (c & t & E & Hc & _) _]; subst.
    destruct (startswith "/" _) eqn:Hs; [|done]. exfalso.
    rewrite <- (of_chars_chars (join "/" (x :: l))) in Hs. apply startswith_head in Hs.
    destruct l as [|y l]; cbn [join String.concat] in Hs; rewrite ?chars_app, E in Hs; injection Hs as ->; done.
Qed.

Lemma resolve_onto_safe acc p : Forall safe_component p -> resolve_onto acc p = acc ++ p.
Proof.
  intros Hp. revert acc. induction Hp as [|x l Hx Hl IH]; intros acc; cbn; [by rewrite app_nil_r|].
  apply safe_component_spec in Hx as (_ & _ & H & _).
  rewrite (proj2 (String.eqb_neq _ _) H), IH. by rewrite <- app_assoc.
Qed.

Lemma strip_root_app r p : strip_root r (r ++ p) = Some p.
Proof. induction r as [|x r IH]; cbn; [done|]. by rewrite String.eqb_refl. Qed.

Lemma strip_root_Some r p q : strip_root r p = Some q -> p = r ++ q.
Proof.
  revert p. induction r as [|x r IH]; intros [|y p]; cbn; try done; [by intros [= ->]..|].
  destruct (String.eqb_spec x y) as [->|]; [|done]. intros H. by rewrite (IH p H).
Qed.

Lemma read_json_at a json_loads p s v :
  p <> [] -> Forall safe_component p -> s !! p = Some (FJson v) ->
  read_json a json_loads (uri_for_raw a p) s = (Ok v, s).
Proof.
  intros Hne Hp Hs. unfold read_json, uri_for_raw. destruct (join_safe p Hne Hp) as [H1 H2].
  replace (as_posix p) with (join "/" p) by (by destruct p).
  assert (E : uri_prefix a +:+ "/" +:+ join "/" p = (uri_prefix a +:+ "/") +:+ join "/" p)
    by apply app_text_assoc.
  rewrite E, startswith_app, removeprefix_app, H1, H2, resolve_onto_safe, strip_root_app by done.
  change (raise_if (negb true) _) with (@Ok exn unit tt). rewrite eff_lift_Ok, eff_gets, Hs. done.
Qed.

(** ** Confinement: what an operation can write *)

(** Every file an operation changes lies under [base/chunks]. *)
Definition writes_under {A} (base : path) (m : art A) : Prop :=
  forall s p, (m s).2 !! p <> s !! p ->
    exists q, p = base ++ "chunks" :: q /\ Forall safe_component q /\ q <> [].

Section writes_under.
Context (base : path).

Lemma wu_ret {A} (x : A) : writes_under base (mret x).
Proof. intros s p H. done. Qed.
Lemma wu_lift {A} (m : res A) : writes_under base (lift m).
Proof. intros s p H. done. Qed.
Lemma wu_bind {A B : Type} (m : art A) (k : A -> art B) :
  writes_under base m -> (forall x, writes_under base (k x)) -> writes_under base (m ≫= k).
Proof.
  intros Hm Hk s p H. unfold mbind, eff_bind in H. specialize (Hm s p).
  destruct (m s) as [[x|e] s1]; cbn in *; [|by apply Hm].
  destruct (decide (s1 !! p = s !! p)) as [E|E]; [|by apply Hm].
  apply (Hk x s1 p). by rewrite E.
Qed.
Lemma wu_write q c : Forall safe_component q -> q <> [] ->
  writes_under base (write_file (base ++ "chunks" :: q) c).
Proof.
  intros Hq Hne s p H. destruct (decide (base ++ "chunks" :: q = p)) as [<-|E]; [by exists q|].
  unfold write_file, modify in H. cbn in H. by rewrite lookup_insert_ne in H.
Qed.
End writes_under.

Lemma write_chunks_under a base q index l :
  (0 <= index)%Z -> Forall safe_component q ->
  writes_under base (write_chunks a (base ++ "chunks" :: q) index l).
Proof.
  intros Hi Hq. revert index Hi. induction l as [|[start chunk] l IH]; intros index Hi; cbn [write_chunks].
  - apply wu_ret.
  - cbv zeta. rewrite <- app_assoc. apply wu_bind; [|intros _; apply wu_bind; [apply IH; lia|intros; apply wu_ret]].
    cbn [app]. apply wu_write; [|by destruct q]. apply Forall_app. split; [done|].
    constructor; [by apply chunk_name_safe|constructor].
Qed.

Lemma write_chunked_text_under a base fp encoded :
  writes_under base (_write_chunked_text a base fp encoded).
Proof.
  unfold _write_chunked_text. cbv zeta. change (["chunks"] ++ ?q) with ("chunks" :: q).
  pose proof (field_path_safe fp) as Hfp.
  apply wu_bind; [apply wu_lift|intros pieces].
  apply wu_bind; [by apply write_chunks_under|intros chunks].
  apply wu_bind; [|intros _; apply wu_ret].
  rewrite <- app_assoc. apply wu_write; [|by destruct (_field_path fp)].
  apply Forall_app. split; [done|]. constructor; [by eexists _, _|constructor].
Qed.

Lemma chunk_large_strings_under a base v fp : writes_under base (_chunk_large_strings_at a base v fp).
Proof.
  revert fp. induction v as [| | |s|l IH|d IH] using value_rect_forall; intros fp; cbn [_chunk_large_strings_at];
    try apply wu_ret.
  - destruct (_ <=? _)%Z; [apply wu_ret|apply write_chunked_text_under].
  - apply wu_bind; [|intros; apply wu_ret]. generalize 0%Z.
    induction IH as [|x l Hx Hl IHl]; intros i; [apply wu_ret|].
    apply wu_bind; [apply Hx|intros ?]. apply wu_bind; [apply IHl|intros; apply wu_ret].
  - apply wu_bind; [|intros; apply wu_ret].
    induction IH as [|[k x] d Hx Hd IHd]; [apply wu_ret|].
    apply wu_bind; [apply Hx|intros ?]. apply wu_bind; [apply IHd|intros; apply wu_ret].
Qed.

(** ** Chunked texts *)

Definition chunk_name (i : nat) : string := pad_left 4 (zstr (Z.of_nat i)) +:+ ".txt".

Lemma chunk_name_inj i j : chunk_name i = chunk_name j -> i = j.
Proof.
  unfold chunk_name. intros E. apply (f_equal (removesuffix ".txt")) in E.
  rewrite !removesuffix_app in E by done. apply pad_left_zstr_inj in E; lia.
Qed.

Definition chunk_ref (a : JsonArtifactStore) (dir : path) (i : nat) (start : Z) (chunk : list ascii) : value :=
  VDict [("index", VInt (Z.of_nat i)); ("uri", VStr (uri_for_raw a (dir ++ [chunk_name i])));
         ("byte_start", VInt start); ("byte_length", VInt (Z.of_nat (length chunk)))].

Lemma chunks_from_spec fuel size start l :
  (0 < size)%nat -> (length l <= fuel)%nat ->
  concat (map snd (chunks_from fuel size start l)) = l /\
  forall i st ch, chunks_from fuel size start l !! i = Some (st, ch) ->
    (st = start + Z.of_nat (i * size))%Z /\ (0 < length ch <= size)%nat.
Proof.
  intros Hs. revert start l. induction fuel as [|fuel IH]; intros start [|x l] Hl; cbn [chunks_from];
    try (split; [done|intros i st ch H; by rewrite lookup_nil in H]); [cbn in Hl; lia|].
  destruct (IH (start + Z.of_nat size)%Z (drop size (x :: l))) as [IH1 IH2].
  { rewrite length_drop. cbn in *. lia. }
  split.
  - cbn [map concat]. rewrite IH1. apply take_drop.
  - intros [|i] st ch H; cbn in H.
    + injection H as <- <-. rewrite length_take. cbn [length]. split; lia.
    + apply IH2 in H as [-> H]. split; [lia|done].
Qed.

Lemma write_chunks_spec a dir i l s :
  exists refs s', write_chunks a dir (Z.of_nat i) l s = (Ok refs, s') /\
    length refs = length l /\
    (forall k st ch, l !! k = Some (st, ch) ->
       refs !! k = Some (chunk_ref a dir (i + k) st ch) /\
       s' !! (dir ++ [chunk_name (i + k)]) = Some (FText (of_chars ch))) /\
    (forall p, (forall k, (i <= k)%nat -> p <> dir ++ [chunk_name k]) -> s' !! p = s !! p).
Proof.
  revert i s. induction l as [|[st ch] l IH]; intros i s.
  { eexists [], s. split; [done|]. split; [done|]. split; [|done]. intros k st ch H. by rewrite lookup_nil in H. }
  set (s1 := <[dir ++ [chunk_name i] := FText (of_chars ch)]> s).
  destruct (IH (S i) s1) as (refs & s' & E & Hlen & Hk & Hp). exists (chunk_ref a dir i st ch :: refs), s'.
  split_and!.
  - cbn [write_chunks]. unfold write_file. rewrite eff_modify. fold (chunk_name i). fold s1.
    apply eff_bind_Ok. exists refs, s'. split; [|done]. replace (Z.of_nat i + 1)%Z with (Z.of_nat (S i)) by lia.
    exact E.
  - cbn. by rewrite Hlen.
  - intros [|k] st' ch' H; cbn in H.
    + injection H as <- <-. rewrite Nat.add_0_r. split; [done|]. rewrite Hp.
      * unfold s1. by rewrite lookup_insert_eq.
      * intros k Hk' Heq. apply app_inv_head in Heq. injection Heq as Heq%chunk_name_inj. lia.
    + apply Hk in H. rewrite <- Nat.add_succ_comm. exact H.
  - intros p H. rewrite Hp by (intros k ?; apply H; lia). unfold s1.
    rewrite lookup_insert_ne; [done|]. intros <-. by apply (H i).
Qed.

Lemma join_of_chars l : join "" (map of_chars l) = of_chars (concat l).
Proof.
  induction l as [|x l IH]; [done|]. cbn [map concat].
  assert (E : join "" (of_chars x :: map of_chars l) = of_chars x +:+ join "" (map of_chars l)).
  { destruct l; [|done]. cbn. rewrite <- (of_chars_chars (_ +:+ "")), chars_app, chars_of_chars.
    cbn. by rewrite app_nil_r. }
  rewrite E, IH, <- (of_chars_chars (_ +:+ _)), chars_app, !chars_of_chars. done.
Qed.

(** ** Round trips *)

(** Every text fits in the threshold, so nothing is chunked. *)
Fixpoint small_strings (limit : Z) (v : value) : bool :=
  match v with
  | VStr s => (Z.of_nat (String.length s) <=? limit)%Z
  | VList l => forallb (small_strings limit) l
  | VDict d => forallb (fun kv => small_strings limit kv.2) d
  | _ => true
  end.

(** Python dictionaries hold each key once, at every depth. *)
Fixpoint unique_keys (v : value) : bool :=
  match v with
  | VList l => forallb unique_keys l
  | VDict d => bool_decide (NoDup (map fst d)) && forallb (fun kv => unique_keys kv.2) d
  | _ => true
  end.

Lemma small_not_chunked a base v fp s :
  small_strings (chunk_string_threshold_bytes a) v = true ->
  _chunk_large_strings_at a base v fp s = (Ok v, s).
Proof.
  revert fp s. induction v as [| | |t|l IH|d IH] using value_rect_forall; intros fp s H;
    cbn [_chunk_large_strings_at small_strings] in *; try done.
  - by rewrite H.
  - apply eff_bind_Ok. exists l, s. split; [|done]. generalize 0%Z.
    induction IH as [|x l Hx Hl IHl]; intros i; [done|]. cbn in H. apply andb_true_iff in H as [H1 H2].
    apply eff_bind_Ok. exists x, s. split; [by apply Hx|]. apply eff_bind_Ok. exists l, s. by split; [apply IHl|].
  - apply eff_bind_Ok. exists d, s. split; [|done].
    induction IH as [|[k x] d Hx Hd IHd]; [done|]. cbn in H. apply andb_true_iff in H as [H1 H2].
    apply eff_bind_Ok. exists x, s. split; [by apply Hx|]. apply eff_bind_Ok. exists d, s. by split; [apply IHd|].
Qed.

Lemma od_get_map {V W} (f : V -> W) k (d : odict V) :
  od_get k (map (fun '(k', x) => (k', f x)) d) = option_map f (od_get k d).
Proof. induction d as [|[k' x] d IH]; cbn; [done|]. by destruct (String.eqb k k'). Qed.

Lemma map_fst_map {V W} (f : V -> W) (d : odict V) :
  map fst (map (fun '(k, x) => (k, f x)) d) = map fst d.
Proof. induction d as [|[k x] d IH]; cbn; [done|]. by rewrite IH. Qed.

(** A stored value compares equal to the value that was stored. *)
Lemma stored_json_eq v : unique_keys v = true -> py_eq (stored_json v) v = true.
Proof.
  induction v as [|b|z|t|l IH|d IH] using value_rect_forall; intros H; cbn [stored_json unique_keys] in *.
  - done.
  - cbn. by rewrite Z.eqb_refl.
  - cbn. by rewrite Z.eqb_refl.
  - cbn. by rewrite String.eqb_refl.
  - cbn. induction IH as [|x l Hx Hl IHl]; cbn in *; [done|]. apply andb_true_iff in H as [H1 H2].
    by rewrite (Hx H1), IHl.
  - apply andb_true_iff in H as [Hnd H]. apply bool_decide_eq_true in Hnd.
    set (m := map (fun '(k, x) => (k, stored_json x)) d). cbn [py_eq].
    rewrite (Permutation_length (py_sorted_perm _ m)). unfold m at 1. rewrite length_map, Nat.eqb_refl.
    cbn [andb]. assert (Hin : forall kv, In kv (py_sorted (fun a b => str_leb a.1 b.1) m) ->
      exists y, od_get kv.1 d = Some y /\ py_eq kv.2 y = true).
    { intros [k x] ([k' y] & [= -> <-] & Hy)%py_sorted_In%in_map_iff. exists y.
      split; [by apply od_get_NoDup|]. rewrite Forall_forall in IH.
      rewrite forallb_forall in H. apply (IH (k, y)); [by apply list_elem_of_In|by apply (H (k, y))]. }
    clear H. induction (py_sorted _ m) as [|[k x] s' IHs]; [done|].
    destruct (Hin (k, x)) as (y & E & Hy); [by left|]. cbn in E. rewrite E. cbn in Hy. rewrite Hy.
    cbn [andb]. apply IHs. intros kv Hkv. apply Hin. by right.
Qed.

Lemma redact_unique_keys v : unique_keys v = true -> unique_keys (redact_sensitive_data v) = true.
Proof.
  induction v as [|b|z|t|l IH|d IH] using value_rect_forall; intros H; cbn [redact_sensitive_data unique_keys] in *; try done.
  - rewrite forallb_forall in *. rewrite Forall_forall in IH. intros x (y & <- & Hy)%in_map_iff.
    apply IH; [by apply list_elem_of_In|auto].
  - apply andb_true_iff in H as [Hnd H]. rewrite forallb_forall in *. rewrite Forall_forall in IH.
    apply andb_true_iff. split.
    + replace (map fst _) with (map fst d); [done|]. clear. induction d as [|[k x] d IH]; [done|]. cbn [map fst]. f_equal. exact IH.
    + apply forallb_forall. intros kv ([k y] & <- & Hy)%in_map_iff. cbn [snd].
      destruct (_is_sensitive_key k); [reflexivity|]. apply (IH (k, y)); [by apply list_elem_of_In|by apply (H (k, y))].
Qed.

(** ** Looking into a value: the keys and indices that lead to a part *)

Inductive step := Key (k : string) | Index (i : nat).

Fixpoint value_at (v : value) (p : list step) : option value :=
  match p with
  | [] => Some v
  | Key k :: p' => match v with VDict d => x ← od_get k d; value_at x p' | _ => None end
  | Index i :: p' => match v with VList l => x ← l !! i; value_at x p' | _ => None end
  end.

Definition sensitive_step (st : step) : bool := match st with Key k => _is_sensitive_key k | Index _ => false end.

Lemma od_get_redacted k d :
  od_get k (map (fun '(key, nested) =>
    (key, if _is_sensitive_key key then VStr REDACTED else redact_sensitive_data nested)) d) =
  option_map (fun x => if _is_sensitive_key k then VStr REDACTED else redact_sensitive_data x) (od_get k d).
Proof.
  induction d as [|[k' x] d IH]; [done|]. cbn [map od_get].
  destruct (String.eqb_spec k k') as [->|]; [done|exact IH].
Qed.

Lemma redact_value_at v p :
  existsb sensitive_step p = false ->
  value_at (redact_sensitive_data v) p = option_map redact_sensitive_data (value_at v p).
Proof.
  revert v. induction p as [|st p IH]; intros v H; [done|].
  cbn [existsb] in H. apply orb_false_iff in H as [Hst Hp]. specialize (IH).
  destruct st as [k|i]; destruct v as [| | |t|l|d]; try done; cbn [redact_sensitive_data value_at].
  - rewrite od_get_redacted. destruct (od_get k d) as [x|]; [|done]. cbn [option_map mbind option_bind].
    cbn [sensitive_step] in Hst. rewrite Hst. by apply IH.
  - change (map redact_sensitive_data l) with (redact_sensitive_data <$> l). rewrite list_lookup_fmap.
    destruct (l !! i) as [x|]; [|done]. cbn. by apply IH.
Qed.

Lemma value_at_app v p q : value_at v (p ++ q) = x ← value_at v p; value_at x q.
Proof.
  revert v. induction p as [|[k|i] p IH]; intros v; [done| |]; destruct v as [| | |t|l|d]; try done; cbn.
  - destruct (od_get k d); [apply IH|done].
  - destruct (l !! i); [apply IH|done].
Qed.

(** ** What a write changes, and reading it back *)

Lemma write_json_changes a parts payload redact s p :
  (write_json a parts payload redact s).2 !! p <> s !! p ->
  exists base, without_json (_relative_path parts) = Ok base /\
    (p = _relative_path parts \/ exists q, p = base ++ "chunks" :: q) /\
    Forall safe_component p /\ forall acc, resolve_onto acc p = acc ++ p.
Proof.
  unfold write_json. cbv zeta. intros H.
  destruct (relative_path_cases parts) as [E0|(dirs & file & Hd & Hf & Erel)]; [by rewrite E0 in H|].
  pose proof (relative_path_safe parts) as Hsafe.
  rewrite Erel in H, Hsafe |- *. rewrite without_json_slug in H |- *. exists (dirs ++ [file]). split; [done|].
  assert (Hbase : Forall safe_component (dirs ++ [file])).
  { apply Forall_app. split; [eapply Forall_impl; [exact Hd|apply slug_name_safe']|].
    constructor; [by apply slug_name_safe'|constructor]. }
  assert (Hgo : (p = dirs ++ [file +:+ ".json"] \/ exists q, p = (dirs ++ [file]) ++ "chunks" :: q) /\
    Forall safe_component p); 
    [|destruct Hgo; split_and!; [done|done|intros acc; by apply resolve_onto_safe]].
  rewrite eff_lift_Ok in H. unfold mbind at 1, eff_bind at 1 in H.
  set (payload' := if redact then redact_sensitive_data payload else payload) in *.
  pose proof (chunk_large_strings_under a (dirs ++ [file]) payload' [] s p) as Hu.
  destruct (_chunk_large_strings_at a (dirs ++ [file]) payload' [] s) as [[x|e] s1]; cbn [snd] in *.
  - unfold write_file in H. rewrite eff_modify in H. cbn [snd mret eff_ret] in H.
    destruct (decide (dirs ++ [file +:+ ".json"] = p)) as [<-|Hne]; [split; [by left|done]|].
    rewrite lookup_insert_ne in H by done. destruct (Hu H) as (q & -> & Hq & _).
    split; [right; by exists q|]. apply Forall_app. split; [done|]. constructor; [by eexists _, _|done].
  - destruct (Hu H) as (q & -> & Hq & _).
    split; [right; by exists q|]. apply Forall_app. split; [done|]. constructor; [by eexists _, _|done].
Qed.

(** The first component of a path with a second part is the first part's slug. *)
Lemma relative_path_head p1 p2 rest :
  p1 <> "" -> p2 <> "" -> In p2 rest ->
  exists dirs file, _relative_path (p1 :: rest) = slug_id (removesuffix ".json" p1) None :: dirs ++ [file +:+ ".json"].
Proof.
  intros H1 H2 Hin. unfold _relative_path. cbn [List.filter].
  rewrite (proj2 (String.eqb_neq _ _) H1). cbn [negb map].
  set (l := map _ (List.filter _ rest)). assert (Hl : l <> []).
  { unfold l. intros E%map_eq_nil. assert (Hp : In p2 (List.filter (fun part => negb (String.eqb part "")) rest)).
    { apply filter_In. split; [done|]. by rewrite (proj2 (String.eqb_neq _ _) H2). }
    by rewrite E in Hp. }
  rewrite reverse_cons. destruct (reverse l) as [|file dirs] eqn:E.
  - apply (f_equal reverse) in E. rewrite reverse_involutive in E. done.
  - exists (reverse dirs), file. cbn [app]. by rewrite reverse_snoc.
Qed.

(** A write below one directory leaves the other ones alone. *)
Lemma write_json_keeps a p1 p2 rest payload redact s p :
  p1 <> "" -> p2 <> "" -> In p2 rest -> head p <> Some (slug_id (removesuffix ".json" p1) None) ->
  (write_json a (p1 :: rest) payload redact s).2 !! p = s !! p.
Proof.
  intros H1 H2 Hin Hp. destruct (relative_path_head p1 p2 rest H1 H2 Hin) as (dirs & file & E).
  destruct (decide ((write_json a (p1 :: rest) payload redact s).2 !! p = s !! p)) as [|Hne]; [done|exfalso].
  apply write_json_changes in Hne as (base & Hb & Hor & _). rewrite E in Hb, Hor.
  set (d := slug_id (removesuffix ".json" p1) None) in *.
  change (d :: dirs ++ [file +:+ ".json"]) with ((d :: dirs) ++ [file +:+ ".json"]) in *.
  rewrite without_json_slug in Hb. injection Hb as <-. destruct Hor as [->|[q ->]]; by apply Hp.
Qed.

(** A successful write leaves its document at its relative path. *)
Lemma write_json_file a parts payload redact s uri s' :
  write_json a parts payload redact s = (Ok uri, s') ->
  let payload' := if redact then redact_sensitive_data payload else payload in
  exists base x s1, without_json (_relative_path parts) = Ok base /\
    _chunk_large_strings_at a base payload' [] s = (Ok x, s1) /\
    s' !! _relative_path parts = Some (FJson (stored_json x)) /\
    _relative_path parts <> [] /\ uri = uri_for_raw a (_relative_path parts).
Proof.
  intros H payload'. unfold write_json in H. cbv zeta in H. fold payload' in H.
  destruct (relative_path_cases parts) as [E0|(dirs & file & Hd & Hf & Erel)]; [by rewrite E0 in H|].
  rewrite Erel in *. rewrite without_json_slug in *.
  exists (dirs ++ [file]). rewrite eff_lift_Ok in H.
  apply eff_bind_Ok in H as (x & s1 & Hx & H). exists x, s1. split; [done|]. split; [done|].
  unfold write_file in H. rewrite eff_modify in H. injection H as <- <-.
  split; [apply lookup_insert_eq|]. split; [by destruct dirs|].
  unfold uri_for. by rewrite relative_path_fixed.
Qed.

Lemma chunked_small a base payload x s s1 :
  unique_keys payload = true -> small_strings (chunk_string_threshold_bytes a) payload = true ->
  _chunk_large_strings_at a base payload [] s = (Ok x, s1) -> py_eq (stored_json x) payload = true.
Proof.
  intros Hu Hsmall Hx. rewrite (small_not_chunked a _ _ _ s Hsmall) in Hx. injection Hx as <- _.
  by apply stored_json_eq.
Qed.

Lemma write_json_reads a json_loads parts payload redact s uri s' :
  unique_keys payload = true ->
  write_json a parts payload redact s = (Ok uri, s') ->
  let payload' := if redact then redact_sensitive_data payload else payload in
  exists base x s1, without_json (_relative_path parts) = Ok base /\
    _chunk_large_strings_at a base payload' [] s = (Ok x, s1) /\
    read_json a json_loads uri s' = (Ok (stored_json x), s') /\
    (small_strings (chunk_string_threshold_bytes a) payload' = true ->
     py_eq (stored_json x) payload' = true).
Proof.
  intros Hu H payload'.
  apply write_json_file in H as (base & x & s1 & H1 & H2 & H3 & H4 & ->). exists base, x, s1.
  split; [done|]. split; [done|]. split.
  - apply read_json_at; [done|apply relative_path_safe|done].
  - intros Hsmall. apply (chunked_small a base payload' x s s1); [|done|done].
    unfold payload'. destruct redact; [by apply redact_unique_keys|done].
Qed.

(** ** Properties *)

(** Redaction is complete and exact: whatever part of the payload is
    reached without passing a sensitive key is kept, redacted in turn; and a
    sensitive key reached that way holds the redaction marker, whatever it
    held, and nothing lies below it. *)
Theorem redaction_spec v p :
  existsb sensitive_step p = false ->
  value_at (redact_sensitive_data v) p = option_map redact_sensitive_data (value_at v p) /\
  forall k, _is_sensitive_key k = true ->
    value_at (redact_sensitive_data v) (p ++ [Key k]) =
      option_map (fun _ => VStr REDACTED) (value_at v (p ++ [Key k])) /\
    forall st q, value_at (redact_sensitive_data v) (p ++ Key k :: st :: q) = None.
Proof.
  intros Hp. pose proof (redact_value_at v p Hp) as E. split; [done|]. intros k Hk.
  assert (Ek : value_at (redact_sensitive_data v) (p ++ [Key k]) =
    option_map (fun _ => VStr REDACTED) (value_at v (p ++ [Key k]))).
  { rewrite !value_at_app, E. destruct (value_at v p) as [x|]; [|done]. cbn [option_map mbind option_bind].
    destruct x as [| | |t|l|d]; try done. cbn [redact_sensitive_data value_at]. rewrite od_get_redacted, Hk.
    by destruct (od_get k d). }
  split; [done|]. intros st q. change (p ++ Key k :: st :: q) with (p ++ [Key k] ++ st :: q).
  rewrite app_assoc, value_at_app, Ek. destruct (value_at v (p ++ [Key k])); [|done]. by destruct st.
Qed.

Lemma redaction_spec_witness :
  value_at (redact_sensitive_data (VDict [("steps", VList [VDict [("API token", VInt 7)]])]))
    [Key "steps"; Index 0; Key "API token"] = Some (VStr REDACTED).
Proof.
  exact (proj1 (proj2 (redaction_spec (VDict [("steps", VList [VDict [("API token", VInt 7)]])])
    [Key "steps"; Index 0] eq_refl) "API token" eq_refl)).
Defined.

(** C20. An artifact write is confined to its own place: the only files it can
    change, whether it succeeds or raises, are the artifact itself and chunk
    files in a directory of that artifact, and their paths are made of safe
    components: no separator, no [..], nothing absolute. *)
Theorem write_json_confined a parts payload redact s p :
  (write_json a parts payload redact s).2 !! p <> s !! p ->
  exists base, without_json (_relative_path parts) = Ok base /\
    (p = _relative_path parts \/ exists q, p = base ++ "chunks" :: q) /\
    Forall safe_component p /\ forall acc, resolve_onto acc p = acc ++ p.
Proof. apply write_json_changes. Qed.

Definition example_store : JsonArtifactStore := mkJsonArtifactStore ["srv"; "artifacts"] "hetzner://runtime" 8 4.

Lemma write_json_confined_witness :
  exists base, without_json (_relative_path ["../run"; "a.json"]) = Ok base /\
    (["run"; "a.json"] = _relative_path ["../run"; "a.json"] \/ exists q, ["run"; "a.json"] = base ++ "chunks" :: q) /\
    Forall safe_component ["run"; "a.json"] /\ forall acc, resolve_onto acc ["run"; "a.json"] = acc ++ ["run"; "a.json"].
Proof.
  apply (write_json_confined example_store ["../run"; "a.json"] (VInt 1) false ∅ ["run"; "a.json"]).
  vm_compute. discriminate.
Defined.

(** Writing then reading an artifact gives it back: the address a
    successful write returns reads as the stored form of the payload (after
    redaction and chunking), which, when no text passes the chunking threshold,
    compares equal to the redacted payload itself. *)
Theorem write_read_roundtrip a json_loads parts payload redact s uri s' :
  unique_keys payload = true ->
  write_json a parts payload redact s = (Ok uri, s') ->
  let payload' := if redact then redact_sensitive_data payload else payload in
  exists base x s1, without_json (_relative_path parts) = Ok base /\
    _chunk_large_strings_at a base payload' [] s = (Ok x, s1) /\
    read_json a json_loads uri s' = (Ok (stored_json x), s') /\
    (small_strings (chunk_string_threshold_bytes a) payload' = true ->
     py_eq (stored_json x) payload' = true).
Proof. apply write_json_reads. Qed.

Lemma write_read_roundtrip_witness :
  exists base x s1, without_json (_relative_path ["run"; "a"]) = Ok base /\
    _chunk_large_strings_at example_store base (VDict [("b", VInt 1); ("a", VStr "abc")]) [] ∅ = (Ok x, s1) /\
    read_json example_store (fun _ => Ok VNone) "hetzner://runtime/run/a.json"
      (<[["run"; "a.json"] := FJson (VDict [("a", VStr "abc"); ("b", VInt 1)])]> ∅) =
    (Ok (stored_json x), <[["run"; "a.json"] := FJson (VDict [("a", VStr "abc"); ("b", VInt 1)])]> ∅) /\
    (small_strings 8 (VDict [("b", VInt 1); ("a", VStr "abc")]) = true ->
     py_eq (stored_json x) (VDict [("b", VInt 1); ("a", VStr "abc")]) = true).
Proof.
  apply (write_read_roundtrip example_store (fun _ => Ok VNone) ["run"; "a"]
    (VDict [("b", VInt 1); ("a", VStr "abc")]) true ∅ "hetzner://runtime/run/a.json"); vm_compute; reflexivity.
Defined.

(** Chunking a long text loses nothing: the operation succeeds, the chunk
    files in index order hold the whole text, each is non-empty and at most one
    chunk long, and the manifest at the returned address lists every one of
    them with its address, offset and length. *)
Theorem chunked_text_roundtrip a json_loads base field_path encoded s :
  (0 < chunk_size_bytes a)%Z -> Forall safe_component base ->
  let dir := base ++ ["chunks"] ++ _field_path field_path in
  let manifest_uri := uri_for_raw a (dir ++ ["manifest.json"]) in
  let size := Z.to_nat (chunk_size_bytes a) in
  exists s' texts refs,
    _write_chunked_text a base field_path encoded s =
      (Ok (VDict [("artifact_ref", VStr "chunked_text"); ("manifest_uri", VStr manifest_uri);
                  ("encoding", VStr "utf-8"); ("byte_length", VInt (Z.of_nat (length encoded)));
                  ("chunk_count", VInt (Z.of_nat (length texts)))]), s') /\
    concat texts = encoded /\
    read_json a json_loads manifest_uri s' =
      (Ok (stored_json (chunk_manifest a (Z.of_nat (length encoded)) refs)), s') /\
    length refs = length texts /\
    forall i t, texts !! i = Some t ->
      (0 < length t <= size)%nat /\
      refs !! i = Some (chunk_ref a dir i (Z.of_nat (i * size)) t) /\
      s' !! (dir ++ [chunk_name i]) = Some (FText (of_chars t)).
Proof.
  intros Hsize Hbase dir manifest_uri size. unfold _write_chunked_text. cbv zeta. fold dir.
  assert (Hdir : Forall safe_component dir).
  { apply Forall_app. split; [done|]. constructor; [by eexists _, _|apply field_path_safe]. }
  unfold text_chunks. rewrite (proj2 (Z.eqb_neq _ _)), (proj2 (Z.ltb_ge _ _)) by lia. fold size.
  rewrite eff_lift_Ok. set (pieces := chunks_from _ size 0 encoded).
  destruct (chunks_from_spec (length encoded) size 0 encoded) as [Hcat Hpiece]; [lia|done|].
  destruct (write_chunks_spec a dir 0 pieces s) as (refs & s1 & Hw & Hlen & Hrefs & _).
  set (s' := <[dir ++ ["manifest.json"] :=
    FJson (stored_json (chunk_manifest a (Z.of_nat (length encoded)) refs))]> s1).
  exists s', (map snd pieces), refs. rewrite length_map, <- Hlen. split_and!.
  - apply eff_bind_Ok. exists refs, s1. by split.
  - done.
  - apply read_json_at; [by destruct dir| |apply lookup_insert_eq].
    apply Forall_app. split; [done|]. constructor; [by eexists _, _|constructor].
  - done.
  - intros i t Ht. change (map snd pieces) with (snd <$> pieces) in Ht.
    apply list_lookup_fmap_Some in Ht as ([st ch] & -> & Hi). cbn [snd].
    destruct (Hpiece _ _ _ Hi) as [-> Hch]. destruct (Hrefs _ _ _ Hi) as [Hr Hf]. split; [done|].
    split; [exact Hr|]. unfold s'. rewrite lookup_insert_ne; [exact Hf|].
    intros Heq. apply app_inv_head in Heq. injection Heq as Heq.
    apply (f_equal (removesuffix ".txt")) in Heq. unfold chunk_name in Heq.
    rewrite removesuffix_app in Heq by done. apply (f_equal (fun s => forallb is_digit (chars s))) in Heq.
    assert (E : forallb is_digit (chars (pad_left 4 (zstr (Z.of_nat i)))) = true)
      by (apply pad_left_decimal, zstr_decimal; lia).
    rewrite E in Heq. done.
Qed.

Lemma chunked_text_roundtrip_witness :
  (0 < chunk_size_bytes example_store)%Z /\ Forall safe_component ["run"; "a"] /\
  exists s' texts (refs : list value),
    _write_chunked_text example_store ["run"; "a"] ["Body"] (chars "0123456789") ∅ =
      (Ok (VDict [("artifact_ref", VStr "chunked_text");
                  ("manifest_uri", VStr "hetzner://runtime/run/a/chunks/body/manifest.json");
                  ("encoding", VStr "utf-8"); ("byte_length", VInt 10);
                  ("chunk_count", VInt (Z.of_nat (length texts)))]), s') /\
    concat texts = chars "0123456789" /\ length refs = length texts.
Proof.
  assert (H : Forall safe_component ["run"; "a"]) by (repeat constructor; by eexists _, _).
  split; [reflexivity|]. split; [exact H|].
  destruct (chunked_text_roundtrip example_store (fun _ => Ok VNone) ["run"; "a"] ["Body"]
    (chars "0123456789") ∅ eq_refl H) as (s' & texts & refs & H1 & H2 & _ & H3 & _).
  exists s', texts, refs. split; [exact H1|]. split; [exact H2|exact H3].
Defined.

(** Two long texts whose keys have the same slug share their chunk files: the
    artifact then refers to one manifest for both, and the first text is gone. *)
Example chunk_files_collide :
  let payload := VDict [("log a", VStr "first text"); ("log-a", VStr "other text")] in
  let '(_, s') := write_json example_store ["run"] payload false ∅ in
  s' !! ["run"; "chunks"; "log-a"; "0000.txt"] = Some (FText "othe") /\
  s' !! ["run"; "chunks"; "log-a"; "0001.txt"] = Some (FText "r te").
Proof. vm_compute. by split. Qed.

(** A secret in quotes after its key is not redacted. *)
Example quoted_secret_kept : _redact_sensitive_string "password='hunter2'" = "password='hunter2'".
Proof. vm_compute. reflexivity. Qed.
