(* ===== verification/Clock.v ===== *)
(** * Time: instants, their ISO text, and the order of that text

    Models [iso_timestamp] of [runtime/models.py] and the [datetime] operations
    it and the clocks' users apply. A UTC [datetime] is the number of
    microseconds since 0001-01-01T00:00:00; the calendar is the proleptic
    Gregorian one, computed as [datetime] does. The queue compares timestamps
    as text: the theorem of this file says when that order is that of time. *)

From Stdlib Require Import SpecFloat.
From S2P Require Import Prelude PyStr PyFloat PyValue.
Open Scope string_scope.
Open Scope list_scope.
Open Scope Z_scope.

#[local] Ltac Zify.zify_post_hook ::= Z.div_mod_to_equations.

Abbreviation datetime := Z.

Definition us_per_second : Z := 1000000.
Definition us_per_day : Z := 86400 * us_per_second.

(** ** The calendar: days since 0001-01-01 to year, month, day and back *)

Definition is_leap (y : Z) : bool := (y mod 4 =? 0) && (negb (y mod 100 =? 0) || (y mod 400 =? 0)).

Definition days_before_month (leap : bool) (m : Z) : Z :=
  nth (Z.to_nat m) [0; 0; 31; 59; 90; 120; 151; 181; 212; 243; 273; 304; 334] 0
  + (if (2 <? m) && leap then 1 else 0).

(** The month and day of a day of the year, as [_ord2ymd] estimates and corrects them. *)
Definition month_day (leap : bool) (n : Z) : Z * Z :=
  let month := Z.shiftr (n + 50) 5 in
  let month := if n <? days_before_month leap month then month - 1 else month in
  (month, n - days_before_month leap month + 1).

Definition date : Type := Z * Z * Z.

Definition ord2ymd (n : Z) : date :=
  let n400 := n / 146097 in let n := n mod 146097 in
  let n100 := n / 36524 in let n := n mod 36524 in
  let n4 := n / 1461 in let n := n mod 1461 in
  let n1 := n / 365 in let n := n mod 365 in
  let year := n400 * 400 + n100 * 100 + n4 * 4 + n1 + 1 in
  if (n1 =? 4) || (n100 =? 4) then (year - 1, 12, 31)
  else
    let leap := (n1 =? 3) && (negb (n4 =? 24) || (n100 =? 3)) in
    let '(month, day) := month_day leap n in (year, month, day).

Definition days_before_year (y : Z) : Z :=
  let p := y - 1 in p * 365 + p / 4 - p / 100 + p / 400.

Definition ymd2ord (d : date) : Z :=
  let '(y, m, dd) := d in days_before_year y + days_before_month (is_leap y) m + dd - 1.

(** ** ISO text *)

Definition digit_char (n : Z) : ascii := ascii_of_N (48 + Z.to_N n).

(** [f"{n:0wd}"] for [0 <= n < 10^w] *)
Fixpoint digits (w : nat) (n : Z) : list ascii :=
  match w with
  | O => []
  | S w' => digits w' (n / 10) ++ [digit_char (n mod 10)]
  end.

(** The fields of an instant: date, hour, minute, second, microsecond. *)
Definition fields_of (t : datetime) : date * Z * Z * Z * Z :=
  let s := t / us_per_second in
  (ord2ymd (t / us_per_day), s / 3600 mod 24, s / 60 mod 60, s mod 60, t mod us_per_second).

(** [timestamp.isoformat().replace("+00:00", "Z")]: no fraction when it is zero. *)
Definition iso_chars (t : datetime) : list ascii :=
  let '(y, m, d, hh, mm, ss, us) := fields_of t in
  digits 4 y ++ "-"%char :: digits 2 m ++ "-"%char :: digits 2 d ++ "T"%char :: digits 2 hh
  ++ ":"%char :: digits 2 mm ++ ":"%char :: digits 2 ss
  ++ (if us =? 0 then [] else "."%char :: digits 6 us) ++ ["Z"%char].

Definition iso_timestamp (t : datetime) : string := of_chars (iso_chars t).

(** The range of [datetime]: years 1 to 9999. *)
Definition max_datetime : Z := 3652059 * us_per_day.
Definition in_range (t : datetime) : Prop := 0 <= t < max_datetime.

(** [t + timedelta(microseconds=us)] *)
Definition add_us (t us : Z) : res datetime :=
  let t' := t + us in
  if (0 <=? t') && (t' <? max_datetime) then Ok t' else Raise (OverflowError "date value out of range").

(** A [timedelta] holds its microseconds; its days are bounded. *)
Definition timedelta_of_us (us : Z) : res Z :=
  let days := us / us_per_day in
  if Z.abs days <=? 999999999 then Ok us
  else Raise (OverflowError ("days=" +:+ zstr days +:+ "; must have magnitude <= 999999999")).

(** [timedelta(seconds=n)] of an integer and of a float: the fraction is scaled in
    floating point and rounded to the nearest microsecond, ties to even. *)
Definition timedelta_seconds (n : Z) : res Z := timedelta_of_us (n * us_per_second).

(** An integer operand of a float operation, and [int] of a float, which truncates. *)
Definition int_to_float (n : Z) : res float :=
  match float_of_int n with
  | S754_infinity _ => Raise (OverflowError "int too large to convert to float")
  | f => Ok f
  end.

Definition int_of_float (x : float) : res Z :=
  match x with
  | S754_zero _ => Ok 0
  | S754_finite s m e =>
      let n := if 0 <=? e then Zpos m * 2 ^ e else Zpos m / 2 ^ (- e) in
      Ok (if s then - n else n)
  | S754_infinity _ => Raise (OverflowError "cannot convert float infinity to integer")
  | S754_nan => Raise (ValueError "cannot convert float NaN to integer")
  end.

Definition fraction_us (m : Z) (k : Z) : Z :=
  match fmul (ratio us_per_second 1) (ratio m (2 ^ k)) with
  | S754_finite _ m' e' => scaled 0 m' e'
  | _ => 0
  end.
Definition float_us (x : float) : res Z :=
  match x with
  | S754_zero _ => Ok 0
  | S754_nan => Raise (ValueError "cannot convert float NaN to integer")
  | S754_infinity _ => Raise (OverflowError "cannot convert float infinity to integer")
  | S754_finite s m e =>
      let us := if 0 <=? e then Zpos m * 2 ^ e * us_per_second
                else Zpos m / 2 ^ (- e) * us_per_second + fraction_us (Zpos m mod 2 ^ (- e)) (- e) in
      Ok (if s then - us else us)
  end.
Definition timedelta_float (x : float) : res Z := us ← float_us x; timedelta_of_us us.

Example timedelta_ex : (timedelta_float (ratio 5 2), timedelta_float (ratio 1 10), timedelta_float (ratio 5 10000000))
  = (Ok 2500000, Ok 100000, Ok 0).
Proof. vm_compute. reflexivity. Qed.
Example iso_ex1 : iso_timestamp (63902217600 * us_per_second) = "2025-12-25T00:00:00Z".
Proof. vm_compute. reflexivity. Qed.
Example iso_ex2 : iso_timestamp (63902217600 * us_per_second + 3661000042) = "2025-12-25T01:01:01.000042Z".
Proof. vm_compute. reflexivity. Qed.

(** ** The calendar is right: conversion is inverted, and keeps the order *)

Definition month_len (leap : bool) (m : Z) : Z :=
  if m =? 12 then 31 else days_before_month leap (m + 1) - days_before_month leap m.

Definition valid_date (d : date) : Prop :=
  let '(y, m, dd) := d in 1 <= y /\ 1 <= m <= 12 /\ 1 <= dd <= month_len (is_leap y) m.

Definition month_day_ok (leap : bool) (n : Z) : bool :=
  let '(m, d) := month_day leap n in
  (1 <=? m) && (m <=? 12) && (1 <=? d) && (d <=? month_len leap m)
  && (days_before_month leap m + d - 1 =? n).

Definition leap_days (leap : bool) : Z := if leap then 1 else 0.

Lemma forallb_seqZ (f : Z -> bool) m n x :
  forallb f (seqZ m n) = true -> m <= x < m + n -> f x = true.
Proof. rewrite forallb_forall. intros H Hx. apply H, list_elem_of_In, elem_of_seqZ. lia. Qed.

Lemma month_day_spec leap n :
  0 <= n < 365 + leap_days leap ->
  let '(m, d) := month_day leap n in
  1 <= m <= 12 /\ 1 <= d <= month_len leap m /\ days_before_month leap m + d - 1 = n.
Proof.
  intros Hn. assert (H : month_day_ok leap n = true).
  { apply (forallb_seqZ (month_day_ok leap) 0 (365 + leap_days leap)); [|lia]. by destruct leap; vm_compute. }
  unfold month_day_ok in H. destruct (month_day leap n) as [m d]. cbv beta iota in H.
  rewrite !andb_true_iff, !Z.leb_le, Z.eqb_eq in H. lia.
Qed.

Lemma month_bounds leap m :
  1 <= m <= 12 -> 0 <= days_before_month leap m /\
    days_before_month leap m + month_len leap m <= 365 + leap_days leap /\
    forall m', m < m' <= 12 -> days_before_month leap m + month_len leap m <= days_before_month leap m'.
Proof.
  set (ok m := (0 <=? days_before_month leap m)
    && (days_before_month leap m + month_len leap m <=? 365 + leap_days leap)
    && forallb (fun m' => (m' <=? m) || (days_before_month leap m + month_len leap m <=? days_before_month leap m'))
         (seqZ 1 12)).
  intros Hm. assert (H : ok m = true).
  { apply (forallb_seqZ ok 1 12); [|lia]. by destruct leap; vm_compute. }
  unfold ok in H. rewrite !andb_true_iff, !Z.leb_le in H. destruct H as [[H1 H2] H3]. split_and!; [done..|].
  intros m' Hm'. apply (forallb_seqZ _ 1 12 m') in H3; [|lia]. cbv beta in H3.
  rewrite orb_true_iff, !Z.leb_le in H3. lia.
Qed.

Lemma is_leap_cycle n400 n100 n4 n1 :
  0 <= n100 < 4 -> 0 <= n4 < 25 -> 0 <= n1 < 4 ->
  is_leap (n400 * 400 + n100 * 100 + n4 * 4 + n1 + 1)
  = (n1 =? 3) && (negb (n4 =? 24) || (n100 =? 3)).
Proof.
  intros H1 H2 H3. unfold is_leap. set (y := _ + 1).
  assert (E4 : y mod 4 = (n1 + 1) mod 4).
  { replace y with (n1 + 1 + (100 * n400 + 25 * n100 + n4) * 4) by lia. apply Z_mod_plus_full. }
  assert (E100 : y mod 100 = (n4 * 4 + n1 + 1) mod 100).
  { replace y with (n4 * 4 + n1 + 1 + (4 * n400 + n100) * 100) by lia. apply Z_mod_plus_full. }
  assert (E400 : y mod 400 = (n100 * 100 + n4 * 4 + n1 + 1) mod 400).
  { replace y with (n100 * 100 + n4 * 4 + n1 + 1 + n400 * 400) by lia. apply Z_mod_plus_full. }
  rewrite E4, E100, E400. clear E4 E100 E400 y.
  destruct (Z.eqb_spec n1 3) as [->|Hn1].
  - destruct (Z.eqb_spec n4 24) as [->|Hn4].
    + assert (n100 = 0 \/ n100 = 1 \/ n100 = 2 \/ n100 = 3) as [->|[->|[->| ->]]] by lia; reflexivity.
    + rewrite (Z.mod_small (n4 * 4 + 3 + 1)) by lia.
      rewrite (proj2 (Z.eqb_neq (n4 * 4 + 3 + 1) 0)) by lia. reflexivity.
  - destruct (Z.eqb_spec ((n1 + 1) mod 4) 0); [lia|done].
Qed.

Lemma days_before_cycle n400 n100 n4 n1 :
  0 <= n100 < 4 -> 0 <= n4 < 25 -> 0 <= n1 < 4 ->
  days_before_year (n400 * 400 + n100 * 100 + n4 * 4 + n1 + 1)
  = n400 * 146097 + n100 * 36524 + n4 * 1461 + n1 * 365.
Proof. intros H1 H2 H3. unfold days_before_year. cbv zeta. lia. Qed.

Lemma month_day_ymd y n :
  0 <= n < 365 + leap_days (is_leap y) -> 1 <= y ->
  let '(m, d) := month_day (is_leap y) n in
  valid_date (y, m, d) /\ ymd2ord (y, m, d) = days_before_year y + n.
Proof.
  intros Hn Hy. pose proof (month_day_spec (is_leap y) n Hn) as H.
  destruct (month_day (is_leap y) n) as [m d]. destruct H as (H1 & H2 & H3).
  unfold valid_date, ymd2ord. lia.
Qed.

Lemma last_day y : 1 <= y -> is_leap y = true ->
  valid_date (y, 12, 31) /\ ymd2ord (y, 12, 31) = days_before_year y + 365.
Proof.
  intros Hy Hl. unfold valid_date, ymd2ord. rewrite Hl.
  change (month_len true 12) with 31. change (days_before_month true 12) with 335. lia.
Qed.

Lemma ord2ymd_spec n : 0 <= n -> valid_date (ord2ymd n) /\ ymd2ord (ord2ymd n) = n.
Proof.
  intros Hn. unfold ord2ymd. cbv zeta.
  set (n400 := n / 146097). set (r400 := n mod 146097).
  assert (E400 : n = n400 * 146097 + r400 /\ 0 <= r400 < 146097 /\ 0 <= n400) by (unfold n400, r400; lia).
  set (n100 := r400 / 36524). set (r100 := r400 mod 36524).
  assert (E100 : r400 = n100 * 36524 + r100 /\ 0 <= r100 < 36524 /\ 0 <= n100 <= 4) by (unfold n100, r100; lia).
  set (n4 := r100 / 1461). set (r4 := r100 mod 1461).
  assert (E4 : r100 = n4 * 1461 + r4 /\ 0 <= r4 < 1461 /\ 0 <= n4 < 25) by (unfold n4, r4; lia).
  set (n1 := r4 / 365). set (r1 := r4 mod 365).
  assert (E1 : r4 = n1 * 365 + r1 /\ 0 <= r1 < 365 /\ 0 <= n1 <= 4) by (unfold n1, r1; lia).
  clearbody n400 r400 n100 r100 n4 r4 n1 r1.
  destruct (Z.eqb_spec n100 4) as [->|H100].
  - rewrite orb_true_r. assert (r100 = 0 /\ n4 = 0 /\ n1 = 0) as (-> & -> & ->) by lia.
    replace (_ + 1 - 1) with (n400 * 400 + 3 * 100 + 24 * 4 + 3 + 1) by lia.
    destruct (last_day (n400 * 400 + 3 * 100 + 24 * 4 + 3 + 1)) as [H1 H2]; [lia|by rewrite is_leap_cycle|].
    split; [done|]. rewrite H2, days_before_cycle by lia. lia.
  - rewrite orb_false_r. destruct (Z.eqb_spec n1 4) as [->|H1].
    + assert (n4 < 24) by lia.
      replace (_ + 1 - 1) with (n400 * 400 + n100 * 100 + n4 * 4 + 3 + 1) by lia.
      destruct (last_day (n400 * 400 + n100 * 100 + n4 * 4 + 3 + 1)) as [Hv He]; [lia| |].
      { rewrite is_leap_cycle by lia. rewrite (proj2 (Z.eqb_neq n4 24)) by lia. done. }
      split; [done|]. rewrite He, days_before_cycle by lia. lia.
    + rewrite <- (is_leap_cycle n400) by lia. set (y := _ + 1).
      pose proof (month_day_ymd y r1) as H. destruct (month_day (is_leap y) r1) as [m d].
      destruct H as [Hv He]; [unfold leap_days; destruct (is_leap y); lia|unfold y; lia|].
      split; [done|]. rewrite He. unfold y. rewrite days_before_cycle by lia. lia.
Qed.

(** Lexicographic order on dates. *)
Definition date_lt (a b : date) : Prop :=
  let '(y, m, d) := a in let '(y', m', d') := b in
  y < y' \/ (y = y' /\ (m < m' \/ (m = m' /\ d < d'))).

Lemma leap_year_step y : 1 <= y -> days_before_year (y + 1) = days_before_year y + 365 + leap_days (is_leap y).
Proof.
  intros Hy. unfold days_before_year, is_leap. cbv zeta.
  replace (y + 1 - 1) with y by lia.
  assert (H4 : y / 4 = (y - 1) / 4 + if y mod 4 =? 0 then 1 else 0) by (destruct (Z.eqb_spec (y mod 4) 0); lia).
  assert (H100 : y / 100 = (y - 1) / 100 + if y mod 100 =? 0 then 1 else 0) by (destruct (Z.eqb_spec (y mod 100) 0); lia).
  assert (H400 : y / 400 = (y - 1) / 400 + if y mod 400 =? 0 then 1 else 0) by (destruct (Z.eqb_spec (y mod 400) 0); lia).
  rewrite H4, H100, H400.
  destruct (Z.eqb_spec (y mod 4) 0), (Z.eqb_spec (y mod 100) 0), (Z.eqb_spec (y mod 400) 0);
    cbn [andb orb negb leap_days]; lia.
Qed.

Lemma days_before_year_mono y y' : 1 <= y -> y < y' -> days_before_year (y + 1) <= days_before_year y'.
Proof. intros H1 H2. unfold days_before_year. cbv zeta. lia. Qed.

Lemma ymd2ord_lt a b : valid_date a -> valid_date b -> date_lt a b -> ymd2ord a < ymd2ord b.
Proof.
  destruct a as [[y m] d], b as [[y' m'] d']. intros (Ha1 & Ha2 & Ha3) (Hb1 & Hb2 & Hb3) H.
  destruct (month_bounds (is_leap y) m Ha2) as (Hm1 & Hm2 & Hm3).
  destruct (month_bounds (is_leap y') m' Hb2) as (Hm1' & _ & _).
  unfold date_lt in H. unfold ymd2ord.
  destruct H as [H|[-> [H|[-> H]]]].
  - pose proof (leap_year_step y Ha1). pose proof (days_before_year_mono y y' Ha1 H). lia.
  - specialize (Hm3 m'). lia.
  - lia.
Qed.

Lemma date_total (a b : date) : date_lt a b \/ a = b \/ date_lt b a.
Proof.
  destruct a as [[y m] d], b as [[y' m'] d']. unfold date_lt.
  destruct (Z.lt_trichotomy y y') as [?|[->|?]]; [left; lia| |right; right; lia].
  destruct (Z.lt_trichotomy m m') as [?|[->|?]]; [left; lia| |right; right; lia].
  destruct (Z.lt_trichotomy d d') as [?|[->|?]]; [left; lia|by right; left|right; right; lia].
Qed.

(** Later days have later dates. *)
Lemma ord2ymd_lt n n' : 0 <= n -> n < n' -> date_lt (ord2ymd n) (ord2ymd n').
Proof.
  intros Hn Hlt. destruct (ord2ymd_spec n Hn) as [Hv He], (ord2ymd_spec n') as [Hv' He']; [lia|].
  destruct (date_total (ord2ymd n) (ord2ymd n')) as [H|[H|H]]; [done| |].
  - rewrite H in He. lia.
  - apply ymd2ord_lt in H; [lia|done..].
Qed.

(** ** Comparing texts character by character *)

Fixpoint lcmp (l l' : list ascii) : comparison :=
  match l, l' with
  | [], [] => Eq
  | [], _ => Lt
  | _, [] => Gt
  | c :: l, c' :: l' => match Ascii.compare c c' with Eq => lcmp l l' | r => r end
  end.

Definition then_cmp (r r' : comparison) : comparison := match r with Eq => r' | _ => r end.

Lemma string_compare_lcmp l l' : String.compare (of_chars l) (of_chars l') = lcmp l l'.
Proof.
  revert l'. induction l as [|c l IH]; intros [|c' l']; cbn; try done.
  by destruct (Ascii.compare c c').
Qed.

Lemma ascii_compare_refl c : Ascii.compare c c = Eq.
Proof. unfold Ascii.compare. apply N.compare_refl. Qed.

Lemma lcmp_refl l : lcmp l l = Eq.
Proof. induction l as [|c l IH]; [done|]. cbn. by rewrite ascii_compare_refl. Qed.

Lemma lcmp_antisym l l' : lcmp l' l = CompOpp (lcmp l l').
Proof.
  revert l'. induction l as [|c l IH]; intros [|c' l']; cbn; try done.
  rewrite Ascii.compare_antisym. by destruct (Ascii.compare c c'); cbn.
Qed.

Lemma lcmp_cons c l l' : lcmp (c :: l) (c :: l') = lcmp l l'.
Proof. cbn. by rewrite ascii_compare_refl. Qed.

Lemma lcmp_app a b l l' : length a = length b -> lcmp (a ++ l) (b ++ l') = then_cmp (lcmp a b) (lcmp l l').
Proof.
  revert b. induction a as [|c a IH]; intros [|c' b] H; try done. cbn. injection H as H.
  destruct (Ascii.compare c c'); [by apply IH|done..].
Qed.

Lemma length_digits w n : length (digits w n) = w.
Proof. revert n. induction w as [|w IH]; intros n; cbn [digits]; [done|]. rewrite length_app, IH. cbn. lia. Qed.

Lemma digit_char_compare a b : 0 <= a < 10 -> 0 <= b < 10 -> Ascii.compare (digit_char a) (digit_char b) = (a ?= b).
Proof.
  intros Ha Hb. unfold Ascii.compare, digit_char. rewrite !N_ascii_embedding by lia.
  destruct (Z.compare_spec a b) as [->|H|H]; [apply N.compare_refl|apply N.compare_lt_iff; lia|apply N.compare_gt_iff; lia].
Qed.

Lemma lcmp_digits w n n' l l' :
  0 <= n < 10 ^ Z.of_nat w -> 0 <= n' < 10 ^ Z.of_nat w ->
  lcmp (digits w n ++ l) (digits w n' ++ l') = then_cmp (n ?= n') (lcmp l l').
Proof.
  intros Hn Hn'. rewrite lcmp_app by (by rewrite !length_digits). f_equal.
  revert n n' Hn Hn'. induction w as [|w IH]; intros n n' Hn Hn'.
  { assert (n = 0 /\ n' = 0) as [-> ->] by (cbn in *; lia). done. }
  rewrite Nat2Z.inj_succ, Z.pow_succ_r in Hn, Hn' by lia.
  cbn [digits]. rewrite lcmp_app by (by rewrite !length_digits). rewrite IH by lia.
  cbn [lcmp]. rewrite digit_char_compare by lia.
  destruct (Z.compare_spec n n') as [->|H|H].
  - rewrite !Z.compare_refl. done.
  - destruct (Z.compare_spec (n / 10) (n' / 10)); cbn; [|done|lia].
    rewrite (proj2 (Z.compare_lt_iff _ _)) by lia. done.
  - destruct (Z.compare_spec (n / 10) (n' / 10)); cbn; [|lia|done].
    rewrite (proj2 (Z.compare_gt_iff _ _)) by lia. done.
Qed.

(** The text of an instant up to its second, which is a function of the second. *)
Definition second_chars (s : Z) : list ascii :=
  let '(y, m, d) := ord2ymd (s / 86400) in
  digits 4 y ++ "-"%char :: digits 2 m ++ "-"%char :: digits 2 d ++ "T"%char :: digits 2 (s / 3600 mod 24)
  ++ ":"%char :: digits 2 (s / 60 mod 60) ++ ":"%char :: digits 2 (s mod 60).
Definition fraction_chars (us : Z) : list ascii :=
  (if us =? 0 then [] else "."%char :: digits 6 us) ++ ["Z"%char].

Lemma iso_chars_split t :
  iso_chars t = second_chars (t / us_per_second) ++ fraction_chars (t mod us_per_second).
Proof.
  unfold iso_chars, fields_of, second_chars, fraction_chars. cbv zeta.
  replace (t / us_per_second / 86400) with (t / us_per_day) by (unfold us_per_day, us_per_second; lia).
  destruct (ord2ymd (t / us_per_day)) as [[y m] d]. cbv beta iota.
  do 6 (rewrite <- ?app_assoc; cbn [app]; f_equal; f_equal).
Qed.

Lemma second_chars_length s : length (second_chars s) = 19%nat.
Proof.
  unfold second_chars. destruct (ord2ymd (s / 86400)) as [[y m] d].
  repeat (rewrite ?length_app, ?length_digits; cbn [length]). lia.
Qed.

Lemma date_digits n : 0 <= n < 3652059 ->
  let '(y, m, d) := ord2ymd n in 0 <= y < 10 ^ 4 /\ 0 <= m < 10 ^ 2 /\ 0 <= d < 10 ^ 2.
Proof.
  intros Hn. destruct (ord2ymd_spec n) as [Hv He]; [lia|]. destruct (ord2ymd n) as [[y m] d].
  destruct Hv as (H1 & H2 & H3). destruct (month_bounds (is_leap y) m H2) as (Hm1 & Hm2 & _).
  unfold ymd2ord in He. unfold leap_days in Hm2.
  assert (Hy : y < 10000).
  { destruct (Z.lt_ge_cases y 10000) as [|Hge]; [done|]. unfold days_before_year in He. cbv zeta in He. lia. }
  assert (Hd : month_len (is_leap y) m <= 31).
  { assert (E : forallb (fun m => month_len (is_leap y) m <=? 31) (seqZ 1 12) = true)
      by (by destruct (is_leap y); vm_compute).
    apply (forallb_seqZ _ 1 12 m) in E; [|lia]. cbv beta in E. by apply Z.leb_le in E. }
  change (10 ^ 4) with 10000. change (10 ^ 2) with 100. lia.
Qed.

Lemma second_chars_lt s s' :
  0 <= s -> s < s' -> s' < 3652059 * 86400 -> lcmp (second_chars s) (second_chars s') = Lt.
Proof.
  intros Hs Hlt Hs'. unfold second_chars.
  assert (Hd : s / 86400 < s' / 86400 \/
    (s / 86400 = s' / 86400 /\ (s / 3600 mod 24 < s' / 3600 mod 24 \/
      (s / 3600 mod 24 = s' / 3600 mod 24 /\ (s / 60 mod 60 < s' / 60 mod 60 \/
        (s / 60 mod 60 = s' / 60 mod 60 /\ s mod 60 < s' mod 60)))))) by lia.
  pose proof (date_digits (s / 86400)) as B1. pose proof (date_digits (s' / 86400)) as B2.
  pose proof (ord2ymd_lt (s / 86400) (s' / 86400)) as Hdate.
  assert (E1 : s / 86400 = s' / 86400 -> ord2ymd (s / 86400) = ord2ymd (s' / 86400)) by (by intros ->).
  destruct (ord2ymd (s / 86400)) as [[y m] d], (ord2ymd (s' / 86400)) as [[y' m'] d'].
  destruct B1 as (B1 & B2' & B3); [lia|]. destruct B2 as (B4 & B5 & B6); [lia|].
  unfold date_lt in Hdate.
  rewrite lcmp_digits, lcmp_cons, lcmp_digits, lcmp_cons, lcmp_digits, lcmp_cons, lcmp_digits, lcmp_cons,
    lcmp_digits, lcmp_cons by (done || (change (10 ^ Z.of_nat 2) with 100; lia)).
  rewrite <- (app_nil_r (digits 2 (s mod 60))), <- (app_nil_r (digits 2 (s' mod 60))).
  rewrite lcmp_digits by (change (10 ^ Z.of_nat 2) with 100; lia).
  destruct Hd as [Hd|[Hd H]].
  - specialize (Hdate ltac:(lia) Hd). clear - Hdate.
    destruct (Z.compare_spec y y'); cbn [then_cmp]; [|done|lia].
    destruct (Z.compare_spec m m'); cbn [then_cmp]; [|done|lia].
    destruct (Z.compare_spec d d'); cbn [then_cmp]; [lia|done|lia].
  - specialize (E1 Hd). injection E1 as -> -> ->. rewrite !Z.compare_refl. cbn [then_cmp]. clear - H.
    destruct (Z.compare_spec (s / 3600 mod 24) (s' / 3600 mod 24)); cbn [then_cmp]; [|done|lia].
    destruct (Z.compare_spec (s / 60 mod 60) (s' / 60 mod 60)); cbn [then_cmp]; [|done|lia].
    destruct (Z.compare_spec (s mod 60) (s' mod 60)); cbn [then_cmp]; [lia|done|lia].
Qed.

(** The order of the texts, on the seconds and then on the fractions. *)
Lemma iso_compare t t' :
  in_range t -> in_range t' ->
  String.compare (iso_timestamp t) (iso_timestamp t') =
  then_cmp (t / us_per_second ?= t' / us_per_second)
    (lcmp (fraction_chars (t mod us_per_second)) (fraction_chars (t' mod us_per_second))).
Proof.
  unfold in_range, max_datetime, us_per_day, us_per_second. intros Ht Ht'.
  unfold iso_timestamp. rewrite string_compare_lcmp, !iso_chars_split, lcmp_app
    by (by rewrite !second_chars_length).
  f_equal. unfold us_per_second. destruct (Z.compare_spec (t / 1000000) (t' / 1000000)) as [->|H|H].
  - apply lcmp_refl.
  - apply second_chars_lt; lia.
  - rewrite lcmp_antisym, second_chars_lt by lia. done.
Qed.

Lemma fraction_compare us us' :
  0 <= us < us_per_second -> 0 <= us' < us_per_second ->
  lcmp (fraction_chars us) (fraction_chars us') =
  if us =? 0 then (if us' =? 0 then Eq else Gt) else if us' =? 0 then Lt else us ?= us'.
Proof.
  unfold us_per_second, fraction_chars. intros H H'.
  destruct (us =? 0), (us' =? 0); try done. cbn [app]. rewrite lcmp_cons, lcmp_digits by done.
  by destruct (us ?= us').
Qed.

Lemma str_leb_compare s t : str_leb s t = true <-> String.compare s t <> Gt.
Proof. unfold str_leb, String.leb. by destruct (String.compare s t). Qed.

(** ** Properties *)

(** Timestamps sort as the instants they denote, up to the second: the text
    of one instant is at most the text of another exactly when its second is
    earlier, or the seconds are equal and the other has no fraction, or both
    have fractions in order. So the texts misorder two instants only within one
    second, when exactly one of them is a whole second, whose text has no
    fraction and sorts last. *)
Theorem iso_timestamp_order t t' :
  in_range t -> in_range t' ->
  str_leb (iso_timestamp t) (iso_timestamp t') = true <->
  t / us_per_second < t' / us_per_second \/
  (t / us_per_second = t' / us_per_second /\
   (t' mod us_per_second = 0 \/
    (t mod us_per_second <> 0 /\ t mod us_per_second <= t' mod us_per_second))).
Proof.
  intros Ht Ht'. rewrite str_leb_compare, iso_compare by done.
  rewrite fraction_compare by (apply Z.mod_pos_bound; done).
  set (us := t mod us_per_second). set (us' := t' mod us_per_second).
  destruct (Z.compare_spec (t / us_per_second) (t' / us_per_second)) as [E|E|E]; cbn [then_cmp].
  - destruct (Z.eqb_spec us 0) as [E0|E0], (Z.eqb_spec us' 0) as [E0'|E0'].
    + split; [intros _; auto|done].
    + split; [done|]. intros [|(_ & [|[]])]; [lia|done|done].
    + split; [intros _; auto|done].
    + change ((us ?= us') <> Gt) with (us <= us'). split; [auto 6|].
      intros [|(_ & [|[]])]; [lia|done|done].
  - split; [auto|done].
  - split; [done|]. intros [|[]]; lia.
Qed.

Lemma iso_timestamp_order_witness :
  in_range 500000 /\ in_range 0 /\
  (str_leb (iso_timestamp 500000) (iso_timestamp 0) = true <->
   500000 / us_per_second < 0 / us_per_second \/
   (500000 / us_per_second = 0 / us_per_second /\
    (0 mod us_per_second = 0 \/
     (500000 mod us_per_second <> 0 /\ 500000 mod us_per_second <= 0 mod us_per_second)))).
Proof.
  assert (H1 : in_range 500000) by (split; reflexivity || discriminate).
  assert (H2 : in_range 0) by (split; reflexivity || discriminate).
  split; [exact H1|]. split; [exact H2|]. exact (iso_timestamp_order 500000 0 H1 H2).
Defined.

(** Half a second past the epoch sorts before the epoch. *)
Example iso_misorders : str_leb (iso_timestamp 500000) (iso_timestamp 0) = true.
Proof. vm_compute. reflexivity. Qed.

(** The calendar of a timestamp is a valid date, and it is the date of its
    day: converting it back gives the day, so distinct days print differently. *)
Theorem timestamp_date_correct t :
  in_range t ->
  let '(y, m, d, hh, mm, ss, us) := fields_of t in
  valid_date (y, m, d) /\ y <= 9999 /\
  ((ymd2ord (y, m, d) * 24 + hh) * 60 + mm) * 60 + ss = t / us_per_second /\
  us = t mod us_per_second.
Proof.
  unfold in_range, max_datetime. intros Ht. unfold fields_of. cbv zeta.
  assert (Hd : 0 <= t / us_per_day < 3652059) by (unfold us_per_day, us_per_second in *; lia).
  pose proof (date_digits _ Hd) as Hb. destruct (ord2ymd_spec (t / us_per_day)) as [Hv He]; [lia|].
  destruct (ord2ymd (t / us_per_day)) as [[y m] d]. split_and!; [apply Hv..| | |done].
  - change (10 ^ 4) with 10000 in Hb. lia.
  - rewrite He. unfold us_per_day, us_per_second in *. lia.
Qed.

Lemma timestamp_date_correct_witness :
  in_range 63902217600123456 /\
  let '(y, m, d, hh, mm, ss, us) := fields_of 63902217600123456 in
  valid_date (y, m, d) /\ y <= 9999 /\
  ((ymd2ord (y, m, d) * 24 + hh) * 60 + mm) * 60 + ss = 63902217600123456 / us_per_second /\
  us = 63902217600123456 mod us_per_second.
Proof.
  assert (H : in_range 63902217600123456) by (split; reflexivity || discriminate).
  split; [exact H|]. exact (timestamp_date_correct 63902217600123456 H).
Defined.
