(* ===== verification/FlightRecorder.v ===== *)
(** * The flight recorder: runs, steps, events and checkpoints

    Models [runtime/flight_recorder.py]. The recorder holds no state of its
    own: it acts on the world its collaborators share, which is the runtime
    store, the artifact files and the clock. [clock n] is the instant the
    [n]-th reading of the clock gives. A payload or optional argument that is
    [None] in the source is [VNone] or [None] here. *)

From S2P Require Import Prelude PyStr PyValue Models RuntimeStore Artifacts Clock.
Open Scope string_scope.
Open Scope list_scope.

Record world := mkWorld {
  w_store : store;
  w_files : files;
  w_ticks : nat;
}.

Abbreviation rt A := (eff world exn A).

Definition set_store (s : store) (w : world) : world := mkWorld s (w_files w) (w_ticks w).
Definition set_files (f : files) (w : world) : world := mkWorld (w_store w) f (w_ticks w).

Definition on_store {A} (m : st A) : rt A := zoom w_store set_store m.
Definition on_files {A} (m : art A) : rt A := zoom w_files set_files m.

Definition opt_str (o : option string) : value := match o with Some s => VStr s | None => VNone end.
Definition opt_int (o : option Z) : value := match o with Some n => VInt n | None => VNone end.

(** [o or default] for a text *)
Definition or_str (o : option string) (default : string) : string :=
  match o with Some s => if String.eqb s "" then default else s | None => default end.

Section recorder.
Context (artifacts : JsonArtifactStore) (clock : nat -> datetime).

Definition now : rt datetime :=
  n ← gets w_ticks;
  modify (fun w => mkWorld (w_store w) (w_files w) (S (w_ticks w))) ;;
  mret (clock n).
Definition iso_now : rt string := t ← now; mret (iso_timestamp t).

Definition require_opt (o : option string) (allowed : list string) (field : string) : res unit :=
  match o with Some v => require_choice v allowed field | None => mret tt end.

(** The keyword arguments of [start_run] that default to [None]. *)
Record run_options := mkRunOptions {
  profile_artifact_uri : option string;
  profile_sha256 : option string;
  profile_generation : option Z;
  parent_profile_id : option string;
}.

Definition start_run (task_id : string) (profile : odict value) (run_id : option string)
    (status : string) (o : run_options) : rt record :=
  lift (require_choice status RUNTIME_STATUSES "status") ;;
  let run_identifier := or_str run_id (slug_id (removeprefix "task-" task_id) (Some "run")) in
  let token_budget_total :=
    match dget "limits" (VDict []) profile with VDict l => dget "max_tokens" VNone l | _ => VNone end in
  id ← lift (ditem "id" profile);
  version ← lift (ditem "profile_version" profile);
  t ← iso_now;
  on_store (insert_runtime_run
    [("id", VStr run_identifier); ("task_id", VStr task_id); ("profile_id", VStr (py_str id));
     ("profile_version", VStr (py_str version)); ("status", VStr status); ("started_at", VStr t);
     ("completed_at", VNone); ("artifact_root_uri", VStr (uri_prefix artifacts));
     ("token_budget_total", token_budget_total); ("tokens_used_total", VInt 0);
     ("stop_reason", VNone); ("profile_artifact_uri", opt_str (profile_artifact_uri o));
     ("profile_sha256", opt_str (profile_sha256 o));
     ("profile_generation", opt_int (profile_generation o));
     ("parent_profile_id", opt_str (parent_profile_id o))]).

Definition start_step (run_id : string) (step_index : Z) (kind : string) (token_budget : option Z)
    (idempotency_key : option string) : rt record :=
  lift (require_choice kind RUNTIME_STEP_KINDS "kind") ;;
  let key := or_str idempotency_key (run_id +:+ ":step:" +:+ zstr step_index +:+ ":" +:+ kind) in
  t ← iso_now;
  on_store (insert_runtime_step
    [("id", VStr (slug_id (run_id +:+ "-" +:+ kind +:+ "-" +:+ zstr step_index) (Some "step")));
     ("run_id", VStr run_id); ("step_index", VInt step_index); ("kind", VStr kind);
     ("status", VStr "running"); ("started_at", VStr t); ("completed_at", VNone);
     ("stop_reason", VNone); ("token_budget", opt_int token_budget); ("tokens_used", VInt 0);
     ("idempotency_key", VStr key); ("attempt", VInt 1)]).

Definition complete_step (step_id status : string) (stop_reason : option string) (tokens_used : Z)
    : rt record :=
  lift (require_choice status RUNTIME_STATUSES "status") ;;
  lift (require_opt stop_reason STOP_REASONS "stop_reason") ;;
  t ← iso_now;
  on_store (update_runtime_step step_id
    [("status", VStr status); ("completed_at", VStr t); ("stop_reason", opt_str stop_reason);
     ("tokens_used", VInt tokens_used)]).

Definition _write_event_payload (run_id : string) (event_index : Z) (event_type slot : string)
    (payload : value) (redact : bool) : rt value :=
  match payload with
  | VNone => mret VNone
  | _ =>
      uri ← on_files (write_json artifacts
        ["traces"; run_id; "events";
         pad_left 3 (zstr event_index) +:+ "-" +:+ event_type +:+ "-" +:+ slot] payload redact);
      mret (VStr uri)
  end.

Definition _event_record (run_id : string) (step_id : option string) (event_index : Z)
    (event_type actor_role : string) (planned_action_uri execution_uri result_uri : value)
    (stop_reason : option string) (idempotency_key : string) : rt record :=
  t ← iso_now;
  mret
    [("id", VStr (slug_id (run_id +:+ "-" +:+ event_type +:+ "-" +:+ zstr event_index) (Some "event")));
     ("run_id", VStr run_id); ("step_id", opt_str step_id); ("event_index", VInt event_index);
     ("event_type", VStr event_type); ("actor_role", VStr actor_role);
     ("planned_action_uri", planned_action_uri); ("execution_uri", execution_uri);
     ("result_uri", result_uri); ("stop_reason", opt_str stop_reason);
     ("idempotency_key", VStr idempotency_key); ("created_at", VStr t)].

(** The keyword arguments of [record_event] after the actor. *)
Record event_args := mkEventArgs {
  ev_step_id : option string;
  planned_action : value;
  execution : value;
  ev_result : value;
  ev_stop_reason : option string;
  ev_idempotency_key : option string;
  ev_redact : bool;
}.
Definition plain_event (result : value) (stop_reason : option string) : event_args :=
  mkEventArgs None VNone VNone result stop_reason None true.

Definition record_event (run_id event_type actor_role : string) (e : event_args) : rt record :=
  lift (require_choice event_type RUNTIME_EVENT_TYPES "event_type") ;;
  lift (require_choice actor_role RUNTIME_ACTOR_ROLES "actor_role") ;;
  lift (require_opt (ev_stop_reason e) STOP_REASONS "stop_reason") ;;
  event_index ← on_store (allocate_runtime_event_index run_id);
  let key := or_str (ev_idempotency_key e)
    (run_id +:+ ":event:" +:+ event_type +:+ ":" +:+ zstr event_index) in
  planned ← _write_event_payload run_id event_index event_type "planned" (planned_action e) (ev_redact e);
  executed ← _write_event_payload run_id event_index event_type "execution" (execution e) (ev_redact e);
  result ← _write_event_payload run_id event_index event_type "result" (ev_result e) (ev_redact e);
  r ← _event_record run_id (ev_step_id e) event_index event_type actor_role planned executed result
        (ev_stop_reason e) key;
  on_store (insert_runtime_event r).

Definition checkpoint (run_id phase : string) (state : value) (step_id : option string)
    (tokens_used_total : Z) (redact : bool) : rt record :=
  lift (require_choice phase RUNTIME_PHASES "phase") ;;
  checkpoint_index ← on_store (allocate_runtime_checkpoint_index run_id);
  state_uri ← on_files (write_json artifacts
    ["traces"; run_id; "checkpoints"; pad_left 3 (zstr checkpoint_index) +:+ "-" +:+ phase] state redact);
  t ← iso_now;
  stored ← on_store (insert_runtime_checkpoint
    [("id", VStr (slug_id (run_id +:+ "-" +:+ phase +:+ "-" +:+ zstr checkpoint_index) (Some "checkpoint")));
     ("run_id", VStr run_id); ("step_id", opt_str step_id); ("checkpoint_index", VInt checkpoint_index);
     ("phase", VStr phase); ("state_uri", VStr state_uri);
     ("tokens_used_total", VInt tokens_used_total); ("created_at", VStr t)]);
  id ← lift (ditem "id" stored);
  record_event run_id "checkpoint_created"
    (if str_in phase ["analysis"; "composition"] then "composer" else "executor")
    (mkEventArgs step_id VNone VNone (VDict [("checkpoint_id", id); ("phase", VStr phase)]) None
       (Some (run_id +:+ ":checkpoint:" +:+ zstr checkpoint_index)) redact) ;;
  mret stored.

Definition complete_run (run_id status stop_reason : string) (tokens_used_total : Z) : rt record :=
  lift (require_choice status RUNTIME_STATUSES "status") ;;
  lift (require_choice stop_reason STOP_REASONS "stop_reason") ;;
  t ← iso_now;
  on_store (update_runtime_run run_id
    [("status", VStr status); ("completed_at", VStr t); ("tokens_used_total", VInt tokens_used_total);
     ("stop_reason", VStr stop_reason)]).
End recorder.

(** ** What the store's operations do to the event log *)

Definition same_events (s s' : store) : Prop :=
  runtime_events s' = runtime_events s /\ event_indices s' = event_indices s.

#[export] Instance same_events_preorder : PreOrder same_events.
Proof. split; [by intros s|]. intros a b c [H1 H2] [H3 H4]. split; congruence. Qed.

Lemma set_table_same_events t v s : same_events s (set_table t v s).
Proof. by destruct s, t. Qed.

Lemma insert_record_events t r : preserves same_events (insert_record t r).
Proof. unfold insert_record. preserves_tac. apply preserves_modify. intros s. apply set_table_same_events. Qed.
Lemma update_record_events t k f : preserves same_events (update_record t k f).
Proof. unfold update_record. preserves_tac. apply preserves_modify. intros s. apply set_table_same_events. Qed.
#[export] Hint Resolve insert_record_events update_record_events : preserves.

Lemma insert_step_events r : preserves same_events (insert_runtime_step r).
Proof. unfold insert_runtime_step. preserves_tac. Qed.
Lemma insert_checkpoint_events r : preserves same_events (insert_runtime_checkpoint r).
Proof.
  unfold insert_runtime_checkpoint, append_record. preserves_tac.
  apply preserves_modify. by intros [].
Qed.
Lemma allocate_checkpoint_events run : preserves same_events (allocate_runtime_checkpoint_index run).
Proof.
  unfold allocate_runtime_checkpoint_index, allocate_index. preserves_tac.
  apply preserves_modify. by intros [].
Qed.
#[export] Hint Resolve insert_step_events insert_checkpoint_events allocate_checkpoint_events : preserves.

(** ** The trace of a run *)

Definition run_indices (run : string) (s : store) : list value :=
  map (dget "event_index" VNone)
    (List.filter (fun e => py_eq (dget "run_id" VNone e) (VStr run)) (runtime_events s)).

(** The event indices of every run increase along the log and stay below the
    run's counter; a run without a counter has no events. *)
Definition trace_ok (s : store) : Prop :=
  forall run, exists l : list Z, run_indices run s = map VInt l /\ StronglySorted Z.lt l /\
    match od_get run (event_indices s) with
    | Some next => Forall (fun i => i < next)%Z l
    | None => l = []
    end.

(** The log only grows, and the trace stays in order. *)
Definition trace_step (s s' : store) : Prop :=
  (exists new, runtime_events s' = runtime_events s ++ new) /\ (trace_ok s -> trace_ok s').

#[export] Instance trace_step_preorder : PreOrder trace_step.
Proof.
  split.
  - intros s. split; [exists []; by rewrite app_nil_r|done].
  - intros a b c [[n1 H1] H2] [[n2 H3] H4]. split; [|by auto].
    exists (n1 ++ n2). by rewrite H3, H1, app_assoc.
Qed.

Lemma same_events_trace s s' : same_events s s' -> trace_step s s'.
Proof.
  intros [H1 H2]. split; [exists []; by rewrite H1, app_nil_r|].
  unfold trace_ok, run_indices. by rewrite H1, H2.
Qed.

Definition w_trace_step (w w' : world) : Prop := trace_step (w_store w) (w_store w').
#[export] Instance w_trace_step_preorder : PreOrder w_trace_step.
Proof. split; [intros w; apply trace_step_preorder|intros a b c; unfold w_trace_step; apply trace_step_preorder]. Qed.

Lemma on_store_same {A} (m : st A) : preserves same_events m -> preserves w_trace_step (on_store m).
Proof. apply preserves_zoom. intros w s H. by apply same_events_trace. Qed.
Lemma on_files_trace {A} (m : art A) : preserves w_trace_step (on_files m).
Proof. intros w. unfold on_files, zoom. destruct (m (w_files w)). cbn. unfold w_trace_step. cbn. reflexivity. Qed.
Lemma iso_now_trace clock : preserves w_trace_step (iso_now clock).
Proof. intros w. unfold w_trace_step. cbn. reflexivity. Qed.
#[export] Hint Resolve on_store_same on_files_trace iso_now_trace : preserves.

Lemma snoc_sorted l i : StronglySorted Z.lt l -> Forall (fun j => j < i)%Z l -> StronglySorted Z.lt (l ++ [i]).
Proof.
  induction 1 as [|x l Hs IH Hx]; cbn; intros Hl; [repeat constructor|]. inversion Hl; subst.
  constructor; [by apply IH|]. apply Forall_app. split; [done|by constructor].
Qed.

(** An event stored under the index its run was just given extends the trace. *)
Lemma trace_extend s s' run index e :
  trace_ok s ->
  (forall j, od_get run (event_indices s) = Some j -> index = j) ->
  event_indices s' = od_set run (index + 1)%Z (event_indices s) ->
  runtime_events s' = runtime_events s ++ e ->
  e = [] \/ (exists r, e = [r] /\ dget "run_id" VNone r = VStr run /\ dget "event_index" VNone r = VInt index) ->
  trace_ok s'.
Proof.
  intros Hok Hj Hix Hev He run'. destruct (Hok run') as (l & Hl & Hs & Hb).
  assert (Hlt : run' = run -> Forall (fun i => i < index)%Z l).
  { intros ->. destruct (od_get run (event_indices s)) as [j|]; [by rewrite (Hj j eq_refl)|by subst l]. }
  unfold run_indices. rewrite Hix, Hev, List.filter_app, map_app.
  fold (run_indices run' s). rewrite Hl, od_get_set.
  destruct He as [->|(r & -> & Hrun & Hi)]; cbn [List.filter map].
  - exists l. rewrite app_nil_r. split; [done|]. split; [done|].
    destruct (String.eqb_spec run' run) as [->|_]; [|done].
    eapply Forall_impl; [by apply Hlt|]. cbn. lia.
  - rewrite Hrun. destruct (String.eqb_spec run' run) as [->|Hne].
    + cbn [py_eq]. rewrite String.eqb_refl. cbn [map]. rewrite Hi. exists (l ++ [index]).
      rewrite map_app. split; [done|]. specialize (Hlt eq_refl). split; [by apply snoc_sorted|].
      apply Forall_app. split; [|repeat constructor; lia]. eapply Forall_impl; [exact Hlt|]. cbn. lia.
    + cbn [py_eq]. rewrite (proj2 (String.eqb_neq run run')) by done. cbn [map].
      exists l. by rewrite app_nil_r.
Qed.

Definition same_store (w w' : world) : Prop := w_store w' = w_store w.
#[export] Instance same_store_preorder : PreOrder same_store.
Proof. split; [done|]. unfold same_store. intros a b c. congruence. Qed.

Lemma write_payload_store a run i ty slot v red :
  preserves same_store (_write_event_payload a run i ty slot v red).
Proof.
  unfold _write_event_payload. destruct v; preserves_tac;
    intros w; unfold on_files, zoom; by destruct (write_json _ _ _ _ _).
Qed.
Lemma event_record_store clock run step i ty actor p x r sr key :
  preserves same_store (_event_record clock run step i ty actor p x r sr key).
Proof. intros w. done. Qed.

(** Inserting an event appends it, finds it, or raises; the counters stay. *)
Lemma insert_event_cases r s :
  event_indices (insert_runtime_event r s).2 = event_indices s /\
  (runtime_events (insert_runtime_event r s).2 = runtime_events s \/
   (runtime_events (insert_runtime_event r s).2 = runtime_events s ++ [r] /\
    (insert_runtime_event r s).1 = Ok r)).
Proof.
  unfold insert_runtime_event. rewrite eff_gets.
  destruct (ditem "run_id" r) as [run|e]; [rewrite eff_lift_Ok|by split; [|left]].
  destruct (ditem "idempotency_key" r) as [key|e]; [rewrite eff_lift_Ok|by split; [|left]].
  destruct (_find_by_run_idempotency _ _ _) as [[x|]|e]; [rewrite eff_lift_Ok..|]; [by split; [|left]| |by split; [|left]].
  destruct s. by split; [|right].
Qed.

(** What an event record says of its run and index. *)
Lemma event_record_fields clock run step i ty actor p x r sr key w e w' :
  _event_record clock run step i ty actor p x r sr key w = (Ok e, w') ->
  dget "run_id" VNone e = VStr run /\ dget "event_index" VNone e = VInt i /\ w_store w' = w_store w.
Proof. intros H. injection H as <- <-. done. Qed.

(** At most one event is added, of this run and under this index. *)
Definition adds_event (run : string) (index : Z) (w w' : world) : Prop :=
  event_indices (w_store w') = event_indices (w_store w) /\
  exists e, runtime_events (w_store w') = runtime_events (w_store w) ++ e /\
    (e = [] \/ exists r, e = [r] /\ dget "run_id" VNone r = VStr run /\ dget "event_index" VNone r = VInt index).

Lemma adds_event_bind {A B} run index (m : rt A) (k : A -> rt B) :
  preserves same_store m ->
  (forall w x w1, m w = (Ok x, w1) -> adds_event run index w1 (k x w1).2) ->
  preserves (adds_event run index) (m ≫= k).
Proof.
  intros Hm Hk w. unfold mbind, eff_bind. specialize (Hm w). destruct (m w) as [[x|e] w1] eqn:E; cbn [snd] in *.
  - specialize (Hk w x w1 E). unfold adds_event, same_store in *. by rewrite Hm in Hk.
  - unfold adds_event. rewrite Hm. split; [done|]. exists []. rewrite app_nil_r. auto.
Qed.

Lemma insert_event_adds r w run index :
  dget "run_id" VNone r = VStr run -> dget "event_index" VNone r = VInt index ->
  adds_event run index w (on_store (insert_runtime_event r) w).2.
Proof.
  intros Hr Hi. unfold on_store, zoom. destruct (insert_event_cases r (w_store w)) as [H1 H2].
  destruct (insert_runtime_event r (w_store w)) as [x s']. cbn in *. split; [done|].
  change (w_store (set_store s' w)) with s'.
  destruct H2 as [->|[-> _]]; [exists []; rewrite app_nil_r; auto|exists [r]; split; [done|right; by exists r]].
Qed.

Lemma event_tail_adds a clock run ty actor e key index :
  preserves (adds_event run index)
   (planned ← _write_event_payload a run index ty "planned" (planned_action e) (ev_redact e);
    executed ← _write_event_payload a run index ty "execution" (execution e) (ev_redact e);
    result ← _write_event_payload a run index ty "result" (ev_result e) (ev_redact e);
    r ← _event_record clock run (ev_step_id e) index ty actor planned executed result (ev_stop_reason e) key;
    on_store (insert_runtime_event r)).
Proof.
  do 3 (apply adds_event_bind; [apply write_payload_store|intros ? ? ? _]; match goal with
    | |- adds_event _ _ ?w (?m ?w).2 => revert w; change (preserves (adds_event run index) m) end).
  apply adds_event_bind; [apply event_record_store|].
  intros w' r w1' (H1 & H2 & _)%event_record_fields. by apply insert_event_adds.
Qed.

Lemma allocate_event_cases run s :
  match allocate_runtime_event_index run s with
  | (Ok index, s') =>
      event_indices s' = od_set run (index + 1)%Z (event_indices s) /\
      (forall j, od_get run (event_indices s) = Some j -> index = j) /\
      runtime_events s' = runtime_events s
  | (Raise _, s') => s' = s
  end.
Proof.
  unfold allocate_runtime_event_index. destruct (allocate_index Events "event_index" run s) as [[i|e] s'] eqn:E.
  - apply allocate_Ok in E as (H1 & H2 & H3 & _); [|by left]. done.
  - revert E. unfold allocate_index. rewrite eff_gets. cbn [get_indices].
    destruct (od_get run _); [done|]. unfold mbind at 1, eff_bind at 1.
    rewrite eff_gets. destruct (filterM _ _) as [l|]; [rewrite eff_lift_Ok|by intros [= _ <-]].
    destruct (mapM _ l) as [l'|]; [done|by intros [= _ <-]].
Qed.

Lemma record_event_trace a clock run ty actor e :
  preserves w_trace_step (record_event a clock run ty actor e).
Proof.
  unfold record_event. do 3 (apply (preserves_bind _); [by apply (preserves_lift _)|intros ?]).
  intros w. pose proof (allocate_event_cases run (w_store w)) as Ha.
  unfold mbind at 1, eff_bind at 1. unfold on_store at 1, zoom.
  destruct (allocate_runtime_event_index run (w_store w)) as [[index|ex] s1]; cbn [snd]; cbv zeta.
  - pose proof (event_tail_adds a clock run ty actor e
      (or_str (ev_idempotency_key e) (run +:+ ":event:" +:+ ty +:+ ":" +:+ zstr index)) index (set_store s1 w)) as Ht.
    destruct Ha as (H1 & H2 & H3). destruct Ht as (H4 & ev & H5 & H6).
    change (w_store (set_store s1 w)) with s1 in *. rewrite H1 in H4. rewrite H3 in H5.
    split; [by exists ev|]. intros Hok. by eapply trace_extend.
  - rewrite Ha. unfold w_trace_step. cbn. reflexivity.
Qed.
#[export] Hint Resolve record_event_trace : preserves.

(** ** Any use of the recorder *)

(** The calls a caller can make, with arguments of any kind; a call that raises
    is one the caller may have caught. *)
Inductive recorder_call :=
| StartRun (task_id : string) (profile : odict value) (run_id : option string) (status : string) (o : run_options)
| StartStep (run_id : string) (step_index : Z) (kind : string) (token_budget : option Z) (key : option string)
| CompleteStep (step_id status : string) (stop_reason : option string) (tokens_used : Z)
| RecordEvent (run_id event_type actor_role : string) (e : event_args)
| Checkpoint (run_id phase : string) (state : value) (step_id : option string) (tokens : Z) (redact : bool)
| CompleteRun (run_id status stop_reason : string) (tokens_used : Z).

Definition do_call (a : JsonArtifactStore) (clock : nat -> datetime) (c : recorder_call) : rt record :=
  match c with
  | StartRun t p r s o => start_run a clock t p r s o
  | StartStep r i k b key => start_step clock r i k b key
  | CompleteStep i s sr n => complete_step clock i s sr n
  | RecordEvent r ty actor e => record_event a clock r ty actor e
  | Checkpoint r ph st i n red => checkpoint a clock r ph st i n red
  | CompleteRun r s sr n => complete_run clock r s sr n
  end.

Definition do_calls a clock (cs : list recorder_call) (w : world) : world :=
  foldl (fun w c => (do_call a clock c w).2) w cs.

Lemma do_call_trace a clock c : preserves w_trace_step (do_call a clock c).
Proof.
  destruct c; cbn [do_call];
    unfold start_run, start_step, complete_step, checkpoint, complete_run, insert_runtime_run,
      update_runtime_run, update_runtime_step; preserves_tac.
Qed.

(** ** The recorder stays out of the queue *)

(** The tables the queue manager and the quota manager own. *)
Definition queue_tables (s : store) : table * table * table * table * table :=
  (runtime_queue_items s, runtime_run_attempts s, runtime_run_claims s, runtime_dead_letters s,
   runtime_quota_reservations s).
Definition same_queue (s s' : store) : Prop := queue_tables s' = queue_tables s.
#[export] Instance same_queue_preorder : PreOrder same_queue.
Proof. split; [done|]. unfold same_queue. intros a b c. congruence. Qed.

Definition run_table (t : table_name) : Prop := t = Runs \/ t = Steps.
Lemma set_run_table_queue t v s : run_table t -> same_queue s (set_table t v s).
Proof. intros [-> | ->]; by destruct s. Qed.
Lemma insert_record_queue t r : run_table t -> preserves same_queue (insert_record t r).
Proof.
  intros Ht. unfold insert_record. preserves_tac. apply (preserves_modify _). intros ?. by apply set_run_table_queue.
Qed.
Lemma update_record_queue t k f : run_table t -> preserves same_queue (update_record t k f).
Proof.
  intros Ht. unfold update_record. preserves_tac. apply (preserves_modify _). intros ?. by apply set_run_table_queue.
Qed.
Lemma append_record_queue t r : preserves same_queue (append_record t r).
Proof. unfold append_record. preserves_tac. apply (preserves_modify _). intros s. by destruct s, t. Qed.
Lemma allocate_index_queue t key run : preserves same_queue (allocate_index t key run).
Proof. unfold allocate_index. preserves_tac. apply (preserves_modify _). intros s. by destruct s, t. Qed.
#[export] Hint Resolve append_record_queue allocate_index_queue : preserves.

(** What a run's own records do to the world: the trace in order, the queue untouched. *)
Definition log_step (w w' : world) : Prop := w_trace_step w w' /\ same_queue (w_store w) (w_store w').
#[export] Instance log_step_preorder : PreOrder log_step.
Proof. split; [by split|]. intros a b c [] []. split; by etrans. Qed.

Definition w_same_queue (w w' : world) : Prop := same_queue (w_store w) (w_store w').
#[export] Instance w_same_queue_preorder : PreOrder w_same_queue.
Proof. split; [done|]. unfold w_same_queue, same_queue. intros a b c. congruence. Qed.
Lemma on_store_queue {A} (m : st A) : preserves same_queue m -> preserves w_same_queue (on_store m).
Proof. by apply preserves_zoom. Qed.
Lemma on_files_queue {A} (m : art A) : preserves w_same_queue (on_files m).
Proof. intros w. unfold on_files, zoom. by destruct (m (w_files w)). Qed.
Lemma iso_now_queue clock : preserves w_same_queue (iso_now clock).
Proof. by intros w. Qed.
#[export] Hint Resolve on_store_queue on_files_queue iso_now_queue : preserves.

Lemma record_event_queue a clock run ty actor e : preserves w_same_queue (record_event a clock run ty actor e).
Proof.
  unfold record_event, _write_event_payload, _event_record, allocate_runtime_event_index, insert_runtime_event.
  preserves_tac; apply on_store_queue; preserves_tac.
Qed.
#[export] Hint Resolve record_event_queue : preserves.
Lemma do_call_queue a clock c : preserves w_same_queue (do_call a clock c).
Proof.
  destruct c; cbn [do_call];
    unfold start_run, start_step, complete_step, checkpoint, complete_run, insert_runtime_run, insert_runtime_step,
      update_runtime_run, update_runtime_step, allocate_runtime_checkpoint_index, insert_runtime_checkpoint;
    preserves_tac; apply on_store_queue; preserves_tac;
    (apply insert_record_queue || apply update_record_queue); by (left + right).
Qed.

Lemma log_both {A} (m : rt A) : preserves w_trace_step m -> preserves w_same_queue m -> preserves log_step m.
Proof. intros H1 H2 w. split; [apply H1|apply H2]. Qed.
Lemma do_call_log a clock c : preserves log_step (do_call a clock c).
Proof. apply log_both; [apply do_call_trace|apply do_call_queue]. Qed.
Lemma record_event_log a clock run ty actor e : preserves log_step (record_event a clock run ty actor e).
Proof. apply log_both; auto with preserves. Qed.
Lemma on_files_log {A} (m : art A) : preserves log_step (on_files m).
Proof. apply log_both; auto with preserves. Qed.
Lemma iso_now_log clock : preserves log_step (iso_now clock).
Proof. apply log_both; auto with preserves. Qed.
Lemma on_store_log {A} (m : st A) : preserves same_events m -> preserves same_queue m -> preserves log_step (on_store m).
Proof. intros H1 H2. apply log_both; auto with preserves. Qed.
#[export] Hint Resolve record_event_log on_files_log iso_now_log on_store_log : preserves.

(** ** Properties *)

(** The trace is append-only and in order: whatever calls are made on the
    recorder, successful or not, no event is ever changed, removed or moved,
    and the event indices of every run strictly increase along the log and stay
    below its counter, so they are never reused. *)
Theorem trace_append_only a clock calls w :
  trace_ok (w_store w) ->
  trace_ok (w_store (do_calls a clock calls w)) /\
  exists new, runtime_events (w_store (do_calls a clock calls w)) = runtime_events (w_store w) ++ new.
Proof.
  intros Hok. assert (H : w_trace_step w (do_calls a clock calls w)).
  { clear Hok. revert w. induction calls as [|c cs IH]; intros w; [reflexivity|].
    etrans; [apply (do_call_trace a clock c)|apply IH]. }
  destruct H as [H1 H2]. auto.
Qed.

Lemma trace_ok_empty : trace_ok empty_store.
Proof. intros run. exists []. split; [done|]. split; [constructor|done]. Qed.

Definition demo_calls : list recorder_call :=
  [RecordEvent "run-a" "runtime_started" "runtime" (plain_event (VDict [("n", VInt 1)]) None);
   RecordEvent "run-a" "no_such_event" "runtime" (plain_event VNone None);
   Checkpoint "run-a" "planner" (VDict [("api_key", VStr "k")]) None 3 true].

Lemma trace_append_only_witness :
  trace_ok empty_store /\
  exists w, w = do_calls example_store (fun n => Z.of_nat n) demo_calls (mkWorld empty_store ∅ 0) /\
    trace_ok (w_store w) /\ length (runtime_events (w_store w)) = 2%nat.
Proof.
  split; [exact trace_ok_empty|]. eexists. split; [reflexivity|].
  split; [exact (proj1 (trace_append_only example_store (fun n => Z.of_nat n) demo_calls
    (mkWorld empty_store ∅ 0) trace_ok_empty))|]. vm_compute. reflexivity.
Defined.
