(* ===== verification/Quotas.v ===== *)
(** * Tenant gates: whether a tenant may start, and how much it may reserve

    Models [runtime/tenant_status.py] and [runtime/quotas.py]. A quota is a
    limit on what the runs of one tenant reserve within one minute, the quota
    window; the window is the text of the clock's minute. *)

From S2P Require Import Prelude PyStr PyValue Models Enforcement RuntimeStore Artifacts Clock FlightRecorder.
Open Scope string_scope.
Open Scope list_scope.

(** ** Tenant status *)

(** [v in {None, "global"}] *)
Definition none_or_global (v : value) : res bool :=
  match v with VNone => Ok true | _ => in_frozenset v [GLOBAL_TENANT_ID] end.

(** [v.get(key, {})] of a mapping, [{}] of anything else *)
Definition get_in (key : string) (v : value) : value :=
  match v with VDict d => dget key (VDict []) d | _ => VDict [] end.
Definition get_field (key : string) (v : value) : value :=
  match v with VDict d => dget key VNone d | _ => VNone end.

Definition assert_runtime_tenant_is_startable (task composition_context_response : odict value) : res unit :=
  let auth := get_in "auth" (dget "context" (VDict []) task) in
  let tenant_id := get_field "tenant_id" auth in
  let area_id := get_field "area_id" auth in
  exempt ← none_or_global tenant_id;
  if exempt : bool then mret tt else
  match dget "tenant_authority" VNone composition_context_response with
  | VDict authority =>
      raise_if (negb (py_eq (dget "tenant_id" VNone authority) tenant_id))
        (RuntimeTenantStatusError "Tenant authority does not match the runtime task tenant.") ;;
      raise_if (negb (py_eq (dget "area_id" VNone authority) area_id))
        (RuntimeTenantStatusError "Tenant authority does not match the runtime task area.") ;;
      active ← in_frozenset (dget "status" VNone authority) ALLOWED_TENANT_STATUSES;
      raise_if (negb active) (RuntimeTenantStatusError "Tenant is not active for runtime execution.")
  | _ =>
      raise_if (negb (py_eq (dget "composition_status" VNone composition_context_response) (VStr "denied")))
        (RuntimeTenantStatusError "Tenant authority is required for runtime execution.")
  end.

(** ** Quotas *)

Record RuntimeQuotaConfig := mkRuntimeQuotaConfig {
  tenant_token_limits_per_minute : odict Z;
  tenant_tool_call_limits_per_minute : odict Z;
}.

(** The records of a table in [as_runtime_plane_recordset()]. *)
Definition recordset_records (name : string) (recordset : record) : list record :=
  match dget "records" (VDict []) recordset with
  | VDict records => match dget name (VList []) records with VList l => omap as_mapping l | _ => [] end
  | _ => []
  end.

(** What one reservation counts for: its field when it is live in this window. *)
Definition reservation_counts (tenant_id quota_window : string) (reservation : record) : res bool :=
  if py_eq (dget "tenant_id" VNone reservation) (VStr tenant_id)
     && py_eq (dget "quota_window" VNone reservation) (VStr quota_window)
  then in_frozenset (dget "status" VNone reservation) ["reserved"; "finalized"]
  else mret false.

Definition add_reservation (tenant_id quota_window field : string) (used : Z) (reservation : record) : res Z :=
  counts ← reservation_counts tenant_id quota_window reservation;
  if counts : bool then n ← py_int (dget field (VInt 0) reservation); mret (used + n)%Z else mret used.

Definition quota_used (tenant_id quota_window field : string) (s : store) : res Z :=
  foldM (add_reservation tenant_id quota_window field) 0%Z
    (recordset_records "runtime_quota_reservations" (as_runtime_plane_recordset "0.2.0" "dev" s)).

(** [int(limits.get(key, 0)) if isinstance(limits, Mapping) else 0] *)
Definition requested_limit (profile : odict value) (key : string) : res Z :=
  match dget "limits" (VDict []) profile with
  | VDict limits => py_int (dget key (VInt 0) limits)
  | _ => mret 0%Z
  end.

Section quotas.
Context (artifacts : JsonArtifactStore) (clock : nat -> datetime).

Definition _assert_within_limit (tenant_id quota_window field : string) (requested : Z)
    (limit : option Z) (run_id stop_reason : string) : rt unit :=
  match limit with
  | None => mret tt
  | Some limit =>
      s ← gets w_store;
      used ← lift (quota_used tenant_id quota_window field s);
      if (used + requested <=? limit)%Z then mret tt
      else
        record_event artifacts clock run_id "quota_exhausted" "quota_manager"
          (plain_event (VDict
            [("tenant_id", VStr tenant_id); ("quota_window", VStr quota_window); ("field", VStr field);
             ("requested", VInt requested); ("used", VInt used); ("limit", VInt limit)]) (Some stop_reason)) ;;
        throw (RuntimeQuotaError "Tenant runtime quota exceeded." stop_reason)
  end.

Definition reserve (queue_id run_id tenant_id : string) (profile : odict value) (config : RuntimeQuotaConfig)
    : rt record :=
  reserved_tokens ← lift (requested_limit profile "max_tokens");
  reserved_tool_calls ← lift (requested_limit profile "max_tool_calls");
  t ← iso_now clock;
  let quota_window := str_take 16 t in
  _assert_within_limit tenant_id quota_window "reserved_tokens" reserved_tokens
    (od_get tenant_id (tenant_token_limits_per_minute config)) run_id "max_tokens" ;;
  _assert_within_limit tenant_id quota_window "reserved_tool_calls" reserved_tool_calls
    (od_get tenant_id (tenant_tool_call_limits_per_minute config)) run_id "max_tool_calls" ;;
  let reservation_id := slug_id (queue_id +:+ "-" +:+ run_id +:+ "-" +:+ quota_window) (Some "quota") in
  created ← iso_now clock;
  reservation ← on_store (insert_runtime_quota_reservation
    [("id", VStr reservation_id); ("queue_id", VStr queue_id); ("run_id", VStr run_id);
     ("tenant_id", VStr tenant_id); ("quota_window", VStr quota_window);
     ("reserved_tokens", VInt reserved_tokens); ("reserved_tool_calls", VInt reserved_tool_calls);
     ("status", VStr "reserved"); ("created_at", VStr created); ("finalized_at", VNone)]);
  record_event artifacts clock run_id "quota_reserved" "quota_manager"
    (plain_event (VDict
      [("tenant_id", VStr tenant_id); ("quota_window", VStr quota_window);
       ("reserved_tokens", VInt reserved_tokens); ("reserved_tool_calls", VInt reserved_tool_calls)]) None) ;;
  mret reservation.

Definition settle (reservation_id status : string) : rt record :=
  t ← iso_now clock;
  on_store (update_runtime_quota_reservation reservation_id
    [("status", VStr status); ("finalized_at", VStr t)]).
Definition finalize (reservation_id : string) : rt record := settle reservation_id "finalized".
Definition refund (reservation_id : string) : rt record := settle reservation_id "refunded".
End quotas.

(** ** What the sum counts *)

Lemma omap_as_mapping (l : list record) : omap as_mapping (map VDict l) = l.
Proof. induction l as [|r l IH]; [done|]. cbn [map]. cbn [omap list_omap as_mapping]. by f_equal. Qed.

Lemma recordset_reservations cv env s :
  recordset_records "runtime_quota_reservations" (as_runtime_plane_recordset cv env s)
  = od_values (runtime_quota_reservations s).
Proof.
  unfold recordset_records, as_runtime_plane_recordset. cbn [dget od_get String.eqb Ascii.eqb Bool.eqb].
  cbn. apply omap_as_mapping.
Qed.

Lemma quota_used_values tenant window field s :
  quota_used tenant window field s
  = foldM (add_reservation tenant window field) 0%Z (od_values (runtime_quota_reservations s)).
Proof. unfold quota_used. by rewrite recordset_reservations. Qed.

(** A stored reservation: natural amounts and a status. *)
Definition quota_field (field : string) : Prop := In field ["reserved_tokens"; "reserved_tool_calls"].
Definition reservation_ok (r : record) : Prop :=
  (forall field, quota_field field -> exists n, dget field (VInt 0) r = VInt n /\ (0 <= n)%Z) /\
  exists st, dget "status" VNone r = VStr st.

Definition amount (tenant window field : string) (r : record) : Z :=
  match add_reservation tenant window field 0 r with Ok n => n | Raise _ => 0%Z end.

Lemma add_reservation_ok tenant window field used r :
  quota_field field -> reservation_ok r ->
  add_reservation tenant window field used r = Ok (used + amount tenant window field r)%Z /\
  (0 <= amount tenant window field r)%Z.
Proof.
  intros Hf [Hn (st & Hst)]. destruct (Hn field Hf) as (n & Hfield & Hpos).
  unfold amount, add_reservation, reservation_counts. rewrite Hst, Hfield.
  destruct (_ && _); cbn [in_frozenset mbind result_bind mret result_ret py_int];
    [destruct (str_in _ _); cbn [mbind result_bind mret result_ret]|]; split; try done; f_equal; lia.
Qed.

Fixpoint total (f : record -> Z) (l : list record) : Z :=
  match l with [] => 0%Z | r :: l' => (f r + total f l')%Z end.

Lemma quota_used_total tenant window field s :
  quota_field field -> Forall reservation_ok (od_values (runtime_quota_reservations s)) ->
  quota_used tenant window field s
  = Ok (total (amount tenant window field) (od_values (runtime_quota_reservations s))).
Proof.
  intros Hf Hok. rewrite quota_used_values.
  replace (Ok _) with (Ok (0 + total (amount tenant window field) (od_values (runtime_quota_reservations s)))%Z : res Z)
    by (f_equal; lia).
  generalize 0%Z. induction Hok as [|r l Hr Hl IH]; intros z; cbn [foldM total]; [by rewrite Z.add_0_r|].
  rewrite (proj1 (add_reservation_ok _ _ _ z r Hf Hr)). cbn [mbind result_bind]. rewrite IH. f_equal. lia.
Qed.

(** Setting a record replaces its contribution. *)
Lemma total_od_set (f : record -> Z) k r d :
  total f (od_values (od_set k r d))
  = (total f (od_values d) - match od_get k d with Some old => f old | None => 0 end + f r)%Z.
Proof.
  induction d as [|[k' r'] d IH]; cbn [od_set od_get od_values map total snd]; [lia|].
  destruct (String.eqb k k'); cbn [map snd total]; [lia|]. unfold od_values in IH. rewrite IH. lia.
Qed.

Lemma Forall_od_set (P : record -> Prop) k r d :
  Forall P (od_values d) -> P r -> Forall P (od_values (od_set k r d)).
Proof.
  intros Hd Hr. induction d as [|[k' r'] d IH]; cbn in *; [by repeat constructor|].
  inversion Hd; subst. destruct (String.eqb k k'); cbn; constructor; auto.
Qed.

(** ** The quota invariant *)

(** Every live total of every tenant and window is within the tenant's limits. *)
Definition limit_of (config : RuntimeQuotaConfig) (field tenant : string) : option Z :=
  od_get tenant (if String.eqb field "reserved_tokens" then tenant_token_limits_per_minute config
                 else tenant_tool_call_limits_per_minute config).

Definition quota_ok (config : RuntimeQuotaConfig) (s : store) : Prop :=
  Forall reservation_ok (od_values (runtime_quota_reservations s)) /\
  forall field tenant window limit, quota_field field -> limit_of config field tenant = Some limit ->
    exists used, quota_used tenant window field s = Ok used /\ (used <= limit)%Z.

Definition same_reservations (w w' : world) : Prop :=
  runtime_quota_reservations (w_store w') = runtime_quota_reservations (w_store w).
#[export] Instance same_reservations_preorder : PreOrder same_reservations.
Proof. split; [done|]. unfold same_reservations. intros a b c. congruence. Qed.

Lemma same_reservations_ok config w w' :
  same_reservations w w' -> quota_ok config (w_store w) -> quota_ok config (w_store w').
Proof.
  intros E [H1 H2]. unfold same_reservations in E. split; [by rewrite E|].
  intros f t win l Hf Hl. specialize (H2 f t win l Hf Hl). rewrite quota_used_values in *. by rewrite E.
Qed.

Lemma log_op_reservations {A} (m : st A) :
  preserves (fun s s' => runtime_quota_reservations s' = runtime_quota_reservations s) m ->
  preserves same_reservations (on_store m).
Proof. apply preserves_zoom. intros w s H. exact H. Qed.

#[export] Instance eq_reservations_preorder :
  PreOrder (fun s s' : store => runtime_quota_reservations s' = runtime_quota_reservations s).
Proof. split; [done|]. intros a b c. congruence. Qed.

Lemma record_event_reservations a clock run ty actor e :
  preserves same_reservations (record_event a clock run ty actor e).
Proof.
  assert (Hf : forall A (m : art A), preserves same_reservations (on_files m)).
  { intros A m w. unfold on_files, zoom. by destruct (m (w_files w)). }
  assert (Hp : forall i slot v, preserves same_reservations (_write_event_payload a run i ty slot v (ev_redact e))).
  { intros i slot v. unfold _write_event_payload. preserves_tac. }
  unfold record_event. preserves_tac.
  - apply log_op_reservations. unfold allocate_runtime_event_index, allocate_index. preserves_tac.
    apply preserves_modify. by intros [].
  - intros w. done.
  - apply log_op_reservations. unfold insert_runtime_event, append_record. preserves_tac.
    apply preserves_modify. by intros [].
Qed.
#[export] Hint Resolve record_event_reservations : preserves.

Lemma iso_now_reservations clock : preserves same_reservations (iso_now clock).
Proof. by intros w. Qed.
#[export] Hint Resolve iso_now_reservations : preserves.

Lemma within_limit_reservations a clock tenant window field n limit run sr :
  preserves same_reservations (_assert_within_limit a clock tenant window field n limit run sr).
Proof. unfold _assert_within_limit. preserves_tac. Qed.

(** A passed check leaves room for what was requested. *)
Lemma within_limit_room a clock tenant window field n limit run sr w w' :
  _assert_within_limit a clock tenant window field n limit run sr w = (Ok tt, w') ->
  w' = w /\ forall l used, limit = Some l -> quota_used tenant window field (w_store w) = Ok used -> (used + n <= l)%Z.
Proof.
  unfold _assert_within_limit. destruct limit as [l|]; [|by intros [= <-]].
  rewrite eff_gets. intros H. apply eff_bind_Ok in H as (used & w1 & Hu & H). injection Hu as Hu <-.
  destruct (used + n <=? l)%Z eqn:E.
  - injection H as <-. split; [done|]. intros l' used' [= <-] Hu'. rewrite Hu in Hu'. injection Hu' as <-. lia.
  - apply eff_bind_Ok in H as (? & ? & _ & H). discriminate.
Qed.

(** Storing a record that is no larger than the room left, or that takes the
    place of one counting for more, keeps the invariant. *)
Lemma quota_ok_set config s k r :
  quota_ok config s -> reservation_ok r ->
  (forall field tenant window limit used, quota_field field -> limit_of config field tenant = Some limit ->
     quota_used tenant window field s = Ok used ->
     (used - match od_get k (runtime_quota_reservations s) with
             | Some old => amount tenant window field old | None => 0 end
      + amount tenant window field r <= limit)%Z) ->
  quota_ok config (set_table Reservations (od_set k r (runtime_quota_reservations s)) s).
Proof.
  intros [H1 H2] Hr Hroom.
  assert (E : runtime_quota_reservations (set_table Reservations (od_set k r (runtime_quota_reservations s)) s)
    = od_set k r (runtime_quota_reservations s)) by (by destruct s).
  assert (Hok : Forall reservation_ok (od_values (od_set k r (runtime_quota_reservations s))))
    by (by apply Forall_od_set).
  split; [by rewrite E|]. intros f t win l Hf Hl.
  specialize (Hroom f t win l (total (amount t win f) (od_values (runtime_quota_reservations s))) Hf Hl).
  rewrite quota_used_total by (rewrite ?E; done). rewrite E, total_od_set. eexists. split; [reflexivity|].
  apply Hroom. by apply quota_used_total.
Qed.

Lemma quota_used_exists config s field tenant window :
  quota_ok config s -> quota_field field -> exists used, quota_used tenant window field s = Ok used.
Proof. intros [H _] Hf. eexists. by apply quota_used_total. Qed.

Lemma amount_nonneg tenant window field k s :
  quota_field field -> Forall reservation_ok (od_values (runtime_quota_reservations s)) ->
  (0 <= match od_get k (runtime_quota_reservations s) with
        | Some old => amount tenant window field old | None => 0 end)%Z.
Proof.
  intros Hf Hok. destruct (od_get k _) as [old|] eqn:E; [|done].
  apply add_reservation_ok; [exact 0%Z|done|]. rewrite Forall_forall in Hok. apply Hok.
  apply list_elem_of_In, in_map_iff. exists (k, old). split; [done|by apply od_get_In].
Qed.

(** ** Properties *)

(** The calls on the quota manager. Only a reservation that has not been
    refunded is finalized, which is how the worker calls it. *)
Inductive quota_call :=
| Reserve (queue_id run_id tenant_id : string) (profile : odict value)
| Finalize (reservation_id : string)
| Refund (reservation_id : string).

Definition do_quota (a : JsonArtifactStore) (clock : nat -> datetime) (config : RuntimeQuotaConfig)
    (c : quota_call) : rt record :=
  match c with
  | Reserve q r t p => reserve a clock q r t p config
  | Finalize id => finalize clock id
  | Refund id => refund clock id
  end.

Definition call_ok (s : store) (c : quota_call) : Prop :=
  match c with
  | Reserve _ _ _ profile => forall key n, requested_limit profile key = Ok n -> (0 <= n)%Z
  | Finalize id => forall r, od_get id (runtime_quota_reservations s) = Some r ->
      exists st, dget "status" VNone r = VStr st /\ In st ["reserved"; "finalized"]
  | Refund _ => True
  end.

(** Changing only the status of a reservation. *)
Lemma settle_amount tenant window field r status t :
  quota_field field -> reservation_ok r ->
  let r' := od_update r [("status", VStr status); ("finalized_at", VStr t)] in
  reservation_ok r' /\
  (status = "refunded" \/ (exists st, dget "status" VNone r = VStr st /\ In st ["reserved"; "finalized"]) ->
   (amount tenant window field r' <= amount tenant window field r)%Z).
Proof.
  intros Hf Hr r'.
  assert (Hsame : forall k def, k <> "status" -> k <> "finalized_at" -> dget k def r' = dget k def r).
  { intros k def H1 H2. unfold dget, r', od_update. cbn [foldl fst snd].
    by rewrite !od_get_set_ne. }
  assert (Hst : dget "status" VNone r' = VStr status).
  { unfold dget, r', od_update. cbn [foldl fst snd]. rewrite od_get_set_ne by done. by rewrite od_get_set_eq. }
  assert (Hok : reservation_ok r').
  { destruct Hr as [Hn _]. split; [|by exists status]. intros f Hf'. rewrite Hsame; [by apply Hn|..];
      by destruct Hf' as [<-|[<-|[]]]. }
  split; [done|]. intros Hcase.
  pose proof (add_reservation_ok tenant window field 0 r Hf Hr) as [E1 P1].
  pose proof (add_reservation_ok tenant window field 0 r' Hf Hok) as [E2 P2].
  unfold amount in *. unfold add_reservation, reservation_counts in *. rewrite Hst in *.
  rewrite !Hsame in * by (done || (by destruct Hf as [<-|[<-|[]]])).
  destruct (_ && _); [|done]. destruct Hcase as [->|(st & Hs & Hin)].
  - cbn [in_frozenset str_in existsb String.eqb Ascii.eqb Bool.eqb orb mbind result_bind mret result_ret] in *.
    exact P1.
  - rewrite Hs in *. cbn [in_frozenset mbind result_bind] in *.
    assert (Hc : str_in st ["reserved"; "finalized"] = true) by (by apply str_in_In). rewrite Hc in *.
    destruct (str_in status _); [done|exact P1].
Qed.

(** Running a bind whose first part leaves the reservations alone. *)
Lemma quota_bind {A B} config (m : rt A) (k : A -> rt B) w :
  preserves same_reservations m -> quota_ok config (w_store w) ->
  (forall x w1, m w = (Ok x, w1) -> same_reservations w w1 -> quota_ok config (w_store (k x w1).2)) ->
  quota_ok config (w_store ((m ≫= k) w).2).
Proof.
  intros Hm Hok Hk. specialize (Hm w). unfold mbind, eff_bind.
  destruct (m w) as [[x|e] w1] eqn:E; cbn [snd] in *; [by apply Hk|by apply (same_reservations_ok config w)].
Qed.

Lemma lift_reservations {A} (m : res A) : preserves same_reservations (lift m).
Proof. apply (preserves_lift _). Qed.
#[export] Hint Resolve lift_reservations within_limit_reservations : preserves.

Lemma quota_used_same w w' tenant window field :
  same_reservations w w' -> quota_used tenant window field (w_store w') = quota_used tenant window field (w_store w).
Proof. unfold same_reservations. intros E. by rewrite !quota_used_values, E. Qed.

Definition reservation_record (id queue_id run_id tenant window : string) (tokens calls : Z) (created : string) : record :=
  [("id", VStr id); ("queue_id", VStr queue_id); ("run_id", VStr run_id);
   ("tenant_id", VStr tenant); ("quota_window", VStr window);
   ("reserved_tokens", VInt tokens); ("reserved_tool_calls", VInt calls);
   ("status", VStr "reserved"); ("created_at", VStr created); ("finalized_at", VNone)].

Lemma reservation_record_ok id q run tenant window tokens calls t :
  (0 <= tokens)%Z -> (0 <= calls)%Z ->
  reservation_ok (reservation_record id q run tenant window tokens calls t).
Proof. intros Ht Hc. split; [|by exists "reserved"]. intros f [<-|[<-|[]]]; eexists; by split. Qed.

Lemma reservation_record_amount id q run tenant window tokens calls t tenant' window' field :
  quota_field field ->
  amount tenant' window' field (reservation_record id q run tenant window tokens calls t) =
  if String.eqb tenant tenant' && String.eqb window window'
  then (if String.eqb field "reserved_tokens" then tokens else calls) else 0%Z.
Proof.
  intros Hf. unfold amount, add_reservation, reservation_counts.
  change (dget "tenant_id" VNone _) with (VStr tenant). change (dget "quota_window" VNone _) with (VStr window).
  cbn [py_eq]. destruct (_ && _); [|done]. by destruct Hf as [<-|[<-|[]]].
Qed.

Lemma reserve_insert_ok config w id q run tenant window tokens calls t :
  quota_ok config (w_store w) -> (0 <= tokens)%Z -> (0 <= calls)%Z ->
  (forall field l used, quota_field field -> limit_of config field tenant = Some l ->
     quota_used tenant window field (w_store w) = Ok used ->
     (used + (if String.eqb field "reserved_tokens" then tokens else calls) <= l)%Z) ->
  quota_ok config (w_store
    (on_store (insert_runtime_quota_reservation
      (reservation_record id q run tenant window tokens calls t)) w).2).
Proof.
  intros Hok Ht Hc Hroom.
  refine (quota_ok_set config (w_store w) id (reservation_record id q run tenant window tokens calls t) Hok _ _);
    [by apply reservation_record_ok|].
  intros field tenant' window' limit used Hf Hl Hu. rewrite reservation_record_amount by done.
  pose proof (amount_nonneg tenant' window' field id (w_store w) Hf (proj1 Hok)) as Hold.
  destruct (String.eqb_spec tenant tenant') as [<-|]; [destruct (String.eqb_spec window window') as [<-|]|].
  - cbn [andb]. specialize (Hroom field limit used Hf Hl Hu). lia.
  - cbn [andb]. destruct (proj2 Hok field tenant window' limit Hf Hl) as (u & Hu' & Hle).
    rewrite Hu in Hu'. injection Hu' as <-. lia.
  - cbn [andb]. destruct (proj2 Hok field tenant' window' limit Hf Hl) as (u & Hu' & Hle).
    rewrite Hu in Hu'. injection Hu' as <-. lia.
Qed.

Lemma reserve_keeps_quota a clock config q run tenant profile w :
  quota_ok config (w_store w) -> call_ok (w_store w) (Reserve q run tenant profile) ->
  quota_ok config (w_store (reserve a clock q run tenant profile config w).2).
Proof.
  intros Hok Hcall. unfold reserve.
  apply quota_bind; [auto with preserves|done|]. intros tokens w1 Ht _. injection Ht as Ht <-.
  apply quota_bind; [auto with preserves|done|]. intros calls w1 Hc _. injection Hc as Hc <-.
  apply Hcall in Ht, Hc.
  apply quota_bind; [auto with preserves|done|]. intros t w1 _ S1. cbv zeta.
  assert (Hok1 := same_reservations_ok config w w1 S1 Hok).
  apply quota_bind; [auto with preserves|done|]. intros [] w2 H1 _.
  apply within_limit_room in H1 as [-> Room1].
  apply quota_bind; [auto with preserves|done|]. intros [] w2 H2 _.
  apply within_limit_room in H2 as [-> Room2].
  apply quota_bind; [auto with preserves|done|]. intros created w3 _ S3.
  assert (Hok3 := same_reservations_ok config w1 w3 S3 Hok1).
  unfold mbind at 1, eff_bind at 1.
  pose proof (reserve_insert_ok config w3
    (slug_id (q +:+ "-" +:+ run +:+ "-" +:+ str_take 16 t) (Some "quota")) q run tenant (str_take 16 t)
    tokens calls created Hok3 Ht Hc) as Hins.
  unfold reservation_record in Hins. destruct (on_store _ w3) as [[r|e] w4]; cbn [snd] in *.
  - apply quota_bind; [auto with preserves| |intros x w5 _ S5; apply (same_reservations_ok config w4 w5 S5)];
      apply Hins; intros field l used Hf Hl Hu; rewrite (quota_used_same w1 w3) in Hu by done;
      destruct Hf as [<-|[<-|[]]]; [by eapply Room1|by eapply Room2|by eapply Room1|by eapply Room2].
  - apply Hins. intros field l used Hf Hl Hu. rewrite (quota_used_same w1 w3) in Hu by done.
    destruct Hf as [<-|[<-|[]]]; [by eapply Room1|by eapply Room2].
Qed.

Lemma settle_keeps_quota clock config id status w :
  quota_ok config (w_store w) ->
  (status = "refunded" \/ forall r, od_get id (runtime_quota_reservations (w_store w)) = Some r ->
      exists st, dget "status" VNone r = VStr st /\ In st ["reserved"; "finalized"]) ->
  quota_ok config (w_store (settle clock id status w).2).
Proof.
  intros Hok Hcase. unfold settle.
  apply quota_bind; [auto with preserves|done|]. intros t w1 _ S1.
  assert (Hok1 := same_reservations_ok config w w1 S1 Hok). unfold same_reservations in S1. rewrite <- S1 in Hcase.
  unfold on_store, zoom, update_runtime_quota_reservation, update_record. rewrite eff_gets. cbn [get_table].
  unfold ditem. destruct (od_get id _) as [r|] eqn:E; [rewrite eff_lift_Ok, eff_modify|done].
  cbn [mret eff_ret snd set_store w_store get_table]. apply quota_ok_set; [done| |].
  - assert (Hr : reservation_ok r).
    { destruct Hok1 as [H1 _]. rewrite Forall_forall in H1. apply H1, list_elem_of_In, in_map_iff.
      exists (id, r). split; [done|by apply od_get_In]. }
    by apply (settle_amount "" "" "reserved_tokens"); [left|].
  - intros field tenant window limit used Hf Hl Hu. rewrite E.
    assert (Hr : reservation_ok r).
    { destruct Hok1 as [H1 _]. rewrite Forall_forall in H1. apply H1, list_elem_of_In, in_map_iff.
      exists (id, r). split; [done|by apply od_get_In]. }
    destruct (settle_amount tenant window field r status t Hf Hr) as [_ Hle].
    destruct (proj2 Hok1 field tenant window limit Hf Hl) as (u & Hu' & Hlim).
    rewrite Hu in Hu'. injection Hu' as <-.
    assert (Hs : status = "refunded" \/ exists st, dget "status" VNone r = VStr st /\ In st ["reserved"; "finalized"])
      by (destruct Hcase as [?|Hc]; [by left|right; by apply Hc]).
    specialize (Hle Hs). lia.
Qed.

(** C14. No tenant exceeds its quota: with a fixed configuration, a call on the
    quota manager, whether it succeeds or raises, keeps what the live
    reservations of each tenant hold in each window within the tenant's token
    limit and its tool-call limit, if a reservation is made for a profile whose
    limits are not negative and no reservation is finalized after its refund.
    The code checks neither, see [finalized_after_refund] and
    [negative_reservation]. *)
Theorem quota_never_exceeded a clock config call w :
  quota_ok config (w_store w) -> call_ok (w_store w) call ->
  quota_ok config (w_store (do_quota a clock config call w).2).
Proof.
  intros Hok Hcall. destruct call as [q r t p|id|id]; cbn [do_quota].
  - by apply reserve_keeps_quota.
  - unfold finalize. apply settle_keeps_quota; [exact Hok|right; exact Hcall].
  - unfold refund. apply settle_keeps_quota; [exact Hok|left; reflexivity].
Qed.

Definition demo_quota : RuntimeQuotaConfig := mkRuntimeQuotaConfig [("acme", 100%Z)] [].
Definition demo_quota_profile : odict value := [("limits", VDict [("max_tokens", VInt 60)])].
Definition demo_reserve (run : string) : world -> result exn record * world :=
  reserve example_store (fun n => Z.of_nat n) "q" run "acme" demo_quota_profile demo_quota.

Lemma quota_never_exceeded_witness :
  let w := mkWorld empty_store ∅ 0 in
  quota_ok demo_quota (w_store w) /\ quota_ok demo_quota (w_store (demo_reserve "r1" w).2).
Proof.
  assert (H : quota_ok demo_quota empty_store).
  { split; [constructor|]. intros f t win l Hf Hl. exists 0%Z. split; [reflexivity|].
    unfold limit_of, demo_quota in Hl. cbn [tenant_token_limits_per_minute tenant_tool_call_limits_per_minute] in Hl.
    destruct (String.eqb f "reserved_tokens"); cbn in Hl; [|discriminate].
    destruct (String.eqb t "acme"); [injection Hl as <-; lia|discriminate]. }
  split; [exact H|].
  apply (quota_never_exceeded example_store (fun n => Z.of_nat n) demo_quota
    (Reserve "q" "r1" "acme" demo_quota_profile) (mkWorld empty_store ∅ 0) H).
  intros key n Hn. unfold requested_limit, demo_quota_profile in Hn. cbn in Hn. unfold dget in Hn. cbn in Hn.
  destruct (String.eqb key "max_tokens"); cbn in Hn; injection Hn as <-; lia.
Defined.

(** The second reservation of the minute does not fit, and is refused. *)
Example second_reservation_refused :
  let w := (demo_reserve "r1" (mkWorld empty_store ∅ 0)).2 in
  (demo_reserve "r2" w).1 = Raise (RuntimeQuotaError "Tenant runtime quota exceeded." "max_tokens").
Proof. vm_compute. reflexivity. Qed.

(** *** What the manager does not guard *)

Definition reservation_of (m : result exn record * world) : string := match m.1 with Ok r => py_str (dget "id" VNone r) | Raise _ => "" end.
Definition used_by_acme (w : world) (like : result exn record * world) : res Z :=
  match like.1 with
  | Ok r => quota_used "acme" (py_str (dget "quota_window" VNone r)) "reserved_tokens" (w_store w)
  | Raise e => Raise e
  end.

(** A refunded reservation can be finalized, and counts again: the room it left
    has been given away, and the limit of 100 is exceeded. *)
Lemma finalized_after_refund :
  let first := demo_reserve "r1" (mkWorld empty_store ∅ 0) in
  let second := demo_reserve "r2" (refund (fun n => Z.of_nat n) (reservation_of first) first.2).2 in
  is_ok second.1 = true /\ used_by_acme (finalize (fun n => Z.of_nat n) (reservation_of first) second.2).2 second = Ok 120%Z.
Proof. vm_compute. by split. Qed.

(** A reservation of a negative amount makes room that its refund takes back. *)
Lemma negative_reservation :
  let reserve_ n run w := reserve example_store (fun n => Z.of_nat n) "q" run "acme" [("limits", VDict [("max_tokens", VInt n)])] demo_quota w in
  let first := reserve_ (-50)%Z "r1" (mkWorld empty_store ∅ 0) in
  let second := reserve_ 150%Z "r2" first.2 in
  is_ok second.1 = true /\ used_by_acme (refund (fun n => Z.of_nat n) (reservation_of first) second.2).2 second = Ok 150%Z.
Proof. vm_compute. by split. Qed.
