(* ===== verification/Queue.v ===== *)
(** * The runtime queue manager

    Models [RuntimeQueueManager] of [runtime/queue.py] over the in-memory store,
    the artifact files and the clock. The parameters of a section are the
    parser of JSON text, the float power of the platform's mathematics library
    and the seeded random generator of the retry jitter. The worker that runs
    claimed items is in [Worker]. *)

From Stdlib Require Import SpecFloat.
From S2P Require Import Prelude PyStr PyFloat PyValue Models TaskAnalyzer RuntimeStore Artifacts Clock FlightRecorder Quotas.
Open Scope string_scope.
Open Scope list_scope.

Record RuntimeQueueConfig := mkRuntimeQueueConfig {
  lease_seconds : Z;
  heartbeat_seconds : Z;
  config_max_attempts : Z;
  retry_delay_seconds : Z;
  retry_backoff_multiplier : float;
  retry_jitter_seconds : Z;
  config_global_running_limit : option Z;
  config_tenant_running_limits : odict Z;
  tenant_queued_limits : odict Z;
  config_token_limits_per_minute : odict Z;
  config_tool_call_limits_per_minute : odict Z;
  config_allowed_tenant_ids : list string;
  config_disabled_tenant_ids : list string;
  config_environment : string;
  config_queue_name : string;
  worker_pool_size : Z;
}.

(** The defaults of the data class. *)
Definition default_queue_config : RuntimeQueueConfig :=
  mkRuntimeQueueConfig 300 30 3 30 (ratio 2 1) 0 None [] [] [] [] [] [] "dev" "default" 1.

(** The keyword arguments of [enqueue] and their defaults. *)
Record enqueue_options := mkEnqueueOptions {
  eo_context : option (odict value);
  eo_priority : Z;
  eo_scheduled_at : option string;
  eo_max_attempts : Z;
  eo_idempotency_key : option string;
  eo_environment : string;
  eo_queue_name : string;
  eo_tenant_queued_limits : odict Z;
  eo_disabled_tenant_ids : list string;
}.
Definition default_enqueue : enqueue_options :=
  mkEnqueueOptions None 0 None 3 None "dev" "default" [] [].

(** The keyword arguments of [_update_status]. *)
Record status_update := mkStatusUpdate {
  su_run_id : option string;
  su_attempt_id : option string;
  su_scheduled_at : option string;
  su_last_error : option string;
  su_clear_claim : bool;
}.
Definition no_update : status_update := mkStatusUpdate None None None None false.

Section queue.
Context (artifacts : JsonArtifactStore) (clock : nat -> datetime).
Context (json_loads : string -> res value).
Context (float_pow : float -> Z -> res float) (jitter : string -> Z -> Z).

Definition _tenant_queued_count (tenant_id : string) : rt Z :=
  s ← gets w_store;
  lift (count (fun item =>
    if py_eq (dget "tenant_id" VNone item) (VStr tenant_id)
    then in_frozenset (dget "status" VNone item) CLAIMABLE else mret false)
    (recordset_records "runtime_queue_items" (as_runtime_plane_recordset "0.2.0" "dev" s))).

Definition queue_item_record (queue_id key now task_payload_uri : string) (composition_context_uri : value)
    (analyzed : AnalyzedTask) (o : enqueue_options) : record :=
  [("id", VStr queue_id); ("task_id", VStr (TaskAnalyzer.task_id analyzed));
   ("tenant_id", VStr (TaskAnalyzer.tenant_id (auth_claims analyzed)));
   ("area_id", VStr (area_id (auth_claims analyzed)));
   ("environment", VStr (eo_environment o)); ("queue_name", VStr (eo_queue_name o));
   ("status", VStr "queued"); ("priority", VInt (eo_priority o));
   ("scheduled_at", VStr (or_str (eo_scheduled_at o) now)); ("attempts", VInt 0);
   ("max_attempts", VInt (eo_max_attempts o)); ("claimed_by", VNone); ("claimed_at", VNone);
   ("claimed_until", VNone); ("lease_expires_at", VNone); ("heartbeat_at", VNone);
   ("attempt_id", VNone); ("task_payload_uri", VStr task_payload_uri);
   ("composition_context_uri", composition_context_uri); ("run_id", VNone); ("last_error", VNone);
   ("idempotency_key", VStr key); ("created_at", VStr now); ("updated_at", VStr now)].

Definition enqueue (task : odict value) (o : enqueue_options) : rt record :=
  analyzed ← lift (analyze task);
  let tenant := TaskAnalyzer.tenant_id (auth_claims analyzed) in
  lift (raise_if (String.eqb tenant "global")
    (RuntimeQueueError "Runtime queue items require an explicit tenant_id.")) ;;
  lift (raise_if (str_in tenant (eo_disabled_tenant_ids o))
    (RuntimeQueueError "Disabled or archived tenants cannot enqueue runtime work.")) ;;
  lift (match eo_context o with
        | Some context =>
            if is_none (dget "tenant_authority" VNone context) then mret tt
            else assert_runtime_tenant_is_startable task context
        | None => mret tt
        end) ;;
  match od_get tenant (eo_tenant_queued_limits o) with
  | None => mret tt
  | Some queued_limit =>
      n ← _tenant_queued_count tenant;
      lift (raise_if (queued_limit <=? n)%Z (RuntimeQueueError "Tenant queued backlog limit exceeded."))
  end ;;
  now ← iso_now clock;
  let key := or_str (eo_idempotency_key o) (TaskAnalyzer.task_id analyzed +:+ ":initial") in
  let queue_id := slug_id key (Some "queue") in
  task_payload_uri ← on_files (write_json artifacts ["queue"; queue_id; "task-payload"] (VDict task) false);
  composition_context_uri ←
    match eo_context o with
    | Some context =>
        uri ← on_files (write_json artifacts ["queue"; queue_id; "composition-context-response"]
                          (VDict context) false);
        mret (VStr uri)
    | None => mret VNone
    end;
  on_store (RuntimeStore.insert_runtime_queue_item
    (queue_item_record queue_id key now task_payload_uri composition_context_uri analyzed o)).

(** The request both claiming methods make of the store. *)
Definition claim_request_now (worker : string) (config : RuntimeQueueConfig) : rt claim_request :=
  claimed ← now clock;
  delta ← lift (timedelta_seconds (lease_seconds config));
  lease_until ← lift (add_us claimed delta);
  mret (mkClaimRequest worker (iso_timestamp claimed) (iso_timestamp lease_until)
    (config_tenant_running_limits config) (config_global_running_limit config)
    (config_allowed_tenant_ids config) (config_disabled_tenant_ids config)
    (Some (config_environment config)) (Some (config_queue_name config))).

Definition claim_next (worker : string) (config : RuntimeQueueConfig) : rt (option record) :=
  q ← claim_request_now worker config; on_store (claim_next_runtime_queue_item q).
Definition claim_next_attempt (worker : string) (config : RuntimeQueueConfig) : rt (option claim_bundle) :=
  q ← claim_request_now worker config; on_store (claim_next_runtime_queue_attempt q).

Definition heartbeat (queue_id : string) (config : RuntimeQueueConfig) : rt record :=
  t ← now clock;
  delta ← lift (timedelta_seconds (lease_seconds config));
  until ← lift (add_us t delta);
  on_store (heartbeat_runtime_queue_item queue_id
    [("heartbeat_at", VStr (iso_timestamp t)); ("claimed_until", VStr (iso_timestamp until));
     ("lease_expires_at", VStr (iso_timestamp until)); ("updated_at", VStr (iso_timestamp t))]).

Definition recover_stale_claims : rt (list record) :=
  t ← iso_now clock; on_store (recover_stale_runtime_queue_items t).

Definition opt_field (key : string) (o : option string) : record :=
  match o with Some v => [(key, VStr v)] | None => [] end.

Definition cleared_claim : record :=
  [("claimed_by", VNone); ("claimed_at", VNone); ("claimed_until", VNone);
   ("lease_expires_at", VNone); ("heartbeat_at", VNone)].

Definition status_fields (status t : string) (u : status_update) : record :=
  [("status", VStr status); ("updated_at", VStr t)]
  ++ opt_field "run_id" (su_run_id u) ++ opt_field "attempt_id" (su_attempt_id u)
  ++ opt_field "scheduled_at" (su_scheduled_at u)
  ++ match su_last_error u with
     | Some e => [("last_error", VStr e)]
     | None => if String.eqb status "succeeded" then [("last_error", VNone)] else []
     end
  ++ (if su_clear_claim u then cleared_claim else []).

Definition _update_status (queue_id status : string) (u : status_update) : rt record :=
  lift (require_choice status RUNTIME_QUEUE_STATUSES "runtime_queue_status") ;;
  t ← iso_now clock;
  on_store (RuntimeStore.update_runtime_queue_item queue_id (status_fields status t u)).

Definition mark_running (queue_id run_id : string) (attempt_id : option string) : rt record :=
  _update_status queue_id "running" (mkStatusUpdate (Some run_id) attempt_id None None false).
Definition mark_succeeded (queue_id run_id : string) : rt record :=
  _update_status queue_id "succeeded" (mkStatusUpdate (Some run_id) None None None false).

Definition find_item (queue_id : string) : rt record :=
  item ← on_store (get_runtime_queue_item queue_id);
  match item with
  | Some item => mret item
  | None => throw (RuntimeQueueError ("Runtime queue item not found: " +:+ queue_id))
  end.

(** [run_id or item.get("run_id")], not [None]: [item] is the stored record,
    which the status update has just changed. *)
Definition effective_run_id (run_id : option string) (stored : record) : option string :=
  match run_id with
  | Some r => if String.eqb r "" then match dget "run_id" VNone stored with VNone => None | v => Some (py_str v) end
              else Some r
  | None => match dget "run_id" VNone stored with VNone => None | v => Some (py_str v) end
  end.

Definition mark_cancelled (queue_id : string) (run_id : option string) : rt record :=
  item ← find_item queue_id;
  status ← lift (ditem "status" item);
  if py_eq status (VStr "cancelled") then mret item else
  terminal ← lift (in_frozenset status ["succeeded"; "failed"; "dead_lettered"]);
  lift (raise_if terminal (RuntimeQueueError "Terminal runtime queue items cannot be cancelled.")) ;;
  completed_at ← iso_now clock;
  stored ← _update_status queue_id "cancelled" (mkStatusUpdate run_id None None None true);
  on_store (release_runtime_queue_claims queue_id completed_at "cancelled") ;;
  match effective_run_id run_id stored with
  | None => mret stored
  | Some run_id =>
      run ← on_store (get_runtime_run run_id);
      match run with
      | None => mret stored
      | Some run =>
          ended ← lift (in_frozenset (dget "status" VNone run) ["succeeded"; "failed"; "cancelled"]);
          if ended : bool then mret stored
          else
            on_store (RuntimeStore.update_runtime_run run_id
              [("status", VStr "cancelled"); ("stop_reason", VStr "cancelled");
               ("completed_at", VStr completed_at)]) ;;
            mret stored
      end
  end.

Definition load_mapping (uri : value) (message : string) : rt (odict value) :=
  v ← on_files (read_json artifacts json_loads (py_str uri));
  match v with VDict d => mret d | _ => throw (RuntimeQueueError message) end.

Definition load_task (queue_item : record) : rt (odict value) :=
  uri ← lift (ditem "task_payload_uri" queue_item);
  load_mapping uri "Runtime queue task artifact must be a JSON object.".

Definition load_composition_context (queue_item : record) : rt (option (odict value)) :=
  match dget "composition_context_uri" VNone queue_item with
  | VNone => mret None
  | uri =>
      d ← load_mapping uri "Runtime queue composition context artifact must be a JSON object.";
      mret (Some d)
  end.

Definition item_int (key : string) (item : record) : res Z := v ← ditem key item; py_int v.

Definition manual_retry_key (queue_id : string) (item : record) : res string :=
  attempts ← item_int "attempts" item;
  mret (py_str (py_or (dget "idempotency_key" VNone item) (VStr queue_id))
        +:+ ":manual-retry:" +:+ zstr (attempts + 1)).

Definition str_or (key default : string) (item : record) : string :=
  py_str (py_or (dget key VNone item) (VStr default)).

Definition retry (queue_id : string) (scheduled_at idempotency_key : option string) (max_attempts : option Z)
    : rt record :=
  item ← find_item queue_id;
  status ← lift (ditem "status" item);
  closed ← lift (in_frozenset status ["failed"; "cancelled"; "dead_lettered"]);
  lift (raise_if (negb closed) (RuntimeQueueError
    "Only failed, cancelled, or dead-lettered runtime queue items can be retried.")) ;;
  retry_key ← lift (match idempotency_key with
                    | Some k => if String.eqb k "" then manual_retry_key queue_id item else Ok k
                    | None => manual_retry_key queue_id item
                    end);
  task ← load_task item;
  context ← load_composition_context item;
  priority ← lift (item_int "priority" item);
  attempts_limit ← lift (match max_attempts with
                         | Some n => if (n =? 0)%Z then item_int "max_attempts" item else Ok n
                         | None => item_int "max_attempts" item
                         end);
  enqueue task (mkEnqueueOptions context priority scheduled_at attempts_limit (Some retry_key)
    (str_or "environment" "dev" item) (str_or "queue_name" "default" item) [] []).

Definition retry_delay (config : RuntimeQueueConfig) (queue_item : record) (attempts : Z) : res float :=
  power ← float_pow (retry_backoff_multiplier config) (Z.max (attempts - 1) 0);
  base ← int_to_float (retry_delay_seconds config);
  let delay := fmul base power in
  if (0 <? retry_jitter_seconds config)%Z then
    id ← ditem "id" queue_item;
    extra ← int_to_float (jitter (py_str id) (retry_jitter_seconds config));
    mret (fadd delay extra)
  else mret delay.

Definition error_text (error : exn) : string := exn_name error +:+ ": " +:+ exn_message error.

(** The status a failed attempt leads to. *)
Definition failure_status (attempts max_attempts : Z) : string :=
  if (attempts <? max_attempts)%Z then "retry_scheduled" else "dead_lettered".

Definition mark_failed_or_retry (queue_item : record) (error : exn) (config : RuntimeQueueConfig)
    (run_id : option string) : rt record :=
  attempts ← lift (item_int "attempts" queue_item);
  max_attempts ← lift (item_int "max_attempts" queue_item);
  let status := failure_status attempts max_attempts in
  delay ← lift (retry_delay config queue_item attempts);
  t ← now clock;
  delta ← lift (timedelta_float delay);
  scheduled_at ← lift (add_us t delta);
  id ← lift (ditem "id" queue_item);
  stored ← _update_status (py_str id) status
    (mkStatusUpdate run_id None (Some (iso_timestamp scheduled_at)) (Some (error_text error)) true);
  if String.eqb status "dead_lettered" then
    attempts_value ← lift (ditem "attempts" queue_item);
    tenant ← lift (ditem "tenant_id" queue_item);
    created ← iso_now clock;
    on_store (insert_runtime_dead_letter
      [("id", VStr (slug_id (py_str id +:+ "-" +:+ py_str attempts_value) (Some "dlq")));
       ("queue_id", VStr (py_str id)); ("run_id", opt_str run_id);
       ("attempt_id", dget "attempt_id" VNone queue_item); ("tenant_id", VStr (py_str tenant));
       ("error_type", VStr (exn_name error)); ("error_message", VStr (exn_message error));
       ("created_at", VStr created)]) ;;
    mret stored
  else mret stored.
End queue.

(** ** What the operations do to the queue items *)

Definition items (w : world) : table := runtime_queue_items (w_store w).

Definition same_items (w w' : world) : Prop := items w' = items w.
#[export] Instance same_items_preorder : PreOrder same_items.
Proof. split; [done|]. unfold same_items. intros a b c. congruence. Qed.

Lemma on_files_items {A} (m : art A) : preserves same_items (on_files m).
Proof. intros w. unfold on_files, zoom. by destruct (m (w_files w)). Qed.
Lemma now_items clock : preserves same_items (now clock).
Proof. by intros w. Qed.
Lemma iso_now_items clock : preserves same_items (iso_now clock).
Proof. by intros w. Qed.
#[export] Hint Resolve on_files_items now_items iso_now_items : preserves.

(** A store operation that leaves the queue items alone. *)
Definition quiet_items {A} (m : st A) : Prop :=
  preserves (fun s s' => runtime_queue_items s' = runtime_queue_items s) m.
#[export] Instance eq_items_preorder :
  PreOrder (fun s s' : store => runtime_queue_items s' = runtime_queue_items s).
Proof. split; [done|]. intros a b c. congruence. Qed.

Lemma on_store_items {A} (m : st A) : quiet_items m -> preserves same_items (on_store m).
Proof. apply preserves_zoom. intros w s H. exact H. Qed.

Lemma insert_record_quiet t r : t <> QueueItems -> quiet_items (insert_record t r).
Proof.
  intros Ht. unfold quiet_items, insert_record. preserves_tac. apply preserves_modify. intros s. by destruct s, t.
Qed.
Lemma update_record_quiet t k f : t <> QueueItems -> quiet_items (update_record t k f).
Proof.
  intros Ht. unfold quiet_items, update_record. preserves_tac. apply preserves_modify. intros s. by destruct s, t.
Qed.
#[export] Hint Resolve insert_record_quiet update_record_quiet on_store_items : preserves.
#[export] Hint Extern 1 (_ <> QueueItems) => discriminate : preserves.
#[export] Hint Unfold quiet_items : preserves.

Lemma update_active_claim_quiet q f : quiet_items (update_active_claim q f).
Proof. unfold quiet_items, update_active_claim. preserves_tac; apply update_record_quiet; discriminate. Qed.

Lemma for_keys_quiet {A} (f : string -> st (option A)) ks :
  (forall k, quiet_items (f k)) -> quiet_items (for_keys f ks).
Proof.
  intros Hf. unfold quiet_items. induction ks as [|k ks IH]; cbn [for_keys]; [apply (preserves_ret _)|].
  apply (preserves_bind _); [apply Hf|intros x]. apply (preserves_bind _); [exact IH|intros xs].
  apply (preserves_ret _).
Qed.

Lemma release_quiet q t r : quiet_items (release_runtime_queue_claims q t r).
Proof.
  unfold quiet_items, release_runtime_queue_claims. preserves_tac. apply for_keys_quiet. intros k.
  unfold quiet_items, release_one. preserves_tac; apply update_record_quiet; discriminate.
Qed.
#[export] Hint Resolve update_active_claim_quiet release_quiet : preserves.

(** A claim leaves the store alone or writes the claim's fields on one claimable item. *)
Lemma claim_next_items q s :
  (claim_next_runtime_queue_attempt q s).2 = s \/
  exists k item n a r, In (k, item) (runtime_queue_items s) /\ claimable q item = Ok true /\
    attempt_number item = Ok n /\
    runtime_queue_items (claim_next_runtime_queue_attempt q s).2
    = od_set k (od_update item (claim_fields q n a r)) (runtime_queue_items s).
Proof.
  unfold claim_next_runtime_queue_attempt. rewrite eff_gets.
  destruct (global_full _ _) as [full|e]; [rewrite eff_lift_Ok|by left]. destruct full; [by left|].
  destruct (claim_candidates q _) as [cands|e] eqn:Ec; [rewrite eff_lift_Ok|by left].
  destruct (find_first _ cands) as [[[k item]|]|e] eqn:Ef; [rewrite eff_lift_Ok|by left|by left].
  assert (E : ((claim_item q k item ≫= fun bundle : claim_bundle => mret (Some bundle)) s).2
    = (claim_item q k item s).2) by (unfold mbind, eff_bind; by destruct (claim_item q k item s) as [[]]).
  rewrite E. clear E. destruct (claim_item q k item s) as [[b|e] s'] eqn:Hw; cbn [snd].
  - right. apply claim_item_inv in Hw as (n & tid & id & task & Hn & _ & _ & _ & Hw). cbv zeta in Hw.
    destruct Hw as (Hb & _ & Hq & _). rewrite Hb in Hq. apply find_first_Some in Ef as [Hin _].
    unfold claim_candidates in Ec. apply bind_Ok in Ec as (l & Hl & Hs).
    apply filterM_Ok in Hl as [_ Hl]. pose proof (sort_by_perm _ _ _ _ Hs) as Hp.
    assert (Hin' : In (k, item) l) by (apply list_elem_of_In; rewrite <- Hp; by apply list_elem_of_In).
    apply Hl in Hin' as [H1 H2]. exists k, item, n.
    do 2 eexists. split_and!; [exact H1|exact H2|exact Hn|exact Hq].
  - left. revert Hw. unfold claim_item, lift, mbind, eff_bind.
    destruct (ditem "tenant_id" item); [|by intros [= _ <-]].
    destruct (attempt_number item); [|by intros [= _ <-]].
    destruct (ditem "task_id" item); [|by intros [= _ <-]].
    destruct (ditem "id" item); [discriminate|by intros [= _ <-]].
Qed.

(** ** The attempt budget *)

(** An item has not been attempted more often than its maximum (at least once),
    and while it can be claimed it has an attempt left. *)
Definition item_budget (r : record) : Prop :=
  exists status attempts max_attempts,
    od_get "status" r = Some (VStr status) /\ od_get "attempts" r = Some (VInt attempts) /\
    od_get "max_attempts" r = Some (VInt max_attempts) /\
    (0 <= attempts <= Z.max max_attempts 1)%Z /\
    (In status CLAIMABLE -> (attempts < Z.max max_attempts 1)%Z).

Definition budget_ok (w : world) : Prop := Forall item_budget (od_values (items w)).

Definition budget_step (w w' : world) : Prop := budget_ok w -> budget_ok w'.
#[export] Instance budget_step_preorder : PreOrder budget_step.
Proof. split; unfold budget_step; [by intros w|auto]. Qed.

Lemma same_items_budget {A} (m : rt A) : preserves same_items m -> preserves budget_step m.
Proof. intros Hm w. unfold budget_step, budget_ok. by rewrite (Hm w). Qed.
#[export] Hint Resolve same_items_budget : preserves.

(** Fields that leave the counters alone, and do not reopen the item. *)
Definition closed_fields (fields : record) : Prop :=
  ~ In "attempts" (od_keys fields) /\ ~ In "max_attempts" (od_keys fields) /\
  (~ In "status" (od_keys fields) \/
   exists st, od_get "status" (od_update [] fields) = Some (VStr st) /\ ~ In st CLAIMABLE).

Lemma od_get_update_cons k fields (d : record) v :
  od_get k (od_update [] fields) = Some v -> od_get k (od_update d fields) = Some v.
Proof.
  revert d. induction fields as [|[k' v'] fs IH] using rev_ind; intros d; [done|].
  unfold od_update. rewrite !foldl_snoc. cbn [fst snd].
  fold (od_update d fs) (od_update (@nil (string * value)) fs).
  rewrite !od_get_set. destruct (String.eqb k k'); [done|apply IH].
Qed.

Lemma closed_fields_budget fields r : closed_fields fields -> item_budget r -> item_budget (od_update r fields).
Proof.
  intros (H1 & H2 & H3) (st & a & m & Hst & Ha & Hm & Hle & Hlt).
  destruct H3 as [H3|(st' & Hst' & Hc)].
  - exists st, a, m. by rewrite !od_get_update_other.
  - exists st', a, m. rewrite (od_get_update_cons "status" fields r _ Hst'), !od_get_update_other by done.
    done.
Qed.

Lemma item_of_key k w r : budget_ok w -> od_get k (items w) = Some r -> item_budget r.
Proof.
  intros Hw Hk. unfold budget_ok in Hw. rewrite Forall_forall in Hw. apply Hw, list_elem_of_In, in_map_iff.
  exists (k, r). split; [done|by apply od_get_In].
Qed.

Lemma update_item_budget k fields :
  closed_fields fields -> preserves budget_step (on_store (RuntimeStore.update_runtime_queue_item k fields)).
Proof.
  intros Hf w Hw. unfold on_store, zoom. unfold RuntimeStore.update_runtime_queue_item.
  destruct (update_record QueueItems k fields (w_store w)) as [[r|e] s'] eqn:E; cbn [snd].
  - apply update_record_Ok in E as (stored & Hk & -> & ->). unfold budget_ok, items. cbn [set_store w_store].
    change (runtime_queue_items (set_table QueueItems ?d ?s)) with (get_table QueueItems (set_table QueueItems d s)).
    rewrite get_set_table, decide_True by done. apply Forall_od_set; [exact Hw|].
    apply closed_fields_budget; [done|]. by apply (item_of_key k w).
  - unfold update_record in E. rewrite eff_gets in E. unfold ditem in E.
    destruct (od_get k _); [discriminate|]. injection E as _ <-. exact Hw.
Qed.

Lemma set_item_budget k r w :
  budget_ok w -> item_budget r ->
  budget_ok (set_store (set_table QueueItems (od_set k r (items w)) (w_store w)) w).
Proof.
  intros Hw Hr. unfold budget_ok, items. cbn [set_store w_store].
  change (runtime_queue_items (set_table QueueItems ?d ?s)) with (get_table QueueItems (set_table QueueItems d s)).
  rewrite get_set_table, decide_True by done. by apply Forall_od_set.
Qed.

Lemma claim_attempt_budget q : preserves budget_step (on_store (claim_next_runtime_queue_attempt q)).
Proof.
  intros w Hw. unfold on_store, zoom. pose proof (claim_next_items q (w_store w)) as H.
  destruct (claim_next_runtime_queue_attempt q (w_store w)) as [x s']. cbn [snd] in *.
  destruct H as [->|(k & item & n & a & r & Hin & Hcl & Hn & Hs)]; [by destruct w|].
  unfold budget_ok, items. cbn [set_store w_store]. rewrite Hs. apply Forall_od_set; [exact Hw|].
  assert (Hb : item_budget item).
  { unfold budget_ok in Hw. rewrite Forall_forall in Hw. apply Hw, list_elem_of_In, in_map_iff. by exists (k, item). }
  destruct Hb as (st & at_ & m & Hst & Ha & Hm & Hle & Hlt).
  apply claimable_inv in Hcl as ((st' & Hst' & Hopen) & _). rewrite Hst in Hst'. injection Hst' as <-.
  specialize (Hlt Hopen). unfold attempt_number, ditem in Hn. rewrite Ha in Hn. cbn in Hn. injection Hn as <-.
  exists "claiming", (at_ + 1)%Z, m. split_and!.
  - apply claim_fields_get. by left.
  - apply claim_fields_get. right. by left.
  - rewrite od_get_update_other; [done|]. intros Hin'. apply str_in_In in Hin'. vm_compute in Hin'. discriminate.
  - lia.
  - lia.
  - intros [E|[E|[]]]; discriminate.
Qed.

Lemma claim_item_budget q : preserves budget_step (on_store (claim_next_runtime_queue_item q)).
Proof.
  intros w. assert (E : (on_store (claim_next_runtime_queue_item q) w).2
    = (on_store (claim_next_runtime_queue_attempt q) w).2).
  { unfold on_store, zoom, claim_next_runtime_queue_item, mbind, eff_bind.
    by destruct (claim_next_runtime_queue_attempt q (w_store w)) as [[]]. }
  rewrite E. apply claim_attempt_budget.
Qed.

Lemma insert_item_budget r :
  item_budget r -> preserves budget_step (on_store (RuntimeStore.insert_runtime_queue_item r)).
Proof.
  intros Hr w Hw. unfold on_store, zoom, RuntimeStore.insert_runtime_queue_item. rewrite eff_gets.
  destruct (if is_none _ then None else _); [by destruct w|].
  unfold insert_record. destruct (record_id r) as [k|e]; [|by destruct w].
  rewrite eff_lift_Ok, eff_modify. cbn [snd mret eff_ret get_table]. by apply set_item_budget.
Qed.

Lemma heartbeat_budget k fields :
  closed_fields fields -> preserves budget_step (on_store (heartbeat_runtime_queue_item k fields)).
Proof.
  intros Hf w Hw. pose proof (update_item_budget k fields Hf w Hw) as H.
  revert H. unfold on_store, zoom, heartbeat_runtime_queue_item, RuntimeStore.update_runtime_queue_item.
  unfold mbind, eff_bind. destruct (update_record QueueItems k fields (w_store w)) as [[r|e] s1]; [|done].
  intros H. match goal with |- context [update_active_claim k ?f s1] =>
    pose proof (update_active_claim_quiet k f s1) as Hq; destruct (update_active_claim k f s1) as [[x|e] s2] end;
    cbv beta in Hq; cbn [snd mret eff_ret] in *; unfold budget_ok, items in *; cbn [set_store w_store] in *; by rewrite Hq.
Qed.

Lemma status_fields_closed status t u :
  ~ In status CLAIMABLE -> closed_fields (status_fields status t u).
Proof.
  intros Hs. assert (Hk : forall k, In k (od_keys (status_fields status t u)) ->
    In k ["status"; "updated_at"; "run_id"; "attempt_id"; "scheduled_at"; "last_error"; "claimed_by";
          "claimed_at"; "claimed_until"; "lease_expires_at"; "heartbeat_at"]).
  { intros k. unfold status_fields, od_keys. rewrite !map_app, !in_app_iff.
    destruct u as [[?|] [?|] [?|] [?|] []]; destruct (String.eqb status "succeeded"); cbn; tauto. }
  split; [|split].
  - intros H%Hk%str_in_In. vm_compute in H. discriminate.
  - intros H%Hk%str_in_In. vm_compute in H. discriminate.
  - right. exists status. split; [|done].
    destruct u as [[?|] [?|] [?|] [?|] []]; unfold status_fields; cbn [su_run_id su_attempt_id su_scheduled_at
      su_last_error su_clear_claim]; destruct (String.eqb status "succeeded"); reflexivity.
Qed.

Lemma update_status_budget clock k status u :
  ~ In status CLAIMABLE -> preserves budget_step (_update_status clock k status u).
Proof.
  intros Hs. unfold _update_status. preserves_tac. by apply update_item_budget, status_fields_closed.
Qed.

Lemma enqueued_budget id key t uri ctx analyzed o : item_budget (queue_item_record id key t uri ctx analyzed o).
Proof.
  exists "queued", 0%Z, (eo_max_attempts o). split_and!; try reflexivity; lia.
Qed.

Section queue_calls.
Context (artifacts : JsonArtifactStore) (clock : nat -> datetime).
Context (json_loads : string -> res value).
Context (float_pow : float -> Z -> res float) (jitter : string -> Z -> Z).

Lemma enqueue_budget task o : preserves budget_step (enqueue artifacts clock task o).
Proof.
  unfold enqueue, _tenant_queued_count. preserves_tac. apply insert_item_budget, enqueued_budget.
Qed.

Lemma find_item_items k : preserves same_items (find_item k).
Proof. unfold find_item, get_runtime_queue_item. preserves_tac. Qed.
Hint Resolve find_item_items enqueue_budget : preserves.

Lemma load_mapping_items uri msg : preserves same_items (load_mapping artifacts json_loads uri msg).
Proof. unfold load_mapping. preserves_tac. Qed.
Hint Resolve load_mapping_items : preserves.

Lemma load_context_items item : preserves same_items (load_composition_context artifacts json_loads item).
Proof. unfold load_composition_context. destruct (dget _ _ _); preserves_tac. Qed.
Hint Resolve load_context_items : preserves.

Lemma retry_budget k at_ key m : preserves budget_step (retry artifacts clock json_loads k at_ key m).
Proof. unfold retry, load_task. preserves_tac. Qed.

Lemma claim_request_items worker config : preserves same_items (claim_request_now clock worker config).
Proof. unfold claim_request_now. preserves_tac. Qed.
Hint Resolve claim_request_items claim_attempt_budget claim_item_budget : preserves.

Lemma claim_next_budget worker config : preserves budget_step (claim_next clock worker config).
Proof. unfold claim_next. preserves_tac. Qed.
Lemma claim_next_attempt_budget worker config : preserves budget_step (claim_next_attempt clock worker config).
Proof. unfold claim_next_attempt. preserves_tac. Qed.
Lemma heartbeat_call_budget k config : preserves budget_step (heartbeat clock k config).
Proof.
  unfold heartbeat. preserves_tac. apply heartbeat_budget.
  split; [intros H%str_in_In; vm_compute in H; discriminate|].
  split; [intros H%str_in_In; vm_compute in H; discriminate|].
  left. intros H%str_in_In. vm_compute in H. discriminate.
Qed.

Lemma get_run_items run : preserves same_items (on_store (get_runtime_run run)).
Proof. apply on_store_items. by intros s. Qed.
Lemma release_items q t r : preserves same_items (on_store (release_runtime_queue_claims q t r)).
Proof. apply on_store_items, release_quiet. Qed.
Lemma update_run_items k f : preserves same_items (on_store (RuntimeStore.update_runtime_run k f)).
Proof. apply on_store_items, update_record_quiet. discriminate. Qed.
Hint Resolve get_run_items release_items update_run_items : preserves.

Lemma cancel_budget k run : preserves budget_step (mark_cancelled clock k run).
Proof.
  unfold mark_cancelled. preserves_tac.
  apply update_status_budget. intros [E|[E|[]]]; discriminate.
Qed.
End queue_calls.

(** ** Failing an attempt *)

Lemma status_fields_keys status t u k :
  In k ["attempts"; "max_attempts"] -> ~ In k (od_keys (status_fields status t u)).
Proof.
  intros Hk. unfold status_fields, od_keys. rewrite !map_app, !in_app_iff.
  destruct u as [[?|] [?|] [?|] [?|] []]; destruct (String.eqb status "succeeded"); cbn;
    destruct Hk as [<-|[<-|[]]]; intuition discriminate.
Qed.

Lemma status_fields_status status t u :
  od_get "status" (od_update [] (status_fields status t u)) = Some (VStr status).
Proof.
  destruct u as [[?|] [?|] [?|] [?|] []]; unfold status_fields; cbn [su_run_id su_attempt_id su_scheduled_at
    su_last_error su_clear_claim]; destruct (String.eqb status "succeeded"); reflexivity.
Qed.

(** The stored item still has an attempt left. *)
Definition attempt_left (k : string) (w : world) : Prop :=
  forall stored, od_get k (items w) = Some stored -> exists a m,
    od_get "attempts" stored = Some (VInt a) /\ od_get "max_attempts" stored = Some (VInt m) /\ (a < m)%Z.

Lemma reopen_budget clock k status u w :
  attempt_left k w -> budget_step w (_update_status clock k status u w).2.
Proof.
  intros Hleft Hw. unfold _update_status.
  destruct (require_choice status _ _) as [[]|e]; [rewrite eff_lift_Ok|exact Hw].
  unfold mbind, eff_bind. destruct (iso_now clock w) as [[t|e] w1] eqn:En; [|done].
  injection En as _ <-. cbn [snd]. unfold on_store, zoom. cbn [w_store].
  unfold RuntimeStore.update_runtime_queue_item.
  destruct (update_record QueueItems k _ (w_store w)) as [[r|e] s'] eqn:E; cbn [snd].
  - apply update_record_Ok in E as (stored & Hk & -> & ->).
    apply (set_item_budget k _ w Hw). destruct (Hleft stored Hk) as (a & m & Ha & Hm & Hlt).
    destruct (item_of_key k w stored Hw Hk) as (st & a' & m' & _ & Ha' & Hm' & Hle & _).
    rewrite Ha in Ha'. rewrite Hm in Hm'. injection Ha' as <-. injection Hm' as <-.
    exists status, a, m.
    rewrite (od_get_update_cons _ _ _ _ (status_fields_status status _ u)).
    rewrite !od_get_update_other by (apply status_fields_keys; cbn; tauto). split_and!; try done; lia.
  - unfold update_record in E. rewrite eff_gets in E. unfold ditem in E.
    destruct (od_get k _); [discriminate|]. injection E as _ <-. exact Hw.
Qed.

(** The item a caller passes is a copy of the stored one, in its counters. *)
Definition fresh_copy (queue_item : record) (w : world) : Prop :=
  forall id stored, od_get "id" queue_item = Some id -> od_get (py_str id) (items w) = Some stored ->
    od_get "attempts" queue_item = od_get "attempts" stored /\
    od_get "max_attempts" queue_item = od_get "max_attempts" stored.

Lemma budget_bind {A B} (m : rt A) (k : A -> rt B) w :
  preserves same_items m ->
  (forall x w1, m w = (Ok x, w1) -> same_items w w1 -> budget_step w1 (k x w1).2) ->
  budget_step w ((m ≫= k) w).2.
Proof.
  intros Hm Hk. specialize (Hm w). unfold mbind, eff_bind.
  destruct (m w) as [[x|e] w1] eqn:E; cbn [snd] in *.
  - specialize (Hk x w1 eq_refl Hm). unfold budget_step, budget_ok in *. by rewrite <- Hm.
  - unfold budget_step, budget_ok. by rewrite Hm.
Qed.

Lemma budget_then {A B} (m : rt A) (k : A -> rt B) w :
  budget_step w (m w).2 -> (forall x, preserves budget_step (k x)) -> budget_step w ((m ≫= k) w).2.
Proof.
  intros Hm Hk Hw. specialize (Hm Hw). unfold mbind, eff_bind.
  destruct (m w) as [[x|e] w1]; cbn [snd] in *; [by apply (Hk x w1)|done].
Qed.

Lemma failed_budget clock float_pow jitter queue_item error config run w :
  fresh_copy queue_item w ->
  budget_step w (mark_failed_or_retry clock float_pow jitter queue_item error config run w).2.
Proof.
  intros Hfresh. unfold mark_failed_or_retry.
  apply budget_bind; [apply (preserves_lift _)|]. intros a w1 Ha _. injection Ha as Ha <-.
  apply budget_bind; [apply (preserves_lift _)|]. intros m w1 Hm _. injection Hm as Hm <-. cbv zeta.
  apply budget_bind; [apply (preserves_lift _)|]. intros delay w1 Hd _. injection Hd as _ <-.
  apply budget_bind; [apply now_items|]. intros t w1 _ S1.
  apply budget_bind; [apply (preserves_lift _)|]. intros delta w2 Hd _. injection Hd as _ <-.
  apply budget_bind; [apply (preserves_lift _)|]. intros at_ w2 Hd _. injection Hd as _ <-.
  apply budget_bind; [apply (preserves_lift _)|]. intros id w2 Hid _. injection Hid as Hid <-.
  apply ditem_Ok in Hid. apply budget_then.
  - unfold failure_status. destruct (Z.ltb_spec a m) as [Hlt|Hge].
    + intros Hw. apply reopen_budget; [|exact Hw]. intros stored Hk.
      destruct (item_of_key _ _ _ Hw Hk) as (st & a' & m' & _ & Ha' & Hm' & _).
      unfold same_items in S1. rewrite S1 in Hk. destruct (Hfresh id stored Hid Hk) as [Ea Em].
      unfold item_int, ditem in Ha, Hm. rewrite Ea, Ha' in Ha. rewrite Em, Hm' in Hm.
      injection Ha as <-. injection Hm as <-. by exists a', m'.
    + apply update_status_budget. intros [E|[E|[]]]; discriminate.
  - intros stored. preserves_tac. apply same_items_budget, on_store_items, insert_record_quiet. discriminate.
Qed.

(** ** Any use of the manager *)

(** The calls on the manager but [recover_stale_claims], see [recovery_exceeds_budget]. *)
Inductive queue_call :=
| CallEnqueue (task : odict value) (o : enqueue_options)
| CallClaim (worker : string) (config : RuntimeQueueConfig)
| CallClaimAttempt (worker : string) (config : RuntimeQueueConfig)
| CallHeartbeat (queue_id : string) (config : RuntimeQueueConfig)
| CallRunning (queue_id run_id : string) (attempt_id : option string)
| CallSucceeded (queue_id run_id : string)
| CallCancelled (queue_id : string) (run_id : option string)
| CallRetry (queue_id : string) (scheduled_at key : option string) (max_attempts : option Z)
| CallFailed (queue_item : record) (error : exn) (config : RuntimeQueueConfig) (run_id : option string).

Section queue_runs.
Context (artifacts : JsonArtifactStore) (clock : nat -> datetime).
Context (json_loads : string -> res value).
Context (float_pow : float -> Z -> res float) (jitter : string -> Z -> Z).

(** The world after a call, whether it returned or raised. *)
Definition queue_step (c : queue_call) (w : world) : world :=
  match c with
  | CallEnqueue task o => (enqueue artifacts clock task o w).2
  | CallClaim worker config => (claim_next clock worker config w).2
  | CallClaimAttempt worker config => (claim_next_attempt clock worker config w).2
  | CallHeartbeat k config => (heartbeat clock k config w).2
  | CallRunning k run attempt => (mark_running clock k run attempt w).2
  | CallSucceeded k run => (mark_succeeded clock k run w).2
  | CallCancelled k run => (mark_cancelled clock k run w).2
  | CallRetry k at_ key m => (retry artifacts clock json_loads k at_ key m w).2
  | CallFailed item error config run => (mark_failed_or_retry clock float_pow jitter item error config run w).2
  end.

(** A sequence of calls, each on the world the last one left. *)
Definition queue_steps (calls : list queue_call) (w : world) : world := foldl (fun w c => queue_step c w) w calls.

(** Every failure is reported with a copy that has the stored item's counters. *)
Fixpoint fresh_reports (calls : list queue_call) (w : world) : Prop :=
  match calls with
  | [] => True
  | c :: calls =>
      match c with CallFailed item _ _ _ => fresh_copy item w | _ => True end /\ fresh_reports calls (queue_step c w)
  end.

Lemma queue_step_budget c w :
  match c with CallFailed item _ _ _ => fresh_copy item w | _ => True end ->
  budget_step w (queue_step c w).
Proof.
  intros Hc. destruct c; cbn [queue_step].
  - apply enqueue_budget.
  - apply claim_next_budget.
  - apply claim_next_attempt_budget.
  - apply heartbeat_call_budget.
  - apply update_status_budget. intros [E|[E|[]]]; discriminate.
  - apply update_status_budget. intros [E|[E|[]]]; discriminate.
  - apply cancel_budget.
  - apply retry_budget.
  - by apply failed_budget.
Qed.
End queue_runs.

(** ** The payload files of an item *)

Lemma slug_literal s : slug_id s None = s -> slug_name s.
Proof. intros <-. apply slug_name_slug_id. Qed.

Lemma queue_path key name :
  slug_id name None = name ->
  _relative_path ["queue"; slug_id key (Some "queue"); name]
  = ["queue"; slug_id key (Some "queue"); name +:+ ".json"].
Proof.
  intros Hn. apply (relative_path_slugs ["queue"; slug_id key (Some "queue")] name).
  - constructor; [by apply slug_literal|]. constructor; [by apply slug_id_is_slug|constructor].
  - by apply slug_literal.
Qed.

Lemma queue_path_base key name :
  slug_id name None = name ->
  without_json (_relative_path ["queue"; slug_id key (Some "queue"); name])
  = Ok ["queue"; slug_id key (Some "queue"); name].
Proof. intros Hn. rewrite queue_path by done. apply (without_json_slug ["queue"; _] name). Qed.

(** Writing one payload of an item leaves the other one's document alone. *)
Lemma payload_untouched a key name other v redact s :
  slug_id name None = name -> slug_id other None = other -> name <> other -> name +:+ ".json" <> other +:+ ".json" ->
  name +:+ ".json" <> other ->
  (write_json a ["queue"; slug_id key (Some "queue"); other] v redact s).2
    !! _relative_path ["queue"; slug_id key (Some "queue"); name]
  = s !! _relative_path ["queue"; slug_id key (Some "queue"); name].
Proof.
  intros Hn Ho Hne Hne' Hne''. destruct (decide ((write_json a ["queue"; slug_id key (Some "queue"); other] v redact s).2
    !! _relative_path ["queue"; slug_id key (Some "queue"); name]
    = s !! _relative_path ["queue"; slug_id key (Some "queue"); name])) as [E|E]; [done|exfalso].
  apply write_json_changes in E as (base & Hb & Hp & _). rewrite queue_path_base in Hb by done. injection Hb as <-.
  rewrite !queue_path in Hp by done. destruct Hp as [Hp|(q & Hp)]; injection Hp; congruence.
Qed.

(** The rest of an enqueue, once the checks have passed. *)
Lemma enqueue_inv artifacts clock task o w e w' :
  enqueue artifacts clock task o w = (Ok e, w') ->
  exists analyzed n uri1 uri2 w1 w2 w3,
    analyze task = Ok analyzed /\
    let key := or_str (eo_idempotency_key o) (TaskAnalyzer.task_id analyzed +:+ ":initial") in
    let queue_id := slug_id key (Some "queue") in
    w_store w1 = w_store w /\
    on_files (write_json artifacts ["queue"; queue_id; "task-payload"] (VDict task) false) w1 = (Ok uri1, w2) /\
    w_store w3 = w_store w2 /\
    w_files w3 !! _relative_path ["queue"; queue_id; "task-payload"]
      = w_files w2 !! _relative_path ["queue"; queue_id; "task-payload"] /\
    on_store (RuntimeStore.insert_runtime_queue_item
      (queue_item_record queue_id key n uri1 uri2 analyzed o)) w3 = (Ok e, w').
Proof.
  intros H. unfold enqueue in H.
  apply eff_bind_Ok in H as (analyzed & w1 & Ha & H). injection Ha as Ha <-. cbv zeta in H.
  apply eff_bind_Ok in H as (? & w1 & H1 & H). injection H1 as _ <-.
  apply eff_bind_Ok in H as (? & w1 & H1 & H). injection H1 as _ <-.
  apply eff_bind_Ok in H as (? & w1 & H1 & H). injection H1 as _ <-.
  apply eff_bind_Ok in H as (? & w1 & H1 & H).
  assert (Hw1 : w_store w1 = w_store w).
  { destruct (od_get _ (eo_tenant_queued_limits o)) as [limit|]; [|by injection H1 as _ <-].
    apply eff_bind_Ok in H1 as (n & w0 & Hn & H1). unfold _tenant_queued_count in Hn. rewrite eff_gets in Hn.
    injection Hn as _ <-. by injection H1 as _ <-. }
  apply eff_bind_Ok in H as (n & w2 & Hn & H). injection Hn as Hn Hw2.
  apply eff_bind_Ok in H as (uri1 & w3 & Hf & H).
  apply eff_bind_Ok in H as (uri2 & w4 & Hg & H).
  exists analyzed, n, uri1, uri2, w2, w3, w4. split; [done|].
  split; [by rewrite <- Hw2|]. split; [exact Hf|].
  destruct (eo_context o) as [context|]; [|by injection Hg as _ <-].
  apply eff_bind_Ok in Hg as (u & w5 & Hg & Hu). injection Hu as _ <-.
  unfold on_files, zoom in Hg.
  pose proof (payload_untouched artifacts (or_str (eo_idempotency_key o) (TaskAnalyzer.task_id analyzed +:+ ":initial"))
    "task-payload" "composition-context-response" (VDict context) false (w_files w3)) as Hp.
  destruct (write_json artifacts _ (VDict context) false (w_files w3)) as [r f]. injection Hg as -> <-.
  split; [done|]. split; [apply Hp; vm_compute; congruence|exact H].
Qed.

(** ** Properties *)

(** C4. The attempt budget holds throughout. Take any sequence of calls that
    enqueue, claim, heartbeat, start, complete, cancel, retry and fail items, in
    which each failure is reported with a copy of the item whose counters are
    the stored ones. Then no stored queue item counts more attempts than its
    maximum (or one, where the maximum is less), and every stored item that can
    be claimed has an attempt left. Both conditions are needed: a stale copy
    reopens an exhausted item, see [stale_report_reopens], and recovering a lost
    lease, which is no such call, goes over the maximum, see
    [recovery_exceeds_budget]. The count is the stored item's: a new item
    enqueued under a colliding identifier starts at none, see [key_slugs_collide]. *)
Theorem attempts_within_budget artifacts clock json_loads float_pow jitter calls w :
  fresh_reports artifacts clock json_loads float_pow jitter calls w -> budget_ok w ->
  budget_ok (queue_steps artifacts clock json_loads float_pow jitter calls w).
Proof.
  revert w. induction calls as [|c calls IH]; intros w; [done|]. intros [Hc Hcs] Hw. apply (IH _ Hcs).
  by apply queue_step_budget.
Qed.

(** An enqueued task is the task a worker loads: for a key not yet in use,
    enqueuing stores a queued, never attempted item under the key, and loading
    its payload gives a task equal to the one enqueued, provided no text of it
    is long enough to be chunked. *)
Theorem enqueue_load_roundtrip artifacts clock json_loads task o w e w' :
  enqueue artifacts clock task o w = (Ok e, w') ->
  unique_keys (VDict task) = true ->
  small_strings (chunk_string_threshold_bytes artifacts) (VDict task) = true ->
  (forall item, In item (od_values (items w)) ->
     py_eq (dget "idempotency_key" VNone item) (dget "idempotency_key" VNone e) = false) ->
  od_get "status" e = Some (VStr "queued") /\ od_get "attempts" e = Some (VInt 0) /\
  (exists k, od_get k (items w') = Some e) /\
  exists d, load_task artifacts json_loads e w' = (Ok d, w') /\ py_eq (VDict d) (VDict task) = true.
Proof.
  intros H Hu Hsmall Hfresh.
  apply enqueue_inv in H as (analyzed & n & uri1 & uri2 & w1 & w2 & w3 & _ & Hstore & Hf & Hw3 & Hfile & H).
  cbv zeta in *. set (key := or_str _ _) in *. set (qid := slug_id key (Some "queue")) in *.
  unfold on_files, zoom in Hf. destruct (write_json artifacts _ _ _ (w_files w1)) as [r f] eqn:Ew.
  injection Hf as -> <-. apply write_json_file in Ew as (base & x & s1 & _ & Hx & Hlook & Hne & ->).
  cbn [w_store w_files set_files] in *. rewrite Hlook in Hfile. rewrite Hstore in Hw3.
  unfold on_store, zoom, RuntimeStore.insert_runtime_queue_item in H. rewrite eff_gets in H.
  set (item := queue_item_record _ _ _ _ _ _ _) in *.
  change (dget "idempotency_key" VNone item) with (VStr key) in H. cbn [is_none] in H. rewrite Hw3 in H.
  destruct (List.find _ _) as [old|] eqn:Efind.
  - apply List.find_some in Efind as [Hin Heq]. injection H as <- _. apply Hfresh in Hin.
    apply py_eq_str_r in Heq. rewrite Heq in Hin. cbn in Hin. by rewrite String.eqb_refl in Hin.
  - unfold insert_record in H. change (record_id item) with (@Ok exn string qid) in H.
    rewrite eff_lift_Ok, eff_modify in H. injection H as <- <-.
    split; [done|]. split; [done|]. split.
    + exists qid. unfold items. cbn [set_store w_store get_table].
      change (runtime_queue_items (set_table QueueItems ?d ?s)) with (get_table QueueItems (set_table QueueItems d s)).
      rewrite get_set_table, decide_True by done. apply od_get_set_eq.
    + unfold load_task, load_mapping. change (ditem "task_payload_uri" item) with (@Ok exn value (VStr (uri_for_raw artifacts (_relative_path ["queue"; qid; "task-payload"])))).
      rewrite eff_lift_Ok. unfold mbind at 1, eff_bind at 1. unfold on_files at 1, zoom.
      cbn [set_store w_files py_str].
      rewrite (read_json_at artifacts json_loads _ _ (stored_json x)) by (done || apply relative_path_safe).
      pose proof (chunked_small artifacts base (VDict task) x (w_files w1) s1 Hu Hsmall Hx) as Heq.
      destruct (stored_json x) as [| | | |l|d]; try discriminate Heq. exists d. split; [|done].
      by destruct w3.
Qed.

Lemma update_status_Ok clock k status u w r w' :
  _update_status clock k status u w = (Ok r, w') ->
  exists stored t, od_get k (items w) = Some stored /\ r = od_update stored (status_fields status t u) /\
    items w' = od_set k r (items w) /\
    runtime_dead_letters (w_store w') = runtime_dead_letters (w_store w).
Proof.
  intros H. unfold _update_status in H. apply eff_bind_Ok in H as (? & w1 & H1 & H). injection H1 as _ <-.
  apply eff_bind_Ok in H as (t & w1 & H1 & H). injection H1 as Ht <-.
  unfold on_store, zoom in H. cbn [w_store] in H.
  destruct (RuntimeStore.update_runtime_queue_item k _ (w_store w)) as [y s'] eqn:E. injection H as -> <-.
  apply update_record_Ok in E as (stored & Hk & -> & ->). exists stored, t.
  split_and!; [exact Hk|done| |by destruct (w_store w)].
  unfold items. cbn [set_store w_store].
  change (runtime_queue_items (set_table QueueItems ?d ?s)) with (get_table QueueItems (set_table QueueItems d s)).
  by rewrite get_set_table, decide_True.
Qed.

Lemma status_fields_cleared status t run attempt at_ err k v :
  In (k, v) (("last_error", VStr err) :: cleared_claim) ->
  od_get k (od_update [] (status_fields status t (mkStatusUpdate run attempt at_ (Some err) true))) = Some v.
Proof.
  intros Hin. destruct run, attempt, at_; unfold status_fields;
    cbn [su_run_id su_attempt_id su_scheduled_at su_last_error su_clear_claim];
    destruct Hin as [[= <- <-]|[[= <- <-]|[[= <- <-]|[[= <- <-]|[[= <- <-]|[[= <- <-]|[]]]]]]]; reflexivity.
Qed.

(** C26. A failed attempt is rescheduled or dead-lettered by the counters of the
    copy it is reported with alone, whatever the error and whatever the status
    of the stored item: with attempts left the item becomes [retry_scheduled]
    and no dead letter is written, otherwise it becomes [dead_lettered] and one
    dead letter holds the error. Either way the item is free of its claim,
    records the error, is scheduled the backoff delay after the clock's reading,
    and no other item changes. So an error no retry can cure is retried, and a
    cancelled item put back, see [suspended_tenant_retried] and
    [cancelled_item_rescheduled]. *)
Theorem mark_failed_or_retry_correct clock float_pow jitter queue_item error config run w r w' :
  mark_failed_or_retry clock float_pow jitter queue_item error config run w = (Ok r, w') ->
  exists attempts max_attempts id delay delta,
    item_int "attempts" queue_item = Ok attempts /\ item_int "max_attempts" queue_item = Ok max_attempts /\
    od_get "id" queue_item = Some id /\
    retry_delay float_pow jitter config queue_item attempts = Ok delay /\ timedelta_float delay = Ok delta /\
    od_get "status" r = Some (VStr (if (attempts <? max_attempts)%Z then "retry_scheduled" else "dead_lettered")) /\
    od_get "scheduled_at" r = Some (VStr (iso_timestamp (clock (w_ticks w) + delta)%Z)) /\
    od_get "last_error" r = Some (VStr (exn_name error +:+ ": " +:+ exn_message error)) /\
    od_get "claimed_by" r = Some VNone /\ od_get "claimed_until" r = Some VNone /\
    items w' = od_set (py_str id) r (items w) /\
    (if (attempts <? max_attempts)%Z
     then runtime_dead_letters (w_store w') = runtime_dead_letters (w_store w)
     else exists k letter, runtime_dead_letters (w_store w') = od_set k letter (runtime_dead_letters (w_store w)) /\
       dget "queue_id" VNone letter = VStr (py_str id) /\
       dget "error_message" VNone letter = VStr (exn_message error)).
Proof.
  intros H. unfold mark_failed_or_retry in H.
  apply eff_bind_Ok in H as (a & w1 & Ha & H). injection Ha as Ha <-.
  apply eff_bind_Ok in H as (m & w1 & Hm & H). injection Hm as Hm <-. cbv zeta in H.
  apply eff_bind_Ok in H as (delay & w1 & Hd & H). injection Hd as Hd <-.
  apply eff_bind_Ok in H as (t & w1 & Ht & H). injection Ht as <- <-.
  apply eff_bind_Ok in H as (delta & w1 & Hdelta & H). injection Hdelta as Hdelta <-.
  apply eff_bind_Ok in H as (at_ & w1 & Hat & H). injection Hat as Hat <-.
  apply eff_bind_Ok in H as (id & w1 & Hid & H). injection Hid as Hid <-. apply ditem_Ok in Hid.
  apply eff_bind_Ok in H as (stored & w1 & Hu & H).
  apply update_status_Ok in Hu as (old & n & Hold & Hst & Hitems & Hdead).
  assert (Eat : at_ = (clock (w_ticks w) + delta)%Z).
  { unfold add_us in Hat. destruct (_ && _); [by injection Hat as <-|discriminate]. }
  assert (Hfinal : r = stored /\ items w' = items w1 /\
    if (a <? m)%Z then runtime_dead_letters (w_store w') = runtime_dead_letters (w_store w1)
    else exists k letter, runtime_dead_letters (w_store w') = od_set k letter (runtime_dead_letters (w_store w1)) /\
       dget "queue_id" VNone letter = VStr (py_str id) /\
       dget "error_message" VNone letter = VStr (exn_message error)).
  { unfold failure_status in H. destruct (a <? m)%Z; [by injection H as <- <-|].
    change (String.eqb "dead_lettered" "dead_lettered") with true in H. cbv iota in H.
    apply eff_bind_Ok in H as (av & w2 & Hv & H). injection Hv as _ <-.
    apply eff_bind_Ok in H as (tenant & w2 & Hv & H). injection Hv as _ <-.
    apply eff_bind_Ok in H as (created & w2 & Hv & H). injection Hv as _ <-.
    apply eff_bind_Ok in H as (letter & w2 & Hv & H). injection H as <- <-.
    split; [done|]. unfold on_store, zoom, insert_runtime_dead_letter, insert_record in Hv.
    change (record_id _) with (@Ok exn string (slug_id (py_str id +:+ "-" +:+ py_str av) (Some "dlq"))) in Hv.
    rewrite eff_lift_Ok, eff_modify in Hv. injection Hv as <- <-. cbn [w_store set_store].
    split; [unfold items; cbn [w_store set_store]; by destruct (w_store w1)|].
    do 2 eexists. split; [by destruct (w_store w1)|]. by split. }
  destruct Hfinal as (-> & Hit & Hdl). exists a, m, id, delay, delta.
  cbn [w_store] in Hdead. rewrite Hdead in Hdl. rewrite Hit, Hitems, <- Eat. split_and!; try done; rewrite Hst.
  all: apply od_get_update_cons.
  - apply status_fields_status.
  - destruct run; reflexivity.
  - apply status_fields_cleared. by left.
  - apply status_fields_cleared. right. by left.
  - apply status_fields_cleared. do 3 right. by left.
Qed.

(** ** Concrete runs *)

Definition demo_task (objective : string) : odict value :=
  [("objective", VStr objective);
   ("context", VDict [("auth", VDict [("tenant_id", VStr "acme"); ("area_id", VStr "sales")])])].
Definition demo_artifacts : JsonArtifactStore := mkJsonArtifactStore ["srv"] "hetzner://runtime" 64000 32000.
(** A clock that advances a thousand seconds at each reading. *)
Definition demo_clock (n : nat) : datetime := ((63902217600 + Z.of_nat n * 1000) * us_per_second)%Z.
Definition demo_world : world := mkWorld empty_store ∅ 0.
Definition demo_json (s : string) : res value := Raise (ValueError "no text files").
(** Powers of two are exact; the demonstration uses no others. *)
Definition demo_pow (x : float) (n : Z) : res float := Ok (ratio (2 ^ n) 1).
Definition demo_jitter (s : string) (n : Z) : Z := 0.
Definition demo_enqueue (objective key : string) (max_attempts : Z) (w : world) : result exn record * world :=
  enqueue demo_artifacts demo_clock (demo_task objective)
    (mkEnqueueOptions None 0 None max_attempts (Some key) "dev" "default" [] []) w.
Definition demo_step : queue_call -> world -> world :=
  queue_step demo_artifacts demo_clock demo_json demo_pow demo_jitter.
Definition get_result (m : result exn record * world) : record := match m.1 with Ok r => r | Raise _ => [] end.

Lemma enqueue_load_roundtrip_witness :
  let m := demo_enqueue "List files" "job:1" 3 demo_world in
  od_get "status" (get_result m) = Some (VStr "queued") /\ od_get "attempts" (get_result m) = Some (VInt 0) /\
  (exists k, od_get k (items m.2) = Some (get_result m)) /\
  exists d, load_task demo_artifacts demo_json (get_result m) m.2 = (Ok d, m.2) /\
    py_eq (VDict d) (VDict (demo_task "List files")) = true.
Proof.
  intros m.
  apply (enqueue_load_roundtrip demo_artifacts demo_clock demo_json (demo_task "List files")
    (mkEnqueueOptions None 0 None 3 (Some "job:1") "dev" "default" [] []) demo_world (get_result m) m.2).
  - vm_compute. reflexivity.
  - vm_compute. reflexivity.
  - vm_compute. reflexivity.
  - intros item [].
Defined.

Definition claimed_item (w : world) : record :=
  match (claim_next_attempt demo_clock "worker" default_queue_config w).1 with
  | Ok (Some b) => b.1.1
  | _ => []
  end.
Definition after_claim (w : world) : world := (claim_next_attempt demo_clock "worker" default_queue_config w).2.
Definition demo_fail (item : record) (w : world) : result exn record * world :=
  mark_failed_or_retry demo_clock demo_pow demo_jitter item (RuntimeQuotaError "Tenant runtime quota exceeded." "max_tokens")
    default_queue_config (Some "run-1") w.

(** An item of one attempt is claimed, its failure reported, and it is dead-lettered. *)
Definition demo_calls : list queue_call :=
  let item := claimed_item (demo_enqueue "List files" "job:1" 1 demo_world).2 in
  [CallEnqueue (demo_task "List files") (mkEnqueueOptions None 0 None 1 (Some "job:1") "dev" "default" [] []);
   CallClaimAttempt "worker" default_queue_config;
   CallFailed item (RuntimeQuotaError "Tenant runtime quota exceeded." "max_tokens") default_queue_config (Some "run-1")].

Lemma attempts_within_budget_witness :
  let w' := queue_steps demo_artifacts demo_clock demo_json demo_pow demo_jitter demo_calls demo_world in
  budget_ok w' /\
  map (fun e => (dget "status" VNone e.2, dget "attempts" VNone e.2)) (items w') = [(VStr "dead_lettered", VInt 1)].
Proof.
  cbv zeta. split; [|vm_compute; reflexivity].
  apply (attempts_within_budget demo_artifacts demo_clock demo_json demo_pow demo_jitter demo_calls demo_world).
  - split; [exact I|]. split; [exact I|]. split; [|exact I].
    intros k stored Hk Hs. revert Hk Hs. vm_compute. intros [= <-] [= <-]. by split.
  - constructor.
Defined.

Lemma mark_failed_or_retry_correct_witness :
  let w := after_claim (demo_enqueue "List files" "job:1" 1 demo_world).2 in
  let item := claimed_item (demo_enqueue "List files" "job:1" 1 demo_world).2 in
  exists attempts max_attempts,
    item_int "attempts" item = Ok attempts /\ item_int "max_attempts" item = Ok max_attempts /\
    od_get "status" (get_result (demo_fail item w))
    = Some (VStr (if (attempts <? max_attempts)%Z then "retry_scheduled" else "dead_lettered")).
Proof.
  intros w item.
  destruct (mark_failed_or_retry_correct demo_clock demo_pow demo_jitter item
    (RuntimeQuotaError "Tenant runtime quota exceeded." "max_tokens") default_queue_config (Some "run-1") w
    (get_result (demo_fail item w)) (demo_fail item w).2)
    as (a & m & id & delay & delta & H1 & H2 & _ & _ & _ & H3 & _).
  - vm_compute. reflexivity.
  - exists a, m. exact (conj H1 (conj H2 H3)).
Defined.

(** With the default configuration the third attempt is scheduled two minutes
    after the second failure: thirty seconds, doubled per earlier attempt. *)
Example backoff_doubles :
  map (fun n => retry_delay demo_pow demo_jitter default_queue_config [] n ≫= timedelta_float) [1; 2; 3]%Z
  = [Ok 30000000; Ok 60000000; Ok 120000000]%Z.
Proof. vm_compute. reflexivity. Qed.

(** *** What the manager does not guard *)

(** A copy taken before the claim still counts no attempt: a failure reported
    with it puts the item, whose one attempt is spent, back for another. *)
Example stale_report_reopens :
  let queued := demo_enqueue "List files" "job:1" 1 demo_world in
  let w := (demo_fail (get_result queued) (after_claim queued.2)).2 in
  map (fun e => (dget "status" VNone e.2, dget "attempts" VNone e.2, dget "max_attempts" VNone e.2)) (items w)
  = [(VStr "retry_scheduled", VInt 1, VInt 1)].
Proof. vm_compute. reflexivity. Qed.

(** Recovery is outside the budget: the one allowed attempt is claimed, its
    lease runs out, recovery schedules the item again, and it is claimed again. *)
Example recovery_exceeds_budget :
  let w := after_claim (demo_enqueue "List files" "job:1" 1 demo_world).2 in
  let w := (recover_stale_claims demo_clock w).2 in
  budget_ok (demo_enqueue "List files" "job:1" 1 demo_world).2 /\
  od_get "attempts" (claimed_item w) = Some (VInt 2) /\ od_get "max_attempts" (claimed_item w) = Some (VInt 1).
Proof.
  cbv zeta. split; [|vm_compute; by split].
  exact (enqueue_budget demo_artifacts demo_clock (demo_task "List files")
    (mkEnqueueOptions None 0 None 1 (Some "job:1") "dev" "default" [] []) demo_world (Forall_nil_2 _)).
Qed.

(** Enqueuing again under the same key returns the stored item, but has already
    replaced its payload: the pending item now runs the other task. *)
Example enqueue_again_replaces_payload :
  let m := demo_enqueue "List files" "job:1" 3 demo_world in
  let m' := demo_enqueue "Delete files" "job:1" 3 m.2 in
  m'.1 = m.1 /\ items m'.2 = items m.2 /\
  (load_task demo_artifacts demo_json (get_result m) m'.2).1
  = Ok [("context", VDict [("auth", VDict [("area_id", VStr "sales"); ("tenant_id", VStr "acme")])]);
        ("objective", VStr "Delete files")].
Proof. vm_compute. by split_and!. Qed.

(** Two keys with one slug share an item: the second replaces the first, even
    when a worker is running it. *)
Example key_slugs_collide :
  let w := after_claim (demo_enqueue "List files" "job:1" 3 demo_world).2 in
  let w' := (demo_enqueue "Delete files" "job-1" 3 w).2 in
  map (fun e => (e.1, dget "status" VNone e.2)) (items w) = [("queue-job-1", VStr "claiming")] /\
  map (fun e => (e.1, dget "status" VNone e.2)) (items w') = [("queue-job-1", VStr "queued")].
Proof. vm_compute. by split. Qed.

(** The attempt of a tenant that is not active is scheduled again like any other:
    the manager knows no error that is not worth a retry. *)
Example suspended_tenant_retried :
  let w := (demo_enqueue "List files" "job:1" 3 demo_world).2 in
  let m := mark_failed_or_retry demo_clock demo_pow demo_jitter (claimed_item w)
    (RuntimeTenantStatusError "Tenant is not active for runtime execution.") default_queue_config None (after_claim w) in
  od_get "status" (get_result m) = Some (VStr "retry_scheduled").
Proof. vm_compute. reflexivity. Qed.

(** A cancelled item whose running attempt then fails is scheduled again. *)
Example cancelled_item_rescheduled :
  let w := (demo_enqueue "List files" "job:1" 3 demo_world).2 in
  let item := claimed_item w in
  let m := mark_cancelled demo_clock "queue-job-1" None (after_claim w) in
  let m' := demo_fail item m.2 in
  od_get "status" (get_result m) = Some (VStr "cancelled") /\
  od_get "status" (get_result m') = Some (VStr "retry_scheduled").
Proof. vm_compute. by split. Qed.

(** A task with a long text comes back with a reference in its place. *)
Example long_task_not_restored :
  let a := mkJsonArtifactStore ["srv"] "hetzner://runtime" 8 8 in
  let m := enqueue a demo_clock (demo_task "List files")
    (mkEnqueueOptions None 0 None 3 (Some "job:1") "dev" "default" [] []) demo_world in
  match (load_task a demo_json (get_result m) m.2).1 with
  | Ok task => dget "artifact_ref" VNone (match dget "objective" VNone task with VDict d => d | _ => [] end)
  | Raise _ => VNone
  end = VStr "chunked_text".
Proof. vm_compute. reflexivity. Qed.
