(* ===== verification/SkillHandlers.v ===== *)
(** * Skill handlers and runtime planning

    Models [runtime/skill_handlers.py], [runtime/planning.py] and the two small
    policy tables [runtime/tool_policies.py] and [runtime/policies.py]. A
    handler registry holds the handlers by skill name and version; planning
    resolves each executable skill of a profile to the handler pinned for it,
    under the enforcer's checks, and joins the handlers' actions. *)

From S2P Require Import Prelude PyStr PyValue Models Enforcement TaskAnalyzer ProfileComposer.
Open Scope string_scope.
Open Scope list_scope.

(** ** Tool and profile policies *)

Definition tool_required_data_scopes (tool_name : string) : list string :=
  if str_in tool_name ["filesystem-read"; "filesystem-list"; "git-read"; "test-runner"]
  then ["repository-readonly"]
  else if String.eqb tool_name "filesystem-write" then ["repository-write"]
  else [].

Definition tool_required_policies (tool_name : string) : list string :=
  if String.eqb tool_name "filesystem-write" then ["write-approval-required"] else [].

Definition tool_risk_level (tool_name : string) : string :=
  match od_get tool_name
    [("filesystem-read", "low"); ("filesystem-list", "low"); ("filesystem-write", "high");
     ("git-read", "low"); ("test-runner", "medium")] with
  | Some level => level
  | None => "high"
  end.

Definition profile_redacts_sensitive_data (profile : odict value) : bool :=
  match dget "observability" (VDict []) profile with
  | VDict observability => truthy (dget "redact_sensitive_data" (VBool true) observability)
  | _ => true
  end.

(** ** Handlers *)

Abbreviation PlanBuilder := (odict value -> res (list (odict value))).

Definition SKILL_HANDLER_RUNTIME_PATH : string :=
  "src/skill_centric_agent_system/runtime/skill_handlers.py".

Record SkillHandlerPlan := mkSkillHandlerPlan {
  plan_skill_name : string;
  plan_skill_version : string;
  plan_handler_id : string;
  plan_strategy : string;
  plan_output_contract : string;
  plan_actions : list (odict value);
}.

Definition handler_ref (p : SkillHandlerPlan) : odict value :=
  [("name", VStr (plan_skill_name p)); ("version", VStr (plan_skill_version p));
   ("handler_id", VStr (plan_handler_id p))].

Record RuntimeSkillPlan := mkRuntimeSkillPlan {
  strategy : string;
  output_contract : string;
  actions : list (odict value);
  skill_handlers : list (odict value);
}.

Record RuntimeSkillSelection := mkRuntimeSkillSelection {
  runtime_skills : list string;
  non_runtime_skills : list string;
  shared_skills : list string;
}.

Definition executable_skills (s : RuntimeSkillSelection) : list string :=
  runtime_skills s ++ shared_skills s.

Record SkillHandler := mkSkillHandler {
  skill_name : string;
  skill_version : string;
  handler_strategy : string;
  handler_output_contract : string;
  build_actions : PlanBuilder;
  runtime_path : string;
  test_coverage : list string;
  lifecycle_status : string;
}.

Definition handler_id (h : SkillHandler) : string := skill_name h +:+ "@" +:+ skill_version h.

Definition handler_plan (h : SkillHandler) (profile : odict value) : res SkillHandlerPlan :=
  acts ← build_actions h profile;
  mret (mkSkillHandlerPlan (skill_name h) (skill_version h) (handler_id h) (handler_strategy h)
          (handler_output_contract h) acts).

Definition descriptor (h : SkillHandler) : odict value :=
  [("handler_id", VStr (handler_id h)); ("runtime_path", VStr (runtime_path h));
   ("strategy", VStr (handler_strategy h)); ("output_contract", VStr (handler_output_contract h));
   ("test_coverage", strs (test_coverage h)); ("lifecycle_status", VStr (lifecycle_status h))].

(** ** The registry *)

Record SkillHandlerRegistry := mkSkillHandlerRegistry {
  by_name_version : gmap (string * string) SkillHandler;
  known_versions : gmap string (gset string);
}.

Definition handler_key (h : SkillHandler) : string * string := (skill_name h, skill_version h).

Definition register_handler (r : SkillHandlerRegistry) (h : SkillHandler) : res SkillHandlerRegistry :=
  raise_if (bool_decide (is_Some (by_name_version r !! handler_key h)))
    (SkillHandlerRegistrationError ("Duplicate skill handler: " +:+ handler_id h)) ;;
  mret (mkSkillHandlerRegistry (<[handler_key h := h]> (by_name_version r))
          (<[skill_name h := {[skill_version h]} ∪ default ∅ (known_versions r !! skill_name h)]>
             (known_versions r))).

Definition new_handler_registry (handlers : list SkillHandler) : res SkillHandlerRegistry :=
  foldM register_handler (mkSkillHandlerRegistry ∅ ∅) handlers.

Definition key_le (a b : (string * string) * SkillHandler) : bool := lex_leb str_leb str_leb a.1 b.1.
Definition handlers (r : SkillHandlerRegistry) : list SkillHandler :=
  map snd (py_sorted key_le (map_to_list (by_name_version r))).

Definition handler_for (r : SkillHandlerRegistry) (name version : string) : option SkillHandler :=
  by_name_version r !! (name, version).

Definition _resolve (r : SkillHandlerRegistry) (name version : string) : res SkillHandler :=
  match by_name_version r !! (name, version) with
  | Some h => Ok h
  | None =>
      match known_versions r !! name with
      | Some _ => Raise (pee ("No executable skill handler is registered for " +:+ name +:+ "@"
                              +:+ version +:+ ".") "skill_handler_version_mismatch")
      | None => Raise (pee ("No executable skill handler is registered for selected skill: "
                            +:+ name +:+ ".") "skill_handler_not_registered")
      end
  end.

(** ** The skills a profile makes executable *)

Definition _selected_skill_names (profile : odict value) : list string :=
  match dget "skills" (VList []) profile with VList l => map py_str l | _ => [] end.

Definition _role_skills (roles : odict value) (role_field : string) : res (list string) :=
  match dget role_field (VList []) roles with
  | VList l => Ok (map py_str l)
  | _ => Raise (pee ("Invalid skill execution role list: " +:+ role_field +:+ ".")
                    "skill_execution_roles_invalid")
  end.

Definition role_counts (l : list string) : odict nat :=
  foldl (fun acc name => od_set name (match od_get name acc with Some n => n | None => 0 end + 1)%nat acc)
    [] l.

Definition _validate_skill_execution_roles (selected runtime non_runtime shared : list string)
    : res unit :=
  let assignments := runtime ++ non_runtime ++ shared in
  let selected_set : gset string := list_to_set selected in
  let role_set : gset string := list_to_set assignments in
  let unselected := sorted_set (role_set ∖ selected_set) in
  raise_if (nonempty unselected)
    (pee ("Skill execution roles include unselected skills: " +:+ join ", " unselected +:+ ".")
         "skill_execution_roles_unselected") ;;
  let missing := sorted_set (selected_set ∖ role_set) in
  raise_if (nonempty missing)
    (pee ("Selected skills are missing role assignments: " +:+ join ", " missing +:+ ".")
         "skill_execution_roles_missing") ;;
  let duplicates := sorted_strs (map fst
    (List.filter (fun kv : string * nat => Nat.ltb 1 kv.2) (role_counts assignments))) in
  raise_if (nonempty duplicates)
    (pee ("Skills cannot be assigned to multiple execution roles: " +:+ join ", " duplicates +:+ ".")
         "skill_execution_roles_overlap").

Definition _selected_skills_for_runtime (profile : odict value) : res RuntimeSkillSelection :=
  let selected := _selected_skill_names profile in
  match dget "skill_execution_roles" VNone profile with
  | VDict roles =>
      runtime ← _role_skills roles "runtime_skills";
      non_runtime ← _role_skills roles "non_runtime_skills";
      shared ← _role_skills roles "shared_skills";
      _validate_skill_execution_roles selected runtime non_runtime shared ;;
      mret (mkRuntimeSkillSelection runtime non_runtime shared)
  | _ => Ok (mkRuntimeSkillSelection selected [] [])
  end.

Definition _required_version_pin (profile : odict value) (module_name : string) : res string :=
  match dget "module_versions" (VDict []) profile with
  | VDict versions =>
      match od_get module_name versions with
      | Some v => Ok (py_str v)
      | None => Raise (pee ("Selected skill is not version-pinned: " +:+ module_name +:+ ".")
                           "selected_skill_version_missing")
      end
  | _ => Raise (pee ("Selected skill is not version-pinned: " +:+ module_name +:+ ".")
                    "selected_skill_version_missing")
  end.

(** ** Plans *)

Definition _output_contract_for_task_type (profile : odict value) : string :=
  match od_get (py_str (dget "task_type" (VStr "general-task") profile))
    [("code-review", "review-findings-contract"); ("research", "research-output-contract");
     ("task-execution", "task-execution-output-contract"); ("general-task", "general-output-contract")] with
  | Some c => c
  | None => "general-output-contract"
  end.

Definition _aggregate_plans (plans : list SkillHandlerPlan) : RuntimeSkillPlan :=
  mkRuntimeSkillPlan
    (match map plan_strategy plans with [s] => s | _ => "skill-handler-pipeline" end)
    (match fromkeys (map plan_output_contract plans) with [c] => c | _ => "composite-output-contract" end)
    (mjoin (map plan_actions plans))
    (map handler_ref plans).

(** The loop over the executable skills. *)
Fixpoint skill_plans (r : SkillHandlerRegistry) (profile : odict value) (names : list string)
    : enf (list SkillHandlerPlan) :=
  match names with
  | [] => mret []
  | name :: names' =>
      require_skill name ;;
      version ← lift (_required_version_pin profile name);
      require_module_version name version ;;
      h ← lift (_resolve r name version);
      p ← lift (handler_plan h profile);
      ps ← skill_plans r profile names';
      mret (p :: ps)
  end.

Definition build_plan (r : SkillHandlerRegistry) (profile : odict value) : enf RuntimeSkillPlan :=
  selection ← lift (_selected_skills_for_runtime profile);
  let names := executable_skills selection in
  if nonempty names then
    plans ← skill_plans r profile names;
    mret (_aggregate_plans plans)
  else
    mret (mkRuntimeSkillPlan "profile-without-executable-skill"
            (_output_contract_for_task_type profile) [] []).

(** ** The built-in handlers *)

Definition tool_action (tool : string) (payload : odict value) : odict value :=
  [("tool", VStr tool); ("payload", VDict payload)].

Definition _git_diff_analysis_actions : PlanBuilder := fun _ => Ok
  [tool_action "git-read" [("args", strs ["status"; "--short"])];
   tool_action "filesystem-read" [("path", VStr "README.md"); ("max_bytes", VInt 4000)]].

Definition _task_execution_planning_actions : PlanBuilder := fun _ => Ok
  [tool_action "git-read" [("args", strs ["status"; "--short"])];
   tool_action "filesystem-list" [("path", VStr "."); ("max_entries", VInt 80)];
   tool_action "filesystem-read" [("path", VStr "README.md"); ("max_bytes", VInt 4000)]].

Definition _no_tool_actions : PlanBuilder := fun _ => Ok [].
Definition _document_synthesis_actions : PlanBuilder := fun _ => Ok [].

Definition _dependency_audit_actions : PlanBuilder := fun _ => Ok
  [tool_action "filesystem-list" [("path", VStr "."); ("max_entries", VInt 120)];
   tool_action "filesystem-read" [("path", VStr "package.json"); ("max_bytes", VInt 6000)];
   tool_action "filesystem-read" [("path", VStr "pyproject.toml"); ("max_bytes", VInt 6000)]].

Definition builtin_handler (name strat contract : string) (build : PlanBuilder) (tests : list string)
    : SkillHandler :=
  mkSkillHandler name "0.1.0" strat contract build SKILL_HANDLER_RUNTIME_PATH
    (map (fun t => "tests/" +:+ t) tests) "active".

Definition BUILTIN_HANDLERS : list SkillHandler :=
  [builtin_handler "git-diff-analysis" "code-review-readonly" "review-findings-contract"
     _git_diff_analysis_actions
     ["test_runtime_skill_handlers.py::test_builtin_skill_handler_registry_resolves_profile_selected_version";
      "test_runtime_skill_handlers.py::test_runtime_loop_records_executed_skill_handler_binding"];
   builtin_handler "research-context-synthesis" "research-context-synthesis" "research-output-contract"
     _no_tool_actions
     ["test_runtime_tool_gateway_and_loop.py::test_minimal_runtime_loop_dispatches_task_type_strategies"];
   builtin_handler "task-execution-planning" "conservative-task-execution" "task-execution-output-contract"
     _task_execution_planning_actions
     ["test_runtime_tool_gateway_and_loop.py::test_minimal_runtime_loop_dispatches_task_type_strategies"];
   builtin_handler "dependency-audit" "dependency-audit-readonly" "task-execution-output-contract"
     _dependency_audit_actions
     ["test_runtime_skill_handlers.py::test_dependency_audit_skill_handler_builds_expected_actions"];
   builtin_handler "document-synthesis" "document-synthesis" "general-output-contract"
     _document_synthesis_actions
     ["test_runtime_skill_handlers.py::test_document_synthesis_skill_handler_builds_no_tool_actions"];
   builtin_handler "general-task-summary" "general-task-summary" "general-output-contract"
     _no_tool_actions
     ["test_runtime_tool_gateway_and_loop.py::test_minimal_runtime_loop_dispatches_task_type_strategies"]].

Definition builtin_skill_handler_registry : res SkillHandlerRegistry :=
  new_handler_registry BUILTIN_HANDLERS.

(** ** Runtime planning *)

Definition SUPPORTED_RUNTIME_TASK_TYPES : list string :=
  ["code-review"; "research"; "task-execution"; "general-task"].

Definition task_type_for_profile (profile : odict value) : string :=
  let task_type := py_str (dget "task_type" (VStr "general-task") profile) in
  if str_in task_type SUPPORTED_RUNTIME_TASK_TYPES then task_type else "general-task".

Definition build_runtime_plan (r : SkillHandlerRegistry) (profile : odict value) : enf (odict value) :=
  let task_type := task_type_for_profile profile in
  skill_plan ← build_plan r profile;
  objective ← lift (ditem "objective" profile);
  mret
    [("objective", objective); ("task_type", VStr task_type);
     ("selected_modules", strs (selected_modules profile));
     ("strategy", VStr (strategy skill_plan)); ("output_contract", VStr (output_contract skill_plan));
     ("skill_handlers", VList (map VDict (skill_handlers skill_plan)));
     ("actions", VList (map VDict (actions skill_plan)))].

Example builtin_registry_ex :
  (r ← builtin_skill_handler_registry; mret (map handler_id (handlers r)))
  = Ok ["dependency-audit@0.1.0"; "document-synthesis@0.1.0"; "general-task-summary@0.1.0";
        "git-diff-analysis@0.1.0"; "research-context-synthesis@0.1.0"; "task-execution-planning@0.1.0"].
Proof. vm_compute. reflexivity. Qed.

(** ** Handlers in the registry *)

Definition registry_wf (l : list SkillHandler) (r : SkillHandlerRegistry) : Prop :=
  (forall k h, by_name_version r !! k = Some h -> handler_key h = k /\ In h l) /\
  (forall h, In h l -> by_name_version r !! handler_key h = Some h).

Lemma register_wf done_ r h r' :
  registry_wf done_ r -> register_handler r h = Ok r' -> registry_wf (done_ ++ [h]) r'.
Proof.
  intros [H1 H2] H. unfold register_handler in H.
  apply bind_Ok in H as ([] & H & [= <-]).
  apply raise_if_Ok, bool_decide_eq_false in H. split; cbn.
  - intros k h' Hk. rewrite lookup_insert in Hk. case_decide as E; [simplify_eq; split; [done|]|].
    + apply in_or_app. right. by left.
    + destruct (H1 k h' Hk). split; [done|]. apply in_or_app. by left.
  - intros h' [Hin|[<-|[]]]%in_app_or; [|by rewrite lookup_insert_eq].
    rewrite lookup_insert_ne; [by apply H2|]. intros E. apply H. rewrite E, H2; eauto.
Qed.

Lemma new_handler_registry_wf l r : new_handler_registry l = Ok r -> registry_wf l r.
Proof.
  unfold new_handler_registry. apply (foldM_ind register_handler (fun r done_ => registry_wf done_ r)).
  - split; [intros k h H; cbn in H; by rewrite lookup_empty in H | intros h []].
  - intros done_ x r1 r2 Hr _ Hx. by eapply register_wf.
Qed.

Lemma resolve_Ok l r name version h :
  registry_wf l r -> _resolve r name version = Ok h ->
  skill_name h = name /\ skill_version h = version /\ In h l.
Proof.
  intros [H _]. unfold _resolve. destruct (by_name_version r !! (name, version)) as [h'|] eqn:E.
  - intros [= ->]. destruct (H _ _ E) as [Hk Hin]. injection Hk as <- <-. auto.
  - by destruct (known_versions r !! name).
Qed.

(** ** The role check *)

Lemma role_counts_get l acc name :
  match od_get name (foldl (fun acc name =>
    od_set name (match od_get name acc with Some n => n | None => 0%nat end + 1)%nat acc) acc l) with
  | Some n => n | None => 0%nat end
  = (match od_get name acc with Some n => n | None => 0%nat end + count_occ String.string_dec l name)%nat.
Proof.
  revert acc. induction l as [|x l IH]; intros acc; cbn [foldl count_occ]; [lia|].
  rewrite IH, od_get_set. destruct (String.string_dec x name) as [->|Hne].
  - rewrite String.eqb_refl. lia.
  - rewrite (proj2 (String.eqb_neq name x)) by congruence. lia.
Qed.

Lemma role_counts_NoDup l : NoDup (od_keys (role_counts l)).
Proof.
  unfold role_counts. assert (Hnil : NoDup (od_keys (@nil (string * nat)))) by apply NoDup_nil_2.
  revert Hnil. generalize (@nil (string * nat)).
  induction l as [|x l IH]; cbn; [done|]. intros acc Hacc. by apply IH, od_set_NoDup.
Qed.

Lemma no_duplicates l :
  List.filter (fun kv : string * nat => Nat.ltb 1 kv.2) (role_counts l) = [] <-> NoDup l.
Proof.
  assert (Hc : forall x, match od_get x (role_counts l) with Some n => n | None => 0%nat end
                         = count_occ String.string_dec l x) by (intros x; apply role_counts_get).
  rewrite NoDup_ListNoDup, (NoDup_count_occ String.string_dec). split.
  - intros H x. specialize (Hc x). destruct (od_get x (role_counts l)) as [n|] eqn:E; [|lia].
    destruct (Nat.ltb_spec 1 n); [|lia].
    assert (Hin : In (x, n) (List.filter (fun kv : string * nat => Nat.ltb 1 kv.2) (role_counts l))).
    { apply filter_In. split; [by apply od_get_In|]. by apply Nat.ltb_lt. }
    by rewrite H in Hin.
  - intros H. destruct (List.filter _ _) as [|[x n] rest] eqn:E; [done|].
    assert (Hin : In (x, n) (List.filter (fun kv : string * nat => Nat.ltb 1 kv.2) (role_counts l)))
      by (rewrite E; by left).
    apply filter_In in Hin as [Hin Hn%Nat.ltb_lt]. cbn in Hn.
    specialize (Hc x). rewrite (od_get_NoDup x n _ (role_counts_NoDup l) Hin) in Hc.
    specialize (H x). lia.
Qed.

Lemma validate_roles_Ok selected runtime non_runtime shared :
  _validate_skill_execution_roles selected runtime non_runtime shared = Ok tt <->
  (forall x, In x (runtime ++ non_runtime ++ shared) <-> In x selected) /\
  NoDup (runtime ++ non_runtime ++ shared).
Proof.
  unfold _validate_skill_execution_roles. set (l := runtime ++ non_runtime ++ shared).
  assert (Hdup : nonempty (sorted_strs (map fst
      (List.filter (fun kv : string * nat => Nat.ltb 1 kv.2) (role_counts l)))) = false <-> NoDup l).
  { rewrite nonempty_false. unfold sorted_strs. rewrite py_sorted_nil, <- no_duplicates.
    destruct (List.filter _ _); cbn; split; congruence. }
  assert (Hsub : forall a b : list string,
      nonempty (sorted_set (list_to_set (C := gset string) a ∖ list_to_set b)) = false
      <-> forall x, In x a -> In x b).
  { intros a b. rewrite nonempty_false, sorted_set_subset_nil, elem_of_subseteq.
    setoid_rewrite elem_of_list_to_set. by setoid_rewrite list_elem_of_In. }
  rewrite bind_Ok. setoid_rewrite bind_Ok. setoid_rewrite raise_if_Ok. setoid_rewrite Hdup.
  setoid_rewrite Hsub. split.
  - intros ([] & H1 & [] & H2 & H3). split; [|done]. intros x. split; auto.
  - intros [H1 H2]. exists tt. split; [intros x; apply H1|]. exists tt. split; [intros x; apply H1|done].
Qed.

(** ** What planning does with the enforcer *)

Lemma require_version_Ok name version s u s' :
  require_module_version name version s = (Ok u, s') <->
  s' = s /\ exists versions, dget "module_versions" (VDict []) (profile s) = VDict versions /\
    od_get name versions = Some (VStr version).
Proof.
  unfold require_module_version. destruct u. split.
  - intros [= H <-]. split; [done|]. apply raise_if_Ok, negb_false_iff, py_eq_str_r in H.
    destruct (dget "module_versions" (VDict []) (profile s)) as [| | | | |versions]; try done.
    exists versions. split; [done|]. unfold dget in H. by destruct (od_get name versions); simplify_eq.
  - intros (-> & versions & H1 & H2). rewrite H1. unfold dget at 1. rewrite H2. cbn.
    by rewrite String.eqb_refl.
Qed.

(** What authorises a handler to plan for a profile. *)
Record authorized (r : SkillHandlerRegistry) (p : odict value) (h : SkillHandler) : Prop := {
  au_selected : py_in (skill_name h) (dget "skills" (VList []) p) = Ok true;
  au_pinned : exists versions, dget "module_versions" (VDict []) p = VDict versions /\
    od_get (skill_name h) versions = Some (VStr (skill_version h));
  au_resolved : _resolve r (skill_name h) (skill_version h) = Ok h;
}.

Lemma skill_plans_Ok l r names s plans s' :
  registry_wf l r -> skill_plans r (profile s) names s = (Ok plans, s') ->
  s' = s /\ exists hs, map skill_name hs = names /\ Forall (authorized r (profile s)) hs /\
    Forall2 (fun h plan => In h l /\ handler_plan h (profile s) = Ok plan) hs plans.
Proof.
  intros Hwf. revert plans s'. induction names as [|name names IH]; intros plans s' H.
  - injection H as <- <-. split; [done|]. exists []. split_and!; constructor.
  - cbn [skill_plans] in H.
    apply eff_bind_Ok in H as ([] & s1 & H1 & H). apply require_in_profile_Ok in H1 as [-> H1].
    apply eff_bind_Ok in H as (v & s1 & Hv & H). injection Hv as Hv <-.
    apply eff_bind_Ok in H as ([] & s1 & H2 & H). apply require_version_Ok in H2 as [-> H2].
    apply eff_bind_Ok in H as (h & s1 & H3 & H). injection H3 as H3 <-.
    apply eff_bind_Ok in H as (p & s1 & H4 & H). injection H4 as H4 <-.
    apply eff_bind_Ok in H as (ps & s1 & Hps & H). injection H as <- <-.
    apply IH in Hps as (-> & hs & Hn & Hall & Hp). split; [done|]. exists (h :: hs).
    destruct (resolve_Ok _ _ _ _ _ Hwf H3) as (<- & <- & Hin).
    split_and!; [cbn; by rewrite Hn| |]; constructor; done.
Qed.

Lemma skill_plans_run r s names :
  Forall (fun name => exists h plan, skill_name h = name /\ authorized r (profile s) h /\
                        handler_plan h (profile s) = Ok plan) names ->
  exists plans, skill_plans r (profile s) names s = (Ok plans, s).
Proof.
  induction 1 as [|name names (h & plan & <- & [H1 (vs & Hvs & Hpin) H3] & H4) _ [plans IH]];
    [by exists []|].
  exists (plan :: plans). cbn [skill_plans]. apply eff_bind_Ok. exists tt, s. split.
  { by apply require_in_profile_Ok. }
  assert (Hreq : _required_version_pin (profile s) (skill_name h) = Ok (skill_version h)).
  { unfold _required_version_pin. by rewrite Hvs, Hpin. }
  rewrite Hreq, eff_lift_Ok. apply eff_bind_Ok. exists tt, s. split.
  { apply require_version_Ok. split; [done|]. by exists vs. }
  rewrite H3, eff_lift_Ok, H4, eff_lift_Ok. apply eff_bind_Ok. by exists plans, s.
Qed.

(** Planning never touches the enforcer's counters, whatever it answers. *)
Lemma build_plan_state r p s : (build_plan r p s).2 = s.
Proof.
  assert (H : preserves (fun a b : enforcer => a = b) (build_plan r p)); [|symmetry; apply H].
  assert (Hskills : forall names, preserves (fun a b : enforcer => a = b) (skill_plans r p names)).
  { induction names as [|name names IH]; cbn [skill_plans]; preserves_tac; (done || by intros s0). }
  unfold build_plan. preserves_tac; done.
Qed.

Lemma build_runtime_plan_state r p s : (build_runtime_plan r p s).2 = s.
Proof.
  pose proof (build_plan_state r p s) as H. unfold build_runtime_plan, mbind, eff_bind.
  destruct (build_plan r p s) as [[plan|e] s1]; [|exact H]. by destruct (ditem "objective" p).
Qed.

Lemma selection_disjoint p sel name :
  _selected_skills_for_runtime p = Ok sel -> In name (non_runtime_skills sel) ->
  ~ In name (executable_skills sel).
Proof.
  unfold _selected_skills_for_runtime. destruct (dget "skill_execution_roles" VNone p);
    try (intros [= <-] []).
  intros (rs & _ & (ns & _ & (ss & _ & ([] & Hv & [= <-])%bind_Ok)%bind_Ok)%bind_Ok)%bind_Ok.
  cbn [non_runtime_skills]. intros Hn. unfold executable_skills. cbn. rewrite in_app_iff.
  apply validate_roles_Ok in Hv as [_ Hv]. revert Hv.
  rewrite !NoDup_app. setoid_rewrite list_elem_of_In. intros (_ & H1 & _ & H2 & _) [Hr|Hs].
  - eapply H1; [exact Hr|]. apply in_or_app. by left.
  - by eapply H2.
Qed.

Lemma aggregate_actions p hs plans :
  Forall2 (fun h plan => handler_plan h p = Ok plan) hs plans ->
  exists acts, Forall2 (fun h a => build_actions h p = Ok a) hs acts /\
    actions (_aggregate_plans plans) = mjoin acts /\
    skill_handlers (_aggregate_plans plans) =
      map (fun h => [("name", VStr (skill_name h)); ("version", VStr (skill_version h));
                     ("handler_id", VStr (skill_name h +:+ "@" +:+ skill_version h))]) hs.
Proof.
  change (actions (_aggregate_plans plans)) with (mjoin (map plan_actions plans)).
  change (skill_handlers (_aggregate_plans plans)) with (map handler_ref plans).
  induction 1 as [|h plan hs plans Hp _ (acts & H1 & H2 & H3)]; [by exists []|].
  unfold handler_plan in Hp. apply bind_Ok in Hp as (a & Ha & [= <-]).
  exists (a :: acts). split_and!; [by constructor| |cbn [map]; by rewrite H3].
  transitivity (a ++ mjoin (map plan_actions plans)); [done|by rewrite H2].
Qed.

(** ** Properties *)

(** Planning is authorised: a plan is made of one handler per executable
    skill, in order, each registered, selected by the profile and pinned to
    the very version planned, and of those handlers' actions, joined in that
    order; a skill with the non-runtime role contributes nothing, and the
    enforcer is left as it was. *)
Theorem build_plan_authorized l r s plan s' :
  new_handler_registry l = Ok r -> build_plan r (profile s) s = (Ok plan, s') ->
  s' = s /\
  exists sel hs acts, _selected_skills_for_runtime (profile s) = Ok sel /\
    map skill_name hs = executable_skills sel /\
    Forall (fun h => In h l /\ py_in (skill_name h) (dget "skills" (VList []) (profile s)) = Ok true /\
      exists versions, dget "module_versions" (VDict []) (profile s) = VDict versions /\
        od_get (skill_name h) versions = Some (VStr (skill_version h))) hs /\
    Forall2 (fun h a => build_actions h (profile s) = Ok a) hs acts /\
    actions plan = mjoin acts /\
    skill_handlers plan = map (fun h => [("name", VStr (skill_name h)); ("version", VStr (skill_version h));
      ("handler_id", VStr (skill_name h +:+ "@" +:+ skill_version h))]) hs /\
    (forall name, In name (non_runtime_skills sel) -> ~ In name (map skill_name hs)).
Proof.
  intros Hwf%new_handler_registry_wf H. unfold build_plan in H.
  apply eff_bind_Ok in H as (sel & s1 & Hsel & H). injection Hsel as Hsel <-.
  destruct (nonempty (executable_skills sel)) eqn:Hne.
  - apply eff_bind_Ok in H as (plans & s1 & Hp & H). injection H as <- <-.
    apply (skill_plans_Ok l) in Hp as (-> & hs & Hn & Hall & Hplans); [|done]. split; [done|].
    destruct (aggregate_actions (profile s) hs plans) as (acts & Ha & Hacts & Hrefs).
    { eapply Forall2_impl; [exact Hplans|]. by intros ?? [_ ?]. }
    exists sel, hs, acts. split_and!; try done.
    + apply Forall_forall. intros h Hh. rewrite Forall_forall in Hall. destruct (Hall h Hh) as [? ? _].
      split; [|done]. apply list_elem_of_In in Hh. by destruct (Forall2_In_l _ _ _ _ Hplans Hh) as (? & _ & ? & _).
    + intros name Hname. rewrite Hn. by eapply selection_disjoint.
  - injection H as <- <-. apply nonempty_false in Hne. split; [done|]. exists sel, [], [].
    split_and!; [done|by rewrite Hne|constructor|constructor|done|done|by intros name _ []].
Qed.

(** C18. Composition and planning agree: the skill roles of every composed
    profile pass the planner's check, and planning a composed profile succeeds
    when the registry holds a handler that builds its actions for each
    executable skill, at the version the profile pins it to. *)
Theorem composed_profile_planned l r t c g parent reason p s :
  compose t c g parent reason = Ok p -> new_handler_registry l = Ok r -> profile s = p ->
  exists sel, _selected_skills_for_runtime p = Ok sel /\
    ((forall name versions, In name (executable_skills sel) ->
        dget "module_versions" (VDict []) p = VDict versions ->
        exists h acts, In h l /\ skill_name h = name /\
          od_get name versions = Some (VStr (skill_version h)) /\ build_actions h p = Ok acts) ->
     exists plan, build_plan r p s = (Ok plan, s)).
Proof.
  intros Hc Hwf%new_handler_registry_wf Hp.
  destruct (composed_skills _ _ _ _ _ _ Hc) as (sk & rs & ns & ss & pins & Hsk & Hnd & Hro & Hperm & Hpins & Hpin).
  assert (Hsel : _selected_skills_for_runtime p = Ok (mkRuntimeSkillSelection rs ns ss)).
  { unfold _selected_skills_for_runtime. rewrite Hro. unfold _role_skills.
    change (dget "runtime_skills" (VList []) _) with (strs rs).
    change (dget "non_runtime_skills" (VList []) _) with (strs ns).
    change (dget "shared_skills" (VList []) _) with (strs ss). unfold strs.
    cbn [mbind result_bind]. rewrite !map_str_strs.
    unfold _selected_skill_names. rewrite Hsk. unfold strs. rewrite map_str_strs.
    rewrite (proj2 (validate_roles_Ok sk rs ns ss)); [done|]. split; [|by rewrite Hperm].
    intros x. by rewrite <- !list_elem_of_In, Hperm. }
  exists (mkRuntimeSkillSelection rs ns ss). split; [done|]. intros Hh. unfold build_plan.
  rewrite Hsel, eff_lift_Ok. destruct (nonempty _) eqn:Hne; [|by eexists].
  destruct (skill_plans_run r s (executable_skills (mkRuntimeSkillSelection rs ns ss))) as [plans Hplans].
  { apply Forall_forall. intros name Hname%list_elem_of_In. rewrite Hp.
    destruct (Hh name pins Hname Hpins) as (h & acts & Hin & <- & Hv & Ha).
    exists h. eexists. split; [done|]. split.
    - constructor; [|by exists pins|].
      + rewrite Hsk, py_in_strs. f_equal. apply str_in_In, list_elem_of_In. rewrite <- Hperm.
        unfold executable_skills in Hname. cbn in Hname. apply list_elem_of_In.
        rewrite !in_app_iff in *. tauto.
      + unfold _resolve. destruct Hwf as [_ Hwf].
        specialize (Hwf h Hin). unfold handler_key in Hwf. by rewrite Hwf.
    - unfold handler_plan. by rewrite Ha. }
  rewrite Hp in Hplans. exists (_aggregate_plans plans). apply eff_bind_Ok. by exists plans, s.
Qed.

Definition builtins : SkillHandlerRegistry :=
  match builtin_skill_handler_registry with Ok r => r | Raise _ => mkSkillHandlerRegistry ∅ ∅ end.
Definition demo_plan_profile : odict value :=
  [("skills", strs ["git-diff-analysis"; "manual-triage"]); ("objective", VStr "Review");
   ("skill_execution_roles", VDict [("runtime_skills", strs ["git-diff-analysis"]);
      ("non_runtime_skills", strs ["manual-triage"]); ("shared_skills", strs [])]);
   ("module_versions", VDict [("git-diff-analysis", VStr "0.1.0"); ("manual-triage", VStr "2.0.0")])].
Definition demo_planner : enforcer := mkEnforcer demo_plan_profile 0 0 0 0 0 0.
Definition demo_skill_plan : RuntimeSkillPlan :=
  match (build_plan builtins demo_plan_profile demo_planner).1 with
  | Ok p => p | Raise _ => mkRuntimeSkillPlan "" "" [] []
  end.

Lemma builtins_ok : builtin_skill_handler_registry = Ok builtins.
Proof. vm_compute. reflexivity. Qed.
Lemma demo_plan_ok : build_plan builtins demo_plan_profile demo_planner = (Ok demo_skill_plan, demo_planner).
Proof. vm_compute. reflexivity. Qed.

Lemma build_plan_authorized_witness :
  exists sel hs, _selected_skills_for_runtime demo_plan_profile = Ok sel /\
    map skill_name hs = ["git-diff-analysis"] /\ ~ In "manual-triage" (map skill_name hs).
Proof.
  destruct (build_plan_authorized BUILTIN_HANDLERS builtins demo_planner demo_skill_plan demo_planner)
    as (_ & sel & hs & _ & H1 & H2 & _ & _ & _ & _ & H3); [exact builtins_ok|exact demo_plan_ok|].
  assert (E : sel = mkRuntimeSkillSelection ["git-diff-analysis"] ["manual-triage"] []).
  { assert (E : Ok sel = Ok (mkRuntimeSkillSelection ["git-diff-analysis"] ["manual-triage"] []) :> res _)
      by (rewrite <- H1; vm_compute; reflexivity).
    congruence. }
  subst sel. exists (mkRuntimeSkillSelection ["git-diff-analysis"] ["manual-triage"] []), hs.
  split; [exact H1|]. split; [exact H2|]. apply H3. by left.
Defined.

Lemma composed_profile_planned_witness :
  exists sel, _selected_skills_for_runtime review_profile = Ok sel.
Proof.
  destruct (composed_profile_planned BUILTIN_HANDLERS builtins review_analyzed
    (review_response demo_authority) 1 None None review_profile
    (mkEnforcer review_profile 0 0 0 0 0 0)) as (sel & H & _);
    [vm_compute; reflexivity|exact builtins_ok|reflexivity|exact (ex_intro _ sel H)].
Defined.

Definition read_only_action (a : odict value) : Prop :=
  exists tool, dget "tool" VNone a = VStr tool /\
    In tool ["git-read"; "filesystem-read"; "filesystem-list"] /\
    tool_risk_level tool = "low" /\ tool_required_policies tool = [] /\
    tool_required_data_scopes tool = ["repository-readonly"].

Lemma builtin_handler_reads h p plan :
  In h BUILTIN_HANDLERS -> handler_plan h p = Ok plan -> Forall read_only_action (plan_actions plan).
Proof.
  unfold read_only_action.
  intros Hin Hp. repeat (destruct Hin as [<-|Hin]; [injection Hp as <-; cbn [plan_actions];
    repeat (constructor; [eexists; split; [reflexivity|]; split; [cbn; tauto|done]|]); constructor|]).
  destruct Hin.
Qed.

(** Plans of the built-in handlers only read: every action of such a plan
    names one of three tools, all of low risk, none of which needs a policy and
    all of which read the repository scope; no plan writes or runs tests. *)
Theorem builtin_plans_read_only r s plan s' :
  builtin_skill_handler_registry = Ok r -> build_plan r (profile s) s = (Ok plan, s') ->
  Forall read_only_action (actions plan).
Proof.
  intros Hwf%new_handler_registry_wf H. unfold build_plan in H.
  apply eff_bind_Ok in H as (sel & s1 & Hs & H). injection Hs as _ <-.
  destruct (nonempty (executable_skills sel)); [|injection H as <- _; constructor].
  apply eff_bind_Ok in H as (plans & s2 & Hp & H). injection H as <- _.
  change (actions (_aggregate_plans plans)) with (mjoin (map plan_actions plans)).
  apply (skill_plans_Ok BUILTIN_HANDLERS) in Hp as (_ & hs & _ & _ & Hplans); [|done].
  apply Forall_join, Forall_forall. intros acts Ha. apply list_elem_of_In, in_map_iff in Ha as (q & <- & Hq).
  destruct (Forall2_In_r _ _ _ _ Hplans Hq) as (h & _ & Hin & Hh). by eapply builtin_handler_reads.
Qed.

Lemma builtin_plans_read_only_witness : Forall read_only_action (actions demo_skill_plan).
Proof.
  apply (builtin_plans_read_only builtins demo_planner demo_skill_plan demo_planner);
    [exact builtins_ok|exact demo_plan_ok].
Defined.
