(* ===== verification/Validation.v ===== *)
(** * Runtime responses and the validators that check them

    Models [runtime/response.py] and [runtime/validation.py]. A validator reads
    the profile, the execution and the response and answers with an outcome;
    the framework runs the validators the profile names, in the profile's
    order. Validators given to the framework from outside are functions of the
    same type. *)

From S2P Require Import Prelude PyStr PyValue Models Enforcement SkillHandlers.
Open Scope string_scope.
Open Scope list_scope.

Definition RUNTIME_OUTPUT_CONTRACT_VERSION : string := "0.1.0".

Definition TASK_OUTPUT_VALIDATORS : odict string :=
  [("review-findings-contract", "code-review"); ("research-output-contract", "research");
   ("task-execution-output-contract", "task-execution"); ("general-output-contract", "general-task")].

(** ** The response *)

Definition is_text (v : value) : bool := match v with VStr _ => true | _ => false end.

Definition tool_artifact (result : value) : option value :=
  match result with
  | VDict d =>
      match dget "output_uri" VNone d with
      | VStr uri => if String.eqb uri "" then None
                    else Some (VDict [("kind", VStr "tool-output"); ("uri", VStr uri)])
      | _ => None
      end
  | _ => None
  end.

Definition tool_artifacts_from_execution (execution : odict value) : res (list value) :=
  results ← py_iter (dget "tool_results" (VList []) execution);
  mret (omap tool_artifact results : list value).

Definition retrieval_artifact (v : value) : option value :=
  match v with
  | VDict d =>
      match dget "content_uri" VNone d with
      | VStr uri => if startswith "hetzner://runtime/" uri
                    then Some (VDict [("kind", VStr "retrieval-context"); ("uri", VStr uri)]) else None
      | _ => None
      end
  | _ => None
  end.

Definition retrieval_artifacts_from_context (context : odict value) : list value :=
  match dget "retrieval_response" VNone context with
  | VDict response =>
      mjoin (map (fun field =>
        match dget field (VList []) response with VList l => (omap retrieval_artifact l : list value) | _ => [] end)
        ["knowledge_chunks"; "memory_records"])
  | _ => []
  end.

Definition executed_action (result : value) : res (option value) :=
  match result with
  | VDict d =>
      tool_name ← ditem "tool_name" d;
      status ← ditem "status" d;
      mret (Some (VStr (py_str tool_name +:+ ":" +:+ py_str status)))
  | _ => Ok None
  end.

(** The envelope every task type shares. *)
Definition output_envelope (task_type summary : string) (artifacts : list value)
    (details : odict value) : odict value :=
  [("contract_version", VStr RUNTIME_OUTPUT_CONTRACT_VERSION); ("task_type", VStr task_type);
   ("status", VStr "completed"); ("summary", VStr summary); ("artifacts", VList artifacts);
   ("details", VDict details)].

Definition runtime_output_for_task (task_type : string) (context plan execution : odict value)
    : res (odict value) :=
  tool_artifacts ← tool_artifacts_from_execution execution;
  if String.eqb task_type "code-review" then
    mret (output_envelope "code-review" "Code review completed with profile-scoped read-only tools."
      tool_artifacts [("findings", VList []); ("reviewed_artifacts", VList tool_artifacts)])
  else if String.eqb task_type "research" then
    let retrieval_artifacts := retrieval_artifacts_from_context context in
    knowledge_count ← py_len (dget "knowledge_chunks" (VList []) context);
    memory_count ← py_len (dget "memory_records" (VList []) context);
    let open_questions :=
      if (knowledge_count =? 0)%Z && (memory_count =? 0)%Z
      then ["No profile-authorized knowledge or memory records were returned."] else [] in
    mret (output_envelope "research" "Research completed from profile-bounded retrieval context."
      retrieval_artifacts
      [("key_points", strs ["Loaded " +:+ zstr knowledge_count +:+ " knowledge chunk(s) and "
          +:+ zstr memory_count +:+ " memory record(s) through the Control API retrieval boundary."]);
       ("sources", VList retrieval_artifacts); ("open_questions", strs open_questions)])
  else if String.eqb task_type "task-execution" then
    results ← py_iter (dget "tool_results" (VList []) execution);
    executed_actions ← mapM executed_action results;
    mret (output_envelope "task-execution" "Task execution completed in conservative read-only mode."
      tool_artifacts
      [("planned_changes", strs ["Inspect repository state and produce a bounded execution summary."]);
       ("executed_actions", VList (omap (fun a : option value => a) executed_actions : list value));
       ("blocked_actions", strs ["Repository writes are outside the first productive runtime slice."])])
  else
    mret (output_envelope "general-task" "General task completed with the generic runtime strategy." []
      [("notes", strs ["Runtime strategy: "
          +:+ py_str (dget "strategy" (VStr "general-task-summary") plan) +:+ "."])]).

Definition runtime_response (run_id task_id : string) (profile context plan execution : odict value)
    : res (odict value) :=
  let task_type := task_type_for_profile profile in
  runtime_output ← runtime_output_for_task task_type context plan execution;
  profile_id ← ditem "id" profile;
  summary ← ditem "summary" runtime_output;
  count ← py_len (dget "tool_results" (VList []) execution);
  mret
    [("run_id", VStr run_id); ("task_id", VStr task_id); ("profile_id", profile_id);
     ("task_type", VStr task_type); ("status", VStr "succeeded"); ("summary", summary);
     ("tool_result_count", VInt count); ("runtime_output", VDict runtime_output)].

(** ** Validators *)

Record RuntimeValidationOutcome := mkOutcome {
  validator_id : string;
  outcome_status : string;
  findings : odict value;
}.

Abbreviation RuntimeValidator :=
  (odict value -> odict value -> odict value -> res RuntimeValidationOutcome).

Definition status_of {A} (problems : list A) : string := if nonempty problems then "failed" else "passed".

Definition _validator_outcome (id : string) (errors : list string) : RuntimeValidationOutcome :=
  mkOutcome id (status_of errors) [("status", VStr (status_of errors)); ("errors", strs errors)].

Definition PROFILE_FIELDS : list string :=
  ["id"; "profile_version"; "instructions"; "tools"; "module_versions"; "limits"; "validators"].

Definition RuntimeProfileSchemaValidator : RuntimeValidator := fun profile _ _ =>
  let missing := List.filter (fun field => negb (od_mem field profile)) PROFILE_FIELDS in
  Ok (mkOutcome "runtime-profile-schema" (status_of missing)
        [("status", VStr (status_of missing)); ("missing_profile_fields", strs missing)]).

(** [errors.append(e)] under a condition *)
Definition error_if (b : bool) (e : string) : list string := if b then [e] else [].
Definition fields_differ (k1 : string) (a : odict value) (k2 : string) (b : odict value) : bool :=
  negb (py_eq (dget k1 VNone a) (dget k2 VNone b)).

Definition membership_errors (profile tenant_context authority : odict value) : list string :=
  match dget "membership" VNone authority with
  | VDict membership =>
      error_if (fields_differ "id" membership "membership_id" tenant_context) "membership_id_mismatch"
      ++ error_if (negb (py_eq (dget "principal_id" VNone membership) (profile_principal_id profile)))
           "membership_principal_mismatch"
  | _ => ["membership_missing"]
  end.

Definition authority_errors (profile tenant_context authority : odict value) : list string :=
  error_if (fields_differ "tenant_id" authority "tenant_id" tenant_context) "tenant_id_mismatch"
  ++ error_if (fields_differ "area_id" authority "area_id" tenant_context) "area_id_mismatch"
  ++ match dget "hostname" VNone authority with
     | VDict hostname =>
         error_if (fields_differ "tenant_id" hostname "tenant_id" tenant_context) "hostname_tenant_id_mismatch"
         ++ error_if (fields_differ "hostname" hostname "hostname" tenant_context) "hostname_mismatch"
     | _ => ["hostname_authority_missing"]
     end
  ++ error_if (negb (is_false (dget "direct_user_grants_allowed" VNone authority))) "direct_user_grants_enabled"
  ++ membership_errors profile tenant_context authority.

Definition TenantProfileValidator : RuntimeValidator := fun profile _ _ =>
  Ok (_validator_outcome "tenant-profile-validator"
    (match dget "tenant_context" VNone profile with
     | VDict tenant_context =>
         if py_eq (dget "tenant_id" VNone tenant_context) (VStr "global") then
           error_if (negb (is_none (dget "tenant_authority" VNone profile))) "global_tenant_authority_present"
         else
           match dget "tenant_authority" VNone profile with
           | VDict authority => authority_errors profile tenant_context authority
           | _ => ["tenant_authority_missing"]
           end
     | _ => ["tenant_context_missing"]
     end)).

Definition scope_error (profile authority : odict value) (field authority_field : string) : list string :=
  let denied := sorted_set (string_set (dget field (VList []) profile)
                            ∖ string_set (dget authority_field (VList []) authority)) in
  error_if (nonempty denied) (field +:+ "_not_allowed:" +:+ join "," denied).

Definition authority_field_by_profile_field : odict string :=
  [("knowledge_scopes", "allowed_knowledge_scopes"); ("data_scopes", "allowed_data_scopes");
   ("memory_scopes", "allowed_memory_scopes")].

Definition _validate_scopes_against_tenant_authority (id : string) (profile : odict value)
    (scope_fields : list string) : res RuntimeValidationOutcome :=
  match dget "tenant_context" VNone profile with
  | VDict tenant_context =>
      if py_eq (dget "tenant_id" VNone tenant_context) (VStr "global") then Ok (_validator_outcome id [])
      else
        match dget "tenant_authority" VNone profile with
        | VDict authority =>
            errors ← mapM (fun field =>
              authority_field ← ditem field authority_field_by_profile_field;
              mret (scope_error profile authority field authority_field)) scope_fields;
            mret (_validator_outcome id (mjoin errors))
        | _ => Ok (_validator_outcome id ["tenant_authority_missing"])
        end
  | _ => Ok (_validator_outcome id [])
  end.

Definition NoCrossTenantScopeValidator : RuntimeValidator := fun profile _ _ =>
  _validate_scopes_against_tenant_authority "no-cross-tenant-scope-validator" profile
    ["knowledge_scopes"; "data_scopes"; "memory_scopes"].

Definition KnowledgeScopeValidator : RuntimeValidator := fun profile _ _ =>
  _validate_scopes_against_tenant_authority "knowledge-scope-validator" profile ["knowledge_scopes"].

Definition NoCrossAreaScopeValidator : RuntimeValidator := fun profile _ _ =>
  Ok (_validator_outcome "no-cross-area-scope-validator"
    (match dget "tenant_context" VNone profile with
     | VDict tenant_context =>
         if py_eq (dget "tenant_id" VNone tenant_context) (VStr "global") then []
         else match dget "tenant_authority" VNone profile with
              | VDict authority =>
                  error_if (fields_differ "area_id" tenant_context "area_id" authority) "area_id_mismatch"
              | _ => ["tenant_authority_missing"]
              end
     | _ => []
     end)).

(** ** The output contracts *)

Definition _require_array (value : odict value) (field : string) : list string :=
  error_if (negb (is_list (dget field VNone value))) (field +:+ "_not_array").

Definition _require_non_empty_array (value : odict value) (field : string) : list string :=
  match _require_array value field with
  | [] => error_if (negb (truthy (dget field VNone value))) (field +:+ "_empty")
  | errors => errors
  end.

Definition details_errors (details : odict value) (expected_task_type : string) : list string :=
  if String.eqb expected_task_type "code-review" then
    _require_array details "findings" ++ _require_array details "reviewed_artifacts"
  else if String.eqb expected_task_type "research" then
    _require_non_empty_array details "key_points" ++ _require_array details "sources"
    ++ _require_array details "open_questions"
  else if String.eqb expected_task_type "task-execution" then
    _require_non_empty_array details "planned_changes" ++ _require_array details "executed_actions"
    ++ _require_array details "blocked_actions"
  else if String.eqb expected_task_type "general-task" then _require_non_empty_array details "notes"
  else ["unsupported_task_type"].

Definition _runtime_output_errors (v : value) (expected_task_type : string) : res (list string) :=
  match v with
  | VDict d =>
      known_status ← in_frozenset (dget "status" VNone d) ["completed"; "blocked"; "failed"];
      let summary := dget "summary" VNone d in
      mret
        (error_if (negb (py_eq (dget "contract_version" VNone d) (VStr RUNTIME_OUTPUT_CONTRACT_VERSION)))
           "invalid_contract_version"
         ++ error_if (negb (py_eq (dget "task_type" VNone d) (VStr expected_task_type))) "task_type_mismatch"
         ++ error_if (negb known_status) "invalid_status"
         ++ error_if (negb (is_text summary) || String.eqb (strip (py_str summary)) "") "summary_missing"
         ++ error_if (negb (is_list (dget "artifacts" VNone d))) "artifacts_not_array"
         ++ match dget "details" VNone d with
            | VDict details => details_errors details expected_task_type
            | _ => ["details_missing"]
            end)
  | _ => Ok ["runtime_output_missing"]
  end.

Definition RESPONSE_FIELDS : list string :=
  ["run_id"; "task_id"; "profile_id"; "task_type"; "status"; "summary"; "runtime_output"].
Definition _has_required_response (response : odict value) : bool :=
  forallb (fun field => od_mem field response) RESPONSE_FIELDS.

Definition RuntimeOutputContractValidator (id task_type : string) : RuntimeValidator :=
  fun profile execution response =>
    count ← py_len (dget "tool_results" (VList []) execution);
    let has_required_response := _has_required_response response in
    let has_tool_result_count := py_eq (dget "tool_result_count" VNone response) (VInt count) in
    output_errors ← _runtime_output_errors (dget "runtime_output" VNone response) task_type;
    let status := if has_required_response && has_tool_result_count && negb (nonempty output_errors)
                  then "passed" else "failed" in
    mret (mkOutcome id status
      [("status", VStr status); ("required_response_fields_present", VBool has_required_response);
       ("tool_result_count_matches_execution", VBool has_tool_result_count);
       ("tool_result_count", VInt count); ("runtime_output_errors", strs output_errors)]).

(** ** The framework *)

Definition builtin_validators : odict RuntimeValidator :=
  [("runtime-profile-schema", RuntimeProfileSchemaValidator);
   ("tenant-profile-validator", TenantProfileValidator);
   ("no-cross-tenant-scope-validator", NoCrossTenantScopeValidator);
   ("no-cross-area-scope-validator", NoCrossAreaScopeValidator);
   ("knowledge-scope-validator", KnowledgeScopeValidator)]
  ++ map (fun kv => (kv.1, RuntimeOutputContractValidator kv.1 kv.2)) TASK_OUTPUT_VALIDATORS.

Definition framework_validators (extra : odict RuntimeValidator) : odict RuntimeValidator :=
  od_update builtin_validators extra.

Definition run_validator (validators : odict RuntimeValidator) (profile execution response : odict value)
    (id : value) : res RuntimeValidationOutcome :=
  match od_get (py_str id) validators with
  | Some validator => validator profile execution response
  | None => Ok (mkOutcome (py_str id) "failed"
                  [("status", VStr "failed"); ("reason", VStr "validator_not_registered")])
  end.

Definition framework_validate (validators : odict RuntimeValidator) (profile execution response : odict value)
    : res (list RuntimeValidationOutcome) :=
  ids ← py_iter (dget "validators" (VList []) profile);
  mapM (run_validator validators profile execution response) ids.

Definition assert_validation_passed (outcomes : list RuntimeValidationOutcome) : res unit :=
  let failed := map validator_id (List.filter (fun o => String.eqb (outcome_status o) "failed") outcomes) in
  raise_if (nonempty failed)
    (RuntimeValidationError ("Runtime validation failed: " +:+ join ", " failed +:+ ".")).

(** ** The response and its contract *)

Lemma error_if_nil b e : error_if b e = [] <-> b = false.
Proof. by destruct b. Qed.
Lemma nonempty_app_nil {A} (l k : list A) : l ++ k = [] <-> l = [] /\ k = [].
Proof. destruct l; cbn; naive_solver. Qed.

(** The output of a task type, for each supported one. *)
Lemma runtime_output_shape task_type context plan execution out :
  runtime_output_for_task task_type context plan execution = Ok out ->
  In task_type SUPPORTED_RUNTIME_TASK_TYPES ->
  exists summary artifacts details, out = output_envelope task_type summary artifacts details /\
    strip summary <> "" /\ details_errors details task_type = [] /\
    (forall other, In other SUPPORTED_RUNTIME_TASK_TYPES ->
       details_errors details other = [] -> other = task_type).
Proof.
  intros H Hin. unfold runtime_output_for_task in H.
  apply bind_Ok in H as (tools & _ & H).
  destruct Hin as [<-|[<-|[<-|[<-|[]]]]]; cbn [String.eqb Ascii.eqb Bool.eqb] in H.
  - injection H as <-. eexists _, _, _. split; [reflexivity|]. split; [by vm_compute|].
    split; [reflexivity|]. intros other [<-|[<-|[<-|[<-|[]]]]] E; [done|discriminate E..].
  - apply bind_Ok in H as (kc & _ & H). apply bind_Ok in H as (mc & _ & [= <-]).
    eexists _, _, _. split; [reflexivity|]. split; [by vm_compute|].
    split; [reflexivity|]. intros other [<-|[<-|[<-|[<-|[]]]]] E; [discriminate E|done|discriminate E..].
  - apply bind_Ok in H as (rs & _ & H). apply bind_Ok in H as (acts & _ & [= <-]).
    eexists _, _, _. split; [reflexivity|]. split; [by vm_compute|].
    split; [reflexivity|]. intros other [<-|[<-|[<-|[<-|[]]]]] E; [discriminate E..|done|discriminate E].
  - injection H as <-. eexists _, _, _. split; [reflexivity|]. split; [by vm_compute|].
    split; [reflexivity|]. intros other [<-|[<-|[<-|[<-|[]]]]] E; [discriminate E..|done].
Qed.

Lemma task_type_supported profile : In (task_type_for_profile profile) SUPPORTED_RUNTIME_TASK_TYPES.
Proof.
  unfold task_type_for_profile. destruct (str_in _ _) eqn:E; [by apply str_in_In|].
  cbn. tauto.
Qed.

Lemma envelope_errors ttype other summary artifacts details :
  strip summary <> "" ->
  _runtime_output_errors (VDict (output_envelope ttype summary artifacts details)) other
  = Ok (error_if (negb (String.eqb ttype other)) "task_type_mismatch" ++ details_errors details other).
Proof.
  intros Hs.
  transitivity (Ok (error_if (negb (String.eqb ttype other)) "task_type_mismatch"
    ++ error_if (String.eqb (strip summary) "") "summary_missing" ++ details_errors details other) : res _);
    [reflexivity|].
  by rewrite (proj2 (String.eqb_neq (strip summary) "")).
Qed.

(** ** Two implementations of the tenant rules

    The enforcer refuses a profile before the run; the validators judge it
    again at the end. *)

Lemma digits_not_global n : zstr n <> "global".
Proof.
  intros E. destruct (decide (0 <= n)%Z) as [Hn|Hn].
  - apply zstr_decimal in Hn as [_ Hd]. by rewrite E in Hd.
  - unfold zstr in E. destruct n as [|p|p]; [lia..|].
    change (pretty (Z.neg p)) with (String "-" (pretty (N.pos p))) in E. discriminate E.
Qed.

Lemma py_str_global v : py_str v = "global" -> v = VStr "global".
Proof.
  destruct v as [|[]|z|s|l|d]; cbn; try discriminate.
  - by intros H%digits_not_global.
  - by intros ->.
Qed.

Lemma global_agrees ctx :
  py_eq (dget "tenant_id" VNone ctx) (VStr "global")
  = String.eqb (py_str (dget "tenant_id" (VStr "") ctx)) GLOBAL_TENANT_ID.
Proof.
  unfold dget. destruct (od_get "tenant_id" ctx) as [v|]; [|done].
  destruct (String.eqb_spec (py_str v) GLOBAL_TENANT_ID) as [E|E].
  - by rewrite (py_str_global v E).
  - destruct (py_eq v (VStr "global")) eqn:H; [|done]. by apply py_eq_str_r in H as ->.
Qed.

Lemma scope_error_nil profile authority field authority_field :
  set_field field profile ⊆ set_field authority_field authority ->
  scope_error profile authority field authority_field = [].
Proof. intros H. unfold scope_error. apply error_if_nil, nonempty_false. by apply sorted_set_subset_nil. Qed.

(** What a profile the enforcer accepts looks like to the validators. *)
Lemma accepted_errors p ctx authority :
  dget "tenant_context" VNone p = VDict ctx ->
  py_str (dget "tenant_id" (VStr "") ctx) <> GLOBAL_TENANT_ID ->
  dget "tenant_authority" VNone p = VDict authority ->
  _validate_tenant_authority p = Ok tt ->
  authority_errors p ctx authority = [] /\
  py_eq (dget "area_id" VNone authority) (dget "area_id" VNone ctx) = true.
Proof.
  intros Hctx Hng Ha H. unfold _validate_tenant_authority in H.
  rewrite Hctx, (proj2 (String.eqb_neq _ _) Hng), Ha in H.
  apply bind_Ok in H as ([] & Hid & H). apply bind_Ok in H as (roles & Hmem & _).
  unfold _validate_tenant_identity in Hid. checks Hid. apply raise_if_Ok in Hid.
  unfold _validate_tenant_membership in Hmem. checks Hmem.
  repeat match goal with C : negb (py_eq _ _) = false |- _ => apply negb_false_eq in C end.
  split; [|done]. unfold authority_errors, membership_errors, fields_differ.
  destruct (dget "hostname" VNone authority) as [| | | | |h]; try done.
  destruct (dget "membership" VNone authority) as [| | | | |m]; try done.
  repeat match goal with C : Ok _ = Ok _ |- _ => injection C as <- end.
  repeat match goal with C : py_eq _ _ = true |- _ => rewrite C; clear C end. by rewrite Hid.
Qed.

(** The validators of the tenant rules, as the framework registers them. *)
Definition TENANT_VALIDATORS : odict RuntimeValidator :=
  [("tenant-profile-validator", TenantProfileValidator);
   ("no-cross-tenant-scope-validator", NoCrossTenantScopeValidator);
   ("no-cross-area-scope-validator", NoCrossAreaScopeValidator);
   ("knowledge-scope-validator", KnowledgeScopeValidator)].

Lemma tenant_validators_registered id :
  In id (od_keys TENANT_VALIDATORS) ->
  exists v, od_get id (framework_validators []) = Some v /\ In (id, v) TENANT_VALIDATORS.
Proof.
  intros [<-|[<-|[<-|[<-|[]]]]]; eexists; (split; [reflexivity|]); unfold TENANT_VALIDATORS; cbn [In]; tauto.
Qed.

Lemma assert_validation_passed_Ok outcomes :
  assert_validation_passed outcomes = Ok tt <-> forall o, In o outcomes -> outcome_status o <> "failed".
Proof.
  unfold assert_validation_passed. rewrite raise_if_Ok, nonempty_false. split.
  - intros E%map_eq_nil o Ho Hf.
    assert (Hin : In o (List.filter (fun o => String.eqb (outcome_status o) "failed") outcomes))
      by (apply filter_In; split; [done|by apply String.eqb_eq]). by rewrite E in Hin.
  - intros Hall. destruct (List.filter _ _) as [|o l] eqn:E; [done|].
    assert (Hin : In o (List.filter (fun o => String.eqb (outcome_status o) "failed") outcomes))
      by (rewrite E; by left).
    apply filter_In in Hin as [Hin Hf%String.eqb_eq]. by destruct (Hall o Hin).
Qed.

(** ** Properties *)

(** The runtime's own responses meet their contracts: the contract validator
    of a task type passes the response built for a profile exactly when it is
    the contract of the profile's task type; it never fails for any other
    reason, whatever the tools returned. *)
Theorem response_meets_contract id task_type run_id task_id profile context plan execution response :
  In (id, task_type) TASK_OUTPUT_VALIDATORS ->
  runtime_response run_id task_id profile context plan execution = Ok response ->
  exists o, RuntimeOutputContractValidator id task_type profile execution response = Ok o /\
    validator_id o = id /\
    (outcome_status o = "passed" <-> task_type = task_type_for_profile profile).
Proof.
  intros Hin H. unfold runtime_response in H.
  apply bind_Ok in H as (out & Hout & H). apply bind_Ok in H as (pid & _ & H).
  apply bind_Ok in H as (summary & _ & H). apply bind_Ok in H as (count & Hcount & [= <-]).
  destruct (runtime_output_shape _ _ _ _ _ Hout (task_type_supported profile))
    as (text & arts & details & -> & Hs & Hown & Hother).
  unfold RuntimeOutputContractValidator. rewrite Hcount. cbn [mbind result_bind].
  change (dget "runtime_output" VNone _)
    with (VDict (output_envelope (task_type_for_profile profile) text arts details)).
  rewrite envelope_errors by done. cbn [mbind result_bind mret result_ret].
  eexists. split; [reflexivity|]. split; [reflexivity|]. cbn [outcome_status].
  change (dget "tool_result_count" VNone _) with (VInt count). cbn [py_eq as_number]. rewrite Z.eqb_refl.
  change (_has_required_response _) with true. cbn [andb].
  assert (Hsup : In task_type SUPPORTED_RUNTIME_TASK_TYPES).
  { destruct Hin as [[= _ <-]|[[= _ <-]|[[= _ <-]|[[= _ <-]|[]]]]]; cbn; tauto. }
  split.
  - intros Hp. destruct (nonempty _) eqn:E; [discriminate Hp|].
    apply nonempty_false, nonempty_app_nil in E as [_ E]. by apply Hother.
  - intros ->. by rewrite String.eqb_refl, Hown.
Qed.

Definition demo_execution : odict value :=
  [("tool_results", VList [VDict [("tool_name", VStr "git-read"); ("status", VStr "succeeded");
                                  ("output_uri", VStr "hetzner://runtime/x.json")]])].
Definition demo_response_profile : odict value := [("id", VStr "profile-1"); ("task_type", VStr "code-review")].
Definition demo_response : odict value :=
  match runtime_response "run-1" "task-1" demo_response_profile [] [] demo_execution with
  | Ok r => r | Raise _ => []
  end.

Lemma response_meets_contract_witness :
  exists o, RuntimeOutputContractValidator "review-findings-contract" "code-review" demo_response_profile
      demo_execution demo_response = Ok o /\ outcome_status o = "passed".
Proof.
  destruct (response_meets_contract "review-findings-contract" "code-review" "run-1" "task-1"
    demo_response_profile [] [] demo_execution demo_response) as (o & H1 & _ & H2).
  - by left.
  - vm_compute. reflexivity.
  - exists o. split; [exact H1|]. apply H2. vm_compute. reflexivity.
Defined.

(** The validators agree with the enforcer: whatever profile the run-time
    check accepts, none of the four tenant validators fails it afterwards. (The
    two compare an area from opposite sides, so it must be a text.) *)
Theorem accepted_profile_validates p execution response id :
  validate_profile p = Ok tt ->
  (forall ctx, dget "tenant_context" VNone p = VDict ctx -> is_text (dget "area_id" VNone ctx) = true) ->
  In id (od_keys TENANT_VALIDATORS) ->
  exists o, run_validator (framework_validators []) p execution response (VStr id) = Ok o /\
    validator_id o = id /\ outcome_status o = "passed".
Proof.
  intros H Harea Hid.
  assert (HV : _validate_tenant_authority p = Ok tt) by (unfold validate_profile in H; checks H; done).
  unfold run_validator, py_str. clear H.
  destruct (tenant_validators_registered id Hid) as (v & -> & Hv). clear Hid.
  destruct (dget "tenant_context" VNone p) as [| | | | |ctx] eqn:Hctx;
    try (unfold _validate_tenant_authority in HV; rewrite Hctx in HV; discriminate HV).
  specialize (Harea ctx eq_refl).
  destruct (String.eqb_spec (py_str (dget "tenant_id" (VStr "") ctx)) GLOBAL_TENANT_ID) as [Hg|Hg].
  - assert (Hglob : py_eq (dget "tenant_id" VNone ctx) (VStr "global") = true)
      by (rewrite global_agrees; by apply String.eqb_eq).
    unfold _validate_tenant_authority in HV. rewrite Hctx in HV.
    rewrite (proj2 (String.eqb_eq _ _) Hg) in HV. apply raise_if_Ok, negb_false_iff in HV.
    destruct Hv as [[= <- <-]|[[= <- <-]|[[= <- <-]|[[= <- <-]|[]]]]];
      unfold TenantProfileValidator, NoCrossTenantScopeValidator, NoCrossAreaScopeValidator,
        KnowledgeScopeValidator, _validate_scopes_against_tenant_authority;
      rewrite Hctx, Hglob, ?HV; eexists; by split_and!.
  - assert (Hglob : py_eq (dget "tenant_id" VNone ctx) (VStr "global") = false)
      by (rewrite global_agrees; by apply String.eqb_neq).
    destruct (tenant_authority_sound p ctx Hctx Hg HV) as (authority & Ha & [_ _ _ _ _ (Hk & Hd & Hm) _]).
    destruct (accepted_errors p ctx authority Hctx Hg Ha HV) as [Herr Hareaeq].
    destruct Hv as [[= <- <-]|[[= <- <-]|[[= <- <-]|[[= <- <-]|[]]]]];
      unfold TenantProfileValidator, NoCrossTenantScopeValidator, NoCrossAreaScopeValidator,
        KnowledgeScopeValidator, _validate_scopes_against_tenant_authority, fields_differ;
      rewrite Hctx, Hglob, Ha; cbn [mapM ditem od_get authority_field_by_profile_field String.eqb
        Ascii.eqb Bool.eqb mbind result_bind mret result_ret mjoin list_join].
    + rewrite Herr. eexists. by split_and!.
    + rewrite !scope_error_nil by done. eexists. by split_and!.
    + destruct (dget "area_id" VNone ctx); try discriminate Harea.
      apply py_eq_str_r in Hareaeq as ->. cbn [py_eq]. rewrite String.eqb_refl. eexists. by split_and!.
    + rewrite !scope_error_nil by done. eexists. by split_and!.
Qed.

Lemma accepted_profile_validates_witness :
  exists o, run_validator (framework_validators []) demo_profile [] [] (VStr "tenant-profile-validator") = Ok o /\
    outcome_status o = "passed".
Proof.
  destruct (accepted_profile_validates demo_profile [] [] "tenant-profile-validator") as (o & H1 & _ & H2).
  - vm_compute. reflexivity.
  - intros ctx [= <-]. vm_compute. reflexivity.
  - by left.
  - exact (ex_intro _ o (conj H1 H2)).
Defined.

(** Validation is complete and fails closed: when the step's validation
    passes, every validator the profile names is registered and ran on this
    profile, execution and response without failing; a name nothing is
    registered under makes the validation fail. *)
Theorem validation_complete validators profile execution response outcomes :
  framework_validate validators profile execution response = Ok outcomes ->
  exists ids, py_iter (dget "validators" (VList []) profile) = Ok ids /\ length outcomes = length ids /\
    (assert_validation_passed outcomes = Ok tt <->
     forall id, In id ids -> exists v o, od_get (py_str id) validators = Some v /\
       v profile execution response = Ok o /\ In o outcomes /\ outcome_status o <> "failed").
Proof.
  unfold framework_validate. intros (ids & Hids & H)%bind_Ok. apply mapM_Ok in H as HF.
  exists ids. split; [done|]. split; [symmetry; by eapply Forall2_length|].
  rewrite assert_validation_passed_Ok. split.
  - intros Hall id Hid. destruct (Forall2_In_l _ _ _ _ HF Hid) as (o & Ho & Hrun).
    unfold run_validator in Hrun. destruct (od_get (py_str id) validators) as [v|].
    + exists v, o. auto.
    + injection Hrun as <-. by destruct (Hall _ Ho).
  - intros Hall o Ho. destruct (Forall2_In_r _ _ _ _ HF Ho) as (id & Hid & Hrun).
    destruct (Hall id Hid) as (v & o' & Hv & Ho' & _ & Hf). unfold run_validator in Hrun.
    rewrite Hv in Hrun. congruence.
Qed.

Lemma validation_complete_witness :
  exists outcomes, framework_validate (framework_validators []) demo_profile [] [] = Ok outcomes /\
  exists ids, py_iter (dget "validators" (VList []) demo_profile) = Ok ids /\ length outcomes = length ids.
Proof.
  destruct (framework_validate (framework_validators []) demo_profile [] []) as [outcomes|e] eqn:E;
    [|vm_compute in E; discriminate E].
  exists outcomes. split; [reflexivity|].
  destruct (validation_complete _ _ _ _ _ E) as (ids & H1 & H2 & _). exact (ex_intro _ ids (conj H1 H2)).
Defined.
