(* ===== verification/Host.v ===== *)
(** * The host of a run: outside services and the state they act on

    A run of the agent acts on the runtime world (store, artifact files, clock)
    and calls services that are not part of the repository's runtime: the tool
    adapters, the Control Plane, an optional error judge, the process clock.
    [Services] is the interface they are used through. [X] is whatever state
    they keep; a call may change it, may raise anything, and may answer
    anything its type allows. *)

From S2P Require Import Prelude PyStr PyValue Models Enforcement RuntimeStore Artifacts FlightRecorder.
Open Scope string_scope.
Open Scope list_scope.

Class Services (X : Type) := {
  (** [time.monotonic], in nanoseconds *)
  monotonic : X -> Z * X;
  (** [ToolAdapter.invoke], by tool name *)
  tool_adapters : odict (odict value -> eff X exn (odict value));
  (** [RetrievalContextClient.retrieval_context], when a client is configured *)
  retrieval_context : option (odict value -> eff X exn (odict value));
  (** [ControlPlaneClient.composition_context], when a client is configured *)
  composition_context : option (odict value -> eff X exn (odict value));
  (** [ErrorClassificationJudge.classify], when enabled and configured *)
  error_judge : option (odict value -> eff X exn value);
}.

(** The shared state, and the state of one run: its enforcer and the tool
    gateway's invocation counter are objects of that run only. *)
Record host (X : Type) := mkHost { h_world : world; h_ext : X }.
Arguments mkHost {X} _ _. Arguments h_world {X} _. Arguments h_ext {X} _.
Record run_state (X : Type) := mkRunState {
  r_world : world;
  r_ext : X;
  r_enforcer : enforcer;
  r_invocations : Z;
}.
Arguments mkRunState {X} _ _ _ _. Arguments r_world {X} _. Arguments r_ext {X} _.
Arguments r_enforcer {X} _. Arguments r_invocations {X} _.

Abbreviation hosted X A := (eff (host X) exn A).
Abbreviation run X A := (eff (run_state X) exn A).

Section host.
Context {X : Type}.

Definition on_world {A} (m : rt A) : run X A :=
  zoom r_world (fun w s => mkRunState w (r_ext s) (r_enforcer s) (r_invocations s)) m.
Definition on_enforcer {A} (m : enf A) : run X A :=
  zoom r_enforcer (fun e s => mkRunState (r_world s) (r_ext s) e (r_invocations s)) m.
Definition on_ext {A} (m : eff X exn A) : run X A :=
  zoom r_ext (fun x s => mkRunState (r_world s) x (r_enforcer s) (r_invocations s)) m.

Definition host_world {A} (m : rt A) : hosted X A := zoom h_world (fun w h => mkHost w (h_ext h)) m.
Definition host_ext {A} (m : eff X exn A) : hosted X A := zoom h_ext (fun x h => mkHost (h_world h) x) m.

(** A run with an enforcer of its own, which ends with it. *)
Definition with_enforcer {E A} (e : enforcer) (m : eff (run_state X) E A) : eff (host X) E A :=
  fun h => let '(r, s) := m (mkRunState (h_world h) (h_ext h) e 0) in
           (r, mkHost (r_world s) (r_ext s)).

Context `{!Services X}.

Definition read_monotonic : eff X exn Z := fun x => let '(t, x') := monotonic x in (Ok t, x').

(** An enforcer operation that reads the clock. *)
Definition timed {A} (m : Z -> enf A) : run X A :=
  now ← on_ext read_monotonic;
  on_enforcer (m now).
End host.

(** ** Relations on the host's parts, lifted to a run's state *)

Section lifted.
Context {X : Type}.

(** A run's operation neither lowers a counter nor passes a limit, and leaves
    the profile alone, when the enforcer's do. *)
Definition enforced (s s' : run_state X) : Prop := budget_step (r_enforcer s) (r_enforcer s').
Definition traced (s s' : run_state X) : Prop := log_step (r_world s) (r_world s').
Definition same_enforcer (s s' : run_state X) : Prop := r_enforcer s' = r_enforcer s.

#[export] Instance traced_preorder : PreOrder traced.
Proof. split; [intros s; apply log_step_preorder|intros a b c; unfold traced; apply log_step_preorder]. Qed.
#[export] Instance same_enforcer_preorder : PreOrder same_enforcer.
Proof. split; [done|]. unfold same_enforcer. intros a b c. congruence. Qed.
End lifted.
