(* ===== verification/Context.v ===== *)
(** * Retrieval context and tenant data sources

    Models [runtime/context.py] and [runtime/data_sources.py]: what a run may
    read. The context manager asks the Control Plane for records of the scopes
    the profile selects and refuses a response that goes beyond them; memory
    records are rendered as advice without authority. The connector hands out
    a tenant's data source only through a grant of one of its roles. *)

From S2P Require Import Prelude PyStr PyValue Models Enforcement RuntimeStore Artifacts FlightRecorder Host.
Open Scope string_scope.
Open Scope list_scope.

Definition MEMORY_RENDER_PROFILE : string := "procedural_memory_context_v1".
Definition MEMORY_INSTRUCTION_STATUS : string := "not_an_instruction".
Definition MEMORY_ALLOWED_EFFECTS : list string :=
  ["planner_hint"; "retrieval_ranking"; "composer_candidate_bias"].
Definition MEMORY_FORBIDDEN_EFFECTS : list string :=
  ["tool_grant"; "scope_grant"; "policy_override"; "validator_override"; "profile_mutation";
   "runtime_authority"].

(** ** The request *)

Definition _retrieval_principal (profile : odict value) : odict value :=
  match dget "auth_context" (VDict []) profile with
  | VDict auth_context =>
      match dget "roles" (VList []) auth_context with
      | VList (role :: _) => [("kind", VStr "role"); ("id", VStr (py_str role))]
      | _ =>
          match dget "principal" (VDict []) auth_context with
          | VDict principal =>
              let kind := if String.eqb (py_str (dget "type" (VStr "user") principal)) "service"
                          then "service" else "user" in
              [("kind", VStr kind); ("id", VStr (py_str (dget "id" (VStr "unknown-principal") principal)))]
          | _ => [("kind", VStr "user"); ("id", VStr "unknown-principal")]
          end
      end
  | _ => [("kind", VStr "user"); ("id", VStr "unknown-principal")]
  end.

Definition _module_id (scope_name : string) : string :=
  if startswith "mod-" scope_name then scope_name else "mod-" +:+ scope_name.

Definition _empty_retrieval_response (request : odict value) : res (odict value) :=
  contract_version ← ditem "contract_version" request;
  query ← ditem "query" request;
  mret
    [("contract_version", contract_version); ("retrieval_status", VStr "not_requested");
     ("query", query);
     ("vectorize", VDict
        [("status", VStr "d1_prefilter_ready"); ("knowledge_index", VStr "scas-knowledge-dev");
         ("memory_index", VStr "scas-memory-dev");
         ("bindings", VDict [("knowledge", VBool false); ("memory", VBool false)]);
         ("note", VStr "No Control Plane client was provided for retrieval.")]);
     ("allowed_knowledge_scope_ids", VList []); ("allowed_memory_scope_ids", VList []);
     ("knowledge_chunks", VList []); ("memory_records", VList []);
     ("vectorize_matches", VDict [("knowledge", VList []); ("memory", VList [])])].

(** ** The response *)

Definition _retrieval_metadata_error : exn :=
  pee "Retrieval response metadata does not match scoped Knowledge/Memory semantics."
    "retrieval_response_metadata_invalid".

(** [{str(scope) for scope in d.get(field, [])}] *)
Definition scope_ids (field : string) (d : odict value) : res (gset string) :=
  l ← py_iter (dget field (VList []) d); mret (list_to_set (map py_str l)).

Definition check_chunk (allowed : gset string) (chunk : value) : res unit :=
  match chunk with
  | VDict d =>
      raise_if (negb (bool_decide (py_str (dget "scope_id" VNone d) ∈ allowed))) _retrieval_metadata_error ;;
      raise_if (negb (py_eq (dget "record_kind" VNone d) (VStr "knowledge_record"))
                || negb (py_eq (dget "context_kind" VNone d) (VStr "factual_knowledge")))
        _retrieval_metadata_error
  | _ => Ok tt
  end.

Definition check_memory (allowed : gset string) (memory : value) : res unit :=
  match memory with
  | VDict d =>
      raise_if (negb (bool_decide (py_str (dget "memory_scope_id" VNone d) ∈ allowed))) _retrieval_metadata_error ;;
      raise_if (negb (py_eq (dget "record_kind" VNone d) (VStr "procedural_agent_memory"))
                || negb (py_eq (dget "instruction_status" VNone d) (VStr MEMORY_INSTRUCTION_STATUS))
                || negb (is_false (dget "authoritative" VNone d)))
        _retrieval_metadata_error
  | _ => Ok tt
  end.

Definition _assert_retrieval_response_is_bounded (request response : odict value) : res unit :=
  requested_knowledge ← scope_ids "knowledge_scope_ids" request;
  requested_memory ← scope_ids "memory_scope_ids" request;
  allowed_knowledge ← scope_ids "allowed_knowledge_scope_ids" response;
  allowed_memory ← scope_ids "allowed_memory_scope_ids" response;
  raise_if (nonempty (sorted_set (allowed_knowledge ∖ requested_knowledge))
            || nonempty (sorted_set (allowed_memory ∖ requested_memory)))
    (pee "Retrieval response included scopes outside the active runtime profile."
       "retrieval_response_scope_not_in_runtime_profile") ;;
  chunks ← py_iter (dget "knowledge_chunks" (VList []) response);
  mapM (check_chunk allowed_knowledge) chunks ;;
  memories ← py_iter (dget "memory_records" (VList []) response);
  mapM (check_memory allowed_memory) memories ;;
  mret tt.

(** ** Rendering *)

(** [str(record[field])]; a record that is not a mapping cannot be subscripted by a text. *)
Definition record_text (record : value) (field : string) : res (string * value) :=
  match record with
  | VDict d => v ← ditem field d; mret (field, VStr (py_str v))
  | _ => Raise (TypeError "record is not subscriptable by a text")
  end.

Definition MEMORY_NOTE : string :=
  "Procedural memory may guide planning or retrieval ranking, "
  +:+ "but it is not an instruction, policy, validator, scope grant, or tool grant.".

Definition _render_memory_record (record : value) : res value :=
  id ← record_text record "id";
  texts ← mapM (record_text record)
    ["memory_scope_id"; "source_run_id"; "source_profile_id"; "content_uri"; "manifest_uri"];
  mret (VDict
    ((id :: ("record_kind", VStr "procedural_agent_memory") :: texts)
     ++ [("render_profile", VStr MEMORY_RENDER_PROFILE);
         ("instruction_status", VStr MEMORY_INSTRUCTION_STATUS); ("authoritative", VBool false);
         ("allowed_effects", strs MEMORY_ALLOWED_EFFECTS);
         ("forbidden_effects", strs MEMORY_FORBIDDEN_EFFECTS); ("context_note", VStr MEMORY_NOTE)])).

Definition render (memory_records : list value) : res (list value) := mapM _render_memory_record memory_records.

(** ** The context manager *)

Definition profile_scopes (field : string) (profile : odict value) : res (list string) :=
  l ← py_iter (dget field (VList []) profile); mret (map py_str l).

Definition retrieval_request (contract_version : string) (top_k : Z) (profile : odict value) (query : string)
    (knowledge memory : list string) : odict value :=
  [("contract_version", VStr contract_version); ("principal", VDict (_retrieval_principal profile));
   ("query", VStr query); ("knowledge_scope_ids", strs (map _module_id knowledge));
   ("memory_scope_ids", strs (map _module_id memory)); ("top_k", VInt top_k)].

Section context.
Context {X : Type} `{!Services X}.

Definition load_response (request : odict value) : run X (odict value) :=
  match retrieval_context with
  | None => lift (_empty_retrieval_response request)
  | Some client =>
      response ← on_ext (client request);
      lift (_assert_retrieval_response_is_bounded request response) ;;
      mret response
  end.

Definition load (contract_version : string) (top_k : Z) (profile : odict value) (query : string)
    : run X (odict value) :=
  knowledge ← lift (profile_scopes "knowledge_scopes" profile);
  memory ← lift (profile_scopes "memory_scopes" profile);
  data ← lift (profile_scopes "data_scopes" profile);
  on_enforcer (require_knowledge_scopes knowledge) ;;
  on_enforcer (require_memory_scopes memory) ;;
  on_enforcer (require_data_scopes data) ;;
  let request := retrieval_request contract_version top_k profile query knowledge memory in
  response ← load_response request;
  let memory_records :=
    match dget "memory_records" (VList []) response with VList l => l | _ => [] end in
  rendered ← lift (render memory_records);
  id ← lift (ditem "id" profile);
  instructions ← lift (ditem "instructions" profile);
  mret
    [("profile_id", id); ("instructions", instructions); ("knowledge_scopes", strs knowledge);
     ("memory_scopes", strs memory); ("data_scopes", strs data);
     ("retrieval_request", VDict request); ("retrieval_response", VDict response);
     ("knowledge_chunks", dget "knowledge_chunks" (VList []) response);
     ("memory_records", VList memory_records); ("rendered_memory_records", VList rendered)].
End context.

(** ** Tenant data sources *)

Record TenantDataSourceHandle := mkHandle {
  data_source_id : string;
  handle_tenant_id : string;
  handle_access_mode : string;
  handle_status : string;
}.

(** [v in s] for a set of texts *)
Definition in_texts (v : value) (s : gset string) : res bool :=
  match v with
  | VStr x => Ok (bool_decide (x ∈ s))
  | VList _ => Raise (TypeError "unhashable type: 'list'")
  | VDict _ => Raise (TypeError "unhashable type: 'dict'")
  | _ => Ok false
  end.

Section connector.
Context (profile : odict value).
Definition tenant_context : odict value := mapping_of (dget "tenant_context" VNone profile).
Definition tenant_authority : odict value := mapping_of (dget "tenant_authority" VNone profile).

Definition _data_source (id : string) : res (odict value) :=
  match List.find (fun source => py_eq (dget "id" VNone source) (VStr id))
          (mappings (dget "data_sources" (VList []) tenant_authority)) with
  | Some source => Ok source
  | None => Raise (TenantDataSourceError "Data source is not present in tenant authority.")
  end.

Definition grant_modes (id : string) (modes : gset string) (grant : odict value) : gset string :=
  if py_eq (dget "data_source_id" VNone grant) (VStr id)
  then modes ∪ string_set (dget "access_modes" (VList []) grant) else modes.

Definition role_modes (id : string) (role_ids : gset string) (modes : gset string) (role : odict value)
    : res (gset string) :=
  active ← in_texts (dget "id" VNone role) role_ids;
  mret (if active : bool
        then foldl (grant_modes id) modes (mappings (dget "data_source_grants" (VList []) role))
        else modes).

Definition _granted_access_modes (id : string) : res (gset string) :=
  let role_ids := string_set (dget "role_ids" (VList []) tenant_context) in
  modes ← foldM (role_modes id role_ids) ∅ (mappings (dget "role_bundles" (VList []) tenant_authority));
  raise_if (bool_decide (modes = ∅))
    (TenantDataSourceError "Data source is not granted by selected roles.") ;;
  mret modes.

Definition connect (id access_mode : string) : res TenantDataSourceHandle :=
  let tenant_id := py_str (dget "tenant_id" (VStr "") tenant_context) in
  raise_if (String.eqb tenant_id "" || String.eqb tenant_id "global")
    (TenantDataSourceError "Tenant data sources require a tenant-scoped profile.") ;;
  raise_if (negb (bool_decide (id ∈ string_set (dget "allowed_role_data_sources" (VList []) tenant_context))))
    (TenantDataSourceError "Data source is not granted by the active tenant role.") ;;
  source ← _data_source id;
  raise_if (negb (py_eq (dget "tenant_id" VNone source) (VStr tenant_id)))
    (TenantDataSourceError "Data source crosses tenant boundary.") ;;
  available ← in_frozenset (dget "status" VNone source) ["planned"; "active"];
  raise_if (negb available) (TenantDataSourceError "Data source is not available.") ;;
  granted_modes ← _granted_access_modes id;
  raise_if (negb (bool_decide (access_mode ∈ granted_modes)))
    (TenantDataSourceError "Requested access mode is not granted by the tenant role.") ;;
  status ← ditem "status" source;
  mret (mkHandle id tenant_id access_mode (py_str status)).
End connector.

(** ** What a bounded response holds *)

Definition within (scopes : list string) (v : value) : Prop :=
  exists scope, In scope scopes /\ py_str v = _module_id scope.

Lemma scope_ids_strs field d l : dget field (VList []) d = strs l -> scope_ids field d = Ok (list_to_set l).
Proof. intros H. unfold scope_ids. rewrite H. unfold strs. cbn. by rewrite map_str_strs. Qed.

Lemma mapM_In {A B} (f : A -> res B) l r x : mapM f l = Ok r -> In x l -> exists y, f x = Ok y.
Proof. intros H%mapM_Ok Hx. destruct (Forall2_In_l _ _ _ _ H Hx) as (y & _ & ?). eauto. Qed.

Record bounded (knowledge memory : list string) (response : odict value) : Prop := {
  bd_chunks : forall l d, py_iter (dget "knowledge_chunks" (VList []) response) = Ok l -> In (VDict d) l ->
    within knowledge (dget "scope_id" VNone d) /\ dget "record_kind" VNone d = VStr "knowledge_record" /\
    dget "context_kind" VNone d = VStr "factual_knowledge";
  bd_memory : forall l d, py_iter (dget "memory_records" (VList []) response) = Ok l -> In (VDict d) l ->
    within memory (dget "memory_scope_id" VNone d) /\
    dget "record_kind" VNone d = VStr "procedural_agent_memory" /\
    dget "instruction_status" VNone d = VStr MEMORY_INSTRUCTION_STATUS /\
    dget "authoritative" VNone d = VBool false;
}.

Lemma allowed_within (allowed : gset string) scopes v :
  allowed ⊆ list_to_set (map _module_id scopes) -> py_str v ∈ allowed -> within scopes v.
Proof.
  intros H Hv%H. apply elem_of_list_to_set, list_elem_of_In, in_map_iff in Hv as (s & E & Hs).
  by exists s.
Qed.

Lemma response_bounded cv k p q knowledge memory response :
  _assert_retrieval_response_is_bounded (retrieval_request cv k p q knowledge memory) response = Ok tt ->
  bounded knowledge memory response.
Proof.
  unfold _assert_retrieval_response_is_bounded.
  rewrite (scope_ids_strs "knowledge_scope_ids" (retrieval_request _ _ _ _ _ _) (map _module_id knowledge)) by done.
  rewrite (scope_ids_strs "memory_scope_ids" (retrieval_request _ _ _ _ _ _) (map _module_id memory)) by done.
  cbn [mbind result_bind]. intros (ak & _ & H)%bind_Ok. apply bind_Ok in H as (am & _ & H).
  apply bind_Ok in H as ([] & Hsub & H). apply raise_if_Ok, orb_false_iff in Hsub as [Hk Hm].
  apply nonempty_false, sorted_set_subset_nil in Hk, Hm.
  apply bind_Ok in H as (chunks & Hc & H). apply bind_Ok in H as (us & Hus & H).
  apply bind_Ok in H as (mems & Hme & H). apply bind_Ok in H as (ms & Hms & _).
  constructor.
  - intros l d Hl Hd. rewrite Hl in Hc. injection Hc as ->.
    destruct (mapM_In _ _ _ _ Hus Hd) as ([] & Hx). unfold check_chunk in Hx.
    apply bind_Ok in Hx as ([] & H1%raise_if_Ok & H2%raise_if_Ok).
    apply negb_false_iff, bool_decide_eq_true in H1. apply orb_false_iff in H2 as [H2 H3].
    apply negb_false_iff, py_eq_str_r in H2, H3. split; [by eapply allowed_within|done].
  - intros l d Hl Hd. rewrite Hl in Hme. injection Hme as ->.
    destruct (mapM_In _ _ _ _ Hms Hd) as ([] & Hx). unfold check_memory in Hx.
    apply bind_Ok in Hx as ([] & H1%raise_if_Ok & H2%raise_if_Ok).
    apply negb_false_iff, bool_decide_eq_true in H1.
    apply orb_false_iff in H2 as [H2 H4]. apply orb_false_iff in H2 as [H2 H3].
    apply negb_false_iff, py_eq_str_r in H2, H3. apply is_false_inv in H4.
    split; [by eapply allowed_within|done].
Qed.

(** What a rendered memory record says about its authority. *)
Definition advice_only (v : value) : Prop :=
  exists d, v = VDict d /\ dget "authoritative" VNone d = VBool false /\
    dget "instruction_status" VNone d = VStr MEMORY_INSTRUCTION_STATUS /\
    dget "allowed_effects" VNone d = strs MEMORY_ALLOWED_EFFECTS /\
    dget "forbidden_effects" VNone d = strs MEMORY_FORBIDDEN_EFFECTS /\
    od_keys d = ["id"; "record_kind"; "memory_scope_id"; "source_run_id"; "source_profile_id";
      "content_uri"; "manifest_uri"; "render_profile"; "instruction_status"; "authoritative";
      "allowed_effects"; "forbidden_effects"; "context_note"].

(** Only objects are rendered. *)
Lemma rendered_object l rendered x :
  Forall2 (fun record v => _render_memory_record record = Ok v) l rendered -> In x l -> exists d, x = VDict d.
Proof.
  induction 1 as [|record v l rendered Hv _ IH]; [done|]. intros [<-|Hx]; [|by apply IH].
  destruct record; try done. eauto.
Qed.

Lemma rendered_advice record v : _render_memory_record record = Ok v -> advice_only v.
Proof.
  unfold _render_memory_record, record_text. destruct record; try done.
  intros (idt & Hid & H)%bind_Ok. apply bind_Ok in Hid as (i & _ & [= <-]).
  apply bind_Ok in H as (texts & Ht & [= <-]). apply mapM_Ok in Ht.
  repeat match goal with H : Forall2 _ (_ :: _) _ |- _ => inversion H; clear H; subst
                       | H : Forall2 _ [] _ |- _ => inversion H; clear H; subst end.
  repeat match goal with H : (ditem _ d ≫= _) = Ok _ |- _ => apply bind_Ok in H as (? & _ & [= <-]) end.
  eexists. split; [reflexivity|]. by split_and!.
Qed.

Section load.
Context {X : Type} `{!Services X}.

Lemma on_enforcer_pure {A} (f : enforcer -> res A) s r s' :
  on_enforcer (X := X) (fun e => (f e, e)) s = (r, s') -> s' = s /\ r = f (r_enforcer s).
Proof. unfold on_enforcer, zoom. intros [= <- <-]. by destruct s. Qed.

Lemma load_response_Ok request response (s s' : run_state X) :
  load_response request s = (Ok response, s') ->
  r_enforcer s' = r_enforcer s /\ r_world s' = r_world s /\ r_invocations s' = r_invocations s /\
  (_empty_retrieval_response request = Ok response \/
   _assert_retrieval_response_is_bounded request response = Ok tt).
Proof.
  unfold load_response. destruct retrieval_context as [client|].
  - intros H. apply eff_bind_Ok in H as (r & s1 & Hr & H).
    apply eff_bind_Ok in H as ([] & s2 & Hb & H). injection Hb as Hb <-. injection H as -> <-.
    unfold on_ext, zoom in Hr. destruct (client request (r_ext s)) as [a x]. injection Hr as _ <-. auto.
  - intros [= H <-]. auto.
Qed.

(** What a successful [load] went through. *)
Lemma load_Ok cv k p q (s s' : run_state X) ctx :
  load cv k p q s = (Ok ctx, s') ->
  r_enforcer s' = r_enforcer s /\ r_world s' = r_world s /\
  exists knowledge memory data response rendered,
    profile_scopes "knowledge_scopes" p = Ok knowledge /\ profile_scopes "memory_scopes" p = Ok memory /\
    _require_scopes knowledge (dget "knowledge_scopes" (VList []) (profile (r_enforcer s))) "knowledge" = Ok tt /\
    _require_scopes memory (dget "memory_scopes" (VList []) (profile (r_enforcer s))) "memory" = Ok tt /\
    _require_scopes data (dget "data_scopes" (VList []) (profile (r_enforcer s))) "data" = Ok tt /\
    (_empty_retrieval_response (retrieval_request cv k p q knowledge memory) = Ok response \/
     bounded knowledge memory response) /\
    dget "knowledge_chunks" VNone ctx = dget "knowledge_chunks" (VList []) response /\
    dget "retrieval_response" VNone ctx = VDict response /\
    dget "memory_records" VNone ctx
      = VList (match dget "memory_records" (VList []) response with VList l => l | _ => [] end) /\
    render (match dget "memory_records" (VList []) response with VList l => l | _ => [] end) = Ok rendered /\
    dget "rendered_memory_records" VNone ctx = VList rendered.
Proof.
  intros H. unfold load in H.
  apply eff_bind_Ok in H as (knowledge & s1 & Hk & H). injection Hk as Hk <-.
  apply eff_bind_Ok in H as (memory & s1 & Hm & H). injection Hm as Hm <-.
  apply eff_bind_Ok in H as (data & s1 & Hd & H). injection Hd as Hd <-.
  apply eff_bind_Ok in H as ([] & s1 & H1 & H). apply on_enforcer_pure in H1 as [-> H1].
  apply eff_bind_Ok in H as ([] & s1 & H2 & H). apply on_enforcer_pure in H2 as [-> H2].
  apply eff_bind_Ok in H as ([] & s1 & H3 & H). apply on_enforcer_pure in H3 as [-> H3].
  cbv zeta in H. apply eff_bind_Ok in H as (response & s1 & Hr & H).
  apply load_response_Ok in Hr as (He & Hw & _ & Hr).
  apply eff_bind_Ok in H as (rendered & s2 & Hren & H). injection Hren as Hren <-.
  apply eff_bind_Ok in H as (id & s2 & Hid & H). injection Hid as _ <-.
  apply eff_bind_Ok in H as (ins & s2 & Hins & H). injection Hins as _ <-. injection H as <- <-.
  split; [done|]. split; [done|]. exists knowledge, memory, data, response, rendered.
  split_and!; try done. destruct Hr as [Hr|Hr]; [by left|right]. by eapply response_bounded.
Qed.

Lemma empty_response_bounded request response knowledge memory :
  _empty_retrieval_response request = Ok response -> bounded knowledge memory response.
Proof.
  unfold _empty_retrieval_response. intros (cv & _ & H)%bind_Ok. apply bind_Ok in H as (q & _ & [= <-]).
  constructor; intros l d [= <-] [].
Qed.
End load.

(** ** Properties *)

(** C17. A run reads no further than its profile, as far as the entries of the
    context are objects. Whatever the Control Plane answers, in a context that
    loads each object among the knowledge chunks is a knowledge record of a
    scope the profile selects; each entry of the memory records is an object,
    of a memory scope the profile selects and marked non-authoritative, and is
    rendered as advice that is no instruction and grants nothing, with no other
    field than the fixed ones; and loading charges nothing and writes nothing. A
    knowledge chunk that is no object is not checked at all, see
    [untyped_chunk_passes]. *)
Theorem context_within_profile {X} `{!Services X} cv k p q (s s' : run_state X) ctx :
  load cv k p q s = (Ok ctx, s') ->
  r_enforcer s' = r_enforcer s /\ r_world s' = r_world s /\
  exists knowledge memory, profile_scopes "knowledge_scopes" p = Ok knowledge /\
    profile_scopes "memory_scopes" p = Ok memory /\
    (forall l d, py_iter (dget "knowledge_chunks" VNone ctx) = Ok l -> In (VDict d) l ->
       within knowledge (dget "scope_id" VNone d) /\
       dget "record_kind" VNone d = VStr "knowledge_record") /\
    exists l rendered, dget "memory_records" VNone ctx = VList l /\
      (forall x, In x l -> exists d, x = VDict d /\
         within memory (dget "memory_scope_id" VNone d) /\ dget "authoritative" VNone d = VBool false) /\
      dget "rendered_memory_records" VNone ctx = VList rendered /\
      Forall2 (fun record v => _render_memory_record record = Ok v /\ advice_only v) l rendered.
Proof.
  intros H. destruct (load_Ok _ _ _ _ _ _ _ H) as (He & Hw & knowledge & memory & data & response & rendered
    & Hk & Hm & _ & _ & _ & Hb & Ec & _ & Em & Hren & Er).
  assert (Hbd : bounded knowledge memory response)
    by (destruct Hb as [Hb|Hb]; [by eapply empty_response_bounded|done]).
  destruct Hbd as [Hbc Hbm].
  split; [done|]. split; [done|]. exists knowledge, memory. split; [done|]. split; [done|]. split_and!.
  - intros l d Hl Hd. rewrite Ec in Hl. by destruct (Hbc l d Hl Hd) as (? & ? & _).
  - eexists _, rendered. split; [exact Em|]. apply mapM_Ok in Hren. split; [|split; [done|]].
    { intros x Hx. destruct (rendered_object _ _ _ Hren Hx) as [d ->]. exists d. split; [done|].
      destruct (dget "memory_records" (VList []) response) as [| | | |l'|]; cbn [In] in Hx; try done.
      by destruct (Hbm l' d eq_refl Hx) as (? & _ & _ & ?). }
    eapply Forall2_impl; [exact Hren|]. intros r v Hv. split; [exact Hv|]. exact (rendered_advice r v Hv).
Qed.

(** A client that answers every request with one record of each kind. *)
Definition demo_chunk : odict value :=
  [("scope_id", VStr "mod-repo-docs"); ("record_kind", VStr "knowledge_record");
   ("context_kind", VStr "factual_knowledge")].
Definition demo_memory_record : odict value :=
  [("id", VStr "m1"); ("memory_scope_id", VStr "mod-team"); ("record_kind", VStr "procedural_agent_memory");
   ("instruction_status", VStr "not_an_instruction"); ("authoritative", VBool false);
   ("source_run_id", VStr "run-1"); ("source_profile_id", VStr "p1");
   ("content_uri", VStr "hetzner://runtime/m1"); ("manifest_uri", VStr "hetzner://runtime/m1.manifest")].
Definition demo_client (request : odict value) : eff unit exn (odict value) :=
  mret [("allowed_knowledge_scope_ids", strs ["mod-repo-docs"]); ("allowed_memory_scope_ids", strs ["mod-team"]);
        ("knowledge_chunks", VList [VDict demo_chunk]); ("memory_records", VList [VDict demo_memory_record])].
Definition client_services : Services unit := {|
  monotonic := fun x => (0%Z, x); tool_adapters := []; retrieval_context := Some demo_client;
  composition_context := None; error_judge := None |}.
Definition demo_context_profile : odict value :=
  [("id", VStr "p1"); ("instructions", strs []); ("knowledge_scopes", strs ["repo-docs"]);
   ("memory_scopes", strs ["mod-team"])].
Definition demo_run : run_state unit :=
  mkRunState (mkWorld empty_store ∅ 0) tt (mkEnforcer demo_context_profile 0 0 0 0 0 0) 0.
Definition demo_context : odict value :=
  match (load (Services0 := client_services) "0.1.0" 5 demo_context_profile "why?" demo_run).1 with
  | Ok c => c | Raise _ => []
  end.

Lemma context_within_profile_witness :
  exists knowledge, within knowledge (VStr "mod-repo-docs") /\
    profile_scopes "knowledge_scopes" demo_context_profile = Ok knowledge.
Proof.
  destruct (context_within_profile (Services0 := client_services) "0.1.0" 5 demo_context_profile "why?" demo_run demo_run
    demo_context) as (_ & _ & knowledge & memory & H1 & _ & H2 & _).
  - vm_compute. reflexivity.
  - exists knowledge. split; [|exact H1].
    destruct (H2 [VDict demo_chunk] demo_chunk) as [H3 _]; [vm_compute; reflexivity|by left|exact H3].
Defined.

(** A chunk that is no mapping is not looked at: it reaches the context unchecked. *)
Example untyped_chunk_passes :
  _assert_retrieval_response_is_bounded
    (retrieval_request "0.1.0" 5 demo_context_profile "why?" ["repo-docs"] [])
    [("knowledge_chunks", VList [VStr "text of another scope"])] = Ok tt.
Proof. vm_compute. reflexivity. Qed.

(** ** The connector *)

Lemma mappings_In v d : In d (mappings v) <-> exists l, v = VList l /\ In (VDict d) l.
Proof.
  unfold mappings. destruct v as [| | | |l|]; try (split; [intros []|by intros (? & ? & _)]).
  rewrite <- list_elem_of_In, list_elem_of_omap. setoid_rewrite list_elem_of_In. split.
  - intros (x & Hx & Hd). destruct x; try done. injection Hd as ->. eauto.
  - intros (l' & [= <-] & Hd). by exists (VDict d).
Qed.

(** A grant of an access mode to a data source. *)
Definition grants_mode (id mode : string) (role : odict value) : Prop :=
  exists grant, In grant (mappings (dget "data_source_grants" (VList []) role)) /\
    dget "data_source_id" VNone grant = VStr id /\ mode ∈ set_field "access_modes" grant.

Lemma grant_modes_fold id modes grants mode :
  mode ∈ foldl (grant_modes id) modes grants <->
  mode ∈ modes \/ exists grant, In grant grants /\ dget "data_source_id" VNone grant = VStr id /\
    mode ∈ set_field "access_modes" grant.
Proof.
  revert modes. induction grants as [|g grants IH]; intros modes; cbn [foldl In]; [naive_solver|].
  rewrite IH. unfold grant_modes. destruct (py_eq _ (VStr id)) eqn:E.
  - apply py_eq_str_r in E. rewrite elem_of_union. unfold set_field. naive_solver.
  - split; [naive_solver|]. intros [?|(grant & [<-|Hin] & Hid & Hm)]; [by left| |right; eauto].
    apply py_eq_str_r in Hid. congruence.
Qed.

Lemma granted_modes_fold id role_ids modes roles modes' mode :
  foldM (role_modes id role_ids) modes roles = Ok modes' ->
  (mode ∈ modes' <-> mode ∈ modes \/
     exists role rid, In role roles /\ dget "id" VNone role = VStr rid /\ rid ∈ role_ids /\ grants_mode id mode role).
Proof.
  revert modes. induction roles as [|role roles IH]; intros modes H; cbn [foldM] in H.
  - injection H as ->. cbn [In]. naive_solver.
  - apply bind_Ok in H as (m1 & H1 & H). rewrite (IH _ H). clear IH H.
    unfold role_modes in H1. apply bind_Ok in H1 as (active & Ha & [= <-]).
    assert (Hact : active = true <-> exists rid, dget "id" VNone role = VStr rid /\ rid ∈ role_ids).
    { destruct (dget "id" VNone role); injection Ha as <- || discriminate Ha;
        try (split; [done|by intros (? & ? & _)]).
      rewrite bool_decide_eq_true. naive_solver. }
    destruct active.
    + rewrite grant_modes_fold. destruct (proj1 Hact eq_refl) as (rid & Hrid & Hin). split.
      * intros [[?|Hg]|(r & ri & Hr & Hx)]; [by left| |].
        { right. exists role, rid. split; [by left|done]. }
        { right. exists r, ri. split; [by right|done]. }
      * intros [?|(r & ri & [<-|Hr] & ? & ? & Hg)]; [by left; left|by left; right|right; exists r, ri; done].
    + split.
      * intros [?|(r & ri & Hr & Hx)]; [by left|right; exists r, ri]. split; [by right|done].
      * intros [?|(r & ri & [<-|Hr] & ? & ? & Hg)]; [by left| |right; exists r, ri; done].
        assert (false = true) by (apply Hact; eauto). discriminate.
Qed.

(** A data source is only handed out through a role. A connection that is
    granted names a data source of the profile's own tenant, planned or active,
    listed for the tenant's roles, and some role bundle of the active roles has
    a grant for that very source with the mode asked for. *)
Theorem connect_authorized p id mode h :
  connect p id mode = Ok h ->
  data_source_id h = id /\ handle_access_mode h = mode /\ handle_tenant_id h <> "global" /\
  id ∈ set_field "allowed_role_data_sources" (tenant_context p) /\
  (exists source, In source (mappings (dget "data_sources" (VList []) (tenant_authority p))) /\
     dget "id" VNone source = VStr id /\ dget "tenant_id" VNone source = VStr (handle_tenant_id h) /\
     dget "status" VNone source = VStr (handle_status h) /\ In (handle_status h) ["planned"; "active"]) /\
  (exists role rid, In role (mappings (dget "role_bundles" (VList []) (tenant_authority p))) /\
     dget "id" VNone role = VStr rid /\ rid ∈ set_field "role_ids" (tenant_context p) /\
     grants_mode id mode role).
Proof.
  unfold connect. cbv zeta. intros ([] & H1 & H)%bind_Ok. apply bind_Ok in H as ([] & H2 & H).
  apply bind_Ok in H as (source & H3 & H). apply bind_Ok in H as ([] & H4 & H).
  apply bind_Ok in H as (available & H5 & H). apply bind_Ok in H as ([] & H6 & H).
  apply bind_Ok in H as (modes & H7 & H). apply bind_Ok in H as ([] & H8 & H).
  apply bind_Ok in H as (status & H9 & [= <-]).
  apply raise_if_Ok in H1, H2, H4, H6, H8. cbn [data_source_id handle_access_mode handle_tenant_id handle_status].
  apply orb_false_iff in H1 as [_ H1%String.eqb_neq]. apply negb_false_iff, bool_decide_eq_true in H2, H8.
  apply negb_false_iff in H6 as ->. apply in_frozenset_Ok in H5 as (st & Hst & Hin).
  apply negb_false_iff, py_eq_str_r in H4.
  unfold ditem in H9. unfold dget in Hst. destruct (od_get "status" source) as [v|] eqn:Es; [|done].
  injection H9 as ->. subst status. split_and!; try done.
  - unfold _data_source in H3. destruct (List.find _ _) as [source'|] eqn:Ef; [|done]. injection H3 as ->.
    apply List.find_some in Ef as [Hs Hid%py_eq_str_r]. exists source. cbn [py_str].
    split_and!; try done. unfold dget. by rewrite Es.
  - unfold _granted_access_modes in H7. cbv zeta in H7. apply bind_Ok in H7 as (m & Hm & H7).
    apply bind_Ok in H7 as ([] & _ & [= ->]).
    apply (granted_modes_fold _ _ _ _ _ mode Hm) in H8 as [[]%not_elem_of_empty|H8]. exact H8.
Qed.

Definition demo_source_profile : odict value :=
  [("tenant_context", VDict [("tenant_id", VStr "acme"); ("role_ids", strs ["analyst"]);
      ("allowed_role_data_sources", strs ["crm"])]);
   ("tenant_authority", VDict
      [("data_sources", VList [VDict [("id", VStr "crm"); ("tenant_id", VStr "acme"); ("status", VStr "active")]]);
       ("role_bundles", VList [VDict [("id", VStr "analyst"); ("data_source_grants",
          VList [VDict [("data_source_id", VStr "crm"); ("access_modes", strs ["read"])]])]])])].

Lemma connect_authorized_witness :
  connect demo_source_profile "crm" "read" = Ok (mkHandle "crm" "acme" "read" "active") /\
  exists role rid, In role (mappings (dget "role_bundles" (VList []) (tenant_authority demo_source_profile))) /\
    dget "id" VNone role = VStr rid /\ rid ∈ set_field "role_ids" (tenant_context demo_source_profile) /\
    grants_mode "crm" "read" role.
Proof.
  assert (E : connect demo_source_profile "crm" "read" = Ok (mkHandle "crm" "acme" "read" "active"))
    by (vm_compute; reflexivity).
  split; [exact E|]. destruct (connect_authorized _ _ _ _ E) as (_ & _ & _ & _ & _ & H). exact H.
Defined.

Example write_mode_refused :
  connect demo_source_profile "crm" "write"
  = Raise (TenantDataSourceError "Requested access mode is not granted by the tenant role.").
Proof. vm_compute. reflexivity. Qed.
