(* ===== verification/Failures.v ===== *)
(** * Failures: their classes, and the capability gaps they reveal

    Models [runtime/error_taxonomy.py] and [runtime/capability_gaps.py]. A
    failed run is classified by rules on its stop reason, code and message, and
    by an optional judge that may only refine what the rules are unsure of; a
    refused capability may be written down as a gap candidate, which is a
    record to review and never executable. *)

From S2P Require Import Prelude PyStr PyFloat PyValue Models Enforcement RuntimeStore Artifacts Clock FlightRecorder Host.
Open Scope string_scope.
Open Scope list_scope.

(** ** Classification *)

Record ErrorClassification := mkClassification {
  error_class : string;
  error_confidence : string;
  classification_source : string;
  error_evidence : odict value;
  runtime_playbook : string;
}.

Definition as_dict (c : ErrorClassification) : odict value :=
  [("error_class", VStr (error_class c)); ("error_confidence", VStr (error_confidence c));
   ("classification_source", VStr (classification_source c));
   ("error_evidence", VDict (error_evidence c)); ("runtime_playbook", VStr (runtime_playbook c))].

Definition RULE_SOURCE : string := "rule_based_runtime_v1".
Definition LLM_CLASSIFICATION_SOURCE : string := "llm_judge_v1".
Definition ERROR_CLASSES : list string :=
  ["F1_INEFFICIENCY_PATH"; "F2_INTERFACE_CONTRACT_BREAKDOWN"; "R8_POLICY_CONFLICT_CONTEXT_CONTAMINATION"; "NONE"].

Definition classify_runtime_failure (error : exn) (stop_reason : string) (error_code : option string)
    (tool_calls tokens_used : Z) : ErrorClassification :=
  let message := casefold (exn_message error) in
  let normalized_code := casefold (or_str error_code "") in
  let evidence (rest : odict value) : odict value :=
    [("stop_reason", VStr stop_reason); ("error_code", opt_str error_code);
     ("message", VStr (exn_message error))] ++ rest in
  if String.eqb stop_reason "policy_denied" || contains "policy" normalized_code then
    mkClassification "R8_POLICY_CONFLICT_CONTEXT_CONTAMINATION" "high" RULE_SOURCE
      (evidence [("signal", VStr "policy_denied_or_policy_gate")])
      "fail_closed_and_emit_policy_conflict_event_then_request_policy_or_prompt_cleanup"
  else if String.eqb stop_reason "validator_failed" || contains "contract" message
          || contains "schema" message || contains "validation" message then
    mkClassification "F2_INTERFACE_CONTRACT_BREAKDOWN" "medium" RULE_SOURCE
      (evidence [("signal", VStr "validator_or_contract_failure")])
      "normalize_interface_retry_once_then_fail_closed"
  else
    mkClassification "NONE" "low" RULE_SOURCE
      (evidence [("tool_calls", VInt tool_calls); ("tokens_used", VInt tokens_used)])
      "generic_runtime_error_path".

Definition three_quarters : float := ratio 3 4.

(** [max_tokens > 0 and tokens_used > int(max_tokens * 0.75)] *)
Definition token_signal (max_tokens tokens_used : Z) : res bool :=
  if (0 <? max_tokens)%Z then
    f ← int_to_float max_tokens;
    limit ← int_of_float (fmul f three_quarters);
    mret (limit <? tokens_used)%Z
  else mret false.

Definition list_length (v : value) : Z := match v with VList l => Z.of_nat (length l) | _ => 0%Z end.

Definition classify_runtime_success (plan execution : odict value) (tool_calls tokens_used : Z)
    (profile_limits : odict value) : res ErrorClassification :=
  let action_count := list_length (dget "actions" (VList []) plan) in
  let tool_result_count := list_length (dget "tool_results" (VList []) execution) in
  max_tokens ← py_int (dget "max_tokens" (VInt 0) profile_limits);
  tokens ← token_signal max_tokens tokens_used;
  let signals :=
    [(Z.max 2 (action_count * 2) <? tool_calls)%Z; (Z.max 2 (action_count * 2) <? tool_result_count)%Z; tokens] in
  if (2 <=? length (List.filter (fun b : bool => b) signals))%nat then
    mret (mkClassification "F1_INEFFICIENCY_PATH" "medium" RULE_SOURCE
      [("action_count", VInt action_count); ("tool_calls", VInt tool_calls);
       ("tool_result_count", VInt tool_result_count); ("tokens_used", VInt tokens_used);
       ("max_tokens", VInt max_tokens)] "optimize_plan_and_tool_selection_before_next_run")
  else
    mret (mkClassification "NONE" "high" RULE_SOURCE
      [("action_count", VInt action_count); ("tool_calls", VInt tool_calls);
       ("tokens_used", VInt tokens_used)] "no_action_required").

(** What is kept of the judge's answer. *)
Definition judged (base : ErrorClassification) (raw : value) : res ErrorClassification :=
  match raw with
  | VDict d =>
      match dget "error_class" VNone d with
      | VStr class =>
          if negb (str_in class ERROR_CLASSES) then mret base
          else
            confident ← in_frozenset (dget "error_confidence" VNone d) ["low"; "medium"; "high"];
            match confident, dget "error_confidence" VNone d, dget "runtime_playbook" VNone d with
            | true, VStr confidence, VStr playbook =>
                let evidence := match dget "error_evidence" VNone d with VDict e => e | _ => [] end in
                mret (mkClassification class confidence LLM_CLASSIFICATION_SOURCE
                        (od_set "llm_judge_evidence" (VDict evidence) (error_evidence base)) playbook)
            | _, _, _ => mret base
            end
      | _ => mret base
      end
  | _ => mret base
  end.

Section judge.
Context {X : Type} `{!Services X}.

Definition apply_optional_llm_judge (base : ErrorClassification) (context : odict value)
    : run X ErrorClassification :=
  match error_judge with
  | Some judge =>
      if String.eqb (error_confidence base) "low" then
        raw ← on_ext (judge [("base_classification", VDict (as_dict base)); ("context", VDict context)]);
        lift (judged base raw)
      else mret base
  | None => mret base
  end.
End judge.

(** ** Capability gaps *)

Definition ELIGIBLE_BLOCKING_PREDICATES : list string :=
  ["tool_not_in_runtime_profile"; "tool_risk_exceeds_profile"; "policy_not_in_runtime_profile";
   "data_scope_not_in_runtime_profile"; "knowledge_scope_not_in_runtime_profile";
   "memory_scope_not_in_runtime_profile"; "max_tool_calls_exceeded"; "max_tokens_exceeded";
   "max_data_reads_exceeded"; "max_memory_ops_exceeded"; "max_recompositions_exceeded";
   "validator_failed"; "selected_module_version_missing"; "module_version_mismatch"].
Definition EXCLUDED_BLOCKING_PREDICATES : list string :=
  ["secret_candidate"; "secret_scope_requested"; "unknown_tool"].
Definition GAP_STOP_REASONS : list string :=
  ["policy_denied"; "max_tokens"; "max_tool_calls"; "max_data_reads"; "max_memory_ops";
   "max_recompositions"; "validator_failed"].

Definition _is_eligible_denial (blocking_predicate kind capability_id : string) (known : list string)
    (sensitivity : string) : bool :=
  if String.eqb sensitivity "secret" then false
  else if str_in blocking_predicate EXCLUDED_BLOCKING_PREDICATES then false
  else if negb (str_in blocking_predicate ELIGIBLE_BLOCKING_PREDICATES) then false
  else if String.eqb kind "tool" then str_in capability_id (map (fun id => slug_id id None) known)
  else true.

Definition _capability_kind_for_predicate (predicate : string) : string :=
  if startswith "max_" predicate then "budget"
  else if startswith "policy_" predicate then "policy"
  else if startswith "data_scope_" predicate then "data_scope"
  else if startswith "knowledge_scope_" predicate then "knowledge_scope"
  else if startswith "memory_scope_" predicate then "memory_scope"
  else if contains "validator" predicate then "validator"
  else if contains "module_version" predicate || String.eqb predicate "selected_module_version_missing"
  then "module_version"
  else "tool".

Definition _capability_id_for_predicate (predicate requested_tool : string) : string :=
  if startswith "max_" predicate then removesuffix "_exceeded" predicate else requested_tool.

Definition GAP_FIELDS : list string :=
  ["contract_version"; "candidate_kind"; "id"; "source_run_id"; "source_profile_id"; "source_step_id";
   "blocking_predicate"; "requested_capability"; "stop_reason"; "evidence_uris"; "learning_status";
   "executable"].

Definition gap_error (b : bool) (msg : string) : res unit := raise_if b (CapabilityGapCandidateError msg).

Definition validate_capability_gap_candidate (candidate : odict value) : res unit :=
  let missing := sorted_strs (List.filter (fun field => negb (od_mem field candidate)) GAP_FIELDS) in
  gap_error (nonempty missing) ("missing fields: " +:+ join ", " missing) ;;
  contract_version ← ditem "contract_version" candidate;
  gap_error (negb (py_eq contract_version (VStr "0.1.0"))) "contract_version must be 0.1.0" ;;
  candidate_kind ← ditem "candidate_kind" candidate;
  gap_error (negb (py_eq candidate_kind (VStr "capability_gap_candidate")))
    "candidate_kind must be capability_gap_candidate" ;;
  predicate ← ditem "blocking_predicate" candidate;
  eligible ← in_frozenset predicate ELIGIBLE_BLOCKING_PREDICATES;
  gap_error (negb eligible) "blocking_predicate is not eligible" ;;
  stop_reason ← ditem "stop_reason" candidate;
  known_reason ← in_frozenset stop_reason GAP_STOP_REASONS;
  gap_error (negb known_reason) "stop_reason is not eligible" ;;
  requested ← ditem "requested_capability" candidate;
  capability ← (match requested with
                | VDict d => Ok d
                | _ => Raise (CapabilityGapCandidateError "requested_capability must be an object")
                end);
  gap_error (negb (truthy (dget "kind" VNone capability)) || negb (truthy (dget "id" VNone capability)))
    "requested_capability requires kind and id" ;;
  learning_status ← ditem "learning_status" candidate;
  gap_error (negb (py_eq learning_status (VStr "review_required"))) "learning_status must be review_required" ;;
  executable ← ditem "executable" candidate;
  gap_error (negb (is_false executable)) "capability gap candidates must be non-executable" ;;
  evidence ← ditem "evidence_uris" candidate;
  gap_error (negb (is_list evidence) || negb (truthy evidence)) "evidence_uris must be non-empty".

(** The keyword arguments of a gap candidate. *)
Record gap_request := mkGapRequest {
  gap_run_id : string;
  gap_profile_id : string;
  gap_step_id : string;
  gap_predicate : string;
  gap_kind : string;
  gap_capability_id : string;
  gap_stop_reason : string;
  gap_evidence : list string;
  gap_known_ids : list string;
  gap_sensitivity : string;
}.

Definition gap_candidate (g : gap_request) : odict value :=
  let capability_id := slug_id (gap_capability_id g) None in
  [("contract_version", VStr "0.1.0"); ("candidate_kind", VStr "capability_gap_candidate");
   ("id", VStr (slug_id (gap_run_id g +:+ "-" +:+ gap_step_id g +:+ "-" +:+ gap_predicate g +:+ "-"
                         +:+ capability_id) (Some "cgc")));
   ("source_run_id", VStr (slug_id (gap_run_id g) None));
   ("source_profile_id", VStr (slug_id (gap_profile_id g) None));
   ("source_step_id", VStr (slug_id (gap_step_id g) None));
   ("blocking_predicate", VStr (gap_predicate g));
   ("requested_capability", VDict [("kind", VStr (gap_kind g)); ("id", VStr capability_id)]);
   ("stop_reason", VStr (gap_stop_reason g));
   ("evidence_uris", strs (sorted_set (list_to_set
      (List.filter (fun uri => negb (String.eqb uri "")) (gap_evidence g)))));
   ("learning_status", VStr "review_required"); ("executable", VBool false)].

Definition build_capability_gap_candidate (g : gap_request) : res (option (odict value)) :=
  if _is_eligible_denial (gap_predicate g) (gap_kind g) (slug_id (gap_capability_id g) None)
       (gap_known_ids g) (gap_sensitivity g)
  then
    let candidate := gap_candidate g in
    validate_capability_gap_candidate candidate ;;
    mret (Some candidate)
  else mret None.

Record CapabilityGapCaptureResult := mkCaptureResult {
  captured_candidate : option (odict value);
  artifact_uri : option string;
  skipped_reason : option string;
}.
Definition captured (r : CapabilityGapCaptureResult) : bool :=
  match captured_candidate r, artifact_uri r with Some _, Some _ => true | _, _ => false end.

Section capture.
Context (artifacts : JsonArtifactStore).

Definition capture_capability_gap_candidate (g : gap_request) : art CapabilityGapCaptureResult :=
  built ← lift (build_capability_gap_candidate g);
  match built with
  | None => mret (mkCaptureResult None None (Some "denial is not eligible for capability-gap learning"))
  | Some candidate =>
      id ← lift (ditem "id" candidate);
      uri ← write_json artifacts
        ["artifacts"; gap_run_id g; "capability-gap-candidates"; py_str id] (VDict candidate) true;
      mret (mkCaptureResult (Some candidate) (Some uri) None)
  end.

(** [error.code] and [error.stop_reason] of a [ProfileEnforcementError] *)
Definition capability_gap_from_enforcement_error (run_id : string) (profile : odict value)
    (source_step_id requested_tool code stop_reason : string) (evidence_uris known_tool_ids : list string)
    : art CapabilityGapCaptureResult :=
  capture_capability_gap_candidate
    (mkGapRequest run_id (py_str (dget "id" (VStr "unknown-profile") profile)) source_step_id code
       (_capability_kind_for_predicate code) (_capability_id_for_predicate code requested_tool)
       stop_reason evidence_uris known_tool_ids "internal").
End capture.

(** ** The candidate a request gives *)

Lemma slug_id_nonempty s : String.eqb (slug_id s None) "" = false.
Proof.
  apply String.eqb_neq. intros E. destruct (slug_name_chars _ (slug_name_slug_id s)) as (c & l & H & _).
  by rewrite E in H.
Qed.

Lemma sorted_set_empty_filter (l : list string) :
  sorted_set (list_to_set (List.filter (fun uri => negb (String.eqb uri "")) l)) = [] <->
  forall uri, In uri l -> uri = "".
Proof.
  rewrite sorted_set_nil. split.
  - intros E uri Hin. destruct (String.eqb_spec uri "") as [->|Hne]; [done|].
    assert (Hel : uri ∈ (∅ : gset string)); [rewrite <- E|set_solver].
    apply elem_of_list_to_set, list_elem_of_In, filter_In. split; [done|].
    by apply negb_true_iff, String.eqb_neq.
  - intros H. apply set_eq. intros x. rewrite elem_of_list_to_set, list_elem_of_In, filter_In.
    split; [|set_solver]. intros [Hx Hne]. rewrite (H x Hx) in Hne. discriminate Hne.
Qed.

(** The checks a built candidate can still fail. *)
Lemma validate_gap_candidate_eq g :
  In (gap_predicate g) ELIGIBLE_BLOCKING_PREDICATES -> gap_kind g <> "" ->
  validate_capability_gap_candidate (gap_candidate g) =
  (gap_error (negb (str_in (gap_stop_reason g) GAP_STOP_REASONS)) "stop_reason is not eligible" ;;
   gap_error (negb (nonempty (sorted_set (list_to_set (C := gset string)
      (List.filter (fun uri => negb (String.eqb uri "")) (gap_evidence g)))))) "evidence_uris must be non-empty").
Proof.
  intros Hp Hk. unfold validate_capability_gap_candidate. cbv zeta.
  change (nonempty (sorted_strs _)) with false. cbn [gap_error raise_if mbind result_bind].
  unfold gap_candidate. cbv zeta. unfold ditem.
  cbn [od_get String.eqb Ascii.eqb Bool.eqb mbind result_bind].
  change (py_eq (VStr "0.1.0") (VStr "0.1.0")) with true.
  change (py_eq (VStr "capability_gap_candidate") (VStr "capability_gap_candidate")) with true.
  change (py_eq (VStr "review_required") (VStr "review_required")) with true.
  unfold in_frozenset. rewrite (proj2 (str_in_In _ _) Hp).
  cbn [gap_error raise_if negb mbind result_bind].
  destruct (str_in (gap_stop_reason g) GAP_STOP_REASONS); [|done].
  cbn [gap_error raise_if negb mbind result_bind].
  unfold dget. cbn [od_get String.eqb Ascii.eqb Bool.eqb]. cbn [truthy].
  rewrite slug_id_nonempty, (proj2 (String.eqb_neq (gap_kind g) "")) by done.
  cbn [negb orb gap_error raise_if mbind result_bind is_false is_list].
  unfold strs. cbn [truthy is_list negb orb]. by destruct (sorted_set _).
Qed.

Lemma kind_nonempty predicate : _capability_kind_for_predicate predicate <> "".
Proof. unfold _capability_kind_for_predicate. by split_ifs. Qed.

Lemma od_get_set_other {V} k k' (v : V) d w : od_get k d = Some w -> k <> k' -> od_get k (od_set k' v d) = Some w.
Proof. intros H Hne. by rewrite od_get_set_ne. Qed.

(** ** Properties *)

(** Gap candidates: a denial that is secret, excluded or not listed, or that
    names a tool the gateway does not know, is skipped; any other denial gives
    the candidate when its stop reason is one that can be learnt from and some
    evidence is named, and an error otherwise. A candidate is for review and
    never executable, and asks for a slug of the capability it was made for. *)
Theorem gap_candidate_correct g :
  gap_kind g <> "" ->
  let eligible := _is_eligible_denial (gap_predicate g) (gap_kind g) (slug_id (gap_capability_id g) None)
                    (gap_known_ids g) (gap_sensitivity g) in
  (eligible = false -> build_capability_gap_candidate g = Ok None) /\
  (eligible = true -> ~ In (gap_stop_reason g) GAP_STOP_REASONS ->
     build_capability_gap_candidate g = Raise (CapabilityGapCandidateError "stop_reason is not eligible")) /\
  (eligible = true -> In (gap_stop_reason g) GAP_STOP_REASONS -> (forall uri, In uri (gap_evidence g) -> uri = "") ->
     build_capability_gap_candidate g = Raise (CapabilityGapCandidateError "evidence_uris must be non-empty")) /\
  (eligible = true -> In (gap_stop_reason g) GAP_STOP_REASONS -> (exists uri, In uri (gap_evidence g) /\ uri <> "") ->
     exists c, build_capability_gap_candidate g = Ok (Some c) /\
       dget "executable" VNone c = VBool false /\ dget "learning_status" VNone c = VStr "review_required" /\
       dget "blocking_predicate" VNone c = VStr (gap_predicate g) /\
       dget "requested_capability" VNone c
         = VDict [("kind", VStr (gap_kind g)); ("id", VStr (slug_id (gap_capability_id g) None))] /\
       (gap_kind g = "tool" ->
          exists known, In known (gap_known_ids g) /\ slug_id known None = slug_id (gap_capability_id g) None)).
Proof.
  intros Hk eligible.
  assert (Hval : eligible = true -> build_capability_gap_candidate g
    = (validate_capability_gap_candidate (gap_candidate g) ;; mret (Some (gap_candidate g)))).
  { intros E. unfold build_capability_gap_candidate. fold eligible. by rewrite E. }
  assert (Hp : eligible = true -> In (gap_predicate g) ELIGIBLE_BLOCKING_PREDICATES).
  { unfold eligible, _is_eligible_denial. split_ifs; try discriminate;
      intros _; apply str_in_In; by apply negb_false_iff. }
  split_and!.
  - intros E. unfold build_capability_gap_candidate. fold eligible. by rewrite E.
  - intros E Hs%str_in_false. by rewrite Hval, validate_gap_candidate_eq, Hs by auto.
  - intros E Hs%str_in_In Hev%sorted_set_empty_filter.
    by rewrite Hval, validate_gap_candidate_eq, Hs, Hev by auto.
  - intros E Hs%str_in_In (uri & Hin & Hne). exists (gap_candidate g).
    rewrite Hval, validate_gap_candidate_eq, Hs by auto. split_and!; try done.
    + destruct (sorted_set _) eqn:Ev; [|done].
      destruct Hne. by apply (proj1 (sorted_set_empty_filter (gap_evidence g)) Ev).
    + intros Htool. unfold eligible, _is_eligible_denial in E. rewrite Htool in E.
      change (String.eqb "tool" "tool") with true in E. revert E.
      split_ifs; try discriminate. intros E. apply str_in_In, in_map_iff in E as (known & Ek & Hknown).
      by exists known.
Qed.

Definition demo_gap : gap_request :=
  mkGapRequest "run-1" "profile-1" "step-1" "tool_not_in_runtime_profile" "tool" "Git Read"
    "policy_denied" ["hetzner://runtime/events/x.json"] ["git-read"] "internal".

Lemma gap_candidate_correct_witness :
  exists c, build_capability_gap_candidate demo_gap = Ok (Some c) /\ dget "executable" VNone c = VBool false.
Proof.
  destruct (gap_candidate_correct demo_gap) as (_ & _ & _ & H); [discriminate|].
  destruct H as (c & H1 & H2 & _).
  - vm_compute. reflexivity.
  - by left.
  - exists "hetzner://runtime/events/x.json". split; [by left|discriminate].
  - exact (ex_intro _ c (conj H1 H2)).
Defined.

(** The judge only refines: it is asked only about a classification of low
    confidence, and its answer is kept only when it names a known class and
    confidence; then the evidence of the rules is kept under it and the source
    says where it came from. Any other answer leaves the rules' result. *)
Theorem judge_only_refines {X} `{!Services X} base context (s s' : run_state X) c :
  apply_optional_llm_judge base context s = (Ok c, s') ->
  (error_confidence base <> "low" -> c = base /\ s' = s) /\
  (c = base \/
   (classification_source c = LLM_CLASSIFICATION_SOURCE /\ In (error_class c) ERROR_CLASSES /\
    In (error_confidence c) ["low"; "medium"; "high"] /\
    forall k v, k <> "llm_judge_evidence" -> od_get k (error_evidence base) = Some v ->
      od_get k (error_evidence c) = Some v)).
Proof.
  unfold apply_optional_llm_judge. destruct error_judge as [judge|]; [|intros [= <- <-]; auto].
  destruct (String.eqb_spec (error_confidence base) "low") as [Hlow|Hlow]; [|intros [= <- <-]; auto].
  intros H. split; [done|]. apply eff_bind_Ok in H as (raw & s1 & _ & H). injection H as H _.
  unfold judged in H. destruct raw as [| | | | |d]; try (injection H as <-; by left).
  destruct (dget "error_class" VNone d) as [| | |class| |]; try (injection H as <-; by left).
  destruct (str_in class ERROR_CLASSES) eqn:Ec; [|injection H as <-; by left]. cbn [negb] in H.
  apply bind_Ok in H as (confident & Hconf & H). destruct confident; [|injection H as <-; by left].
  apply in_frozenset_Ok in Hconf as (confidence & Hcv & Hin). rewrite Hcv in H.
  destruct (dget "runtime_playbook" VNone d); try (injection H as <-; by left).
  injection H as <-. right. split; [done|]. split; [by apply str_in_In|]. split; [done|].
  intros k v Hne Hk. by apply od_get_set_other.
Qed.

Definition judging_services : Services unit := {|
  monotonic := fun x => (0%Z, x); tool_adapters := []; retrieval_context := None;
  composition_context := None;
  error_judge := Some (fun _ => mret (VDict
    [("error_class", VStr "F1_INEFFICIENCY_PATH"); ("error_confidence", VStr "medium");
     ("runtime_playbook", VStr "optimize")])) |}.
Definition judged_state : run_state unit :=
  mkRunState (mkWorld empty_store ∅ 0) tt (mkEnforcer [] 0 0 0 0 0 0) 0.
Definition unsure : ErrorClassification :=
  classify_runtime_failure (OSError "disk full") "tool_error" None 1 0.
Definition judged_class : ErrorClassification :=
  match (apply_optional_llm_judge (Services0 := judging_services) unsure [] judged_state).1 with
  | Ok c => c | Raise _ => unsure
  end.

Lemma judge_only_refines_witness :
  error_class judged_class = "F1_INEFFICIENCY_PATH" /\
  od_get "message" (error_evidence judged_class) = Some (VStr "disk full").
Proof.
  split; [vm_compute; reflexivity|].
  destruct (judge_only_refines (Services0 := judging_services) unsure [] judged_state judged_state judged_class)
    as [_ [H|(_ & _ & _ & H)]].
  - vm_compute. reflexivity.
  - vm_compute in H. discriminate H.
  - apply H; [discriminate|vm_compute; reflexivity].
Defined.
