(* ===== verification/ToolGateway.v ===== *)
(** * The tool gateway

    Models [runtime/tool_gateway.py]. Every tool call of a run goes through
    [invoke]: the enforcer admits or refuses it, a refusal is written down and
    becomes a [ToolDeniedError], an admitted call runs the tool's adapter
    between two events and two artifacts, and a hook then reads back what was
    written and fails the call when the trail does not match it. *)

From S2P Require Import Prelude PyStr PyValue Models Enforcement RuntimeStore Artifacts Clock FlightRecorder SkillHandlers Host Failures.
Open Scope string_scope.
Open Scope list_scope.

Record ToolInvocationResult := mkToolResult {
  tr_id : string;
  tr_tool_name : string;
  tr_status : string;
  tr_input_uri : string;
  tr_output_uri : string;
  tr_output : odict value;
}.

(** The attributes of a gateway that do not change. *)
Record gateway := mkGateway {
  gw_profile : odict value;
  gw_run_id : string;
  gw_step_id : string;
  gw_redact : bool;
}.

(** [_check_mapping_field]: the violation a mapping's field gives, if any. *)
Definition _check_mapping_field (payload : value) (field : string) (expected : value) (violation : string)
    : list string :=
  match payload with
  | VDict d => if py_eq (dget field VNone d) expected then [] else [violation]
  | _ => []
  end.

Definition violation_if (b : bool) (violation : string) : list string := if b then [violation] else [].

Section gateway.
Context {X : Type} `{!Services X}.
Context (artifacts : JsonArtifactStore) (clock : nat -> datetime) (json_loads : string -> res value).
Context (g : gateway).

Definition write_artifact (parts : list string) (payload : value) : run X string :=
  on_world (on_files (write_json artifacts parts payload (gw_redact g))).

Definition gateway_event (event_type actor : string) (planned exec result : value) (stop : option string)
    : run X record :=
  on_world (record_event artifacts clock (gw_run_id g) event_type actor
    (mkEventArgs (Some (gw_step_id g)) planned exec result stop None (gw_redact g))).

(** ** Refused calls *)

Definition _record_denied_access (tool_name : string) (payload : odict value) (code stop_reason : string)
    : run X unit :=
  let evidence_uri := uri_for artifacts
    ["events"; gw_run_id g; gw_step_id g +:+ "-" +:+ tool_name +:+ "-access-denied"] in
  gap ← on_world (on_files (capability_gap_from_enforcement_error artifacts (gw_run_id g) (gw_profile g)
          (gw_step_id g) tool_name code stop_reason [evidence_uri] (od_keys tool_adapters)));
  let result := [("effect", VStr "deny"); ("reason", VStr code)]
    ++ (if captured gap then [("capability_gap_candidate_uri", opt_str (artifact_uri gap))] else []) in
  gateway_event "access_attempted" "policy_engine"
    (VDict [("tool_name", VStr tool_name); ("payload", VDict payload)]) VNone (VDict result)
    (Some stop_reason) ;;
  mret tt.

Definition check_admission (tool_name : string) (payload : odict value) : run X unit :=
  catch
    (timed (record_tool_invocation tool_name (tool_required_data_scopes tool_name)
              (tool_required_policies tool_name) (tool_risk_level tool_name)))
    (fun error =>
       match error with
       | ProfileEnforcementError msg stop_reason code =>
           _record_denied_access tool_name payload code stop_reason ;;
           throw (ToolDeniedError msg stop_reason)
       | _ => throw error
       end).

(** ** The hook that reads the trail back *)

(** A read artifact, the violations found and the evidence added on the way. *)
Definition _read_hook_artifact (uri : value) (label : string)
    : run X (value * list string * odict value) :=
  match uri with
  | VStr u =>
      if String.eqb u "" then mret (VNone, [label +:+ "_artifact_missing"], [])
      else
        r ← try_ (on_world (on_files (read_json artifacts json_loads u)));
        mret (match r with
              | Ok v => (v, [], [])
              | Raise e => (VNone, [label +:+ "_artifact_unreadable"],
                            [(label +:+ "_artifact_error", VStr (exn_name e))])
              end)
  | _ => mret (VNone, [label +:+ "_artifact_missing"], [])
  end.

Definition expected_invocation (tool_name status input_uri output_uri : string) : odict value :=
  [("run_id", VStr (gw_run_id g)); ("step_id", VStr (gw_step_id g)); ("tool_name", VStr tool_name);
   ("status", VStr status); ("input_uri", VStr input_uri); ("output_uri", VStr output_uri)].

Definition hook_violations (tool_name status input_uri output_uri : string)
    (invocation completed : record) (input output exec result : value) : list string :=
  _check_mapping_field input "tool_name" (VStr tool_name) "input_artifact_tool_mismatch"
  ++ _check_mapping_field output "tool_name" (VStr tool_name) "output_artifact_tool_mismatch"
  ++ _check_mapping_field output "status" (VStr status) "output_artifact_status_mismatch"
  ++ match output with
     | VDict d => violation_if (negb (od_mem "output" d)) "output_artifact_payload_missing"
     | _ => []
     end
  ++ mjoin (map (fun '(field, expected) =>
       violation_if (negb (py_eq (dget field VNone invocation) expected))
         ("tool_invocation_" +:+ field +:+ "_mismatch"))
       (expected_invocation tool_name status input_uri output_uri))
  ++ violation_if (negb (py_eq (dget "event_type" VNone completed) (VStr "tool_invocation_completed")))
       "audit_event_type_mismatch"
  ++ violation_if (negb (py_eq (dget "actor_role" VNone completed) (VStr "executor"))) "audit_event_actor_mismatch"
  ++ violation_if (negb (py_eq (dget "step_id" VNone completed) (VStr (gw_step_id g)))) "audit_event_step_mismatch"
  ++ _check_mapping_field exec "tool_invocation_id" (dget "id" VNone invocation) "audit_event_invocation_mismatch"
  ++ _check_mapping_field exec "status" (VStr status) "audit_event_status_mismatch"
  ++ _check_mapping_field result "tool_name" (VStr tool_name) "audit_event_tool_mismatch"
  ++ _check_mapping_field result "output_uri" (VStr output_uri) "audit_event_output_uri_mismatch".

Definition any_startswith (p : string) (l : list string) : bool := existsb (startswith p) l.

Definition _evaluate_runtime_after_tool_hook (tool_name status input_uri output_uri : string)
    (invocation completed : record) : run X unit :=
  i ← _read_hook_artifact (VStr input_uri) "input";
  o ← _read_hook_artifact (VStr output_uri) "output";
  e ← _read_hook_artifact (dget "execution_uri" VNone completed) "completed_event_execution";
  r ← _read_hook_artifact (dget "result_uri" VNone completed) "completed_event_result";
  let violations := i.1.2 ++ o.1.2 ++ e.1.2 ++ r.1.2
    ++ hook_violations tool_name status input_uri output_uri invocation completed i.1.1 o.1.1 e.1.1 r.1.1 in
  let evidence := od_update
    [("hook_id", VStr "runtime-after-tool"); ("tool_id", VStr tool_name);
     ("tool_invocation_id", dget "id" VNone invocation); ("tool_invocation_status", VStr status);
     ("artifact_reference", VStr output_uri); ("audit_event_id", dget "id" VNone completed);
     ("redaction_status", VStr (if gw_redact g then "applied" else "not_required")); ("checks", VDict [])]
    (i.2 ++ o.2 ++ e.2 ++ r.2 ++
     [("checks", VDict
        [("input_artifact_readable", VBool (is_mapping i.1.1));
         ("output_artifact_readable", VBool (is_mapping o.1.1));
         ("tool_invocation_persisted", VBool (negb (any_startswith "tool_invocation_" violations)));
         ("audit_event_persisted", VBool (negb (any_startswith "audit_event_" violations)))]);
      ("status", VStr (if nonempty violations then "failed" else "passed"));
      ("violations", strs violations)]) in
  gateway_event "runtime_after_tool_hook_evaluated" "policy_engine" VNone
    (VDict [("hook_id", VStr "runtime-after-tool"); ("tool_invocation_id", dget "id" VNone invocation)])
    (VDict evidence) (if nonempty violations then Some "policy_denied" else None) ;;
  lift (raise_if (nonempty violations)
    (ToolExecutionError ("runtime-after-tool hook failed: " +:+ join ", " violations)
       "runtime_after_tool_hook_failed" "policy_denied" evidence)).

(** ** Admitted calls *)

Definition next_invocation (tool_name : string) : run X string :=
  n ← gets r_invocations;
  modify (fun s => mkRunState (r_world s) (r_ext s) (r_enforcer s) (n + 1)%Z) ;;
  mret (slug_id (gw_run_id g +:+ "-" +:+ tool_name +:+ "-" +:+ zstr n) (Some "tool")).

(** [adapter.invoke(payload)], its exceptions caught: status, output, stop reason *)
Definition call_adapter (adapter : odict value -> eff X exn (odict value)) (payload : odict value)
    : run X (string * odict value * option string) :=
  r ← try_ (on_ext (adapter payload));
  mret (match r with
        | Ok output => ("succeeded", output, None)
        | Raise e => ("failed", [("error", VStr (exn_message e)); ("error_type", VStr (exn_name e))],
                      Some "tool_error")
        end).

Definition run_tool (adapter : odict value -> eff X exn (odict value)) (tool_name : string)
    (payload : odict value) : run X ToolInvocationResult :=
  invocation_id ← next_invocation tool_name;
  input_uri ← write_artifact ["tool_outputs"; gw_run_id g; invocation_id +:+ "-input"]
    (VDict [("tool_name", VStr tool_name); ("payload", VDict payload)]);
  started_at ← on_world (iso_now clock);
  let planned := VDict [("tool_name", VStr tool_name); ("input_uri", VStr input_uri)] in
  gateway_event "access_attempted" "policy_engine" planned VNone
    (VDict [("effect", VStr "allow"); ("risk_level", VStr (tool_risk_level tool_name));
            ("required_data_scopes", strs (tool_required_data_scopes tool_name));
            ("required_policies", strs (tool_required_policies tool_name))]) None ;;
  gateway_event "tool_invocation_started" "executor" planned VNone VNone None ;;
  done_ ← call_adapter adapter payload;
  let '(status, output, stop_reason) := done_ in
  output_uri ← write_artifact ["tool_outputs"; gw_run_id g; invocation_id +:+ "-output"]
    (VDict [("tool_name", VStr tool_name); ("status", VStr status); ("output", VDict output)]);
  completed_at ← on_world (iso_now clock);
  invocation ← on_world (on_store (insert_tool_invocation
    [("id", VStr invocation_id); ("run_id", VStr (gw_run_id g)); ("step_id", VStr (gw_step_id g));
     ("tool_name", VStr tool_name); ("status", VStr status); ("input_uri", VStr input_uri);
     ("output_uri", VStr output_uri); ("started_at", VStr started_at); ("completed_at", VStr completed_at)]));
  completed ← gateway_event "tool_invocation_completed" "executor" VNone
    (VDict [("tool_invocation_id", VStr invocation_id); ("status", VStr status)])
    (VDict [("tool_name", VStr tool_name); ("output_uri", VStr output_uri)]) stop_reason;
  _evaluate_runtime_after_tool_hook tool_name status input_uri output_uri invocation completed ;;
  id ← lift (ditem "id" invocation);
  if negb (String.eqb status "succeeded") then
    error ← lift (ditem "error" output);
    throw (ToolExecutionError ("Tool " +:+ tool_name +:+ " failed: " +:+ py_str error)
             "tool_execution_failed" "tool_error" output)
  else mret (mkToolResult (py_str id) tool_name status input_uri output_uri output).

Definition invoke (tool_name : string) (payload : odict value) : run X ToolInvocationResult :=
  check_admission tool_name payload ;;
  match od_get tool_name tool_adapters with
  | None => throw (ToolExecutionError ("No adapter is registered for tool: " +:+ tool_name)
                     "tool_adapter_missing" "tool_error" [])
  | Some adapter => run_tool adapter tool_name payload
  end.
End gateway.

(** ** Which part of a run's state each step touches *)

Definition only_world {X} (s s' : run_state X) : Prop :=
  r_ext s' = r_ext s /\ r_enforcer s' = r_enforcer s /\ r_invocations s' = r_invocations s.
#[export] Instance only_world_preorder {X} : PreOrder (@only_world X).
Proof.
  split; [by intros s|]. intros a b c (?&?&?) (?&?&?). unfold only_world. split_and!; congruence.
Qed.

Lemma on_world_only {X A} (m : rt A) : preserves only_world (on_world (X := X) m).
Proof. intros s. unfold on_world, zoom. by destruct (m (r_world s)). Qed.
#[export] Hint Resolve on_world_only : preserves.

(** An operation that leaves everything but the world alone, at a successful step. *)
Lemma only_world_Ok {X A} (m : run X A) s x s' :
  preserves only_world m -> m s = (Ok x, s') -> only_world s s'.
Proof. intros H E. by eapply preserves_elim. Qed.

Section gateway_lemmas.
Context {X : Type} `{!Services X}.
Context (artifacts : JsonArtifactStore) (clock : nat -> datetime) (json_loads : string -> res value).
Context (g : gateway).

Lemma gateway_event_only ty actor p e r stop :
  preserves only_world (gateway_event (X := X) artifacts clock g ty actor p e r stop).
Proof. apply on_world_only. Qed.
Lemma write_artifact_only parts payload : preserves only_world (write_artifact (X := X) artifacts g parts payload).
Proof. apply on_world_only. Qed.
Hint Resolve gateway_event_only write_artifact_only : preserves.

Lemma denied_only tool payload code stop :
  preserves only_world (_record_denied_access (X := X) artifacts clock g tool payload code stop).
Proof. unfold _record_denied_access. preserves_tac. Qed.

Lemma read_hook_only uri label : preserves only_world (_read_hook_artifact (X := X) artifacts json_loads uri label).
Proof. unfold _read_hook_artifact. preserves_tac. Qed.
Hint Resolve denied_only read_hook_only : preserves.

Lemma hook_only tool status i o inv completed :
  preserves only_world (_evaluate_runtime_after_tool_hook (X := X) artifacts clock json_loads g tool status i o inv completed).
Proof. unfold _evaluate_runtime_after_tool_hook. preserves_tac. Qed.
Hint Resolve hook_only : preserves.

(** The enforcer's decision on a call, at the instant the clock gives. *)
Definition decision (tool : string) (s : run_state X) : result exn unit * enforcer :=
  record_tool_invocation tool (tool_required_data_scopes tool) (tool_required_policies tool)
    (tool_risk_level tool) (monotonic (r_ext s)).1 (r_enforcer s).

Lemma admit_cases tool payload s :
  let admitted := check_admission artifacts clock g tool payload s in
  let d := decision tool s in
  r_enforcer admitted.2 = d.2 /\ r_ext admitted.2 = (monotonic (r_ext s)).2 /\
  r_invocations admitted.2 = r_invocations s /\
  match d.1 with
  | Ok _ => admitted.1 = Ok tt /\ r_world admitted.2 = r_world s
  | Raise e => exists e', admitted.1 = Raise e'
  end.
Proof.
  cbv zeta. unfold check_admission, catch, timed, decision, on_ext, read_monotonic.
  unfold mbind, eff_bind, zoom. destruct (monotonic (r_ext s)) as [now x]. cbn [r_enforcer r_ext fst snd].
  unfold on_enforcer, zoom. cbn [r_enforcer].
  destruct (record_tool_invocation _ _ _ _ _ _) as [[[]|e] e']; cbn [fst snd r_enforcer r_ext r_invocations r_world].
  - by split_and!.
  - destruct e; cbn [throw fst snd r_enforcer r_ext r_invocations]; try (split_and!; [done..|by eexists]).
    set (s1 := mkRunState _ _ _ _).
    pose proof (denied_only tool payload code stop_reason s1) as (H1 & H2 & H3).
    destruct (_record_denied_access _ _ _ _ _ _ _ s1) as [[u|e1] s2]; cbn [fst snd] in *;
      (split_and!; [exact H2|exact H1|exact H3|by eexists]).
Qed.

(** Sequencing after a step that only writes the world. *)
Lemma bind_only {A B} (m : run X A) (k : A -> run X B) s (Q : result exn B * run_state X -> Prop) :
  preserves only_world m ->
  (forall e s1, only_world s s1 -> Q (Raise e, s1)) ->
  (forall x s1, only_world s s1 -> m s = (Ok x, s1) -> Q (k x s1)) -> Q ((m ≫= k) s).
Proof.
  intros Hm He Hk. specialize (Hm s). unfold mbind, eff_bind.
  destruct (m s) as [[x|e] s1]; cbn [snd] in Hm; [by apply Hk|by apply He].
Qed.

(** The rest of a call, once the adapter has answered [status] with [output]. *)
Definition after_adapter (status : string) (output : odict value) (tool : string) (s : run_state X)
    (r : result exn ToolInvocationResult * run_state X) : Prop :=
  only_world s r.2 /\
  (forall res, r.1 = Ok res -> status = "succeeded" /\ tr_output res = output /\
     tr_status res = status /\ tr_tool_name res = tool).

Ltac raised := intros; split; [by etrans; [..|eassumption]|discriminate].

Lemma after_adapter_run status output stop tool invocation_id input_uri started_at s :
  after_adapter status output tool s
   ((output_uri ← write_artifact artifacts g ["tool_outputs"; gw_run_id g; invocation_id +:+ "-output"]
       (VDict [("tool_name", VStr tool); ("status", VStr status); ("output", VDict output)]);
     completed_at ← on_world (iso_now clock);
     invocation ← on_world (on_store (insert_tool_invocation
       [("id", VStr invocation_id); ("run_id", VStr (gw_run_id g)); ("step_id", VStr (gw_step_id g));
        ("tool_name", VStr tool); ("status", VStr status); ("input_uri", VStr input_uri);
        ("output_uri", VStr output_uri); ("started_at", VStr started_at); ("completed_at", VStr completed_at)]));
     completed ← gateway_event artifacts clock g "tool_invocation_completed" "executor" VNone
       (VDict [("tool_invocation_id", VStr invocation_id); ("status", VStr status)])
       (VDict [("tool_name", VStr tool); ("output_uri", VStr output_uri)]) stop;
     _evaluate_runtime_after_tool_hook artifacts clock json_loads g tool status input_uri output_uri invocation completed ;;
     id ← lift (ditem "id" invocation);
     if negb (String.eqb status "succeeded") then
       error ← lift (ditem "error" output);
       throw (ToolExecutionError ("Tool " +:+ tool +:+ " failed: " +:+ py_str error)
                "tool_execution_failed" "tool_error" output)
     else mret (mkToolResult (py_str id) tool status input_uri output_uri output)) s).
Proof.
  apply bind_only; [auto with preserves|by split|intros output_uri s1 H1 _].
  apply bind_only; [auto with preserves|raised|intros completed_at s2 H2 _].
  assert (H : only_world s s2) by (by etrans). clear H1 H2 s1.
  apply bind_only; [auto with preserves|raised|intros invocation s3 H3 _].
  apply bind_only; [auto with preserves|intros e s4 H4; split; [|done]|intros completed s4 H4 _].
  { etrans; [exact H|]. by etrans. }
  assert (H' : only_world s s4) by (etrans; [exact H|by etrans]). clear H3 H4 H s2 s3.
  apply bind_only; [auto with preserves|raised|intros [] s5 H5 _].
  assert (H : only_world s s5) by (by etrans). clear H' H5 s4.
  destruct (ditem "id" invocation) as [id|e]; [|by split].
  rewrite eff_lift_Ok.
  destruct (String.eqb_spec status "succeeded") as [Es|Es]; cbn [negb].
  - split; [done|]. intros res [= <-]. done.
  - destruct (ditem "error" output); by split.
Qed.

(** What running an admitted tool does outside the world: the adapter is called
    once, unless recording failed first, and nothing else happens. *)
Definition tool_run (adapter : odict value -> eff X exn (odict value)) (tool : string) (payload : odict value)
    (s : run_state X) (r : result exn ToolInvocationResult * run_state X) : Prop :=
  r_enforcer r.2 = r_enforcer s /\ r_invocations r.2 = (r_invocations s + 1)%Z /\
  (r_ext r.2 = r_ext s \/ r_ext r.2 = (adapter payload (r_ext s)).2) /\
  (forall res, r.1 = Ok res ->
     (adapter payload (r_ext s)).1 = Ok (tr_output res) /\ r_ext r.2 = (adapter payload (r_ext s)).2 /\
     tr_status res = "succeeded" /\ tr_tool_name res = tool).

Lemma run_tool_cases adapter tool payload s :
  tool_run adapter tool payload s (run_tool artifacts clock json_loads g adapter tool payload s).
Proof.
  unfold run_tool.
  set (s0 := mkRunState (r_world s) (r_ext s) (r_enforcer s) (r_invocations s + 1)%Z).
  assert (Hstop : forall e s1, only_world s0 s1 -> tool_run adapter tool payload s (Raise e, s1)).
  { intros e s1 (H1 & H2 & H3). split_and!; [exact H2|exact H3|left; exact H1|discriminate]. }
  rewrite (eff_step (next_invocation g tool) _ s
    (slug_id (gw_run_id g +:+ "-" +:+ tool +:+ "-" +:+ zstr (r_invocations s)) (Some "tool")) s0 eq_refl).
  apply bind_only; [auto with preserves|exact Hstop|intros input_uri s1 H1 _].
  apply bind_only; [auto with preserves|intros; apply Hstop; by etrans|intros started_at s2 H2 _].
  assert (H : only_world s0 s2) by (by etrans). clear H1 H2 s1. cbv zeta.
  apply bind_only; [auto with preserves|intros; apply Hstop; by etrans|intros e1 s3 H3 _].
  apply bind_only; [auto with preserves|intros; apply Hstop; etrans; [exact H|by etrans]|intros e2 s4 H4 _].
  assert (H' : only_world s0 s4) by (etrans; [exact H|by etrans]). clear H H3 H4 s2 s3 e1 e2.
  destruct H' as (Hx & He & Hi). destruct (adapter payload (r_ext s)) as [out x] eqn:Ea.
  set (s5 := mkRunState (r_world s4) x (r_enforcer s4) (r_invocations s4)).
  set (answer := match out with
    | Ok output => ("succeeded", output, None)
    | Raise e => ("failed", [("error", VStr (exn_message e)); ("error_type", VStr (exn_name e))], Some "tool_error")
    end).
  assert (Ecall : call_adapter adapter payload s4 = (Ok answer, s5)).
  { unfold call_adapter, try_, on_ext, zoom, mbind, eff_bind. rewrite Hx. cbn [r_ext s0]. by rewrite Ea. }
  rewrite (eff_step _ _ _ _ _ Ecall). destruct answer as [[status output] stop] eqn:Eans.
  destruct (after_adapter_run status output stop tool
    (slug_id (gw_run_id g +:+ "-" +:+ tool +:+ "-" +:+ zstr (r_invocations s)) (Some "tool"))
    input_uri started_at s5) as [(Hx5 & He5 & Hi5) Hres].
  split_and!; [by rewrite He5|by rewrite Hi5|by right; rewrite Hx5, Ea|].
  intros res Hr. destruct (Hres res Hr) as (Hs & Ho & Hst & Ht). rewrite Hx5, Ea. cbn [fst snd].
  unfold answer in Eans. destruct out as [output'|e]; injection Eans as <- <- <-; [|discriminate Hs].
  by rewrite Ho, Hst.
Qed.

End gateway_lemmas.

Lemma decision_Ok {X} `{!Services X} tool (s : run_state X) e :
  decision tool s = (Ok tt, e) ->
  tool_permitted (r_enforcer s) tool (tool_required_policies tool) (tool_risk_level tool)
    (monotonic (r_ext s)).1 /\
  tool_calls e = (tool_calls (r_enforcer s) + 1)%Z /\ profile e = profile (r_enforcer s).
Proof.
  unfold decision. rewrite record_tool_invocation_split. intros H.
  apply eff_bind_Ok in H as ([] & s1 & H1 & H2). apply admit_call_Ok in H1 as [-> Hp].
  split; [done|]. apply admit_read_Ok in H2. destruct (r_enforcer s).
  destruct (nonempty _); [destruct H2 as [_ ->]|subst e]; done.
Qed.

(** A refused call has charged a tool call at most. *)
Lemma decision_Raise {X} `{!Services X} tool (s : run_state X) ex e :
  decision tool s = (Raise ex, e) -> budget_step (r_enforcer s) e.
Proof. intros H. by eapply respects_record_tool_invocation. Qed.

(** ** Properties *)

(** C3. The gateway mediates every tool call. What the enforcer decides, from
    the profile and at the instant of the call, is all that happens to its
    counters. When it refuses, the call fails and no adapter has run. When it
    admits, the profile lists the tool, its risk and its policies, and a call
    was left; then, unless recording the call fails, exactly the adapter
    registered under that name runs, once, on the payload given; and a result
    is only returned for an adapter that succeeded, and holds its output. *)
Theorem gateway_mediates {X} `{!Services X} artifacts clock json_loads g tool payload (s s' : run_state X) r :
  invoke artifacts clock json_loads g tool payload s = (r, s') ->
  let x := (monotonic (r_ext s)).2 in
  r_enforcer s' = (decision tool s).2 /\
  match (decision tool s).1 with
  | Raise _ => r_ext s' = x /\ r_invocations s' = r_invocations s /\ exists e, r = Raise e
  | Ok _ =>
      tool_permitted (r_enforcer s) tool (tool_required_policies tool) (tool_risk_level tool)
        (monotonic (r_ext s)).1 /\
      match od_get tool tool_adapters with
      | None => r_ext s' = x /\ r = Raise (ToolExecutionError ("No adapter is registered for tool: " +:+ tool)
                                  "tool_adapter_missing" "tool_error" [])
      | Some adapter =>
          r_invocations s' = (r_invocations s + 1)%Z /\
          (r_ext s' = x \/ r_ext s' = (adapter payload x).2) /\
          (forall res, r = Ok res -> (adapter payload x).1 = Ok (tr_output res) /\
             r_ext s' = (adapter payload x).2 /\ tr_status res = "succeeded" /\ tr_tool_name res = tool)
      end
  end.
Proof.
  intros H x. destruct (admit_cases artifacts clock g tool payload s) as (He & Hx & Hi & Hd). cbv zeta in *.
  unfold invoke in H. destruct (decision tool s) as [[[]|ex] e] eqn:Ed; cbn [fst snd] in *.
  - apply decision_Ok in Ed as (Hp & _ & _).
    destruct (check_admission artifacts clock g tool payload s) as [a s1] eqn:Ea. cbn [fst snd] in *.
    destruct Hd as [-> _]. rewrite (eff_step _ _ _ _ _ Ea) in H.
    destruct (od_get tool tool_adapters) as [adapter|].
    + destruct (run_tool_cases artifacts clock json_loads g adapter tool payload s1) as (H1 & H2 & H3 & H4).
      rewrite H in H1, H2, H3, H4. cbn [fst snd] in *. rewrite Hx in H3, H4.
      split; [by rewrite H1|]. split; [done|]. split; [by rewrite H2, Hi|]. split; [done|]. done.
    + injection H as <- <-. done.
  - destruct Hd as [e' Hd]. destruct (check_admission artifacts clock g tool payload s) as [a s1] eqn:Ea. cbn [fst snd] in *.
    subst a. rewrite (eff_stop _ _ _ _ _ Ea) in H. injection H as <- <-. split_and!; try done. by exists e'.
Qed.

(** A counting adapter: what it keeps is the number of times it ran. *)
Definition counting_services : Services nat := {|
  monotonic := fun n => (0%Z, n);
  tool_adapters := [("git-read", fun _ n => (Ok [("stdout", VStr "clean")], S n));
                    ("filesystem-write", fun _ n => (Ok [], S n))];
  retrieval_context := None; composition_context := None; error_judge := None |}.
Definition demo_gateway_profile : odict value :=
  [("id", VStr "p1"); ("tools", strs ["git-read"]); ("data_scopes", strs ["repository-readonly"]);
   ("risk_level", VStr "low");
   ("limits", VDict [("max_tool_calls", VInt 1); ("max_data_reads", VInt 5); ("max_duration_seconds", VInt 60)])].
Definition demo_gateway : gateway := mkGateway demo_gateway_profile "run-1" "step-1" true.
Definition demo_gateway_store : JsonArtifactStore := mkJsonArtifactStore ["srv"; "artifacts"] "hetzner://runtime" 64000 32000.
Definition demo_state : run_state nat :=
  mkRunState (mkWorld empty_store ∅ 0) 0%nat (mkEnforcer demo_gateway_profile 0 0 0 0 0 0) 0.
Definition demo_invoke (tool : string) (s : run_state nat) : result exn ToolInvocationResult * run_state nat :=
  invoke (Services0 := counting_services) demo_gateway_store (fun n => Z.of_nat n) (fun _ => Ok VNone) demo_gateway
    tool [("args", strs ["status"])] s.

Lemma gateway_mediates_witness :
  is_ok (demo_invoke "git-read" demo_state).1 = true /\
  tool_permitted (r_enforcer demo_state) "git-read" [] "low" 0.
Proof.
  split; [vm_compute; reflexivity|].
  assert (Ed : (decision (Services0 := counting_services) "git-read" demo_state).1 = Ok tt) by (vm_compute; reflexivity).
  destruct (gateway_mediates (Services0 := counting_services) demo_gateway_store (fun n => Z.of_nat n)
    (fun _ => Ok VNone) demo_gateway "git-read" [("args", strs ["status"])] demo_state
    (demo_invoke "git-read" demo_state).2 (demo_invoke "git-read" demo_state).1) as [_ H].
  - unfold demo_invoke. apply surjective_pairing.
  - rewrite Ed in H. exact (proj1 H).
Defined.

(** The write tool is refused, its adapter does not run, and the refusal is on record. *)
Example write_refused :
  let '(r, s) := demo_invoke "filesystem-write" demo_state in
  r = Raise (ToolDeniedError "Tool is not allowed by runtime profile: filesystem-write" "policy_denied") /\
  r_ext s = 0%nat /\ map (dget "event_type" VNone) (runtime_events (w_store (r_world s))) = [VStr "access_attempted"].
Proof. vm_compute. split_and!; reflexivity. Qed.

(** The second call of the run exceeds the budget of one. *)
Example second_call_refused :
  (demo_invoke "git-read" (demo_invoke "git-read" demo_state).2).1
  = Raise (ToolDeniedError "Runtime profile limit exceeded: max_tool_calls." "max_tool_calls").
Proof. vm_compute. reflexivity. Qed.

(** The evidence a gap candidate names is an address nothing is ever written to. *)
Example gap_evidence_dangles :
  let s := (demo_invoke "filesystem-write" demo_state).2 in
  (read_json demo_gateway_store (fun _ => Ok VNone)
     (uri_for demo_gateway_store ["events"; "run-1"; "step-1-filesystem-write-access-denied"])
     (w_files (r_world s))).1
  = Raise (FileNotFoundError "No such file or directory: events/run-1/step-1-filesystem-write-access-denied.json").
Proof. vm_compute. reflexivity. Qed.

(** With a long run id the two artifacts of a call get one name: the output
    replaces the input, and the hook does not notice. *)
Definition long_gateway : gateway :=
  mkGateway demo_gateway_profile ("run-" +:+ String.concat "" (repeat "abcdefgh" 12)) "step-1" true.
Example long_run_ids_overwrite_input :
  let '(r, s) := invoke (Services0 := counting_services) demo_gateway_store (fun n => Z.of_nat n) (fun _ => Ok VNone)
    long_gateway "git-read" [("args", strs ["status"])] demo_state in
  exists res, r = Ok res /\ tr_input_uri res = tr_output_uri res.
Proof. vm_compute. eexists. split; reflexivity. Qed.
