(* ===== verification/Json.v ===== *)
(** * Canonical JSON text

    [json.dumps(value, sort_keys=True, separators=(",", ":"))], the text whose
    SHA-256 seals a profile (runtime/entrypoint.py, runtime/loop.py) and
    fingerprints a denial (runtime/policy_denials.py). The digest itself is the
    standard library's and stays a parameter of its users. *)

From S2P Require Import Prelude PyStr PyValue Models Artifacts.
Open Scope string_scope.
Open Scope list_scope.

(** [ensure_ascii]: quotes, backslashes and control characters are escaped, and
    so is everything beyond ASCII. *)
Definition json_char (c : ascii) : list ascii :=
  if Ascii.eqb c "034"%char || Ascii.eqb c "\"%char then ["\"%char; c]
  else if Ascii.eqb c "010"%char then ["\"%char; "n"%char]
  else if Ascii.eqb c "013"%char then ["\"%char; "r"%char]
  else if Ascii.eqb c "009"%char then ["\"%char; "t"%char]
  else if Ascii.eqb c "012"%char then ["\"%char; "f"%char]
  else if Ascii.eqb c "008"%char then ["\"%char; "b"%char]
  else if (code c <? 32)%N || (127 <? code c)%N
  then ["\"; "u"; "0"; "0"; hex_digit (code c / 16); hex_digit (code c mod 16)]%char
  else [c].

Definition json_string (s : string) : string :=
  of_chars ("034"%char :: mjoin (map json_char (chars s)) ++ ["034"%char]).

Fixpoint json_text (v : value) : string :=
  match v with
  | VNone => "null"
  | VBool true => "true"
  | VBool false => "false"
  | VInt z => zstr z
  | VStr s => json_string s
  | VList l => "[" +:+ join "," (map json_text l) +:+ "]"
  | VDict d => "{" +:+ join "," (map (fun '(k, x) => json_string k +:+ ":" +:+ json_text x) d) +:+ "}"
  end.

Definition canonical (v : value) : string := json_text (stored_json v).

Example canonical_ex :
  canonical (VDict [("b", VList [VInt (-1); VNone]); ("a", VStr "x")])
  = "{" +:+ json_string "a" +:+ ":" +:+ json_string "x" +:+ "," +:+ json_string "b" +:+ ":[-1,null]}".
Proof. vm_compute. reflexivity. Qed.

(** ** Sorting twice is sorting once *)

Lemma insert_sorted_le {A} (leb : A -> A -> bool) x l :
  Forall (fun y => leb x y = true) l -> insert_sorted leb x l = x :: l.
Proof. destruct 1 as [|y l Hy _]; cbn; [done|]. by rewrite Hy. Qed.

Lemma py_sorted_id {A} (leb : A -> A -> bool) l : StronglySorted leb l -> py_sorted leb l = l.
Proof.
  induction 1 as [|x l _ IH Hx]; cbn [py_sorted foldr]; [done|].
  change (foldr (insert_sorted leb) [] l) with (py_sorted leb l). rewrite IH.
  apply insert_sorted_le. eapply Forall_impl; [exact Hx|]. intros y Hy. by apply Is_true_true.
Qed.

Lemma insert_sorted_map {A} (leb : A -> A -> bool) (f : A -> A) x l :
  (forall a b, leb (f a) (f b) = leb a b) -> map f (insert_sorted leb x l) = insert_sorted leb (f x) (map f l).
Proof.
  intros Hf. induction l as [|y l IH]; cbn; [done|]. rewrite Hf. destruct (leb x y); cbn; [done|by rewrite IH].
Qed.

Lemma py_sorted_map {A} (leb : A -> A -> bool) (f : A -> A) l :
  (forall a b, leb (f a) (f b) = leb a b) -> map f (py_sorted leb l) = py_sorted leb (map f l).
Proof.
  intros Hf. induction l as [|x l IH]; [done|].
  change (map f (insert_sorted leb x (py_sorted leb l)) = insert_sorted leb (f x) (py_sorted leb (map f l))).
  rewrite insert_sorted_map by done. by rewrite IH.
Qed.

Definition key_leb (a b : string * value) : bool := str_leb a.1 b.1.

Lemma stored_json_twice v : stored_json (stored_json v) = stored_json v.
Proof.
  induction v as [| | | |l IH|d IH] using value_rect_forall; try done.
  - cbn. f_equal. rewrite map_map. induction IH as [|x l Hx _ IH]; cbn; [done|]. by rewrite Hx, IH.
  - cbn [stored_json]. f_equal.
    set (f := fun '(k, x) => (k, stored_json x) : string * value).
    change (py_sorted key_leb (map f (py_sorted key_leb (map f d))) = py_sorted key_leb (map f d)).
    assert (Hf : forall a b, key_leb (f a) (f b) = key_leb a b) by (intros [] []; done).
    rewrite py_sorted_map by exact Hf.
    assert (Hmap : map f (map f d) = map f d).
    { rewrite map_map. clear Hf. induction IH as [|[k x] d Hx _ IH]; cbn; [done|]. cbn in Hx. by rewrite Hx, IH. }
    rewrite Hmap. apply py_sorted_id, py_sorted_StronglySorted.
    + intros a b. apply str_leb_total.
    + intros a b c. apply str_leb_trans.
Qed.

(** The text does not depend on the order a stored document lists its keys in. *)
Lemma canonical_stored v : canonical (stored_json v) = canonical v.
Proof. unfold canonical. by rewrite stored_json_twice. Qed.

(** A stored document has the fields of the document, in their stored form. *)
Lemma stored_field d k v : NoDup (od_keys d) -> od_get k d = Some v ->
  exists d', stored_json (VDict d) = VDict d' /\ od_get k d' = Some (stored_json v).
Proof.
  intros Hd Hk. cbn [stored_json]. eexists. split; [done|]. apply od_get_NoDup.
  - unfold od_keys. rewrite py_sorted_perm, map_map.
    rewrite (map_ext_in _ fst) by (by intros [] _). exact Hd.
  - apply py_sorted_In, in_map_iff. exists (k, v). split; [done|]. by apply od_get_In.
Qed.

(** ** The text of a document determines the document

    The encoding is read back from the left: each part of a text is determined
    by the text and whatever follows it, provided that starts with a
    delimiter, as it does inside a document and at its end. *)

Definition unhex (c : ascii) : N := if is_digit c then code c - 48 else code c - 87.

(** The character a JSON string starts with, and the rest. *)
Definition json_unchar (l : list ascii) : option (ascii * list ascii) :=
  match l with
  | "\"%char :: "u"%char :: _ :: _ :: a :: b :: r => Some (ascii_of_N (16 * unhex a + unhex b), r)
  | "\"%char :: c :: r =>
      Some (match c with
            | "n" => "010" | "r" => "013" | "t" => "009" | "f" => "012" | "b" => "008" | _ => c
            end%char, r)
  | c :: r => Some (c, r)
  | [] => None
  end.

Lemma json_unchar_char c r : json_unchar (json_char c ++ r) = Some (c, r).
Proof. by destruct c as [[] [] [] [] [] [] [] []]. Qed.

Lemma json_char_head c : exists x l, json_char c = x :: l /\ x <> "034"%char.
Proof. destruct c as [[] [] [] [] [] [] [] []]; (eexists _, _; split; [reflexivity|discriminate]). Qed.

Lemma json_chars_inj l m r s :
  mjoin (map json_char l) ++ "034"%char :: r = mjoin (map json_char m) ++ "034"%char :: s -> l = m /\ r = s.
Proof.
  revert m. induction l as [|a l IH]; intros [|b m]; cbn; rewrite <- ?app_assoc.
  - by intros [= ->].
  - destruct (json_char_head b) as (x & k & -> & Hx). by intros [= <- _].
  - destruct (json_char_head a) as (x & k & -> & Hx). by intros [= -> _].
  - intros H. apply (f_equal json_unchar) in H. rewrite !json_unchar_char in H. injection H as -> H.
    by apply IH in H as [-> ->].
Qed.

Lemma json_string_inj k k' r s :
  chars (json_string k) ++ r = chars (json_string k') ++ s -> k = k' /\ r = s.
Proof.
  unfold json_string. rewrite !chars_of_chars. cbn. rewrite <- !app_assoc. cbn.
  intros [= H]. apply json_chars_inj in H as [H ->]. split; [|done].
  by rewrite <- (of_chars_chars k), H, of_chars_chars.
Qed.

Definition delimiter (c : ascii) : bool := existsb (Ascii.eqb c) [","; "]"; "}"]%char.
Definition delimited (r : list ascii) : Prop := match r with [] => True | c :: _ => delimiter c = true end.
Definition number_char (c : ascii) : bool := is_digit c || is_dash c.

Lemma span_inj p (l m r s : list ascii) :
  forallb p l = true -> forallb p m = true ->
  (forall c r', r = c :: r' -> p c = false) -> (forall c s', s = c :: s' -> p c = false) ->
  l ++ r = m ++ s -> l = m /\ r = s.
Proof.
  revert m. induction l as [|a l IH]; intros [|b m]; cbn; intros Hl Hm Hr Hs H.
  - done.
  - apply andb_true_iff in Hm as [Hb _]. specialize (Hr b (m ++ s) H). congruence.
  - apply andb_true_iff in Hl as [Ha _]. specialize (Hs a (l ++ r) (eq_sym H)). congruence.
  - apply andb_true_iff in Hl as [_ Hl], Hm as [_ Hm]. injection H as -> H.
    by apply IH in H as [-> ->].
Qed.

Lemma zstr_number z : forallb number_char (chars (zstr z)) = true /\ zstr z <> "".
Proof.
  assert (Hd : forall s, forallb is_digit (chars s) = true -> forallb number_char (chars s) = true).
  { intros s. rewrite !forallb_forall. intros H c Hc. unfold number_char. by rewrite H. }
  destruct z as [|p|p]; [by split| |].
  - pose proof (zstr_decimal (Z.pos p) ltac:(lia)) as [_ H]. split; [by apply Hd|].
    unfold zstr. change (pretty (Z.pos p)) with (pretty (N.pos p)). intros E.
    apply (f_equal (fun s => decimal_value (chars s))) in E.
    pose proof (zstr_decimal (Z.pos p) ltac:(lia)) as [H1 _].
    unfold zstr in H1. change (pretty (Z.pos p)) with (pretty (N.pos p)) in H1. rewrite H1 in E. discriminate.
  - pose proof (zstr_decimal (Z.pos p) ltac:(lia)) as [_ H]. unfold zstr in *.
    change (pretty (Z.neg p)) with ("-" +:+ pretty (Z.pos p)). rewrite chars_app. split; [|done].
    cbn. by apply Hd.
Qed.

Lemma delimiter_not_number c : delimiter c = true -> number_char c = false.
Proof. by destruct c as [[] [] [] [] [] [] [] []]. Qed.

Lemma zstr_inj z w r s : delimited r -> delimited s ->
  chars (zstr z) ++ r = chars (zstr w) ++ s -> z = w /\ r = s.
Proof.
  intros Hr Hs H. apply (span_inj number_char) in H as [H ->].
  - split; [|done]. apply (inj (@pretty Z _)). fold (zstr z) (zstr w).
    by rewrite <- (of_chars_chars (zstr z)), H, of_chars_chars.
  - apply zstr_number.
  - apply zstr_number.
  - intros c r' ->. by apply delimiter_not_number.
  - intros c s' ->. by apply delimiter_not_number.
Qed.

(** What the first character says of a value. *)
Definition value_kind (v : value) : nat :=
  match v with VNone => 0 | VBool true => 1 | VBool false => 2 | VInt _ => 3 | VStr _ => 4 | VList _ => 5 | VDict _ => 6 end.
Definition char_kind (c : ascii) : nat :=
  if number_char c then 3 else
  match c with "n" => 0 | "t" => 1 | "f" => 2 | "034" => 4 | "[" => 5 | "{" => 6 | _ => 7 end%char.

Lemma json_text_head v : exists c l, chars (json_text v) = c :: l /\ char_kind c = value_kind v.
Proof.
  destruct v as [|[]|z|s|l|d]; cbn [json_text];
    [by eexists _, _|by eexists _, _|by eexists _, _| |by eexists _, _|by eexists _, _|by eexists _, _].
  destruct (zstr_number z) as [H Hne]. destruct (zstr z) as [|c l]; [done|].
  cbn in *. apply andb_true_iff in H as [Hc _]. eexists _, _. split; [done|]. unfold char_kind. by rewrite Hc.
Qed.

Definition sep_chars {A} (e : A -> list ascii) (l : list A) : list ascii :=
  match l with [] => [] | x :: l' => e x ++ mjoin (map (fun y => ","%char :: e y) l') end.

Lemma join_sep_chars {A} (e : A -> string) (l : list A) :
  chars (join "," (map e l)) = sep_chars (fun x => chars (e x)) l.
Proof.
  destruct l as [|x l]; [done|]. unfold join. cbn [map sep_chars].
  revert x. induction l as [|y l IH]; intros x; [cbn; by rewrite app_nil_r|].
  change (String.concat "," (e x :: map e (y :: l))) with (e x +:+ "," +:+ String.concat "," (map e (y :: l))).
  rewrite !chars_app. cbn [map]. rewrite (IH y). done.
Qed.

Section separated.
Context {A : Type} (e : A -> list ascii) (close : ascii).
Hypothesis Hclose : delimiter close = true /\ close <> ","%char.
Hypothesis Hhead : forall x, exists c l, e x = c :: l /\ c <> close.

Definition determined (x : A) : Prop :=
  forall y r s, delimited r -> delimited s -> e x ++ r = e y ++ s -> x = y /\ r = s.

Lemma tail_inj l m r s : Forall determined l ->
  mjoin (map (fun y => ","%char :: e y) l) ++ close :: r = mjoin (map (fun y => ","%char :: e y) m) ++ close :: s ->
  l = m /\ r = s.
Proof.
  destruct Hclose as [Hd Hc]. intros HF. revert m.
  assert (Hdel : forall l t, delimited (mjoin (map (fun y => ","%char :: e y) l) ++ close :: t)).
  { intros [|y l0] t; cbn; done. }
  induction HF as [|x l Hx HF IH]; intros [|y m]; cbn.
  - by intros [= ->].
  - intros [= E _]. by subst.
  - intros [= E _]. by subst.
  - rewrite <- !app_assoc. intros [= H]. apply Hx in H as [-> H]; [|apply Hdel..].
    by apply IH in H as [-> ->].
Qed.

Lemma sep_chars_inj l m r s : Forall determined l ->
  sep_chars e l ++ close :: r = sep_chars e m ++ close :: s -> l = m /\ r = s.
Proof.
  intros HF. destruct HF as [|x l Hx HF], m as [|y m]; cbn [sep_chars app].
  - by intros [= ->].
  - destruct (Hhead y) as (c & k & -> & Hc). by intros [= <- _].
  - destruct (Hhead x) as (c & k & -> & Hc). by intros [= -> _].
  - rewrite <- !app_assoc. intros H.
    assert (Hdel : forall l t, delimited (mjoin (map (fun y => ","%char :: e y) l) ++ close :: t)).
    { destruct Hclose. intros [|z l0] t; cbn; done. }
    apply Hx in H as [-> H]; [|apply Hdel..]. by apply tail_inj in H as [-> ->].
Qed.
End separated.

Definition entry_chars (kv : string * value) : list ascii :=
  chars (json_string kv.1) ++ ":"%char :: chars (json_text kv.2).

Lemma json_text_list l : chars (json_text (VList l)) = "["%char :: sep_chars (fun x => chars (json_text x)) l ++ ["]"%char].
Proof. cbn [json_text]. rewrite !chars_app, join_sep_chars. done. Qed.

Lemma json_text_dict d : chars (json_text (VDict d)) = "{"%char :: sep_chars entry_chars d ++ ["}"%char].
Proof.
  cbn [json_text]. rewrite !chars_app, join_sep_chars. cbn. f_equal. f_equal.
  unfold sep_chars. destruct d as [|kv d]; [done|].
  assert (He : forall kv : string * value,
    chars (let '(k, x) := kv in json_string k +:+ ":" +:+ json_text x) = entry_chars kv).
  { intros [k x]. unfold entry_chars. cbn [fst snd]. by rewrite !chars_app. }
  rewrite He. f_equal. f_equal. apply map_ext. intros a. by rewrite He.
Qed.

Lemma json_text_inj v : determined (fun v => chars (json_text v)) v.
Proof.
  assert (Hk : forall v w r s, chars (json_text v) ++ r = chars (json_text w) ++ s -> value_kind v = value_kind w).
  { intros v0 w r s H. destruct (json_text_head v0) as (c & l & Hv & <-), (json_text_head w) as (c' & l' & Hw & <-).
    rewrite Hv, Hw in H. by injection H as -> _. }
  induction v as [|b|z|t|l IH|d IH] using value_rect_forall; intros w r s Hr Hs H; pose proof (Hk _ _ _ _ H) as K.
  - destruct w as [|[]| | | |]; try done. cbn in H. by injection H as ->.
  - destruct b, w as [|[]| | | |]; try done; cbn in H; by injection H as ->.
  - destruct w as [|[]| | | |]; try done. apply zstr_inj in H as [-> ->]; done.
  - destruct w as [|[]| | | |]; try done. by apply json_string_inj in H as [-> ->].
  - destruct w as [|[]| | |m|]; try done. rewrite !json_text_list in H. cbn in H. rewrite <- !app_assoc in H.
    injection H as H. apply sep_chars_inj in H as [-> ->]; try done.
    intros x. destruct (json_text_head x) as (c & k & -> & Hc). eexists _, _. split; [done|].
    intros ->. by destruct x as [|[]| | | |].
  - destruct w as [|[]| | | |m]; try done. rewrite !json_text_dict in H. cbn in H. rewrite <- !app_assoc in H.
    injection H as H. apply sep_chars_inj in H as [-> ->]; try done.
    + intros x. unfold entry_chars, json_string. rewrite chars_of_chars. by eexists _, _.
    + eapply Forall_impl; [exact IH|]. intros [k x] Hx [k' y] r' s' Hr' Hs' E.
      unfold entry_chars in E. cbn [fst snd] in *. rewrite <- !app_assoc in E.
      apply json_string_inj in E as [-> E]. injection E as E. by apply Hx in E as [-> ->].
Qed.

(** Two documents have one canonical text exactly when they are one document
    up to the order of their keys. *)
Lemma canonical_inj v w : canonical v = canonical w <-> stored_json v = stored_json w.
Proof.
  unfold canonical. split; [|congruence]. intros H.
  apply (f_equal chars) in H.
  destruct (json_text_inj (stored_json v) (stored_json w) [] []) as [E _]; [done|done|by rewrite H|done].
Qed.
