(* ===== verification/Documents.v ===== *)
(** * Documents: JSON data with fractions

    The reports and policies of the release process ([operations/] and
    scripts/release/) hold fractions, which the dynamic values of [PyValue] do
    not. [doc] is such data: [json.loads] gives an [int] or a [float] for a
    number. The module adds what the code applies to it: [isinstance], [get],
    [bool], [float], [int], [str] with the shortest text of a float, division. *)

From Stdlib Require Import SpecFloat.
From S2P Require Import Prelude PyStr PyFloat PyValue.
Open Scope string_scope.
Open Scope list_scope.
Open Scope Z_scope.

Inductive doc : Type :=
| DNull
| DBool (b : bool)
| DInt (z : Z)
| DFloat (f : float)
| DStr (s : string)
| DList (l : list doc)
| DDict (d : list (string * doc)).

(** [d.get(k)], [d.get(k, default)] *)
Definition get_or (k : string) (default : doc) (d : odict doc) : doc := match od_get k d with Some v => v | None => default end.
Definition get (k : string) (d : odict doc) : doc := get_or k DNull d.

Definition texts (l : list string) : doc := DList (map DStr l).

(** ** [repr] of a float: the shortest digits that read back as the float *)

(** [digits * 10^p] as a float, as a literal is read. *)
Definition of_decimal (digits p : Z) : float := if 0 <=? p then ratio (digits * 10 ^ p) 1 else ratio digits (10 ^ (- p)).

(** [x = num / den] *)
Definition fraction (m : positive) (e : Z) : Z * Z := if 0 <=? e then (Zpos m * 2 ^ e, 1) else (Zpos m, 2 ^ (- e)).

(** The largest [k] with [10^k <= x]. The estimate from the binary exponent is
    that or one less. *)
Definition exponent10 (m : positive) (e : Z) : Z :=
  let k := (Zdigits2 (Zpos m) + e - 1) * 30103 / 100000 in
  let '(num, den) := fraction m e in
  let reached := if 0 <=? k + 1 then den * 10 ^ (k + 1) <=? num else den <=? num * 10 ^ (- (k + 1)) in
  if reached then k + 1 else k.

(** The [n]-digit decimal nearest [x] among those that read back as [x], with its exponent. *)
Definition digits_of (n : Z) (m : positive) (e : Z) : option (Z * Z) :=
  let x := S754_finite false m e in
  let p := exponent10 m e - (n - 1) in
  let '(num, den) := fraction m e in
  let '(num, den) := if 0 <=? p then (num, den * 10 ^ p) else (num * 10 ^ (- p), den) in
  let low := num / den in
  let near_low := 2 * (num mod den) <=? den in
  let reads d := SFeqb (of_decimal d p) x in
  match reads low, reads (low + 1) with
  | true, true => Some (if near_low then low else low + 1, p)
  | true, false => Some (low, p)
  | false, true => Some (low + 1, p)
  | false, false => None
  end.

(** Seventeen digits are always enough. *)
Definition shortest (m : positive) (e : Z) : Z * Z :=
  default (0, 0) (head (omap (fun n => digits_of n m e) [1; 2; 3; 4; 5; 6; 7; 8; 9; 10; 11; 12; 13; 14; 15; 16; 17])).

Definition trailing_zero (c : ascii) : bool := Ascii.eqb c "0"%char.
Definition repr_float (x : float) : string :=
  match x with
  | S754_nan => "nan"
  | S754_infinity s => if s then "-inf" else "inf"
  | S754_zero s => if s then "-0.0" else "0.0"
  | S754_finite s m e =>
      let '(d, p) := shortest m e in
      let all := zstr d in
      let point := Z.of_nat (String.length all) + p in
      let digits := of_chars (reverse (drop_chars trailing_zero (reverse (chars all)))) in
      let n := Z.of_nat (String.length digits) in
      (if s then "-" else "") +:+
      if (point <=? -4) || (16 <? point) then
        String.substring 0 1 digits +:+ (if (1 <? n) then "." +:+ String.substring 1 (String.length digits) digits else "")
          +:+ "e" +:+ (if point - 1 <? 0 then "-" else "+") +:+ pad_left 2 (zstr (Z.abs (point - 1)))
      else if point <=? 0 then "0." +:+ zeros (Z.to_nat (- point)) +:+ digits
      else if n <=? point then digits +:+ zeros (Z.to_nat (point - n)) +:+ ".0"
      else String.substring 0 (Z.to_nat point) digits +:+ "." +:+ String.substring (Z.to_nat point) (String.length digits) digits
  end.

Example repr_float_ex : map repr_float
  [ratio 1 10; fadd (ratio 1 10) (ratio 2 10); ratio 1 3; float_of_int 1; of_decimal 1 16; of_decimal 1 15; ratio 1 10000;
   ratio 1 100000; of_decimal 123456 20; SFopp (ratio 5 4); S754_finite false 1 (-1074); fsub (ratio 1 4) (ratio 3 4)] =
  ["0.1"; "0.30000000000000004"; "0.3333333333333333"; "1.0"; "1e+16"; "1000000000000000.0"; "0.0001"; "1e-05"; "1.23456e+25";
   "-1.25"; "5e-324"; "-0.5"].
Proof. vm_compute. reflexivity. Qed.

(** ** The built-ins applied to documents *)

Fixpoint doc_repr (v : doc) : string :=
  match v with
  | DNull => "None"
  | DBool b => if b then "True" else "False"
  | DInt z => zstr z
  | DFloat f => repr_float f
  | DStr s => repr_str s
  | DList l => "[" +:+ join ", " (map doc_repr l) +:+ "]"
  | DDict d => "{" +:+ join ", " (map (fun '(k, x) => repr_str k +:+ ": " +:+ doc_repr x) d) +:+ "}"
  end.
Definition doc_str (v : doc) : string := match v with DStr s => s | v => doc_repr v end.

Definition doc_truthy (v : doc) : bool :=
  match v with
  | DNull => false
  | DBool b => b
  | DInt z => negb (z =? 0)
  | DFloat f => negb (SFeqb f fzero)
  | DStr s => negb (String.eqb s "")
  | DList l => nonempty l
  | DDict d => nonempty d
  end.

(** [int(v)] *)
Definition trunc (f : float) : res Z :=
  match f with
  | S754_nan => Raise (ValueError "cannot convert float NaN to integer")
  | S754_infinity _ => Raise (OverflowError "cannot convert float infinity to integer")
  | S754_zero _ => Ok 0
  | S754_finite s m e => let '(num, den) := fraction m e in Ok (if s then - (num / den) else num / den)
  end.
Definition doc_int (v : doc) : res Z :=
  match v with
  | DBool b => py_int (VBool b)
  | DInt z => Ok z
  | DFloat f => trunc f
  | DStr s => py_int (VStr s)
  | _ => py_int VNone
  end.

(** [isinstance(v, int | float)], a boolean being an integer, and then [float(v)] *)
Inductive number := NInt (z : Z) | NFloat (f : float).
Definition as_num (v : doc) : option number :=
  match v with DBool b => Some (NInt (Z.b2z b)) | DInt z => Some (NInt z) | DFloat f => Some (NFloat f) | _ => None end.
Definition is_inf (f : float) : bool := match f with S754_infinity _ => true | _ => false end.
Definition to_float (n : number) : res float :=
  match n with
  | NInt z => raise_if (is_inf (float_of_int z)) (OverflowError "int too large to convert to float") ;; mret (float_of_int z)
  | NFloat f => mret f
  end.

(** [n / d] of a count by a float *)
Definition fdiv (x y : float) : float := SFdiv prec emax x y.

Definition is_text (s : string) (v : doc) : bool := match v with DStr t => String.eqb t s | _ => false end.
Definition is_bool (b : bool) (v : doc) : bool := match v with DBool c => Bool.eqb b c | _ => false end.

(** The texts of a list, if it is a list of texts. *)
Definition as_texts (l : list doc) : option (list string) := mapM (fun v => match v with DStr s => Some s | _ => None end) l.

(** ** Items, iteration, equality and [float] of text *)

(** [v[k]] of any document *)
Definition doc_item (k : string) (v : doc) : res doc :=
  match v with
  | DDict d => ditem k d
  | DList _ => Raise (TypeError "list indices must be integers or slices, not str")
  | DStr _ => Raise (TypeError "string indices must be integers, not 'str'")
  | _ => Raise (TypeError "object is not subscriptable")
  end.

(** [for x in v] *)
Definition doc_iter (v : doc) : res (list doc) :=
  match v with
  | DList l => Ok l
  | DDict d => Ok (map DStr (od_keys d))
  | DStr s => Ok (map (fun c => DStr (String c EmptyString)) (chars s))
  | _ => Raise (TypeError "object is not iterable")
  end.

(** The fields of an object. *)
Definition fields (v : doc) : odict doc := match v with DDict d => d | _ => [] end.

Definition num_eqb (x y : number) : bool :=
  let exactly z f := match f with
    | S754_zero _ => z =? 0
    | S754_finite s m e => let '(num, den) := fraction m e in (if s then - num else num) =? z * den
    | _ => false
    end in
  match x, y with
  | NInt a, NInt b => a =? b
  | NInt a, NFloat f | NFloat f, NInt a => exactly a f
  | NFloat S754_nan, NFloat S754_nan => true
  | NFloat f, NFloat g => SFeqb f g
  end.

(** [==] inside a container: [True == 1 == 1.0], and dictionaries compare
    without order. [json.loads] gives one object for every [NaN], and a
    container takes an object to be equal to itself. *)
Fixpoint doc_eqb (a b : doc) {struct a} : bool :=
  match a, b with
  | DNull, DNull => true
  | DStr s, DStr t => String.eqb s t
  | DList l, DList m =>
      (fix go (l m : list doc) : bool :=
         match l, m with
         | [], [] => true
         | x :: l', y :: m' => doc_eqb x y && go l' m'
         | _, _ => false
         end) l m
  | DDict d, DDict e =>
      (length d =? length e)%nat &&
      (fix all (d : list (string * doc)) : bool :=
         match d with
         | [] => true
         | (k, x) :: d' => match od_get k e with Some y => doc_eqb x y | None => false end && all d'
         end) d
  | a, b => match as_num a, as_num b with Some x, Some y => num_eqb x y | _, _ => false end
  end.

(** [v in texts] for a set of texts: hashing a list or an object raises. *)
Definition in_texts (v : doc) (l : list string) : res bool :=
  match v with
  | DStr s => Ok (str_in s l)
  | DList _ => Raise (TypeError "unhashable type: 'list'")
  | DDict _ => Raise (TypeError "unhashable type: 'dict'")
  | _ => Ok false
  end.

(** The text of a number: underscores only between digits, then digits with
    an optional point and exponent. *)
Fixpoint drop_underscores (prev : bool) (l : list ascii) : option (list ascii) :=
  match l with
  | [] => Some []
  | c :: l' =>
      if Ascii.eqb c "_"%char
      then (if prev && match l' with d :: _ => is_digit d | [] => false end then drop_underscores false l' else None)
      else option_map (cons c) (drop_underscores (is_digit c) l')
  end.

Definition digits_span (l : list ascii) : list ascii * list ascii :=
  let rest := drop_chars is_digit l in (take (length l - length rest) l, rest).
Definition digits_int (l : list ascii) : Z := Z.of_N (decimal_value l).

(** An exponent, at the end of the text. *)
Definition exponent (l : list ascii) : option Z :=
  match l with
  | [] => Some 0
  | e :: l' =>
      let '(sign, l'') := match l' with "-"%char :: r => (-1, r) | "+"%char :: r => (1, r) | r => (1, r) end in
      if (Ascii.eqb (lower_char e) "e"%char) && nonempty l'' && forallb is_digit l'' then Some (sign * digits_int l'') else None
  end.

Definition unsigned_float (l : list ascii) : option float :=
  let word := casefold (of_chars l) in
  if str_in word ["inf"; "infinity"] then Some (S754_infinity false)
  else if String.eqb word "nan" then Some S754_nan
  else
    let '(whole, rest) := digits_span l in
    let '(part, rest) := match rest with "."%char :: r => digits_span r | r => ([], r) end in
    if nonempty (whole ++ part)
    then option_map (fun e => of_decimal (digits_int (whole ++ part)) (e - Z.of_nat (length part))) (exponent rest)
    else None.

Definition float_of_str (s : string) : option float :=
  l ← drop_underscores false (strip_chars is_space (chars s));
  match l with
  | "-"%char :: l' => option_map SFopp (unsigned_float l')
  | "+"%char :: l' => unsigned_float l'
  | l' => unsigned_float l'
  end.

(** [float(v)] *)
Definition doc_float (v : doc) : res float :=
  match v, as_num v with
  | DStr s, _ =>
      match float_of_str s with
      | Some f => Ok f
      | None => Raise (ValueError ("could not convert string to float: " +:+ repr_str s))
      end
  | _, Some n => to_float n
  | _, None => Raise (TypeError "float() argument must be a string or a real number")
  end.

Example float_of_str_ex : map float_of_str [" 1_0.5 "; "-.5e1"; "1e2"; "INF"; "1_"; "e5"; "+3."; "1e"; ""; "0.1"] =
  [Some (ratio 21 2); Some (SFopp (float_of_int 5)); Some (float_of_int 100); Some (S754_infinity false); None; None;
   Some (float_of_int 3); None; None; Some (ratio 1 10)].
Proof. vm_compute. reflexivity. Qed.

Example doc_eqb_ex :
  (doc_eqb (DList [DBool true; DFloat (ratio 1 2)]) (DList [DFloat fone; DFloat (ratio 5 10)]),
   doc_eqb (DDict [("a", DInt 1); ("b", DNull)]) (DDict [("b", DNull); ("a", DFloat fone)]),
   doc_eqb (DStr "1") (DInt 1), doc_eqb (DInt (2 ^ 53 + 1)) (DFloat (float_of_int (2 ^ 53)))) = (true, true, false, false).
Proof. vm_compute. reflexivity. Qed.

(** [a == b]: a [NaN] is not equal to itself. *)
Definition doc_is (a b : doc) : bool := match a with DFloat S754_nan => false | a => doc_eqb a b end.

(** [d.items()], [v in container] *)
Definition doc_items (v : doc) : res (odict doc) :=
  match v with DDict d => Ok d | _ => Raise (AttributeError "object has no attribute 'items'") end.
Definition text_in (s : string) (v : doc) : res bool :=
  match v with
  | DList l => Ok (existsb (is_text s) l)
  | DDict d => Ok (od_mem s d)
  | DStr t => Ok (contains s t)
  | _ => Raise (TypeError "argument is not iterable")
  end.
Definition doc_len (v : doc) : res Z :=
  match v with
  | DList l => Ok (Z.of_nat (length l))
  | DDict d => Ok (Z.of_nat (length d))
  | DStr s => Ok (Z.of_nat (String.length s))
  | _ => Raise (TypeError "object has no len()")
  end.

(** A set of hashable values, in the order they came; membership and inclusion. *)
Definition hash_all (l : list doc) : res (list doc) := _ ← mapM (fun v => in_texts v []) l; mret l.
Definition doc_set (v : doc) : res (list doc) := l ← doc_iter v; hash_all l.
Definition set_mem (v : doc) (l : list doc) : bool := existsb (fun x => doc_eqb x v) l.
Definition set_incl (l m : list doc) : bool := forallb (fun v => set_mem v m) l.
Definition set_eqb (l m : list doc) : bool := set_incl l m && set_incl m l.

(** [v in container] for any value *)
Definition doc_in (v c : doc) : res bool :=
  match c with
  | DDict d => in_texts v (od_keys d)
  | DList l => Ok (set_mem v l)
  | DStr t => match v with DStr s => Ok (contains s t) | _ => Raise (TypeError "'in <string>' requires string as left operand") end
  | _ => Raise (TypeError "argument is not iterable")
  end.

(** [any(...)] *)
Definition anyM {A} (f : A -> res bool) (l : list A) : res bool :=
  o ← find_first f l;
  mret (match o with Some _ => true | None => false end).

(** ** Lemmas *)

Lemma Ok_inj {A} (a b : A) : (Ok a : res A) = Ok b -> a = b.
Proof. congruence. Qed.

Lemma anyM_true {A} (f : A -> res bool) l : anyM f l = Ok true -> exists x, In x l /\ f x = Ok true.
Proof. unfold anyM. intros ([x|] & Hx & [=])%bind_Ok. exists x. by apply find_first_Some. Qed.

Lemma mapM_mjoin_nil {A B} (f : A -> res (list B)) l : (r ← mapM f l; mret (mjoin r)) = Ok [] <->
  forall x, In x l -> f x = Ok [].
Proof.
  split.
  - intros (r & Hr & [= E])%bind_Ok x Hx. apply mapM_Ok in Hr.
    destruct (Forall2_In_l _ _ _ _ Hr Hx) as (y & Hy & ->). f_equal.
    apply (proj1 (mjoin_nil r)) in E. rewrite Forall_forall in E. by apply E, list_elem_of_In.
  - intros Hl. rewrite (mapM_all_Ok f (fun _ => [])) by done. cbn. f_equal. apply mjoin_nil, Forall_forall.
    by intros y (x & <- & _)%list_elem_of_In%in_map_iff.
Qed.

Lemma is_text_eq s v : is_text s v = true -> v = DStr s.
Proof. destruct v as [| | | |t| |]; try done. by intros ->%String.eqb_eq. Qed.

Lemma in_texts_true v l : in_texts v l = Ok true -> exists s, v = DStr s /\ In s l.
Proof. destruct v as [| | | |t| |]; try done. intros [= H%str_in_In]. eauto. Qed.

Lemma get_set_eq k v d : get k (od_set k v d) = v.
Proof. unfold get, get_or. by rewrite od_get_set_eq. Qed.

Lemma as_texts_texts l : as_texts (map DStr l) = Some l.
Proof. unfold as_texts. induction l as [|x l IH]; [done|]. cbn. by rewrite IH. Qed.

Lemma as_texts_Some l ts : as_texts l = Some ts -> l = map DStr ts.
Proof.
  unfold as_texts. revert ts. induction l as [|x l IH]; intros ts H; cbn in H; [by injection H as <-|].
  destruct x; try done. cbn in H. apply bind_Some in H as (ts' & H & [= <-]). cbn. f_equal. by apply IH.
Qed.

(** Every object of a document has distinct keys, as [json.loads] gives. *)
Fixpoint distinct (v : doc) : bool :=
  match v with
  | DList l => forallb distinct l
  | DDict d => bool_decide (NoDup (od_keys d)) && forallb (fun '(_, x) => distinct x) d
  | _ => true
  end.

Lemma doc_eqb_str v s : doc_eqb v (DStr s) = true -> v = DStr s.
Proof. destruct v as [| | | |t| |]; try done. by intros ->%String.eqb_eq. Qed.

Lemma doc_eqb_list v l : doc_eqb v (DList l) = true ->
  exists l0, v = DList l0 /\ Forall2 (fun x y => doc_eqb x y = true) l0 l.
Proof.
  destruct v as [| | | | |l0|]; try done. intros H. exists l0. split; [done|]. revert l H.
  induction l0 as [|x l0 IH]; intros [|y l] H; try done. cbn in H. apply andb_true_iff in H as [Hx H]. by constructor; auto.
Qed.

Lemma doc_eqb_dict v e : doc_eqb v (DDict e) = true -> exists d, v = DDict d /\ length d = length e /\
  forall k x, In (k, x) d -> exists y, od_get k e = Some y /\ doc_eqb x y = true.
Proof.
  destruct v as [| | | | | |d]; try done. cbn. intros [Hl%Nat.eqb_eq H]%andb_true_iff. exists d. split_and!; [done..|].
  clear Hl. induction d as [|[k' x'] d IH]; intros k x; [by intros []|]. intros [[= -> ->]|Hin].
  - apply andb_true_iff in H as [H _]. destruct (od_get k e); [eauto|done].
  - apply andb_true_iff in H as [_ H]. by apply IH.
Qed.

(** An object equal to another has each of its fields. *)
Lemma doc_eqb_field v e k y : doc_eqb v (DDict e) = true -> distinct v = true -> od_get k e = Some y ->
  exists d x, v = DDict d /\ od_get k d = Some x /\ distinct x = true /\ doc_eqb x y = true.
Proof.
  intros (d & -> & Hl & H)%doc_eqb_dict Hd Hk. cbn [distinct] in Hd.
  apply andb_true_iff in Hd as [Hn%bool_decide_eq_true Hd].
  assert (Hin : In k (od_keys d)).
  { apply (NoDup_length_incl (l := od_keys d) (l' := od_keys e)).
    - by apply NoDup_ListNoDup.
    - unfold od_keys. rewrite !length_map. lia.
    - intros k' ([k0 x] & <- & Hx)%in_map_iff. apply H in Hx as (y' & Hy & _). by apply od_get_In, (in_map fst) in Hy.
    - by apply od_get_In, (in_map fst) in Hk. }
  apply in_map_iff in Hin as ([k0 x] & E & Hx). cbn in E. subst k0. exists d, x.
  split; [done|]. split; [by apply od_get_NoDup|]. split.
  - by apply (proj1 (forallb_forall _ _) Hd) in Hx.
  - apply H in Hx as (y' & Hy & Heq). rewrite Hk in Hy. by injection Hy as <-.
Qed.

(** ** A dynamic value is a document without fractions *)

Fixpoint of_value (v : value) : doc :=
  match v with
  | VNone => DNull
  | VBool b => DBool b
  | VInt z => DInt z
  | VStr s => DStr s
  | VList l => DList (map of_value l)
  | VDict d => DDict (map (fun kv => (kv.1, of_value kv.2)) d)
  end.

(** [n / d] of two counts *)
Definition quotient (n d : Z) : float := fdiv (float_of_int n) (float_of_int d).

Lemma doc_item_get k v x : doc_item k v = Ok x -> v = DDict (fields v) /\ get k (fields v) = x.
Proof.
  destruct v as [| | | | | |d]; try done. unfold get, get_or. cbn. unfold ditem.
  destruct (od_get k d); [|done]. by intros [= ->].
Qed.

Lemma doc_iter_items l v k x y : doc_iter v = Ok l -> In x l -> doc_item k x = Ok y -> v = DList l.
Proof.
  destruct v as [| | | |t|l'|d]; try done; intros [= <-]; try done; intros (c & <- & _)%in_map_iff; done.
Qed.

Lemma doc_is_str s v : doc_is (DStr s) v = true -> v = DStr s.
Proof. destruct v; try done. cbn. by intros ->%String.eqb_eq. Qed.
