(* ===== verification/ShadowEvaluation.v ===== *)
(** * Shadow evaluation: how a candidate version decides on recorded traces

    Models [operations/shadow_evaluation.py]. A snapshot holds trace events with
    the outcome of the baseline and of the candidate version; one pass over them
    counts, and the report divides. A malformed field is an error of the report
    and counts as [False], the empty text or the empty list. *)

From Stdlib Require Import SpecFloat.
From S2P Require Import Prelude PyStr PyFloat PyValue Documents.
Open Scope string_scope.
Open Scope list_scope.

(** ** Reading an event: what a field holds, and the errors found in it *)

Definition _as_bool (v : doc) (field trace_id : string) : bool * list string :=
  match v with
  | DBool b => (b, [])
  | _ => (false, [trace_id +:+ ": " +:+ field +:+ " must be a boolean."])
  end.

Definition _as_str (v : doc) (field trace_id : string) : string * list string :=
  let error := ("", [trace_id +:+ ": " +:+ field +:+ " must be a non-empty string."]) in
  match v with
  | DStr s => if nonblank s then (s, []) else error
  | _ => error
  end.

Definition _as_str_list (v : doc) (field trace_id : string) : list string * list string :=
  let error := ([], [trace_id +:+ ": " +:+ field +:+ " must be a list of strings."]) in
  match v with
  | DList l => match as_texts l with Some ts => (ts, []) | None => error end
  | _ => error
  end.

(** [baseline = event.get("baseline")], an object or else an error and [{}] *)
Definition outcome_of (side : string) (event : odict doc) (trace_id : string) : odict doc * list string :=
  match get side event with
  | DDict d => (d, [])
  | _ => ([], [trace_id +:+ ": " +:+ side +:+ " must be an object."])
  end.

Record Outcome := mkOutcome { abstained : bool; mixed_profile : bool; detected : bool; selected_ids : list string }.
Record Trace := mkTrace {
  change_type : string;
  expected_violation : bool;
  expected_ids : list string;
  baseline : Outcome;
  candidate : Outcome;
}.

Definition read_event (trace_id : string) (event : odict doc) : Trace * list string :=
  let '(change, e1) := _as_str (get "change_type" event) "change_type" trace_id in
  let '(violation, e2) := _as_bool (get "expected_safety_violation" event) "expected_safety_violation" trace_id in
  let '(ids, e3) := _as_str_list (get "expected_selection_ids" event) "expected_selection_ids" trace_id in
  let '(b, e4) := outcome_of "baseline" event trace_id in
  let '(c, e5) := outcome_of "candidate" event trace_id in
  let '(b_abstained, e6) := _as_bool (get "abstained" b) "baseline.abstained" trace_id in
  let '(c_abstained, e7) := _as_bool (get "abstained" c) "candidate.abstained" trace_id in
  let '(b_mixed, e8) := _as_bool (get "mixed_profile" b) "baseline.mixed_profile" trace_id in
  let '(c_mixed, e9) := _as_bool (get "mixed_profile" c) "candidate.mixed_profile" trace_id in
  let '(b_detected, e10) := _as_bool (get "safety_violation_detected" b) "baseline.safety_violation_detected" trace_id in
  let '(c_detected, e11) := _as_bool (get "safety_violation_detected" c) "candidate.safety_violation_detected" trace_id in
  let '(b_selected, e12) := _as_str_list (get "selected_module_ids" b) "baseline.selected_module_ids" trace_id in
  let '(c_selected, e13) := _as_str_list (get "selected_module_ids" c) "candidate.selected_module_ids" trace_id in
  (mkTrace change violation ids (mkOutcome b_abstained b_mixed b_detected b_selected)
     (mkOutcome c_abstained c_mixed c_detected c_selected),
   e1 ++ e2 ++ e3 ++ e4 ++ e5 ++ e6 ++ e7 ++ e8 ++ e9 ++ e10 ++ e11 ++ e12 ++ e13).

(** ** Counting *)

Record Stats := mkStats {
  baseline_tp : Z; baseline_selected : Z; baseline_expected : Z;
  candidate_tp : Z; candidate_selected : Z; candidate_expected : Z;
}.
Record Tally := mkTally {
  errors : list string;
  decision_changes : Z;
  baseline_abstentions : Z;
  candidate_abstentions : Z;
  baseline_mixed_profile : Z;
  candidate_mixed_profile : Z;
  baseline_expected_safety : Z;
  candidate_expected_safety : Z;
  baseline_false_negatives : Z;
  candidate_false_negatives : Z;
  selection_stats : odict Stats;
}.
Definition no_stats : Stats := mkStats 0 0 0 0 0 0.
Definition no_tally : Tally := mkTally [] 0 0 0 0 0 0 0 0 0 [].

Definition len_set (s : gset string) : Z := Z.of_nat (size s).
Definition id_set (l : list string) : gset string := list_to_set l.

(** [stats["baseline_tp"] += ...] and the other five *)
Definition add_stats (x : Trace) (s : Stats) : Stats :=
  let expected_set := id_set (expected_ids x) in
  let baseline_set := id_set (selected_ids (baseline x)) in
  let candidate_set := id_set (selected_ids (candidate x)) in
  mkStats (baseline_tp s + len_set (baseline_set ∩ expected_set)) (baseline_selected s + len_set baseline_set)
    (baseline_expected s + len_set expected_set)
    (candidate_tp s + len_set (candidate_set ∩ expected_set)) (candidate_selected s + len_set candidate_set)
    (candidate_expected s + len_set expected_set).

Definition signature (o : Outcome) : bool * bool * bool * list string :=
  (abstained o, mixed_profile o, detected o, sorted_set (id_set (selected_ids o))).
Definition decision_changed (x : Trace) : bool := bool_decide (signature (baseline x) <> signature (candidate x)).

Definition tally_trace (t : Tally) (x : Trace) (found : list string) : Tally :=
  let violated := Z.b2z (expected_violation x) in
  let missed o := Z.b2z (expected_violation x && negb (detected o)) in
  mkTally (errors t ++ found)
    (decision_changes t + Z.b2z (decision_changed x))
    (baseline_abstentions t + Z.b2z (abstained (baseline x))) (candidate_abstentions t + Z.b2z (abstained (candidate x)))
    (baseline_mixed_profile t + Z.b2z (mixed_profile (baseline x)))
    (candidate_mixed_profile t + Z.b2z (mixed_profile (candidate x)))
    (baseline_expected_safety t + violated) (candidate_expected_safety t + violated)
    (baseline_false_negatives t + missed (baseline x)) (candidate_false_negatives t + missed (candidate x))
    (if negb (String.eqb (change_type x) "")
     then od_set (change_type x) (add_stats x (default no_stats (od_get (change_type x) (selection_stats t)))) (selection_stats t)
     else selection_stats t).

Definition tally_event (t : Tally) (indexed : nat * doc) : Tally :=
  let trace_id := "trace[" +:+ zstr (Z.of_nat indexed.1) +:+ "]" in
  match indexed.2 with
  | DDict event =>
      let given := get "trace_id" event in
      let '(x, found) := read_event (doc_str (if doc_truthy given then given else DStr trace_id)) event in
      tally_trace t x found
  | _ => mkTally (errors t ++ [trace_id +:+ ": event must be an object."]) (decision_changes t)
           (baseline_abstentions t) (candidate_abstentions t) (baseline_mixed_profile t) (candidate_mixed_profile t)
           (baseline_expected_safety t) (candidate_expected_safety t) (baseline_false_negatives t)
           (candidate_false_negatives t) (selection_stats t)
  end.

Definition enumerate {A} (l : list A) : list (nat * A) := imap (fun i x => (i, x)) l.
Definition tally (trace_events : list doc) : Tally := foldl tally_event no_tally (enumerate trace_events).

(** ** The report *)

Definition per (n : Z) (total : float) : float := fdiv (float_of_int n) total.
Definition _rate (numerator total : Z) : float := if (total <=? 0)%Z then fzero else per numerator (float_of_int total).
Definition _precision (tp selected : Z) : float := if (selected <=? 0)%Z then fone else per tp (float_of_int selected).
Definition _recall (tp expected : Z) : float := if (expected <=? 0)%Z then fone else per tp (float_of_int expected).

(** [{"baseline": b, "candidate": c, "delta": c - b}] *)
Definition compared (b c : float) : doc := DDict [("baseline", DFloat b); ("candidate", DFloat c); ("delta", DFloat (fsub c b))].

Definition drift (s : Stats) : doc :=
  DDict [("precision", compared (_precision (baseline_tp s) (baseline_selected s)) (_precision (candidate_tp s) (candidate_selected s)));
         ("recall", compared (_recall (baseline_tp s) (baseline_expected s)) (_recall (candidate_tp s) (candidate_expected s)));
         ("trace_count", DInt (baseline_expected s))].

Definition metrics_of (event_count : Z) (t : Tally) : odict doc :=
  let denominator := if (0 <? event_count)%Z then float_of_int event_count else fone in
  [("decision_change_rate", DFloat (per (decision_changes t) denominator));
   ("abstention_rate", compared (per (baseline_abstentions t) denominator) (per (candidate_abstentions t) denominator));
   ("mixed_profile_rate", compared (per (baseline_mixed_profile t) denominator) (per (candidate_mixed_profile t) denominator));
   ("safety_false_negative_rate", compared (_rate (baseline_false_negatives t) (baseline_expected_safety t))
                                           (_rate (candidate_false_negatives t) (candidate_expected_safety t)));
   ("selection_drift_by_change_type",
      DDict (map (fun kv => (kv.1, drift kv.2)) (py_sorted (fun a b => str_leb a.1 b.1) (selection_stats t))))].

Definition report_of (snapshot : odict doc) (event_count : Z) (t : Tally) : odict doc :=
  [("status", DStr (if nonempty (errors t) then "failed" else "passed"));
   ("snapshot_contract_version", get "contract_version" snapshot);
   ("baseline_versions", get_or "baseline_versions" (DDict []) snapshot);
   ("candidate_versions", get_or "candidate_versions" (DDict []) snapshot);
   ("event_count", DInt event_count);
   ("evaluation_error_count", DInt (Z.of_nat (length (errors t))));
   ("evaluation_errors", texts (errors t));
   ("metrics", DDict (metrics_of event_count t))].

Definition evaluate_shadow_snapshot (snapshot : odict doc) : res (odict doc) :=
  match get "trace_events" snapshot with
  | DList trace_events => mret (report_of snapshot (Z.of_nat (length trace_events)) (tally trace_events))
  | _ => Raise (ShadowEvaluationError "snapshot.trace_events must be a list.")
  end.

(** ** What a snapshot says *)

Definition outcome_says (o : Outcome) (v : doc) : Prop :=
  exists d, v = DDict d /\ get "abstained" d = DBool (abstained o) /\ get "mixed_profile" d = DBool (mixed_profile o) /\
    get "safety_violation_detected" d = DBool (detected o) /\ get "selected_module_ids" d = texts (selected_ids o).

(** An event of the shape the contract asks for, and the trace it states. *)
Definition says (x : Trace) (v : doc) : Prop :=
  exists e, v = DDict e /\ get "change_type" e = DStr (change_type x) /\ nonblank (change_type x) = true /\
    get "expected_safety_violation" e = DBool (expected_violation x) /\ get "expected_selection_ids" e = texts (expected_ids x) /\
    outcome_says (baseline x) (get "baseline" e) /\ outcome_says (candidate x) (get "candidate" e).

(** The counts, each on its own. *)
Definition count (p : Trace -> bool) (ts : list Trace) : Z := Z.of_nat (length (List.filter p ts)).
Definition sum (f : Trace -> Z) (ts : list Trace) : Z := foldr Z.add 0%Z (map f ts).
Definition misses (side : Trace -> Outcome) (x : Trace) : bool := expected_violation x && negb (detected (side x)).
Definition selected_of (side : Trace -> Outcome) (x : Trace) : gset string := id_set (selected_ids (side x)).
Definition expected_of (x : Trace) : gset string := id_set (expected_ids x).
Definition stats_of (ts : list Trace) : Stats :=
  mkStats (sum (fun x => len_set (selected_of baseline x ∩ expected_of x)) ts) (sum (fun x => len_set (selected_of baseline x)) ts)
    (sum (fun x => len_set (expected_of x)) ts)
    (sum (fun x => len_set (selected_of candidate x ∩ expected_of x)) ts) (sum (fun x => len_set (selected_of candidate x)) ts)
    (sum (fun x => len_set (expected_of x)) ts).
Definition of_type (c : string) (ts : list Trace) : list Trace := List.filter (fun x => String.eqb (change_type x) c) ts.
Definition counted (ts : list Trace) : Tally :=
  mkTally [] (count decision_changed ts) (count (fun x => abstained (baseline x)) ts) (count (fun x => abstained (candidate x)) ts)
    (count (fun x => mixed_profile (baseline x)) ts) (count (fun x => mixed_profile (candidate x)) ts)
    (count expected_violation ts) (count expected_violation ts) (count (misses baseline) ts) (count (misses candidate) ts)
    (map (fun c => (c, stats_of (of_type c ts))) (fromkeys (map change_type ts))).

(** ** Lemmas *)

Lemma as_bool_nil v f id : (_as_bool v f id).2 = [] <-> v = DBool (_as_bool v f id).1.
Proof. by destruct v. Qed.

Lemma as_str_nil v f id : (_as_str v f id).2 = [] <-> v = DStr (_as_str v f id).1 /\ nonblank (_as_str v f id).1 = true.
Proof. destruct v; try by (split; [|intros []]). cbn. destruct (nonblank s) eqn:E; [done|]. split; [done|]. intros [_ H]. done. Qed.

Lemma as_str_list_nil v f id : (_as_str_list v f id).2 = [] <-> v = texts (_as_str_list v f id).1.
Proof.
  destruct v; try done. cbn. destruct (as_texts l) as [ts|] eqn:E; cbn.
  - apply as_texts_Some in E as ->. done.
  - split; [done|]. intros [= ->]. done.
Qed.

Lemma outcome_of_nil side e id : (outcome_of side e id).2 = [] <-> get side e = DDict (outcome_of side e id).1.
Proof. unfold outcome_of. by destruct (get side e). Qed.

(** An event that states a trace is read without an error, as that trace. *)
Lemma says_read id e x : says x (DDict e) -> read_event id e = (x, []).
Proof.
  destruct x as [change violation ids [ba bm bd bs] [ca cm cd cs]].
  intros (e' & [= <-] & H1 & H2 & H3 & H4 & (b & Hb & B1 & B2 & B3 & B4) & (c & Hc & C1 & C2 & C3 & C4)). cbn in *.
  unfold read_event, outcome_of. rewrite H1, H3, H4, Hb, Hc, B1, B2, B3, B4, C1, C2, C3, C4. cbn.
  by rewrite H2, !as_texts_texts.
Qed.

(** An event read without an error states the trace it is read as. *)
Lemma read_says id e x : read_event id e = (x, []) -> says x (DDict e).
Proof.
  unfold read_event.
  pose proof (as_str_nil (get "change_type" e) "change_type" id) as H1.
  pose proof (as_bool_nil (get "expected_safety_violation" e) "expected_safety_violation" id) as H2.
  pose proof (as_str_list_nil (get "expected_selection_ids" e) "expected_selection_ids" id) as H3.
  pose proof (outcome_of_nil "baseline" e id) as H4. pose proof (outcome_of_nil "candidate" e id) as H5.
  destruct (_as_str _ _ _) as [change e1], (_as_bool _ _ _) as [violation e2], (_as_str_list _ _ _) as [ids e3],
    (outcome_of "baseline" e id) as [b e4], (outcome_of "candidate" e id) as [c e5].
  pose proof (as_bool_nil (get "abstained" b) "baseline.abstained" id) as H6.
  pose proof (as_bool_nil (get "abstained" c) "candidate.abstained" id) as H7.
  pose proof (as_bool_nil (get "mixed_profile" b) "baseline.mixed_profile" id) as H8.
  pose proof (as_bool_nil (get "mixed_profile" c) "candidate.mixed_profile" id) as H9.
  pose proof (as_bool_nil (get "safety_violation_detected" b) "baseline.safety_violation_detected" id) as H10.
  pose proof (as_bool_nil (get "safety_violation_detected" c) "candidate.safety_violation_detected" id) as H11.
  pose proof (as_str_list_nil (get "selected_module_ids" b) "baseline.selected_module_ids" id) as H12.
  pose proof (as_str_list_nil (get "selected_module_ids" c) "candidate.selected_module_ids" id) as H13.
  repeat match goal with |- context[_as_bool ?v ?f ?i] => destruct (_as_bool v f i) end.
  repeat match goal with |- context[_as_str_list ?v ?f ?i] => destruct (_as_str_list v f i) end.
  cbn [fst snd] in *. intros [= <- Hnil]. rewrite !app_nil_iff, H1, H2, H3, H4, H5, H6, H7, H8, H9, H10, H11, H12, H13 in Hnil.
  destruct Hnil as (? & ? & ? & Hb & Hc & ?). exists e. cbn. rewrite Hb, Hc. unfold outcome_says. naive_solver.
Qed.

Lemma count_snoc p ts x : count p (ts ++ [x]) = (count p ts + Z.b2z (p x))%Z.
Proof. unfold count. rewrite List.filter_app, length_app. cbn. destruct (p x); cbn; lia. Qed.

Lemma sum_snoc f ts x : sum f (ts ++ [x]) = (sum f ts + f x)%Z.
Proof. unfold sum. induction ts as [|y ts IH]; cbn in *; lia. Qed.

Lemma stats_of_snoc ts x : stats_of (ts ++ [x]) = add_stats x (stats_of ts).
Proof. unfold stats_of, add_stats. by rewrite !sum_snoc. Qed.

Lemma of_type_snoc c ts x : of_type c (ts ++ [x]) = if String.eqb (change_type x) c then of_type c ts ++ [x] else of_type c ts.
Proof. unfold of_type. rewrite List.filter_app. cbn. destruct (String.eqb _ c); [done|by rewrite app_nil_r]. Qed.

Lemma of_type_nil c ts : ~ In c (map change_type ts) -> of_type c ts = [].
Proof.
  unfold of_type. intros H. induction ts as [|x ts IH]; [done|]. cbn [map List.filter]. destruct (String.eqb_spec (change_type x) c) as [Hx|].
  - exfalso. apply H. by left.
  - apply IH. intros Hc. apply H. by right.
Qed.

Lemma tally_snoc events e : tally (events ++ [e]) = tally_event (tally events) (length events, e).
Proof. unfold tally, enumerate. rewrite imap_app, foldl_app. cbn. by rewrite Nat.add_0_r. Qed.

Lemma counted_snoc ts x : change_type x <> "" -> counted (ts ++ [x]) = tally_trace (counted ts) x [].
Proof.
  intros Hx. unfold counted, tally_trace. cbn. apply String.eqb_neq in Hx as ->. cbn. rewrite !count_snoc. f_equal.
  rewrite map_app. cbn [map]. rewrite od_get_tabulate, fromkeys_snoc. set (keys := map change_type ts).
  rewrite (str_in_ext (change_type x) (fromkeys keys) keys) by apply fromkeys_In.
  destruct (str_in (change_type x) keys) eqn:E; cbn [default].
  - unfold id. rewrite <- stats_of_snoc.
    replace (of_type (change_type x) ts ++ [x]) with (of_type (change_type x) (ts ++ [x])) by (by rewrite of_type_snoc, String.eqb_refl).
    symmetry. apply (od_set_tabulate (fun c => stats_of (of_type c ts)) (fun c => stats_of (of_type c (ts ++ [x])))).
    + apply fromkeys_NoDup.
    + by apply fromkeys_In, str_in_In.
    + intros c Hc. rewrite of_type_snoc. apply not_eq_sym, String.eqb_neq in Hc as ->. done.
  - assert (Hk : ~ In (change_type x) keys) by by apply str_in_false.
    rewrite od_set_new by (rewrite od_get_tabulate, (str_in_ext _ _ keys), E; [done|apply fromkeys_In]). rewrite map_app. cbn [map]. f_equal.
    + apply map_ext_in. intros c Hc. rewrite of_type_snoc. destruct (String.eqb_spec (change_type x) c) as [<-|]; [|done].
      exfalso. by apply Hk, fromkeys_In.
    + do 2 f_equal. rewrite of_type_snoc, String.eqb_refl, stats_of_snoc.
      by rewrite of_type_nil.
Qed.

(** Reading a snapshot finds no error exactly when its events state traces, and
    then the pass over them counts what each count says. *)
Lemma tally_errors events : errors (tally events) = [] <-> exists ts, Forall2 says ts events.
Proof.
  induction events as [|e events IH] using rev_ind; [by split; [exists []|]|]. rewrite tally_snoc. unfold tally_event.
  cbn [fst snd]. assert (Hno : forall ts, Forall2 says ts (events ++ [e]) -> exists x, says x e).
  { intros ts (ts1 & ts2 & _ & H & _)%Forall2_app_inv_r. inversion H; eauto. }
  destruct e as [| | | | | |e]; try by (split; [cbn; by intros [_ ?]%app_nil_iff|intros [ts (x & e' & ? & _)%Hno]]).
  destruct (read_event _ e) as [x found] eqn:E. cbn [errors tally_trace]. rewrite app_nil_iff, IH. split.
  - intros [[ts Hts] ->]. exists (ts ++ [x]). apply Forall2_app; [done|]. constructor; [|constructor]. by eapply read_says.
  - intros [ts (ts1 & ts2 & H1 & H2 & ->)%Forall2_app_inv_r]. split; [by exists ts1|]. inversion H2 as [|x' ? ? ? Hx]; subst.
    rewrite (says_read _ _ _ Hx) in E. by injection E.
Qed.

Lemma tally_counted ts events : Forall2 says ts events -> tally events = counted ts.
Proof.
  revert events. induction ts as [|x ts IH] using rev_ind; intros events H.
  { by apply Forall2_nil_inv_l in H as ->. }
  apply Forall2_app_inv_l in H as (events1 & events2 & H1 & H2 & ->). inversion H2 as [|? e ? ? Hx Hnil]; subst.
  apply Forall2_nil_inv_l in Hnil as ->. rewrite tally_snoc, (IH _ H1). unfold tally_event. cbn [fst snd].
  pose proof Hx as (e' & -> & _ & Hc & _). rewrite (says_read _ _ _ Hx). symmetry. apply counted_snoc. by intros E; rewrite E in Hc.
Qed.

(** ** Properties *)

(** C35. The report of a snapshot. It says passed exactly when every event has the
    shape the contract asks for; and then its metrics are those of the counts
    taken each on its own, over the traces the events state: decisions changed,
    abstentions, mixed profiles and missed violations, and per change type the
    selected, expected and rightly selected modules. *)
Theorem shadow_report_correct snapshot events : get "trace_events" snapshot = DList events ->
  exists report, evaluate_shadow_snapshot snapshot = Ok report /\
    (get "status" report = DStr "passed" <-> exists ts, Forall2 says ts events) /\
    forall ts, Forall2 says ts events -> get "metrics" report = DDict (metrics_of (Z.of_nat (length ts)) (counted ts)).
Proof.
  intros H. unfold evaluate_shadow_snapshot. rewrite H. eexists. split; [done|]. split.
  - rewrite <- tally_errors. cbn. destruct (errors (tally events)); cbn; naive_solver.
  - intros ts Hts. cbn. by rewrite (tally_counted _ _ Hts), (Forall2_length _ _ _ Hts).
Qed.

(** ** A snapshot *)

Definition outcome_doc (o : Outcome) : doc :=
  DDict [("abstained", DBool (abstained o)); ("mixed_profile", DBool (mixed_profile o));
         ("safety_violation_detected", DBool (detected o)); ("selected_module_ids", texts (selected_ids o))].
Definition trace_doc (x : Trace) : doc :=
  DDict [("trace_id", DStr "t"); ("change_type", DStr (change_type x)); ("expected_safety_violation", DBool (expected_violation x));
         ("expected_selection_ids", texts (expected_ids x)); ("baseline", outcome_doc (baseline x));
         ("candidate", outcome_doc (candidate x))].
Definition snapshot_of (events : list doc) : odict doc := [("contract_version", DStr "0.1.0"); ("trace_events", DList events)].

(** One review the candidate decides as the baseline, and one it abstains from. *)
Definition demo_traces : list Trace :=
  [mkTrace "code-review" false ["a"; "b"] (mkOutcome false false false ["a"; "b"]) (mkOutcome false false false ["b"; "a"]);
   mkTrace "code-review" true ["a"; "b"] (mkOutcome false false true ["a"]) (mkOutcome true false false [])].

Lemma demo_says : Forall2 says demo_traces (map trace_doc demo_traces).
Proof. repeat constructor; eexists; cbn; split_and!; try reflexivity; eexists; cbn; by split_and!. Defined.

Lemma shadow_report_correct_witness : exists report, evaluate_shadow_snapshot (snapshot_of (map trace_doc demo_traces)) = Ok report /\
  get "status" report = DStr "passed" /\ get "metrics" report = DDict (metrics_of 2 (counted demo_traces)).
Proof.
  destruct (shadow_report_correct (snapshot_of (map trace_doc demo_traces)) (map trace_doc demo_traces) eq_refl) as (report & E & Hs & Hm).
  exists report. split; [exact E|]. split; [apply Hs; exists demo_traces; exact demo_says|exact (Hm _ demo_says)].
Defined.

(** Half of the decisions changed, half of the traces abstained from; and the
    [trace_count] of the two reviews is the number of modules they expect. *)
Example demo_metrics : match evaluate_shadow_snapshot (snapshot_of (map trace_doc demo_traces)) with
  | Ok report => match get "metrics" report with
                 | DDict m => map (fun k => doc_repr (get k m)) ["decision_change_rate"; "abstention_rate"; "selection_drift_by_change_type"]
                 | _ => [] end
  | Raise _ => [] end =
  ["0.5"; "{'baseline': 0.0, 'candidate': 0.5, 'delta': 0.5}";
   "{'code-review': {'precision': {'baseline': 1.0, 'candidate': 1.0, 'delta': 0.0}, 'recall': {'baseline': 0.75, 'candidate': 0.5, 'delta': -0.25}, 'trace_count': 4}}"].
Proof. vm_compute. reflexivity. Qed.
