(* ===== verification/ReleaseGates.v ===== *)
(** * The release gates: thresholds, pre-canary, rollback

    Models the decision functions of
    scripts/operations/evaluate_shadow_regression_thresholds.py,
    scripts/release/evaluate_pre_canary_gate.py and
    scripts/release/evaluate_automatic_rollback_rules.py, each called [evaluate]
    in its script. A shadow report is held against a threshold policy, its result
    with the report of the invariant replay makes the pre-canary gate, and a
    failed gate asks for a rollback to a signed last-known-good version. The
    scripts hand the reports on as JSON files with sorted keys; no decision
    depends on the order of keys. *)

From Stdlib Require Import SpecFloat.
From S2P Require Import Prelude PyStr PyFloat PyValue Documents ShadowEvaluation.
Open Scope string_scope.
Open Scope list_scope.

(** ** Shadow regression thresholds *)

Definition require_object (v : doc) (msg : string) : res (odict doc) :=
  match v with DDict d => mret d | _ => Raise (ValueError msg) end.

Definition _require_number (v : doc) (field : string) : res float :=
  match as_num v with
  | Some n => to_float n
  | None => Raise (ValueError (field +:+ " must be numeric."))
  end.

Definition threshold_check (thresholds : odict doc) (check : string * float) : res (string * odict doc) :=
  let '(name, actual) := check in
  threshold ← _require_number (get name thresholds) name;
  mret (name, [("actual", DFloat actual); ("threshold", DFloat threshold); ("passed", DBool (SFleb actual threshold))]).

(** One change type: its check, and whether it has thresholds of its own. *)
Definition selection_check (default_thresholds per_change_thresholds : odict doc) (fail_closed : bool) (drift : string * doc)
    : res (string * odict doc) :=
  let '(change_type, drift_values) := drift in
  drift_values ← require_object drift_values (change_type +:+ " drift values must be an object.");
  let objects := change_type +:+ " precision/recall must be objects." in
  precision ← require_object (get "precision" drift_values) objects;
  recall ← require_object (get "recall" drift_values) objects;
  let explicit := od_mem change_type per_change_thresholds in
  configured ← require_object (get_or change_type (DDict default_thresholds) per_change_thresholds)
    (change_type +:+ " thresholds must be an object.");
  precision_delta_min ← _require_number (get "precision_delta_min" configured) (change_type +:+ " precision_delta_min");
  recall_delta_min ← _require_number (get "recall_delta_min" configured) (change_type +:+ " recall_delta_min");
  precision_delta ← _require_number (get "delta" precision) (change_type +:+ " precision delta");
  recall_delta ← _require_number (get "delta" recall) (change_type +:+ " recall delta");
  mret (change_type,
    [("precision_delta", DFloat precision_delta); ("precision_delta_min", DFloat precision_delta_min);
     ("precision_passed", DBool (SFleb precision_delta_min precision_delta));
     ("recall_delta", DFloat recall_delta); ("recall_delta_min", DFloat recall_delta_min);
     ("recall_passed", DBool (SFleb recall_delta_min recall_delta));
     ("threshold_source", DStr (if explicit then "by_change_type" else "default_thresholds"))]
    ++ (if negb explicit && fail_closed then [("missing_explicit_threshold", DBool true)] else [])).

Definition holds (field : string) (check : string * odict doc) : bool := is_bool true (get field check.2).
Definition is_missing (check : string * odict doc) : bool := od_mem "missing_explicit_threshold" check.2.

Definition objects_of (checks : list (string * odict doc)) : doc := DDict (map (fun kv => (kv.1, DDict kv.2)) checks).
Definition passed_or_failed (b : bool) : doc := DStr (if b then "passed" else "failed").

Definition evaluate_thresholds (policy report : odict doc) : res (odict doc) :=
  thresholds ← require_object (get "delta_thresholds" policy) "policy.delta_thresholds must be an object.";
  drift_policy ← require_object (get "selection_drift_policy" policy) "policy.selection_drift_policy must be an object.";
  metrics ← require_object (get "metrics" report) "shadow report metrics must be an object.";
  abstention ← require_object (get "abstention_rate" metrics) "metrics.abstention_rate must be an object.";
  mixed_profile ← require_object (get "mixed_profile_rate" metrics) "metrics.mixed_profile_rate must be an object.";
  safety ← require_object (get "safety_false_negative_rate" metrics) "metrics.safety_false_negative_rate must be an object.";
  selection_drift ← require_object (get "selection_drift_by_change_type" metrics)
    "metrics.selection_drift_by_change_type must be an object.";
  abstention_delta ← _require_number (get "delta" abstention) "abstention delta";
  mixed_delta ← _require_number (get "delta" mixed_profile) "mixed profile delta";
  safety_delta ← _require_number (get "delta" safety) "safety false-negative delta";
  decision_change_rate ← _require_number (get "decision_change_rate" metrics) "decision_change_rate";
  threshold_checks ← mapM (threshold_check thresholds)
    [("abstention_delta_max_abs", SFabs abstention_delta); ("mixed_profile_rate_delta_max_abs", SFabs mixed_delta);
     ("safety_false_negative_delta_max", safety_delta); ("decision_change_rate_max", decision_change_rate)];
  default_thresholds ← require_object (get "default_thresholds" drift_policy)
    "selection_drift_policy.default_thresholds must be an object.";
  per_change_thresholds ← require_object (get "by_change_type" drift_policy)
    "selection_drift_policy.by_change_type must be an object.";
  let fail_closed := doc_truthy (get_or "fail_closed_on_missing_change_type" (DBool true) drift_policy) in
  selection_checks ← mapM (selection_check default_thresholds per_change_thresholds fail_closed)
    (py_sorted (fun a b => str_leb a.1 b.1) selection_drift);
  let missing := map fst (List.filter is_missing selection_checks) in
  let selection_passed := forallb (fun c => holds "precision_passed" c && holds "recall_passed" c) selection_checks in
  let threshold_passed := forallb (holds "passed") threshold_checks in
  let missing_thresholds_passed := negb (nonempty missing) in
  mret [("status", passed_or_failed (threshold_passed && selection_passed && missing_thresholds_passed));
        ("threshold_checks", objects_of threshold_checks);
        ("selection_checks", objects_of selection_checks);
        ("missing_explicit_threshold_change_types", texts missing);
        ("summary", DDict [("threshold_passed", DBool threshold_passed); ("selection_passed", DBool selection_passed);
                           ("missing_thresholds_passed", DBool missing_thresholds_passed)])].

(** ** The pre-canary gate *)

(** [str(report.get("status") or "").lower()] *)
Definition status_of (report : odict doc) : string :=
  let status := get "status" report in casefold (if doc_truthy status then doc_str status else "").

(** The checks of a report that are objects. *)
Definition checks_of (field : string) (report : odict doc) : list (string * odict doc) :=
  match get field report with
  | DDict checks => omap (fun kv => match kv.2 with DDict details => Some (kv.1, details) | _ => None end) checks
  | _ => []
  end.
Definition repr_at (field : string) (details : odict doc) : string := doc_repr (get field details).

Definition threshold_failure (check : string * odict doc) : list string :=
  if doc_truthy (get "passed" check.2) then []
  else [check.1 +:+ ": actual=" +:+ repr_at "actual" check.2 +:+ ", threshold=" +:+ repr_at "threshold" check.2].
Definition selection_failure (check : string * odict doc) : list string :=
  if doc_truthy (get "precision_passed" check.2) && doc_truthy (get "recall_passed" check.2) then []
  else [check.1 +:+ ": precision_delta=" +:+ repr_at "precision_delta" check.2
          +:+ " (min=" +:+ repr_at "precision_delta_min" check.2 +:+ "), "
          +:+ "recall_delta=" +:+ repr_at "recall_delta" check.2 +:+ " (min=" +:+ repr_at "recall_delta_min" check.2 +:+ ")"].

Definition REPLAY_REMEDIATION : string :=
  "Fix invariant replay mismatches and rerun `python scripts/runtime/invariant_check.py --print-json --output-json <path>`.".
Definition THRESHOLD_REMEDIATION : string :=
  "Adjust `policies/runtime/shadow-regression-thresholds.json` and rerun `python scripts/operations/evaluate_shadow_regression_thresholds.py --policy <policy> --report <report> --fail-on-failed`.".

(** [if items: reasons.append(prefix + sep.join(items))] *)
Definition reason_if (items : list string) (prefix sep : string) : list string :=
  match items with [] => [] | _ => [prefix +:+ join sep items] end.

Definition evaluate_pre_canary (invariant_report shadow_threshold_report : odict doc) : res (odict doc) :=
  let invariant_status := status_of invariant_report in
  invariant_mismatch_count ← doc_int (get_or "mismatch_count" (DInt 0) invariant_report);
  let invariant_passed := String.eqb invariant_status "passed" && (invariant_mismatch_count =? 0)%Z in
  let shadow_status := status_of shadow_threshold_report in
  let shadow_passed := String.eqb shadow_status "passed" in
  let threshold_failures := mjoin (map threshold_failure (checks_of "threshold_checks" shadow_threshold_report)) in
  let selection_failures := mjoin (map selection_failure (checks_of "selection_checks" shadow_threshold_report)) in
  let missing := match get "missing_explicit_threshold_change_types" shadow_threshold_report with
                 | DList l => omap (fun v => match v with DStr s => Some s | _ => None end) l
                 | _ => []
                 end in
  mret [("status", passed_or_failed (invariant_passed && shadow_passed));
        ("gates", DDict
          [("invariant_check", DDict [("passed", DBool invariant_passed); ("status", DStr invariant_status);
                                      ("mismatch_count", DInt invariant_mismatch_count)]);
           ("shadow_regression_thresholds", DDict
              [("passed", DBool shadow_passed); ("status", DStr shadow_status); ("threshold_failures", texts threshold_failures);
               ("selection_failures", texts selection_failures); ("missing_explicit_threshold_change_types", texts missing)])]);
        ("failure_reasons", texts
          ((if invariant_passed then []
            else ["Invariant replay gate failed: status must be passed and mismatch_count must be 0."])
           ++ if shadow_passed then []
              else "Shadow regression threshold gate failed." :: reason_if threshold_failures "Threshold failures: " "; "
                   ++ reason_if selection_failures "Selection drift failures: " "; "
                   ++ reason_if (sorted_strs missing) "Missing explicit thresholds for change types: " ", "));
        ("required_remediation_paths", texts
          ((if invariant_passed then [] else [REPLAY_REMEDIATION]) ++ (if shadow_passed then [] else [THRESHOLD_REMEDIATION])))].

(** ** Automatic rollback *)

Definition ROLLBACK_REMEDIATION : list string :=
  ["Publish a signed and verified last-known-good descriptor/policy version record in rollout metadata before retrying pre-canary promotion.";
   "Re-run `python scripts/release/evaluate_pre_canary_gate.py` and `python scripts/release/evaluate_automatic_rollback_rules.py`."].

Definition missing_field (lkg : odict doc) (field : doc) : bool :=
  match field with DStr f => negb (od_mem f lkg) | _ => true end.

(** What keeps a rollback to the last-known-good record from being allowed, and its target. *)
Definition rollback_to (target_policy : odict doc) (metadata : odict doc) : res (list string * odict doc) :=
  match get "last_known_good_versions" metadata with
  | DDict lkg =>
      match get "required_metadata_fields" target_policy with
      | DList required_fields =>
          let missing := List.filter (missing_field lkg) required_fields in
          let require_signed := doc_truthy (get_or "require_signed_last_known_good" (DBool true) target_policy) in
          let signature_verified := doc_truthy (get_or "signature_verified" (DBool false) lkg) in
          mret (reason_if (sorted_strs (map doc_str missing))
                  "Rollback required but last_known_good metadata is missing fields: " ", "
                ++ (if require_signed && negb signature_verified
                    then ["Rollback required but last-known-good signature is not verified."] else []),
                [("descriptor_version", get "descriptor_version" lkg); ("policy_version", get "policy_version" lkg);
                 ("signature_ref", get "signature_ref" lkg); ("signature_verified", DBool signature_verified)])
      | _ => Raise (ValueError "rollback_target_policy.required_metadata_fields must be an array.")
      end
  | _ => mret (["Rollback required but rollout metadata is missing last_known_good_versions."], [])
  end.

Definition no_target : odict doc :=
  [("descriptor_version", DNull); ("policy_version", DNull); ("signature_ref", DNull); ("signature_verified", DNull)].

Definition evaluate_rollback (policy pre_canary_report rollout_metadata : odict doc) : res (odict doc) :=
  trigger_policy ← require_object (get "trigger_policy" policy) "policy.trigger_policy must be an object.";
  target_policy ← require_object (get "rollback_target_policy" policy) "policy.rollback_target_policy must be an object.";
  let rollback_required := doc_truthy (get_or "rollback_on_pre_canary_failed" (DBool true) trigger_policy)
                           && negb (String.eqb (status_of pre_canary_report) "passed") in
  '(failure_reasons, rollback_target) ←
    (if rollback_required then rollback_to target_policy rollout_metadata else mret ([], no_target));
  let rollback_allowed := negb (nonempty failure_reasons) in
  mret [("status", passed_or_failed (negb rollback_required || rollback_allowed));
        ("rollback_required", DBool rollback_required);
        ("rollback_allowed", DBool rollback_allowed);
        ("rollback_target", DDict rollback_target);
        ("trigger_reasons", get_or "failure_reasons" (DList []) pre_canary_report);
        ("failure_reasons", texts failure_reasons);
        ("required_remediation_paths", texts (if rollback_allowed then [] else ROLLBACK_REMEDIATION))].

(** ** What a threshold policy says, and which traces it finds eligible *)

Record ShadowPolicy := mkShadowPolicy {
  abstention_max : float; mixed_max : float; safety_max : float; decision_max : float;
  default_minima : float * float;
  minima : odict (float * float);
  fail_closed : bool;
}.

(** A number of the file: an integer or a float that is not too large. *)
Definition reads_as (v : doc) (f : float) : Prop := exists n, as_num v = Some n /\ to_float n = Ok f.
Definition says_minima (d : odict doc) (m : float * float) : Prop :=
  reads_as (get "precision_delta_min" d) m.1 /\ reads_as (get "recall_delta_min" d) m.2.

Record policy_says (p : ShadowPolicy) (policy thresholds drift_policy defaults per_change : odict doc) : Prop := {
  ps_thresholds : get "delta_thresholds" policy = DDict thresholds;
  ps_drift : get "selection_drift_policy" policy = DDict drift_policy;
  ps_abstention : reads_as (get "abstention_delta_max_abs" thresholds) (abstention_max p);
  ps_mixed : reads_as (get "mixed_profile_rate_delta_max_abs" thresholds) (mixed_max p);
  ps_safety : reads_as (get "safety_false_negative_delta_max" thresholds) (safety_max p);
  ps_decision : reads_as (get "decision_change_rate_max" thresholds) (decision_max p);
  ps_defaults : get "default_thresholds" drift_policy = DDict defaults;
  ps_per_change : get "by_change_type" drift_policy = DDict per_change;
  ps_fail_closed : doc_truthy (get_or "fail_closed_on_missing_change_type" (DBool true) drift_policy) = fail_closed p;
  ps_default_minima : says_minima defaults (default_minima p);
  ps_minima c : match od_get c per_change with
                | Some v => exists d m, v = DDict d /\ od_get c (minima p) = Some m /\ says_minima d m
                | None => od_get c (minima p) = None
                end;
}.

(** The candidate's rate less the baseline's. *)
Definition total (ts : list Trace) : float := if (0 <? Z.of_nat (length ts))%Z then float_of_int (Z.of_nat (length ts)) else fone.
Definition shift (p : Outcome -> bool) (ts : list Trace) : float :=
  fsub (per (count (fun x => p (candidate x)) ts) (total ts)) (per (count (fun x => p (baseline x)) ts) (total ts)).
Definition missed_shift (ts : list Trace) : float :=
  fsub (_rate (count (misses candidate) ts) (count expected_violation ts)) (_rate (count (misses baseline) ts) (count expected_violation ts)).
Definition precision_shift (s : Stats) : float :=
  fsub (_precision (candidate_tp s) (candidate_selected s)) (_precision (baseline_tp s) (baseline_selected s)).
Definition recall_shift (s : Stats) : float :=
  fsub (_recall (candidate_tp s) (candidate_expected s)) (_recall (baseline_tp s) (baseline_expected s)).

Definition minima_of (p : ShadowPolicy) (c : string) : float * float := default (default_minima p) (od_get c (minima p)).

(** Every shift within its bound; for each change type, no more precision or
    recall lost than its minima allow, and minima of its own if the policy asks. *)
Definition eligible (p : ShadowPolicy) (ts : list Trace) : Prop :=
  SFleb (SFabs (shift abstained ts)) (abstention_max p) = true /\
  SFleb (SFabs (shift mixed_profile ts)) (mixed_max p) = true /\
  SFleb (missed_shift ts) (safety_max p) = true /\
  SFleb (per (count decision_changed ts) (total ts)) (decision_max p) = true /\
  forall c, In c (map change_type ts) ->
    (fail_closed p = true -> od_mem c (minima p) = true) /\
    SFleb (minima_of p c).1 (precision_shift (stats_of (of_type c ts))) = true /\
    SFleb (minima_of p c).2 (recall_shift (stats_of (of_type c ts))) = true.

(** ** Lemmas *)

Lemma require_number_reads v f field : reads_as v f -> _require_number v field = Ok f.
Proof. unfold _require_number. by intros (n & -> & ->). Qed.

(** The check a change type gets under a policy. *)
Definition check_of (p : ShadowPolicy) (c : string) (s : Stats) : odict doc :=
  let explicit := od_mem c (minima p) in
  [("precision_delta", DFloat (precision_shift s)); ("precision_delta_min", DFloat (minima_of p c).1);
   ("precision_passed", DBool (SFleb (minima_of p c).1 (precision_shift s)));
   ("recall_delta", DFloat (recall_shift s)); ("recall_delta_min", DFloat (minima_of p c).2);
   ("recall_passed", DBool (SFleb (minima_of p c).2 (recall_shift s)));
   ("threshold_source", DStr (if explicit then "by_change_type" else "default_thresholds"))]
  ++ (if negb explicit && fail_closed p then [("missing_explicit_threshold", DBool true)] else []).

Lemma selection_check_says p policy thresholds drift_policy defaults per_change c s :
  policy_says p policy thresholds drift_policy defaults per_change ->
  selection_check defaults per_change (fail_closed p) (c, drift s) = Ok (c, check_of p c s).
Proof.
  intros Hp. pose proof (ps_minima _ _ _ _ _ _ Hp c) as Hc. destruct (ps_default_minima _ _ _ _ _ _ Hp) as [Hd1 Hd2].
  unfold selection_check, check_of, minima_of, od_mem, get_or. cbn -[_require_number].
  assert (Hf : forall f g, _require_number (DFloat f) g = Ok f) by done.
  destruct (od_get c per_change) as [v|].
  - destruct Hc as (d & m & -> & -> & Hm1 & Hm2). cbn -[_require_number].
    by rewrite (require_number_reads _ _ _ Hm1), (require_number_reads _ _ _ Hm2), !Hf.
  - rewrite Hc. cbn -[_require_number]. rewrite (require_number_reads _ _ _ Hd1), (require_number_reads _ _ _ Hd2), !Hf.
    cbn. by destruct (fail_closed p).
Qed.

Lemma threshold_check_reads thresholds name actual f : reads_as (get name thresholds) f ->
  threshold_check thresholds (name, actual)
  = Ok (name, [("actual", DFloat actual); ("threshold", DFloat f); ("passed", DBool (SFleb actual f))]).
Proof. intros H. unfold threshold_check. by rewrite (require_number_reads _ _ _ H). Qed.

(** The drift of the report, by change type, in any order. *)
Lemma drift_checked p ts policy thresholds drift_policy defaults per_change :
  policy_says p policy thresholds drift_policy defaults per_change ->
  let drifts := map (fun kv => (kv.1, drift kv.2)) (py_sorted (fun a b => str_leb a.1 b.1) (selection_stats (counted ts))) in
  exists checks, mapM (selection_check defaults per_change (fail_closed p)) (py_sorted (fun a b => str_leb a.1 b.1) drifts) = Ok checks /\
    forall x, In x checks <-> exists c, In c (map change_type ts) /\ x = (c, check_of p c (stats_of (of_type c ts))).
Proof.
  intros Hp drifts. exists (map (fun x => (x.1, check_of p x.1 (stats_of (of_type x.1 ts)))) (py_sorted (fun a b => str_leb a.1 b.1) drifts)).
  assert (Hin : forall x, In x (py_sorted (fun a b => str_leb a.1 b.1) drifts) <->
      exists c, In c (map change_type ts) /\ x = (c, drift (stats_of (of_type c ts)))).
  { intros x. rewrite py_sorted_In. unfold drifts. rewrite in_map_iff. setoid_rewrite py_sorted_In. cbn [counted selection_stats].
    split.
    - intros ([k st] & <- & (c & [= <- <-] & Hc)%in_map_iff). exists c. split; [by apply fromkeys_In|done].
    - intros (c & Hc & ->). eexists (c, _). split; [done|]. apply in_map_iff. exists c. split; [done|]. by apply fromkeys_In. }
  split.
  - apply mapM_all_Ok. intros x (c & Hc & ->)%Hin. by eapply selection_check_says.
  - intros x. rewrite in_map_iff. split.
    + intros (y & <- & (c & Hc & ->)%Hin). by exists c.
    + intros (c & Hc & ->). exists (c, drift (stats_of (of_type c ts))). split; [done|]. apply Hin. by exists c.
Qed.

Lemma check_passes p c s :
  holds "precision_passed" (c, check_of p c s) && holds "recall_passed" (c, check_of p c s) = true <->
  SFleb (minima_of p c).1 (precision_shift s) = true /\ SFleb (minima_of p c).2 (recall_shift s) = true.
Proof. rewrite andb_true_iff. unfold holds, is_bool. cbn. by destruct (SFleb _ _), (SFleb _ _). Qed.

Lemma check_missing p c s : is_missing (c, check_of p c s) = negb (od_mem c (minima p)) && fail_closed p.
Proof. unfold is_missing, check_of. cbn. by destruct (od_mem c (minima p)), (fail_closed p). Qed.

(** The thresholds pass exactly the eligible traces. *)
Lemma thresholds_decide p ts policy thresholds drift_policy defaults per_change report :
  policy_says p policy thresholds drift_policy defaults per_change ->
  get "metrics" report = DDict (metrics_of (Z.of_nat (length ts)) (counted ts)) ->
  exists r b, evaluate_thresholds policy report = Ok r /\ get "status" r = passed_or_failed b /\ (b = true <-> eligible p ts).
Proof.
  intros Hp Hm. pose proof (drift_checked p ts _ _ _ _ _ Hp) as (checks & Hchecks & Hin).
  destruct Hp as [Ht Hd Ha Hx Hs Hc Hdef Hper Hfc _ _].
  unfold evaluate_thresholds. rewrite Ht, Hd, Hm. cbn [require_object mbind result_bind mret result_ret].
  rewrite Hdef, Hper, Hfc.
  cbn -[mapM threshold_check selection_check py_sorted selection_stats per fone fdiv fsub _rate nonempty forallb is_missing holds texts objects_of passed_or_failed].
  cbn [mapM]. rewrite (threshold_check_reads _ _ _ _ Ha), (threshold_check_reads _ _ _ _ Hx), (threshold_check_reads _ _ _ _ Hs),
    (threshold_check_reads _ _ _ _ Hc), Hchecks. cbn [mbind result_bind mret result_ret].
  do 2 eexists. split; [reflexivity|]. split; [reflexivity|].
  rewrite nonempty_map, !andb_true_iff, negb_true_iff, nonempty_false, (forallb_forall _ checks). unfold eligible, shift, missed_shift, total.
  cbn [forallb holds is_bool get get_or od_get snd fst String.eqb Ascii.eqb Bool.eqb andb].
  assert (Hif : forall b : bool, (if b then true else false) = b) by by intros [].
  rewrite !Hif, !andb_true_iff, filter_nil_iff. setoid_rewrite Hin. split.
  - intros [[(? & ? & ? & ? & _) Hsel] Hmiss]. split_and!; try done. intros c Hc'.
    assert (Hx' : exists c', In c' (map change_type ts) /\ (c, check_of p c (stats_of (of_type c ts))) = (c', check_of p c' (stats_of (of_type c' ts))))
      by eauto.
    pose proof (proj1 (check_passes _ _ _) (Hsel _ Hx')) as [Hprec Hrec]. apply Hmiss in Hx'. rewrite check_missing in Hx'. split; [|done].
    intros Hf. rewrite Hf, andb_true_r in Hx'. by apply negb_false_iff.
  - intros (? & ? & ? & ? & Hall). split_and!; try done.
    + intros x (c & Hc' & ->). apply check_passes. by apply Hall.
    + intros x (c & Hc' & ->). rewrite check_missing. destruct (Hall c Hc') as [Hf _]. destruct (fail_closed p); [|apply andb_false_r].
      by rewrite Hf.
Qed.

(** ** The gates in a row *)

(** The files as the release workflow hands them on. *)
Definition release (shadow_policy rollback_policy snapshot invariant_report rollout_metadata : odict doc)
    : res (odict doc * odict doc) :=
  shadow_report ← evaluate_shadow_snapshot snapshot;
  threshold_report ← evaluate_thresholds shadow_policy shadow_report;
  gate ← evaluate_pre_canary invariant_report threshold_report;
  rollback ← evaluate_rollback rollback_policy gate rollout_metadata;
  mret (gate, rollback).

(** A last-known-good record with the required fields, signed if that is required. *)
Definition recoverable (target_policy metadata : odict doc) (required_fields : list doc) : Prop :=
  exists lkg, get "last_known_good_versions" metadata = DDict lkg /\
    Forall (fun field => exists f, field = DStr f /\ od_mem f lkg = true) required_fields /\
    (doc_truthy (get_or "require_signed_last_known_good" (DBool true) target_policy) = true ->
     doc_truthy (get_or "signature_verified" (DBool false) lkg) = true).

Lemma status_passed b : passed_or_failed b = DStr "passed" <-> b = true.
Proof. by destruct b. Qed.
Lemma status_failed b : passed_or_failed b = DStr "failed" <-> b = false.
Proof. by destruct b. Qed.
Lemma status_of_passed r b : get "status" r = passed_or_failed b -> String.eqb (status_of r) "passed" = b.
Proof. unfold status_of. intros ->. by destruct b. Qed.

Lemma missing_field_false lkg field : missing_field lkg field = false <-> exists f, field = DStr f /\ od_mem f lkg = true.
Proof. destruct field as [| | | |f| |]; cbn; try naive_solver. rewrite negb_false_iff. naive_solver. Qed.

Lemma reason_if_nil items prefix sep : reason_if items prefix sep = [] <-> items = [].
Proof. by destruct items. Qed.

Lemma sorted_strs_nil l : sorted_strs l = [] <-> l = [].
Proof. apply py_sorted_nil. Qed.

(** A rollback is allowed exactly to a recoverable version. *)
Lemma rollback_to_allowed target_policy metadata required_fields :
  get "required_metadata_fields" target_policy = DList required_fields ->
  exists reasons target, rollback_to target_policy metadata = Ok (reasons, target) /\
    (reasons = [] <-> recoverable target_policy metadata required_fields).
Proof.
  intros Hf. unfold rollback_to, recoverable. rewrite Hf.
  destruct (get "last_known_good_versions" metadata) as [| | | | | |lkg]; try by (do 2 eexists; split; [done|split; [done|intros (? & ? & _)]]).
  do 2 eexists. split; [reflexivity|]. rewrite app_nil_iff, reason_if_nil, sorted_strs_nil.
  assert (Hmap : map doc_str (List.filter (missing_field lkg) required_fields) = [] <->
                 Forall (fun field => exists f, field = DStr f /\ od_mem f lkg = true) required_fields).
  { rewrite Forall_forall. setoid_rewrite list_elem_of_In. setoid_rewrite <- missing_field_false. rewrite <- filter_nil_iff.
    by destruct (List.filter _ _). }
  assert (Hsig : forall (signed verified : bool) m, (if signed && negb verified then [m] else []) = @nil string <->
                 (signed = true -> verified = true)) by by intros [] [] m; cbn; naive_solver.
  rewrite Hmap, Hsig. split.
  - intros [HA HB]. by exists lkg.
  - by intros (lkg' & [= <-] & HA & HB).
Qed.

Lemma pre_canary_decides invariant_report r n b :
  doc_int (get_or "mismatch_count" (DInt 0) invariant_report) = Ok n -> get "status" r = passed_or_failed b ->
  exists gate, evaluate_pre_canary invariant_report r = Ok gate /\
    get "status" gate = passed_or_failed (String.eqb (status_of invariant_report) "passed" && (n =? 0)%Z && b).
Proof. intros Hn Hs. unfold evaluate_pre_canary. rewrite Hn, (status_of_passed _ _ Hs). by eexists. Qed.

Lemma rollback_decides policy gate metadata trigger_policy target_policy required_fields b :
  get "status" gate = passed_or_failed b ->
  get "trigger_policy" policy = DDict trigger_policy -> get "rollback_target_policy" policy = DDict target_policy ->
  get "required_metadata_fields" target_policy = DList required_fields ->
  let required := doc_truthy (get_or "rollback_on_pre_canary_failed" (DBool true) trigger_policy) && negb b in
  exists rollback, evaluate_rollback policy gate metadata = Ok rollback /\ get "rollback_required" rollback = DBool required /\
    (get "status" rollback = DStr "failed" <-> required = true /\ ~ recoverable target_policy metadata required_fields).
Proof.
  intros Hs Htr Htg Hf required. unfold evaluate_rollback. rewrite Htr, Htg. cbn [require_object mbind result_bind mret result_ret].
  rewrite (status_of_passed _ _ Hs). fold required. destruct required.
  - destruct (rollback_to_allowed _ metadata _ Hf) as (reasons & target & -> & Hr). eexists. split; [reflexivity|]. split; [done|].
    cbn [get get_or od_get String.eqb Ascii.eqb Bool.eqb]. rewrite status_failed. cbn. rewrite negb_false_iff, <- Hr.
    destruct reasons; cbn; naive_solver.
  - eexists. split; [reflexivity|]. split; [done|]. cbn. naive_solver.
Qed.

(** ** Properties *)

(** C34. What the release gates decide. From a snapshot of well-formed traces and
    readable policies the gates always reach a decision: the pre-canary gate
    passes exactly when the invariant replay passed without a mismatch and the
    traces are eligible under the threshold policy; a rollback is asked for
    exactly when the gate fails and the policy triggers on that; and the release
    fails for good exactly when it is, and the metadata hold no last-known-good
    version with the required fields and, where required, a verified signature. *)
Theorem release_gates_decide p shadow_policy thresholds drift_policy defaults per_change snapshot events ts invariant_report n
    rollback_policy trigger_policy target_policy required_fields metadata :
  policy_says p shadow_policy thresholds drift_policy defaults per_change ->
  get "trace_events" snapshot = DList events -> Forall2 says ts events ->
  doc_int (get_or "mismatch_count" (DInt 0) invariant_report) = Ok n ->
  get "trigger_policy" rollback_policy = DDict trigger_policy ->
  get "rollback_target_policy" rollback_policy = DDict target_policy ->
  get "required_metadata_fields" target_policy = DList required_fields ->
  let promotable := status_of invariant_report = "passed" /\ n = 0%Z /\ eligible p ts in
  let triggered := doc_truthy (get_or "rollback_on_pre_canary_failed" (DBool true) trigger_policy) = true in
  exists gate rollback, release shadow_policy rollback_policy snapshot invariant_report metadata = Ok (gate, rollback) /\
    (get "status" gate = DStr "passed" <-> promotable) /\
    (get "rollback_required" rollback = DBool true <-> triggered /\ ~ promotable) /\
    (get "status" rollback = DStr "failed" <-> (triggered /\ ~ promotable) /\ ~ recoverable target_policy metadata required_fields).
Proof.
  intros Hp He Hts Hn Htr Htg Hf promotable triggered. unfold release, evaluate_shadow_snapshot. rewrite He.
  cbn [mbind result_bind mret result_ret].
  destruct (thresholds_decide p ts _ _ _ _ _ (report_of snapshot (Z.of_nat (length events)) (tally events)) Hp) as (r & b & Hr & Hs & Hb).
  { cbn. by rewrite (tally_counted _ _ Hts), (Forall2_length _ _ _ Hts). }
  destruct (pre_canary_decides _ _ _ _ Hn Hs) as (gate & Hg & Hgs).
  destruct (rollback_decides _ _ metadata _ _ _ _ Hgs Htr Htg Hf) as (rollback & Hrb & Hreq & Hst).
  rewrite Hr. cbn [mbind result_bind]. rewrite Hg. cbn [mbind result_bind]. rewrite Hrb. exists gate, rollback.
  assert (Hpass : String.eqb (status_of invariant_report) "passed" && (n =? 0)%Z && b = true <-> promotable).
  { unfold promotable. rewrite !andb_true_iff, String.eqb_eq, Z.eqb_eq, Hb. tauto. }
  rewrite Hgs, Hreq, Hst, status_passed, <- Hpass. unfold triggered.
  destruct (doc_truthy (get_or "rollback_on_pre_canary_failed" _ _)), (_ && b); cbn; naive_solver.
Qed.

(** ** A release *)

Definition demo_minima (precision recall : float) : doc :=
  DDict [("precision_delta_min", DFloat precision); ("recall_delta_min", DFloat recall)].
Definition demo_thresholds : odict doc :=
  [("abstention_delta_max_abs", DFloat (ratio 2 10)); ("mixed_profile_rate_delta_max_abs", DFloat (ratio 1 10));
   ("safety_false_negative_delta_max", DFloat (ratio 6 10)); ("decision_change_rate_max", DFloat (ratio 6 10))].
Definition demo_defaults : odict doc :=
  [("precision_delta_min", DFloat (SFopp (ratio 25 100))); ("recall_delta_min", DFloat (SFopp (ratio 25 100)))].
Definition demo_per_change : odict doc := [("code-review", demo_minima (SFopp (ratio 25 100)) (SFopp (ratio 3 10)))].
Definition demo_drift_policy : odict doc :=
  [("fail_closed_on_missing_change_type", DBool true); ("default_thresholds", DDict demo_defaults);
   ("by_change_type", DDict demo_per_change)].
Definition demo_shadow_policy : odict doc :=
  [("delta_thresholds", DDict demo_thresholds); ("selection_drift_policy", DDict demo_drift_policy)].
Definition demo_policy : ShadowPolicy :=
  mkShadowPolicy (ratio 2 10) (ratio 1 10) (ratio 6 10) (ratio 6 10) (SFopp (ratio 25 100), SFopp (ratio 25 100))
    [("code-review", (SFopp (ratio 25 100), SFopp (ratio 3 10)))] true.
Definition demo_rollback_policy : odict doc :=
  [("trigger_policy", DDict [("rollback_on_pre_canary_failed", DBool true)]);
   ("rollback_target_policy", DDict [("required_metadata_fields", texts ["descriptor_version"; "policy_version"]);
                                     ("require_signed_last_known_good", DBool true)])].
Definition demo_metadata (verified : bool) : odict doc :=
  [("last_known_good_versions", DDict [("descriptor_version", DStr "1.0.0"); ("policy_version", DStr "1.0.0");
                                       ("signature_verified", DBool verified)])].
Definition demo_replay : odict doc := [("status", DStr "passed"); ("mismatch_count", DInt 0)].

Lemma demo_policy_says : policy_says demo_policy demo_shadow_policy demo_thresholds demo_drift_policy demo_defaults demo_per_change.
Proof.
  split; try reflexivity; try (eexists; split; reflexivity); try (split; eexists; split; reflexivity).
  intros c. unfold demo_per_change, demo_policy. cbn [od_get minima]. destruct (String.eqb c "code-review"); [|reflexivity].
  do 2 eexists. split; [reflexivity|]. split; [reflexivity|]. split; eexists; split; reflexivity.
Defined.

(** The candidate that abstains from half of the traces fails the gate, and the
    release rolls back to the signed version; without the signature it fails. *)
Lemma release_gates_decide_witness : exists gate rollback,
  release demo_shadow_policy demo_rollback_policy (snapshot_of (map trace_doc demo_traces)) demo_replay (demo_metadata true)
    = Ok (gate, rollback) /\
  get "status" gate = DStr "failed" /\ ~ (status_of demo_replay = "passed" /\ 0%Z = 0%Z /\ eligible demo_policy demo_traces).
Proof.
  destruct (release_gates_decide demo_policy demo_shadow_policy demo_thresholds demo_drift_policy demo_defaults demo_per_change
    (snapshot_of (map trace_doc demo_traces)) (map trace_doc demo_traces) demo_traces demo_replay 0 demo_rollback_policy
    [("rollback_on_pre_canary_failed", DBool true)]
    [("required_metadata_fields", texts ["descriptor_version"; "policy_version"]); ("require_signed_last_known_good", DBool true)]
    (map DStr ["descriptor_version"; "policy_version"]) (demo_metadata true)
    demo_policy_says eq_refl demo_says eq_refl eq_refl eq_refl eq_refl) as (gate & rollback & E & Hg & _).
  exists gate, rollback. split; [exact E|]. assert (Hs : get "status" gate = DStr "failed").
  { clear Hg. vm_compute in E. injection E as <- <-. reflexivity. }
  split; [exact Hs|]. intros H. apply Hg in H. rewrite Hs in H. discriminate H.
Defined.

Definition decisions (r : res (odict doc * odict doc)) : option (doc * doc * doc) :=
  match r with
  | Ok (gate, rollback) => Some (get "status" gate, get "rollback_required" rollback, get "status" rollback)
  | Raise _ => None
  end.

Example unsigned_rollback_fails :
  decisions (release demo_shadow_policy demo_rollback_policy (snapshot_of (map trace_doc demo_traces)) demo_replay (demo_metadata false))
  = Some (DStr "failed", DBool true, DStr "failed").
Proof. vm_compute. reflexivity. Qed.

(** A snapshot of which no event can be read has a failed report, but the
    thresholds only look at its metrics, in which nothing changed: the candidate
    is promoted. *)
Example unread_snapshot_promoted :
  let snapshot := snapshot_of [DStr "lost"; DNull; DDict []] in
  (match evaluate_shadow_snapshot snapshot with Ok report => get "status" report | Raise _ => DNull end,
   decisions (release demo_shadow_policy demo_rollback_policy snapshot demo_replay (demo_metadata true)))
  = (DStr "failed", Some (DStr "passed", DBool false, DStr "passed")).
Proof. vm_compute. reflexivity. Qed.
