(* ===== verification/Telemetry.v ===== *)
(** * Telemetry alerts

    Models [operations/telemetry.py]: the rules of a telemetry policy are held
    against the signals of a snapshot. [now] is the time of the evaluation. *)

From Stdlib Require Import SpecFloat.
From S2P Require Import Prelude PyStr PyFloat PyValue Documents.
Open Scope string_scope.
Open Scope list_scope.

Definition CONTRACT_VERSION : string := "0.1.0".
Definition SEVERITY_RANK : odict Z := [("info", 0%Z); ("warning", 1%Z); ("critical", 2%Z)].

Definition not_evaluable {A} (msg : string) : res A := Raise (TelemetryEvaluationError msg).

Definition _required_string (d : odict doc) (field : string) : res string :=
  let error := not_evaluable ("Telemetry data requires string field: " +:+ field) in
  match get field d with DStr s => if String.eqb s "" then error else mret s | _ => error end.

Definition _compare (value : float) (operator : string) (threshold : float) : res bool :=
  if String.eqb operator ">=" then mret (SFleb threshold value)
  else if String.eqb operator ">" then mret (SFltb threshold value)
  else if String.eqb operator "<=" then mret (SFleb value threshold)
  else if String.eqb operator "<" then mret (SFltb value threshold)
  else if String.eqb operator "==" then mret (SFeqb value threshold)
  else not_evaluable ("Unsupported telemetry operator: " +:+ operator).

(** [a or b] *)
Definition doc_or (a b : doc) : doc := if doc_truthy a then a else b.

Definition _threshold_alert (rule signal : odict doc) (value threshold : float) : res (odict doc) :=
  rule_id ← _required_string rule "id";
  severity ← _required_string rule "severity";
  plane ← _required_string rule "plane";
  signal_name ← _required_string rule "signal";
  operator ← _required_string rule "operator";
  window ← _required_string rule "window";
  source ← _required_string rule "source";
  runbook ← _required_string rule "runbook";
  message ← _required_string rule "description";
  mret [("rule_id", DStr rule_id); ("severity", DStr severity); ("plane", DStr plane); ("signal", DStr signal_name);
        ("operator", DStr operator); ("threshold", DFloat threshold); ("value", DFloat value);
        ("unit", DStr (doc_str (doc_or (get "unit" signal) (doc_or (get "unit" rule) (DStr "")))));
        ("window", DStr window); ("source", DStr source); ("runbook", DStr runbook); ("message", DStr message)].

Definition _missing_signal_alert (rule : odict doc) (severity : string) : res (odict doc) :=
  rule_id ← _required_string rule "id";
  plane ← _required_string rule "plane";
  signal_name ← _required_string rule "signal";
  window ← _required_string rule "window";
  source ← _required_string rule "source";
  runbook ← _required_string rule "runbook";
  mret [("rule_id", DStr rule_id); ("severity", DStr severity); ("plane", DStr plane); ("signal", DStr signal_name);
        ("operator", DStr "exists"); ("threshold", DNull); ("value", DNull);
        ("unit", DStr (doc_str (doc_or (get "unit" rule) (DStr "")))); ("window", DStr window); ("source", DStr source);
        ("runbook", DStr runbook); ("message", DStr ("Telemetry signal is missing: " +:+ signal_name +:+ "."))].

Definition rank (alert : odict doc) : Z := match od_get (doc_str (get "severity" alert)) SEVERITY_RANK with Some r => r | None => 2%Z end.

Definition _status_from_alerts (alerts : list (odict doc)) : string :=
  let max_rank := foldr Z.max 0%Z (map rank alerts) in
  if (2 <=? max_rank)%Z then "critical" else if (1 <=? max_rank)%Z then "warning" else "passed".

(** The alert of one rule, if it raises one. *)
Definition rule_alert (signals : odict doc) (rule : doc) : res (option (odict doc)) :=
  match rule with
  | DDict rule =>
      signal_name ← _required_string rule "signal";
      match get signal_name signals with
      | DDict signal =>
          match as_num (get "value" signal), as_num (get "threshold" rule) with
          | None, _ => not_evaluable ("Telemetry signal " +:+ repr_str signal_name +:+ " requires numeric value.")
          | _, None => not_evaluable ("Telemetry rule " +:+ doc_repr (get "id" rule) +:+ " requires numeric threshold.")
          | Some v, Some t =>
              operator ← _required_string rule "operator";
              v ← to_float v;
              t ← to_float t;
              fires ← _compare v operator t;
              if fires : bool then alert ← _threshold_alert rule signal v t; mret (Some alert) else mret None
          end
      | _ =>
          alert ← _missing_signal_alert rule (doc_str (get_or "missing_data_severity" (DStr "critical") rule));
          mret (Some alert)
      end
  | _ => not_evaluable "Telemetry rule must be an object."
  end.

Definition evaluate_telemetry_snapshot (now : string) (policy snapshot : odict doc) (evaluated_at : option string)
    : res (odict doc) :=
  policy_environment ← _required_string policy "environment";
  snapshot_environment ← _required_string snapshot "environment";
  raise_if (negb (String.eqb policy_environment snapshot_environment))
    (TelemetryEvaluationError ("Telemetry policy environment " +:+ repr_str policy_environment +:+ " does not match "
      +:+ "snapshot environment " +:+ repr_str snapshot_environment +:+ ".")) ;;
  match get "signals" snapshot with
  | DDict signals =>
      match get "rules" policy with
      | DList ((_ :: _) as rules) =>
          alerts ← mapM (rule_alert signals) rules;
          let alerts := omap id alerts in
          policy_id ← _required_string policy "policy_id";
          policy_version ← _required_string policy "version";
          mret [("contract_version", DStr CONTRACT_VERSION); ("policy_id", DStr policy_id);
                ("policy_version", DStr policy_version); ("environment", DStr policy_environment);
                ("evaluated_at", DStr (match evaluated_at with Some s => if String.eqb s "" then now else s | None => now end));
                ("status", DStr (_status_from_alerts alerts)); ("alerts", DList (map DDict alerts));
                ("signals_evaluated", texts (sorted_strs (od_keys signals)));
                ("raw_data_policy", DStr "aggregate_metadata_only")]
      | _ => not_evaluable "Telemetry policy must include at least one rule."
      end
  | _ => not_evaluable "Telemetry snapshot must include signals object."
  end.

(** ** What the status says *)

(** A rule whose fields can be read. *)
Record Rule := mkRule {
  r_signal : string; r_operator : string; r_threshold : float; r_severity : string; r_missing : string;
}.

Definition OPERATORS : list string := [">="; ">"; "<="; "<"; "=="].
Definition TEXTS : list string := ["id"; "severity"; "plane"; "signal"; "operator"; "window"; "source"; "runbook"; "description"].

Record reads_rule (d : odict doc) (r : Rule) : Prop := {
  rr_texts k : In k TEXTS -> exists s, get k d = DStr s /\ s <> "";
  rr_signal : get "signal" d = DStr (r_signal r);
  rr_operator : get "operator" d = DStr (r_operator r) /\ In (r_operator r) OPERATORS;
  rr_severity : get "severity" d = DStr (r_severity r);
  rr_threshold : exists n, as_num (get "threshold" d) = Some n /\ to_float n = Ok (r_threshold r);
  rr_missing : doc_str (get_or "missing_data_severity" (DStr "critical") d) = r_missing r;
}.

(** A signal has a number, or is not there at all. *)
Definition reads_signal (v : doc) (value : option float) : Prop :=
  match value with
  | Some f => exists d n, v = DDict d /\ as_num (get "value" d) = Some n /\ to_float n = Ok f
  | None => forall d, v <> DDict d
  end.

Definition breached (operator : string) (value threshold : float) : Prop :=
  (operator = ">=" /\ SFleb threshold value = true) \/ (operator = ">" /\ SFltb threshold value = true) \/
  (operator = "<=" /\ SFleb value threshold = true) \/ (operator = "<" /\ SFltb value threshold = true) \/
  (operator = "==" /\ SFeqb value threshold = true).

(** The severity with which a rule alerts on the value of its signal. *)
Definition alerts_with (r : Rule) (value : option float) (severity : string) : Prop :=
  match value with
  | Some f => breached (r_operator r) f (r_threshold r) /\ severity = r_severity r
  | None => severity = r_missing r
  end.

Lemma required_string_ok d k s : get k d = DStr s -> s <> "" -> _required_string d k = Ok s.
Proof. unfold _required_string. intros -> H. by apply String.eqb_neq in H as ->. Qed.

Lemma compare_breached v op t : In op OPERATORS -> exists b, _compare v op t = Ok b /\ (b = true <-> breached op v t).
Proof.
  unfold breached. intros H. repeat (destruct H as [<-|H]; [eexists; split; [reflexivity|]; split;
    [intros E; rewrite E; tauto|by intros [[??]|[[??]|[[??]|[[??]|[??]]]]]]|]). destruct H.
Qed.

Definition severity_of (alert : odict doc) : string := doc_str (get "severity" alert).

Ltac required H k :=
  let s := fresh "s" in let E := fresh "E" in let N := fresh "N" in
  destruct (H k) as (s & E & N); [cbn; tauto|]; rewrite (required_string_ok _ _ _ E N); cbn [mbind result_bind].

Lemma rule_alert_spec signals d r value : reads_rule d r -> reads_signal (get (r_signal r) signals) value ->
  exists o, rule_alert signals (DDict d) = Ok o /\
    forall s, (exists alert, o = Some alert /\ severity_of alert = s) <-> alerts_with r value s.
Proof.
  intros [Ht Hsig [Hop Hin] Hsev (n & Hn & Hf) Hmiss] Hv. unfold rule_alert.
  assert (Hs : _required_string d "signal" = Ok (r_signal r)).
  { destruct (Ht "signal") as (s & E & N); [cbn; tauto|]. rewrite Hsig in E. injection E as <-. by apply required_string_ok. }
  rewrite Hs. cbn [mbind result_bind]. destruct value as [f|]; cbn in Hv.
  - destruct Hv as (sd & m & -> & Hm & Hmf). rewrite Hm, Hn.
    assert (Ho : _required_string d "operator" = Ok (r_operator r)).
    { destruct (Ht "operator") as (s & E & N); [cbn; tauto|]. rewrite Hop in E. injection E as <-. by apply required_string_ok. }
    rewrite Ho. cbn [mbind result_bind]. rewrite Hmf, Hf. cbn [mbind result_bind].
    destruct (compare_breached f (r_operator r) (r_threshold r) Hin) as (b & -> & Hb). cbn [mbind result_bind].
    destruct b; [|exists None; split; [done|]; intros s; split; [by intros (? & ? & _)|by intros [?%Hb _]]].
    unfold _threshold_alert. required Ht "id". required Ht "severity". required Ht "plane". rewrite Hs. cbn [mbind result_bind].
    rewrite Ho. cbn [mbind result_bind]. required Ht "window". required Ht "source". required Ht "runbook".
    required Ht "description". eexists. split; [done|]. rewrite Hsev in E0. injection E0 as <-. intros s'. cbn. split.
    + intros (a & [= <-] & <-). split; [by apply Hb|done].
    + intros [_ ->]. by eexists.
  - destruct (get (r_signal r) signals) as [| | | | | |sd] eqn:Eg; try (by destruct (Hv sd));
      (unfold _missing_signal_alert; required Ht "id"; required Ht "plane"; rewrite Hs; cbn [mbind result_bind];
       required Ht "window"; required Ht "source"; required Ht "runbook"; eexists; split; [done|]; intros s'; cbn;
       split; [intros (a & [= <-] & <-); exact Hmiss|intros ->; eexists; split; [done|exact Hmiss]]).
Qed.

Definition severity_rank (s : string) : Z := match od_get s SEVERITY_RANK with Some r => r | None => 2%Z end.

Lemma severity_rank_cases s : (s = "info" /\ severity_rank s = 0%Z) \/ (s = "warning" /\ severity_rank s = 1%Z) \/
  (s <> "info" /\ s <> "warning" /\ severity_rank s = 2%Z).
Proof.
  unfold severity_rank. cbn. destruct (String.eqb_spec s "info"); [tauto|]. destruct (String.eqb_spec s "warning"); [tauto|].
  destruct (String.eqb_spec s "critical"); tauto.
Qed.

(** The worst rank of a list is reached, or is zero. *)
Lemma worst_rank l : let w := foldr Z.max 0%Z (map severity_rank l) in
  (w = 0%Z \/ exists s, In s l /\ severity_rank s = w) /\ forall s, In s l -> (severity_rank s <= w)%Z.
Proof.
  induction l as [|s l [IH1 IH2]]; cbn in *; [split; [by left|by intros]|]. split.
  - destruct (Z.max_spec (severity_rank s) (foldr Z.max 0%Z (map severity_rank l))) as [[_ ->]|[_ ->]]; [|by eauto].
    destruct IH1 as [?|(s' & ? & ?)]; [by left|right; by eauto].
  - intros s' [<-|H]; [lia|]. apply IH2 in H. lia.
Qed.

Lemma worst_status l : let w := foldr Z.max 0%Z (map severity_rank l) in
  ((2 <=? w)%Z = false /\ (1 <=? w)%Z = false <-> forall s, In s l -> s = "info") /\
  ((2 <=? w)%Z = true <-> exists s, In s l /\ s <> "info" /\ s <> "warning").
Proof.
  cbn zeta. destruct (worst_rank l) as [H1 H2]. cbn zeta in H1, H2. set (w := foldr Z.max 0%Z (map severity_rank l)) in *.
  rewrite !Z.leb_gt, Z.leb_le. split; split.
  - intros [_ Hw] s Hs. apply H2 in Hs. destruct (severity_rank_cases s) as [[? _]|[[_ E]|(_ & _ & E)]]; [done|lia..].
  - intros H. destruct H1 as [->|(s & Hs & E)]; [done|]. apply H in Hs as ->. cbn in E. lia.
  - intros Hw. destruct H1 as [E|(s & Hs & E)]; [lia|]. exists s. split; [done|].
    destruct (severity_rank_cases s) as [[_ E']|[[_ E']|(? & ? & _)]]; [lia..|done].
  - intros (s & Hs & Hi & Hw). apply H2 in Hs. destruct (severity_rank_cases s) as [[? _]|[[? _]|(_ & _ & E)]]; [done..|lia].
Qed.

Lemma alerts_of signals rules rs :
  Forall2 (fun v p => exists d, v = DDict d /\ reads_rule d p.1 /\ reads_signal (get (r_signal p.1) signals) p.2) rules rs ->
  exists alerts, mapM (rule_alert signals) rules = Ok alerts /\
    forall s, In s (map severity_of (omap id alerts)) <-> exists r value, In (r, value) rs /\ alerts_with r value s.
Proof.
  induction 1 as [|v [r value] rules rs (d & -> & Hr & Hv) _ (alerts & IH1 & IH2)].
  - exists []. split; [done|]. intros s. split; [done|by intros (? & ? & [] & _)].
  - destruct (rule_alert_spec _ _ _ _ Hr Hv) as (o & Ho & Hs). exists (o :: alerts).
    split; [apply mapM_Ok; constructor; [exact Ho|by apply mapM_Ok]|]. intros s. specialize (IH2 s). specialize (Hs s). cbn in Hs. transitivity (alerts_with r value s \/ In s (map severity_of (omap id alerts))).
    + rewrite <- Hs. destruct o as [a|]; cbn; [|naive_solver]. split; [intros [<-|?]; eauto|intros [(? & [= <-] & <-)|?]; auto].
    + rewrite IH2. split.
      * intros [?|(r' & v' & ? & ?)]; [exists r, value; split; [by left|done]|exists r', v'; split; [by right|done]].
      * intros (r' & v' & [[= <- <-]|?] & ?); [by left|right; eauto].
Qed.

(** Telemetry is evaluated rule by rule. If the rules and the signals they name
    can be read, the evaluation gives a report; it says "passed" exactly when
    every rule that is breached, or whose signal is missing, alerts with
    severity "info", and "critical" exactly when one alerts with a severity
    that is neither "info" nor "warning", an unknown one included. *)
Theorem telemetry_status_correct now policy snapshot evaluated_at environment signals rules rs policy_id version :
  get "environment" policy = DStr environment -> environment <> "" -> get "environment" snapshot = DStr environment ->
  get "policy_id" policy = DStr policy_id -> policy_id <> "" -> get "version" policy = DStr version -> version <> "" ->
  get "signals" snapshot = DDict signals -> get "rules" policy = DList rules -> rules <> [] ->
  Forall2 (fun v p => exists d, v = DDict d /\ reads_rule d p.1 /\ reads_signal (get (r_signal p.1) signals) p.2) rules rs ->
  exists report, evaluate_telemetry_snapshot now policy snapshot evaluated_at = Ok report /\
    (get "status" report = DStr "passed" <-> forall r value s, In (r, value) rs -> alerts_with r value s -> s = "info") /\
    (get "status" report = DStr "critical" <->
       exists r value s, In (r, value) rs /\ alerts_with r value s /\ s <> "info" /\ s <> "warning").
Proof.
  intros He Hne He' Hp Hpn Hv Hvn Hsig Hrules Hnil HF. unfold evaluate_telemetry_snapshot.
  rewrite !(required_string_ok _ _ _ He Hne), (required_string_ok _ _ _ He' Hne). cbn [mbind result_bind].
  rewrite String.eqb_refl, Hsig, Hrules. cbn [negb raise_if mbind result_bind]. destruct rules as [|x rules]; [done|].
  destruct (alerts_of _ _ _ HF) as (alerts & -> & Hs). cbn [mbind result_bind].
  rewrite (required_string_ok _ _ _ Hp Hpn), (required_string_ok _ _ _ Hv Hvn). cbn [mbind result_bind]. eexists. split; [done|].
  assert (Hst : get "status" [("status", DStr (_status_from_alerts (omap id alerts)))] = DStr (_status_from_alerts (omap id alerts)))
    by done.
  destruct (worst_status (map severity_of (omap id alerts))) as [H1 H2]. cbn zeta in H1, H2.
  rewrite map_map in H1, H2. change (fun x => severity_rank (severity_of x)) with rank in H1, H2.
  change (get "status" _) with (DStr (_status_from_alerts (omap id alerts))). unfold _status_from_alerts.
  set (w := foldr Z.max 0%Z (map rank (omap id alerts))) in *. clearbody w. split.
  - transitivity (forall s, In s (map severity_of (omap id alerts)) -> s = "info").
    + rewrite <- H1. destruct (2 <=? w)%Z, (1 <=? w)%Z; naive_solver.
    + split; [intros H r value s Hin Ha; apply H, Hs; eauto|intros H s (r & value & Hin & Ha)%Hs; eauto].
  - transitivity (exists s, In s (map severity_of (omap id alerts)) /\ s <> "info" /\ s <> "warning").
    + rewrite <- H2. destruct (2 <=? w)%Z, (1 <=? w)%Z; naive_solver.
    + split.
      * intros (s & (r & value & ? & ?)%Hs & ? & ?). eauto 8.
      * intros (r & value & s & ? & ? & ? & ?). exists s. rewrite Hs. eauto 8.
Qed.

(** ** Examples *)

Definition demo_rule (signal operator severity : string) (threshold : float) : doc :=
  DDict [("id", DStr "rule"); ("severity", DStr severity); ("plane", DStr "runtime"); ("signal", DStr signal);
         ("operator", DStr operator); ("threshold", DFloat threshold); ("window", DStr "5m"); ("source", DStr "store");
         ("runbook", DStr "docs"); ("description", DStr "too high")].
Definition demo_policy : odict doc :=
  [("environment", DStr "prod"); ("policy_id", DStr "p"); ("version", DStr "1");
   ("rules", DList [demo_rule "failures" ">" "critical" (ratio 1 10); demo_rule "depth" ">=" "warning" (float_of_int 5)])].
Definition demo_snapshot (failures : doc) (depth : Z) : odict doc :=
  [("environment", DStr "prod"); ("signals", DDict [("failures", DDict [("value", failures)]); ("depth", DDict [("value", DInt depth)])])].
Definition demo_status (snapshot : odict doc) : doc :=
  match evaluate_telemetry_snapshot "now" demo_policy snapshot None with Ok r => get "status" r | Raise _ => DNull end.

Example demo_statuses : map demo_status [demo_snapshot (DInt 0) 4; demo_snapshot (DInt 0) 5; demo_snapshot (DFloat (ratio 2 10)) 5;
    [("environment", DStr "prod"); ("signals", DDict [])]] =
  [DStr "passed"; DStr "warning"; DStr "critical"; DStr "critical"].
Proof. vm_compute. reflexivity. Qed.

Lemma demo_rule_reads signal operator severity threshold : signal <> "" -> In operator OPERATORS -> severity <> "" ->
  exists d, demo_rule signal operator severity threshold = DDict d /\
    reads_rule d (mkRule signal operator threshold severity "critical").
Proof.
  intros Hs Ho Hsev. eexists. split; [reflexivity|].
  assert (operator <> "") by (intros ->; repeat (destruct Ho as [Ho|Ho]; [discriminate Ho|]); destruct Ho).
  split; cbn; [|done..|by exists (NFloat threshold)|done].
  intros k Hk. repeat (destruct Hk as [<-|Hk]; [eexists; by split|]). destruct Hk.
Qed.

Lemma telemetry_status_correct_witness :
  exists report, evaluate_telemetry_snapshot "now" demo_policy (demo_snapshot (DFloat (ratio 2 10)) 5) None = Ok report /\
    get "status" report = DStr "critical".
Proof.
  destruct (telemetry_status_correct "now" demo_policy (demo_snapshot (DFloat (ratio 2 10)) 5) None "prod"
    (fields (get "signals" (demo_snapshot (DFloat (ratio 2 10)) 5)))
    [demo_rule "failures" ">" "critical" (ratio 1 10); demo_rule "depth" ">=" "warning" (float_of_int 5)]
    [(mkRule "failures" ">" (ratio 1 10) "critical" "critical", Some (ratio 2 10));
     (mkRule "depth" ">=" (float_of_int 5) "warning" "critical", Some (float_of_int 5))] "p" "1") as (report & Hr & _ & Hc);
    [reflexivity|discriminate|reflexivity|reflexivity|discriminate|reflexivity|discriminate|reflexivity|reflexivity|discriminate| |].
  - constructor; [|constructor; [|constructor]].
    + destruct (demo_rule_reads "failures" ">" "critical" (ratio 1 10)) as (d & Hd & Hrr); [discriminate|cbn; tauto|discriminate|].
      exists d. split; [exact Hd|]. split; [exact Hrr|]. eexists _, _. split; [reflexivity|]. split; reflexivity.
    + destruct (demo_rule_reads "depth" ">=" "warning" (float_of_int 5)) as (d & Hd & Hrr); [discriminate|cbn; tauto|discriminate|].
      exists d. split; [exact Hd|]. split; [exact Hrr|]. eexists _, _. split; [reflexivity|]. split; reflexivity.
  - exists report. split; [exact Hr|]. apply Hc. eexists _, _, "critical". split; [by left|].
    split; [|split; discriminate]. split; [|reflexivity]. right; left. split; vm_compute; reflexivity.
Defined.

(** A value that is not a number breaches no threshold: the signal that failed
    to be measured counts as healthy. *)
Example nan_signal_passes : demo_status (demo_snapshot (DFloat S754_nan) 0) = DStr "passed".
Proof. vm_compute. reflexivity. Qed.
