(* ===== verification/MemoryOperations.v ===== *)
(** * Evidence that memory operates safely

    Models [operations/memory_operations.py]: six gates over the aggregate
    numbers of a snapshot. *)

From Stdlib Require Import SpecFloat.
From S2P Require Import Prelude PyStr PyFloat PyValue Documents.
Open Scope string_scope.
Open Scope list_scope.

Definition CONTRACT_VERSION : string := "0.1.0".

Definition not_evidence {A} (msg : string) : res A := Raise (MemoryOperationsEvidenceError msg).

Definition _required_mapping (d : odict doc) (field : string) : res (odict doc) :=
  match get field d with DDict m => mret m | _ => not_evidence ("Memory evidence requires object field: " +:+ field) end.

Definition _required_string (d : odict doc) (field : string) : res string :=
  let error := not_evidence ("Memory evidence requires string field: " +:+ field) in
  match get field d with DStr s => if String.eqb s "" then error else mret s | _ => error end.

(** [isinstance(value, int)] holds of a boolean, which counts as 0 or 1. *)
Definition _count (d : odict doc) (field : string) : res Z :=
  match as_num (get field d) with
  | Some (NInt z) => mret z
  | _ => not_evidence ("Memory evidence requires integer field: " +:+ field)
  end.

Definition _float (d : odict doc) (field : string) : res float :=
  match as_num (get field d) with
  | Some n => to_float n
  | None => not_evidence ("Memory evidence requires numeric field: " +:+ field)
  end.

Definition status_text (passed : bool) : doc := DStr (if passed then "passed" else "failed").
Definition failure_if (b : bool) (msg : string) : list string := if b then [msg] else [].
Definition gate_of (failures : list string) : odict doc :=
  [("status", status_text (negb (nonempty failures))); ("failures", texts failures)].

Definition live_smoke_passed (smoke : odict doc) : bool :=
  is_text "passed" (get "status" smoke) && is_bool true (get "procedural_lesson_created" smoke)
  && is_bool true (get "knowledge_proposal_created" smoke)
  && startswith "hetzner://runtime/" (doc_str (get_or "same_run_evidence_uri" (DStr "") smoke)).

Definition _live_smoke_gate (smoke : odict doc) : odict doc :=
  let passed := live_smoke_passed smoke in
  [("status", status_text passed);
   ("message", DStr (if passed
      then "Live smoke created one procedural lesson and one knowledge proposal " +:+ "from the same Hetzner run evidence."
      else "Live smoke evidence is incomplete."))].

Definition _taxonomy_metrics_gate (metrics : odict doc) : res (odict doc) :=
  false_negatives ← _count metrics "contrastive_false_negative_count";
  false_positives ← _count metrics "contrastive_false_positive_count";
  review_rate ← _float metrics "abstention_review_rate";
  violations ← _count metrics "post_planning_invariant_violation_count";
  hit_rate ← _float metrics "retrieval_cache_hit_rate";
  load ← _float metrics "top_k_memory_load_p95";
  candidate_class_counts ← _required_mapping metrics "candidate_class_counts";
  lessons ← _count candidate_class_counts "procedural_lesson";
  proposals ← _count candidate_class_counts "knowledge_record_proposal";
  mret (gate_of (
    failure_if (negb (false_negatives =? 0)%Z) "contrastive false negatives must be zero"
    ++ failure_if (negb (false_positives =? 0)%Z) "contrastive false positives must be zero"
    ++ failure_if (SFltb (ratio 25 100) review_rate) "abstention/review rate exceeds threshold"
    ++ failure_if (negb (violations =? 0)%Z) "post-planning invariant violations must be zero"
    ++ failure_if (SFltb hit_rate (ratio 5 10)) "retrieval cache hit rate is below threshold"
    ++ failure_if (SFltb (float_of_int 20) load) "Top-K memory load p95 exceeds threshold"
    ++ failure_if (lessons <? 1)%Z "procedural lesson candidates must be observed"
    ++ failure_if (proposals <? 1)%Z "knowledge proposal candidates must be observed")).

Definition _retention_separation_gate (retention : odict doc) : odict doc :=
  gate_of (
    failure_if (negb (is_text "passed" (get "runtime_evidence_cleanup_status" retention))) "runtime evidence cleanup did not pass"
    ++ failure_if (negb (is_bool true (get "knowledge_memory_retention_independent" retention)))
         "knowledge/memory retention must be independent"
    ++ failure_if (negb (is_bool false (get "cloudflare_memory_deleted_by_runtime_cleanup" retention)))
         "runtime cleanup must not delete Cloudflare memory").

Definition _renderer_behavior_gate (renderer : odict doc) : res (odict doc) :=
  authoritative ← _count renderer "authoritative_record_count";
  instructions ← _count renderer "instruction_record_count";
  context ← _count renderer "memory_context_record_count";
  mret (gate_of (
    failure_if (negb (authoritative =? 0)%Z) "rendered memory must not be authoritative"
    ++ failure_if (negb (instructions =? 0)%Z) "rendered memory must not become instructions"
    ++ failure_if (context <? 1)%Z "memory context records must be observed")).

Definition _zero_count_gate (d : odict doc) (field gate_id : string) : res (odict doc) :=
  n ← _count d field;
  mret (gate_of (failure_if (negb (n =? 0)%Z) (gate_id +:+ "." +:+ field +:+ " must be zero"))).

Definition gate_failed (gate : string * odict doc) : bool := negb (is_text "passed" (get "status" gate.2)).

Definition evaluate_memory_operations_evidence (snapshot : odict doc) : res (odict doc) :=
  smoke ← _required_mapping snapshot "live_smoke";
  metrics ← _required_mapping snapshot "aggregate_metrics";
  taxonomy ← _taxonomy_metrics_gate metrics;
  retention ← _required_mapping snapshot "retention_separation";
  renderer ← _required_mapping snapshot "renderer_behavior";
  behavior ← _renderer_behavior_gate renderer;
  ledger ← _required_mapping snapshot "denial_ledger";
  denials ← _zero_count_gate ledger "authority_grant_count" "denial_ledger";
  graph ← _required_mapping snapshot "relationship_graph";
  relations ← _zero_count_gate graph "authority_delta_count" "relationship_graph";
  let gates := [("live_smoke", _live_smoke_gate smoke); ("taxonomy_metrics", taxonomy);
                ("retention_separation", _retention_separation_gate retention); ("renderer_behavior", behavior);
                ("denial_ledger", denials); ("relationship_graph", relations)] in
  let failed := map fst (List.filter gate_failed gates) in
  environment ← _required_string snapshot "environment";
  snapshot_id ← _required_string snapshot "snapshot_id";
  mret [("contract_version", DStr CONTRACT_VERSION); ("environment", DStr environment);
        ("evaluated_snapshot_id", DStr snapshot_id); ("status", status_text (negb (nonempty failed)));
        ("failed_gates", texts failed); ("gates", DDict (map (fun g => (g.1, DDict g.2)) gates));
        ("raw_data_policy", DStr "aggregate_metadata_only")].

(** ** What a passing snapshot says *)

Definition counts (d : odict doc) (field : string) (z : Z) : Prop := as_num (get field d) = Some (NInt z).
Definition measures (d : odict doc) (field : string) (f : float) : Prop := exists n, as_num (get field d) = Some n /\ to_float n = Ok f.

(** The evidence, with every number it must have. *)
Record safe (snapshot : odict doc) : Prop := {
  sf_smoke : exists smoke, get "live_smoke" snapshot = DDict smoke /\ get "status" smoke = DStr "passed" /\
    get "procedural_lesson_created" smoke = DBool true /\ get "knowledge_proposal_created" smoke = DBool true /\
    startswith "hetzner://runtime/" (doc_str (get_or "same_run_evidence_uri" (DStr "") smoke)) = true;
  sf_metrics : exists metrics classes rate hit load lessons proposals, get "aggregate_metrics" snapshot = DDict metrics /\
    counts metrics "contrastive_false_negative_count" 0 /\ counts metrics "contrastive_false_positive_count" 0 /\
    counts metrics "post_planning_invariant_violation_count" 0 /\
    measures metrics "abstention_review_rate" rate /\ SFltb (ratio 25 100) rate = false /\
    measures metrics "retrieval_cache_hit_rate" hit /\ SFltb hit (ratio 5 10) = false /\
    measures metrics "top_k_memory_load_p95" load /\ SFltb (float_of_int 20) load = false /\
    get "candidate_class_counts" metrics = DDict classes /\
    counts classes "procedural_lesson" lessons /\ (1 <= lessons)%Z /\
    counts classes "knowledge_record_proposal" proposals /\ (1 <= proposals)%Z;
  sf_retention : exists retention, get "retention_separation" snapshot = DDict retention /\
    get "runtime_evidence_cleanup_status" retention = DStr "passed" /\
    get "knowledge_memory_retention_independent" retention = DBool true /\
    get "cloudflare_memory_deleted_by_runtime_cleanup" retention = DBool false;
  sf_renderer : exists renderer context, get "renderer_behavior" snapshot = DDict renderer /\
    counts renderer "authoritative_record_count" 0 /\ counts renderer "instruction_record_count" 0 /\
    counts renderer "memory_context_record_count" context /\ (1 <= context)%Z;
  sf_ledger : exists ledger, get "denial_ledger" snapshot = DDict ledger /\ counts ledger "authority_grant_count" 0;
  sf_graph : exists graph, get "relationship_graph" snapshot = DDict graph /\ counts graph "authority_delta_count" 0;
}.

Lemma required_mapping_Ok d k m : _required_mapping d k = Ok m <-> get k d = DDict m.
Proof. unfold _required_mapping. destruct (get k d); cbn; try done. by split; intros [= ->]. Qed.

Lemma count_Ok d k z : _count d k = Ok z <-> counts d k z.
Proof. unfold _count, counts. destruct (as_num _) as [[|]|]; cbn; try done. by split; intros [= ->]. Qed.

Lemma float_Ok d k f : _float d k = Ok f <-> measures d k f.
Proof. unfold _float, measures. destruct (as_num _) as [n|]; cbn; [|by split; [|intros (? & ? & _)]]. split; [eauto|by intros (? & [= <-] & ?)]. Qed.

Lemma failure_if_nil b msg : failure_if b msg = [] <-> b = false.
Proof. by destruct b. Qed.

Lemma gate_of_passes k failures : gate_failed (k, gate_of failures) = false <-> failures = [].
Proof. by destruct failures. Qed.

Lemma is_bool_eq b v : is_bool b v = true <-> v = DBool b.
Proof. destruct v as [|c| | | | |]; cbn; try done. rewrite Bool.eqb_true_iff. by split; [intros ->|intros [= ->]]. Qed.

Lemma is_text_iff s v : is_text s v = true <-> v = DStr s.
Proof. destruct v as [| | | |t| |]; cbn; try done. rewrite String.eqb_eq. by split; [intros ->|intros [= ->]]. Qed.

Lemma smoke_passes k smoke : gate_failed (k, _live_smoke_gate smoke) = false <->
  get "status" smoke = DStr "passed" /\ get "procedural_lesson_created" smoke = DBool true /\
  get "knowledge_proposal_created" smoke = DBool true /\
  startswith "hetzner://runtime/" (doc_str (get_or "same_run_evidence_uri" (DStr "") smoke)) = true.
Proof.
  rewrite <- is_text_iff, <- !is_bool_eq. transitivity (live_smoke_passed smoke = true).
  - unfold gate_failed, _live_smoke_gate. by destruct (live_smoke_passed smoke).
  - unfold live_smoke_passed. rewrite !andb_true_iff. tauto.
Qed.

Lemma retention_passes k retention : gate_failed (k, _retention_separation_gate retention) = false <->
  get "runtime_evidence_cleanup_status" retention = DStr "passed" /\
  get "knowledge_memory_retention_independent" retention = DBool true /\
  get "cloudflare_memory_deleted_by_runtime_cleanup" retention = DBool false.
Proof.
  unfold _retention_separation_gate.
  by rewrite gate_of_passes, !app_nil_iff, !failure_if_nil, !negb_false_iff, is_text_iff, !is_bool_eq.
Qed.

Lemma zero_count_passes k d field gate_id : 
  (exists gate, _zero_count_gate d field gate_id = Ok gate /\ gate_failed (k, gate) = false) <-> counts d field 0.
Proof.
  unfold _zero_count_gate. split.
  - intros (gate & (n & Hn%count_Ok & [= <-])%bind_Ok & Hg).
    apply gate_of_passes, failure_if_nil, negb_false_iff, Z.eqb_eq in Hg as ->. done.
  - intros H%count_Ok. rewrite H. cbn [mbind result_bind]. eexists. split; [done|]. by apply gate_of_passes.
Qed.

Lemma renderer_passes k d :
  (exists gate, _renderer_behavior_gate d = Ok gate /\ gate_failed (k, gate) = false) <->
  exists context, counts d "authoritative_record_count" 0 /\ counts d "instruction_record_count" 0 /\
    counts d "memory_context_record_count" context /\ (1 <= context)%Z.
Proof.
  unfold _renderer_behavior_gate. split.
  - intros (gate & (a & Ha%count_Ok & (i & Hi%count_Ok & (c & Hc%count_Ok & [= <-])%bind_Ok)%bind_Ok)%bind_Ok & Hg).
    apply gate_of_passes in Hg. rewrite !app_nil_iff, !failure_if_nil, !negb_false_iff, !Z.eqb_eq, Z.ltb_ge in Hg.
    destruct Hg as (-> & -> & ?). eauto.
  - intros (c & Ha%count_Ok & Hi%count_Ok & Hc%count_Ok & Hle). rewrite Ha, Hi, Hc. cbn [mbind result_bind].
    eexists. split; [done|]. apply gate_of_passes. rewrite !app_nil_iff, !failure_if_nil, Z.ltb_ge. done.
Qed.

Lemma taxonomy_passes k d :
  (exists gate, _taxonomy_metrics_gate d = Ok gate /\ gate_failed (k, gate) = false) <->
  exists classes rate hit load lessons proposals,
    counts d "contrastive_false_negative_count" 0 /\ counts d "contrastive_false_positive_count" 0 /\
    counts d "post_planning_invariant_violation_count" 0 /\
    measures d "abstention_review_rate" rate /\ SFltb (ratio 25 100) rate = false /\
    measures d "retrieval_cache_hit_rate" hit /\ SFltb hit (ratio 5 10) = false /\
    measures d "top_k_memory_load_p95" load /\ SFltb (float_of_int 20) load = false /\
    get "candidate_class_counts" d = DDict classes /\
    counts classes "procedural_lesson" lessons /\ (1 <= lessons)%Z /\
    counts classes "knowledge_record_proposal" proposals /\ (1 <= proposals)%Z.
Proof.
  unfold _taxonomy_metrics_gate. split.
  - intros (gate & (fn & Hfn%count_Ok & (fp & Hfp%count_Ok & (rate & Hr%float_Ok & (v & Hv%count_Ok & (hit & Hh%float_Ok &
      (load & Hl%float_Ok & (cl & Hcl%required_mapping_Ok & (le & Hle%count_Ok & (pr & Hpr%count_Ok & [= <-])%bind_Ok)%bind_Ok)%bind_Ok
      )%bind_Ok)%bind_Ok)%bind_Ok)%bind_Ok)%bind_Ok)%bind_Ok & Hg).
    apply gate_of_passes in Hg. rewrite !app_nil_iff, !failure_if_nil, !negb_false_iff, !Z.eqb_eq, !Z.ltb_ge in Hg.
    destruct Hg as (-> & -> & ? & -> & ? & ? & ? & ?). exists cl, rate, hit, load, le, pr. tauto.
  - intros (cl & rate & hit & load & le & pr & Hfn%count_Ok & Hfp%count_Ok & Hv%count_Ok & Hr%float_Ok & ? & Hh%float_Ok & ? &
      Hl%float_Ok & ? & Hcl%required_mapping_Ok & Hle%count_Ok & ? & Hpr%count_Ok & ?).
    rewrite Hfn, Hfp, Hr, Hv, Hh, Hl, Hcl. cbn [mbind result_bind]. rewrite Hle, Hpr. cbn [mbind result_bind].
    eexists. split; [done|]. apply gate_of_passes. rewrite !app_nil_iff, !failure_if_nil, !Z.ltb_ge. done.
Qed.

(** The evidence of a named environment passes exactly when it is safe: the
    live smoke made both kinds of record from evidence of the runtime, no
    contrastive case was misjudged, no plan broke an invariant, review rate,
    cache hits and memory load keep their limits, both kinds of candidate were
    seen, clean-up left memory alone, rendered memory was neither authority nor
    instruction, and neither the denial ledger nor the relationship graph gave
    authority. In every other case it fails or is refused. *)
Theorem memory_evidence_passes snapshot environment snapshot_id :
  get "environment" snapshot = DStr environment -> environment <> "" ->
  get "snapshot_id" snapshot = DStr snapshot_id -> snapshot_id <> "" ->
  (exists report, evaluate_memory_operations_evidence snapshot = Ok report /\ get "status" report = DStr "passed") <->
  safe snapshot.
Proof.
  intros He Hne Hs Hns.
  assert (Hstr : forall k s, get k snapshot = DStr s -> s <> "" -> _required_string snapshot k = Ok s).
  { intros k s Hk Hn%String.eqb_neq. unfold _required_string. by rewrite Hk, Hn. }
  unfold evaluate_memory_operations_evidence. rewrite (Hstr _ _ He Hne), (Hstr _ _ Hs Hns). split.
  - intros (report & H & Hstatus). apply bind_Ok in H as (smoke & Hsm%required_mapping_Ok & H).
    apply bind_Ok in H as (metrics & Hm%required_mapping_Ok & H). apply bind_Ok in H as (tax & Ht & H).
    apply bind_Ok in H as (ret & Hr%required_mapping_Ok & H). apply bind_Ok in H as (ren & Hre%required_mapping_Ok & H).
    apply bind_Ok in H as (beh & Hb & H). apply bind_Ok in H as (led & Hl%required_mapping_Ok & H).
    apply bind_Ok in H as (den & Hd & H). apply bind_Ok in H as (gr & Hg%required_mapping_Ok & H).
    apply bind_Ok in H as (rel & Hrel & [= <-]). cbn [get get_or od_get String.eqb Ascii.eqb Bool.eqb] in Hstatus.
    destruct (nonempty _) eqn:E in Hstatus; [done|]. rewrite nonempty_map in E. apply nonempty_false in E.
    repeat match type of E with
           | (if gate_failed ?g then _ else _) = [] => let G := fresh "G" in destruct (gate_failed g) eqn:G; [done|]
           end.
    split.
    + exists smoke. split; [done|]. by apply smoke_passes in G.
    + destruct (proj1 (taxonomy_passes "taxonomy_metrics" metrics)) as (c & r & h & l & le & p & HH); [eauto|].
      by exists metrics, c, r, h, l, le, p.
    + exists ret. split; [done|]. by apply retention_passes in G1.
    + destruct (proj1 (renderer_passes "renderer_behavior" ren)) as (c & HH); [eauto|]. by exists ren, c.
    + exists led. split; [done|]. apply (zero_count_passes "denial_ledger" _ _ "denial_ledger"). eauto.
    + exists gr. split; [done|]. apply (zero_count_passes "relationship_graph" _ _ "relationship_graph"). eauto.
  - intros [(smoke & Hsm%required_mapping_Ok & Gs) (metrics & c & r & h & l & le & p & Hm%required_mapping_Ok & Gt)
      (ret & Hr%required_mapping_Ok & Gr) (ren & cx & Hre%required_mapping_Ok & Gb) (led & Hl%required_mapping_Ok & Gl)
      (gr & Hg%required_mapping_Ok & Gg)].
    apply (smoke_passes "live_smoke") in Gs. apply (retention_passes "retention_separation") in Gr.
    destruct (proj2 (taxonomy_passes "taxonomy_metrics" metrics)) as (tax & Ht & Gt'); [by exists c, r, h, l, le, p|].
    destruct (proj2 (renderer_passes "renderer_behavior" ren)) as (beh & Hb & Gb'); [by exists cx|].
    destruct (proj2 (zero_count_passes "denial_ledger" led _ "denial_ledger") Gl) as (den & Hd & Gd).
    destruct (proj2 (zero_count_passes "relationship_graph" gr _ "relationship_graph") Gg) as (rel & Hrel & Grel).
    rewrite Hsm, Hm, Hr, Hre, Hl, Hg. cbn [mbind result_bind]. rewrite Ht, Hb, Hd, Hrel. cbn [mbind result_bind].
    eexists. split; [done|]. cbn [get get_or od_get String.eqb Ascii.eqb Bool.eqb]. cbn [List.filter].
    by rewrite Gs, Gt', Gr, Gb', Gd, Grel.
Qed.

(** ** Examples *)

Definition demo_snapshot (hit_rate : float) : odict doc :=
  let zero fields := DDict (map (fun k => (k, DInt 0)) fields) in
  [("environment", DStr "prod"); ("snapshot_id", DStr "s");
   ("live_smoke", DDict [("status", DStr "passed"); ("procedural_lesson_created", DBool true);
      ("knowledge_proposal_created", DBool true); ("same_run_evidence_uri", DStr "hetzner://runtime/run-1/a.json")]);
   ("aggregate_metrics", DDict [("contrastive_false_negative_count", DInt 0); ("contrastive_false_positive_count", DInt 0);
      ("abstention_review_rate", DFloat (ratio 1 4)); ("post_planning_invariant_violation_count", DInt 0);
      ("retrieval_cache_hit_rate", DFloat hit_rate); ("top_k_memory_load_p95", DInt 20);
      ("candidate_class_counts", DDict [("procedural_lesson", DInt 1); ("knowledge_record_proposal", DInt 1)])]);
   ("retention_separation", DDict [("runtime_evidence_cleanup_status", DStr "passed");
      ("knowledge_memory_retention_independent", DBool true); ("cloudflare_memory_deleted_by_runtime_cleanup", DBool false)]);
   ("renderer_behavior", DDict [("authoritative_record_count", DInt 0); ("instruction_record_count", DInt 0);
      ("memory_context_record_count", DInt 1)]);
   ("denial_ledger", zero ["authority_grant_count"]); ("relationship_graph", zero ["authority_delta_count"])].

Definition demo_status (hit_rate : float) : doc :=
  match evaluate_memory_operations_evidence (demo_snapshot hit_rate) with Ok r => get "status" r | Raise _ => DNull end.

Lemma memory_evidence_passes_witness : safe (demo_snapshot (ratio 1 2)).
Proof.
  apply (memory_evidence_passes (demo_snapshot (ratio 1 2)) "prod" "s"); [reflexivity|discriminate|reflexivity|discriminate|].
  eexists. split; vm_compute; reflexivity.
Defined.

(** A rate that is not a number is within its limit: [NaN < 0.5] does not hold. *)
Example nan_rate_passes : map demo_status [ratio 1 2; ratio 1 4; S754_nan] = [DStr "passed"; DStr "failed"; DStr "passed"].
Proof. vm_compute. reflexivity. Qed.
