(* ===== verification/TransitionSignals.v ===== *)
(** * Signals of an intent transition in raw text

    Models [scripts/runtime/scan_transition_signals.py]: the scanner that finds
    paths, intents and references in what a user wrote, and the check that
    extracted evidence covers what it found. [sha256] is the hexadecimal digest
    of a text. Offsets count the characters of the model's strings. The command
    line and the reading of the cases file are left out. *)

From Stdlib Require Import SpecFloat.
From S2P Require Import Prelude PyStr PyFloat PyRegex PyValue Documents.
Open Scope string_scope.
Open Scope list_scope.

Definition SCANNER_VERSION : string := "0.1.0".

Definition REQUIRED_SCANNER_IDS : odict string :=
  map (fun k => (k, SCANNER_VERSION))
    ["path"; "repository_reference"; "write_intent"; "destructive_intent"; "protected_path"; "pull_request_reference";
     "branch_reference"; "commit_reference"].

Definition PROTECTED_PATH_PREFIXES : list string :=
  [".github/"; "docs/adr/"; "docs/policies/"; "migrations/"; "policies/"; "schemas/";
   "src/skill_centric_agent_system/composition/"; "src/skill_centric_agent_system/runtime/"; "workers/control-api/"].

(** ** Patterns *)

Definition opt (r : re) : re := RAlt r REps.
Definition spaces1 : re := rplus is_space.
(** The words with white space between them, without regard to case. *)
Definition phrase (words : list string) : re :=
  match words with
  | [] => REps
  | w :: ws => rseq (lit_ci w :: flat_map (fun w => [spaces1; lit_ci w]) ws)
  end.
(** [p{0,n}] *)
Fixpoint up_to (n : nat) (p : ascii -> bool) : re :=
  match n with O => REps | S n' => RAlt (RSeq (RChr p) (up_to n' p)) REps end.

Definition double_quote : ascii := "034"%char.
Definition quote_char (c : ascii) : bool := one_of "`'" c || Ascii.eqb c double_quote.
Definition not_in (p : ascii -> bool) (c : ascii) : bool := negb (is_space c || quote_char c || p c).
Definition path_char (c : ascii) : bool := is_alpha c || is_digit c || one_of "._~@%+=:,/\-" c.
Definition name_char (c : ascii) : bool := is_alpha c || is_digit c || one_of "_.-" c.

(** [(?<![\w.-])] before the group of [PATH_PATTERN] *)
Definition path_allowed (prev : option ascii) : bool :=
  match prev with Some c => negb (word_char c || one_of ".-" c) | None => true end.

Definition PATH_PATTERN : re :=
  grouped REps (ralt [
    rseq [RChr is_alpha; lit ":\"; rplus (not_in (one_of "<>|"))];
    rseq [lit "http"; opt (lit "s"); lit "://"; rplus (not_in (one_of "<>"))];
    rseq [ralt (map lit [".github"; "docs"; "examples"; "migrations"; "policies"; "schemas"; "scripts"; "src"; "tests"; "workers"]);
          lit "/"; rplus path_char];
    rseq [rplus name_char; lit "/"; rplus path_char]]) REps.

Definition WRITE_INTENT_PATTERN : re :=
  grouped RWordB (ralt [
    RSeq (lit_ci "apply") (opt (RSeq spaces1 (phrase ["the"; "fix"])));
    lit_ci "fix"; lit_ci "patch"; lit_ci "change"; lit_ci "update"; lit_ci "modify"; lit_ci "edit"; lit_ci "add";
    lit_ci "create"; lit_ci "write"; lit_ci "implement"; lit_ci "commit"; lit_ci "push"; lit_ci "merge";
    rseq [lit_ci "open"; spaces1; opt (RSeq (lit_ci "a") spaces1); lit_ci "pr"];
    rseq [lit_ci "open"; spaces1; opt (RSeq (lit_ci "a") spaces1); phrase ["pull"; "request"]]]) RWordB.

Definition DESTRUCTIVE_INTENT_PATTERN : re :=
  grouped RWordB (ralt [
    lit_ci "delete"; lit_ci "remove"; lit_ci "drop"; lit_ci "destroy"; lit_ci "wipe"; lit_ci "purge"; lit_ci "overwrite";
    rseq [lit_ci "force"; ropt (fun c => Ascii.eqb c "-" || is_space c); lit_ci "push"];
    phrase ["reset"; "--hard"]; phrase ["rm"; "-rf"]]) RWordB.

Definition REPOSITORY_REFERENCE_PATTERN : re :=
  grouped RWordB (ralt [phrase ["this"; "repo"]; phrase ["this"; "repository"]; lit_ci "repo"; lit_ci "repository";
                        phrase ["working"; "tree"]]) RWordB.

Definition PULL_REQUEST_REFERENCE_PATTERN : re :=
  grouped RWordB (ralt [
    rseq [lit_ci "PR"; RStar true is_space; ropt (Ascii.eqb "#"); rplus is_digit];
    rseq [phrase ["pull"; "request"]; spaces1; ropt (Ascii.eqb "#"); rplus is_digit]]) RWordB.

Definition BRANCH_REFERENCE_PATTERN : re :=
  grouped (rseq [RWordB; ralt [lit_ci "branch"; lit_ci "head"; lit_ci "base"]; spaces1; ropt quote_char])
    (rplus (fun c => is_alpha c || is_digit c || one_of "._/-" c)) (ropt quote_char).

Definition hex_char (c : ascii) : bool := is_digit c || one_of "abcdefABCDEF" c.
Definition COMMIT_REFERENCE_PATTERN : re :=
  grouped (RSeq RWordB (opt (RSeq (lit_ci "commit") spaces1)))
    (rseq (repeat (RChr hex_char) 7 ++ [up_to 33 hex_char])) RWordB.

(** ** Signals *)

Record TransitionSignal := mkSignal {
  signal_kind : string;
  value : string;
  artifact_id : string;
  artifact_hash : string;
  span : string;
  offset_start : nat;
  offset_end : nat;
  source : string;
  path_kind : option string;
}.

(** [text[start:end]] *)
Definition slice (text : string) (start end_ : nat) : string := of_chars (take (end_ - start) (drop start (chars text))).

Definition _signal (kind value artifact_id artifact_hash text : string) (start end_ : nat) (source : string)
    (path_kind : option string) : TransitionSignal :=
  mkSignal kind value artifact_id artifact_hash (slice text start end_) start end_ source path_kind.

Definition _trim_path_token (v : list ascii) : list ascii :=
  reverse (drop_chars (fun c => one_of ".,;:)]}'`" c || Ascii.eqb c double_quote) (reverse v)).

Definition _looks_like_sentence_fragment (v : string) : bool :=
  negb (contains "://" v) && negb (contains "/" v) && negb (contains "\" v).

Definition windows_path (v : list ascii) : bool :=
  match v with c :: ":"%char :: "\"%char :: _ => is_alpha c | _ => false end.

Definition _path_kind (v : string) : string :=
  if windows_path (chars v) then "windows_path"
  else if startswith "http://" v || startswith "https://" v then "url_path"
  else if startswith "/" v || startswith "./" v || startswith "../" v then "posix_path"
  else "repo_path".

(** [while normalized.startswith("./"): normalized = normalized[2:]] *)
Fixpoint drop_dot_slashes (l : list ascii) : list ascii :=
  match l with "."%char :: "/"%char :: l' => drop_dot_slashes l' | l => l end.

Definition _is_protected_path (v : string) : bool :=
  let normalized := of_chars (drop_dot_slashes (map (fun c => if Ascii.eqb c "\" then "/"%char else c) (chars v))) in
  existsb (fun p => startswith p normalized) PROTECTED_PATH_PREFIXES.

Definition key_of (s : TransitionSignal) : string * string * nat * nat :=
  (signal_kind s, artifact_id s, offset_start s, offset_end s).

(** [deduped[key] = signal] *)
Fixpoint replace_signal (s : TransitionSignal) (l : list TransitionSignal) : list TransitionSignal :=
  match l with
  | [] => [s]
  | s' :: l' => if bool_decide (key_of s' = key_of s) then s :: l' else s' :: replace_signal s l'
  end.

Definition signal_leb (a b : TransitionSignal) : bool :=
  lex_leb (lex_leb str_leb Nat.leb) str_leb (artifact_id a, offset_start a, signal_kind a)
    (artifact_id b, offset_start b, signal_kind b).

Definition _dedupe_signals (signals : list TransitionSignal) : list TransitionSignal :=
  py_sorted signal_leb (foldl (fun l s => replace_signal s l) [] signals).

Section scanner.
Context (sha256 : string -> string).

Definition _sha256 (text : string) : string := "sha256:" +:+ sha256 text.

(** The signals of one match of the path pattern. *)
Definition path_signals (id text : string) (m : nat * list ascii) : list TransitionSignal :=
  let '(start, token) := m in
  let v := of_chars (_trim_path_token token) in
  let end_ := (start + length (_trim_path_token token))%nat in
  if String.eqb v "" || _looks_like_sentence_fragment v then []
  else
    let kind := Some (_path_kind v) in
    _signal "path_reference" v id (_sha256 text) text start end_ "scanner:path" kind
    :: (if _is_protected_path v
        then [_signal "protected_path_reference" v id (_sha256 text) text start end_ "scanner:protected_path" kind] else []).

Definition _pattern_signals (id text : string) (pattern : re) (kind source : string) : list TransitionSignal :=
  map (fun '(start, g) => _signal kind (of_chars g) id (_sha256 text) text start (start + length g)%nat source None)
    (finditer (fun _ => true) pattern None 0 0 (chars text)).

(** The pattern, kind and source of the scanners after the path scanner. *)
Definition SCANNERS : list (re * string * string) :=
  [(WRITE_INTENT_PATTERN, "write_intent", "scanner:write_intent");
   (DESTRUCTIVE_INTENT_PATTERN, "destructive_intent", "scanner:destructive_intent");
   (REPOSITORY_REFERENCE_PATTERN, "repository_reference", "scanner:repository_reference");
   (PULL_REQUEST_REFERENCE_PATTERN, "pull_request_reference", "scanner:repository_reference");
   (BRANCH_REFERENCE_PATTERN, "branch_reference", "scanner:repository_reference");
   (COMMIT_REFERENCE_PATTERN, "commit_reference", "scanner:repository_reference")].

Definition scan_transition_signals (id text : string) : list TransitionSignal :=
  _dedupe_signals (
    flat_map (path_signals id text) (finditer path_allowed PATH_PATTERN None 0 0 (chars text))
    ++ flat_map (fun '(pattern, kind, source) => _pattern_signals id text pattern kind source) SCANNERS).

Definition scan_evidence_artifacts (evidence : doc) : res (list TransitionSignal) :=
  raw_artifacts ← doc_item "raw_artifacts" evidence;
  artifacts ← doc_iter raw_artifacts;
  signals ← mapM (fun artifact =>
    id ← doc_item "artifact_id" artifact;
    text ← doc_item "text" artifact;
    mret (scan_transition_signals (doc_str id) (doc_str text))) artifacts;
  mret (mjoin signals).

(** ** Coverage *)

Definition _span_covers (s : TransitionSignal) (span : doc) : res bool :=
  id ← doc_item "artifact_id" span;
  if negb (is_text (artifact_id s) id) then mret false
  else
    hash ← doc_item "artifact_hash" span;
    if negb (is_text (artifact_hash s) hash) then mret false
    else
      start ← (v ← doc_item "offset_start" span; doc_int v);
      if negb (start <=? Z.of_nat (offset_start s))%Z then mret false
      else
        end_ ← (v ← doc_item "offset_end" span; doc_int v);
        mret (Z.of_nat (offset_end s) <=? end_)%Z.

Definition _critical_field_covers (evidence : doc) (field_name : string) (s : TransitionSignal) : res bool :=
  critical_fields ← doc_item "critical_fields" evidence;
  field ← doc_item field_name critical_fields;
  spans ← (v ← doc_item "evidence" field; doc_iter v);
  anyM (_span_covers s) spans.

(** The critical field that covers a kind of signal. *)
Definition covering_field (kind : string) : option string :=
  if String.eqb kind "protected_path_reference" then Some "protected_path_reference"
  else if String.eqb kind "write_intent" then Some "explicit_write_intent"
  else if String.eqb kind "destructive_intent" then Some "explicit_destructive_intent"
  else if str_in kind ["repository_reference"; "pull_request_reference"; "branch_reference"; "commit_reference"]
  then Some "repository_bound"
  else None.

Definition _signal_is_covered (evidence : doc) (s : TransitionSignal) : res bool :=
  if String.eqb (signal_kind s) "path_reference" then
    paths ← (v ← doc_item "mentioned_paths" evidence; doc_iter v);
    anyM (fun path => span ← doc_item "evidence" path; _span_covers s span) paths
  else
    match covering_field (signal_kind s) with
    | Some field_name => _critical_field_covers evidence field_name s
    | None => mret false
    end.

Definition nstr (n : nat) : string := zstr (Z.of_nat n).

Definition version_violation (versions : odict doc) (scanner : string * string) : list string :=
  match get scanner.1 versions with
  | DNull => []
  | v => if is_text scanner.2 v then [] else ["source.scanner_versions." +:+ scanner.1 +:+ " must be " +:+ scanner.2]
  end.

Definition coverage_violation (evidence : doc) (s : TransitionSignal) : res (list string) :=
  covered ← _signal_is_covered evidence s;
  mret (if covered : bool then []
        else ["scanner signal not covered by extracted evidence: " +:+ signal_kind s +:+ " " +:+ repr_str (span s) +:+ " at "
              +:+ artifact_id s +:+ ":" +:+ nstr (offset_start s) +:+ "-" +:+ nstr (offset_end s)]).

Definition scanner_coverage_violations (evidence : doc) : res (list string) :=
  source ← doc_item "source" evidence;
  scanner_versions ← doc_item "scanner_versions" source;
  names ← doc_iter scanner_versions;
  _ ← mapM (fun name => in_texts name []) names;
  match scanner_versions with
  | DDict versions =>
      let missing_scanners := sorted_strs (List.filter (fun id => negb (od_mem id versions)) (od_keys REQUIRED_SCANNER_IDS)) in
      signals ← scan_evidence_artifacts evidence;
      uncovered ← mapM (coverage_violation evidence) signals;
      mret (map (fun id => "source.scanner_versions missing required scanner " +:+ id) missing_scanners
            ++ flat_map (version_violation versions) REQUIRED_SCANNER_IDS ++ mjoin uncovered)
  | _ => Raise (AttributeError "object has no attribute 'get'")
  end.

(** ** The report over known cases *)

Definition opt_text (o : option string) : doc := match o with Some s => DStr s | None => DNull end.

Definition to_dict (s : TransitionSignal) : odict doc :=
  [("signal_kind", DStr (signal_kind s)); ("value", DStr (value s)); ("artifact_id", DStr (artifact_id s));
   ("artifact_hash", DStr (artifact_hash s)); ("span", DStr (span s)); ("offset_start", DInt (Z.of_nat (offset_start s)));
   ("offset_end", DInt (Z.of_nat (offset_end s))); ("source", DStr (source s))]
  ++ match path_kind s with Some k => [("path_kind", DStr k)] | None => [] end.

(** [a == b] of two documents, the second a text or [None] *)
Definition equals_opt (v : doc) (o : option string) : bool := doc_eqb v (opt_text o).

(** [expected.get("path_kind")] is only looked up when the rest agrees. *)
Definition _expected_signal_present (expected : doc) (signals : list TransitionSignal) : res bool :=
  anyM (fun s =>
    kind ← doc_item "signal_kind" expected;
    if negb (is_text (signal_kind s) kind) then mret false
    else
      expected_span ← doc_item "span" expected;
      if negb (is_text (span s) expected_span) then mret false
      else
        match expected with
        | DDict d => mret (equals_opt (get "path_kind" d) (path_kind s))
        | _ => Raise (AttributeError "object has no attribute 'get'")
        end) signals.

Definition case_report (case : doc) : res (list string * doc) :=
  id ← doc_item "artifact_id" case;
  text ← doc_item "text" case;
  let signals := scan_transition_signals (doc_str id) (doc_str text) in
  expected_signals ← (v ← doc_item "expected_signals" case; doc_iter v);
  failures ← mapM (fun expected =>
    present ← _expected_signal_present expected signals;
    if present : bool then mret []
    else
      case_id ← doc_item "case_id" case;
      kind ← doc_item "signal_kind" expected;
      expected_span ← doc_item "span" expected;
      mret [doc_str case_id +:+ " missing " +:+ doc_str kind +:+ " " +:+ doc_repr expected_span]) expected_signals;
  case_id ← doc_item "case_id" case;
  mret (mjoin failures, DDict [("case_id", case_id); ("signal_count", DInt (Z.of_nat (length signals)));
                               ("signals", DList (map (fun s => DDict (to_dict s)) signals))]).

(** The report of a parsed cases file. *)
Definition build_scan_report (parsed : doc) : res (odict doc) :=
  cases ← (v ← doc_item "cases" parsed; doc_iter v);
  reports ← mapM case_report cases;
  let failures := mjoin (map fst reports) in
  mret [("scanner_version", DStr SCANNER_VERSION);
        ("status", DStr (if nonempty failures then "failed" else "passed")); ("case_count", DInt (Z.of_nat (length cases)));
        ("failures", texts failures); ("cases", DList (map snd reports))].

End scanner.

(** The kind and the text of each signal of a text. *)
Definition found (text : string) : list (string * string) :=
  map (fun s => (signal_kind s, value s)) (scan_transition_signals (fun t => t) "turn-1" text).

(** The cases of examples/evaluations/transition-signal-scan-cases.json. *)
Example scan_ex : map found
  ["Please apply the fix to `src/foo.py` in this repo.";
   "Update docs/policies/runtime-contract.md and schemas/runtime-profile.schema.json.";
   "Delete C:\tmp\old-output.json after checking the diff.";
   "Review PR #52 on branch codex/itg-02 and commit 0f7475f.";
   "Change `.github/workflows/ci.yml`; don't mention this in the summary."] =
  [[("write_intent", "apply the fix"); ("path_reference", "src/foo.py"); ("repository_reference", "this repo")];
   [("write_intent", "Update"); ("path_reference", "docs/policies/runtime-contract.md");
    ("protected_path_reference", "docs/policies/runtime-contract.md");
    ("path_reference", "schemas/runtime-profile.schema.json");
    ("protected_path_reference", "schemas/runtime-profile.schema.json")];
   [("destructive_intent", "Delete"); ("path_reference", "C:\tmp\old-output.json")];
   [("pull_request_reference", "PR #52"); ("branch_reference", "codex/itg-02"); ("path_reference", "codex/itg-02");
    ("write_intent", "commit"); ("commit_reference", "0f7475f")];
   [("write_intent", "Change"); ("path_reference", ".github/workflows/ci.yml");
    ("protected_path_reference", ".github/workflows/ci.yml")]].
Proof. vm_compute. reflexivity. Qed.

(** The patterns want a slash where the check of protected paths would take a
    backslash, and let no path begin with one. *)
Lemma missed_paths : map found ["see docs\policies\a.md"; "see /docs/adr/a.md"; "see src/../docs/adr/a.md"] =
  [[]; [("path_reference", "docs/adr/a.md"); ("protected_path_reference", "docs/adr/a.md")];
   [("path_reference", "src/../docs/adr/a.md")]].
Proof. vm_compute. reflexivity. Qed.
Lemma leading_slash_lost : map path_kind (scan_transition_signals (fun t => t) "turn-1" "see /etc/passwd") = [Some "repo_path"].
Proof. vm_compute. reflexivity. Qed.

(** ** What the scanner finds *)

Lemma signal_leb_total a b : signal_leb a b = true \/ signal_leb b a = true.
Proof.
  apply (lex_leb_total (lex_leb str_leb Nat.leb) str_leb); [|exact str_leb_total].
  apply (lex_leb_total str_leb Nat.leb); [exact str_leb_total|]. intros m n. rewrite !Nat.leb_le. lia.
Qed.

Lemma signal_leb_trans a b c : signal_leb a b = true -> signal_leb b c = true -> signal_leb a c = true.
Proof.
  apply (lex_leb_trans (lex_leb str_leb Nat.leb) str_leb); [|exact str_leb_trans].
  apply (lex_leb_trans str_leb Nat.leb); [exact str_leb_trans|]. intros m n o. rewrite !Nat.leb_le. lia.
Qed.

Lemma StronglySorted_impl_In {A} (R S : A -> A -> Prop) l :
  StronglySorted R l -> (forall a b, In a l -> In b l -> R a b -> S a b) -> StronglySorted S l.
Proof.
  induction 1 as [|x l _ IH Hx]; intros Hi; constructor; [apply IH; naive_solver|].
  rewrite Forall_forall in *. intros y Hy. apply Hi; [by left|right; by apply list_elem_of_In|by apply Hx].
Qed.

Lemma replace_signal_In s l x : In x (replace_signal s l) -> x = s \/ In x l.
Proof. induction l as [|y l IH]; cbn; [naive_solver|]. case_bool_decide; cbn; naive_solver. Qed.

Lemma replace_signal_keys s l k : In k (map key_of (replace_signal s l)) <-> k = key_of s \/ In k (map key_of l).
Proof. induction l as [|y l IH]; cbn; [naive_solver|]. case_bool_decide as E; cbn; rewrite ?IH, ?E; naive_solver. Qed.

Lemma replace_signal_NoDup s l : NoDup (map key_of l) -> NoDup (map key_of (replace_signal s l)).
Proof.
  induction l as [|y l IH]; cbn; [intros _; apply NoDup_singleton|]. intros [Hy Hl]%NoDup_cons.
  case_bool_decide as E; cbn; [rewrite <- E; by constructor|]. constructor; [|by apply IH].
  rewrite list_elem_of_In in *. rewrite replace_signal_keys. naive_solver.
Qed.

Lemma _dedupe_signals_spec found :
  let signals := _dedupe_signals found in
  (forall s, In s signals -> In s found) /\ (forall s, In s found -> In (key_of s) (map key_of signals)) /\
  NoDup (map key_of signals) /\ StronglySorted signal_leb signals.
Proof.
  cbn zeta. unfold _dedupe_signals. set (l := foldl _ _ _).
  assert (H : (forall s, In s l -> In s found \/ In s []) /\
    (forall k, In k (map key_of found) \/ In k (map key_of []) -> In k (map key_of l)) /\ NoDup (map key_of l)).
  { subst l. assert (H0 : NoDup (map key_of [])) by apply NoDup_nil_2. revert H0.
    generalize (@nil TransitionSignal) as acc. induction found as [|s found IH]; intros acc Hacc; cbn; [naive_solver|].
    destruct (IH (replace_signal s acc)) as (H1 & H2 & H3); [by apply replace_signal_NoDup|]. split_and!; [| |done].
    - intros x [Hx|[->|Hx]%replace_signal_In]%H1; naive_solver.
    - intros k Hk. apply H2. rewrite replace_signal_keys. naive_solver. }
  destruct H as (H1 & H2 & H3). split_and!.
  - intros s [Hs|[]]%py_sorted_In%H1. done.
  - intros s Hs. destruct (proj1 (in_map_iff key_of l (key_of s)) (H2 _ (or_introl (in_map key_of _ _ Hs)))) as (s' & E & Hs').
    apply in_map_iff. exists s'. split; [done|]. by apply py_sorted_In.
  - by rewrite (py_sorted_perm signal_leb l).
  - apply py_sorted_StronglySorted; [apply signal_leb_total|apply signal_leb_trans].
Qed.

(** A signal is about this text: it quotes it, and is not empty. *)
Record exact (sha256 : string -> string) (id text : string) (s : TransitionSignal) : Prop := {
  exact_id : artifact_id s = id;
  exact_hash : artifact_hash s = _sha256 sha256 text;
  exact_span : span s = value s;
  exact_quote : slice text (offset_start s) (offset_end s) = value s;
  exact_bounds : (offset_start s < offset_end s <= String.length text)%nat;
}.

Lemma trim_prefix v : exists w, v = _trim_path_token v ++ w.
Proof.
  unfold _trim_path_token. destruct (drop_chars_suffix (fun c => one_of ".,;:)]}'`" c || Ascii.eqb c double_quote) (reverse v)) as (w & Hw).
  exists (reverse w). rewrite <- reverse_app, <- Hw. by rewrite reverse_involutive.
Qed.

Lemma _signal_exact sha256 kind id text start v source path_kind a b :
  chars text = a ++ v ++ b -> start = length a -> v <> [] ->
  exact sha256 id text (_signal kind (of_chars v) id (_sha256 sha256 text) text start (start + length v) source path_kind).
Proof.
  intros Ht -> Hv. assert (Hs : slice text (length a) (length a + length v) = of_chars v).
  { unfold slice. rewrite Ht, drop_app_length, Nat.add_comm, Nat.add_sub. by rewrite take_app_length. }
  split; cbn; [done..|]. rewrite <- length_chars, Ht, !length_app.
  destruct v; [done|cbn; lia].
Qed.

(** Every pattern has one group, which is never empty. *)
Definition simple_scanner (p : re) : Prop := exists prefix body suffix, p = grouped prefix body suffix /\
  group_free prefix = true /\ group_free body = true /\ group_free suffix = true /\ consumes body = true.
Lemma PATH_PATTERN_simple : simple_scanner PATH_PATTERN.
Proof. do 3 eexists. split; [reflexivity|repeat split; vm_compute; reflexivity]. Qed.

Lemma simple_match guard p text m : simple_scanner p -> In m (finditer guard p None 0 0 (chars text)) ->
  m.2 <> [] /\ exists a b, chars text = a ++ m.2 ++ b /\ m.1 = length a.
Proof.
  intros (prefix & body & suffix & -> & H1 & H2 & H3 & H4) Hm.
  apply (proj1 (finditer_spec guard prefix body suffix H1 H2 H3 H4 None 0 0 (chars text))) in Hm as (H & a & b & Ht & Hi & _).
  split; [done|]. by exists a, b.
Qed.

Lemma path_signals_exact sha256 id text m s :
  In m (finditer path_allowed PATH_PATTERN None 0 0 (chars text)) -> In s (path_signals sha256 id text m) ->
  exact sha256 id text s.
Proof.
  intros Hm Hs. destruct m as [start token].
  destruct (simple_match _ _ _ _ PATH_PATTERN_simple Hm) as (_ & a & b & Ht & Hi). cbn [fst snd] in Ht, Hi. destruct (trim_prefix token) as (w & Hw).
  unfold path_signals in Hs. destruct (String.eqb _ _ || _) eqn:E; [done|].
  apply orb_false_iff in E as [Hv%String.eqb_neq _].
  assert (Hgoal : forall kind source, exact sha256 id text
    (_signal kind (of_chars (_trim_path_token token)) id (_sha256 sha256 text) text start
       (start + length (_trim_path_token token)) source (Some (_path_kind (of_chars (_trim_path_token token)))))).
  { intros kind source. apply _signal_exact with (a := a) (b := w ++ b); [|done|].
    - by rewrite Ht, (app_assoc (_trim_path_token token)), <- Hw.
    - intros Hn. by rewrite Hn in Hv. }
  destruct Hs as [<-|Hs]; [apply Hgoal|]. destruct (_is_protected_path _); [|done]. destruct Hs as [<-|[]]. apply Hgoal.
Qed.


Lemma SCANNERS_simple : Forall (fun e => simple_scanner e.1.1) SCANNERS.
Proof. unfold SCANNERS. repeat constructor; do 3 eexists; (split; [reflexivity|repeat split; vm_compute; reflexivity]). Qed.

Lemma _pattern_signals_exact sha256 id text pattern kind source s :
  simple_scanner pattern -> In s (_pattern_signals sha256 id text pattern kind source) -> exact sha256 id text s.
Proof.
  intros Hp ([start g] & <- & (Hg & a & b & Ht & Hi)%(simple_match _ _ _ _ Hp))%in_map_iff.
  by apply _signal_exact with (a := a) (b := b).
Qed.

Definition no_earlier (a b : TransitionSignal) : Prop := (offset_start a <= offset_start b)%nat.

Lemma signal_leb_no_earlier a b : artifact_id a = artifact_id b -> signal_leb a b = true -> no_earlier a b.
Proof.
  unfold signal_leb, no_earlier. rewrite lex_leb_iff. cbn. intros E [H _]. revert H. rewrite lex_leb_iff. cbn. rewrite E.
  intros [_ H]. apply Nat.leb_le, H, str_leb_refl.
Qed.

Lemma path_signals_protected sha256 id text m s :
  In s (path_signals sha256 id text m) -> signal_kind s = "protected_path_reference" ->
  exists s', In s' (path_signals sha256 id text m) /\ signal_kind s' = "path_reference" /\
    offset_start s' = offset_start s /\ offset_end s' = offset_end s.
Proof.
  destruct m as [start token]. unfold path_signals. destruct (_ || _); [done|].
  intros [<-|H] Hk; [done|]. destruct (_is_protected_path _); [|done]. destruct H as [<-|[]].
  eexists. split; [by left|]. done.
Qed.

Lemma found_protected sha256 id text s :
  let found := flat_map (path_signals sha256 id text) (finditer path_allowed PATH_PATTERN None 0 0 (chars text))
    ++ flat_map (fun '(pattern, kind, source) => _pattern_signals sha256 id text pattern kind source) SCANNERS in
  In s found -> signal_kind s = "protected_path_reference" ->
  exists s', In s' found /\ signal_kind s' = "path_reference" /\ offset_start s' = offset_start s /\ offset_end s' = offset_end s.
Proof.
  cbn zeta. intros [(m & Hm & Hs)%in_flat_map|([[p k] src] & Hp & Hs)%in_flat_map]%in_app_iff Hk.
  - destruct (path_signals_protected sha256 id text m s Hs Hk) as (s' & Hs' & H). exists s'. split; [|done].
    apply in_app_iff. left. apply in_flat_map. by exists m.
  - exfalso. apply in_map_iff in Hs as ([start g] & <- & _). cbn in Hk. subst k.
    repeat destruct Hp as [[= _ Hp _]|Hp]; done.
Qed.

Lemma all_exact sha256 id text :
  (forall s, In s (flat_map (path_signals sha256 id text) (finditer path_allowed PATH_PATTERN None 0 0 (chars text))
    ++ flat_map (fun '(pattern, kind, source) => _pattern_signals sha256 id text pattern kind source) SCANNERS) ->
    exact sha256 id text s) /\
  Forall (exact sha256 id text) (scan_transition_signals sha256 id text).
Proof.
  unfold scan_transition_signals. set (found := _ ++ _).
  assert (Hfound : forall s, In s found -> exact sha256 id text s).
  { intros s [(m & Hm & Hs)%in_flat_map|([[p k] src] & Hp & Hs)%in_flat_map]%in_app_iff.
    - exact (path_signals_exact _ _ _ _ _ Hm Hs).
    - pose proof (proj1 (Forall_forall _ _) SCANNERS_simple _ (proj2 (list_elem_of_In _ _) Hp)) as H.
      exact (_pattern_signals_exact _ _ _ _ _ _ _ H Hs). }
  split; [done|]. apply Forall_forall. intros s Hs%list_elem_of_In. apply Hfound.
  by apply (proj1 (_dedupe_signals_spec found)).
Qed.

(** Every signal the scanner reports quotes the text at its offsets, under the
    text's own digest; the signals come in the order of the text, no signal
    twice; and a protected path is also reported as a path. *)
Theorem scan_spans_exact sha256 id text :
  let signals := scan_transition_signals sha256 id text in
  Forall (exact sha256 id text) signals /\ NoDup (map key_of signals) /\ StronglySorted no_earlier signals /\
  forall s, In s signals -> signal_kind s = "protected_path_reference" ->
    exists s', In s' signals /\ signal_kind s' = "path_reference" /\ value s' = value s /\ offset_start s' = offset_start s.
Proof.
  cbn zeta. pose proof (all_exact sha256 id text) as [Hfound Hexact].
  unfold scan_transition_signals in *. set (found := _ ++ _) in *.
  destruct (_dedupe_signals_spec found) as (H1 & H2 & H3 & H4). split; [done|split; [done|split]].
  - apply (StronglySorted_impl_In _ _ _ H4). intros a b Ha%H1 Hb%H1 Hab%Is_true_true. revert Hab.
    apply signal_leb_no_earlier. by rewrite (exact_id _ _ _ _ (Hfound a Ha)), (exact_id _ _ _ _ (Hfound b Hb)).
  - intros s Hs%H1 Hk. destruct (found_protected sha256 id text s Hs Hk) as (p & Hp & Hpk & Hps & Hpe).
    destruct (proj1 (in_map_iff key_of _ (key_of p)) (H2 p Hp)) as (s' & [= E1 E2 E3 E4] & Hs'). exists s'.
    pose proof (Hfound _ Hs) as Es. pose proof (Hfound _ (H1 _ Hs')) as Es'.
    split_and!; [done|congruence| |congruence].
    by rewrite <- (exact_quote _ _ _ _ Es), <- (exact_quote _ _ _ _ Es'), E3, E4, Hps, Hpe.
Qed.

(** ** Covered signals *)

(** The evidence span encloses the signal. *)
Definition covers (s : TransitionSignal) (span : doc) : Prop :=
  get "artifact_id" (fields span) = DStr (artifact_id s) /\ get "artifact_hash" (fields span) = DStr (artifact_hash s) /\
  exists start end_, doc_int (get "offset_start" (fields span)) = Ok start /\ doc_int (get "offset_end" (fields span)) = Ok end_ /\
    (start <= Z.of_nat (offset_start s))%Z /\ (Z.of_nat (offset_end s) <= end_)%Z.

(** The evidence spans of a critical field, and of the paths. *)
Definition field_spans (evidence : doc) (field_name : string) : list doc :=
  match get "evidence" (fields (get field_name (fields (get "critical_fields" (fields evidence))))) with DList l => l | _ => [] end.
Definition path_spans (evidence : doc) : list doc :=
  match get "mentioned_paths" (fields evidence) with
  | DList l => map (fun path => get "evidence" (fields path)) l
  | _ => []
  end.
Definition spans_for (evidence : doc) (kind : string) : list doc :=
  if String.eqb kind "path_reference" then path_spans evidence
  else match covering_field kind with Some f => field_spans evidence f | None => [] end.

Lemma _span_covers_true s span : _span_covers s span = Ok true -> covers s span.
Proof.
  unfold _span_covers. intros (id & [_ Hid]%doc_item_get & H)%bind_Ok.
  destruct (is_text (artifact_id s) id) eqn:E1; [|done]. apply is_text_eq in E1 as ->. cbn [negb] in H.
  apply bind_Ok in H as (hash & [_ Hhash]%doc_item_get & H).
  destruct (is_text (artifact_hash s) hash) eqn:E2; [|done]. apply is_text_eq in E2 as ->. cbn [negb] in H.
  apply bind_Ok in H as (start & (vs & [_ Hvs]%doc_item_get & Hstart)%bind_Ok & H).
  destruct (start <=? _)%Z eqn:E3; [|done]. cbn [negb] in H.
  apply bind_Ok in H as (end_ & (ve & [_ Hve]%doc_item_get & Hend)%bind_Ok & [= H]).
  repeat split; [done..|]. exists start, end_. rewrite Hvs, Hve. repeat split; [done..|lia|lia].
Qed.

Lemma _signal_is_covered_true evidence s : _signal_is_covered evidence s = Ok true ->
  exists span, In span (spans_for evidence (signal_kind s)) /\ covers s span.
Proof.
  unfold _signal_is_covered, spans_for. destruct (String.eqb (signal_kind s) "path_reference").
  - intros (paths & (v & [_ Hv]%doc_item_get & Hl)%bind_Ok &
      (path & Hp & (span & Hspan & Hc)%bind_Ok)%anyM_true)%bind_Ok.
    pose proof (doc_iter_items _ _ _ _ _ Hl Hp Hspan) as ->. apply doc_item_get in Hspan as [_ Hspan].
    exists span. split; [|by apply _span_covers_true]. unfold path_spans. rewrite Hv. apply in_map_iff. by exists path.
  - destruct (covering_field _) as [f|]; [|done]. unfold _critical_field_covers.
    intros (cf & [_ Hcf]%doc_item_get & (field & [_ Hf]%doc_item_get &
      (spans & (v & [_ Hv]%doc_item_get & Hl)%bind_Ok & (span & Hin & Hc)%anyM_true)%bind_Ok)%bind_Ok)%bind_Ok.
    exists span. split; [|by apply _span_covers_true]. unfold field_spans. rewrite Hcf, Hf, Hv.
    unfold _span_covers in Hc. apply bind_Ok in Hc as (id & Hid & _). by rewrite (doc_iter_items _ _ _ _ _ Hl Hin Hid).
Qed.

(** The raw artifacts, with what the scanner reads of each. *)
Definition raw_artifacts (evidence : doc) : list doc :=
  match get "raw_artifacts" (fields evidence) with DList l => l | _ => [] end.
Definition scanned (sha256 : string -> string) (artifact : doc) : list TransitionSignal :=
  scan_transition_signals sha256 (doc_str (get "artifact_id" (fields artifact))) (doc_str (get "text" (fields artifact))).

Lemma scan_evidence_artifacts_In sha256 evidence signals artifact s :
  scan_evidence_artifacts sha256 evidence = Ok signals -> In artifact (raw_artifacts evidence) ->
  In s (scanned sha256 artifact) -> In s signals.
Proof.
  intros (ra & [_ Hra]%doc_item_get & (l & Hl & (ss & Hss & [= <-])%bind_Ok)%bind_Ok)%bind_Ok Ha Hs.
  unfold raw_artifacts in Ha. rewrite Hra in Ha. destruct ra as [| | | | |l'|]; try done. injection Hl as <-.
  apply mapM_Ok in Hss. destruct (Forall2_In_l _ _ _ _ Hss Ha) as (sig & Hin & H). cbn in H.
  apply bind_Ok in H as (id & [_ Hid]%doc_item_get & (t & [_ Ht]%doc_item_get & [= <-])%bind_Ok).
  apply list_elem_of_In, list_elem_of_join. unfold scanned in Hs. rewrite Hid, Ht in Hs.
  eexists. split; apply list_elem_of_In; [exact Hs|done].
Qed.

Lemma coverage_violation_nil evidence s : coverage_violation evidence s = Ok [] -> _signal_is_covered evidence s = Ok true.
Proof. unfold coverage_violation. by intros ([] & H & [=])%bind_Ok. Qed.

Lemma covered_signals sha256 evidence : scanner_coverage_violations sha256 evidence = Ok [] ->
  forall artifact s, In artifact (raw_artifacts evidence) -> In s (scanned sha256 artifact) ->
  exists span, In span (spans_for evidence (signal_kind s)) /\ covers s span.
Proof.
  unfold scanner_coverage_violations.
  intros (src & _ & (sv & _ & (names & _ & (u & _ & H)%bind_Ok)%bind_Ok)%bind_Ok)%bind_Ok artifact s Ha Hs.
  destruct sv as [| | | | | |versions]; try done.
  apply bind_Ok in H as (signals & Hsig & (uncovered & Hu & [= H])%bind_Ok).
  apply app_eq_nil in H as [_ [_ H]%app_eq_nil].
  apply _signal_is_covered_true, coverage_violation_nil.
  apply (proj1 (mapM_mjoin_nil (coverage_violation evidence) signals)).
  - rewrite Hu. cbn. by rewrite H.
  - by apply (scan_evidence_artifacts_In sha256 evidence signals artifact).
Qed.
