(* ===== verification/TransitionEvidence.v ===== *)
(** * Evidence of an intent transition

    Models [scripts/runtime/validate_transition_evidence.py], the validation of
    structured evidence against the raw texts it quotes, and
    [scripts/runtime/evaluate_intent_transition_traces.py], the replay of golden
    traces. [schema_check] loads the schema and checks a document against it;
    [sha256] is the hexadecimal digest of a text. The command lines and the
    reading of the files are left out. *)

From Stdlib Require Import SpecFloat.
From S2P Require Import Prelude PyStr PyFloat PyValue Documents TransitionSignals.
Open Scope string_scope.
Open Scope list_scope.

Definition CONTRACT_VERSION : string := "0.1.0".
Definition TRUE_VALUE : string := "true".
Definition UNKNOWN_VALUE : string := "unknown".
Definition COMPLETE_COVERAGE : string := "complete".
Definition ESCALATION_BLOCKING_UNKNOWN_FIELDS : gset string := list_to_set
  ["repository_bound"; "explicit_write_intent"; "protected_path_reference"; "scan_coverage"; "raw_artifact_hash_verified";
   "previous_profile_authority_verified"].
Definition FORBIDDEN_AUDIT_CONTENT : gset string := list_to_set
  ["secret_values"; "private_keys"; "bearer_tokens"; "raw_runtime_traces"; "raw_tool_outputs"; "confidential_customer_data"].
Definition NON_ESCALATING_DECISIONS : list string := ["clarification_required"; "human_review_required"; "denied"].

Definition TransitionEvidenceError (message : string) : exn := ValueError message.

(** [violations.append(message)] under a condition *)
Definition violation (b : bool) (message : string) : list string := if b then [message] else [].

(** [text[start:end]] for any integers *)
Definition py_slice (text : string) (start end_ : Z) : string :=
  let n := Z.of_nat (String.length text) in
  let index i := Z.to_nat (if (i <? 0)%Z then Z.max 0 (i + n) else Z.min i n)%Z in
  slice text (index start) (index end_).

(** [for i, x in enumerate(l)], collecting what [f] reports *)
Definition enumerate_all {A} (f : nat -> A -> res (list string)) (l : list A) : res (list string) :=
  violations ← mapM (fun e => f e.1 e.2) (imap pair l);
  mret (mjoin violations).

Section validation.
Context (sha256 : string -> string) (schema_check : doc -> res unit).

Definition _artifact_index (evidence : doc) : res (odict doc) :=
  artifacts ← (v ← doc_item "raw_artifacts" evidence; doc_iter v);
  named ← mapM (fun artifact => id ← doc_item "artifact_id" artifact; mret (doc_str id, artifact)) artifacts;
  mret (od_of_list named).

Definition _artifact_hash_violations (artifacts : list doc) : res (list string) :=
  violations ← mapM (fun artifact =>
    id ← doc_item "artifact_id" artifact;
    text ← doc_item "text" artifact;
    hash ← doc_item "artifact_hash" artifact;
    mret (violation (negb (is_text (_sha256 sha256 (doc_str text)) hash))
            (doc_str id +:+ " artifact_hash does not match text"))) artifacts;
  mret (mjoin violations).

(** The body of the loop of [_span_violations]. *)
Definition span_violation (artifacts : odict doc) (field_name : string) (span : doc) : res (list string) :=
  id ← doc_item "artifact_id" span;
  match od_get (doc_str id) artifacts with
  | None => mret [field_name +:+ " references unknown artifact " +:+ doc_str id]
  | Some artifact =>
      span_hash ← doc_item "artifact_hash" span;
      hash ← doc_item "artifact_hash" artifact;
      let mismatch := violation (negb (doc_is span_hash hash)) (field_name +:+ " artifact_hash does not match " +:+ doc_str id) in
      offset_start ← (v ← doc_item "offset_start" span; doc_int v);
      offset_end ← (v ← doc_item "offset_end" span; doc_int v);
      text ← doc_item "text" artifact;
      let raw_text := doc_str text in
      if (offset_end <=? offset_start)%Z then mret (mismatch ++ [field_name +:+ " offset_start must be before offset_end"])
      else if (Z.of_nat (String.length raw_text) <? offset_end)%Z then
        mret (mismatch ++ [field_name +:+ " offset_end exceeds artifact length"])
      else
        quoted ← doc_item "span" span;
        mret (mismatch ++ violation (negb (is_text (py_slice raw_text offset_start offset_end) quoted))
                            (field_name +:+ " span does not match artifact offsets"))
  end.

(** The generator of the spans and the loop over it take turns. *)
Definition field_span_violations (artifacts : odict doc) (entry : string * doc) : res (list string) :=
  match entry.2 with
  | DDict field =>
      spans ← doc_iter (get_or "evidence" (DList []) field);
      enumerate_all (fun index span =>
        span_violation artifacts ("critical_fields." +:+ entry.1 +:+ ".evidence[" +:+ nstr index +:+ "]") span) spans
  | _ => mret []
  end.
Definition path_span_violations (artifacts : odict doc) (index : nat) (path : doc) : res (list string) :=
  span ← doc_item "evidence" path;
  span_violation artifacts ("mentioned_paths[" +:+ nstr index +:+ "].evidence") span.

Definition _span_violations (evidence : doc) (artifacts : odict doc) : res (list string) :=
  fields ← (v ← doc_item "critical_fields" evidence; doc_items v);
  of_fields ← mapM (field_span_violations artifacts) fields;
  paths ← (v ← doc_item "mentioned_paths" evidence; doc_iter v);
  of_paths ← enumerate_all (path_span_violations artifacts) paths;
  mret (mjoin of_fields ++ of_paths).

Definition escalates (evidence : doc) : res bool :=
  delta ← doc_item "capability_delta" evidence;
  v ← doc_item "escalates_authority" delta;
  mret (doc_truthy v).

(** [v != "complete" and evidence["capability_delta"]["escalates_authority"]] *)
Definition partly_scanned (evidence v : doc) : res bool :=
  if is_text COMPLETE_COVERAGE v then mret false else escalates evidence.

Definition _critical_field_violations (evidence : doc) : res (list string) :=
  critical_fields ← doc_item "critical_fields" evidence;
  items ← doc_items critical_fields;
  unquoted ← mapM (fun '(field_name, field) =>
    v ← doc_item "value" field;
    if String.eqb (doc_str v) TRUE_VALUE then
      spans ← doc_item "evidence" field;
      mret (violation (negb (doc_truthy spans)) (field_name +:+ "=true requires at least one evidence span"))
    else mret []) items;
  coverage ← (v ← doc_item "scan_coverage" critical_fields; doc_item "value" v);
  partial ← partly_scanned evidence coverage;
  artifacts ← (v ← doc_item "raw_artifacts" evidence; doc_iter v);
  of_artifacts ← mapM (fun artifact =>
    v ← doc_item "scan_coverage" artifact;
    partial ← partly_scanned evidence v;
    if partial : bool then
      id ← doc_item "artifact_id" artifact;
      mret [doc_str id +:+ " scan_coverage must be complete for capability escalation"]
    else mret []) artifacts;
  mret (mjoin unquoted ++ violation partial "scan_coverage must be complete for capability escalation" ++ mjoin of_artifacts).

(** [a and b] where [b] is looked up only if [a] holds. *)
Definition and_then (a : bool) (b : res bool) : res bool := if a then b else mret false.

(** [decision["status"] not in NON_ESCALATING_DECISIONS] *)
Definition goes_ahead (decision : doc) : res bool :=
  status ← doc_item "status" decision;
  b ← in_texts status NON_ESCALATING_DECISIONS;
  mret (negb b).

Definition field_is_true (critical_fields : doc) (field_name : string) : res bool :=
  v ← (field ← doc_item field_name critical_fields; doc_item "value" field);
  mret (is_text TRUE_VALUE v).

Definition _capability_delta_violations (evidence : doc) : res (list string) :=
  delta ← doc_item "capability_delta" evidence;
  decision ← doc_item "decision" evidence;
  critical_fields ← doc_item "critical_fields" evidence;
  escalates_authority ← (v ← doc_item "escalates_authority" delta; mret (doc_truthy v));
  stays ← and_then escalates_authority (v ← doc_item "requires_recomposition" delta; mret (negb (doc_truthy v)));
  items ← doc_items critical_fields;
  unknown ← mapM (fun '(field_name, field) =>
    v ← doc_item "value" field;
    mret (if String.eqb (doc_str v) UNKNOWN_VALUE then [field_name] else [])) items;
  let unknown_fields : gset string := list_to_set (mjoin unknown) in
  stated ← (v ← doc_item "unknown_fields" decision; doc_iter v);
  let decision_unknowns : gset string := list_to_set (map doc_str stated) in
  unblocked ← and_then (escalates_authority && negb (bool_decide (unknown_fields ∩ ESCALATION_BLOCKING_UNKNOWN_FIELDS = ∅)))
    (goes_ahead decision);
  allowed ← and_then escalates_authority (v ← doc_item "status" decision; mret (is_text "allowed" v));
  writes ← (v ← doc_item "to_capability_classes" delta; text_in "repo-write" v);
  proceeds ← and_then writes (goes_ahead decision);
  of_write ← (if proceeds : bool then
    wanted ← field_is_true critical_fields "explicit_write_intent";
    bound ← field_is_true critical_fields "repository_bound";
    mret (violation (negb wanted) "repo-write transition requires explicit_write_intent=true"
          ++ violation (negb bound) "repo-write transition requires repository_bound=true")
  else mret []);
  mret (violation stays "capability escalation requires recomposition"
        ++ violation (negb (bool_decide (unknown_fields = decision_unknowns)))
             "decision unknown_fields must match critical unknown fields"
        ++ violation unblocked "unknown escalation-critical fields must block escalation"
        ++ violation allowed "capability escalation cannot be directly allowed" ++ of_write).

Definition _audit_violations (evidence : doc) : res (list string) :=
  audit ← doc_item "audit" evidence;
  content ← (v ← doc_item "forbidden_content" audit; doc_iter v);
  _ ← mapM (fun v => in_texts v []) content;
  let missing_forbidden := FORBIDDEN_AUDIT_CONTENT ∖
    list_to_set (omap (fun v => match v with DStr s => Some s | _ => None end) content) in
  mret (match sorted_set missing_forbidden with
        | [] => []
        | missing => ["audit forbidden_content missing: " +:+ join ", " missing]
        end).

Definition _evidence_violations (evidence : doc) : res (list string) :=
  artifacts ← _artifact_index evidence;
  hashes ← _artifact_hash_violations (od_values artifacts);
  spans ← _span_violations evidence artifacts;
  critical ← _critical_field_violations evidence;
  delta ← _capability_delta_violations evidence;
  uncovered ← scanner_coverage_violations sha256 evidence;
  audit ← _audit_violations evidence;
  mret (hashes ++ spans ++ critical ++ delta ++ uncovered ++ audit).

Definition validate_transition_evidence (evidence : doc) : res (odict doc) :=
  _ ← schema_check evidence;
  violations ← _evidence_violations evidence;
  raw_artifact_count ← (v ← doc_item "raw_artifacts" evidence; doc_len v);
  mentioned_path_count ← (v ← doc_item "mentioned_paths" evidence; doc_len v);
  unknown_field_count ← (decision ← doc_item "decision" evidence; v ← doc_item "unknown_fields" decision; doc_len v);
  escalates_authority ← (delta ← doc_item "capability_delta" evidence; doc_item "escalates_authority" delta);
  status ← (decision ← doc_item "decision" evidence; doc_item "status" decision);
  _ ← raise_if (nonempty violations)
        (TransitionEvidenceError ("transition evidence failed validation: " +:+ join "; " violations));
  mret [("contract_version", DStr CONTRACT_VERSION); ("status", DStr "passed");
        ("summary", DDict [("raw_artifact_count", DInt raw_artifact_count); ("mentioned_path_count", DInt mentioned_path_count);
                           ("unknown_field_count", DInt unknown_field_count); ("escalates_authority", escalates_authority);
                           ("decision", status)]);
        ("violations", DList [])].

End validation.

(** ** Golden traces *)

Module Traces.

Definition IntentTransitionTraceError (message : string) : exn := ValueError message.

Definition _decide (case : doc) (signals : list TransitionSignal) : res string :=
  requested ← (v ← doc_item "requested_capability_classes" case; doc_iter v);
  let requested := map doc_str requested in
  let signal_kinds := map signal_kind signals in
  mret (
    if str_in "destructive_intent" signal_kinds then "human_review_required"
    else if str_in "protected-path-write" requested || str_in "protected_path_reference" signal_kinds
    then "human_review_required"
    else if str_in "repo-write" requested then
      if negb (str_in "write_intent" signal_kinds) then "clarification_required"
      else if negb (str_in "path_reference" signal_kinds) || negb (str_in "repository_reference" signal_kinds)
      then "clarification_required"
      else "recomposition_required"
    else "allowed").

(** Whether a signal of the expected kind and span is among the actual ones. *)
Definition signal_present (actual : list TransitionSignal) (expected : doc) : res bool :=
  anyM (fun s =>
    kind ← doc_item "signal_kind" expected;
    if negb (is_text (signal_kind s) kind) then mret false
    else
      expected_span ← doc_item "span" expected;
      mret (is_text (span s) expected_span)) actual.

Definition _signal_coverage (expected_signals : list doc) (actual : list TransitionSignal) : res (Z * list doc) :=
  present ← mapM (fun expected => b ← signal_present actual expected; mret (b, expected)) expected_signals;
  mret (Z.of_nat (length (List.filter fst present)), map snd (List.filter (fun e => negb e.1) present)).

Definition _signal_label (signal : doc) : res string :=
  kind ← doc_item "signal_kind" signal;
  quoted ← doc_item "span" signal;
  mret (doc_str kind +:+ " " +:+ doc_repr quoted).

(** What one case adds to the counters and lists. *)
Record CaseResult := {
  expected_count : Z;
  matched_count : Z;
  false_allow : bool;
  unnecessary_clarification : bool;
  missed_paths : Z;
  failed : list string;
  report : doc;
}.

Section evaluation.
Context (sha256 : string -> string).

Definition case_signals (case : doc) : res (list TransitionSignal) :=
  id ← doc_item "case_id" case;
  raw_turn ← doc_item "raw_turn" case;
  mret (scan_transition_signals sha256 ("turn-" +:+ doc_str id) (doc_str raw_turn)).

Definition evaluate_case (case : doc) : res CaseResult :=
  signals ← case_signals case;
  actual_decision ← _decide case signals;
  expected_decision ← (v ← doc_item "expected_decision" case; mret (doc_str v));
  expected_signals ← (v ← doc_item "expected_signals" case; doc_iter v);
  coverage ← _signal_coverage expected_signals signals;
  let '(matched_signals, missed_signals) := coverage in
  paths ← mapM (fun signal => kind ← doc_item "signal_kind" signal; mret (is_text "path_reference" kind)) missed_signals;
  let wrong := violation (negb (String.eqb actual_decision expected_decision))
                 ("expected decision " +:+ expected_decision +:+ ", got " +:+ actual_decision) in
  labels ← mapM _signal_label missed_signals;
  let missed := violation (nonempty missed_signals) ("missed expected signals: " +:+ join ", " labels) in
  case_id ← doc_item "case_id" case;
  mret {|
    expected_count := Z.of_nat (length expected_signals);
    matched_count := matched_signals;
    false_allow := negb (String.eqb expected_decision "allowed") && String.eqb actual_decision "allowed";
    unnecessary_clarification :=
      negb (String.eqb expected_decision "clarification_required") && String.eqb actual_decision "clarification_required";
    missed_paths := Z.of_nat (length (List.filter id paths));
    failed := violation (nonempty (wrong ++ missed)) (doc_str case_id +:+ ": " +:+ join "; " (wrong ++ missed));
    report := DDict [("case_id", case_id); ("expected_decision", DStr expected_decision);
      ("actual_decision", DStr actual_decision); ("metamorphic_group", get "metamorphic_group" (fields case));
      ("signal_count", DInt (Z.of_nat (length signals))); ("matched_expected_signals", DInt matched_signals);
      ("missed_expected_signals", DList missed_signals)] |}.

Definition total (f : CaseResult -> Z) (l : list CaseResult) : Z := foldr (fun r n => f r + n)%Z 0%Z l.

Definition evaluate_intent_transition_traces (traces : doc) : res (odict doc) :=
  cases ← (v ← doc_item "cases" traces; doc_iter v);
  results ← mapM evaluate_case cases;
  let expected_signal_count := total expected_count results in
  let evidence_coverage_rate :=
    if (expected_signal_count =? 0)%Z then fone else ratio (total matched_count results) expected_signal_count in
  suite_id ← doc_item "suite_id" traces;
  version ← doc_item "version" traces;
  let failed_cases := mjoin (map failed results) in
  _ ← raise_if (nonempty failed_cases)
        (IntentTransitionTraceError ("intent-transition golden traces failed: " +:+ join "; " failed_cases));
  mret [("suite_id", suite_id); ("version", version); ("status", DStr "passed");
        ("summary", DDict [("case_count", DInt (Z.of_nat (length cases)));
          ("false_allow_count", DInt (total (fun r => Z.b2z (false_allow r)) results));
          ("unnecessary_clarification_count", DInt (total (fun r => Z.b2z (unnecessary_clarification r)) results));
          ("missed_path_reference_count", DInt (total missed_paths results));
          ("evidence_coverage_rate", DFloat evidence_coverage_rate)]);
        ("failed_cases", DList []); ("cases", DList (map report results))].

End evaluation.
End Traces.

(** ** What passed evidence is *)

Lemma violation_nil b m : violation b m = [] <-> b = false.
Proof. by destruct b. Qed.

Lemma enumerate_all_nil {A} (f : nat -> A -> res (list string)) l : enumerate_all f l = Ok [] ->
  forall x, In x l -> exists i, f i x = Ok [].
Proof.
  unfold enumerate_all. intros H x [i Hi]%list_elem_of_In%list_elem_of_lookup_1. exists i.
  apply (proj1 (mapM_mjoin_nil (fun e => f e.1 e.2) _) H (i, x)), list_elem_of_In.
  apply list_elem_of_lookup. exists i. by rewrite list_lookup_imap, Hi.
Qed.

Section passed.
Context (sha256 : string -> string).

Definition text_of (artifact : doc) : string := doc_str (get "text" (fields artifact)).

(** An indexed artifact is one of the raw artifacts. *)
Lemma _artifact_index_In evidence artifacts k artifact : _artifact_index evidence = Ok artifacts ->
  od_get k artifacts = Some artifact -> In artifact (raw_artifacts evidence) /\ In artifact (od_values artifacts).
Proof.
  intros (l & (v & [_ Hv]%doc_item_get & Hl)%bind_Ok & (named & Hn & [= <-])%bind_Ok)%bind_Ok Hk.
  pose proof (in_map snd _ _ (od_get_In _ _ _ Hk)) as Hv'. split; [|done]. apply od_get_of_list_In in Hk. apply mapM_Ok in Hn.
  destruct (Forall2_In_r _ _ _ _ Hn Hk) as (a & Ha & (id & Hid & [= _ <-])%bind_Ok).
  unfold raw_artifacts. by rewrite Hv, (doc_iter_items _ _ _ _ _ Hl Ha Hid).
Qed.

Lemma _artifact_hash_violations_nil artifacts : _artifact_hash_violations sha256 artifacts = Ok [] ->
  forall artifact, In artifact artifacts -> get "artifact_hash" (fields artifact) = DStr (_sha256 sha256 (text_of artifact)).
Proof.
  unfold _artifact_hash_violations. intros H artifact Ha. apply (proj1 (mapM_mjoin_nil _ _) H) in Ha.
  apply bind_Ok in Ha as (id & _ & (t & [_ Ht]%doc_item_get & (h & [_ Hh]%doc_item_get & [= E])%bind_Ok)%bind_Ok).
  apply violation_nil, negb_false_iff, is_text_eq in E. unfold text_of. by rewrite Hh, Ht.
Qed.

(** What a span that passes quotes. *)
Lemma span_violation_nil artifacts name span : span_violation artifacts name span = Ok [] ->
  exists artifact start end_,
    od_get (doc_str (get "artifact_id" (fields span))) artifacts = Some artifact /\
    doc_is (get "artifact_hash" (fields span)) (get "artifact_hash" (fields artifact)) = true /\
    doc_int (get "offset_start" (fields span)) = Ok start /\ doc_int (get "offset_end" (fields span)) = Ok end_ /\
    (start < end_ <= Z.of_nat (String.length (text_of artifact)))%Z /\
    get "span" (fields span) = DStr (py_slice (text_of artifact) start end_).
Proof.
  unfold span_violation. intros (id & [_ Hid]%doc_item_get & H)%bind_Ok. rewrite Hid.
  destruct (od_get _ artifacts) as [artifact|]; [|done].
  apply bind_Ok in H as (h & [_ Hh]%doc_item_get & (h' & [_ Hh']%doc_item_get & (start & (vs & [_ Hs]%doc_item_get & Es)%bind_Ok &
    (end_ & (ve & [_ He]%doc_item_get & Ee)%bind_Ok & (t & [_ Ht]%doc_item_get & H)%bind_Ok)%bind_Ok)%bind_Ok)%bind_Ok).
  destruct (_ <=? _)%Z eqn:E1; [by injection H as [? ?]%app_eq_nil|].
  destruct (_ <? _)%Z eqn:E2; [by injection H as [? ?]%app_eq_nil|].
  apply bind_Ok in H as (quoted & [_ Hq]%doc_item_get & [= [M Q]%app_eq_nil]).
  apply violation_nil, negb_false_iff in M. apply violation_nil, negb_false_iff, is_text_eq in Q.
  exists artifact, start, end_. unfold text_of. rewrite Hh, Hh', Hs, He, Ht, Hq. repeat split; [done..|lia|lia|done].
Qed.

Lemma span_is_dict artifacts name span : span_violation artifacts name span = Ok [] -> span = DDict (fields span).
Proof. by intros (id & [H _]%doc_item_get & _)%bind_Ok. Qed.

(** The spans of a field, all of which pass. *)
Lemma field_violations_nil evidence artifacts f field : _span_violations evidence artifacts = Ok [] ->
  get f (fields (get "critical_fields" (fields evidence))) = DDict field ->
  exists spans, doc_iter (get_or "evidence" (DList []) field) = Ok spans /\
    forall span, In span spans -> exists name, span_violation artifacts name span = Ok [].
Proof.
  intros (items & (cf & [_ Hcf]%doc_item_get & Hitems)%bind_Ok & (vs & Hvs & (paths & _ & (vs' & _ & [= H])%bind_Ok)%bind_Ok)%bind_Ok)%bind_Ok.
  apply app_eq_nil in H as [H1 _]. rewrite Hcf. destruct cf as [| | | | | |d]; try done. injection Hitems as <-. cbn [fields].
  unfold get, get_or at 1. destruct (od_get f d) as [v|] eqn:Hf; [|done]. intros ->. apply od_get_In in Hf.
  assert (Hall : (r ← mapM (field_span_violations artifacts) d; mret (mjoin r)) = Ok []) by (rewrite Hvs; cbn; by rewrite H1).
  pose proof (proj1 (mapM_mjoin_nil _ _) Hall _ Hf) as (spans & Hspans & Hv)%bind_Ok.
  exists spans. split; [done|]. intros span Hin. destruct (enumerate_all_nil _ _ Hv span Hin) as (i & Hi). by eexists.
Qed.

Lemma path_violations_nil evidence artifacts span : _span_violations evidence artifacts = Ok [] ->
  In span (path_spans evidence) -> exists name, span_violation artifacts name span = Ok [].
Proof.
  intros (items & _ & (vs & _ & (paths & (mp & [_ Hmp]%doc_item_get & Hpaths)%bind_Ok &
    (vs' & Hvs' & [= [_ ->]%app_eq_nil])%bind_Ok)%bind_Ok)%bind_Ok)%bind_Ok.
  unfold path_spans. rewrite Hmp. destruct mp as [| | | | |l|]; try done. injection Hpaths as <-.
  intros (path & <- & Hp)%in_map_iff. destruct (enumerate_all_nil _ _ Hvs' path Hp) as (i & Hi).
  apply bind_Ok in Hi as (sp & [_ <-]%doc_item_get & Hi). by eexists.
Qed.

Lemma _span_violations_nil evidence artifacts : _span_violations evidence artifacts = Ok [] ->
  forall kind span, In span (spans_for evidence kind) -> exists name, span_violation artifacts name span = Ok [].
Proof.
  intros H kind span. unfold spans_for. destruct (String.eqb kind "path_reference"); [by apply path_violations_nil|].
  destruct (covering_field kind) as [f|]; [|done]. unfold field_spans.
  destruct (get f _) as [| | | | | |field] eqn:Hf; try done. cbn [fields].
  destruct (field_violations_nil _ _ _ _ H Hf) as (spans & Hit & Hall). unfold get, get_or in *.
  destruct (od_get "evidence" field) as [[| | | | |l|]|]; try done. injection Hit as <-. apply Hall.
Qed.

(** Evidence that is not empty is a list of spans. *)
Lemma evidence_is_spans evidence artifacts f : _span_violations evidence artifacts = Ok [] ->
  doc_truthy (get "evidence" (fields (get f (fields (get "critical_fields" (fields evidence)))))) = true ->
  field_spans evidence f <> [].
Proof.
  intros H. unfold field_spans. destruct (get f _) as [| | | | | |field] eqn:Hf; try done. cbn [fields].
  destruct (field_violations_nil _ _ _ _ H Hf) as (spans & Hit & Hall). unfold get, get_or in *.
  assert (Hno : forall l, spans = map DStr l -> l = []).
  { intros [|s l] ->; [done|]. destruct (Hall (DStr s)) as (name & Hn%span_is_dict); [by left|done]. }
  destruct (od_get "evidence" field) as [[| | | |[|c t]|[|x l]|[|[k x] d]]|]; try done; injection Hit as <-.
  - discriminate (Hno (map (fun c => String c EmptyString) (chars (String c t)))). by rewrite map_map.
  - discriminate (Hno (od_keys ((k, x) :: d)) eq_refl).
Qed.

Lemma slice_app text a b c : (a <= b)%nat -> (b <= c)%nat -> slice text a c = slice text a b +:+ slice text b c.
Proof.
  intros Hab Hbc. rewrite <- (of_chars_chars (_ +:+ _)), chars_app. unfold slice. rewrite !chars_of_chars. f_equal.
  replace (c - a)%nat with ((b - a) + (c - b))%nat by lia.
  rewrite <- take_take_drop, drop_drop. by replace (a + (b - a))%nat with b by lia.
Qed.

Lemma py_slice_slice text start end_ : (0 <= start < end_)%Z -> (end_ <= Z.of_nat (String.length text))%Z ->
  py_slice text start end_ = slice text (Z.to_nat start) (Z.to_nat end_).
Proof.
  intros H1 H2. unfold py_slice. cbv zeta. rewrite (proj2 (Z.ltb_ge start 0)), (proj2 (Z.ltb_ge end_ 0)) by lia. f_equal; lia.
Qed.

(** The schema gives offsets a minimum of zero. *)
Definition offsets_natural (evidence : doc) : Prop := forall kind span z,
  In span (spans_for evidence kind) -> doc_int (get "offset_start" (fields span)) = Ok z -> (0 <= z)%Z.

(** No two texts of the evidence have one digest. *)
Definition digests_differ (evidence : doc) : Prop := forall a b,
  In a (raw_artifacts evidence) -> In b (raw_artifacts evidence) -> sha256 (text_of a) = sha256 (text_of b) ->
  text_of a = text_of b.

(** Every signal in a raw text is inside an evidence span that quotes that text. *)
Definition quotes_signals (evidence : doc) : Prop := forall artifact s,
  In artifact (raw_artifacts evidence) -> In s (scanned sha256 artifact) ->
  exists span start end_, In span (spans_for evidence (signal_kind s)) /\
    get "artifact_id" (fields span) = DStr (artifact_id s) /\ (start <= offset_start s)%nat /\ (offset_end s <= end_)%nat /\
    get "span" (fields span) = DStr (slice (text_of artifact) start (offset_start s) +:+ value s
                                     +:+ slice (text_of artifact) (offset_end s) end_).

Lemma no_violations_quote evidence artifacts : offsets_natural evidence -> digests_differ evidence ->
  _artifact_index evidence = Ok artifacts -> _artifact_hash_violations sha256 (od_values artifacts) = Ok [] ->
  _span_violations evidence artifacts = Ok [] -> scanner_coverage_violations sha256 evidence = Ok [] ->
  quotes_signals evidence.
Proof.
  intros Hnat Hsha Hindex Hhash Hspans Hcover artifact s Ha Hs.
  destruct (covered_signals _ _ Hcover artifact s Ha Hs) as (span & Hspan & Hid & Hh & start & end_ & Es & Ee & Hls & Hle).
  destruct (_span_violations_nil _ _ Hspans _ _ Hspan) as (name & Hv).
  destruct (span_violation_nil _ _ _ Hv) as (a' & start' & end' & Hget & Heq & Es' & Ee' & Hb & Hq).
  rewrite Es in Es'. rewrite Ee in Ee'. injection Es' as <-. injection Ee' as <-.
  pose proof (Hnat _ _ _ Hspan Es) as H0. destruct (_artifact_index_In _ _ _ _ Hindex Hget) as [Ha' Hv'].
  rewrite Hh in Heq. apply doc_is_str in Heq. rewrite (_artifact_hash_violations_nil _ Hhash _ Hv') in Heq.
  pose proof (proj2 (all_exact sha256 (doc_str (get "artifact_id" (fields artifact))) (text_of artifact))) as Hex.
  rewrite Forall_forall in Hex. destruct (Hex s (proj2 (list_elem_of_In _ _) Hs)) as [_ Eh _ Eq Eb].
  assert (Et : text_of a' = text_of artifact).
  { apply Hsha; [done..|]. rewrite Eh in Heq. injection Heq as Heq. done. }
  exists span, (Z.to_nat start), (Z.to_nat end_). repeat split; [done|done|lia|lia|].
  rewrite Hq, Et. rewrite Et in Hb. rewrite py_slice_slice by lia. f_equal.
  rewrite (slice_app _ _ (offset_start s)) by lia. f_equal. rewrite (slice_app _ (offset_start s) (offset_end s)) by lia.
  by rewrite Eq.
Qed.
End passed.

(** The value of a critical field. *)
Definition field_value (evidence : doc) (field_name : string) : doc :=
  get "value" (fields (get field_name (fields (get "critical_fields" (fields evidence))))).

(** An escalation is recomposed, never allowed outright, needs complete scans,
    and stops for a person or a refusal when one of the fields the code names as
    blocking is unknown; and what writes the repository, unless the decision
    stops it so, states its intent and its repository with evidence. *)
Record escalation_guarded (evidence : doc) : Prop := {
  guard_recomposition : escalates evidence = Ok true ->
    doc_truthy (get "requires_recomposition" (fields (get "capability_delta" (fields evidence)))) = true;
  guard_not_allowed : escalates evidence = Ok true ->
    get "status" (fields (get "decision" (fields evidence))) <> DStr "allowed";
  guard_complete : escalates evidence = Ok true -> field_value evidence "scan_coverage" = DStr COMPLETE_COVERAGE /\
    forall artifact, In artifact (raw_artifacts evidence) -> get "scan_coverage" (fields artifact) = DStr COMPLETE_COVERAGE;
  guard_unknown : forall field_name, escalates evidence = Ok true -> field_name ∈ ESCALATION_BLOCKING_UNKNOWN_FIELDS ->
    field_value evidence field_name = DStr UNKNOWN_VALUE ->
    exists status, get "status" (fields (get "decision" (fields evidence))) = DStr status /\ In status NON_ESCALATING_DECISIONS;
  guard_write : forall classes, get "to_capability_classes" (fields (get "capability_delta" (fields evidence))) = DList classes ->
    In (DStr "repo-write") classes ->
    (exists status, get "status" (fields (get "decision" (fields evidence))) = DStr status /\ In status NON_ESCALATING_DECISIONS) \/
    forall field_name, In field_name ["explicit_write_intent"; "repository_bound"] ->
      field_value evidence field_name = DStr TRUE_VALUE /\ field_spans evidence field_name <> [];
}.

Lemma escalates_get evidence b : escalates evidence = Ok b ->
  b = doc_truthy (get "escalates_authority" (fields (get "capability_delta" (fields evidence)))).
Proof. by intros (d & [_ <-]%doc_item_get & (v & [_ <-]%doc_item_get & [= <-])%bind_Ok)%bind_Ok. Qed.

Lemma partly_scanned_false evidence v : partly_scanned evidence v = Ok false -> escalates evidence = Ok true ->
  v = DStr COMPLETE_COVERAGE.
Proof. unfold partly_scanned. destruct (is_text _ v) eqn:E; [by intros; apply is_text_eq|congruence]. Qed.

Lemma goes_ahead_false decision : goes_ahead decision = Ok false ->
  exists status, get "status" (fields decision) = DStr status /\ In status NON_ESCALATING_DECISIONS.
Proof.
  intros (v & [_ Hv]%doc_item_get & ([] & Hb & [=])%bind_Ok)%bind_Ok.
  apply in_texts_true in Hb as (status & -> & Hin). by exists status.
Qed.

Lemma field_is_true_Ok critical_fields f : field_is_true critical_fields f = Ok true ->
  get "value" (fields (get f (fields critical_fields))) = DStr TRUE_VALUE.
Proof. intros (v & (field & [_ ->]%doc_item_get & [_ ->]%doc_item_get)%bind_Ok & [= E])%bind_Ok. by apply is_text_eq. Qed.

Lemma critical_nil evidence : _critical_field_violations evidence = Ok [] ->
  (escalates evidence = Ok true -> field_value evidence "scan_coverage" = DStr COMPLETE_COVERAGE /\
     forall artifact, In artifact (raw_artifacts evidence) -> get "scan_coverage" (fields artifact) = DStr COMPLETE_COVERAGE) /\
  (forall f, field_value evidence f = DStr TRUE_VALUE -> exists spans,
     get "evidence" (fields (get f (fields (get "critical_fields" (fields evidence))))) = spans /\ doc_truthy spans = true).
Proof.
  intros (cf & [_ Hcf]%doc_item_get & (items & Hi & (unq & Hu & (cov & (sc & [_ Hsc]%doc_item_get & [_ Hcov]%doc_item_get)%bind_Ok &
    (partial & Hp & (arts & (ra & [_ Hra]%doc_item_get & Harts)%bind_Ok & (ofa & Hofa & [= E])%bind_Ok)%bind_Ok)%bind_Ok)%bind_Ok)%bind_Ok)%bind_Ok)%bind_Ok.
  apply app_eq_nil in E as [E1 [->%violation_nil E3]%app_eq_nil].
  split.
  - intros He. unfold field_value. rewrite Hcf, Hsc, Hcov. split; [by apply (partly_scanned_false evidence)|].
    unfold raw_artifacts. rewrite Hra. destruct ra as [| | | | |l|]; try done. injection Harts as <-. intros a Ha.
    apply mapM_Ok in Hofa. destruct (Forall2_In_l _ _ _ _ Hofa Ha) as (y & Hy & Hf). rewrite mjoin_nil in E3.
    rewrite Forall_forall in E3. rewrite (E3 y) in Hf by by apply list_elem_of_In.
    apply bind_Ok in Hf as (v & [_ <-]%doc_item_get & ([] & Hpa & Hf)%bind_Ok); [by apply bind_Ok in Hf as (id & _ & [=])|].
    by apply (partly_scanned_false evidence).
  - intros f. unfold field_value. rewrite Hcf. destruct cf as [| | | | | |d]; try done. injection Hi as <-. cbn [fields].
    unfold get at 2 4, get_or. destruct (od_get f d) as [field|] eqn:Hf; [|done]. apply od_get_In in Hf. intros Hv.
    apply mapM_Ok in Hu. destruct (Forall2_In_l _ _ _ _ Hu Hf) as (y & Hy & Hb). cbn in Hb.
    rewrite mjoin_nil, Forall_forall in E1. rewrite (E1 y) in Hb by by apply list_elem_of_In.
    apply bind_Ok in Hb as (v & [_ Hv']%doc_item_get & Hb). rewrite Hv' in Hv. subst v. cbn in Hb.
    apply bind_Ok in Hb as (spans & [_ <-]%doc_item_get & [= Hb]). apply violation_nil, negb_false_iff in Hb. by eexists.
Qed.

Lemma delta_nil evidence : _capability_delta_violations evidence = Ok [] ->
  (escalates evidence = Ok true ->
     doc_truthy (get "requires_recomposition" (fields (get "capability_delta" (fields evidence)))) = true /\
     get "status" (fields (get "decision" (fields evidence))) <> DStr "allowed" /\
     forall f, f ∈ ESCALATION_BLOCKING_UNKNOWN_FIELDS -> field_value evidence f = DStr UNKNOWN_VALUE ->
       goes_ahead (get "decision" (fields evidence)) = Ok false) /\
  (forall classes, get "to_capability_classes" (fields (get "capability_delta" (fields evidence))) = DList classes ->
     In (DStr "repo-write") classes -> goes_ahead (get "decision" (fields evidence)) = Ok false \/
     forall f, In f ["explicit_write_intent"; "repository_bound"] -> field_value evidence f = DStr TRUE_VALUE).
Proof.
  intros (delta & [_ Hd]%doc_item_get & (decision & [_ Hdec]%doc_item_get & (cf & [_ Hcf]%doc_item_get & H)%bind_Ok)%bind_Ok)%bind_Ok.
  unfold field_value. rewrite Hd, Hdec, Hcf.
  apply bind_Ok in H as (esc & (ve & [_ Hve]%doc_item_get & [= Hesc])%bind_Ok & (stays & Hst & (items & Hi & (unk & Hu &
    (stated & _ & (unblocked & Hub & (allowed & Hal & (writes & Hwr & (proceeds & Hpr & (ofw & Hofw & [= E])%bind_Ok)%bind_Ok)%bind_Ok)%bind_Ok)%bind_Ok)%bind_Ok)%bind_Ok)%bind_Ok)%bind_Ok).
  apply app_eq_nil in E as [->%violation_nil [_ [->%violation_nil [->%violation_nil ->]%app_eq_nil]%app_eq_nil]%app_eq_nil].
  split.
  - intros He%escalates_get. rewrite Hd, Hve, Hesc in He. subst esc. cbn in Hst, Hub, Hal. rewrite <- He in *. cbn in Hst, Hub, Hal.
    apply bind_Ok in Hst as (v & [_ <-]%doc_item_get & [= Hst%negb_false_iff]).
    apply bind_Ok in Hal as (status & [_ <-]%doc_item_get & [= Hal]).
    split_and!; [done|by intros Eq; rewrite Eq in Hal|]. intros f Hf Hv.
    destruct (bool_decide _) eqn:Hb; [|done]. exfalso. apply bool_decide_eq_true in Hb.
    assert (Hin : f ∈ (list_to_set (mjoin unk) : gset string)); [|set_solver].
    rewrite elem_of_list_to_set. apply list_elem_of_join. destruct cf as [| | | | | |d]; try done. injection Hi as <-.
    unfold get at 2, get_or in Hv. cbn [fields] in Hv. destruct (od_get f d) as [field|] eqn:Hget; [|done].
    apply od_get_In in Hget. apply mapM_Ok in Hu. destruct (Forall2_In_l _ _ _ _ Hu Hget) as (y & Hy & Hval). cbn in Hval.
    apply bind_Ok in Hval as (v & [_ <-]%doc_item_get & [= <-]). rewrite Hv in Hy. exists [f].
    split; [by apply list_elem_of_In; left|by apply list_elem_of_In].
  - intros classes Hcl Hin. apply bind_Ok in Hwr as (v & [_ Hv]%doc_item_get & Hwr). rewrite Hcl in Hv. subst v.
    injection Hwr as <-. assert (Hw : existsb (is_text "repo-write") classes = true).
    { apply existsb_exists. by exists (DStr "repo-write"). }
    rewrite Hw in Hpr. cbn in Hpr. destruct proceeds; [right|by left].
    apply bind_Ok in Hofw as (wanted & Hwa & (bound & Hbo & [= [E1 E2]%app_eq_nil])%bind_Ok).
    apply violation_nil, negb_false_iff in E1 as ->. apply violation_nil, negb_false_iff in E2 as ->.
    intros f [<-|[<-|[]]]; by apply field_is_true_Ok.
Qed.

(** C40. Evidence that is accepted backs every signal the scanner finds in its raw
    texts by a span that quotes the text around it, and guards its escalation:
    one that raises authority is recomposed, not allowed outright, rests on
    complete scans and is stopped when a field of
    [ESCALATION_BLOCKING_UNKNOWN_FIELDS] is unknown, and a repository write that
    is not stopped has its intent and its repository in evidence. Destructive
    intent is not among those fields, see [unknown_destruction_accepted]. *)
Theorem accepted_evidence_sound sha256 schema_check evidence report :
  (forall e, schema_check e = Ok tt -> offsets_natural e) -> digests_differ sha256 evidence ->
  validate_transition_evidence sha256 schema_check evidence = Ok report ->
  quotes_signals sha256 evidence /\ escalation_guarded evidence.
Proof.
  intros Hschema Hsha ([] & Hc%Hschema & (violations & Hv & H)%bind_Ok)%bind_Ok.
  destruct violations as [|v vs]; [|by repeat apply bind_Ok in H as (? & ? & H)]. clear H report.
  apply bind_Ok in Hv as (artifacts & Hindex & (hashes & Hhash & (spans & Hspans & (critical & Hcritical & (delta & Hdelta &
    (uncovered & Hcover & (audit & Haudit & [= E])%bind_Ok)%bind_Ok)%bind_Ok)%bind_Ok)%bind_Ok)%bind_Ok).
  apply app_eq_nil in E as [-> [-> [-> [-> [-> ->]%app_eq_nil]%app_eq_nil]%app_eq_nil]%app_eq_nil].
  split; [by apply (no_violations_quote sha256 evidence artifacts)|].
  destruct (critical_nil evidence Hcritical) as [Hcomplete Htrue]. destruct (delta_nil evidence Hdelta) as [Hesc Hwrite].
  split; [apply Hesc|apply Hesc|exact Hcomplete| |].
  - intros f He Hf Hv. apply goes_ahead_false, (proj2 (proj2 (Hesc He)) f Hf Hv).
  - intros classes Hcl Hin. destruct (Hwrite classes Hcl Hin) as [H%goes_ahead_false|H]; [by left|right].
    intros f Hf. split; [by apply H|]. apply (evidence_is_spans evidence artifacts f Hspans).
    by destruct (Htrue f (H f Hf)) as (sp & -> & Ht).
Qed.

(** *** An example *)

Definition span_of (text quoted : string) (start : nat) : doc :=
  DDict [("artifact_id", DStr "turn-1"); ("artifact_hash", DStr ("sha256:" +:+ text)); ("span", DStr quoted);
         ("offset_start", DInt (Z.of_nat start)); ("offset_end", DInt (Z.of_nat (start + String.length quoted)));
         ("source", DStr "extractor")].
Definition state_of (value : string) (spans : list doc) : doc := DDict [("value", DStr value); ("evidence", DList spans)].
Definition artifact_of (text hash : string) : doc :=
  DDict [("artifact_id", DStr "turn-1"); ("artifact_hash", DStr hash); ("text", DStr text); ("scan_coverage", DStr "complete")].

Definition evidence_of (text : string) (artifacts : list doc) (write path repo : list doc) : doc :=
  DDict [("source", DDict [("scanner_versions", DDict (map (fun e => (e.1, DStr e.2)) REQUIRED_SCANNER_IDS))]);
    ("raw_artifacts", DList artifacts);
    ("critical_fields", DDict [("repository_bound", state_of "true" repo); ("explicit_write_intent", state_of "true" write);
       ("explicit_destructive_intent", state_of "false" []); ("protected_path_reference", state_of "true" path);
       ("scan_coverage", state_of "complete" [])]);
    ("mentioned_paths", DList (map (fun span => DDict [("evidence", span)]) path));
    ("capability_delta", DDict [("to_capability_classes", texts ["repo-write"]); ("escalates_authority", DBool true);
       ("requires_recomposition", DBool true)]);
    ("decision", DDict [("status", DStr "recomposition_required"); ("unknown_fields", DList [])]);
    ("audit", DDict [("forbidden_content", texts (sorted_set FORBIDDEN_AUDIT_CONTENT))])].

Definition demo_text : string := "Apply the fix to docs/adr/a.md in this repo.".
Definition demo_evidence (more : list doc) : doc :=
  evidence_of demo_text (more ++ [artifact_of demo_text ("sha256:" +:+ demo_text)])
    [span_of demo_text "Apply the fix" 0; span_of demo_text "fix" 10] [span_of demo_text "docs/adr/a.md" 17]
    [span_of demo_text "in this repo." 31].

(** A schema check that only looks at the offsets. *)
Definition all_spans (evidence : doc) : list doc :=
  path_spans evidence ++ flat_map (field_spans evidence)
    ["protected_path_reference"; "explicit_write_intent"; "explicit_destructive_intent"; "repository_bound"].
Definition demo_check (evidence : doc) : res unit :=
  raise_if (existsb (fun span => match doc_int (get "offset_start" (fields span)) with Ok z => z <? 0 | _ => false end)%Z
              (all_spans evidence)) (ValueError "offset below zero").

Lemma covering_field_cases kind f : covering_field kind = Some f ->
  In f ["protected_path_reference"; "explicit_write_intent"; "explicit_destructive_intent"; "repository_bound"].
Proof. unfold covering_field. repeat (destruct (String.eqb kind _); [intros [= <-]; cbn; tauto|]). destruct (str_in _ _); [|done]. intros [= <-]. cbn. tauto. Qed.

Lemma demo_check_sound e : demo_check e = Ok tt -> offsets_natural e.
Proof.
  intros H%raise_if_Ok kind span z Hin Hz. destruct (Z.ltb_spec z 0) as [Hneg|]; [exfalso|done].
  assert (Hall : In span (all_spans e)).
  { unfold all_spans, spans_for in *. apply in_app_iff. destruct (String.eqb kind _); [by left|right].
    destruct (covering_field kind) as [f|] eqn:E; [|done]. apply in_flat_map. exists f. split; [by apply covering_field_cases in E|done]. }
  assert (Ht : existsb (fun span => match doc_int (get "offset_start" (fields span)) with Ok z => z <? 0 | _ => false end)%Z
              (all_spans e) = true); [|congruence].
  apply existsb_exists. exists span. split; [done|]. rewrite Hz. by apply Z.ltb_lt.
Qed.

Definition demo_report (more : list doc) : odict doc :=
  match validate_transition_evidence (fun t => t) demo_check (demo_evidence more) with Ok r => r | Raise _ => [] end.

Lemma accepted_evidence_sound_witness :
  validate_transition_evidence (fun t => t) demo_check (demo_evidence []) = Ok (demo_report []) /\
  quotes_signals (fun t => t) (demo_evidence []) /\ escalation_guarded (demo_evidence []).
Proof.
  assert (H : validate_transition_evidence (fun t => t) demo_check (demo_evidence []) = Ok (demo_report [])) by (vm_compute; reflexivity).
  split; [exact H|]. apply (accepted_evidence_sound (fun t => t) demo_check (demo_evidence []) (demo_report [])).
  - exact demo_check_sound.
  - intros a b _ _ E. exact E.
  - exact H.
Defined.

(** An escalation goes ahead without knowing whether something is destroyed: the
    field is not among those that block. *)
Lemma unknown_destruction_accepted :
  let critical := od_set "explicit_destructive_intent" (state_of "unknown" []) (fields (get "critical_fields" (fields (demo_evidence [])))) in
  let decision := DDict [("status", DStr "recomposition_required"); ("unknown_fields", texts ["explicit_destructive_intent"])] in
  let evidence := DDict (od_set "decision" decision (od_set "critical_fields" (DDict critical) (fields (demo_evidence [])))) in
  is_ok (validate_transition_evidence (fun t => t) demo_check evidence) = true /\
  escalates evidence = Ok true /\ field_value evidence "explicit_destructive_intent" = DStr UNKNOWN_VALUE.
Proof. vm_compute. by split_and!. Qed.

(** Of two artifacts with one id only the later is in the index: the digest of
    the earlier is never compared with its text. *)
Lemma shadowed_artifact_accepted : let evidence := demo_evidence [artifact_of "hello" "sha256:forged"] in
  validate_transition_evidence (fun t => t) demo_check evidence = Ok (demo_report [artifact_of "hello" "sha256:forged"]) /\
  _artifact_hash_violations (fun t => t) (raw_artifacts evidence) = Ok ["turn-1 artifact_hash does not match text"].
Proof. vm_compute. split; reflexivity. Qed.

(** ** What replayed traces show *)

Module TracesCorrect.
Import Traces.

(** [_decide] allows exactly what neither asks for nor speaks of a change of
    weight: no request to write, nothing destructive, no protected path. *)
Theorem decide_allowed_iff case signals requested :
  get "requested_capability_classes" (fields case) = DList requested ->
  _decide case signals = Ok "allowed" <->
  (forall v, In v requested -> doc_str v <> "repo-write" /\ doc_str v <> "protected-path-write") /\
  (forall s, In s signals -> signal_kind s <> "destructive_intent" /\ signal_kind s <> "protected_path_reference").
Proof.
  intros Hr. unfold _decide. assert (Hi : doc_item "requested_capability_classes" case = Ok (DList requested)).
  { destruct case as [| | | | | |d]; try done. unfold get, get_or in Hr. cbn in Hr |- *. unfold ditem.
    destruct (od_get _ d); [by rewrite Hr|done]. }
  rewrite Hi. cbn. assert (Hno : forall {A} (f : A -> string) k l, str_in k (map f l) = false <-> forall x, In x l -> f x <> k).
  { intros A f k l. rewrite str_in_false, in_map_iff. naive_solver. }
  destruct (str_in "destructive_intent" _) eqn:E1; [split; [done|]|].
  { intros [_ H]. apply not_false_iff_true in E1. destruct E1. apply Hno. intros x Hx. by apply H. }
  destruct (str_in "protected-path-write" _) eqn:E2; [split; [done|]|].
  { intros [H _]. apply not_false_iff_true in E2. destruct E2. apply Hno. intros x Hx. by apply H. }
  destruct (str_in "protected_path_reference" _) eqn:E3; [split; [done|]|].
  { intros [_ H]. apply not_false_iff_true in E3. destruct E3. apply Hno. intros x Hx. by apply H. }
  destruct (str_in "repo-write" _) eqn:E4; cbn.
  - split; [destruct (str_in "write_intent" _), (str_in "path_reference" _), (str_in "repository_reference" _); discriminate|]. intros [H _]. apply not_false_iff_true in E4. destruct E4.
    apply Hno. intros x Hx. by apply H.
  - split; [intros _|done]. rewrite Hno in E1, E2, E3, E4. naive_solver.
Qed.

Lemma signal_present_true signals expected : signal_present signals expected = Ok true ->
  exists s, In s signals /\ get "signal_kind" (fields expected) = DStr (signal_kind s) /\
    get "span" (fields expected) = DStr (span s).
Proof.
  intros (s & Hs & (kind & [_ Hk]%doc_item_get & H)%bind_Ok)%anyM_true. exists s. split; [done|].
  destruct (is_text (signal_kind s) kind) eqn:E; [|done]. apply is_text_eq in E as ->.
  apply bind_Ok in H as (sp & [_ Hsp]%doc_item_get & [= Hq%is_text_eq]). by rewrite Hk, Hsp, Hq.
Qed.

Lemma _signal_coverage_none expected_signals signals n : _signal_coverage expected_signals signals = Ok (n, []) ->
  n = Z.of_nat (length expected_signals) /\
  forall expected, In expected expected_signals -> signal_present signals expected = Ok true.
Proof.
  intros (present & Hp & [= <- E])%bind_Ok. apply map_eq_nil in E. apply mapM_Ok in Hp.
  assert (Hall : forall e, In e present -> e.1 = true).
  { intros e He. destruct e.1 eqn:E1; [done|]. assert (Hin : In e (List.filter (fun e => negb e.1) present)).
    { apply filter_In. by rewrite E1. } by rewrite E in Hin. }
  split.
  - rewrite (Forall2_length _ _ _ Hp). f_equal. clear -Hall. induction present as [|e l IH]; [done|]. cbn.
    rewrite (Hall e) by by left. cbn. f_equal. apply IH. intros x Hx. apply Hall. by right.
  - intros x Hx. destruct (Forall2_In_l _ _ _ _ Hp Hx) as (e & He & (b & Hb & [= <-])%bind_Ok).
    specialize (Hall _ He). cbn in Hall. by subst b.
Qed.

(** A case that does not fail: decided as expected, with every expected signal found. *)
Definition case_holds (sha256 : string -> string) (case : doc) : Prop := exists signals decision,
  case_signals sha256 case = Ok signals /\ _decide case signals = Ok decision /\
  doc_str (get "expected_decision" (fields case)) = decision /\
  forall expected l, doc_iter (get "expected_signals" (fields case)) = Ok l -> In expected l ->
    exists s, In s signals /\ get "signal_kind" (fields expected) = DStr (signal_kind s) /\
      get "span" (fields expected) = DStr (span s).

Lemma evaluate_case_holds sha256 case r : evaluate_case sha256 case = Ok r -> failed r = [] ->
  case_holds sha256 case /\ false_allow r = false /\ unnecessary_clarification r = false /\ missed_paths r = 0%Z /\
  matched_count r = expected_count r.
Proof.
  intros (signals & Hs & (actual & Ha & (expected & (v & [_ Hv]%doc_item_get & [= <-])%bind_Ok & (es & (w & [_ Hw]%doc_item_get & Hes)%bind_Ok &
    ([n missed] & Hc & (paths & Hp & (labels & _ & (id & _ & [= <-])%bind_Ok)%bind_Ok)%bind_Ok)%bind_Ok)%bind_Ok)%bind_Ok)%bind_Ok)%bind_Ok Hf.
  cbn in Hf |- *. destruct (_ ++ _) as [|x l] eqn:E; [clear Hf|by cbn in Hf].
  apply app_eq_nil in E as [E1%violation_nil E2%violation_nil]. destruct missed; [|done].
  apply negb_false_iff, String.eqb_eq in E1. apply _signal_coverage_none in Hc as [-> Hc]. injection Hp as <-.
  split; [|rewrite <- E1; by destruct (String.eqb actual "allowed"), (String.eqb actual "clarification_required")].
  exists signals, actual. rewrite Hv, Hw. split_and!; [done..|]. intros e l He Hin. rewrite Hes in He. injection He as <-.
  by apply signal_present_true, Hc.
Qed.

Lemma total_ext f g l : (forall r, In r l -> f r = g r) -> total f l = total g l.
Proof. induction l as [|r l IH]; intros H; [done|]. cbn. rewrite (H r) by by left. f_equal. apply IH. intros x Hx. apply H. by right. Qed.
Lemma total_0 l : total (fun _ => 0%Z) l = 0%Z.
Proof. by induction l. Qed.

Lemma passed_results sha256 traces out : evaluate_intent_transition_traces sha256 traces = Ok out ->
  exists cases results, (v ← doc_item "cases" traces; doc_iter v) = Ok cases /\
    Forall2 (fun case r => evaluate_case sha256 case = Ok r) cases results /\ (forall r, In r results -> failed r = []) /\
    get "cases" out = DList (map report results) /\
    get "summary" out = DDict [("case_count", DInt (Z.of_nat (length cases))); ("false_allow_count", DInt 0);
      ("unnecessary_clarification_count", DInt 0); ("missed_path_reference_count", DInt 0);
      ("evidence_coverage_rate",
       DFloat (let n := total expected_count results in if (n =? 0)%Z then fone else ratio n n))].
Proof.
  intros (cases & Hcases & (results & Hr & (suite & _ & (version & _ & ([] & Hf%raise_if_Ok & [= <-])%bind_Ok)%bind_Ok)%bind_Ok)%bind_Ok)%bind_Ok.
  apply mapM_Ok in Hr. assert (Hnone : forall r, In r results -> failed r = []).
  { intros r Hin. destruct (mjoin _) eqn:E; [|done]. rewrite mjoin_nil, Forall_forall in E. apply E, list_elem_of_In.
    by apply in_map. }
  exists cases, results. split_and!; [done..|]. unfold get, get_or. cbn.
  rewrite (total_ext (fun r => Z.b2z (false_allow r)) (fun _ => 0%Z)), (total_ext (fun r => Z.b2z (unnecessary_clarification r)) (fun _ => 0%Z)),
    (total_ext missed_paths (fun _ => 0%Z)), !total_0, (total_ext matched_count expected_count); [done|..];
    intros r Hin; destruct (Forall2_In_r _ _ _ _ Hr Hin) as (case & _ & He);
    destruct (evaluate_case_holds sha256 case r He (Hnone r Hin)) as (_ & H1 & H2 & H3 & H4); by rewrite ?H1, ?H2.
Qed.

(** Golden traces that pass: every case holds, and the summary counts nothing
    wrong. *)
Theorem passed_traces_hold sha256 traces out cases :
  evaluate_intent_transition_traces sha256 traces = Ok out -> get "cases" (fields traces) = DList cases ->
  Forall (case_holds sha256) cases /\
  get "false_allow_count" (fields (get "summary" out)) = DInt 0 /\
  get "missed_path_reference_count" (fields (get "summary" out)) = DInt 0.
Proof.
  intros (cs & results & (v & [_ Hv]%doc_item_get & Hl)%bind_Ok & Hr & Hnone & _ & ->)%passed_results Hcases.
  rewrite Hcases in Hv. subst v. injection Hl as <-. split; [|done].
  apply Forall_forall. intros case Hc%list_elem_of_In. destruct (Forall2_In_l _ _ _ _ Hr Hc) as (r & Hin & He).
  by apply (evaluate_case_holds sha256 case r He), Hnone.
Qed.

Definition trace (turn decision : string) (requested : list string) (expected : list (string * string)) : doc :=
  DDict [("cases", DList [DDict [("case_id", DStr "c1"); ("raw_turn", DStr turn); ("requested_capability_classes", texts requested);
    ("expected_decision", DStr decision);
    ("expected_signals", DList (map (fun e => DDict [("signal_kind", DStr e.1); ("span", DStr e.2)]) expected))]]);
    ("suite_id", DStr "s"); ("version", DStr "0.1.0")].
Example traces_ex :
  let run t := match evaluate_intent_transition_traces (fun t => t) t with
               | Ok out => inl (get "summary" out) | Raise e => inr e end in
  run (trace "Fix src/foo.py in this repo." "recomposition_required" ["repo-write"] [("write_intent", "Fix")]) =
    inl (DDict [("case_count", DInt 1); ("false_allow_count", DInt 0); ("unnecessary_clarification_count", DInt 0);
                ("missed_path_reference_count", DInt 0); ("evidence_coverage_rate", DFloat fone)]) /\
  run (trace "Delete src/foo.py." "allowed" [] [("write_intent", "Fix")]) =
    inr (IntentTransitionTraceError
      "intent-transition golden traces failed: c1: expected decision allowed, got human_review_required; missed expected signals: write_intent 'Fix'").
Proof. vm_compute. split; reflexivity. Qed.
End TracesCorrect.
