(* ===== verification/TransitionPolicy.v ===== *)
(** * The policy of capability transitions

    Models [scripts/runtime/validate_capability_delta_transition_policy.py] and
    [scripts/runtime/evaluate_intent_transition_shadow_metrics.py]. What loading
    each module file gives is an argument, in the order of the paths;
    [schema_check] loads the schema and checks a document against it;
    [fromisoformat] is [date.fromisoformat], as the number of the day from 0. The
    command lines are left out. *)

From Stdlib Require Import SpecFloat.
From S2P Require Import Prelude PyStr PyFloat PyValue Clock Documents TransitionSignals TransitionEvidence.
Open Scope string_scope.
Open Scope list_scope.

Module Delta.

Definition POLICY_VERSION : string := "0.1.0".
Definition REQUIRED_CAPABILITY_CLASSES : list string :=
  ["research"; "read-only"; "repo-read"; "repo-write"; "protected-path-write"; "production-change"; "secrets-sensitive"; "unknown"].
Definition REQUIRED_RULE_IDS : gset string := list_to_set
  ["research-to-research"; "research-to-repo-write"; "repo-read-to-repo-write"; "repo-write-to-protected-path-write";
   "protected-path-write-to-production-change"; "any-to-secrets-sensitive"].
Definition KNOWN_EVIDENCE_FIELDS : list string :=
  ["repository_bound"; "explicit_write_intent"; "explicit_destructive_intent"; "protected_path_reference"; "mentioned_paths";
   "scan_coverage"; "raw_artifact_hash_verified"; "previous_profile_authority_verified"].
Definition ESCALATION_DECISIONS : list string := ["require_recomposition"; "require_clarification"; "require_human_review"; "deny"].

Definition CapabilityDeltaPolicyError (message : string) : exn := ValueError message.

(** [not rule[field]], where it is looked up *)
Definition lacks (rule : doc) (field : string) : res bool := v ← doc_item field rule; mret (negb (doc_truthy v)).

Definition _transition_rule_violations (rule : doc) (capability_classes : list doc) : res (list string) :=
  rule_id ← (v ← doc_item "id" rule; mret (doc_str v));
  from_classes ← (v ← doc_item "from_capability_classes" rule; doc_set v);
  to_classes ← (v ← doc_item "to_capability_classes" rule; doc_set v);
  evidence_fields ← (v ← doc_item "required_evidence" rule; doc_set v);
  decision ← (v ← doc_item "decision" rule; mret (doc_str v));
  unknown_handling ← (v ← doc_item "unknown_handling" rule; mret (doc_str v));
  stays ← and_then (str_in decision ["require_recomposition"; "require_human_review"]) (lacks rule "requires_recomposition");
  unreviewed ← and_then (String.eqb decision "require_human_review") (lacks rule "requires_human_review");
  unready ← and_then (set_mem (DStr "production-change") to_classes)
    (v ← doc_item "required_gates" rule; ready ← text_in "production_readiness" v; mret (negb ready));
  mret (
    violation (negb (set_incl from_classes capability_classes)) (rule_id +:+ " uses unknown from_capability_classes")
    ++ violation (negb (set_incl to_classes capability_classes)) (rule_id +:+ " uses unknown to_capability_classes")
    ++ violation (negb (set_incl evidence_fields (map DStr KNOWN_EVIDENCE_FIELDS)))
         (rule_id +:+ " uses unknown required_evidence fields")
    ++ violation (str_in decision ESCALATION_DECISIONS && String.eqb unknown_handling "allow_only_when_no_escalation")
         (rule_id +:+ " must fail closed or gate unknown escalation values")
    ++ violation stays (rule_id +:+ " must require recomposition")
    ++ violation unreviewed (rule_id +:+ " must require human review")
    ++ violation (set_mem (DStr "repo-write") to_classes && negb (set_mem (DStr "explicit_write_intent") evidence_fields))
         (rule_id +:+ " repo-write transition requires explicit_write_intent")
    ++ violation (set_mem (DStr "protected-path-write") to_classes && negb (set_mem (DStr "protected_path_reference") evidence_fields))
         (rule_id +:+ " protected-path transition requires protected_path_reference")
    ++ violation unready (rule_id +:+ " production transition requires production_readiness gate")).

(** The body of the loop over the module files. *)
Definition module_violations (module_mappings scope_mappings : doc) (load : res (odict doc)) : res (list string) :=
  module ← load;
  if negb (is_text "skill" (get "kind" module)) then mret []
  else
    module_name ← (v ← ditem "name" module; mret (doc_str v));
    capability_class ← (v ← ditem "capability_class" module; mret (doc_str v));
    mapped ← text_in capability_class module_mappings;
    if negb mapped then mret [module_name +:+ " capability_class " +:+ capability_class +:+ " is unmapped"]
    else
      mapping ← doc_item capability_class module_mappings;
      classes ← doc_item "transition_capability_classes" mapping;
      data_scopes ← doc_iter (get_or "data_scopes" (DList []) module);
      unmapped ← mapM (fun data_scope =>
        known ← doc_in data_scope scope_mappings;
        mret (violation (negb known) (module_name +:+ " data_scope " +:+ doc_str data_scope +:+ " is unmapped"))) data_scopes;
      mret (violation (negb (doc_truthy classes)) (module_name +:+ " maps to no transition capability classes") ++ mjoin unmapped).

Definition _module_mapping_violations (policy : doc) (modules : list (res (odict doc))) : res (list string) :=
  module_mappings ← doc_item "module_capability_mappings" policy;
  scope_mappings ← doc_item "scope_mappings" policy;
  violations ← mapM (module_violations module_mappings scope_mappings) modules;
  mret (mjoin violations).

(** [expires.isoformat()] *)
Definition date_text (day : Z) : string :=
  let '(y, m, d) := ord2ymd day in of_chars (digits 4 y ++ "-"%char :: digits 2 m ++ "-"%char :: digits 2 d).

Section validation.
Context (fromisoformat : string -> res Z) (schema_check : doc -> res unit).

Definition _exception_violations (policy : doc) (today : Z) : res (list string) :=
  exceptions ← (v ← doc_item "exceptions" policy; doc_iter v);
  violations ← mapM (fun exception =>
    v ← doc_item "expires" exception;
    expires ← fromisoformat (doc_str v);
    if (expires <? today)%Z then
      id ← doc_item "id" exception;
      mret [doc_str id +:+ " exception expired on " +:+ date_text expires]
    else mret []) exceptions;
  mret (mjoin violations).

Definition _policy_violations (policy : doc) (modules : list (res (odict doc))) (today : Z) : res (list string) :=
  capability_classes ← (v ← doc_item "capability_classes" policy; doc_set v);
  rules ← (v ← doc_item "transition_rules" policy; doc_iter v);
  rule_ids ← mapM (fun rule => v ← doc_item "id" rule; mret (doc_str v)) rules;
  let missing_rules := sorted_set (REQUIRED_RULE_IDS ∖ list_to_set rule_ids) in
  of_rules ← mapM (fun rule => _transition_rule_violations rule capability_classes) rules;
  of_modules ← _module_mapping_violations policy modules;
  of_exceptions ← _exception_violations policy today;
  mret (violation (negb (set_eqb capability_classes (map DStr REQUIRED_CAPABILITY_CLASSES)))
          "capability_classes must match transition-evidence capability classes"
        ++ violation (nonempty missing_rules) ("missing transition rules: " +:+ join ", " missing_rules)
        ++ mjoin of_rules ++ of_modules ++ of_exceptions).

(** [len(policy[field])] *)
Definition count_of (policy : doc) (field : string) : res Z := v ← doc_item field policy; doc_len v.

Definition validate_capability_delta_policy (policy : doc) (modules : list (res (odict doc))) (today : Z) : res (odict doc) :=
  _ ← schema_check policy;
  violations ← _policy_violations policy modules today;
  capability_class_count ← count_of policy "capability_classes";
  transition_rule_count ← count_of policy "transition_rules";
  module_mapping_count ← count_of policy "module_capability_mappings";
  scope_mapping_count ← count_of policy "scope_mappings";
  exception_count ← count_of policy "exceptions";
  _ ← raise_if (nonempty violations)
        (CapabilityDeltaPolicyError ("capability-delta transition policy failed validation: " +:+ join "; " violations));
  mret [("policy_version", DStr POLICY_VERSION); ("status", DStr "passed");
        ("summary", DDict [("capability_class_count", DInt capability_class_count);
          ("transition_rule_count", DInt transition_rule_count); ("module_mapping_count", DInt module_mapping_count);
          ("scope_mapping_count", DInt scope_mapping_count); ("exception_count", DInt exception_count)]);
        ("violations", DList [])].

End validation.
End Delta.

(** ** Thresholds over the golden traces *)

Module Shadow.
Import Traces.

Definition IntentTransitionShadowMetricError (message : string) : exn := ValueError message.

(** [a / b] of two natural numbers *)
Definition quotient (a b : Z) : res float :=
  if (b =? 0)%Z then Raise (OtherError "ZeroDivisionError" "division by zero") else Ok (ratio a b).

Definition int_of (v : doc) : Z := match v with DInt z => z | _ => 0%Z end.
Definition count (p : doc -> bool) (l : list doc) : Z := Z.of_nat (length (List.filter p l)).

(** [case[field] == s] of a case of the trace report *)
Definition case_is (field s : string) (case : doc) : bool := is_text s (get field (fields case)).
Definition with_expected (decision : string) (out : odict doc) : list doc :=
  match get "cases" out with DList cases => List.filter (case_is "expected_decision" decision) cases | _ => [] end.

Definition _missed_protected_paths (out : odict doc) (traces : doc) : res Z :=
  cases ← (v ← doc_item "cases" traces; doc_iter v);
  ids ← mapM (fun case =>
    expected ← (v ← doc_item "expected_signals" case; doc_iter v);
    protected ← anyM (fun signal => kind ← doc_item "signal_kind" signal; mret (is_text "protected_path_reference" kind)) expected;
    if protected : bool then id ← doc_item "case_id" case; _ ← in_texts id []; mret [id] else mret []) cases;
  let protected_case_ids := mjoin ids in
  reported ← (v ← ditem "cases" out; doc_iter v);
  missed ← mapM (fun case =>
    id ← doc_item "case_id" case;
    _ ← in_texts id [];
    and_then (set_mem id protected_case_ids) (v ← doc_item "missed_expected_signals" case; mret (doc_truthy v))) reported;
  mret (Z.of_nat (length (List.filter id missed))).

(** The summary and the cases of a trace report are the ones
    [evaluate_intent_transition_traces] puts there. *)
Definition _metrics (out : odict doc) (traces : doc) (case_count : Z) : res (odict float) :=
  let summary field := get field (fields (get "summary" out)) in
  let protected_cases := with_expected "human_review_required" out in
  let ambiguous_cases := with_expected "clarification_required" out in
  let protected_successes := count (case_is "actual_decision" "human_review_required") protected_cases in
  let unknown_blocks := count (case_is "actual_decision" "clarification_required") ambiguous_cases in
  let some l := Z.max (Z.of_nat (length l)) 1 in
  missed_protected_paths ← _missed_protected_paths out traces;
  false_allow_rate ← quotient (int_of (summary "false_allow_count")) case_count;
  unnecessary_clarification_rate ← quotient (int_of (summary "unnecessary_clarification_count")) case_count;
  missed_rate ← quotient missed_protected_paths (some protected_cases);
  evidence_coverage_rate ← doc_float (summary "evidence_coverage_rate");
  unknown_rate ← quotient unknown_blocks (some ambiguous_cases);
  protected_rate ← quotient protected_successes (some protected_cases);
  mret [("false_allow_rate", false_allow_rate); ("unnecessary_clarification_rate", unnecessary_clarification_rate);
        ("missed_protected_path_reference_rate", missed_rate); ("evidence_coverage_rate", evidence_coverage_rate);
        ("unknown_to_block_conversion_rate", unknown_rate); ("protected_path_escalation_rate", protected_rate)].

(** [f"{x:.3f}"] *)
Definition three_decimals (sign : bool) (n : Z) : string :=
  (if sign then "-" else "") +:+ zstr (n / 1000) +:+ "." +:+ pad_left 3 (zstr (n mod 1000)).
Definition format_3f (x : float) : string :=
  match x with
  | S754_nan => "nan"
  | S754_infinity s => if s then "-inf" else "inf"
  | S754_zero s => three_decimals s 0
  | S754_finite s m e => three_decimals s (scaled 3 m e)
  end.

(** The number a float is compared with; an integer too large for a float is
    beyond every finite one. *)
Definition approx (n : number) : float := match n with NInt z => float_of_int z | NFloat f => f end.

(** [threshold[bound]] is compared with the value if it is there. The schema
    gives a number; another value does not compare with a float. *)
Definition bound_violation (breaks : float -> float -> bool) (bound words name : string) (value : float) (threshold : doc)
    : res (list string) :=
  there ← text_in bound threshold;
  if negb there then mret []
  else
    v ← doc_item bound threshold;
    match as_num v with
    | None => Raise (TypeError "not supported between instances of 'float' and another type")
    | Some n =>
        if breaks value (approx n) then
          limit ← to_float n;
          mret [name +:+ " " +:+ format_3f value +:+ " " +:+ words +:+ " " +:+ format_3f limit]
        else mret []
    end.

Definition metric_violations (thresholds : doc) (metric : string * float) : res (list string) :=
  threshold ← doc_item metric.1 thresholds;
  above ← bound_violation (fun v limit => SFltb limit v) "maximum" "exceeds maximum" metric.1 metric.2 threshold;
  below ← bound_violation SFltb "minimum" "below minimum" metric.1 metric.2 threshold;
  mret (above ++ below).

Definition _threshold_violations (policy : doc) (metrics : odict float) : res (list string) :=
  thresholds ← doc_item "metrics" policy;
  violations ← mapM (metric_violations thresholds) metrics;
  mret (mjoin violations).

Section shadow.
Context (sha256 : string -> string) (schema_check : doc -> res unit).

Definition evaluate_shadow_metrics (policy traces : doc) : res (odict doc) :=
  _ ← schema_check policy;
  out ← evaluate_intent_transition_traces sha256 traces;
  let case_count := int_of (get "case_count" (fields (get "summary" out))) in
  metrics ← _metrics out traces case_count;
  violations ← _threshold_violations policy metrics;
  policy_id ← doc_item "policy_id" policy;
  version ← doc_item "version" policy;
  shadow_mode ← doc_item "shadow_mode" policy;
  suite_id ← doc_item "suite_id" traces;
  _ ← raise_if (nonempty violations)
        (IntentTransitionShadowMetricError ("intent-transition shadow metrics failed thresholds: " +:+ join "; " violations));
  mret [("policy_id", policy_id); ("policy_version", version); ("status", DStr "passed"); ("shadow_mode", shadow_mode);
        ("metrics", DDict (map (fun e => (e.1, DFloat e.2)) metrics)); ("violations", DList []); ("source_trace_suite", suite_id)].

End shadow.
End Shadow.

(** ** What an accepted policy is *)

Module Correct.
Import Delta.

(** A rule that escalates fails closed; what it asks for follows from where it
    leads. *)
Record rule_sound (rule : doc) : Prop := {
  rule_closed : str_in (doc_str (get "decision" (fields rule))) ESCALATION_DECISIONS = true ->
    doc_str (get "unknown_handling" (fields rule)) <> "allow_only_when_no_escalation";
  rule_recomposes : In (doc_str (get "decision" (fields rule))) ["require_recomposition"; "require_human_review"] ->
    doc_truthy (get "requires_recomposition" (fields rule)) = true;
  rule_reviewed : doc_str (get "decision" (fields rule)) = "require_human_review" ->
    doc_truthy (get "requires_human_review" (fields rule)) = true;
  rule_evidence : forall classes evidence class field,
    get "to_capability_classes" (fields rule) = DList classes -> get "required_evidence" (fields rule) = DList evidence ->
    In (class, field) [("repo-write", "explicit_write_intent"); ("protected-path-write", "protected_path_reference")] ->
    In (DStr class) classes -> In (DStr field) evidence;
  rule_known : forall classes v, get "to_capability_classes" (fields rule) = DList classes -> In v classes ->
    exists class, v = DStr class /\ In class REQUIRED_CAPABILITY_CLASSES;
}.

Lemma set_mem_str s l : set_mem (DStr s) l = true <-> In (DStr s) l.
Proof.
  unfold set_mem. rewrite existsb_exists. split.
  - intros (x & Hx & ->%doc_eqb_str). done.
  - intros H. exists (DStr s). split; [done|]. cbn. apply String.eqb_refl.
Qed.

Lemma set_eqb_texts l s : set_eqb l (map DStr s) = true -> forall v, In v l -> exists t, v = DStr t /\ In t s.
Proof.
  unfold set_eqb, set_incl. intros [H _]%andb_true_iff v Hv. rewrite forallb_forall in H. specialize (H v Hv).
  unfold set_mem in H. apply existsb_exists in H as (x & (t & <- & Ht)%in_map_iff & E). exists t. split; [|done].
  destruct v; try done. cbn in E. by apply String.eqb_eq in E as ->.
Qed.

Lemma doc_set_list v l s : v = DList l -> doc_set v = Ok s -> s = l.
Proof. intros -> (l' & [= <-] & (u & _ & [= <-])%bind_Ok)%bind_Ok. done. Qed.

Lemma doc_eqb_str_l s v : doc_eqb (DStr s) v = true -> v = DStr s.
Proof. destruct v; try done. cbn. by intros ->%String.eqb_eq. Qed.

Lemma lacks_false rule field : lacks rule field = Ok false -> doc_truthy (get field (fields rule)) = true.
Proof. by intros (v & [_ <-]%doc_item_get & [= ?%negb_false_iff])%bind_Ok. Qed.

Lemma rule_nil rule caps : (forall v, In v caps -> exists t, v = DStr t /\ In t REQUIRED_CAPABILITY_CLASSES) ->
  _transition_rule_violations rule caps = Ok [] -> rule_sound rule.
Proof.
  intros Hcaps (id & _ & (from & _ & (to & (vt & [_ Et]%doc_item_get & Hto)%bind_Ok & (ev & (ve & [_ Ee]%doc_item_get & Hev)%bind_Ok &
    (dec & (vd & [_ Ed]%doc_item_get & [= <-])%bind_Ok & (unk & (vu & [_ Eu]%doc_item_get & [= <-])%bind_Ok & H)%bind_Ok)%bind_Ok)%bind_Ok)%bind_Ok)%bind_Ok)%bind_Ok.
  apply bind_Ok in H as (stays & Hst & (unrev & Hun & (unready & _ & [= H])%bind_Ok)%bind_Ok).
  apply app_eq_nil in H as [_ [H2%violation_nil%negb_false_iff [_ [H4%violation_nil [->%violation_nil [->%violation_nil
    [H7%violation_nil [H8%violation_nil _]%app_eq_nil]%app_eq_nil]%app_eq_nil]%app_eq_nil]%app_eq_nil]%app_eq_nil]%app_eq_nil].
  split; rewrite ?Et, ?Ee, ?Ed, ?Eu.
  - intros Hd Hu. rewrite Hu, andb_true_r in H4. change (str_in (doc_str vd) ESCALATION_DECISIONS = false) in H4. congruence.
  - intros Hd%str_in_In. rewrite Hd in Hst. by apply lacks_false.
  - intros Hd%String.eqb_eq. rewrite Hd in Hun. by apply lacks_false.
  - intros classes evidence class field -> -> Hcf Hin. apply (doc_set_list _ classes) in Hto as ->; [|done].
    apply (doc_set_list _ evidence) in Hev as ->; [|done]. apply set_mem_str in Hin.
    destruct Hcf as [[= <- <-]|[[= <- <-]|[]]]; [rewrite Hin in H7|rewrite Hin in H8]; by apply set_mem_str, negb_false_iff.
  - intros classes v -> Hv. apply (doc_set_list _ classes) in Hto as ->; [|done].
    unfold set_incl in H2. rewrite forallb_forall in H2. specialize (H2 v Hv). unfold set_mem in H2.
    apply existsb_exists in H2 as (x & Hx & E). destruct (Hcaps x Hx) as (t & -> & Ht). apply doc_eqb_str_l in E. by exists t.
Qed.

(** A module that passes: a skill's class is mapped, to some classes, and its
    scopes are mapped. *)
Definition module_mapped (policy : doc) (module : odict doc) : Prop :=
  get "kind" module = DStr "skill" ->
  let mappings := get "module_capability_mappings" (fields policy) in
  let class := doc_str (get "capability_class" module) in
  doc_truthy (get "transition_capability_classes" (fields (get class (fields mappings)))) = true /\
  forall scopes scope, get "data_scopes" module = DList scopes -> In scope scopes ->
    doc_in scope (get "scope_mappings" (fields policy)) = Ok true.

Lemma ditem_get k d (v : doc) : ditem k d = Ok v -> get k d = v.
Proof. unfold ditem, get, get_or. destruct (od_get k d); [by intros [= ->]|done]. Qed.

Lemma module_nil policy load mm sm : doc_item "module_capability_mappings" policy = Ok mm ->
  doc_item "scope_mappings" policy = Ok sm -> module_violations mm sm load = Ok [] ->
  exists module, load = Ok module /\ module_mapped policy module.
Proof.
  intros [_ Hmm]%doc_item_get [_ Hsm]%doc_item_get (module & -> & H)%bind_Ok. exists module. split; [done|].
  intros Hk. rewrite Hk in H. cbn [is_text negb String.eqb] in H. rewrite Hmm, Hsm.
  apply bind_Ok in H as (name & _ & (class & (vc & Hc%ditem_get & [= <-])%bind_Ok & (mapped & Hm & H)%bind_Ok)%bind_Ok).
  destruct mapped; [|done].
  apply bind_Ok in H as (mapping & [_ Hmapping]%doc_item_get & (classes & [_ Hcl]%doc_item_get & (scopes & Hs & (un & Hun & [= H])%bind_Ok)%bind_Ok)%bind_Ok).
  apply app_eq_nil in H as [H1%violation_nil%negb_false_iff H2]. cbn zeta. rewrite Hc, Hmapping, Hcl. split; [done|].
  intros l scope Hl Hin. unfold get, get_or in Hl, Hs. destruct (od_get "data_scopes" module) as [v|]; [|done]. subst v.
  injection Hs as <-. assert (Hall : (r ← mapM (fun data_scope =>
      known ← doc_in data_scope sm;
      mret (violation (negb known) (name +:+ " data_scope " +:+ doc_str data_scope +:+ " is unmapped"))) l; mret (mjoin r)) = Ok [])
    by (rewrite Hun; cbn; by rewrite H2).
  pose proof (proj1 (mapM_mjoin_nil _ _) Hall scope Hin) as (known & -> & [= E%violation_nil%negb_false_iff])%bind_Ok.
  by rewrite E.
Qed.

Lemma modules_nil policy modules : _module_mapping_violations policy modules = Ok [] ->
  forall load, In load modules -> exists module, load = Ok module /\ module_mapped policy module.
Proof.
  intros (mm & Hmm & (sm & Hsm & H)%bind_Ok)%bind_Ok load Hin. apply (module_nil policy load mm sm Hmm Hsm).
  by apply (proj1 (mapM_mjoin_nil _ _) H).
Qed.

Lemma exceptions_nil fromisoformat policy today : _exception_violations fromisoformat policy today = Ok [] ->
  forall exceptions e, get "exceptions" (fields policy) = DList exceptions -> In e exceptions ->
  exists day, fromisoformat (doc_str (get "expires" (fields e))) = Ok day /\ (today <= day)%Z.
Proof.
  intros (l & (v & [_ Hv]%doc_item_get & Hl)%bind_Ok & H)%bind_Ok exceptions e He Hin. rewrite He in Hv. subst v.
  injection Hl as <-. pose proof (proj1 (mapM_mjoin_nil _ _) H e Hin) as (x & [_ <-]%doc_item_get & (day & Hd & Hday)%bind_Ok)%bind_Ok.
  exists day. split; [done|]. destruct (Z.ltb_spec day today); [|lia]. by apply bind_Ok in Hday as (i & _ & [=]).
Qed.

Lemma required_present (required : gset string) ids id :
  nonempty (sorted_set (required ∖ list_to_set ids)) = false -> id ∈ required -> In id ids.
Proof.
  intros E Hid. destruct (sorted_set _) eqn:Hm; [|done]. apply sorted_set_subset_nil in Hm.
  by apply Hm, elem_of_list_to_set, list_elem_of_In in Hid.
Qed.

(** A policy of capability transitions that is accepted: its rules fail closed
    and ask for the evidence and the reviews their targets need, every required
    transition has a rule, every skill module maps to transition classes and
    known scopes, and no exception has expired. *)
Theorem accepted_policy_sound fromisoformat schema_check policy modules today report rules :
  validate_capability_delta_policy fromisoformat schema_check policy modules today = Ok report ->
  get "transition_rules" (fields policy) = DList rules ->
  Forall rule_sound rules /\
  (forall id, id ∈ REQUIRED_RULE_IDS -> exists rule, In rule rules /\ doc_str (get "id" (fields rule)) = id) /\
  (forall load, In load modules -> exists module, load = Ok module /\ module_mapped policy module) /\
  (forall exceptions e, get "exceptions" (fields policy) = DList exceptions -> In e exceptions ->
     exists day, fromisoformat (doc_str (get "expires" (fields e))) = Ok day /\ (today <= day)%Z).
Proof.
  intros (u & _ & (violations & Hv & H)%bind_Ok)%bind_Ok Hrules.
  destruct violations as [|v vs]; [clear H report|by repeat apply bind_Ok in H as (? & ? & H)].
  apply bind_Ok in Hv as (caps & _ & (rs & (vr & [_ Er]%doc_item_get & Hr)%bind_Ok & (ids & Hids & (ofr & Hofr & (ofm & Hofm & (ofe & Hofe & [= E])%bind_Ok)%bind_Ok)%bind_Ok)%bind_Ok)%bind_Ok).
  rewrite Hrules in Er. subst vr. injection Hr as <-.
  apply app_eq_nil in E as [E1%violation_nil%negb_false_iff [E2%violation_nil [E3 [-> ->]%app_eq_nil]%app_eq_nil]%app_eq_nil].
  split_and!; [| |by apply modules_nil|by apply exceptions_nil].
  - apply Forall_forall. intros rule Hin%list_elem_of_In. apply (rule_nil rule caps); [by apply set_eqb_texts|].
    apply (proj1 (mapM_mjoin_nil (fun rule => _transition_rule_violations rule caps) rules)); [|done].
    rewrite Hofr. cbn. by rewrite E3.
  - intros id Hid. pose proof (required_present _ _ _ E2 Hid) as Hin.
    apply mapM_Ok in Hids. destruct (Forall2_In_r _ _ _ _ Hids Hin) as (rule & Hrule & (v & [_ <-]%doc_item_get & [= <-])%bind_Ok).
    exists rule. split; [exact Hrule|reflexivity].
Qed.

(** *** Shadow metrics *)

Import Traces TracesCorrect Shadow.

(** The cases of the reported kind all have the decision that was expected, and
    none misses a signal. *)
Lemma evaluate_case_report sha256 case r : evaluate_case sha256 case = Ok r -> failed r = [] ->
  get "actual_decision" (fields (report r)) = get "expected_decision" (fields (report r)) /\
  get "missed_expected_signals" (fields (report r)) = DList [].
Proof.
  intros (signals & _ & (actual & _ & (expected & _ & (es & _ & ([n missed] & _ & (paths & _ & (labels & _ & (id & _ & [= <-])%bind_Ok)%bind_Ok)%bind_Ok)%bind_Ok)%bind_Ok)%bind_Ok)%bind_Ok)%bind_Ok Hf.
  cbn in Hf |- *. destruct (_ ++ _) as [|x l] eqn:E; [clear Hf|by cbn in Hf].
  apply app_eq_nil in E as [E1%violation_nil E2%violation_nil]. destruct missed; [|done].
  apply negb_false_iff, String.eqb_eq in E1 as ->. done.
Qed.

Lemma reported sha256 cases results case : Forall2 (fun case r => evaluate_case sha256 case = Ok r) cases results ->
  (forall r, In r results -> failed r = []) -> In case (map report results) ->
  get "actual_decision" (fields case) = get "expected_decision" (fields case) /\
  get "missed_expected_signals" (fields case) = DList [].
Proof.
  intros Hr Hnone (r & <- & Hin)%in_map_iff. destruct (Forall2_In_r _ _ _ _ Hr Hin) as (c & _ & He).
  by apply (evaluate_case_report sha256 c r He), Hnone.
Qed.

Lemma filter_all {A} (p : A -> bool) l : (forall x, In x l -> p x = true) -> List.filter p l = l.
Proof.
  induction l as [|x l IH]; intros H; cbn; [done|]. rewrite (H x) by by left. f_equal. apply IH.
  intros y Hy. apply H. by right.
Qed.

Lemma none_missed sha256 traces out n : evaluate_intent_transition_traces sha256 traces = Ok out ->
  _missed_protected_paths out traces = Ok n -> n = 0%Z.
Proof.
  intros (cases & results & _ & Hr & Hnone & Hc & _)%passed_results.
  intros (cs & _ & (ids & _ & (rep & (v & Hv%ditem_get & Hrep)%bind_Ok & (missed & Hm & [= <-])%bind_Ok)%bind_Ok)%bind_Ok)%bind_Ok.
  rewrite Hc in Hv. subst v. injection Hrep as <-. apply mapM_Ok in Hm.
  destruct (List.filter id missed) as [|b l] eqn:E; [done|].
  assert (Hb : In b missed /\ b = true) by (apply (filter_In id); rewrite E; by left). destruct Hb as [Hb ->].
  destruct (Forall2_In_r _ _ _ _ Hm Hb) as (case & Hcase & (i & _ & (u & _ & H)%bind_Ok)%bind_Ok).
  unfold and_then in H. destruct (set_mem _ _); [|done]. apply bind_Ok in H as (v & [_ Hv]%doc_item_get & [= H]).
  destruct (reported _ _ _ _ Hr Hnone Hcase) as [_ E']. by rewrite E' in Hv; subst v.
Qed.

Lemma all_as_expected sha256 traces out decision : evaluate_intent_transition_traces sha256 traces = Ok out ->
  count (case_is "actual_decision" decision) (with_expected decision out) = Z.of_nat (length (with_expected decision out)).
Proof.
  intros (cases & results & _ & Hr & Hnone & Hc & _)%passed_results. unfold count. f_equal.
  rewrite filter_all; [done|]. unfold with_expected. rewrite Hc. intros case [Hin E]%filter_In.
  unfold case_is in *. by rewrite (proj1 (reported _ _ _ _ Hr Hnone Hin)).
Qed.

(** The metrics say nothing about what the scanner did: traces in which a case
    fails have no metrics, and in those that pass no tolerance of a threshold
    is ever used. *)
Theorem shadow_metrics_determined sha256 traces out case_count metrics :
  evaluate_intent_transition_traces sha256 traces = Ok out -> _metrics out traces case_count = Ok metrics ->
  let rate decision := let k := Z.of_nat (length (with_expected decision out)) in ratio k (Z.max k 1) in
  exists n, metrics = [("false_allow_rate", fzero); ("unnecessary_clarification_rate", fzero);
    ("missed_protected_path_reference_rate", fzero);
    ("evidence_coverage_rate", if (n =? 0)%Z then fone else ratio n n);
    ("unknown_to_block_conversion_rate", rate "clarification_required");
    ("protected_path_escalation_rate", rate "human_review_required")].
Proof.
  cbn zeta. intros Hout (missed & ->%(none_missed _ _ _ _ Hout) & H)%bind_Ok. rewrite !(all_as_expected _ _ _ _ Hout) in H.
  destruct (passed_results _ _ _ Hout) as (cases & results & _ & _ & _ & _ & Hs). rewrite Hs in H.
  apply bind_Ok in H as (fa & Hfa & (uc & Huc & (mp & Hmp & (ec & Hec & (ub & Hub & (pr & Hpr & [= <-])%bind_Ok)%bind_Ok)%bind_Ok)%bind_Ok)%bind_Ok).
  exists (total expected_count results). unfold quotient in *. cbn in Hfa, Huc, Hec.
  destruct (case_count =? 0)%Z; [done|]. injection Hfa as <-. injection Huc as <-. injection Hec as <-.
  destruct (Z.eqb_spec (Z.max (Z.of_nat (length (with_expected "human_review_required" out))) 1) 0) as [E|_]; [lia|].
  destruct (Z.eqb_spec (Z.max (Z.of_nat (length (with_expected "clarification_required" out))) 1) 0) as [E|_]; [lia|].
  injection Hmp as <-. injection Hub as <-. by injection Hpr as <-.
Qed.

Definition threshold (bound : string) (v : doc) : doc := DDict [(bound, v)].
Definition demo_policy : doc :=
  DDict [("policy_id", DStr "p"); ("version", DStr "0.1.0"); ("shadow_mode", DDict []);
    ("metrics", DDict [("false_allow_rate", threshold "maximum" (DInt 0));
       ("unnecessary_clarification_rate", threshold "maximum" (DFloat (ratio 5 100)));
       ("missed_protected_path_reference_rate", threshold "maximum" (DInt 0));
       ("evidence_coverage_rate", threshold "minimum" (DFloat (ratio 95 100)));
       ("unknown_to_block_conversion_rate", threshold "minimum" (DInt 1));
       ("protected_path_escalation_rate", threshold "minimum" (DInt 1))])].

(** A suite without an ambiguous case fails, as if its one case had not been blocked. *)
Lemma no_ambiguous_case_fails :
  evaluate_shadow_metrics (fun t => t) (fun _ => Ok tt) demo_policy
    (trace "Update docs/adr/a.md" "human_review_required" ["repo-write"] [("write_intent", "Update")]) =
  Raise (IntentTransitionShadowMetricError
    "intent-transition shadow metrics failed thresholds: unknown_to_block_conversion_rate 0.000 below minimum 1.000").
Proof. vm_compute. reflexivity. Qed.

(** A skill module and a policy for it. *)
Definition demo_rule (id : string) (to : list string) (decision : string) (evidence : list string) : doc :=
  DDict [("id", DStr id); ("from_capability_classes", texts ["research"]); ("to_capability_classes", texts to);
    ("required_evidence", texts evidence); ("decision", DStr decision); ("unknown_handling", DStr "fail_closed");
    ("requires_recomposition", DBool true); ("requires_human_review", DBool true); ("required_gates", texts ["production_readiness"])].
Definition demo_delta_policy (expires : string) : doc :=
  DDict [("capability_classes", texts REQUIRED_CAPABILITY_CLASSES);
    ("transition_rules", DList [demo_rule "research-to-research" ["research"] "allow" [];
       demo_rule "research-to-repo-write" ["repo-write"] "require_recomposition" ["explicit_write_intent"];
       demo_rule "repo-read-to-repo-write" ["repo-write"] "require_recomposition" [];
       demo_rule "repo-write-to-protected-path-write" ["protected-path-write"] "require_human_review" ["protected_path_reference"];
       demo_rule "protected-path-write-to-production-change" ["production-change"] "require_human_review" []]);
    ("module_capability_mappings", DDict [("analysis", DDict [("transition_capability_classes", texts ["research"])])]);
    ("scope_mappings", DDict [("repository-readonly", DNull)]);
    ("exceptions", DList [DDict [("id", DStr "e1"); ("expires", DStr expires)]])].
Example policy_violations_ex :
  _policy_violations (fun s => if String.eqb s "2026-01-02" then Ok 739617%Z else Raise (ValueError s)) (demo_delta_policy "2026-01-02")
    [Ok [("kind", DStr "skill"); ("name", DStr "m"); ("capability_class", DStr "analysis"); ("data_scopes", texts ["mail"])];
     Ok [("kind", DStr "policy")]] 739618 =
  Ok ["missing transition rules: any-to-secrets-sensitive";
      "repo-read-to-repo-write repo-write transition requires explicit_write_intent"; "m data_scope mail is unmapped";
      "e1 exception expired on 2026-01-02"].
Proof. vm_compute. reflexivity. Qed.
End Correct.
