(* ===== verification/Metrics.v ===== *)
(** * Metrics of the queue

    Models [runtime/metrics.py] over the recordset of the store. [fromisoformat]
    is [datetime.fromisoformat]: an instant in microseconds and whether it has
    an offset, or [None] for a ValueError. [sum] of floats is that of Python
    3.12, which the repository's CI runs: it carries a compensation. *)

From Stdlib Require Import SpecFloat.
From S2P Require Import Prelude PyStr PyFloat PyValue Documents Models RuntimeStore.
Open Scope string_scope.
Open Scope list_scope.

Section metrics.
Context (fromisoformat : string -> option (bool * Z)).

Definition _records (records : odict value) (key : string) : list (odict value) :=
  match dget key (VList []) records with VList values => omap as_mapping values | _ => [] end.

(** [str(v or "unknown")] *)
Definition or_unknown (v : value) : string := py_str (py_or v (VStr "unknown")).

(** [counts[key] += 1] of a [defaultdict(int)] *)
Definition increment (counts : odict Z) (key : string) : odict Z := od_set key (default 0%Z (od_get key counts) + 1)%Z counts.

Definition _event_counts (events : list (odict value)) : odict Z :=
  foldl increment [] (map (fun event => or_unknown (dget "event_type" VNone event)) events).

(** [sum] of floats after the first *)
Definition compensated (acc : float * float) (x : float) : float * float :=
  let '(s, c) := acc in
  let t := fadd s x in
  (t, fadd c (if SFleb (SFabs x) (SFabs s) then fadd (fsub s t) x else fadd (fsub x t) s)).
Definition is_finite (f : float) : bool := match f with S754_zero _ | S754_finite _ _ _ => true | _ => false end.
Definition float_sum (x : float) (l : list float) : float :=
  let '(s, c) := foldl compensated (x, fzero) l in
  if negb (SFeqb c fzero) && is_finite c then fadd s c else s.

Definition _distribution (values : list float) : doc :=
  match values with
  | [] => DDict [("count", DInt 0); ("min", DNull); ("max", DNull); ("avg", DNull)]
  | x :: l =>
      let n := Z.of_nat (length values) in
      DDict [("count", DInt n); ("min", DFloat (foldl fmin x l)); ("max", DFloat (foldl fmax x l));
             ("avg", DFloat (fdiv (float_sum x l) (float_of_int n)))]
  end.

(** [s.replace("Z", "+00:00")] *)
Definition with_offset (s : string) : string :=
  of_chars (flat_map (fun c => if Ascii.eqb c "Z" then chars "+00:00" else [c]) (chars s)).

Definition _seconds_between (start end_ : value) : res (option float) :=
  match start, end_ with
  | VStr start, VStr end_ =>
      match fromisoformat (with_offset start), fromisoformat (with_offset end_) with
      | Some (aware, t), Some (aware', t') =>
          raise_if (negb (Bool.eqb aware aware')) (TypeError "can't subtract offset-naive and offset-aware datetimes") ;;
          mret (Some (if (t' - t <? 0)%Z then fzero else ratio (t' - t) 1000000))
      | _, _ => mret None
      end
  | _, _ => mret None
  end.

Definition FINISHED : list string := ["succeeded"; "failed"; "cancelled"; "dead_lettered"].

(** What the loop over the queue items collects. *)
Record QueueTally := mkQueueTally {
  qt_depth : odict (odict Z);
  qt_retry : Z;
  qt_latency : list float;
  qt_duration : list float;
}.

Definition item_tenant (item : odict value) : string := or_unknown (dget "tenant_id" VNone item).
Definition item_status (item : odict value) : string := or_unknown (dget "status" VNone item).

(** [depth[tenant][status] += 1] *)
Definition deepen (depth : odict (odict Z)) (item : odict value) : odict (odict Z) :=
  let nested := default [] (od_get (item_tenant item) depth) in
  od_set (item_tenant item) (increment nested (item_status item)) depth.

Definition tally_item (acc : QueueTally) (item : odict value) : res QueueTally :=
  let status := item_status item in
  claim_latency ← _seconds_between (dget "created_at" VNone item) (dget "claimed_at" VNone item);
  duration ← _seconds_between (dget "claimed_at" VNone item) (dget "updated_at" VNone item);
  mret (mkQueueTally (deepen (qt_depth acc) item) (qt_retry acc + Z.b2z (String.eqb status "retry_scheduled"))
    (qt_latency acc ++ match claim_latency with Some x => [x] | None => [] end)
    (qt_duration acc ++ match duration with Some x => if str_in status FINISHED then [x] else [] | None => [] end)).

(** [dict(sorted(d.items()))] *)
Definition sorted_items {V} (d : odict V) : odict V := py_sorted (fun x y => str_leb x.1 y.1) d.
Definition counts_doc (d : odict Z) : doc := DDict (map (fun kv => (kv.1, DInt kv.2)) d).
Definition _plain_nested_counts (values : odict (odict Z)) : doc :=
  DDict (map (fun kv => (kv.1, counts_doc (sorted_items kv.2))) (sorted_items values)).

Definition unreleased (claim : odict value) : bool := is_none (dget "released_at" VNone claim).

Definition runtime_queue_metrics (recordset : odict value) : res (odict doc) :=
  let records := mapping_of (dget "records" (VDict []) recordset) in
  let run_claims := _records records "runtime_run_claims" in
  let dead_letters := _records records "runtime_dead_letters" in
  let events := _records records "runtime_events" in
  tally ← foldM tally_item (mkQueueTally [] 0 [] []) (_records records "runtime_queue_items");
  let active_claims_by_tenant := foldl increment [] (map item_tenant (List.filter unreleased run_claims)) in
  let dead_letters_by_tenant := foldl increment [] (map item_tenant dead_letters) in
  let event_counts := _event_counts events in
  mret [("queue_depth_by_tenant_status", _plain_nested_counts (qt_depth tally));
        ("active_claims_by_tenant", counts_doc (sorted_items active_claims_by_tenant));
        ("dead_letters_by_tenant", counts_doc (sorted_items dead_letters_by_tenant));
        ("retry_scheduled_count", DInt (qt_retry tally));
        ("quota_exhaustion_count", DInt (default 0%Z (od_get "quota_exhausted" event_counts)));
        ("policy_denial_count", DInt (default 0%Z (od_get "policy_denied" event_counts)));
        ("claim_latency_seconds", _distribution (qt_latency tally));
        ("run_duration_seconds", _distribution (qt_duration tally))].

End metrics.

Example compensated_sum : map (fun l => repr_float (float_sum fzero l))
  [[ratio 1 10; ratio 2 10; ratio 3 10]; repeat (ratio 1 10) 10] = ["0.6"; "1.0"].
Proof. vm_compute. reflexivity. Qed.

(** ** What the metrics count *)

Definition occurrences (k : string) (l : list string) : Z := Z.of_nat (length (List.filter (String.eqb k) l)).

Lemma increment_get k k' d : default 0%Z (od_get k (increment d k')) = (default 0 (od_get k d) + Z.b2z (String.eqb k k'))%Z.
Proof.
  unfold increment. rewrite od_get_set. destruct (String.eqb_spec k k') as [->|]; cbn; lia.
Qed.

Lemma occurrences_cons k x l : occurrences k (x :: l) = (Z.b2z (String.eqb k x) + occurrences k l)%Z.
Proof. unfold occurrences. cbn. destruct (String.eqb k x); cbn [length Z.b2z]; lia. Qed.

Lemma increments_get k l d : default 0%Z (od_get k (foldl increment d l)) = (default 0 (od_get k d) + occurrences k l)%Z.
Proof.
  revert d. induction l as [|x l IH]; intros d; cbn [foldl]; [by rewrite Z.add_0_r|].
  rewrite IH, increment_get, occurrences_cons. lia.
Qed.

Lemma increments_NoDup l d : NoDup (od_keys d) -> NoDup (od_keys (foldl increment d l)).
Proof. revert d. induction l as [|x l IH]; intros d H; [done|]. cbn. apply IH. by apply od_set_NoDup. Qed.

Lemma sorted_items_get {V} k (d : odict V) : NoDup (od_keys d) -> od_get k (sorted_items d) = od_get k d.
Proof.
  intros Hn. unfold sorted_items. set (le := fun x y : string * V => str_leb x.1 y.1).
  assert (Hn' : NoDup (od_keys (py_sorted le d))) by (unfold od_keys; by rewrite py_sorted_perm).
  destruct (od_get k d) as [v|] eqn:E.
  - apply od_get_NoDup; [done|]. apply py_sorted_In. by apply od_get_In.
  - apply od_get_None. apply od_get_None in E. intros H. apply E. unfold od_keys in *.
    apply in_map_iff in H as (x & <- & Hx%py_sorted_In). by apply in_map.
Qed.

Definition int_at (k : string) (v : doc) : Z := match get k (fields v) with DInt z => z | _ => 0%Z end.

Lemma od_get_map_snd {V W} (f : V -> W) k (d : odict V) : od_get k (map (fun kv => (kv.1, f kv.2)) d) = option_map f (od_get k d).
Proof. induction d as [|[k' v] d IH]; cbn; [done|]. by destruct (String.eqb k k'). Qed.

Lemma counts_doc_at k d : NoDup (od_keys d) -> int_at k (counts_doc (sorted_items d)) = default 0%Z (od_get k d).
Proof.
  intros Hn. unfold int_at, counts_doc, get, get_or. cbn. rewrite od_get_map_snd, sorted_items_get by done. by destruct (od_get k d).
Qed.

(** The nested counts, and that no key of either level is twice there. *)
Definition depth_at (t st : string) (depth : odict (odict Z)) : Z := default 0%Z (od_get st (default [] (od_get t depth))).
Definition depth_ok (depth : odict (odict Z)) : Prop :=
  NoDup (od_keys depth) /\ forall t nested, od_get t depth = Some nested -> NoDup (od_keys nested).

Definition is_at (t st : string) (item : odict value) : bool := String.eqb t (item_tenant item) && String.eqb st (item_status item).
Definition items_at (t st : string) (items : list (odict value)) : Z := Z.of_nat (length (List.filter (is_at t st) items)).

Lemma deepen_spec t st depth item : depth_ok depth -> depth_ok (deepen depth item) /\
  depth_at t st (deepen depth item) = (depth_at t st depth + Z.b2z (is_at t st item))%Z.
Proof.
  intros [H1 H2]. unfold deepen, depth_at, is_at. split; [split|].
  - by apply od_set_NoDup.
  - intros t' nested. rewrite od_get_set. destruct (String.eqb_spec t' (item_tenant item)) as [->|_]; [|apply H2].
    intros [= <-]. apply od_set_NoDup. destruct (od_get (item_tenant item) depth) as [d|] eqn:E; [by apply H2 in E|constructor].
  - rewrite od_get_set. destruct (String.eqb_spec t (item_tenant item)) as [->|_]; [|cbn; lia]. cbn [default andb].
    apply increment_get.
Qed.

Lemma tally_items fromisoformat items acc acc' : foldM (tally_item fromisoformat) acc items = Ok acc' -> depth_ok (qt_depth acc) ->
  depth_ok (qt_depth acc') /\ forall t st, depth_at t st (qt_depth acc') = (depth_at t st (qt_depth acc) + items_at t st items)%Z.
Proof.
  revert acc. induction items as [|item items IH]; intros acc H Hok.
  - injection H as <-. split; [done|]. intros t st. unfold items_at. cbn. lia.
  - cbn [foldM] in H. apply bind_Ok in H as (acc1 & H1 & H). unfold tally_item in H1.
    apply bind_Ok in H1 as (l & _ & (d & _ & [= <-])%bind_Ok). apply IH in H as [Hok' Hd].
    + split; [done|]. intros t st. rewrite Hd. destruct (deepen_spec t st (qt_depth acc) item Hok) as [_ E]. cbn [qt_depth].
      rewrite E. unfold items_at. cbn [List.filter]. destruct (is_at t st item); cbn [Z.b2z length]; lia.
    + cbn. by apply (deepen_spec "" "" _ item).
Qed.

Lemma plain_counts_at t st depth : depth_ok depth ->
  int_at st (get t (fields (_plain_nested_counts depth))) = depth_at t st depth.
Proof.
  intros [H1 H2]. unfold _plain_nested_counts, depth_at, get at 1, get_or. cbn [fields].
  rewrite (od_get_map_snd (fun nested => counts_doc (sorted_items nested))), sorted_items_get by done.
  destruct (od_get t depth) as [nested|] eqn:E; [|done]. cbn.
  apply counts_doc_at. by apply (H2 t).
Qed.

(** The items of a recordset are the rows of the store. *)
Lemma records_rows version env s :
  let records := mapping_of (dget "records" (VDict []) (as_runtime_plane_recordset version env s)) in
  _records records "runtime_queue_items" = od_values (runtime_queue_items s) /\
  _records records "runtime_run_claims" = od_values (runtime_run_claims s).
Proof.
  assert (H : forall rows : list record, omap as_mapping (map VDict rows) = rows)
    by (intros rows; induction rows as [|x rows IH]; [done|]; change (x :: omap as_mapping (map VDict rows) = x :: rows); by rewrite IH).
  split; unfold _records; cbn; apply H.
Qed.

(** A row of the queue as the store writes it: its tenant and status are texts. *)
Definition queue_row (item : record) : Prop :=
  exists t st, dget "tenant_id" VNone item = VStr t /\ dget "status" VNone item = VStr st /\ t <> "" /\ st <> "".

Lemma or_unknown_text s : s <> "" -> or_unknown (VStr s) = s.
Proof. intros H%String.eqb_neq. unfold or_unknown, py_or. cbn. by rewrite H. Qed.

Lemma running_items t items n : Forall queue_row items -> _tenant_running_count t items = Ok n ->
  n = (items_at t "claiming" items + items_at t "running" items)%Z.
Proof.
  unfold _tenant_running_count, count. intros Hrows (r & Hr & [= <-])%bind_Ok. unfold items_at. revert r Hr.
  induction Hrows as [|item items (t' & st & Ht & Hst & Hne & Hnes) _ IH]; intros r Hr; [by injection Hr as <-|].
  cbn [filterM] in Hr. apply bind_Ok in Hr as (b & Hb & Hr). apply bind_Ok in Hr as (r' & Hr' & [= <-]).
  specialize (IH _ Hr'). cbn [List.filter]. unfold is_at, item_tenant, item_status in *.
  rewrite Ht, Hst, !or_unknown_text by done. unfold dget in Ht, Hst. unfold tenant_running, status_in, ditem in Hb.
  destruct (od_get "tenant_id" item) as [v|]; [|done]. subst v. cbn [mbind result_bind] in Hb.
  destruct (od_get "status" item) as [v|]; [|done]. subst v.
  assert (Eb : b = String.eqb t t' && (String.eqb "claiming" st || String.eqb "running" st)).
  { cbn in Hb. rewrite (String.eqb_sym t' t) in Hb. destruct (String.eqb t t'); [|by injection Hb as <-].
    cbn in Hb. injection Hb as <-. unfold str_in, RUNNING. cbn. rewrite orb_false_r.
    by rewrite (String.eqb_sym st "claiming"), (String.eqb_sym st "running"). }
  subst b. destruct (String.eqb t t'); cbn [andb]; [|exact IH].
  destruct (String.eqb_spec "claiming" st) as [<-|]; [cbn; cbn in IH; lia|].
  destruct (String.eqb_spec "running" st) as [<-|]; cbn [orb length]; lia.
Qed.

(** The metrics agree with the store they are taken from: the depth for a
    tenant and a status is the number of its queue items, the active claims of
    a tenant are its claims that were not released, and the depths of the
    running statuses add up to the count that admits a tenant's next claim. *)
Theorem metrics_agree_with_store fromisoformat version env s m :
  runtime_queue_metrics fromisoformat (as_runtime_plane_recordset version env s) = Ok m ->
  let depth t st := int_at st (get t (fields (get "queue_depth_by_tenant_status" m))) in
  let items := od_values (runtime_queue_items s) in
  (forall t st, depth t st = items_at t st items) /\
  (forall t, int_at t (get "active_claims_by_tenant" m) =
     occurrences t (map item_tenant (List.filter unreleased (od_values (runtime_run_claims s))))) /\
  (Forall queue_row items -> forall t n, _tenant_running_count t items = Ok n -> (depth t "claiming" + depth t "running")%Z = n).
Proof.
  unfold runtime_queue_metrics. destruct (records_rows version env s) as [Hq Hc]. cbn zeta in Hq, Hc. rewrite Hq, Hc.
  intros (tally & Htally & [= <-])%bind_Ok. apply tally_items in Htally as [Hok Hd]; [|split; [constructor|done]].
  cbn zeta. assert (Hdepth : forall t st, int_at st (get t (fields (_plain_nested_counts (qt_depth tally))))
    = items_at t st (od_values (runtime_queue_items s))) by (intros t st; by rewrite plain_counts_at, Hd).
  split; [exact Hdepth|]. split.
  - intros t. change (get "active_claims_by_tenant" _) with
      (counts_doc (sorted_items (foldl increment [] (map item_tenant (List.filter unreleased (od_values (runtime_run_claims s))))))).
    rewrite counts_doc_at by (apply increments_NoDup; constructor). apply increments_get.
  - intros Hrows t n Hn. apply running_items in Hn as ->; [|done].
    change (get "queue_depth_by_tenant_status" _) with (_plain_nested_counts (qt_depth tally)). by rewrite !Hdepth.
Qed.

(** ** Example *)

Definition demo_item (tenant status created claimed : string) : record :=
  [("tenant_id", VStr tenant); ("status", VStr status); ("created_at", VStr created); ("claimed_at", VStr claimed)].
Definition demo_store : store :=
  set_table Claims [("c1", [("tenant_id", VStr "acme"); ("released_at", VNone)]);
                    ("c2", [("tenant_id", VStr "acme"); ("released_at", VStr "t2")])]
    (set_table QueueItems [("q1", demo_item "acme" "running" "t0Z" "t1Z"); ("q2", demo_item "acme" "queued" "t0Z" "");
                           ("q3", demo_item "beta" "claiming" "t0Z" "t2Z")] empty_store).
(** [t0], [t1] and [t2] are a second apart. *)
Definition demo_instant (s : string) : option (bool * Z) :=
  option_map (fun t => (true, t)) (od_get s [("t0+00:00", 0%Z); ("t1+00:00", 1000000%Z); ("t2+00:00", 2000000%Z)]).

Example demo_latency :
  (m ← runtime_queue_metrics demo_instant (as_runtime_plane_recordset "v" "e" demo_store); mret (get "claim_latency_seconds" m)) =
  Ok (DDict [("count", DInt 2); ("min", DFloat (float_of_int 1)); ("max", DFloat (float_of_int 2)); ("avg", DFloat (ratio 3 2))]).
Proof. vm_compute. reflexivity. Qed.

Lemma metrics_agree_with_store_witness :
  exists m, runtime_queue_metrics demo_instant (as_runtime_plane_recordset "v" "e" demo_store) = Ok m /\
    int_at "acme" (get "active_claims_by_tenant" m) = 1%Z /\
    (int_at "claiming" (get "acme" (fields (get "queue_depth_by_tenant_status" m))) +
     int_at "running" (get "acme" (fields (get "queue_depth_by_tenant_status" m))))%Z = 1%Z.
Proof.
  destruct (runtime_queue_metrics demo_instant (as_runtime_plane_recordset "v" "e" demo_store)) as [m|] eqn:E;
    [|vm_compute in E; discriminate E].
  destruct (metrics_agree_with_store demo_instant "v" "e" demo_store m E) as (_ & H2 & H3). cbn zeta in H3.
  exists m. split; [reflexivity|]. split; [rewrite H2; vm_compute; reflexivity|]. apply H3; [|vm_compute; reflexivity].
  repeat (apply List.Forall_cons || apply List.Forall_nil); eexists _, _; repeat split; try reflexivity; discriminate.
Defined.

(** Instants with and without an offset do not subtract: one queue item that
    has both ends the metrics with a TypeError. *)
Example mixed_offsets_raise :
  runtime_queue_metrics (fun s => Some (String.eqb s "t0+00:00", 0%Z)) (as_runtime_plane_recordset "v" "e" demo_store) =
  Raise (TypeError "can't subtract offset-naive and offset-aware datetimes").
Proof. vm_compute. reflexivity. Qed.
