(* ===== verification/ModuleFiles.v ===== *)
(** * Module files

    Models how [registries/modules.py] loads modules: [_iter_json_files],
    [ModuleMetadata.from_mapping] with [_runtime_role] and [_module_tests], and
    [InMemoryModuleRegistry.from_paths]. The file system and [json.loads] are
    the class [Files]. A path is absolute, the list of its components. *)

From Stdlib Require Import SpecFloat.
From S2P Require Import Prelude PyStr PyFloat PyValue Registry Artifacts Documents.
Open Scope string_scope.
Open Scope list_scope.

(** ** Files *)

(** What the code asks of [pathlib] and [json]. The searches give the paths
    in no particular order. *)
Class Files := {
  is_file : path -> bool;
  (** [path.exists()] *)
  present : path -> bool;
  (** [path.resolve()]: symbolic links and [".."] are followed *)
  real : path -> path;
  (** [path.rglob(pattern)] and [path.glob(pattern)] *)
  rglob : string -> path -> list path;
  glob : string -> path -> list path;
  (** [path.read_text(encoding="utf-8")] *)
  read_text : path -> res string;
  (** [path.read_bytes()] *)
  read_bytes : path -> res string;
  (** [json.loads(text)] *)
  loads : string -> res doc;
}.

Fixpoint path_leb (p q : path) : bool :=
  match p, q with
  | [], _ => true
  | _ :: _, [] => false
  | x :: p', y :: q' => str_ltb x y || (String.eqb x y && path_leb p' q')
  end.

Section files.
Context `{!Files}.

Definition read_json (p : path) : res doc := text ← read_text p; loads text.

Definition _iter_json_files (p : path) : list path :=
  if is_file p then [p]
  else
    let module_files := py_sorted path_leb (rglob "module.json" p) in
    if nonempty module_files then module_files else py_sorted path_leb (rglob "*.json" p).

End files.

(** ** Reading a module *)

(** Why a module is not read: an exception, or content the records of [Registry]
    have no place for, which the source keeps as it is: something else than a
    text where a text is meant, or a score modifier without its three fields
    (noticed when it is scored). *)
Inductive unread :=
| Failed (e : exn)
| Unmodelled.

Definition or_fail {A} (m : res A) : result unread A := match m with Ok a => Ok a | Raise e => Raise (Failed e) end.

Definition text_of (v : doc) : result unread string := match v with DStr s => Ok s | _ => Raise Unmodelled end.
Definition text_at (k : string) (v : doc) : result unread string := item ← or_fail (doc_item k v); text_of item.
(** [tuple(v[k])]; of [frozenset(v[k])] it gives the items *)
Definition texts_at (k : string) (v : doc) : result unread (list string) :=
  item ← or_fail (doc_item k v);
  items ← or_fail (doc_iter item);
  mapM text_of items.
Definition set_at (k : string) (v : doc) : result unread (gset string) := texts ← texts_at k v; mret (list_to_set texts).

(** [_normalize_texts] of unchecked items *)
Definition casefold_doc (v : doc) : res string :=
  match v with DStr s => Ok (casefold s) | _ => Raise (AttributeError "object has no attribute 'casefold'") end.
Definition normalized_at (k : string) (v : doc) : result unread (gset string) :=
  item ← or_fail (doc_item k v);
  items ← or_fail (doc_iter item);
  texts ← or_fail (mapM casefold_doc items);
  mret (list_to_set texts).

Definition modifier_of (v : doc) : result unread ScoreModifier :=
  match v with
  | DDict d =>
      match get "signal" d, as_num (get "weight" d), get "reason" d with
      | DStr s, Some n, DStr r => w ← or_fail (to_float n); mret (mkScoreModifier s w r)
      | _, _, _ => Raise Unmodelled
      end
  | _ => Raise Unmodelled
  end.

Definition _runtime_role (module : odict doc) : option string :=
  let role := get "runtime_role" module in
  match role with
  | DNull =>
      match get "runtime_roles" module with
      | DDict runtime_roles =>
          match get "default" runtime_roles with DNull => None | v => Some (doc_str v) end
      | _ => None
      end
  | _ => Some (doc_str role)
  end.

Definition _module_tests (module : odict doc) : list string :=
  match get_or "tests" (DList []) module with
  | DDict tests =>
      flat_map (fun field => match get_or field (DList []) tests with DList values => map doc_str values | _ => [] end)
        ["contract"; "runtime"; "fixtures"]
  | DList tests => map doc_str tests
  | _ => []
  end.

(** [v.get(k, default)] *)
Definition get_from (k : string) (default v : doc) : res doc :=
  match v with DDict d => Ok (get_or k default d) | _ => Raise (AttributeError "object has no attribute 'get'") end.

Definition from_mapping (module : doc) : result unread ModuleMetadata :=
  task_signals ← or_fail (doc_item "task_signals" module);
  selection ← or_fail (doc_item "selection" module);
  name ← text_at "name" module;
  version ← text_at "version" module;
  kind ← text_at "kind" module;
  description ← text_at "description" module;
  let runtime_role := _runtime_role (fields module) in
  capability_class ← text_at "capability_class" module;
  domain_tags ← set_at "domain_tags" module;
  task_types ← set_at "task_types" task_signals;
  risk_levels ← set_at "risk_levels" task_signals;
  task_domains ← set_at "domains" task_signals;
  required_inputs ← set_at "required_inputs" task_signals;
  phrases ← normalized_at "phrases" task_signals;
  negative_phrases ← normalized_at "negative_phrases" task_signals;
  triggers ← normalized_at "triggers" module;
  inputs ← set_at "inputs" module;
  outputs ← set_at "outputs" module;
  required_tools ← texts_at "required_tools" module;
  optional_tools ← texts_at "optional_tools" module;
  knowledge_scopes ← texts_at "knowledge_scopes" module;
  data_scopes ← texts_at "data_scopes" module;
  policies ← texts_at "policies" module;
  validators ← texts_at "validators" module;
  mode ← or_fail (get_from "mode" (DStr "direct") selection);
  base_score ← or_fail (v ← get_from "base_score" (DFloat fzero) selection; doc_float v);
  modifiers ← or_fail (v ← get_from "score_modifiers" (DList []) selection; doc_iter v);
  score_modifiers ← mapM modifier_of modifiers;
  requires_all_policies ← or_fail (doc_item "requires_all_policies" selection);
  mret (mkModuleMetadata name version kind description runtime_role capability_class domain_tags task_types risk_levels
    task_domains required_inputs phrases negative_phrases triggers inputs outputs required_tools optional_tools
    knowledge_scopes data_scopes policies validators (doc_str mode) base_score score_modifiers
    (doc_truthy requires_all_policies) (list_to_set (_module_tests (fields module)))).

Definition from_paths `{!Files} (paths : list path) : result unread registry :=
  modules ← mapM (fun module_path => parsed ← or_fail (read_json module_path); from_mapping parsed)
              (flat_map _iter_json_files paths);
  or_fail (new_registry modules).

(** ** A module its schema accepts is read

    [conforms] states what reading needs of schemas/module.schema.json. *)

Definition is_doc_text (v : doc) : bool := match v with DStr _ => true | _ => false end.
Definition text_list (v : doc) : bool := match v with DList l => forallb is_doc_text l | _ => false end.

(** [^[0-9]+\.[0-9]+\.[0-9]+$]: the end may be before a final line break. *)
Definition digits (s : string) : bool := nonempty (chars s) && forallb is_digit (chars s).
Definition semver_text (s : string) : bool :=
  match split_on "." s with
  | [major; minor; patch] =>
      digits major && digits minor
      && digits (match reverse (chars patch) with
                 | "010"%char :: r => of_chars (reverse r)
                 | _ => patch
                 end)
  | _ => false
  end.

(** A number between -1 and 1, which is always a float. *)
Definition small_number (v : doc) : bool :=
  match v with DInt z => (Z.abs z <=? 1)%Z | DFloat _ => true | _ => false end.

Definition modifier_conforms (v : doc) : bool :=
  match v with
  | DDict d => is_doc_text (get "signal" d) && small_number (get "weight" d) && is_doc_text (get "reason" d)
  | _ => false
  end.

Definition TEXT_FIELDS : list string := ["name"; "kind"; "description"; "capability_class"].
Definition REFERENCE_NAMES : list string :=
  ["required_tools"; "optional_tools"; "knowledge_scopes"; "data_scopes"; "policies"; "validators"].
Definition LIST_FIELDS : list string := ["domain_tags"; "triggers"; "inputs"; "outputs"] ++ REFERENCE_NAMES.
Definition SIGNAL_FIELDS : list string :=
  ["task_types"; "risk_levels"; "domains"; "required_inputs"; "phrases"; "negative_phrases"].

Definition conforms (module : odict doc) : bool :=
  forallb (fun k => is_doc_text (get k module)) TEXT_FIELDS
  && forallb (fun k => text_list (get k module)) LIST_FIELDS
  && match get "version" module with DStr v => semver_text v | _ => false end
  && match get "task_signals" module with
     | DDict task_signals => forallb (fun k => text_list (get k task_signals)) SIGNAL_FIELDS
     | _ => false
     end
  && match get "selection" module with
     | DDict selection =>
         od_mem "requires_all_policies" selection
         && (negb (od_mem "base_score" selection) || small_number (get "base_score" selection))
         && match get_or "score_modifiers" (DList []) selection with
            | DList l => forallb modifier_conforms l
            | _ => false
            end
     | _ => false
     end.

Lemma get_item k d v : get k d = v -> v <> DNull -> doc_item k (DDict d) = Ok v.
Proof. unfold get, get_or. cbn. unfold ditem. by destruct (od_get k d) as [x|]; intros <-. Qed.

Lemma is_doc_text_Some v : is_doc_text v = true -> exists s, v = DStr s.
Proof. destruct v; try done. eauto. Qed.

Lemma text_list_Some v : text_list v = true -> exists l, v = texts l.
Proof.
  destruct v as [| | | | |l|]; try done. cbn. intros H. enough (exists ts, l = map DStr ts) as [ts ->] by (by exists ts).
  induction l as [|x l IH]; [by exists []|]. cbn in H. apply andb_true_iff in H as [Hx H].
  apply is_doc_text_Some in Hx as [s ->]. destruct (IH H) as [ts ->]. by exists (s :: ts).
Qed.

Lemma text_at_get k d s : get k d = DStr s -> text_at k (DDict d) = Ok s.
Proof. intros H. unfold text_at. by rewrite (get_item _ _ _ H). Qed.

Lemma texts_at_get k d l : get k d = texts l -> texts_at k (DDict d) = Ok l.
Proof.
  intros H. unfold texts_at. rewrite (get_item _ _ _ H) by done. cbn.
  rewrite (mapM_all_Ok text_of doc_str); [by rewrite map_map, map_id|]. intros x (s & <- & _)%in_map_iff. done.
Qed.

Lemma normalized_at_get k d l : get k d = texts l -> normalized_at k (DDict d) = Ok (list_to_set (map casefold l)).
Proof.
  intros H. unfold normalized_at. rewrite (get_item _ _ _ H) by done. cbn.
  rewrite (mapM_all_Ok casefold_doc (fun v => casefold (doc_str v))); [cbn; by rewrite map_map|].
  intros x (s & <- & _)%in_map_iff. done.
Qed.

Lemma digit_not_space c : is_digit c = true -> is_space c = false.
Proof. by destruct c as [[] [] [] [] [] [] [] []]. Qed.

Lemma drop_spaces_digits l k : forallb is_digit l = true -> l <> [] -> drop_chars is_space (l ++ k) = l ++ k.
Proof. destruct l as [|c l]; [done|]. cbn. intros [Hc _]%andb_true_iff _. by rewrite digit_not_space. Qed.

Lemma strip_digits l k : forallb is_digit l = true -> l <> [] -> k = [] \/ k = ["010"%char] ->
  strip_chars is_space (l ++ k) = l.
Proof.
  intros Hl Hn Hk. unfold strip_chars. rewrite drop_spaces_digits by done.
  assert (Hr : forallb is_digit (reverse l) = true).
  { apply forallb_forall. intros c Hc. rewrite forallb_forall in Hl. apply Hl. apply list_elem_of_In, elem_of_reverse.
    by apply list_elem_of_In. }
  assert (Hrn : reverse l <> []) by (by intros E%(f_equal reverse); rewrite reverse_involutive in E).
  assert (E : drop_chars is_space (reverse (l ++ k)) = reverse l).
  { rewrite reverse_app. destruct Hk as [->| ->]; [|change (drop_chars is_space (reverse l) = reverse l)];
      cbn; rewrite <- (app_nil_r (reverse l)) at 1; by rewrite drop_spaces_digits, app_nil_r. }
  by rewrite E, reverse_involutive.
Qed.

Lemma digits_value_Some l acc prev : forallb is_digit l = true -> prev = true \/ l <> [] ->
  exists z, digits_value acc prev l = Some z.
Proof.
  revert acc prev. induction l as [|c l IH]; intros acc prev H Hp; cbn in *.
  - destruct Hp as [->|]; [eauto|done].
  - apply andb_true_iff in H as [-> H]. apply IH; auto.
Qed.

Lemma int_of_digits l k : forallb is_digit l = true -> l <> [] -> k = [] \/ k = ["010"%char] ->
  exists z, int_of (of_chars (l ++ k)) = Ok z.
Proof.
  intros Hl Hn Hk. unfold int_of, int_of_str. rewrite chars_of_chars, strip_digits by done.
  destruct (digits_value_Some l 0%Z false Hl) as [z Hz]; [by right|].
  destruct l as [|c l]; [done|]. cbn in Hl. apply andb_true_iff in Hl as [Hc _]. exists z.
  destruct c as [[] [] [] [] [] [] [] []]; try done; by rewrite Hz.
Qed.

Lemma digits_int_of s : digits s = true -> exists z, int_of s = Ok z.
Proof.
  unfold digits. intros [Hn H]%andb_true_iff. destruct (int_of_digits (chars s) [] H) as [z Hz]; [by destruct (chars s)|by left|].
  rewrite app_nil_r, of_chars_chars in Hz. eauto.
Qed.

(** A version of the schema's form has a key. *)
Lemma semver_text_key v : semver_text v = true -> exists k, _semver_key v = Ok k.
Proof.
  unfold semver_text, _semver_key. destruct (split_on "." v) as [|a [|b [|c [|]]]]; try done.
  intros [[[za Ha]%digits_int_of [zb Hb]%digits_int_of]%andb_true_iff Hc]%andb_true_iff. rewrite Ha. cbn. rewrite Hb. cbn.
  enough (exists zc, int_of c = Ok zc) as [zc ->] by (by eexists).
  destruct (reverse (chars c)) as [|x r] eqn:E; [by apply digits_int_of|].
  destruct (decide (x = "010"%char)) as [->|Hx].
  - unfold digits in Hc. rewrite chars_of_chars in Hc. apply andb_true_iff in Hc as [Hn H].
    apply (f_equal reverse) in E. rewrite reverse_involutive, reverse_cons in E.
    destruct (int_of_digits (reverse r) ["010"%char] H) as [z Hz]; [by destruct (reverse r)|by right|].
    rewrite <- E, of_chars_chars in Hz. eauto.
  - apply digits_int_of. by destruct x as [[] [] [] [] [] [] [] []].
Qed.

Lemma small_number_float v : small_number v = true -> exists n f, as_num v = Some n /\ to_float n = Ok f.
Proof.
  destruct v as [| |z|f| | |]; try done; [|by exists (NFloat f), f]. cbn. intros Hz%Z.leb_le.
  exists (NInt z), (float_of_int z). split; [done|]. cbn.
  assert (z = -1 \/ z = 0 \/ z = 1)%Z as [->|[->| ->]] by lia; done.
Qed.

Lemma modifier_of_conforms v : modifier_conforms v = true -> exists s, modifier_of v = Ok s.
Proof.
  destruct v as [| | | | | |d]; try done. cbn.
  intros [[[s ->]%is_doc_text_Some (n & f & -> & Hf)%small_number_float]%andb_true_iff [r ->]%is_doc_text_Some]%andb_true_iff.
  rewrite Hf. by eexists.
Qed.

(** What a module holds of the file it is read from. *)
Record described (d : odict doc) (m : ModuleMetadata) : Prop := {
  ds_name : get "name" d = DStr (name m);
  ds_version : get "version" d = DStr (version m);
  ds_kind : get "kind" d = DStr (kind m);
  ds_references fieldname getter k : In (fieldname, getter, k) MODULE_REFERENCE_KINDS -> get fieldname d = texts (getter m);
  ds_semver : exists key, _semver_key (version m) = Ok key;
}.

Lemma base_score_float d : negb (od_mem "base_score" d) || small_number (get "base_score" d) = true ->
  exists f, doc_float (get_or "base_score" (DFloat fzero) d) = Ok f.
Proof.
  unfold od_mem, get, get_or. destruct (od_get "base_score" d) as [v|]; cbn; [|by exists fzero].
  intros (n & f & Hn & Hf)%small_number_float. exists f. destruct v; try done; injection Hn as <-; exact Hf.
Qed.

Ltac field_text H k d s :=
  let E := fresh "E" in
  destruct (is_doc_text_Some (get k d)) as [s E]; [apply (forallb_In _ _ k H); cbn; tauto|];
  rewrite (text_at_get _ _ _ E); cbn [mbind result_bind].
Ltac field_texts H k d l :=
  let E := fresh "E" in
  destruct (text_list_Some (get k d)) as [l E]; [apply (forallb_In _ _ k H); cbn; tauto|];
  unfold set_at; first [rewrite (texts_at_get _ _ _ E)|rewrite (normalized_at_get _ _ _ E)]; cbn [mbind result_bind].

Lemma from_mapping_conforms d : conforms d = true -> exists m, from_mapping (DDict d) = Ok m /\ described d m.
Proof.
  unfold conforms. rewrite !andb_true_iff. intros [[[[Htext Hlist] Hversion] Hsig] Hsel].
  destruct (get "version" d) as [| | | |v| |] eqn:Ev; try done.
  destruct (get "task_signals" d) as [| | | | | |ts] eqn:Ets; try done.
  destruct (get "selection" d) as [| | | | | |sel] eqn:Esel; try done.
  apply andb_true_iff in Hsel as [[Hpol [f Hf]%base_score_float]%andb_true_iff Hmods].
  destruct (get_or "score_modifiers" (DList []) sel) as [| | | | |mods|] eqn:Emods; try done.
  destruct (mapM_exists modifier_of mods) as [sms Hsms].
  { intros x Hx. apply modifier_of_conforms. by apply (forallb_In _ _ _ Hmods). }
  assert (Hitem : exists p, doc_item "requires_all_policies" (DDict sel) = Ok p).
  { unfold od_mem in Hpol. cbn. unfold ditem. destruct (od_get _ sel); [eauto|done]. }
  destruct Hitem as [p Hp]. unfold from_mapping.
  rewrite (get_item _ _ _ Ets), (get_item _ _ _ Esel) by done. cbn [or_fail mbind result_bind].
  field_text Htext "name" d n. rewrite (text_at_get _ _ _ Ev). cbn [mbind result_bind].
  field_text Htext "kind" d k. field_text Htext "description" d desc. cbn zeta. field_text Htext "capability_class" d cap.
  field_texts Hlist "domain_tags" d l1. field_texts Hsig "task_types" ts l2. field_texts Hsig "risk_levels" ts l3.
  field_texts Hsig "domains" ts l4. field_texts Hsig "required_inputs" ts l5. field_texts Hsig "phrases" ts l6.
  field_texts Hsig "negative_phrases" ts l7. field_texts Hlist "triggers" d l8. field_texts Hlist "inputs" d l9.
  field_texts Hlist "outputs" d l10. field_texts Hlist "required_tools" d r1. field_texts Hlist "optional_tools" d r2.
  field_texts Hlist "knowledge_scopes" d r3. field_texts Hlist "data_scopes" d r4. field_texts Hlist "policies" d r5.
  field_texts Hlist "validators" d r6. cbn [get_from or_fail mbind result_bind]. rewrite Hf. cbn [or_fail mbind result_bind].
  rewrite Emods. cbn [doc_iter or_fail mbind result_bind]. rewrite Hsms. cbn [mbind result_bind]. rewrite Hp.
  cbn [or_fail mbind result_bind]. eexists. split; [done|]. split; cbn; [done..| |by apply semver_text_key].
  intros fieldname getter kd Hin. repeat (destruct Hin as [[= <- <- _]|Hin]; [done|]). destruct Hin.
Qed.

(** ** Modules with distinct names and versions make a registry *)

(** Every list of [by_name] holds modules of [ms] only. *)
Definition drawn_from (ms : list ModuleMetadata) (r : Registry.registry) : Prop :=
  forall e, In e (by_name r) -> incl e.2 ms.

Lemma register_fresh ms seen r m : by_name_version r = map (fun m => (module_key m, m)) seen -> drawn_from ms r ->
  In m ms -> ~ In (module_key m) (map module_key seen) -> exists r', register r m = Ok r' /\
  by_name_version r' = map (fun m => (module_key m, m)) (seen ++ [m]) /\ drawn_from ms r'.
Proof.
  intros Hv Hd Hm Hnew. unfold register. rewrite Hv.
  change (Registry.name m, version m) with (module_key m). apply find_version_None in Hnew as ->. eexists. split; [done|]. split; [by rewrite map_app|].
  intros e He. cbn in He. apply od_set_In in He as [->|He]; [|by apply Hd]. cbn.
  destruct (od_get (Registry.name m) (by_name r)) as [l|] eqn:E.
  - apply od_get_In, Hd in E. intros x [Hx|[<-|[]]]%in_app_iff; [by apply E|done].
  - by intros x [<-|[]].
Qed.

Lemma register_all_total ms seen todo r : by_name_version r = map (fun m => (module_key m, m)) seen -> drawn_from ms r ->
  incl todo ms -> NoDup (map module_key (seen ++ todo)) -> exists r', foldM register r todo = Ok r' /\ drawn_from ms r'.
Proof.
  revert seen r. induction todo as [|m todo IH]; intros seen r Hv Hd Hin Hn; [by exists r|].
  assert (Hnew : ~ In (module_key m) (map module_key seen)).
  { rewrite map_app in Hn. apply NoDup_app in Hn as (_ & Hn & _). intros H.
    apply (Hn (module_key m)); [by apply list_elem_of_In|]. rewrite map_cons. by apply list_elem_of_here. }
  destruct (register_fresh ms seen r m Hv Hd) as (r' & Hr & Hv' & Hd'); [by apply Hin; left|done|].
  cbn [foldM]. rewrite Hr. cbn. eapply IH; [exact Hv'|exact Hd'|intros x Hx; apply Hin; by right|].
  by rewrite <- app_assoc.
Qed.

Lemma new_registry_total ms : NoDup (map module_key ms) -> (forall m, In m ms -> exists key, _semver_key (version m) = Ok key) ->
  exists r, new_registry ms = Ok r.
Proof.
  intros Hn Hs. unfold new_registry.
  destruct (register_all_total ms [] ms (mkRegistry [] [])) as (r & -> & Hd);
    [done|by intros e []|apply incl_refl|exact Hn|]. cbn.
  destruct (mapM_exists sort_versions (by_name r)) as [l Hl].
  { intros e He. unfold sort_versions, sort_by.
    destruct (mapM_exists (fun item => _semver_key (version item)) e.2) as [keys ->]; [|by eexists].
    intros x Hx. apply Hs. by apply (Hd e). }
  rewrite Hl. by eexists.
Qed.
