(* ===== verification/RegistryValidation.v ===== *)
(** * Validation of the registry's module files

    Models [scripts/registry/validate_registry.py]. The JSON schema validator
    is third-party: [check_schema] and [iter_errors] stand for it. The order in
    which a set of texts is iterated is [set_order]. Parsing the command line
    is left out: [main] takes the parsed arguments. *)

From Stdlib Require Import SpecFloat.
From S2P Require Import Prelude PyStr PyFloat PyValue Registry Artifacts Documents ModuleFiles.
Open Scope string_scope.
Open Scope list_scope.

Definition KIND_DIRS : odict string :=
  [("data_scope", "data-scopes"); ("instruction", "instructions"); ("knowledge_scope", "knowledge-scopes");
   ("memory_scope", "memory-scopes"); ("policy", "policies"); ("skill", "skills"); ("tool", "tools");
   ("validator", "validators")].

Definition REFERENCE_FIELDS : odict string :=
  [("required_tools", "tool"); ("optional_tools", "tool"); ("knowledge_scopes", "knowledge_scope");
   ("data_scopes", "data_scope"); ("policies", "policy"); ("validators", "validator")].

Definition SKILL_SELECTION_METADATA_MARKERS : list string :=
  ["base_score"; "score_modifiers"; "task_signals"; "required_tools:"; "optional_tools:"; "knowledge_scopes:";
   "data_scopes:"; "policies:"; "validators:"].

Definition SHARED_TEMPLATE_GUIDANCE_LINES : list string :=
  ["Use this skill only when it is selected through a sealed SCAS runtime profile. " +:+
   "Do not use this SKILL.md as selection metadata; selection comes from module.json " +:+
   "and Control Plane composition records.";
   "Preserve the profile-selected tools, policies, validators, and scopes declared in " +:+ "module.json.";
   "Keep outputs aligned with the module validators and runtime skill handler coverage.";
   "Fail closed when required inputs, tools, handler bindings, or validators are missing."].

(** A loaded module file. *)
Abbreviation loaded := (path * odict doc)%type.

Definition newline : string := String "010"%char EmptyString.

(** [str(v) for v in d.get(k, [])], as the members of a set *)
Definition strings_at (k : string) (d : odict doc) : res (list string) :=
  items ← doc_iter (get_or k (DList []) d);
  mret (map doc_str items).

Section validation.
Context `{!Files} (REPO_ROOT : path).
Context (check_schema : odict doc -> res unit) (iter_errors : odict doc -> odict doc -> list (string * string)).
Context (set_order : list string -> list string).

(** ** Paths *)

Definition as_posix (p : path) : string := "/" +:+ join "/" p.

Definition _repo_path (p : path) : string :=
  match strip_root REPO_ROOT (real p) with
  | Some [] => "."
  | Some relative => join "/" relative
  | None => as_posix p
  end.

(** [base / text] *)
Definition under (base : path) (text : string) : path :=
  if startswith "/" text then path_parts text else base ++ path_parts text.

(** [p.relative_to(base)] *)
Definition relative_to (p base : path) : res path :=
  match strip_root base p with
  | Some relative => Ok relative
  | None => Raise (ValueError (repr_str (as_posix p) +:+ " is not in the subpath of " +:+ repr_str (as_posix base)))
  end.

Definition _resolve_inside_repo (p : path) : res path :=
  let resolved := real p in
  _ ← relative_to resolved (real REPO_ROOT);
  mret resolved.

Definition path_name (p : path) : string := default "" (last p).

(** ** Loading *)

Definition _load_json (p : path) : res (odict doc) :=
  parsed ← read_json p;
  match parsed with
  | DDict d => Ok d
  | _ => Raise (RegistryValidationError (_repo_path p +:+ " must contain a JSON object"))
  end.

Definition _load_modules (registry_root : path) : res (list loaded) :=
  modules ← mapM (fun module_path => d ← _load_json module_path; mret (module_path, d))
              (py_sorted path_leb (rglob "module.json" registry_root));
  raise_if (negb (nonempty modules))
    (RegistryValidationError ("no module.json files found under " +:+ _repo_path registry_root)) ;;
  mret modules.

(** ** Phase 3a: one module *)

Definition _schema_errors (schema : odict doc) (m : loaded) : list string :=
  map (fun error => _repo_path m.1 +:+ " " +:+ error.1 +:+ ": " +:+ error.2)
    (py_sorted (fun x y => str_leb x.1 y.1) (iter_errors schema m.2)).

Definition error_if (b : bool) (p : path) (message : string) : list string :=
  if b then [_repo_path p +:+ " " +:+ message] else [].

Definition is_doc_list (v : doc) : bool := match v with DList _ => true | _ => false end.

Definition _has_skill_specific_guidance (body : string) : bool :=
  let content_lines := flat_map (fun raw_line =>
    let line := strip raw_line in
    if String.eqb line "" || startswith "#" line then []
    else if startswith "- " line then [strip (String.substring 2 (String.length line) line)] else [line])
    (splitlines body) in
  existsb (fun line => negb (str_in line SHARED_TEMPLATE_GUIDANCE_LINES)) content_lines.

Definition frontmatter_values (frontmatter : string) : odict string :=
  foldl (fun values line =>
    match split_once ":" line with
    | Some (key, v) => od_set (strip key) (strip v) values
    | None => values
    end) [] (splitlines frontmatter).

Definition _skill_entrypoint_errors (skill_path : path) (module entrypoint : odict doc) : res (list string) :=
  text ← read_text skill_path;
  if negb (startswith ("---" +:+ newline) text) then mret [_repo_path skill_path +:+ " missing YAML frontmatter"]
  else
    match String.index 4 (newline +:+ "---") text with
    | None => mret [_repo_path skill_path +:+ " has unterminated YAML frontmatter"]
    | Some end_ =>
        let values := frontmatter_values (String.substring 4 (end_ - 4) text) in
        let body := String.substring (end_ + 4) (String.length text) text in
        let name := match od_get "name" values with Some s => DStr s | None => DNull end in
        mret (
          error_if (negb (doc_eqb name (get "name" module))) skill_path "frontmatter name must match module name"
          ++ error_if (String.eqb (default "" (od_get "description" values)) "") skill_path
               "frontmatter description is required"
          ++ flat_map (fun marker => error_if (contains marker (casefold body)) skill_path
               ("must not contain selection metadata marker: " +:+ marker)) SKILL_SELECTION_METADATA_MARKERS
          ++ error_if (is_text "skill_specific" (get "guidance" entrypoint) && negb (_has_skill_specific_guidance body))
               skill_path ("skill_specific entrypoint requires execution guidance " +:+
                           "beyond the shared sealed-profile template"))
    end.

Definition schema_ref_errors (m : loaded) (schema_path : path) : list string :=
  match get "$schema" m.2 with
  | DStr schema_ref =>
      error_if (negb (bool_decide (real (under (removelast m.1) schema_ref) = real schema_path))) m.1
        ("$schema must resolve to " +:+ _repo_path schema_path)
  | _ => []
  end.

Definition parent_errors (m : loaded) (registry_root : path) : res (list string) :=
  relative_module_parts ← relative_to (removelast m.1) registry_root;
  mret (match od_get (doc_str (get "kind" m.2)) KIND_DIRS with
        | Some expected_parent =>
            error_if (bool_decide (head (tail (reverse relative_module_parts)) <> Some expected_parent)) m.1
              ("must live under a registry/modules/**/" +:+ expected_parent +:+ "/ namespace")
        | None => []
        end).

Definition role_errors (m : loaded) : list string :=
  match get_or "runtime_roles" (DDict []) m.2 with
  | DDict runtime_roles =>
      match get_or "allowed" (DList []) runtime_roles with
      | DList allowed_roles =>
          error_if (negb (existsb (doc_eqb (get "default" runtime_roles)) allowed_roles)) m.1
            "runtime_roles.default must be included in allowed"
      | _ => []
      end
  | _ => []
  end.

Definition entrypoint_errors (m : loaded) : res (list string) :=
  if is_text "skill" (get "kind" m.2) then
    match get "entrypoint" m.2 with
    | DDict entrypoint =>
        match get "path" entrypoint with
        | DStr entrypoint_path =>
            let module_dir := removelast m.1 in
            let resolved := real (under module_dir entrypoint_path) in
            if negb (bool_decide (removelast resolved = real module_dir)) || negb (String.eqb (path_name resolved) "SKILL.md")
            then mret (error_if true m.1 "skill entrypoint must be local SKILL.md")
            else if negb (present resolved) then mret (error_if true m.1 "missing SKILL.md entrypoint")
            else _skill_entrypoint_errors resolved m.2 entrypoint
        | _ => mret []
        end
    | _ => mret (error_if true m.1 "skill module requires entrypoint")
    end
  else mret [].

Definition _path_values (module : odict doc) : list string :=
  match get "entrypoint" module with
  | DDict entrypoint => match get "path" entrypoint with DStr s => [s] | _ => [] end
  | _ => []
  end ++
  match get "tests" module with
  | DDict tests =>
      flat_map (fun field => match get_or field (DList []) tests with DList values => map doc_str values | _ => [] end)
        ["contract"; "fixtures"]
  | _ => []
  end.

(** One path of a module: an absolute one is reported; one that leaves the
    repository, or names nothing, raises. *)
Definition path_value_errors (m : loaded) (path_value : string) : res (list string) :=
  let absolute := mret (error_if true m.1 ("contains absolute path: " +:+ path_value)) in
  if startswith "/" path_value then absolute
  else
    match path_parts path_value with
    | [] => Raise (IndexError "tuple index out of range")
    | part :: _ =>
        if contains ":" part then absolute
        else _ ← _resolve_inside_repo (under REPO_ROOT path_value); mret []
    end.

Definition is_repo_source (source : doc) : bool :=
  match source with DDict d => is_text "repo_path" (get "type" d) | _ => false end.

Definition source_errors (p : path) (source : doc) : list string :=
  match get "ref" (fields source) with
  | DStr ref =>
      match _resolve_inside_repo (under REPO_ROOT ref) with
      | Ok resolved => error_if (negb (present resolved)) p ("source_of_truth repo_path does not exist: " +:+ ref)
      | Raise _ => error_if true p ("source_of_truth repo_path escapes repository: " +:+ ref)
      end
  | _ => []
  end.

Definition _provenance_errors (m : loaded) : res (list string) :=
  match get "provenance" m.2 with
  | DDict provenance =>
      match get_or "source_of_truth" (DList []) provenance with
      | DList source_entries =>
          let repo_sources := List.filter is_repo_source source_entries in
          environments ← strings_at "environments" m.2;
          mret (flat_map (source_errors m.1) repo_sources
                ++ error_if (str_in "prod" environments && negb (nonempty repo_sources)) m.1
                     "prod module requires repo_path source_of_truth")
      | _ => mret []
      end
  | _ => mret (error_if true m.1 "provenance is required")
  end.

(** [float(modifier.get("weight", 0)) > 0] of a mapping, or [< 0] *)
Definition weighs (sign : float -> bool) (modifier : doc) : res bool :=
  match modifier with
  | DDict d => w ← doc_float (get_or "weight" (DInt 0) d); mret (sign w)
  | _ => mret false
  end.
Definition any_modifier (sign : float -> bool) (modifiers : doc) : res bool :=
  match modifiers with DList l => anyM (weighs sign) l | _ => mret false end.

Definition direct_errors (m : loaded) (selection evidence : odict doc) : res (list string) :=
  let modifiers := get_or "score_modifiers" (DList []) selection in
  positive ← any_modifier (fun w => SFltb fzero w) modifiers;
  let negative_phrases := match get_or "task_signals" (DDict []) m.2 with
                          | DDict task_signals => get_or "negative_phrases" (DList []) task_signals
                          | _ => DList []
                          end in
  negative ← any_modifier (fun w => SFltb w fzero) modifiers;
  mret (
    error_if (negb (doc_truthy (get "positive_selection" evidence))) m.1 "direct module requires positive evidence"
    ++ error_if (negb (doc_truthy (get "negative_selection" evidence))) m.1 "direct module requires negative evidence"
    ++ error_if (is_doc_list modifiers && negb positive) m.1 "direct module requires positive scoring"
    ++ error_if (negb (doc_truthy negative_phrases) && negb negative) m.1 "direct module requires negative signal").

Definition dependency_only_errors (m : loaded) (selection evidence : odict doc) : list string :=
  error_if (od_mem "base_score" selection || od_mem "score_modifiers" selection) m.1
    "dependency_only module must not define direct scoring"
  ++ error_if (doc_truthy (get "triggers" m.2)) m.1 "dependency_only module must not define triggers"
  ++ match get_or "task_signals" (DDict []) m.2 with
     | DDict task_signals =>
         flat_map (fun field => error_if (doc_truthy (get field task_signals)) m.1
           ("dependency_only module must not define task_signals." +:+ field))
           ["task_types"; "phrases"; "required_inputs"]
     | _ => []
     end
  ++ error_if (negb (doc_truthy (get "dependency_inclusion" evidence))) m.1
       "dependency_only module requires dependency evidence"
  ++ error_if (negb (doc_truthy (get "no_direct_selection" evidence))) m.1
       "dependency_only module requires no-direct evidence".

Definition fixture_errors (p : path) (fixture_paths : list string) (entry : doc) : list string :=
  match get "fixture" (fields entry) with
  | DStr fixture =>
      error_if (negb (str_in fixture fixture_paths)) p
        ("evidence fixture is not listed in tests.fixtures: " +:+ fixture)
      ++ match _resolve_inside_repo (under REPO_ROOT fixture) with
         | Ok resolved => error_if (negb (present resolved)) p ("evidence fixture does not exist: " +:+ fixture)
         | Raise _ => error_if true p ("evidence fixture escapes repository: " +:+ fixture)
         end
  | _ => []
  end.

Definition _selection_evidence_errors (m : loaded) : res (list string) :=
  match get "selection" m.2, get "selection_evidence" m.2 with
  | DDict selection, DDict evidence =>
      let mode := get "mode" selection in
      let fixture_paths := match get_or "tests" (DDict []) m.2 with
                           | DDict tests => match get "fixtures" tests with DList l => map doc_str l | _ => [] end
                           | _ => []
                           end in
      mode_errors ←
        (if is_text "direct" mode then direct_errors m selection evidence
         else if is_text "dependency_only" mode then mret (dependency_only_errors m selection evidence)
         else mret (error_if true m.1 ("selection.mode must fail closed: " +:+ doc_str mode)));
      mret (
        error_if (is_text "active" (get "status" m.2) && negb (nonempty fixture_paths)) m.1
          "active module requires tests.fixtures"
        ++ mode_errors
        ++ flat_map (fun entries => match entries with
             | DList l => flat_map (fixture_errors m.1 fixture_paths) l
             | _ => []
             end) (od_values evidence))
  | _, _ => mret []
  end.

Definition _local_invariant_errors (m : loaded) (schema_path registry_root : path) : res (list string) :=
  parent ← parent_errors m registry_root;
  entrypoint ← entrypoint_errors m;
  paths ← mapM (path_value_errors m) (_path_values m.2);
  provenance ← _provenance_errors m;
  selection ← _selection_evidence_errors m;
  mret (schema_ref_errors m schema_path ++ parent ++ role_errors m ++ entrypoint ++ mjoin paths ++ provenance ++ selection).

(** ** Phase 3b: all modules together *)

Definition version_key (m : loaded) : string * string := (doc_str (get "name" m.2), doc_str (get "version" m.2)).
Definition kind_key (m : loaded) : string * string := (doc_str (get "name" m.2), doc_str (get "kind" m.2)).

(** The error of a module whose name and version [seen], the modules before it
    with the latest first, has. *)
Definition duplicate_error (seen : list loaded) (m : loaded) : list string :=
  match List.find (fun m' => bool_decide (version_key m' = version_key m)) seen with
  | Some m' =>
      [_repo_path m.1 +:+ " duplicates " +:+ (version_key m).1 +:+ "@" +:+ (version_key m).2 +:+ " already defined in "
       +:+ _repo_path m'.1]
  | None => []
  end.

Fixpoint duplicate_errors (seen modules : list loaded) : list string :=
  match modules with
  | [] => []
  | m :: modules' => duplicate_error seen m ++ duplicate_errors (m :: seen) modules'
  end.

Definition reference_errors (modules : list loaded) (m : loaded) : list string :=
  flat_map (fun '(field, expected_kind) =>
    match get_or field (DList []) m.2 with
    | DList values =>
        flat_map (fun target =>
          error_if (negb (existsb (fun m' => bool_decide (kind_key m' = (doc_str target, expected_kind))) modules)) m.1
            (field +:+ " references missing " +:+ expected_kind +:+ ": " +:+ doc_str target)) values
    | _ => []
    end) REFERENCE_FIELDS.

Definition _graph_errors (modules : list loaded) : list string :=
  duplicate_errors [] modules ++ flat_map (reference_errors modules) modules.

(** The errors of one module in one of its environments. *)
Definition environment_errors (env_by_name : odict (odict doc)) (environments_dir : path) (m : loaded) (env_name : string)
    : res (list string) :=
  match od_get env_name env_by_name with
  | None => mret (error_if true m.1 ("references missing environment " +:+ env_name))
  | Some config =>
      allowed_statuses ← strings_at "allowed_statuses" config;
      let status := get "status" m.2 in
      status_allowed ← in_texts status allowed_statuses;
      allowed_capabilities ← strings_at "allowed_capability_classes" config;
      let capability := get "capability_class" m.2 in
      capability_allowed ← in_texts capability allowed_capabilities;
      mret (
        error_if (negb (is_text "allowlist" (get "strategy" config))) (under environments_dir (env_name +:+ ".json"))
          "must use allowlist"
        ++ error_if (negb status_allowed) m.1 ("status " +:+ doc_str status +:+ " is not allowed in " +:+ env_name)
        ++ error_if (negb capability_allowed) m.1
             ("capability_class " +:+ doc_str capability +:+ " is not allowed in " +:+ env_name))
  end.

(** The configurations by name. *)
Definition load_environments (environments_dir : path) (environment : option string) : res (odict (odict doc)) :=
  let environment_paths :=
    match environment with
    | Some e => if String.eqb e "" then py_sorted path_leb (glob "*.json" environments_dir)
                else [under environments_dir (e +:+ ".json")]
    | None => py_sorted path_leb (glob "*.json" environments_dir)
    end in
  env_configs ← mapM _load_json (List.filter present environment_paths);
  named ← mapM (fun config => name ← ditem "name" config; mret (doc_str name, config)) env_configs;
  mret (od_of_list named).

Definition module_environment_errors (env_by_name : odict (odict doc)) (environments_dir : path) (m : loaded)
    : res (list string) :=
  module_envs ← strings_at "environments" m.2;
  errors ← mapM (environment_errors env_by_name environments_dir m) (set_order (fromkeys module_envs));
  mret (mjoin errors).

Definition _environment_errors (modules : list loaded) (environments_dir : path) (environment : option string)
    : res (list string) :=
  env_by_name ← load_environments environments_dir environment;
  errors ← mapM (module_environment_errors env_by_name environments_dir) modules;
  mret (mjoin errors).

(** ** The whole validation *)

Definition validate_registry (registry_root schema_path environments_dir : path) (phase : string)
    (environment : option string) : res (list string) :=
  modules ← _load_modules registry_root;
  schema ← _load_json schema_path;
  check_schema schema ;;
  local ← (if str_in phase ["3a"; "schema"; "all"]
           then mapM (fun m => errors ← _local_invariant_errors m schema_path registry_root;
                               mret (_schema_errors schema m ++ errors)) modules
           else mret []);
  graph ← (if str_in phase ["3b"; "graph"; "all"]
           then errors ← _environment_errors modules environments_dir environment; mret (_graph_errors modules ++ errors)
           else mret []);
  let errors := mjoin local ++ graph in
  raise_if (nonempty errors) (RegistryValidationError (join newline errors)) ;;
  mret [].

(** The exit code, and what is printed on which stream. An exception that is
    not of the classes [main] names leaves it. *)
Definition main (registry_root schema_path environments_dir : path) (phase : string) (environment : option string)
    : res (Z * (string * string)) :=
  match validate_registry registry_root schema_path environments_dir phase environment with
  | Ok _ => Ok (0%Z, ("stdout", "registry validation passed"))
  | Raise e =>
      match e with
      | OSError m | FileNotFoundError m | NotADirectoryError m | ValueError m | RegistryValidationError m =>
          Ok (1%Z, ("stderr", "error: " +:+ m))
      | _ => Raise e
      end
  end.

End validation.

(** ** What a check that reports nothing means *)

Section silent.
Context {F : Files} (REPO_ROOT : path).

Lemma no_error_if b p msg : error_if REPO_ROOT b p msg = [] <-> b = false.
Proof. by destruct b. Qed.

Lemma duplicate_errors_nil modules seen : duplicate_errors REPO_ROOT seen modules = [] ->
  NoDup (map version_key modules) /\ forall m, In m modules -> ~ In (version_key m) (map version_key seen).
Proof.
  revert seen. induction modules as [|m modules IH]; intros seen H; [split; [constructor|by intros]|].
  cbn in H. apply app_nil_iff in H as [Hm H]. apply IH in H as [Hn Hs].
  assert (Hnew : ~ In (version_key m) (map version_key seen)).
  { intros (m' & E & Hm')%in_map_iff. unfold duplicate_error in Hm.
    destruct (List.find _ seen) eqn:Ef; [done|]. apply (find_none _ _ Ef) in Hm'.
    by apply bool_decide_eq_false in Hm'. }
  split.
  - cbn. constructor; [|done]. intros (m' & E & Hm')%list_elem_of_In%in_map_iff. apply (Hs m' Hm'). left. done.
  - intros m' [<-|Hm'] Hin; [done|]. apply (Hs m' Hm'). by right.
Qed.

Lemma reference_errors_nil modules m field expected_kind values target : reference_errors REPO_ROOT modules m = [] ->
  In (field, expected_kind) REFERENCE_FIELDS -> get_or field (DList []) m.2 = DList values -> In target values ->
  exists m', In m' modules /\ kind_key m' = (doc_str target, expected_kind).
Proof.
  unfold reference_errors. intros H Hf Hv Ht. apply (proj1 (flat_map_nil _ _) H) in Hf. cbn in Hf. rewrite Hv in Hf.
  apply (proj1 (flat_map_nil _ _) Hf) in Ht. apply no_error_if, negb_false_iff, existsb_exists in Ht as (m' & Hm' & E).
  exists m'. by apply bool_decide_eq_true in E.
Qed.

Lemma graph_errors_nil modules : _graph_errors REPO_ROOT modules = [] -> NoDup (map version_key modules) /\
  forall m, In m modules -> reference_errors REPO_ROOT modules m = [].
Proof.
  unfold _graph_errors. intros [[H _]%duplicate_errors_nil Hr]%app_nil_iff. split; [done|]. by apply flat_map_nil.
Qed.

Lemma load_modules_read root modules : _load_modules REPO_ROOT root = Ok modules ->
  modules <> [] /\ Forall2 (fun p m => m.1 = p /\ read_json p = Ok (DDict m.2))
    (py_sorted path_leb (rglob "module.json" root)) modules.
Proof.
  unfold _load_modules. intros (ms & Hms & ([] & Hne%raise_if_Ok%negb_false_iff & [= ->])%bind_Ok)%bind_Ok.
  split; [by destruct modules|]. apply mapM_Ok in Hms. eapply Forall2_impl; [exact Hms|]. intros p m.
  intros (d & Hd & [= <-])%bind_Ok. split; [done|]. unfold _load_json in Hd.
  apply bind_Ok in Hd as (v & -> & Hv). destruct v; try done. by injection Hv as ->.
Qed.

End silent.

(** A validation that passes: what each of its parts found. *)
Lemma validate_registry_Ok {F : Files} REPO_ROOT check_schema iter_errors set_order root schema_path environments_dir environment out :
  validate_registry REPO_ROOT check_schema iter_errors set_order root schema_path environments_dir "all" environment = Ok out ->
  exists modules schema, _load_modules REPO_ROOT root = Ok modules /\ _load_json REPO_ROOT schema_path = Ok schema /\
    (forall m, In m modules -> iter_errors schema m.2 = [] /\ _local_invariant_errors REPO_ROOT m schema_path root = Ok []) /\
    _graph_errors REPO_ROOT modules = [] /\
    _environment_errors REPO_ROOT set_order modules environments_dir environment = Ok [].
Proof.
  unfold validate_registry. intros (modules & Hm & (schema & Hs & (_ & _ & H)%bind_Ok)%bind_Ok)%bind_Ok.
  exists modules, schema. split; [done|]. split; [done|].
  change (str_in "all" ["3a"; "schema"; "all"]) with true in H. change (str_in "all" ["3b"; "graph"; "all"]) with true in H.
  apply bind_Ok in H as (local & Hlocal & (graph & (envs & He & [= <-])%bind_Ok & H)%bind_Ok).
  apply bind_Ok in H as ([] & [Hl [Hg ->]%app_nil_iff]%raise_if_Ok%nonempty_false%app_nil_iff & _).
  split_and!; [|done..]. intros m Hin.
  assert (Hall : (r ← mapM (fun m => errors ← _local_invariant_errors REPO_ROOT m schema_path root;
    mret (_schema_errors REPO_ROOT iter_errors schema m ++ errors)) modules; mret (mjoin r)) = Ok [])
    by (rewrite Hlocal; cbn; by rewrite Hl).
  apply (proj1 (mapM_mjoin_nil _ _) Hall) in Hin. apply bind_Ok in Hin as (errors & -> & [= [Hsch ->]%app_nil_iff]).
  split; [|done]. unfold _schema_errors in Hsch. apply map_eq_nil in Hsch.
  pose proof (py_sorted_perm (fun x y : string * string => str_leb x.1 y.1) (iter_errors schema m.2)) as Hp.
  rewrite Hsch in Hp. by apply Permutation_nil in Hp.
Qed.

(** ** A registry that passes is loaded *)

Lemma references_In m ref : In ref (references m) <-> exists fieldname getter k target,
  In (fieldname, getter, k) MODULE_REFERENCE_KINDS /\ In target (getter m) /\
  ref = mkModuleReference (name m) fieldname target k.
Proof.
  unfold references. rewrite In_mjoin_map. split.
  - intros ([[f g] k] & Hk & (t & <- & Ht)%in_map_iff). eauto 8.
  - intros (f & g & k & t & Hk & Ht & ->). exists (f, g, k). split; [done|]. apply in_map_iff. by exists t.
Qed.

Lemma reference_field f g k : In (f, g, k) MODULE_REFERENCE_KINDS -> In (f, k) REFERENCE_FIELDS.
Proof. cbn. intros H. repeat (destruct H as [[= <- _ <-]|H]; [cbn; tauto|]). destruct H. Qed.

Lemma get_or_get k d default v : get k d = v -> v <> DNull -> get_or k default d = v.
Proof. unfold get, get_or. by destruct (od_get k d) as [x|]; intros <-. Qed.

Section loads.
Context {F : Files} (REPO_ROOT : path) (modules : list loaded) (ms : list ModuleMetadata).
Context (Hms : Forall2 (fun l m => described l.2 m) modules ms).
Context (Hgraph : _graph_errors REPO_ROOT modules = []).

Lemma described_keys : map module_key ms = map version_key modules.
Proof.
  clear Hgraph. induction Hms as [|l m modules' ms' Hd Hrest IH]; [done|]. rewrite !map_cons, (IH Hrest). f_equal.
  unfold version_key, module_key. by rewrite (ds_name _ _ Hd), (ds_version _ _ Hd).
Qed.

Lemma described_references m ref : In m ms -> In ref (references m) ->
  exists target, In target ms /\ name target = target_name ref /\ kind target = expected_kind ref.
Proof.
  intros Hm (f & g & k & t & Hk & Ht & ->)%references_In.
  destruct (Forall2_In_r _ _ _ _ Hms Hm) as (l & Hl & Hd).
  apply graph_errors_nil in Hgraph as [_ Hr]. pose proof (ds_references _ _ Hd f g k Hk) as Hf.
  apply (get_or_get _ _ (DList [])) in Hf; [|done].
  destruct (reference_errors_nil REPO_ROOT modules l f k (map DStr (g m)) (DStr t) (Hr l Hl)) as (l' & Hl' & E);
    [by eapply reference_field|done|by apply in_map|].
  destruct (Forall2_In_l _ _ _ _ Hms Hl') as (m' & Hm' & Hd'). exists m'. split; [done|].
  unfold kind_key in E. rewrite (ds_name _ _ Hd'), (ds_kind _ _ Hd') in E. by injection E.
Qed.

Lemma described_registry : exists r, new_registry ms = Ok r.
Proof.
  apply new_registry_total.
  - rewrite described_keys. by apply graph_errors_nil in Hgraph as [? _].
  - intros m Hm. destruct (Forall2_In_r _ _ _ _ Hms Hm) as (l & _ & Hd). apply (ds_semver _ _ Hd).
Qed.

(** Where every name has one version, the registry resolves every reference to its kind. *)
Lemma described_graph r sel : new_registry ms = Ok r -> NoDup (map name ms) ->
  (forall s, In s sel -> known r s = true) -> (forall x, reaches r sel x -> ~ tc (edge r) x x) ->
  graph_valid r sel None.
Proof.
  intros Hr Hn Hsel Hacyclic.
  assert (Hres : forall n m, resolve r n None = Ok m -> In m ms /\ name m = n).
  { intros n m Hm. pose proof (new_registry_names _ _ n Hr) as H. unfold resolve in Hm.
    destruct (named n ms) as [|m0 l0] eqn:E; [by rewrite H in Hm|]. destruct H as (m1 & l' & Hg & Hp & _).
    rewrite Hg in Hm. injection Hm as <-. apply named_In. rewrite E. apply list_elem_of_In. rewrite <- Hp. left. }
  split; [done| |by intros ? ? ? ? ctx|done]. intros x m ref _ Hm%Hres Href.
  destruct (described_references m ref (proj1 Hm) Href) as (t & Ht & Hname & Hkind).
  assert (Hk : known r (target_name ref) = true).
  { pose proof (new_registry_names _ _ (target_name ref) Hr) as H. unfold known, od_mem.
    destruct (named (target_name ref) ms) eqn:E; [|by destruct H as (? & ? & -> & _)].
    by destruct (proj1 (named_nil _ _) E t Ht). }
  destruct (new_registry_wf _ _ _ Hr Hk) as [t' Ht']. exists t'. split_and!; [done..|].
  apply Hres in Ht' as [Hin Hn']. by rewrite (NoDup_map_inj name ms t' t) by congruence.
Qed.

End loads.

(** ** A module that passes is admitted *)

(** What the admission of a module needs of the schema (schemas/module.schema.json)
    besides [conforms]: an entrypoint names a path, the sources of truth are
    objects with a type and a reference, and the evidence lists objects with a
    fixture. *)
Definition entry_of (keys : list string) (entry : doc) : bool :=
  match entry with DDict d => forallb (fun k => is_doc_text (get k d)) keys | _ => false end.
Definition entries_of (keys : list string) (entries : doc) : bool :=
  match entries with DList l => forallb (entry_of keys) l | _ => false end.
Definition governed (module : odict doc) : bool :=
  match get "entrypoint" module with DDict entrypoint => is_doc_text (get "path" entrypoint) | _ => true end
  && match get "provenance" module with
     | DDict provenance => entries_of ["type"; "ref"] (get "source_of_truth" provenance)
     | _ => false
     end
  && match get "selection_evidence" module with
     | DDict evidence => forallb (fun e => entries_of ["fixture"] e.2) evidence
     | _ => false
     end.

Lemma entry_of_text keys entry k : entry_of keys entry = true -> In k keys -> exists s, get k (fields entry) = DStr s.
Proof.
  destruct entry; try done. cbn [entry_of fields]. rewrite forallb_forall. intros H Hk.
  by apply is_doc_text_Some, H.
Qed.

Lemma entries_of_list keys v : entries_of keys v = true ->
  exists l, v = DList l /\ forall entry k, In entry l -> In k keys -> exists s, get k (fields entry) = DStr s.
Proof.
  destruct v as [| | | | |l|]; try done. intros H. exists l. split; [done|]. intros entry k He Hk.
  eapply entry_of_text, Hk. by eapply forallb_forall in H.
Qed.

Section admission.
Context {F : Files} (REPO_ROOT : path) (set_order : list string -> list string).
Context (Horder : forall l s, In s l -> In s (set_order l)).

(** The path a text names exists, as a file or as a directory, and lies in the repository. *)
Definition in_repo (text : string) : Prop :=
  let p := real (under REPO_ROOT text) in
  present p = true /\ exists rest, p = real REPO_ROOT ++ rest.

(** The configuration lets the module in. *)
Record allows (config module : odict doc) : Prop := {
  al_strategy : get "strategy" config = DStr "allowlist";
  al_status : exists statuses status, strings_at "allowed_statuses" config = Ok statuses /\
    get "status" module = DStr status /\ In status statuses;
  al_capability : exists capabilities capability, strings_at "allowed_capability_classes" config = Ok capabilities /\
    get "capability_class" module = DStr capability /\ In capability capabilities;
}.

(** The skill's text carries its module's name and nothing that steers its selection. *)
Record skill_text (module : odict doc) (text : string) (end_ : nat) : Prop := {
  sk_end : String.index 4 (newline +:+ "---") text = Some end_;
  sk_name : exists name, od_get "name" (frontmatter_values (String.substring 4 (end_ - 4) text)) = Some name /\
    get "name" module = DStr name;
  sk_markers marker : In marker SKILL_SELECTION_METADATA_MARKERS ->
    contains marker (casefold (String.substring (end_ + 4) (String.length text) text)) = false;
}.

Definition fixtures_of (module : odict doc) : list string :=
  match get_or "tests" (DDict []) module with
  | DDict tests => match get "fixtures" tests with DList l => map doc_str l | _ => [] end
  | _ => []
  end.

(** A module selected directly: with evidence either way, and a score modifier of positive weight. *)
Definition directly_selected (selection evidence : odict doc) : Prop :=
  get "mode" selection = DStr "direct" /\
  doc_truthy (get "positive_selection" evidence) = true /\ doc_truthy (get "negative_selection" evidence) = true /\
  exists modifiers d w, get_or "score_modifiers" (DList []) selection = DList modifiers /\ In (DDict d) modifiers /\
    doc_float (get_or "weight" (DInt 0) d) = Ok w /\ SFltb fzero w = true.

(** A module selected only as the dependency of another: without scores and triggers. *)
Definition selected_as_dependency (module selection evidence : odict doc) : Prop :=
  get "mode" selection = DStr "dependency_only" /\ od_mem "base_score" selection = false /\
  od_mem "score_modifiers" selection = false /\ doc_truthy (get "triggers" module) = false /\
  doc_truthy (get "dependency_inclusion" evidence) = true /\ doc_truthy (get "no_direct_selection" evidence) = true.

Record admitted (env_by_name : odict (odict doc)) (m : loaded) : Prop := {
  ad_environments : exists envs, strings_at "environments" m.2 = Ok envs /\
    forall e, In e envs -> exists config, od_get e env_by_name = Some config /\ allows config m.2;
  ad_sources : exists provenance entries, get "provenance" m.2 = DDict provenance /\
    get "source_of_truth" provenance = DList entries /\
    (forall source, In source entries -> is_repo_source source = true ->
       exists ref, get "ref" (fields source) = DStr ref /\ in_repo ref) /\
    (forall envs, strings_at "environments" m.2 = Ok envs -> In "prod" envs ->
       exists source, In source entries /\ is_repo_source source = true);
  ad_skill : get "kind" m.2 = DStr "skill" ->
    exists entrypoint text content end_, get "entrypoint" m.2 = DDict entrypoint /\ get "path" entrypoint = DStr text /\
      let p := real (under (removelast m.1) text) in
      removelast p = real (removelast m.1) /\ path_name p = "SKILL.md" /\ present p = true /\
      read_text p = Ok content /\ skill_text m.2 content end_;
  ad_selection : exists selection evidence,
    get "selection" m.2 = DDict selection /\ get "selection_evidence" m.2 = DDict evidence /\
    (directly_selected selection evidence \/ selected_as_dependency m.2 selection evidence) /\
    (forall key v, In (key, v) evidence -> exists entries, v = DList entries /\
       forall entry, In entry entries -> exists fixture, get "fixture" (fields entry) = DStr fixture /\
         In fixture (fixtures_of m.2) /\ in_repo fixture);
  ad_active : get "status" m.2 = DStr "active" -> fixtures_of m.2 <> [];
}.

Lemma resolve_inside_Ok p q : _resolve_inside_repo REPO_ROOT p = Ok q -> q = real p /\ exists rest, q = real REPO_ROOT ++ rest.
Proof.
  unfold _resolve_inside_repo, relative_to. intros (x & Hx & [= <-])%bind_Ok. split; [done|].
  destruct (strip_root _ _) as [rest|] eqn:E; [|done]. exists rest. by apply strip_root_Some.
Qed.

(** The two checks that a text names a file of the repository. *)
Lemma in_repo_checked p text missing escapes :
  match _resolve_inside_repo REPO_ROOT (under REPO_ROOT text) with
  | Ok resolved => error_if REPO_ROOT (negb (present resolved)) p missing
  | Raise _ => error_if REPO_ROOT true p escapes
  end = [] -> in_repo text.
Proof.
  destruct (_resolve_inside_repo _ _) as [q|] eqn:E; [|done]. intros H%no_error_if%negb_false_iff.
  apply resolve_inside_Ok in E as [-> E]. done.
Qed.

Lemma environment_admits env_by_name environments_dir m e :
  environment_errors REPO_ROOT env_by_name environments_dir m e = Ok [] ->
  exists config, od_get e env_by_name = Some config /\ allows config m.2.
Proof.
  unfold environment_errors. destruct (od_get e env_by_name) as [config|]; [|done]. intros H. exists config. split; [done|].
  apply bind_Ok in H as (statuses & Hs & (sb & Hsb & (caps & Hc & (cb & Hcb & [= H])%bind_Ok)%bind_Ok)%bind_Ok).
  apply app_nil_iff in H as [H1%no_error_if%negb_false_iff [H2%no_error_if%negb_false_iff
    H3%no_error_if%negb_false_iff]%app_nil_iff]. subst sb cb.
  apply in_texts_true in Hsb as (s & ? & ?), Hcb as (c & ? & ?). split; [by apply is_text_eq|eauto..].
Qed.

Lemma module_environments env_by_name environments_dir m :
  module_environment_errors REPO_ROOT set_order env_by_name environments_dir m = Ok [] ->
  exists envs, strings_at "environments" m.2 = Ok envs /\
    forall e, In e envs -> exists config, od_get e env_by_name = Some config /\ allows config m.2.
Proof.
  unfold module_environment_errors. intros (envs & He & H)%bind_Ok. exists envs. split; [exact He|]. intros e Hin.
  eapply environment_admits, (proj1 (mapM_mjoin_nil _ _) H). by apply Horder, fromkeys_In.
Qed.

Lemma get_or_of_get k (d : odict doc) v default : get k d = v -> v <> DNull -> get_or k default d = v.
Proof. unfold get, get_or. by destruct (od_get k d); intros <-. Qed.

Lemma provenance_admits m : _provenance_errors REPO_ROOT m = Ok [] -> governed m.2 = true ->
  exists provenance entries, get "provenance" m.2 = DDict provenance /\
    get "source_of_truth" provenance = DList entries /\
    (forall source, In source entries -> is_repo_source source = true ->
       exists ref, get "ref" (fields source) = DStr ref /\ in_repo ref) /\
    (forall envs, strings_at "environments" m.2 = Ok envs -> In "prod" envs ->
       exists source, In source entries /\ is_repo_source source = true).
Proof.
  intros H [[_ Hg]%andb_true_iff _]%andb_true_iff. unfold _provenance_errors in H.
  destruct (get "provenance" m.2) as [| | | | | |provenance]; try done.
  apply entries_of_list in Hg as (entries & He & Href). exists provenance, entries. split; [done|]. split; [exact He|].
  rewrite (get_or_of_get _ _ _ _ He) in H by done.
  apply bind_Ok in H as (envs & Henvs & [= [Hs Hp%no_error_if]%app_nil_iff]). split.
  - intros source Hin Hrepo. destruct (Href source "ref" Hin) as [ref Er]; [by right; left|]. exists ref. split; [done|].
    pose proof (proj1 (flat_map_nil _ _) Hs source) as Hc. unfold source_errors in Hc. rewrite Er in Hc.
    eapply in_repo_checked, Hc. by apply filter_In.
  - intros envs' Henvs' Hprod%str_in_In. rewrite Henvs in Henvs'. injection Henvs' as <-. rewrite Hprod in Hp. cbn in Hp.
    apply negb_false_iff in Hp. destruct (List.filter is_repo_source entries) as [|source l] eqn:E; [done|].
    exists source. apply filter_In. rewrite E. by left.
Qed.

Lemma skill_entrypoint_admits p module entrypoint n : _skill_entrypoint_errors REPO_ROOT p module entrypoint = Ok [] ->
  get "name" module = DStr n -> exists content end_, read_text p = Ok content /\ skill_text module content end_.
Proof.
  unfold _skill_entrypoint_errors. intros (content & Hc & H)%bind_Ok Hn. rewrite Hn in H.
  destruct (negb _); [done|]. destruct (String.index _ _ _) as [end_|] eqn:Eend; [|done]. apply Ok_inj in H.
  apply app_nil_iff in H as [Hname%no_error_if%negb_false_iff [_ [Hmarkers _]%app_nil_iff]%app_nil_iff].
  exists content, end_. split; [done|]. split; [done| |].
  - exists n. split; [|done]. destruct (od_get "name" _) as [s|]; [|done]. by apply String.eqb_eq in Hname as ->.
  - intros marker Hm. apply (proj1 (flat_map_nil _ _) Hmarkers) in Hm. by apply no_error_if in Hm.
Qed.

Lemma entrypoint_admits m n : entrypoint_errors REPO_ROOT m = Ok [] -> governed m.2 = true -> get "name" m.2 = DStr n ->
  get "kind" m.2 = DStr "skill" ->
  exists entrypoint text content end_, get "entrypoint" m.2 = DDict entrypoint /\ get "path" entrypoint = DStr text /\
    let p := real (under (removelast m.1) text) in
    removelast p = real (removelast m.1) /\ path_name p = "SKILL.md" /\ present p = true /\
    read_text p = Ok content /\ skill_text m.2 content end_.
Proof.
  intros H [[Hg _]%andb_true_iff _]%andb_true_iff Hn Hk. unfold entrypoint_errors in H. rewrite Hk in H. cbn in H.
  destruct (get "entrypoint" m.2) as [| | | | | |entrypoint]; try done.
  apply is_doc_text_Some in Hg as [text Hp]. rewrite Hp in H.
  destruct (_ || _) eqn:Eloc; [done|]. apply orb_false_iff in Eloc as [El%negb_false_iff%bool_decide_eq_true
    En%negb_false_iff%String.eqb_eq].
  destruct (present _) eqn:Epr; [|done]. destruct (skill_entrypoint_admits _ _ _ n H Hn) as (content & end_ & ? & ?).
  by exists entrypoint, text, content, end_.
Qed.

Lemma direct_admits m selection evidence modifiers : direct_errors REPO_ROOT m selection evidence = Ok [] ->
  get "mode" selection = DStr "direct" -> get_or "score_modifiers" (DList []) selection = DList modifiers ->
  directly_selected selection evidence.
Proof.
  unfold direct_errors. intros (positive & Hpos & (negative & _ & [= H])%bind_Ok)%bind_Ok Hmode Hm.
  apply app_nil_iff in H as [H1%no_error_if%negb_false_iff [H2%no_error_if%negb_false_iff
    [H3%no_error_if _]%app_nil_iff]%app_nil_iff]. split_and!; [done..|]. rewrite Hm in *.
  apply negb_false_iff in H3. subst positive. apply anyM_true in Hpos as (x & Hx & Hw).
  destruct x as [| | | | | |d]; try done. cbn in Hw. apply bind_Ok in Hw as (w & Hw & [= Hlt]). by exists modifiers, d, w.
Qed.

Lemma dependency_only_admits m selection evidence : dependency_only_errors REPO_ROOT m selection evidence = [] ->
  get "mode" selection = DStr "dependency_only" -> selected_as_dependency m.2 selection evidence.
Proof.
  unfold dependency_only_errors. intros [[H1 H2]%no_error_if%orb_false_iff [H3%no_error_if
    [_ [H4%no_error_if%negb_false_iff H5%no_error_if%negb_false_iff]%app_nil_iff]%app_nil_iff]%app_nil_iff]%app_nil_iff.
  done.
Qed.

Lemma conforms_selection module : conforms module = true ->
  exists selection modifiers, get "selection" module = DDict selection /\
    get_or "score_modifiers" (DList []) selection = DList modifiers.
Proof.
  unfold conforms. rewrite !andb_true_iff. intros [_ H]. destruct (get "selection" module) as [| | | | | |selection]; try done.
  rewrite !andb_true_iff in H. destruct H as [_ H]. destruct (get_or _ _ selection) as [| | | | |modifiers|] eqn:E; try done.
  by exists selection, modifiers.
Qed.

Lemma fixture_admits p fixtures entry fixture : fixture_errors REPO_ROOT p fixtures entry = [] ->
  get "fixture" (fields entry) = DStr fixture -> In fixture fixtures /\ in_repo fixture.
Proof.
  unfold fixture_errors. intros H E. rewrite E in H.
  apply app_nil_iff in H as [H%no_error_if%negb_false_iff%str_in_In Hr]. split; [done|].
  by apply in_repo_checked in Hr.
Qed.

Lemma selection_admits m : _selection_evidence_errors REPO_ROOT m = Ok [] -> conforms m.2 = true -> governed m.2 = true ->
  (get "status" m.2 = DStr "active" -> fixtures_of m.2 <> []) /\
  exists selection evidence, get "selection" m.2 = DDict selection /\ get "selection_evidence" m.2 = DDict evidence /\
    (directly_selected selection evidence \/ selected_as_dependency m.2 selection evidence) /\
    (forall key v, In (key, v) evidence -> exists entries, v = DList entries /\
       forall entry, In entry entries -> exists fixture, get "fixture" (fields entry) = DStr fixture /\
         In fixture (fixtures_of m.2) /\ in_repo fixture).
Proof.
  intros H (selection & modifiers & Hs & Hm)%conforms_selection [_ Hg]%andb_true_iff. unfold _selection_evidence_errors in H.
  destruct (get "selection_evidence" m.2) as [| | | | | |evidence]; try done. rewrite Hs in H. cbv zeta in H.
  fold (fixtures_of m.2) in H. apply bind_Ok in H as (mode_errors & Hmode & [= H]).
  apply app_nil_iff in H as [Ha%no_error_if [-> Hf]%app_nil_iff]. split.
  { intros Hst. rewrite Hst in Ha. cbn in Ha. by destruct (fixtures_of m.2). }
  exists selection, evidence. split_and!; [exact Hs|done| |].
  - destruct (is_text "direct" _) eqn:Ed; [apply is_text_eq in Ed; left; by apply (direct_admits m _ _ modifiers)|].
    destruct (is_text "dependency_only" _) eqn:E; [|done]. apply is_text_eq in E. injection Hmode as Hmode. right.
    by apply dependency_only_admits.
  - intros key v Hin. pose proof (proj1 (forallb_forall _ _) Hg _ Hin) as He.
    apply entries_of_list in He as (entries & E & Hfix). cbn in E. subst v. exists entries. split; [done|]. intros entry Hentry.
    destruct (Hfix entry "fixture" Hentry) as [fixture Ef]; [by left|]. exists fixture. split; [done|].
    rewrite flat_map_nil in Hf. specialize (Hf (DList entries)).
    apply (proj1 (flat_map_nil _ _)) with (x := entry) in Hf; [|by apply (in_map snd) in Hin|done].
    by apply (fixture_admits m.1 _ entry).
Qed.

Lemma module_admitted env_by_name environments_dir schema_path root m n : get "name" m.2 = DStr n ->
  conforms m.2 = true -> governed m.2 = true ->
  _local_invariant_errors REPO_ROOT m schema_path root = Ok [] ->
  module_environment_errors REPO_ROOT set_order env_by_name environments_dir m = Ok [] -> admitted env_by_name m.
Proof.
  unfold _local_invariant_errors. intros Hn Hc Hg H Henv.
  apply bind_Ok in H as (parent & _ & (entrypoint & Hpoint & (paths & _ & (prov & Hprov & (sel & Hsel & H)%bind_Ok)%bind_Ok)%bind_Ok)%bind_Ok).
  injection H as H. repeat (apply app_nil_iff in H as [? H]). subst entrypoint prov sel.
  destruct (selection_admits m Hsel Hc Hg) as [Hactive Hselection]. split; [| | |exact Hselection|exact Hactive].
  - by apply module_environments with environments_dir.
  - by apply provenance_admits.
  - by apply (entrypoint_admits m n).
Qed.

End admission.

(** ** Properties *)

Lemma loaded_described {F : Files} iter_errors (schema : odict doc) (modules : list loaded) :
  (forall m, iter_errors schema m = [] -> conforms m = true) ->
  (forall m, In m modules -> iter_errors schema m.2 = ([] : list (string * string))) ->
  exists ms, mapM (fun l : loaded => from_mapping (DDict l.2)) modules = Ok ms /\
    Forall2 (fun l m => described l.2 m) modules ms.
Proof.
  intros Hschema. induction modules as [|l modules IH]; intros H; [by exists []|].
  destruct (from_mapping_conforms l.2) as (m & Hm & Hd); [apply Hschema, H; by left|].
  destruct IH as (ms & Hms & HF); [intros; apply H; by right|]. exists (m :: ms). cbn. rewrite Hm. cbn. rewrite Hms.
  split; [done|by constructor].
Qed.

Lemma from_paths_root {F : Files} REPO_ROOT root modules ms : is_file root = false -> _load_modules REPO_ROOT root = Ok modules ->
  mapM (fun l : loaded => from_mapping (DDict l.2)) modules = Ok ms ->
  from_paths [root] = or_fail (new_registry ms) /\
  Forall2 (fun p m => exists d, read_json p = Ok (DDict d) /\ from_mapping (DDict d) = Ok m)
    (py_sorted path_leb (rglob "module.json" root)) ms.
Proof.
  intros Hdir [Hne HF]%load_modules_read Hms%mapM_Ok.
  assert (HF' : Forall2 (fun p m => exists d, read_json p = Ok (DDict d) /\ from_mapping (DDict d) = Ok m)
    (py_sorted path_leb (rglob "module.json" root)) ms).
  { clear Hne. revert ms Hms. induction HF as [|p l ps ls [_ Hp] _ IH]; intros ms Hms; inversion Hms; subst; [constructor|].
    constructor; [eauto|by apply IH]. }
  split; [|done]. unfold from_paths. cbn [flat_map]. rewrite app_nil_r. unfold _iter_json_files. rewrite Hdir.
  assert (Hfiles : nonempty (py_sorted path_leb (rglob "module.json" root)) = true)
    by (by destruct HF). cbn zeta. rewrite Hfiles.
  rewrite (proj2 (mapM_Ok _ _ ms)); [done|]. eapply Forall2_impl; [exact HF'|]. intros p m (d & Hd & Hm). by rewrite Hd.
Qed.

(** C37. A registry that passes the whole validation loads: every module file is
    read into the module it describes, the modules make a registry without
    duplicates, and each reference of each of them names a module of the kind
    the field expects. If no name has two versions, the run-time graph
    validation of a selection that depends on no cycle then reports nothing.
    The hypothesis on [iter_errors] is what the JSON schema of a module says. *)
Theorem validated_registry_loads {F : Files} REPO_ROOT check_schema iter_errors set_order root schema_path
    environments_dir environment schema out :
  _load_json REPO_ROOT schema_path = Ok schema -> (forall m, iter_errors schema m = [] -> conforms m = true) ->
  is_file root = false ->
  validate_registry REPO_ROOT check_schema iter_errors set_order root schema_path environments_dir "all" environment = Ok out ->
  exists ms r, from_paths [root] = Ok r /\ new_registry ms = Ok r /\
    Forall2 (fun p m => exists d, read_json p = Ok (DDict d) /\ from_mapping (DDict d) = Ok m)
      (py_sorted path_leb (rglob "module.json" root)) ms /\
    (forall m ref, In m ms -> In ref (references m) ->
       exists target, In target ms /\ name target = target_name ref /\ kind target = expected_kind ref) /\
    (NoDup (map name ms) -> forall sel, (forall s, In s sel -> known r s = true) ->
       (forall x, reaches r sel x -> ~ tc (edge r) x x) ->
       exists result, validate_graph r sel None = Ok result /\ errors result = []).
Proof.
  intros Hschema Hsound Hdir (modules & schema' & Hm & Hs & Hlocal & Hgraph & _)%validate_registry_Ok.
  rewrite Hschema in Hs. injection Hs as <-.
  destruct (loaded_described iter_errors schema modules Hsound) as (ms & Hms & Hd); [intros; by apply Hlocal|].
  destruct (from_paths_root _ _ _ _ Hdir Hm Hms) as [Hfrom Hread].
  destruct (described_registry _ _ _ Hd Hgraph) as [r Hr]. exists ms, r. rewrite Hfrom, Hr. split_and!; [done..| |].
  - intros m ref. by apply (described_references REPO_ROOT modules).
  - intros Hn sel Hsel Hacyclic. pose proof (described_graph _ _ _ Hd Hgraph r sel Hr Hn Hsel Hacyclic) as Hv.
    destruct (validate_graph_spec r sel None) as (result & Hrun & _ & _ & H).
    { intros n. by apply (new_registry_wf ms). }
    exists result. split; [done|by apply H].
Qed.

(** C38. Validation lets only governed modules through. Let the schema admit only
    files that conform and are [governed]. In a registry that passes, each
    environment a module names has an allowlist with the module's status and
    capability class; the repository sources of truth it names exist in the
    repository, and there is one if the module goes to production; a skill has an entrypoint, the SKILL.md beside its file,
    which bears its name and no selection metadata; a module is selected
    directly, with positive and negative evidence and some positive weight, or
    only as a dependency, without scores and triggers; the fixtures its evidence
    names exist in the repository and are among those its tests list; and an
    active module lists some. A listed fixture no evidence names need not
    exist, see [missing_fixture_passes]. *)
Theorem validated_modules_admitted {F : Files} REPO_ROOT check_schema iter_errors set_order root schema_path
    environments_dir environment schema out :
  _load_json REPO_ROOT schema_path = Ok schema ->
  (forall m, iter_errors schema m = [] -> conforms m = true /\ governed m = true) ->
  (forall l s, In s l -> In s (set_order l)) ->
  validate_registry REPO_ROOT check_schema iter_errors set_order root schema_path environments_dir "all" environment = Ok out ->
  exists modules env_by_name, _load_modules REPO_ROOT root = Ok modules /\
    load_environments REPO_ROOT environments_dir environment = Ok env_by_name /\
    forall m, In m modules -> admitted REPO_ROOT env_by_name m.
Proof.
  intros Hschema Hsound Horder (modules & schema' & Hm & Hs & Hlocal & _ & Henv)%validate_registry_Ok.
  rewrite Hschema in Hs. injection Hs as <-. unfold _environment_errors in Henv.
  apply bind_Ok in Henv as (env_by_name & Hload & Henv). exists modules, env_by_name. split_and!; [done..|].
  intros m Hin. destruct (Hlocal m Hin) as [[Hc Hg]%Hsound H]. destruct (from_mapping_conforms _ Hc) as (md & _ & Hd).
  apply (module_admitted REPO_ROOT set_order Horder env_by_name environments_dir schema_path root m (name md)); [apply Hd|done..|].
  by apply (proj1 (mapM_mjoin_nil _ _) Henv).
Qed.

(** ** A registry of three modules *)

Definition demo_root : path := ["repo"].
Definition demo_registry_root : path := ["repo"; "registry"; "modules"].
Definition demo_environments : path := ["repo"; "registry"; "environments"].
Definition demo_schema_path : path := ["repo"; "schemas"; "module.schema.json"].
Definition demo_fixture : string := "examples/registry/evidence.json".

Definition demo_evidence (keys : list string) : doc :=
  DDict (map (fun k => (k, DList [DDict [("fixture", DStr demo_fixture)]])) keys).

(** A module file of one version, with its references, selection and evidence. *)
Definition demo_module (name version kind : string) (references : odict doc) (phrases : list string) (selection : odict doc)
    (evidence : list string) : doc :=
  let none := DList [] in
  DDict ([("schema_version", DStr "0.1.0"); ("name", DStr name); ("version", DStr version); ("kind", DStr kind); ("status", DStr "active");
    ("description", DStr "text"); ("capability_class", DStr "analysis"); ("environments", texts ["prod"]);
    ("runtime_roles", DDict [("default", DStr "runtime"); ("allowed", texts ["runtime"])]);
    ("entrypoint", DDict [("type", DStr "skill_folder"); ("path", DStr "SKILL.md"); ("guidance", DStr "skill_specific")]);
    ("domain_tags", none); ("triggers", none); ("inputs", none); ("outputs", none);
    ("task_signals", DDict [("task_types", none); ("risk_levels", none); ("domains", none); ("required_inputs", none);
       ("phrases", none); ("negative_phrases", texts phrases)]);
    ("selection", DDict (("requires_all_policies", DBool true) :: selection)); ("selection_evidence", demo_evidence evidence);
    ("provenance", DDict [("source_of_truth", DList [DDict [("type", DStr "repo_path"); ("ref", DStr demo_fixture)]])]);
    ("tests", DDict [("fixtures", texts [demo_fixture])])]
    ++ map (fun k => (k, get_or k none references)) REFERENCE_NAMES).

Definition direct : odict doc :=
  [("mode", DStr "direct"); ("base_score", DFloat (ratio 2 10));
   ("score_modifiers", DList [DDict [("signal", DStr "domain:code"); ("weight", DFloat (ratio 3 10)); ("reason", DStr "r")]])].

Definition demo_skill : doc :=
  demo_module "review" "0.1.0" "skill" [("required_tools", texts ["reader"]); ("validators", texts ["checks"])] ["deploy"]
    direct ["positive_selection"; "negative_selection"].
Definition demo_support (name version kind : string) (references : odict doc) : doc :=
  demo_module name version kind references [] [("mode", DStr "dependency_only")] ["dependency_inclusion"; "no_direct_selection"].

Definition demo_skill_text : string :=
  "---" +:+ newline +:+ "name: review" +:+ newline +:+ "description: reviews" +:+ newline +:+ "---" +:+ newline
  +:+ "# Review" +:+ newline +:+ "- Read the diff first." +:+ newline.

Definition demo_files (modules : list (path * doc)) : list (path * doc) :=
  map (fun m => (demo_registry_root ++ m.1 ++ ["module.json"], m.2)) modules ++
  [(demo_registry_root ++ ["common"; "skills"; "review"; "SKILL.md"], DStr demo_skill_text);
   (demo_schema_path, DDict []); (["repo"; "examples"; "registry"; "evidence.json"], DDict []);
   (demo_environments ++ ["prod.json"],
    DDict [("name", DStr "prod"); ("strategy", DStr "allowlist"); ("allowed_statuses", texts ["active"]);
           ("allowed_capability_classes", texts ["analysis"])])].

Definition find_file (files : list (path * doc)) (p : path) : option doc :=
  option_map snd (List.find (fun f => bool_decide (f.1 = p)) files).

(** A file system without links that holds [files]; the text of a JSON file is its path. *)
Definition demo_system (files : list (path * doc)) : Files := {|
  is_file p := bool_decide (p ∈ map fst files);
  present p := bool_decide (p ∈ map fst files);
  real p := resolve_onto [] p;
  rglob pattern p := List.filter (fun q => bool_decide (strip_root p q <> None) &&
    (String.eqb pattern "*" || String.eqb (path_name q) pattern)) (map fst files);
  glob pattern p := List.filter (fun q => bool_decide (removelast q = p)) (map fst files);
  read_text p := match find_file files p with
                 | Some (DStr s) => Ok s
                 | Some _ => Ok (as_posix p)
                 | None => Raise (FileNotFoundError (as_posix p))
                 end;
  read_bytes p := Raise (OSError "unread");
  loads text := match find_file files (path_parts text) with Some v => Ok v | None => Raise (ValueError "Expecting value") end;
|}.

Definition demo_errors (schema module : odict doc) : list (string * string) :=
  if conforms module && governed module then [] else [("$", "is not valid")].

Lemma demo_errors_admit m : demo_errors [] m = [] -> conforms m = true /\ governed m = true.
Proof. unfold demo_errors. by destruct (conforms m), (governed m). Qed.
Lemma demo_errors_sound m : demo_errors [] m = [] -> conforms m = true.
Proof. intros H. by apply demo_errors_admit. Qed.

Definition demo_modules : list (path * doc) :=
  [(["tools"; "reader"], demo_support "reader" "0.1.0" "tool" []); (["common"; "skills"; "review"], demo_skill);
   (["common"; "validators"; "checks"], demo_support "checks" "0.1.0" "validator" [])].

Definition demo_validation (modules : list (path * doc)) : res (list string) :=
  @validate_registry (demo_system (demo_files modules)) demo_root (fun _ => Ok tt) demo_errors (fun l => l)
    demo_registry_root demo_schema_path demo_environments "all" None.

Definition demo_main (modules : list (path * doc)) : res (Z * (string * string)) :=
  @main (demo_system (demo_files modules)) demo_root (fun _ => Ok tt) demo_errors (fun l => l)
    demo_registry_root demo_schema_path demo_environments "all" None.

Example demo_valid : demo_validation demo_modules = Ok [].
Proof. vm_compute. reflexivity. Qed.

Example demo_missing_tool : demo_main (tail demo_modules) =
  Ok (1%Z, ("stderr", "error: registry/modules/common/skills/review/module.json required_tools references missing tool: reader")).
Proof. vm_compute. reflexivity. Qed.

Lemma validated_registry_loads_witness :
  demo_validation demo_modules = Ok [] /\
  exists ms r, @from_paths (demo_system (demo_files demo_modules)) [demo_registry_root] = Ok r /\ new_registry ms = Ok r /\
    map name ms = ["review"; "checks"; "reader"] /\
    (NoDup (map name ms) -> forall sel, (forall s, In s sel -> known r s = true) ->
       (forall x, reaches r sel x -> ~ tc (edge r) x x) ->
       exists result, validate_graph r sel None = Ok result /\ errors result = []).
Proof.
  split; [vm_compute; reflexivity|].
  destruct (@validated_registry_loads (demo_system (demo_files demo_modules)) demo_root (fun _ => Ok tt) demo_errors (fun l => l)
    demo_registry_root demo_schema_path demo_environments None [] []) as (ms & r & H1 & H2 & H3 & _ & H5);
    [vm_compute; reflexivity|exact demo_errors_sound|vm_compute; reflexivity|vm_compute; reflexivity|].
  exists ms, r. split; [exact H1|]. split; [exact H2|]. split; [|exact H5].
  vm_compute in H1. injection H1 as <-.
  apply new_registry_versions in H2 as [_ H2]. apply (f_equal (map (fun e => fst (fst e)))) in H2. rewrite map_map in H2.
  symmetry. exact H2.
Defined.

Lemma validated_modules_admitted_witness :
  exists modules env_by_name,
    @_load_modules (demo_system (demo_files demo_modules)) demo_root demo_registry_root = Ok modules /\ length modules = 3%nat /\
    forall m, In m modules -> @admitted (demo_system (demo_files demo_modules)) demo_root env_by_name m.
Proof.
  destruct (@validated_modules_admitted (demo_system (demo_files demo_modules)) demo_root (fun _ => Ok tt) demo_errors
    (fun l => l) demo_registry_root demo_schema_path demo_environments None [] []) as (modules & env_by_name & H1 & _ & H3);
    [vm_compute; reflexivity|exact demo_errors_admit|done|vm_compute; reflexivity|].
  exists modules, env_by_name. split; [exact H1|]. split; [|exact H3]. vm_compute in H1. by injection H1 as <-.
Defined.

(** ** Findings *)

(** The graph phase accepts a reference if any version of the name has the
    expected kind; the run time resolves the latest version and refuses it. *)
Definition two_kinds : list (path * doc) :=
  (["common"; "validators"; "reader"], demo_support "reader" "0.2.0" "validator" []) :: demo_modules.

Example kind_of_any_version :
  demo_validation two_kinds = Ok [] /\
  match @from_paths (demo_system (demo_files two_kinds)) [demo_registry_root] with
  | Ok r => match validate_graph r ["review"] None with Ok result => errors result | Raise _ => [] end
  | Raise _ => []
  end = ["review.required_tools references reader as tool, got validator"].
Proof. split; vm_compute; reflexivity. Qed.

(** A fixture that does not exist passes, if no evidence names it. *)
Definition missing_fixture (module : doc) : doc :=
  DDict (od_set "tests" (DDict [("fixtures", texts [demo_fixture; "examples/none.json"])]) (fields module)).

Example missing_fixture_passes :
  let modules := [(["tools"; "reader"], missing_fixture (demo_support "reader" "0.1.0" "tool" []))] in
  demo_validation modules = Ok [] /\
  @present (demo_system (demo_files modules)) (under demo_root "examples/none.json") = false.
Proof. split; vm_compute; reflexivity. Qed.

(** A path of the tests that names no component, such as [.], which the schema
    allows, ends the validator with an IndexError that [main] does not catch. *)
Definition dot_path (module : doc) : doc :=
  DDict (od_set "tests" (DDict [("contract", texts ["."]); ("fixtures", texts [demo_fixture])]) (fields module)).

Example dot_path_crashes :
  demo_main [(["tools"; "reader"], dot_path (demo_support "reader" "0.1.0" "tool" []))] =
  Raise (IndexError "tuple index out of range").
Proof. vm_compute. reflexivity. Qed.
