(* ===== verification/Lockfile.v ===== *)
(** * The registry's lockfile

    Models [scripts/registry/generate_lockfile.py]: the digest of a module's
    directory, the lockfile of an environment, and the check that a committed
    lockfile is current. SHA-256 ([sha256], of the bytes a text stands for) and
    whether bytes are UTF-8 ([is_utf8]) are parameters. A module whose kind,
    name or version is not a text is outside the model ([Unmodelled]): the source
    compares whatever it finds when it sorts. The command line is left out. *)

From Stdlib Require Import SpecFloat.
From S2P Require Import Prelude PyStr PyFloat PyValue Registry Artifacts Json Documents ModuleFiles RegistryValidation.
Open Scope string_scope.
Open Scope list_scope.

Definition LOCKFILE_VERSION : string := "0.1.0".

(** ** [json.dumps(v, indent=2, sort_keys=True)] *)

Definition json_float (f : float) : string :=
  match f with
  | S754_nan => "NaN"
  | S754_infinity s => if s then "-Infinity" else "Infinity"
  | f => repr_float f
  end.

Definition spaces (n : nat) : string := of_chars (repeat " "%char n).
(** The items of a list or an object, a line for each. *)
Definition block (opening closing : string) (level : nat) (items : list string) : string :=
  if nonempty items then
    opening +:+ newline +:+ spaces (2 * S level) +:+ join ("," +:+ newline +:+ spaces (2 * S level)) items
    +:+ newline +:+ spaces (2 * level) +:+ closing
  else opening +:+ closing.

Fixpoint dumps (level : nat) (v : doc) : string :=
  match v with
  | DNull => "null"
  | DBool b => if b then "true" else "false"
  | DInt z => zstr z
  | DFloat f => json_float f
  | DStr s => json_string s
  | DList l => block "[" "]" level (map (dumps (S level)) l)
  | DDict d =>
      block "{" "}" level (map (fun '(k, text) => json_string k +:+ ": " +:+ text)
        (py_sorted (fun a b => str_leb a.1 b.1) (map (fun '(k, x) => (k, dumps (S level) x)) d)))
  end.

Definition _json_dump (payload : odict doc) : string := dumps 0 (DDict payload) +:+ newline.

(** ** The digest of a directory *)

(** [path.suffix] *)
Definition suffix (p : path) : string :=
  match split_once_chars "." (reverse (chars (path_name p))) with
  | Some (c :: extension, _ :: _) => "." +:+ of_chars (reverse (c :: extension))
  | _ => ""
  end.

(** [replace("\r\n", "\n")] *)
Fixpoint unix_lines (l : list ascii) : list ascii :=
  match l with
  | "013"%char :: (("010"%char :: _) as l') => unix_lines l'
  | c :: l' => c :: unix_lines l'
  | [] => []
  end.

Section lockfile.
Context `{!Files} (REPO_ROOT : path) (sha256 : string -> string) (is_utf8 : string -> bool) (now : string).

Definition nul : string := String "000"%char EmptyString.

Definition _stable_file_bytes (p : path) : res string :=
  raw ← read_bytes p;
  mret (if str_in (casefold (suffix p)) [".json"; ".md"] && is_utf8 raw then of_chars (unix_lines (chars raw)) else raw).

(** [p.relative_to(module_dir).as_posix()], for a path below the directory *)
Definition relative_text (module_dir p : path) : string := join "/" (default p (strip_root module_dir p)).

Definition module_dir_files (module_dir : path) : list path :=
  py_sorted (fun p q => str_leb (relative_text module_dir p) (relative_text module_dir q))
    (List.filter is_file (rglob "*" module_dir)).

Definition framed (relative content : string) : string := relative +:+ nul +:+ content +:+ nul.

(** What the digest of a directory is taken of. *)
Definition module_dir_bytes (module_dir : path) : res string :=
  parts ← mapM (fun p => content ← _stable_file_bytes p; mret (framed (relative_text module_dir p) content))
            (module_dir_files module_dir);
  mret (join "" parts).

Definition _hash_module_dir (module_dir : path) : res string := bytes ← module_dir_bytes module_dir; mret (sha256 bytes).

(** ** The lockfile *)

Definition load_json (p : path) : res (odict doc) :=
  parsed ← read_json p;
  match parsed with
  | DDict d => Ok d
  | _ => Raise (RegistryLockfileError (_repo_path REPO_ROOT p +:+ " must contain a JSON object"))
  end.

Record LockedModule := mkLocked { lm_kind : string; lm_name : string; lm_version : string; lm_entry : odict doc }.

Definition locked_module (environment : string) (module_path : path) : result unread (option LockedModule) :=
  module ← or_fail (load_json module_path);
  included ← or_fail (text_in environment (get_or "environments" (DList []) module));
  if negb included then mret None
  else
    let module_dir := removelast module_path in
    kind ← text_at "kind" (DDict module);
    name ← text_at "name" (DDict module);
    schema_version ← or_fail (doc_item "schema_version" (DDict module));
    digest ← or_fail (_hash_module_dir module_dir);
    status ← or_fail (doc_item "status" (DDict module));
    version ← text_at "version" (DDict module);
    mret (Some (mkLocked kind name version
      [("kind", DStr kind); ("name", DStr name); ("path", DStr (_repo_path REPO_ROOT module_dir));
       ("schema_version", schema_version); ("sha256", DStr digest); ("status", status); ("version", DStr version)])).

Definition locked_leb (a b : LockedModule) : bool :=
  path_leb [lm_kind a; lm_name a; lm_version a] [lm_kind b; lm_name b; lm_version b].

Definition build_lockfile (registry_root : path) (environment : string) (generated_at : option string)
    : result unread (odict doc) :=
  let generated_at := match generated_at with Some s => if String.eqb s "" then now else s | None => now end in
  modules ← mapM (locked_module environment) (py_sorted path_leb (rglob "module.json" registry_root));
  let modules := py_sorted locked_leb (omap id modules) in
  mret [("lockfile_version", DStr LOCKFILE_VERSION); ("generated_at", DStr generated_at); ("environment", DStr environment);
        ("registry_root", DStr (_repo_path REPO_ROOT registry_root)); ("module_count", DInt (Z.of_nat (length modules)));
        ("modules", DList (map (fun m => DDict (lm_entry m)) modules))].

(** The payload, and the text written to the output path. *)
Definition write_lockfile (registry_root : path) (environment : string) : result unread (odict doc * string) :=
  payload ← build_lockfile registry_root environment None;
  mret (payload, _json_dump payload).

Definition assert_lockfile_current (output_path registry_root : path) (environment : string) : result unread (odict doc) :=
  committed ← or_fail (load_json output_path);
  expected ← build_lockfile registry_root environment (Some (doc_str (get_or "generated_at" (DStr "") committed)));
  raise_if (negb (doc_eqb (DDict committed) (DDict expected)))
    (Failed (RegistryLockfileError ("registry lockfile is stale; run " +:+
      "`python scripts/registry/generate_lockfile.py` and commit the result"))) ;;
  mret expected.

End lockfile.

(** ** The framing of a directory's files

    A NUL ends each name and each content, so the bytes determine both where
    neither holds one. *)

Definition nul_free (s : string) : Prop := ~ In "000"%char (chars s).
Definition frame (f : string * string) : string := framed f.1 f.2.

Lemma nul_split a b x y : nul_free a -> nul_free b -> a +:+ nul +:+ x = b +:+ nul +:+ y -> a = b /\ x = y.
Proof.
  unfold nul_free. revert b. induction a as [|c a IH]; intros [|c' b] Ha Hb E.
  - split; [done|]. by injection E.
  - destruct Hb. injection E as <- _. by left.
  - destruct Ha. injection E as -> _. by left.
  - injection E as <- E. destruct (IH b) as [-> ->]; [by intros H; apply Ha; right|by intros H; apply Hb; right|done..].
Qed.

Lemma join_empty_cons x l : join "" (x :: l) = x +:+ join "" l.
Proof.
  unfold join. destruct l; [|done]. induction x as [|c x IH]; [done|].
  change (String c x = String c (x +:+ "")). by f_equal.
Qed.

Lemma frame_rest f x : frame f +:+ x = f.1 +:+ nul +:+ f.2 +:+ nul +:+ x.
Proof. unfold frame, framed. by rewrite <- !app_text_assoc. Qed.

Lemma frames_inj l k : Forall (fun f => nul_free f.1 /\ nul_free f.2) l -> Forall (fun f => nul_free f.1 /\ nul_free f.2) k ->
  join "" (map frame l) = join "" (map frame k) -> l = k.
Proof.
  intros Hl. revert k. induction Hl as [|[a b] l [Ha Hb] _ IH]; intros k Hk E.
  - destruct k as [|f k]; [done|]. rewrite map_cons, join_empty_cons, frame_rest in E. by destruct f as [[|] ?].
  - destruct Hk as [|[a' b'] k [Ha' Hb'] Hk].
    + rewrite map_cons, join_empty_cons, frame_rest in E. by destruct a.
    + rewrite !map_cons, !join_empty_cons, !frame_rest in E. cbn [fst snd] in *.
      apply nul_split in E as [-> E]; [|done..]. apply nul_split in E as [-> E]; [|done..]. f_equal. by apply IH.
Qed.

(** ** What an entry of the lockfile says *)

Section entries.
Context {F : Files} (REPO_ROOT : path) (sha256 : string -> string) (is_utf8 : string -> bool) (now : string).

(** The bytes of a file up to its line ends: of a JSON or Markdown file in UTF-8
    each CRLF is an LF, of any other file the bytes stand as they are. *)
Definition up_to_line_ends (p : path) (raw : string) : string :=
  if str_in (casefold (suffix p)) [".json"; ".md"] && is_utf8 raw then of_chars (unix_lines (chars raw)) else raw.

(** The names of all the files under a directory, by name, with their bytes up to
    line ends. *)
Definition dir_contents (module_dir : path) : res (list (string * string)) :=
  mapM (fun p => raw ← read_bytes p; mret (relative_text module_dir p, up_to_line_ends p raw))
    (py_sorted (fun p q => str_leb (relative_text module_dir p) (relative_text module_dir q))
       (List.filter is_file (rglob "*" module_dir))).

Lemma dir_bytes module_dir bytes : module_dir_bytes is_utf8 module_dir = Ok bytes ->
  exists contents, dir_contents module_dir = Ok contents /\ bytes = join "" (map frame contents).
Proof.
  unfold module_dir_bytes, dir_contents. intros (parts & Hp%mapM_Ok & [= <-])%bind_Ok.
  enough (exists contents, Forall2 (fun p c => (raw ← read_bytes p;
      mret (relative_text module_dir p, up_to_line_ends p raw)) = Ok c) (module_dir_files module_dir) contents
    /\ parts = map frame contents)
    as (contents & Hc & ->) by (exists contents; split; [by apply mapM_Ok|done]).
  induction Hp as [|p part ps parts Hpart _ (cs & Hcs & ->)]; [by exists []|].
  apply bind_Ok in Hpart as (content & Hc & [= <-]). exists ((relative_text module_dir p, content) :: cs).
  apply bind_Ok in Hc as (raw & Hr & [= <-]). split; [constructor; [by rewrite Hr|done]|done].
Qed.

(** The fields of a locked module's entry. *)
Lemma locked_entry environment module_path lm : locked_module REPO_ROOT sha256 is_utf8 environment module_path = Ok (Some lm) ->
  exists bytes, module_dir_bytes is_utf8 (removelast module_path) = Ok bytes /\
    od_get "kind" (lm_entry lm) = Some (DStr (lm_kind lm)) /\ od_get "name" (lm_entry lm) = Some (DStr (lm_name lm)) /\
    od_get "version" (lm_entry lm) = Some (DStr (lm_version lm)) /\
    od_get "path" (lm_entry lm) = Some (DStr (_repo_path REPO_ROOT (removelast module_path))) /\
    od_get "sha256" (lm_entry lm) = Some (DStr (sha256 bytes)).
Proof.
  unfold locked_module. intros H. repeat (apply bind_Ok in H as (? & ? & H); try (destruct (negb _); [done|])).
  injection H as <-. cbn. match goal with H : or_fail (_hash_module_dir _ _ _) = Ok _ |- _ => rename H into Hd end.
  destruct (_hash_module_dir _ _ _) as [digest|] eqn:E; [|done]. injection Hd as <-.
  apply bind_Ok in E as (bytes & Hb & [= <-]). by exists bytes.
Qed.

(** The modules of a current lockfile are those of the committed one. *)
Lemma current_entries output root environment committed expected :
  load_json REPO_ROOT output = Ok committed -> distinct (DDict committed) = true ->
  assert_lockfile_current REPO_ROOT sha256 is_utf8 now output root environment = Ok expected ->
  exists ms entries, mapM (locked_module REPO_ROOT sha256 is_utf8 environment)
      (py_sorted path_leb (rglob "module.json" root)) = Ok ms /\
    get "modules" committed = DList entries /\ forallb distinct entries = true /\
    Forall2 (fun x lm => doc_eqb x (DDict (lm_entry lm)) = true) entries (py_sorted locked_leb (omap id ms)).
Proof.
  unfold assert_lockfile_current. intros -> Hdist. cbn. intros (e & He & H)%bind_Ok.
  apply bind_Ok in H as ([] & Heq%raise_if_Ok%negb_false_iff & _). unfold build_lockfile in He.
  apply bind_Ok in He as (ms & Hms & [= He]). exists ms.
  destruct (doc_eqb_field (DDict committed) e "modules" (DList (map (fun m => DDict (lm_entry m)) (py_sorted locked_leb (omap id ms)))))
    as (d & x & [= <-] & Hx & Hxd & Hxe); [exact Heq|exact Hdist|by rewrite <- He|].
  apply doc_eqb_list in Hxe as (entries & -> & HF). exists entries. split; [done|].
  split; [unfold get, get_or; by rewrite Hx|]. split; [exact Hxd|]. by apply Forall2_fmap_r in HF.
Qed.

Lemma entry_text x lm k s : distinct x = true -> doc_eqb x (DDict (lm_entry lm)) = true ->
  od_get k (lm_entry lm) = Some (DStr s) -> get k (fields x) = DStr s.
Proof.
  intros Hd Heq Hk. destruct (doc_eqb_field _ _ _ _ Heq Hd Hk) as (d & v & -> & Hv & _ & ->%doc_eqb_str).
  cbn. unfold get, get_or. by rewrite Hv.
Qed.

End entries.

(** Both files systems, before and after, at the committed lockfile. *)
Lemma same_entry {F1 F2 : Files} REPO_ROOT sha256 is_utf8 environment p1 p2 lm1 lm2 x : distinct x = true ->
  @locked_module F1 REPO_ROOT sha256 is_utf8 environment p1 = Ok (Some lm1) ->
  @locked_module F2 REPO_ROOT sha256 is_utf8 environment p2 = Ok (Some lm2) ->
  doc_eqb x (DDict (lm_entry lm1)) = true -> doc_eqb x (DDict (lm_entry lm2)) = true ->
  (lm_kind lm1, lm_name lm1, lm_version lm1) = (lm_kind lm2, lm_name lm2, lm_version lm2) /\
  @_repo_path F1 REPO_ROOT (removelast p1) = @_repo_path F2 REPO_ROOT (removelast p2) /\
  exists b1 b2, @module_dir_bytes F1 is_utf8 (removelast p1) = Ok b1 /\ @module_dir_bytes F2 is_utf8 (removelast p2) = Ok b2 /\
    sha256 b1 = sha256 b2.
Proof.
  intros Hx (b1 & Hb1 & K1 & N1 & V1 & P1 & S1)%locked_entry (b2 & Hb2 & K2 & N2 & V2 & P2 & S2)%locked_entry E1 E2.
  eapply (entry_text _ _ _ _ Hx) in K1, N1, V1, P1, S1; [|exact E1..].
  eapply (entry_text _ _ _ _ Hx) in K2, N2, V2, P2, S2; [|exact E2..].
  rewrite K1 in K2. rewrite N1 in N2. rewrite V1 in V2. rewrite P1 in P2. rewrite S1 in S2.
  injection K2 as ->. injection N2 as ->. injection V2 as ->. injection P2 as ->. injection S2 as E. eauto 8.
Qed.

(** ** Properties *)

(** No file below the registry's module directories has a NUL in its name or its bytes. *)
Definition framable {F : Files} (is_utf8 : string -> bool) (root : path) : Prop :=
  forall p contents, In p (rglob "module.json" root) -> dir_contents is_utf8 (removelast p) = Ok contents ->
    Forall (fun f => nul_free f.1 /\ nul_free f.2) contents.

(** C39. A lockfile pins its modules. When one committed lockfile is current for
    two states of the files, every module that is locked in the first is locked
    in the second, at the same path, with the same kind, name and version and
    with files of the same names and the same bytes, except that CRLF and LF are
    one in JSON and Markdown files, see [up_to_line_ends] and
    [demo_lock_current]; provided that no name or content holds a NUL and that
    SHA-256 does not collide on the directories compared. *)
Theorem lockfile_pins_modules {F1 F2 : Files} REPO_ROOT sha256 is_utf8 now output root environment committed e1 e2 :
  @load_json F1 REPO_ROOT output = Ok committed -> @load_json F2 REPO_ROOT output = Ok committed ->
  distinct (DDict committed) = true ->
  @framable F1 is_utf8 root -> @framable F2 is_utf8 root ->
  (forall p1 p2 b1 b2, In p1 (@rglob F1 "module.json" root) -> In p2 (@rglob F2 "module.json" root) ->
     @module_dir_bytes F1 is_utf8 (removelast p1) = Ok b1 -> @module_dir_bytes F2 is_utf8 (removelast p2) = Ok b2 ->
     sha256 b1 = sha256 b2 -> b1 = b2) ->
  @assert_lockfile_current F1 REPO_ROOT sha256 is_utf8 now output root environment = Ok e1 ->
  @assert_lockfile_current F2 REPO_ROOT sha256 is_utf8 now output root environment = Ok e2 ->
  forall p1 lm1, In p1 (@rglob F1 "module.json" root) ->
    @locked_module F1 REPO_ROOT sha256 is_utf8 environment p1 = Ok (Some lm1) ->
  exists p2 lm2 contents, In p2 (@rglob F2 "module.json" root) /\
    @locked_module F2 REPO_ROOT sha256 is_utf8 environment p2 = Ok (Some lm2) /\
    (lm_kind lm1, lm_name lm1, lm_version lm1) = (lm_kind lm2, lm_name lm2, lm_version lm2) /\
    @_repo_path F1 REPO_ROOT (removelast p1) = @_repo_path F2 REPO_ROOT (removelast p2) /\
    @dir_contents F1 is_utf8 (removelast p1) = Ok contents /\ @dir_contents F2 is_utf8 (removelast p2) = Ok contents.
Proof.
  intros L1 L2 Hdist Hc1 Hc2 Hsha A1 A2 p1 lm1 Hp1 Hlm1.
  destruct (current_entries _ _ _ _ _ _ _ _ _ L1 Hdist A1) as (ms1 & entries & M1 & G1 & Hd & HF1).
  destruct (current_entries _ _ _ _ _ _ _ _ _ L2 Hdist A2) as (ms2 & entries' & M2 & G2 & _ & HF2).
  rewrite G1 in G2. injection G2 as <-. apply mapM_Ok in M1, M2.
  assert (Hin : In lm1 (py_sorted locked_leb (omap id ms1))).
  { apply py_sorted_In, list_elem_of_In, list_elem_of_omap. exists (Some lm1). split; [|done]. apply list_elem_of_In.
    pose proof (proj2 (py_sorted_In path_leb _ _) Hp1) as Hp. destruct (Forall2_In_l _ _ _ _ M1 Hp) as (o & Ho & E). rewrite Hlm1 in E.
    by injection E as <-. }
  destruct (Forall2_In_r _ _ _ _ HF1 Hin) as (x & Hx & E1). destruct (Forall2_In_l _ _ _ _ HF2 Hx) as (lm2 & Hin2 & E2).
  apply py_sorted_In, list_elem_of_In, list_elem_of_omap in Hin2 as (o & Ho%list_elem_of_In & Hlm2).
  change (o = Some lm2) in Hlm2. subst o.
  destruct (Forall2_In_r _ _ _ _ M2 Ho) as (p2 & Hp2%py_sorted_In & Hlm2). exists p2, lm2.
  destruct (same_entry _ _ _ _ _ _ _ _ x (forallb_In _ _ _ Hd Hx) Hlm1 Hlm2 E1 E2) as (Hkey & Hpath & b1 & b2 & B1 & B2 & E).
  pose proof (Hsha _ _ _ _ Hp1 Hp2 B1 B2 E) as ->. apply dir_bytes in B1 as (c1 & D1 & ->), B2 as (c2 & D2 & Eb).
  apply frames_inj in Eb as ->; [|by eapply Hc1, D1|by eapply Hc2, D2]. by exists c2.
Qed.

(** ** A module that changes *)

(** The demo registry with [content] in the skill's text, and byte contents for the digest. *)
Definition locked_system (committed : doc) (content : string) : Files :=
  let files := (demo_root ++ ["lockfile.json"], committed) :: demo_files demo_modules in {|
  is_file p := bool_decide (p ∈ map fst files);
  present p := bool_decide (p ∈ map fst files);
  real p := resolve_onto [] p;
  rglob := @rglob (demo_system files);
  glob := @glob (demo_system files);
  read_text := @read_text (demo_system files);
  read_bytes p := Ok (if String.eqb (path_name p) "SKILL.md" then content else "{}");
  loads := @loads (demo_system files);
|}.

Definition demo_committed (content : string) : doc :=
  match @build_lockfile (locked_system DNull content) demo_root id (fun _ => true) "t" demo_registry_root "prod" None with
  | Ok d => DDict d
  | Raise _ => DNull
  end.
Definition demo_current (committed : doc) (content : string) : bool :=
  is_ok (@assert_lockfile_current (locked_system committed content) demo_root id (fun _ => true) "t"
    (demo_root ++ ["lockfile.json"]) demo_registry_root "prod").

(** A changed content makes the lockfile stale; changed line ends do not. *)
Definition unix_text : string := "a" +:+ newline +:+ "b".
Definition dos_text : string := "a" +:+ String "013"%char newline +:+ "b".
Definition demo_lock : doc := demo_committed unix_text.

Example demo_lock_current : (demo_current demo_lock unix_text, demo_current demo_lock dos_text, demo_current demo_lock "ab",
  match get "module_count" (fields demo_lock) with DInt n => n | _ => 0%Z end) = (true, true, false, 3%Z).
Proof. vm_compute. reflexivity. Qed.

Definition nul_freeb (s : string) : bool := forallb (fun c => negb (Ascii.eqb c "000"%char)) (chars s).

Lemma nul_freeb_spec s : nul_freeb s = true -> nul_free s.
Proof. unfold nul_freeb, nul_free. rewrite forallb_forall. intros H Hin. by apply H in Hin. Qed.

Lemma framable_checked {F : Files} is_utf8 root :
  forallb (fun p => match dir_contents is_utf8 (removelast p) with
                    | Ok contents => forallb (fun f => nul_freeb f.1 && nul_freeb f.2) contents
                    | Raise _ => true
                    end) (rglob "module.json" root) = true -> framable is_utf8 root.
Proof.
  intros H p contents Hp Hc. apply (forallb_In _ _ _ H) in Hp. rewrite Hc in Hp. apply Forall_forall.
  intros f Hf%list_elem_of_In. apply (forallb_In _ _ _ Hp), andb_true_iff in Hf as [H1 H2]. by split; apply nul_freeb_spec.
Qed.

Definition demo_skill_path : path := demo_registry_root ++ ["common"; "skills"; "review"; "module.json"].

Lemma lockfile_pins_modules_witness :
  exists lm1 contents, @locked_module (locked_system demo_lock unix_text) demo_root id (fun _ => true) "prod" demo_skill_path
      = Ok (Some lm1) /\ lm_name lm1 = "review" /\
    @dir_contents (locked_system demo_lock unix_text) (fun _ => true) (removelast demo_skill_path) = Ok contents /\
    exists p2 lm2, @locked_module (locked_system demo_lock dos_text) demo_root id (fun _ => true) "prod" p2 = Ok (Some lm2) /\
      lm_name lm2 = "review" /\ @dir_contents (locked_system demo_lock dos_text) (fun _ => true) (removelast p2) = Ok contents.
Proof.
  destruct (@locked_module (locked_system demo_lock unix_text) demo_root id (fun _ => true) "prod" demo_skill_path)
    as [[lm1|]|] eqn:E; [|vm_compute in E; discriminate E..].
  assert (Hname : lm_name lm1 = "review") by (vm_compute in E; injection E as <-; reflexivity).
  destruct (@assert_lockfile_current (locked_system demo_lock unix_text) demo_root id (fun _ => true) "t"
    (demo_root ++ ["lockfile.json"]) demo_registry_root "prod") as [e1|] eqn:E1; [|vm_compute in E1; discriminate E1].
  destruct (@assert_lockfile_current (locked_system demo_lock dos_text) demo_root id (fun _ => true) "t"
    (demo_root ++ ["lockfile.json"]) demo_registry_root "prod") as [e2|] eqn:E2; [|vm_compute in E2; discriminate E2].
  destruct (@lockfile_pins_modules (locked_system demo_lock unix_text) (locked_system demo_lock dos_text) demo_root id
    (fun _ => true) "t" (demo_root ++ ["lockfile.json"]) demo_registry_root "prod" (fields demo_lock) e1 e2) with
    (p1 := demo_skill_path) (lm1 := lm1) as (p2 & lm2 & contents & _ & H2 & Hk & _ & H3 & H4);
    [vm_compute; reflexivity|vm_compute; reflexivity|vm_compute; reflexivity|apply framable_checked; vm_compute; reflexivity
    |apply framable_checked; vm_compute; reflexivity|intros ? ? ? ? _ _ _ _ H; exact H|exact E1|exact E2
    |vm_compute; tauto|exact E|].
  exists lm1, contents. split; [reflexivity|]. split; [exact Hname|]. split; [exact H3|]. exists p2, lm2.
  split; [exact H2|]. split; [|exact H4]. injection Hk as _ Hn _. rewrite <- Hn. exact Hname.
Defined.

(** ** A finding: the framing is ambiguous

    A content may hold a NUL, and then one file can stand for two. *)
Definition bytes_system (files : odict string) : Files := {|
  is_file _ := true; present _ := true; real p := p;
  rglob _ p := map (fun f => p ++ [f.1]) files;
  glob _ _ := [];
  read_text _ := Ok "";
  read_bytes p := Ok (default "" (od_get (path_name p) files));
  loads _ := Ok DNull;
|}.

Example nul_collision :
  @module_dir_bytes (bytes_system [("a", "x"); ("b", "y")]) (fun _ => true) ["m"]
  = @module_dir_bytes (bytes_system [("a", "x" +:+ nul +:+ "b" +:+ nul +:+ "y")]) (fun _ => true) ["m"].
Proof. vm_compute. reflexivity. Qed.
