(* ===== verification/Seed.v ===== *)
(** * The Control Plane seed: from the registry's files to SQL

    Models [control_plane/seed.py]. The builder turns module files and tenant
    files into the rows of thirteen tables, with a generated module for every
    dependency no file defines; the generator writes one upsert per row. Module
    and tenant files are records with the fields and types their schemas
    (schemas/module.schema.json, schemas/tenant-registry.schema.json) require;
    reading a file, its digest and its path relative to the repository are left
    to the caller, who passes the files in the order of their paths. A number of
    a file is the text [str] gives it: the seed only prints it. *)

From S2P Require Import Prelude PyStr PyValue Models Artifacts Json Registry.
Open Scope string_scope.
Open Scope list_scope.

Definition DEFAULT_VERSION : string := "0.1.0".

(** ** The files *)

Record ScoreModifier := mkModifier { signal : string; weight : string; reason : string }.

Record Module_ := mkModule {
  name : string;
  version : string;
  kind : string;
  description : string;
  capability_class : string;
  domain_tags : list string;
  task_types : list string;
  risk_levels : list string;
  task_domains : list string;
  required_inputs : list string;
  phrases : list string;
  negative_phrases : list string;
  triggers : list string;
  inputs : list string;
  outputs : list string;
  required_tools : list string;
  optional_tools : list string;
  knowledge_scopes : list string;
  data_scopes : list string;
  policies : list string;
  validators : list string;
  base_score : option string;
  score_modifiers : option (list ScoreModifier);
  requires_all_policies : bool;
  tests : value;
}.

(** A loaded module file: its path in the repository, its content, its digest. *)
Record ModuleFile := mkModuleFile { repo_path : string; content : Module_; checksum : string }.

Record Hostname := mkHostname { hostname : string; purpose : string; expected_origin : option string; proxy_expected : bool }.
Record DataSource := mkDataSource {
  source_id : string; source_tenant : string; source_type : string; source_name : string;
  access_modes : list string; source_status : string; sensitivity : string;
}.
Record DataSourceGrant := mkGrant { granted_source : string; granted_modes : list string }.
Record RoleBundle := mkRole {
  role_id : string; role_tenant : string; role_name : string; role_type : string; assignable_to_users : bool;
  capability_grants : list string; data_source_grants : list DataSourceGrant;
  derived_skills : list string; derived_workflows : list string; derived_tools : list string;
  derived_policies : list string; derived_validators : list string;
}.
Record Tenant := mkTenant {
  tenant_id : string; area_id : string; display_name : string; legal_name : string; tenant_status : string;
  default_locale : string; contact_email : string; contact_phone : option string; contact_website : option string;
  area_brain_id : string; shared_promotion_allowed : bool; scope_id : string; indexes : list string;
  policy_bundle : list string; tenant_validators : list string; hostnames : list Hostname;
  data_sources : list DataSource; initial_owner : option string; role_bundles : list RoleBundle;
}.

Definition REFERENCE_FIELDS : list (string * (Module_ -> list string) * string * bool) :=
  [("required_tools", required_tools, "tool", true); ("optional_tools", optional_tools, "tool", false);
   ("knowledge_scopes", knowledge_scopes, "knowledge_scope", true); ("data_scopes", data_scopes, "data_scope", true);
   ("policies", policies, "policy", true); ("validators", validators, "validator", true)].

Definition SCOPE_KINDS : list string := ["knowledge_scope"; "data_scope"; "memory_scope"].

Definition CAPABILITY_CLASS_BY_KIND : odict string :=
  [("instruction", "instruction"); ("skill", "analysis"); ("tool", "tool_access");
   ("knowledge_scope", "knowledge_access"); ("data_scope", "data_access"); ("memory_scope", "memory_access");
   ("policy", "policy"); ("validator", "validation")].

(** ** Normalisation *)

Definition _normalize_task_type (task_type : string) : string := replace_char "_" "-" task_type.

Definition _normalize_signal (signal : string) : string :=
  if startswith "task_type:" signal then
    match split_once ":" signal with
    | Some (prefix, v) => prefix +:+ ":" +:+ _normalize_task_type v
    | None => signal
    end
  else signal.

Definition _module_tests (module : odict value) : list string :=
  match dget "tests" VNone module with
  | VDict tests =>
      mjoin (map (fun field => match dget field VNone tests with
                               | VList values => map py_str values
                               | _ => []
                               end) ["contract"; "runtime"; "fixtures"])
  | VList tests => map py_str tests
  | _ => []
  end.

Definition normal_modifier (m : ScoreModifier) : ScoreModifier := mkModifier (_normalize_signal (signal m)) (weight m) (reason m).

Definition _normalize_module (m : Module_) : Module_ :=
  mkModule (name m) (version m) (kind m) (description m) (capability_class m) (domain_tags m)
    (map _normalize_task_type (task_types m)) (risk_levels m) (task_domains m) (required_inputs m) (phrases m)
    (negative_phrases m) (triggers m) (inputs m) (outputs m) (required_tools m) (optional_tools m) (knowledge_scopes m)
    (data_scopes m) (policies m) (validators m) (base_score m)
    (Some (map normal_modifier (default [] (score_modifiers m)))) (requires_all_policies m)
    (strs (_module_tests [("tests", tests m)])).

Definition _load_module (f : ModuleFile) : ModuleFile := mkModuleFile (repo_path f) (_normalize_module (content f)) (checksum f).

(** ** Identifiers *)

Definition _module_id (name : string) : string := "mod-" +:+ name.
Definition dashed (version : string) : string := replace_char "." "-" version.
Definition _module_version_id (name version : string) : string := "mv-" +:+ name +:+ "-" +:+ dashed version.
Definition _selection_metadata_id (name version : string) : string := "msm-" +:+ name +:+ "-" +:+ dashed version.
Definition _dependency_id (source_name field dependency_name : string) : string :=
  "dep-" +:+ source_name +:+ "-" +:+ replace_char "_" "-" field +:+ "-" +:+ dependency_name.
Definition _policy_binding_id (policy_name module_name : string) : string := "pb-" +:+ policy_name +:+ "-" +:+ module_name.
Definition _scope_binding_id (scope_name principal_id : string) : string := "sb-" +:+ principal_id +:+ "-" +:+ scope_name.

Definition _slugify (value : string) : string :=
  strip_with is_dash (of_chars (sub_runs is_dash dash false
    (map (fun c => if slug_char c then c else dash) (chars (casefold value))))).

Definition _tenant_hostname_id (tenant_id hostname : string) : string := "th-" +:+ tenant_id +:+ "-" +:+ _slugify hostname.
Definition _tenant_membership_id (tenant_id principal_id : string) : string := "tm-" +:+ tenant_id +:+ "-" +:+ principal_id.
Definition _tenant_capability_grant_id (role_id capability_id : string) : string := "trcg-" +:+ role_id +:+ "-" +:+ capability_id.
Definition _tenant_data_source_grant_id (role_id data_source_id : string) : string :=
  "trdsg-" +:+ role_id +:+ "-" +:+ data_source_id.

(** ** Dependencies and generated modules *)

Record Dependency := mkDependency {
  dep_name : string; dep_kind : string; dep_task_types : gset string; dep_risk_levels : gset string; dep_domains : gset string;
}.

Definition same_dependency (n k : string) (d : Dependency) : bool := String.eqb n (dep_name d) && String.eqb k (dep_kind d).

(** [existing["task_types"].update(...)] and the other two *)
Definition touched_by (m : Module_) (d : Dependency) : Dependency :=
  mkDependency (dep_name d) (dep_kind d) (dep_task_types d ∪ list_to_set (task_types m))
    (dep_risk_levels d ∪ list_to_set (risk_levels m)) (dep_domains d ∪ list_to_set (task_domains m)).

Fixpoint add_dependency (m : Module_) (n k : string) (deps : list Dependency) : list Dependency :=
  match deps with
  | [] => [touched_by m (mkDependency n k ∅ ∅ ∅)]
  | d :: deps => if same_dependency n k d then touched_by m d :: deps else d :: add_dependency m n k deps
  end.

(** The modules a module names, with the field they are named in. *)
Definition references_of (m : Module_) : list (string * string * bool * string) :=
  mjoin (map (fun '(field, get, dependency_kind, is_required) =>
    map (fun dependency_name => (field, dependency_kind, is_required, dependency_name)) (get m)) REFERENCE_FIELDS).

Definition _module_dependencies (modules : list Module_) : list Dependency :=
  foldl (fun deps m => foldl (fun deps '(_, k, _, n) => add_dependency m n k deps) deps (references_of m)) [] modules.

Definition generated (name kind description capability_class : string) (domain_tags task_types risk_levels domains phrases : list string)
    (base_score : option string) (score_modifiers : option (list ScoreModifier)) (test : string) : Module_ :=
  mkModule name DEFAULT_VERSION kind description capability_class domain_tags task_types risk_levels domains [] phrases [] [name]
    [] [name +:+ "-output"] [] [] [] [] [] [] base_score score_modifiers false (strs [test]).

Definition defined_in (modules : list Module_) (d : Dependency) : bool :=
  existsb (fun m => same_dependency (name m) (kind m) d) modules.

Definition stub_module (d : Dependency) : res Module_ :=
  let n := dep_name d in
  let is_scope := str_in (dep_kind d) SCOPE_KINDS in
  let only_scope (s : gset string) := if is_scope then sorted_set s else [] in
  c ← ditem (dep_kind d) CAPABILITY_CLASS_BY_KIND;
  mret (generated n (dep_kind d) ("Generated " +:+ dep_kind d +:+ " module for " +:+ n +:+ ".") c
    (only_scope (dep_domains d)) (only_scope (dep_task_types d)) (only_scope (dep_risk_levels d)) (only_scope (dep_domains d))
    [n] None None (n +:+ "-seed-contract")).

Definition _stub_modules (modules : list Module_) (dependencies : list Dependency) : res (list Module_) :=
  mapM stub_module (List.filter (fun d => negb (defined_in modules d)) dependencies).

Definition _generated_scope_module (n k capability_class tenant_id : string) (task_types domains : list string) : Module_ :=
  generated n k ("Generated tenant " +:+ k +:+ " module for " +:+ n +:+ ".") capability_class
    ("tenant" :: tenant_id :: domains) task_types ["low"; "medium"; "high"] domains [n; tenant_id]
    (Some "0.5") (Some []) (n +:+ "-tenant-scope-seed-contract").

Definition by_key {A} (key : A -> string) : list A -> list A := py_sorted (fun a b => str_leb (key a) (key b)).

Definition tenant_scopes (t : Tenant) : list Module_ :=
  map (fun n => _generated_scope_module n "knowledge_scope" "knowledge_access" (tenant_id t) ["research"]
                  ["research"; "knowledge-retrieval"]) (indexes t) ++
  mjoin (map (fun s => map (fun mode =>
    _generated_scope_module (source_id s +:+ "-" +:+ mode) "data_scope" "data_access" (tenant_id t) ["research"; "task-execution"]
      ["research"; "task-execution"]) (access_modes s)) (data_sources t)).

Definition _tenant_scope_modules (tenants : list Tenant) : list Module_ := by_key name (mjoin (map tenant_scopes tenants)).

(** ** Rows *)

Inductive cell :=
| CNull
| CBool (b : bool)
| CInt (z : Z)
| CNumber (text : string)
| CText (s : string).

Abbreviation row := (odict cell).

Definition opt_text (o : option string) : cell := match o with Some s => CText s | None => CNull end.
Definition int_of_bool (b : bool) : cell := CInt (Z.b2z b).

Definition _json_array (values : list string) : string := json_text (strs (sorted_strs values)).

(** [json.dumps(modifiers, separators=(",", ":"), sort_keys=True)] *)
Definition modifier_json (m : ScoreModifier) : string :=
  "{" +:+ json_string "reason" +:+ ":" +:+ json_string (reason m) +:+ "," +:+ json_string "signal" +:+ ":"
  +:+ json_string (signal m) +:+ "," +:+ json_string "weight" +:+ ":" +:+ weight m +:+ "}".
Definition modifiers_json (l : list ScoreModifier) : string := "[" +:+ join "," (map modifier_json l) +:+ "]".

Definition _module_record (m : Module_) (created_at : string) : row :=
  [("id", CText (_module_id (name m))); ("name", CText (name m)); ("kind", CText (kind m)); ("status", CText "active");
   ("current_version_id", CText (_module_version_id (name m) (version m))); ("created_at", CText created_at);
   ("updated_at", CText created_at)].

Definition _module_version_record (m : Module_) (source_uri checksum created_at : string) : row :=
  [("id", CText (_module_version_id (name m) (version m))); ("module_id", CText (_module_id (name m)));
   ("version", CText (version m)); ("source_uri", CText source_uri); ("checksum", CText checksum);
   ("selection_base_score", CNumber (default "0.0" (base_score m))); ("created_at", CText created_at)].

Definition _selection_metadata_record (m : Module_) : row :=
  [("id", CText (_selection_metadata_id (name m) (version m)));
   ("module_version_id", CText (_module_version_id (name m) (version m))); ("description", CText (description m));
   ("capability_class", CText (capability_class m)); ("domain_tags_json", CText (_json_array (domain_tags m)));
   ("task_types_json", CText (_json_array (task_types m))); ("risk_levels_json", CText (_json_array (risk_levels m)));
   ("task_domains_json", CText (_json_array (task_domains m))); ("required_inputs_json", CText (_json_array (required_inputs m)));
   ("phrases_json", CText (_json_array (phrases m))); ("negative_phrases_json", CText (_json_array (negative_phrases m)));
   ("triggers_json", CText (_json_array (triggers m))); ("inputs_json", CText (_json_array (inputs m)));
   ("outputs_json", CText (_json_array (outputs m)));
   ("score_modifiers_json", CText (modifiers_json (default [] (score_modifiers m))));
   ("requires_all_policies", int_of_bool (requires_all_policies m))].

Definition dependency_rows (m : Module_) : list row :=
  map (fun '(field, dependency_kind, is_required, dependency_name) =>
    [("id", CText (_dependency_id (name m) field dependency_name));
     ("module_version_id", CText (_module_version_id (name m) (version m))); ("dependency_kind", CText dependency_kind);
     ("dependency_id", CText (_module_id dependency_name)); ("is_required", int_of_bool is_required)]) (references_of m).

Definition policy_rows (m : Module_) : list row :=
  map (fun policy_name =>
    [("id", CText (_policy_binding_id policy_name (name m))); ("policy_id", CText (_module_id policy_name));
     ("target_kind", CText "module"); ("target_id", CText (_module_id (name m))); ("effect", CText "allow");
     ("priority", CInt 100)]) (policies m).

Definition scope_row (principal_kind principal_id policy_name : string) (scope : string * string) : row :=
  [("id", CText (_scope_binding_id scope.1 principal_id)); ("scope_id", CText (_module_id scope.1)); ("scope_kind", CText scope.2);
   ("principal_kind", CText principal_kind); ("principal_id", CText principal_id); ("policy_id", CText (_module_id policy_name));
   ("effect", CText "allow")].

(** The scopes to bind, by name and kind: dependencies first, then modules. *)
Definition add_scope (scopes : list (string * string)) (s : string * string) : list (string * string) :=
  if str_in s.2 SCOPE_KINDS && negb (existsb (fun x => String.eqb s.1 x.1 && String.eqb s.2 x.2) scopes)
  then scopes ++ [s] else scopes.
Definition scopes_of (dependencies : list Dependency) (modules : list Module_) : list (string * string) :=
  foldl add_scope [] (map (fun d => (dep_name d, dep_kind d)) dependencies ++ map (fun m => (name m, kind m)) modules).

(** ** Tenants *)

Definition tenant_row (t : Tenant) (created_at : string) : row :=
  [("id", CText (tenant_id t)); ("area_id", CText (area_id t)); ("display_name", CText (display_name t));
   ("legal_name", CText (legal_name t)); ("status", CText (tenant_status t)); ("default_locale", CText (default_locale t));
   ("contact_email", CText (contact_email t)); ("contact_phone", opt_text (contact_phone t));
   ("contact_website", opt_text (contact_website t)); ("memory_area_brain_id", CText (area_brain_id t));
   ("shared_promotion_allowed", int_of_bool (shared_promotion_allowed t)); ("knowledge_scope_id", CText (scope_id t));
   ("policy_bundle_json", CText (_json_array (policy_bundle t))); ("validators_json", CText (_json_array (tenant_validators t)));
   ("created_at", CText created_at); ("updated_at", CText created_at)].

Definition hostname_row (t : Tenant) (h : Hostname) : row :=
  [("id", CText (_tenant_hostname_id (tenant_id t) (hostname h))); ("tenant_id", CText (tenant_id t));
   ("hostname", CText (hostname h)); ("purpose", CText (purpose h)); ("expected_origin", opt_text (expected_origin h));
   ("cloudflare_proxy_expected", int_of_bool (proxy_expected h))].

Definition data_source_row (s : DataSource) : row :=
  [("id", CText (source_id s)); ("tenant_id", CText (source_tenant s)); ("source_type", CText (source_type s));
   ("display_name", CText (source_name s)); ("access_modes_json", CText (_json_array (access_modes s)));
   ("status", CText (source_status s)); ("sensitivity", CText (sensitivity s))].

Definition membership_row (t : Tenant) (principal role created_at : string) : row :=
  [("id", CText (_tenant_membership_id (tenant_id t) principal)); ("tenant_id", CText (tenant_id t));
   ("principal_id", CText principal); ("status", CText "active"); ("role_ids_json", CText (_json_array [role]));
   ("created_at", CText created_at); ("updated_at", CText created_at)].

Definition _default_runtime_membership_role_id (t : Tenant) : res string :=
  match List.find (fun role => str_in "research" (capability_grants role)) (role_bundles t) with
  | Some role => mret (role_id role)
  | None => match role_bundles t with
            | role :: _ => mret (role_id role)
            | [] => Raise (IndexError "list index out of range")
            end
  end.

(** The owner's membership, or else the default principal's. *)
Definition membership_rows (t : Tenant) (created_at default_principal_id : string) (include_default : bool) : res (list row) :=
  match initial_owner t with
  | Some user => mret [membership_row t user (tenant_id t +:+ "-owner") created_at]
  | None => if include_default
            then role ← _default_runtime_membership_role_id t;
                 mret [membership_row t default_principal_id role created_at]
            else mret []
  end.

Definition role_row (r : RoleBundle) : row :=
  [("id", CText (role_id r)); ("tenant_id", CText (role_tenant r)); ("display_name", CText (role_name r));
   ("role_type", CText (role_type r)); ("assignable_to_users", int_of_bool (assignable_to_users r));
   ("derived_skills_json", CText (_json_array (derived_skills r))); ("derived_workflows_json", CText (_json_array (derived_workflows r)));
   ("derived_tools_json", CText (_json_array (derived_tools r))); ("derived_policies_json", CText (_json_array (derived_policies r)));
   ("derived_validators_json", CText (_json_array (derived_validators r)))].

Definition capability_rows (r : RoleBundle) : list row :=
  map (fun c => [("id", CText (_tenant_capability_grant_id (role_id r) c)); ("tenant_id", CText (role_tenant r));
                 ("role_bundle_id", CText (role_id r)); ("capability_id", CText c)]) (capability_grants r).

Definition grant_rows (r : RoleBundle) : list row :=
  map (fun g => [("id", CText (_tenant_data_source_grant_id (role_id r) (granted_source g))); ("tenant_id", CText (role_tenant r));
                 ("role_bundle_id", CText (role_id r)); ("data_source_id", CText (granted_source g));
                 ("access_modes_json", CText (_json_array (granted_modes g)))]) (data_source_grants r).

(** ** The seed *)

Record ControlPlaneSeedRecords := mkSeed {
  s_tenants : list row;
  s_tenant_hostnames : list row;
  s_tenant_data_sources : list row;
  s_tenant_role_bundles : list row;
  s_tenant_memberships : list row;
  s_tenant_role_capability_grants : list row;
  s_tenant_role_data_source_grants : list row;
  s_modules : list row;
  s_module_versions : list row;
  s_module_selection_metadata : list row;
  s_module_dependencies : list row;
  s_policy_bindings : list row;
  s_scope_bindings : list row;
}.

Definition table_records (s : ControlPlaneSeedRecords) : odict (list row) :=
  [("tenants", s_tenants s); ("tenant_hostnames", s_tenant_hostnames s); ("tenant_data_sources", s_tenant_data_sources s);
   ("tenant_role_bundles", s_tenant_role_bundles s); ("tenant_memberships", s_tenant_memberships s);
   ("tenant_role_capability_grants", s_tenant_role_capability_grants s);
   ("tenant_role_data_source_grants", s_tenant_role_data_source_grants s); ("modules", s_modules s);
   ("module_versions", s_module_versions s); ("module_selection_metadata", s_module_selection_metadata s);
   ("module_dependencies", s_module_dependencies s); ("policy_bindings", s_policy_bindings s);
   ("scope_bindings", s_scope_bindings s)].

(** The id of a row, which is a text in every table. *)
Definition row_id (r : row) : string := match od_get "id" r with Some (CText s) => s | _ => "" end.
Definition by_id : list row -> list row := by_key row_id.

Definition with_tenants (tenants : list Tenant) (created_at default_principal_id : string) (include_default : bool)
    (s : ControlPlaneSeedRecords) : res ControlPlaneSeedRecords :=
  memberships ← mapM (fun t => membership_rows t created_at default_principal_id include_default) tenants;
  let bundles := mjoin (map role_bundles tenants) in
  mret (mkSeed (by_id (map (fun t => tenant_row t created_at) tenants))
    (by_id (mjoin (map (fun t => map (hostname_row t) (hostnames t)) tenants)))
    (by_id (mjoin (map (fun t => map data_source_row (data_sources t)) tenants)))
    (by_id (map role_row bundles))
    (by_id (mjoin memberships)) (by_id (mjoin (map capability_rows bundles))) (by_id (mjoin (map grant_rows bundles)))
    (s_modules s) (s_module_versions s) (s_module_selection_metadata s) (s_module_dependencies s) (s_policy_bindings s)
    (s_scope_bindings s)).

Record SeedOptions := mkSeedOptions {
  created_at : string;
  principal_kind : string;
  principal_id : string;
  include_default_scope_bindings : bool;
  include_default_tenant_memberships : bool;
}.
Definition default_options : SeedOptions := mkSeedOptions "2026-05-22T00:00:00Z" "role" "repository-maintainer" true true.

(** A module with where its version came from. *)
Definition sourced : Type := Module_ * (string * string).
Definition from_file (f : ModuleFile) : sourced := (content f, ("repo://" +:+ repo_path f, checksum f)).
Definition from_generator (uri : Module_ -> string) (m : Module_) : sourced := (m, (uri m, "sha256:generated-" +:+ name m)).

Definition build_seed_records (files : list ModuleFile) (tenants : list Tenant) (o : SeedOptions) : res ControlPlaneSeedRecords :=
  let module_inputs := map _load_module files in
  let actual_modules := map content module_inputs in
  let dependencies := _module_dependencies actual_modules in
  stub_modules ← _stub_modules actual_modules dependencies;
  let tenant_scope_modules := _tenant_scope_modules tenants in
  let all_modules := actual_modules ++ stub_modules ++ tenant_scope_modules in
  let policy_names := sorted_strs (map name (List.filter (fun m => String.eqb (kind m) "policy") all_modules)) in
  let sources := map from_file module_inputs
    ++ map (from_generator (fun m => "generated://" +:+ kind m +:+ "/" +:+ name m)) stub_modules
    ++ map (from_generator (fun m => "generated://tenant-scope/" +:+ name m)) tenant_scope_modules in
  let scope_bindings := match policy_names with
    | p :: _ => if include_default_scope_bindings o
                then map (scope_row (principal_kind o) (principal_id o) p) (scopes_of dependencies all_modules) else []
    | [] => []
    end in
  with_tenants tenants (created_at o) (principal_id o) (include_default_tenant_memberships o)
    (mkSeed [] [] [] [] [] [] []
      (by_id (map (fun x => _module_record x.1 (created_at o)) sources))
      (by_id (map (fun x => _module_version_record x.1 x.2.1 x.2.2 (created_at o)) sources))
      (by_id (map (fun x => _selection_metadata_record x.1) sources))
      (by_id (mjoin (map dependency_rows actual_modules)))
      (by_id (mjoin (map policy_rows actual_modules)))
      (by_id scope_bindings)).

(** ** SQL *)

Definition SEED_TABLE_COLUMNS : odict (list string) :=
  [("tenants", ["id"; "area_id"; "display_name"; "legal_name"; "status"; "default_locale"; "contact_email"; "contact_phone";
     "contact_website"; "memory_area_brain_id"; "shared_promotion_allowed"; "knowledge_scope_id"; "policy_bundle_json";
     "validators_json"; "created_at"; "updated_at"]);
   ("tenant_hostnames", ["id"; "tenant_id"; "hostname"; "purpose"; "expected_origin"; "cloudflare_proxy_expected"]);
   ("tenant_data_sources", ["id"; "tenant_id"; "source_type"; "display_name"; "access_modes_json"; "status"; "sensitivity"]);
   ("tenant_role_bundles", ["id"; "tenant_id"; "display_name"; "role_type"; "assignable_to_users"; "derived_skills_json";
     "derived_workflows_json"; "derived_tools_json"; "derived_policies_json"; "derived_validators_json"]);
   ("tenant_memberships", ["id"; "tenant_id"; "principal_id"; "status"; "role_ids_json"; "created_at"; "updated_at"]);
   ("tenant_role_capability_grants", ["id"; "tenant_id"; "role_bundle_id"; "capability_id"]);
   ("tenant_role_data_source_grants", ["id"; "tenant_id"; "role_bundle_id"; "data_source_id"; "access_modes_json"]);
   ("modules", ["id"; "name"; "kind"; "status"; "current_version_id"; "created_at"; "updated_at"]);
   ("module_versions", ["id"; "module_id"; "version"; "source_uri"; "checksum"; "selection_base_score"; "created_at"]);
   ("module_selection_metadata", ["id"; "module_version_id"; "description"; "capability_class"; "domain_tags_json";
     "task_types_json"; "risk_levels_json"; "task_domains_json"; "required_inputs_json"; "phrases_json";
     "negative_phrases_json"; "triggers_json"; "inputs_json"; "outputs_json"; "score_modifiers_json";
     "requires_all_policies"]);
   ("module_dependencies", ["id"; "module_version_id"; "dependency_kind"; "dependency_id"; "is_required"]);
   ("policy_bindings", ["id"; "policy_id"; "target_kind"; "target_id"; "effect"; "priority"]);
   ("scope_bindings", ["id"; "scope_id"; "scope_kind"; "principal_kind"; "principal_id"; "policy_id"; "effect"])].

(** [value.replace("'", "''")] *)
Definition quote_char (c : ascii) : list ascii := if Ascii.eqb c "'"%char then [c; c] else [c].

Definition _sql_literal (v : cell) : string :=
  match v with
  | CNull => "NULL"
  | CBool b => if b then "1" else "0"
  | CInt z => zstr z
  | CNumber text => text
  | CText s => "'" +:+ of_chars (mjoin (map quote_char (chars s))) +:+ "'"
  end.

Definition newline : string := of_chars ["010"%char].

Definition _upsert_statement (table : string) (columns : list string) (record : row) : res string :=
  values ← mapM (fun column => v ← ditem column record; mret (_sql_literal v)) columns;
  let update_columns := List.filter (fun column => negb (String.eqb column "id")) columns in
  mret ("INSERT INTO " +:+ table +:+ " (" +:+ join ", " columns +:+ ")" +:+ newline +:+
        "VALUES (" +:+ join ", " values +:+ ")" +:+ newline +:+
        "ON CONFLICT(id) DO UPDATE SET " +:+ join ", " (map (fun c => c +:+ " = excluded." +:+ c) update_columns) +:+ ";").

Definition table_statements (table : string) (records : list row) : res (list string) :=
  columns ← ditem table SEED_TABLE_COLUMNS;
  mapM (_upsert_statement table columns) records.

Definition SQL_HEADER : list string :=
  ["-- Generated by scripts/cloudflare/generate_control_plane_seed.py."; "-- Source: registry/modules/**/module.json."].

Definition generate_seed_sql (s : ControlPlaneSeedRecords) : res string :=
  statements ← mapM (fun '(table, records) => table_statements table records) (table_records s);
  mret (join (newline +:+ newline) (SQL_HEADER ++ mjoin statements) +:+ newline).

(** ** Reading the SQL back

    A reader of the statements the generator writes: the literals of a row are
    read as SQL reads them, so a text ends where its quote is not doubled. *)

Inductive literal :=
| LNull
| LNumber (text : string)
| LText (s : string).

Record statement := mkStatement { st_table : string; st_columns : string; st_values : list literal; st_sets : string }.

(** The text up to the closing quote, and what follows it. *)
Fixpoint read_quoted (l : list ascii) : option (list ascii * list ascii) :=
  match l with
  | [] => None
  | c :: r =>
      if Ascii.eqb c "'"%char then
        match r with
        | c2 :: r2 => if Ascii.eqb c2 "'"%char then '(s, rest) ← read_quoted r2; Some (c :: s, rest) else Some ([], r)
        | [] => Some ([], [])
        end
      else '(s, rest) ← read_quoted r; Some (c :: s, rest)
  end.

Definition ends_literal (c : ascii) : bool := Ascii.eqb c ","%char || Ascii.eqb c ")"%char.
Fixpoint read_token (l : list ascii) : list ascii * list ascii :=
  match l with
  | [] => ([], [])
  | c :: r => if ends_literal c then ([], l) else let '(t, rest) := read_token r in (c :: t, rest)
  end.

Definition read_literal (l : list ascii) : option (literal * list ascii) :=
  match l with
  | [] => None
  | c :: r =>
      if Ascii.eqb c "'"%char then '(s, rest) ← read_quoted r; Some (LText (of_chars s), rest)
      else let '(t, rest) := read_token l in
           Some (if String.eqb (of_chars t) "NULL" then LNull else LNumber (of_chars t), rest)
  end.

Fixpoint read_literals (fuel : nat) (l : list ascii) : option (list literal * list ascii) :=
  match fuel with
  | O => None
  | S fuel =>
      '(v, rest) ← read_literal l;
      match rest with
      | ","%char :: " "%char :: rest => '(vs, rest) ← read_literals fuel rest; Some (v :: vs, rest)
      | ")"%char :: rest => Some ([v], rest)
      | _ => None
      end
  end.

Fixpoint drop_text (p l : list ascii) : option (list ascii) :=
  match p, l with
  | [], _ => Some l
  | x :: p, y :: l => if Ascii.eqb x y then drop_text p l else None
  | _ :: _, [] => None
  end.

Definition read_statement (l : list ascii) : option (statement * list ascii) :=
  l ← drop_text (chars "INSERT INTO ") l;
  '(table, l) ← split_once_chars " "%char l;
  l ← drop_text ["("%char] l;
  '(columns, l) ← split_once_chars ")"%char l;
  l ← drop_text (chars (newline +:+ "VALUES (")) l;
  '(values, l) ← read_literals (length l) l;
  l ← drop_text (chars (newline +:+ "ON CONFLICT(id) DO UPDATE SET ")) l;
  '(sets, l) ← split_once_chars ";"%char l;
  Some (mkStatement (of_chars table) (of_chars columns) values (of_chars sets), l).

(** Statements, empty lines and comment lines. *)
Fixpoint read_script (fuel : nat) (l : list ascii) : option (list statement) :=
  match fuel with
  | O => match l with [] => Some [] | _ => None end
  | S fuel =>
      match l with
      | [] => Some []
      | "010"%char :: rest => read_script fuel rest
      | "-"%char :: _ => '(_, rest) ← split_once_chars "010"%char l; read_script fuel rest
      | _ => '(s, rest) ← read_statement l; ss ← read_script fuel rest; Some (s :: ss)
      end
  end.
Definition read_sql (text : string) : option (list statement) := read_script (String.length text) (chars text).

(** What a row's statement says. *)
Definition literal_of (v : cell) : literal :=
  match v with
  | CText s => LText s
  | CNull => LNull
  | v => LNumber (_sql_literal v)
  end.
Definition sets_of (columns : list string) : string :=
  join ", " (map (fun c => c +:+ " = excluded." +:+ c) (List.filter (fun c => negb (String.eqb c "id")) columns)).
Definition columns_of (table : string) : list string := default [] (od_get table SEED_TABLE_COLUMNS).
Definition statement_of (table : string) (r : row) : statement :=
  let columns := columns_of table in
  mkStatement table (join ", " columns) (map (fun c => literal_of (default CNull (od_get c r))) columns) (sets_of columns).
Definition statements_of (s : ControlPlaneSeedRecords) : list statement :=
  mjoin (map (fun '(table, records) => map (statement_of table) records) (table_records s)).

(** ** Lemmas on the reader *)

Lemma drop_text_app p r : drop_text p (p ++ r) = Some r.
Proof. induction p as [|c p IH]; cbn; [done|]. by rewrite Ascii.eqb_refl. Qed.

Lemma drop_text_one c r : drop_text [c] (c :: r) = Some r.
Proof. exact (drop_text_app [c] r). Qed.

Lemma split_once_app sep l r : ~ In sep l -> split_once_chars sep (l ++ sep :: r) = Some (l, r).
Proof.
  induction l as [|c l IH]; cbn; intros H; [by rewrite Ascii.eqb_refl|].
  rewrite IH by tauto. destruct (Ascii.eqb_spec c sep) as [->|]; [tauto|done].
Qed.

(** A quoted text is read back, whatever follows its quote but another one. *)
Lemma read_quoted_text l r : head r <> Some "'"%char ->
  read_quoted (mjoin (map quote_char l) ++ "'"%char :: r) = Some (l, r).
Proof.
  intros Hr. induction l as [|c l IH].
  - cbn. destruct r as [|c r]; [done|]. destruct (Ascii.eqb_spec c "'"%char) as [->|]; [done|done].
  - change (mjoin (map quote_char (c :: l))) with (quote_char c ++ mjoin (map quote_char l)).
    unfold quote_char at 1. destruct (Ascii.eqb_spec c "'"%char) as [->|Hc].
    + cbn. by rewrite IH.
    + cbn [app read_quoted]. apply Ascii.eqb_neq in Hc as ->. by rewrite IH.
Qed.

(** The numbers a module file may hold, as Python prints them. *)
Definition sql_number_char (c : ascii) : bool := is_digit c || existsb (Ascii.eqb c) ["."; "e"; "+"; "-"]%char.
Definition number_text (s : string) : bool := negb (String.eqb s "") && forallb sql_number_char (chars s).
Definition plain_cell (v : cell) : bool := match v with CNumber t => number_text t | _ => true end.

Lemma sql_number_char_spec c : sql_number_char c = true ->
  ends_literal c = false /\ Ascii.eqb c "'"%char = false /\ c <> "N"%char.
Proof. by destruct c as [[] [] [] [] [] [] [] []]. Qed.

Lemma read_token_span l r : forallb sql_number_char l = true -> ends_literal (hd ","%char r) = true ->
  read_token (l ++ r) = (l, r).
Proof.
  intros Hl Hr. induction l as [|c l IH]; cbn in *.
  - destruct r as [|c r]; [done|]. cbn in *. by rewrite Hr.
  - apply andb_true_iff in Hl as [Hc Hl]. apply sql_number_char_spec in Hc as (-> & _). by rewrite IH.
Qed.

Lemma read_number text r : number_text text = true -> ends_literal (hd ","%char r) = true ->
  read_literal (chars text ++ r) = Some (LNumber text, r).
Proof.
  intros [Hne Ht]%andb_true_iff Hr. destruct (chars text) as [|c l] eqn:E.
  { apply (f_equal of_chars) in E. rewrite of_chars_chars in E. by subst. }
  unfold read_literal. cbn [app]. pose proof Ht as Ht'. cbn in Ht'. apply andb_true_iff in Ht' as [Hc _].
  apply sql_number_char_spec in Hc as (_ & -> & HN). change (c :: l ++ r) with ((c :: l) ++ r).
  rewrite (read_token_span (c :: l)) by done. rewrite <- E, of_chars_chars.
  destruct (String.eqb_spec text "NULL") as [->|]; [|done]. by injection E as <- _.
Qed.

Lemma zstr_number_text z : number_text (zstr z) = true.
Proof.
  destruct (zstr_number z) as [H Hne]. apply andb_true_iff. split.
  - apply negb_true_iff. by apply String.eqb_neq.
  - apply forallb_forall. intros c Hc. rewrite forallb_forall in H. specialize (H c Hc).
    by destruct c as [[] [] [] [] [] [] [] []].
Qed.

Lemma read_cell v r : plain_cell v = true -> ends_literal (hd ","%char r) = true ->
  read_literal (chars (_sql_literal v) ++ r) = Some (literal_of v, r).
Proof.
  intros Hv Hr. destruct v as [|b|z|text|s].
  - cbn. destruct r as [|c r]; [done|]. cbn in Hr |- *. by rewrite Hr.
  - destruct b; by apply read_number.
  - apply read_number; [apply zstr_number_text|done].
  - by apply read_number.
  - cbn [_sql_literal literal_of]. rewrite !chars_app, chars_of_chars.
    change (read_literal ("'"%char :: ((mjoin (map quote_char (chars s)) ++ ["'"%char]) ++ r)) = Some (LText s, r)).
    unfold read_literal. rewrite Ascii.eqb_refl, <- app_assoc. cbn [app]. rewrite read_quoted_text.
    + cbn. by rewrite of_chars_chars.
    + destruct r as [|c r]; [done|]. intros [= ->]. done.
Qed.

Lemma read_row vs r n : vs <> [] -> Forall (fun v => plain_cell v = true) vs -> (length vs <= n)%nat ->
  read_literals n (chars (join ", " (map _sql_literal vs)) ++ ")"%char :: r) = Some (map literal_of vs, r).
Proof.
  revert n. induction vs as [|v vs IH]; [done|]. intros [|n] _ Hp Hn; [cbn in Hn; lia|].
  apply Forall_cons in Hp as [Hv Hp]. destruct vs as [|w vs].
  - cbn [map join String.concat]. cbn [read_literals]. by rewrite read_cell.
  - change (join ", " (map _sql_literal (v :: w :: vs)))
      with (_sql_literal v +:+ ", " +:+ join ", " (map _sql_literal (w :: vs))).
    rewrite !chars_app, <- !app_assoc. cbn [read_literals]. rewrite read_cell by done.
    change (chars ", ") with [","; " "]%char. cbn [mbind option_bind app].
    rewrite IH by (try done; cbn in *; lia). done.
Qed.

Lemma join_length {A} (f : A -> string) l : (length l <= S (length (chars (join ", " (map f l)))))%nat.
Proof.
  induction l as [|x l IH]; [cbn; lia|]. destruct l as [|y l]; [cbn; lia|].
  change (join ", " (map f (x :: y :: l))) with (f x +:+ ", " +:+ join ", " (map f (y :: l))).
  rewrite !chars_app, !length_app. change (length (chars ", ")) with 2%nat. cbn [length] in *. lia.
Qed.

(** The fixed parts of a statement hold none of the characters the reader looks for. *)
Definition free_of (c : ascii) (s : string) : bool := forallb (fun x => negb (Ascii.eqb x c)) (chars s).
Lemma free_of_In c s : free_of c s = true -> ~ In c (chars s).
Proof. unfold free_of. rewrite forallb_forall. intros H Hc. specialize (H c Hc). by rewrite Ascii.eqb_refl in H. Qed.

Definition readable_table (t : string * list string) : bool :=
  free_of " "%char t.1 && free_of ")"%char (join ", " t.2) && free_of ";"%char (sets_of t.2) && nonempty t.2.
Lemma tables_readable t columns : od_get t SEED_TABLE_COLUMNS = Some columns -> readable_table (t, columns) = true.
Proof.
  intros H%od_get_In. assert (Hall : forallb readable_table SEED_TABLE_COLUMNS = true) by (vm_compute; reflexivity).
  rewrite forallb_forall in Hall. by apply Hall.
Qed.

(** A row of a table: its columns are those of the table, and its numbers are numbers. *)
Definition row_of (columns : list string) (r : row) : Prop :=
  od_keys r = columns /\ NoDup columns /\ Forall (fun v => plain_cell v = true) (od_values r).

Lemma row_cells columns r : row_of columns r ->
  map (fun c => default CNull (od_get c r)) columns = od_values r /\
  mapM (fun c => v ← ditem c r; mret (_sql_literal v)) columns = Ok (map _sql_literal (od_values r)).
Proof.
  intros (<- & Hn & _). assert (Hg : forall l, (forall x, In x l -> In x r) ->
    map (fun c => default CNull (od_get c r)) (od_keys l) = od_values l /\
    mapM (fun c => v ← ditem c r; mret (_sql_literal v)) (od_keys l) = Ok (map _sql_literal (od_values l))).
  { induction l as [|[k v] l IH]; intros Hl; [done|]. destruct IH as [IH1 IH2]; [intros; apply Hl; by right|].
    assert (Hk : od_get k r = Some v) by (apply od_get_NoDup; [done|apply Hl; by left]).
    unfold od_keys, od_values in *. cbn [map mapM fst snd]. unfold ditem in *. rewrite Hk, IH1, IH2. done. }
  by apply Hg.
Qed.

Lemma read_upsert t columns r rest : od_get t SEED_TABLE_COLUMNS = Some columns -> row_of columns r ->
  exists text, _upsert_statement t columns r = Ok text /\ chars text <> [] /\ head (chars text) = Some "I"%char /\
    read_statement (chars text ++ rest) = Some (statement_of t r, rest).
Proof.
  intros Ht Hr. pose proof (tables_readable _ _ Ht) as Hread. apply andb_true_iff in Hread as [Hread Hne].
  apply andb_true_iff in Hread as [Hread H3]. apply andb_true_iff in Hread as [H1 H2]. cbn [fst snd] in *.
  destruct (row_cells _ _ Hr) as [Hcells Hlits]. unfold _upsert_statement. rewrite Hlits. cbn [mbind result_bind mret result_ret].
  fold (sets_of columns). eexists. split; [reflexivity|]. rewrite !chars_app. split; [done|]. split; [done|].
  rewrite <- !app_assoc. unfold read_statement. rewrite drop_text_app. cbn [mbind option_bind].
  change (chars " (") with (" "%char :: ["("%char]). cbn [app]. rewrite split_once_app by by apply free_of_In.
  cbn [mbind option_bind]. rewrite drop_text_one. cbn [mbind option_bind].
  change (chars ")") with [")"%char]. cbn [app]. rewrite split_once_app by by apply free_of_In. cbn [mbind option_bind].
  rewrite chars_app, (app_assoc (chars newline)), drop_text_app. cbn [mbind option_bind].
  rewrite read_row.
  - cbn [mbind option_bind]. rewrite (app_assoc (chars newline)), drop_text_app. cbn [mbind option_bind].
    change (chars ";") with [";"%char]. cbn [app]. rewrite split_once_app by by apply free_of_In. cbn [mbind option_bind].
    rewrite !of_chars_chars. unfold statement_of, columns_of. rewrite Ht. cbn [default]. by rewrite <- Hcells, map_map.
  - destruct Hr as (<- & _ & _). by destruct r.
  - apply Hr.
  - rewrite length_app. cbn [length]. etrans; [apply (join_length _sql_literal)|]. lia.
Qed.

(** Statements one after another, each after an empty line. *)
Definition script (texts : list string) : list ascii :=
  mjoin (map (fun s => chars (newline +:+ newline) ++ chars s) texts) ++ chars newline.

Lemma script_cons s texts : script (s :: texts) = "010"%char :: "010"%char :: chars s ++ script texts.
Proof. unfold script. change (mjoin (map ?f (s :: texts))) with (f s ++ mjoin (map f texts)). by rewrite <- !app_assoc. Qed.

Lemma read_script_statement n l st rest : head l = Some "I"%char -> read_statement l = Some (st, rest) ->
  read_script (S n) l = ss ← read_script n rest; Some (st :: ss).
Proof. destruct l as [|c l]; [done|]. intros [= ->] H. cbn [read_script]. by rewrite H. Qed.

Lemma read_statements (l : list (string * list string * row)) :
  (forall t columns r, In (t, columns, r) l -> od_get t SEED_TABLE_COLUMNS = Some columns /\ row_of columns r) ->
  exists texts, mapM (fun '(t, columns, r) => _upsert_statement t columns r) l = Ok texts /\
  forall n, (length (script texts) <= n)%nat ->
    read_script n (script texts) = Some (map (fun '(t, _, r) => statement_of t r) l).
Proof.
  induction l as [|[[t columns] r] l IH]; intros Hl.
  - exists []. split; [done|]. intros [|[|n]] Hn; cbn in Hn; [lia|done|done].
  - destruct (Hl t columns r) as [Ht Hr]; [by left|].
    destruct IH as (texts & Htexts & Hread); [intros; apply Hl; by right|].
    destruct (read_upsert t columns r (script texts) Ht Hr) as (text & Htext & Hne & Hhd & Hst).
    exists (text :: texts). cbn [mapM]. rewrite Htext. cbn [mbind result_bind]. rewrite Htexts. split; [done|].
    intros n. rewrite script_cons. cbn [length map]. rewrite length_app.
    destruct (chars text) as [|c tl] eqn:E; [done|]. intros Hn. cbn [length] in Hn.
    destruct n as [|[|[|n]]]; [lia..|].
    change (read_script (S (S (S n))) ("010"%char :: "010"%char :: ?l)) with (read_script (S n) l).
    rewrite (read_script_statement n ((c :: tl) ++ script texts) _ _ Hhd Hst). by rewrite Hread by lia.
Qed.

Lemma mapM_mjoin {A B C} (f : B -> res C) (g : A -> list B) (h : A -> res (list C)) l :
  (forall x, In x l -> h x = mapM f (g x)) -> (r ← mapM h l; mret (mjoin r)) = mapM f (mjoin (map g l)).
Proof.
  induction l as [|x l IH]; intros Hh; [done|]. change (mjoin (map g (x :: l))) with (g x ++ mjoin (map g l)).
  rewrite mapM_app, <- IH by (intros; apply Hh; by right). cbn [mapM]. rewrite Hh by by left.
  destruct (mapM f (g x)); cbn; [|done]. by destruct (mapM h l).
Qed.

(** The rows of a seed with their tables. *)
Definition tabled (s : ControlPlaneSeedRecords) : list (string * list string * row) :=
  mjoin (map (fun '(t, records) => map (fun r => (t, columns_of t, r)) records) (table_records s)).

Definition well_tabled (s : ControlPlaneSeedRecords) : Prop :=
  forall t records r, In (t, records) (table_records s) -> In r records ->
    exists columns, od_get t SEED_TABLE_COLUMNS = Some columns /\ row_of columns r.

Lemma join_cons sep x l :
  chars (join sep (x :: l)) = chars x ++ mjoin (map (fun s => chars sep ++ chars s) l).
Proof.
  revert x. induction l as [|y l IH]; intros x; [cbn; by rewrite app_nil_r|].
  change (join sep (x :: y :: l)) with (x +:+ sep +:+ join sep (y :: l)). rewrite !chars_app, IH.
  change (mjoin (map ?f (y :: l))) with (f y ++ mjoin (map f l)). cbv beta. by rewrite <- app_assoc.
Qed.

(** The comment lines are skipped. *)
Lemma read_comment n s rest : free_of "010"%char s && String.prefix "-" s = true ->
  read_script (S n) (chars s ++ "010"%char :: rest) = read_script n rest.
Proof.
  intros [Hf Hp]%andb_true_iff. apply free_of_In in Hf.
  assert (Hs : split_once_chars "010"%char (chars s ++ "010"%char :: rest) = Some (chars s, rest)) by by apply split_once_app.
  apply startswith_spec in Hp as [t ->]. change (chars ("-" +:+ t)) with ("-"%char :: chars t) in Hs |- *.
  cbn [app read_script]. cbn [app] in Hs. by rewrite Hs.
Qed.
Definition header : list ascii := chars (join (newline +:+ newline) SQL_HEADER).
Lemma header_chars texts :
  chars (join (newline +:+ newline) (SQL_HEADER ++ texts) +:+ newline) = header ++ script texts.
Proof.
  unfold header, script. rewrite chars_app, app_assoc. f_equal. unfold SQL_HEADER. cbn [app]. rewrite !join_cons.
  change (mjoin (map ?f (?x :: texts))) with (f x ++ mjoin (map f texts)). cbv beta. by rewrite <- !app_assoc.
Qed.

Lemma read_header n texts :
  read_script (S (S (S n))) (chars (join (newline +:+ newline) (SQL_HEADER ++ texts) +:+ newline))
  = read_script (S n) (script texts).
Proof.
  rewrite header_chars. unfold header, SQL_HEADER. rewrite join_cons, <- app_assoc.
  change (chars (newline +:+ newline)) with ["010"%char; "010"%char].
  assert (Hs : exists r, script texts = "010"%char :: r).
  { destruct texts; [by eexists|]. rewrite script_cons. by eexists. }
  destruct Hs as [r ->]. cbn [map app mjoin list_join]. rewrite read_comment by done.
  change (read_script (S (S n)) ("010"%char :: ?l)) with (read_script (S n) l). rewrite app_nil_r. by rewrite read_comment.
Qed.

Lemma tables_known s t records : In (t, records) (table_records s) -> exists columns, od_get t SEED_TABLE_COLUMNS = Some columns.
Proof.
  intros H. unfold table_records in H.
  repeat (destruct H as [H|H]; [injection H as <- _; vm_compute; by eexists|]). destruct H.
Qed.

Lemma tabled_statements s : map (fun '(t, _, r) => statement_of t r) (tabled s) = statements_of s.
Proof.
  unfold statements_of, tabled. induction (table_records s) as [|[t records] l IH]; [done|].
  change (mjoin (map ?f ((t, records) :: l))) with (f (t, records) ++ mjoin (map f l)). cbv beta iota.
  by rewrite map_app, IH, map_map.
Qed.

(** A well-tabled seed is written, and read back. *)
Lemma generated_script s : well_tabled s ->
  exists text, generate_seed_sql s = Ok text /\ read_sql text = Some (statements_of s).
Proof.
  intros Hs. assert (Hin : forall t columns r, In (t, columns, r) (tabled s) ->
    od_get t SEED_TABLE_COLUMNS = Some columns /\ row_of columns r).
  { intros t columns r ([t' records] & Ht & H)%In_mjoin_map. apply in_map_iff in H as (r' & [= <- <- <-] & Hr).
    destruct (Hs _ _ _ Ht Hr) as (columns & Hc & Hrow). unfold columns_of. rewrite Hc. by split. }
  destruct (read_statements _ Hin) as (texts & Htexts & Hread). unfold generate_seed_sql.
  assert (Hj : (statements ← mapM (fun '(table, records) => table_statements table records) (table_records s); mret (mjoin statements))
               = Ok texts).
  { rewrite <- Htexts. unfold tabled. apply mapM_mjoin. intros [t records] Ht. unfold table_statements.
    destruct (tables_known _ _ _ Ht) as [columns Ec]. unfold ditem, columns_of. rewrite Ec. cbn [mbind result_bind default].
    clear. induction records as [|r records IH]; [done|]. cbn [map mapM]. by rewrite IH. }
  apply bind_Ok in Hj as (sts & Hsts & [= <-]). rewrite Hsts. cbn [mbind result_bind]. eexists. split; [reflexivity|].
  unfold read_sql. rewrite <- length_chars. pose proof (f_equal length (header_chars (mjoin sts))) as Hlen.
  rewrite length_app in Hlen. change (length header) with 111%nat in Hlen.
  destruct (length (chars _)) as [|[|[|n]]]; [lia..|]. rewrite read_header, Hread by lia. f_equal.
  apply tabled_statements.
Qed.

(** ** A built seed is well tabled *)

Definition rows_of (table : string) (l : list row) : Prop := forall r, In r l -> row_of (columns_of table) r.

Lemma by_key_In {A} (key : A -> string) l x : In x (by_key key l) <-> In x l.
Proof. apply py_sorted_In. Qed.

Lemma rows_of_by_id table l : rows_of table l -> rows_of table (by_id l).
Proof. intros H r Hr. apply H. by apply by_key_In in Hr. Qed.

Lemma rows_of_map {A} table (f : A -> row) l : (forall x, In x l -> row_of (columns_of table) (f x)) -> rows_of table (map f l).
Proof. intros H r (x & <- & Hx)%in_map_iff. by apply H. Qed.

Lemma rows_of_mjoin {A} table (f : A -> list row) l : (forall x, In x l -> rows_of table (f x)) -> rows_of table (mjoin (map f l)).
Proof. intros H r (x & Hx & Hr)%In_mjoin_map. by eapply H. Qed.

Lemma columns_NoDup table : NoDup (columns_of table).
Proof.
  unfold columns_of. destruct (od_get table SEED_TABLE_COLUMNS) as [columns|] eqn:E; [|apply NoDup_nil_2].
  apply od_get_In in E. assert (H : forallb (fun t => bool_decide (NoDup t.2)) SEED_TABLE_COLUMNS = true) by (vm_compute; reflexivity).
  rewrite forallb_forall in H. exact (bool_decide_eq_true_1 _ (H _ E)).
Qed.

Lemma row_of_intro table r :
  od_keys r = columns_of table -> forallb plain_cell (od_values r) = true -> row_of (columns_of table) r.
Proof.
  intros Hk Hp. split_and!; [done|apply columns_NoDup|]. apply Forall_forall. intros v Hv%list_elem_of_In.
  rewrite forallb_forall in Hp. by apply Hp.
Qed.

Lemma opt_text_plain o : plain_cell (opt_text o) = true.
Proof. by destruct o. Qed.

(** The sources of the numbers: module files and the constants of the generator. *)
Definition plain_module (m : Module_) : Prop := forall b, base_score m = Some b -> number_text b = true.

Lemma generated_plain n k d c tags ty rl doms ph b sm t : (forall x, b = Some x -> number_text x = true) ->
  plain_module (generated n k d c tags ty rl doms ph b sm t).
Proof. by intros H x Hx; apply H. Qed.

Lemma stub_plain mods deps stubs m : _stub_modules mods deps = Ok stubs -> In m stubs -> plain_module m.
Proof.
  intros H%mapM_Ok Hm. destruct (Forall2_In_r _ _ _ _ H Hm) as (d & _ & Hd). unfold stub_module in Hd.
  apply bind_Ok in Hd as (c & _ & [= <-]). by apply generated_plain.
Qed.

Lemma tenant_scope_plain tenants m : In m (_tenant_scope_modules tenants) -> plain_module m.
Proof.
  unfold _tenant_scope_modules. intros (t & _ & Hm)%by_key_In%In_mjoin_map. unfold tenant_scopes in Hm.
  apply in_app_or in Hm as [(n & <- & _)%in_map_iff|(s & _ & (mode & <- & _)%in_map_iff)%In_mjoin_map];
    (apply generated_plain; by intros x [= <-]).
Qed.

Lemma version_row_of m uri checksum at_ : plain_module m -> row_of (columns_of "module_versions") (_module_version_record m uri checksum at_).
Proof.
  intros Hm. apply row_of_intro; [done|]. cbn. rewrite andb_true_r. unfold plain_module in Hm.
  destruct (base_score m); [by apply Hm|done].
Qed.

Ltac plain_rows := try apply rows_of_by_id; unfold capability_rows, grant_rows, dependency_rows, policy_rows;
  repeat (first [apply rows_of_map | apply rows_of_mjoin]; intros ? _);
  repeat match goal with x : _ * _ |- _ => destruct x end;
  apply row_of_intro; [reflexivity|cbn; rewrite ?opt_text_plain; reflexivity].

Lemma membership_rows_of t at_ p b l : membership_rows t at_ p b = Ok l -> rows_of "tenant_memberships" l.
Proof.
  unfold membership_rows. assert (H : forall u role, rows_of "tenant_memberships" [membership_row t u role at_]).
  { intros u role r [<-|[]]. by apply row_of_intro. }
  destruct (initial_owner t); [intros [= <-]; apply H|]. destruct b; [|by intros [= <-]].
  intros (role & _ & [= <-])%bind_Ok. apply H.
Qed.

(** What the rows of a built seed are made from. *)
Record built (files : list ModuleFile) (tenants : list Tenant) (o : SeedOptions) (s : ControlPlaneSeedRecords) : Prop := {
  bs_body : let actual := map content (map _load_module files) in
    let deps := _module_dependencies actual in
    exists stubs memberships sources scope_bindings,
      _stub_modules actual deps = Ok stubs /\
      mapM (fun t => membership_rows t (created_at o) (principal_id o) (include_default_tenant_memberships o)) tenants = Ok memberships /\
      map fst sources = actual ++ stubs ++ _tenant_scope_modules tenants /\
      (scope_bindings = [] \/ exists p, In (p, "policy") (map (fun m => (name m, kind m)) (map fst sources)) /\
         scope_bindings = map (scope_row (principal_kind o) (principal_id o) p) (scopes_of deps (map fst sources))) /\
      s = mkSeed (by_id (map (fun t => tenant_row t (created_at o)) tenants))
        (by_id (mjoin (map (fun t => map (hostname_row t) (hostnames t)) tenants)))
        (by_id (mjoin (map (fun t => map data_source_row (data_sources t)) tenants)))
        (by_id (map role_row (mjoin (map role_bundles tenants)))) (by_id (mjoin memberships))
        (by_id (mjoin (map capability_rows (mjoin (map role_bundles tenants)))))
        (by_id (mjoin (map grant_rows (mjoin (map role_bundles tenants)))))
        (by_id (map (fun x => _module_record x.1 (created_at o)) sources))
        (by_id (map (fun x => _module_version_record x.1 x.2.1 x.2.2 (created_at o)) sources))
        (by_id (map (fun x => _selection_metadata_record x.1) sources))
        (by_id (mjoin (map dependency_rows actual))) (by_id (mjoin (map policy_rows actual))) (by_id scope_bindings);
}.

Lemma fst_generated uri l : map fst (map (from_generator uri) l) = l.
Proof. rewrite map_map. apply map_id. Qed.
Lemma fst_files l : map fst (map from_file l) = map content l.
Proof. by rewrite map_map. Qed.

Lemma build_built files tenants o s : build_seed_records files tenants o = Ok s -> built files tenants o s.
Proof.
  unfold build_seed_records. cbv zeta.
  intros (stubs & Hstubs & H)%bind_Ok. unfold with_tenants in H. apply bind_Ok in H as (memberships & Hm & [= <-]).
  constructor. cbv zeta. eexists stubs, memberships, _, _. split; [exact Hstubs|]. split; [exact Hm|].
  split; [|split; [|reflexivity]].
  - by rewrite !map_app, !fst_generated, fst_files.
  - set (mods := _ ++ stubs ++ _). destruct (sorted_strs _) as [|p ps] eqn:E; [by left|].
    destruct (include_default_scope_bindings o); [|by left]. right. rewrite !map_app, !fst_generated, fst_files, <- !map_app. fold mods.
    exists p. split; [|done]. assert (Hp : In p (p :: ps)) by by left. rewrite <- E in Hp. apply py_sorted_In in Hp.
    apply in_map_iff in Hp as (m & <- & [Hm' Hk%String.eqb_eq]%filter_In). apply in_map_iff. exists m. by rewrite Hk.
Qed.

(** It is enough that every table holds rows of its columns. *)
Lemma well_tabled_intro s : Forall (fun t => rows_of t.1 t.2) (table_records s) -> well_tabled s.
Proof.
  rewrite Forall_forall. intros H t l r Hl Hr. destruct (tables_known _ _ _ Hl) as [columns Hc]. exists columns. split; [done|].
  specialize (H (t, l) (proj2 (list_elem_of_In _ _) Hl) r Hr). cbn [fst] in H. unfold columns_of in H. by rewrite Hc in H.
Qed.

Lemma built_tabled files tenants o s : (forall f, In f files -> plain_module (content f)) -> built files tenants o s -> well_tabled s.
Proof.
  intros Hplain [(stubs & memberships & sources & sb & Hstubs & Hm & Hsrc & Hsb & ->)].
  assert (Hall : forall x, In x sources -> plain_module x.1).
  { intros x Hx. apply (in_map fst) in Hx. rewrite Hsrc in Hx.
    apply in_app_or in Hx as [Hx|Hx]; [|apply in_app_or in Hx as [Hx|Hx]].
    - apply in_map_iff in Hx as (f & <- & Hf). apply in_map_iff in Hf as (f' & <- & Hf'). intros b Hb. by apply (Hplain f').
    - by eapply stub_plain.
    - by eapply tenant_scope_plain. }
  apply well_tabled_intro. unfold table_records. repeat apply Forall_cons_2; try apply Forall_nil_2; cbn [fst snd s_tenants
    s_tenant_hostnames s_tenant_data_sources s_tenant_role_bundles s_tenant_memberships s_tenant_role_capability_grants
    s_tenant_role_data_source_grants s_modules s_module_versions s_module_selection_metadata s_module_dependencies
    s_policy_bindings s_scope_bindings].
  - plain_rows.
  - plain_rows.
  - plain_rows.
  - plain_rows.
  - apply rows_of_by_id. intros r Hr. apply mapM_Ok in Hm. rewrite <- (map_id memberships) in Hr.
    apply In_mjoin_map in Hr as (l & Hl & Hr).
    destruct (Forall2_In_r _ _ _ _ Hm Hl) as (t & _ & Ht). by eapply membership_rows_of.
  - plain_rows.
  - plain_rows.
  - plain_rows.
  - apply rows_of_by_id, rows_of_map. intros x Hx. apply version_row_of. by apply Hall.
  - plain_rows.
  - plain_rows.
  - plain_rows.
  - apply rows_of_by_id. destruct Hsb as [-> |(p & _ & ->)]; [by intros r []|]. plain_rows.
Qed.

(** ** The database the seed leaves *)

(** Upserts on the id: the last row of an id stays. *)
Definition load_table (rows : list row) : odict row := foldl (fun t r => od_set (row_id r) r t) [] rows.
Definition rows (s : ControlPlaneSeedRecords) (table : string) : list row := default [] (od_get table (table_records s)).
Definition loaded (s : ControlPlaneSeedRecords) (table : string) : odict row := load_table (rows s table).

(** The references between the tables of a seed by one column: the foreign keys
    of the database on a single column (migrations/cloudflare/d1), and the two it
    leaves to the application, of [modules] to the current version and of
    [policy_bindings] to the target. *)
Definition REFERENCES : list (string * string * string) :=
  [("modules", "current_version_id", "module_versions"); ("module_versions", "module_id", "modules");
   ("module_selection_metadata", "module_version_id", "module_versions");
   ("module_dependencies", "module_version_id", "module_versions"); ("module_dependencies", "dependency_id", "modules");
   ("policy_bindings", "policy_id", "modules"); ("policy_bindings", "target_id", "modules");
   ("scope_bindings", "scope_id", "modules"); ("scope_bindings", "policy_id", "modules");
   ("tenant_hostnames", "tenant_id", "tenants"); ("tenant_data_sources", "tenant_id", "tenants");
   ("tenant_role_bundles", "tenant_id", "tenants"); ("tenant_memberships", "tenant_id", "tenants");
   ("tenant_role_capability_grants", "tenant_id", "tenants");
   ("tenant_role_capability_grants", "role_bundle_id", "tenant_role_bundles");
   ("tenant_role_data_source_grants", "tenant_id", "tenants");
   ("tenant_role_data_source_grants", "role_bundle_id", "tenant_role_bundles");
   ("tenant_role_data_source_grants", "data_source_id", "tenant_data_sources")].

Definition resolves (s : ControlPlaneSeedRecords) (ref : string * string * string) : Prop :=
  forall k r, od_get k (loaded s ref.1.1) = Some r ->
  exists v, od_get ref.1.2 r = Some (CText v) /\ od_mem v (loaded s ref.2) = true.

(** The foreign keys on two columns (0003_tenant_control_plane.sql): the row
    referred to is of the same tenant as well. *)
Definition TENANT_REFERENCES : list (string * string * string) :=
  [("tenant_role_capability_grants", "role_bundle_id", "tenant_role_bundles");
   ("tenant_role_data_source_grants", "role_bundle_id", "tenant_role_bundles");
   ("tenant_role_data_source_grants", "data_source_id", "tenant_data_sources")].

Definition resolves_in_tenant (s : ControlPlaneSeedRecords) (ref : string * string * string) : Prop :=
  forall k r, od_get k (loaded s ref.1.1) = Some r ->
  exists v r', od_get ref.1.2 r = Some (CText v) /\ od_get v (loaded s ref.2) = Some r' /\
    od_get "tenant_id" r' = od_get "tenant_id" r.

(** No two tenants have a role, or a data source, of one id. *)
Definition ids_owned (tenants : list Tenant) : Prop :=
  (forall r1 r2, In r1 (mjoin (map role_bundles tenants)) -> In r2 (mjoin (map role_bundles tenants)) ->
     role_id r1 = role_id r2 -> role_tenant r1 = role_tenant r2) /\
  (forall d1 d2, In d1 (mjoin (map data_sources tenants)) -> In d2 (mjoin (map data_sources tenants)) ->
     source_id d1 = source_id d2 -> source_tenant d1 = source_tenant d2).

(** A tenant file that names no other tenant and grants its own sources only. *)
Definition consistent (t : Tenant) : Prop :=
  (forall d, In d (data_sources t) -> source_tenant d = tenant_id t) /\
  (forall r, In r (role_bundles t) -> role_tenant r = tenant_id t /\
     forall g, In g (data_source_grants r) -> In (granted_source g) (map source_id (data_sources t))).

Lemma load_table_inv rs k r : od_get k (load_table rs) = Some r -> In r rs /\ row_id r = k.
Proof.
  unfold load_table. induction rs as [|r' rs IH] using rev_ind; [done|]. rewrite foldl_snoc, od_get_set.
  destruct (String.eqb_spec k (row_id r')) as [->|].
  - intros [= ->]. split; [apply in_or_app; right; by left|done].
  - intros [H1 H2]%IH. split; [apply in_or_app; by left|done].
Qed.

Lemma load_table_mem rs r : In r rs -> od_mem (row_id r) (load_table rs) = true.
Proof.
  unfold load_table, od_mem. induction rs as [|r' rs IH] using rev_ind; [done|].
  intros [H|[->|[]]]%in_app_or; rewrite foldl_snoc, od_get_set; [|by rewrite String.eqb_refl].
  destruct (String.eqb (row_id r) (row_id r')); [done|]. by apply IH.
Qed.

Lemma resolves_intro s t col t' :
  (forall r, In r (rows s t) -> exists r', od_get col r = Some (CText (row_id r')) /\ In r' (rows s t')) ->
  resolves s (t, col, t').
Proof.
  intros H k r [Hr _]%load_table_inv. destruct (H r Hr) as (r' & Hc & Hr'). eexists. split; [exact Hc|]. by apply load_table_mem.
Qed.

(** ** Every name a module mentions is a module *)

Lemma touched_by_key m d : dep_name (touched_by m d) = dep_name d /\ dep_kind (touched_by m d) = dep_kind d.
Proof. done. Qed.

Lemma same_dependency_eq n k d : same_dependency n k d = true <-> dep_name d = n /\ dep_kind d = k.
Proof. unfold same_dependency. rewrite andb_true_iff, !String.eqb_eq. naive_solver. Qed.

Definition has_dependency (n k : string) (deps : list Dependency) : Prop :=
  exists d, In d deps /\ dep_name d = n /\ dep_kind d = k.

Lemma has_dependency_cons n k d deps :
  has_dependency n k (d :: deps) <-> (dep_name d = n /\ dep_kind d = k) \/ has_dependency n k deps.
Proof. unfold has_dependency. cbn. naive_solver. Qed.

Lemma add_dependency_has m n k deps n' k' :
  has_dependency n' k' (add_dependency m n k deps) <-> has_dependency n' k' deps \/ (n = n' /\ k = k').
Proof.
  induction deps as [|d deps IH]; cbn [add_dependency].
  - rewrite has_dependency_cons. cbn. tauto.
  - destruct (same_dependency n k d) eqn:E; rewrite !has_dependency_cons.
    + apply same_dependency_eq in E as [<- <-]. cbn. tauto.
    + rewrite IH. tauto.
Qed.

Lemma module_dependencies_has mods n k :
  has_dependency n k (_module_dependencies mods) <-> exists m f b, In m mods /\ In (f, k, b, n) (references_of m).
Proof.
  unfold _module_dependencies. induction mods as [|m mods IH] using rev_ind.
  - split; [by intros (d & [] & _)|by intros (? & ? & ? & [] & _)].
  - rewrite foldl_snoc. set (deps := foldl _ [] mods) in *.
    assert (Hin : forall l : list (string * string * bool * string),
      has_dependency n k (foldl (fun deps '(_, k, _, n) => add_dependency m n k deps) deps l) <->
      has_dependency n k deps \/ exists f b, In (f, k, b, n) l).
    { induction l as [|[[[f k'] b] n'] l IHl] using rev_ind; [cbn; split; [by left|by intros [|(? & ? & [])]]|].
      rewrite foldl_snoc, add_dependency_has, IHl. setoid_rewrite in_app_iff. cbn. naive_solver. }
    rewrite Hin, IH. setoid_rewrite in_app_iff. cbn. naive_solver.
Qed.

(** The names that are modules: those of the sources. *)
Lemma dependency_source mods stubs n k : _stub_modules mods (_module_dependencies mods) = Ok stubs ->
  has_dependency n k (_module_dependencies mods) -> exists m, In m (mods ++ stubs) /\ name m = n /\ kind m = k.
Proof.
  intros H (d & Hd & <- & <-). destruct (defined_in mods d) eqn:E.
  - apply existsb_exists in E as (m & Hm & [H1 H2]%same_dependency_eq). exists m. split; [apply in_or_app; by left|done].
  - apply mapM_Ok in H. destruct (Forall2_In_l _ _ _ d H) as (m & Hm & Hs); [apply filter_In; by rewrite E|].
    unfold stub_module in Hs. apply bind_Ok in Hs as (c & _ & [= <-]). eexists. split; [apply in_or_app; right; exact Hm|done].
Qed.

Lemma scopes_of_In deps mods x : In x (scopes_of deps mods) ->
  has_dependency x.1 x.2 deps \/ exists m, In m mods /\ name m = x.1 /\ kind m = x.2.
Proof.
  unfold scopes_of. set (l := _ ++ _). assert (H : forall l acc, In x (foldl add_scope acc l) -> In x acc \/ In x l).
  { clear. intros l. induction l as [|y l IH]; cbn; [by left|]. intros acc [H|H]%IH; [|by right; right].
    unfold add_scope in H. destruct (_ && _); [|by left]. apply in_app_or in H as [H|[->|[]]]; [by left|by right; left]. }
  intros [[]|Hx]%H. apply in_app_or in Hx as [(d & <- & Hd)%in_map_iff|(m & <- & Hm)%in_map_iff]; [left; by exists d|right; by exists m].
Qed.

Lemma policy_reference m p : In p (policies m) -> exists f b, In (f, "policy", b, p) (references_of m).
Proof.
  intros Hp. exists "policies", true. unfold references_of. apply In_mjoin_map. exists ("policies", policies, "policy", true).
  split; [cbn; auto 10|]. apply in_map_iff. by exists p.
Qed.

(** The references among modules, and those among tenants. *)
Definition module_references : list (string * string * string) := take 9 REFERENCES.
Definition tenant_references : list (string * string * string) := drop 9 REFERENCES.

(** A text is the id of a row of a table. *)
Definition points (s : ControlPlaneSeedRecords) (table : string) (v : string) : Prop :=
  exists r, Some (CText v) = Some (CText (row_id r)) /\ In r (rows s table).

Lemma modules_resolve files tenants o s : built files tenants o s -> Forall (resolves s) module_references.
Proof.
  intros [(stubs & ms & sources & sb & Hstubs & _ & Hsrc & Hsb & Es)].
  set (actual := map content (map _load_module files)) in *.
  assert (Hver : forall m, In m (map fst sources) -> points s "module_versions" (_module_version_id (name m) (version m))).
  { intros m (x & <- & Hx)%in_map_iff. exists (_module_version_record x.1 x.2.1 x.2.2 (created_at o)). split; [done|].
    rewrite Es. apply by_key_In, in_map_iff. by exists x. }
  assert (Hmod : forall m, In m (map fst sources) -> points s "modules" (_module_id (name m))).
  { intros m (x & <- & Hx)%in_map_iff. exists (_module_record x.1 (created_at o)). split; [done|].
    rewrite Es. apply by_key_In, in_map_iff. by exists x. }
  assert (Hact : forall m, In m actual -> In m (map fst sources)) by (intros; rewrite Hsrc; apply in_or_app; by left).
  assert (Hdep : forall n k, has_dependency n k (_module_dependencies actual) -> points s "modules" (_module_id n)).
  { intros n k (m & Hm & <- & _)%(dependency_source _ _ _ _ Hstubs). apply Hmod. rewrite Hsrc, app_assoc. apply in_or_app. by left. }
  assert (Href : forall m f k b n, In m actual -> In (f, k, b, n) (references_of m) -> points s "modules" (_module_id n)).
  { intros m f k b n Hm Hr. apply (Hdep n k), module_dependencies_has. by exists m, f, b. }
  assert (Hx : forall x, In x sources -> In x.1 (map fst sources)) by (intros; by apply in_map).
  unfold module_references, REFERENCES. cbn [take]. clear Hstubs. revert Hver Hmod Hdep Href Hsb. rewrite Es. intros Hver Hmod Hdep Href Hsb.
  repeat apply Forall_cons_2; try apply Forall_nil_2; apply resolves_intro; intros r Hr; apply by_key_In in Hr.
  - apply in_map_iff in Hr as (x & <- & Hs). apply (Hver x.1). auto.
  - apply in_map_iff in Hr as (x & <- & Hs). apply (Hmod x.1). auto.
  - apply in_map_iff in Hr as (x & <- & Hs). apply (Hver x.1). auto.
  - apply In_mjoin_map in Hr as (m & Hm & (ref & <- & Hr)%in_map_iff). destruct ref as [[[f k] b] n]. apply (Hver m). auto.
  - apply In_mjoin_map in Hr as (m & Hm & (ref & <- & Hr)%in_map_iff). destruct ref as [[[f k] b] n]. by apply (Href m f k b n).
  - apply In_mjoin_map in Hr as (m & Hm & (p & <- & (f & b & Hp)%policy_reference)%in_map_iff). by apply (Href m f "policy" b p).
  - apply In_mjoin_map in Hr as (m & Hm & (p & <- & _)%in_map_iff). apply (Hmod m). auto.
  - destruct Hsb as [-> |(p & _ & ->)]; [done|]. apply in_map_iff in Hr as (x & <- & [Hs|(m & Hm & Hn & _)]%scopes_of_In).
    + by apply (Hdep x.1 x.2).
    + cbn. rewrite <- Hn. by apply Hmod.
  - destruct Hsb as [-> |(p & Hp & ->)]; [done|]. apply in_map_iff in Hp as (m & [= <- _] & Hm). apply in_map_iff in Hr as (x & <- & _).
    by apply (Hmod m).
Qed.

Lemma membership_tenant t at_ p b l r : membership_rows t at_ p b = Ok l -> In r l ->
  od_get "tenant_id" r = Some (CText (tenant_id t)).
Proof.
  unfold membership_rows. destruct (initial_owner t) as [u|]; [by intros [= <-] [<-|[]]|]. destruct b; [|by intros [= <-] []].
  intros (role & _ & [= <-])%bind_Ok [<-|[]]. done.
Qed.

Lemma tenants_resolve files tenants o s : Forall consistent tenants -> built files tenants o s ->
  Forall (resolves s) tenant_references.
Proof.
  intros Hc [(stubs & ms & sources & sb & _ & Hm & _ & _ & Es)]. rewrite Forall_forall in Hc.
  assert (Ht : forall t, In t tenants -> points s "tenants" (tenant_id t)).
  { intros t Ht. exists (tenant_row t (created_at o)). split; [done|]. rewrite Es. apply by_key_In, in_map_iff. by exists t. }
  assert (Hr : forall r, In r (mjoin (map role_bundles tenants)) ->
    points s "tenant_role_bundles" (role_id r) /\ points s "tenants" (role_tenant r) /\
    forall g, In g (data_source_grants r) -> points s "tenant_data_sources" (granted_source g)).
  { intros r Hr. apply In_mjoin_map in Hr as Hr'. destruct Hr' as (t & Hin & Hrt).
    destruct (Hc t (proj2 (list_elem_of_In _ _) Hin)) as [_ Hroles]. destruct (Hroles r Hrt) as [-> Hg]. split_and!.
    - exists (role_row r). split; [done|]. rewrite Es. apply by_key_In, in_map_iff. by exists r.
    - by apply Ht.
    - intros g (d & <- & Hd)%Hg%in_map_iff. exists (data_source_row d). split; [done|]. rewrite Es.
      apply by_key_In, In_mjoin_map. exists t. split; [done|]. by apply in_map. }
  assert (Hd : forall t d, In t tenants -> In d (data_sources t) -> points s "tenants" (source_tenant d)).
  { intros t d Hin Hd. destruct (Hc t (proj2 (list_elem_of_In _ _) Hin)) as [-> _]; [|done]. by apply Ht. }
  unfold tenant_references, REFERENCES. cbn [drop]. revert Ht Hr Hd. rewrite Es. intros Ht Hr Hd.
  repeat apply Forall_cons_2; try apply Forall_nil_2; apply resolves_intro; intros r Hin; apply by_key_In in Hin.
  - apply In_mjoin_map in Hin as (t & Hin & (h & <- & _)%in_map_iff). by apply (Ht t).
  - apply In_mjoin_map in Hin as (t & Hin & (d & <- & Hd')%in_map_iff). by apply (Hd t d).
  - apply in_map_iff in Hin as (b & <- & Hb). by apply (Hr b).
  - rewrite <- (map_id ms) in Hin. apply In_mjoin_map in Hin as (l & Hl & Hin). apply mapM_Ok in Hm.
    destruct (Forall2_In_r _ _ _ _ Hm Hl) as (t & Hin' & Hl'). rewrite (membership_tenant _ _ _ _ _ _ Hl' Hin). by apply (Ht t).
  - apply In_mjoin_map in Hin as (b & Hb & (x & <- & _)%in_map_iff). by apply (Hr b).
  - apply In_mjoin_map in Hin as (b & Hb & (x & <- & _)%in_map_iff). by apply (Hr b).
  - apply In_mjoin_map in Hin as (b & Hb & (x & <- & _)%in_map_iff). by apply (Hr b).
  - apply In_mjoin_map in Hin as (b & Hb & (x & <- & _)%in_map_iff). by apply (Hr b).
  - apply In_mjoin_map in Hin as (b & Hb & (x & <- & Hx)%in_map_iff). by apply (Hr b).
Qed.

Lemma resolves_in_tenant_intro s t col t' :
  (forall r, In r (rows s t) -> exists r', od_get col r = Some (CText (row_id r')) /\ In r' (rows s t') /\
     forall r2, In r2 (rows s t') -> row_id r2 = row_id r' -> od_get "tenant_id" r2 = od_get "tenant_id" r) ->
  resolves_in_tenant s (t, col, t').
Proof.
  intros H k r [Hr _]%load_table_inv. destruct (H r Hr) as (r' & Hc & Hr' & Ht).
  exists (row_id r'). pose proof (load_table_mem _ _ Hr') as Hm. unfold od_mem in Hm.
  destruct (od_get (row_id r') (load_table _)) as [r2|] eqn:E; [|done]. exists r2. split; [exact Hc|]. split; [exact E|].
  apply load_table_inv in E as [Hin Hid]. by apply Ht.
Qed.

Lemma grants_resolve files tenants o s : Forall consistent tenants -> ids_owned tenants -> built files tenants o s ->
  Forall (resolves_in_tenant s) TENANT_REFERENCES.
Proof.
  intros Hc [Hroles Hsources] [(stubs & ms & sources & sb & _ & _ & _ & _ & Es)]. rewrite Forall_forall in Hc.
  assert (Hown : forall b, In b (mjoin (map role_bundles tenants)) ->
    forall r2, In r2 (rows s "tenant_role_bundles") -> row_id r2 = role_id b -> od_get "tenant_id" r2 = Some (CText (role_tenant b))).
  { intros b Hb r2 Hr2 Hid. rewrite Es in Hr2. apply by_key_In, in_map_iff in Hr2 as (b2 & <- & Hb2). cbn in Hid |- *.
    by rewrite (Hroles b2 b Hb2 Hb Hid). }
  assert (Hrow : forall b, In b (mjoin (map role_bundles tenants)) -> In (role_row b) (rows s "tenant_role_bundles")).
  { intros b Hb. rewrite Es. apply by_key_In. by apply in_map. }
  repeat apply Forall_cons_2; try apply Forall_nil_2; apply resolves_in_tenant_intro; intros r Hin; rewrite Es in Hin;
    apply by_key_In in Hin; apply In_mjoin_map in Hin as (b & Hb & (x & <- & Hx)%in_map_iff).
  1, 2: exists (role_row b); split; [done|]; split; [by apply Hrow|]; intros r2; by apply Hown.
  apply In_mjoin_map in Hb as (t & Ht & Hbt). destruct (Hc t (proj2 (list_elem_of_In _ _) Ht)) as [Hds Hbs].
  destruct (Hbs b Hbt) as [Etb Hg]. destruct (proj1 (in_map_iff _ _ _) (Hg x Hx)) as (d & Hd & Hdt).
  assert (Hall : In d (mjoin (map data_sources tenants))) by (apply In_mjoin_map; eauto).
  exists (data_source_row d). split; [cbn; by rewrite Hd|]. split.
  - rewrite Es. apply by_key_In, In_mjoin_map. exists t. split; [done|]. by apply in_map.
  - intros r2 Hr2 Hid. rewrite Es in Hr2.
    apply by_key_In, In_mjoin_map in Hr2 as (t2 & Ht2 & (d2 & <- & Hd2)%in_map_iff). cbn in Hid |- *.
    rewrite Etb, <- (Hds d Hdt), (Hsources d2 d); [done| |done|done]. apply In_mjoin_map. eauto.
Qed.

(** ** Properties *)

(** C30. The SQL means the seed. When the scores of the module files are
    numbers, the generator writes a statement for every row of a built seed, and
    reading the text back, quotes as SQL reads them, gives exactly those
    statements with the rows' values: no text of a file, whatever quotes or
    semicolons it holds, ends its literal early. *)
Theorem seed_sql_roundtrip files tenants o s :
  build_seed_records files tenants o = Ok s ->
  (forall f b, In f files -> base_score (content f) = Some b -> number_text b = true) ->
  exists text, generate_seed_sql s = Ok text /\ read_sql text = Some (statements_of s).
Proof.
  intros Hb Hn. apply generated_script, (built_tabled files tenants o); [|by apply build_built].
  intros f Hf b. by apply Hn.
Qed.

(** C31. Nothing in the seeded database dangles. For tenant files that name no
    other tenant and grant their own sources, every reference by one column
    between the tables the seed leaves resolves: versions, metadata,
    dependencies and bindings to modules (a module is generated for each name no
    file defines), and hostnames, memberships, roles, grants and sources to
    tenants and roles. If besides no two tenants have a role or a source of one
    id, a grant refers to a role and a source of its own tenant, which the
    two-column foreign keys ask for; without that it may not, see
    [grant_of_lost_role]. *)
Theorem seed_references_resolve files tenants o s :
  build_seed_records files tenants o = Ok s -> Forall consistent tenants ->
  Forall (resolves s) REFERENCES /\ (ids_owned tenants -> Forall (resolves_in_tenant s) TENANT_REFERENCES).
Proof.
  intros Hb Hc. apply build_built in Hb. split; [|intros Ho; by eapply grants_resolve].
  change REFERENCES with (module_references ++ tenant_references).
  apply Forall_app. split; [by eapply modules_resolve|by eapply tenants_resolve].
Qed.

(** ** A small registry *)

Definition demo_module (n k : string) (tools policies : list string) (base : option string) : Module_ :=
  mkModule n "0.1.0" k ("It's " +:+ n +:+ "; with care") "analysis" ["code"] ["code_review"] ["low"] ["code"] ["diff"] ["review"] []
    ["review"] ["diff"] ["findings"] tools [] [] ["repository-readonly"] policies [] base
    (Some [mkModifier "task_type:code_review" "0.3" "it's the task"]) false (strs ["t"]).
Definition demo_files : list ModuleFile :=
  [mkModuleFile "registry/modules/skills/git-diff-analysis/module.json"
     (demo_module "git-diff-analysis" "skill" ["git-read"] ["read-only"] (Some "0.6")) "sha256:1"].
Definition demo_role_bundle (id tenant : string) : RoleBundle :=
  mkRole id tenant "Reviewer" "system" true ["review"; "research"] [mkGrant (tenant +:+ "-repo") ["read"]] ["git-diff-analysis"] [] [] [] [].
Definition demo_seed_tenant (id role : string) : Tenant :=
  mkTenant id "lab" id "O'Neil & Sons" "active" "en-US" "mail@example.com" None None "brain" false "scope" ["docs"] [] []
    [mkHostname "acme.example" "api" None true]
    [mkDataSource (id +:+ "-repo") id "database" "Repo" ["read"] "active" "internal"] None [demo_role_bundle role id].
Definition seed_or (r : res ControlPlaneSeedRecords) : ControlPlaneSeedRecords :=
  match r with Ok s => s | Raise _ => mkSeed [] [] [] [] [] [] [] [] [] [] [] [] [] end.
Definition demo_seed : ControlPlaneSeedRecords := seed_or (build_seed_records demo_files [demo_seed_tenant "acme" "reviewer"] default_options).

Lemma demo_built : build_seed_records demo_files [demo_seed_tenant "acme" "reviewer"] default_options = Ok demo_seed.
Proof. vm_compute. reflexivity. Qed.

Lemma seed_sql_roundtrip_witness : exists text, generate_seed_sql demo_seed = Ok text /\ read_sql text = Some (statements_of demo_seed).
Proof.
  apply (seed_sql_roundtrip demo_files [demo_seed_tenant "acme" "reviewer"] default_options demo_seed demo_built).
  intros f b [<-|[]] [= <-]. vm_compute. reflexivity.
Defined.

Lemma seed_references_resolve_witness :
  Forall (resolves demo_seed) REFERENCES /\ Forall (resolves_in_tenant demo_seed) TENANT_REFERENCES /\
  length (s_modules demo_seed) = 6%nat /\ length (s_tenant_role_data_source_grants demo_seed) = 1%nat.
Proof.
  destruct (seed_references_resolve demo_files [demo_seed_tenant "acme" "reviewer"] default_options demo_seed demo_built) as [H1 H2].
  - constructor; [|constructor]. split; [intros d [<-|[]]; reflexivity|].
    intros r [<-|[]]. split; [reflexivity|]. intros g [<-|[]]. left. reflexivity.
  - split; [exact H1|]. split; [|split; vm_compute; reflexivity]. apply H2. split; [intros r1 r2 [<-|[]] [<-|[]]|intros d1 d2 [<-|[]] [<-|[]]]; reflexivity.
Defined.

(** ** Ids that do not tell rows apart *)

(** The id of a module is its name: a policy and a tool of one name are one row,
    and a skill that depends on the policy finds a tool in its place. *)
Example kinds_collide :
  let s := seed_or (build_seed_records
    [mkModuleFile "a" (demo_module "review" "skill" ["sandbox"] ["sandbox"] (Some "0.6")) "sha256:1"] [] default_options) in
  length (List.filter (fun r => String.eqb (row_id r) "mod-sandbox") (s_modules s)) = 2%nat /\
  (r ← od_get "mod-sandbox" (loaded s "modules"); od_get "kind" r) = Some (CText "policy").
Proof. vm_compute. by split. Qed.

(** Binding ids join two names with a dash, which names may hold: of two
    bindings one is lost. *)
Example bindings_collide :
  let s := seed_or (build_seed_records
    [mkModuleFile "a" (demo_module "c" "skill" [] ["a-b"] (Some "0.6")) "sha256:1";
     mkModuleFile "b" (demo_module "b-c" "skill" [] ["a"] (Some "0.6")) "sha256:2"] [] default_options) in
  length (s_policy_bindings s) = 2%nat /\
  map (fun kv => od_get "target_id" kv.2) (loaded s "policy_bindings") = [Some (CText "mod-b-c")].
Proof. vm_compute. by split. Qed.

(** Two tenants share a role id and grant it different capabilities: the role is
    the second one's, and the first one's grant of it is left, which refers to no
    role of its tenant. *)
Example grant_of_lost_role :
  let tenant id capability := mkTenant id "lab" id id "active" "en-US" "mail@example.com" None None "brain" false "scope" [] [] []
    [] [] None [mkRole "reviewer" id "Reviewer" "system" true [capability] [] [] [] [] [] []] in
  let tenants := [tenant "acme" "review"; tenant "rival" "research"] in
  let s := seed_or (build_seed_records [] tenants default_options) in
  Forall consistent tenants /\
  map (fun kv => od_get "tenant_id" kv.2) (loaded s "tenant_role_bundles") = [Some (CText "rival")] /\
  map (fun kv => od_get "tenant_id" kv.2) (loaded s "tenant_role_capability_grants")
  = [Some (CText "rival"); Some (CText "acme")].
Proof.
  intros tenant tenants s. split; [|by vm_compute].
  constructor; [|constructor; [|constructor]].
  all: split; [by intros d []|]; intros r [<-|[]]; split; [reflexivity|by intros g []].
Qed.

(** Role ids are not the tenant's own: a second tenant that uses one takes the
    first one's role over, with its grants. *)
Example roles_collide :
  let s := seed_or (build_seed_records [] [demo_seed_tenant "acme" "reviewer"; demo_seed_tenant "rival" "reviewer"] default_options) in
  map (fun kv => od_get "tenant_id" kv.2) (loaded s "tenant_role_bundles") = [Some (CText "rival")] /\
  map (fun kv => od_get "tenant_id" kv.2) (loaded s "tenant_role_capability_grants") = [Some (CText "rival"); Some (CText "rival")].
Proof. vm_compute. by split. Qed.
