(* ===== verification/PolicyDenials.v ===== *)
(** * The policy denial ledger

    Models [runtime/policy_denials.py]: denial records, the closure table of
    scopes below a denied scope, and the lookup that says whether a request was
    denied before. Arguments are dynamic values, as keyword arguments are.
    [sha256] is the hexadecimal digest of [hashlib], of the ASCII text. *)

From S2P Require Import Prelude PyStr PyValue Artifacts Json.
Open Scope string_scope.
Open Scope list_scope.

Definition DENIABLE_AUTHORITY_KINDS : list string :=
  ["tool"; "policy"; "data_scope"; "knowledge_scope"; "memory_scope"; "validator"; "budget"; "failure_policy"].
Definition DENIAL_STATUSES : list string := ["active"; "expired"; "superseded"].
Definition SCOPE_KINDS : list string := ["data_scope"; "knowledge_scope"; "memory_scope"].

Record PolicyDenialLookup := mkLookup {
  denied : bool;
  lookup_reason : string;
  matched_record_id : option string;
  matched_by : option string;
}.

Definition require_fields (prefix : string) (required : list string) (d : odict value) : res unit :=
  match missing_fields required d with
  | [] => Ok tt
  | missing => Raise (PolicyDenialLedgerError (prefix +:+ "missing fields: " +:+ join ", " missing))
  end.

Definition refuse (b : bool) (msg : string) : res unit := raise_if b (PolicyDenialLedgerError msg).

(** ** The closure table *)

Definition _validate_closure_entry (entry : odict value) : res (odict value) :=
  require_fields "closure entry " ["closure_version"; "scope_kind"; "ancestor_scope_id"; "descendant_scope_id";
    "policy_id"; "non_authoritative"; "authority_effect"] entry ;;
  kind ← ditem "scope_kind" entry;
  known ← in_frozenset kind SCOPE_KINDS;
  refuse (negb known) "closure scope_kind is invalid" ;;
  non_authoritative ← ditem "non_authoritative" entry;
  refuse (negb (is_true non_authoritative)) "closure entries must be non_authoritative" ;;
  effect ← ditem "authority_effect" entry;
  refuse (negb (py_eq effect (VStr "reachability_only"))) "closure entries must be reachability_only" ;;
  mret entry.

Definition ScopePolicyClosure := list (odict value).
Definition new_closure (entries : list (odict value)) : res ScopePolicyClosure := mapM _validate_closure_entry entries.

Definition field_is (k s : string) (d : odict value) : bool := py_eq (dget k VNone d) (VStr s).

Definition descendants_for (c : ScopePolicyClosure) (scope_kind ancestor policy closure_version : string) : list string :=
  map (fun e => py_str (dget "descendant_scope_id" VNone e))
    (List.filter (fun e => field_is "scope_kind" scope_kind e && field_is "ancestor_scope_id" ancestor e
       && field_is "policy_id" policy e && field_is "closure_version" closure_version e) c).

Definition is_descendant (c : ScopePolicyClosure) (scope_kind ancestor requested policy closure_version : string) : bool :=
  String.eqb ancestor requested || str_in requested (descendants_for c scope_kind ancestor policy closure_version).

(** ** Denial records *)

Definition FORBIDDEN_DENIAL_FIELDS : list string :=
  ["authority_grant"; "granted_authority"; "profile_patch"; "runtime_profile_patch"; "scope_grant"; "policy_override"].

Definition validate_policy_denial_record (record : odict value) : res (odict value) :=
  require_fields "" ["contract_version"; "id"; "profile_id"; "principal_id"; "denial_predicate";
    "requested_authority"; "policy_id"; "closure_version"; "denial_fingerprint"; "status"; "non_authoritative";
    "authority_effect"] record ;;
  version ← ditem "contract_version" record;
  refuse (negb (py_eq version (VStr "0.1.0"))) "contract_version must be 0.1.0" ;;
  requested ← ditem "requested_authority" record;
  match requested with
  | VDict requested =>
      known ← in_frozenset (dget "kind" VNone requested) DENIABLE_AUTHORITY_KINDS;
      refuse (negb known) "requested_authority.kind is invalid" ;;
      refuse (negb (nonblank (py_str (dget "id" (VStr "") requested)))) "requested_authority.id is required" ;;
      status ← ditem "status" record;
      known ← in_frozenset status DENIAL_STATUSES;
      refuse (negb known) "status is invalid" ;;
      non_authoritative ← ditem "non_authoritative" record;
      refuse (negb (is_true non_authoritative)) "denial records must be non_authoritative" ;;
      effect ← ditem "authority_effect" record;
      refuse (negb (py_eq effect (VStr "deny_only"))) "denial records must be deny_only" ;;
      foldM (fun _ forbidden =>
        refuse (od_mem forbidden record) ("denial records must not contain " +:+ forbidden))
        tt FORBIDDEN_DENIAL_FIELDS ;;
      mret record
  | _ => Raise (PolicyDenialLedgerError "requested_authority must be an object")
  end.

(** The keyword arguments of [build_policy_denial_record]. *)
Record denial_request := mkDenialRequest {
  dr_record_id : value;
  dr_profile_id : value;
  dr_principal_id : value;
  dr_denial_predicate : value;
  dr_kind : value;
  dr_authority_id : value;
  dr_policy_id : value;
  dr_closure_version : value;
  dr_status : value;
  dr_ttl : value;
}.

Definition REQUEST_REQUIRED : list string :=
  ["record_id"; "profile_id"; "principal_id"; "denial_predicate"; "requested_authority_kind";
   "requested_authority_id"; "policy_id"; "closure_version"].

(** [f( **request )]: an unknown or a missing name raises. *)
Definition keyword_request (d : odict value) : res denial_request :=
  match List.find (fun k => negb (str_in k (REQUEST_REQUIRED ++ ["status"; "ttl_expires_at"]))) (od_keys d) with
  | Some k => Raise (TypeError ("build_policy_denial_record() got an unexpected keyword argument " +:+ repr_str k))
  | None =>
      match List.filter (fun k => negb (od_mem k d)) REQUEST_REQUIRED with
      | [] =>
          let a k := dget k VNone d in
          mret (mkDenialRequest (a "record_id") (a "profile_id") (a "principal_id") (a "denial_predicate")
            (a "requested_authority_kind") (a "requested_authority_id") (a "policy_id") (a "closure_version")
            (dget "status" (VStr "active") d) (a "ttl_expires_at"))
      | _ => Raise (TypeError "build_policy_denial_record() missing required keyword-only arguments")
      end
  end.

Section ledger.
Context (sha256 : string -> string).

Definition denial_payload (r : denial_request) : value :=
  VDict [("closure_version", dr_closure_version r); ("denial_predicate", dr_denial_predicate r);
    ("policy_id", dr_policy_id r); ("principal_id", dr_principal_id r); ("profile_id", dr_profile_id r);
    ("requested_authority", VDict [("id", dr_authority_id r); ("kind", dr_kind r)])].

Definition _denial_fingerprint (r : denial_request) : string := "sha256:" +:+ sha256 (canonical (denial_payload r)).

Definition denial_record (r : denial_request) : odict value :=
  [("contract_version", VStr "0.1.0"); ("id", dr_record_id r); ("profile_id", dr_profile_id r);
   ("principal_id", dr_principal_id r); ("denial_predicate", dr_denial_predicate r);
   ("requested_authority", VDict [("kind", dr_kind r); ("id", dr_authority_id r)]);
   ("policy_id", dr_policy_id r); ("closure_version", dr_closure_version r);
   ("denial_fingerprint", VStr (_denial_fingerprint r)); ("status", dr_status r); ("ttl_expires_at", dr_ttl r);
   ("non_authoritative", VBool true); ("authority_effect", VStr "deny_only")].

Definition build_policy_denial_record (r : denial_request) : res (odict value) :=
  validate_policy_denial_record (denial_record r).

Definition _scope_denial_subsumes (record request : odict value) (closure : ScopePolicyClosure) : res bool :=
  denied ← ditem "requested_authority" record;
  requested ← ditem "requested_authority" request;
  match denied, requested with
  | VDict denied, VDict requested =>
      if negb (py_eq (dget "kind" VNone denied) (dget "kind" VNone requested)) then mret false else
      scope ← in_frozenset (dget "kind" VNone denied) SCOPE_KINDS;
      if negb scope then mret false else
      if negb (py_eq (dget "profile_id" VNone record) (dget "profile_id" VNone request)) then mret false else
      if negb (py_eq (dget "principal_id" VNone record) (dget "principal_id" VNone request)) then mret false else
      if negb (py_eq (dget "policy_id" VNone record) (dget "policy_id" VNone request)) then mret false else
      kind ← ditem "kind" denied; ancestor ← ditem "id" denied; wanted ← ditem "id" requested;
      policy ← ditem "policy_id" record; version ← ditem "closure_version" record;
      mret (is_descendant closure (py_str kind) (py_str ancestor) (py_str wanted) (py_str policy) (py_str version))
  | _, _ => mret false
  end.

Record PolicyDenialLedger := mkLedger {
  records : list (odict value);
  closure : ScopePolicyClosure;
}.

Definition new_ledger (rs : list (odict value)) (c : option ScopePolicyClosure) : res PolicyDenialLedger :=
  rs ← mapM validate_policy_denial_record rs;
  mret (mkLedger rs (match c with Some c => c | None => [] end)).

Fixpoint lookup_in (request : odict value) (c : ScopePolicyClosure) (rs : list (odict value)) : res PolicyDenialLookup :=
  match rs with
  | [] => mret (mkLookup false "no matching denial" None None)
  | record :: rs =>
      status ← ditem "status" record;
      if negb (py_eq status (VStr "active")) then lookup_in request c rs else
      fingerprint ← ditem "denial_fingerprint" record;
      wanted ← ditem "denial_fingerprint" request;
      if py_eq fingerprint (VStr (py_str wanted)) then
        id ← ditem "id" record;
        mret (mkLookup true "exact denial fingerprint already exists" (Some (py_str id)) (Some "fingerprint"))
      else
        subsumed ← _scope_denial_subsumes record request c;
        if (subsumed : bool) then
          id ← ditem "id" record;
          mret (mkLookup true "requested scope is subsumed by an existing denied scope" (Some (py_str id))
                  (Some "scope_closure"))
        else lookup_in request c rs
  end.

Definition lookup (l : PolicyDenialLedger) (request : odict value) : res PolicyDenialLookup :=
  r ← keyword_request request;
  request_record ← build_policy_denial_record r;
  lookup_in request_record (closure l) (records l).
End ledger.

(** ** What two requests have in common *)

(** Two requests for the same authority of the same profile, principal, policy
    and closure version, denied by the same predicate; the order of the keys of
    a field that is an object does not matter. *)
Definition same_request (q r : denial_request) : Prop :=
  stored_json (dr_closure_version q) = stored_json (dr_closure_version r) /\
  stored_json (dr_denial_predicate q) = stored_json (dr_denial_predicate r) /\
  stored_json (dr_policy_id q) = stored_json (dr_policy_id r) /\
  stored_json (dr_principal_id q) = stored_json (dr_principal_id r) /\
  stored_json (dr_profile_id q) = stored_json (dr_profile_id r) /\
  stored_json (dr_authority_id q) = stored_json (dr_authority_id r) /\
  stored_json (dr_kind q) = stored_json (dr_kind r).

(** The scope [r] asks for is the one [q] was denied, or reachable from it. *)
Definition scope_below (c : ScopePolicyClosure) (q r : denial_request) : Prop :=
  exists kind, In kind SCOPE_KINDS /\ dr_kind q = VStr kind /\ dr_kind r = VStr kind /\
    py_eq (dr_profile_id q) (dr_profile_id r) = true /\ py_eq (dr_principal_id q) (dr_principal_id r) = true /\
    py_eq (dr_policy_id q) (dr_policy_id r) = true /\
    (py_str (dr_authority_id q) = py_str (dr_authority_id r) \/
     exists entry, In entry c /\ field_is "scope_kind" kind entry = true /\
       field_is "ancestor_scope_id" (py_str (dr_authority_id q)) entry = true /\
       field_is "policy_id" (py_str (dr_policy_id q)) entry = true /\
       field_is "closure_version" (py_str (dr_closure_version q)) entry = true /\
       py_str (dget "descendant_scope_id" VNone entry) = py_str (dr_authority_id r)).

Lemma is_descendant_spec c kind ancestor requested policy version :
  is_descendant c kind ancestor requested policy version = true <->
  ancestor = requested \/
  exists entry, In entry c /\ field_is "scope_kind" kind entry = true /\
    field_is "ancestor_scope_id" ancestor entry = true /\ field_is "policy_id" policy entry = true /\
    field_is "closure_version" version entry = true /\ py_str (dget "descendant_scope_id" VNone entry) = requested.
Proof.
  unfold is_descendant, descendants_for. rewrite orb_true_iff, String.eqb_eq, str_in_In, in_map_iff.
  setoid_rewrite filter_In. repeat setoid_rewrite andb_true_iff. naive_solver.
Qed.

Section lookups.
Context (sha256 : string -> string).

Lemma payload_stored r :
  stored_json (denial_payload r)
  = VDict [("closure_version", stored_json (dr_closure_version r));
      ("denial_predicate", stored_json (dr_denial_predicate r)); ("policy_id", stored_json (dr_policy_id r));
      ("principal_id", stored_json (dr_principal_id r)); ("profile_id", stored_json (dr_profile_id r));
      ("requested_authority", VDict [("id", stored_json (dr_authority_id r)); ("kind", stored_json (dr_kind r))])].
Proof. reflexivity. Qed.

Lemma payload_identifies q r :
  canonical (denial_payload q) = canonical (denial_payload r) <-> same_request q r.
Proof.
  rewrite canonical_inj, !payload_stored. unfold same_request. split; [by intros [= ???????]|].
  intros (-> & -> & -> & -> & -> & -> & ->). done.
Qed.

Lemma fingerprint_identifies q r :
  (sha256 (canonical (denial_payload q)) = sha256 (canonical (denial_payload r)) ->
   canonical (denial_payload q) = canonical (denial_payload r)) ->
  _denial_fingerprint sha256 q = _denial_fingerprint sha256 r <-> same_request q r.
Proof.
  intros Hsha. rewrite <- payload_identifies. unfold _denial_fingerprint. split; [|by intros ->].
  intros H. apply Hsha. by apply (inj (String.append "sha256:")).
Qed.

(** What a record that passed the checks is like. *)
Lemma build_record_Ok r d : build_policy_denial_record sha256 r = Ok d ->
  d = denial_record sha256 r /\ (exists kind, dr_kind r = VStr kind) /\ exists status, dr_status r = VStr status.
Proof.
  unfold build_policy_denial_record, validate_policy_denial_record, refuse. cbn -[canonical DENIABLE_AUTHORITY_KINDS].
  intros H. inv_ok.
  destruct x, x2; try done. apply in_frozenset_Ok in H0 as (kind & -> & _), H3 as (status & -> & _). eauto.
Qed.

Definition built (r : denial_request) : Prop := exists d, build_policy_denial_record sha256 r = Ok d.

Lemma subsumes_spec c q r : built q -> built r ->
  exists b, _scope_denial_subsumes (denial_record sha256 q) (denial_record sha256 r) c = Ok b /\
            (b = true <-> scope_below c q r).
Proof.
  intros [d Hq] [e Hr]. apply build_record_Ok in Hq as (_ & (k & Hk) & _), Hr as (_ & (k' & Hk') & _).
  unfold _scope_denial_subsumes, scope_below. cbn -[is_descendant SCOPE_KINDS _denial_fingerprint].
  rewrite Hk, Hk'. cbn -[is_descendant SCOPE_KINDS].
  destruct (String.eqb_spec k k') as [<-|Hne]; cbn -[is_descendant SCOPE_KINDS];
    [|eexists; split; [done|]; split; [done|]; intros (? & _ & [= ->] & [= ->] & _); done].
  destruct (str_in k SCOPE_KINDS) eqn:Es; cbn -[is_descendant SCOPE_KINDS];
    [apply str_in_In in Es|apply str_in_false in Es; eexists; split; [done|]; split; [done|];
     by intros (? & ? & [= ->] & _)].
  destruct (py_eq (dr_profile_id q) _) eqn:E1; cbn -[is_descendant SCOPE_KINDS];
    [|eexists; split; [done|]; split; [done|]; intros (? & _ & _ & _ & ? & _); done].
  destruct (py_eq (dr_principal_id q) _) eqn:E2; cbn -[is_descendant SCOPE_KINDS];
    [|eexists; split; [done|]; split; [done|]; intros (? & _ & _ & _ & _ & ? & _); done].
  destruct (py_eq (dr_policy_id q) _) eqn:E3; cbn -[is_descendant SCOPE_KINDS];
    [|eexists; split; [done|]; split; [done|]; intros (? & _ & _ & _ & _ & _ & ? & _); done].
  eexists. split; [done|]. rewrite is_descendant_spec. split.
  - intros Hd. exists k. by split_and!.
  - by intros (? & _ & [= <-] & _ & _ & _ & _ & Hd).
Qed.

Lemma lookup_in_spec c r qs : built r -> Forall built qs ->
  exists out, lookup_in (denial_record sha256 r) c (map (denial_record sha256) qs) = Ok out /\
    (denied out = true <-> exists q, In q qs /\ dr_status q = VStr "active" /\
       (_denial_fingerprint sha256 q = _denial_fingerprint sha256 r \/ scope_below c q r)) /\
    (denied out = true <-> is_Some (matched_record_id out)).
Proof.
  intros Hr. induction 1 as [|q qs Hq _ (out & Ho & IH & IH')].
  - eexists. split; [done|]. split; [|by split; [|intros []]]. split; [done|]. by intros (? & [] & _).
  - cbn -[_scope_denial_subsumes _denial_fingerprint py_eq]. destruct (py_eq (dr_status q) (VStr "active")) eqn:Es;
      cbn -[_scope_denial_subsumes _denial_fingerprint py_eq].
    2: { exists out. split; [done|]. split; [|done]. rewrite IH. split.
      - intros (q' & Hin & Hx). exists q'. by split; [right|].
      - intros (q' & [<-|Hin] & Ha & Hx); [|by exists q']. by rewrite Ha in Es. }
    apply py_eq_str_r in Es.
    destruct (py_eq (VStr (_denial_fingerprint sha256 q)) _) eqn:Ef.
    + apply py_eq_str in Ef. assert (Efp : _denial_fingerprint sha256 q = _denial_fingerprint sha256 r) by congruence.
      clear Ef. eexists. split; [done|]. cbn -[_denial_fingerprint].
      split; [|by split; [eauto|]]. split; [|done]. intros _. exists q. by split; [left|split; [|left]].
    + destruct (subsumes_spec c q r Hq Hr) as (b & -> & Hb). cbn. destruct b; cbn.
      * eexists. split; [done|]. cbn. split; [|by split; [eauto|]]. split; [|done]. intros _.
        exists q. split; [by left|split; [done|right]]. by apply Hb.
      * exists out. split; [done|]. split; [|done]. rewrite IH. split.
        -- intros (q' & Hin & Hx). exists q'. by split; [right|].
        -- intros (q' & [<-|Hin] & Ha & Hx); [|by exists q'].
           destruct Hx as [Hx|Hx]; [|by apply Hb in Hx]. rewrite Hx in Ef. cbn in Ef. by rewrite String.eqb_refl in Ef.
Qed.

Lemma validate_is_id d d' : validate_policy_denial_record d = Ok d' -> d' = d.
Proof.
  unfold validate_policy_denial_record, refuse. intros H. inv_ok.
  repeat match goal with H : match ?v with _ => _ end = Ok _ |- _ => destruct v; try done end. by inv_ok.
Qed.
End lookups.

(** ** The ledger *)

(** C25. A ledger of records made by [build_policy_denial_record] denies a request
    exactly when it holds an active denial of the same request, its closure
    version included, or an active denial of a scope that is the requested one,
    or from which the closure table of the denial's version reaches it, for the
    same profile, principal and policy, whatever closure version the request
    carries, see [stale_closure_subsumes]; it names the record, and it never
    raises on records and requests that pass the checks. The digest is assumed
    not to confuse the request with a recorded one. *)
Theorem ledger_denies_exactly sha256 c qs rs l d r :
  (forall q, In q qs -> sha256 (canonical (denial_payload q)) = sha256 (canonical (denial_payload r)) ->
             canonical (denial_payload q) = canonical (denial_payload r)) ->
  mapM (build_policy_denial_record sha256) qs = Ok rs -> new_ledger rs (Some c) = Ok l ->
  keyword_request d = Ok r -> built sha256 r ->
  exists out, lookup sha256 l d = Ok out /\
    (denied out = true <-> exists q, In q qs /\ dr_status q = VStr "active" /\
                                     (same_request q r \/ scope_below c q r)) /\
    (denied out = true <-> is_Some (matched_record_id out)).
Proof.
  intros Hsha Hqs Hl Hd Hr. apply mapM_Ok in Hqs.
  assert (Hrs : rs = map (denial_record sha256) qs /\ Forall (built sha256) qs).
  { clear -Hqs. induction Hqs as [|q x qs rs Hx _ [-> IH]]; [done|]. pose proof (build_record_Ok _ _ _ Hx) as (-> & _).
    split; [done|]. constructor; [by eexists|done]. }
  destruct Hrs as [-> HF]. unfold new_ledger in Hl. inv_ok. subst l.
  assert (Hx : x = map (denial_record sha256) qs).
  { apply mapM_Ok in H. clear -H. remember (map _ _) as ds eqn:E. clear E.
    induction H as [|a b ds x Ha _ ->]; [done|]. by apply validate_is_id in Ha as ->. }
  subst x. unfold lookup. rewrite Hd. destruct Hr as [e He]. cbn -[build_policy_denial_record lookup_in].
  rewrite He. pose proof (build_record_Ok _ _ _ He) as (-> & _). cbn -[build_policy_denial_record lookup_in].
  destruct (lookup_in_spec sha256 c r qs) as (out & -> & Ho & Hm); [by eexists|done|].
  exists out. split; [done|]. split; [|done]. rewrite Ho.
  split; intros (q & Hq & Ha & [H1|H1]); exists q; split_and!; try done; try (by right); left;
    by apply (fingerprint_identifies sha256 q r (Hsha q Hq)).
Qed.

Definition demo_request (id kind authority version : string) (status ttl : value) : denial_request :=
  mkDenialRequest (VStr id) (VStr "profile-1") (VStr "user-1") (VStr "tool_not_in_runtime_profile") (VStr kind)
    (VStr authority) (VStr "policy-1") (VStr version) status ttl.
Definition demo_denials : list denial_request :=
  [demo_request "d-1" "tool" "filesystem-write" "v1" (VStr "active") VNone;
   demo_request "d-2" "data_scope" "crm" "v1" (VStr "active") VNone;
   demo_request "d-3" "tool" "test-runner" "v1" (VStr "expired") VNone].
Definition demo_closure : list (odict value) :=
  [[("closure_version", VStr "v1"); ("scope_kind", VStr "data_scope"); ("ancestor_scope_id", VStr "crm");
    ("descendant_scope_id", VStr "crm-orders"); ("policy_id", VStr "policy-1"); ("non_authoritative", VBool true);
    ("authority_effect", VStr "reachability_only")]].
Definition demo_arguments (kind authority : string) : odict value :=
  [("record_id", VStr "request"); ("profile_id", VStr "profile-1"); ("principal_id", VStr "user-1");
   ("denial_predicate", VStr "tool_not_in_runtime_profile"); ("requested_authority_kind", VStr kind);
   ("requested_authority_id", VStr authority); ("policy_id", VStr "policy-1"); ("closure_version", VStr "v1")].

(** With the identity as digest, which confuses nothing. *)
Definition demo_lookup (kind authority : string) : res PolicyDenialLookup :=
  rs ← mapM (build_policy_denial_record id) demo_denials;
  c ← new_closure demo_closure;
  l ← new_ledger rs (Some c);
  lookup id l (demo_arguments kind authority).

Example lookup_ex :
  (demo_lookup "tool" "filesystem-write", demo_lookup "data_scope" "crm-orders", demo_lookup "tool" "test-runner")
  = (Ok (mkLookup true "exact denial fingerprint already exists" (Some "d-1") (Some "fingerprint")),
     Ok (mkLookup true "requested scope is subsumed by an existing denied scope" (Some "d-2") (Some "scope_closure")),
     Ok (mkLookup false "no matching denial" None None)).
Proof. vm_compute. reflexivity. Qed.

(** A request under a new closure version is subsumed by a denial, and by an entry
    of the closure table, of the old one. *)
Example stale_closure_subsumes :
  (rs ← mapM (build_policy_denial_record id) demo_denials;
   c ← new_closure demo_closure;
   l ← new_ledger rs (Some c);
   lookup id l (od_set "closure_version" (VStr "v2") (demo_arguments "data_scope" "crm-orders")))
  = Ok (mkLookup true "requested scope is subsumed by an existing denied scope" (Some "d-2") (Some "scope_closure")).
Proof. vm_compute. reflexivity. Qed.

(** An unknown argument raises, as does a missing one. *)
Example lookup_arguments :
  is_ok (keyword_request (("reason", VStr "x") :: demo_arguments "tool" "git-read")) = false /\
  is_ok (keyword_request (tail (demo_arguments "tool" "git-read"))) = false.
Proof. done. Qed.

(** The expiry time of a denial is stored and never looked at. *)
Example ttl_ignored :
  (rs ← mapM (build_policy_denial_record id)
     [demo_request "d-1" "tool" "git-read" "v1" (VStr "active") (VStr "2001-01-01T00:00:00+00:00")];
   l ← new_ledger rs None; lookup id l (demo_arguments "tool" "git-read"))
  = Ok (mkLookup true "exact denial fingerprint already exists" (Some "d-1") (Some "fingerprint")).
Proof. vm_compute. reflexivity. Qed.

Lemma ledger_denies_exactly_witness :
  exists out, lookup id (mkLedger (map (denial_record id) demo_denials) demo_closure)
                (demo_arguments "data_scope" "crm-orders") = Ok out /\
    (denied out = true <-> exists q, In q demo_denials /\ dr_status q = VStr "active" /\
       (same_request q (demo_request "request" "data_scope" "crm-orders" "v1" (VStr "active") VNone) \/
        scope_below demo_closure q (demo_request "request" "data_scope" "crm-orders" "v1" (VStr "active") VNone))) /\
    (denied out = true <-> is_Some (matched_record_id out)).
Proof.
  eapply (ledger_denies_exactly id demo_closure demo_denials (map (denial_record id) demo_denials)).
  - intros q _ H. exact H.
  - vm_compute. reflexivity.
  - vm_compute. reflexivity.
  - vm_compute. reflexivity.
  - eexists. vm_compute. reflexivity.
Defined.
