(* ===== verification/PlannerMemory.v ===== *)
(** * Planner memory: what a planner may learn from past runs

    Models [runtime/planner_memory.py]: conflict sets among memory records, the
    record of which memories a plan used, the attribution of a run's outcome to
    them with its ranking feedback, and the graph of relationships between
    lessons. None of it may carry authority. A record is a dictionary; the one
    fraction in it, the weight of a feedback item, is kept beside the item's
    other fields. [sha256] is the hexadecimal digest of [hashlib], of ASCII text. *)

From Stdlib Require Import SpecFloat.
From S2P Require Import Prelude PyStr PyFloat PyValue Models Artifacts Json Context.
Open Scope string_scope.
Open Scope list_scope.

Definition LESSON_OUTCOMES : list string := ["succeeded"; "failed"; "neutral"].
Definition SUCCESS_CRITERION_STATUSES : list string := ["met"; "missed"; "not_applicable"].
Definition LESSON_FEEDBACK_EFFECTS : list string := ["ranking_adjustment"; "planner_hint_adjustment"].
Definition LESSON_FEEDBACK_DIRECTIONS : list string := ["promote"; "demote"; "neutral"].
Definition LESSON_FEEDBACK_OUTPUT_EFFECT : string := "non_authoritative_ranking_only".
Definition MAX_LESSON_FEEDBACK_WEIGHT_DELTA : float := ratio 2 10.
Definition LESSON_RELATIONS : list string := ["reinforces"; "contradicts"; "supersedes"; "refines"; "duplicates"].
Definition LESSON_RELATION_DIRECTIONS : list string := ["directed"; "symmetric"].
Definition LESSON_RELATION_RANKING_EFFECTS : list string :=
  ["promote_related"; "demote_superseded"; "dedupe_duplicate"; "surface_conflict"; "none"].
Definition LESSON_RELATION_VISIBILITY_EFFECTS : list string := ["ranking"; "conflict_display"; "supersession_notice"; "dedupe"].
Definition LESSON_RELATION_OUTPUT_EFFECT : string := "non_authoritative_relationship_metadata".

(** [if b: raise PlannerMemoryRecordError(msg)] *)
Definition unsafe_if (b : bool) (msg : string) : res unit := raise_if b (PlannerMemoryRecordError msg).

(** The texts of a list, or a text alone, that are not blank. *)
Definition _string_tuple (v : value) : list string :=
  match v with
  | VStr s => if nonblank s then [s] else []
  | v => nonblank_items v
  end.

Definition require_fields (required : list string) (record : odict value) : res unit :=
  match missing_fields required record with
  | [] => mret tt
  | missing => Raise (PlannerMemoryRecordError ("missing fields: " +:+ join ", " missing))
  end.

(** [record[field] != text], [record[field] not in choices], of a field that is there *)
Definition require_text (field text msg : string) (record : odict value) : res unit :=
  v ← ditem field record; unsafe_if (negb (py_eq v (VStr text))) msg.
Definition require_one_of (field : string) (choices : list string) (msg : string) (record : odict value) : res unit :=
  v ← ditem field record; ok ← in_frozenset v choices; unsafe_if (negb ok) msg.

Definition get_text (field : string) (record : odict value) : string := strip (py_str (dget field (VStr "") record)).
Definition require_no_delta (msg : string) (record : odict value) : res unit :=
  unsafe_if (nonempty (_string_tuple (dget "authority_delta" VNone record))) msg.

(** ** Conflicting lessons *)

Record LessonConflictSet := mkConflictSet { conflict_id : string; memory_ids : list string; relation : string; resolution : string }.

(** The groups and the relations, by conflict key. *)
Definition group_step (acc : odict (list string) * odict string) (record : odict value) : odict (list string) * odict string :=
  let conflict_key := get_text "conflict_key" record in
  let memory_id := get_text "id" record in
  if String.eqb conflict_key "" || String.eqb memory_id "" then acc
  else (od_set conflict_key (default [] (od_get conflict_key acc.1) ++ [memory_id]) acc.1,
        od_set conflict_key (py_str (dget "conflict_relation" (VStr "conflicts") record)) acc.2).

Definition conflict_set (relation_by_key : odict string) (group : string * list string) : list LessonConflictSet :=
  let unique_memory_ids := fromkeys group.2 in
  if (length unique_memory_ids <? 2)%nat then []
  else [mkConflictSet ("conflict-" +:+ group.1) unique_memory_ids (default "" (od_get group.1 relation_by_key))
          "planner_selection_required"].

Definition build_lesson_conflict_sets (memory_records : list (odict value)) : list LessonConflictSet :=
  let '(grouped, relation_by_key) := foldl group_step ([], []) memory_records in
  mjoin (map (conflict_set relation_by_key) grouped).

(** ** Which memories a plan used *)

Definition COT_MARKERS : list string :=
  ["my hidden reasoning"; "chain of thought"; "step-by-step reasoning"; "first i thought"].
Definition _contains_chain_of_thought (v : string) : bool := existsb (fun marker => contains marker (casefold v)) COT_MARKERS.

Definition _conflict_set_to_mapping (c : LessonConflictSet) : odict value :=
  [("conflict_id", VStr (conflict_id c)); ("memory_ids", strs (memory_ids c)); ("relation", VStr (relation c));
   ("resolution", VStr (resolution c))].

Definition SELECTION_FIELDS : list string :=
  ["contract_version"; "record_id"; "plan_id"; "used_memory_ids"; "ignored_memory_ids"; "effect"; "selection_reason";
   "authority_delta"; "plan_change"; "authority_impact"; "conflict_sets"].

(** The used and the ignored ids of a record, which must be apart. *)
Definition require_disjoint_ids (record : odict value) : res (list string * list string) :=
  let used := _string_tuple (dget "used_memory_ids" VNone record) in
  unsafe_if (negb (nonempty used)) "used_memory_ids are required" ;;
  let ignored := _string_tuple (dget "ignored_memory_ids" VNone record) in
  unsafe_if (existsb (fun x => str_in x ignored) used) "used and ignored memory IDs must be disjoint" ;;
  mret (used, ignored).

Definition require_authority_impact (record : odict value) : res unit :=
  match dget "authority_impact" VNone record with
  | VDict impact =>
      unsafe_if (negb (py_eq (dget "status" VNone impact) (VStr "none"))) "authority_impact.status must be none" ;;
      unsafe_if (negb (is_true (dget "validator_visible" VNone impact))) "authority_impact must be validator-visible"
  | _ => Raise (PlannerMemoryRecordError "authority_impact is required")
  end.

Definition validate_planner_memory_selection_record (record : odict value) : res (odict value) :=
  require_fields SELECTION_FIELDS record ;;
  require_text "contract_version" "0.1.0" "contract_version must be 0.1.0" record ;;
  '(used, ignored) ← require_disjoint_ids record;
  require_one_of "effect" MEMORY_ALLOWED_EFFECTS "effect must be non-authoritative" record ;;
  unsafe_if (String.eqb (get_text "selection_reason" record) "") "selection_reason is required" ;;
  require_no_delta "authority_delta must be empty" record ;;
  require_authority_impact record ;;
  unsafe_if (_contains_chain_of_thought (py_str (dget "selection_reason" (VStr "") record)))
    "selection_reason must be structured, not chain-of-thought" ;;
  mret (od_set "ignored_memory_ids" (strs ignored) (od_set "used_memory_ids" (strs used) record)).

Definition selection_record (record_id plan_id : string) (used ignored : list string)
    (effect selection_reason plan_change : string) (conflict_sets : list value) : odict value :=
  [("contract_version", VStr "0.1.0"); ("record_id", VStr record_id); ("plan_id", VStr plan_id);
   ("used_memory_ids", strs (List.filter nonblank used)); ("ignored_memory_ids", strs (List.filter nonblank ignored));
   ("effect", VStr effect); ("selection_reason", VStr selection_reason); ("authority_delta", VList []);
   ("plan_change", VStr plan_change);
   ("authority_impact", VDict [("status", VStr "none"); ("validator_visible", VBool true);
                               ("checked_by", VStr "PostPlanningMemoryInvariantValidator")]);
   ("conflict_sets", VList conflict_sets)].

(** A conflict set is an object of the class or a dictionary. *)
Definition build_planner_memory_selection_record (record_id plan_id : string) (used ignored : list string)
    (effect selection_reason plan_change : string) (conflict_sets : list (LessonConflictSet + odict value)) : res (odict value) :=
  validate_planner_memory_selection_record (selection_record record_id plan_id used ignored effect selection_reason plan_change
    (map (fun c => VDict (match c with inl c => _conflict_set_to_mapping c | inr d => d end)) conflict_sets)).

(** ** What a run's outcome says of the memories used *)

Inductive weight :=
| WNone
| WInt (z : Z)
| WFloat (f : float)
| WOther.

(** A feedback item: its [weight_delta], and its other fields. *)
Record FeedbackItem := mkFeedback { item_fields : odict value; weight_delta : weight }.

(** [float(w)] of an integer or a float; a boolean is an integer. *)
Definition finite_or_nan (f : float) : bool := match f with S754_infinity _ => false | _ => true end.
Definition weight_float (w : weight) : res float :=
  match w with
  | WInt z => let f := float_of_int z in
              raise_if (negb (finite_or_nan f)) (OverflowError "int too large to convert to float") ;; mret f
  | WFloat f => mret f
  | _ => Raise (PlannerMemoryRecordError "ranking_feedback weight_delta must be numeric")
  end.

(** An attribution record: its [ranking_feedback], and its other fields. *)
Inductive feedback_field :=
| NoFeedback
| NotAList
| Feedback (items : list (option FeedbackItem)).
Record Attribution := mkAttribution { attribution_fields : odict value; ranking_feedback : feedback_field }.

Section attribution.
Context (sha256 : string -> string).

Definition build_context_fingerprint (context : odict value) : string := "sha256:" +:+ sha256 (canonical (VDict context)).

Definition on_hetzner (uri : string) : bool := startswith "hetzner://runtime/" uri.

Definition success_criterion (item : value) : res unit :=
  match item with
  | VDict item =>
      unsafe_if (String.eqb (get_text "criterion" item) "") "success criteria require criterion" ;;
      ok ← in_frozenset (dget "status" VNone item) SUCCESS_CRITERION_STATUSES;
      unsafe_if (negb ok) "success criteria status is invalid" ;;
      let evidence_uris := _string_tuple (dget "evidence_uris" VNone item) in
      unsafe_if (negb (nonempty evidence_uris)) "success criteria require evidence_uris" ;;
      unsafe_if (existsb (fun uri => negb (on_hetzner uri)) evidence_uris) "success criteria evidence must stay on Hetzner"
  | _ => Raise (PlannerMemoryRecordError "success_criteria entries must be objects")
  end.

Definition _validate_success_criteria (v : value) : res unit :=
  match v with
  | VList (_ :: _ as items) => foldM (fun _ item => success_criterion item) tt items
  | _ => Raise (PlannerMemoryRecordError "success_criteria are required")
  end.

Definition ERROR_CLASSES : list string :=
  ["F1_INEFFICIENCY_PATH"; "F2_INTERFACE_CONTRACT_BREAKDOWN"; "R8_POLICY_CONFLICT_CONTEXT_CONTAMINATION"; "NONE"].
Definition CLASSIFICATION_SOURCES : list string := ["rule_based_runtime_v1"; "llm_judge_v1"].

Definition _validate_error_classification (v : value) : res unit :=
  match v with
  | VDict d =>
      ok ← in_frozenset (dget "error_class" VNone d) ERROR_CLASSES;
      unsafe_if (negb ok) "error_classification.error_class is invalid" ;;
      ok ← in_frozenset (dget "classification_source" VNone d) CLASSIFICATION_SOURCES;
      unsafe_if (negb ok) "error_classification.classification_source is invalid"
  | _ => Raise (PlannerMemoryRecordError "error_classification is required")
  end.

(** The weight of an item, checked against the bound and the item's direction. *)
Definition check_weight (direction : value) (w : weight) : res unit :=
  f ← weight_float w;
  unsafe_if (SFltb MAX_LESSON_FEEDBACK_WEIGHT_DELTA (SFabs f)) "ranking_feedback weight_delta exceeds safe maximum" ;;
  unsafe_if (py_eq direction (VStr "promote") && SFleb f fzero) "promote feedback requires positive weight_delta" ;;
  unsafe_if (py_eq direction (VStr "demote") && SFleb fzero f) "demote feedback requires negative weight_delta" ;;
  unsafe_if (py_eq direction (VStr "neutral") && negb (SFeqb f fzero)) "neutral feedback requires zero weight_delta".

Definition feedback_item (context_fingerprint : string) (known_memory_ids : list string) (item : option FeedbackItem) : res FeedbackItem :=
  match item with
  | None => Raise (PlannerMemoryRecordError "ranking_feedback entries must be objects")
  | Some item =>
      let d := item_fields item in
      unsafe_if (negb (str_in (get_text "memory_id" d) known_memory_ids)) "ranking_feedback memory_id must be selected or ignored" ;;
      ok ← in_frozenset (dget "effect" VNone d) LESSON_FEEDBACK_EFFECTS;
      unsafe_if (negb ok) "ranking_feedback effect is invalid" ;;
      let direction := dget "direction" VNone d in
      ok ← in_frozenset direction LESSON_FEEDBACK_DIRECTIONS;
      unsafe_if (negb ok) "ranking_feedback direction is invalid" ;;
      check_weight direction (weight_delta item) ;;
      unsafe_if (negb (is_true (dget "context_bound" VNone d))) "ranking_feedback must be context-bound" ;;
      unsafe_if (negb (py_eq (dget "context_fingerprint" VNone d) (VStr context_fingerprint)))
        "ranking_feedback context_fingerprint mismatch" ;;
      require_no_delta "ranking_feedback authority_delta must be empty" d ;;
      unsafe_if (String.eqb (get_text "reason" d) "") "ranking_feedback reason is required" ;;
      mret item
  end.

Definition _validate_lesson_ranking_feedback (v : feedback_field) (context_fingerprint : string) (known_memory_ids : list string)
    : res (list FeedbackItem) :=
  match v with
  | Feedback items => mapM (feedback_item context_fingerprint known_memory_ids) items
  | _ => Raise (PlannerMemoryRecordError "ranking_feedback must be a list")
  end.

Definition ATTRIBUTION_FIELDS : list string :=
  ["contract_version"; "record_id"; "run_id"; "selection_record_id"; "plan_id"; "used_memory_ids"; "ignored_memory_ids";
   "context_fingerprint"; "outcome"; "success_criteria"; "error_classification"; "ranking_feedback"; "feedback_effect";
   "authority_delta"].

(** The required fields, with [ranking_feedback] looked for where it is kept. *)
Definition require_attribution_fields (a : Attribution) : res unit :=
  require_fields ATTRIBUTION_FIELDS
    (match ranking_feedback a with NoFeedback => attribution_fields a | _ => od_set "ranking_feedback" VNone (attribution_fields a) end).

Definition validate_lesson_attribution_record (a : Attribution) : res Attribution :=
  let record := attribution_fields a in
  require_attribution_fields a ;;
  require_text "contract_version" "0.1.0" "contract_version must be 0.1.0" record ;;
  '(used, ignored) ← require_disjoint_ids record;
  let context_fingerprint := py_str (dget "context_fingerprint" (VStr "") record) in
  unsafe_if (negb (startswith "sha256:" context_fingerprint)) "context_fingerprint must be a sha256 fingerprint" ;;
  require_one_of "outcome" LESSON_OUTCOMES "outcome is invalid" record ;;
  require_text "feedback_effect" LESSON_FEEDBACK_OUTPUT_EFFECT "feedback_effect must be non-authoritative" record ;;
  require_no_delta "authority_delta must be empty" record ;;
  _validate_success_criteria (dget "success_criteria" VNone record) ;;
  _validate_error_classification (dget "error_classification" VNone record) ;;
  feedback ← _validate_lesson_ranking_feedback (ranking_feedback a) context_fingerprint (used ++ ignored);
  mret (mkAttribution (od_set "ignored_memory_ids" (strs ignored) (od_set "used_memory_ids" (strs used) record))
    (Feedback (map Some feedback))).

(** [{"context_fingerprint": ..., "context_bound": True, "authority_delta": [], **dict(item)}] *)
Definition bound_item (context_fingerprint : string) (item : FeedbackItem) : FeedbackItem :=
  mkFeedback (od_update [("context_fingerprint", VStr context_fingerprint); ("context_bound", VBool true); ("authority_delta", VList [])]
    (item_fields item)) (weight_delta item).

Definition build_lesson_attribution_record (record_id run_id : string) (selection_record context : odict value) (outcome : string)
    (success_criteria : list (odict value)) (error_classification : odict value) (feedback : list FeedbackItem) : res Attribution :=
  selection ← validate_planner_memory_selection_record selection_record;
  let context_fingerprint := build_context_fingerprint context in
  selection_record_id ← ditem "record_id" selection;
  plan_id ← ditem "plan_id" selection;
  used ← ditem "used_memory_ids" selection;
  ignored ← ditem "ignored_memory_ids" selection;
  validate_lesson_attribution_record (mkAttribution
    [("contract_version", VStr "0.1.0"); ("record_id", VStr record_id); ("run_id", VStr run_id);
     ("selection_record_id", selection_record_id); ("plan_id", plan_id); ("used_memory_ids", used); ("ignored_memory_ids", ignored);
     ("context_fingerprint", VStr context_fingerprint); ("outcome", VStr outcome);
     ("success_criteria", VList (map VDict success_criteria)); ("error_classification", VDict error_classification);
     ("feedback_effect", VStr LESSON_FEEDBACK_OUTPUT_EFFECT); ("authority_delta", VList [])]
    (Feedback (map (fun item => Some (bound_item context_fingerprint item)) feedback))).

(** The gate: its fields, and its items. *)
Definition build_lesson_ranking_feedback_gate (a : Attribution) : res (odict value * list FeedbackItem) :=
  attribution ← validate_lesson_attribution_record a;
  let d := attribution_fields attribution in
  record_id ← ditem "record_id" d;
  selection_record_id ← ditem "selection_record_id" d;
  context_fingerprint ← ditem "context_fingerprint" d;
  let items := match ranking_feedback attribution with Feedback items => omap id items | _ => [] end in
  mret ([("contract_version", VStr "0.1.0"); ("record_id", VStr ("feedback-" +:+ py_str record_id));
         ("source_attribution_record_id", record_id); ("selection_record_id", selection_record_id);
         ("context_fingerprint", context_fingerprint); ("feedback_effect", VStr LESSON_FEEDBACK_OUTPUT_EFFECT);
         ("authority_delta", VList [])], items).
End attribution.

(** ** Relationships between lessons *)

Definition EDGE_FIELDS : list string :=
  ["contract_version"; "edge_id"; "source_memory_id"; "target_memory_id"; "relation"; "direction"; "confidence"; "reason";
   "evidence_uris"; "ranking_effect"; "visibility_effects"; "non_authoritative"; "authority_delta"].

Definition validate_lesson_relationship_edge (edge : odict value) : res (odict value) :=
  require_fields EDGE_FIELDS edge ;;
  require_text "contract_version" "0.1.0" "contract_version must be 0.1.0" edge ;;
  let source_memory_id := get_text "source_memory_id" edge in
  let target_memory_id := get_text "target_memory_id" edge in
  unsafe_if (String.eqb source_memory_id "" || String.eqb target_memory_id "") "lesson relationship endpoints are required" ;;
  unsafe_if (String.eqb source_memory_id target_memory_id) "lesson relationship endpoints must differ" ;;
  require_one_of "relation" LESSON_RELATIONS "lesson relationship relation is invalid" edge ;;
  require_one_of "direction" LESSON_RELATION_DIRECTIONS "lesson relationship direction is invalid" edge ;;
  require_one_of "confidence" ["low"; "medium"; "high"] "lesson relationship confidence is invalid" edge ;;
  unsafe_if (String.eqb (get_text "reason" edge) "") "lesson relationship reason is required" ;;
  let evidence_uris := _string_tuple (dget "evidence_uris" VNone edge) in
  unsafe_if (negb (nonempty evidence_uris)) "lesson relationship evidence_uris are required" ;;
  unsafe_if (existsb (fun uri => negb (on_hetzner uri)) evidence_uris) "lesson relationship evidence must stay on Hetzner" ;;
  require_one_of "ranking_effect" LESSON_RELATION_RANKING_EFFECTS "lesson relationship ranking_effect is invalid" edge ;;
  let visibility_effects := _string_tuple (dget "visibility_effects" VNone edge) in
  unsafe_if (negb (nonempty visibility_effects)) "lesson relationship visibility_effects are required" ;;
  unsafe_if (existsb (fun effect => negb (str_in effect LESSON_RELATION_VISIBILITY_EFFECTS)) visibility_effects)
    "lesson relationship visibility_effect is invalid" ;;
  unsafe_if (negb (is_true (dget "non_authoritative" VNone edge))) "lesson relationship must be non-authoritative" ;;
  require_no_delta "lesson relationship authority_delta must be empty" edge ;;
  mret (od_set "visibility_effects" (strs visibility_effects) (od_set "evidence_uris" (strs evidence_uris) edge)).

Definition build_lesson_relationship_edge (edge_id source_memory_id target_memory_id relation direction reason : string)
    (evidence_uris : list string) (ranking_effect : string) (visibility_effects : list string) (confidence : string) : res (odict value) :=
  validate_lesson_relationship_edge
    [("contract_version", VStr "0.1.0"); ("edge_id", VStr edge_id); ("source_memory_id", VStr source_memory_id);
     ("target_memory_id", VStr target_memory_id); ("relation", VStr relation); ("direction", VStr direction);
     ("confidence", VStr confidence); ("reason", VStr reason); ("evidence_uris", strs (List.filter nonblank evidence_uris));
     ("ranking_effect", VStr ranking_effect); ("visibility_effects", strs (List.filter nonblank visibility_effects));
     ("non_authoritative", VBool true); ("authority_delta", VList [])].

Definition ranking_hint (edge : odict value) : res (odict value) :=
  source ← ditem "source_memory_id" edge;
  target ← ditem "target_memory_id" edge;
  relation ← ditem "relation" edge;
  ranking_effect ← ditem "ranking_effect" edge;
  visibility_effects ← ditem "visibility_effects" edge;
  mret [("source_memory_id", source); ("target_memory_id", target); ("relation", VStr (py_str relation));
        ("ranking_effect", ranking_effect); ("visibility_effects", visibility_effects); ("non_authoritative", VBool true);
        ("authority_delta", VList [])].

Definition count_relation (counts : odict Z) (edge : odict value) : res (odict Z) :=
  relation ← ditem "relation" edge;
  mret (od_set (py_str relation) (default 0%Z (od_get (py_str relation) counts) + 1)%Z counts).

Definition build_lesson_relationship_graph (edges : list (odict value)) (graph_id : string) : res (odict value) :=
  validated_edges ← mapM validate_lesson_relationship_edge edges;
  relation_counts ← foldM count_relation [] validated_edges;
  ranking_hints ← mapM ranking_hint validated_edges;
  mret [("contract_version", VStr "0.1.0"); ("graph_id", VStr graph_id); ("feedback_effect", VStr LESSON_RELATION_OUTPUT_EFFECT);
        ("lesson_edges", VList (map VDict validated_edges));
        ("relation_counts", VDict (map (fun kv => (kv.1, VInt kv.2)) (py_sorted (fun a b => str_leb a.1 b.1) relation_counts)));
        ("ranking_hints", VList (map VDict ranking_hints)); ("authority_delta", VList [])].

(** ** Lemmas *)

Lemma unsafe_if_Ok b msg u : unsafe_if b msg = Ok u <-> b = false.
Proof. apply raise_if_Ok. Qed.

Lemma require_one_of_Ok field choices msg d u :
  require_one_of field choices msg d = Ok u -> exists s, od_get field d = Some (VStr s) /\ In s choices.
Proof.
  unfold require_one_of, ditem. destruct (od_get field d) as [v|]; [|done]. cbn [mbind result_bind].
  destruct (in_frozenset v choices) as [[]|] eqn:E; try done. apply in_frozenset_Ok in E as (s & -> & Hs). eauto.
Qed.

(** The groups of the records read so far: the ids that declare a key, in order. *)
Definition declares (key : string) (r : odict value) : bool :=
  String.eqb (get_text "conflict_key" r) key && negb (String.eqb (get_text "id" r) "").
Definition declared (key : string) (rs : list (odict value)) : list (odict value) := List.filter (declares key) rs.
Definition relation_of (rs : list (odict value)) : string :=
  match last rs with Some r => py_str (dget "conflict_relation" (VStr "conflicts") r) | None => "" end.

Lemma grouped_spec rs key : key <> "" ->
  let acc := foldl group_step ([], []) rs in
  od_get key acc.1 = (match declared key rs with [] => None | l => Some (map (get_text "id") l) end) /\
  default "" (od_get key acc.2) = relation_of (declared key rs).
Proof.
  intros Hk. cbv zeta. unfold declared. induction rs as [|r rs IH] using rev_ind; [done|].
  rewrite foldl_snoc. destruct (foldl group_step ([], []) rs) as [groups relations]. cbn [fst snd] in IH. destruct IH as [IH1 IH2].
  rewrite List.filter_app. cbn [List.filter]. unfold group_step, declares at 2 4. cbv zeta. cbn [fst snd].
  destruct (String.eqb_spec (get_text "conflict_key" r) key) as [<-|Hne].
  - apply String.eqb_neq in Hk as ->. destruct (String.eqb (get_text "id" r) ""); cbn [orb negb andb fst snd].
    { by rewrite app_nil_r. }
    rewrite !od_get_set_eq, IH1. unfold relation_of. rewrite last_snoc. split; [|done].
    destruct (List.filter _ rs) as [|r' l]; [done|]. cbn [app default].
    change (r' :: l ++ [r]) with ((r' :: l) ++ [r]). by rewrite map_app.
  - rewrite app_nil_r. destruct (_ || _); cbn [fst snd]; [done|]. by rewrite !od_get_set_ne by done.
Qed.

Lemma grouped_keys rs : NoDup (od_keys (foldl group_step ([], []) rs).1) /\ od_get "" (foldl group_step ([], []) rs).1 = None.
Proof.
  induction rs as [|r rs [IH1 IH2]] using rev_ind; [split; [apply NoDup_nil_2|done]|]. rewrite foldl_snoc. unfold group_step at 1 3. cbv zeta.
  destruct (String.eqb_spec (get_text "conflict_key" r) ""); [done|]. destruct (String.eqb _ ""); [done|]. cbn [orb fst].
  split; [by apply od_set_NoDup|]. by rewrite od_get_set_ne.
Qed.

Lemma conflict_ids_NoDup relations groups : NoDup (od_keys groups) ->
  NoDup (map conflict_id (mjoin (map (conflict_set relations) groups))).
Proof.
  induction groups as [|[k ids] groups IH]; intros Hn; [apply NoDup_nil_2|]. apply NoDup_cons in Hn as [Hk Hn].
  change (mjoin (map ?f (?x :: groups))) with (f x ++ mjoin (map f groups)). rewrite map_app. apply NoDup_app.
  split; [unfold conflict_set; cbn; destruct (_ <=? 1)%nat; [apply NoDup_nil_2|apply NoDup_singleton]|]. split; [|by apply IH].
  intros x Hx (c & -> & Hc)%list_elem_of_fmap. apply list_elem_of_In, In_mjoin_map in Hc as ([k' ids'] & Hin & Hc).
  unfold conflict_set in Hx, Hc. cbn [fst snd] in Hx, Hc. cbv zeta in Hx, Hc.
  destruct (length (fromkeys ids') <? 2)%nat; [destruct Hc|]. destruct Hc as [<-|[]].
  destruct (length (fromkeys ids) <? 2)%nat; [by apply elem_of_nil in Hx|]. apply list_elem_of_singleton in Hx.
  cbn [conflict_id] in Hx. apply (f_equal (removeprefix "conflict-")) in Hx. rewrite !removeprefix_app in Hx. subst k'.
  apply Hk, list_elem_of_In, in_map_iff. by exists (k, ids').
Qed.

(** The conflict set of a key: the distinct ids that declare it, in order. *)
Definition conflict_of (rs : list (odict value)) (key : string) : LessonConflictSet :=
  mkConflictSet ("conflict-" +:+ key) (fromkeys (map (get_text "id") (declared key rs))) (relation_of (declared key rs))
    "planner_selection_required".

(** ** Properties *)

(** The conflict sets of the records read are those of the keys that two
    distinct memories declare: one set per key, with all the ids that declare it,
    each once and in the order read, and the relation the last of them gives. *)
Theorem conflict_sets_correct rs :
  NoDup (map conflict_id (build_lesson_conflict_sets rs)) /\
  forall c, In c (build_lesson_conflict_sets rs) <->
    exists key, key <> "" /\ c = conflict_of rs key /\ (2 <= length (memory_ids c))%nat.
Proof.
  unfold build_lesson_conflict_sets. pose proof (grouped_spec rs) as Hs. pose proof (grouped_keys rs) as [Hn He].
  destruct (foldl group_step ([], []) rs) as [groups relations]. cbn [fst snd] in *.
  assert (Hg : forall k ids, In (k, ids) groups -> k <> "" /\ conflict_set relations (k, ids) =
    (if (length (memory_ids (conflict_of rs k)) <? 2)%nat then [] else [conflict_of rs k]) /\ ids <> []).
  { intros k ids Hin. apply (od_get_NoDup _ _ _ Hn) in Hin. assert (Hk : k <> "") by congruence.
    destruct (Hs k Hk) as [H1 H2]. rewrite Hin in H1. unfold conflict_set, conflict_of. cbn [fst snd memory_ids]. rewrite H2.
    destruct (declared k rs); [done|]. injection H1 as ->. done. }
  split; [by apply conflict_ids_NoDup|]. intros c. rewrite In_mjoin_map. split.
  - intros ([k ids] & Hin & Hc). destruct (Hg k ids Hin) as (Hk & E & _). rewrite E in Hc. exists k.
    destruct (Nat.ltb_spec (length (memory_ids (conflict_of rs k))) 2); [destruct Hc|]. by destruct Hc as [<-|[]].
  - intros (k & Hk & -> & Hlen). destruct (Hs k Hk) as [H1 _]. destruct (declared k rs) as [|r l] eqn:Ed.
    { unfold conflict_of in Hlen. rewrite Ed in Hlen. cbn in Hlen. lia. }
    apply od_get_In in H1. exists (k, map (get_text "id") (r :: l)). split; [done|]. destruct (Hg _ _ H1) as (_ & -> & _).
    destruct (Nat.ltb_spec (length (memory_ids (conflict_of rs k))) 2); [lia|by left].
Qed.

(** What the check of a weight leaves of it; a NaN slips through. *)
Definition weight_within (direction : string) (f : float) : Prop :=
  SFleb (SFabs f) MAX_LESSON_FEEDBACK_WEIGHT_DELTA = true /\
  (direction = "promote" -> SFltb fzero f = true) /\ (direction = "demote" -> SFltb f fzero = true) /\
  (direction = "neutral" -> SFeqb f fzero = true).

Lemma check_weight_Ok direction w u : check_weight (VStr direction) w = Ok u ->
  exists f, weight_float w = Ok f /\ (weight_within direction f \/ (f = S754_nan /\ direction <> "neutral")).
Proof.
  unfold check_weight. intros (f & Hf & H)%bind_Ok. exists f. split; [done|].
  apply bind_Ok in H as ([] & H1%unsafe_if_Ok & H). apply bind_Ok in H as ([] & H2%unsafe_if_Ok & H).
  apply bind_Ok in H as ([] & H3%unsafe_if_Ok & H4%unsafe_if_Ok). cbn [py_eq] in H2, H3, H4.
  assert (Hdec : f = S754_nan \/ f <> S754_nan) by (destruct f; auto). destruct Hdec as [->|Hne].
  { right. split; [done|]. intros ->. done. }
  left. assert (Habs : SFabs f <> S754_nan) by by destruct f. split_and!.
  - by apply SFltb_false.
  - intros ->. by apply SFleb_false.
  - intros ->. by apply SFleb_false.
  - intros ->. by apply negb_false_iff in H4.
Qed.

(** What the check of an item leaves. *)
Definition item_within (fingerprint : string) (known : list string) (i : FeedbackItem) : Prop :=
  In (get_text "memory_id" (item_fields i)) known /\ _string_tuple (dget "authority_delta" VNone (item_fields i)) = [] /\
  dget "context_fingerprint" VNone (item_fields i) = VStr fingerprint /\
  (exists e, dget "effect" VNone (item_fields i) = VStr e /\ In e LESSON_FEEDBACK_EFFECTS) /\
  exists direction f, dget "direction" VNone (item_fields i) = VStr direction /\ In direction LESSON_FEEDBACK_DIRECTIONS /\
    weight_float (weight_delta i) = Ok f /\ (weight_within direction f \/ (f = S754_nan /\ direction <> "neutral")).

Lemma feedback_item_Ok fingerprint known item i : feedback_item fingerprint known item = Ok i ->
  item = Some i /\ item_within fingerprint known i.
Proof.
  destruct item as [item|]; [|done]. unfold feedback_item. cbv zeta.
  intros ([] & H1%unsafe_if_Ok & H)%bind_Ok. apply bind_Ok in H as (b & Hb & H). apply bind_Ok in H as ([] & H2%unsafe_if_Ok & H).
  apply bind_Ok in H as (b' & Hb' & H). apply bind_Ok in H as ([] & H3%unsafe_if_Ok & H).
  apply bind_Ok in H as (u & Hw & H). apply bind_Ok in H as ([] & _ & H). apply bind_Ok in H as ([] & H4%unsafe_if_Ok & H).
  apply bind_Ok in H as ([] & H5%unsafe_if_Ok & H). apply bind_Ok in H as ([] & _ & [= <-]).
  apply negb_false_iff in H1, H2, H3, H4. subst. apply str_in_In in H1. apply in_frozenset_Ok in Hb as (e & He & Hin).
  apply in_frozenset_Ok in Hb' as (direction & Hd & Hin'). rewrite Hd in Hw. apply check_weight_Ok in Hw as (f & Hf & Hw).
  apply py_eq_str_r in H4. apply nonempty_false in H5. split; [done|]. split_and!; try done; [by exists e|]. by exists direction, f.
Qed.

Lemma require_disjoint_Ok record used ignored : require_disjoint_ids record = Ok (used, ignored) ->
  used = _string_tuple (dget "used_memory_ids" VNone record) /\ used <> [] /\
  ignored = _string_tuple (dget "ignored_memory_ids" VNone record) /\ forall x, In x used -> ~ In x ignored.
Proof.
  unfold require_disjoint_ids. cbv zeta. intros ([] & H1%unsafe_if_Ok & H)%bind_Ok.
  apply bind_Ok in H as ([] & H2%unsafe_if_Ok & [= <- <-]). apply negb_false_iff in H1. split_and!; try done.
  - intros E. by rewrite E in H1.
  - intros x Hx Hx'. rewrite existsb_false_iff in H2. apply H2 in Hx. by apply str_in_false in Hx.
Qed.

Lemma mapM_some_items {A} (f : option A -> res A) (P : A -> Prop) l (r : list A) :
  (forall x i, f x = Ok i -> x = Some i /\ P i) -> mapM f l = Ok r -> l = map Some r /\ Forall P r.
Proof.
  intros Hf H%mapM_Ok. induction H as [|x i l r Hx _ [-> IH]]; [by split|].
  apply Hf in Hx as [-> Hi]. split; [done|]. by constructor.
Qed.

(** What the check of an attribution leaves: its feedback, checked item by item. *)
Lemma validate_attribution_Ok a v : validate_lesson_attribution_record a = Ok v ->
  exists items, ranking_feedback a = Feedback (map Some items) /\ ranking_feedback v = Feedback (map Some items) /\
    (forall k, k <> "used_memory_ids" -> k <> "ignored_memory_ids" -> od_get k (attribution_fields v) = od_get k (attribution_fields a)) /\
    let fingerprint := py_str (dget "context_fingerprint" (VStr "") (attribution_fields a)) in
    startswith "sha256:" fingerprint = true /\
    Forall (item_within fingerprint (_string_tuple (dget "used_memory_ids" VNone (attribution_fields a))
                                     ++ _string_tuple (dget "ignored_memory_ids" VNone (attribution_fields a)))) items.
Proof.
  unfold validate_lesson_attribution_record. cbv zeta. intros H. apply bind_Ok in H as (u1 & _ & H). apply bind_Ok in H as (u2 & _ & H).
  apply bind_Ok in H as ([used ignored] & (-> & _ & -> & _)%require_disjoint_Ok & H).
  apply bind_Ok in H as ([] & Hfp%unsafe_if_Ok & H). apply negb_false_iff in Hfp.
  do 5 apply bind_Ok in H as (? & _ & H). apply bind_Ok in H as (items & Hi & [= <-]).
  destruct (ranking_feedback a) as [| |l] eqn:E; try done. unfold _validate_lesson_ranking_feedback in Hi.
  apply (mapM_some_items _ _ _ _ (feedback_item_Ok _ _)) in Hi as [-> Hi]. exists items. split_and!; try done.
  intros k Hk1 Hk2. cbn [attribution_fields]. by rewrite !od_get_set_ne.
Qed.

(** C33. What a feedback gate lets through to ranking: exactly the items of the
    record, in their order, each about a memory the plan used or ignored, bound
    to the fingerprint of the record's context, with no text in its authority
    delta, and with a weight of at most 0.2 either way whose sign is that of its
    direction, except that a promotion or demotion may have a weight that is not
    a number, see [nan_weight_accepted]. The gate itself has an empty authority
    delta; that of an item may still hold objects, see [object_delta_ranked]. *)
Theorem lesson_feedback_bounded a gate items :
  build_lesson_ranking_feedback_gate a = Ok (gate, items) ->
  ranking_feedback a = Feedback (map Some items) /\ dget "authority_delta" VNone gate = VList [] /\
  dget "feedback_effect" VNone gate = VStr LESSON_FEEDBACK_OUTPUT_EFFECT /\
  exists fingerprint known, startswith "sha256:" fingerprint = true /\
    py_str (dget "context_fingerprint" VNone gate) = fingerprint /\
    known = _string_tuple (dget "used_memory_ids" VNone (attribution_fields a))
            ++ _string_tuple (dget "ignored_memory_ids" VNone (attribution_fields a)) /\
    Forall (item_within fingerprint known) items.
Proof.
  unfold build_lesson_ranking_feedback_gate. intros (v & Hv & H)%bind_Ok. cbv zeta in H.
  apply bind_Ok in H as (rid & Hrid & H). apply bind_Ok in H as (sid & Hsid & H). apply bind_Ok in H as (fp & Hfp & [= <- <-]).
  apply validate_attribution_Ok in Hv as (items & Ha & Hv & Hk & Hfp' & Hi). rewrite Ha, Hv.
  assert (Eo : omap id (map Some items) = items) by (clear; induction items as [|i items IH]; cbn; [done|by f_equal]).
  assert (Ef : dget "context_fingerprint" (VStr "") (attribution_fields a) = fp).
  { unfold ditem in Hfp. rewrite Hk in Hfp by done. unfold dget. destruct (od_get _ _); [by injection Hfp|done]. }
  rewrite Ef in Hfp', Hi. rewrite Eo. split_and!; try done. exists (py_str fp). eexists. by split_and!.
Qed.

(** A run that used one lesson and ignored another, and its attribution. *)
Definition sample_selection : odict value :=
  selection_record "sel-1" "plan-1" ["lesson-a"] ["lesson-b"] "retrieval_ranking" "matched the symptom" "none" [].
Definition sample_item (memory_id direction : string) (w : weight) : FeedbackItem :=
  mkFeedback [("memory_id", VStr memory_id); ("effect", VStr "ranking_adjustment"); ("direction", VStr direction);
              ("reason", VStr "tests passed")] w.
Definition sample_attribution (feedback : list FeedbackItem) : res Attribution :=
  build_lesson_attribution_record (fun s => s) "attr-1" "run-1" sample_selection [("task", VStr "t")] "succeeded"
    [[("criterion", VStr "tests pass"); ("status", VStr "met"); ("evidence_uris", strs ["hetzner://runtime/run-1/report"])]]
    [("error_class", VStr "NONE"); ("classification_source", VStr "rule_based_runtime_v1")] feedback.
Definition sample_record : Attribution :=
  match sample_attribution [sample_item "lesson-a" "promote" (WFloat (ratio 1 10)); sample_item "lesson-b" "neutral" (WInt 0)] with
  | Ok a => a
  | Raise _ => mkAttribution [] NoFeedback
  end.

Lemma lesson_feedback_bounded_witness : exists gate items,
  build_lesson_ranking_feedback_gate sample_record = Ok (gate, items) /\ length items = 2%nat /\
  ranking_feedback sample_record = Feedback (map Some items).
Proof.
  destruct (build_lesson_ranking_feedback_gate sample_record) as [[gate items]|e] eqn:E; [|vm_compute in E; discriminate E].
  exists gate, items. split; [reflexivity|]. split; [vm_compute in E; injection E as <- <-; reflexivity|].
  exact (proj1 (lesson_feedback_bounded _ _ _ E)).
Defined.

(** A weight that is not a number passes both as a promotion and as a demotion:
    every comparison that would refuse it is false. *)
Example nan_weight_accepted : forallb (fun direction =>
    match sample_attribution [sample_item "lesson-a" direction (WFloat S754_nan)] with Ok _ => true | Raise _ => false end)
    ["promote"; "demote"] = true.
Proof. vm_compute. reflexivity. Qed.

(** Only texts count in the authority delta of an item: an object passes to
    ranking with it. *)
Example object_delta_ranked :
  let item := sample_item "lesson-a" "promote" (WFloat (ratio 1 10)) in
  let granting := mkFeedback (item_fields item ++ [("authority_delta", VList [VDict [("tool", VStr "filesystem-write")]])])
                    (weight_delta item) in
  (a ← sample_attribution [granting]; r ← build_lesson_ranking_feedback_gate a; mret (map (fun i => dget "authority_delta" VNone (item_fields i)) r.2))
  = Ok [VList [VDict [("tool", VStr "filesystem-write")]]].
Proof. vm_compute. reflexivity. Qed.

(** The bound holds for the others: 0.3 is refused, and so is a promotion by 0. *)
Example heavy_weight_refused :
  sample_attribution [sample_item "lesson-a" "promote" (WFloat (ratio 3 10))]
    = Raise (PlannerMemoryRecordError "ranking_feedback weight_delta exceeds safe maximum") /\
  sample_attribution [sample_item "lesson-a" "promote" (WInt 0)]
    = Raise (PlannerMemoryRecordError "promote feedback requires positive weight_delta").
Proof. split; vm_compute; reflexivity. Qed.

(** Only texts count in an authority delta: a record whose delta is an object, or
    a list of objects, passes as one that gains nothing. *)
Example object_delta_accepted : forallb (fun delta =>
    match validate_planner_memory_selection_record (od_set "authority_delta" delta sample_selection) with
    | Ok r => negb (py_eq (dget "authority_delta" VNone r) (VList [])) | Raise _ => false end)
    [VDict [("tool", VStr "filesystem-write")]; VList [VDict [("tool", VStr "filesystem-write")]]] = true.
Proof. vm_compute. reflexivity. Qed.
