(* ===== verification/SafetyCompiler.v ===== *)
(** * The safety compiler and the post-planning memory invariants

    Models [runtime/safety_compiler.py] and [runtime/memory_invariants.py]:
    what is learned may rank and hint, and neither a learned prior nor a plan
    that uses memory may change authority. Reading a policy from a file is left
    out; the constructor takes the parsed object. *)

From S2P Require Import Prelude PyStr PyValue Artifacts.
Open Scope string_scope.
Open Scope list_scope.

Definition BLOCKING_GATES : list string := ["freeze_prior"; "needs_human_review"; "needs_more_evidence"; "reject"].
Definition AUTHORITY_DELTAS : list string :=
  ["tool_addition"; "scope_expansion"; "budget_increase"; "validator_removal"; "failure_mode_relaxation";
   "policy_exception"; "data_access_expansion"; "memory_scope_expansion"; "knowledge_scope_expansion"].

Record SafetyCompilerDecision := mkDecision {
  decision : string;
  automatic_promotion_allowed : bool;
  matched_pair_ids : list string;
  authority_delta : list string;
  decision_artifacts : list string;
  decision_reason : string;
}.

Definition decision_dict (d : SafetyCompilerDecision) : odict value :=
  [("decision", VStr (decision d)); ("automatic_promotion_allowed", VBool (automatic_promotion_allowed d));
   ("matched_pair_ids", strs (matched_pair_ids d)); ("authority_delta", strs (authority_delta d));
   ("reviewed_policy_artifacts", strs (decision_artifacts d)); ("reason", VStr (decision_reason d))].

(** ** The guard policy *)

(** [any(v not in s for v in l)]: the first one outside stops the scan. *)
Fixpoint any_outside (s : list string) (l : list value) : res bool :=
  match l with
  | [] => mret false
  | v :: l => b ← in_frozenset v s; if (b : bool) then any_outside s l else mret true
  end.

Definition pair_label (pr : odict value) (problem : string) : string :=
  py_str (dget "pair_id" (VStr "<unknown>") pr) +:+ ": " +:+ problem.

Definition pair_failures (pr : value) : res (list string) :=
  match pr with
  | VDict pr =>
      match dget "forbidden_generalization" VNone pr with
      | VDict forbidden =>
          deltas ← match dget "authority_delta" VNone forbidden with
                   | VList ((_ :: _) as l) =>
                       bad ← any_outside AUTHORITY_DELTAS l;
                       mret (if (bad : bool) then [pair_label pr "unknown authority_delta"] else [])
                   | _ => mret [pair_label pr "authority_delta missing"]
                   end;
          blocking ← in_frozenset (dget "expected_gate" VNone pr) BLOCKING_GATES;
          mret (deltas ++ if (blocking : bool) then [] else [pair_label pr "non-blocking gate"])
      | _ => mret [pair_label pr "forbidden boundary missing"]
      end
  | _ => mret ["each contrastive pair must be an object"]
  end.

Definition _validate_guard_policy (guard : odict value) : res (list string) :=
  let ids := (if py_eq (dget "guard_id" VNone guard) (VStr "semantic-drift-guard") then []
              else ["guard_id must be semantic-drift-guard"]) ++
             (if py_eq (dget "authority_invariant" VNone guard) (VStr "learned_context_not_authority") then []
              else ["authority_invariant must be learned_context_not_authority"]) in
  blocking ← in_frozenset (dget "default_on_match" VNone guard) BLOCKING_GATES;
  let failures := ids ++ if (blocking : bool) then [] else ["default_on_match must be a blocking gate"] in
  match dget "contrastive_pairs" VNone guard with
  | VList ((_ :: _) as pairs) => per_pair ← mapM pair_failures pairs; mret (failures ++ concat per_pair)
  | _ => mret (failures ++ ["contrastive_pairs must be a non-empty array"])
  end.

Definition SafetyCompiler := odict value.
Definition new_safety_compiler (guard_policy : odict value) : res SafetyCompiler :=
  failures ← _validate_guard_policy guard_policy;
  match failures with
  | [] => mret guard_policy
  | _ => Raise (SafetyCompilerError ("Invalid semantic drift guard policy: " +:+ join "; " failures))
  end.

(** ** Compiling a learned prior *)

Definition _context_contains (actual expected : odict value) : bool :=
  forallb (fun '(k, v) => py_eq (dget k VNone actual) v) expected.

(** [sorted({ ... })] of the texts of an iterable. *)
Definition sorted_texts (l : list string) : list string := sorted_set (list_to_set l).

Definition delta_texts (v : value) : res (list string) := items ← py_iter v; mret (text_items (VList items)).

Definition matching_pair (source target : odict value) (delta : list string) (pr : value)
    : res (option (string * string)) :=
  match pr with
  | VDict pr =>
      let positive := mapping_of (dget "positive_context" VNone pr) in
      let forbidden := mapping_of (dget "forbidden_generalization" VNone pr) in
      forbidden_deltas ← delta_texts (dget "authority_delta" (VList []) forbidden);
      let forbidden_context := List.filter (fun kv : string * value => negb (String.eqb kv.1 "authority_delta")) forbidden in
      if _context_contains source positive && _context_contains target forbidden_context
         && existsb (fun d => str_in d forbidden_deltas) delta
      then id ← ditem "pair_id" pr; gate ← ditem "expected_gate" pr; mret (Some (py_str id, py_str gate))
      else mret None
  | _ => mret None
  end.

Definition _matching_pairs (c : SafetyCompiler) (prior : odict value) (delta : list string)
    : res (list (string * string)) :=
  match dget "contrastive_pairs" (VList []) c with
  | VList pairs =>
      found ← mapM (matching_pair (mapping_of (dget "source_context" VNone prior))
                      (mapping_of (dget "target_context" VNone prior)) delta) pairs;
      mret (omap (M:=list) id found)
  | _ => mret []
  end.

Definition GATE_PRIORITY : odict Z :=
  [("freeze_prior", 1%Z); ("needs_more_evidence", 2%Z); ("needs_human_review", 3%Z); ("reject", 4%Z)].

(** [max(gates, key=priority)]: the first one of greatest priority. *)
Fixpoint max_gate (best : string * Z) (gates : list string) : res (string * Z) :=
  match gates with
  | [] => mret best
  | g :: gates => p ← ditem g GATE_PRIORITY; max_gate (if (best.2 <? p)%Z then (g, p) else best) gates
  end.
Definition _strongest_gate (gates : list string) : res string :=
  match gates with
  | [] => Raise (ValueError "max() iterable argument is empty")
  | g :: gates => p ← ditem g GATE_PRIORITY; best ← max_gate (g, p) gates; mret best.1
  end.

Definition compile_learned_authority_prior (c : SafetyCompiler) (prior : odict value)
    (reviewed_policy_artifacts : list string) : res SafetyCompilerDecision :=
  texts ← delta_texts (dget "authority_delta" (VList []) prior);
  let delta := sorted_texts texts in
  let reviewed := sorted_texts (map strip (List.filter nonblank reviewed_policy_artifacts)) in
  match delta with
  | [] => mret (mkDecision "allow_ranking_only" true [] [] reviewed
             "Learned context changes ranking only and carries no authority delta.")
  | _ =>
      matched ← _matching_pairs c prior delta;
      match matched, reviewed with
      | _ :: _, _ =>
          gate ← _strongest_gate (map snd matched);
          mret (mkDecision gate false (map fst matched) delta reviewed
                  "Learned authority delta matches a forbidden contrastive boundary.")
      | [], [] => mret (mkDecision "reject" false [] delta [] "Learned authority delta has no reviewed policy artifact.")
      | [], _ => mret (mkDecision "allow_ranking_only" true [] delta reviewed
                   ("Authority delta is bound to reviewed policy artifacts; learned context remains "
                    +:+ "ranking-only."))
      end
  end.

Definition compile_decision_report (c : SafetyCompiler) (prior : odict value) (reviewed : list string)
    : res (odict value) :=
  d ← compile_learned_authority_prior c prior reviewed;
  guard_id ← ditem "guard_id" c;
  invariant ← ditem "authority_invariant" c;
  mret [("contract_version", VStr "0.1.0"); ("report_kind", VStr "semantic_drift_guard_decision");
    ("guard_id", VStr (py_str guard_id)); ("authority_invariant", VStr (py_str invariant));
    ("source_context", VDict (mapping_of (dget "source_context" VNone prior)));
    ("target_context", VDict (mapping_of (dget "target_context" VNone prior)));
    ("authority_delta", strs (authority_delta d)); ("matched_contrastive_pair_ids", strs (matched_pair_ids d));
    ("final_gate", VStr (decision d)); ("automatic_promotion_allowed", VBool (automatic_promotion_allowed d));
    ("decision", VDict (decision_dict d)); ("safe_for_release_evidence", VBool true);
    ("raw_runtime_trace_included", VBool false)].

(** ** The coverage report *)

Definition _add_if_string (v : value) : list string :=
  match v with VStr s => if String.eqb s "" then [] else [s] | _ => [] end.

(** What one pair adds: its identifier, and its environments, risk levels,
    workflows and deltas. *)
Definition pair_coverage (pr : odict value) : res (string * (list string * list string * list string * list string)) :=
  id ← ditem "pair_id" pr;
  let forbidden := mapping_of (dget "forbidden_generalization" VNone pr) in
  deltas ← py_iter (dget "authority_delta" (VList []) forbidden);
  mret (py_str id, (_add_if_string (dget "environment" VNone forbidden), _add_if_string (dget "risk_level" VNone forbidden),
                    _add_if_string (dget "workflow_id" VNone forbidden), mjoin (map _add_if_string deltas))).

Definition contrastive_pair_coverage_report (c : SafetyCompiler) : res (odict value) :=
  covered ← mapM pair_coverage
    (match dget "contrastive_pairs" (VList []) c with VList pairs => omap as_mapping pairs | _ => [] end);
  guard_id ← ditem "guard_id" c;
  let all f := sorted_texts (mjoin (map f covered)) in
  let deltas := all (fun x => x.2.2) in
  mret [("contract_version", VStr "0.1.0"); ("report_kind", VStr "semantic_drift_guard_coverage");
    ("guard_id", VStr (py_str guard_id)); ("covered_pair_ids", strs (sorted_strs (map fst covered)));
    ("coverage", VDict [("environments", strs (all (fun x => x.2.1.1.1))); ("risk_levels", strs (all (fun x => x.2.1.1.2)));
       ("workflow_ids", strs (all (fun x => x.2.1.2))); ("authority_delta", strs deltas)]);
    ("coverage_gaps", VDict [("authority_delta",
       strs (sorted_strs (List.filter (fun d => negb (str_in d deltas)) AUTHORITY_DELTAS)))]);
    ("safe_for_release_evidence", VBool true); ("raw_runtime_trace_included", VBool false)].

(** ** What a valid guard policy guarantees *)

Definition valid_compiler (c : SafetyCompiler) : Prop := _validate_guard_policy c = Ok [].

Lemma new_safety_compiler_valid g c : new_safety_compiler g = Ok c -> c = g /\ valid_compiler c.
Proof.
  unfold new_safety_compiler, valid_compiler. intros H. inv_ok. destruct x; [|done]. by injection H as <-.
Qed.

Lemma dget_found k def d v : od_get k d = Some v -> dget k def d = v.
Proof. unfold dget. by intros ->. Qed.

(** A pair that passes the checks names deltas and a blocking gate. *)
Lemma pair_failures_nil p : pair_failures p = Ok [] ->
  exists d forbidden deltas gate, p = VDict d /\ dget "forbidden_generalization" VNone d = VDict forbidden /\
    od_get "authority_delta" forbidden = Some (VList deltas) /\ od_get "expected_gate" d = Some (VStr gate) /\
    In gate BLOCKING_GATES.
Proof.
  destruct p as [| | | | |d]; try done. cbn [pair_failures].
  destruct (dget "forbidden_generalization" VNone d) as [| | | | |forbidden] eqn:Ef; try done.
  intros H. inv_ok. apply app_eq_nil in H as [-> H]. destruct x0; [|done].
  apply in_frozenset_Ok in H1 as (gate & Hg & Hin). unfold dget in H0, Hg.
  destruct (od_get "authority_delta" forbidden) as [[| | | |l|]|] eqn:Ed; try done.
  destruct (od_get "expected_gate" d) as [g|] eqn:Eg; [|done]. subst g.
  exists d, forbidden, l, gate. by rewrite Ed, Eg.
Qed.

Lemma valid_pairs c : valid_compiler c ->
  exists pairs, dget "contrastive_pairs" (VList []) c = VList pairs /\ Forall (fun p => pair_failures p = Ok []) pairs.
Proof.
  unfold valid_compiler, _validate_guard_policy. intros H. inv_ok. unfold dget in *.
  destruct (od_get "contrastive_pairs" c) as [[| | | |[|p l]|]|]; try (inv_ok; by apply app_eq_nil in H as [_ H]).
  inv_ok. apply app_eq_nil in H as [_ H]. apply mapM_Ok in H1. eexists. split; [done|].
  revert H. induction H1 as [|a b la lb Hab _ IH]; cbn; [done|]. intros [-> H]%app_eq_nil.
  constructor; [done|by apply IH].
Qed.

Lemma sorted_texts_In x l : In x (sorted_texts l) <-> In x l.
Proof.
  unfold sorted_texts, sorted_set, sorted_strs. rewrite py_sorted_In, <- list_elem_of_In, elem_of_elements.
  by rewrite elem_of_list_to_set, list_elem_of_In.
Qed.

Lemma sorted_texts_nil l : sorted_texts l = [] <-> l = [].
Proof.
  split; [|by intros ->]. intros H. destruct l as [|x l]; [done|].
  assert (Hx : In x (sorted_texts (x :: l))) by (apply sorted_texts_In; by left). by rewrite H in Hx.
Qed.

(** ** Gates *)

Definition gate_priority (g : string) : Z := match od_get g GATE_PRIORITY with Some p => p | None => 0%Z end.

Lemma max_gate_spec gates best : Forall (fun g => In g BLOCKING_GATES) gates -> best.2 = gate_priority best.1 ->
  exists g, max_gate best gates = Ok (g, gate_priority g) /\ (g = best.1 \/ In g gates) /\
            Forall (fun g' => (gate_priority g' <= gate_priority g)%Z) (best.1 :: gates).
Proof.
  intros HF. revert best. induction HF as [|g gates Hg _ IH]; intros [b p] Hb; cbn in Hb; subst p.
  - exists b. split_and!; [done|by left|]. constructor; [cbn; lia|done].
  - cbn [max_gate].
    assert (Hp : ditem g GATE_PRIORITY = Ok (gate_priority g)) by (by repeat destruct Hg as [<-|Hg]).
    rewrite Hp. cbn [mbind result_bind snd].
    destruct (gate_priority b <? gate_priority g)%Z eqn:E.
    + destruct (IH (g, gate_priority g) eq_refl) as (m & -> & Hm & HF). exists m. split; [done|].
      split; [right; destruct Hm as [->|]; [by left|by right]|]. inversion_clear HF as [|? ? H1 H2].
      apply Z.ltb_lt in E. cbn in H1. constructor; [cbn; lia|by constructor].
    + destruct (IH (b, gate_priority b) eq_refl) as (m & -> & Hm & HF). exists m. split; [done|].
      split; [by destruct Hm; [left|right; right]|]. inversion_clear HF as [|? ? H1 H2].
      apply Z.ltb_ge in E. cbn in H1. constructor; [done|]. constructor; [lia|done].
Qed.

Lemma strongest_gate_spec gates : gates <> [] -> Forall (fun g => In g BLOCKING_GATES) gates ->
  exists g, _strongest_gate gates = Ok g /\ In g gates /\ Forall (fun g' => (gate_priority g' <= gate_priority g)%Z) gates.
Proof.
  intros Hne HF. destruct HF as [|g gates Hg HF]; [done|]. cbn [_strongest_gate].
  assert (Hp : ditem g GATE_PRIORITY = Ok (gate_priority g)) by (by repeat destruct Hg as [<-|Hg]).
  rewrite Hp. destruct (max_gate_spec gates (g, gate_priority g) HF eq_refl) as (m & Hm & Hin & Hmax).
  cbn [mbind result_bind]. rewrite Hm. exists m. split; [done|]. split; [|done].
  destruct Hin as [->|]; [by left|by right].
Qed.

(** ** Which pairs a prior matches *)

(** The contrastive boundary of [p] forbids carrying [delta] from the prior's
    source context into its target context. *)
Definition forbids (p : value) (prior : odict value) (delta : list string) : Prop :=
  exists d, p = VDict d /\
    let forbidden := mapping_of (dget "forbidden_generalization" VNone d) in
    _context_contains (mapping_of (dget "source_context" VNone prior)) (mapping_of (dget "positive_context" VNone d)) = true /\
    _context_contains (mapping_of (dget "target_context" VNone prior))
      (List.filter (fun kv : string * value => negb (String.eqb kv.1 "authority_delta")) forbidden) = true /\
    exists x, In x delta /\ In x (text_items (dget "authority_delta" (VList []) forbidden)).

Lemma matching_pair_spec p prior delta : pair_failures p = Ok [] ->
  (forall d, p = VDict d -> is_Some (od_get "pair_id" d)) ->
  exists found, matching_pair (mapping_of (dget "source_context" VNone prior))
                  (mapping_of (dget "target_context" VNone prior)) delta p = Ok found /\
    (is_Some found <-> forbids p prior delta) /\ forall id gate, found = Some (id, gate) -> In gate BLOCKING_GATES.
Proof.
  intros Hp Hid. apply pair_failures_nil in Hp as (d & forbidden & deltas & gate & -> & Hf & Hd & Hg & Hin).
  destruct (Hid d eq_refl) as [i Hi]. unfold matching_pair, delta_texts. rewrite Hf. cbn [mapping_of].
  rewrite (dget_found _ _ _ _ Hd). cbn [py_iter mbind result_bind mret result_ret].
  assert (Hforb : (_context_contains (mapping_of (dget "source_context" VNone prior))
              (mapping_of (dget "positive_context" VNone d)) &&
            _context_contains (mapping_of (dget "target_context" VNone prior))
              (List.filter (fun kv : string * value => negb (String.eqb kv.1 "authority_delta")) forbidden) &&
            existsb (fun x => str_in x (omap as_text deltas)) delta) = true <-> forbids (VDict d) prior delta).
  { rewrite !andb_true_iff, existsb_exists. setoid_rewrite str_in_In. unfold forbids. split.
    - intros [[H1 H2] H3]. exists d. split; [done|]. rewrite Hf. cbn. split_and!; try done.
      by rewrite (dget_found _ _ _ _ Hd).
    - intros (e & [= <-] & H). rewrite Hf in H. cbn [mapping_of] in H. rewrite (dget_found _ _ _ _ Hd) in H.
      naive_solver. }
  destruct (_ && _ && _) eqn:E.
  - unfold ditem. rewrite Hi, Hg. cbn. eexists. split; [done|]. split; [|by intros ? ? [= _ <-]].
    split; [intros _; by apply Hforb|eauto].
  - eexists. split; [done|]. split; [|done]. split; [by intros [? ?]|]. intros H%Hforb. done.
Qed.

Definition identified (c : SafetyCompiler) : Prop :=
  forall d, In (VDict d) (match dget "contrastive_pairs" (VList []) c with VList l => l | _ => [] end) ->
            is_Some (od_get "pair_id" d).

Lemma matching_pairs_spec c prior delta : valid_compiler c -> identified c ->
  exists matched, _matching_pairs c prior delta = Ok matched /\ Forall (fun g => In g BLOCKING_GATES) (map snd matched) /\
    (matched <> [] <-> exists p, In p (match dget "contrastive_pairs" (VList []) c with VList l => l | _ => [] end) /\
                                 forbids p prior delta).
Proof.
  intros Hv Hi. destruct (valid_pairs c Hv) as (pairs & Hp & HF). unfold _matching_pairs, identified in *.
  rewrite Hp in *. clear Hp Hv. induction HF as [|p pairs Hx HF IH].
  - exists []. split; [done|]. split; [done|]. split; [done|]. by intros (? & [] & _).
  - destruct IH as (matched & Hm & Hg & Hne); [intros d Hd; apply Hi; by right|].
    apply bind_Ok in Hm as (found & Hfs & [= Hm]).
    destruct (matching_pair_spec p prior delta Hx) as (f & Hf & Hfor & Hgate).
    { intros d ->. apply Hi. by left. }
    cbn [mapM]. cbn. rewrite Hf. cbn. cbn in Hfs. rewrite Hfs. cbn. rewrite Hm.
    exists (match f with Some x => x :: matched | None => matched end).
    split; [by destruct f|]. split.
    + destruct f as [[i g]|]; [|done]. cbn. constructor; [by eapply Hgate|done].
    + split.
      * destruct f as [[i g]|] eqn:Ef; [|intros H; apply Hne in H as (q & ? & ?); exists q; by split; [right|]].
        intros _. exists p. split; [by left|]. apply Hfor. eauto.
      * intros (q & [<-|Hq] & Hb); [apply Hfor in Hb as [x ->]; done|].
        destruct f; [done|]. apply Hne. eauto.
Qed.

Lemma forbids_same p prior delta delta' : (forall x, In x delta <-> In x delta') -> forbids p prior delta -> forbids p prior delta'.
Proof. intros H (d & -> & H1 & H2 & x & Hx & Hin). exists d. split; [done|]. split_and!; try done. exists x. by rewrite <- H. Qed.

Definition pairs_of (c : SafetyCompiler) : list value :=
  match dget "contrastive_pairs" (VList []) c with VList l => l | _ => [] end.

(** C24. A learned prior is promoted without a person exactly when its authority
    delta holds no text, or when the delta crosses no contrastive boundary of
    the guard policy and some reviewed artifact is named; otherwise the decision
    is a blocking gate, the strongest one of the boundaries it crosses. A
    compiler whose policy passed the checks, and each of whose pairs has a
    [pair_id], always decides. An entry of the delta that is no text is not
    looked at, so a delta of objects is promoted unreviewed, see
    [object_delta_promoted]; and without a [pair_id] a match raises, see
    [unnamed_pair_raises]. *)
Theorem promotion_requires_review c prior reviewed items :
  valid_compiler c -> identified c -> dget "authority_delta" (VList []) prior = VList items ->
  exists d, compile_learned_authority_prior c prior reviewed = Ok d /\
    (automatic_promotion_allowed d = true <->
     text_items (VList items) = [] \/
     (~ (exists p, In p (pairs_of c) /\ forbids p prior (text_items (VList items)))) /\
     exists a, In a reviewed /\ nonblank a = true) /\
    (if automatic_promotion_allowed d then decision d = "allow_ranking_only"
     else In (decision d) BLOCKING_GATES /\
          exists matched, _matching_pairs c prior (authority_delta d) = Ok matched /\
            matched_pair_ids d = map fst matched /\
            (matched = [] /\ decision d = "reject" \/ In (decision d) (map snd matched)) /\
            Forall (fun g => (gate_priority g <= gate_priority (decision d))%Z) (map snd matched)).
Proof.
  intros Hv Hi Hd. unfold compile_learned_authority_prior, delta_texts. rewrite Hd.
  cbn [py_iter mbind result_bind mret result_ret].
  set (texts := text_items (VList items)). remember (sorted_texts texts) as delta eqn:Ed.
  assert (Hdelta : forall x, In x delta <-> In x texts) by (intros; subst delta; apply sorted_texts_In).
  destruct delta as [|x0 delta0].
  { symmetry in Ed. apply (proj1 (sorted_texts_nil _)) in Ed. eexists. split; [done|]. split; [|done].
    split; [intros _|done]. by left. }
  assert (Hne : texts <> []) by (intros E; by rewrite E in Ed).
  destruct (matching_pairs_spec c prior (x0 :: delta0) Hv Hi) as (matched & Hm & Hg & Hmatch). rewrite Hm. cbn [mbind result_bind].
  assert (Hforb : matched <> [] <-> exists p, In p (pairs_of c) /\ forbids p prior texts).
  { rewrite Hmatch. split; intros (p & Hp & Hf); exists p; (split; [done|]);
      eapply forbids_same; try exact Hf; intros; by rewrite Hdelta. }
  destruct matched as [|[i g] matched].
  - assert (Hrev : sorted_texts (map strip (List.filter nonblank reviewed)) = [] <->
                   ~ exists a, In a reviewed /\ nonblank a = true).
    { rewrite sorted_texts_nil. split.
      - intros E%map_eq_nil (a & Ha & Hn). assert (In a (List.filter nonblank reviewed)) by (by apply filter_In).
        by rewrite E in H.
      - intros H. destruct (List.filter nonblank reviewed) as [|a l] eqn:E; [done|]. exfalso. apply H.
        exists a. apply filter_In. rewrite E. by left. }
    destruct (sorted_texts (map strip _)) as [|a l] eqn:Er; eexists; (split; [done|]); cbn.
    + split; [|split; [tauto|exists []; rewrite Hm; split_and!; try done; by left]]. split; [done|].
      intros [H|[_ H]]; [done|]. by apply Hrev in H.
    + split; [|done]. split; [|done]. intros _. right. split; [by intros H%Hforb|].
      destruct (existsb nonblank reviewed) eqn:Eb; [by apply existsb_exists in Eb|].
      exfalso. assert (a :: l = []); [apply Hrev|done]. intros (b & Hb & Hn).
      rewrite existsb_false_iff in Eb. by rewrite Eb in Hn.
  - destruct (strongest_gate_spec (map snd ((i, g) :: matched)) ltac:(done) Hg) as (m & Hs & Hin & Hmax).
    rewrite Hs. cbn [mbind result_bind]. eexists. split; [done|]. cbn [automatic_promotion_allowed decision].
    split.
    + split; [done|]. intros [H|[H _]]; [done|]. exfalso. apply H, Hforb. done.
    + split; [rewrite Forall_forall in Hg; by apply Hg, list_elem_of_In|].
      exists ((i, g) :: matched). split_and!; try done. by right.
Qed.

Definition demo_guard : odict value :=
  [("guard_id", VStr "semantic-drift-guard"); ("authority_invariant", VStr "learned_context_not_authority");
   ("default_on_match", VStr "needs_human_review");
   ("contrastive_pairs", VList
     [VDict [("pair_id", VStr "dev-to-prod"); ("positive_context", VDict [("environment", VStr "dev")]);
        ("forbidden_generalization", VDict [("environment", VStr "prod"); ("authority_delta", strs ["tool_addition"])]);
        ("expected_gate", VStr "needs_human_review")];
      VDict [("pair_id", VStr "to-prod"); ("forbidden_generalization",
          VDict [("environment", VStr "prod"); ("authority_delta", strs ["budget_increase"; "tool_addition"])]);
        ("expected_gate", VStr "reject")]])].
Definition demo_prior (target delta : string) : odict value :=
  [("source_context", VDict [("environment", VStr "dev")]); ("target_context", VDict [("environment", VStr target)]);
   ("authority_delta", strs [delta])].

Example compile_ex :
  (compile_learned_authority_prior demo_guard (demo_prior "prod" "tool_addition") ["adr-7"],
   compile_learned_authority_prior demo_guard (demo_prior "test" "tool_addition") ["adr-7"])
  = (Ok (mkDecision "reject" false ["dev-to-prod"; "to-prod"] ["tool_addition"] ["adr-7"]
           "Learned authority delta matches a forbidden contrastive boundary."),
     Ok (mkDecision "allow_ranking_only" true [] ["tool_addition"] ["adr-7"]
           ("Authority delta is bound to reviewed policy artifacts; learned context remains " +:+ "ranking-only."))).
Proof. vm_compute. reflexivity. Qed.

Example coverage_ex : exists r, contrastive_pair_coverage_report demo_guard = Ok r /\
  dget "covered_pair_ids" VNone r = strs ["dev-to-prod"; "to-prod"].
Proof. vm_compute. eexists. split; reflexivity. Qed.

(** An authority delta that is not empty, but holds an object and no text, is
    promoted with no reviewed artifact. *)
Example object_delta_promoted :
  compile_learned_authority_prior demo_guard
    (od_set "authority_delta" (VList [VDict [("grant", VStr "tool_addition")]]) (demo_prior "prod" "x")) []
  = Ok (mkDecision "allow_ranking_only" true [] [] []
          "Learned context changes ranking only and carries no authority delta.").
Proof. vm_compute. reflexivity. Qed.

(** A policy whose pair has no identifier passes the checks; the compiler then
    fails on the first prior that crosses it. *)
Example unnamed_pair_raises :
  let guard := od_set "contrastive_pairs" (VList [VDict
    [("forbidden_generalization", VDict [("authority_delta", strs ["tool_addition"])]); ("expected_gate", VStr "reject")]])
    demo_guard in
  new_safety_compiler guard = Ok guard /\
  compile_learned_authority_prior guard (demo_prior "prod" "tool_addition") [] = Raise (KeyError "pair_id").
Proof. vm_compute. done. Qed.

Lemma promotion_requires_review_witness :
  exists d, compile_learned_authority_prior demo_guard (demo_prior "prod" "tool_addition") ["adr-7"] = Ok d /\
            (automatic_promotion_allowed d = true <->
             text_items (strs ["tool_addition"]) = [] \/
             (~ (exists p, In p (pairs_of demo_guard) /\
                  forbids p (demo_prior "prod" "tool_addition") (text_items (strs ["tool_addition"])))) /\
             exists a, In a ["adr-7"] /\ nonblank a = true).
Proof.
  destruct (promotion_requires_review demo_guard (demo_prior "prod" "tool_addition") ["adr-7"] [VStr "tool_addition"])
    as (d & Hd & Hp & _).
  - vm_compute. reflexivity.
  - intros d Hd. vm_compute in Hd. destruct Hd as [[= <-]|[[= <-]|[]]]; vm_compute; eauto.
  - reflexivity.
  - exists d. split; [exact Hd|exact Hp].
Defined.

(** ** Plans that use memory *)

Definition NON_AUTHORITATIVE_MEMORY_EFFECTS : list string :=
  ["planner_hint"; "retrieval_ranking"; "composer_candidate_bias"].
Definition AUTHORITY_PLAN_FIELDS : odict string :=
  [("tool_grants", "tool grants"); ("granted_tools", "tool grants"); ("added_tools", "tool grants");
   ("scope_grants", "scope grants"); ("knowledge_scope_grants", "scope grants");
   ("memory_scope_grants", "scope grants"); ("data_scope_grants", "scope grants");
   ("policy_overrides", "policy overrides"); ("validator_overrides", "validator overrides");
   ("budget_changes", "budget changes"); ("failure_policy_changes", "failure policy changes");
   ("runtime_profile_patch", "runtime profile mutation")].
Definition PROFILE_AUTHORITY_FIELDS : list string :=
  ["tools"; "knowledge_scopes"; "memory_scopes"; "data_scopes"; "policies"; "validators"; "limits"; "failure_policy"].

Record PostPlanningMemoryInvariantResult := mkInvariantResult {
  invariant_status : string;
  invariant_reason : string;
  violations : list string;
}.
Definition approved (r : PostPlanningMemoryInvariantResult) : bool := String.eqb (invariant_status r) "approved".

Definition _has_value (v : value) : bool :=
  match v with
  | VNone => false
  | VStr s => nonblank s
  | VList l => nonempty l
  | VDict d => nonempty d
  | _ => true
  end.

Definition violated (b : bool) (text : string) : list string := if b then [text] else [].

Definition plan_effects (plan : odict value) : list string :=
  match dget "effect" VNone plan with VList l => nonblank_items (VList l) | v => [py_str v] end.

Definition _memory_effect_violations (plan : odict value) : list string :=
  violated (negb (nonempty (plan_effects plan))
            || existsb (fun e => negb (str_in e NON_AUTHORITATIVE_MEMORY_EFFECTS)) (plan_effects plan))
    "memory effect must be non-authoritative" ++
  violated (negb (nonblank (py_str (dget "selection_reason" (VStr "") plan))))
    "memory-influenced plans require selection_reason" ++
  violated (nonempty (nonblank_items (dget "authority_delta" VNone plan)))
    "memory-influenced plans must not carry authority_delta".

Definition _authority_field_violations (plan : odict value) : list string :=
  mjoin (map (fun '(field, label) => violated (_has_value (dget field VNone plan))
    ("memory-influenced plans must not include " +:+ label)) AUTHORITY_PLAN_FIELDS).

Definition _memory_authority_justification_violations (plan : odict value) : list string :=
  if str_in (casefold (py_str (dget "authority_source" (VStr "") plan))) ["memory"; "procedural_memory"; "agent_memory"]
  then ["memory IDs must not be used as authority justification"]
  else match dget "authority_justification" VNone plan with
       | VDict j => violated (_has_value (dget "memory_ids" VNone j)) "memory IDs must not be used as authority justification"
       | _ => []
       end.

Definition _runtime_profile_delta_violations (profile planned : odict value) : list string :=
  mjoin (map (fun field => violated (negb (py_eq (dget field VNone profile) (dget field VNone planned)))
    ("memory-influenced plans must not mutate runtime_profile " +:+ field)) PROFILE_AUTHORITY_FIELDS).

Definition plan_violations (plan profile : odict value) (planned : option (odict value)) : list string :=
  _memory_effect_violations plan ++ _authority_field_violations plan ++
  _memory_authority_justification_violations plan ++
  match planned with Some p => _runtime_profile_delta_violations profile p | None => [] end.

Definition validate_plan (plan profile : odict value) (planned : option (odict value)) : PostPlanningMemoryInvariantResult :=
  match nonblank_items (dget "used_memory_ids" VNone plan) with
  | [] => mkInvariantResult "approved" "Plan does not use procedural memory." []
  | _ =>
      match plan_violations plan profile planned with
      | [] => mkInvariantResult "approved" "Memory-influenced plan preserves runtime authority boundaries." []
      | vs => mkInvariantResult "rejected" "Memory-influenced plan violates non-authority invariants." vs
      end
  end.

Lemma violated_nil b t : violated b t = [] <-> b = false.
Proof. by destruct b. Qed.

(** A plan that uses memory is approved exactly when memory only hints or
    ranks and says why, no authority delta, grant, override or budget change is
    part of the plan, memory is not its justification, and the planned profile,
    when there is one, has the authority of the running one in every field. *)
Theorem memory_plan_gains_no_authority plan profile planned :
  nonblank_items (dget "used_memory_ids" VNone plan) <> [] ->
  approved (validate_plan plan profile planned) = true <->
  plan_effects plan <> [] /\ (forall e, In e (plan_effects plan) -> In e NON_AUTHORITATIVE_MEMORY_EFFECTS) /\
  nonblank (py_str (dget "selection_reason" (VStr "") plan)) = true /\
  nonblank_items (dget "authority_delta" VNone plan) = [] /\
  (forall field, In field (od_keys AUTHORITY_PLAN_FIELDS) -> _has_value (dget field VNone plan) = false) /\
  _memory_authority_justification_violations plan = [] /\
  (forall p field, planned = Some p -> In field PROFILE_AUTHORITY_FIELDS ->
     py_eq (dget field VNone profile) (dget field VNone p) = true).
Proof.
  intros Hu. unfold validate_plan. destruct (nonblank_items (dget "used_memory_ids" VNone plan)) as [|id ids]; [done|]. clear Hu.
  transitivity (plan_violations plan profile planned = []).
  { destruct (plan_violations _ _ _); cbn; split; congruence. }
  unfold plan_violations, _memory_effect_violations.
  assert (Happ : forall l m : list string, l ++ m = [] <-> l = [] /\ m = []).
  { intros x y. split; [apply app_eq_nil|by intros [-> ->]]. }
  rewrite !Happ, !violated_nil, orb_false_iff, negb_false_iff, existsb_false_iff.
  assert (He : (nonempty (plan_effects plan) = true <-> plan_effects plan <> []) /\
               (nonempty (nonblank_items (dget "authority_delta" VNone plan)) = false <->
                nonblank_items (dget "authority_delta" VNone plan) = [])).
  { split; [destruct (plan_effects plan)|destruct (nonblank_items _)]; done. }
  destruct He as [-> ->].
  assert (Hin : (forall e, In e (plan_effects plan) -> negb (str_in e NON_AUTHORITATIVE_MEMORY_EFFECTS) = false) <->
                (forall e, In e (plan_effects plan) -> In e NON_AUTHORITATIVE_MEMORY_EFFECTS)).
  { split; intros H e Hx; specialize (H e Hx); [apply negb_false_iff in H; by apply str_in_In|].
    apply negb_false_iff. by apply str_in_In. }
  rewrite Hin. rewrite negb_false_iff.
  assert (Hf : _authority_field_violations plan = [] <->
               forall field, In field (od_keys AUTHORITY_PLAN_FIELDS) -> _has_value (dget field VNone plan) = false).
  { unfold _authority_field_violations. rewrite mjoin_nil, Forall_map, Forall_forall. unfold od_keys.
    setoid_rewrite in_map_iff. split.
    - intros H f ([f' lab] & <- & Hf%list_elem_of_In). apply H in Hf. by apply violated_nil in Hf.
    - intros H [f lab] Hf%list_elem_of_In. apply violated_nil, H.
      exists (f, lab). by split. }
  rewrite Hf.
  assert (Hp : match planned with Some p => _runtime_profile_delta_violations profile p | None => [] end = [] <->
               forall p field, planned = Some p -> In field PROFILE_AUTHORITY_FIELDS ->
                 py_eq (dget field VNone profile) (dget field VNone p) = true).
  { destruct planned as [p|]; [|by split]. unfold _runtime_profile_delta_violations.
    rewrite mjoin_nil, Forall_map, Forall_forall. split.
    - intros H q f [= <-] Hx%list_elem_of_In. apply H, violated_nil, negb_false_iff in Hx. done.
    - intros H f Hx%list_elem_of_In. apply violated_nil, negb_false_iff. by apply H. }
  rewrite Hp. tauto.
Qed.

Definition demo_plan : odict value :=
  [("used_memory_ids", strs ["m-1"]); ("effect", VStr "planner_hint"); ("selection_reason", VStr "same repository");
   ("authority_delta", VList [])].

Example plan_ex :
  (approved (validate_plan demo_plan [] None), approved (validate_plan (demo_plan ++ [("tool_grants", strs ["x"])]) [] None),
   violations (validate_plan demo_plan [("tools", strs ["git-read"])] (Some [("tools", strs ["git-read"; "x"])])))
  = (true, false, ["memory-influenced plans must not mutate runtime_profile tools"]).
Proof. vm_compute. reflexivity. Qed.

Lemma memory_plan_gains_no_authority_witness :
  nonblank_items (dget "used_memory_ids" VNone demo_plan) <> [] /\
  (approved (validate_plan demo_plan [("limits", VDict [])] (Some [("limits", VDict [])])) = true ->
   forall p field, Some [("limits", VDict [])] = Some p -> In field PROFILE_AUTHORITY_FIELDS ->
     py_eq (dget field VNone [("limits", VDict [])]) (dget field VNone p) = true).
Proof.
  split; [discriminate|]. intros H.
  apply (memory_plan_gains_no_authority demo_plan [("limits", VDict [])] (Some [("limits", VDict [])])) in H.
  - tauto.
  - discriminate.
Defined.
