(* ===== verification/MemoryCandidates.v ===== *)
(** * Memory candidates: extraction, review, submission

    Models [runtime/memory_candidates.py] and the pipeline of
    [runtime/memory_feedback.py]. A completed step of a run may leave a memory
    candidate: an artifact and a pending record of the store. The validator
    approves or rejects the record; only an approved one is turned into a
    request to the memory service, whose client is a parameter. *)

From S2P Require Import Prelude PyStr PyValue Models RuntimeStore Artifacts Clock FlightRecorder SafetyCompiler.
Open Scope string_scope.
Open Scope list_scope.

Definition SENSITIVITIES : list string := ["public"; "internal"; "confidential"; "secret"].
Definition CANDIDATE_CLASSES : list string :=
  ["procedural_lesson"; "task_subject_fact"; "runtime_evidence"; "knowledge_record_proposal"; "rejected"].
Definition PROMOTABLE_CANDIDATE_CLASS : string := "procedural_lesson".
Definition PROMOTION_ROUTES : odict string :=
  [("procedural_lesson", "agent_memory"); ("task_subject_fact", "scoped_knowledge_record");
   ("runtime_evidence", "runtime_plane_evidence"); ("knowledge_record_proposal", "knowledge_record_approval");
   ("rejected", "none")].
Definition REFLECTION_REJECTION_KEYS : list string :=
  ["raw_tool_output"; "raw_tool_outputs"; "source_extract"; "source_extracts"; "customer_data"; "private_data";
   "secret_value"; "credential"].
Definition SECRET_LIKE_TERMS : list string := ["api key"; "apikey"; "password"; "private key"; "secret"; "token"].
Definition PROCEDURAL_ALLOWED_EFFECTS : list string := ["planner_hint"; "retrieval_ranking"; "composer_candidate_bias"].
Definition PROCEDURAL_REQUIRED_FORBIDDEN_EFFECTS : list string :=
  ["tool_grant"; "scope_grant"; "policy_override"; "validator_override"; "profile_mutation"; "runtime_authority"].
Definition CLASSIFICATION_ENVELOPE_CONTENT_KEYS : list string :=
  ["summary"; "evidence_uris"; "artifact_refs"; "redaction_status"; "authoritative"; "influence_class";
   "allowed_effects"; "forbidden_effects"; "applicability"].
Definition TASK_SUBJECT_CONTENT_KEYS : list string :=
  ["task_subject_fact"; "task_subject_facts"; "factual_claim"; "factual_claims"; "subject_data"; "subject_facts";
   "customer_record"; "customer_records"].
Definition AUTHORITY_LANGUAGE_TERMS : list string :=
  ["grant tool"; "grant tools"; "allow tool"; "allow tools"; "increase budget"; "raise budget"; "override policy";
   "override validator"; "disable validator"; "remove validator"; "relax policy"; "ignore policy"; "expand scope";
   "widen scope"; "profile mutation"; "runtime authority"].
Definition TASK_SUBJECT_LANGUAGE_TERMS : list string :=
  ["customer record"; "customer-specific"; "client record"; "private data"; "source extract"; "raw tool output"].

Definition candidate_check (b : bool) (msg : string) : res unit := raise_if b (MemoryCandidateError msg).
Definition HETZNER : string := "hetzner://runtime/".

(** ** What is extracted *)

(** The arguments of [extract_from_step] and of [emit_candidate_envelope];
    [None] is an argument left out. *)
Record candidate_request := mkCandidateRequest {
  target_memory_scope_id : string;
  candidate_content : odict value;
  candidate_sensitivity : string;
  candidate_retention : string;
  candidate_policy : string;
  candidate_class : string;
  classification_reason : option string;
  candidate_validator : string;
  candidate_id : option string;
  candidate_redact : bool;
}.

Definition _validate_extractable_step (run source_step : record) : res unit :=
  candidate_check (negb (py_eq (dget "run_id" VNone source_step) (dget "id" VNone run)))
    "Memory candidate source step must belong to the run." ;;
  candidate_check (negb (py_eq (dget "status" VNone source_step) (VStr "succeeded")))
    "Memory candidates can only be extracted from completed steps.".

Definition _classification_envelope_content (content : odict value) (redact : bool) : odict value :=
  let kept := List.filter (fun kv : string * value => str_in kv.1 CLASSIFICATION_ENVELOPE_CONTENT_KEYS) content in
  if od_mem "redaction_status" kept then kept
  else kept ++ [("redaction_status", VStr (if redact then "redacted" else "not_required"))].

Definition has_summary (content : odict value) : bool :=
  match dget "summary" VNone content with VStr s => negb (String.eqb s "") | _ => false end.

Section extraction.
Context (artifacts : JsonArtifactStore) (clock : nat -> datetime) (run source_step : record) (q : candidate_request).

Definition unsupported_keys : list string :=
  sorted_strs (List.filter (fun k => negb (str_in k CLASSIFICATION_ENVELOPE_CONTENT_KEYS)) (od_keys (candidate_content q))).

Definition resolved_reason : string :=
  or_str (classification_reason q) ("Candidate classified as " +:+ candidate_class q +:+ " by extraction contract.").

Definition extract_checks : res unit :=
  _validate_extractable_step run source_step ;;
  candidate_check (negb (has_summary (candidate_content q))) "Memory candidate content requires a non-empty summary." ;;
  candidate_check (negb (str_in (candidate_sensitivity q) SENSITIVITIES)) "Memory candidate sensitivity is invalid." ;;
  candidate_check (negb (str_in (candidate_class q) CANDIDATE_CLASSES)) "Memory candidate class is invalid." ;;
  candidate_check (nonempty unsupported_keys)
    ("Memory candidate content includes unsupported envelope fields: " +:+ join ", " unsupported_keys) ;;
  candidate_check (negb (nonblank resolved_reason)) "Memory candidate classification reason is required.".

(** The run, the step and the profile; without an identifier of its own a
    candidate's is made of the first two, which are then read first. *)
Definition step_ids : res (value * value * value) :=
  run_id ← ditem "id" run;
  if String.eqb (or_str (candidate_id q) "") ""
  then step_id ← ditem "id" source_step; profile_id ← ditem "profile_id" run; mret (run_id, step_id, profile_id)
  else profile_id ← ditem "profile_id" run; step_id ← ditem "id" source_step; mret (run_id, step_id, profile_id).

Definition candidate_identifier (run_id step_id : value) (suffix prefix : string) : string :=
  or_str (candidate_id q)
    (slug_id (py_str run_id +:+ "-" +:+ py_str step_id +:+ "-" +:+ target_memory_scope_id q +:+ suffix) (Some prefix)).

Definition envelope (ids : value * value * value) (class reason : string) (last : odict value) : res (odict value) :=
  route ← ditem class PROMOTION_ROUTES;
  mret (od_of_list ([("contract_version", VStr "0.1.0")] ++
    _classification_envelope_content (candidate_content q) (candidate_redact q) ++
    [("source_run_id", ids.1.1); ("source_profile_id", ids.2); ("source_step_id", ids.1.2);
     ("target_memory_scope_id", VStr (target_memory_scope_id q)); ("candidate_class", VStr class);
     ("classification_reason", VStr reason); ("promotion_route", VStr route);
     ("sensitivity", VStr (candidate_sensitivity q)); ("retention_policy", VStr (candidate_retention q));
     ("policy_id", VStr (candidate_policy q)); ("validator_id", VStr (candidate_validator q))] ++ last)).

Definition candidate_record (ids : value * value * value) (identifier content_uri created_at : string) : record :=
  [("id", VStr identifier); ("run_id", VStr (py_str ids.1.1)); ("profile_id", VStr (py_str ids.2));
   ("source_step_id", VStr (py_str ids.1.2)); ("target_memory_scope_id", VStr (target_memory_scope_id q));
   ("candidate_class", VStr (candidate_class q)); ("classification_reason", VStr resolved_reason);
   ("content_uri", VStr content_uri); ("sensitivity", VStr (candidate_sensitivity q));
   ("retention_policy", VStr (candidate_retention q)); ("validator_status", VStr "pending");
   ("validator_id", VStr (candidate_validator q)); ("validation_reason", VNone); ("policy_status", VStr "pending");
   ("policy_id", VStr (candidate_policy q)); ("policy_reason", VNone); ("created_at", VStr created_at)].

Definition extract_from_step : rt record :=
  lift extract_checks ;;
  ids ← lift step_ids;
  let identifier := candidate_identifier ids.1.1 ids.1.2 "" "mc" in
  payload ← lift (envelope ids (candidate_class q) resolved_reason []);
  content_uri ← on_files (write_json artifacts ["artifacts"; py_str ids.1.1; "memory-candidates"; identifier]
                  (VDict payload) (candidate_redact q));
  created_at ← iso_now clock;
  on_store (insert_memory_candidate (candidate_record ids identifier content_uri created_at)).

(** ** Reflection: an envelope, no record *)

Definition _validate_reflection_request (reason : string) : res unit :=
  candidate_check (negb (has_summary (candidate_content q))) "Reflection envelope requires a non-empty summary." ;;
  match dget "evidence_uris" VNone (candidate_content q) with
  | VList ((_ :: _) as uris) =>
      candidate_check (existsb (fun u => negb (startswith HETZNER (py_str u))) uris)
        "Reflection envelope evidence_uris must point to Hetzner runtime artifacts."
  | _ => candidate_check true "Reflection envelope requires evidence_uris."
  end ;;
  candidate_check (negb (str_in (candidate_sensitivity q) SENSITIVITIES)) "Reflection envelope sensitivity is invalid." ;;
  candidate_check (negb (str_in (candidate_class q) CANDIDATE_CLASSES)) "Reflection envelope candidate_class is invalid." ;;
  candidate_check (negb (nonblank reason)) "Reflection envelope classification_reason is required.".

Definition mentions (terms : list string) (text : string) : bool := existsb (fun t => contains t text) terms.

Definition _resolved_candidate_class : string :=
  if String.eqb (candidate_class q) "rejected" || String.eqb (candidate_sensitivity q) "secret" then "rejected"
  else if existsb (fun k => od_mem k (candidate_content q)) REFLECTION_REJECTION_KEYS then "rejected"
  else if mentions SECRET_LIKE_TERMS (casefold (py_str (dget "summary" (VStr "") (candidate_content q)))) then "rejected"
  else candidate_class q.

Definition emit_candidate_envelope (reason : string) : rt (odict value) :=
  lift (_validate_extractable_step run source_step) ;;
  lift (_validate_reflection_request reason) ;;
  let class := _resolved_candidate_class in
  let resolved := if String.eqb class "rejected" && negb (String.eqb (candidate_class q) "rejected")
                  then reason +:+ " Rejected by post-run reflection safety precheck." else reason in
  ids ← lift step_ids;
  let identifier := candidate_identifier ids.1.1 ids.1.2 "-reflection" "mce" in
  created_at ← iso_now clock;
  payload ← lift (envelope ids class resolved [("created_at", VStr created_at)]);
  uri ← on_files (write_json artifacts ["artifacts"; py_str ids.1.1; "memory-reflection-candidates"; identifier]
          (VDict payload) (candidate_redact q));
  route ← lift (ditem class PROMOTION_ROUTES);
  mret [("id", VStr identifier); ("run_id", VStr (py_str ids.1.1)); ("profile_id", VStr (py_str ids.2));
    ("source_step_id", VStr (py_str ids.1.2)); ("target_memory_scope_id", VStr (target_memory_scope_id q));
    ("candidate_class", VStr class); ("classification_reason", VStr resolved); ("promotion_route", VStr route);
    ("envelope_uri", VStr uri); ("created_at", VStr created_at)].
End extraction.

(** ** Review *)

Definition all_hetzner (uris : list string) : bool := forallb (startswith HETZNER) uris.

Definition _procedural_content_errors (content : odict value) : res (list string) :=
  let summary := casefold (strip (py_str (dget "summary" (VStr "") content))) in
  let evidence := nonblank_items (dget "evidence_uris" VNone content) in
  known ← in_frozenset (dget "influence_class" VNone content) PROCEDURAL_ALLOWED_EFFECTS;
  let allowed := nonblank_items (dget "allowed_effects" VNone content) in
  let forbidden := nonblank_items (dget "forbidden_effects" VNone content) in
  let missing := sorted_strs (List.filter (fun e => negb (str_in e forbidden)) PROCEDURAL_REQUIRED_FORBIDDEN_EFFECTS) in
  let blocked := sorted_strs (List.filter (fun k => od_mem k content)
                   (REFLECTION_REJECTION_KEYS ++ TASK_SUBJECT_CONTENT_KEYS)) in
  mret (violated (negb (nonempty (nonblank_items (dget "applicability" VNone content))))
      "procedural lessons require applicability metadata" ++
    violated (negb (nonempty evidence) || negb (all_hetzner evidence)) "procedural lessons require Hetzner evidence_uris" ++
    violated (negb (is_false (dget "authoritative" VNone content))) "procedural lessons must set authoritative=false" ++
    violated (negb known) "procedural lesson influence_class is invalid" ++
    (if nonempty allowed
     then violated (negb (forallb (fun e => str_in e PROCEDURAL_ALLOWED_EFFECTS) allowed))
            "procedural lesson allowed_effects include authority effects"
     else ["procedural lessons require allowed_effects"]) ++
    violated (nonempty missing) ("procedural lessons must forbid authority effects: " +:+ join ", " missing) ++
    violated (nonempty blocked)
      ("procedural lessons must not contain raw, source, customer, private, secret, or task-subject fields: "
       +:+ join ", " blocked) ++
    violated (mentions SECRET_LIKE_TERMS summary) "procedural lessons must not contain secret-like values" ++
    violated (mentions TASK_SUBJECT_LANGUAGE_TERMS summary) "procedural lessons must not contain task-subject content" ++
    violated (mentions AUTHORITY_LANGUAGE_TERMS summary) "procedural lessons must not contain authority-changing language" ++
    violated (is_true (dget "applies_to_all_tasks" VNone content)) "procedural lessons must not generalize to all tasks" ++
    violated (str_in (casefold (py_str (dget "generalization_scope" (VStr "") content))) ["global"; "all"])
      "procedural lessons must not use unsafe generalization scope").

Definition NON_PROMOTABLE_REASONS : odict string :=
  [("task_subject_fact", "task-subject facts must be proposed through scoped knowledge records, not promoted to Agent Memory");
   ("runtime_evidence", "runtime evidence must remain in the Hetzner Runtime Plane, not promoted to Agent Memory");
   ("knowledge_record_proposal", "knowledge record proposals require the knowledge approval path, not Agent Memory promotion");
   ("rejected", "rejected candidates cannot be promoted to Agent Memory")].
Definition _non_promotable_candidate_reason (class : string) : string :=
  match od_get class NON_PROMOTABLE_REASONS with
  | Some reason => reason
  | None => "candidate_class is not promotable to Agent Memory"
  end.

Definition CANDIDATE_FIELDS : list string :=
  ["id"; "run_id"; "profile_id"; "source_step_id"; "target_memory_scope_id"; "candidate_class";
   "classification_reason"; "content_uri"; "sensitivity"; "retention_policy"; "validator_id"; "policy_id"].

Definition _validation_errors (candidate : record) (content : option (odict value)) : res (list string) :=
  let sensitivity := dget "sensitivity" VNone candidate in
  let class := dget "candidate_class" VNone candidate in
  sensitive ← in_frozenset sensitivity SENSITIVITIES;
  known ← in_frozenset class CANDIDATE_CLASSES;
  content_errors ← match content with
                   | Some c => if py_eq class (VStr PROMOTABLE_CANDIDATE_CLASS) then _procedural_content_errors c else mret []
                   | None => mret []
                   end;
  mret (missing_fields CANDIDATE_FIELDS candidate ++
    violated (py_eq sensitivity (VStr "secret")) "secret candidates must not be promoted to Cloudflare memory" ++
    violated (negb sensitive) "sensitivity is invalid" ++
    (if (known : bool)
     then violated (negb (py_eq class (VStr PROMOTABLE_CANDIDATE_CLASS))) (_non_promotable_candidate_reason (py_str class))
     else ["candidate_class is invalid"]) ++
    violated (negb (nonblank (py_str (dget "classification_reason" (VStr "") candidate)))) "classification_reason is required" ++
    violated (negb (startswith HETZNER (py_str (dget "content_uri" (VStr "") candidate))))
      "content_uri must point to a Hetzner runtime artifact" ++
    match content with
    | Some c => violated (negb (nonblank (py_str (dget "summary" (VStr "") c)))) "content summary is required"
    | None => []
    end ++ content_errors).

Record MemoryCandidateValidator := mkCandidateValidator {
  allowed_memory_scope_ids : list string;
  allowed_policy_ids : list string;
  safety_compiler : option SafetyCompiler;
}.

Definition drift_errors (compiler : SafetyCompiler) (content : odict value) : res (list string) :=
  match dget "learned_context_authority_prior" VNone content with
  | VDict prior =>
      d ← compile_learned_authority_prior compiler prior (text_items (dget "reviewed_policy_artifacts" VNone content));
      mret (violated (negb (automatic_promotion_allowed d))
        ("semantic drift guard blocked learned authority (" +:+ decision d +:+ "; matched_pairs="
         +:+ (match matched_pair_ids d with [] => "none" | ids => join ", " ids end) +:+ ")"))
  | _ => mret []
  end.

Definition _policy_errors (v : MemoryCandidateValidator) (candidate : record) (content : option (odict value))
    : res (list string) :=
  scope ← in_frozenset (dget "target_memory_scope_id" VNone candidate) (allowed_memory_scope_ids v);
  policy ← in_frozenset (dget "policy_id" VNone candidate) (allowed_policy_ids v);
  drift ← match content, safety_compiler v with
          | Some c, Some compiler => drift_errors compiler c
          | _, _ => mret []
          end;
  mret (violated (negb scope) "target memory scope is not allowed" ++ violated (negb policy) "policy is not allowed" ++ drift).

Record MemoryCandidateValidationResult := mkCandidateResult {
  result_candidate : record;
  validator_status : string;
  policy_status : string;
  validation_reason : string;
  policy_reason : string;
}.
Definition candidate_approved (r : MemoryCandidateValidationResult) : bool :=
  String.eqb (validator_status r) "approved" && String.eqb (policy_status r) "approved".

Definition status_of (errors : list string) : string := match errors with [] => "approved" | _ => "rejected" end.
Definition reason_of (errors : list string) (otherwise : string) : string :=
  match errors with [] => otherwise | _ => join "; " errors end.

Definition validate_candidate (v : MemoryCandidateValidator) (candidate : record) (content : option (odict value))
    : rt MemoryCandidateValidationResult :=
  errors ← lift (_validation_errors candidate content);
  policy ← lift (_policy_errors v candidate content);
  let vs := status_of errors in
  let ps := status_of (policy ++ errors) in
  let vr := reason_of errors "Candidate has provenance, scoped memory target, and acceptable sensitivity." in
  let pr := reason_of policy "Policy allows the target memory scope for this candidate." in
  id ← lift (ditem "id" candidate);
  updated ← on_store (update_memory_candidate (py_str id)
    [("validator_status", VStr vs); ("validation_reason", VStr vr); ("policy_status", VStr ps); ("policy_reason", VStr pr)]);
  mret (mkCandidateResult updated vs ps vr pr).

(** ** Submission *)

Definition SUBMIT_FIELDS : list string :=
  ["id"; "run_id"; "profile_id"; "target_memory_scope_id"; "content_uri"; "sensitivity"; "retention_policy";
   "candidate_class"; "validator_status"; "policy_status"].

Definition _validate_candidate (candidate : record) : res unit :=
  match missing_fields SUBMIT_FIELDS candidate with
  | [] => Ok tt
  | missing => Raise (MemoryFeedbackError ("Memory candidate is missing fields: " +:+ join ", " missing))
  end ;;
  raise_if (negb (py_eq (dget "validator_status" VNone candidate) (VStr "approved")))
    (MemoryFeedbackError "Memory candidate validator_status must be approved.") ;;
  raise_if (negb (py_eq (dget "policy_status" VNone candidate) (VStr "approved")))
    (MemoryFeedbackError "Memory candidate policy_status must be approved.") ;;
  raise_if (negb (py_eq (dget "candidate_class" VNone candidate) (VStr "procedural_lesson")))
    (MemoryFeedbackError "Only procedural_lesson candidates can be submitted as Agent Memory.").

Definition text_of (k : string) (candidate : record) : value := VStr (py_str (dget k VNone candidate)).

Definition memory_request (contract_version version : string) (candidate : record) (consolidated : odict value) : odict value :=
  [("contract_version", VStr contract_version);
   ("memory", VDict [("id", text_of "id" candidate); ("memory_scope_id", text_of "target_memory_scope_id" candidate);
      ("version", VStr version);
      ("content", VDict (od_set "source_artifact_uri" (text_of "content_uri" candidate) consolidated));
      ("source_run_id", text_of "run_id" candidate); ("source_profile_id", text_of "profile_id" candidate);
      ("sensitivity", text_of "sensitivity" candidate); ("retention_policy", text_of "retention_policy" candidate)])].

(** [ingest_memory] is the client's. *)
Definition submit_candidate {X} (ingest_memory : odict value -> eff X exn (odict value)) (contract_version : string)
    (candidate : record) (consolidated : odict value) (version : string) : eff X exn (odict value) :=
  lift (_validate_candidate candidate) ;;
  ingest_memory (memory_request contract_version version candidate consolidated).

(** ** What approval means *)

(** A record that may become agent memory under the validator [v]. *)
Definition promotable (v : MemoryCandidateValidator) (c : record) : Prop :=
  dget "candidate_class" VNone c = VStr "procedural_lesson" /\
  (exists s, dget "sensitivity" VNone c = VStr s /\ In s SENSITIVITIES /\ s <> "secret") /\
  (exists s, dget "target_memory_scope_id" VNone c = VStr s /\ In s (allowed_memory_scope_ids v)) /\
  (exists p, dget "policy_id" VNone c = VStr p /\ In p (allowed_policy_ids v)) /\
  startswith HETZNER (py_str (dget "content_uri" (VStr "") c)) = true /\
  nonblank (py_str (dget "classification_reason" (VStr "") c)) = true.

Lemma status_of_approved l : status_of l = "approved" <-> l = [].
Proof. by destruct l. Qed.

Lemma no_errors_promotable v c content :
  _validation_errors c content = Ok [] -> _policy_errors v c content = Ok [] -> promotable v c.
Proof.
  unfold _validation_errors, _policy_errors. intros H1 H2.
  apply bind_Ok in H1 as (sensitive & Hs & H1). apply bind_Ok in H1 as (known & Hk & H1).
  apply bind_Ok in H1 as (errors & _ & [= H1]).
  apply bind_Ok in H2 as (scope & Hsc & H2). apply bind_Ok in H2 as (policy & Hp & H2).
  apply bind_Ok in H2 as (drift & _ & [= H2]).
  apply app_eq_nil in H1 as [_ [Hsec%violated_nil [Hse%violated_nil [Hcls
    [Hreason%violated_nil [Huri%violated_nil _]%app_eq_nil]%app_eq_nil]%app_eq_nil]%app_eq_nil]%app_eq_nil].
  apply app_eq_nil in H2 as [Hsco%violated_nil [Hpo%violated_nil _]%app_eq_nil].
  rewrite negb_false_iff in Hse, Hreason, Huri, Hsco, Hpo. subst sensitive scope policy.
  destruct known; [|done]. apply violated_nil, negb_false_iff, py_eq_str_r in Hcls.
  apply in_frozenset_Ok in Hs as (s & Hs & Hin), Hsc as (sc & Hsc & Hsc'), Hp as (p & Hp & Hp').
  unfold promotable. rewrite Hs in Hsec. split_and!; eauto 6.
  exists s. split_and!; try done. intros ->. by rewrite (proj2 (py_eq_str_r _ _) eq_refl) in Hsec.
Qed.

Definition statuses_approved (c : record) : Prop :=
  dget "validator_status" VNone c = VStr "approved" /\ dget "policy_status" VNone c = VStr "approved".

(** A record is refused for submission unless both reviews approved it. *)
Lemma submission_checked c : _validate_candidate c = Ok tt ->
  statuses_approved c /\ dget "candidate_class" VNone c = VStr "procedural_lesson".
Proof.
  unfold _validate_candidate, statuses_approved. intros H. inv_ok.
  rewrite negb_false_iff in H, H1, H2. by apply py_eq_str_r in H, H1, H2.
Qed.

(** ** The pipeline *)

Definition candidates (w : world) : list record := memory_candidates (w_store w).
Definition cid (c : record) : option value := od_get "id" c.
Definition named (c : record) : Prop := exists i, cid c = Some (VStr i).

(** One call of the pipeline on the store: an extraction, or a review of a stored
    candidate. *)
Inductive pipeline_step (artifacts : JsonArtifactStore) (clock : nat -> datetime) (v : MemoryCandidateValidator)
    : world -> world -> Prop :=
| Extracted run source_step q w r w' :
    extract_from_step artifacts clock run source_step q w = (r, w') ->
    pipeline_step artifacts clock v w w'
| Reviewed c content w r w' :
    In c (candidates w) -> validate_candidate v c content w = (r, w') ->
    pipeline_step artifacts clock v w w'.

Inductive pipeline artifacts clock v (w : world) : world -> Prop :=
| Start : pipeline artifacts clock v w w
| Then w1 w2 : pipeline artifacts clock v w w1 -> pipeline_step artifacts clock v w1 w2 -> pipeline artifacts clock v w w2.

Definition reviewed (v : MemoryCandidateValidator) (w : world) : Prop :=
  NoDup (map cid (candidates w)) /\ Forall named (candidates w) /\
  Forall (fun c => statuses_approved c -> promotable v c) (candidates w).

Lemma update_first_spec id fields l1 c l2 :
  cid c = Some (VStr id) -> Forall named (l1 ++ c :: l2) -> NoDup (map cid (l1 ++ c :: l2)) ->
  update_first_candidate id fields (l1 ++ c :: l2) = Ok (od_update c fields, l1 ++ od_update c fields :: l2).
Proof.
  intros Hc. induction l1 as [|x l1 IH]; cbn [app update_first_candidate map].
  - intros _ _. unfold ditem. unfold cid in Hc. rewrite Hc. cbn. by rewrite String.eqb_refl.
  - intros [(i & Hi) HF]%Forall_cons [Hn HN]%NoDup_cons. unfold ditem. unfold cid in Hi. rewrite Hi. cbn.
    destruct (String.eqb_spec i id) as [->|Hne].
    + destruct Hn. apply list_elem_of_In, in_map_iff. exists c. unfold cid. rewrite Hi. split; [done|].
      apply in_app_iff. right. by left.
    + rewrite IH by done. done.
Qed.

Definition STATUS_KEYS : list string := ["validator_status"; "validation_reason"; "policy_status"; "policy_reason"].

Lemma review_keeps k (c fields : record) : od_keys fields = STATUS_KEYS -> ~ In k STATUS_KEYS ->
  od_get k (od_update c fields) = od_get k c.
Proof.
  intros Hk Hn. rewrite <- Hk in Hn. clear Hk. revert c. induction fields as [|[f x] fields IH]; intros c; [done|].
  change (od_update c ((f, x) :: fields)) with (od_update (od_set f x c) fields). cbn in Hn.
  rewrite IH by naive_solver. apply od_get_set_ne. naive_solver.
Qed.

Lemma promotable_keeps v c fields : od_keys fields = STATUS_KEYS -> promotable v c -> promotable v (od_update c fields).
Proof.
  intros Hk. unfold promotable, dget. rewrite !(review_keeps _ _ _ Hk); [done|..]; cbn; naive_solver.
Qed.

Lemma candidates_set v st w : candidates (set_store (set_log MemoryCandidates v st) w) = v.
Proof. unfold candidates. cbn. by destruct st. Qed.

Lemma extract_candidates artifacts clock run source_step q w r w' :
  extract_from_step artifacts clock run source_step q w = (r, w') ->
  (exists e, r = Raise e /\ candidates w' = candidates w) \/
  (exists c, r = Ok c /\ candidates w' = candidates w ++ [c] /\ named c /\ ~ statuses_approved c).
Proof.
  unfold extract_from_step, mbind, eff_bind, lift.
  destruct (extract_checks run source_step q) as [[]|e]; [|intros [= <- <-]; eauto].
  destruct (step_ids run source_step q) as [ids|e]; [|intros [= <- <-]; eauto].
  destruct (envelope q ids _ _ _) as [payload|e]; [|intros [= <- <-]; eauto].
  unfold on_files, zoom. destruct (write_json _ _ _ _ _) as [[uri|e] f]; [|intros [= <- <-]; eauto].
  intros [= <- <-]. right. eexists. split; [reflexivity|]. split; [apply candidates_set|].
  split; [eexists; reflexivity|]. by intros [[=] _].
Qed.

Lemma review_candidates v c content w r w' :
  reviewed v w -> In c (candidates w) -> validate_candidate v c content w = (r, w') -> reviewed v w'.
Proof.
  intros (Hn & HF & HP) Hin. unfold validate_candidate, mbind, eff_bind, lift.
  destruct (_validation_errors c content) as [errors|e] eqn:E1; [|by intros [= _ <-]].
  destruct (_policy_errors v c content) as [policy|e] eqn:E2; [|by intros [= _ <-]].
  destruct (ditem "id" c) as [id|e] eqn:Ei; [|by intros [= _ <-]].
  assert (Hid : named c) by (rewrite Forall_forall in HF; by apply HF, list_elem_of_In).
  destruct Hid as [i Hi]. unfold ditem in Ei. pose proof Hi as Hi'. unfold cid in Hi'. rewrite Hi' in Ei.
  injection Ei as <-. clear Hi'.
  apply list_elem_of_In, list_elem_of_split in Hin as (l1 & l2 & Hl). cbn [py_str].
  set (fields := [("validator_status", _); _; _; _]). unfold candidates in Hn, HF, HP, Hl.
  assert (Hk : od_keys fields = STATUS_KEYS) by done.
  unfold on_store, zoom, update_memory_candidate, mbind, eff_bind, lift, gets, modify. rewrite Hl in *.
  rewrite (update_first_spec i fields l1 c l2 Hi HF Hn).
  assert (Hcid : cid (od_update c fields) = cid c).
  { unfold cid. apply review_keeps; [done|]. cbn. intuition discriminate. }
  assert (Hprom : statuses_approved (od_update c fields) -> promotable v (od_update c fields)).
  { intros [Hvs Hps]. apply promotable_keeps; [done|].
    unfold dget, od_update in Hvs, Hps. cbn [foldl fields fst snd] in Hvs, Hps.
    rewrite od_get_set_ne, od_get_set_ne, od_get_set_ne, od_get_set_eq in Hvs by discriminate.
    rewrite od_get_set_ne, od_get_set_eq in Hps by discriminate.
    injection Hvs as Hvs%status_of_approved. injection Hps as Hps%status_of_approved.
    apply app_eq_nil in Hps as [-> _]. subst errors. by apply (no_errors_promotable v c content). }
  remember (od_update c fields) as c' eqn:Ec. clear Ec Hk. intros [= _ <-].
  unfold reviewed. rewrite candidates_set.
  rewrite map_app in Hn |- *. cbn [map] in Hn |- *. rewrite Hcid.
  rewrite Forall_app, Forall_cons in HF, HP. destruct HF as (? & ? & ?), HP as (? & _ & ?).
  split; [done|]. rewrite !Forall_app, !Forall_cons. split_and!; try done. exists i. by rewrite Hcid.
Qed.

Lemma update_first_ids id fields l r l' : od_keys fields = STATUS_KEYS ->
  update_first_candidate id fields l = Ok (r, l') -> map cid l' = map cid l.
Proof.
  intros Hk. assert (Hcid : forall c, cid (od_update c fields) = cid c).
  { intros c. unfold cid. apply review_keeps; [done|]. cbn. intuition discriminate. }
  revert r l'. induction l as [|c l IH]; intros r l' H; cbn [update_first_candidate] in H; [done|].
  apply bind_Ok in H as (i & _ & H). destruct (py_eq i (VStr id)).
  - injection H as _ <-. cbn. by rewrite Hcid.
  - apply bind_Ok in H as ([r0 l0] & H & [= _ <-]). cbn. by rewrite (IH _ _ H).
Qed.

Lemma review_ids v c content w r w' : validate_candidate v c content w = (r, w') ->
  map cid (candidates w') = map cid (candidates w).
Proof.
  unfold validate_candidate, mbind, eff_bind, lift.
  destruct (_validation_errors c content) as [errors|e]; [|by intros [= _ <-]].
  destruct (_policy_errors v c content) as [policy|e]; [|by intros [= _ <-]].
  destruct (ditem "id" c) as [id|e]; [|by intros [= _ <-]]. set (fields := [("validator_status", _); _; _; _]).
  unfold on_store, zoom, update_memory_candidate, mbind, eff_bind, lift, gets, modify.
  destruct (update_first_candidate (py_str id) fields (memory_candidates (w_store w))) as [[r0 l0]|e] eqn:E;
    [|intros [= _ <-]; by destruct w].
  intros [= _ <-]. rewrite candidates_set. by apply update_first_ids in E.
Qed.

(** A step only adds to the identifiers of the table. *)
Lemma pipeline_step_ids artifacts clock v w w' : pipeline_step artifacts clock v w w' ->
  exists new, map cid (candidates w') = map cid (candidates w) ++ new.
Proof.
  intros [run step q w1 r w2 He|c content w1 r w2 _ Hv%review_ids]; [|exists []; by rewrite app_nil_r].
  apply extract_candidates in He as [(e & _ & ->)|(c & _ & -> & _)]; [exists []; by rewrite app_nil_r|].
  exists [cid c]. by rewrite map_app.
Qed.

Lemma pipeline_reviewed artifacts clock v w w' :
  reviewed v w -> pipeline artifacts clock v w w' -> NoDup (map cid (candidates w')) -> reviewed v w'.
Proof.
  intros H0. induction 1 as [|w1 w2 _ IH Hs]; [done|]. intros Hn. pose proof Hn as Hn1.
  destruct (pipeline_step_ids _ _ _ _ _ Hs) as (new & E). rewrite E in Hn1. apply NoDup_app in Hn1 as [Hn1 _].
  specialize (IH Hn1). destruct Hs as [run step q w1 r w2 He|c content w1 r w2 Hc Hv]; [|by eapply review_candidates].
  destruct IH as (_ & HF & HP).
  apply extract_candidates in He as [(e & _ & Hw)|(c & -> & Hw & Hnamed & Hp)]; unfold reviewed; rewrite Hw in *; [done|].
  rewrite !Forall_app, !Forall_cons. split_and!; done.
Qed.

(** C22. Nothing of the pipeline reaches agent memory unreviewed. Whatever
    extractions and reviews of stored candidates have run on an empty table, as
    long as no two stored candidates have one identifier, submitting a candidate
    of the table either calls the memory service, for a procedural lesson that
    is not secret, in a scope and under a policy the validator allows, with its
    content on the runtime plane, and which both reviews approved, or it raises
    without calling the service. Identifiers do collide, see
    [wrong_record_approved]; and the submission itself trusts the statuses of
    any mapping, and sends content nobody reviewed, see [forged_candidate]. *)
Theorem memory_submission_gated {X} (ingest : odict value -> eff X exn (odict value)) artifacts clock v w w' c
    contract_version consolidated version (x : X) :
  candidates w = [] -> pipeline artifacts clock v w w' -> NoDup (map cid (candidates w')) -> In c (candidates w') ->
  (promotable v c /\ statuses_approved c /\
   submit_candidate ingest contract_version c consolidated version x
   = ingest (memory_request contract_version version c consolidated) x) \/
  exists e, submit_candidate ingest contract_version c consolidated version x = (Raise e, x).
Proof.
  intros H0 Hp Hn Hc. assert (Hr : reviewed v w) by (unfold reviewed; rewrite H0; by repeat constructor).
  apply (pipeline_reviewed _ _ _ _ _ Hr) in Hp as (_ & _ & HP); [|exact Hn]. rewrite Forall_forall in HP.
  unfold submit_candidate, mbind, eff_bind, lift.
  destruct (_validate_candidate c) as [[]|e] eqn:E; [left|right; eauto].
  apply submission_checked in E as [E _]. split_and!; try done; try apply E. apply HP; [by apply list_elem_of_In|done].
Qed.

Definition demo_run : record := [("id", VStr "run-1"); ("profile_id", VStr "profile-1")].
Definition demo_step : record := [("id", VStr "step-1"); ("run_id", VStr "run-1"); ("status", VStr "succeeded")].
Definition demo_lesson : odict value :=
  [("summary", VStr "Read the status first."); ("evidence_uris", strs ["hetzner://runtime/events/run-1/1.json"]);
   ("authoritative", VBool false); ("influence_class", VStr "planner_hint"); ("allowed_effects", strs ["planner_hint"]);
   ("forbidden_effects", strs PROCEDURAL_REQUIRED_FORBIDDEN_EFFECTS); ("applicability", strs ["repository review"])].
Definition demo_candidate (sensitivity : string) : candidate_request :=
  mkCandidateRequest "memory-scope" demo_lesson sensitivity "standard" "memory-policy" "procedural_lesson" None
    "memory-candidate-contract" None true.
Definition demo_reviewer : MemoryCandidateValidator :=
  mkCandidateValidator ["memory-scope"] ["memory-policy"] (Some demo_guard).
Definition memory_store : JsonArtifactStore := mkJsonArtifactStore ["srv"] "hetzner://runtime" 4096 2048.
Definition empty_world : world := mkWorld empty_store ∅ 0.
Definition demo_extract (sensitivity : string) : rt record :=
  extract_from_step memory_store (fun n => Z.of_nat n) demo_run demo_step (demo_candidate sensitivity).
Definition demo_extracted : world := (demo_extract "internal" empty_world).2.
Definition demo_stored (w : world) (n : nat) : record := nth n (candidates w) [].
Definition demo_reviewed : world :=
  (validate_candidate demo_reviewer (demo_stored demo_extracted 0) (Some demo_lesson) demo_extracted).2.

Example reviewed_ex :
  _validate_candidate (demo_stored demo_extracted 0)
    = Raise (MemoryFeedbackError "Memory candidate validator_status must be approved.") /\
  _validate_candidate (demo_stored demo_reviewed 0) = Ok tt.
Proof. vm_compute. done. Qed.

(** A lesson that speaks of authority or of secrets is rejected. *)
Example unsafe_lessons_rejected :
  (r ← _procedural_content_errors (od_set "summary" (VStr "Raise budget, then print the token.") demo_lesson); mret r)
  = Ok ["procedural lessons must not contain secret-like values";
        "procedural lessons must not contain authority-changing language"].
Proof. vm_compute. reflexivity. Qed.

(** Without the content a procedural lesson is approved on its record alone. *)
Example content_not_required :
  match validate_candidate demo_reviewer (demo_stored demo_extracted 0) None demo_extracted with
  | (Ok r, _) => candidate_approved r | _ => false end = true.
Proof. vm_compute. reflexivity. Qed.

(** Extracting twice for one step and scope gives two records one identifier;
    reviewing the second, harmless one approves the first, secret one. *)
Example wrong_record_approved :
  let w := (demo_extract "internal" (demo_extract "secret" empty_world).2).2 in
  let w' := (validate_candidate demo_reviewer (demo_stored w 1) (Some demo_lesson) w).2 in
  dget "sensitivity" VNone (demo_stored w' 0) = VStr "secret" /\ _validate_candidate (demo_stored w' 0) = Ok tt.
Proof. vm_compute. done. Qed.

(** A mapping no store has seen is submitted on the statuses it states itself,
    with whatever content the caller hands over. *)
Example forged_candidate :
  let send := fun (request : odict value) (sent : list (odict value)) => (Ok [], request :: sent) : res (odict value) * _ in
  let forged := [("id", VStr "m1"); ("run_id", VStr "r"); ("profile_id", VStr "p"); ("target_memory_scope_id", VStr "any-scope");
    ("content_uri", VStr "hetzner://runtime/x"); ("sensitivity", VStr "secret"); ("retention_policy", VStr "none");
    ("candidate_class", VStr "procedural_lesson"); ("validator_status", VStr "approved"); ("policy_status", VStr "approved")] in
  submit_candidate send "0.1.0" forged [("summary", VStr "Never reviewed.")] "0.1.0" []
  = (Ok [], [memory_request "0.1.0" "0.1.0" forged [("summary", VStr "Never reviewed.")]]).
Proof. vm_compute. reflexivity. Qed.

Lemma memory_submission_gated_witness :
  let send := fun (_ : odict value) (n : nat) => (Ok [], S n) : res (odict value) * nat in
  (promotable demo_reviewer (demo_stored demo_reviewed 0) /\ statuses_approved (demo_stored demo_reviewed 0) /\
   submit_candidate send "0.1.0" (demo_stored demo_reviewed 0) [] "0.1.0" 0%nat
   = send (memory_request "0.1.0" "0.1.0" (demo_stored demo_reviewed 0) []) 0%nat) \/
  exists e, submit_candidate send "0.1.0" (demo_stored demo_reviewed 0) [] "0.1.0" 0%nat = (Raise e, 0%nat).
Proof.
  apply (memory_submission_gated _ memory_store (fun n => Z.of_nat n) demo_reviewer empty_world demo_reviewed).
  - reflexivity.
  - eapply Then; [eapply Then; [apply Start|]|].
    + eapply (Extracted _ _ _ demo_run demo_step (demo_candidate "internal") empty_world _ demo_extracted).
      apply surjective_pairing.
    + eapply (Reviewed _ _ _ (demo_stored demo_extracted 0) (Some demo_lesson)).
      * vm_compute. left. reflexivity.
      * apply surjective_pairing.
  - vm_compute. apply NoDup_singleton.
  - vm_compute. left. reflexivity.
Defined.
