(* ===== verification/MemorySafety.v ===== *)
(** * Memory safety evaluation: the gates held against known cases

    Models [operations/memory_safety_evaluation.py]. A fixture holds cases for
    three gates of the runtime: the review of a memory candidate, the safety
    compiler's decision on a learned prior, and the check of a plan that uses
    memory. Each case runs its gate and is compared with the outcome it expects.
    The numbers of a fixture are its thresholds, which are kept beside its other
    fields. [load_policy] reads the policy file at a path. *)

From Stdlib Require Import SpecFloat.
From S2P Require Import Prelude PyStr PyFloat PyValue Documents Models RuntimeStore Artifacts FlightRecorder Context SafetyCompiler MemoryCandidates.
Open Scope string_scope.
Open Scope list_scope.

Definition BLOCKING_OUTCOME : string := "block".
Definition ALLOWING_OUTCOME : string := "allow".
Definition REVIEW_GATES : list string := ["freeze_prior"; "needs_human_review"; "needs_more_evidence"].

Definition malformed {A} (msg : string) : res A := Raise (MemorySafetyEvaluationError msg).

Definition _required_mapping (d : odict value) (key : string) : res (odict value) :=
  match dget key VNone d with VDict m => mret m | _ => malformed (key +:+ " must be an object.") end.
Definition _required_list (d : odict value) (key : string) : res (list (odict value)) :=
  let error := malformed (key +:+ " must be a list of objects.") in
  match dget key VNone d with
  | VList l => match mapM as_mapping l with Some items => mret items | None => error end
  | _ => error
  end.
Definition _required_string (d : odict value) (key : string) : res string :=
  let error := malformed (key +:+ " must be a non-empty string.") in
  match dget key VNone d with VStr s => if nonblank s then mret s else error | _ => error end.
Definition texts_or (v : value) (default : list string) : list string :=
  match v with VList l => nonblank_items (VList l) | _ => default end.

(** ** The gates *)

Definition _base_candidate (case_id : string) : odict value :=
  [("id", VStr ("mc-" +:+ case_id)); ("run_id", VStr "run-memory-safety-fixture"); ("profile_id", VStr "profile-memory-safety-fixture");
   ("source_step_id", VStr "step-memory-safety-fixture"); ("target_memory_scope_id", VStr "project-memory");
   ("candidate_class", VStr "procedural_lesson");
   ("classification_reason", VStr "Fixture candidate is classified for memory safety evaluation.");
   ("content_uri", VStr ("hetzner://runtime/run-memory-safety-fixture/" +:+ case_id +:+ ".json")); ("sensitivity", VStr "internal");
   ("retention_policy", VStr "runtime-30d"); ("validator_status", VStr "pending"); ("validator_id", VStr "memory-candidate-contract");
   ("validation_reason", VNone); ("policy_status", VStr "pending"); ("policy_id", VStr "memory-taxonomy-policy");
   ("policy_reason", VNone)].

Definition _default_runtime_profile : odict value :=
  [("tools", strs ["filesystem-read"; "git-read"; "test-runner"]); ("knowledge_scopes", strs ["architecture-docs"]);
   ("memory_scopes", strs ["project-memory"]); ("data_scopes", strs ["repository-readonly"]);
   ("policies", strs ["no-destructive-commands"]); ("validators", strs ["runtime-profile-schema"; "review-findings-contract"]);
   ("limits", VDict [("max_tokens", VInt 60000)]); ("failure_policy", VDict [("on_policy_denial", VStr "return_error")])].

Definition outcome_text (allowed : bool) : value := VStr (if allowed then ALLOWING_OUTCOME else BLOCKING_OUTCOME).
Definition gate_text (allowed : bool) : value := VStr (if allowed then "allow_ranking_only" else "reject").

(** A fresh store, in which the candidate is inserted and reviewed. *)
Definition fresh : world := mkWorld empty_store ∅ 0.

Definition review (v : MemoryCandidateValidator) (candidate content : odict value) : res MemoryCandidateValidationResult :=
  fst ((inserted ← on_store (insert_memory_candidate candidate); validate_candidate v inserted (Some content)) fresh).

Definition _evaluate_candidate_case (case : odict value) (compiler : SafetyCompiler) (scopes policies : list string)
    : res (odict value) :=
  payload ← _required_mapping case "input";
  case_id ← _required_string case "case_id";
  let candidate := od_update (_base_candidate case_id) (mapping_of (dget "candidate" VNone payload)) in
  let content := mapping_of (dget "content" VNone payload) in
  result ← review (mkCandidateValidator scopes policies (Some compiler)) candidate content;
  let allowed := candidate_approved result in
  mret [("actual_outcome", outcome_text allowed); ("final_gate", gate_text allowed);
        ("reason", VStr (if String.eqb (policy_status result) "rejected" then policy_reason result else validation_reason result));
        ("validator_status", VStr (validator_status result)); ("policy_status", VStr (policy_status result))].

Definition _evaluate_semantic_drift_case (case : odict value) (compiler : SafetyCompiler) : res (odict value) :=
  payload ← _required_mapping case "input";
  prior ← _required_mapping payload "learned_context_authority_prior";
  report ← compile_decision_report compiler prior (texts_or (dget "reviewed_policy_artifacts" VNone payload) []);
  allowed ← (v ← ditem "automatic_promotion_allowed" report; mret (truthy v));
  gate ← ditem "final_gate" report;
  reason ← (d ← ditem "decision" report; ditem "reason" (mapping_of d));
  pairs ← ditem "matched_contrastive_pair_ids" report;
  mret [("actual_outcome", outcome_text allowed); ("final_gate", VStr (py_str gate)); ("reason", VStr (py_str reason));
        ("matched_contrastive_pair_ids", pairs)].

Definition _evaluate_post_planning_case (case : odict value) : res (odict value) :=
  payload ← _required_mapping case "input";
  let runtime_profile := match mapping_of (dget "runtime_profile" VNone payload) with [] => _default_runtime_profile | p => p end in
  let planned := match dget "planned_runtime_profile_delta" VNone payload with
                 | VDict delta => Some (od_update runtime_profile delta)
                 | _ => None
                 end in
  plan ← _required_mapping payload "plan";
  let result := validate_plan plan runtime_profile planned in
  mret [("actual_outcome", outcome_text (approved result)); ("final_gate", gate_text (approved result));
        ("reason", VStr (invariant_reason result)); ("violations", strs (violations result))].

Definition run_gate (gate : string) (case : odict value) (compiler : SafetyCompiler) (scopes policies : list string) : res (odict value) :=
  if String.eqb gate "candidate_validation" then _evaluate_candidate_case case compiler scopes policies
  else if String.eqb gate "semantic_drift" then _evaluate_semantic_drift_case case compiler
  else if String.eqb gate "post_planning_invariant" then _evaluate_post_planning_case case
  else malformed ("Unsupported memory safety gate: " +:+ gate).

Definition _evaluate_case (compiler : SafetyCompiler) (scopes policies : list string) (case : odict value) : res (odict value) :=
  gate ← _required_string case "gate";
  outcome ← run_gate gate case compiler scopes policies;
  expected_outcome ← _required_string case "expected_outcome";
  actual_outcome ← (v ← ditem "actual_outcome" outcome; mret (py_str v));
  case_id ← _required_string case "case_id";
  failure_class ← _required_string case "failure_class";
  mret (od_update [("case_id", VStr case_id); ("gate", VStr gate); ("failure_class", VStr failure_class);
                   ("expected_outcome", VStr expected_outcome); ("actual_outcome", VStr actual_outcome);
                   ("passed", VBool (String.eqb actual_outcome expected_outcome))] outcome).

(** ** Metrics and coverage *)

Definition outcome_is (field text : string) (result : odict value) : bool := py_eq (dget field VNone result) (VStr text).
Definition tallied (p : odict value -> bool) (results : list (odict value)) : Z := Z.of_nat (length (List.filter p results)).
Definition expects (text : string) : odict value -> bool := outcome_is "expected_outcome" text.
Definition decided (text : string) : odict value -> bool := outcome_is "actual_outcome" text.
Definition in_review (result : odict value) : bool :=
  match dget "final_gate" VNone result with VStr g => str_in g REVIEW_GATES | _ => false end.

Definition _rate (numerator denominator : Z) : float := if (denominator =? 0)%Z then fzero else quotient numerator denominator.

Record Metrics := mkMetrics {
  expected_block_count : Z; expected_allow_count : Z; blocked_count : Z; allowed_count : Z;
  false_negative_rate : float; false_positive_rate : float; abstention_review_rate : float;
}.
Definition _metrics (results : list (odict value)) : Metrics :=
  let expected_block := List.filter (expects BLOCKING_OUTCOME) results in
  let expected_allow := List.filter (expects ALLOWING_OUTCOME) results in
  mkMetrics (Z.of_nat (length expected_block)) (Z.of_nat (length expected_allow))
    (tallied (decided BLOCKING_OUTCOME) results) (tallied (decided ALLOWING_OUTCOME) results)
    (_rate (tallied (decided ALLOWING_OUTCOME) expected_block) (Z.of_nat (length expected_block)))
    (_rate (tallied (decided BLOCKING_OUTCOME) expected_allow) (Z.of_nat (length expected_allow)))
    (_rate (tallied in_review results) (Z.of_nat (length results))).
Definition metrics_dict (m : Metrics) : odict doc :=
  [("expected_block_count", DInt (expected_block_count m)); ("expected_allow_count", DInt (expected_allow_count m));
   ("blocked_count", DInt (blocked_count m)); ("allowed_count", DInt (allowed_count m));
   ("false_negative_rate", DFloat (false_negative_rate m)); ("false_positive_rate", DFloat (false_positive_rate m));
   ("abstention_review_rate", DFloat (abstention_review_rate m))].

Definition class_of (result : odict value) : string := py_str (dget "failure_class" VNone result).
Definition class_counts (results : list (odict value)) : odict Z :=
  foldl (fun counts r => od_set (class_of r) (default 0%Z (od_get (class_of r) counts) + 1)%Z counts) [] results.
Definition missing_classes (results : list (odict value)) (required : gset string) : list string :=
  sorted_set (required ∖ list_to_set (od_keys (class_counts results))).
Definition _coverage (results : list (odict value)) (required : gset string) : odict doc :=
  [("failure_class_counts", DDict (map (fun kv => (kv.1, DInt kv.2)) (py_sorted (fun a b => str_leb a.1 b.1) (class_counts results))));
   ("required_failure_classes", texts (sorted_set required));
   ("missing_required_failure_classes", texts (missing_classes results required))].

(** ** The evaluation *)

(** A fixture: its [metrics_thresholds], and its other fields. *)
Record Fixture := mkFixture { fixture_fields : odict value; metrics_thresholds : doc }.

Definition _float_threshold (thresholds : odict doc) (key : string) : res float :=
  match as_num (get key thresholds) with
  | Some n => to_float n
  | None => malformed (key +:+ " must be numeric.")
  end.

(** [a and b], the second one only evaluated if the first is true *)
Definition and_then (b : bool) (m : res bool) : res bool := if b then m else mret false.
Definition within (thresholds : odict doc) (rate : float) (key : string) : res bool :=
  limit ← _float_threshold thresholds key; mret (SFleb rate limit).
Definition case_passed (result : odict value) : bool := truthy (dget "passed" VNone result).

Section evaluation.
Context (load_policy : string -> res value).

Definition _resolve_policy_path (fixture : odict value) (base_path : option string) : res string :=
  raw_path ← _required_string fixture "semantic_drift_policy_path";
  if startswith "/" raw_path then mret raw_path
  else match base_path with
       | Some base => mret (base +:+ "/" +:+ raw_path)
       | None => malformed "Relative semantic_drift_policy_path requires base_path."
       end.

Definition from_policy_file (path : string) : res SafetyCompiler :=
  payload ← load_policy path;
  match payload with
  | VDict policy => new_safety_compiler policy
  | _ => Raise (SafetyCompilerError (path +:+ " must contain a JSON object."))
  end.

Definition evaluate_memory_safety_fixture (f : Fixture) (base_path : option string) : res (odict doc) :=
  let fixture := fixture_fields f in
  cases ← _required_list fixture "cases";
  thresholds ← match metrics_thresholds f with DDict t => mret t | _ => malformed "metrics_thresholds must be an object." end;
  let required : gset string := list_to_set (texts_or (dget "required_failure_classes" VNone fixture) []) in
  policy_path ← _resolve_policy_path fixture base_path;
  compiler ← from_policy_file policy_path;
  results ← mapM (_evaluate_case compiler (texts_or (dget "allowed_memory_scope_ids" VNone fixture) ["project-memory"])
                    (texts_or (dget "allowed_policy_ids" VNone fixture) ["memory-taxonomy-policy"])) cases;
  let metrics := _metrics results in
  negatives ← within thresholds (false_negative_rate metrics) "max_false_negative_rate";
  positives ← and_then negatives (within thresholds (false_positive_rate metrics) "max_false_positive_rate");
  reviews ← and_then positives (within thresholds (abstention_review_rate metrics) "max_abstention_review_rate");
  let passed := reviews && negb (nonempty (missing_classes results required)) && forallb case_passed results in
  mret [("contract_version", DStr "0.1.0");
        ("evaluation_id", DStr (py_str (dget "evaluation_id" (VStr "memory-safety-evaluation") fixture)));
        ("status", DStr (if passed then "passed" else "failed"));
        ("case_count", DInt (Z.of_nat (length results)));
        ("metrics", DDict (metrics_dict metrics));
        ("coverage", DDict (_coverage results required));
        ("case_results", DList (map (fun r => of_value (VDict r)) results));
        ("safe_for_release_evidence", DBool true);
        ("raw_runtime_trace_included", DBool false)].
End evaluation.

(** ** What passing means *)

(** The gate of a case decides as the case expects. *)
Definition as_expected (compiler : SafetyCompiler) (scopes policies : list string) (case : odict value) : Prop :=
  exists gate outcome expected, _required_string case "gate" = Ok gate /\ run_gate gate case compiler scopes policies = Ok outcome /\
    _required_string case "expected_outcome" = Ok expected /\ od_get "actual_outcome" outcome = Some (VStr expected).

(** A limit of the fixture that a rate keeps. *)
Definition allows (thresholds : odict doc) (key : string) (rate : float) : Prop :=
  exists limit, _float_threshold thresholds key = Ok limit /\ SFleb rate limit = true.

(** ** Lemmas *)

Lemma rate_none n : (0 <= n)%Z -> _rate 0 n = fzero.
Proof.
  intros Hn. unfold _rate. destruct (Z.eqb_spec n 0) as [|Hne]; [done|]. unfold quotient, fdiv.
  pose proof (float_of_int_positive n ltac:(lia)) as Hp. change (float_of_int 0) with (S754_zero false).
  by destruct (float_of_int n) as [[]|[]| |[]].
Qed.

Lemma required_string_Ok d k s : _required_string d k = Ok s -> od_get k d = Some (VStr s) /\ nonblank s = true.
Proof.
  unfold _required_string, dget. destruct (od_get k d) as [[]|]; try done. destruct (nonblank s0) eqn:E; [|done]. by intros [= ->].
Qed.

Lemma od_get_update_miss {V} k (fields d : odict V) : od_get k fields = None -> od_get k (od_update d fields) = od_get k d.
Proof.
  revert d. induction fields as [|[k' v'] fs IH]; intros d H; [done|]. cbn in H. destruct (String.eqb_spec k k') as [|Hne]; [done|].
  unfold od_update in *. cbn. rewrite IH by done. by apply od_get_set_ne.
Qed.

Lemma od_get_update_hit {V} k v (fields d : odict V) :
  NoDup (od_keys fields) -> od_get k fields = Some v -> od_get k (od_update d fields) = Some v.
Proof.
  revert d. induction fields as [|[k' v'] fs IH]; intros d Hn H; [done|]. apply NoDup_cons in Hn as [Hk Hn]. cbn in H.
  unfold od_update in *. cbn. destruct (String.eqb_spec k k') as [<-|Hne]; [|by apply IH].
  injection H as ->. change (od_get k (od_update (od_set k v d) fs) = Some v). rewrite od_get_update_miss; [apply od_get_set_eq|].
  destruct (od_get k fs) eqn:E; [|done]. exfalso. apply Hk, list_elem_of_In. apply od_get_In in E. by apply (in_map fst) in E.
Qed.

(** What every gate answers: an outcome of its own, and none of the fields of the case's result. *)
Lemma run_gate_fields gate case compiler scopes policies outcome : run_gate gate case compiler scopes policies = Ok outcome ->
  (exists b, od_get "actual_outcome" outcome = Some (outcome_text b)) /\ NoDup (od_keys outcome) /\
  od_get "passed" outcome = None /\ od_get "failure_class" outcome = None /\ od_get "expected_outcome" outcome = None.
Proof.
  unfold run_gate, _evaluate_candidate_case, _evaluate_semantic_drift_case, _evaluate_post_planning_case, malformed. intros H.
  repeat case_match; try done; repeat (apply bind_Ok in H as (? & ? & H)); injection H as <-;
    (split; [by eexists|]); (split; [by apply (bool_decide_unpack (NoDup _))|by split_and!]).
Qed.

(** The result of a case: its class, whether it passed, and the two outcomes compared. *)
Lemma evaluate_case_Ok compiler scopes policies case r : _evaluate_case compiler scopes policies case = Ok r ->
  exists actual expected c, od_get "expected_outcome" r = Some (VStr expected) /\ od_get "actual_outcome" r = Some (VStr actual) /\
    od_get "passed" r = Some (VBool (String.eqb actual expected)) /\
    od_get "failure_class" r = Some (VStr c) /\ _required_string case "failure_class" = Ok c /\
    (actual = expected <-> as_expected compiler scopes policies case).
Proof.
  unfold _evaluate_case, as_expected. intros (gate & Hgate & H)%bind_Ok. apply bind_Ok in H as (outcome & Ho & H).
  apply bind_Ok in H as (expected & He & H). apply bind_Ok in H as (actual & Ha & H). apply bind_Ok in H as (case_id & _ & H).
  apply bind_Ok in H as (c & Hc & [= <-]). destruct (run_gate_fields _ _ _ _ _ _ Ho) as ([b Hb] & Hn & Hp & Hf & Hx).
  unfold ditem in Ha. rewrite Hb in Ha. injection Ha as <-. exists (py_str (outcome_text b)), expected, c.
  rewrite (od_get_update_miss "expected_outcome"), (od_get_update_miss "passed"), (od_get_update_miss "failure_class") by done.
  rewrite (od_get_update_hit _ _ _ _ Hn Hb), Hgate, He. split_and!; try done. cbn [py_str outcome_text]. split.
  - intros <-. by exists gate, outcome, (if b then ALLOWING_OUTCOME else BLOCKING_OUTCOME).
  - intros (? & ? & ? & [= <-] & Ho' & [= <-] & Hb'). rewrite Ho in Ho'. injection Ho' as <-. rewrite Hb in Hb'. by injection Hb'.
Qed.

Definition is_case_result (r : odict value) : Prop :=
  exists actual expected, od_get "expected_outcome" r = Some (VStr expected) /\ od_get "actual_outcome" r = Some (VStr actual) /\
    od_get "passed" r = Some (VBool (String.eqb actual expected)).

(** Results that all passed hold no wrong decision. *)
Lemma no_wrong_decision results expected actual : expected <> actual ->
  Forall is_case_result results -> forallb case_passed results = true ->
  tallied (decided actual) (List.filter (expects expected) results) = 0%Z.
Proof.
  intros Hne Hr Hp. unfold tallied. replace (List.filter (decided actual) _) with (@nil (odict value)); [done|].
  symmetry. apply filter_nil_iff. intros r [Hin He]%filter_In. rewrite Forall_forall in Hr. rewrite forallb_forall in Hp.
  specialize (Hp r Hin). destruct (Hr r) as (a & e & H1 & H2 & H3); [by apply list_elem_of_In|].
  unfold expects, decided, outcome_is, case_passed, dget in *. rewrite H1 in He. rewrite H3 in Hp. rewrite H2. cbn in *.
  apply String.eqb_eq in Hp, He. subst. by apply String.eqb_neq.
Qed.

Lemma class_counts_keys results : forall x, In x (od_keys (class_counts results)) <-> In x (map class_of results).
Proof.
  induction results as [|r results IH] using rev_ind; intros x; [done|]. unfold class_counts in *. rewrite foldl_snoc, map_app, in_app_iff, <- IH.
  rewrite od_keys_set. destruct (od_mem (class_of r) _) eqn:E; cbn [map In]; [|rewrite in_app_iff; cbn; naive_solver].
  apply od_mem_In in E. naive_solver.
Qed.

Lemma missing_classes_nil results required :
  missing_classes results required = [] <-> forall c, c ∈ required -> In c (map class_of results).
Proof.
  unfold missing_classes. rewrite sorted_set_nil. setoid_rewrite <- class_counts_keys. split.
  - intros H c Hc. apply list_elem_of_In, (elem_of_list_to_set (C := gset string)).
    destruct (decide (c ∈@{gset string} list_to_set (od_keys (class_counts results)))); [done|set_solver].
  - intros H. apply set_eq. intros c. rewrite elem_of_difference, elem_of_list_to_set, list_elem_of_In. set_solver.
Qed.

Lemma within_true thresholds rate key b : within thresholds rate key = Ok b -> b = true <-> allows thresholds key rate.
Proof.
  unfold within, allows. intros (limit & Hl & [= <-])%bind_Ok. split; [by exists limit|]. intros (l & Hl' & H).
  rewrite Hl in Hl'. by injection Hl' as ->.
Qed.

Lemma and_within_true a thresholds rate key b : and_then a (within thresholds rate key) = Ok b ->
  b = true <-> a = true /\ allows thresholds key rate.
Proof.
  destruct a; cbn; [|by intros [= <-]; split; [|intros []]]. intros H%within_true. rewrite H. tauto.
Qed.

(** The results of the cases, one by one. *)
Lemma results_of_cases compiler scopes policies cases results : mapM (_evaluate_case compiler scopes policies) cases = Ok results ->
  Forall is_case_result results /\ (forallb case_passed results = true <-> Forall (as_expected compiler scopes policies) cases) /\
  forall c, In c (map class_of results) <-> exists case, In case cases /\ _required_string case "failure_class" = Ok c.
Proof.
  intros H%mapM_Ok. induction H as [|case r cases results Hr _ (IH1 & IH2 & IH3)]; [split_and!; [done|done|naive_solver]|].
  apply evaluate_case_Ok in Hr as (actual & expected & c' & H1 & H2 & H3 & H4 & H5 & H6). split_and!.
  - constructor; [|done]. by exists actual, expected.
  - cbn [forallb]. rewrite andb_true_iff, IH2, Forall_cons, <- H6. unfold case_passed at 1, dget. rewrite H3. cbn. by rewrite String.eqb_eq.
  - intros c. cbn [map In]. rewrite IH3. unfold class_of at 1, dget. rewrite H4. cbn [py_str]. split.
    + intros [<-|(case' & Hin & Hc)]; [exists case; split; [by left|done]|]. exists case'. split; [by right|done].
    + intros (case' & [<-|Hin] & Hc); [left|right; by exists case']. rewrite H5 in Hc. by injection Hc.
Qed.

(** ** Properties *)

(** C36. A memory safety evaluation passes exactly when every case's gate decides
    as the case expects, every required failure class has a case, the review
    rate keeps its limit, and the limits on wrong decisions can be kept at all:
    a limit above zero admits no wrong decision, since each one also fails its
    case. *)
Theorem memory_safety_passes load_policy f base_path report :
  evaluate_memory_safety_fixture load_policy f base_path = Ok report ->
  exists cases thresholds compiler results,
    let scopes := texts_or (dget "allowed_memory_scope_ids" VNone (fixture_fields f)) ["project-memory"] in
    let policies := texts_or (dget "allowed_policy_ids" VNone (fixture_fields f)) ["memory-taxonomy-policy"] in
    _required_list (fixture_fields f) "cases" = Ok cases /\ metrics_thresholds f = DDict thresholds /\
    mapM (_evaluate_case compiler scopes policies) cases = Ok results /\
    (get "status" report = DStr "passed" <->
     Forall (as_expected compiler scopes policies) cases /\
     (forall c, In c (texts_or (dget "required_failure_classes" VNone (fixture_fields f)) []) ->
        exists case, In case cases /\ _required_string case "failure_class" = Ok c) /\
     allows thresholds "max_abstention_review_rate" (_rate (tallied in_review results) (Z.of_nat (length results))) /\
     allows thresholds "max_false_negative_rate" fzero /\ allows thresholds "max_false_positive_rate" fzero).
Proof.
  unfold evaluate_memory_safety_fixture. cbv zeta. intros (cases & Hcases & H)%bind_Ok. apply bind_Ok in H as (thresholds & Hth & H).
  apply bind_Ok in H as (path & _ & H). apply bind_Ok in H as (compiler & _ & H). apply bind_Ok in H as (results & Hres & H).
  apply bind_Ok in H as (negatives & Hneg & H). apply bind_Ok in H as (positives & Hpos & H). apply bind_Ok in H as (reviews & Hrev & [= <-]).
  exists cases, thresholds, compiler, results. split_and!; [done| |done|].
  { by destruct (metrics_thresholds f); try done; injection Hth as <-. }
  destruct (results_of_cases _ _ _ _ _ Hres) as (Hr & Hexp & Hclass).
  assert (Hst : forall b, get "status" [("contract_version", DStr "0.1.0"); ("evaluation_id", DNull);
    ("status", DStr (if b : bool then "passed" else "failed"))] = DStr "passed" <-> b = true) by by intros [].
  etrans; [apply (Hst (_ && _ && _))|]. rewrite !andb_true_iff, negb_true_iff, nonempty_false, missing_classes_nil, Hexp.
  setoid_rewrite Hclass. setoid_rewrite elem_of_list_to_set. setoid_rewrite list_elem_of_In.
  rewrite (and_within_true _ _ _ _ _ Hrev), (and_within_true _ _ _ _ _ Hpos), (within_true _ _ _ _ Hneg). cbn [_metrics abstention_review_rate].
  assert (Hz : Forall (as_expected compiler (texts_or (dget "allowed_memory_scope_ids" VNone (fixture_fields f)) ["project-memory"])
      (texts_or (dget "allowed_policy_ids" VNone (fixture_fields f)) ["memory-taxonomy-policy"])) cases ->
    false_negative_rate (_metrics results) = fzero /\ false_positive_rate (_metrics results) = fzero).
  { intros Hall%Hexp. cbn [_metrics false_negative_rate false_positive_rate]. rewrite !no_wrong_decision, !rate_none by (done || lia). done. }
  split.
  - intros [[[[Hn Hp] Hv] Hc] Hall]. destruct (Hz Hall) as [E1 E2]. rewrite E1 in Hn. rewrite E2 in Hp. done.
  - intros (Hall & Hc & Hv & Hn & Hp). destruct (Hz Hall) as [-> ->]. done.
Qed.

(** ** A fixture *)

Definition demo_case (id gate class expected : string) (input : odict value) : value :=
  VDict [("case_id", VStr id); ("gate", VStr gate); ("failure_class", VStr class); ("expected_outcome", VStr expected);
         ("input", VDict input)].
Definition demo_cases : list value :=
  [demo_case "lesson" "candidate_validation" "positive_procedural_lesson" "allow" [("content", VDict demo_lesson)];
   demo_case "secret" "candidate_validation" "secret_or_sensitive_content" "block"
     [("candidate", VDict [("sensitivity", VStr "secret")]); ("content", VDict demo_lesson)];
   demo_case "to-prod" "semantic_drift" "environment_generalization" "block"
     [("learned_context_authority_prior", VDict (demo_prior "prod" "tool_addition"))];
   demo_case "plan" "post_planning_invariant" "tool_grant" "block"
     [("plan", VDict (demo_plan ++ [("tool_grants", strs ["x"])]))]].
Definition demo_fixture (cases : list value) (negatives : doc) : Fixture :=
  mkFixture [("semantic_drift_policy_path", VStr "guard.json"); ("required_failure_classes", strs ["tool_grant"]);
             ("cases", VList cases)]
    (DDict [("max_false_negative_rate", negatives); ("max_false_positive_rate", DInt 0);
            ("max_abstention_review_rate", DFloat (ratio 1 4))]).
Definition demo_load (path : string) : res value := Ok (VDict demo_guard).
Definition demo_report (cases : list value) (negatives : doc) : odict doc :=
  match evaluate_memory_safety_fixture demo_load (demo_fixture cases negatives) (Some "policies") with Ok r => r | Raise _ => [] end.

Lemma memory_safety_passes_witness : get "status" (demo_report demo_cases (DInt 0)) = DStr "passed" /\
  exists cases compiler, length cases = 4%nat /\ Forall (as_expected compiler ["project-memory"] ["memory-taxonomy-policy"]) cases.
Proof.
  assert (Hs : get "status" (demo_report demo_cases (DInt 0)) = DStr "passed") by (vm_compute; reflexivity).
  split; [exact Hs|].
  assert (E : evaluate_memory_safety_fixture demo_load (demo_fixture demo_cases (DInt 0)) (Some "policies") = Ok (demo_report demo_cases (DInt 0)))
    by (vm_compute; reflexivity).
  destruct (memory_safety_passes _ _ _ _ E) as (cases & thresholds & compiler & results & Hc & _ & _ & Hiff).
  exists cases, compiler. split; [vm_compute in Hc; injection Hc as <-; reflexivity|]. apply Hiff in Hs. exact (proj1 Hs).
Defined.

(** A tolerance of one missed block in two admits none: the missed case fails by itself. *)
Example tolerance_without_effect : let missed := demo_case "harmless" "semantic_drift" "tool_grant" "block"
    [("learned_context_authority_prior", VDict [("authority_delta", VList [])])] in
  let r := demo_report [missed; demo_case "plan" "post_planning_invariant" "tool_grant" "block"
                          [("plan", VDict (demo_plan ++ [("tool_grants", strs ["x"])]))]] (DFloat (ratio 1 2)) in
  (match get "metrics" r with DDict m => doc_repr (get "false_negative_rate" m) | _ => "" end, get "status" r)
  = ("0.5", DStr "failed").
Proof. vm_compute. reflexivity. Qed.
