(* ===== verification/HttpClients.v ===== *)
(** * The HTTP clients of the Control Plane

    Models [composition/control_plane.py] and the client of
    [runtime/memory_feedback.py]: both post a JSON object and expect one back.
    [urlopen] is the standard library's, an effect on the network [X]; [env_token]
    is the environment's [SCAS_CONTROL_API_TOKEN]; [json_loads] parses. *)

From Stdlib Require Import SpecFloat.
From S2P Require Import Prelude PyStr PyFloat PyValue Artifacts Json RuntimeStore MemoryCandidates.
Open Scope string_scope.
Open Scope list_scope.

Definition CONTROL_PLANE_USER_AGENT : string := "skill-centric-agent-system/0.1".

(** [json.dumps(v)] *)
Fixpoint json_dumps (v : value) : string :=
  match v with
  | VList l => "[" +:+ join ", " (map json_dumps l) +:+ "]"
  | VDict d => "{" +:+ join ", " (map (fun '(k, x) => json_string k +:+ ": " +:+ json_dumps x) d) +:+ "}"
  | v => json_text v
  end.

Record Request := mkRequest {
  url : string;
  data : string;
  headers : odict string;
  method : string;
  timeout : float;
}.

(** What [urlopen] and reading the response give: the decoded body, an
    HTTPError with its code and detail, or an URLError with its text. *)
Inductive Reply :=
| Body (text : string)
| HTTPError (code : Z) (detail : string)
| URLError (text : string).

Record Client := mkClient {
  base_url : string;
  timeout_seconds : float;
  api_token : option string;
}.

Definition rstrip_slashes (s : string) : string :=
  of_chars (reverse (drop_chars (fun c => Ascii.eqb c "/") (reverse (chars s)))).

Section clients.
Context {X : Type} (urlopen : Request -> eff X exn Reply) (env_token : option string) (json_loads : string -> res value).

(** [self.api_token or os.getenv(...)] *)
Definition token_of (c : Client) : option string :=
  match api_token c with
  | Some t => if String.eqb t "" then env_token else Some t
  | None => env_token
  end.

Definition _authorization_headers (c : Client) : odict string :=
  match token_of c with
  | Some token => if nonblank token then [("authorization", "Bearer " +:+ strip token)] else []
  | None => []
  end.

Definition request_of (c : Client) (path : string) (request_body : odict value) : Request :=
  mkRequest (rstrip_slashes (base_url c) +:+ path) (json_dumps (VDict request_body))
    (od_update [("content-type", "application/json"); ("accept", "application/json"); ("user-agent", CONTROL_PLANE_USER_AGENT)]
       (_authorization_headers c)) "POST" (timeout_seconds c).

(** The post and what is made of its reply; the exception class and the texts
    are the client's. *)
Definition post (error : string -> exn) (http_failed failed not_object : string) (c : Client) (path : string)
    (request_body : odict value) : eff X exn (odict value) :=
  reply ← urlopen (request_of c path request_body);
  match reply with
  | HTTPError code detail => throw (error (http_failed +:+ zstr code +:+ ": " +:+ detail))
  | URLError text => throw (error (failed +:+ text))
  | Body response_body =>
      parsed ← lift (json_loads response_body);
      match parsed with
      | VDict d => mret d
      | _ => throw (error not_object)
      end
  end.

Definition _post_json (c : Client) (path : string) (request_body : odict value) : eff X exn (odict value) :=
  post ControlPlaneClientError "Control Plane returned HTTP " "Control Plane request failed: "
    "Control Plane response must be a JSON object." c path request_body.

Definition composition_context (c : Client) (request_body : odict value) : eff X exn (odict value) :=
  _post_json c "/composition/context" request_body.
Definition retrieval_context (c : Client) (request_body : odict value) : eff X exn (odict value) :=
  _post_json c "/retrieval/context" request_body.

Definition ingest_memory (c : Client) (request_body : odict value) : eff X exn (odict value) :=
  post MemoryFeedbackError "Cloudflare memory ingestion returned HTTP " "Cloudflare memory ingestion failed: "
    "Cloudflare memory ingestion response must be an object." c "/memory/ingest" request_body.

(** ** One request, and every failure has a name *)

(** A post sends one request and gives the object of its reply, or raises what
    sending or parsing raised, or the client's own error. *)
Lemma post_spec error http_failed failed not_object c path body x : exists reply x',
  urlopen (request_of c path body) x = (reply, x') /\
  post error http_failed failed not_object c path body x =
    (match reply with
     | Raise e => Raise e
     | Ok (Body text) => match json_loads text with
                         | Ok (VDict d) => Ok d
                         | Ok _ => Raise (error not_object)
                         | Raise e => Raise e
                         end
     | Ok (HTTPError code detail) => Raise (error (http_failed +:+ zstr code +:+ ": " +:+ detail))
     | Ok (URLError text) => Raise (error (failed +:+ text))
     end, x').
Proof.
  destruct (urlopen (request_of c path body) x) as [reply x'] eqn:E. exists reply, x'. split; [done|].
  unfold post, mbind, eff_bind. rewrite E. destruct reply as [[text|code detail|text]|e]; try done.
  unfold lift. destruct (json_loads text) as [[]|e]; done.
Qed.

(** The token is sent only as a bearer token, and never a blank one. *)
Lemma authorization_sent c path body : od_get "authorization" (headers (request_of c path body)) =
  match token_of c with
  | Some token => if nonblank token then Some ("Bearer " +:+ strip token) else None
  | None => None
  end.
Proof. cbn. unfold _authorization_headers. destruct (token_of c) as [token|]; [|done]. by destruct (nonblank token). Qed.

End clients.

(** ** Submission over HTTP *)

(** A network that records the requests it is sent and answers them with [answer]. *)
Definition recording (answer : Request -> Reply) (r : Request) : eff (list Request) exn Reply := fun sent => (Ok (answer r), sent ++ [r]).

(** Submitting a candidate to the memory service sends one request, a POST of
    the checked candidate's memory to the ingestion endpoint, or none at all:
    none exactly when the candidate is not an approved procedural lesson with
    all its fields. *)
Theorem submission_request answer env_token json_loads client contract_version candidate consolidated version :
  exists result, submit_candidate (ingest_memory (recording answer) env_token json_loads client) contract_version candidate
      consolidated version [] = result /\
    match _validate_candidate candidate with
    | Raise e => result = (Raise e, [])
    | Ok _ => exists r, result.2 = [r] /\ method r = "POST" /\ url r = rstrip_slashes (base_url client) +:+ "/memory/ingest" /\
        data r = json_dumps (VDict (memory_request contract_version version candidate consolidated)) /\
        (is_ok result.1 = true -> exists text d, answer r = Body text /\ json_loads text = Ok (VDict d) /\ result.1 = Ok d)
    end.
Proof.
  eexists. split; [reflexivity|]. unfold submit_candidate, mbind, eff_bind, lift.
  destruct (_validate_candidate candidate) as [[]|e]; [|done].
  destruct (post_spec (recording answer) env_token json_loads MemoryFeedbackError "Cloudflare memory ingestion returned HTTP "
    "Cloudflare memory ingestion failed: " "Cloudflare memory ingestion response must be an object." client "/memory/ingest"
    (memory_request contract_version version candidate consolidated) []) as (reply & sent & E & Hpost).
  unfold ingest_memory. rewrite Hpost. injection E as <- <-. eexists. split; [reflexivity|]. cbn [fst snd]. split_and!; [done..|].
  destruct (answer _) as [text|code detail|text] eqn:Ea; [|done..]. intros Hok. destruct (json_loads text) as [v|] eqn:El; [|done].
  destruct v; try done. by exists text, d.
Qed.

Example request_ex :
  let r := request_of (Some "env") (mkClient "https://cp.example//" (float_of_int 10) (Some " token ")) "/composition/context"
             [("task", VDict [("id", VStr "t"); ("tags", VList [VInt 1; VNone])])] in
  (url r, data r, od_get "authorization" (headers r)) =
  ("https://cp.example/composition/context",
   "{" +:+ json_string "task" +:+ ": {" +:+ json_string "id" +:+ ": " +:+ json_string "t" +:+ ", " +:+ json_string "tags" +:+ ": [1, null]}}",
   Some "Bearer token").
Proof. vm_compute. reflexivity. Qed.
