(* ===== verification/KnowledgeProposals.v ===== *)
(** * Knowledge record proposals

    Models [runtime/knowledge_proposals.py]: a completed step may propose a
    knowledge record; the proposal is checked, stored as an artifact with the
    outcome of the check, and only an approved one becomes a request to ingest
    it. *)

From S2P Require Import Prelude PyStr PyValue Models RuntimeStore Artifacts Clock FlightRecorder SafetyCompiler MemoryCandidates.
Open Scope string_scope.
Open Scope list_scope.

Definition SOURCE_TYPES : list string := ["repo"; "notion"; "r2"; "url"; "manual"].
Definition CONFIDENCE_TIERS : list string := ["low"; "medium"; "high"; "verified"].

Definition proposal_check (b : bool) (msg : string) : res unit := raise_if b (KnowledgeRecordProposalError msg).

Definition id_char (c : ascii) : bool := is_lower c || is_digit c || is_dash c.
Definition _id (v : value) : bool :=
  match chars (py_str v) with [] => false | (c :: _) as l => is_alpha c && forallb id_char l end.

Record KnowledgeRecordProposalValidationResult := mkProposalResult {
  result_proposal : odict value;
  proposal_status : string;
  proposal_reason : string;
}.
Definition proposal_approved (r : KnowledgeRecordProposalValidationResult) : bool :=
  String.eqb (proposal_status r) "approved".

Definition text_is (k s : string) (d : odict value) : bool := py_eq (dget k VNone d) (VStr s).
Definition filled (k : string) (d : odict value) : bool := nonblank (py_str (dget k (VStr "") d)).

Definition source_errors (source : odict value) : res (list string) :=
  known_type ← in_frozenset (dget "source_type" VNone source) SOURCE_TYPES;
  known_sensitivity ← in_frozenset (dget "sensitivity" VNone source) SENSITIVITIES;
  mret (violated (negb (_id (dget "id" VNone source))) "source.id is required" ++
    violated (negb known_type) "source.source_type is invalid" ++
    violated (negb (filled "uri" source)) "source.uri is required" ++
    violated (negb (filled "owner" source)) "source.owner is required" ++
    (if (known_sensitivity : bool)
     then violated (text_is "sensitivity" "secret" source) "secret knowledge proposals must not be ingested"
     else ["source.sensitivity is invalid"])).

Definition document_errors (document : odict value) (allowed : list string) : list string :=
  let scope_id := py_str (dget "scope_id" (VStr "") document) in
  violated (negb (_id (dget "id" VNone document))) "document.id is required" ++
  violated (negb (filled "content" document)) "document.content is required" ++
  (if _id (VStr scope_id) then violated (negb (str_in scope_id allowed)) "document.scope_id is not allowed"
   else ["document.scope_id is required"]).

Definition positive_int (v : value) : bool := match as_number v with Some n => (1 <=? n)%Z | None => false end.

Definition quality_errors (proposal : odict value) : res (list string) :=
  let evidence := nonblank_items (dget "evidence_uris" VNone proposal) in
  known_tier ← in_frozenset (dget "confidence_tier" VNone proposal) CONFIDENCE_TIERS;
  mret (violated (negb (nonempty evidence) || negb (all_hetzner evidence))
      "evidence_uris must point to Hetzner runtime artifacts" ++
    violated (negb (positive_int (dget "freshness_review_days" VNone proposal)))
      "freshness_review_days must be a positive integer" ++
    violated (negb known_tier) "confidence_tier is invalid" ++
    violated (negb (nonempty (nonblank_items (dget "validation_rules" VNone proposal)))) "validation_rules are required" ++
    violated (negb (_id (dget "retention_policy" VNone proposal))) "retention_policy is required").

Definition _proposal_errors (proposal : odict value) (allowed : list string) : res (list string) :=
  let source := dget "source" VNone proposal in
  let document := dget "document" VNone proposal in
  src ← source_errors (mapping_of source);
  quality ← quality_errors proposal;
  mret (violated (negb (is_mapping source)) "source metadata is required" ++
    violated (negb (is_mapping document)) "document metadata is required" ++
    violated (negb (_id (dget "proposal_id" VNone proposal))) "proposal_id is required" ++
    violated (negb (text_is "candidate_class" "knowledge_record_proposal" proposal))
      "candidate_class must be knowledge_record_proposal" ++
    violated (negb (text_is "promotion_route" "knowledge_record_approval" proposal))
      "promotion_route must be knowledge_record_approval" ++
    mjoin (map (fun f => violated (negb (_id (dget f VNone proposal))) (f +:+ " is required"))
      ["source_run_id"; "source_profile_id"; "source_step_id"]) ++
    src ++ document_errors (mapping_of document) allowed ++ quality).

Definition validate_proposal (allowed_knowledge_scope_ids : list string) (proposal : odict value)
    : res KnowledgeRecordProposalValidationResult :=
  errors ← _proposal_errors proposal allowed_knowledge_scope_ids;
  mret (mkProposalResult proposal (status_of errors)
    (reason_of errors ("Knowledge proposal has source owner, source URI, scope, "
                       +:+ "freshness, confidence, validation rules, retention, and evidence."))).

Definition _validate_completed_step (run source_step : record) : res unit :=
  proposal_check (negb (py_eq (dget "run_id" VNone source_step) (dget "id" VNone run)))
    "Knowledge proposal source step must belong to the run." ;;
  proposal_check (negb (text_is "status" "succeeded" source_step))
    "Knowledge proposals can only be created from completed steps.".

Record proposal_request := mkProposalRequest {
  pq_source : odict value;
  pq_document : odict value;
  pq_evidence : list value;
  pq_freshness : value;
  pq_confidence : value;
  pq_rules : list value;
  pq_retention : value;
  pq_id : option string;
  pq_redact : bool;
}.

Section builder.
Context (artifacts : JsonArtifactStore) (clock : nat -> datetime) (run source_step : record) (q : proposal_request).

Definition pending_proposal (identifier : string) (run_id profile_id step_id : value) (created_at : string) : odict value :=
  [("contract_version", VStr "0.1.0"); ("proposal_id", VStr identifier); ("source_run_id", VStr (py_str run_id));
   ("source_profile_id", VStr (py_str profile_id)); ("source_step_id", VStr (py_str step_id));
   ("source", VDict (pq_source q)); ("document", VDict (pq_document q)); ("evidence_uris", VList (pq_evidence q));
   ("freshness_review_days", pq_freshness q); ("confidence_tier", pq_confidence q);
   ("validation_rules", VList (pq_rules q)); ("retention_policy", pq_retention q);
   ("candidate_class", VStr "knowledge_record_proposal"); ("promotion_route", VStr "knowledge_record_approval");
   ("validator_status", VStr "pending"); ("validation_reason", VNone); ("created_at", VStr created_at)].

Definition decided (r : KnowledgeRecordProposalValidationResult) (proposal : odict value) : odict value :=
  od_update proposal [("validator_status", VStr (proposal_status r)); ("validation_reason", VStr (proposal_reason r))].

Definition propose_from_step : rt (odict value) :=
  lift (_validate_completed_step run source_step) ;;
  run_id ← lift (ditem "id" run);
  identifier ← lift (if String.eqb (or_str (pq_id q) "") ""
    then step_id ← ditem "id" source_step;
         mret (slug_id (py_str run_id +:+ "-" +:+ py_str step_id +:+ "-"
                 +:+ py_str (dget "id" (VStr "knowledge") (pq_document q))) (Some "krp"))
    else mret (or_str (pq_id q) ""));
  profile_id ← lift (ditem "profile_id" run);
  step_id ← lift (ditem "id" source_step);
  created_at ← iso_now clock;
  let proposal := pending_proposal identifier run_id profile_id step_id created_at in
  r ← lift (validate_proposal [py_str (dget "scope_id" (VStr "") (pq_document q))] proposal);
  uri ← on_files (write_json artifacts ["artifacts"; py_str run_id; "knowledge-record-proposals"; identifier]
          (VDict (decided r proposal)) (pq_redact q));
  mret (decided r proposal ++ [("proposal_uri", VStr uri)]).
End builder.

Definition knowledge_ingest_request_from_proposal (proposal : odict value) : res (odict value) :=
  proposal_check (negb (text_is "validator_status" "approved" proposal))
    "Only approved knowledge proposals can be ingested." ;;
  match dget "source" VNone proposal, dget "document" VNone proposal with
  | VDict source, VDict document =>
      id ← ditem "proposal_id" proposal; run ← ditem "source_run_id" proposal;
      profile ← ditem "source_profile_id" proposal; step ← ditem "source_step_id" proposal;
      evidence ← v ← ditem "evidence_uris" proposal; py_iter v;
      freshness ← ditem "freshness_review_days" proposal; tier ← ditem "confidence_tier" proposal;
      rules ← v ← ditem "validation_rules" proposal; py_iter v;
      retention ← ditem "retention_policy" proposal;
      mret [("contract_version", VStr (py_str (dget "contract_version" (VStr "0.1.0") proposal)));
        ("source", VDict source); ("document", VDict document);
        ("proposal", VDict [("proposal_id", id); ("source_run_id", run); ("source_profile_id", profile);
           ("source_step_id", step); ("evidence_uris", VList evidence); ("freshness_review_days", freshness);
           ("confidence_tier", tier); ("validation_rules", VList rules); ("retention_policy", retention)])]
  | _, _ => Raise (KnowledgeRecordProposalError "Knowledge proposal source and document are required.")
  end.

(** ** What a proposal must be *)

Definition source_ok (s : odict value) : Prop :=
  _id (dget "id" VNone s) = true /\ (exists t, dget "source_type" VNone s = VStr t /\ In t SOURCE_TYPES) /\
  filled "uri" s = true /\ filled "owner" s = true /\
  exists x, dget "sensitivity" VNone s = VStr x /\ In x SENSITIVITIES /\ x <> "secret".
Definition document_ok (d : odict value) (allowed : list string) : Prop :=
  _id (dget "id" VNone d) = true /\ filled "content" d = true /\
  _id (VStr (py_str (dget "scope_id" (VStr "") d))) = true /\ In (py_str (dget "scope_id" (VStr "") d)) allowed.
Definition quality_ok (p : odict value) : Prop :=
  nonblank_items (dget "evidence_uris" VNone p) <> [] /\
  (forall u, In u (nonblank_items (dget "evidence_uris" VNone p)) -> startswith HETZNER u = true) /\
  (exists n, as_number (dget "freshness_review_days" VNone p) = Some n /\ (1 <= n)%Z) /\
  (exists t, dget "confidence_tier" VNone p = VStr t /\ In t CONFIDENCE_TIERS) /\
  nonblank_items (dget "validation_rules" VNone p) <> [] /\ _id (dget "retention_policy" VNone p) = true.

Lemma source_errors_nil s : source_errors s = Ok [] <-> source_ok s.
Proof.
  unfold source_errors, source_ok. split.
  - intros H. apply bind_Ok in H as (t & Ht & H). apply bind_Ok in H as (x & Hx & [= H]).
    apply app_eq_nil in H as [Hi%violated_nil [Hty%violated_nil [Hu%violated_nil [Ho%violated_nil Hs]%app_eq_nil]%app_eq_nil]%app_eq_nil].
    rewrite negb_false_iff in Hi, Hty, Hu, Ho. subst t. destruct x; [|done].
    apply in_frozenset_Ok in Ht, Hx as (x & Hx & Hin). apply violated_nil in Hs. split_and!; try done.
    exists x. split_and!; try done. intros ->. unfold text_is in Hs. by rewrite Hx in Hs.
  - intros (Hi & Ht & Hu & Ho & x & Hx & Hin & Hne). apply in_frozenset_Ok in Ht. rewrite Ht.
    rewrite (proj2 (in_frozenset_Ok (dget "sensitivity" VNone s) SENSITIVITIES)) by eauto. cbn [mbind result_bind].
    rewrite Hi, Hu, Ho. unfold text_is. rewrite Hx. cbn. destruct (String.eqb_spec x "secret"); done.
Qed.

Lemma document_errors_nil d allowed : document_errors d allowed = [] <-> document_ok d allowed.
Proof.
  unfold document_errors, document_ok. rewrite <- str_in_In. split.
  - intros [Hi%violated_nil [Hc%violated_nil Hs]%app_eq_nil]%app_eq_nil. rewrite negb_false_iff in Hi, Hc.
    destruct (_id (VStr _)); [|done]. apply violated_nil, negb_false_iff in Hs. done.
  - intros (-> & -> & -> & ->). done.
Qed.

Lemma quality_errors_nil p : quality_errors p = Ok [] <-> quality_ok p.
Proof.
  unfold quality_errors, quality_ok, positive_int. split.
  - intros H. apply bind_Ok in H as (t & Ht & [= H]).
    apply app_eq_nil in H as [He%violated_nil [Hf%violated_nil [Hty%violated_nil [Hr%violated_nil Hi%violated_nil]%app_eq_nil]%app_eq_nil]%app_eq_nil].
    apply orb_false_iff in He as [He Hh]. rewrite negb_false_iff in He, Hh, Hf, Hty, Hr, Hi. subst t.
    apply in_frozenset_Ok in Ht. unfold all_hetzner in Hh. rewrite forallb_forall in Hh. split_and!; try done.
    + by intros E; rewrite E in He.
    + destruct (as_number _) as [n|]; [|done]. exists n. split; [done|by apply Z.leb_le].
    + by intros E; rewrite E in Hr.
  - intros (He & Hh & (n & Hn & Hle) & Ht & Hr & Hi). apply in_frozenset_Ok in Ht. rewrite Ht, Hn, Hi. cbn [mbind result_bind].
    assert (Hne : forall l : list string, l <> [] -> nonempty l = true) by (by intros []).
    rewrite (Hne _ He), (Hne _ Hr), (proj2 (Z.leb_le 1 n)) by done.
    unfold all_hetzner. by rewrite (proj2 (forallb_forall _ _)).
Qed.

Definition PROPOSAL_IDS : list string := ["proposal_id"; "source_run_id"; "source_profile_id"; "source_step_id"].

(** The sections of a proposal that passes every check. *)
Definition proposal_ok (q : proposal_request) (p : odict value) : Prop :=
  source_ok (pq_source q) /\ document_ok (pq_document q) [py_str (dget "scope_id" (VStr "") (pq_document q))] /\
  quality_ok p /\ forall f, In f PROPOSAL_IDS -> _id (dget f VNone p) = true.

Lemma proposal_errors_nil q identifier run_id profile_id step_id created_at :
  let p := pending_proposal q identifier run_id profile_id step_id created_at in
  _proposal_errors p [py_str (dget "scope_id" (VStr "") (pq_document q))] = Ok [] <-> proposal_ok q p.
Proof.
  cbv zeta. unfold proposal_ok. rewrite <- source_errors_nil, <- document_errors_nil, <- quality_errors_nil.
  set (p := pending_proposal _ _ _ _ _ _).
  assert (Hs : dget "source" VNone p = VDict (pq_source q)) by done.
  assert (Hd : dget "document" VNone p = VDict (pq_document q)) by done.
  assert (Hc : text_is "candidate_class" "knowledge_record_proposal" p = true /\
               text_is "promotion_route" "knowledge_record_approval" p = true) by done.
  destruct Hc as [Hc Hr].
  unfold _proposal_errors. rewrite Hs, Hd, Hc, Hr. cbn [is_mapping mapping_of negb violated app].
  split.
  - intros H. apply bind_Ok in H as (src & -> & H). apply bind_Ok in H as (quality & -> & [= H]).
    apply app_eq_nil in H as [Hi%violated_nil [Hids [-> [-> ->]%app_eq_nil]%app_eq_nil]%app_eq_nil].
    split_and!; try done. apply app_eq_nil in Hids as [H1%violated_nil
      [H2%violated_nil [H3%violated_nil _]%app_eq_nil]%app_eq_nil].
    rewrite negb_false_iff in Hi, H1, H2, H3. by intros f [<-|[<-|[<-|[<-|[]]]]].
  - intros (-> & Hdoc & -> & Hids). cbn [mbind result_bind].
    rewrite Hdoc. rewrite !app_nil_r. cbn [map].
    rewrite !Hids by (cbn; tauto). done.
Qed.

(** A proposed knowledge record becomes a request to ingest it exactly when
    its source, document and quality data pass every check: well-formed
    identifiers, a known source type and tier, an owner, no secret, a scope, a
    review period of at least a day, rules, and evidence of the runtime plane.
    The request then carries the source and the document as proposed. *)
Theorem knowledge_ingest_gated artifacts clock run source_step q w p w' :
  propose_from_step artifacts clock run source_step q w = (Ok p, w') ->
  (exists body, knowledge_ingest_request_from_proposal p = Ok body /\
     dget "source" VNone body = VDict (pq_source q) /\ dget "document" VNone body = VDict (pq_document q))
  <-> proposal_ok q p.
Proof.
  unfold propose_from_step, mbind, eff_bind, lift.
  destruct (_validate_completed_step _ _) as [[]|e]; [|done].
  destruct (ditem "id" run) as [run_id|e]; [|done].
  destruct (if String.eqb _ _ then _ else _) as [identifier|e]; [|done].
  destruct (ditem "profile_id" run) as [profile_id|e]; [|done].
  destruct (ditem "id" source_step) as [step_id|e]; [|done].
  unfold iso_now, now, mbind, eff_bind, gets, modify, mret, eff_ret.
  set (created_at := iso_timestamp _).
  pose proof (proposal_errors_nil q identifier run_id profile_id step_id created_at) as Hnil. cbv zeta in Hnil.
  unfold validate_proposal, mbind, result_bind.
  destruct (_proposal_errors _ _) as [errors|e]; [|done]. cbn [mret result_ret].
  unfold on_files, zoom. destruct (write_json _ _ _ _ _) as [[uri|e] f]; [|done]. intros [= <- _].
  assert (Hok : proposal_ok q (pending_proposal q identifier run_id profile_id step_id created_at) <-> errors = []).
  { rewrite <- Hnil. split; [by intros [= ->]|by intros ->]. }
  unfold proposal_ok in *.
  transitivity (errors = []).
  - destruct errors as [|x errors]; cbn.
    + split; [done|]. intros _. eexists. by split.
    + split; [by intros (? & ? & _)|done].
  - rewrite <- Hok. set (p1 := pending_proposal _ _ _ _ _ _).
    match goal with |- _ <-> _ /\ _ /\ quality_ok ?p /\ _ => set (p2 := p) end.
    assert (Hids : forall k, In k PROPOSAL_IDS -> dget k VNone p2 = dget k VNone p1).
    { intros k Hk. destruct Hk as [<-|[<-|[<-|[<-|[]]]]]; reflexivity. }
    change (quality_ok p2) with (quality_ok p1).
    clearbody p1 p2. split; intros (H1 & H2 & H3 & Hi); (split; [exact H1|split; [exact H2|split; [exact H3|]]]);
      intros k Hk; specialize (Hi k Hk); [by rewrite Hids|by rewrite <- Hids].
Qed.

Definition demo_proposal : proposal_request :=
  mkProposalRequest
    [("id", VStr "handbook"); ("source_type", VStr "repo"); ("uri", VStr "https://example.org"); ("owner", VStr "team");
     ("sensitivity", VStr "internal")]
    [("id", VStr "doc-1"); ("content", VStr "The build runs nightly."); ("scope_id", VStr "engineering")]
    [VStr "hetzner://runtime/events/run-1/1.json"] (VInt 30) (VStr "verified") [VStr "checked by owner"]
    (VStr "standard") None false.
(** The scope a proposal is checked against is the one its document names. *)
Example scope_of_its_own :
  forall scope, _id (VStr scope) = true ->
  document_errors [("id", VStr "doc-1"); ("content", VStr "x"); ("scope_id", VStr scope)] [scope] = [].
Proof. intros scope H. unfold document_errors. cbn -[_id str_in]. rewrite H. cbn. by rewrite String.eqb_refl. Qed.

Definition demo_proposed : res (odict value) * world :=
  propose_from_step memory_store (fun n => Z.of_nat n) demo_run demo_step demo_proposal empty_world.
Definition demo_document : odict value := Eval vm_compute in match demo_proposed.1 with Ok p => p | Raise _ => [] end.

Lemma demo_proposed_Ok : demo_proposed.1 = Ok demo_document.
Proof. vm_compute. reflexivity. Qed.

Lemma knowledge_ingest_gated_witness :
  demo_proposed = (Ok demo_document, demo_proposed.2) /\
  ((exists body, knowledge_ingest_request_from_proposal demo_document = Ok body /\
      dget "source" VNone body = VDict (pq_source demo_proposal) /\
      dget "document" VNone body = VDict (pq_document demo_proposal)) <-> proposal_ok demo_proposal demo_document).
Proof.
  assert (H : demo_proposed = (Ok demo_document, demo_proposed.2)).
  { rewrite <- demo_proposed_Ok. apply surjective_pairing. }
  split; [exact H|].
  exact (knowledge_ingest_gated memory_store (fun n => Z.of_nat n) demo_run demo_step demo_proposal empty_world
    demo_document demo_proposed.2 H).
Defined.
