(* ===== verification/ToolAdapters.v ===== *)
(** * Tool adapters: what a tool call does to the machine

    Models [runtime/tool_adapters.py]. The operating system is an interface,
    [Machine]: resolving a path under the repository root (which follows
    symbolic links), reading, listing, writing, running a process. The adapters
    check their payload and the resolved path before they use it. Text is
    ASCII, so a byte of content is a character. *)

From S2P Require Import Prelude PyStr PyValue Artifacts.
Open Scope string_scope.
Open Scope list_scope.

(** [X] is the state of the machine; any operation may raise. *)
Class Machine (X : Type) := {
  (** [(root / text).resolve()], from the components of the root *)
  resolve_path : path -> string -> eff X exn path;
  path_is_file : path -> eff X exn bool;
  path_is_dir : path -> eff X exn bool;
  path_exists : path -> eff X exn bool;
  file_size : path -> eff X exn Z;
  read_bytes : path -> eff X exn string;
  (** the names in a directory *)
  iterdir : path -> eff X exn (list string);
  make_parents : path -> eff X exn unit;
  write_text : path -> string -> eff X exn unit;
  (** [subprocess.run] in the root: return code, standard output, standard error *)
  run_process : path -> list string -> eff X exn (Z * string * string);
}.

Definition absolute (p : path) : string := "/" +:+ join "/" p.

(** [p.relative_to(root)] *)
Definition relative_to (p root : path) : res path :=
  match strip_root root p with
  | Some q => Ok q
  | None => Raise (ValueError (repr_str (absolute p) +:+ " is not in the subpath of " +:+ repr_str (absolute root)))
  end.

Definition reject {X} (b : bool) (msg : string) : eff X exn unit := lift (raise_if b (ValueError msg)).
Definition text_or (default : string) (v : value) : string := py_str (py_or v (VStr default)).
Definition has_nul (s : string) : bool := existsb (Ascii.eqb "000"%char) (chars s).

Definition string_items (v : value) : option (list string) :=
  match v with
  | VList l => if forallb (fun x => match x with VStr _ => true | _ => false end) l then Some (text_items v) else None
  | _ => None
  end.

Definition _limit_text (text : string) (max_bytes : nat) : string * bool :=
  if (String.length text <=? max_bytes)%nat then (text, false) else (str_take max_bytes text, true).

Definition blocked_by (arg : string) (blocked : string) : bool := String.eqb arg blocked || startswith (blocked +:+ "=") arg.

Fixpoint _reject_blocked_args (tool : string) (args blocked : list string) : res unit :=
  match args with
  | [] => Ok tt
  | arg :: args =>
      raise_if (has_nul arg) (ValueError (tool +:+ " arguments must not contain NUL bytes.")) ;;
      match List.find (blocked_by arg) blocked with
      | Some b => Raise (ValueError (tool +:+ " argument is not allowed: " +:+ b +:+ "."))
      | None => _reject_blocked_args tool args blocked
      end
  end.

Section adapters.
Context {X : Type} `{!Machine X} (sha256 : string -> string) (repository_root : path).

(** The resolved path, which must lie under the root. *)
Definition confined (relative : string) : eff X exn path :=
  target ← resolve_path repository_root relative;
  lift (relative_to target repository_root) ;;
  mret target.

(** ** Reading *)

Definition MAX_FILE_BYTES : Z := 100000.
Definition MAX_ENTRIES : Z := 500.

Definition FilesystemReadAdapter (payload : odict value) : eff X exn (odict value) :=
  let relative := text_or "" (dget "path" VNone payload) in
  reject (String.eqb relative "") "filesystem-read requires a path." ;;
  requested ← lift (py_int (py_or (dget "max_bytes" VNone payload) (VInt 20000)));
  reject (requested <? 0)%Z "filesystem-read max_bytes must be non-negative." ;;
  let max_bytes := Z.min requested MAX_FILE_BYTES in
  target ← confined relative;
  found ← path_is_file target;
  if negb found then throw (FileNotFoundError (absolute target)) else
  content ← read_bytes target;
  let data := str_take (Z.to_nat max_bytes) content in
  size ← file_size target;
  mret [("path", VStr (absolute target)); ("bytes_read", VInt (Z.of_nat (String.length data)));
        ("content", VStr data); ("truncated", VBool (max_bytes <? size)%Z)].

Definition list_entry (target : path) (name : string) : eff X exn value :=
  let child := target ++ [name] in
  size ← file_size child;
  relative ← lift (relative_to child repository_root);
  directory ← path_is_dir child;
  file ← path_is_file child;
  mret (VDict [("name", VStr name); ("path", VStr (as_posix relative));
    ("kind", VStr (if (directory : bool) then "directory" else "file"));
    ("size_bytes", if (file : bool) then VInt size else VNone)]).

Fixpoint list_entries (target : path) (names : list string) : eff X exn (list value) :=
  match names with
  | [] => mret []
  | n :: names => e ← list_entry target n; es ← list_entries target names; mret (e :: es)
  end.

Definition by_folded_name (a b : string) : bool := str_leb (casefold a) (casefold b).

Definition FilesystemListAdapter (payload : odict value) : eff X exn (odict value) :=
  let relative := text_or "." (dget "path" VNone payload) in
  requested ← lift (py_int (py_or (dget "max_entries" VNone payload) (VInt 100)));
  reject (requested <? 0)%Z "filesystem-list max_entries must be non-negative." ;;
  let max_entries := Z.min requested MAX_ENTRIES in
  target ← confined relative;
  found ← path_is_dir target;
  if negb found then throw (NotADirectoryError (absolute target)) else
  names ← iterdir target;
  entries ← list_entries target (take (Z.to_nat max_entries) (py_sorted by_folded_name names));
  again ← iterdir target;
  mret [("path", VStr (absolute target)); ("entry_count", VInt (Z.of_nat (length entries)));
        ("entries", VList entries); ("truncated", VBool (max_entries <? Z.of_nat (length again))%Z)].

(** ** Writing *)

Definition MAX_CONTENT_BYTES : nat := 100 * 1000.
Definition APPROVAL_FIELDS : list string := ["approval_id"; "approved_by"; "approved_at"; "policy_id"].
Definition WRITE_POLICY : string := "write-approval-required".

Definition approval_field (approval : odict value) (f : string) : res (string * value) :=
  let v := strip (text_or "" (dget f VNone approval)) in
  raise_if (String.eqb v "") (ValueError ("filesystem-write approval requires " +:+ f +:+ ".")) ;;
  raise_if (has_nul v) (ValueError "filesystem-write approval values must not contain NUL bytes.") ;;
  mret (f, VStr v).

Definition _validated_approval (approval : odict value) : res (odict value) :=
  record ← mapM (approval_field approval) APPROVAL_FIELDS;
  raise_if (negb (py_eq (dget "policy_id" VNone record) (VStr WRITE_POLICY)))
    (ValueError "filesystem-write approval policy_id must be write-approval-required.") ;;
  mret record.

(** The checks of the payload, before the machine is touched: the approval, the
    rollback metadata, the path and the content. *)
Definition write_plan (payload : odict value) : res (odict value * odict value * string * string) :=
  raise_if (od_mem "command" payload || od_mem "shell" payload)
    (ValueError "filesystem-write accepts structured write plans, not commands.") ;;
  raise_if (negb (String.eqb (text_or "" (dget "operation" VNone payload)) "write_text_file"))
    (ValueError "filesystem-write operation must be write_text_file.") ;;
  match dget "approval" VNone payload with
  | VDict approval =>
      record ← _validated_approval approval;
      match dget "rollback" VNone payload with
      | VDict rollback =>
          let relative := text_or "" (dget "path" VNone payload) in
          raise_if (String.eqb relative "") (ValueError "filesystem-write requires a path.") ;;
          raise_if (has_nul relative) (ValueError "filesystem-write path must not contain NUL bytes.") ;;
          raise_if (startswith "/" relative) (ValueError "filesystem-write path must be relative to the repository root.") ;;
          match dget "content" VNone payload with
          | VStr content =>
              raise_if (MAX_CONTENT_BYTES <? String.length content)%nat
                (ValueError "filesystem-write content exceeds the adapter limit.") ;;
              mret (record, rollback, relative, content)
          | _ => Raise (ValueError "filesystem-write requires string content.")
          end
      | _ => Raise (ValueError "filesystem-write requires rollback metadata.")
      end
  | _ => Raise (ValueError "filesystem-write requires an approval object.")
  end.

Definition previous_content (target : path) : eff X exn (option string) :=
  present ← path_exists target;
  if (present : bool) then content ← read_bytes target; mret (Some content) else mret None.

Definition not_a_file (target : path) : eff X exn bool :=
  present ← path_exists target;
  if (present : bool) then file ← path_is_file target; mret (negb file) else mret false.

Definition expected_strategy (previous : option string) : string :=
  match previous with Some _ => "restore_previous_content" | None => "delete_created_file" end.

Definition FilesystemWriteAdapter (payload : odict value) : eff X exn (odict value) :=
  plan ← lift (write_plan payload);
  let '(record, rollback, relative, content) := plan in
  target ← confined relative;
  wrong ← not_a_file target;
  reject wrong "filesystem-write target must be a file path." ;;
  match dget "apply" (VBool false) payload with
  | VBool apply_write =>
      previous ← previous_content target;
      let strategy := text_or "" (dget "strategy" VNone rollback) in
      reject (negb (String.eqb strategy (expected_strategy previous)))
        ("filesystem-write rollback strategy must be " +:+ expected_strategy previous +:+ " for this target.") ;;
      (if apply_write then make_parents target ;; write_text target content else mret tt) ;;
      mret [("operation", VStr "write_text_file"); ("status", VStr (if apply_write then "applied" else "planned"));
        ("path", VStr (absolute target)); ("bytes_planned", VInt (Z.of_nat (String.length content)));
        ("content_sha256", VStr (sha256 content)); ("existed_before", VBool (bool_decide (is_Some previous)));
        ("previous_content_sha256", match previous with Some c => VStr (sha256 c) | None => VNone end);
        ("approval", VDict record);
        ("rollback", VDict [("strategy", VStr strategy); ("metadata_only", VBool true);
           ("reason", VStr (text_or "" (dget "reason" VNone rollback)))])]
  | _ => throw (ValueError "filesystem-write apply must be a boolean.")
  end.

(** ** Processes *)

Definition ALLOWED_SUBCOMMANDS : list string := ["diff"; "log"; "show"; "status"].
Definition GIT_BLOCKED_ARGS : list string := ["-c"; "--config-env"; "--exec-path"; "--git-dir"; "--work-tree"].
Definition TEST_BLOCKED_ARGS : list string := ["--override-ini"; "--basetemp"].

Definition process_output (max_bytes : nat) (first : string * value) (result : Z * string * string) : odict value :=
  let '(code, out, err) := result in
  [first; ("returncode", VInt code); ("stdout", VStr (_limit_text out max_bytes).1);
   ("stderr", VStr (_limit_text err max_bytes).1); ("stdout_truncated", VBool (_limit_text out max_bytes).2);
   ("stderr_truncated", VBool (_limit_text err max_bytes).2)].

Definition GitReadAdapter (payload : odict value) : eff X exn (odict value) :=
  match string_items (dget "args" VNone payload) with
  | Some args =>
      reject (match args with [] => true | sub :: _ => negb (str_in sub ALLOWED_SUBCOMMANDS) end)
        "git-read subcommand must be one of: diff, log, show, status." ;;
      lift (_reject_blocked_args "git-read" args GIT_BLOCKED_ARGS) ;;
      result ← run_process repository_root ("git" :: args);
      mret (process_output (50 * 1000) ("args", strs args) result)
  | None => throw (ValueError "git-read requires args as a string array.")
  end.

Definition TestRunnerAdapter (payload : odict value) : eff X exn (odict value) :=
  match string_items (dget "pytest_args" (VList []) payload) with
  | Some args =>
      lift (_reject_blocked_args "test-runner" args TEST_BLOCKED_ARGS) ;;
      let command := ["python"; "-m"; "pytest"] ++ args in
      result ← run_process repository_root command;
      mret (process_output (80 * 1000) ("command", strs command) result)
  | None => throw (ValueError "test-runner requires pytest_args as a string array.")
  end.

Definition default_tool_adapters : odict (odict value -> eff X exn (odict value)) :=
  [("filesystem-read", FilesystemReadAdapter); ("filesystem-list", FilesystemListAdapter);
   ("filesystem-write", FilesystemWriteAdapter); ("git-read", GitReadAdapter); ("test-runner", TestRunnerAdapter)].
End adapters.

(** ** What the adapters may do *)

Definition under (root p : path) : Prop := exists q, p = root ++ q.

(** An argument that is neither blocked nor holds a NUL byte. *)
Definition clean (blocked : list string) (arg : string) : Prop :=
  has_nul arg = false /\ forall b, In b blocked -> blocked_by arg b = false.

Definition safe_command (command : list string) : Prop :=
  (exists sub args, command = "git" :: sub :: args /\ In sub ALLOWED_SUBCOMMANDS /\
     Forall (clean GIT_BLOCKED_ARGS) (sub :: args)) \/
  (exists args, command = ["python"; "-m"; "pytest"] ++ args /\ Forall (clean TEST_BLOCKED_ARGS) args).

Lemma reject_blocked_Ok tool args blocked : _reject_blocked_args tool args blocked = Ok tt -> Forall (clean blocked) args.
Proof.
  induction args as [|a args IH]; cbn [_reject_blocked_args]; [done|]. intros H.
  apply bind_Ok in H as (_ & Hn%raise_if_Ok & H).
  destruct (List.find (blocked_by a) blocked) as [b|] eqn:E; [done|]. constructor; [|by apply IH].
  split; [done|]. intros b Hb. by eapply List.find_none in Hb.
Qed.

Lemma relative_to_under p root q : relative_to p root = Ok q -> under root p.
Proof.
  unfold relative_to. destruct (strip_root root p) as [r|] eqn:E; [|done]. apply strip_root_Some in E. by exists r.
Qed.

Lemma under_child root p n : under root p -> under root (p ++ [n]).
Proof. intros [q ->]. exists (q ++ [n]). by rewrite app_assoc. Qed.

(** A relation on machine states that looking under the root keeps. *)
Class Looks {X} `{!Machine X} (root : path) (R : X -> X -> Prop) : Prop := {
  looks_preorder :: PreOrder R;
  looks_resolve text : preserves R (resolve_path root text);
  looks_is_file p : under root p -> preserves R (path_is_file p);
  looks_is_dir p : under root p -> preserves R (path_is_dir p);
  looks_exists p : under root p -> preserves R (path_exists p);
  looks_size p : under root p -> preserves R (file_size p);
  looks_read p : under root p -> preserves R (read_bytes p);
  looks_list p : under root p -> preserves R (iterdir p);
}.

Section looking.
Context {X : Type} `{!Machine X} (sha256 : string -> string) (root : path) (R : X -> X -> Prop) `{!Looks root R}.

#[local] Instance looking_preorder : PreOrder R.
Proof. exact looks_preorder. Qed.

(** The looks of the relation, for [auto]. *)
Lemma look_at p : under root p ->
  preserves R (path_is_file p) /\ preserves R (path_is_dir p) /\ preserves R (path_exists p) /\
  preserves R (file_size p) /\ preserves R (read_bytes p) /\ preserves R (iterdir p).
Proof. intros Hp. destruct Looks0. split_and!; auto. Qed.
Ltac look p Hp := destruct (look_at p Hp) as (? & ? & ? & ? & ? & ?).

(** A bind whose first part establishes a fact for the rest. *)
Lemma preserves_bind_when {A B} (P : A -> Prop) (m : eff X exn A) (k : A -> eff X exn B) :
  preserves R m -> (forall s x s', m s = (Ok x, s') -> P x) -> (forall x, P x -> preserves R (k x)) ->
  preserves R (m ≫= k).
Proof.
  intros Hm HP Hk s. unfold mbind, eff_bind. destruct (m s) as [[x|e] s'] eqn:E.
  - etransitivity; [exact (preserves_elim _ _ _ _ _ Hm E)|]. apply Hk. by eapply HP.
  - exact (preserves_elim _ _ _ _ _ Hm E).
Qed.

Lemma confined_looks text : preserves R (confined root text).
Proof. unfold confined. apply (preserves_bind _); [apply looks_resolve|intros p]. preserves_tac. Qed.

Lemma confined_under text s p s' : confined root text s = (Ok p, s') -> under root p.
Proof.
  unfold confined. intros (q & s1 & _ & H)%eff_bind_Ok. apply eff_bind_Ok in H as (r & s2 & Hr & H).
  injection H as <- _. unfold lift in Hr. injection Hr as Hr _. by eapply relative_to_under.
Qed.

Lemma with_confined {B} text (k : path -> eff X exn B) :
  (forall p, under root p -> preserves R (k p)) -> preserves R (confined root text ≫= k).
Proof. apply preserves_bind_when; [apply confined_looks|intros; by eapply confined_under]. Qed.

Lemma read_looks payload : preserves R (FilesystemReadAdapter root payload).
Proof.
  unfold FilesystemReadAdapter, reject. apply (preserves_bind _); [preserves_tac|intros _].
  apply (preserves_bind _); [preserves_tac|intros n]. apply (preserves_bind _); [preserves_tac|intros _].
  apply with_confined. intros p Hp. look p Hp. preserves_tac.
Qed.

Lemma list_entries_looks p names : under root p -> preserves R (list_entries root p names).
Proof.
  intros Hp. assert (He : forall n, preserves R (list_entry root p n)).
  { intros n. pose proof (under_child root p n Hp) as Hc. look (p ++ [n]) Hc. unfold list_entry. preserves_tac. }
  induction names; cbn [list_entries]; preserves_tac; auto.
Qed.

Lemma list_looks payload : preserves R (FilesystemListAdapter root payload).
Proof.
  unfold FilesystemListAdapter, reject. apply (preserves_bind _); [preserves_tac|intros n].
  apply (preserves_bind _); [preserves_tac|intros _].
  apply with_confined. intros p Hp. look p Hp. pose proof (fun l => list_entries_looks p l Hp). preserves_tac.
Qed.

(** The writing adapter, given what the write itself does. *)
Lemma write_looks payload :
  (forall record rollback relative content p,
     write_plan payload = Ok (record, rollback, relative, content) -> dget "apply" (VBool false) payload = VBool true ->
     under root p -> preserves R (make_parents p ;; write_text p content)) ->
  preserves R (FilesystemWriteAdapter sha256 root payload).
Proof.
  intros Hw. unfold FilesystemWriteAdapter, reject.
  apply (preserves_bind_when (fun plan => write_plan payload = Ok plan)); [preserves_tac|by intros ? ? ? [= ->]|].
  intros [[[record rollback] relative] content] Hplan. apply with_confined. intros p Hp.
  look p Hp. apply (preserves_bind _).
  { unfold not_a_file. preserves_tac. }
  intros wrong. apply (preserves_bind _); [preserves_tac|intros _].
  destruct (dget "apply" (VBool false) payload) as [|b| | | |] eqn:Ea; try (preserves_tac; done).
  apply (preserves_bind _); [unfold previous_content; preserves_tac|intros previous].
  apply (preserves_bind _); [preserves_tac|intros _].
  apply (preserves_bind _); [|intros _; preserves_tac]. destruct b; [by eapply Hw|preserves_tac].
Qed.

Hypothesis runs : forall command, safe_command command -> preserves R (run_process root command).

Lemma git_runs payload : preserves R (GitReadAdapter root payload).
Proof.
  unfold GitReadAdapter, reject. destruct (string_items _) as [args|]; [|preserves_tac].
  apply (preserves_bind_when (fun _ => exists sub rest, args = sub :: rest /\ In sub ALLOWED_SUBCOMMANDS)).
  - preserves_tac.
  - unfold lift. intros s x s' [= H _]. apply raise_if_Ok in H. destruct args as [|sub rest]; [done|].
    apply negb_false_iff in H. change (str_in sub ALLOWED_SUBCOMMANDS = true) in H. apply str_in_In in H. eauto.
  - intros _ (sub & rest & -> & Hsub).
    apply (preserves_bind_when (fun _ => Forall (clean GIT_BLOCKED_ARGS) (sub :: rest))); [preserves_tac| |].
    + unfold lift. intros s [] s' [= H _]. by eapply reject_blocked_Ok.
    + intros _ Hc. apply (preserves_bind _); [|intros; preserves_tac]. apply runs. left. eauto.
Qed.

Lemma tests_run payload : preserves R (TestRunnerAdapter root payload).
Proof.
  unfold TestRunnerAdapter. destruct (string_items _) as [args|]; [|preserves_tac].
  apply (preserves_bind_when (fun _ => Forall (clean TEST_BLOCKED_ARGS) args)); [preserves_tac| |].
  - unfold lift. intros s [] s' [= H _]. by eapply reject_blocked_Ok.
  - intros _ Hc. apply (preserves_bind _); [|intros; preserves_tac]. apply runs. right. eauto.
Qed.
End looking.

(** C21. The default adapters are confined. Take any relation on machine states
    that looking under the repository root keeps, that writing a file under the
    root keeps, and that an allowed command keeps: a [git] of a reading
    subcommand or a [pytest], no argument of which is blocked. Every default
    adapter keeps it on every payload, whether it succeeds or raises: there is
    nothing else an adapter does. *)
Theorem adapters_confined {X} `{!Machine X} sha256 root (R : X -> X -> Prop) `{!Looks root R} name adapter payload :
  (forall p content, under root p -> preserves R (make_parents p) /\ preserves R (write_text p content)) ->
  (forall command, safe_command command -> preserves R (run_process root command)) ->
  In (name, adapter) (default_tool_adapters sha256 root) -> preserves R (adapter payload).
Proof.
  intros Hw Hr Hin. destruct Hin as [[= <- <-]|[[= <- <-]|[[= <- <-]|[[= <- <-]|[[= <- <-]|[]]]]]].
  - by apply read_looks.
  - by apply list_looks.
  - apply write_looks; [done|]. intros _ _ _ content p _ _ Hp. destruct (Hw p content Hp) as [H1 H2].
    apply (preserves_bind _); [exact H1|intros _; exact H2].
  - by apply git_runs.
  - by apply tests_run.
Qed.

(** A payload that asks for a write, with a complete approval under the write
    policy, rollback metadata, a relative path and content within the limit. *)
Definition approved_write (payload : odict value) : Prop :=
  dget "apply" (VBool false) payload = VBool true /\
  (exists approval, dget "approval" VNone payload = VDict approval /\
     (forall f, In f APPROVAL_FIELDS -> strip (text_or "" (dget f VNone approval)) <> "") /\
     strip (text_or "" (dget "policy_id" VNone approval)) = WRITE_POLICY) /\
  (exists rollback, dget "rollback" VNone payload = VDict rollback) /\
  startswith "/" (text_or "" (dget "path" VNone payload)) = false /\
  exists content, dget "content" VNone payload = VStr content /\ (String.length content <= MAX_CONTENT_BYTES)%nat.

Lemma validated_approval_Ok approval record : _validated_approval approval = Ok record ->
  (forall f, In f APPROVAL_FIELDS -> strip (text_or "" (dget f VNone approval)) <> "") /\
  strip (text_or "" (dget "policy_id" VNone approval)) = WRITE_POLICY.
Proof.
  unfold _validated_approval. intros H. apply bind_Ok in H as (r & Hr & H).
  apply bind_Ok in H as (_ & Hp%raise_if_Ok & _). apply negb_false_iff, py_eq_str_r in Hp.
  apply mapM_Ok in Hr. unfold APPROVAL_FIELDS in Hr.
  assert (Hf : forall f y, approval_field approval f = Ok y ->
            strip (text_or "" (dget f VNone approval)) <> "" /\ y = (f, VStr (strip (text_or "" (dget f VNone approval))))).
  { intros f y E. unfold approval_field in E. apply bind_Ok in E as (_ & E1%raise_if_Ok & E).
    apply bind_Ok in E as (_ & _ & [= <-]). split; [|done]. intros E. by rewrite E in E1. }
  repeat match goal with
  | H : Forall2 _ (_ :: _) _ |- _ => apply Forall2_cons_inv_l in H as (? & ? & ?%Hf & H & ->)
  | H : Forall2 _ [] _ |- _ => apply Forall2_nil_inv_l in H as ->
  | H : _ /\ _ = (_, _) |- _ => destruct H as [? ->]
  end.
  split; [|by injection Hp]. intros f Hin. by repeat destruct Hin as [<-|Hin].
Qed.

Lemma write_plan_approved payload plan : write_plan payload = Ok plan -> dget "apply" (VBool false) payload = VBool true ->
  approved_write payload.
Proof.
  unfold write_plan, approved_write. intros H Ha. apply bind_Ok in H as (_ & _ & H). apply bind_Ok in H as (_ & _ & H).
  destruct (dget "approval" VNone payload) as [| | | | |approval]; try done.
  apply bind_Ok in H as (record & Hr%validated_approval_Ok & H).
  destruct (dget "rollback" VNone payload) as [| | | | |rollback]; try done.
  apply bind_Ok in H as (_ & _ & H). apply bind_Ok in H as (_ & _ & H). apply bind_Ok in H as (_ & Hs%raise_if_Ok & H).
  destruct (dget "content" VNone payload) as [| | |content| |]; try done.
  apply bind_Ok in H as (_ & Hc%raise_if_Ok & H). apply Nat.ltb_ge in Hc.
  split_and!; eauto.
Qed.

(** Nothing is written without approval. On a payload that does not ask for
    the write with a complete approval under the write policy, the writing
    adapter only looks at the machine. *)
Theorem write_needs_approval {X} `{!Machine X} sha256 root (R : X -> X -> Prop) `{!Looks root R} payload :
  ~ approved_write payload -> preserves R (FilesystemWriteAdapter sha256 root payload).
Proof.
  intros Hn. apply write_looks; [done|]. intros record rollback relative content p Hplan Ha _.
  destruct Hn. by eapply write_plan_approved.
Qed.

(** ** A machine *)

(** Files by path, and the commands run so far. *)
Record toy := mkToy { toy_files : gmap path string; toy_commands : list (list string) }.

#[export] Instance toy_machine : Machine toy := {
  resolve_path root text := mret (resolve_onto root (path_parts text));
  path_is_file p := gets (fun m => bool_decide (is_Some (toy_files m !! p)));
  path_is_dir p := gets (fun m => negb (bool_decide (is_Some (toy_files m !! p))));
  path_exists p := gets (fun m => bool_decide (is_Some (toy_files m !! p)));
  file_size p := gets (fun m => Z.of_nat (String.length (default "" (toy_files m !! p))));
  read_bytes p := gets (fun m => default "" (toy_files m !! p));
  iterdir p := mret [];
  make_parents p := mret tt;
  write_text p content := modify (fun m => mkToy (<[p := content]> (toy_files m)) (toy_commands m));
  run_process root command := modify (fun m => mkToy (toy_files m) (command :: toy_commands m)) ;; mret (0%Z, "", "");
}.

(** Files outside the root are as they were, and only allowed commands were run. *)
Definition toy_confined (root : path) (m m' : toy) : Prop :=
  (forall p, ~ under root p -> toy_files m' !! p = toy_files m !! p) /\
  exists new, toy_commands m' = new ++ toy_commands m /\ Forall safe_command new.

#[export] Instance toy_confined_preorder root : PreOrder (toy_confined root).
Proof.
  split.
  - intros m. split; [done|]. by exists [].
  - intros a b c [H1 (n1 & E1 & F1)] [H2 (n2 & E2 & F2)]. split.
    + intros p Hp. by rewrite H2, H1.
    + exists (n2 ++ n1). rewrite E2, E1, app_assoc. split; [done|]. by apply Forall_app.
Qed.
#[export] Instance toy_looks root : Looks root (toy_confined root).
Proof. split; try exact _; intros; apply preserves_gets || apply preserves_ret; exact _. Qed.

Lemma toy_writes root p content : under root p ->
  preserves (toy_confined root) (make_parents p) /\ preserves (toy_confined root) (write_text p content).
Proof.
  intros Hp. split; [apply (preserves_ret _)|]. intros m. split; [|by exists []].
  intros q Hq. cbn. apply lookup_insert_ne. intros <-. done.
Qed.
Lemma toy_runs root command : safe_command command -> preserves (toy_confined root) (run_process root command).
Proof. intros Hc m. split; [done|]. exists [command]. by split; [|constructor]. Qed.

Definition demo_write : odict value :=
  [("operation", VStr "write_text_file"); ("path", VStr "notes/a.txt"); ("content", VStr "hello"); ("apply", VBool true);
   ("approval", VDict [("approval_id", VStr "a-1"); ("approved_by", VStr "owner"); ("approved_at", VStr "today");
      ("policy_id", VStr "write-approval-required")]);
   ("rollback", VDict [("strategy", VStr "delete_created_file")])].
Definition demo_root : path := ["srv"; "repo"].
Definition write_on (payload : odict value) (m : toy) := FilesystemWriteAdapter (fun s => s) demo_root payload m.

Example write_ex :
  toy_files (write_on demo_write (mkToy ∅ [])).2 !! ["srv"; "repo"; "notes"; "a.txt"] = Some "hello" /\
  is_ok (write_on (od_set "path" (VStr "../x") demo_write) (mkToy ∅ [])).1 = false /\
  is_ok (write_on (od_set "path" (VStr "/etc/passwd") demo_write) (mkToy ∅ [])).1 = false.
Proof. vm_compute. done. Qed.

Example git_ex :
  is_ok (GitReadAdapter demo_root [("args", strs ["push"])] (mkToy ∅ [])).1 = false /\
  is_ok (GitReadAdapter demo_root [("args", strs ["log"; "--git-dir=/x"])] (mkToy ∅ [])).1 = false /\
  is_ok (GitReadAdapter demo_root [("args", strs ["status"; "--short"])] (mkToy ∅ [])).1 = true.
Proof. vm_compute. done. Qed.

(** [git diff --output=FILE] writes the file it names; the argument passes. *)
Example git_output_passes :
  toy_commands (GitReadAdapter demo_root [("args", strs ["diff"; "--output=/srv/elsewhere"])] (mkToy ∅ [])).2
  = [["git"; "diff"; "--output=/srv/elsewhere"]].
Proof. vm_compute. reflexivity. Qed.

Lemma adapters_confined_witness :
  preserves (toy_confined demo_root) (GitReadAdapter demo_root [("args", strs ["status"])]).
Proof.
  apply (adapters_confined (fun s => s) demo_root (toy_confined demo_root) "git-read" (GitReadAdapter demo_root)).
  - intros p content Hp. apply toy_writes. exact Hp.
  - intros command Hc. apply toy_runs. exact Hc.
  - cbn. tauto.
Defined.

Lemma write_needs_approval_witness :
  preserves (toy_confined demo_root)
    (FilesystemWriteAdapter (fun s => s) demo_root (od_set "approval" (VDict []) demo_write)).
Proof.
  apply (write_needs_approval (fun s => s) demo_root (toy_confined demo_root)).
  intros (_ & (a & Ha & Hf & _) & _). vm_compute in Ha. injection Ha as <-.
  apply (Hf "policy_id"); [vm_compute; tauto|reflexivity].
Defined.
