(* ===== verification/Retention.v ===== *)
(** * Retention: which artifacts of which runs are deleted, and when

    Models [runtime/retention.py]. The planner divides the runs of a recordset
    into expired and retained ones and collects the artifact addresses of each;
    the executor deletes the files of the expired addresses, unless a retained
    run uses the address too, it does not resolve under the root, or the call
    is a dry run. Files are those of the artifact store, which has no symbolic
    links; [parse_utc] is [datetime.fromisoformat] followed by [astimezone], and
    [unlink_error] says for which files the operating system refuses to delete. *)

From S2P Require Import Prelude PyStr PyValue Models RuntimeStore Artifacts Clock FlightRecorder.
Open Scope string_scope.
Open Scope list_scope.

Record RuntimeRetentionPolicy := mkRetentionPolicy {
  succeeded_run_artifact_days : Z;
  failed_run_artifact_days : Z;
  cancelled_run_artifact_days : Z;
  cleanup_report_artifact_days : Z;
}.
Definition default_retention_policy : RuntimeRetentionPolicy := mkRetentionPolicy 30 90 30 180.

Record RuntimeRetentionPlan := mkRetentionPlan {
  expired_run_ids : list string;
  expired_artifact_uris : list string;
  retained_run_ids : list string;
  retained_artifact_uris : list string;
}.

Definition retention_plan_value (p : RuntimeRetentionPlan) : value :=
  VDict [("expired_run_ids", strs (expired_run_ids p)); ("expired_artifact_uris", strs (expired_artifact_uris p));
         ("retained_run_ids", strs (retained_run_ids p)); ("retained_artifact_uris", strs (retained_artifact_uris p))].

(** ** Addresses *)

(** [RuntimeRetentionError] carries a message; the executor catches it. *)
Abbreviation retained_or A := (result string A).

Definition rstrip_slash (s : string) : string :=
  of_chars (reverse (drop_chars (Ascii.eqb "/"%char) (reverse (chars s)))).

Section resolver.
Context (uri_prefix : string).

Definition uri_base : string := rstrip_slash uri_prefix +:+ "/".

(** [PurePosixPath]: empty and dot components vanish from its parts. *)
Definition _relative_uri_path (uri : string) : retained_or path :=
  raise_if (negb (startswith uri_base uri)) ("Unsupported runtime artifact URI: " +:+ uri) ;;
  let raw := removeprefix uri_base uri in
  raise_if (startswith "/" raw) ("Absolute artifact paths are not allowed: " +:+ uri) ;;
  let parts := path_parts raw in
  raise_if (negb (nonempty parts)) ("Artifact URI has no relative path: " +:+ uri) ;;
  raise_if (existsb (fun p => str_in p [""; "."; ".."]) parts) ("Unsafe artifact URI path segment: " +:+ uri) ;;
  raise_if (existsb (fun p => contains "\" p || contains ":" p) parts)
    ("Platform-specific artifact path segment: " +:+ uri) ;;
  mret parts.

(** The file an address names, relative to the root. *)
Definition resolve (root : path) (uri : string) : retained_or path :=
  relative ← _relative_uri_path uri;
  match strip_root root (resolve_onto root relative) with
  | Some target => mret target
  | None => Raise ("Artifact URI escapes runtime root: " +:+ uri)
  end.
End resolver.

(** ** Planning *)

Section planner.
Context (parse_utc : string -> res datetime) (policy : RuntimeRetentionPolicy).

Definition retention_days (status : string) : Z :=
  if String.eqb status "failed" then failed_run_artifact_days policy
  else if String.eqb status "cancelled" then cancelled_run_artifact_days policy
  else succeeded_run_artifact_days policy.

(** [value.replace("Z", "+00:00")] *)
Definition with_offset (s : string) : string :=
  of_chars (mjoin (map (fun c => if Ascii.eqb c "Z" then chars "+00:00" else [c]) (chars s))).

Definition _run_is_expired (run : odict value) (now : datetime) : res bool :=
  let status := py_str (py_or (dget "status" VNone run) (VStr "")) in
  let completed_at := dget "completed_at" VNone run in
  if str_in status ["queued"; "running"] || is_none completed_at then mret false
  else
    completed ← parse_utc (with_offset (py_str completed_at));
    days ← timedelta_of_us (retention_days status * us_per_day);
    until ← add_us completed days;
    mret (until <=? now)%Z.

Definition _list_records (records : odict value) (field : string) : list (odict value) :=
  match dget field (VList []) records with VList l => omap as_mapping l | _ => [] end.

Definition _records_by_id (raw : value) : odict (odict value) :=
  match raw with
  | VList l => od_of_list (omap (fun v => match v with
                                          | VDict d => id ← od_get "id" d; Some (py_str id, d)
                                          | _ => None
                                          end) l)
  | _ => []
  end.

(** The texts among some fields of a record, under the record's run. *)
Definition uris_of (fields : list string) (record : odict value) : list string :=
  omap (fun f => as_text (dget f VNone record)) fields.
Definition run_of (record : odict value) : res string := v ← ditem "run_id" record; mret (py_str v).

(** Events and invocations read the run first, the others only with an address. *)
Definition uris_always (fields : list string) (record : odict value) : res (list (string * string)) :=
  run ← run_of record; mret (map (pair run) (uris_of fields record)).
Definition uris_if_any (field : string) (record : odict value) : res (list (string * string)) :=
  match dget field VNone record with
  | VStr uri => run ← run_of record; mret [(run, uri)]
  | _ => mret []
  end.

Definition _iter_runtime_artifact_uris (records : odict value) : res (list (string * string)) :=
  events ← mapM (uris_always ["planned_action_uri"; "execution_uri"; "result_uri"]) (_list_records records "runtime_events");
  checkpoints ← mapM (uris_if_any "state_uri") (_list_records records "runtime_checkpoints");
  invocations ← mapM (uris_always ["input_uri"; "output_uri"]) (_list_records records "tool_invocations");
  validations ← mapM (uris_if_any "findings_uri") (_list_records records "validation_results");
  candidates ← mapM (uris_if_any "content_uri") (_list_records records "memory_candidates");
  mret (concat events ++ concat checkpoints ++ concat invocations ++ concat validations ++ concat candidates).

Fixpoint split_runs (now : datetime) (runs : odict (odict value)) : res (list string * list string) :=
  match runs with
  | [] => mret ([], [])
  | (id, run) :: runs =>
      expired ← _run_is_expired run now;
      rest ← split_runs now runs;
      mret (if (expired : bool) then (id :: rest.1, rest.2) else (rest.1, id :: rest.2))
  end.

Definition plan (recordset : odict value) (now : datetime) : res RuntimeRetentionPlan :=
  match dget "records" (VDict []) recordset with
  | VDict records =>
      split ← split_runs now (_records_by_id (dget "runtime_runs" (VList []) records));
      uris ← _iter_runtime_artifact_uris records;
      let expired ru := str_in ru.1 split.1 in
      mret (mkRetentionPlan (sorted_strs split.1)
        (sorted_set (list_to_set (map snd (List.filter expired uris))))
        (sorted_strs split.2)
        (sorted_set (list_to_set (map snd (List.filter (fun ru => negb (expired ru)) uris)))))
  | _ => Raise (ValueError "runtime_plane_recordset.records must be an object.")
  end.
End planner.

(** ** Applying *)

Record sweep := mkSweep {
  deleted : list string;
  dry_run_uris : list string;
  missing : list string;
  unsafe : list string;
  failed : list string;
  errors : list (string * string);
}.
Definition no_sweep : sweep := mkSweep [] [] [] [] [] [].

Section executor.
Context (unlink_error : path -> option string) (uri_prefix : string) (root : path).

(** A directory is a path below which there is a file. *)
Definition is_dir (fs : files) (p : path) : bool :=
  existsb (fun q => negb (bool_decide (q = p)) && bool_decide (is_Some (strip_root p q))) (map fst (map_to_list fs)).

Definition add_unsafe (uri reason : string) (s : sweep) : sweep :=
  mkSweep (deleted s) (dry_run_uris s) (missing s) (unsafe s ++ [uri]) (failed s) (errors s ++ [(uri, reason)]).
Definition add_missing (strict : bool) (uri : string) (s : sweep) : sweep :=
  mkSweep (deleted s) (dry_run_uris s) (missing s ++ [uri]) (unsafe s) (failed s)
    (errors s ++ if strict then [(uri, "artifact_file_missing")] else []).
Definition add_dry (uri : string) (s : sweep) : sweep :=
  mkSweep (deleted s) (dry_run_uris s ++ [uri]) (missing s) (unsafe s) (failed s) (errors s).
Definition add_failed (uri reason : string) (s : sweep) : sweep :=
  mkSweep (deleted s) (dry_run_uris s) (missing s) (unsafe s) (failed s ++ [uri]) (errors s ++ [(uri, reason)]).
Definition add_deleted (uri : string) (s : sweep) : sweep :=
  mkSweep (deleted s ++ [uri]) (dry_run_uris s) (missing s) (unsafe s) (failed s) (errors s).

Definition sweep_one (dry_run strict_missing : bool) (retained : list string) (acc : files * sweep) (uri : string)
    : files * sweep :=
  let '(fs, s) := acc in
  if str_in uri retained then (fs, add_unsafe uri "artifact_uri_is_also_retained" s)
  else match resolve uri_prefix root uri with
       | Raise reason => (fs, add_unsafe uri reason s)
       | Ok p =>
           if is_dir fs p then (fs, add_unsafe uri "artifact_uri_resolves_to_directory" s)
           else match fs !! p with
                | None => (fs, add_missing strict_missing uri s)
                | Some _ =>
                    if dry_run then (fs, add_dry uri s)
                    else match unlink_error p with
                         | Some reason => (fs, add_failed uri reason s)
                         | None => (delete p fs, add_deleted uri s)
                         end
                end
       end.

Definition sweep_all (dry_run strict_missing : bool) (p : RuntimeRetentionPlan) (fs : files) : files * sweep :=
  foldl (sweep_one dry_run strict_missing (retained_artifact_uris p)) (fs, no_sweep) (expired_artifact_uris p).

Record RuntimeRetentionCleanupReport := mkCleanupReport {
  report_created_at : string;
  report_dry_run : bool;
  report_strict_missing : bool;
  report_days : Z;
  report_plan : RuntimeRetentionPlan;
  report_sweep : sweep;
  report_uri : option string;
}.

Definition has_errors (r : RuntimeRetentionCleanupReport) : bool :=
  nonempty (unsafe (report_sweep r)) || nonempty (failed (report_sweep r)) || nonempty (errors (report_sweep r)).

Definition report_dict (r : RuntimeRetentionCleanupReport) : value :=
  let s := report_sweep r in let p := report_plan r in
  VDict [("created_at", VStr (report_created_at r)); ("dry_run", VBool (report_dry_run r));
    ("strict_missing", VBool (report_strict_missing r)); ("cleanup_report_artifact_days", VInt (report_days r));
    ("expired_run_ids", strs (expired_run_ids p)); ("retained_run_ids", strs (retained_run_ids p));
    ("deleted_artifact_uris", strs (sorted_strs (deleted s))); ("dry_run_artifact_uris", strs (sorted_strs (dry_run_uris s)));
    ("missing_artifact_uris", strs (sorted_strs (missing s))); ("unsafe_artifact_uris", strs (sorted_strs (unsafe s)));
    ("failed_artifact_uris", strs (sorted_strs (failed s))); ("retained_artifact_uris", strs (retained_artifact_uris p));
    ("errors", VList (map (fun e => VDict [("uri", VStr e.1); ("reason", VStr e.2)]) (errors s)));
    ("report_uri", opt_str (report_uri r))].

(** [write_json] redacts by default. *)
Definition _write_report (artifacts : JsonArtifactStore) (r : RuntimeRetentionCleanupReport) : art string :=
  write_json artifacts ["retention-reports"; report_created_at r; "runtime-retention-cleanup-report"] (report_dict r) true.

Definition apply (clock : nat -> datetime) (policy : RuntimeRetentionPolicy) (report_artifacts : option JsonArtifactStore)
    (p : RuntimeRetentionPlan) (dry_run strict_missing persist_report : bool) : rt RuntimeRetentionCleanupReport :=
  created_at ← iso_now clock;
  swept ← gets (fun w => sweep_all dry_run strict_missing p (w_files w));
  modify (fun w => set_files swept.1 w) ;;
  let report := mkCleanupReport created_at dry_run strict_missing (cleanup_report_artifact_days policy) p swept.2 None in
  match report_artifacts with
  | Some artifacts =>
      if persist_report then
        uri ← on_files (_write_report artifacts report);
        mret (mkCleanupReport created_at dry_run strict_missing (cleanup_report_artifact_days policy) p swept.2 (Some uri))
      else mret report
  | None => mret report
  end.
End executor.

(** ** What a sweep changes *)

Section sweeping.
Context (unlink_error : path -> option string) (uri_prefix : string) (root : path).

Definition removed_by (dry_run : bool) (retained uris : list string) (p : path) : Prop :=
  dry_run = false /\ exists uri, In uri uris /\ ~ In uri retained /\ resolve uri_prefix root uri = Ok p.

Lemma sweep_one_changes dry strict retained fs s uri :
  (sweep_one unlink_error uri_prefix root dry strict retained (fs, s) uri).1 = fs \/
  exists p, (sweep_one unlink_error uri_prefix root dry strict retained (fs, s) uri).1 = delete p fs /\
            dry = false /\ ~ In uri retained /\ resolve uri_prefix root uri = Ok p.
Proof.
  unfold sweep_one. destruct (str_in uri retained) eqn:Er; [by left|]. apply str_in_false in Er.
  destruct (resolve uri_prefix root uri) as [p|e]; [|by left]. destruct (is_dir fs p); [by left|].
  destruct (fs !! p); [|by left]. destruct dry; [by left|]. destruct (unlink_error p); [by left|]. right. eauto 6.
Qed.

Lemma sweep_list_changes dry strict retained uris fs s p :
  let fs' := (foldl (sweep_one unlink_error uri_prefix root dry strict retained) (fs, s) uris).1 in
  fs' !! p = fs !! p \/ fs' !! p = None /\ removed_by dry retained uris p.
Proof.
  cbv zeta. revert fs s. induction uris as [|uri uris IH]; intros fs s; [by left|]. cbn [foldl].
  pose proof (sweep_one_changes dry strict retained fs s uri) as H1.
  destruct (sweep_one _ _ _ _ _ _ (fs, s) uri) as [fs1 s1] eqn:E. cbn [fst] in H1.
  assert (Hmore : removed_by dry retained uris p -> removed_by dry retained (uri :: uris) p).
  { intros (? & u & Hu & H). split; [done|]. exists u. by split; [right|]. }
  destruct (IH fs1 s1) as [Hs|[Hn Hr]]; [|by right; split; [|apply Hmore]].
  destruct H1 as [->|(q & -> & Hd & Hu & Hq)]; [by left|].
  destruct (decide (q = p)) as [->|Hne].
  - right. rewrite Hs, lookup_delete_eq. split; [done|]. split; [done|]. exists uri. by split; [left|].
  - left. by rewrite Hs, lookup_delete_ne.
Qed.
End sweeping.

(** ** Which runs and which addresses a plan names *)

Section planning.
Context (parse_utc : string -> res datetime) (policy : RuntimeRetentionPolicy).

Lemma split_runs_spec now runs split :
  split_runs parse_utc policy now runs = Ok split ->
  forall id, (In id split.1 <-> exists run, In (id, run) runs /\ _run_is_expired parse_utc policy run now = Ok true) /\
             (In id split.2 <-> exists run, In (id, run) runs /\ _run_is_expired parse_utc policy run now = Ok false).
Proof.
  revert split. induction runs as [|[i run] runs IH]; intros split; cbn [split_runs].
  - intros [= <-] id. split; (split; [by intros []|by intros (? & [] & _)]).
  - intros H. apply bind_Ok in H as (b & Hb & H). apply bind_Ok in H as (rest & Hr & [= <-]).
    intros id. destruct (IH _ Hr id) as [H1 H2].
    destruct b; cbn [fst snd In]; rewrite ?H1, ?H2; (split; split).
    + intros [<-|(r & ? & ?)]; [exists run|exists r]; auto.
    + intros (r & [[= -> ->]|Hin] & Hx); [by left|right; eauto].
    + intros (r & ? & ?). exists r. auto.
    + intros (r & [[= -> ->]|Hin] & Hx); [congruence|eauto].
    + intros (r & ? & ?). exists r. auto.
    + intros (r & [[= -> ->]|Hin] & Hx); [congruence|eauto].
    + intros [<-|(r & ? & ?)]; [exists run|exists r]; auto.
    + intros (r & [[= -> ->]|Hin] & Hx); [by left|right; eauto].
Qed.

Definition records_of (recordset : odict value) : odict value := mapping_of (dget "records" (VDict []) recordset).
Definition runs_of (recordset : odict value) : odict (odict value) :=
  _records_by_id (dget "runtime_runs" (VList []) (records_of recordset)).

Lemma plan_spec recordset now p : plan parse_utc policy recordset now = Ok p ->
  exists uris, _iter_runtime_artifact_uris (records_of recordset) = Ok uris /\
  (forall id, In id (expired_run_ids p) <->
     exists run, In (id, run) (runs_of recordset) /\ _run_is_expired parse_utc policy run now = Ok true) /\
  (forall uri, In uri (expired_artifact_uris p) <-> exists id, In (id, uri) uris /\ In id (expired_run_ids p)) /\
  (forall uri, In uri (retained_artifact_uris p) <-> exists id, In (id, uri) uris /\ ~ In id (expired_run_ids p)).
Proof.
  unfold plan, runs_of, records_of. destruct (dget "records" (VDict []) recordset) as [| | | | |records]; try done.
  cbn [mapping_of]. intros H. apply bind_Ok in H as (split & Hs & H). apply bind_Ok in H as (uris & Hu & [= <-]).
  exists uris. split; [done|]. cbn [expired_run_ids expired_artifact_uris retained_artifact_uris].
  assert (Hin : forall id, In id (sorted_strs split.1) <-> In id split.1) by (intros; apply py_sorted_In).
  split; [|split].
  - intros id. rewrite Hin. exact (proj1 (split_runs_spec _ _ _ Hs id)).
  - intros uri. rewrite sorted_set_In, elem_of_list_to_set, list_elem_of_In, in_map_iff. setoid_rewrite filter_In. setoid_rewrite str_in_In.
    setoid_rewrite Hin. split; [intros ([i u] & <- & ? & ?); eauto|intros (i & ? & ?); exists (i, uri); eauto].
  - intros uri. rewrite sorted_set_In, elem_of_list_to_set, list_elem_of_In, in_map_iff. setoid_rewrite filter_In. setoid_rewrite negb_true_iff.
    setoid_rewrite str_in_false. setoid_rewrite Hin.
    split; [intros ([i u] & <- & ? & ?); eauto|intros (i & ? & ?); exists (i, uri); eauto].
Qed.
End planning.

(** ** Canonical addresses

    The addresses the artifact store hands out: two of them that name one file
    are one address. *)

Definition canonical_uri (uri_prefix uri : string) : Prop :=
  exists p, p <> [] /\ Forall safe_component p /\ uri = uri_base uri_prefix +:+ join "/" p.

Lemma canonical_resolves uri_prefix root uri p : canonical_uri uri_prefix uri ->
  resolve uri_prefix root uri = Ok p -> uri = uri_base uri_prefix +:+ join "/" p.
Proof.
  intros (q & Hne & Hq & ->). unfold resolve, _relative_uri_path.
  destruct (join_safe q Hne Hq) as [Hparts _].
  intros H. apply bind_Ok in H as (relative & Hr & H).
  assert (relative = q) as ->.
  { repeat (apply bind_Ok in Hr as (_ & _ & Hr)). injection Hr as <-. by rewrite removeprefix_app. }
  rewrite resolve_onto_safe, strip_root_app in H by done. by injection H as <-.
Qed.

(** Outside the directory of its reports, a cleanup leaves the files of the sweep. *)
Lemma apply_sweeps unlink_error uri_prefix root clock policy artifacts p dry_run strict persist w f :
  head f <> Some "retention-reports" ->
  w_files (apply unlink_error uri_prefix root clock policy artifacts p dry_run strict persist w).2 !! f
  = (sweep_all unlink_error uri_prefix root dry_run strict p (w_files w)).1 !! f.
Proof.
  intros Hf. unfold apply, mbind at 1, eff_bind at 1. change (iso_now clock w) with (Ok (E := exn) (iso_timestamp (clock (w_ticks w))),
    mkWorld (w_store w) (w_files w) (S (w_ticks w))). generalize (iso_timestamp (clock (w_ticks w))) as created_at. intros created_at.
  unfold mbind, eff_bind, gets, modify. cbv beta iota.
  destruct artifacts as [a|]; [|done]. destruct persist; [|done]. unfold on_files, zoom, _write_report.
  set (r := mkCleanupReport _ _ _ _ _ _ _). set (w1 := set_files _ _). set (fs := w_files w1).
  assert (Hkeep : (write_json a ["retention-reports"; report_created_at r; "runtime-retention-cleanup-report"]
                    (report_dict r) true fs).2 !! f = fs !! f).
  { by apply (write_json_keeps _ _ "runtime-retention-cleanup-report"); [| |right; left|]. }
  destruct (write_json _ _ _ _ _) as [[uri|e] fs']; exact Hkeep.
Qed.

(** C23. Retention deletes artifacts of expired runs only. Applying a plan made
    for a recordset changes no file outside its own reports but by deleting it;
    that takes a confirmed run of the cleanup, and an address recorded for a run
    that has ended and whose retention has passed. When the recorded addresses
    are the store's own, no run that is not expired has recorded that file. *)
Theorem retention_deletes_expired_only parse_utc policy recordset now p unlink_error uri_prefix root clock days artifacts
    dry_run strict persist w f :
  plan parse_utc policy recordset now = Ok p ->
  head f <> Some "retention-reports" ->
  w_files (apply unlink_error uri_prefix root clock days artifacts p dry_run strict persist w).2 !! f <> w_files w !! f ->
  dry_run = false /\
  w_files (apply unlink_error uri_prefix root clock days artifacts p dry_run strict persist w).2 !! f = None /\
  exists uris, _iter_runtime_artifact_uris (records_of recordset) = Ok uris /\
    (exists id run uri, In (id, uri) uris /\ In (id, run) (runs_of recordset) /\
       _run_is_expired parse_utc policy run now = Ok true /\ resolve uri_prefix root uri = Ok f) /\
    (Forall (fun ru => canonical_uri uri_prefix ru.2) uris ->
     forall id uri, In (id, uri) uris -> resolve uri_prefix root uri = Ok f -> In id (expired_run_ids p)).
Proof.
  intros Hp Hf. destruct (plan_spec _ _ _ _ _ Hp) as (uris & Hu & Hruns & Hex & Hre).
  rewrite apply_sweeps by done. unfold sweep_all.
  destruct (sweep_list_changes unlink_error uri_prefix root dry_run strict (retained_artifact_uris p)
              (expired_artifact_uris p) (w_files w) no_sweep f) as [E|[E (Hd & uri & Hin & Hnot & Hres)]]; [done|].
  intros _. split; [done|]. split; [done|]. exists uris. split; [done|].
  apply Hex in Hin as (id & Hin & Hid). split.
  - apply Hruns in Hid as (run & Hr & Hexp). exists id, run, uri. done.
  - intros Hcan id' uri' Hin' Hres'.
    assert (uri' = uri) as ->.
    { rewrite Forall_forall in Hcan.
      rewrite (canonical_resolves uri_prefix root uri f), (canonical_resolves uri_prefix root uri' f); try done.
      - by apply (Hcan (id', uri')), list_elem_of_In.
      - by apply (Hcan (id, uri)), list_elem_of_In. }
    destruct (decide (id' ∈ expired_run_ids p)) as [|Hne]; rewrite list_elem_of_In in *; [done|].
    destruct Hnot. apply Hre. eauto.
Qed.

(** ** A cleanup *)

(** The one instant the examples need to read. *)
Definition demo_parse (text : string) : res datetime :=
  if String.eqb text "2026-01-01T00:00:00+00:00" then mret ((ymd2ord (2026, 1, 1) - 1) * us_per_day)
  else Raise (ValueError ("Invalid isoformat string: " +:+ text)).
Definition demo_now : datetime := (ymd2ord (2026, 3, 1) - 1) * us_per_day.
Definition demo_root : path := ["srv"; "runtime"].

Definition demo_run (id status : string) : value :=
  VDict [("id", VStr id); ("status", VStr status); ("completed_at", VStr "2026-01-01T00:00:00Z")].
Definition demo_event (run uri : string) : value := VDict [("run_id", VStr run); ("result_uri", VStr uri)].

(** Two months after both runs, only the failed one is still within its retention. *)
Definition demo_recordset (failed_uri : string) : odict value :=
  [("records", VDict
     [("runtime_runs", VList [demo_run "run-a" "succeeded"; demo_run "run-b" "failed"]);
      ("runtime_events", VList [demo_event "run-a" "hetzner://runtime/run-a//result.json"; demo_event "run-b" failed_uri])])].
Definition demo_plan (failed_uri : string) : RuntimeRetentionPlan :=
  mkRetentionPlan ["run-a"] ["hetzner://runtime/run-a//result.json"] ["run-b"] [failed_uri].
Definition demo_files : files :=
  <[["run-a"; "result.json"] := FJson (VDict [])]> (<[["run-b"; "result.json"] := FJson (VDict [])]> ∅).
Definition demo_cleanup (failed_uri : string) : rt RuntimeRetentionCleanupReport :=
  apply (fun _ => None) "hetzner://runtime" demo_root (fun _ => demo_now) default_retention_policy None
    (demo_plan failed_uri) false false true.
Definition demo_world : world := mkWorld empty_store demo_files 0.

Lemma demo_planned uri :
  In uri ["hetzner://runtime/run-b/result.json"; "hetzner://runtime/run-a/result.json"] ->
  plan demo_parse default_retention_policy (demo_recordset uri) demo_now = Ok (demo_plan uri).
Proof. by intros [<-|[<-|[]]]; vm_compute. Qed.

(** Addresses are compared as texts: ["run-a//result.json"] and ["run-a/result.json"]
    name one file, and the retained run's file goes with the expired run's address. *)
Example aliased_file_deleted :
  let uri := "hetzner://runtime/run-a/result.json" in
  plan demo_parse default_retention_policy (demo_recordset uri) demo_now = Ok (demo_plan uri) /\
  resolve "hetzner://runtime" demo_root uri = Ok ["run-a"; "result.json"] /\
  w_files (demo_cleanup uri demo_world).2 !! ["run-a"; "result.json"] = None.
Proof. vm_compute. by repeat split. Qed.

(** The address of an artifact is in the records, those of its chunks are not:
    deleting the artifact of an expired run leaves the chunks of its texts. *)
Example chunks_outlive_runs :
  let written := write_json example_store ["run-a"; "result"] (VDict [("Body", VStr "0123456789")]) false ∅ in
  let p := mkRetentionPlan ["run-a"] ["hetzner://runtime/run-a/result.json"] [] [] in
  let fs := (sweep_all (fun _ => None) "hetzner://runtime" demo_root false false p written.2).1 in
  fs !! ["run-a"; "result.json"] = None /\
  fs !! ["run-a"; "result"; "chunks"; "body"; "0000.txt"] = Some (FText "0123").
Proof. vm_compute. by split. Qed.

Lemma demo_files_after :
  let fs := w_files (demo_cleanup "hetzner://runtime/run-b/result.json" demo_world).2 in
  fs !! ["run-a"; "result.json"] = None /\ fs !! ["run-b"; "result.json"] = Some (FJson (VDict [])).
Proof. vm_compute. by split. Qed.

Lemma demo_deleted :
  w_files (demo_cleanup "hetzner://runtime/run-b/result.json" demo_world).2 !! ["run-a"; "result.json"]
  <> w_files demo_world !! ["run-a"; "result.json"].
Proof. by rewrite (proj1 demo_files_after). Qed.

Lemma retention_deletes_expired_only_witness :
  let w := (demo_cleanup "hetzner://runtime/run-b/result.json" demo_world).2 in
  w_files w !! ["run-a"; "result.json"] = None /\ w_files w !! ["run-b"; "result.json"] = Some (FJson (VDict [])) /\
  exists id run uri, _run_is_expired demo_parse default_retention_policy run demo_now = Ok true /\
    In (id, run) (runs_of (demo_recordset "hetzner://runtime/run-b/result.json")) /\
    resolve "hetzner://runtime" demo_root uri = Ok ["run-a"; "result.json"].
Proof.
  destruct (retention_deletes_expired_only demo_parse default_retention_policy
    (demo_recordset "hetzner://runtime/run-b/result.json") demo_now (demo_plan "hetzner://runtime/run-b/result.json")
    (fun _ => None) "hetzner://runtime" demo_root (fun _ => demo_now) default_retention_policy None false false true
    demo_world ["run-a"; "result.json"] (demo_planned _ (or_introl eq_refl)) ltac:(discriminate) demo_deleted)
    as (_ & H & uris & _ & (id & run & uri & _ & Hrun & He & Hr) & _).
  split; [exact H|]. split; [exact (proj2 demo_files_after)|]. exists id, run, uri. exact (conj He (conj Hrun Hr)).
Defined.
