(* ===== verification/EntryPoint.v ===== *)
(** * The entry point: from a task to a started run

    Models [runtime/entrypoint.py] and [profile_summary] of
    [runtime/storage_session.py]. Starting a run analyses the task, obtains a
    composition context, checks the tenant, composes the profile, seals it (the
    artifact and the digest of its canonical text) and records the run and its
    first events. [sha256] is the digest of [hashlib]. *)

From S2P Require Import Prelude PyStr PyValue Models Enforcement TaskAnalyzer ProfileComposer RuntimeStore Artifacts Json Clock FlightRecorder Quotas SkillHandlers Host.
Open Scope string_scope.
Open Scope list_scope.

Record RuntimeStartResult := mkStartResult {
  sr_run_id : string;
  analyzed_task : AnalyzedTask;
  composition_context_request : odict value;
  composition_context_response : odict value;
  sr_profile : odict value;
  profile_uri : string;
  profile_digest : string;
}.

(** The keyword arguments of [start]. *)
Record start_options := mkStartOptions {
  so_context_response : option (odict value);
  so_run_id : option string;
  generation_mode : string;
  so_generation : Z;
  so_parent : option string;
  so_reason : option string;
}.
Definition initial_start (context_response : option (odict value)) (run_id : option string) : start_options :=
  mkStartOptions context_response run_id "initial" 1 None None.

Definition _assert_profile_generation_request (o : start_options) : res unit :=
  raise_if (so_generation o <? 1)%Z (RuntimeEntryPointError "profile_generation must be greater than zero.") ;;
  if String.eqb (generation_mode o) "initial" then
    raise_if (negb (so_generation o =? 1)%Z || bool_decide (is_Some (so_parent o))
              || negb (String.eqb (or_str (so_reason o) "") ""))
      (RuntimeEntryPointError "Initial composition cannot include recomposition traceability.")
  else
    match so_parent o, so_reason o with
    | Some _, Some reason =>
        require_choice reason RECOMPOSITION_REASONS "recomposition_reason" ;;
        raise_if (so_generation o <=? 1)%Z
          (RuntimeEntryPointError "Recomposition requires profile_generation greater than 1.")
    | _, _ => Raise (RuntimeEntryPointError "Recomposition requires parent_profile_id and recomposition_reason.")
    end.

Definition _default_run_id (task_id : string) (profile_generation : Z) : option string :=
  if (profile_generation <=? 1)%Z then None
  else Some (slug_id (task_id +:+ "-generation-" +:+ zstr profile_generation) (Some "run")).

(** [a or b] for optional texts *)
Definition or_opt (a b : option string) : option string :=
  match a with Some s => if String.eqb s "" then b else a | None => b end.
Definition opt_of (v : value) : option string := match v with VStr s => Some s | _ => None end.

Definition profile_summary (profile : odict value) : res (odict value) :=
  id ← ditem "id" profile;
  version ← ditem "profile_version" profile;
  limits ← ditem "limits" profile;
  observability ← ditem "observability" profile;
  mret [("profile_id", id); ("profile_version", version);
        ("selected_modules", strs (selected_modules profile)); ("limits", limits);
        ("observability", observability)].

Section entrypoint.
Context {X : Type} `{!Services X}.
Context (artifacts : JsonArtifactStore) (clock : nat -> datetime) (sha256 : string -> string).
Context (environment : string).

Definition _profile_sha256 (profile : odict value) : string := sha256 (canonical (VDict profile)).

Definition _seal_profile (profile : odict value) : hosted X (string * string) :=
  let profile_sha256 := _profile_sha256 profile in
  id ← lift (ditem "id" profile);
  uri ← host_world (on_files (write_json artifacts ["profiles"; py_str id; profile_sha256] (VDict profile) false));
  mret (uri, profile_sha256).

Definition _fetch_composition_context (request : odict value) : hosted X (odict value) :=
  match composition_context with
  | None => throw (RuntimeEntryPointError
      ("RuntimeEntryPoint requires either a ControlPlaneClient or an explicit "
       +:+ "composition_context_response."))
  | Some client => host_ext (client request)
  end.

Definition entry_event (run_id event_type : string) (planned result : value) (redact : bool) : hosted X unit :=
  host_world (record_event artifacts clock run_id event_type "composer"
    (mkEventArgs None planned VNone result None None redact)) ;;
  mret tt.

(** The events of a started run, in order, and the composition checkpoint. *)
Definition record_start (run_id : string) (t : AnalyzedTask) (context_request context_response profile : odict value)
    (uri sha : string) (redact : bool) : hosted X unit :=
  entry_event run_id "task_analyzed" (VDict [("task_id", VStr (task_id t))])
    (VDict [("task_type", VStr (task_type t)); ("risk_level", VStr (risk_level t));
            ("domains", strs (domains t)); ("required_inputs", strs (required_inputs t));
            ("available_inputs", strs (available_inputs t));
            ("missing_information", strs (missing_information t))]) redact ;;
  entry_event run_id "candidates_discovered" (VDict context_request) (VDict context_response) redact ;;
  entry_event run_id "profile_emitted" VNone (VDict [("profile", VDict profile)]) redact ;;
  id ← lift (ditem "id" profile);
  validators ← lift (ditem "validators" profile);
  versions ← lift (ditem "module_versions" profile);
  entry_event run_id "profile_validated" VNone
    (VDict [("profile_id", id); ("validators", validators); ("module_versions", versions)]) redact ;;
  summary ← lift (profile_summary profile);
  host_world (checkpoint artifacts clock run_id "composition" (VDict summary) None 0 redact) ;;
  version ← lift (ditem "profile_version" profile);
  entry_event run_id "runtime_started" VNone
    (VDict [("run_id", VStr run_id); ("profile_id", id); ("profile_version", version);
            ("profile_artifact_uri", VStr uri); ("profile_sha256", VStr sha)]) redact.

Definition start (task : odict value) (o : start_options) : hosted X RuntimeStartResult :=
  lift (_assert_profile_generation_request o) ;;
  t ← lift (analyze task);
  let context_request := to_composition_context_request t environment (generation_mode o) (so_parent o) in
  context_response ← (match so_context_response o with
                      | Some (kv :: d) => mret (kv :: d)
                      | _ => _fetch_composition_context context_request
                      end);
  lift (assert_runtime_tenant_is_startable task context_response) ;;
  profile ← lift (compose t context_response (so_generation o) (so_parent o) (so_reason o));
  sealed ← _seal_profile profile;
  let redact := profile_redacts_sensitive_data profile in
  generation ← lift (v ← ditem "profile_generation" profile; py_int v);
  run ← host_world (start_run artifacts clock (task_id t) profile
    (or_opt (so_run_id o) (_default_run_id (task_id t) (so_generation o))) "running"
    (mkRunOptions (Some sealed.1) (Some sealed.2) (Some generation)
       (opt_of (dget "parent_profile_id" VNone profile))));
  run_id ← lift (v ← ditem "id" run; mret (py_str v));
  record_start run_id t context_request context_response profile sealed.1 sealed.2 redact ;;
  mret (mkStartResult run_id t context_request context_response profile sealed.1 sealed.2).

Definition continue_recomposition (task : odict value) (request : RecompositionRequest + odict value)
    (context_response : option (odict value)) (run_id : option string) : hosted X RuntimeStartResult :=
  r ← lift (match request with inl r => Ok r | inr d => from_mapping d end);
  let next_run_id := slug_id (source_run_id r +:+ "-generation-" +:+ zstr (requested_profile_generation r))
                       (Some "run") in
  start task (mkStartOptions context_response (or_opt run_id (Some next_run_id)) "recomposition"
    (requested_profile_generation r) (Some (rr_parent_profile_id r)) (Some (recomposition_reason r))).
End entrypoint.
