(* ===== verification/Loop.v ===== *)
(** * The runtime loop

    Models [runtime/loop.py]. A run checks the profile's seal and authority,
    then goes through four steps (context, planner, executor, validator), each
    under a cancellation check and the duration budget, each recorded as it
    starts and ends; it ends completed, cancelled, failed, or failed with a
    request for a recomposed profile, and the outer loop then starts the next
    attempt under that profile. *)

From S2P Require Import Prelude PyStr PyValue Models Enforcement TaskAnalyzer ProfileComposer RuntimeStore Artifacts Json Clock FlightRecorder SkillHandlers Validation Host Context Failures ToolGateway EntryPoint.
Open Scope string_scope.
Open Scope list_scope.

Record RuntimeLoopResult := mkLoopResult {
  lr_run_id : string;
  lr_status : string;
  lr_stop_reason : string;
  lr_response : odict value;
  attempt_run_ids : list string;
  recomposed_profile_ids : list value;
}.

(** [RuntimeLoopError] is the loop's own: nothing it calls raises one. What the
    loop raises is therefore a type of its own, over the exceptions of the rest. *)
Inductive loop_exn : Type :=
| RuntimeLoopError (msg : string) (stop_reason : option string)
    (recomposition_request : option RecompositionRequest)
| Raised (e : exn).

(** An operation below the loop, its exceptions let through. *)
Definition escalate {S A} (m : eff S exn A) : eff S loop_exn A :=
  fun s => let '(r, s') := m s in
           (match r with Ok x => Ok x | Raise e => Raise (Raised e) end, s').

(** ** What an error says of itself *)

(** [getattr(error, "stop_reason", default)] *)
Definition stop_reason_of (error : exn) : option string :=
  match error with
  | ProfileEnforcementError _ r _ | ToolDeniedError _ r | ToolExecutionError _ _ r _
  | RuntimeQuotaError _ r => Some r
  | RuntimeValidationError _ => Some "validator_failed"
  | RuntimeCancellationError _ => Some "cancelled"
  | _ => None
  end.

(** [getattr(error, "code", None)] when it is a text *)
Definition code_of (error : exn) : option string :=
  match error with
  | ProfileEnforcementError _ _ c | ToolExecutionError _ c _ _ => Some c
  | _ => None
  end.

Definition is_validation_error (error : exn) : bool :=
  match error with RuntimeValidationError _ => true | _ => false end.

Definition _failure_policy_field (error : exn) : option string :=
  let stop_reason := or_str (stop_reason_of error) "" in
  if is_validation_error error then Some "on_validator_failure"
  else if String.eqb stop_reason "policy_denied" then Some "on_policy_denial"
  else if startswith "max_" stop_reason then Some "on_budget_exhausted"
  else None.

Definition _recomposition_reason (error : exn) : option string :=
  let stop_reason := or_str (stop_reason_of error) "" in
  if is_validation_error error then Some "validator_failure"
  else if String.eqb stop_reason "policy_denied" then Some "missing_capability"
  else if startswith "max_" stop_reason then Some "budget_exhausted"
  else None.

Definition _profile_allows_recomposition (profile : odict value) (error : exn) : bool :=
  match dget "failure_policy" (VDict []) profile with
  | VDict failure_policy =>
      match _failure_policy_field error with
      | Some field => py_eq (dget field VNone failure_policy) (VStr "recompose_once")
      | None => false
      end
  | _ => false
  end.

(** The four classes [run] catches as a failure of the run. *)
Definition is_runtime_failure (error : exn) : bool :=
  match error with
  | ProfileEnforcementError _ _ _ | RuntimeValidationError _ | ToolDeniedError _ _
  | ToolExecutionError _ _ _ _ => true
  | _ => false
  end.

Section loop.
Context {X : Type} `{!Services X}.
Context (artifacts : JsonArtifactStore) (clock : nat -> datetime) (json_loads : string -> res value)
        (sha256 : string -> string).
Context (registry : SkillHandlerRegistry).
(** [cancellation_checker], which looks at the world and may raise *)
Context (cancellation_checker : option (string -> world -> res bool)).

Section one_run.
Context (run_id task_id : string) (profile : odict value).
Definition redacts : bool := profile_redacts_sensitive_data profile.

Definition _raise_if_cancelled : run X unit :=
  stored ← on_world (on_store (get_runtime_run run_id));
  lift (raise_if (match stored with
                  | Some r => py_eq (dget "status" VNone r) (VStr "cancelled")
                  | None => false
                  end) (RuntimeCancellationError "Runtime run was cancelled.")) ;;
  match cancellation_checker with
  | None => mret tt
  | Some checker =>
      cancelled ← on_world (fun w => (checker run_id w, w));
      lift (raise_if cancelled (RuntimeCancellationError "Runtime run was cancelled."))
  end.

Definition event (step_id : option string) (event_type actor : string) (planned execution result : value)
    (stop : option string) : run X unit :=
  on_world (record_event artifacts clock run_id event_type actor
    (mkEventArgs step_id planned execution result stop None redacts)) ;;
  mret tt.

(** Entering a step: the cancellation check, the duration budget, the step record. *)
Definition begin_step (index : Z) (kind : string) : run X string :=
  _raise_if_cancelled ;;
  timed check_duration ;;
  step ← on_world (start_step clock run_id index kind None None);
  lift (id ← ditem "id" step; mret (py_str id)).

(** Leaving a step that succeeded: checkpoint, event, step record. *)
Definition end_step (step_id kind actor : string) (outcome : value) : run X unit :=
  on_world (checkpoint artifacts clock run_id kind outcome (Some step_id) 0 redacts) ;;
  event (Some step_id) "step_completed" actor VNone VNone outcome (Some "completed") ;;
  on_world (complete_step clock step_id "succeeded" (Some "completed") 0) ;;
  mret tt.

(** Leaving a step that failed: event and step record only. *)
Definition fail_step (step_id actor : string) (outcome : value) (stop_reason : string) : run X unit :=
  event (Some step_id) "step_completed" actor VNone VNone outcome (Some stop_reason) ;;
  on_world (complete_step clock step_id "failed" (Some stop_reason) 0) ;;
  mret tt.

Definition _context_step : run X (odict value) :=
  step_id ← begin_step 0 "context";
  event (Some step_id) "step_started" "context_manager" (VDict [("phase", VStr "context")]) VNone VNone None ;;
  objective ← lift (ditem "objective" profile);
  context ← load "0.1.0" 5 profile (py_str objective);
  end_step step_id "context" "context_manager" (VDict context) ;;
  mret context.

Definition _planner_step (context : odict value) : run X (odict value) :=
  step_id ← begin_step 1 "planner";
  event (Some step_id) "step_started" "planner"
    (VDict [("phase", VStr "planner"); ("context_keys", strs (sorted_strs (od_keys context)))]) VNone VNone None ;;
  plan ← on_enforcer (build_runtime_plan registry profile);
  end_step step_id "planner" "planner" (VDict plan) ;;
  mret plan.

(** The executor's loop over the actions, with the results gathered so far. *)
Fixpoint run_actions (g : gateway) (results : list value) (actions : list value) : run X (list value) :=
  match actions with
  | [] => mret results
  | action :: actions' =>
      _raise_if_cancelled ;;
      match action with
      | VDict d =>
          tool ← lift (ditem "tool" d);
          let payload := match dget "payload" (VDict []) d with VDict p => p | _ => [] end in
          result ← invoke artifacts clock json_loads g (py_str tool) payload;
          run_actions g (results ++
            [VDict [("id", VStr (tr_id result)); ("tool_name", VStr (tr_tool_name result));
                    ("status", VStr (tr_status result)); ("output_uri", VStr (tr_output_uri result))]]) actions'
      | _ => run_actions g results actions'
      end
  end.

Definition new_gateway (step_id : string) : run X gateway :=
  modify (fun s => mkRunState (r_world s) (r_ext s) (r_enforcer s) 0) ;;
  mret (mkGateway profile run_id step_id redacts).

Definition _executor_step (plan : odict value) : run X (odict value) :=
  step_id ← begin_step 2 "executor";
  event (Some step_id) "step_started" "executor" (VDict plan) VNone VNone None ;;
  g ← new_gateway step_id;
  tool_results ← catch
    (actions ← lift (py_iter (dget "actions" (VList []) plan)); run_actions g [] actions)
    (fun error =>
       match error with
       | ToolDeniedError _ stop_reason | ToolExecutionError _ _ stop_reason _ =>
           fail_step step_id "executor"
             (VDict [("status", VStr "failed"); ("error", VStr (exn_message error))]) stop_reason ;;
           throw error
       | _ => throw error
       end);
  let execution := [("strategy", dget "strategy" (VStr "generic") plan); ("tool_results", VList tool_results)] in
  end_step step_id "executor" "executor" (VDict execution) ;;
  mret execution.

Definition record_outcome (step_id : string) (o : RuntimeValidationOutcome) : run X unit :=
  findings_uri ← on_world (on_files (write_json artifacts
    ["traces"; run_id; "validation"; validator_id o] (VDict (findings o)) redacts));
  let validation_id := slug_id (run_id +:+ "-" +:+ validator_id o) (Some "validation") in
  created_at ← on_world (iso_now clock);
  on_world (on_store (insert_validation_result
    [("id", VStr validation_id); ("run_id", VStr run_id); ("step_id", VStr step_id);
     ("validator_id", VStr (validator_id o)); ("status", VStr (outcome_status o));
     ("findings_uri", VStr findings_uri); ("created_at", VStr created_at)])) ;;
  event (Some step_id) "validator_executed" "validator" VNone
    (VDict [("validation_result_id", VStr validation_id)])
    (VDict [("status", VStr (outcome_status o)); ("findings_uri", VStr findings_uri)])
    (if String.eqb (outcome_status o) "failed" then Some "validator_failed" else None).

Fixpoint record_outcomes (step_id : string) (outcomes : list RuntimeValidationOutcome) : run X unit :=
  match outcomes with
  | [] => mret tt
  | o :: os => record_outcome step_id o ;; record_outcomes step_id os
  end.

Definition _validator_step (context plan execution : odict value) : run X (odict value) :=
  step_id ← begin_step 3 "validator";
  validators ← lift (ditem "validators" profile);
  event (Some step_id) "step_started" "validator"
    (VDict [("phase", VStr "validator"); ("validators", validators)]) VNone VNone None ;;
  response ← lift (runtime_response run_id task_id profile context plan execution);
  outcomes ← lift (framework_validate (framework_validators []) profile execution response);
  record_outcomes step_id outcomes ;;
  catch (lift (assert_validation_passed outcomes))
    (fun error =>
       if is_validation_error error then
         fail_step step_id "validator" (VDict [("status", VStr "failed")]) "validator_failed" ;;
         throw error
       else throw error) ;;
  end_step step_id "validator" "validator" (VDict response) ;;
  mret response.

(** ** Ending a run *)

Definition finish_run (event_type actor : string) (result : value) (status stop_reason : string) : run X unit :=
  event None event_type actor VNone VNone result (Some stop_reason) ;;
  tokens ← gets (fun s => tokens_used (r_enforcer s));
  on_world (complete_run clock run_id status stop_reason tokens) ;;
  mret tt.

Definition _cancel_run : run X (odict value) :=
  let response := [("run_id", VStr run_id); ("status", VStr "cancelled"); ("stop_reason", VStr "cancelled")] in
  finish_run "runtime_cancelled" "runtime" (VDict response) "cancelled" "cancelled" ;;
  mret response.

Definition _fail_run (error : exn) : run X string :=
  let stop_reason := match stop_reason_of error with Some r => r | None => "tool_error" end in
  e ← gets r_enforcer;
  classification ← apply_optional_llm_judge
    (classify_runtime_failure error stop_reason (code_of error) (tool_calls e) (tokens_used e))
    [("run_id", VStr run_id); ("status", VStr "failed"); ("stop_reason", VStr stop_reason);
     ("error_type", VStr (exn_name error))];
  finish_run "runtime_failed" (if String.eqb stop_reason "tool_error" then "executor" else "policy_engine")
    (VDict [("error", VStr (exn_message error)); ("error_type", VStr (exn_name error));
            ("error_classification", VDict (as_dict classification))]) "failed" stop_reason ;;
  mret stop_reason.

(** The id of a composed profile is a text, which [str] leaves as it is. *)
Definition request_recomposition (reason : string) : run X RecompositionRequest :=
  id ← lift (ditem "id" profile);
  generation ← lift (v ← ditem "profile_generation" profile; py_int v);
  let request := mkRecompositionRequest run_id task_id (py_str id) (generation + 1)%Z reason in
  finish_run "recomposition_requested" "composer" (VDict (as_event_result request)) "failed" "needs_recomposition" ;;
  mret request.

Definition _handle_runtime_error (error : exn) : run X (string * option RecompositionRequest) :=
  match _recomposition_reason error with
  | Some reason =>
      if _profile_allows_recomposition profile error then
        granted ← try_ (on_enforcer record_recomposition_request);
        match granted with
        | Raise (ProfileEnforcementError _ _ _ as budget_error) =>
            stop ← _fail_run budget_error; mret (stop, None)
        | Raise other => throw other
        | Ok _ => request ← request_recomposition reason; mret ("needs_recomposition", Some request)
        end
      else stop ← _fail_run error; mret (stop, None)
  | None => stop ← _fail_run error; mret (stop, None)
  end.

(** ** One run *)

Definition run_steps : run X (odict value * odict value * odict value) :=
  on_enforcer validate_profile_for_runtime ;;
  _raise_if_cancelled ;;
  context ← _context_step;
  _raise_if_cancelled ;;
  plan ← _planner_step context;
  _raise_if_cancelled ;;
  execution ← _executor_step plan;
  _raise_if_cancelled ;;
  response ← _validator_step context plan execution;
  mret (plan, execution, response).

Definition profile_limits : res (odict value) :=
  match dget "limits" (VDict []) profile with
  | VDict limits => Ok limits
  | _ => Raise (AttributeError "limits has no attribute 'get'")
  end.

Definition complete (plan execution response : odict value) : run X RuntimeLoopResult :=
  e ← gets r_enforcer;
  limits ← lift profile_limits;
  classification ← lift (classify_runtime_success plan execution (tool_calls e) (tokens_used e) limits);
  classification ← apply_optional_llm_judge classification
    [("run_id", VStr run_id); ("task_type", dget "task_type" VNone profile); ("status", VStr "succeeded")];
  let response := od_set "error_classification" (VDict (as_dict classification)) response in
  finish_run "runtime_completed" "validator" (VDict response) "succeeded" "completed" ;;
  mret (mkLoopResult run_id "succeeded" "completed" response [run_id] []).

Definition fail_closed (error : exn) : eff (run_state X) loop_exn RuntimeLoopResult :=
  handled ← escalate (_handle_runtime_error error);
  throw (RuntimeLoopError (exn_message error) (Some handled.1) handled.2).

Definition run_body : eff (run_state X) loop_exn RuntimeLoopResult :=
  outcome ← escalate (try_ run_steps);
  match outcome with
  | Ok (plan, execution, response) => escalate (complete plan execution response)
  | Raise error =>
      match error with
      | RuntimeCancellationError _ =>
          response ← escalate _cancel_run;
          mret (mkLoopResult run_id "cancelled" "cancelled" response [run_id] [])
      | _ =>
          if is_runtime_failure error then fail_closed error else throw (Raised error)
      end
  end.
End one_run.

(** [run] and what calls it, on the shared state *)
Abbreviation looped A := (eff (host X) loop_exn A).

Definition _assert_profile_seal (start_result : RuntimeStartResult) : looped unit :=
  artifact_profile ← escalate (host_world (on_files (read_json artifacts json_loads (profile_uri start_result))));
  match artifact_profile with
  | VDict d =>
      lift (raise_if (negb (String.eqb (_profile_sha256 sha256 d) (profile_digest start_result)))
        (RuntimeLoopError "Runtime profile artifact seal does not match the recorded SHA-256."
           (Some "profile_integrity_failure") None))
  | _ => throw (RuntimeLoopError "Runtime profile artifact is not a JSON object."
                  (Some "profile_integrity_failure") None)
  end.

Definition loop_run (start_result : RuntimeStartResult) : looped RuntimeLoopResult :=
  _assert_profile_seal start_result ;;
  now ← escalate (host_ext read_monotonic);
  enforcer ← escalate (lift (Enforcement.init (sr_profile start_result) now));
  with_enforcer enforcer
    (run_body (sr_run_id start_result) (task_id (analyzed_task start_result)) (sr_profile start_result)).

(** ** Attempts under recomposed profiles *)

Context (environment : string).

(** [None] when the fuel runs out, which [recomposition_terminates] excludes. *)
Fixpoint recomposition_loop (fuel : nat) (task : odict value) (context_response : option (odict value))
    (runs : list string) (profiles : list value) (current : RuntimeStartResult)
    : looped (option RuntimeLoopResult) :=
  match fuel with
  | O => mret None
  | S fuel' =>
      let runs := runs ++ [sr_run_id current] in
      outcome ← try_ (loop_run current);
      match outcome with
      | Raise (RuntimeLoopError _ _ (Some request)) =>
          next ← escalate
            (continue_recomposition artifacts clock sha256 environment task (inl request) context_response None);
          id ← escalate (lift (ditem "id" (sr_profile next)));
          recomposition_loop fuel' task context_response runs (profiles ++ [id]) next
      | Raise error => throw error
      | Ok result =>
          mret (Some (mkLoopResult (lr_run_id result) (lr_status result) (lr_stop_reason result)
            (od_set "recomposed_profile_ids" (VList profiles)
               (od_set "attempt_run_ids" (strs runs) (lr_response result))) runs profiles))
      end
  end.

Definition run_with_recomposition (fuel : nat) (start_result : RuntimeStartResult) (task : odict value)
    (context_response : option (odict value)) : looped (option RuntimeLoopResult) :=
  recomposition_loop fuel task context_response [] [] start_result.
End loop.
