(* ===== verification/LoopCorrect.v ===== *)
(** * What the runtime loop guarantees

    The theorems about [runtime/loop.py], over any services. One relation,
    [run_step], says what every part of a run may do to the run's state: the
    enforcer's counters stay within their budgets, tool adapters run no more
    often than calls were charged, the trace stays in order and the queue's
    tables are left alone. *)

From S2P Require Import Prelude PyStr PyValue Models Enforcement TaskAnalyzer ProfileComposer RuntimeStore Artifacts Json Clock FlightRecorder SkillHandlers Validation Host Context Failures ToolGateway EntryPoint Loop.
Open Scope string_scope.
Open Scope list_scope.

(** ** The recorder and the files *)

Section recorder_traces.
Context (a : JsonArtifactStore) (clock : nat -> datetime).

Lemma start_step_trace run i k b key : preserves log_step (start_step clock run i k b key).
Proof. exact (do_call_log a clock (StartStep run i k b key)). Qed.
Lemma complete_step_trace i st sr n : preserves log_step (complete_step clock i st sr n).
Proof. exact (do_call_log a clock (CompleteStep i st sr n)). Qed.
Lemma complete_run_trace r st sr n : preserves log_step (complete_run clock r st sr n).
Proof. exact (do_call_log a clock (CompleteRun r st sr n)). Qed.
Lemma checkpoint_trace r ph v i n red : preserves log_step (checkpoint a clock r ph v i n red).
Proof. exact (do_call_log a clock (Checkpoint r ph v i n red)). Qed.
End recorder_traces.

(** The logs other than the event log. *)
Lemma append_record_events t r : t <> Events -> preserves same_events (append_record t r).
Proof.
  intros Ht. unfold append_record. apply (preserves_bind _); [|intros ?; auto with preserves typeclass_instances].
  apply (preserves_modify _). intros s. by destruct s, t.
Qed.
Lemma insert_tool_invocation_trace r : preserves log_step (on_store (insert_tool_invocation r)).
Proof. apply on_store_log; [by apply append_record_events|apply append_record_queue]. Qed.
Lemma insert_validation_result_trace r : preserves log_step (on_store (insert_validation_result r)).
Proof. apply on_store_log; [by apply append_record_events|apply append_record_queue]. Qed.
Lemma read_world_trace {A} (f : world -> res A) : preserves log_step (fun w => (f w, w)).
Proof. intros w. cbn. reflexivity. Qed.
#[export] Hint Resolve start_step_trace complete_step_trace complete_run_trace checkpoint_trace
  insert_tool_invocation_trace insert_validation_result_trace read_world_trace : preserves.

Lemma preserves_escalate {S A} (R : S -> S -> Prop) (m : eff S exn A) :
  preserves R m -> preserves R (escalate m).
Proof. intros H s. specialize (H s). unfold escalate. by destruct (m s). Qed.

(** ** A tool call, which only the world's trace sees step by step *)

Section tool_traces.
Context {X : Type} `{!Services X}.
Context (artifacts : JsonArtifactStore) (clock : nat -> datetime) (json_loads : string -> res value).
Context (g : gateway).

Lemma on_world_traced {A} (m : rt A) : preserves log_step m -> preserves (traced (X := X)) (on_world m).
Proof. intros Hm. by apply (preserves_zoom _ log_step). Qed.
Lemma on_ext_traced {A} (m : eff X exn A) : preserves (traced (X := X)) (on_ext m).
Proof. apply (preserves_zoom _ (fun _ _ => True)); [intros s x _|done]. unfold traced. cbn. reflexivity. Qed.
Lemma on_enforcer_traced {A} (m : enf A) : preserves (traced (X := X)) (on_enforcer m).
Proof. apply (preserves_zoom _ (fun _ _ => True)); [intros s x _|done]. unfold traced. cbn. reflexivity. Qed.
Lemma modify_traced (f : run_state X -> run_state X) :
  (forall s, r_world (f s) = r_world s) -> preserves (traced (X := X)) (modify (E := exn) f).
Proof. intros Hf. apply (preserves_modify _). intros s. unfold traced. rewrite Hf. reflexivity. Qed.
Hint Resolve on_world_traced on_ext_traced on_enforcer_traced modify_traced : preserves.

Lemma gateway_event_traced ty actor p e r stop :
  preserves (traced (X := X)) (gateway_event artifacts clock g ty actor p e r stop).
Proof. unfold gateway_event. preserves_tac. Qed.
Lemma write_artifact_traced parts v : preserves (traced (X := X)) (write_artifact artifacts g parts v).
Proof. unfold write_artifact. preserves_tac. Qed.
Hint Resolve gateway_event_traced write_artifact_traced : preserves.

Lemma admit_traced tool payload : preserves (traced (X := X)) (check_admission artifacts clock g tool payload).
Proof. unfold check_admission, timed, _record_denied_access. preserves_tac. Qed.
Lemma read_hook_traced uri label : preserves (traced (X := X)) (_read_hook_artifact artifacts json_loads uri label).
Proof. unfold _read_hook_artifact. preserves_tac. Qed.
Hint Resolve admit_traced read_hook_traced : preserves.
Lemma hook_traced tool status i o inv completed :
  preserves (traced (X := X)) (_evaluate_runtime_after_tool_hook artifacts clock json_loads g tool status i o inv completed).
Proof. unfold _evaluate_runtime_after_tool_hook. preserves_tac. Qed.
Hint Resolve hook_traced : preserves.
Lemma run_tool_traced adapter tool payload :
  preserves (traced (X := X)) (run_tool artifacts clock json_loads g adapter tool payload).
Proof. unfold run_tool, next_invocation, call_adapter. preserves_tac. Qed.
End tool_traces.

(** A measure of the services' state that only tool adapters raise, each call
    by one at most. *)
Record meter `{!Services X} (cost : X -> Z) : Prop := {
  meter_clock : forall x, cost (monotonic x).2 = cost x;
  meter_retrieval : forall client d x, retrieval_context = Some client -> cost (client d x).2 = cost x;
  meter_composition : forall client d x, composition_context = Some client -> cost (client d x).2 = cost x;
  meter_judge : forall judge d x, error_judge = Some judge -> cost (judge d x).2 = cost x;
  meter_adapter : forall name adapter d x, od_get name tool_adapters = Some adapter ->
    (cost x <= cost (adapter d x).2 <= cost x + 1)%Z;
}.
Arguments meter X {_} cost.

Section run_step.
Context {X : Type} `{!Services X}.
Context (cost : X -> Z) (Hmeter : meter X cost).

Record run_step (s s' : run_state X) : Prop := {
  rs_budget : budget_step (r_enforcer s) (r_enforcer s');
  rs_cost : (cost (r_ext s') - cost (r_ext s) <= tool_calls (r_enforcer s') - tool_calls (r_enforcer s))%Z;
  rs_log : log_step (r_world s) (r_world s');
}.

#[export] Instance run_step_preorder : PreOrder run_step.
Proof.
  split; [intros s; constructor; [reflexivity|lia|reflexivity]|].
  intros a b c [] []. constructor; [by etrans|lia|by etrans].
Qed.

Lemma budget_step_calls e e' : budget_step e e' -> (tool_calls e <= tool_calls e')%Z.
Proof. intros (_ & _ & H). apply (H CToolCalls). Qed.

(** ** The primitive steps *)

Lemma on_world_step {A} (m : rt A) : preserves log_step m -> preserves run_step (on_world m).
Proof.
  intros Hm. apply (preserves_zoom _ log_step); [|done]. intros s w H. constructor; cbn; [reflexivity|lia|done].
Qed.

Lemma on_enforcer_step {A} (m : enf A) : respects_budget m -> preserves run_step (on_enforcer m).
Proof.
  intros Hm. apply (preserves_zoom _ budget_step).
  - intros s e H. pose proof (budget_step_calls _ _ H). constructor; cbn; [done|lia|reflexivity].
  - intros e. destruct (m e) eqn:E. by eapply Hm.
Qed.

Lemma on_ext_step {A} (m : eff X exn A) : (forall x, cost (m x).2 = cost x) -> preserves run_step (on_ext m).
Proof.
  intros Hm. apply (preserves_zoom _ (fun x x' => cost x' = cost x)); [|intros x; apply Hm].
  intros s x H. constructor; cbn; [reflexivity|lia|reflexivity].
Qed.

Lemma read_monotonic_cost x : cost (read_monotonic x).2 = cost x.
Proof. unfold read_monotonic. rewrite <- (meter_clock _ Hmeter x). by destruct (monotonic x). Qed.

Lemma timed_step {A} (m : Z -> enf A) : (forall now, respects_budget (m now)) -> preserves run_step (timed m).
Proof.
  intros Hm. apply (preserves_bind _); [apply on_ext_step, read_monotonic_cost|intros now].
  by apply on_enforcer_step.
Qed.

Lemma restart_gateway_step :
  preserves run_step (modify (E := exn) (fun s : run_state X => mkRunState (r_world s) (r_ext s) (r_enforcer s) 0)).
Proof. apply (preserves_modify _). intros s. constructor; cbn; [reflexivity|lia|reflexivity]. Qed.


Hint Resolve on_world_step on_enforcer_step timed_step restart_gateway_step : preserves.

(** ** A tool call *)

Lemma decision_step tool (s : run_state X) : budget_step (r_enforcer s) (decision tool s).2.
Proof. unfold decision. by eapply respects_record_tool_invocation, surjective_pairing. Qed.

Lemma invoke_step artifacts clock json_loads g tool payload :
  preserves run_step (invoke artifacts clock json_loads g tool payload).
Proof.
  intros s. pose proof (decision_step tool s) as Hb.
  assert (Htr : traced s (invoke artifacts clock json_loads g tool payload s).2).
  { unfold invoke. apply (preserves_bind _); [apply admit_traced|intros ?].
    destruct (od_get tool tool_adapters); [apply run_tool_traced|auto with preserves typeclass_instances]. }
  revert Htr. unfold invoke.
  destruct (admit_cases artifacts clock g tool payload s) as (He & Hx & _ & Hd). cbv zeta in *.
  destruct (check_admission artifacts clock g tool payload s) as [a s1] eqn:Ea. cbn [fst snd] in *.
  pose proof (meter_clock _ Hmeter (r_ext s)) as Hc.
  destruct (decision tool s) as [[[]|ex] e] eqn:Ed; cbn [fst snd] in *.
  - destruct Hd as [-> _]. rewrite (eff_step _ _ _ _ _ Ea). apply decision_Ok in Ed as (_ & Hcalls & _).
    destruct (od_get tool tool_adapters) as [adapter|] eqn:Ead; intros Htr.
    + destruct (run_tool_cases artifacts clock json_loads g adapter tool payload s1) as (H1 & _ & H3 & _).
      pose proof (meter_adapter _ Hmeter _ _ payload (r_ext s1) Ead) as Hcost.
      constructor; [by rewrite H1, He| |exact Htr]. rewrite H1, He.
      rewrite Hx in *. destruct H3 as [-> | ->]; lia.
    + constructor; cbn [snd throw] in *; [by rewrite He|rewrite He, Hx; lia|exact Htr].
  - destruct Hd as [e' ->]. rewrite (eff_stop _ _ _ _ _ Ea). intros Htr.
    pose proof (budget_step_calls _ _ Hb). constructor; cbn [snd] in *; [by rewrite He|rewrite He, Hx; lia|done].
Qed.
Hint Resolve invoke_step : preserves.

(** ** The steps of a run *)

Lemma pure_enf_step {A} (f : enforcer -> res A) : preserves run_step (on_enforcer (fun e => (f e, e))).
Proof. apply on_enforcer_step, respects_pure. Qed.
Hint Resolve pure_enf_step : preserves.

Lemma load_step cv k p q : preserves run_step (load cv k p q).
Proof.
  unfold load, require_knowledge_scopes, require_memory_scopes, require_data_scopes, load_response.
  destruct retrieval_context as [client|] eqn:Ec; preserves_tac.
  apply on_ext_step. intros ?. by eapply meter_retrieval.
Qed.

Lemma build_runtime_plan_step r p : preserves run_step (on_enforcer (build_runtime_plan r p)).
Proof.
  apply on_enforcer_step. intros e a e' H. pose proof (build_runtime_plan_state r p e) as E.
  rewrite H in E. cbn in E. subst. reflexivity.
Qed.
Hint Resolve load_step build_runtime_plan_step respects_check_duration : preserves.

Lemma judge_step base context : preserves run_step (apply_optional_llm_judge base context).
Proof.
  unfold apply_optional_llm_judge. destruct error_judge as [judge|] eqn:Ej; preserves_tac.
  apply on_ext_step. intros ?. by eapply meter_judge.
Qed.
Hint Resolve judge_step : preserves.

(** ** The steps of a run *)

Context (artifacts : JsonArtifactStore) (clock : nat -> datetime) (json_loads : string -> res value)
        (registry : SkillHandlerRegistry) (checker : option (string -> world -> res bool)).
Context (run_id task_id : string) (p : odict value).

Lemma raise_if_cancelled_step : preserves run_step (_raise_if_cancelled checker run_id).
Proof. unfold _raise_if_cancelled, get_runtime_run. preserves_tac. Qed.
Lemma event_step i ty actor pl ex r stop : preserves run_step (event artifacts clock run_id p i ty actor pl ex r stop).
Proof. unfold event. preserves_tac. Qed.
Hint Resolve raise_if_cancelled_step event_step : preserves.
Lemma begin_step_step i k : preserves run_step (begin_step clock checker run_id i k).
Proof. unfold begin_step. preserves_tac. Qed.
Lemma end_step_step i k actor v : preserves run_step (end_step artifacts clock run_id p i k actor v).
Proof. unfold end_step. preserves_tac. Qed.
Lemma fail_step_step i actor v stop : preserves run_step (fail_step artifacts clock run_id p i actor v stop).
Proof. unfold fail_step. preserves_tac. Qed.
Lemma finish_run_step ty actor v st stop : preserves run_step (finish_run artifacts clock run_id p ty actor v st stop).
Proof. unfold finish_run. preserves_tac. Qed.
Hint Resolve begin_step_step end_step_step fail_step_step finish_run_step : preserves.

Lemma context_step_step : preserves run_step (_context_step artifacts clock checker run_id p).
Proof. unfold _context_step. preserves_tac. Qed.
Lemma planner_step_step ctx : preserves run_step (_planner_step artifacts clock registry checker run_id p ctx).
Proof. unfold _planner_step. preserves_tac. Qed.
Lemma run_actions_step g results actions :
  preserves run_step (run_actions artifacts clock json_loads checker run_id g results actions).
Proof. revert results. induction actions as [|x actions IH]; intros results; cbn [run_actions]; preserves_tac; apply IH. Qed.
Hint Resolve run_actions_step : preserves.
Lemma executor_step_step plan : preserves run_step (_executor_step artifacts clock json_loads checker run_id p plan).
Proof. unfold _executor_step, new_gateway. preserves_tac. Qed.
Lemma record_outcomes_step i os : preserves run_step (record_outcomes artifacts clock run_id p i os).
Proof. induction os as [|o os IH]; cbn [record_outcomes]; unfold record_outcome; preserves_tac. Qed.
Hint Resolve record_outcomes_step : preserves.
Lemma validator_step_step ctx plan ex :
  preserves run_step (_validator_step artifacts clock checker run_id task_id p ctx plan ex).
Proof. unfold _validator_step. preserves_tac. Qed.
Hint Resolve context_step_step planner_step_step executor_step_step validator_step_step : preserves.

Lemma run_steps_step : preserves run_step (run_steps artifacts clock json_loads registry checker run_id task_id p).
Proof. unfold run_steps, validate_profile_for_runtime. preserves_tac. Qed.

Lemma cancel_run_step : preserves run_step (_cancel_run artifacts clock run_id p).
Proof. unfold _cancel_run. preserves_tac. Qed.
Lemma fail_run_step e : preserves run_step (_fail_run artifacts clock run_id p e).
Proof. unfold _fail_run. preserves_tac. Qed.
Lemma request_recomposition_step r : preserves run_step (request_recomposition artifacts clock run_id task_id p r).
Proof. unfold request_recomposition. preserves_tac. Qed.
Lemma respects_record_recomposition_request : respects_budget record_recomposition_request.
Proof. apply (respects_increment CRecompositions). Qed.
Hint Resolve run_steps_step cancel_run_step fail_run_step request_recomposition_step
  respects_record_recomposition_request : preserves.
Lemma handle_runtime_error_step e :
  preserves run_step (_handle_runtime_error artifacts clock run_id task_id p e).
Proof. unfold _handle_runtime_error. preserves_tac. Qed.
Lemma complete_step_step plan ex r : preserves run_step (complete artifacts clock run_id p plan ex r).
Proof. unfold complete. preserves_tac. Qed.
Hint Resolve handle_runtime_error_step complete_step_step : preserves.

Lemma escalate_step {A} (m : run X A) : preserves run_step m -> preserves run_step (escalate m).
Proof. apply preserves_escalate. Qed.
Hint Resolve escalate_step : preserves.
Lemma try_step {A} (m : run X A) : preserves run_step m -> preserves run_step (try_ m).
Proof. apply (preserves_try _). Qed.
Hint Resolve try_step : preserves.

(** Every part of a run obeys the relation, so a run does. *)
Lemma run_body_step : preserves run_step (run_body artifacts clock json_loads registry checker run_id task_id p).
Proof. unfold run_body, fail_closed. preserves_tac. Qed.

End run_step.

(** ** Requests for a recomposed profile *)

Lemma escalate_Ok {S A} (m : eff S exn A) s x s' : escalate m s = (Ok x, s') <-> m s = (Ok x, s').
Proof. unfold escalate. destruct (m s) as [[y|e] s1]; split; intros [=]; by subst. Qed.
Lemma escalate_Raise {S A} (m : eff S exn A) s e s' :
  escalate m s = (Raise e, s') <-> exists e0, e = Raised e0 /\ m s = (Raise e0, s').
Proof.
  unfold escalate. destruct (m s) as [[y|e0] s1]; split; [by intros [=]|by intros (? & _ & [=])| |].
  - intros [= <- <-]. by exists e0.
  - by intros (e1 & -> & [= -> ->]).
Qed.
Lemma try_eq {S E A} (m : eff S E A) s r s' : try_ m s = (r, s') <-> r = Ok (m s).1 /\ s' = (m s).2.
Proof. unfold try_. destruct (m s); split; [by intros [= <- <-]|by intros [-> ->]]. Qed.

Section requests.
Context {X : Type} `{!Services X}.
Context (artifacts : JsonArtifactStore) (clock : nat -> datetime) (json_loads : string -> res value)
        (sha256 : string -> string)
        (registry : SkillHandlerRegistry) (checker : option (string -> world -> res bool)).

(** A meter that does not move: the budget and trace part of [run_step]. *)
Lemma still_meter : meter X (fun _ => 0%Z).
Proof. constructor; intros; lia. Qed.
Abbreviation budget_run_step := (run_step (X := X) (fun _ => 0%Z)).

Lemma handle_runtime_error_request run_id task_id p e (s s' : run_state X) reason rq :
  _handle_runtime_error artifacts clock run_id task_id p e s = (Ok (reason, Some rq), s') ->
  exists L, profile_limit (profile (r_enforcer s)) "max_recompositions" = Ok L /\
    (recomposition_requests (r_enforcer s) + 1 <= L)%Z.
Proof.
  intros H. unfold _handle_runtime_error in H.
  assert (Hfail : forall err, (stop ← _fail_run artifacts clock run_id p err; mret (stop, None)) s = (Ok (reason, Some rq), s') -> False).
  { intros err Hf. by apply eff_bind_Ok in Hf as (? & ? & _ & [=]). }
  destruct (_recomposition_reason e) as [why|]; [|by apply Hfail in H].
  destruct (_profile_allows_recomposition p e); [|by apply Hfail in H].
  apply eff_bind_Ok in H as (granted & s1 & Hg & H). apply try_eq in Hg as [[= ->] ->].
  unfold on_enforcer, zoom in H. destruct (record_recomposition_request (r_enforcer s)) as [[[]|err] e'] eqn:Er.
  - apply increment_limit_Ok in Er as (_ & L & HL & Hle); [|lia]. exists L. done.
  - cbn [fst snd] in H. destruct err; try discriminate H. by apply eff_bind_Ok in H as (? & ? & _ & [=]).
Qed.

(** A run that ends in a request had one left in its profile's budget. *)
Lemma run_body_request run_id task_id p (s s' : run_state X) msg stop rq :
  run_body artifacts clock json_loads registry checker run_id task_id p s
  = (Raise (RuntimeLoopError msg stop (Some rq)), s') ->
  exists L, profile_limit (profile (r_enforcer s)) "max_recompositions" = Ok L /\
    (recomposition_requests (r_enforcer s) + 1 <= L)%Z.
Proof.
  unfold run_body. intros H.
  apply eff_bind_Raise in H as [H|(out & s1 & Ho & H)]; [by apply escalate_Raise in H as (? & [=] & _)|].
  assert (Hs : budget_run_step s s1).
  { eapply preserves_elim; [|exact Ho]. apply escalate_step, try_step, run_steps_step, still_meter. }
  assert (Hno : forall A (m : run X A), escalate m s1 = (Raise (RuntimeLoopError msg stop (Some rq)), s') -> False).
  { intros A m Hm. by apply escalate_Raise in Hm as (? & [=] & _). }
  assert (Hfail : forall e, fail_closed artifacts clock run_id task_id p e s1
           = (Raise (RuntimeLoopError msg stop (Some rq)), s') ->
           exists L, profile_limit (profile (r_enforcer s)) "max_recompositions" = Ok L /\
             (recomposition_requests (r_enforcer s) + 1 <= L)%Z).
  { intros e Hf. apply eff_bind_Raise in Hf as [Hf|([reason o] & s2 & Hh & Hf)]; [by apply Hno in Hf|].
    apply escalate_Ok in Hh. injection Hf as _ _ Hrq _. cbn [snd] in Hrq. subst o.
    apply handle_runtime_error_request in Hh as (L & HL & Hle).
    destruct (rs_budget _ _ _ Hs) as (Hp & _ & Hc). rewrite Hp in HL. exists L. split; [done|].
    specialize (Hc CRecompositions). cbn in Hc. lia. }
  destruct out as [[[plan execution] response]|e]; [by apply Hno in H|].
  destruct e; cbn [is_runtime_failure] in H; try discriminate H; try (by eapply Hfail).
  apply eff_bind_Raise in H as [H|(? & ? & _ & H)]; [by apply Hno in H|discriminate H].
Qed.

Lemma loop_run_request sr (h h' : host X) msg stop rq :
  loop_run artifacts clock json_loads sha256 registry checker sr h
  = (Raise (RuntimeLoopError msg stop (Some rq)), h') ->
  exists g L, py_int (dget "profile_generation" (VInt 1) (sr_profile sr)) = Ok g /\
    profile_limit (sr_profile sr) "max_recompositions" = Ok L /\ (Z.max 0 (g - 1) + 1 <= L)%Z.
Proof.
  unfold loop_run. intros H. apply eff_bind_Raise in H as [H|([] & h1 & _ & H)].
  { unfold _assert_profile_seal in H.
    apply eff_bind_Raise in H as [H|(v & h1 & _ & H)]; [by apply escalate_Raise in H as (? & [=] & _)|].
    destruct v; try discriminate H. unfold lift in H. by destruct (negb _). }
  apply eff_bind_Raise in H as [H|(now & h2 & _ & H)]; [by apply escalate_Raise in H as (? & [=] & _)|].
  apply eff_bind_Raise in H as [H|(e & h3 & He & H)]; [by apply escalate_Raise in H as (? & [=] & _)|].
  apply escalate_Ok in He. injection He as He <-. unfold Enforcement.init in He.
  apply bind_Ok in He as (g & Hg & [= <-]). unfold with_enforcer in H.
  destruct (run_body _ _ _ _ _ _ _ _ _) as [r s'] eqn:E. injection H as -> _.
  apply run_body_request in E as (L & HL & Hle). by exists g, L.
Qed.
End requests.

(** ** Recomposed profiles *)

Lemma compose_limits t c g parent reason p :
  compose t c g parent reason = Ok p ->
  py_int (dget "profile_generation" (VInt 1) p) = Ok g /\
  profile_limit p "max_recompositions" = Ok (max_generation t - 1)%Z.
Proof.
  intros H. apply compose_composed in H as [_ _ (ps & m & a & hr & roles & pins & fp & _ & _ & _ & _ & _ & _ & ->)].
  split; [done|]. apply limits_for_recompositions.
Qed.

Lemma max_generation_le t : (max_generation t <= 2)%Z.
Proof. unfold max_generation. destruct (requires_human_review t); lia. Qed.

Section recomposition.
Context {X : Type} `{!Services X}.
Context (artifacts : JsonArtifactStore) (clock : nat -> datetime) (sha256 : string -> string) (environment : string).

(** What a successful start composed. *)
Lemma start_Ok task o (h h' : host X) sr :
  start artifacts clock sha256 environment task o h = (Ok sr, h') ->
  _assert_profile_generation_request o = Ok tt /\
  exists t c, compose t c (so_generation o) (so_parent o) (so_reason o) = Ok (sr_profile sr).
Proof.
  unfold start. intros H. apply eff_bind_Ok in H as ([] & h1 & Ha & H). injection Ha as Ha _.
  split; [done|]. apply eff_bind_Ok in H as (t & h2 & _ & H). cbv zeta in H.
  apply eff_bind_Ok in H as (c & h3 & _ & H). apply eff_bind_Ok in H as ([] & h4 & _ & H).
  apply eff_bind_Ok in H as (p & h5 & Hp & H). injection Hp as Hp _.
  repeat (apply eff_bind_Ok in H as (? & ? & _ & H)). injection H as <- _. by exists t, c.
Qed.

Lemma recomposition_generation o :
  generation_mode o = "recomposition" -> _assert_profile_generation_request o = Ok tt -> (1 < so_generation o)%Z.
Proof.
  unfold _assert_profile_generation_request. intros ->. intros ([] & _ & H)%bind_Ok. cbn in H.
  destruct (so_parent o); [|done]. destruct (so_reason o); [|done].
  apply bind_Ok in H as ([] & _ & H). apply raise_if_Ok in H. lia.
Qed.

(** A recomposed profile is of generation 2 at least, and no composed profile
    of that generation has a recomposition left. *)
Lemma recomposed_budget_spent task request c run_id (h h' : host X) next g L :
  continue_recomposition artifacts clock sha256 environment task request c run_id h = (Ok next, h') ->
  py_int (dget "profile_generation" (VInt 1) (sr_profile next)) = Ok g ->
  profile_limit (sr_profile next) "max_recompositions" = Ok L -> (L < Z.max 0 (g - 1) + 1)%Z.
Proof.
  unfold continue_recomposition. intros H Hg HL. apply eff_bind_Ok in H as (r & h1 & _ & H).
  cbv zeta in H. apply start_Ok in H as (Ha & t & cx & Hc).
  apply recomposition_generation in Ha; [|done]. cbn [so_generation] in *.
  apply compose_limits in Hc as [Hg' HL']. rewrite Hg in Hg'. injection Hg' as ->.
  rewrite HL in HL'. injection HL' as ->. pose proof (max_generation_le t). lia.
Qed.
End recomposition.

(** ** The cost of a run, and of its attempts *)

(** The calls a profile's limits allow. *)
Definition tool_budget (p : odict value) : Z :=
  match profile_limit p "max_tool_calls" with Ok L => Z.max 0 L | Raise _ => 0 end.

Lemma init_fields p now e :
  Enforcement.init p now = Ok e -> profile e = p /\ tool_calls e = 0%Z.
Proof. unfold Enforcement.init. intros H. by apply bind_Ok in H as (g & _ & [= <-]). Qed.

Lemma budget_step_tool_calls e e' :
  budget_step e e' -> tool_calls e = 0%Z -> (tool_calls e' <= tool_budget (profile e))%Z.
Proof.
  intros (_ & _ & H) H0. destruct (H CToolCalls) as [Hle Hor]. cbn in Hle, Hor. unfold tool_budget.
  destruct Hor as [E|(L & HL & Hb)].
  - destruct (profile_limit _ _); lia.
  - cbn in HL. rewrite HL. lia.
Qed.

Section cost.
Context {X : Type} `{!Services X}.
Context (cost : X -> Z) (Hmeter : meter X cost).
Context (artifacts : JsonArtifactStore) (clock : nat -> datetime) (json_loads : string -> res value)
        (sha256 : string -> string) (environment : string)
        (registry : SkillHandlerRegistry) (checker : option (string -> world -> res bool)).

Definition same_cost (h h' : host X) : Prop := cost (h_ext h') = cost (h_ext h).
#[export] Instance same_cost_preorder : PreOrder same_cost.
Proof. split; [done|]. unfold same_cost. intros a b c. congruence. Qed.

Lemma host_world_cost {A} (m : rt A) : preserves same_cost (host_world (X := X) m).
Proof. intros h. unfold host_world, zoom. by destruct (m (h_world h)). Qed.
Lemma host_ext_cost {A} (m : eff X exn A) : (forall x, cost (m x).2 = cost x) -> preserves same_cost (host_ext m).
Proof. intros Hm h. unfold host_ext, zoom. specialize (Hm (h_ext h)). by destruct (m (h_ext h)). Qed.
Hint Resolve host_world_cost : preserves.

Lemma record_start_cost run_id t creq cresp p uri sha red :
  preserves same_cost (record_start (X := X) artifacts clock run_id t creq cresp p uri sha red).
Proof. unfold record_start, entry_event. preserves_tac. Qed.
Hint Resolve record_start_cost : preserves.

Lemma start_cost task o : preserves same_cost (start artifacts clock sha256 environment task o).
Proof.
  unfold start, _seal_profile, _fetch_composition_context.
  destruct composition_context as [client|] eqn:Ec; preserves_tac;
    apply host_ext_cost; intros ?; by eapply meter_composition.
Qed.

Lemma continue_cost task r c run_id :
  preserves same_cost (continue_recomposition artifacts clock sha256 environment task r c run_id).
Proof. unfold continue_recomposition. apply (preserves_bind _); [auto with preserves typeclass_instances|intros ?]. apply start_cost. Qed.

(** An attempt costs no more tool calls than its profile allows. *)
Lemma loop_run_cost sr h :
  (cost (h_ext (loop_run artifacts clock json_loads sha256 registry checker sr h).2) - cost (h_ext h)
   <= tool_budget (sr_profile sr))%Z.
Proof.
  assert (Hb : (0 <= tool_budget (sr_profile sr))%Z) by (unfold tool_budget; destruct (profile_limit _ _); lia).
  unfold loop_run.
  assert (Hseal : same_cost h (_assert_profile_seal artifacts json_loads sha256 sr h).2).
  { unfold _assert_profile_seal. revert h. change (preserves same_cost (_assert_profile_seal (X := X) artifacts json_loads sha256 sr)).
    unfold _assert_profile_seal. apply (preserves_bind _); [|intros v; destruct v; auto with preserves typeclass_instances].
    intros h. unfold escalate. pose proof (host_world_cost (on_files (read_json artifacts json_loads (profile_uri sr))) h) as H.
    by destruct (host_world _ h). }
  destruct (_assert_profile_seal _ _ _ sr h) as [[[]|e] h1] eqn:Es; cbn [snd] in Hseal;
    [rewrite (eff_step _ _ _ _ _ Es)|rewrite (eff_stop _ _ _ _ _ Es); cbn; unfold same_cost in Hseal; lia].
  assert (Hclock : same_cost h1 (escalate (host_ext read_monotonic) h1).2).
  { unfold escalate. pose proof (host_ext_cost read_monotonic (read_monotonic_cost cost Hmeter) h1) as H.
    by destruct (host_ext _ h1). }
  destruct (escalate (host_ext read_monotonic) h1) as [[now|e] h2] eqn:Ec; cbn [snd] in Hclock;
    [rewrite (eff_step _ _ _ _ _ Ec)|rewrite (eff_stop _ _ _ _ _ Ec); cbn; unfold same_cost in *; lia].
  destruct (Enforcement.init (sr_profile sr) now) as [e|ex] eqn:Ei.
  2: { unfold mbind, eff_bind, escalate, lift. cbn. unfold same_cost in *. lia. }
  rewrite (eff_step (escalate (lift (Ok e))) _ h2 e h2 eq_refl). apply init_fields in Ei as [Hp H0].
  unfold with_enforcer. set (s := mkRunState (h_world h2) (h_ext h2) e 0).
  pose proof (run_body_step cost Hmeter artifacts clock json_loads registry checker (sr_run_id sr)
    (task_id (analyzed_task sr)) (sr_profile sr) s) as [Hbudget Hcost _].
  destruct (run_body _ _ _ _ _ _ _ _ s) as [r s']. cbn [snd h_ext] in *.
  pose proof (budget_step_tool_calls _ _ Hbudget H0) as Hcalls. cbn [r_enforcer r_ext s] in *.
  rewrite Hp in Hcalls. unfold same_cost in *. lia.
Qed.
End cost.

(** Services that count the calls of their tool adapters. *)
Definition counted {X} (services : Services X) : Services (X * Z) := {|
  monotonic := fun x => let '(t, y) := @monotonic X services x.1 in (t, (y, x.2));
  tool_adapters := map (fun '(name, adapter) =>
    (name, fun payload x => let '(r, y) := adapter payload x.1 in (r, (y, (x.2 + 1)%Z)))) (@tool_adapters X services);
  retrieval_context := option_map (fun client d x => let '(r, y) := client d x.1 in (r, (y, x.2)))
    (@retrieval_context X services);
  composition_context := option_map (fun client d x => let '(r, y) := client d x.1 in (r, (y, x.2)))
    (@composition_context X services);
  error_judge := option_map (fun judge d x => let '(r, y) := judge d x.1 in (r, (y, x.2)))
    (@error_judge X services);
|}.

Lemma od_get_map_inv {V W} (f : string * V -> string * W) k d w :
  (forall kv, (f kv).1 = kv.1) -> od_get k (map f d) = Some w ->
  exists v, od_get k d = Some v /\ w = (f (k, v)).2.
Proof.
  intros Hf. induction d as [|[k' v'] d IH]; cbn; [done|].
  specialize (Hf (k', v')). destruct (f (k', v')) as [k1 w1] eqn:E. cbn in Hf. subst k1.
  destruct (String.eqb_spec k k') as [->|]; [|done]. intros [= <-]. exists v'. by rewrite E.
Qed.

Lemma counted_meter {X} (services : Services X) : @meter (X * Z) (counted services) snd.
Proof.
  constructor.
  - intros [x n]. cbn. by destruct (monotonic x).
  - intros client d [x n]. cbn. destruct retrieval_context as [c|]; [|done]. intros [= <-]. cbn. by destruct (c d x).
  - intros client d [x n]. cbn. destruct composition_context as [c|]; [|done]. intros [= <-]. cbn. by destruct (c d x).
  - intros client d [x n]. cbn. destruct error_judge as [c|]; [|done]. intros [= <-]. cbn. by destruct (c d x).
  - intros name adapter d [x n] H. apply od_get_map_inv in H as (a & _ & ->); [|by intros [? ?]].
    cbn. destruct (a d x). cbn. lia.
Qed.

Section attempts.
Context {X : Type} `{!Services X}.
Context (artifacts : JsonArtifactStore) (clock : nat -> datetime) (json_loads : string -> res value)
        (sha256 : string -> string) (environment : string)
        (registry : SkillHandlerRegistry) (checker : option (string -> world -> res bool)).
Abbreviation loop := (recomposition_loop artifacts clock json_loads sha256 registry checker environment).

(** The result of a run, with the attempts that led to it. *)
Definition with_attempts (runs : list string) (profiles : list value) (res : RuntimeLoopResult) : RuntimeLoopResult :=
  mkLoopResult (lr_run_id res) (lr_status res) (lr_stop_reason res)
    (od_set "recomposed_profile_ids" (VList profiles) (od_set "attempt_run_ids" (strs runs) (lr_response res)))
    runs profiles.

(** One attempt, and what follows it. *)
Lemma recomposition_loop_S fuel task cx runs profiles cur h :
  loop (S fuel) task cx runs profiles cur h =
  match loop_run artifacts clock json_loads sha256 registry checker cur h with
  | (Ok res, h1) => (Ok (Some (with_attempts (runs ++ [sr_run_id cur]) profiles res)), h1)
  | (Raise (RuntimeLoopError _ _ (Some rq)), h1) =>
      match continue_recomposition artifacts clock sha256 environment task (inl rq) cx None h1 with
      | (Ok next, h2) =>
          match ditem "id" (sr_profile next) with
          | Ok id => loop fuel task cx (runs ++ [sr_run_id cur]) (profiles ++ [id]) next h2
          | Raise e => (Raise (Raised e), h2)
          end
      | (Raise e, h2) => (Raise (Raised e), h2)
      end
  | (Raise e, h1) => (Raise e, h1)
  end.
Proof.
  cbn [recomposition_loop]. unfold try_, mbind, eff_bind.
  destruct (loop_run _ _ _ _ _ _ cur h) as [[res|[msg stop [rq|]|e]] h1]; cbn; try done.
  unfold escalate at 1. destruct (continue_recomposition _ _ _ _ _ _ _ _ h1) as [[next|e] h2]; [|done].
  unfold escalate, lift. by destruct (ditem "id" (sr_profile next)).
Qed.

(** Under a recomposed profile one attempt is the last. *)
Lemma last_attempt task request c run_id (h0 h0' : host X) next fuel cx runs profiles h :
  continue_recomposition artifacts clock sha256 environment task request c run_id h0 = (Ok next, h0') ->
  loop (S fuel) task cx runs profiles next h =
  match loop_run artifacts clock json_loads sha256 registry checker next h with
  | (Ok res, h1) => (Ok (Some (with_attempts (runs ++ [sr_run_id next]) profiles res)), h1)
  | (Raise e, h1) => (Raise e, h1)
  end.
Proof.
  intros Hn. rewrite recomposition_loop_S.
  destruct (loop_run _ _ _ _ _ _ next h) as [[res|[msg stop [rq|]|e]] h'] eqn:E; try done.
  apply loop_run_request in E as (g & L & Hg & HL & Hle).
  pose proof (recomposed_budget_spent _ _ _ _ _ _ _ _ _ _ _ _ _ Hn Hg HL). lia.
Qed.
End attempts.

Lemma compose_tool_budget t c g parent reason p :
  compose t c g parent reason = Ok p -> (tool_budget p <= 30)%Z.
Proof.
  intros H. apply compose_composed in H as [_ _ (ps & m & a & hr & roles & pins & fp & _ & _ & _ & _ & _ & _ & ->)].
  unfold tool_budget, profile_limit. change (dget "limits" (VDict []) _) with (VDict (limits_for t)).
  unfold limits_for. by destruct (requires_human_review t).
Qed.

Lemma continue_tool_budget {X} `{!Services X} artifacts clock sha256 environment task rq c run_id (h h' : host X) next :
  continue_recomposition artifacts clock sha256 environment task rq c run_id h = (Ok next, h') ->
  (tool_budget (sr_profile next) <= 30)%Z.
Proof.
  unfold continue_recomposition. intros H. apply eff_bind_Ok in H as (r & h1 & _ & H).
  cbv zeta in H. apply start_Ok in H as (_ & t & cx & Hc). by eapply compose_tool_budget.
Qed.

(** ** How a run ends in the store *)

(** The run's record, at rest with this outcome. *)
Definition run_recorded (run_id status stop_reason : string) (w : world) : Prop :=
  exists r, od_get run_id (runtime_runs (w_store w)) = Some r /\
    dget "status" VNone r = VStr status /\ dget "stop_reason" VNone r = VStr stop_reason.

Lemma complete_run_recorded clock run_id status stop_reason tokens w r w' :
  complete_run clock run_id status stop_reason tokens w = (Ok r, w') -> run_recorded run_id status stop_reason w'.
Proof.
  unfold complete_run. intros H. apply eff_bind_Ok in H as ([] & w1 & _ & H).
  apply eff_bind_Ok in H as ([] & w2 & _ & H). apply eff_bind_Ok in H as (t & w3 & _ & H).
  unfold on_store, zoom, update_runtime_run in H.
  destruct (update_record Runs run_id _ (w_store w3)) as [[r'|e] s'] eqn:E; [|discriminate H].
  injection H as <- <-. apply update_record_Ok in E as (stored & Hk & -> & ->).
  exists (od_update stored [("status", VStr status); ("completed_at", VStr t);
    ("tokens_used_total", VInt tokens); ("stop_reason", VStr stop_reason)]).
  split; [|split; unfold dget, od_update; cbn [foldl fst snd]; by rewrite ?od_get_set].
  destruct (w_store w3). apply od_get_set_eq.
Qed.

Section outcomes.
Context {X : Type} `{!Services X}.
Context (artifacts : JsonArtifactStore) (clock : nat -> datetime) (json_loads : string -> res value)
        (sha256 : string -> string)
        (registry : SkillHandlerRegistry) (checker : option (string -> world -> res bool)).
Context (run_id task_id : string) (p : odict value).

Lemma finish_run_recorded ty actor v status stop (s s' : run_state X) u :
  finish_run artifacts clock run_id p ty actor v status stop s = (Ok u, s') ->
  run_recorded run_id status stop (r_world s').
Proof.
  unfold finish_run. intros H. apply eff_bind_Ok in H as ([] & s1 & _ & H).
  apply eff_bind_Ok in H as (tokens & s2 & _ & H). apply eff_bind_Ok in H as (r & s3 & Hc & H).
  injection H as _ <-. unfold on_world, zoom in Hc.
  destruct (complete_run _ _ _ _ _ _) as [[r'|e] w'] eqn:E; [|discriminate Hc]. injection Hc as _ <-.
  by eapply complete_run_recorded.
Qed.

Lemma cancel_run_recorded (s s' : run_state X) response :
  _cancel_run artifacts clock run_id p s = (Ok response, s') ->
  run_recorded run_id "cancelled" "cancelled" (r_world s').
Proof.
  unfold _cancel_run. intros H. apply eff_bind_Ok in H as (u & s1 & Hf & H). injection H as _ <-.
  by eapply finish_run_recorded.
Qed.

Lemma fail_run_recorded e (s s' : run_state X) stop :
  _fail_run artifacts clock run_id p e s = (Ok stop, s') -> run_recorded run_id "failed" stop (r_world s').
Proof.
  unfold _fail_run. intros H. apply eff_bind_Ok in H as (en & s1 & _ & H).
  apply eff_bind_Ok in H as (cl & s2 & _ & H). apply eff_bind_Ok in H as (u & s3 & Hf & H).
  injection H as <- <-. by eapply finish_run_recorded.
Qed.

(** What the failure handler reports is what the store says. *)
Lemma handle_runtime_error_recorded e (s s' : run_state X) stop rq :
  _handle_runtime_error artifacts clock run_id task_id p e s = (Ok (stop, rq), s') ->
  run_recorded run_id "failed" stop (r_world s') /\
  match rq with
  | Some r => stop = "needs_recomposition" /\ source_run_id r = run_id /\ rr_task_id r = task_id
  | None => True
  end.
Proof.
  intros H. unfold _handle_runtime_error in H.
  assert (Hfail : forall err s1, (stop ← _fail_run artifacts clock run_id p err; mret (stop, None)) s1 = (Ok (stop, rq), s') ->
    run_recorded run_id "failed" stop (r_world s') /\ rq = None).
  { intros err s1 Hf. apply eff_bind_Ok in Hf as (st & s2 & Hf & Hr). injection Hr as -> <- <-.
    split; [by eapply fail_run_recorded|done]. }
  destruct (_recomposition_reason e) as [why|]; [|by apply Hfail in H as [? ->]].
  destruct (_profile_allows_recomposition p e); [|by apply Hfail in H as [? ->]].
  apply eff_bind_Ok in H as (granted & s1 & Hg & H). destruct granted as [[]|err].
  - apply eff_bind_Ok in H as (r & s2 & Hr & H). injection H as <- <- <-. unfold request_recomposition in Hr.
    apply eff_bind_Ok in Hr as (id & s3 & _ & Hr). apply eff_bind_Ok in Hr as (g & s4 & _ & Hr). cbv zeta in Hr.
    apply eff_bind_Ok in Hr as (u & s5 & Hf & Hr). injection Hr as <- <-.
    split; [by eapply finish_run_recorded|done].
  - destruct err; try discriminate H. by apply Hfail in H as [? ->].
Qed.

(** Actions carried out one after the other, each that is an object by one call
    of the gateway for its tool, after a look for a cancellation; the states are
    those between the calls, so nothing else happens in between. *)
Inductive carried_out (g : gateway) : list value -> run_state X -> list value -> run_state X -> Prop :=
| carried_none s : carried_out g [] s [] s
| carried_call d actions tool result results s s1 s2 s' :
    _raise_if_cancelled checker run_id s = (Ok tt, s1) -> ditem "tool" d = Ok tool ->
    invoke artifacts clock json_loads g (py_str tool) (match dget "payload" (VDict []) d with VDict q => q | _ => [] end) s1
      = (Ok result, s2) ->
    carried_out g actions s2 results s' ->
    carried_out g (VDict d :: actions) s
      (VDict [("id", VStr (tr_id result)); ("tool_name", VStr (tr_tool_name result));
              ("status", VStr (tr_status result)); ("output_uri", VStr (tr_output_uri result))] :: results) s'
| carried_other v actions results s s1 s' :
    (forall d, v <> VDict d) -> _raise_if_cancelled checker run_id s = (Ok tt, s1) ->
    carried_out g actions s1 results s' -> carried_out g (v :: actions) s results s'.

Lemma run_actions_Ok g actions (s s' : run_state X) done_ out :
  run_actions artifacts clock json_loads checker run_id g done_ actions s = (Ok out, s') ->
  exists results, out = done_ ++ results /\ carried_out g actions s results s'.
Proof.
  revert done_ s. induction actions as [|v actions IH]; intros done_ s H; cbn [run_actions] in H.
  { injection H as <- <-. exists []. split; [by rewrite app_nil_r|constructor]. }
  apply eff_bind_Ok in H as ([] & s1 & Hc & H).
  destruct v as [| | | | |d];
    try (apply IH in H as (results & -> & Hr); exists results; split; [done|by econstructor]).
  apply eff_bind_Ok in H as (tool & s2 & Ht & H). injection Ht as Ht <-. cbv zeta in H.
  apply eff_bind_Ok in H as (result & s3 & Hi & H). apply IH in H as (results & -> & Hr).
  eexists (_ :: results). rewrite <- app_assoc. split; [done|]. by econstructor.
Qed.

(** An execution of a plan: its results are those of the plan's actions, carried
    out through a gateway for the run's profile. *)
Definition followed (plan execution : odict value) : Prop := exists actions step s results s',
  py_iter (dget "actions" (VList []) plan) = Ok actions /\
  carried_out (mkGateway p run_id step (redacts p)) actions s results s' /\
  execution = [("strategy", dget "strategy" (VStr "generic") plan); ("tool_results", VList results)].

Lemma executor_step_Ok plan execution (s s' : run_state X) :
  _executor_step artifacts clock json_loads checker run_id p plan s = (Ok execution, s') -> followed plan execution.
Proof.
  unfold _executor_step. intros H. apply eff_bind_Ok in H as (step & s1 & _ & H).
  apply eff_bind_Ok in H as ([] & s2 & _ & H). apply eff_bind_Ok in H as (g & s3 & Hg & H).
  apply eff_bind_Ok in H as (results & s4 & Hr & H). cbv zeta in H. apply eff_bind_Ok in H as ([] & s5 & _ & H).
  injection H as <- _. unfold new_gateway in Hg. apply eff_bind_Ok in Hg as (u & s6 & _ & Hg). injection Hg as <- <-.
  unfold catch in Hr. match type of Hr with match ?m with _ => _ end = _ => destruct m as [[out|e] s7] eqn:E end.
  - injection Hr as <- <-. apply eff_bind_Ok in E as (actions & s8 & Ha & E). injection Ha as Ha <-.
    apply run_actions_Ok in E as (rs & -> & Hc). by exists actions, step, s6, rs, s7.
  - destruct e; try discriminate Hr; by apply eff_bind_Ok in Hr as (? & ? & _ & [=]).
Qed.

(** A validator the profile names was found, ran on the execution and the
    response, and did not fail. *)
Definition validated (execution response : odict value) : Prop := exists ids,
  py_iter (dget "validators" (VList []) p) = Ok ids /\
  forall id, In id ids -> exists v o, od_get (py_str id) (framework_validators []) = Some v /\
    v p execution response = Ok o /\ outcome_status o <> "failed".

Lemma all_validated execution response outcomes :
  framework_validate (framework_validators []) p execution response = Ok outcomes ->
  assert_validation_passed outcomes = Ok tt -> validated execution response.
Proof.
  intros Hv Ha. destruct (validation_complete _ _ _ _ _ Hv) as (ids & Hids & _ & H). exists ids. split; [done|].
  intros id Hid. destruct (proj1 H Ha id Hid) as (v & o & H1 & H2 & _ & H3). by exists v, o.
Qed.

(** A run that passed every step. *)
Lemma run_steps_Ok (s s' : run_state X) plan execution response :
  run_steps artifacts clock json_loads registry checker run_id task_id p s = (Ok (plan, execution, response), s') ->
  validate_profile (profile (r_enforcer s)) = Ok tt /\
  (exists e, profile e = profile (r_enforcer s) /\ (build_runtime_plan registry p e).1 = Ok plan) /\
  followed plan execution /\ validated execution response /\
  exists context, runtime_response run_id task_id p context plan execution = Ok response.
Proof.
  unfold run_steps. intros H. apply eff_bind_Ok in H as ([] & s1 & Hv & H).
  apply on_enforcer_pure in Hv as [-> Hv]. apply eff_bind_Ok in H as ([] & s2 & H1 & H).
  apply eff_bind_Ok in H as (context & s3 & H2 & H). apply eff_bind_Ok in H as ([] & s4 & H3 & H).
  apply eff_bind_Ok in H as (plan' & s5 & Hplan & H). apply eff_bind_Ok in H as ([] & s6 & _ & H).
  apply eff_bind_Ok in H as (execution' & s7 & Hex & H). apply eff_bind_Ok in H as ([] & s8 & _ & H).
  apply eff_bind_Ok in H as (response' & s9 & Hval & H). injection H as -> -> -> _.
  pose proof (still_meter (X := X)) as Hm. split; [done|]. split; [|split; [by eapply executor_step_Ok|]].
  - unfold _planner_step in Hplan. apply eff_bind_Ok in Hplan as (step & t1 & Hb & Hplan).
    apply eff_bind_Ok in Hplan as ([] & t2 & He & Hplan). apply eff_bind_Ok in Hplan as (pl & t3 & Hp & Hplan).
    apply eff_bind_Ok in Hplan as ([] & t4 & _ & Hplan). injection Hplan as -> _.
    exists (r_enforcer t2). split.
    + assert (Hs : run_step (fun _ => 0%Z) s t2).
      { etrans; [eapply preserves_elim; [by apply raise_if_cancelled_step|exact H1]|].
        etrans; [eapply preserves_elim; [by apply context_step_step|exact H2]|].
        etrans; [eapply preserves_elim; [by apply raise_if_cancelled_step|exact H3]|].
        etrans; [eapply preserves_elim; [by apply begin_step_step|exact Hb]|].
        eapply preserves_elim; [by apply event_step|exact He]. }
      apply (rs_budget _ _ _ Hs).
    + unfold on_enforcer, zoom in Hp. destruct (build_runtime_plan registry p (r_enforcer t2)).
      by injection Hp as -> _.
  - unfold _validator_step in Hval. apply eff_bind_Ok in Hval as (step & t1 & _ & Hval).
    apply eff_bind_Ok in Hval as (vs & t2 & _ & Hval). apply eff_bind_Ok in Hval as ([] & t3 & _ & Hval).
    apply eff_bind_Ok in Hval as (r & t4 & Hr & Hval). injection Hr as Hr _.
    apply eff_bind_Ok in Hval as (outcomes & t5 & Ho & Hval). injection Ho as Ho _.
    apply eff_bind_Ok in Hval as ([] & t6 & _ & Hval). apply eff_bind_Ok in Hval as ([] & t7 & Ha & Hval).
    apply eff_bind_Ok in Hval as ([] & t8 & _ & Hval). injection Hval as -> _.
    assert (Hpassed : assert_validation_passed outcomes = Ok tt); [|split; [by eapply all_validated|by exists context]].
    unfold catch, lift in Ha. destruct (assert_validation_passed outcomes) as [[]|e] eqn:E; [done|].
    destruct (is_validation_error e); [|discriminate Ha].
    by apply eff_bind_Ok in Ha as (? & ? & _ & [=]).
Qed.

Lemma complete_recorded plan execution response (s s' : run_state X) res :
  complete artifacts clock run_id p plan execution response s = (Ok res, s') ->
  run_recorded run_id "succeeded" "completed" (r_world s') /\ lr_run_id res = run_id /\
  lr_status res = "succeeded" /\ lr_stop_reason res = "completed" /\
  exists c, lr_response res = od_set "error_classification" (VDict c) response.
Proof.
  unfold complete. intros H. apply eff_bind_Ok in H as (e & s1 & _ & H).
  apply eff_bind_Ok in H as (limits & s2 & _ & H). apply eff_bind_Ok in H as (c1 & s3 & _ & H).
  apply eff_bind_Ok in H as (c & s4 & _ & H). cbv zeta in H. apply eff_bind_Ok in H as ([] & s5 & Hf & H).
  injection H as <- <-. apply finish_run_recorded in Hf. split_and!; try done. by eexists.
Qed.

(** The three ways a run ends with a word on its outcome. *)
Lemma run_body_cases (s s' : run_state X) r :
  run_body artifacts clock json_loads registry checker run_id task_id p s = (r, s') ->
  match r with
  | Ok res => lr_run_id res = run_id /\
      ((lr_status res = "succeeded" /\ lr_stop_reason res = "completed" /\
        run_recorded run_id "succeeded" "completed" (r_world s') /\
        exists plan execution response s1 c,
          run_steps artifacts clock json_loads registry checker run_id task_id p s = (Ok (plan, execution, response), s1) /\
          lr_response res = od_set "error_classification" (VDict c) response) \/
       (lr_status res = "cancelled" /\ lr_stop_reason res = "cancelled" /\
        run_recorded run_id "cancelled" "cancelled" (r_world s')))
  | Raise (RuntimeLoopError _ stop rq) =>
      exists reason, stop = Some reason /\ run_recorded run_id "failed" reason (r_world s') /\
        match rq with
        | Some q => reason = "needs_recomposition" /\ source_run_id q = run_id /\ rr_task_id q = task_id
        | None => True
        end
  | Raise (Raised _) => True
  end.
Proof.
  unfold run_body. unfold mbind at 1, eff_bind at 1, escalate at 1, try_.
  destruct (run_steps _ _ _ _ _ _ _ _ s) as [[[[plan execution] response]|e] s1] eqn:Es.
  - intros H. destruct r as [res|e].
    + apply escalate_Ok, complete_recorded in H as (Hrec & Hid & Hst & Hsr & c & Hc).
      split; [done|]. left. split_and!; try done. by exists plan, execution, response, s1, c.
    + by apply escalate_Raise in H as (e0 & -> & _).
  - assert (Hfail : forall err, fail_closed artifacts clock run_id task_id p err s1 = (r, s') -> match r with
      | Ok _ => False
      | Raise (RuntimeLoopError _ stop rq) => exists reason, stop = Some reason /\
          run_recorded run_id "failed" reason (r_world s') /\
          match rq with
          | Some q => reason = "needs_recomposition" /\ source_run_id q = run_id /\ rr_task_id q = task_id
          | None => True
          end
      | Raise (Raised _) => True end).
    { unfold fail_closed, mbind, eff_bind, escalate. intros err H.
      destruct (_handle_runtime_error _ _ _ _ _ err s1) as [[[stop rq]|e0] s2] eqn:Eh; injection H as <- <-; [|done].
      apply handle_runtime_error_recorded in Eh as [Hrec Hrq]. exists stop. done. }
    destruct e; cbn [is_runtime_failure]; intros H;
      try (by injection H as <- <-); try (by apply Hfail in H; destruct r as [|[]]).
    destruct r as [res|e].
    + apply eff_bind_Ok in H as (response & s2 & Hc & H). injection H as <- <-. apply escalate_Ok in Hc.
      apply cancel_run_recorded in Hc. split; [done|]. by right.
    + apply eff_bind_Raise in H as [H|(? & ? & _ & H)]; [|discriminate H].
      by apply escalate_Raise in H as (e0 & -> & _).
Qed.
End outcomes.

Section sealed.
Context {X : Type} `{!Services X}.
Context (artifacts : JsonArtifactStore) (clock : nat -> datetime) (json_loads : string -> res value)
        (sha256 : string -> string)
        (registry : SkillHandlerRegistry) (checker : option (string -> world -> res bool)).

(** The artifact a start result names reads back with the digest it records. *)
Definition sealed (sr : RuntimeStartResult) (w : world) : Prop :=
  exists d, (read_json artifacts json_loads (profile_uri sr) (w_files w)).1 = Ok (VDict d) /\
    _profile_sha256 sha256 d = profile_digest sr.

Lemma read_json_files (uri : string) fs : (read_json artifacts json_loads uri fs).2 = fs.
Proof.
  assert (H : preserves (fun a b : files => b = a) (read_json artifacts json_loads uri)); [|exact (H fs)].
  assert (PreOrder (fun a b : files => b = a)) by (split; [done|intros x y z; congruence]).
  unfold read_json. preserves_tac.
Qed.

Lemma read_artifact_world uri (h h' : host X) v :
  escalate (host_world (on_files (read_json artifacts json_loads uri))) h = (v, h') ->
  h' = h /\ v = match (read_json artifacts json_loads uri (w_files (h_world h))).1 with
                Ok x => Ok x | Raise e => Raise (Raised e) end.
Proof.
  unfold escalate, host_world, on_files, zoom. pose proof (read_json_files uri (w_files (h_world h))) as Hf.
  destruct (read_json _ _ uri _) as [r fs]. cbn [snd fst] in *. subst fs. intros [= <- <-].
  split; [|done]. by destruct h as [[] ?].
Qed.

Lemma assert_profile_seal_Ok sr (h h' : host X) :
  _assert_profile_seal artifacts json_loads sha256 sr h = (Ok tt, h') -> h' = h /\ sealed sr (h_world h).
Proof.
  unfold _assert_profile_seal. intros H. apply eff_bind_Ok in H as (v & h1 & Hr & H).
  apply read_artifact_world in Hr as [-> Hv].
  destruct (read_json _ _ _ _).1 as [x|e] eqn:Er; [|done]. injection Hv as <-.
  destruct v; try discriminate H. injection H as H <-. apply raise_if_Ok, negb_false_iff, String.eqb_eq in H.
  split; [done|]. by exists d.
Qed.

Lemma assert_profile_seal_Raise sr (h h' : host X) e :
  _assert_profile_seal artifacts json_loads sha256 sr h = (Raise e, h') ->
  h' = h /\ match e with
            | RuntimeLoopError _ stop rq => stop = Some "profile_integrity_failure" /\ rq = None
            | Raised _ => True
            end.
Proof.
  unfold _assert_profile_seal. intros H. apply eff_bind_Raise in H as [H|(v & h1 & Hr & H)].
  - apply escalate_Raise in H as He. destruct He as (e0 & -> & _). by apply read_artifact_world in H as [-> _].
  - apply read_artifact_world in Hr as [-> _]. destruct v; try (by injection H as <- <-).
    injection H as H <-. by apply raise_if_Raise in H as [_ <-].
Qed.

Lemma sealed_passes sr (h : host X) :
  sealed sr (h_world h) -> (_assert_profile_seal artifacts json_loads sha256 sr h).1 = Ok tt.
Proof.
  intros (d & Hr & Hd). unfold _assert_profile_seal.
  destruct (escalate (host_world (on_files (read_json artifacts json_loads (profile_uri sr)))) h) as [v h1] eqn:E.
  unfold mbind, eff_bind. rewrite E. apply read_artifact_world in E as [-> ->]. rewrite Hr.
  unfold lift. cbn [fst]. by rewrite Hd, String.eqb_refl.
Qed.

(** A sealed profile stops at the enforcer, or is a run of the steps. *)
Lemma loop_run_sealed sr (h h' : host X) r :
  loop_run artifacts clock json_loads sha256 registry checker sr h = (r, h') -> sealed sr (h_world h) ->
  (h_world h' = h_world h /\ exists e, r = Raise (Raised e)) \/
  exists now x e s', Enforcement.init (sr_profile sr) now = Ok e /\
    run_body artifacts clock json_loads registry checker (sr_run_id sr) (task_id (analyzed_task sr)) (sr_profile sr)
      (mkRunState (h_world h) x e 0) = (r, s') /\ h' = mkHost (r_world s') (r_ext s').
Proof.
  intros H Hs%sealed_passes. unfold loop_run in H. unfold mbind at 1, eff_bind at 1 in H.
  destruct (_assert_profile_seal _ _ _ sr h) as [v h1] eqn:Es. cbn [fst] in Hs. subst v.
  apply assert_profile_seal_Ok in Es as [-> _]. revert H. unfold mbind, eff_bind, escalate at 1.
  unfold host_ext, zoom, read_monotonic. destruct (monotonic (h_ext h)) as [now x].
  unfold escalate, lift. destruct (Enforcement.init (sr_profile sr) now) as [e|ex] eqn:Ei;
    [|intros [= <- <-]; left; split; [done|by exists ex]].
  unfold with_enforcer. cbn [h_world h_ext]. destruct (run_body _ _ _ _ _ _ _ _ _) as [r' s'] eqn:E.
  intros [= <- <-]. right. exists now, x, e, s'. done.
Qed.

(** A run stops at the seal, stops at the enforcer, or is a run of the steps. *)
Lemma loop_run_cases sr (h h' : host X) r :
  loop_run artifacts clock json_loads sha256 registry checker sr h = (r, h') ->
  (h' = h /\ exists msg, r = Raise (RuntimeLoopError msg (Some "profile_integrity_failure") None)) \/
  (h_world h' = h_world h /\ exists e, r = Raise (Raised e)) \/
  (sealed sr (h_world h) /\ exists now x e s', Enforcement.init (sr_profile sr) now = Ok e /\
     run_body artifacts clock json_loads registry checker (sr_run_id sr) (task_id (analyzed_task sr)) (sr_profile sr)
       (mkRunState (h_world h) x e 0) = (r, s') /\ h' = mkHost (r_world s') (r_ext s')).
Proof.
  intros H. destruct (_assert_profile_seal artifacts json_loads sha256 sr h) as [[[]|e] h1] eqn:Es.
  - apply assert_profile_seal_Ok in Es as [_ Hs]. destruct (loop_run_sealed sr h h' r H Hs) as [Hr|Hr]; [right; left; exact Hr|right; right; split; [exact Hs|exact Hr]].
  - revert H. unfold loop_run. unfold mbind at 1, eff_bind at 1. rewrite Es. intros [= <- <-].
    apply assert_profile_seal_Raise in Es as [-> He].
    destruct e as [msg stop rq|ex]; [|right; left; split; [done|by exists ex]]. left. destruct He as [-> ->]. eauto.
Qed.

(** A profile that is not sealed is not run. *)
Lemma loop_run_unsealed sr (h : host X) : ~ sealed sr (h_world h) ->
  (loop_run artifacts clock json_loads sha256 registry checker sr h).2 = h /\
  exists e, (loop_run artifacts clock json_loads sha256 registry checker sr h).1 = Raise e.
Proof.
  intros Hs. destruct (loop_run artifacts clock json_loads sha256 registry checker sr h) as [r h'] eqn:E. cbn [fst snd].
  revert E. unfold loop_run. unfold mbind at 1, eff_bind at 1.
  destruct (_assert_profile_seal _ _ _ sr h) as [[[]|e] h1] eqn:Es.
  - by apply assert_profile_seal_Ok in Es as [_ Hs'].
  - apply assert_profile_seal_Raise in Es as [-> _]. intros [= <- <-]. split; [done|by exists e].
Qed.

(** A run writes its own records only. *)
Lemma loop_run_log sr (h : host X) :
  log_step (h_world h) (h_world (loop_run artifacts clock json_loads sha256 registry checker sr h).2).
Proof.
  destruct (loop_run _ _ _ _ _ _ sr h) as [r h'] eqn:E. cbn [snd].
  apply loop_run_cases in E as [(-> & _)|[(-> & _)|(_ & now & x & e & s' & _ & E & ->)]]; [reflexivity..|].
  pose proof (run_body_step (fun _ => 0%Z) still_meter artifacts clock json_loads registry checker (sr_run_id sr)
    (task_id (analyzed_task sr)) (sr_profile sr) (mkRunState (h_world h) x e 0)) as H.
  rewrite E in H. apply (rs_log _ _ _ H).
Qed.
End sealed.

(** ** The sealed profile stays as it was written *)

Section seal_kept.
Context {X : Type} `{!Services X}.
Context (artifacts : JsonArtifactStore) (clock : nat -> datetime) (json_loads : string -> res value)
        (sha256 : string -> string) (environment : string).

(** Nothing below [profiles] changes. *)
Definition keeps_profiles (w w' : world) : Prop :=
  forall q, head q = Some "profiles" -> w_files w' !! q = w_files w !! q.
#[export] Instance keeps_profiles_preorder : PreOrder keeps_profiles.
Proof. split; [done|]. intros a b c H1 H2 q Hq. by rewrite H2, H1. Qed.

Lemma on_store_keeps_profiles {A} (m : st A) : preserves keeps_profiles (on_store m).
Proof. intros w. unfold on_store, zoom. by destruct (m (w_store w)), w. Qed.
Lemma iso_now_keeps_profiles : preserves keeps_profiles (iso_now clock).
Proof. intros w. done. Qed.
Lemma write_traces_keeps run_id part file v red : part <> "" ->
  preserves keeps_profiles (on_files (write_json artifacts ["traces"; run_id; part; file] v red)).
Proof.
  intros Hpart w q Hq. unfold on_files, zoom.
  pose proof (write_json_keeps artifacts "traces" part [run_id; part; file] v red (w_files w) q) as H.
  destruct (write_json _ _ v red (w_files w)) as [r fs]. cbn in H |- *. apply H; [done|done|by right; left|].
  rewrite Hq. vm_compute. done.
Qed.
Hint Resolve on_store_keeps_profiles iso_now_keeps_profiles : preserves.
Lemma write_event_payload_keeps run i ty slot v red :
  preserves keeps_profiles (_write_event_payload artifacts run i ty slot v red).
Proof.
  unfold _write_event_payload. destruct v; preserves_tac; by apply write_traces_keeps.
Qed.
Hint Resolve write_event_payload_keeps : preserves.
Lemma record_event_keeps run ty actor e : preserves keeps_profiles (record_event artifacts clock run ty actor e).
Proof. unfold record_event, _event_record. preserves_tac. Qed.
Hint Resolve record_event_keeps : preserves.
Lemma checkpoint_keeps run ph v step n red :
  preserves keeps_profiles (checkpoint artifacts clock run ph v step n red).
Proof. unfold checkpoint. preserves_tac. by apply write_traces_keeps. Qed.
Lemma start_run_keeps t p run st o : preserves keeps_profiles (start_run artifacts clock t p run st o).
Proof. unfold start_run. preserves_tac. Qed.
Hint Resolve checkpoint_keeps start_run_keeps : preserves.

Definition host_keeps (h h' : host X) : Prop := keeps_profiles (h_world h) (h_world h').
#[export] Instance host_keeps_preorder : PreOrder host_keeps.
Proof. split; [intros h; apply keeps_profiles_preorder|]. intros a b c. unfold host_keeps. apply keeps_profiles_preorder. Qed.
Lemma host_world_keeps {A} (m : rt A) : preserves keeps_profiles m -> preserves host_keeps (host_world (X := X) m).
Proof. by apply preserves_zoom. Qed.
Hint Resolve host_world_keeps : preserves.
Lemma record_start_keeps run_id t creq cresp p uri sha red :
  preserves host_keeps (record_start (X := X) artifacts clock run_id t creq cresp p uri sha red).
Proof. unfold record_start, entry_event. preserves_tac. Qed.

(** Sealing writes the profile as it is, when no text of it is long enough to
    be chunked. *)
Lemma seal_profile_file p i (h h' : host X) uri digest :
  ditem "id" p = Ok (VStr i) -> i <> "" ->
  small_strings (chunk_string_threshold_bytes artifacts) (VDict p) = true ->
  _seal_profile artifacts sha256 p h = (Ok (uri, digest), h') ->
  digest = _profile_sha256 sha256 p /\
  exists q, head q = Some "profiles" /\ Forall safe_component q /\ uri = uri_for_raw artifacts q /\
    w_files (h_world h') !! q = Some (FJson (stored_json (VDict p))).
Proof.
  intros Hid Hi Hsmall H. unfold _seal_profile in H. cbv zeta in H. rewrite Hid, eff_lift_Ok in H.
  apply eff_bind_Ok in H as (u & h2 & Hw & H). injection H as <- <- <-. split; [done|].
  unfold host_world, on_files, zoom in Hw. cbn [py_str] in Hw.
  set (parts := ["profiles"; i; _profile_sha256 sha256 p]) in *.
  destruct (write_json artifacts parts (VDict p) false (w_files (h_world h))) as [[u'|e] fs] eqn:E; [|discriminate Hw].
  injection Hw as -> <-. apply write_json_file in E as (base & x & s1 & Hb & Hx & Hf & Hne & ->).
  rewrite (small_not_chunked _ _ _ _ _ Hsmall) in Hx. injection Hx as <- _.
  exists (_relative_path parts). split_and!; try done; [|apply relative_path_safe].
  destruct (relative_path_head "profiles" i [i; _profile_sha256 sha256 p]) as (dirs & file & E); [done|done|by left|].
  unfold parts. by rewrite E.
Qed.

Lemma composed_id t c g parent reason p :
  compose t c g parent reason = Ok p -> exists i, ditem "id" p = Ok (VStr i) /\ i <> "".
Proof.
  intros H. apply compose_composed in H as [_ _ (ps & m & a & hr & roles & pins & fp & _ & _ & _ & _ & _ & _ & ->)].
  exists (_profile_id (task_id t) g). split; [done|]. unfold _profile_id. by destruct (g <=? 1)%Z.
Qed.

Lemma start_sealed task o (h h' : host X) sr :
  start artifacts clock sha256 environment task o h = (Ok sr, h') ->
  small_strings (chunk_string_threshold_bytes artifacts) (VDict (sr_profile sr)) = true ->
  (read_json artifacts json_loads (profile_uri sr) (w_files (h_world h'))).1 = Ok (stored_json (VDict (sr_profile sr))) /\
  profile_digest sr = _profile_sha256 sha256 (sr_profile sr).
Proof.
  unfold start. intros H Hsmall. apply eff_bind_Ok in H as ([] & h1 & _ & H).
  apply eff_bind_Ok in H as (t & h2 & _ & H). cbv zeta in H. apply eff_bind_Ok in H as (c & h3 & _ & H).
  apply eff_bind_Ok in H as ([] & h4 & _ & H). apply eff_bind_Ok in H as (p & h5 & Hp & H). injection Hp as Hp _.
  apply eff_bind_Ok in H as ([uri digest] & h6 & Hs & H). apply eff_bind_Ok in H as (g & h7 & Hg & H).
  injection Hg as _ <-. apply eff_bind_Ok in H as (run & h8 & Hr & H). apply eff_bind_Ok in H as (id & h9 & Hid & H).
  injection Hid as _ <-. apply eff_bind_Ok in H as ([] & h10 & Hrec & H). injection H as <- <-.
  cbn [sr_profile profile_uri profile_digest fst snd] in *.
  destruct (composed_id _ _ _ _ _ _ Hp) as (i & Hi & Hne).
  destruct (seal_profile_file p i h5 h6 uri digest Hi Hne Hsmall Hs) as (-> & q & Hq & Hsafe & -> & Hf).
  assert (Hk : host_keeps h6 h10).
  { etrans; [eapply preserves_elim; [apply host_world_keeps, start_run_keeps|exact Hr]|].
    eapply preserves_elim; [apply record_start_keeps|exact Hrec]. }
  split; [|done]. rewrite (read_json_at artifacts json_loads q _ (stored_json (VDict p))); [done|by destruct q|done|].
  by rewrite (Hk q Hq).
Qed.
End seal_kept.

(** ** A task from start to end *)

Definition demo_services : Services nat := {|
  monotonic := fun n => (0%Z, n);
  tool_adapters := [("git-read", fun _ n => (Ok [("stdout", VStr "clean")], S n));
                    ("filesystem-read", fun _ n => (Ok [("text", VStr "readme")], S n))];
  retrieval_context := None; composition_context := None; error_judge := None |}.
(** The composition context of a review that may also read files. *)
Definition demo_response : odict value :=
  od_update (review_response demo_authority)
    [("graph_validation", VDict [("is_valid", VBool true);
        ("reachable_modules", VList [module_ref "tool" "git-read"; module_ref "tool" "filesystem-read"])]);
     ("candidate_modules", VList [module_ref "skill" "git-diff-analysis"; module_ref "tool" "git-read";
        module_ref "tool" "filesystem-read"]);
     ("policy_decisions", VList [ProfileComposer.decision "git-read" "allow";
        ProfileComposer.decision "filesystem-read" "allow"])].
Definition demo_clock (n : nat) : datetime := Z.of_nat n.
Definition demo_loads (s : string) : res value := Raise (ValueError "no text files").
Definition demo_sha256 (s : string) : string := s.
Definition demo_registry : SkillHandlerRegistry :=
  match builtin_skill_handler_registry with Ok r => r | Raise _ => mkSkillHandlerRegistry ∅ ∅ end.
Definition demo_start (response : odict value) : result exn RuntimeStartResult * host nat :=
  start (Services0 := demo_services) demo_gateway_store demo_clock demo_sha256 "development" review_task
    (initial_start (Some response) None) (mkHost (mkWorld empty_store ∅ 0) 0%nat).
Definition started (response : odict value) : RuntimeStartResult :=
  match (demo_start response).1 with
  | Ok r => r
  | Raise _ => mkStartResult "" demo_analyzed [] [] [] "" ""
  end.
Definition demo_loop_run (sr : RuntimeStartResult) (h : host nat) : result loop_exn RuntimeLoopResult * host nat :=
  loop_run (Services0 := demo_services) demo_gateway_store demo_clock demo_loads demo_sha256 demo_registry None sr h.

Definition outcome_of {E} (r : result E RuntimeLoopResult) : string * string :=
  match r with Ok res => (lr_status res, lr_stop_reason res) | Raise _ => (EmptyString, EmptyString) end.

(** Both tools of the review run, and it succeeds. *)
Example demo_succeeds :
  let '(r, h) := demo_loop_run (started demo_response) (demo_start demo_response).2 in
  outcome_of r = ("succeeded", "completed") /\ h_ext h = 2%nat.
Proof. vm_compute. split; reflexivity. Qed.

(** Without the file tool the plan's second call is denied and the run fails. *)
Example demo_denied :
  let response := review_response demo_authority in
  match demo_loop_run (started response) (demo_start response).2 with
  | (Raise (RuntimeLoopError _ stop None), h) => stop = Some "policy_denied" /\ h_ext h = 1%nat
  | _ => False
  end.
Proof. vm_compute. split; reflexivity. Qed.

(** The seal covers the stored artifact, not the profile that is enforced: a
    start result whose profile was changed after sealing passes the check. *)
Definition with_profile (p : odict value) (sr : RuntimeStartResult) : RuntimeStartResult :=
  mkStartResult (sr_run_id sr) (analyzed_task sr) (composition_context_request sr) (composition_context_response sr)
    p (profile_uri sr) (profile_digest sr).
Lemma seal_ignores_profile {X} artifacts json_loads sha256 sr p (h : host X) :
  _assert_profile_seal artifacts json_loads sha256 (with_profile p sr) h
  = _assert_profile_seal artifacts json_loads sha256 sr h.
Proof. done. Qed.

(** A profile that asks for a recomposition on denial gets one further attempt. *)
Definition recomposing (sr : RuntimeStartResult) : RuntimeStartResult :=
  with_profile (od_set "failure_policy" (VDict [("on_policy_denial", VStr "recompose_once")]) (sr_profile sr)) sr.
Example demo_recomposes :
  let narrow := review_response demo_authority in
  match (run_with_recomposition (Services0 := demo_services) demo_gateway_store demo_clock demo_loads demo_sha256
           demo_registry None "development" 2 (recomposing (started narrow)) review_task (Some demo_response)
           (demo_start narrow).2).1 with
  | Ok (Some res) => attempt_run_ids res = ["run-id-9"; "run-id-9-generation-2"] /\
                     length (recomposed_profile_ids res) = 1%nat /\ lr_status res = "succeeded"
  | _ => False
  end.
Proof. vm_compute. split_and!; reflexivity. Qed.

(** No composed profile asks for one. *)
Lemma composed_failure_policy t c g parent reason p :
  compose t c g parent reason = Ok p ->
  exists fp, In fp [DEFAULT_FAILURE_POLICY; HUMAN_REVIEW_FAILURE_POLICY] /\
    dget "failure_policy" (VDict []) p = VDict fp.
Proof.
  unfold compose. intros ([] & _ & H)%bind_Ok. apply bind_Ok in H as ([] & _ & H).
  destruct (requires_human_review t).
  - apply bind_Ok in H as (review & Hr & H). apply bind_Ok in H as ([] & _ & [= <-]).
    unfold _human_review_profile in Hr. exists HUMAN_REVIEW_FAILURE_POLICY. split; [by right; left|].
    repeat (apply bind_Ok in Hr as (? & _ & Hr)). by injection Hr as <-.
  - cbv zeta in H. repeat (apply bind_Ok in H as (? & _ & H)). injection H as <-.
    exists DEFAULT_FAILURE_POLICY. split; [by left|done].
Qed.
Lemma composed_never_recomposes t c g parent reason p e :
  compose t c g parent reason = Ok p -> _profile_allows_recomposition p e = false.
Proof.
  intros (fp & Hfp & E)%composed_failure_policy. unfold _profile_allows_recomposition. rewrite E.
  unfold _failure_policy_field. cbv zeta.
  destruct Hfp as [<-|[<-|[]]];
    (destruct (is_validation_error e); [done|]; destruct (String.eqb _ _); [done|]; by destruct (startswith _ _)).
Qed.

(** ** Properties *)

(** C7. The loop over recomposed profiles ends. Whatever the start result, the
    task and the services, it makes two attempts at most: a recomposed profile
    is of generation two or more and has no recomposition left, so fuel two is
    enough and more changes nothing. A result lists the attempts that were made
    and one recomposed profile per attempt after the first. *)
Theorem recomposition_terminates {X} `{!Services X} artifacts clock json_loads sha256 registry checker environment
    fuel sr task c (h : host X) :
  run_with_recomposition artifacts clock json_loads sha256 registry checker environment (2 + fuel)%nat sr task c h
  = run_with_recomposition artifacts clock json_loads sha256 registry checker environment 2%nat sr task c h /\
  match (run_with_recomposition artifacts clock json_loads sha256 registry checker environment 2%nat sr task c h).1 with
  | Ok (Some res) => (1 <= length (attempt_run_ids res) <= 2)%nat /\
                     S (length (recomposed_profile_ids res)) = length (attempt_run_ids res) /\
                     head (attempt_run_ids res) = Some (sr_run_id sr)
  | Ok None => False
  | Raise _ => True
  end.
Proof.
  unfold run_with_recomposition. change (2 + fuel)%nat with (S (S fuel)).
  rewrite !recomposition_loop_S.
  destruct (loop_run _ _ _ _ _ _ sr h) as [[res|[msg stop [rq|]|e]] h1];
    [split; [done|cbn; split_and!; lia || done]| |by split..].
  destruct (continue_recomposition _ _ _ _ _ _ _ _ h1) as [[next|e] h2] eqn:En; [|by split].
  destruct (ditem "id" (sr_profile next)) as [id|e]; [|by split].
  rewrite !(last_attempt _ _ _ _ _ _ _ _ _ _ _ _ _ _ _ _ _ _ _ En).
  destruct (loop_run _ _ _ _ _ _ next h2) as [[res|e] h3]; split; try done; cbn. split_and!; lia || done.
Qed.

(** C2. Tool adapters run within budget. Whatever the services answer, and
    however a run with its recompositions ends, the adapters have been called
    no more often than the first profile's [max_tool_calls] and the composer's
    limit for a recomposed profile allow together; one attempt alone, no more
    often than its own profile allows. *)
Theorem tool_calls_within_budget {X} (services : Services X) artifacts clock json_loads sha256 registry checker
    environment fuel sr task c w x :
  let h : host (X * Z) := mkHost w (x, 0%Z) in
  let attempt := loop_run (Services0 := counted services) artifacts clock json_loads sha256 registry checker sr h in
  let run := run_with_recomposition (Services0 := counted services) artifacts clock json_loads sha256 registry checker
               environment fuel sr task c h in
  ((h_ext attempt.2).2 <= tool_budget (sr_profile sr))%Z /\
  ((h_ext run.2).2 <= tool_budget (sr_profile sr) + 30)%Z.
Proof.
  cbv zeta. set (h := mkHost w (x, 0%Z)). pose proof (counted_meter services) as Hm.
  assert (Hrun : forall sr (h : host (X * Z)),
    ((h_ext (loop_run (Services0 := counted services) artifacts clock json_loads sha256 registry checker sr h).2).2
     - (h_ext h).2 <= tool_budget (sr_profile sr))%Z).
  { intros sr' h'. apply (loop_run_cost (Services0 := counted services) snd Hm). }
  assert (Hb : (0 <= tool_budget (sr_profile sr))%Z) by (unfold tool_budget; destruct (profile_limit _ _); lia).
  specialize (Hrun sr h) as H1. cbn [h h_ext snd] in H1. split; [subst h; lia|].
  unfold run_with_recomposition. destruct fuel as [|fuel]; [cbn; lia|]. rewrite recomposition_loop_S.
  destruct (loop_run _ _ _ _ _ _ sr h) as [[res|[msg stop [rq|]|e]] h1]; cbn [snd] in *; try lia.
  pose proof (continue_cost (Services0 := counted services) snd Hm artifacts clock sha256 environment task (inl rq) c None h1) as Hc.
  unfold same_cost in Hc.
  destruct (continue_recomposition _ _ _ _ _ _ _ _ h1) as [[next|e] h2] eqn:En; cbn [snd] in *; [|lia].
  destruct (ditem "id" (sr_profile next)) as [id|e]; cbn [snd]; [|lia].
  destruct fuel as [|fuel]; [cbn; lia|].
  rewrite (last_attempt _ _ _ _ _ _ _ _ _ _ _ _ _ _ _ _ _ _ _ En).
  apply continue_tool_budget in En. specialize (Hrun next h2).
  destruct (loop_run _ _ _ _ _ _ next h2) as [[res|e] h3]; cbn [snd] in *; lia.
Qed.

(** C6. The outcome of a run is on record. A profile whose artifact does not read
    back with the recorded digest is not run: the call raises and touches
    nothing. When a run returns, its record in the store is at rest with the
    status and stop reason it reports; when it raises [RuntimeLoopError] under a
    sealed profile, the record says failed, with that stop reason, and a request
    for a recomposed profile names this run and its task. *)
Theorem run_outcome_recorded {X} `{!Services X} artifacts clock json_loads sha256 registry checker sr (h : host X) :
  let result := loop_run artifacts clock json_loads sha256 registry checker sr h in
  let recorded status reason := run_recorded (sr_run_id sr) status reason (h_world result.2) in
  (~ sealed artifacts json_loads sha256 sr (h_world h) -> result.2 = h /\ exists e, result.1 = Raise e) /\
  (sealed artifacts json_loads sha256 sr (h_world h) ->
   match result.1 with
   | Ok res => lr_run_id res = sr_run_id sr /\ recorded (lr_status res) (lr_stop_reason res) /\
       In (lr_status res) ["succeeded"; "cancelled"]
   | Raise (RuntimeLoopError _ stop request) =>
       exists reason, stop = Some reason /\ recorded "failed" reason /\
         match request with
         | Some r => reason = "needs_recomposition" /\ source_run_id r = sr_run_id sr /\
                     rr_task_id r = task_id (analyzed_task sr)
         | None => True
         end
   | Raise (Raised _) => True
   end).
Proof.
  cbv zeta. split.
  - intros Hs. by apply loop_run_unsealed.
  - intros Hs. destruct (loop_run _ _ _ _ _ _ sr h) as [r h'] eqn:E. cbn [fst snd].
    apply loop_run_sealed in E as [(_ & e & ->)|(now & x & e & s' & _ & E & ->)]; [done| |done].
    apply run_body_cases in E. destruct r as [res|[msg stop rq|ex]]; [|exact E|done].
    destruct E as [Hid [(-> & -> & Hrec & _)|(-> & -> & Hrec)]]; (split; [exact Hid|split; [exact Hrec|]]);
      [by left|by right; left].
Qed.

(** C16. A started run's seal holds. When no text of the profile exceeds the
    chunking threshold of the store, what start leaves under the profile's
    address reads back as the profile (its keys sorted), and its canonical text
    has the digest the start result records: the check a run begins with passes. *)
Theorem seal_round_trip {X} `{!Services X} artifacts clock json_loads sha256 environment task o (h h' : host X) sr :
  start artifacts clock sha256 environment task o h = (Ok sr, h') ->
  small_strings (chunk_string_threshold_bytes artifacts) (VDict (sr_profile sr)) = true ->
  (read_json artifacts json_loads (profile_uri sr) (w_files (h_world h'))).1 = Ok (stored_json (VDict (sr_profile sr))) /\
  sealed artifacts json_loads sha256 sr (h_world h') /\
  (_assert_profile_seal artifacts json_loads sha256 sr h').1 = Ok tt.
Proof.
  intros H Hsmall. destruct (start_sealed artifacts clock json_loads sha256 environment _ _ _ _ _ H Hsmall) as [Hr Hd].
  split; [exact Hr|]. assert (Hs : sealed artifacts json_loads sha256 sr (h_world h')).
  { cbn [stored_json] in Hr. eexists. split; [exact Hr|]. rewrite Hd. unfold _profile_sha256. f_equal.
    apply (canonical_stored (VDict (sr_profile sr))). }
  split; [exact Hs|]. by apply sealed_passes.
Qed.

Lemma seal_round_trip_witness :
  sealed demo_gateway_store demo_loads demo_sha256 (started demo_response) (h_world (demo_start demo_response).2).
Proof.
  refine (proj1 (proj2 (seal_round_trip (Services0 := demo_services) demo_gateway_store demo_clock demo_loads demo_sha256
    "development" review_task (initial_start (Some demo_response) None) (mkHost (mkWorld empty_store ∅ 0) 0%nat)
    (demo_start demo_response).2 (started demo_response) _ _))).
  - fold (demo_start demo_response). unfold started.
    assert (Hok : is_ok (demo_start demo_response).1 = true) by (vm_compute; reflexivity).
    destruct (demo_start demo_response) as [[sr|e] h']; [reflexivity|discriminate Hok].
  - vm_compute. reflexivity.
Defined.

(** In a store that chunks long texts, a long objective breaks the seal: the
    artifact holds a reference where the profile has the text. *)
Definition chunking_store : JsonArtifactStore := mkJsonArtifactStore ["srv"; "artifacts"] "hetzner://runtime" 64 32.
Definition long_task : odict value :=
  od_set "request" (VStr "Review the diff of the parser and of the printer, line by line and file by file") review_task.
Example long_text_breaks_seal :
  match start (Services0 := demo_services) chunking_store demo_clock demo_sha256 "development" long_task
          (initial_start (Some demo_response) None) (mkHost (mkWorld empty_store ∅ 0) 0%nat) with
  | (Ok sr, h) => match (_assert_profile_seal chunking_store demo_loads demo_sha256 sr h).1 with
                  | Raise (RuntimeLoopError _ stop _) => stop = Some "profile_integrity_failure"
                  | _ => False
                  end
  | _ => False
  end.
Proof. vm_compute. reflexivity. Qed.

(** C1. No run succeeds unchecked. A run that reports success read a profile
    artifact matching the recorded digest and ran under a profile that satisfies
    the enforcer's contract; its plan was made under that profile's authority;
    its execution is what the gateway gave for the plan's actions, one after the
    other; and every validator the profile names is registered, ran on that
    execution and the response made from it, and did not fail. *)
Theorem succeeded_run_checked {X} `{!Services X} artifacts clock json_loads sha256 registry checker sr (h h' : host X) res :
  loop_run artifacts clock json_loads sha256 registry checker sr h = (Ok res, h') ->
  lr_status res = "succeeded" ->
  let p := sr_profile sr in
  sealed artifacts json_loads sha256 sr (h_world h) /\ validate_profile p = Ok tt /\
  exists e plan context execution response c,
    profile e = p /\ (build_runtime_plan registry p e).1 = Ok plan /\
    followed artifacts clock json_loads checker (sr_run_id sr) p plan execution /\
    runtime_response (sr_run_id sr) (task_id (analyzed_task sr)) p context plan execution = Ok response /\
    validated p execution response /\
    lr_response res = od_set "error_classification" (VDict c) response.
Proof.
  cbv zeta. intros H Hst.
  apply loop_run_cases in H as [(_ & msg & [=])|[(_ & e & [=])|(Hs & now & x & e & s' & He & E & _)]].
  split; [exact Hs|]. apply init_fields in He as [Hp _].
  apply run_body_cases in E as [_ [(_ & _ & _ & plan & execution & response & s1 & c & Hsteps & Hc)|(Hcan & _)]];
    [|congruence].
  apply run_steps_Ok in Hsteps as (Hv & (en & Hen & Hplan) & Hf & Hval & context & Hr).
  cbn [r_enforcer] in *. rewrite Hp in *. split; [exact Hv|].
  by exists en, plan, context, execution, response, c.
Qed.

Lemma succeeded_run_checked_witness :
  exists res, (demo_loop_run (started demo_response) (demo_start demo_response).2).1 = Ok res /\
    validate_profile (sr_profile (started demo_response)) = Ok tt.
Proof.
  destruct (demo_loop_run (started demo_response) (demo_start demo_response).2) as [[res|e] h'] eqn:E.
  - exists res. split; [reflexivity|].
    refine (proj1 (proj2 (succeeded_run_checked (Services0 := demo_services) demo_gateway_store demo_clock demo_loads
      demo_sha256 demo_registry None (started demo_response) (demo_start demo_response).2 h' res E _))).
    assert (H : (outcome_of (demo_loop_run (started demo_response) (demo_start demo_response).2).1).1 = "succeeded")
      by (vm_compute; reflexivity).
    rewrite E in H. exact H.
  - assert (H : is_ok (demo_loop_run (started demo_response) (demo_start demo_response).2).1 = true)
      by (vm_compute; reflexivity).
    rewrite E in H. discriminate H.
Defined.

(** C15. A run leaves its record and nothing else. Whatever happens in it, the
    trace it found stays as it was and in order, its own events are appended,
    and no queue item, attempt, claim, dead letter or quota reservation is
    touched: those are the worker's. *)
Theorem run_keeps_trace_and_queue {X} `{!Services X} artifacts clock json_loads sha256 registry checker sr (h : host X) :
  trace_ok (w_store (h_world h)) ->
  trace_ok (w_store (h_world (loop_run artifacts clock json_loads sha256 registry checker sr h).2)) /\
  same_queue (w_store (h_world h)) (w_store (h_world (loop_run artifacts clock json_loads sha256 registry checker sr h).2)) /\
  exists new, runtime_events (w_store (h_world (loop_run artifacts clock json_loads sha256 registry checker sr h).2))
              = runtime_events (w_store (h_world h)) ++ new.
Proof.
  intros Hok. destruct (loop_run_log artifacts clock json_loads sha256 registry checker sr h) as [[H1 H2] H3].
  auto.
Qed.

Lemma run_keeps_trace_and_queue_witness :
  trace_ok empty_store /\
  trace_ok (w_store (h_world (demo_loop_run (started demo_response) (mkHost (mkWorld empty_store ∅ 0) 0%nat)).2)).
Proof.
  split; [exact trace_ok_empty|].
  refine (proj1 (run_keeps_trace_and_queue (Services0 := demo_services) demo_gateway_store demo_clock demo_loads
    demo_sha256 demo_registry None (started demo_response) (mkHost (mkWorld empty_store ∅ 0) 0%nat) _)).
  exact trace_ok_empty.
Defined.
