(* ===== verification/Worker.v ===== *)
(** * The queue worker

    Models [RuntimeQueueWorker] of [runtime/queue.py]. The worker claims an
    item, starts a run for its task, reserves the tenant's quota, runs it, and
    settles the item, the attempt, the claim and the reservation according to
    how the run ended. Five exception classes are such an end; any other one
    leaves [process_one] and stops the worker. *)

From S2P Require Import Prelude PyStr PyFloat PyValue Models Enforcement TaskAnalyzer ProfileComposer RuntimeStore Artifacts Json Clock FlightRecorder Quotas Queue SkillHandlers Host Context ToolGateway EntryPoint Loop LoopCorrect.
Open Scope string_scope.
Open Scope list_scope.

Record RuntimeQueueProcessResult := mkProcessResult {
  pr_queue_id : string;
  pr_status : value;
  pr_run_id : string;
  pr_stop_reason : value;
  pr_attempt_id : string;
}.

(** The exceptions the worker treats as an outcome of the run. *)
Definition handled_by_worker (error : loop_exn) : bool :=
  match error with
  | RuntimeLoopError _ _ _ => true
  | Raised (CompositionError _) | Raised (RuntimeQueueError _) | Raised (RuntimeQuotaError _ _)
  | Raised (RuntimeTenantStatusError _) => true
  | Raised _ => false
  end.

(** [getattr(error, "stop_reason", "runtime_error")] *)
Definition worker_stop_reason (error : loop_exn) : value :=
  match error with
  | RuntimeLoopError _ stop_reason _ => opt_str stop_reason
  | Raised e => match stop_reason_of e with Some r => VStr r | None => VStr "runtime_error" end
  end.

(** An error as the queue manager sees it: its class name and its message. *)
Definition as_exn (error : loop_exn) : exn :=
  match error with RuntimeLoopError msg _ _ => OtherError "RuntimeLoopError" msg | Raised e => e end.

(** The identifiers of a claimed attempt. *)
Record claimed := mkClaimed {
  c_item : record;
  c_queue_id : string;
  c_run_id : string;
  c_attempt_id : string;
  c_claim_id : string;
}.

Section worker.
Context {X : Type} `{!Services X}.
Context (artifacts : JsonArtifactStore) (clock : nat -> datetime) (json_loads : string -> res value)
        (sha256 : string -> string) (float_pow : float -> Z -> res float) (jitter : string -> Z -> Z).
Context (registry : SkillHandlerRegistry) (worker_id : string) (config : RuntimeQueueConfig).

Abbreviation worked A := (eff (host X) loop_exn A).
Definition worker_world {A} (m : rt A) : worked A := escalate (host_world m).
Definition worker_store {A} (m : st A) : worked A := worker_world (on_store m).

Definition _queue_item_is_cancelled (queue_id : string) (w : world) : bool :=
  match od_get queue_id (runtime_queue_items (w_store w)) with
  | Some stored => py_eq (dget "status" VNone stored) (VStr "cancelled")
  | None => false
  end.

(** The claim bundle's identifiers. *)
Definition claimed_of (b : claim_bundle) : res claimed :=
  let '(queue_item, attempt, claim) := b in
  run ← ditem "run_id" attempt;
  attempt ← ditem "id" attempt;
  claim ← ditem "id" claim;
  id ← ditem "id" queue_item;
  mret (mkClaimed queue_item (py_str id) (py_str run) (py_str attempt) (py_str claim)).

(** The [try] block up to the reservation. *)
Definition prepare (c : claimed) : worked (RuntimeStartResult * record) :=
  task ← worker_world (load_task artifacts json_loads (c_item c));
  composition_context ← worker_world (load_composition_context artifacts json_loads (c_item c));
  start_result ← escalate (start artifacts clock sha256 "dev" task
    (initial_start composition_context (Some (c_run_id c))));
  worker_world (mark_running clock (c_queue_id c) (sr_run_id start_result) (Some (c_attempt_id c))) ;;
  profile_id ← escalate (lift (ditem "id" (sr_profile start_result)));
  worker_store (update_runtime_run_attempt (c_attempt_id c)
    [("run_id", VStr (sr_run_id start_result)); ("profile_id", profile_id);
     ("profile_sha256", VStr (profile_digest start_result))]) ;;
  tenant ← escalate (lift (ditem "tenant_id" (c_item c)));
  reservation ← worker_world (reserve artifacts clock (c_queue_id c) (sr_run_id start_result) (py_str tenant)
    (sr_profile start_result)
    (mkRuntimeQuotaConfig (config_token_limits_per_minute config) (config_tool_call_limits_per_minute config)));
  mret (start_result, reservation).

(** The rest of the [try] block. *)
Definition execute (c : claimed) (start_result : RuntimeStartResult) : worked RuntimeLoopResult :=
  worker_world (heartbeat clock (c_queue_id c) config) ;;
  loop_run artifacts clock json_loads sha256 registry
    (Some (fun _ w => Ok (_queue_item_is_cancelled (c_queue_id c) w))) start_result.

(** Settling the reservation, when one was made before the run ended. *)
Definition settle_quota (reservation : option record) (status : string) : worked unit :=
  match reservation with
  | None => mret tt
  | Some r =>
      id ← escalate (lift (ditem "id" r));
      worker_world (settle clock (py_str id) status) ;; mret tt
  end.

Definition close_attempt (c : claimed) (status stop_reason : value) : worked unit :=
  t ← worker_world (iso_now clock);
  worker_store (update_runtime_run_attempt (c_attempt_id c)
    [("status", status); ("completed_at", VStr t); ("stop_reason", stop_reason)]) ;; mret tt.

Definition release_claim (c : claimed) (status : value) : worked unit :=
  t ← worker_world (iso_now clock);
  worker_store (update_runtime_run_claim (c_claim_id c)
    [("released_at", VStr t); ("release_reason", status)]) ;; mret tt.

(** A run left open by the error is closed as failed. *)
Definition close_open_run (run_id : string) (error : loop_exn) : worked unit :=
  run ← worker_store (get_runtime_run run_id);
  match run with
  | None => mret tt
  | Some r =>
      ended ← escalate (lift (in_frozenset (dget "status" VNone r) ["failed"; "cancelled"; "succeeded"]));
      if ended : bool then mret tt
      else
        t ← worker_world (iso_now clock);
        worker_store (update_runtime_run run_id
          [("status", VStr "failed"); ("completed_at", VStr t); ("stop_reason", worker_stop_reason error)]) ;;
        mret tt
  end.

(** The [except] clause. *)
Definition on_error (c : claimed) (reservation : option record) (error : loop_exn)
    : worked RuntimeQueueProcessResult :=
  close_open_run (c_run_id c) error ;;
  stored ← worker_world (mark_failed_or_retry clock float_pow jitter (c_item c) (as_exn error) config
             (Some (c_run_id c)));
  status ← escalate (lift (ditem "status" stored));
  close_attempt c status (worker_stop_reason error) ;;
  release_claim c status ;;
  settle_quota reservation "refunded" ;;
  mret (mkProcessResult (c_queue_id c) status (c_run_id c) (worker_stop_reason error) (c_attempt_id c)).

Definition on_result (c : claimed) (reservation : record) (result : RuntimeLoopResult)
    : worked RuntimeQueueProcessResult :=
  if String.eqb (lr_status result) "cancelled" then
    stored ← worker_world (mark_cancelled clock (c_queue_id c) (Some (lr_run_id result)));
    status ← escalate (lift (ditem "status" stored));
    close_attempt c status (VStr (lr_stop_reason result)) ;;
    release_claim c status ;;
    settle_quota (Some reservation) "refunded" ;;
    mret (mkProcessResult (c_queue_id c) status (lr_run_id result) (VStr (lr_stop_reason result)) (c_attempt_id c))
  else
    stored ← worker_world (mark_succeeded clock (c_queue_id c) (lr_run_id result));
    settle_quota (Some reservation) "finalized" ;;
    status ← escalate (lift (ditem "status" stored));
    close_attempt c status (VStr (lr_stop_reason result)) ;;
    release_claim c status ;;
    mret (mkProcessResult (c_queue_id c) status (lr_run_id result) (VStr (lr_stop_reason result)) (c_attempt_id c)).

Definition handle_error (c : claimed) (reservation : option record) (error : loop_exn)
    : worked RuntimeQueueProcessResult :=
  if handled_by_worker error then on_error c reservation error else throw error.

Definition process_claimed (c : claimed) : worked RuntimeQueueProcessResult :=
  prepared ← try_ (prepare c);
  match prepared with
  | Raise error => handle_error c None error
  | Ok (start_result, reservation) =>
      ran ← try_ (execute c start_result);
      match ran with
      | Raise error => handle_error c (Some reservation) error
      | Ok result => on_result c reservation result
      end
  end.

Definition process_one : worked (option RuntimeQueueProcessResult) :=
  bundle ← worker_world (claim_next_attempt clock worker_id config);
  match bundle with
  | None => mret None
  | Some b =>
      c ← escalate (lift (claimed_of b));
      r ← process_claimed c;
      mret (Some r)
  end.

(** ** The worker's loop *)

Context (stop_requested : eff X exn bool) (sleep : eff X exn unit)
        (after_iteration : option (option loop_exn -> eff X exn unit)).

Definition notify (error : option loop_exn) : worked unit :=
  match after_iteration with
  | Some callback => escalate (host_ext (callback error))
  | None => mret tt
  end.

(** [None] when the fuel runs out: the loop itself only ends by a request to
    stop or by an exception. *)
Fixpoint run_forever (fuel : nat) : worked (option unit) :=
  match fuel with
  | O => mret None
  | S fuel' =>
      stop ← escalate (host_ext stop_requested);
      if stop : bool then mret (Some tt)
      else
        outcome ← try_ process_one;
        match outcome with
        | Raise error => notify (Some error) ;; throw error
        | Ok result =>
            notify None ;;
            match result with
            | Some _ => run_forever fuel'
            | None =>
                stop ← escalate (host_ext stop_requested);
                if stop : bool then mret (Some tt)
                else escalate (host_ext sleep) ;; run_forever fuel'
            end
        end
  end.
End worker.

(** ** Frames: which table an operation leaves alone *)

#[export] Instance table_name_eq_dec : EqDecision table_name.
Proof. solve_decision. Defined.

Definition keeps (t : table_name) (w w' : world) : Prop := get_table t (w_store w') = get_table t (w_store w).
#[export] Instance keeps_preorder t : PreOrder (keeps t).
Proof. split; [done|]. unfold keeps. intros a b c. congruence. Qed.
Definition s_keeps (t : table_name) (s s' : store) : Prop := get_table t s' = get_table t s.
#[export] Instance s_keeps_preorder t : PreOrder (s_keeps t).
Proof. split; [done|]. unfold s_keeps. intros a b c. congruence. Qed.

Section frames.
Context (t : table_name).

Lemma insert_record_keeps t' r : t <> t' -> preserves (s_keeps t) (insert_record t' r).
Proof.
  intros Hne. unfold insert_record. preserves_tac. apply (preserves_modify _). intros s. unfold s_keeps.
  rewrite get_set_table. by case_decide.
Qed.
Lemma update_record_keeps t' k f : t <> t' -> preserves (s_keeps t) (update_record t' k f).
Proof.
  intros Hne. unfold update_record. preserves_tac. apply (preserves_modify _). intros s. unfold s_keeps.
  rewrite get_set_table. by case_decide.
Qed.
Lemma on_store_keeps {A} (m : st A) : preserves (s_keeps t) m -> preserves (keeps t) (on_store m).
Proof. by apply preserves_zoom. Qed.
Lemma on_files_keeps {A} (m : art A) : preserves (keeps t) (on_files m).
Proof. intros w. unfold on_files, zoom. by destruct (m (w_files w)). Qed.
Lemma iso_now_keeps clock : preserves (keeps t) (iso_now clock).
Proof. by intros w. Qed.
Lemma now_keeps clock : preserves (keeps t) (now clock).
Proof. by intros w. Qed.
Lemma gets_keeps {A} (f : store -> A) : preserves (s_keeps t) (gets (E := exn) f).
Proof. by intros s. Qed.

Definition queue_table : Prop := In t [QueueItems; Attempts; Claims; DeadLetters; Reservations].
Lemma same_queue_keeps w w' : queue_table -> w_same_queue w w' -> keeps t w w'.
Proof.
  unfold keeps, w_same_queue, same_queue, queue_tables. intros Ht H. injection H as H1 H2 H3 H4 H5.
  repeat (destruct Ht as [<-|Ht]; [assumption|]). destruct Ht.
Qed.
End frames.
#[export] Hint Resolve on_files_keeps iso_now_keeps now_keeps gets_keeps : preserves.

(** An update of another table, in the world. *)
Lemma updated_keeps t t' k f : t <> t' -> preserves (keeps t) (on_store (update_record t' k f)).
Proof. intros. by apply on_store_keeps, update_record_keeps. Qed.
Lemma inserted_keeps t t' r : t <> t' -> preserves (keeps t) (on_store (insert_record t' r)).
Proof. intros. by apply on_store_keeps, insert_record_keeps. Qed.
Lemma record_event_keeps_table t a clock run ty actor e :
  queue_table t -> preserves (keeps t) (record_event a clock run ty actor e).
Proof. intros Ht w. apply same_queue_keeps; [done|apply record_event_queue]. Qed.

Lemma update_active_claim_keeps t k f : t <> Claims -> preserves (s_keeps t) (update_active_claim k f).
Proof. intros. unfold update_active_claim. preserves_tac. by apply update_record_keeps. Qed.
Lemma release_claims_keeps t k at_ reason : t <> Claims -> preserves (s_keeps t) (release_runtime_queue_claims k at_ reason).
Proof.
  intros Ht. unfold release_runtime_queue_claims. apply (preserves_bind _); [apply gets_keeps|intros claims].
  induction (od_keys claims) as [|c l IH]; cbn [for_keys]; [auto with preserves typeclass_instances|].
  unfold release_one. preserves_tac; [by apply update_record_keeps|apply IH..].
Qed.

Section manager_frames.
Context (artifacts : JsonArtifactStore) (clock : nat -> datetime) (json_loads : string -> res value)
        (float_pow : float -> Z -> res float) (jitter : string -> Z -> Z).

Lemma update_status_keeps t k status u : t <> QueueItems -> preserves (keeps t) (_update_status clock k status u).
Proof. intros. unfold _update_status, update_runtime_queue_item. preserves_tac. by apply updated_keeps. Qed.

Lemma mark_failed_keeps t item e config run_id :
  t <> QueueItems -> t <> DeadLetters ->
  preserves (keeps t) (mark_failed_or_retry clock float_pow jitter item e config run_id).
Proof.
  intros H1 H2. unfold mark_failed_or_retry, insert_runtime_dead_letter.
  preserves_tac; (by apply update_status_keeps) || by apply inserted_keeps.
Qed.

Lemma mark_cancelled_keeps t k run_id :
  In t [Attempts; DeadLetters; Reservations] -> preserves (keeps t) (mark_cancelled clock k run_id).
Proof.
  intros Ht. unfold mark_cancelled, find_item, get_runtime_queue_item, get_runtime_run, update_runtime_run.
  assert (t <> QueueItems /\ t <> Claims /\ t <> Runs) as (H1 & H2 & H3)
    by (repeat (destruct Ht as [<-|Ht]; [done|]); destruct Ht).
  assert (Hget : forall A (f : store -> A), preserves (keeps t) (on_store (gets (E := exn) f)))
    by (intros; apply on_store_keeps, gets_keeps).
  preserves_tac; first [apply Hget | by apply update_status_keeps | by apply on_store_keeps, release_claims_keeps
                       | by apply updated_keeps].
Qed.

Lemma heartbeat_keeps t k config : t <> QueueItems -> t <> Claims -> preserves (keeps t) (heartbeat clock k config).
Proof.
  intros H1 H2. unfold heartbeat, heartbeat_runtime_queue_item. preserves_tac. apply on_store_keeps.
  preserves_tac; (by apply update_record_keeps) || by apply update_active_claim_keeps.
Qed.

Lemma settle_keeps t k status : t <> Reservations -> preserves (keeps t) (settle clock k status).
Proof. intros. unfold settle, update_runtime_quota_reservation. preserves_tac. by apply updated_keeps. Qed.

Lemma load_keeps t uri msg : preserves (keeps t) (load_mapping artifacts json_loads uri msg).
Proof. unfold load_mapping. preserves_tac. Qed.
Lemma load_task_keeps t item : preserves (keeps t) (load_task artifacts json_loads item).
Proof. unfold load_task. preserves_tac; apply load_keeps. Qed.
Lemma load_context_keeps t item : preserves (keeps t) (load_composition_context artifacts json_loads item).
Proof. unfold load_composition_context. preserves_tac; apply load_keeps. Qed.
End manager_frames.

(** ** What recording can raise *)

(** Any exception but the ones the worker handles. *)
Definition unhandled (e : exn) : Prop := handled_by_worker (Raised e) = false.

Lemma ditem_unhandled {V} k (d : odict V) : fails_with unhandled (ditem k d).
Proof. unfold ditem. by destruct (od_get k d). Qed.
Lemma py_int_unhandled v : fails_with unhandled (py_int v).
Proof. destruct v; cbn; try done. by destruct (int_of_str s). Qed.
Lemma require_choice_unhandled v l f : fails_with unhandled (require_choice v l f).
Proof. by apply fails_raise_if. Qed.
Lemma find_by_key_unhandled l run key : fails_with unhandled (_find_by_run_idempotency l run key).
Proof.
  unfold _find_by_run_idempotency. induction l as [|r l IH]; cbn [find_first]; [done|].
  apply fails_bind; [apply fails_bind; [apply ditem_unhandled|done]|]. intros [|]; [done|exact IH].
Qed.
#[export] Hint Resolve ditem_unhandled py_int_unhandled require_choice_unhandled find_by_key_unhandled : raises.

Lemma text_chunks_unhandled a l : fails_with unhandled (text_chunks a l).
Proof. unfold text_chunks. by raises_tac. Qed.
Lemma write_chunks_raises a dir i l : raises_only unhandled (write_chunks a dir i l).
Proof.
  revert i. induction l as [|[start chunk] l IH]; intros i; cbn [write_chunks]; [done|]. unfold write_file.
  raises_tac.
Qed.
#[export] Hint Resolve text_chunks_unhandled write_chunks_raises : raises.
Lemma chunk_strings_raises a base v fp : raises_only unhandled (_chunk_large_strings_at a base v fp).
Proof.
  revert fp. induction v as [| | |s|l IH|d IH] using value_rect_forall; intros fp; cbn [_chunk_large_strings_at];
    unfold _write_chunked_text, write_file; try by raises_tac.
  - apply raises_bind; [|raises_tac]. generalize 0%Z. induction IH as [|x l Hx _ IH]; intros i; raises_tac.
  - apply raises_bind; [|raises_tac]. induction IH as [|[k x] d Hx _ IH]; raises_tac.
Qed.
Lemma without_json_unhandled p : fails_with unhandled (without_json p).
Proof. unfold without_json. by destruct (reverse p). Qed.
#[export] Hint Resolve chunk_strings_raises without_json_unhandled : raises.
Lemma write_json_raises a parts v red : raises_only unhandled (write_json a parts v red).
Proof. unfold write_json, write_file. raises_tac. Qed.
#[export] Hint Resolve write_json_raises : raises.

Lemma record_event_raises a clock run ty actor e : raises_only unhandled (record_event a clock run ty actor e).
Proof.
  unfold record_event, _write_event_payload, _event_record, require_opt, on_store, on_files, iso_now, now,
    allocate_runtime_event_index, allocate_index, insert_runtime_event, append_record, of_run.
  raises_tac.
Qed.

(** ** Reservations *)

Definition reservations (w : world) : table := runtime_quota_reservations (w_store w).

Lemma keeps_reservations w w' : keeps Reservations w w' -> reservations w' = reservations w.
Proof. done. Qed.

Lemma within_limit_keeps a clock tenant window field n limit run stop :
  preserves (keeps Reservations) (_assert_within_limit a clock tenant window field n limit run stop).
Proof.
  unfold _assert_within_limit. preserves_tac.
Qed.

(** One step before the reservation: the table is as it was. *)
Lemma before_reserving {A B} (m : rt A) (k : A -> rt B) w r w' :
  preserves (keeps Reservations) m -> (m ≫= k) w = (r, w') ->
  (exists e, r = Raise e /\ reservations w' = reservations w) \/
  (exists x w1, reservations w1 = reservations w /\ k x w1 = (r, w')).
Proof.
  intros Hm. specialize (Hm w). unfold mbind, eff_bind. destruct (m w) as [[x|e] w1]; cbn [snd] in Hm.
  - intros H. right. by exists x, w1.
  - intros [= <- <-]. left. by exists e.
Qed.

Lemma insert_reservation res k w :
  ditem "id" res = Ok (VStr k) ->
  exists w1, on_store (insert_runtime_quota_reservation res) w = (Ok res, w1) /\
    reservations w1 = od_set k res (reservations w).
Proof.
  intros Hid. unfold on_store, zoom, insert_runtime_quota_reservation, insert_record, record_id. rewrite Hid.
  eexists. split; [reflexivity|]. by destruct w as [[] ? ?].
Qed.

(** A reservation is made, or an exception the worker handles leaves none. *)
Lemma reserve_cases a clock queue_id run_id tenant p config w r w' :
  reserve a clock queue_id run_id tenant p config w = (r, w') ->
  match r with
  | Ok res => exists k, ditem "id" res = Ok (VStr k) /\ reservations w' = od_set k res (reservations w)
  | Raise e => reservations w' = reservations w \/ unhandled e
  end.
Proof.
  unfold reserve. cbv zeta. intros H.
  do 6 (apply before_reserving in H as [(?e & -> & ?E)|(?x & ?w & ?E & H)];
    [by left| |first [apply within_limit_keeps|auto with preserves typeclass_instances]];
    match goal with E : reservations _ = reservations ?w0 |- context [reservations ?w0] => rewrite <- E; clear E end).
  match type of H with (on_store (insert_runtime_quota_reservation ?res) ≫= _) _ = _ =>
    destruct (insert_reservation res _ ltac:(match type of H with _ ?w = _ => exact w end) eq_refl) as (ws & Hi & Es) end.
  rewrite (eff_step _ _ _ _ _ Hi) in H.
  match type of H with (record_event ?a ?c ?run ?ty ?actor ?ev ≫= _) _ = _ =>
    pose proof (record_event_keeps_table Reservations a c run ty actor ev ltac:(unfold queue_table; cbn; tauto) ws) as Hk;
    pose proof (record_event_raises a c run ty actor ev ws) as Hr;
    unfold mbind, eff_bind in H; destruct (record_event a c run ty actor ev ws) as [[ev'|e] we] end;
    injection H as <- <-; cbn [snd fst fails_with] in *.
  - eexists. split; [reflexivity|]. rewrite <- Es. exact Hk.
  - by right.
Qed.

(** ** The same on the shared state *)

Definition hkeeps {X} (t : table_name) (h h' : host X) : Prop := keeps t (h_world h) (h_world h').
#[export] Instance hkeeps_preorder {X} t : PreOrder (@hkeeps X t).
Proof. split; [done|]. unfold hkeeps, keeps. intros a b c. congruence. Qed.

Definition hitems {X} (h : host X) : table := runtime_queue_items (w_store (h_world h)).
Definition hattempts {X} (h : host X) : table := runtime_run_attempts (w_store (h_world h)).
Definition hclaims {X} (h : host X) : table := runtime_run_claims (w_store (h_world h)).
Definition hreservations {X} (h : host X) : table := runtime_quota_reservations (w_store (h_world h)).

Lemma worker_world_keeps {X A} t (m : rt A) : preserves (keeps t) m -> preserves (hkeeps (X := X) t) (worker_world m).
Proof. intros Hm. apply preserves_escalate. by apply (preserves_zoom _ (keeps t)). Qed.
Lemma worker_store_keeps {X} t t' k f :
  t <> t' -> preserves (hkeeps (X := X) t) (worker_store (update_record t' k f)).
Proof. intros. by apply worker_world_keeps, updated_keeps. Qed.

Lemma worker_world_Ok {X A} (m : rt A) (h h' : host X) x :
  worker_world m h = (Ok x, h') -> m (h_world h) = (Ok x, h_world h') /\ h_ext h' = h_ext h.
Proof.
  unfold worker_world. intros H%escalate_Ok. unfold host_world, zoom in H.
  destruct (m (h_world h)) as [r w']. injection H as -> <-. done.
Qed.

Lemma escalate_lift_Ok {X A} (m : res A) (h h' : host X) x :
  escalate (lift m) h = (Ok x, h') -> m = Ok x /\ h' = h.
Proof. intros H%escalate_Ok. by injection H as -> ->. Qed.

Lemma update_status_stored clock k status u w w' stored :
  _update_status clock k status u w = (Ok stored, w') ->
  od_get k (items w') = Some stored.
Proof.
  unfold _update_status. intros H. apply eff_bind_Ok in H as ([] & w1 & _ & H).
  apply eff_bind_Ok in H as (t & w2 & _ & H). unfold on_store, zoom, update_runtime_queue_item in H.
  destruct (update_record _ _ _ _) as [[r|e] s'] eqn:E; [|discriminate H]. injection H as <- <-.
  apply update_record_Ok in E as (old & _ & -> & ->). unfold items. cbn [set_store w_store].
  destruct (w_store w2). apply od_get_set_eq.
Qed.

Lemma updated_Ok t k f w w' r :
  on_store (update_record t k f) w = (Ok r, w') ->
  exists old, od_get k (get_table t (w_store w)) = Some old /\ r = od_update old f /\
    get_table t (w_store w') = od_set k r (get_table t (w_store w)).
Proof.
  unfold on_store, zoom. destruct (update_record _ _ _ _) as [[r'|e] s'] eqn:E; [|discriminate].
  intros [= <- <-]. apply update_record_Ok in E as (old & Hk & -> & ->). exists old.
  split_and!; try done. cbn [set_store w_store]. rewrite get_set_table. by rewrite decide_True by done.
Qed.

Section settling.
Context {X : Type} `{!Services X}.
Context (artifacts : JsonArtifactStore) (clock : nat -> datetime) (json_loads : string -> res value)
        (sha256 : string -> string) (float_pow : float -> Z -> res float) (jitter : string -> Z -> Z).
Context (registry : SkillHandlerRegistry) (config : RuntimeQueueConfig).

Lemma start_keeps t environment task o :
  queue_table t -> preserves (hkeeps (X := X) t) (escalate (start artifacts clock sha256 environment task o)).
Proof.
  intros Ht. apply preserves_escalate.
  assert (Hw : forall A (m : rt A), preserves w_same_queue m -> preserves (hkeeps (X := X) t) (host_world m)).
  { intros A m Hm. apply (preserves_zoom _ w_same_queue); [|done]. intros h w. by apply same_queue_keeps. }
  assert (Hx : forall A (m : eff X exn A), preserves (hkeeps (X := X) t) (host_ext m)).
  { intros A m h. unfold host_ext, zoom. by destruct (m (h_ext h)). }
  unfold start, _fetch_composition_context, _seal_profile, record_start, entry_event.
  preserves_tac; first [apply Hx | apply Hw; solve [auto with preserves]
    | apply Hw; exact (do_call_queue artifacts clock (StartRun _ _ _ _ _))
    | apply Hw; exact (do_call_queue artifacts clock (Checkpoint _ _ _ _ _ _))].
Qed.

Lemma loop_run_keeps t checker sr h :
  queue_table t ->
  hkeeps (X := X) t h (loop_run artifacts clock json_loads sha256 registry checker sr h).2.
Proof.
  intros Ht. apply same_queue_keeps; [done|]. apply (loop_run_log artifacts clock json_loads sha256 registry checker sr h).
Qed.

Lemma execute_keeps t c sr :
  In t [Attempts; DeadLetters; Reservations] ->
  preserves (hkeeps (X := X) t) (execute artifacts clock json_loads sha256 registry config c sr).
Proof.
  intros Ht. assert (queue_table t /\ t <> QueueItems /\ t <> Claims) as (Hq & H1 & H2).
  { unfold queue_table. cbn [In] in *. destruct Ht as [<-|[<-|[<-|[]]]]; split_and!; (tauto || done). }
  unfold execute. apply (preserves_bind _); [by apply worker_world_keeps, heartbeat_keeps|intros _].
  intros h. by apply loop_run_keeps.
Qed.

(** The reservation preparing a run leaves: its own, or none when the worker
    goes on to handle the error. *)
Lemma prepare_cases c (h h' : host X) r :
  prepare artifacts clock json_loads sha256 config c h = (r, h') ->
  match r with
  | Ok (_, res) => exists k, ditem "id" res = Ok (VStr k) /\ hreservations h' = od_set k res (hreservations h)
  | Raise e => hreservations h' = hreservations h \/ handled_by_worker e = false
  end.
Proof.
  unfold prepare. intros H.
  assert (Hres : queue_table Reservations) by (unfold queue_table; cbn; tauto).
  assert (Hstep : forall A B (m : eff (host X) loop_exn A) (k : A -> eff (host X) loop_exn B) h1 r1,
    preserves (hkeeps Reservations) m -> (m ≫= k) h1 = (r1, h') ->
    (exists e, r1 = Raise e /\ hreservations h' = hreservations h1) \/
    (exists x h2, hreservations h2 = hreservations h1 /\ k x h2 = (r1, h'))).
  { intros A B m k h1 r1 Hm. specialize (Hm h1). unfold mbind, eff_bind.
    destruct (m h1) as [[x|e] h2]; cbn [snd] in Hm; [intros E; right; by exists x, h2|].
    intros [= <- <-]. left. by exists e. }
  do 7 (apply Hstep in H as [(?e & -> & ?E)|(?x & ?h2 & ?E & H)];
    [by left| |first [apply worker_world_keeps, load_task_keeps | apply worker_world_keeps, load_context_keeps
       | by apply start_keeps | by apply worker_world_keeps, update_status_keeps
       | by apply worker_store_keeps | apply preserves_escalate; auto with preserves typeclass_instances]];
    match goal with E : hreservations _ = hreservations ?h0 |- context [hreservations ?h0] => rewrite <- E; clear E end).
  match type of H with (worker_world ?m ≫= _) ?h1 = _ =>
    assert (Hr : forall r1 w1, m (h_world h1) = (r1, w1) -> match r1 with
      | Ok res => exists k, ditem "id" res = Ok (VStr k) /\ reservations w1 = od_set k res (hreservations h1)
      | Raise e => reservations w1 = hreservations h1 \/ unhandled e end)
      by (intros r1 w1 Hm; by apply reserve_cases in Hm);
    unfold mbind, eff_bind, worker_world, escalate, host_world, zoom in H;
    destruct (m (h_world h1)) as [[res|e] w1]; specialize (Hr _ _ eq_refl); injection H as <- <-; exact Hr end.
Qed.

(** *** Closing the books *)

Lemma close_attempt_keeps t c status stop : t <> Attempts -> preserves (hkeeps (X := X) t) (close_attempt clock c status stop).
Proof.
  intros. unfold close_attempt, update_runtime_run_attempt.
  preserves_tac; first [by apply worker_store_keeps | apply worker_world_keeps; auto with preserves].
Qed.
Lemma release_claim_keeps t c status : t <> Claims -> preserves (hkeeps (X := X) t) (release_claim clock c status).
Proof.
  intros. unfold release_claim, update_runtime_run_claim.
  preserves_tac; first [by apply worker_store_keeps | apply worker_world_keeps; auto with preserves].
Qed.
Lemma settle_quota_keeps t r status : t <> Reservations -> preserves (hkeeps (X := X) t) (settle_quota clock r status).
Proof.
  intros. unfold settle_quota.
  preserves_tac; first [by apply worker_world_keeps, settle_keeps | apply preserves_escalate; auto with preserves typeclass_instances].
Qed.
Lemma close_open_run_keeps t run e : t <> Runs -> preserves (hkeeps (X := X) t) (close_open_run clock run e).
Proof.
  intros. unfold close_open_run, get_runtime_run, update_runtime_run.
  preserves_tac; first [by apply worker_store_keeps
    | apply worker_world_keeps; first [by apply on_store_keeps, gets_keeps | solve [auto with preserves]]
    | apply preserves_escalate; auto with preserves typeclass_instances].
Qed.

Lemma close_attempt_Ok c status stop (h h' : host X) u :
  close_attempt clock c status stop h = (Ok u, h') ->
  exists r, od_get (c_attempt_id c) (hattempts h') = Some r /\
    dget "status" VNone r = status /\ dget "stop_reason" VNone r = stop.
Proof.
  unfold close_attempt. intros H. apply eff_bind_Ok in H as (t & h1 & _ & H).
  apply eff_bind_Ok in H as (r & h2 & Hu & H). injection H as _ <-. apply worker_world_Ok in Hu as [Hu _].
  apply updated_Ok in Hu as (old & _ & -> & E). unfold hattempts.
  change (runtime_run_attempts (w_store (h_world h2))) with (get_table Attempts (w_store (h_world h2))). rewrite E.
  eexists. split; [apply od_get_set_eq|]. unfold dget, od_update. cbn [foldl fst snd]. by rewrite !od_get_set.
Qed.
Lemma release_claim_Ok c status (h h' : host X) u :
  release_claim clock c status h = (Ok u, h') ->
  exists r t, od_get (c_claim_id c) (hclaims h') = Some r /\
    dget "release_reason" VNone r = status /\ dget "released_at" VNone r = VStr t.
Proof.
  unfold release_claim. intros H. apply eff_bind_Ok in H as (t & h1 & _ & H).
  apply eff_bind_Ok in H as (r & h2 & Hu & H). injection H as _ <-. apply worker_world_Ok in Hu as [Hu _].
  apply updated_Ok in Hu as (old & _ & -> & E). unfold hclaims.
  change (runtime_run_claims (w_store (h_world h2))) with (get_table Claims (w_store (h_world h2))). rewrite E.
  eexists _, t. split; [apply od_get_set_eq|]. unfold dget, od_update. cbn [foldl fst snd]. by rewrite !od_get_set.
Qed.

(** Settling a reservation closes it and leaves the others alone. *)
Lemma settle_quota_Ok res k status (h h' : host X) u :
  ditem "id" res = Ok (VStr k) -> settle_quota clock (Some res) status h = (Ok u, h') ->
  exists r, hreservations h' = od_set k r (hreservations h) /\ dget "status" VNone r = VStr status.
Proof.
  intros Hk. unfold settle_quota. rewrite Hk. intros H. apply eff_bind_Ok in H as (id & h1 & Hid & H).
  apply escalate_lift_Ok in Hid as [[= <-] ->]. apply eff_bind_Ok in H as (r & h2 & Hu & H). injection H as _ <-.
  apply worker_world_Ok in Hu as [Hu _]. unfold settle in Hu. apply eff_bind_Ok in Hu as (t & w1 & Ht & Hu).
  injection Ht as _ <-. apply updated_Ok in Hu as (old & _ & -> & E). eexists. split; [exact E|].
  unfold dget, od_update. cbn [foldl fst snd]. by rewrite !od_get_set.
Qed.

(** The item, the attempt and the claim agree on how the attempt ended. *)
Record settled (c : claimed) (status stop_reason : value) (h : host X) : Prop := {
  st_item : exists item, od_get (c_queue_id c) (hitems h) = Some item /\ dget "status" VNone item = status;
  st_attempt : exists r, od_get (c_attempt_id c) (hattempts h) = Some r /\
    dget "status" VNone r = status /\ dget "stop_reason" VNone r = stop_reason;
  st_claim : exists r t, od_get (c_claim_id c) (hclaims h) = Some r /\
    dget "release_reason" VNone r = status /\ dget "released_at" VNone r = VStr t;
}.

(** The attempt and the claim are closed after the item, in this order. *)
Lemma close_books c stored status stop (h h1 h2 : host X) :
  od_get (c_queue_id c) (hitems h) = Some stored -> ditem "status" stored = Ok status ->
  close_attempt clock c status stop h = (Ok tt, h1) -> release_claim clock c status h1 = (Ok tt, h2) ->
  settled c status stop h2.
Proof.
  intros Hi Hs Ha Hc.
  pose proof (preserves_elim _ _ _ _ _ (close_attempt_keeps QueueItems c status stop ltac:(done)) Ha) as K1.
  pose proof (preserves_elim _ _ _ _ _ (release_claim_keeps QueueItems c status ltac:(done)) Hc) as K2.
  pose proof (preserves_elim _ _ _ _ _ (release_claim_keeps Attempts c status ltac:(done)) Hc) as K3.
  apply close_attempt_Ok in Ha as (r & Hr & Hr1 & Hr2). apply release_claim_Ok in Hc. constructor; [|exists r|exact Hc].
  - exists stored. unfold hkeeps, keeps in K1, K2. cbn [get_table] in *. unfold hitems in *.
    rewrite K2, K1. split; [done|]. unfold ditem in Hs. unfold dget.
    destruct (od_get "status" stored); [by injection Hs|discriminate Hs].
  - unfold hkeeps, keeps in K3. cbn [get_table] in K3. unfold hattempts in *. by rewrite K3.
Qed.

Lemma settled_keeps c status stop (h h' : host X) :
  hkeeps QueueItems h h' -> hkeeps Attempts h h' -> hkeeps Claims h h' -> settled c status stop h -> settled c status stop h'.
Proof.
  unfold hkeeps, keeps. cbn [get_table]. intros K1 K2 K3 [H1 H2 H3]. unfold hitems, hattempts, hclaims in *.
  constructor; unfold hitems, hattempts, hclaims; by rewrite ?K1, ?K2, ?K3.
Qed.

Lemma settle_quota_settled c r qs status stop (h h' : host X) u :
  settle_quota clock r qs h = (Ok u, h') -> settled c status stop h -> settled c status stop h'.
Proof.
  intros H. apply settled_keeps; (eapply preserves_elim; [apply settle_quota_keeps; done|exact H]).
Qed.

Lemma mark_failed_Ok item e run_id w w' stored :
  mark_failed_or_retry clock float_pow jitter item e config run_id w = (Ok stored, w') ->
  exists id, ditem "id" item = Ok id /\ od_get (py_str id) (items w') = Some stored.
Proof.
  unfold mark_failed_or_retry. intros H.
  apply eff_bind_Ok in H as (attempts & w1 & _ & H). apply eff_bind_Ok in H as (mx & w2 & _ & H). cbv zeta in H.
  apply eff_bind_Ok in H as (delay & w3 & _ & H). apply eff_bind_Ok in H as (t & w4 & _ & H).
  apply eff_bind_Ok in H as (delta & w5 & _ & H). apply eff_bind_Ok in H as (at_ & w6 & _ & H).
  apply eff_bind_Ok in H as (id & w7 & Hid & H). injection Hid as Hid <-.
  apply eff_bind_Ok in H as (st & w8 & Hu & H). apply update_status_stored in Hu. exists id. split; [done|].
  destruct (String.eqb _ "dead_lettered"); [|by injection H as <- <-].
  apply eff_bind_Ok in H as (av & w9 & Hav & H). injection Hav as _ <-.
  apply eff_bind_Ok in H as (tn & w10 & Htn & H). injection Htn as _ <-.
  apply eff_bind_Ok in H as (cr & w11 & Hcr & H). apply eff_bind_Ok in H as (dl & w12 & Hdl & H). injection H as <- <-.
  pose proof (preserves_elim _ _ _ _ _ (iso_now_keeps QueueItems clock) Hcr) as K1.
  pose proof (preserves_elim _ _ _ _ _ (inserted_keeps QueueItems DeadLetters _ ltac:(done)) Hdl) as K2.
  unfold keeps in K1, K2. cbn [get_table] in *. unfold items in *. by rewrite K2, K1.
Qed.

Lemma mark_cancelled_Ok k run_id w w' stored :
  mark_cancelled clock k run_id w = (Ok stored, w') -> od_get k (items w') = Some stored.
Proof.
  unfold mark_cancelled, find_item. intros H. apply eff_bind_Ok in H as (item & w1 & Hf & H).
  apply eff_bind_Ok in Hf as (found & w0 & Hg & Hf). injection Hg as <- Hw.
  assert (Ei : items w0 = items w) by (subst w0; by destruct w). clear Hw.
  destruct (od_get k (runtime_queue_items (w_store w))) as [it|] eqn:Eg; [|discriminate Hf].
  injection Hf as -> <-. apply eff_bind_Ok in H as (status & w2 & Hs & H). injection Hs as _ <-.
  destruct (py_eq status (VStr "cancelled")); [injection H as <- <-; by rewrite Ei|].
  apply eff_bind_Ok in H as (terminal & w3 & Ht & H). injection Ht as _ <-.
  apply eff_bind_Ok in H as ([] & w4 & Hr & H). injection Hr as _ <-.
  apply eff_bind_Ok in H as (t & w5 & _ & H). apply eff_bind_Ok in H as (st & w6 & Hu & H).
  apply update_status_stored in Hu. apply eff_bind_Ok in H as (rel & w7 & Hrel & H).
  pose proof (preserves_elim _ _ _ _ _ (on_store_keeps QueueItems _ (release_claims_keeps QueueItems k t "cancelled" ltac:(done))) Hrel) as K1.
  unfold keeps in K1. cbn [get_table] in K1. unfold items in *.
  assert (Hdone : forall w8, keeps QueueItems w7 w8 -> od_get k (runtime_queue_items (w_store w8)) = Some st).
  { intros w8 K. unfold keeps in K. cbn [get_table] in K. by rewrite K, K1. }
  destruct (effective_run_id run_id st) as [r|]; [|injection H as <- <-; by apply Hdone].
  apply eff_bind_Ok in H as (run & w8 & Hg & H).
  pose proof (preserves_elim _ _ _ _ _ (on_store_keeps QueueItems _ (gets_keeps QueueItems _)) Hg) as K2.
  destruct run as [run|]; [|injection H as <- <-; by apply Hdone].
  apply eff_bind_Ok in H as (ended & w9 & He & H). injection He as _ <-.
  destruct ended; [injection H as <- <-; by apply Hdone|].
  apply eff_bind_Ok in H as (upd & w10 & Hupd & H). injection H as <- <-. apply Hdone. etrans; [exact K2|].
  eapply preserves_elim; [apply updated_keeps|exact Hupd]. done.
Qed.

(** What [process_claimed] leaves behind: the books closed, and the reservation
    table as it was but for a closed entry of its own. *)
Definition closed_out (c : claimed) (h h' : host X) (r : RuntimeQueueProcessResult) : Prop :=
  pr_queue_id r = c_queue_id c /\ pr_attempt_id r = c_attempt_id c /\
  settled c (pr_status r) (pr_stop_reason r) h'.
Definition own_reservation (reservation : option record) (status : string) (h h' : host X) : Prop :=
  match reservation with
  | None => hreservations h' = hreservations h
  | Some res => forall k, ditem "id" res = Ok (VStr k) ->
      exists r, hreservations h' = od_set k r (hreservations h) /\ dget "status" VNone r = VStr status
  end.

Lemma own_reservation_after reservation status (h0 h h1 h' : host X) u :
  hreservations h = hreservations h0 -> settle_quota clock reservation status h = (Ok u, h1) ->
  hreservations h' = hreservations h1 -> own_reservation reservation status h0 h'.
Proof.
  intros E0 H E1. destruct reservation as [res|]; cbn [own_reservation].
  - intros k Hk. rewrite E1, <- E0. by eapply settle_quota_Ok.
  - injection H as _ <-. by rewrite E1.
Qed.

Lemma on_error_closed c reservation e (h h' : host X) r id :
  ditem "id" (c_item c) = Ok id -> c_queue_id c = py_str id ->
  on_error clock float_pow jitter config c reservation e h = (Ok r, h') ->
  closed_out c h h' r /\ own_reservation reservation "refunded" h h'.
Proof.
  intros Hid Hq. unfold on_error. intros H. apply eff_bind_Ok in H as ([] & h1 & Ho & H).
  apply eff_bind_Ok in H as (stored & h2 & Hm & H). apply eff_bind_Ok in H as (status & h3 & Hs & H).
  apply escalate_lift_Ok in Hs as [Hs ->]. apply eff_bind_Ok in H as ([] & h4 & Ha & H).
  apply eff_bind_Ok in H as ([] & h5 & Hc & H). apply eff_bind_Ok in H as ([] & h6 & Hqt & H).
  injection H as <- <-.
  assert (Hres : hreservations h5 = hreservations h).
  { assert (K : hkeeps Reservations h h5); [|exact K].
    etrans; [eapply preserves_elim; [apply close_open_run_keeps; done|exact Ho]|].
    etrans; [eapply preserves_elim; [apply worker_world_keeps, mark_failed_keeps; done|exact Hm]|].
    etrans; [eapply preserves_elim; [apply close_attempt_keeps; done|exact Ha]|].
    eapply preserves_elim; [apply release_claim_keeps; done|exact Hc]. }
  split; [|by eapply own_reservation_after]. split; [done|]. split; [done|]. cbn [pr_status pr_stop_reason].
  eapply settle_quota_settled; [exact Hqt|]. apply worker_world_Ok in Hm as [Hm _].
  apply mark_failed_Ok in Hm as (id' & Hid' & Hi). rewrite Hid in Hid'. injection Hid' as <-.
  rewrite <- Hq in Hi. by eapply close_books.
Qed.

Lemma on_result_closed c reservation res (h h' : host X) r :
  on_result clock c reservation res h = (Ok r, h') ->
  closed_out c h h' r /\ exists status, In status ["refunded"; "finalized"] /\ own_reservation (Some reservation) status h h'.
Proof.
  unfold on_result. destruct (String.eqb (lr_status res) "cancelled"); intros H;
    apply eff_bind_Ok in H as (stored & h1 & Hm & H).
  - apply eff_bind_Ok in H as (status & h2 & Hs & H). apply escalate_lift_Ok in Hs as [Hs ->].
    apply eff_bind_Ok in H as ([] & h4 & Ha & H). apply eff_bind_Ok in H as ([] & h5 & Hc & H).
    apply eff_bind_Ok in H as ([] & h6 & Hqt & H). injection H as <- <-.
    assert (Hres : hreservations h5 = hreservations h).
    { assert (K : hkeeps Reservations h h5); [|exact K].
      etrans; [eapply preserves_elim; [apply worker_world_keeps, mark_cancelled_keeps; cbn; tauto|exact Hm]|].
      etrans; [eapply preserves_elim; [apply close_attempt_keeps; done|exact Ha]|].
      eapply preserves_elim; [apply release_claim_keeps; done|exact Hc]. }
    split; [|exists "refunded"; split; [by left|by eapply own_reservation_after]].
    split; [done|]. split; [done|]. eapply settle_quota_settled; [exact Hqt|].
    apply worker_world_Ok in Hm as [Hm _]. apply mark_cancelled_Ok in Hm. by eapply close_books.
  - apply eff_bind_Ok in H as ([] & h2 & Hqt & H). apply eff_bind_Ok in H as (status & h3 & Hs & H).
    apply escalate_lift_Ok in Hs as [Hs ->]. apply eff_bind_Ok in H as ([] & h4 & Ha & H).
    apply eff_bind_Ok in H as ([] & h5 & Hc & H). injection H as <- <-.
    assert (K1 : hkeeps Reservations h h1)
      by (eapply preserves_elim; [apply worker_world_keeps, update_status_keeps; done|exact Hm]).
    assert (K2 : hkeeps Reservations h2 h5).
    { etrans; [eapply preserves_elim; [apply close_attempt_keeps; done|exact Ha]|].
      eapply preserves_elim; [apply release_claim_keeps; done|exact Hc]. }
    assert (K3 : hkeeps QueueItems h1 h2) by (eapply preserves_elim; [apply settle_quota_keeps; done|exact Hqt]).
    split; [|exists "finalized"; split; [by right; left|by eapply own_reservation_after]].
    split; [done|]. split; [done|]. apply worker_world_Ok in Hm as [Hm _]. apply update_status_stored in Hm.
    assert (Hi : od_get (c_queue_id c) (hitems h2) = Some stored).
    { unfold hkeeps, keeps in K3. cbn [get_table] in K3. unfold hitems. by rewrite K3. }
    by eapply close_books.
Qed.
End settling.

Section processing.
Context {X : Type} `{!Services X}.
Context (artifacts : JsonArtifactStore) (clock : nat -> datetime) (json_loads : string -> res value)
        (sha256 : string -> string) (float_pow : float -> Z -> res float) (jitter : string -> Z -> Z).
Context (registry : SkillHandlerRegistry) (worker_id : string) (config : RuntimeQueueConfig).

Lemma claim_keeps : preserves (keeps Reservations) (claim_next_attempt clock worker_id config).
Proof.
  unfold claim_next_attempt, claim_request_now, claim_next_runtime_queue_attempt, claim_item.
  assert (Hm : forall t v, t <> Reservations ->
    preserves (s_keeps Reservations) (modify (E := exn) (fun s => set_table t (v s) s))).
  { intros t v Ht. apply (preserves_modify _). intros s. unfold s_keeps. rewrite get_set_table.
    by rewrite decide_False by done. }
  preserves_tac. apply on_store_keeps. preserves_tac; first [by apply gets_keeps | by apply Hm].
Qed.

(** No reservation that was not open before is open after. *)
Definition no_new_open (h h' : host X) : Prop :=
  forall k res, od_get k (hreservations h') = Some res -> dget "status" VNone res = VStr "reserved" ->
    od_get k (hreservations h) = Some res.

Lemma own_reservation_open res status k (h h1 h' : host X) :
  hreservations h1 = od_set k res (hreservations h) -> ditem "id" res = Ok (VStr k) ->
  own_reservation (Some res) status h1 h' -> status <> "reserved" -> no_new_open h h'.
Proof.
  intros E Hk Ho Hs. destruct (Ho k Hk) as (r & E' & Hr). intros k' r' Hget Hopen.
  rewrite E', E, !od_get_set in Hget. destruct (String.eqb_spec k' k) as [->|Hne]; [|exact Hget].
  injection Hget as <-. rewrite Hr in Hopen. by injection Hopen.
Qed.

Lemma process_claimed_closed c (h h' : host X) r id :
  ditem "id" (c_item c) = Ok id -> c_queue_id c = py_str id ->
  process_claimed artifacts clock json_loads sha256 float_pow jitter registry config c h = (Ok r, h') ->
  closed_out c h h' r /\ no_new_open h h'.
Proof.
  intros Hid Hq. unfold process_claimed. intros H. apply eff_bind_Ok in H as (prepared & h1 & Hp & H).
  apply try_eq in Hp as [[= ->] ->].
  destruct (prepare _ _ _ _ _ c h) as [[[sr res]|e] h1] eqn:Ep; cbn [fst snd] in H; apply prepare_cases in Ep.
  - destruct Ep as (k & Hk & Eres). apply eff_bind_Ok in H as (ran & h2 & Hr & H).
    apply try_eq in Hr as [[= ->] ->].
    pose proof (execute_keeps artifacts clock json_loads sha256 registry config Reservations c sr
      ltac:(cbn; tauto) h1) as Kx.
    destruct (execute _ _ _ _ _ _ c sr h1) as [[result|e] h2] eqn:Ex; cbn [fst snd] in H, Kx;
      (assert (E2 : hreservations h2 = od_set k res (hreservations h))
        by (unfold hkeeps, keeps in Kx; cbn [get_table] in Kx; unfold hreservations in *; by rewrite Kx)).
    + apply on_result_closed in H as [Hc (status & Hs & Ho)]. split; [exact Hc|].
      eapply own_reservation_open; [exact E2|exact Hk|exact Ho|]. by destruct Hs as [<-|[<-|[]]].
    + unfold handle_error in H. destruct (handled_by_worker e); [|discriminate H].
      eapply on_error_closed in H as [Hc Ho]; [|exact Hid|exact Hq]. split; [exact Hc|].
      by eapply own_reservation_open.
  - unfold handle_error in H. destruct (handled_by_worker e) eqn:Eh; [|discriminate H].
    destruct Ep as [E1|E1]; [|congruence].
    eapply on_error_closed in H as [Hc Ho]; [|exact Hid|exact Hq]. split; [exact Hc|].
    intros k r' Hget _. cbn [own_reservation] in Ho. by rewrite Ho, E1 in Hget.
Qed.
End processing.

(** ** Properties *)

(** C5. The worker closes the books. When [process_one] reports a result, the
    queue item it claimed, the attempt and the claim all carry the status it
    reports (the attempt its stop reason too, the claim the time it was
    released), and no quota reservation is left open that was not open before:
    its own is finalized or refunded, however the run ended. *)
Theorem worker_closes_books {X} `{!Services X} artifacts clock json_loads sha256 float_pow jitter registry worker_id config
    (h h' : host X) r :
  process_one artifacts clock json_loads sha256 float_pow jitter registry worker_id config h = (Ok (Some r), h') ->
  exists b w1 c,
    claim_next_attempt clock worker_id config (h_world h) = (Ok (Some b), w1) /\ claimed_of b = Ok c /\
    pr_queue_id r = c_queue_id c /\ pr_attempt_id r = c_attempt_id c /\
    settled c (pr_status r) (pr_stop_reason r) h' /\ no_new_open h h'.
Proof.
  unfold process_one. intros H. apply eff_bind_Ok in H as (bundle & h1 & Hc & H).
  destruct bundle as [b|]; [|discriminate H]. apply eff_bind_Ok in H as (c & h2 & Hcl & H).
  apply escalate_lift_Ok in Hcl as [Hcl ->]. apply eff_bind_Ok in H as (r' & h3 & Hp & H). injection H as -> <-.
  pose proof (preserves_elim _ _ _ _ _ (worker_world_keeps (X := X) _ _ (claim_keeps clock worker_id config)) Hc) as K.
  apply worker_world_Ok in Hc as [Hc _]. exists b, (h_world h1), c. split; [exact Hc|]. split; [exact Hcl|].
  assert (Hid : exists id, ditem "id" (c_item c) = Ok id /\ c_queue_id c = py_str id).
  { unfold claimed_of in Hcl. destruct b as [[item attempt] claim]. apply bind_Ok in Hcl as (run & _ & Hcl).
    apply bind_Ok in Hcl as (a & _ & Hcl). apply bind_Ok in Hcl as (cl & _ & Hcl).
    apply bind_Ok in Hcl as (id & Hid & [= <-]). by exists id. }
  destruct Hid as (id & Hid & Hq).
  eapply process_claimed_closed in Hp as [(H1 & H2 & H3) H4]; [|exact Hid|exact Hq].
  split_and!; try done. intros k res Hget Hopen. specialize (H4 k res Hget Hopen).
  unfold hkeeps, keeps in K. cbn [get_table] in K. unfold hreservations in *. by rewrite <- K.
Qed.

(** *** A worker over a queue of one *)

Definition demo_config : RuntimeQueueConfig := default_queue_config.
Definition queued_world (response : odict value) : world :=
  (enqueue demo_gateway_store Queue.demo_clock review_task
    (mkEnqueueOptions (Some response) 0 None 2 None "dev" "default" [] []) (mkWorld empty_store ∅ 0)).2.
Definition demo_process (h : host nat) : result loop_exn (option RuntimeQueueProcessResult) * host nat :=
  process_one (Services0 := demo_services) demo_gateway_store Queue.demo_clock demo_loads demo_sha256 demo_pow demo_jitter
    demo_registry "worker-1" demo_config h.
Definition demo_processed (response : odict value) := demo_process (mkHost (queued_world response) 0%nat).

Definition reported (r : result loop_exn (option RuntimeQueueProcessResult)) : value * value :=
  match r with Ok (Some r) => (pr_status r, pr_stop_reason r) | _ => (VNone, VNone) end.

Example worker_succeeds :
  let '(r, h) := demo_processed demo_response in
  reported r = (VStr "succeeded", VStr "completed") /\
  map (dget "status" VNone) (od_values (hreservations h)) = [VStr "finalized"].
Proof. vm_compute. split; reflexivity. Qed.

Lemma worker_closes_books_witness :
  exists r c, (demo_processed demo_response).1 = Ok (Some r) /\
    settled c (pr_status r) (pr_stop_reason r) (demo_processed demo_response).2 /\
    no_new_open (mkHost (queued_world demo_response) 0%nat) (demo_processed demo_response).2.
Proof.
  assert (Hs : (reported (demo_processed demo_response).1).1 = VStr "succeeded") by (vm_compute; reflexivity).
  destruct (demo_processed demo_response) as [r h'] eqn:E.
  destruct r as [[r|]|e]; [|discriminate Hs|discriminate Hs].
  destruct (worker_closes_books (Services0 := demo_services) demo_gateway_store Queue.demo_clock demo_loads demo_sha256
    demo_pow demo_jitter demo_registry "worker-1" demo_config (mkHost (queued_world demo_response) 0%nat) h' r E)
    as (b & w1 & c & _ & _ & _ & _ & Hc & Hn).
  exists r, c. split; [reflexivity|]. split; [exact Hc|exact Hn].
Defined.

(** A denied tool call fails the attempt: the item waits for a retry and the
    quota is given back. *)
Example worker_retries :
  let '(r, h) := demo_processed (review_response demo_authority) in
  reported r = (VStr "retry_scheduled", VStr "policy_denied") /\
  map (dget "status" VNone) (od_values (hreservations h)) = [VStr "refunded"].
Proof. vm_compute. split; reflexivity. Qed.

(** Nothing to claim is nothing done. *)
Example worker_idles :
  let '(r, h) := demo_process (mkHost (mkWorld empty_store ∅ 0) 0%nat) in r = Ok None /\ h_ext h = 0%nat.
Proof. vm_compute. split; reflexivity. Qed.

(** A task queued without a composition context, for a worker that has no
    Control Plane, raises an exception the worker does not handle: it leaves
    [process_one], and the item stays claimed with its attempt open. *)
Definition uncomposed_world : world :=
  (enqueue demo_gateway_store Queue.demo_clock review_task default_enqueue (mkWorld empty_store ∅ 0)).2.
Example worker_crashes :
  let '(r, h) := demo_process (mkHost uncomposed_world 0%nat) in
  match r with Raise (Raised (RuntimeEntryPointError _)) => True | _ => False end /\
  map (dget "status" VNone) (od_values (hitems h)) = [VStr "claiming"] /\
  map (dget "status" VNone) (od_values (hattempts h)) = [VStr "running"].
Proof. vm_compute. split_and!; (exact I || reflexivity). Qed.

(** The exception ends the worker's loop. *)
Example crash_ends_worker :
  match (run_forever (Services0 := demo_services) demo_gateway_store Queue.demo_clock demo_loads demo_sha256 demo_pow
           demo_jitter demo_registry "worker-1" demo_config (mret false) (mret tt) None 5
           (mkHost uncomposed_world 0%nat)).1 with
  | Raise (Raised (RuntimeEntryPointError _)) => True
  | _ => False
  end.
Proof. vm_compute. exact I. Qed.
