(* ===== verification/Api.v ===== *)
(** * The Runtime API: the tenant-scoped operations a transport exposes

    Models [runtime/api.py]. The service puts the queue manager, the entry point
    and the loop behind a principal: a task is started for the principal's
    tenant only, and a run or a queue item is read, cancelled or retried only
    when it belongs to that tenant. *)

From S2P Require Import Prelude PyStr PyFloat PyValue Models Enforcement TaskAnalyzer ProfileComposer RuntimeStore Artifacts Json Clock FlightRecorder Quotas Queue SkillHandlers Host Context ToolGateway EntryPoint Loop LoopCorrect Worker.
Open Scope string_scope.
Open Scope list_scope.

Record RuntimeApiPrincipal := mkPrincipal {
  principal_id : string;
  principal_tenant : string;
  principal_area : string;
  principal_roles : list string;
}.

(** [x.get("tenant_id") == principal.tenant_id] and the same for the area *)
Definition of_principal (p : RuntimeApiPrincipal) (d : odict value) : bool :=
  py_eq (dget "tenant_id" VNone d) (VStr (principal_tenant p)) && py_eq (dget "area_id" VNone d) (VStr (principal_area p)).

(** The values of some fields, all of which must be there. *)
Fixpoint summary (fields : list string) (d : odict value) : res (odict value) :=
  match fields with
  | [] => mret []
  | f :: fields => v ← ditem f d; rest ← summary fields d; mret ((f, v) :: rest)
  end.

Definition _queue_summary (queue_item : record) : res (odict value) :=
  s ← summary ["id"; "task_id"; "tenant_id"; "area_id"; "status"; "scheduled_at"; "attempts"; "max_attempts"] queue_item;
  mret (s ++ [("run_id", dget "run_id" VNone queue_item)]).

Definition _run_summary (run : record) : res (odict value) :=
  summary ["id"; "task_id"; "profile_id"; "profile_version"; "status"; "stop_reason"; "started_at"; "completed_at";
           "artifact_root_uri"; "token_budget_total"; "tokens_used_total"] run.

Definition queued_response (status : value) (queue_item : odict value) : odict value :=
  [("contract_version", VStr "0.1.0"); ("kind", VStr "start_run_response"); ("response_mode", VStr "queued");
   ("status", status); ("queue_item", VDict queue_item); ("run", VNone)].

Abbreviation called X A := (eff (host X) loop_exn A).

Section api.
Context {X : Type} `{!Services X}.
Context (artifacts : JsonArtifactStore) (clock : nat -> datetime) (json_loads : string -> res value)
        (sha256 : string -> string).
Context (registry : SkillHandlerRegistry) (queue_config : RuntimeQueueConfig).

(** ** Access checks *)

Definition _assert_task_tenant (task : odict value) (p : RuntimeApiPrincipal) : res unit :=
  let auth := match dget "context" (VDict []) task with VDict context => dget "auth" (VDict []) context | _ => VDict [] end in
  raise_if (negb (match auth with
                  | VDict auth => of_principal p auth
                  | _ => false
                  end))
    (RuntimeApiError "Runtime API task tenant scope does not match principal.").

Definition queue_rows : rt (list record) :=
  s ← gets w_store; mret (recordset_records "runtime_queue_items" (as_runtime_plane_recordset "0.2.0" "dev" s)).

(** The tenant of the profile a run was sealed under. *)
Definition profile_tenant_is (p : RuntimeApiPrincipal) (run : option record) : rt bool :=
  match run with
  | None => mret false
  | Some run =>
      match dget "profile_artifact_uri" VNone run with
      | VStr uri =>
          profile ← on_files (read_json artifacts json_loads uri);
          mret (match profile with
                | VDict profile =>
                    match dget "tenant_context" VNone profile with VDict t => of_principal p t | _ => false end
                | _ => false
                end)
      | _ => mret false
      end
  end.

Definition _assert_run_tenant (run_id : string) (p : RuntimeApiPrincipal) : rt unit :=
  items ← queue_rows;
  if existsb (fun item => py_eq (dget "run_id" VNone item) (VStr run_id) && of_principal p item) items then mret tt
  else
    run ← on_store (get_runtime_run run_id);
    ok ← profile_tenant_is p run;
    if (ok : bool) then mret tt else throw (RuntimeApiError "Runtime API read was denied by tenant scope.").

Definition _assert_queue_tenant (queue_item : record) (p : RuntimeApiPrincipal) : res unit :=
  raise_if (negb (py_eq (dget "tenant_id" VNone queue_item) (VStr (principal_tenant p))))
    (RuntimeApiError "Runtime API queue access was denied by tenant scope.") ;;
  raise_if (negb (py_eq (dget "area_id" VNone queue_item) (VStr (principal_area p))))
    (RuntimeApiError "Runtime API queue access was denied by area scope.").

Definition _queue_item_for_run_or_queue_id (value : string) : rt record :=
  item ← on_store (get_runtime_queue_item value);
  match item with
  | Some item => mret item
  | None =>
      rows ← queue_rows;
      match List.find (fun candidate => py_eq (dget "run_id" VNone candidate) (VStr value)) rows with
      | Some candidate => mret candidate
      | None => throw (RuntimeApiError "Runtime queue item was not found.")
      end
  end.

(** ** Reading *)

(** [max(checkpoints, key=index)]: the first one of greatest index. *)
Fixpoint latest_of (best : Z * record) (checkpoints : list record) : res (Z * record) :=
  match checkpoints with
  | [] => mret best
  | c :: checkpoints =>
      i ← py_int (dget "checkpoint_index" (VInt 0) c);
      latest_of (if (best.1 <? i)%Z then (i, c) else best) checkpoints
  end.

Definition _response_uri_for_run (run_id : string) : rt (option string) :=
  checkpoints ← on_store (checkpoints_for_run run_id);
  match List.filter (fun c => py_eq (dget "phase" VNone c) (VStr "validator")) checkpoints with
  | [] => mret None
  | c :: cs =>
      i ← lift (py_int (dget "checkpoint_index" (VInt 0) c));
      latest ← lift (latest_of (i, c) cs);
      mret (as_text (dget "state_uri" VNone latest.2))
  end.

Definition _response_payload_for_run (run_id : string) : rt value :=
  uri ← _response_uri_for_run run_id;
  match uri with
  | None => mret VNone
  | Some uri =>
      payload ← on_files (read_json artifacts json_loads uri);
      mret (match payload with VDict _ => payload | _ => VNone end)
  end.

Definition run_status (run_id : string) (p : RuntimeApiPrincipal) : rt (odict value) :=
  run ← on_store (get_runtime_run run_id);
  match run with
  | None => throw (RuntimeApiError "Runtime run was not found.")
  | Some run => _assert_run_tenant run_id p ;; lift (_run_summary run)
  end.

Definition status_response (run : odict value) : odict value :=
  [("contract_version", VStr "0.1.0"); ("kind", VStr "run_status_response"); ("run", VDict run)].

Definition get_status (run_id : string) (p : RuntimeApiPrincipal) : rt (odict value) :=
  run ← run_status run_id p; mret (status_response run).

Definition get_result (run_id : string) (p : RuntimeApiPrincipal) : rt (odict value) :=
  status ← run_status run_id p;
  s ← lift (ditem "status" status);
  terminal ← lift (in_frozenset s ["succeeded"; "failed"; "cancelled"]);
  lift (raise_if (negb terminal) (RuntimeApiError "Runtime result is not available for a non-terminal run.")) ;;
  response ← _response_payload_for_run run_id;
  uri ← _response_uri_for_run run_id;
  events ← on_store (events_for_run run_id);
  checkpoints ← on_store (checkpoints_for_run run_id);
  mret [("contract_version", VStr "0.1.0"); ("kind", VStr "run_result_response"); ("run", VDict status);
        ("result", VDict [("response", response); ("response_uri", opt_str uri); ("validation_result_uris", VList []);
          ("event_count", VInt (Z.of_nat (length events))); ("checkpoint_count", VInt (Z.of_nat (length checkpoints)))])].

(** ** Changing queue items *)

Definition cancel_run (run_or_queue_id : string) (p : RuntimeApiPrincipal) : rt (odict value) :=
  queue_item ← _queue_item_for_run_or_queue_id run_or_queue_id;
  lift (_assert_queue_tenant queue_item p) ;;
  previous ← lift (v ← ditem "status" queue_item; mret (py_str v));
  id ← lift (v ← ditem "id" queue_item; mret (py_str v));
  cancelled ← mark_cancelled clock id None;
  s ← lift (_queue_summary cancelled);
  mret [("contract_version", VStr "0.1.0"); ("kind", VStr "cancel_run_response");
        ("run_id", py_or (dget "run_id" VNone cancelled) (VStr run_or_queue_id));
        ("previous_status", VStr (if String.eqb previous "claiming" then "running" else previous));
        ("status", VStr "cancelled"); ("stop_reason", VStr "cancelled"); ("queue_item", VDict s)].

Definition retry_run (run_or_queue_id : string) (p : RuntimeApiPrincipal) : rt (odict value) :=
  queue_item ← _queue_item_for_run_or_queue_id run_or_queue_id;
  lift (_assert_queue_tenant queue_item p) ;;
  id ← lift (v ← ditem "id" queue_item; mret (py_str v));
  retried ← retry artifacts clock json_loads id None None None;
  status ← lift (ditem "status" retried);
  s ← lift (_queue_summary retried);
  mret (queued_response status s).

(** ** Starting *)

(** The context of a request: absent, an object, or refused. *)
Definition request_context (request : odict value) : res (option (odict value)) :=
  match dget "composition_context_response" VNone request with
  | VNone => mret None
  | VDict d => mret (Some d)
  | _ => Raise (RuntimeApiError "composition_context_response must be an object when provided.")
  end.

Definition start_key (request task : odict value) : res string :=
  let key := dget "idempotency_key" VNone request in
  if truthy key then mret (py_str key) else id ← ditem "id" task; mret (py_str id +:+ ":start").

Definition request_environment (request : odict value) (default : string) : string :=
  py_str (py_or (dget "environment" VNone request) (VStr default)).

Definition start_queued (request task : odict value) (context : option (odict value)) : rt (odict value) :=
  key ← lift (start_key request task);
  queue_item ← enqueue artifacts clock task
    (mkEnqueueOptions context 0 None 3 (Some key)
       (request_environment request (config_environment queue_config)) (config_queue_name queue_config)
       (tenant_queued_limits queue_config) (config_disabled_tenant_ids queue_config));
  status ← lift (ditem "status" queue_item);
  s ← lift (_queue_summary queue_item);
  mret (queued_response status s).

Definition start_immediate (request task : odict value) (context : option (odict value)) : called X (odict value) :=
  start_result ← escalate (start artifacts clock sha256 (request_environment request "dev") task (initial_start context None));
  loop_result ← loop_run artifacts clock json_loads sha256 registry None start_result;
  run ← escalate (host_world (on_store (get_runtime_run (sr_run_id start_result))));
  s ← escalate (lift (_run_summary (default [] run)));
  mret [("contract_version", VStr "0.1.0"); ("kind", VStr "start_run_response"); ("response_mode", VStr "immediate");
        ("status", VStr (lr_status loop_result)); ("queue_item", VNone); ("run", VDict s)].

Definition start_api_run (request : odict value) (p : RuntimeApiPrincipal) : called X (odict value) :=
  match dget "task" VNone request with
  | VDict task =>
      escalate (lift (_assert_task_tenant task p)) ;;
      let run_immediately := match dget "execution" (VDict []) request with
                             | VDict execution => truthy (dget "run_immediately" (VBool false) execution)
                             | _ => false
                             end in
      context ← escalate (lift (request_context request));
      if run_immediately then start_immediate request task context
      else escalate (host_world (start_queued request task context))
  | _ => throw (Raised (RuntimeApiError "Runtime start request requires a task object."))
  end.
End api.

(** ** The calls of a client *)

Inductive api_call :=
| Start (request : odict value)
| Status (run_id : string)
| Result (run_id : string)
| Cancel (run_or_queue_id : string)
| Retry (run_or_queue_id : string).

Section calls.
Context {X : Type} `{!Services X}.
Context (artifacts : JsonArtifactStore) (clock : nat -> datetime) (json_loads : string -> res value)
        (sha256 : string -> string).
Context (registry : SkillHandlerRegistry) (queue_config : RuntimeQueueConfig).

Definition do_call (c : api_call) (p : RuntimeApiPrincipal) : called X (odict value) :=
  match c with
  | Start request => start_api_run artifacts clock json_loads sha256 registry queue_config request p
  | Status run_id => escalate (host_world (get_status artifacts json_loads run_id p))
  | Result run_id => escalate (host_world (get_result artifacts json_loads run_id p))
  | Cancel id => escalate (host_world (cancel_run clock id p))
  | Retry id => escalate (host_world (retry_run artifacts clock json_loads id p))
  end.
End calls.

(** ** What a call does to the queue items *)

(** The table files every item under its id, the slug of its idempotency key. *)
Definition filed (t : table) : Prop :=
  NoDup (od_keys t) /\
  forall k r, od_get k t = Some r -> exists key,
    od_get "id" r = Some (VStr k) /\ od_get "idempotency_key" r = Some (VStr key) /\ k = slug_id key (Some "queue").

(** At most the item [q] changes, and not its identity. *)
Definition touches (q : string) (t t' : table) : Prop :=
  (forall k, k <> q -> od_get k t' = od_get k t) /\ (filed t -> filed t').
#[export] Instance touches_preorder q : PreOrder (touches q).
Proof.
  split; [by split|]. intros a b c [H1 H2] [H3 H4]. split; [|by auto]. intros k Hk. by rewrite H3, H1.
Qed.

Definition w_touches (q : string) (w w' : world) : Prop := touches q (items w) (items w').
#[export] Instance w_touches_preorder q : PreOrder (w_touches q).
Proof. split; [intros w; apply (touches_preorder q)|]. intros a b c. apply (touches_preorder q). Qed.

(** At most one item is added, under a key no item has. *)
Definition adds (t t' : table) : Prop :=
  t' = t \/ exists key r, t' = od_set (slug_id key (Some "queue")) r t /\
    od_get "id" r = Some (VStr (slug_id key (Some "queue"))) /\ od_get "idempotency_key" r = Some (VStr key) /\
    forall r', In r' (od_values t) -> od_get "idempotency_key" r' <> Some (VStr key).

Lemma filed_set t k r key : filed t -> od_get "id" r = Some (VStr k) -> od_get "idempotency_key" r = Some (VStr key) ->
  k = slug_id key (Some "queue") -> filed (od_set k r t).
Proof.
  intros [Hn Hf] Hi Hk He. split; [by apply od_set_NoDup|]. intros k' r'. rewrite od_get_set.
  destruct (String.eqb k' k) eqn:E; [|apply Hf]. apply String.eqb_eq in E as ->. intros [= <-]. eauto.
Qed.

Lemma update_item_touches q fields : ~ In "id" (od_keys fields) -> ~ In "idempotency_key" (od_keys fields) ->
  preserves (w_touches q) (on_store (RuntimeStore.update_runtime_queue_item q fields)).
Proof.
  intros H1 H2 w. unfold on_store, zoom, RuntimeStore.update_runtime_queue_item.
  destruct (update_record QueueItems q fields (w_store w)) as [[r|e] s'] eqn:E; cbn [snd].
  - apply update_record_Ok in E as (stored & Hk & -> & ->). unfold w_touches, items. cbn [set_store w_store].
    change (runtime_queue_items (set_table QueueItems ?d ?s)) with (get_table QueueItems (set_table QueueItems d s)).
    rewrite get_set_table, decide_True by done. split.
    + intros k Hne. rewrite od_get_set. by rewrite (proj2 (String.eqb_neq _ _) Hne).
    + intros Hf. destruct (proj2 Hf _ _ Hk) as (key & Hi & Hd & He).
      apply (filed_set _ _ _ key); [done| | |done]; by rewrite od_get_update_other.
  - unfold update_record in E. rewrite eff_gets in E. unfold ditem in E.
    destruct (od_get q _); [discriminate|]. injection E as _ <-. by destruct w.
Qed.

Lemma same_items_touches {A} q (m : rt A) : preserves same_items m -> preserves (w_touches q) m.
Proof. intros Hm w. unfold w_touches. rewrite (Hm w). reflexivity. Qed.
#[export] Hint Resolve same_items_touches get_run_items release_items update_run_items find_item_items load_mapping_items load_context_items : preserves.

Lemma cancel_touches clock q run : preserves (w_touches q) (mark_cancelled clock q run).
Proof.
  unfold mark_cancelled, _update_status. preserves_tac.
  apply update_item_touches; intros H%str_in_In; destruct run; vm_compute in H; discriminate.
Qed.

(** What an operation does to the items, when all but its last step leaves them alone. *)
Definition items_by {A} (Q : table -> table -> Prop) (m : rt A) : Prop := forall w, Q (items w) (items (m w).2).

Section items_by.
Context (Q : table -> table -> Prop) `{!Reflexive Q}.

Lemma items_by_same {A} (m : rt A) : preserves same_items m -> items_by Q m.
Proof. intros Hm w. by rewrite (Hm w). Qed.
Lemma items_by_first {A B} (m : rt A) (k : A -> rt B) :
  preserves same_items m -> (forall x, items_by Q (k x)) -> items_by Q (m ≫= k).
Proof.
  intros Hm Hk w. unfold mbind, eff_bind. pose proof (Hm w) as E. destruct (m w) as [[x|e] w1]; cbn [snd] in *.
  - rewrite <- E. apply Hk.
  - by rewrite E.
Qed.
Lemma items_by_last {A B} (m : rt A) (k : A -> rt B) :
  items_by Q m -> (forall x, preserves same_items (k x)) -> items_by Q (m ≫= k).
Proof.
  intros Hm Hk w. unfold mbind, eff_bind. pose proof (Hm w) as H. destruct (m w) as [[x|e] w1]; cbn [snd] in *; [|exact H].
  by rewrite (Hk x w1).
Qed.
End items_by.

#[export] Instance adds_refl : Reflexive adds.
Proof. by left. Qed.

(** Leaves the last step that changes the items. *)
Ltac items_tac :=
  repeat (intros; cbv zeta;
    match goal with
    | |- items_by _ (_ ≫= _) => apply items_by_first; [tc_solve|solve [preserves_tac]|intros ?]
    | |- items_by _ (match ?x with _ => _ end) => destruct x
    | |- items_by _ _ => apply items_by_same; [tc_solve|solve [preserves_tac]]
    end).

Lemma insert_item_adds key r : od_get "id" r = Some (VStr (slug_id key (Some "queue"))) ->
  od_get "idempotency_key" r = Some (VStr key) ->
  items_by adds (on_store (RuntimeStore.insert_runtime_queue_item r)).
Proof.
  intros Hi Hk w. unfold on_store, zoom, RuntimeStore.insert_runtime_queue_item. rewrite eff_gets.
  unfold dget. rewrite Hk. cbn [default is_none].
  destruct (List.find _ _) as [existing|] eqn:Ef; [by left|]. right.
  assert (Hid : record_id r = Ok (slug_id key (Some "queue"))) by (unfold record_id, ditem; by rewrite Hi).
  exists key, r. split.
  { unfold insert_record. rewrite Hid, eff_lift_Ok, eff_modify. unfold items. cbn [snd mret eff_ret set_store w_store].
    change (runtime_queue_items (set_table QueueItems ?d ?s)) with (get_table QueueItems (set_table QueueItems d s)).
    by rewrite get_set_table, decide_True. }
  split; [done|]. split; [done|]. intros r' Hin E. apply (find_none _ _ Ef) in Hin. cbv beta in Hin.
  rewrite E in Hin. cbn [default py_eq] in Hin. by rewrite String.eqb_refl in Hin.
Qed.

Lemma set_store_same w : set_store (w_store w) w = w.
Proof. by destruct w. Qed.

Lemma queue_rows_items w : queue_rows w = (Ok (od_values (items w)), w).
Proof.
  unfold queue_rows, recordset_records. rewrite eff_gets. unfold mret, eff_ret, items. f_equal. f_equal. cbn.
  by apply omap_as_mapping.
Qed.

Section adding.
Context (artifacts : JsonArtifactStore) (clock : nat -> datetime) (json_loads : string -> res value).

Lemma enqueue_adds task o : items_by adds (enqueue artifacts clock task o).
Proof.
  unfold enqueue, _tenant_queued_count. items_tac; by eapply insert_item_adds.
Qed.

Lemma retry_adds k at_ key m : items_by adds (retry artifacts clock json_loads k at_ key m).
Proof.
  unfold retry, load_task. items_tac. apply enqueue_adds.
Qed.

(** A cancellation finds the item it changes under the id it read. *)
Lemma item_for_filed v w item w' : filed (items w) -> _queue_item_for_run_or_queue_id v w = (Ok item, w') ->
  w' = w /\ exists k, od_get "id" item = Some (VStr k) /\ od_get k (items w) = Some item.
Proof.
  intros [Hn Hf] H. unfold _queue_item_for_run_or_queue_id in H. apply eff_bind_Ok in H as (o & w1 & H1 & H).
  unfold on_store, zoom, get_runtime_queue_item, gets in H1. injection H1 as <- <-. rewrite set_store_same in H.
  destruct (od_get v (runtime_queue_items (w_store w))) as [r|] eqn:Ev.
  - injection H as <- <-. split; [done|]. exists v. destruct (Hf _ _ Ev) as (key & Hi & _). done.
  - rewrite (eff_bind_Ok _ _ _ _ _) in H. destruct H as (rows & w1 & Hr & H). rewrite queue_rows_items in Hr.
    injection Hr as <- <-. destruct (List.find _ _) as [c|] eqn:Ef; [|done]. injection H as <- <-. split; [done|].
    apply find_some in Ef as [Hin _]. apply in_map_iff in Hin as ([k r] & <- & Hin).
    apply (od_get_NoDup k) in Hin; [|done]. exists k. destruct (Hf _ _ Hin) as (key & Hi & _). done.
Qed.
End adding.

(** ** Tenants keep their items *)

(** The two ways an item changes: a new item takes the id of an old one with
    another idempotency key, because both keys have one slug. *)
Definition displaced (t t' : table) (k : string) (r : record) : Prop :=
  exists key key' r', od_get "idempotency_key" r = Some (VStr key) /\ od_get k t' = Some r' /\
    od_get "idempotency_key" r' = Some (VStr key') /\ key <> key' /\
    slug_id key (Some "queue") = k /\ slug_id key' (Some "queue") = k.

Definition isolates (p : RuntimeApiPrincipal) (t t' : table) : Prop :=
  filed t -> filed t' /\ forall k r, od_get k t = Some r -> of_principal p r = false ->
    od_get k t' = Some r \/ displaced t t' k r.
#[export] Instance isolates_refl p : Reflexive (isolates p).
Proof. intros t Hf. split; [done|]. by left. Qed.

Lemma adds_isolates p t t' : adds t t' -> isolates p t t'.
Proof.
  intros [->|(key & r & -> & Hi & Hk & Hnew)] Hf; [by apply isolates_refl|].
  split; [by eapply filed_set|]. intros k r0 H0 _. rewrite od_get_set.
  destruct (String.eqb k (slug_id key (Some "queue"))) eqn:E; [|by left]. apply String.eqb_eq in E. right.
  destruct (proj2 Hf _ _ H0) as (key0 & _ & Hk0 & Hs0). exists key0, key, r. split_and!; try done.
  - by rewrite od_get_set, E, String.eqb_refl.
  - intros <-. apply (Hnew r0); [|done]. apply in_map_iff. exists (k, r0). split; [done|by apply od_get_In].
Qed.

Lemma touches_isolates p q t t' r : od_get q t = Some r -> of_principal p r = true -> touches q t t' -> isolates p t t'.
Proof.
  intros Hq Hp [Ht Hf'] Hf. split; [by apply Hf'|]. intros k r' Hk Hr. left. rewrite Ht; [done|]. intros ->. congruence.
Qed.

Lemma assert_queue_tenant_Ok item p u : _assert_queue_tenant item p = Ok u -> of_principal p item = true.
Proof.
  unfold _assert_queue_tenant, of_principal. destruct (py_eq _ (VStr (principal_tenant p))); [|done].
  by destruct (py_eq _ (VStr (principal_area p))).
Qed.

Section isolation.
Context {X : Type} `{!Services X}.
Context (artifacts : JsonArtifactStore) (clock : nat -> datetime) (json_loads : string -> res value)
        (sha256 : string -> string).
Context (registry : SkillHandlerRegistry) (queue_config : RuntimeQueueConfig).

Definition hitems (h : host X) : table := items (h_world h).

Lemma item_for_same v : preserves same_items (_queue_item_for_run_or_queue_id v).
Proof.
  unfold _queue_item_for_run_or_queue_id, queue_rows. preserves_tac. apply on_store_items. by intros s.
Qed.

(** What follows the resolution and the check of an item starts from an item of the principal. *)
Lemma resolved_item {B} Q `{!Reflexive Q} v p (f : record -> rt B) w : filed (items w) ->
  (forall item k, of_principal p item = true -> od_get "id" item = Some (VStr k) -> od_get k (items w) = Some item ->
     Q (items w) (items (f item w).2)) ->
  Q (items w) (items ((item ← _queue_item_for_run_or_queue_id v; lift (_assert_queue_tenant item p) ;; f item) w).2).
Proof.
  intros Hf H. pose proof (item_for_same v w) as Hs. unfold mbind at 1, eff_bind at 1.
  destruct (_queue_item_for_run_or_queue_id v w) as [[item|e] w1] eqn:Ei; cbn [snd] in Hs; [|cbn [snd]; by rewrite Hs].
  apply item_for_filed in Ei as (-> & k & Hid & Hk); [|done]. unfold mbind, eff_bind, lift.
  destruct (_assert_queue_tenant item p) as [u|e] eqn:Ea; [|reflexivity]. apply assert_queue_tenant_Ok in Ea. by apply (H item k).
Qed.

Lemma cancel_isolates v p w : isolates p (items w) (items (cancel_run clock v p w).2).
Proof.
  intros Hf. refine (resolved_item (isolates p) v p _ w Hf _ Hf). intros item k Hp Hid Hk _.
  apply (touches_isolates p k _ _ item Hk Hp); [|done].
  assert (Hd : ditem "id" item = Ok (VStr k)) by (unfold ditem; by rewrite Hid).
  rewrite Hd. cbn [mbind result_bind mret result_ret py_str].
  match goal with |- touches k _ (items (?m w).2) => enough (preserves (w_touches k) m) as Hm by exact (Hm w) end.
  apply (preserves_bind _); [auto with preserves typeclass_instances|intros previous].
  match goal with |- preserves ?R (_ ≫= ?f) => change (preserves R (f k)) end.
  cbv beta. preserves_tac. apply cancel_touches.
Qed.

Lemma retry_isolates v p w : isolates p (items w) (items (retry_run artifacts clock json_loads v p w).2).
Proof.
  intros Hf. refine (resolved_item (isolates p) v p _ w Hf _ Hf). intros item k _ _ _ _. apply adds_isolates; [|done].
  match goal with |- adds _ (items (?m w).2) => enough (items_by adds m) as Hm by exact (Hm w) end.
  items_tac. apply items_by_last; [apply retry_adds|]. preserves_tac.
Qed.

(** Reads change nothing. *)
Definition unchanged (w w' : world) : Prop := w' = w.
#[local] Instance unchanged_preorder : PreOrder unchanged.
Proof. split; [done|]. unfold unchanged. intros a b c. congruence. Qed.

Lemma store_unchanged {A} (m : st A) : (forall s, (m s).2 = s) -> preserves unchanged (on_store m).
Proof.
  intros Hm w. unfold on_store, zoom, unchanged. specialize (Hm (w_store w)). destruct (m (w_store w)) as [r s].
  cbn [snd] in *. subst s. apply set_store_same.
Qed.
Lemma read_unchanged uri : preserves unchanged (on_files (read_json artifacts json_loads uri)).
Proof.
  intros w. unfold on_files, zoom, unchanged. pose proof (read_json_files artifacts json_loads uri (w_files w)) as H.
  destruct (read_json _ _ _ _) as [r fs]. cbn [snd] in *. subst fs. by destruct w.
Qed.
Lemma get_run_unchanged run_id : preserves unchanged (on_store (get_runtime_run run_id)).
Proof. by apply store_unchanged. Qed.
Lemma records_unchanged t run_id : preserves unchanged (on_store (records_of_run t run_id)).
Proof. apply store_unchanged. intros s. unfold records_of_run. by rewrite eff_gets. Qed.
Hint Resolve read_unchanged get_run_unchanged records_unchanged : preserves.

Lemma status_unchanged run_id p : preserves unchanged (run_status artifacts json_loads run_id p).
Proof. unfold run_status, _assert_run_tenant, queue_rows, profile_tenant_is. preserves_tac. Qed.
Hint Resolve status_unchanged : preserves.
Lemma get_status_unchanged run_id p : preserves unchanged (get_status artifacts json_loads run_id p).
Proof. unfold get_status. preserves_tac. Qed.
Lemma response_uri_unchanged run_id : preserves unchanged (_response_uri_for_run run_id).
Proof. unfold _response_uri_for_run, checkpoints_for_run. preserves_tac. Qed.
Lemma result_unchanged run_id p : preserves unchanged (get_result artifacts json_loads run_id p).
Proof.
  unfold get_result, _response_payload_for_run, _response_uri_for_run, events_for_run, checkpoints_for_run.
  preserves_tac.
Qed.

Lemma world_call {A} (m : rt A) (h : host X) : hitems (escalate (host_world m) h).2 = items (m (h_world h)).2.
Proof. unfold escalate, host_world, zoom. by destruct (m (h_world h)) as [[] w']. Qed.

Lemma world_call_same {A} (m : rt A) (h : host X) : preserves unchanged m -> (escalate (host_world m) h).2 = h.
Proof.
  intros Hm. specialize (Hm (h_world h)). unfold unchanged in Hm. unfold escalate, host_world, zoom.
  destruct (m (h_world h)) as [[] w']; cbn [snd] in *; subst w'; by destruct h.
Qed.

Lemma immediate_items request task context (h : host X) :
  hitems (start_immediate artifacts clock json_loads sha256 registry request task context h).2 = hitems h.
Proof.
  enough (Hk : preserves (hkeeps (X := X) QueueItems)
            (start_immediate artifacts clock json_loads sha256 registry request task context)) by exact (Hk h).
  assert (Hq : queue_table QueueItems) by by left.
  unfold start_immediate. apply (preserves_bind _); [by apply start_keeps|intros sr].
  apply (preserves_bind _); [intros h'; by apply loop_run_keeps|intros result].
  apply (preserves_bind _); [|intros run; preserves_tac].
  apply (worker_world_keeps QueueItems (on_store (get_runtime_run (sr_run_id sr)))). apply on_store_keeps. by intros s.
  apply preserves_escalate. auto with preserves typeclass_instances.
Qed.

Lemma start_isolates request p (h : host X) :
  isolates p (hitems h)
    (hitems (start_api_run artifacts clock json_loads sha256 registry queue_config request p h).2).
Proof.
  unfold start_api_run. destruct (dget "task" VNone request) as [| | | | |task]; try (reflexivity).
  unfold mbind at 1, eff_bind at 1, escalate at 1, lift at 1.
  destruct (_assert_task_tenant task p) as [[]|e]; [|reflexivity]. cbv zeta.
  unfold mbind at 1, eff_bind at 1, escalate at 1, lift at 1.
  destruct (request_context request) as [context|e]; [|reflexivity].
  destruct (match dget "execution" _ request with VDict _ => _ | _ => _ end).
  - rewrite immediate_items. reflexivity.
  - rewrite world_call. apply adds_isolates.
    match goal with |- adds _ (items (?m _).2) => enough (items_by adds m) as Hm by apply (Hm (h_world h)) end.
    unfold start_queued. items_tac. apply items_by_last; [apply enqueue_adds|]. preserves_tac.
Qed.
End isolation.

(** C28. Tenants keep their queue items. From a store that files its items under
    the slugs of their keys, no call of the service by a principal changes or
    removes an item of another tenant or area, but for one case: a new item
    takes the id of an old one when both idempotency keys have one slug. The
    calls that only read change nothing at all. *)
Theorem api_isolates_tenants {X} `{!Services X} artifacts clock json_loads sha256 registry config c p (h : host X) :
  filed (hitems h) ->
  let h' := (do_call artifacts clock json_loads sha256 registry config c p h).2 in
  filed (hitems h') /\
  (forall k r, od_get k (hitems h) = Some r -> of_principal p r = false ->
     od_get k (hitems h') = Some r \/ displaced (hitems h) (hitems h') k r) /\
  match c with Status _ | Result _ => h' = h | _ => True end.
Proof.
  intros Hf. cbv zeta.
  assert (Hi : isolates p (hitems h) (hitems (do_call artifacts clock json_loads sha256 registry config c p h).2)).
  { destruct c; cbn [do_call]; rewrite ?world_call; [apply start_isolates| | |apply cancel_isolates|apply retry_isolates].
    - by rewrite (get_status_unchanged artifacts json_loads run_id p (h_world h)).
    - by rewrite (result_unchanged artifacts json_loads run_id p (h_world h)). }
  apply Hi in Hf as [H1 H2]. split; [exact H1|]. split; [exact H2|].
  destruct c; cbn [do_call]; try done; apply world_call_same.
  - apply get_status_unchanged.
  - apply result_unchanged.
Qed.

(** ** What a principal may read *)

Section reading.
Context (artifacts : JsonArtifactStore) (json_loads : string -> res value).

(** The run was queued for the principal's tenant, or sealed under a profile of it. *)
Definition belongs (p : RuntimeApiPrincipal) (run_id : string) (run : record) (w : world) : Prop :=
  (exists item, In item (od_values (items w)) /\ py_eq (dget "run_id" VNone item) (VStr run_id) = true /\
     of_principal p item = true) \/
  exists uri profile t, dget "profile_artifact_uri" VNone run = VStr uri /\
    (read_json artifacts json_loads uri (w_files w)).1 = Ok (VDict profile) /\
    dget "tenant_context" VNone profile = VDict t /\ of_principal p t = true.

Lemma on_files_read uri w :
  on_files (read_json artifacts json_loads uri) w = ((read_json artifacts json_loads uri (w_files w)).1, w).
Proof.
  pose proof (read_json_files artifacts json_loads uri (w_files w)) as H. unfold on_files, zoom.
  destruct (read_json _ _ _ _) as [r fs]. cbn [fst snd] in *. subst fs. by destruct w.
Qed.

Lemma profile_tenant_spec p run w :
  (profile_tenant_is artifacts json_loads p (Some run) w).1 = Ok true <->
  exists uri profile t, dget "profile_artifact_uri" VNone run = VStr uri /\
    (read_json artifacts json_loads uri (w_files w)).1 = Ok (VDict profile) /\
    dget "tenant_context" VNone profile = VDict t /\ of_principal p t = true.
Proof.
  unfold profile_tenant_is. destruct (dget "profile_artifact_uri" VNone run) as [| | |uri| |];
    try (split; [discriminate|intros (u & pr & t & E & _); discriminate E]).
  unfold mbind, eff_bind. rewrite on_files_read.
  destruct (read_json _ _ uri _).1 as [v|e] eqn:Ev;
    [|split; [discriminate|intros (u & pr & t & [= <-] & E & _); congruence]].
  unfold mret, eff_ret. cbn [fst]. split.
  - intros [= H]. destruct v as [| | | | |profile]; try done.
    destruct (dget "tenant_context" VNone profile) as [| | | | |t] eqn:Et; try done. exists uri, profile, t. done.
  - intros (u & profile & t & [= <-] & Hr & Ht & Hp). rewrite Ev in Hr. injection Hr as ->. by rewrite Ht, Hp.
Qed.

Lemma assert_run_tenant_spec run_id p run w :
  od_get run_id (runtime_runs (w_store w)) = Some run ->
  (_assert_run_tenant artifacts json_loads run_id p w).1 = Ok tt <-> belongs p run_id run w.
Proof.
  intros Hr. unfold _assert_run_tenant, mbind at 1, eff_bind at 1. rewrite queue_rows_items.
  destruct (existsb _ _) eqn:Ee.
  - apply existsb_exists in Ee as (item & Hin & [H1 H2]%andb_true_iff). split; [|done]. intros _. left. eauto.
  - unfold mbind at 1, eff_bind at 1. unfold on_store, zoom, get_runtime_run, gets. rewrite set_store_same, Hr.
    pose proof (profile_tenant_spec p run w) as Hp. unfold mbind, eff_bind.
    destruct (profile_tenant_is artifacts json_loads p (Some run) w) as [[b|e] w1]; cbn [fst] in *.
    + destruct b; cbn [fst mret eff_ret throw]; split; try done; intros H.
      * right. by apply Hp.
      * destruct H as [(item & Hin & H1 & H2)|H]; [|apply Hp in H; discriminate].
        rewrite (proj2 (existsb_exists _ _)) in Ee; [done|]. exists item. by rewrite H1, H2.
    + split; [done|]. intros [(item & Hin & H1 & H2)|H]; [|apply Hp in H; discriminate].
      rewrite (proj2 (existsb_exists _ _)) in Ee; [done|]. exists item. by rewrite H1, H2.
Qed.

Lemma run_status_spec run_id p w s :
  (run_status artifacts json_loads run_id p w).1 = Ok s <->
  exists run, od_get run_id (runtime_runs (w_store w)) = Some run /\ belongs p run_id run w /\ _run_summary run = Ok s.
Proof.
  unfold run_status, mbind at 1, eff_bind at 1. unfold on_store at 1, zoom, get_runtime_run at 1, gets. rewrite set_store_same.
  destruct (od_get run_id (runtime_runs (w_store w))) as [run|] eqn:Er; [|split; [done|intros (? & ? & _); done]].
  pose proof (assert_run_tenant_spec run_id p run w Er) as Ha. unfold mbind, eff_bind, lift.
  destruct (_assert_run_tenant artifacts json_loads run_id p w) as [[[]|e] w1]; cbn [fst] in *.
  - split; [intros H; exists run; split; [done|]; split; [by apply Ha|done]|]. intros (r & [= <-] & _ & H). exact H.
  - split; [done|]. intros (r & [= <-] & Hb & _). apply Ha in Hb. done.
Qed.

Definition index_of (c : record) : res Z := py_int (dget "checkpoint_index" (VInt 0) c).

Lemma latest_of_spec best cs b : latest_of best cs = Ok b ->
  (b = best \/ In b.2 cs /\ index_of b.2 = Ok b.1) /\ (best.1 <= b.1)%Z /\
  forall c i, In c cs -> index_of c = Ok i -> (i <= b.1)%Z.
Proof.
  revert best. induction cs as [|c cs IH]; intros best; cbn [latest_of].
  - intros [= <-]. split; [by left|]. split; [lia|]. intros c i [].
  - intros H. apply bind_Ok in H as (i & Hi & H). apply IH in H as (Hb & Hle & Hall).
    destruct (best.1 <? i)%Z eqn:E; cbn [fst] in *; [apply Z.ltb_lt in E|apply Z.ltb_ge in E].
    + split; [right; destruct Hb as [->|[H1 H2]]; [by split; [left|]|by split; [right|]]|].
      split; [lia|]. intros c' i' [<-|Hin] Hc; [unfold index_of in Hc; rewrite Hi in Hc; injection Hc as <-; lia|by eapply Hall].
    + split; [destruct Hb as [->|[H1 H2]]; [by left|by right; split; [right|]]|].
      split; [lia|]. intros c' i' [<-|Hin] Hc; [unfold index_of in Hc; rewrite Hi in Hc; injection Hc as <-; lia|by eapply Hall].
Qed.

(** The validator checkpoint of a run with the greatest index, and the address
    of its state. *)
Definition final_checkpoint (run_id : string) (w : world) (c : record) : Prop :=
  In c (runtime_checkpoints (w_store w)) /\ dget "run_id" VNone c = VStr run_id /\ dget "phase" VNone c = VStr "validator" /\
  exists i, index_of c = Ok i /\
    forall c' i', In c' (runtime_checkpoints (w_store w)) -> dget "run_id" VNone c' = VStr run_id ->
      dget "phase" VNone c' = VStr "validator" -> index_of c' = Ok i' -> (i' <= i)%Z.

Lemma response_uri_spec run_id w u w' :
  _response_uri_for_run run_id w = (Ok (Some u), w') -> w' = w /\
  exists c, final_checkpoint run_id w c /\ dget "state_uri" VNone c = VStr u.
Proof.
  unfold _response_uri_for_run, checkpoints_for_run, records_of_run. intros H.
  apply eff_bind_Ok in H as (cs & w1 & Hc & H). unfold on_store, zoom in Hc. rewrite eff_gets in Hc. unfold lift in Hc.
  injection Hc as Hc <-. rewrite set_store_same in H. apply filterM_Ok in Hc as [_ Hc].
  assert (Hin : forall c, In c (List.filter (fun c => py_eq (dget "phase" VNone c) (VStr "validator")) cs) <->
    In c (runtime_checkpoints (w_store w)) /\ dget "run_id" VNone c = VStr run_id /\ dget "phase" VNone c = VStr "validator").
  { intros c. assert (Hrun : of_run run_id c = Ok true <-> dget "run_id" VNone c = VStr run_id).
    { unfold of_run, ditem, dget. destruct (od_get "run_id" c) as [v|]; [|by split; intros E; discriminate E].
      cbn. rewrite <- py_eq_str_r. split; [by intros [= E]|by intros ->]. }
    rewrite filter_In, Hc, Hrun, py_eq_str_r. tauto. }
  destruct (List.filter _ cs) as [|c1 cs'] eqn:Ef; [discriminate H|].
  apply eff_bind_Ok in H as (i & w2 & Hi & H). injection Hi as Hi <-.
  apply eff_bind_Ok in H as (b & w3 & Hb & H). injection Hb as Hb <-. injection H as Hu <-. split; [done|].
  apply latest_of_spec in Hb as (Hb & Hle & Hall). cbn [fst] in Hle.
  assert (Hbi : In b.2 (c1 :: cs') /\ index_of b.2 = Ok b.1) by (destruct Hb as [->|[H1 H2]]; [split; [by left|exact Hi]|by split; [right|]]).
  destruct Hbi as [Hbi Hbx]. apply Hin in Hbi as (H1 & H2 & H3). exists b.2. split.
  - split; [done|]. split; [done|]. split; [done|]. exists b.1. split; [done|]. intros c' i' Hc1 Hc2 Hc3 Hc4.
    assert (Hc' : In c' (c1 :: cs')) by (by apply Hin).
    destruct Hc' as [<-|Hc']; [|by eapply Hall]. unfold index_of in Hc4. rewrite Hi in Hc4. injection Hc4 as <-. exact Hle.
  - unfold as_text in Hu. destruct (dget "state_uri" VNone b.2); try done. congruence.
Qed.

Lemma response_payload_spec run_id w v w' :
  _response_payload_for_run artifacts json_loads run_id w = (Ok v, w') -> w' = w /\
  (v = VNone \/ exists c u d, final_checkpoint run_id w c /\ dget "state_uri" VNone c = VStr u /\ v = VDict d /\
     (read_json artifacts json_loads u (w_files w)).1 = Ok v).
Proof.
  unfold _response_payload_for_run. intros H. apply eff_bind_Ok in H as (o & w1 & Ho & H). destruct o as [u|].
  - apply response_uri_spec in Ho as (-> & c & Hc & Hu). apply eff_bind_Ok in H as (v1 & w2 & Hv & H).
    rewrite on_files_read in Hv. injection Hv as Hv <-. injection H as Hd <-. split; [done|].
    destruct v1; subst v; try (by left). right. eauto 8.
  - injection H as <- <-. split; [|by left]. exact (preserves_elim _ _ _ _ _ (response_uri_unchanged run_id) Ho).
Qed.
End reading.

(** A principal reads its own tenant's runs only. The status of a run is
    given exactly when the run is stored with all the fields of the summary and
    belongs to the principal's tenant and area, by a queue item of that run or by
    the profile the run was sealed under. A result is given for such a run once
    it has ended, and the response in it is the state of the run's last validator
    checkpoint. *)
Theorem api_reads_own_runs artifacts json_loads run_id p w :
  (forall out, (get_status artifacts json_loads run_id p w).1 = Ok out <->
     exists run s, od_get run_id (runtime_runs (w_store w)) = Some run /\
       belongs artifacts json_loads p run_id run w /\ _run_summary run = Ok s /\ out = status_response s) /\
  (forall out, (get_result artifacts json_loads run_id p w).1 = Ok out ->
     exists s result status response,
       (get_status artifacts json_loads run_id p w).1 = Ok (status_response s) /\
       dget "run" VNone out = VDict s /\ dget "result" VNone out = VDict result /\
       dget "status" VNone s = VStr status /\ In status ["succeeded"; "failed"; "cancelled"] /\
       dget "response" VNone result = response /\
       (response = VNone \/ exists c u d, final_checkpoint run_id w c /\ dget "state_uri" VNone c = VStr u /\
          response = VDict d /\ (read_json artifacts json_loads u (w_files w)).1 = Ok response)).
Proof.
  assert (Hst : forall out, (get_status artifacts json_loads run_id p w).1 = Ok out <->
    exists s, (run_status artifacts json_loads run_id p w).1 = Ok s /\ out = status_response s).
  { intros out. unfold get_status, mbind, eff_bind.
    destruct (run_status artifacts json_loads run_id p w) as [[s|e] w1]; cbn [fst mret eff_ret].
    - split; [intros [= <-]; eauto|by intros (? & [= ->] & ->)].
    - split; [done|by intros (? & ? & _)]. }
  split.
  - intros out. rewrite Hst. setoid_rewrite run_status_spec. naive_solver.
  - intros out H. destruct (get_result artifacts json_loads run_id p w) as [r w'] eqn:E. cbn [fst] in H. subst r.
    unfold get_result in E. apply eff_bind_Ok in E as (s & w1 & Hs & E).
    pose proof (preserves_elim _ _ _ _ _ (status_unchanged artifacts json_loads run_id p) Hs) as Hw. hnf in Hw. subst w1.
    apply eff_bind_Ok in E as (st & w2 & Hst' & E). injection Hst' as Hst' <-.
    apply eff_bind_Ok in E as (terminal & w2 & Ht & E). injection Ht as Ht <-.
    apply eff_bind_Ok in E as ([] & w2 & Hr & E). injection Hr as Hr <-.
    apply raise_if_Ok, negb_false_iff in Hr. subst terminal.
    apply eff_bind_Ok in E as (response & w2 & Hresp & E). apply response_payload_spec in Hresp as (-> & Hresp).
    apply eff_bind_Ok in E as (uri & w2 & _ & E). apply eff_bind_Ok in E as (events & w3 & _ & E).
    apply eff_bind_Ok in E as (checkpoints & w4 & _ & E). injection E as <- _.
    apply in_frozenset_Ok in Ht as (status & -> & Hin).
    eexists s, _, status, response. split; [apply Hst; exists s; by rewrite Hs|]. split; [done|]. split; [done|].
    split; [apply ditem_Ok in Hst'; unfold dget; by rewrite Hst'|]. split; [exact Hin|]. split; [done|]. exact Hresp.
Qed.

(** ** A principal's own run *)

(** The tenant and the area of a principal are identifiers, as the analyzer of
    a task would write them. *)
Definition identified_principal (p : RuntimeApiPrincipal) : Prop :=
  _slugify (principal_tenant p) = principal_tenant p /\ _slugify (principal_area p) = principal_area p.

Lemma slugify_not_empty s : _slugify s <> "".
Proof. intros E. pose proof (slugify_is_id s) as H. rewrite E in H. vm_compute in H. discriminate. Qed.

Lemma task_tenant_claims task p t : identified_principal p -> _assert_task_tenant task p = Ok tt -> analyze task = Ok t ->
  TaskAnalyzer.tenant_id (auth_claims t) = principal_tenant p /\ area_id (auth_claims t) = principal_area p.
Proof.
  intros [H1 H2] Ha Ht. unfold analyze in Ht. cbv zeta in Ht. apply bind_Ok in Ht as (claims & Hc & [= <-]). cbn [auth_claims].
  assert (exists context auth, dget "context" VNone task = VDict context /\ dget "auth" VNone context = VDict auth /\
    of_principal p auth = true) as (context & auth & E1 & E2 & Hp).
  { unfold _assert_task_tenant in Ha. apply raise_if_Ok, negb_false_iff in Ha.
    destruct (od_get "context" task) as [[| | | | |context]|] eqn:E1; unfold dget at 1 in Ha; rewrite E1 in Ha; try done.
    cbn [default] in Ha. destruct (od_get "auth" context) as [[| | | | |auth]|] eqn:E2; unfold dget in Ha; rewrite E2 in Ha; try done.
    exists context, auth. unfold dget. by rewrite E1, E2. }
  unfold _auth_claims in Hc. rewrite E1, E2 in Hc. cbn [as_mapping] in Hc.
  apply bind_Ok in Hc as (roles & _ & Hc). apply bind_Ok in Hc as (cp & _ & Hc). apply bind_Ok in Hc as (pol & _ & Hc).
  cbv zeta in Hc. apply bind_Ok in Hc as (ds & _ & Hc). apply bind_Ok in Hc as (caps & _ & [= <-]).
  apply andb_true_iff in Hp as [Hp1%py_eq_str_r Hp2%py_eq_str_r]. cbn [TaskAnalyzer.tenant_id area_id].
  assert (Hor : forall s d, _slugify s = s -> TaskAnalyzer.str_or (VStr s) d = s).
  { intros s d Hs. unfold TaskAnalyzer.str_or. cbn [truthy py_str]. destruct (String.eqb s "") eqn:E; [|done].
    apply String.eqb_eq in E as ->. by apply slugify_not_empty in Hs. }
  by rewrite Hp1, Hp2, !Hor.
Qed.

Section own_run.
Context {X : Type} `{!Services X}.
Context (artifacts : JsonArtifactStore) (clock : nat -> datetime) (json_loads : string -> res value)
        (sha256 : string -> string) (environment : string).

Lemma allocate_keeps_runs t field run : preserves (keeps Runs) (on_store (allocate_index t field run)).
Proof.
  apply on_store_keeps. unfold allocate_index. preserves_tac. apply (preserves_modify _). intros s. by destruct s, t.
Qed.
Lemma append_keeps_runs t r : preserves (s_keeps Runs) (append_record t r).
Proof. unfold append_record. preserves_tac. apply (preserves_modify _). intros s. by destruct s, t. Qed.
Hint Resolve allocate_keeps_runs append_keeps_runs : preserves.
Lemma insert_event_keeps_runs r : preserves (keeps Runs) (on_store (insert_runtime_event r)).
Proof. apply on_store_keeps. unfold insert_runtime_event. preserves_tac. Qed.
Lemma insert_checkpoint_keeps_runs r : preserves (keeps Runs) (on_store (insert_runtime_checkpoint r)).
Proof. apply on_store_keeps. unfold insert_runtime_checkpoint. preserves_tac. Qed.
Hint Resolve insert_event_keeps_runs insert_checkpoint_keeps_runs : preserves.

Lemma event_keeps_runs run ty actor e : preserves (keeps Runs) (record_event artifacts clock run ty actor e).
Proof.
  unfold record_event, _event_record, _write_event_payload, allocate_runtime_event_index. preserves_tac.
Qed.
Hint Resolve event_keeps_runs : preserves.
Lemma record_start_keeps_runs run_id t creq cresp p uri sha red :
  preserves (hkeeps (X := X) Runs) (record_start artifacts clock run_id t creq cresp p uri sha red).
Proof.
  assert (Hw : forall A (m : rt A), preserves (keeps Runs) m -> preserves (hkeeps (X := X) Runs) (host_world m)).
  { intros A m Hm. by apply (preserves_zoom _ (keeps Runs)). }
  unfold record_start, entry_event, checkpoint, allocate_runtime_checkpoint_index. preserves_tac; apply Hw; preserves_tac.
Qed.

(** What a start leaves behind: the run's record, which names the sealed
    profile, and the profile, which was composed for the analyzed task. *)
Lemma start_left task o (h h' : host X) sr : start artifacts clock sha256 environment task o h = (Ok sr, h') ->
  (exists t c, analyze task = Ok t /\ compose t c (so_generation o) (so_parent o) (so_reason o) = Ok (sr_profile sr)) /\
  exists run, od_get (sr_run_id sr) (runtime_runs (w_store (h_world h'))) = Some run /\
    dget "profile_artifact_uri" VNone run = VStr (EntryPoint.profile_uri sr) /\
    exists s, _run_summary run = Ok s /\ dget "id" VNone s = VStr (sr_run_id sr) /\ dget "status" VNone s = VStr "running".
Proof.
  unfold start. intros H. apply eff_bind_Ok in H as ([] & h1 & _ & H).
  apply eff_bind_Ok in H as (t & h2 & Ht & H). injection Ht as Ht _.
  cbv zeta in H. apply eff_bind_Ok in H as (c & h3 & _ & H).
  apply eff_bind_Ok in H as ([] & h4 & _ & H). apply eff_bind_Ok in H as (p & h5 & Hp & H). injection Hp as Hp _.
  apply eff_bind_Ok in H as ([uri digest] & h6 & _ & H). apply eff_bind_Ok in H as (g & h7 & Hg & H).
  injection Hg as _ <-. apply eff_bind_Ok in H as (run & h8 & Hr & H). apply eff_bind_Ok in H as (id & h9 & Hid & H).
  injection Hid as Hid <-. apply eff_bind_Ok in H as ([] & h10 & Hrec & H). injection H as <- <-.
  cbn [sr_profile EntryPoint.profile_uri sr_run_id fst snd] in *. split; [exists t, c; done|].
  exists run. pose proof (preserves_elim _ _ _ _ _ (record_start_keeps_runs _ _ _ _ _ _ _ _) Hrec) as Hk.
  unfold hkeeps, keeps in Hk. cbn [get_table] in Hk. rewrite Hk. clear Hk Hrec.
  unfold host_world, zoom in Hr. destruct (start_run _ _ _ _ _ _ _ (h_world h6)) as [r w] eqn:Es. injection Hr as -> <-.
  unfold start_run in Es. apply eff_bind_Ok in Es as ([] & w1 & _ & Es). cbv zeta in Es.
  apply eff_bind_Ok in Es as (i & w2 & _ & Es). apply eff_bind_Ok in Es as (version & w3 & _ & Es).
  apply eff_bind_Ok in Es as (started & w4 & _ & Es). unfold on_store, zoom, insert_runtime_run in Es.
  match type of Es with (let '(_, _) := insert_record Runs ?r0 _ in _) = _ => set (r := r0) in *; set (rid := or_str _ _) in r end.
  change (insert_record Runs r (w_store w4)) with (Ok (E := exn) r, set_table Runs (od_set rid r (get_table Runs (w_store w4))) (w_store w4)) in Es.
  injection Es as <- <-. assert (id = rid) as ->.
  { unfold ditem in Hid. cbn in Hid. injection Hid as <-. done. }
  cbn [h_world set_store w_store]. split.
  { change (runtime_runs (set_table Runs ?d ?s)) with (get_table Runs (set_table Runs d s)).
    by rewrite get_set_table, decide_True, od_get_set, String.eqb_refl. }
  split; [done|]. eexists. split; [reflexivity|]. done.
Qed.

(** A principal can follow its own run. When a principal named by
    identifiers starts a task that the service accepts from it, the status of the
    run is given to that principal at once, as running; and to no principal of
    another tenant or area, unless an item of its own names the same run. *)
Theorem own_run_readable task o p (h h' : host X) sr :
  start artifacts clock sha256 environment task o h = (Ok sr, h') ->
  small_strings (chunk_string_threshold_bytes artifacts) (VDict (sr_profile sr)) = true ->
  _assert_task_tenant task p = Ok tt -> identified_principal p ->
  (exists s, (get_status artifacts json_loads (sr_run_id sr) p (h_world h')).1 = Ok (status_response s) /\
     dget "id" VNone s = VStr (sr_run_id sr) /\ dget "status" VNone s = VStr "running") /\
  forall p', (principal_tenant p', principal_area p') <> (principal_tenant p, principal_area p) ->
    (forall item, In item (od_values (hitems h')) -> py_eq (dget "run_id" VNone item) (VStr (sr_run_id sr)) = true ->
       of_principal p' item = false) ->
    exists e, (get_status artifacts json_loads (sr_run_id sr) p' (h_world h')).1 = Raise e.
Proof.
  intros H Hsmall Ha Hp. destruct (start_left task o h h' sr H) as ((t & c & Ht & Hc) & run & Hrun & Huri & s & Hs & Hid & Hst).
  destruct (start_sealed artifacts clock json_loads sha256 environment _ _ _ _ _ H Hsmall) as [Hread _].
  destruct (task_tenant_claims _ _ _ Hp Ha Ht) as [Ht1 Ht2].
  assert (exists d tc, stored_json (VDict (sr_profile sr)) = VDict d /\ dget "tenant_context" VNone d = VDict tc /\
    forall q, of_principal q tc = true <-> (principal_tenant q, principal_area q) = (principal_tenant p, principal_area p))
    as (d & tc & Ed & Etc & Hof).
  { apply compose_composed in Hc as [_ _ (ps & m & a & hr & roles & pins & fp & _ & _ & _ & _ & _ & _ & Ep)].
    destruct (stored_field (sr_profile sr) "tenant_context" (VDict (_tenant_context t))) as (d & Ed & Hd).
    { rewrite Ep. refine (bool_decide_eq_true_1 (NoDup _) _). vm_compute. reflexivity. }
    { by rewrite Ep. }
    destruct (stored_field (_tenant_context t) "tenant_id" (VStr (principal_tenant p))) as (tc & Etc & Hd1).
    { refine (bool_decide_eq_true_1 (NoDup _) _). vm_compute. reflexivity. }
    { by rewrite <- Ht1. }
    destruct (stored_field (_tenant_context t) "area_id" (VStr (principal_area p))) as (tc' & Etc' & Hd2).
    { refine (bool_decide_eq_true_1 (NoDup _) _). vm_compute. reflexivity. }
    { by rewrite <- Ht2. }
    rewrite Etc in Etc', Hd. injection Etc' as <-. exists d, tc. split; [done|]. unfold dget at 1. rewrite Hd. split; [done|].
    intros q. unfold of_principal, dget. rewrite Hd1, Hd2. cbn [default stored_json].
    rewrite andb_true_iff, !py_eq_str_r. split; [by intros [[= ->] [= ->]]|by intros [= -> ->]]. }
  rewrite Ed in Hread. split.
  - exists s. split; [|by split]. unfold get_status, mbind, eff_bind.
    assert (Hb : belongs artifacts json_loads p (sr_run_id sr) run (h_world h')).
    { right. exists (EntryPoint.profile_uri sr), d, tc. split; [done|]. split; [done|]. split; [done|]. by apply Hof. }
    assert (Hr : (run_status artifacts json_loads (sr_run_id sr) p (h_world h')).1 = Ok s) by (apply run_status_spec; eauto).
    destruct (run_status artifacts json_loads (sr_run_id sr) p (h_world h')) as [r w]. cbn [fst] in *. by subst r.
  - intros p' Hne Hq. unfold get_status, mbind, eff_bind.
    pose proof (run_status_spec artifacts json_loads (sr_run_id sr) p' (h_world h')) as Hr.
    destruct (run_status artifacts json_loads (sr_run_id sr) p' (h_world h')) as [[s'|e] w]; cbn [fst] in *; [|by exists e].
    destruct (Hr s') as [Hr' _]. destruct (Hr' eq_refl) as (run' & Hrun' & Hb & _). rewrite Hrun in Hrun'. injection Hrun' as <-.
    exfalso. destruct Hb as [(item & Hin & He & Hi)|(u & d' & tc' & Hu & Hd' & Htc' & Hi)].
    + by rewrite Hq in Hi.
    + rewrite Huri in Hu. injection Hu as <-. rewrite Hread in Hd'. injection Hd' as <-. rewrite Etc in Htc'.
      injection Htc' as <-. apply Hof in Hi. done.
Qed.
End own_run.

(** ** Clients *)

Definition ann : RuntimeApiPrincipal := mkPrincipal "ann" "acme" "lab" ["reviewer"].
Definition eve : RuntimeApiPrincipal := mkPrincipal "eve" "rival" "lab" ["reviewer"].
Definition api_task (tenant objective : string) : odict value :=
  [("id", VStr "task-1"); ("objective", VStr objective);
   ("context", VDict [("auth", VDict [("tenant_id", VStr tenant); ("area_id", VStr "lab")])])].
Definition api_start (tenant objective : string) : api_call :=
  Start [("task", VDict (api_task tenant objective)); ("idempotency_key", VStr "nightly")].
Definition api_call_on (c : api_call) (p : RuntimeApiPrincipal) (h : host nat) : result loop_exn (odict value) * host nat :=
  do_call (Services0 := demo_services) demo_artifacts demo_clock demo_loads demo_sha256 demo_registry
    default_queue_config c p h.
Definition api_empty : host nat := mkHost (mkWorld empty_store ∅ 0) 0%nat.
Definition after_ann : host nat := (api_call_on (api_start "acme" "List files") ann api_empty).2.

Lemma ann_filed : filed (hitems after_ann).
Proof.
  refine (proj1 (start_isolates (Services0 := demo_services) demo_artifacts demo_clock demo_loads demo_sha256 demo_registry
    default_queue_config [("task", VDict (api_task "acme" "List files")); ("idempotency_key", VStr "nightly")] ann api_empty _)).
  split; [constructor|done].
Qed.

Lemma ann_queued : exists r, od_get "queue-nightly" (hitems after_ann) = Some r /\ of_principal eve r = false /\
  od_get "idempotency_key" r = Some (VStr "nightly").
Proof. eexists. split; [vm_compute; reflexivity|]. by split; vm_compute. Qed.

(** Another tenant that starts a task under the same idempotency key is answered
    with the first tenant's queue item, and the task stored for that item is now
    its own: the queue item is unchanged, the file it names is not. *)
Example foreign_key_replaces_task :
  let '(r, h) := api_call_on (api_start "rival" "Delete the files") eve after_ann in
  (match r with Ok out => dget "queue_item" VNone out | Raise _ => VNone end)
  = (match od_get "queue-nightly" (hitems after_ann) with
     | Some item => match _queue_summary item with Ok s => VDict s | Raise _ => VNone end | None => VNone end) /\
  match od_get "queue-nightly" (hitems h) with
  | Some item => (load_task demo_artifacts demo_loads item (h_world h)).1
                 = Ok (match stored_json (VDict (api_task "rival" "Delete the files")) with VDict d => d | _ => [] end)
  | None => False
  end.
Proof. vm_compute. by split. Qed.

(** The tenant is compared as it is written and used as a slug: a principal of a
    tenant spelled otherwise queues work for the tenant with that slug. *)
Example spelled_tenant_accepted :
  let p := mkPrincipal "eve" "Acme!" "lab" [] in
  match od_get "queue-nightly" (hitems (api_call_on (api_start "Acme!" "List files") p api_empty).2) with
  | Some item => dget "tenant_id" VNone item = VStr "acme" /\ of_principal p item = false /\ of_principal ann item = true
  | None => False
  end.
Proof. vm_compute. by repeat split. Qed.

Lemma api_isolates_tenants_witness :
  let h' := (api_call_on (Cancel "queue-nightly") eve after_ann).2 in
  filed (hitems h') /\ exists r, od_get "queue-nightly" (hitems after_ann) = Some r /\
    (od_get "queue-nightly" (hitems h') = Some r \/ displaced (hitems after_ann) (hitems h') "queue-nightly" r).
Proof.
  destruct ann_queued as (r & Hr & Hp & Hk).
  destruct (api_isolates_tenants (Services0 := demo_services) demo_artifacts demo_clock demo_loads demo_sha256 demo_registry
    default_queue_config (Cancel "queue-nightly") eve after_ann ann_filed) as (Hf & H & _).
  split; [exact Hf|]. exists r. split; [exact Hr|]. exact (H "queue-nightly" r Hr Hp).
Defined.

Lemma own_run_readable_witness :
  exists s, (get_status demo_gateway_store demo_loads (sr_run_id (started demo_response)) ann
               (h_world (demo_start demo_response).2)).1 = Ok (status_response s) /\
    dget "status" VNone s = VStr "running".
Proof.
  assert (Hok : start (Services0 := demo_services) demo_gateway_store LoopCorrect.demo_clock demo_sha256 "development"
    review_task (initial_start (Some demo_response) None) (mkHost (mkWorld empty_store ∅ 0) 0%nat)
    = (Ok (started demo_response), (demo_start demo_response).2)).
  { fold (demo_start demo_response). assert (Hok : is_ok (demo_start demo_response).1 = true) by (vm_compute; reflexivity).
    unfold started. destruct (demo_start demo_response) as [[sr|e] h']; [reflexivity|discriminate Hok]. }
  destruct (own_run_readable (Services0 := demo_services) demo_gateway_store LoopCorrect.demo_clock demo_loads demo_sha256
    "development" review_task (initial_start (Some demo_response) None) ann _ _ _ Hok) as [(s & H & _ & Hs) _].
  - vm_compute. reflexivity.
  - vm_compute. reflexivity.
  - split; vm_compute; reflexivity.
  - exists s. split; [exact H|exact Hs].
Defined.
